(* ===== verification/_CoqProject ===== *)
-Q . S2P
Prelude.v
Config.v
CMem.v
Heap.v
HeapSpec.v
Kheap.v
AllocSpans.v
Paging.v
PagingSpec.v
AddressSpace.v
CString.v
PathParser.v
PathParserSpec.v
Keyboard.v
KeyboardSpec.v
Disk.v
Streamer.v
AtaDevice.v
Vfs.v
VfsSpec.v
Fat16.v
FatChain.v
Fat16Spec.v
Fat16Names.v
Fat32.v
Fat32Spec.v
FatDirs.v
FatMount.v
FatDirsSpec.v
FatMountSpec.v
Clock.v
UserString.v
UserCommand.v
UserStdio.v
UserRuntime.v
UserPrograms.v
UserProgramsSpec.v
ShellSpec.v
SetupSpec.v
FileRefines.v
Gdt.v
Terminal.v
Vbe.v
TerminalSpec.v
Power.v
PowerSpec.v
Sound.v
Screen.v
ScreenSpec.v
Elf.v
Task.v
TaskSpec.v
Process.v
Directory.v
ProcessSpec.v
ProcessMemory.v
ProcessLife.v
ProcessLoad.v
ProcessArgs.v
Exceptions.v
UserMem.v
UserMemSpec.v
Syscalls.v
SyscallsSpec.v
FileCallsSpec.v
CommandSpec.v
Interrupts.v
Kernel.v
