(* ===== verification/Prelude.v ===== *)
(** * A verification development of the SerpaeOS kernel and its programs

    SerpaeOS is a 32-bit x86 operating system in C: a kernel (src/src/) and the
    library and programs that run on it (src/src/programs/).  This library
    translates both into functions on explicit states and proves what makes
    each part correct; where the code misbehaves, a theorem says how.

    ** The program and its parts

    The kernel boots (kernel.c) into a text terminal (graphics.c), loads its
    segment table (gdt.c), builds a heap out of a table of block entries
    (heap.c, kheap.c) and identity-mapped address spaces out of that heap
    (paging.c).  An ATA driver (disk.c) and byte streams on it (streamer.c)
    carry the two FAT file systems (fs/fat/, fs/fat32/), which the virtual file
    system (file.c) finds through a path parser (pparser.c).  Programs are ELF
    files (elfloader.c) that processes (process.c) load, map and give memory,
    arguments, files and a screen; their tasks run under a round-robin
    scheduler (task.c), and they read keys (keyboard.c, classic.c) from ring
    buffers.  They call the kernel through one interrupt (idt.c, isr80h/), which
    reaches files, memory, processes, the clock (time.c), the speaker (sound.c)
    and the power off registers that ACPI tables name (power.c).  In user space
    a library (programs/stdlib/) wraps those calls, splits command lines,
    formats text and runs exit handlers, and the programs (the shell, an editor,
    a viewer, the password prompt, the update program and others) are written on
    it.

    ** The files, in dependency order

    - [Prelude]: outcomes of C code ([Ret], [Oob] for an access outside an
      object, [Panic], [OutOfFuel]), stateful commands, machine integers with
      their wrap-around, arrays with bounds, little-endian fields, tactics and
      the shared lemmas.  [Config]: the constants of config.h, status.h and
      file.h.  [CMem], [CString]: memory.c, string.c.
    - [Heap], [HeapSpec], [Kheap], [AllocSpans]: heap.c and kheap.c.  The
      specification is a finite map from first blocks to sizes; the class
      [Allocator] with its laws [AllocatorOk] is what every client is proved
      against, and the kernel heap is an instance.  [AllocSpans] adds the
      extents of allocations ([AllocatorSpans]) and what happens to a pointer
      into the middle of one ([AllocatorInterior]).
    - [Paging], [PagingSpec], [AddressSpace]: paging.c over any allocator.
    - [PathParser], [PathParserSpec]: pparser.c, parts as heap objects.
    - [Keyboard], [KeyboardSpec]: the ring buffer of a process, the translation
      of scan codes and the interrupt handler.
    - [Disk], [Streamer], [AtaDevice]: the port I/O of disk.c against the class
      [Ports] of what answers on the ports, streams against the class of block
      devices, and a device with sectors and a register file that implements it.
    - [Vfs], [VfsSpec]: file.c with drivers as records of operations.
    - [Fat16], [Fat16Names], [Fat32]: below the directories, the allocation
      tables, chains and file contents of fat16.c, fat16_write.c and fat32.c,
      and the 8.3 names.  [FatChain]: chains as a predicate on a table, which
      [Fat16Spec] and [Fat32Spec] share.
    - [FatDirs]: directories, lookup, open files, writing and deletion.  The
      two drivers have the same code here, so it is written once, over the
      class [FatVolume] of what differs; [FatMount] has the two instances, the
      recognition of a disk, the creation of files and the driver tables that
      [Vfs] calls.  [FatDirsSpec] and [FatMountSpec] have their theorems.
    - [Clock]: time.c, with the chip behind the ports.
    - [UserString], [UserCommand], [UserStdio]: string.c, the command lines of
      serpaeos.c, and the input, output and formatting of stdio.c in the user
      library.  [UserRuntime]: the rest of it (memory.c, errno.c, exit handlers,
      start-up, files, scanf), over the class [SystemCalls] of what the kernel
      answers.  [UserPrograms]: the programs; [UserProgramsSpec]: their theorems,
      over the class [FilesOk] of what the kernel promises about files, and
      [SectorsOk] of which sectors a process may write;
      [ShellSpec]: the shell, from the keys to the system call; [SetupSpec]: the
      configuration, from the program that writes it to the one that reads it.
      [FileRefines]: an open FAT16 file as the sequence of bytes that [FilesOk]
      speaks of.
    - [Gdt]: gdt.c.  [Terminal], [TerminalSpec]: the text mode of graphics.c;
      [Vbe]: its graphics mode.  [Power], [PowerSpec]: power.c over physical
      memory and ports.  [Sound]: sound.c.  [Screen], [ScreenSpec]: the screens
      of processes that are not visible.  [Elf]: elfloader.c on the virtual file
      system.  [Task], [TaskSpec]: task.c.
    - [Process]: process.c, with the theorems in [ProcessSpec] (shared lemmas),
      [ProcessMemory], [ProcessLife], [ProcessLoad] and [ProcessArgs].
      [Directory]: show_directory and hide_directory.  [Exceptions]: what idt.c
      does when a program faults.
    - [UserMem], [UserMemSpec]: how the kernel copies strings and items between
      the memory of a task and its own (task.c).  [Syscalls], [SyscallsSpec]:
      the handlers of isr80h/, on the state of the whole kernel.
      [FileCallsSpec]: the calls on files, from the gate to the disk and back;
      the requests that [FilesOk] promises are among those they serve.
      [CommandSpec]: a command line, from the program that splits it to the
      arguments of the one it starts.  [Interrupts]: the gates, callbacks and
      dispatch of idt.c.
    - [Kernel]: kernel.c, the order in which all of this is started.

    A pointer is a [Z] and 0 is null; heap objects live in finite maps by
    address, and releasing one takes it out, so a use after free is [Oob].
    Strings and buffers are the lists of bytes that can be reached from a
    pointer.  A C function that changes state is a [cmd], a function from a
    state to an outcome with the new state; each keeps the name it has in the
    source (the shared FAT functions have the prefix fat_ for fat16_).  An array
    that a program leaves uninitialised has the bytes of a parameter.

    ** What the theorems show

    Refinement: the heap implements finite maps ([heap_malloc_refines],
    [heap_free_refines]), the keyboard ring a bounded queue
    ([ring_refines_queue]), the descriptor table a partial map
    ([fclose_refines], [fopen_opens]), the system calls on a file the file that
    programs see ([file_calls_refine]), the terminal a linear screen
    ([print_refines]), and a hidden screen shows what a visible one would
    ([hidden_print_shown]).  Invariants: every heap that can be reached is well
    formed ([heap_reachable_safe]), and keys stay bytes inside their buffer
    whatever is typed ([keyboard_events_typed]).  Round trips: allocate and free,
    parse and print, number and text, streams, segment descriptors, switching
    processes, going to the directory screen and back ([directory_roundtrip]), and
    the password that is set up and asked for ([new_usr_then_pr]).

    Functional behaviour of the kernel: address spaces are built, mapped,
    translated and freed without a leak; a file is read through the virtual file
    system, the driver, the chain and the stream to its bytes
    ([fread_fat16_correct], for what lies below 2 GB); a path of one component finds its entry
    ([root_lookup_correct]); a closed file gives everything back
    ([fat_close_releases]); FAT16 chains grow by the lowest free cluster that the
    search looks at ([add_cluster_grows]) and are erased; tasks are appended
    and take turns, and a full turn resumes each one with the registers it had, all
    but the flags, which are the kernel's ([context_switch_roundtrip]); a program's segments are mapped where its file
    says and its arguments reach its memory; the blocks of processes, of one
    byte or more, are disjoint ([process_memory_isolated]), while a block of no
    bytes is shared ([malloc_zero_shared]); a fault in a thread takes only that thread
    ([thread_fault_contained]); printing and allocating through system calls
    ([print_syscall], [malloc_syscall]) change what they say and nothing else, and
    privileged calls do nothing for other processes ([unprivileged_refused]); a
    reading of the clock is never torn when an uninitialised variable happens to
    hold the century, and never ends when it does not ([rtc_read_never_torn]);
    powering off fails on firmware whose tables are as documented, since their
    fields are read four bytes behind their places, and would write the right
    registers on others ([init_acpi_poweroff]), and a damaged table is noticed ([acpi_corruption_detected]); the kernel boots
    with its tables in place ([boot_tables_correct]) and starts the set-up program
    exactly when there is no configuration ([first_program_chosen]).

    Functional behaviour in user space: strtok gives the maximal tokens
    ([strtok_splits]), a command line becomes the list of its words
    ([parse_command_spec]), printf prints its format
    ([printf_correct]), gets edits a line ([gets_edits_line]), exit handlers run
    in reverse ([exit_runs_registered]), the shell hands the words of a typed
    line to the kernel ([shell_runs_line]), which reads them and gives them to
    the new process ([command_line_delivered]), the password prompt starts the program
    only for the password ([pr_password_gate]), the update program writes the
    image to the first sectors of the disk as far as it may
    ([sosupdt_copies_image]), and fapp appends what
    is typed ([fapp_appends_typed]).

    Errors and flaws: updating an entry of the root directory frees the mounted
    volume ([root_update_releases_volume]), deleted entries hide others, a write
    at a cluster boundary is lost, a missing directory is followed through null,
    a refused disk leaks three streams, FAT32 chains cannot grow and are erased
    past their end, a process frees null pointers when it ends and is used after
    it was freed, a system call shows kernel memory to any program
    ([process_inf_exposes_kernel]), hours after noon are wrong
    ([clock_hour_right_iff]), and rm passes bytes nobody wrote
    ([rm_prefixes_garbage]).

    ** Fuel and bounds

    Loops with a counter recurse on it.  Loops that follow pointers or disk
    chains take fuel; the theorems give the amount that is enough (the length
    of the chain, of the run order, of the string, of the directory) and never
    assume that the loop returns.  The loop that waits for the clock is given
    three turns and the time an update takes; those that wait for keys, one more
    than the number of keys that are left, which is exact, since a program that
    asks for more waits for ever ([getchar_waits]).  The words of a command line
    are counted by its length.  Integers wrap where the C types do; theorems that
    need a range state it.  A position on a disk is an int: the theorems on streams
    and volumes are about the bytes below 2 GB, on disks of any size; a cluster
    behind them has a negative position ([far_cluster_negative]).

    ** What is not modelled

    Assembly (boot, mode switches, port instructions, the stubs that raise the
    system call interrupt), the conversion of decimal fractions (atof, a
    parameter), and files with nothing but stubs (PCI, ISO 9660).  Concurrency
    is absent: interrupts are handled with interrupts off.  The time of day is
    an argument of the operations that store it.

    ** What would come next

    The components are modelled; what is left is composition.  The call that
    starts a program is there in three parts, the arguments ([CommandSpec]), the
    load of the segments ([ProcessLoad]) and the switch ([TaskSpec]), which no
    single theorem joins.  Writing to a file through a system call is modelled and
    has no theorem from the gate on, as reading has, since the driver's write has
    the flaws listed above.  The pages of the viewer have definitions only. *)
From Stdlib Require Export ZArith Lia.
From stdpp Require Export base tactics numbers option gmap list.
#[global] Open Scope Z_scope.

(** ** Outcomes of C code

    [Ret a] is a normal return.  [Oob] is an access outside the object a
    pointer refers to (undefined behaviour in C; the kernel would silently
    touch unrelated memory).  [Panic] is the kernel's [panic()], which never
    returns.  [OutOfFuel] marks a loop that was still running when the
    model's fuel was used up. *)
Inductive outcome (A : Type) : Type :=
| Ret (a : A)
| Oob
| Panic
| OutOfFuel.
Arguments Ret {A} _.
Arguments Oob {A}.
Arguments Panic {A}.
Arguments OutOfFuel {A}.

#[global] Instance outcome_ret : MRet outcome := @Ret.
#[global] Instance outcome_bind : MBind outcome := fun A B f m =>
  match m with
  | Ret a => f a
  | Oob => Oob
  | Panic => Panic
  | OutOfFuel => OutOfFuel
  end.

#[global] Instance outcome_eq_dec `{EqDecision A} : EqDecision (outcome A).
Proof. solve_decision. Defined.

(** Stateful code: explicit state passing over [outcome]. *)
Definition cmd (S A : Type) : Type := S -> outcome (A * S).

#[global] Instance cmd_ret (S : Type) : MRet (cmd S) := fun A a s => Ret (a, s).
#[global] Instance cmd_bind (S : Type) : MBind (cmd S) := fun A B f m s =>
  match m s with
  | Ret (a, s') => f a s'
  | Oob => Oob
  | Panic => Panic
  | OutOfFuel => OutOfFuel
  end.

Definition getS {S : Type} : cmd S S := fun s => Ret (s, s).
Definition putS {S : Type} (s : S) : cmd S unit := fun _ => Ret (tt, s).
Definition gets {S A : Type} (f : S -> A) : cmd S A := fun s => Ret (f s, s).
Definition modifyS {S : Type} (f : S -> S) : cmd S unit := fun s => Ret (tt, f s).
Definition liftO {S A : Type} (o : outcome A) : cmd S A := fun s =>
  match o with
  | Ret a => Ret (a, s)
  | Oob => Oob
  | Panic => Panic
  | OutOfFuel => OutOfFuel
  end.

(** ** Machine integers: a [w]-bit value is a [Z] and every wrap is written out *)
Definition u8 (z : Z) : Z := z mod 256.
Definition u16 (z : Z) : Z := z mod 65536.
Definition u32 (z : Z) : Z := z mod 4294967296.
Definition s8 (z : Z) : Z := (z + 128) mod 256 - 128.
Definition s16 (z : Z) : Z := (z + 32768) mod 65536 - 32768.
Definition s32 (z : Z) : Z := (z + 2147483648) mod 4294967296 - 2147483648.

(** The truth value of a C condition, and the value of a C comparison. *)
Definition c_true (z : Z) : bool := negb (z =? 0).
Definition c_bool (b : bool) : Z := if b then 1 else 0.

(** [ISERR] of status.h, applied to a pointer-sized value. *)
Definition ISERR (v : Z) : bool := s32 v <? 0.

(** ** Arrays: reads and writes through an index, with the bounds the C object has *)
Definition load {A} (l : list A) (i : Z) : outcome A :=
  if 0 <=? i then match l !! Z.to_nat i with Some x => Ret x | None => Oob end
  else Oob.

Definition store {A} (l : list A) (i : Z) (x : A) : outcome (list A) :=
  if (0 <=? i) && (i <? Z.of_nat (length l)) then Ret (<[Z.to_nat i := x]> l)
  else Oob.

(** [for (i = i0; i < i0 + n; i++) l[i] = f(i);] *)
Fixpoint store_loop {A} (f : Z -> A) (n : nat) (l : list A) (i : Z) : outcome (list A) :=
  match n with
  | O => Ret l
  | S n => l ← store l i (f i); store_loop f n l (i + 1)
  end.

(** ** Little-endian fields of packed structs *)
Fixpoint le_combine (l : list Z) : Z :=
  match l with
  | [] => 0
  | b :: t => b + 256 * le_combine t
  end.

Fixpoint le_split (n : nat) (w : Z) : list Z :=
  match n with
  | O => []
  | S n => (w mod 256) :: le_split n (w / 256)
  end.

Definition is_byte (b : Z) : Prop := 0 <= b < 256.
Definition bytes (l : list Z) : Prop := Forall is_byte l.

#[global] Instance is_byte_dec b : Decision (is_byte b).
Proof. unfold is_byte. apply _. Defined.
#[global] Instance bytes_dec l : Decision (bytes l).
Proof. unfold bytes. apply _. Defined.

(** ** Tactics *)

(** Linear arithmetic with division and remainder by constants. *)
Ltac zlia := Z.to_euclidean_division_equations; lia.

(** Case split on every boolean test in the goal, turning it into a fact. *)
Ltac bcase :=
  match goal with
  | |- context [if ?b then _ else _] =>
      let H := fresh "Hb" in destruct b eqn:H
  end.

Ltac breflect :=
  repeat match goal with
  | H : (_ && _) = true |- _ => apply andb_true_iff in H; destruct H
  | H : (_ || _) = false |- _ => apply orb_false_iff in H; destruct H
  | H : negb _ = true |- _ => apply negb_true_iff in H
  | H : negb _ = false |- _ => apply negb_false_iff in H
  | H : (_ =? _) = true |- _ => apply Z.eqb_eq in H
  | H : (_ =? _) = false |- _ => apply Z.eqb_neq in H
  | H : (_ <? _) = true |- _ => apply Z.ltb_lt in H
  | H : (_ <? _) = false |- _ => apply Z.ltb_ge in H
  | H : (_ <=? _) = true |- _ => apply Z.leb_le in H
  | H : (_ <=? _) = false |- _ => apply Z.leb_gt in H
  end.

(** Peel a successful bind in a hypothesis. *)
Ltac ret_inv :=
  repeat match goal with
  | H : Ret _ = Ret _ |- _ => injection H as H; subst
  | H : Oob = Ret _ |- _ => discriminate H
  | H : Panic = Ret _ |- _ => discriminate H
  | H : OutOfFuel = Ret _ |- _ => discriminate H
  | H : (_, _) = (_, _) |- _ => injection H as H; subst
  | H : (?m ≫= _) = Ret _ |- _ =>
      let E := fresh "E" in destruct m eqn:E; simpl in H
  end.

(** ** Running stateful code one command at a time *)
Lemma bind_Ret {S A B} (m : cmd S A) (f : A -> cmd S B) s a s' :
  m s = Ret (a, s') -> (m ≫= f) s = f a s'.
Proof. intros E. unfold mbind, cmd_bind. by rewrite E. Qed.

Lemma bind_liftO {S A B} (o : outcome A) (f : A -> cmd S B) s a :
  o = Ret a -> (liftO o ≫= f) s = f a s.
Proof. by intros ->. Qed.

Lemma bind_getS {S B} (f : S -> cmd S B) s : (getS ≫= f) s = f s s.
Proof. done. Qed.

Lemma bind_modifyS {S B} (g : S -> S) (f : unit -> cmd S B) s : (modifyS g ≫= f) s = f tt (g s).
Proof. done. Qed.

Lemma bind_mret {S A B} (a : A) (f : A -> cmd S B) s : (mret a ≫= f) s = f a s.
Proof. done. Qed.

(** Rewrite with the result [E] of the first command of the goal. *)
Ltac step E := rewrite (bind_Ret _ _ _ _ _ E).

(** ** The hint database of the development *)
Create HintDb serpae discriminated.

(** ** Machine integer lemmas *)
Lemma u8_range z : 0 <= u8 z < 256.
Proof. unfold u8. zlia. Qed.
Lemma u16_range z : 0 <= u16 z < 65536.
Proof. unfold u16. zlia. Qed.
Lemma u32_range z : 0 <= u32 z < 4294967296.
Proof. unfold u32. zlia. Qed.
Lemma s32_range z : -2147483648 <= s32 z < 2147483648.
Proof. unfold s32. zlia. Qed.
Lemma u8_id z : 0 <= z < 256 -> u8 z = z.
Proof. intros. unfold u8. zlia. Qed.
Lemma u16_id z : 0 <= z < 65536 -> u16 z = z.
Proof. intros. unfold u16. zlia. Qed.
Lemma u32_id z : 0 <= z < 4294967296 -> u32 z = z.
Proof. intros. unfold u32. zlia. Qed.
Lemma s32_id z : -2147483648 <= z < 2147483648 -> s32 z = z.
Proof. intros. unfold s32. zlia. Qed.
#[export] Hint Resolve u8_range u16_range u32_range s32_range : serpae.

(** ** Array lemmas *)
Lemma load_Some {A} (l : list A) i x :
  0 <= i -> l !! Z.to_nat i = Some x -> load l i = Ret x.
Proof. intros Hi Hl. unfold load. rewrite (proj2 (Z.leb_le _ _) Hi), Hl. done. Qed.

Lemma load_inv {A} (l : list A) i x :
  load l i = Ret x -> 0 <= i < Z.of_nat (length l) /\ l !! Z.to_nat i = Some x.
Proof.
  unfold load. destruct (0 <=? i) eqn:Hi; [|done]. breflect.
  destruct (l !! Z.to_nat i) eqn:Hl; [|done]. intros [= ->].
  apply lookup_lt_Some in Hl as Hlt. split; [lia|done].
Qed.

Lemma load_in_bounds {A} (l : list A) i :
  0 <= i < Z.of_nat (length l) -> exists x, load l i = Ret x.
Proof.
  intros Hi. destruct (lookup_lt_is_Some_2 l (Z.to_nat i)) as [x Hx]; [lia|].
  exists x. apply load_Some; [lia|done].
Qed.

Lemma store_Ret {A} (l : list A) i x :
  0 <= i < Z.of_nat (length l) -> store l i x = Ret (<[Z.to_nat i := x]> l).
Proof.
  intros [H1 H2]. unfold store.
  rewrite (proj2 (Z.leb_le _ _) H1), (proj2 (Z.ltb_lt _ _) H2). done.
Qed.

Lemma store_oob {A} (l : list A) i x :
  ~ (0 <= i < Z.of_nat (length l)) -> store l i x = Oob.
Proof.
  intros H. unfold store. destruct (0 <=? i) eqn:H1; [|done].
  destruct (i <? Z.of_nat (length l)) eqn:H2; [|done]. breflect. lia.
Qed.

Lemma load_oob {A} (l : list A) i :
  ~ (0 <= i < Z.of_nat (length l)) -> load l i = Oob.
Proof.
  intros H. unfold load. destruct (0 <=? i) eqn:H1; [|done]. breflect.
  rewrite lookup_ge_None_2; [done|lia].
Qed.

Lemma store_inv {A} (l l' : list A) i x :
  store l i x = Ret l' ->
  0 <= i < Z.of_nat (length l) /\ l' = <[Z.to_nat i := x]> l.
Proof.
  unfold store. destruct ((0 <=? i) && (i <? Z.of_nat (length l))) eqn:H; [|done].
  intros [= <-]. breflect. done.
Qed.

Lemma store_loop_spec {A} (f : Z -> A) n l i :
  0 <= i -> i + Z.of_nat n <= Z.of_nat (length l) ->
  exists l', store_loop f n l i = Ret l' /\ length l' = length l /\
    forall j, l' !! j = if decide (i <= Z.of_nat j < i + Z.of_nat n)
                        then Some (f (Z.of_nat j)) else l !! j.
Proof.
  revert l i. induction n as [|n IH]; intros l i Hi Hn.
  { exists l. split_and!; [done..|]. intros j. by rewrite decide_False by lia. }
  simpl. rewrite store_Ret by lia. simpl.
  destruct (IH (<[Z.to_nat i := f i]> l) (i + 1)) as (l' & -> & Hl & Hj);
    [lia|rewrite length_insert; lia|].
  rewrite length_insert in Hl. exists l'. split_and!; [done..|]. intros j. rewrite Hj.
  destruct (decide (Z.of_nat j = i)) as [<-|Hne].
  - rewrite decide_False, decide_True, Nat2Z.id by lia. apply list_lookup_insert_eq. lia.
  - rewrite list_lookup_insert_ne by lia. by do 2 case_decide; try lia.
Qed.

(** ** Bit fields that do not overlap *)
Lemma lor_low n a f : 0 <= n -> 0 <= f < 2 ^ n -> Z.lor (a * 2 ^ n) f = a * 2 ^ n + f.
Proof.
  intros Hn Hf. rewrite <- Z.shiftl_mul_pow2 by lia.
  symmetry.
  rewrite <- Z.lxor_lor; [apply Z.add_nocarry_lxor|].
  all: apply Z.bits_inj'; intros m Hm; rewrite Z.land_spec, Z.bits_0.
  all: destruct (decide (m < n)); [by rewrite Z.shiftl_spec_low by lia|].
  all: rewrite <- (Z.mod_small f (2 ^ n)) by done; rewrite Z.mod_pow2_bits_high by lia.
  all: apply andb_false_r.
Qed.

Lemma lor_page a f : 0 <= f < 4096 -> Z.lor (a * 4096) f = a * 4096 + f.
Proof. apply (lor_low 12). lia. Qed.

(** [x & 0xfffff000] is the page of a 32-bit value. *)
Lemma land_page x : 0 <= x < 4294967296 -> Z.land x 0xfffff000 = x / 4096 * 4096.
Proof.
  intros Hx. change 0xfffff000 with (Z.ldiff (Z.ones 32) (Z.ones 12)).
  replace (Z.land x (Z.ldiff (Z.ones 32) (Z.ones 12)))
    with (Z.ldiff (Z.land x (Z.ones 32)) (Z.ones 12)).
  - rewrite Z.land_ones, Z.mod_small by (done || lia).
    rewrite Z.ldiff_ones_r, Z.shiftl_mul_pow2, Z.shiftr_div_pow2 by lia. done.
  - apply Z.bits_inj'. intros n Hn. rewrite Z.ldiff_spec, !Z.land_spec, Z.ldiff_spec.
    by destruct (Z.testbit x n), (Z.testbit (Z.ones 32) n), (Z.testbit (Z.ones 12) n).
Qed.

(** ** Little-endian lemmas *)
Lemma length_le_split n w : length (le_split n w) = n.
Proof. revert w; induction n; intros; simpl; auto. Qed.

Lemma le_split_bytes n w : bytes (le_split n w).
Proof.
  revert w; induction n as [|n IH]; intros w; simpl; constructor; [|apply IH].
  unfold is_byte. zlia.
Qed.

Lemma le_combine_split n w :
  0 <= w < 256 ^ Z.of_nat n -> le_combine (le_split n w) = w.
Proof.
  revert w; induction n as [|n IH]; intros w Hw.
  - simpl in *. lia.
  - rewrite Nat2Z.inj_succ, Z.pow_succ_r in Hw by lia.
    cbn [le_split le_combine]. rewrite IH; zlia.
Qed.

Lemma le_combine_range l :
  bytes l -> 0 <= le_combine l < 256 ^ Z.of_nat (length l).
Proof.
  induction 1 as [|b l Hb _ IH]; [simpl; lia|].
  cbn [le_combine length]. unfold is_byte in Hb.
  rewrite Nat2Z.inj_succ, Z.pow_succ_r by lia. lia.
Qed.

Lemma le_split_combine l : bytes l -> le_split (length l) (le_combine l) = l.
Proof.
  induction 1 as [|b l Hb Hl IH]; [done|]. cbn [length le_combine le_split].
  unfold is_byte in Hb.
  replace ((b + 256 * le_combine l) mod 256) with b by zlia.
  replace ((b + 256 * le_combine l) / 256) with (le_combine l) by zlia.
  by rewrite IH.
Qed.
