(* ===== verification/Config.v ===== *)
(** * Constants shared by the kernel

    The build-time limits of src/src/config.h, the status codes of
    src/src/status.h, the VGA geometry of src/src/kernel.h and the modes of
    src/src/fs/file.h, under the names the headers give them. *)
From S2P Require Import Prelude.

(** ** config.h *)
Definition KERNEL_CODE_SELECTOR : Z := 0x08.
Definition KERNEL_DATA_SELECTOR : Z := 0x10.
Definition SERPAEOS_TOTAL_INTERRUPTS : Z := 512.
Definition SERPAEOS_HEAP_SIZE_BYTES : Z := 104857600 * 16.
Definition SERPAEOS_HEAP_BLOCK_SIZE : Z := 4096.
Definition SERPAEOS_HEAP_ADDRESS : Z := 0x01000000.
Definition SERPAEOS_HEAP_TABLE_ADDRESS : Z := 0x1000.
Definition SERPAEOS_DEFAULT_SECTOR_SIZE : Z := 512.
Definition CD_SECTOR_SIZE : Z := 2048.
Definition SERPAEOS_MAX_FILESYSTEMS : Z := 12.
Definition SERPAEOS_MAX_FILE_DESCRIPTORS : Z := 512.
Definition SERPAEOS_MAX_PATH : Z := 108.
Definition SERPAEOS_PROGRAM_VIRTUAL_ADDRESS : Z := 0x400000.
Definition SERPAEOS_USER_PROGRAM_STACK_SIZE : Z := 1024 * 16.
Definition SERPAEOS_PROGRAM_VIRTUAL_STACK_ADDRESS_START : Z := 0x3FF000.
Definition SERPAEOS_PROGRAM_VIRTUAL_STACK_ADDRESS_END : Z :=
  SERPAEOS_PROGRAM_VIRTUAL_STACK_ADDRESS_START - SERPAEOS_USER_PROGRAM_STACK_SIZE.
Definition SERPAEOS_MAX_PROGRAM_ALLOCATIONS : Z := 1024.
Definition SERPAEOS_MAX_PROCESSES : Z := 13.
Definition SERPAEOS_TOTAL_MAX_PROCESSES : Z := 50.
Definition USER_DATA_SEGMENT : Z := 0x23.
Definition USER_CODE_SEGMENT : Z := 0x1b.
Definition SERPAEOS_MAX_ISR80H_COMMANDS : Z := 1024.
Definition SERPAEOS_KEYBOARD_BUFFER_SIZE : Z := 1024.
Definition SERPAEOS_MAX_DISKS : Z := 13.

(** ** status.h *)
Definition SERPAEOS_ALL_OK : Z := 0.
Definition EIO : Z := 1.
Definition EINVARG : Z := 2.
Definition ENOMEM : Z := 3.
Definition EBADPATH : Z := 4.
Definition ENOTUS : Z := 5.
Definition ERDONLY : Z := 6.
Definition EUNIMP : Z := 7.
Definition EISTKN : Z := 8.
Definition EINFORMAT : Z := 9.
Definition ENODISKSPACE : Z := 10.
Definition EINTERNERR : Z := 11.
Definition ECANNOTDO : Z := 12.
Definition ETIMEDOUT : Z := 13.
Definition ENOTPRIV : Z := 14.
Definition ENOTREADY : Z := 15.
Definition ENORESOURCES : Z := 16.

(** ** kernel.h, graphics.h *)
Definition VGA_WIDTH : Z := 80.
Definition VGA_HEIGHT : Z := 25.

(** ** fs/file.h *)
Definition FILE_MODE_READ : Z := 1.
Definition FILE_MODE_WRITE : Z := 2.
Definition FILE_MODE_APPEND : Z := 4.
Definition FILE_MODE_INVALID : Z := 0.

Definition SEEK_SET : Z := 0.
Definition SEEK_CUR : Z := 1.
Definition SEEK_END : Z := 2.
Definition SEEK_NEG : Z := 3.
Definition FILE_STAT_READ_ONLY : Z := 1.
