(* ===== verification/CMem.v ===== *)
(** * The kernel's memory routines (src/src/memory/memory.c)

    A buffer is the list of the bytes that can be reached through a pointer,
    each byte a [Z] between 0 and 255.  Running past the end of the list is
    [Oob]. *)
From S2P Require Import Prelude.

(** [memset]: the loop writes [c_ptr[i]] for [i] below [size]. *)
Fixpoint memset_loop (n : nat) (buf : list Z) (i c : Z) : outcome (list Z) :=
  match n with
  | O => Ret buf
  | S n => buf ← store buf i (u8 c); memset_loop n buf (i + 1) c
  end.

Definition memset (buf : list Z) (c size : Z) : outcome (list Z) :=
  memset_loop (Z.to_nat (u32 size)) buf 0 c.

(** [memcmp]: [char] is signed, so the order of two different bytes is that
    of their signed values. *)
Fixpoint memcmp_loop (n : nat) (c1 c2 : list Z) : outcome Z :=
  match n with
  | O => Ret 0
  | S n =>
      match c1, c2 with
      | a :: c1, b :: c2 =>
          if negb (a =? b) then Ret (if s8 a <? s8 b then -1 else 1)
          else memcmp_loop n c1 c2
      | _, _ => Oob
      end
  end.

Definition memcmp (s1 s2 : list Z) (count : Z) : outcome Z :=
  memcmp_loop (Z.to_nat count) s1 s2.

(** [memcpy]: [while(len--)], so a negative length runs through 2^32 values. *)
Fixpoint memcpy_loop (n : nat) (d s : list Z) : outcome (list Z) :=
  match n with
  | O => Ret d
  | S n =>
      match d, s with
      | _ :: d, b :: s => rest ← memcpy_loop n d s; Ret (b :: rest)
      | _, _ => Oob
      end
  end.

Definition memcpy (dest src : list Z) (len : Z) : outcome (list Z) :=
  memcpy_loop (Z.to_nat (u32 len)) dest src.

(** ** What the routines compute *)
Lemma memset_loop_spec n buf i c :
  0 <= i -> (Z.to_nat i + n <= length buf)%nat ->
  memset_loop n buf i c =
    Ret (take (Z.to_nat i) buf ++ replicate n (u8 c) ++ drop (Z.to_nat i + n) buf).
Proof.
  revert buf i. induction n as [|n IH]; intros buf i Hi Hlen.
  - simpl. by rewrite Nat.add_0_r, take_drop.
  - simpl. rewrite store_Ret by lia. simpl.
    rewrite IH by (rewrite ?length_insert; lia).
    replace (Z.to_nat (i + 1)) with (S (Z.to_nat i)) by lia.
    rewrite (take_S_r _ _ (u8 c)) by (apply list_lookup_insert_eq; lia).
    rewrite take_insert_ge by lia. rewrite drop_insert_lt by lia.
    rewrite <- (assoc_L app). do 3 f_equal. by rewrite Nat.add_succ_r.
Qed.

Lemma memset_spec buf c size :
  0 <= size < 4294967296 -> (Z.to_nat size <= length buf)%nat ->
  memset buf c size =
    Ret (replicate (Z.to_nat size) (u8 c) ++ drop (Z.to_nat size) buf).
Proof.
  intros Hs Hlen. unfold memset. rewrite u32_id by done.
  rewrite memset_loop_spec by (simpl; lia). done.
Qed.

Lemma memcpy_loop_spec n d s :
  (n <= length d)%nat -> (n <= length s)%nat ->
  memcpy_loop n d s = Ret (take n s ++ drop n d).
Proof.
  revert d s; induction n as [|n IH]; intros d s Hd Hs; [done|].
  destruct d as [|x d], s as [|y s]; simpl in *; try lia.
  rewrite IH by lia. done.
Qed.

Lemma memcpy_spec d s len :
  0 <= len < 4294967296 ->
  (Z.to_nat len <= length d)%nat -> (Z.to_nat len <= length s)%nat ->
  memcpy d s len = Ret (take (Z.to_nat len) s ++ drop (Z.to_nat len) d).
Proof.
  intros Hl Hd Hs. unfold memcpy. rewrite u32_id by done. by apply memcpy_loop_spec.
Qed.

(** [memcmp] returns 0 exactly on equal prefixes. *)
Lemma memcmp_loop_zero n s1 s2 :
  (n <= length s1)%nat -> (n <= length s2)%nat ->
  memcmp_loop n s1 s2 = Ret 0 <-> take n s1 = take n s2.
Proof.
  revert s1 s2; induction n as [|n IH]; intros s1 s2 H1 H2; [done|].
  destruct s1 as [|a s1], s2 as [|b s2]; simpl in *; try lia.
  destruct (a =? b) eqn:E; simpl; breflect.
  - subst b. rewrite IH by lia. split; congruence.
  - split; [|congruence]. destruct (s8 a <? s8 b); congruence.
Qed.

Lemma memcmp_zero s1 s2 count :
  (Z.to_nat count <= length s1)%nat -> (Z.to_nat count <= length s2)%nat ->
  memcmp s1 s2 count = Ret 0 <-> take (Z.to_nat count) s1 = take (Z.to_nat count) s2.
Proof. apply memcmp_loop_zero. Qed.
