(* ===== verification/Heap.v ===== *)
(** * The block allocator (src/src/memory/heap/heap.c)

    The heap is an array of 4096-byte blocks described by a byte table: the
    low nibble of an entry is its type, bit 6 marks the first block of an
    allocation and bit 7 says that the allocation goes on in the next block.
    The kernel has one [struct heap] that points at one [struct heap_table];
    the model holds the table by value. *)
From S2P Require Import Prelude Config CMem.

Definition HEAP_BLOCK_TABLE_ENTRY_TAKEN : Z := 0x01.
Definition HEAP_BLOCK_TABLE_ENTRY_FREE : Z := 0x00.
Definition HEAP_BLOCK_HAS_NEXT : Z := 0x80.
Definition HEAP_BLOCK_IS_FIRST : Z := 0x40.

Record heap_table := mk_heap_table { entries : list Z; total : Z }.
Record heap := mk_heap { table : heap_table; saddr : Z }.

#[global] Instance heap_table_eq_dec : EqDecision heap_table.
Proof. solve_decision. Defined.
#[global] Instance heap_eq_dec : EqDecision heap.
Proof. solve_decision. Defined.

Definition set_entries (h : heap) (es : list Z) : heap :=
  mk_heap (mk_heap_table es (total (table h))) (saddr h).

Definition heap_validate_table (ptr end_ : Z) (t : heap_table) : Z :=
  let table_size := u32 (end_ - ptr) in
  let total_blocks := table_size / SERPAEOS_HEAP_BLOCK_SIZE in
  if negb (total t =? total_blocks) then - EINVARG else 0.

Definition heap_validate_alignment (ptr : Z) : bool :=
  u32 ptr mod SERPAEOS_HEAP_BLOCK_SIZE =? 0.

(** [h] is what the caller's struct held before the call. *)
Definition heap_create (h : heap) (ptr end_ : Z) (t : heap_table) : outcome (Z * heap) :=
  if negb (heap_validate_alignment ptr) || negb (heap_validate_alignment end_)
  then Ret (- EINVARG, h)
  else
    let h := mk_heap t ptr in
    let res := heap_validate_table ptr end_ t in
    if res <? 0 then Ret (res, h)
    else
      es ← memset (entries t) HEAP_BLOCK_TABLE_ENTRY_FREE (total t);
      Ret (res, set_entries h es).

Definition heap_align_value_to_upper (val : Z) : Z :=
  if val mod SERPAEOS_HEAP_BLOCK_SIZE =? 0 then val
  else u32 (val - val mod SERPAEOS_HEAP_BLOCK_SIZE + SERPAEOS_HEAP_BLOCK_SIZE).

Definition heap_get_entry_type (entry : Z) : Z := Z.land entry 0x0f.

(** The search loop: [bs] is the start of the current run of free blocks (-1
    when there is none) and [bc] its length. *)
Fixpoint start_block_loop (n : nat) (es : list Z) (i bc bs total_blocks : Z) : outcome Z :=
  match n with
  | O => Ret bs
  | S n =>
      e ← load es i;
      if negb (heap_get_entry_type e =? HEAP_BLOCK_TABLE_ENTRY_FREE)
      then start_block_loop n es (i + 1) 0 (-1) total_blocks
      else
        let bs := if bs =? -1 then i else bs in
        let bc := bc + 1 in
        if u32 bc =? total_blocks then Ret bs
        else start_block_loop n es (i + 1) bc bs total_blocks
  end.

Definition heap_get_start_block (h : heap) (total_blocks : Z) : outcome Z :=
  bs ← start_block_loop (Z.to_nat (total (table h))) (entries (table h)) 0 0 (-1) total_blocks;
  Ret (if bs =? -1 then - ENOMEM else bs).

Definition heap_block_to_address (h : heap) (block : Z) : Z :=
  u32 (saddr h + block * SERPAEOS_HEAP_BLOCK_SIZE).

Fixpoint mark_taken_loop (n : nat) (es : list Z) (i end_block entry : Z) : outcome (list Z) :=
  match n with
  | O => Ret es
  | S n =>
      es ← store es i entry;
      let entry := HEAP_BLOCK_TABLE_ENTRY_TAKEN in
      let entry := if negb (i =? end_block - 1) then Z.lor entry HEAP_BLOCK_HAS_NEXT else entry in
      mark_taken_loop n es (i + 1) end_block entry
  end.

Definition heap_mark_blocks_taken (h : heap) (start_block total_blocks : Z) : outcome heap :=
  let end_block := start_block + total_blocks - 1 in
  let entry := Z.lor HEAP_BLOCK_TABLE_ENTRY_TAKEN HEAP_BLOCK_IS_FIRST in
  let entry := if 1 <? total_blocks then Z.lor entry HEAP_BLOCK_HAS_NEXT else entry in
  es ← mark_taken_loop (Z.to_nat (end_block - start_block + 1)) (entries (table h))
         start_block end_block entry;
  Ret (set_entries h es).

Definition heap_malloc_blocks (h : heap) (total_blocks : Z) : outcome (Z * heap) :=
  start_block ← heap_get_start_block h total_blocks;
  if start_block <? 0 then Ret (0, h)
  else
    let address := heap_block_to_address h start_block in
    h ← heap_mark_blocks_taken h start_block (s32 total_blocks);
    Ret (address, h).

Fixpoint mark_free_loop (n : nat) (es : list Z) (i : Z) : outcome (list Z) :=
  match n with
  | O => Ret es
  | S n =>
      entry ← load es i;
      es ← store es i HEAP_BLOCK_TABLE_ENTRY_FREE;
      if Z.land entry HEAP_BLOCK_HAS_NEXT =? 0 then Ret es
      else mark_free_loop n es (i + 1)
  end.

Definition heap_mark_blocks_free (h : heap) (starting_block : Z) : outcome heap :=
  es ← mark_free_loop (Z.to_nat (s32 (total (table h)) - starting_block))
         (entries (table h)) starting_block;
  Ret (set_entries h es).

Definition heap_address_to_block (h : heap) (address : Z) : Z :=
  Z.quot (s32 (address - saddr h)) SERPAEOS_HEAP_BLOCK_SIZE.

Definition heap_malloc (h : heap) (size : Z) : outcome (Z * heap) :=
  let aligned_size := heap_align_value_to_upper size in
  let total_blocks := aligned_size / SERPAEOS_HEAP_BLOCK_SIZE in
  heap_malloc_blocks h total_blocks.

Definition heap_free (h : heap) (ptr : Z) : outcome heap :=
  heap_mark_blocks_free h (heap_address_to_block h ptr).

(** ** Free runs of the table *)

Definition free_at (es : list Z) (j : nat) : bool :=
  match es !! j with
  | Some e => heap_get_entry_type e =? HEAP_BLOCK_TABLE_ENTRY_FREE
  | None => false
  end.

(** Blocks [a .. a+n-1] exist and are free. *)
Definition free_run (es : list Z) (a n : nat) : Prop :=
  forall j, (a <= j < a + n)%nat -> free_at es j = true.

(** [a] starts a run that reaches the end of the table and cannot be extended
    to the left. *)
Definition trailing_run (es : list Z) (a : nat) : Prop :=
  (a < length es)%nat /\ free_run es a (length es - a) /\
  (a = 0%nat \/ free_at es (a - 1) = false).

Lemma free_at_lt es j : free_at es j = true -> (j < length es)%nat.
Proof.
  unfold free_at. destruct (es !! j) eqn:E; [|done]. intros _.
  by apply lookup_lt_Some in E.
Qed.

Lemma free_run_fits es a n : (0 < n)%nat -> free_run es a n -> (a + n <= length es)%nat.
Proof.
  intros Hn Hr. pose proof (free_at_lt es (a + n - 1) (Hr (a + n - 1)%nat ltac:(lia))). lia.
Qed.

Lemma free_run_mono es a n m : (m <= n)%nat -> free_run es a n -> free_run es a m.
Proof. intros Hm Hr j Hj. apply Hr. lia. Qed.

Lemma free_run_snoc es a n :
  free_run es a n -> free_at es (a + n) = true -> free_run es a (S n).
Proof.
  intros Hr Hf j Hj. destruct (decide (j = a + n)%nat) as [->|]; [done|]. apply Hr. lia.
Qed.

(** What the loop knows when it is about to look at block [i]. *)
Definition scan_inv (es : list Z) (tb : nat) (i : nat) (bc bs : Z) : Prop :=
  (forall a, (a + tb <= i)%nat -> ~ free_run es a tb) /\
  ((bs = -1 /\ bc = 0 /\ (i = 0%nat \/ free_at es (i - 1) = false)) \/
   (exists b : nat, bs = Z.of_nat b /\ (b < i)%nat /\ bc = Z.of_nat (i - b) /\
      free_run es b (i - b) /\ (b = 0%nat \/ free_at es (b - 1) = false))).

Definition first_fit (es : list Z) (tb : nat) (a : nat) : Prop :=
  free_run es a tb /\ forall a', free_run es a' tb -> (a <= a')%nat.

Definition scan_post (es : list Z) (tb : nat) (r : Z) : Prop :=
  (exists a, r = Z.of_nat a /\ first_fit es tb a) \/
  ((forall a, ~ free_run es a tb) /\
   ((r = -1 /\ forall a, ~ trailing_run es a) \/
    exists b, r = Z.of_nat b /\ trailing_run es b)).

(** A taken block before [i] separates every run on its left from [i]. *)
Lemma no_run_across es a tb i :
  free_at es i = false -> free_run es a tb -> (a + tb <= i \/ i < a)%nat.
Proof.
  intros Hf Hr. destruct (decide (a + tb <= i)%nat); [by left|].
  destruct (decide (i < a)%nat); [by right|]. rewrite Hr in Hf by lia. done.
Qed.

Lemma start_block_loop_spec es tb :
  (0 < tb)%nat -> Z.of_nat tb < 4294967296 -> Z.of_nat (length es) < 4294967296 ->
  forall n i bc bs, (i + n = length es)%nat -> scan_inv es tb i bc bs ->
  exists r, start_block_loop n es (Z.of_nat i) bc bs (Z.of_nat tb) = Ret r /\ scan_post es tb r.
Proof.
  intros Htb Htb32 Hlen n. induction n as [|n IH]; intros i bc bs Hin [Hno Hcur].
  { exists bs. split; [done|]. right. split.
    - intros a Ha. apply (Hno a); [|done]. pose proof (free_run_fits es a tb Htb Ha). lia.
    - destruct Hcur as [(-> & _ & Hi)|(b & -> & Hb & _ & Hr & Hl)].
      + left. split; [done|]. intros a (Ha & Hra & _).
        destruct Hi as [Hi|Hi]; [lia|]. rewrite Hra in Hi by lia. done.
      + right. exists b. split; [done|]. split; [lia|]. by replace (length es) with i by lia. }
  destruct (lookup_lt_is_Some_2 es i) as [e He]; [lia|]. simpl.
  rewrite (load_Some es (Z.of_nat i) e) by (rewrite ?Nat2Z.id; done || lia).
  simpl. replace (Z.of_nat i + 1) with (Z.of_nat (S i)) by lia.
  destruct (heap_get_entry_type e =? HEAP_BLOCK_TABLE_ENTRY_FREE) eqn:Hty; simpl.
  - assert (Hfi : free_at es i = true) by (unfold free_at; by rewrite He).
    (* the run that now includes block i *)
    assert (exists b : nat, (if bs =? -1 then Z.of_nat i else bs) = Z.of_nat b /\
              (b <= i)%nat /\ bc + 1 = Z.of_nat (S i - b) /\ free_run es b (S i - b) /\
              (b = 0%nat \/ free_at es (b - 1) = false)) as (b & -> & Hbi & -> & Hrun & Hleft).
    { destruct Hcur as [(-> & -> & Hi)|(b & -> & Hb & -> & Hr & Hl)].
      - exists i. replace (S i - i)%nat with 1%nat by lia. repeat split; [lia| |done].
        intros j Hj. by replace j with i by lia.
      - exists b. rewrite (proj2 (Z.eqb_neq (Z.of_nat b) (-1))) by lia.
        repeat split; [lia..| |done]. replace (S i - b)%nat with (S (i - b)) by lia.
        apply free_run_snoc; [done|]. by replace (b + (i - b))%nat with i by lia. }
    rewrite u32_id by lia.
    destruct (Z.of_nat (S i - b) =? Z.of_nat tb) eqn:Hbc; breflect.
    + exists (Z.of_nat b). split; [done|]. left. exists b. split; [done|].
      replace (S i - b)%nat with tb in Hrun by lia. split; [done|].
      intros a' Ha'. destruct (decide (a' + tb <= i)%nat) as [Hle|]; [|lia].
      by destruct (Hno a' Hle).
    + apply IH; [lia|]. split.
      * intros a Ha Hra. destruct (decide (a + tb <= i)%nat) as [Hle|]; [by apply (Hno a)|].
        assert (b <= a)%nat.
        { destruct Hleft as [->|Hl]; [lia|].
          destruct (no_run_across es a tb (b - 1) Hl Hra); lia. }
        apply (Hno b); [lia|]. by apply (free_run_mono _ _ (S i - b)); [lia|].
      * right. exists b. repeat split; [lia..|done|done].
  - assert (Hfi : free_at es i = false) by (unfold free_at; by rewrite He).
    apply IH; [lia|]. split.
    + intros a Ha Hra. destruct (no_run_across es a tb i Hfi Hra); [|lia]. by apply (Hno a).
    + left. repeat split; [|done..]. right. by replace (S i - 1)%nat with i by lia.
Qed.
