(* ===== verification/HeapSpec.v ===== *)
(** * What the block allocator promises

    The abstract view of the table is a list of segments, free blocks and
    allocations, together with the map of the live allocations.  The
    operations of [Heap] are shown to implement the obvious operations on that
    view, and every table reachable through them has such a view. *)
From S2P Require Import Prelude Config CMem Heap.

(** ** Segments and the table they render to *)
Inductive seg :=
| SFree
| SAlloc (n : nat).

(** The entries of an allocation after its first block. *)
Definition tail_entries (n : nat) : list Z :=
  match n with
  | O => []
  | S m => replicate m 0x81 ++ [0x01]
  end.

Definition group (n : nat) : list Z :=
  match n with
  | O => []
  | S m => (if decide (m = 0%nat) then 0x41 else 0xC1) :: tail_entries m
  end.

Definition render1 (s : seg) : list Z :=
  match s with
  | SFree => [0x00]
  | SAlloc n => group n
  end.

Definition render (ss : list seg) : list Z := mjoin (render1 <$> ss).

Definition seg_ok (s : seg) : Prop :=
  match s with
  | SFree => True
  | SAlloc n => (0 < n)%nat
  end.

(** The live allocations: first block -> number of blocks. *)
Fixpoint live_at (ss : list seg) (i : nat) : gmap nat nat :=
  match ss with
  | [] => ∅
  | SFree :: ss => live_at ss (S i)
  | SAlloc n :: ss => <[i := n]> (live_at ss (i + n))
  end.

(** [live] is the set of allocations the table [es] describes. *)
Definition describes (es : list Z) (live : gmap nat nat) : Prop :=
  exists ss, es = render ss /\ Forall seg_ok ss /\ live = live_at ss 0.

Lemma length_tail_entries n : length (tail_entries n) = n.
Proof. destruct n; [done|]. simpl. rewrite length_app, length_replicate. simpl. lia. Qed.

Lemma length_group n : length (group n) = n.
Proof. destruct n; [done|]. simpl. by rewrite length_tail_entries. Qed.

Lemma render_cons s ss : render (s :: ss) = render1 s ++ render ss.
Proof. done. Qed.

Lemma render_app ss1 ss2 : render (ss1 ++ ss2) = render ss1 ++ render ss2.
Proof. unfold render. by rewrite fmap_app, join_app. Qed.

Lemma render_free n : render (replicate n SFree) = replicate n 0x00.
Proof. induction n; [done|]. simpl. rewrite render_cons. simpl. by f_equal. Qed.

(** Every block of an allocation is taken. *)
Lemma group_taken n e : (e ∈ group n) -> heap_get_entry_type e <> HEAP_BLOCK_TABLE_ENTRY_FREE.
Proof.
  destruct n as [|[|m]]; simpl.
  - by intros ?%elem_of_nil.
  - intros ->%list_elem_of_singleton. done.
  - rewrite elem_of_cons, elem_of_app, list_elem_of_singleton, elem_of_replicate.
    intros [-> | [[-> _] | -> ]]; done.
Qed.

Lemma free_at_group n rest j :
  (j < n)%nat -> free_at (group n ++ rest) j = false.
Proof.
  intros Hj. unfold free_at. rewrite lookup_app_l by (by rewrite length_group).
  destruct (group n !! j) as [e|] eqn:E; [|done].
  apply Z.eqb_neq, (group_taken n). by eapply list_elem_of_lookup_2.
Qed.

(** ** A free run of the table is a run of free segments *)
Lemma free_run_split ss : forall a n,
  (0 < n)%nat -> Forall seg_ok ss -> free_run (render ss) a n ->
  exists pre post, ss = pre ++ replicate n SFree ++ post /\ length (render pre) = a.
Proof.
  induction ss as [|s ss IH]; intros a n Hn Hok Hr.
  { specialize (Hr a ltac:(lia)). done. }
  inversion Hok as [|? ? Hs Hss]; subst. rewrite render_cons in Hr.
  destruct (decide (a < length (render1 s))%nat) as [Hlt|Hge].
  - (* the run starts inside the first segment: it must be a free block *)
    destruct s as [|m]; simpl in *.
    2: { rewrite length_group in Hlt. specialize (Hr a ltac:(lia)).
         by rewrite free_at_group in Hr. }
    assert (a = 0%nat) as -> by lia.
    destruct n as [|[|n]]; [lia| |].
    + by exists [], ss.
    + destruct (IH 0%nat (S n)) as (pre & post & -> & Hpre); [lia|done| |].
      { intros j Hj. apply (Hr (S j)). lia. }
      destruct pre as [|s pre].
      * by exists [], post.
      * exfalso. rewrite render_cons, length_app in Hpre.
        inversion Hss as [|? ? Hs' _]; subst.
        destruct s; simpl in *; [lia|]. rewrite length_group in Hpre. lia.
  - destruct (IH (a - length (render1 s))%nat n) as (pre & post & -> & Hpre); [done..| |].
    { intros j Hj. specialize (Hr (length (render1 s) + j)%nat ltac:(lia)).
      unfold free_at in *. rewrite lookup_app_r in Hr by lia.
      by replace (length (render1 s) + j - length (render1 s))%nat with j in Hr by lia. }
    exists (s :: pre), post. split; [done|]. rewrite render_cons, length_app. lia.
Qed.

(** ** Marking and unmarking *)
Lemma mark_taken_loop_spec n es i entry :
  (i + n <= length es)%nat ->
  mark_taken_loop n es (Z.of_nat i) (Z.of_nat i + Z.of_nat n - 1) entry =
    Ret (take i es ++ (if decide (n = 0%nat) then [] else entry :: tail_entries (n - 1))
           ++ drop (i + n) es).
Proof.
  revert es i entry. induction n as [|n IH]; intros es i entry Hlen.
  { simpl. by rewrite Nat.add_0_r, take_drop. }
  simpl. rewrite store_Ret by lia. simpl. rewrite Nat2Z.id.
  replace (Z.of_nat i + 1) with (Z.of_nat (S i)) by lia.
  replace (Z.of_nat i + Z.of_nat (S n) - 1) with (Z.of_nat (S i) + Z.of_nat n - 1) by lia.
  rewrite IH by (rewrite length_insert; lia).
  rewrite (take_S_r _ _ entry) by (apply list_lookup_insert_eq; lia).
  rewrite take_insert_ge by lia. rewrite drop_insert_lt by lia.
  rewrite <- (assoc_L app). simpl. rewrite Nat.sub_0_r.
  replace (i + S n)%nat with (S (i + n)) by lia.
  destruct n as [|n]; [done|].
  simpl. rewrite Nat.sub_0_r. do 3 f_equal.
  destruct n as [|n]; simpl.
  - rewrite (proj2 (Z.eqb_eq _ _)) by lia. done.
  - rewrite (proj2 (Z.eqb_neq _ _)) by lia. done.
Qed.

Lemma mark_blocks_taken_spec h a n :
  (a + n <= length (entries (table h)))%nat ->
  heap_mark_blocks_taken h (Z.of_nat a) (Z.of_nat n) =
    Ret (set_entries h (take a (entries (table h)) ++ group n
                          ++ drop (a + n) (entries (table h)))).
Proof.
  intros Hlen. unfold heap_mark_blocks_taken.
  replace (Z.to_nat (Z.of_nat a + Z.of_nat n - 1 - Z.of_nat a + 1)) with n by lia.
  rewrite mark_taken_loop_spec by done. simpl. do 2 f_equal. f_equal.
  destruct n as [|[|n]]; [done| |]; simpl; [done|].
  by rewrite (proj2 (Z.ltb_lt 1 _)) by lia.
Qed.

Lemma mark_free_loop_group n m pre rest e :
  (n <= m)%nat -> (Z.land e 0x80 =? 0) = (n =? 1)%nat -> (0 < n)%nat ->
  mark_free_loop m (pre ++ (e :: tail_entries (n - 1)) ++ rest) (Z.of_nat (length pre)) =
    Ret (pre ++ replicate n 0x00 ++ rest).
Proof.
  revert m pre e. induction n as [|n IH]; intros m pre e Hm He Hn; [lia|].
  destruct m as [|m]; [lia|]. simpl.
  rewrite (load_Some _ _ e) by (rewrite ?Nat2Z.id, ?list_lookup_middle; done || lia). simpl.
  rewrite store_Ret by (rewrite length_app; simpl; lia). simpl. rewrite Nat2Z.id.
  rewrite Nat.sub_0_r. rewrite insert_app_r_alt, Nat.sub_diag by lia. simpl.
  unfold HEAP_BLOCK_HAS_NEXT, HEAP_BLOCK_TABLE_ENTRY_FREE. rewrite He.
  destruct n as [|n]; [done|]. simpl.
  replace (Z.of_nat (length pre) + 1) with (Z.of_nat (length (pre ++ [0])))
    by (rewrite length_app; simpl; lia).
  rewrite (cons_middle 0 pre), (assoc_L app pre).
  replace (replicate n 129 ++ [1]) with
    ((if decide (n = 0%nat) then 0x01 else 0x81) :: tail_entries (S n - 1)).
  2: { destruct n as [|n]; [done|]. simpl. done. }
  rewrite IH; [by rewrite <- !(assoc_L app)|lia| |lia].
  destruct n as [|n]; done.
Qed.

(** Freeing the first block of an allocation frees exactly its blocks. *)
Lemma mark_blocks_free_spec h pre n rest :
  (0 < n)%nat -> entries (table h) = pre ++ group n ++ rest ->
  total (table h) = Z.of_nat (length (entries (table h))) ->
  total (table h) < 2147483648 ->
  heap_mark_blocks_free h (Z.of_nat (length pre)) =
    Ret (set_entries h (pre ++ replicate n 0x00 ++ rest)).
Proof.
  intros Hn Hes Htot Hlt. unfold heap_mark_blocks_free. rewrite Hes in *.
  rewrite !length_app, length_group in Htot.
  rewrite s32_id by lia. destruct n as [|n]; [lia|].
  replace (group (S n)) with ((if decide (n = 0%nat) then 0x41 else 0xC1) :: tail_entries (S n - 1))
    by (simpl; by rewrite Nat.sub_0_r).
  rewrite mark_free_loop_group; [done|lia| |lia]. destruct n as [|n]; done.
Qed.

(** ** Live maps under the operations *)
Lemma live_at_free_app n ss i : live_at (replicate n SFree ++ ss) i = live_at ss (i + n).
Proof.
  revert i; induction n as [|n IH]; intros i; simpl; [by rewrite Nat.add_0_r|].
  rewrite IH. f_equal. lia.
Qed.

Lemma live_at_ge ss i j n : live_at ss i !! j = Some n -> (i <= j)%nat.
Proof.
  revert i; induction ss as [|[|m] ss IH]; intros i; simpl; [by rewrite lookup_empty| |].
  - intros H%IH. lia.
  - rewrite lookup_insert_Some. intros [[-> _]|[_ H%IH]]; lia.
Qed.

Lemma live_at_lt ss i j n :
  Forall seg_ok ss -> live_at ss i !! j = Some n ->
  (i <= j)%nat /\ (j + n <= i + length (render ss))%nat /\ (0 < n)%nat.
Proof.
  intros Hok. revert i; induction Hok as [|s ss Hs Hok IH]; intros i; simpl;
    [by rewrite lookup_empty|]. rewrite render_cons, length_app.
  destruct s as [|m]; simpl.
  - intros H%IH. lia.
  - rewrite length_group, lookup_insert_Some. intros [[-> <-]|[_ H%IH]]; [simpl in Hs|]; lia.
Qed.

Lemma live_at_alloc pre n post i :
  Forall seg_ok pre ->
  live_at (pre ++ SAlloc n :: post) i =
    <[(i + length (render pre))%nat := n]> (live_at (pre ++ replicate n SFree ++ post) i).
Proof.
  intros Hok. revert i; induction Hok as [|s pre Hs Hok IH]; intros i.
  - simpl. rewrite live_at_free_app, Nat.add_0_r. done.
  - rewrite render_cons, length_app. destruct s as [|m]; simpl; rewrite IH.
    + f_equal. lia.
    + rewrite length_group, insert_insert_ne by (simpl in Hs; lia). f_equal. lia.
Qed.

Lemma live_at_run_None pre n post i :
  Forall seg_ok pre -> (0 < n)%nat ->
  live_at (pre ++ replicate n SFree ++ post) i !! (i + length (render pre))%nat = None.
Proof.
  intros Hok Hn. revert i; induction Hok as [|s pre Hs Hok IH]; intros i.
  - simpl. rewrite live_at_free_app. apply eq_None_not_Some.
    intros [m Hm%live_at_ge]. simpl in Hm. lia.
  - rewrite render_cons, length_app. destruct s as [|m]; simpl.
    + replace (i + S (length (render pre)))%nat with (S i + length (render pre))%nat by lia. apply IH.
    + rewrite length_group, lookup_insert_ne by (simpl in Hs; lia).
      replace (i + (m + length (render pre)))%nat with (i + m + length (render pre))%nat by lia.
      apply IH.
Qed.

(** A live allocation is a segment of the table. *)
Lemma live_at_split ss i j n :
  Forall seg_ok ss -> live_at ss i !! j = Some n ->
  exists pre post, ss = pre ++ SAlloc n :: post /\ (j = i + length (render pre))%nat.
Proof.
  intros Hok. revert i; induction Hok as [|s ss Hs Hok IH]; intros i; simpl;
    [by rewrite lookup_empty|].
  destruct s as [|m]; simpl.
  - intros (pre & post & -> & ->)%IH. exists (SFree :: pre), post. split; [done|].
    rewrite render_cons, length_app. simpl. lia.
  - rewrite lookup_insert_Some. intros [[<- <-]|[_ (pre & post & -> & ->)%IH]].
    + exists [], ss. split; [done|]. simpl. lia.
    + exists (SAlloc m :: pre), post. split; [done|].
      rewrite render_cons, length_app. simpl. rewrite length_group. lia.
Qed.

(** Two different live allocations share no block. *)
Lemma live_at_disjoint ss i j1 n1 j2 n2 :
  Forall seg_ok ss -> live_at ss i !! j1 = Some n1 -> live_at ss i !! j2 = Some n2 ->
  j1 <> j2 -> (j1 + n1 <= j2 \/ j2 + n2 <= j1)%nat.
Proof.
  intros Hok. revert i; induction Hok as [|s ss Hs Hok IH]; intros i; simpl;
    [by rewrite lookup_empty|].
  destruct s as [|m]; simpl; [by apply IH|].
  rewrite !lookup_insert_Some. intros [[<- <-]|[? H1]] [[<- <-]|[? H2]] Hne; [done| | |by eapply IH].
  - apply live_at_ge in H2. lia.
  - apply live_at_ge in H1. lia.
Qed.

(** ** The refinement *)

(** The heap is where the kernel can use it: its addresses are positive
    [int]s, its table has one entry per block, and [live] is what the table
    says. *)
Record heap_inv (h : heap) (live : gmap nat nat) : Prop := {
  inv_total : total (table h) = Z.of_nat (length (entries (table h)));
  inv_saddr : 0 < saddr h;
  inv_aligned : saddr h mod SERPAEOS_HEAP_BLOCK_SIZE = 0;
  inv_top : saddr h + total (table h) * SERPAEOS_HEAP_BLOCK_SIZE <= 2147483648;
  inv_table : describes (entries (table h)) live
}.

(** Address of a block, and number of blocks of a request. *)
Definition block_addr (h : heap) (b : nat) : Z := saddr h + Z.of_nat b * SERPAEOS_HEAP_BLOCK_SIZE.
Definition blocks_for (size : Z) : nat := Z.to_nat ((size + 4095) / 4096).

Lemma align_blocks size :
  0 <= size <= 4294963200 ->
  heap_align_value_to_upper size / SERPAEOS_HEAP_BLOCK_SIZE = Z.of_nat (blocks_for size).
Proof.
  intros Hs. unfold heap_align_value_to_upper, blocks_for, SERPAEOS_HEAP_BLOCK_SIZE.
  rewrite Z2Nat.id by zlia. case_match; breflect; [zlia|].
  rewrite u32_id by zlia. zlia.
Qed.

Lemma blocks_for_pos size : 0 < size -> (0 < blocks_for size)%nat.
Proof. intros. unfold blocks_for. zlia. Qed.

Lemma blocks_for_covers size : 0 <= size -> size <= Z.of_nat (blocks_for size) * 4096.
Proof. intros. unfold blocks_for. rewrite Z2Nat.id by zlia. zlia. Qed.

Section refinement.
Context (h : heap) (live : gmap nat nat) (Hinv : heap_inv h live).

Lemma get_start_block_spec n :
  (0 < n)%nat -> Z.of_nat n < 4294967296 ->
  exists r, start_block_loop (Z.to_nat (total (table h))) (entries (table h)) 0 0 (-1) (Z.of_nat n)
            = Ret r /\ scan_post (entries (table h)) n r.
Proof using Hinv.
  intros Hn Hn32. destruct Hinv as [Htot Hs _ Htop _].
  unfold SERPAEOS_HEAP_BLOCK_SIZE in Htop.
  apply (start_block_loop_spec (entries (table h)) n Hn Hn32) with (i := 0%nat); [lia|lia|].
  split; [|by left; auto]. intros a Ha. lia.
Qed.

Lemma block_addr_address b :
  (b <= length (entries (table h)))%nat -> heap_block_to_address h (Z.of_nat b) = block_addr h b.
Proof using Hinv.
  intros Hb. destruct Hinv as [Htot Hs _ Htop _]. unfold heap_block_to_address, block_addr.
  unfold SERPAEOS_HEAP_BLOCK_SIZE in *. rewrite u32_id; lia.
Qed.

Lemma block_addr_block b :
  (b <= length (entries (table h)))%nat -> heap_address_to_block h (block_addr h b) = Z.of_nat b.
Proof using Hinv.
  intros Hb. destruct Hinv as [Htot Hs _ Htop _]. unfold heap_address_to_block, block_addr.
  unfold SERPAEOS_HEAP_BLOCK_SIZE in *. rewrite s32_id by lia.
  rewrite Z.quot_div_nonneg by lia. zlia.
Qed.

(** Taking a free run extends [live] by one fresh allocation. *)
Lemma mark_taken_inv a n :
  (0 < n)%nat -> free_run (entries (table h)) a n ->
  exists h', heap_mark_blocks_taken h (Z.of_nat a) (Z.of_nat n) = Ret h' /\
    saddr h' = saddr h /\ live !! a = None /\ heap_inv h' (<[a := n]> live) /\
    heap_mark_blocks_free h' (Z.of_nat a) = Ret h.
Proof using Hinv.
  intros Hn Hr. pose proof (free_run_fits _ _ _ Hn Hr) as Hfit.
  destruct Hinv as [Htot Hs Hal Htop (ss & Hes & Hok & ->)].
  unfold SERPAEOS_HEAP_BLOCK_SIZE in *.
  rewrite Hes in Hr. destruct (free_run_split _ _ _ Hn Hok Hr) as (pre & post & -> & <-).
  rewrite !Forall_app in Hok. destruct Hok as (Hpre & _ & Hpost).
  rewrite mark_blocks_taken_spec by done. eexists. split; [done|].
  rewrite !Hes, !render_app, render_free.
  rewrite take_app_length, (assoc_L app _ (replicate n 0)).
  rewrite drop_app_length' by (rewrite length_app, length_replicate; done).
  rewrite Hes, !render_app, render_free, !length_app, length_replicate in Htot.
  split; [done|]. split; [by apply (live_at_run_None _ _ _ 0)|]. split; [split|].
  - simpl. rewrite !length_app, length_group. lia.
  - done.
  - done.
  - done.
  - exists (pre ++ SAlloc n :: post). simpl. rewrite render_app, render_cons.
    split; [done|]. split; [by apply Forall_app_2, Forall_cons_2|]. by rewrite (live_at_alloc _ _ _ 0).
  - rewrite (mark_blocks_free_spec _ _ n (render post)); [|done|done| |].
    + f_equal. destruct h as [[es t] sa]. unfold set_entries. simpl in *. subst es.
      by rewrite !render_app, render_free.
    + simpl. rewrite !length_app, length_group. lia.
    + simpl. lia.
Qed.

(** Freeing a live allocation removes exactly that allocation. *)
Lemma mark_free_inv a n :
  live !! a = Some n ->
  exists h', heap_mark_blocks_free h (Z.of_nat a) = Ret h' /\ saddr h' = saddr h /\
    heap_inv h' (delete a live) /\ free_run (entries (table h')) a n.
Proof using Hinv.
  intros Hl. destruct Hinv as [Htot Hs Hal Htop (ss & Hes & Hok & ->)].
  unfold SERPAEOS_HEAP_BLOCK_SIZE in *.
  pose proof (live_at_lt _ _ _ _ Hok Hl) as (_ & _ & Hn).
  destruct (live_at_split _ _ _ _ Hok Hl) as (pre & post & -> & ->). simpl in *.
  apply Forall_app in Hok as [Hpre Hpost%Forall_inv_tail].
  rewrite render_app, render_cons in Hes. simpl in Hes.
  eexists. split; [by apply (mark_blocks_free_spec h (render pre) n (render post)); [..|lia]|].
  rewrite Hes, !length_app, length_group in Htot.
  split; [done|]. split; [split|].
  - simpl. rewrite !length_app, length_replicate. lia.
  - done.
  - done.
  - done.
  - exists (pre ++ replicate n SFree ++ post). rewrite !render_app, render_free.
    split; [done|]. split.
    + apply Forall_app_2, Forall_app_2; [done| |done]. apply Forall_replicate. done.
    + rewrite (live_at_alloc _ _ _ 0) by done. simpl. rewrite delete_insert_id; [done|].
      by apply (live_at_run_None _ _ _ 0).
  - intros j Hj. simpl. unfold free_at. rewrite lookup_app_r by lia.
    rewrite lookup_app_l by (rewrite length_replicate; lia).
    by rewrite lookup_replicate_2 by lia.
Qed.

Lemma live_in_range a n : live !! a = Some n -> (0 < n /\ a + n <= length (entries (table h)))%nat.
Proof using Hinv.
  destruct Hinv as [_ _ _ _ (ss & -> & Hok & ->)]. intros H%live_at_lt; [lia|done].
Qed.

Lemma live_disjoint a n b m :
  live !! a = Some n -> live !! b = Some m -> a <> b -> (a + n <= b \/ b + m <= a)%nat.
Proof using Hinv.
  destruct Hinv as [_ _ _ _ (ss & _ & Hok & ->)]. by apply live_at_disjoint.
Qed.
End refinement.

(** ** The operations as the kernel calls them *)

Lemma malloc_blocks_found h live n :
  heap_inv h live -> (0 < n)%nat -> Z.of_nat n < 2147483648 ->
  (exists a, free_run (entries (table h)) a n) ->
  exists b h', heap_malloc_blocks h (Z.of_nat n) = Ret (block_addr h b, h') /\
    first_fit (entries (table h)) n b /\ live !! b = None /\
    heap_inv h' (<[b := n]> live) /\ saddr h' = saddr h /\
    heap_mark_blocks_free h' (Z.of_nat b) = Ret h.
Proof.
  intros Hinv Hn Hn31 [a Ha]. unfold heap_malloc_blocks, heap_get_start_block.
  destruct (get_start_block_spec h live Hinv n Hn ltac:(lia)) as (r & -> & Hpost). simpl.
  destruct Hpost as [(b & -> & Hff)|[Hno _]]; [|by destruct (Hno a)].
  rewrite (proj2 (Z.eqb_neq (Z.of_nat b) (-1))), (proj2 (Z.ltb_ge (Z.of_nat b) 0)) by lia.
  destruct (mark_taken_inv h live Hinv b n Hn (proj1 Hff)) as (h' & Hmark & Hsa & HNone & Hinv' & Hfree).
  pose proof (free_run_fits _ _ _ Hn (proj1 Hff)).
  rewrite s32_id by lia. rewrite Hmark. simpl. rewrite (block_addr_address h live Hinv) by lia.
  by exists b, h'.
Qed.

Lemma malloc_blocks_none h live n :
  heap_inv h live -> (0 < n)%nat -> Z.of_nat n < 2147483648 ->
  (forall a, ~ free_run (entries (table h)) a n) ->
  (forall a, ~ trailing_run (entries (table h)) a) ->
  heap_malloc_blocks h (Z.of_nat n) = Ret (0, h).
Proof.
  intros Hinv Hn Hn31 Hno Hnt. unfold heap_malloc_blocks, heap_get_start_block.
  destruct (get_start_block_spec h live Hinv n Hn ltac:(lia)) as (r & -> & Hpost). simpl.
  destruct Hpost as [(b & -> & Hff)|[_ [[-> _]|(b & _ & Ht)]]].
  - by destruct (Hno b), Hff.
  - done.
  - by destruct (Hnt b).
Qed.

(** ** Free blocks *)
Definition is_free (e : Z) : Prop := heap_get_entry_type e = HEAP_BLOCK_TABLE_ENTRY_FREE.
#[global] Instance is_free_dec e : Decision (is_free e).
Proof. unfold is_free. apply _. Defined.

Definition free_blocks (h : heap) : nat := length (filter is_free (entries (table h))).

(** While a block is free, a request of at most one block succeeds and takes
    one free block. *)
Lemma malloc_one_block h live size :
  heap_inv h live -> 0 < size <= 4096 -> (0 < free_blocks h)%nat ->
  exists b h', heap_malloc h size = Ret (block_addr h b, h') /\
    (b < length (entries (table h)))%nat /\ S (free_blocks h') = free_blocks h.
Proof.
  intros Hinv Hs Hfree. unfold heap_malloc. rewrite align_blocks by lia.
  assert (blocks_for size = 1%nat) as -> by (unfold blocks_for; zlia).
  destruct (filter is_free (entries (table h))) as [|e l] eqn:Hf;
    [unfold free_blocks in Hfree; rewrite Hf in Hfree; simpl in Hfree; lia|].
  assert (e ∈ filter is_free (entries (table h))) as He by (rewrite Hf; by left).
  apply list_elem_of_filter in He as [He [a Ha]%list_elem_of_lookup].
  destruct (malloc_blocks_found h live 1) as (b & h' & Hm & Hff & _); [done|lia|lia| |].
  { exists a. intros j Hj. replace j with a by lia. unfold free_at. rewrite Ha. by apply Z.eqb_eq. }
  pose proof (free_run_fits _ _ _ (Nat.lt_0_1) (proj1 Hff)) as Hfit.
  exists b, h'. split; [done|]. split; [lia|].
  pose proof (proj1 Hff b ltac:(lia)) as Hfb. unfold free_at in Hfb.
  destruct (entries (table h) !! b) as [eb|] eqn:Hb; [|done]. apply Z.eqb_eq in Hfb.
  unfold heap_malloc_blocks, heap_get_start_block in Hm.
  destruct (get_start_block_spec h live Hinv 1 ltac:(lia) ltac:(lia)) as (r & Hr & Hpost).
  change (Z.of_nat 1) with 1 in *. rewrite Hr in Hm. simpl in Hm.
  assert (r = Z.of_nat b) as ->.
  { destruct Hpost as [(b2 & -> & Hff2)|[Hno _]]; [|by destruct (Hno b), Hff].
    f_equal. apply Nat.le_antisymm; [apply Hff2, Hff|apply Hff, Hff2]. }
  rewrite (proj2 (Z.eqb_neq (Z.of_nat b) (-1))), (proj2 (Z.ltb_ge (Z.of_nat b) 0)) in Hm by lia.
  change (s32 1) with (Z.of_nat 1) in Hm. rewrite mark_blocks_taken_spec in Hm by lia.
  simpl in Hm. injection Hm as _ <-. unfold free_blocks. simpl.
  rewrite <- (take_drop_middle _ _ _ Hb) at 3.
  rewrite !filter_app, !filter_cons, !length_app.
  rewrite (decide_False (P := is_free 65)) by done. rewrite (decide_True (P := is_free eb)) by done.
  replace (b + 1)%nat with (S b) by lia. simpl. lia.
Qed.

(** Marking more blocks than the table has left writes past its end. *)
Lemma mark_taken_overrun es n i e entry :
  (i <= length es < i + n)%nat -> mark_taken_loop n es (Z.of_nat i) e entry = Oob.
Proof.
  revert es i entry. induction n as [|n IH]; intros es i entry Hi; [lia|]. simpl.
  destruct (decide (i = length es)) as [->|].
  - rewrite store_oob by lia. done.
  - rewrite store_Ret by lia. simpl. replace (Z.of_nat i + 1) with (Z.of_nat (S i)) by lia.
    apply IH. rewrite length_insert. lia.
Qed.

Lemma malloc_blocks_overrun h live n :
  heap_inv h live -> (0 < n)%nat -> Z.of_nat n < 2147483648 ->
  (forall a, ~ free_run (entries (table h)) a n) ->
  (exists a, trailing_run (entries (table h)) a) ->
  heap_malloc_blocks h (Z.of_nat n) = Oob.
Proof.
  intros Hinv Hn Hn31 Hno [t Ht]. unfold heap_malloc_blocks, heap_get_start_block.
  destruct (get_start_block_spec h live Hinv n Hn ltac:(lia)) as (r & -> & Hpost). simpl.
  destruct Hpost as [(b & -> & Hff)|[_ [[_ Hnt]|(b & -> & Hb & Hrun & _)]]].
  - by destruct (Hno b), Hff.
  - by destruct (Hnt t).
  - rewrite (proj2 (Z.eqb_neq (Z.of_nat b) (-1))), (proj2 (Z.ltb_ge (Z.of_nat b) 0)) by lia.
    rewrite s32_id by lia. unfold heap_mark_blocks_taken.
    rewrite mark_taken_overrun; [done|].
    assert (length (entries (table h)) - b < n)%nat; [|lia].
    destruct (decide (n <= length (entries (table h)) - b)%nat) as [Hle|]; [|lia].
    destruct (Hno b). by apply (free_run_mono _ _ _ _ Hle).
Qed.

(** ** Reachable heaps *)

(** The heaps obtained from [heap_create] by the kernel's calls: [malloc] of
    a size whose rounding does not wrap, and [free] of a pointer that is
    live. *)
Inductive heap_reach : heap -> gmap nat nat -> Prop :=
| reach_create h0 ptr end_ t h :
    0 < ptr -> ptr <= end_ <= 2147483648 -> total t = Z.of_nat (length (entries t)) ->
    heap_create h0 ptr end_ t = Ret (SERPAEOS_ALL_OK, h) ->
    heap_reach h ∅
| reach_malloc h live size p h' :
    heap_reach h live -> 0 < size <= 2147479552 ->
    heap_malloc h size = Ret (p, h') -> p <> 0 ->
    heap_reach h' (<[Z.to_nat (heap_address_to_block h p) := blocks_for size]> live)
| reach_malloc_null h live size h' :
    heap_reach h live -> 0 < size <= 2147479552 ->
    heap_malloc h size = Ret (0, h') ->
    heap_reach h' live
| reach_free h live b n h' :
    heap_reach h live -> live !! b = Some n ->
    heap_free h (block_addr h b) = Ret h' ->
    heap_reach h' (delete b live).

(** Every possible result of [malloc], by the shape of the table. *)
Lemma malloc_cases h live size :
  heap_inv h live -> 0 < size <= 2147479552 ->
  (exists b h', heap_malloc h size = Ret (block_addr h b, h') /\
     first_fit (entries (table h)) (blocks_for size) b /\ live !! b = None /\
     heap_inv h' (<[b := blocks_for size]> live) /\ saddr h' = saddr h /\
     heap_mark_blocks_free h' (Z.of_nat b) = Ret h) \/
  heap_malloc h size = Ret (0, h) \/ heap_malloc h size = Oob.
Proof.
  intros Hinv Hs. unfold heap_malloc. rewrite align_blocks by lia.
  pose proof (blocks_for_pos size ltac:(lia)) as Hn.
  assert (Z.of_nat (blocks_for size) < 2147483648) by (unfold blocks_for; zlia).
  destruct (get_start_block_spec h live Hinv (blocks_for size) Hn ltac:(lia)) as (r & _ & Hpost).
  destruct Hpost as [(b & _ & Hff)|[Hno [[_ Hnt]|(b & _ & Ht)]]].
  - left. apply malloc_blocks_found; [done..|]. exists b. apply Hff.
  - right; left. by apply (malloc_blocks_none h live).
  - right; right. apply (malloc_blocks_overrun h live); [done..|]. by exists b.
Qed.

Lemma heap_create_inv h0 ptr end_ t h :
  0 < ptr -> ptr <= end_ <= 2147483648 -> total t = Z.of_nat (length (entries t)) ->
  heap_create h0 ptr end_ t = Ret (SERPAEOS_ALL_OK, h) -> heap_inv h ∅.
Proof.
  intros Hp He Ht. unfold heap_create.
  destruct (negb (heap_validate_alignment ptr) || negb (heap_validate_alignment end_)) eqn:Hal;
    [done|]. breflect. unfold heap_validate_alignment in *. breflect.
  unfold heap_validate_table, SERPAEOS_HEAP_BLOCK_SIZE in *. rewrite u32_id in * by lia.
  destruct (total t =? (end_ - ptr) / 4096) eqn:Htot; simpl; [|done]. breflect.
  assert (0 <= total t < 4294967296) by zlia.
  rewrite memset_spec by lia. simpl. intros [= <-]. split; simpl.
  - rewrite length_app, length_replicate, length_drop. lia.
  - done.
  - done.
  - unfold SERPAEOS_HEAP_BLOCK_SIZE. zlia.
  - rewrite drop_ge, app_nil_r by lia. exists (replicate (Z.to_nat (total t)) SFree).
    rewrite render_free. split; [done|]. split; [by apply Forall_replicate|].
    rewrite <- (app_nil_r (replicate _ SFree)), live_at_free_app. done.
Qed.

(** On an aligned region with a table of the right size, [heap_create]
    succeeds and marks every block free. *)
Lemma heap_create_ok h0 ptr end_ t :
  0 < ptr -> ptr <= end_ <= 2147483648 ->
  ptr mod 4096 = 0 -> end_ mod 4096 = 0 -> total t = (end_ - ptr) / 4096 ->
  total t = Z.of_nat (length (entries t)) ->
  heap_create h0 ptr end_ t =
    Ret (0, mk_heap (mk_heap_table (replicate (length (entries t)) 0) (total t)) ptr).
Proof.
  intros Hp He Ha1 Ha2 Ht Hl. unfold heap_create, heap_validate_alignment, heap_validate_table.
  unfold SERPAEOS_HEAP_BLOCK_SIZE. rewrite !u32_id by lia.
  rewrite Ha1, Ha2, <- Ht, !Z.eqb_refl. simpl.
  rewrite memset_spec by zlia. simpl. rewrite drop_ge, app_nil_r by lia.
  unfold set_entries. simpl. by rewrite Hl, Nat2Z.id.
Qed.

Lemma heap_reach_inv h live : heap_reach h live -> heap_inv h live.
Proof.
  induction 1 as [h0 ptr end_ t h Hp He Ht Hc
                 |h live size p h' _ Hinv Hs Hm Hp
                 |h live size h' _ Hinv Hs Hm
                 |h live b n h' _ Hinv Hl Hf].
  - by eapply heap_create_inv.
  - destruct (malloc_cases h live size Hinv Hs) as [(b & h2 & Hm' & Hff & _ & Hinv' & _)|[Hm'|Hm']];
      rewrite Hm' in Hm; simplify_eq.
    pose proof (free_run_fits _ _ _ (blocks_for_pos size ltac:(lia)) (proj1 Hff)).
    rewrite (block_addr_block h live Hinv), Nat2Z.id by lia. done.
  - destruct (malloc_cases h live size Hinv Hs) as [(b & h2 & Hm' & _ & _ & Hinv' & _)|[Hm'|Hm']];
      rewrite Hm' in Hm; simplify_eq; [|done].
    exfalso. destruct Hinv as [_ Hsa _ _ _]. unfold block_addr, SERPAEOS_HEAP_BLOCK_SIZE in *. lia.
  - pose proof (live_in_range h live Hinv b n Hl). unfold heap_free in Hf.
    rewrite (block_addr_block h live Hinv) in Hf by lia.
    destruct (mark_free_inv h live Hinv b n Hl) as (h2 & Hf2 & _ & Hinv2 & _). congruence.
Qed.

(** ** Properties *)

(** A small heap of eight blocks for the witnesses. *)
Definition demo_heap : heap := mk_heap (mk_heap_table (replicate 8 0x00) 8) 0x1000000.

Lemma demo_heap_inv : heap_inv demo_heap ∅.
Proof.
  split; [done..|]. exists (replicate 8 SFree). by repeat constructor.
Qed.

(** C1: [heap_malloc] refines first-fit allocation.  If some run of free
    blocks is long enough, the call returns the address of the first such
    run; the run covers the size that was asked for, belongs to no live
    allocation and overlaps none, and the table then describes the live
    allocations with the new one added. *)
Theorem heap_malloc_refines h live size :
  heap_inv h live -> 0 < size <= 2147479552 ->
  (exists a, free_run (entries (table h)) a (blocks_for size)) ->
  exists b h', heap_malloc h size = Ret (block_addr h b, h') /\
    first_fit (entries (table h)) (blocks_for size) b /\
    size <= Z.of_nat (blocks_for size) * SERPAEOS_HEAP_BLOCK_SIZE /\
    live !! b = None /\
    (forall b' n', live !! b' = Some n' -> (b + blocks_for size <= b' \/ b' + n' <= b)%nat) /\
    heap_inv h' (<[b := blocks_for size]> live).
Proof.
  intros Hinv Hs Hrun. unfold heap_malloc. rewrite align_blocks by lia.
  destruct (malloc_blocks_found h live (blocks_for size) Hinv) as (b & h' & Hm & Hff & HN & Hinv' & _);
    [by apply blocks_for_pos; lia|unfold blocks_for; zlia|done|].
  exists b, h'. split_and!; [done|done|by apply blocks_for_covers; lia|done| |done].
  intros b' n' Hb'. assert (b <> b') by congruence.
  apply (live_disjoint h' _ Hinv' b (blocks_for size) b' n'); [by rewrite lookup_insert_eq| |done].
  by rewrite lookup_insert_ne.
Qed.

Lemma heap_malloc_refines_witness :
  exists b h', heap_malloc demo_heap 5000 = Ret (block_addr demo_heap b, h') /\ heap_inv h' (<[b := 2%nat]> ∅).
Proof.
  destruct (heap_malloc_refines demo_heap ∅ 5000) as (b & h' & Hm & _ & _ & _ & _ & Hi).
  - exact demo_heap_inv.
  - lia.
  - exists 0%nat. intros j Hj. change (blocks_for 5000) with 2%nat in Hj.
    destruct j as [|[|j]]; [done|done|lia].
  - exists b, h'. split; [exact Hm|exact Hi].
Defined.

(** C37: [heap_free] of a live allocation succeeds, turns exactly its blocks
    into free ones, and leaves the table describing the other live
    allocations, each with its size. *)
Theorem heap_free_refines h live b n :
  heap_inv h live -> live !! b = Some n ->
  exists h', heap_free h (block_addr h b) = Ret h' /\ heap_inv h' (delete b live) /\
    free_run (entries (table h')) b n /\
    (forall b' n', b' <> b -> live !! b' = Some n' -> delete b live !! b' = Some n').
Proof.
  intros Hinv Hl. pose proof (live_in_range h live Hinv b n Hl). unfold heap_free.
  rewrite (block_addr_block h live Hinv) by lia.
  destruct (mark_free_inv h live Hinv b n Hl) as (h' & Hf & _ & Hinv' & Hr).
  exists h'. split_and!; [done..|]. intros b' n' Hne Hb'. by rewrite lookup_delete_ne.
Qed.

(** Blocks 2 and 3 of the demo heap allocated. *)
Definition demo_heap2 : heap :=
  mk_heap (mk_heap_table [0x00; 0x00; 0xC1; 0x01; 0x00; 0x00; 0x00; 0x00] 8) 0x1000000.

Lemma demo_heap2_inv : heap_inv demo_heap2 {[2%nat := 2%nat]}.
Proof.
  split; [done..|].
  exists [SFree; SFree; SAlloc 2; SFree; SFree; SFree; SFree].
  split; [done|]. split; [|done]. repeat constructor.
Qed.

Lemma heap_free_refines_witness :
  exists h', heap_free demo_heap2 0x1002000 = Ret h' /\
             heap_inv h' (delete 2%nat {[2%nat := 2%nat]}).
Proof.
  destruct (heap_free_refines demo_heap2 {[2%nat := 2%nat]} 2 2) as (h' & Hf & Hi & _ & _).
  - exact demo_heap2_inv.
  - done.
  - exists h'. split; [exact Hf|exact Hi].
Defined.

(** Freeing what [heap_malloc] has just returned gives back the very heap
    there was before, entry for entry. *)
Theorem heap_malloc_free_restores h live size p h' :
  heap_inv h live -> 0 < size <= 2147479552 ->
  heap_malloc h size = Ret (p, h') -> p <> 0 ->
  heap_free h' p = Ret h.
Proof.
  intros Hinv Hs Hm Hp.
  destruct (malloc_cases h live size Hinv Hs)
    as [(b & h2 & Hm' & Hff & _ & Hinv' & Hsa & Hfree)|[Hm'|Hm']];
    rewrite Hm' in Hm; simplify_eq.
  pose proof (free_run_fits _ _ _ (blocks_for_pos size ltac:(lia)) (proj1 Hff)) as Hfit.
  pose proof (live_in_range h' _ Hinv' b (blocks_for size) (lookup_insert_eq _ _ _)) as Hr.
  unfold heap_free. replace (block_addr h b) with (block_addr h' b) by (unfold block_addr; by rewrite Hsa).
  by rewrite (block_addr_block h' _ Hinv') by lia.
Qed.

Lemma heap_malloc_free_restores_witness :
  exists h', heap_malloc demo_heap2 9000 = Ret (0x1004000, h') /\ heap_free h' 0x1004000 = Ret demo_heap2.
Proof.
  eexists. split; [vm_compute; reflexivity|].
  apply (heap_malloc_free_restores demo_heap2 {[2%nat := 2%nat]} 9000).
  - exact demo_heap2_inv.
  - lia.
  - vm_compute. reflexivity.
  - lia.
Defined.

(** C38: in every heap reached from [heap_create] by any sequence of
    allocations and frees of live pointers, every live allocation lies inside
    the heap's address range and no two of them share a byte. *)
Theorem heap_reachable_safe h live :
  heap_reach h live ->
  heap_inv h live /\
  (forall b n, live !! b = Some n ->
     0 < block_addr h b /\
     block_addr h b + Z.of_nat n * SERPAEOS_HEAP_BLOCK_SIZE
       <= saddr h + total (table h) * SERPAEOS_HEAP_BLOCK_SIZE) /\
  (forall b n b' n', live !! b = Some n -> live !! b' = Some n' -> b <> b' ->
     block_addr h b + Z.of_nat n * SERPAEOS_HEAP_BLOCK_SIZE <= block_addr h b' \/
     block_addr h b' + Z.of_nat n' * SERPAEOS_HEAP_BLOCK_SIZE <= block_addr h b).
Proof.
  intros Hr%heap_reach_inv. split; [done|].
  unfold block_addr, SERPAEOS_HEAP_BLOCK_SIZE. split.
  - intros b n Hl. pose proof (live_in_range h live Hr b n Hl). destruct Hr as [-> Hs _ _ _]. lia.
  - intros b n b' n' Hb Hb' Hne. pose proof (live_disjoint h live Hr b n b' n' Hb Hb' Hne). lia.
Qed.

Lemma heap_reachable_safe_witness :
  exists h, heap_create demo_heap2 0x1000000 0x1008000 (mk_heap_table (replicate 8 0xFF) 8) = Ret (0, h) /\
            heap_inv h ∅.
Proof.
  eexists. split; [vm_compute; reflexivity|].
  apply (heap_reachable_safe _ ∅).
  apply (reach_create demo_heap2 0x1000000 0x1008000 (mk_heap_table (replicate 8 0xFF) 8)).
  - lia.
  - lia.
  - reflexivity.
  - vm_compute. reflexivity.
Defined.

(** When no run of free blocks is long enough, [heap_malloc] returns null
    and changes nothing if the table ends in a taken block; but if the table
    ends in free blocks, too few of them, it takes that run anyway and marks
    entries past the end of the table. *)
Theorem heap_malloc_exhausted h live size :
  heap_inv h live -> 0 < size <= 2147479552 ->
  (forall a, ~ free_run (entries (table h)) a (blocks_for size)) ->
  ((forall a, ~ trailing_run (entries (table h)) a) -> heap_malloc h size = Ret (0, h)) /\
  ((exists a, trailing_run (entries (table h)) a) -> heap_malloc h size = Oob).
Proof.
  intros Hinv Hs Hno. unfold heap_malloc. rewrite align_blocks by lia.
  pose proof (blocks_for_pos size ltac:(lia)).
  assert (Z.of_nat (blocks_for size) < 2147483648) by (unfold blocks_for; zlia).
  split; intros Ht; [by apply (malloc_blocks_none h live)|by apply (malloc_blocks_overrun h live)].
Qed.

(** A table whose only free block is the last one. *)
Definition demo_heap3 : heap :=
  mk_heap (mk_heap_table [0x41; 0x41; 0x41; 0x00] 4) 0x1000000.

Lemma heap_malloc_exhausted_witness : heap_malloc demo_heap3 5000 = Oob.
Proof.
  apply (heap_malloc_exhausted demo_heap3 {[0%nat := 1%nat; 1%nat := 1%nat; 2%nat := 1%nat]} 5000).
  - split; [done..|]. exists [SAlloc 1; SAlloc 1; SAlloc 1; SFree].
    split; [done|]. split; [repeat constructor|done].
  - lia.
  - intros a Ha. pose proof (Ha a) as H0. pose proof (Ha (S a)) as H1.
    change (blocks_for 5000) with 2%nat in *.
    do 4 (destruct a as [|a]; [specialize (H0 ltac:(lia)); specialize (H1 ltac:(lia)); discriminate|]).
    specialize (H0 ltac:(lia)). discriminate.
  - exists 3%nat. split; [simpl; lia|]. split; [|by right].
    intros j Hj. simpl in Hj. by replace j with 3%nat by lia.
Defined.
