(* ===== verification/Kheap.v ===== *)
(** * The kernel heap (src/src/memory/heap/kheap.c)

    The one heap of the kernel, the zeroing allocator, and the interface
    through which the rest of the kernel sees it. *)
From S2P Require Import Prelude Config CMem Heap HeapSpec.

(** Kernel memory: the allocator's state and the bytes of memory by address. *)
Record kmem := mk_kmem { kernel_heap : heap; mem : gmap Z Z }.

(** [raw] is what memory at [SERPAEOS_HEAP_TABLE_ADDRESS] holds at boot; [h0]
    is the uninitialised [kernel_heap] global. *)
Definition kheap_init (h0 : heap) (raw : list Z) : outcome heap :=
  let total_table_entries := SERPAEOS_HEAP_SIZE_BYTES / SERPAEOS_HEAP_BLOCK_SIZE in
  let kernel_heap_table := mk_heap_table raw total_table_entries in
  let end_ := SERPAEOS_HEAP_ADDRESS + SERPAEOS_HEAP_SIZE_BYTES in
  '(res, h) ← heap_create h0 SERPAEOS_HEAP_ADDRESS end_ kernel_heap_table;
  if res <? 0 then Panic else Ret h.

Definition kmalloc (size : Z) : cmd kmem Z := fun k =>
  '(p, h) ← heap_malloc (kernel_heap k) size; Ret (p, mk_kmem h (mem k)).

(** [memset(ptr, 0, size)] on memory by address. *)
Fixpoint zero_fill (n : nat) (ptr : Z) (m : gmap Z Z) : gmap Z Z :=
  match n with
  | O => m
  | S n => zero_fill n (ptr + 1) (<[ptr := 0]> m)
  end.

Definition kzalloc (size : Z) : cmd kmem Z :=
  ptr ← kmalloc size;
  if ptr =? 0 then mret 0
  else
    modifyS (fun k => mk_kmem (kernel_heap k) (zero_fill (Z.to_nat size) ptr (mem k)));;
    mret ptr.

Definition kfree (ptr : Z) : cmd kmem unit := fun k =>
  h ← heap_free (kernel_heap k) ptr; Ret (tt, mk_kmem h (mem k)).

(** ** The interface: what the kernel relies on

    A client sees the set of live pointers with the sizes they were asked
    for.  [kz] returns 0 or a pointer that was not live; [kf] of a live
    pointer succeeds and forgets it; while there is [room], a request of at
    most one block succeeds; and freeing makes no room disappear. *)
Class Allocator (H : Type) := {
  kz : Z -> cmd H Z;
  kf : Z -> cmd H unit
}.

Class AllocatorOk (H : Type) `{Allocator H} := {
  live_ptrs : H -> gset Z;
  alloc_ok : H -> Prop;
  kz_spec : forall size s p s', alloc_ok s -> 0 < size <= 2147479552 ->
    kz size s = Ret (p, s') ->
    alloc_ok s' /\
    (p = 0 /\ live_ptrs s' = live_ptrs s \/
     0 < p < 2147483648 /\ p mod SERPAEOS_HEAP_BLOCK_SIZE = 0 /\
     (p ∉ live_ptrs s) /\ live_ptrs s' = {[p]} ∪ live_ptrs s);
  kf_spec : forall p s, alloc_ok s -> (p ∈ live_ptrs s) ->
    exists s', kf p s = Ret (tt, s') /\ alloc_ok s' /\ live_ptrs s' = live_ptrs s ∖ {[p]};
  room : H -> nat;
  kz_room : forall size s, alloc_ok s -> 0 < size <= 4096 -> (0 < room s)%nat ->
    exists p s', kz size s = Ret (p, s') /\ p <> 0 /\ S (room s') = room s;
  kf_room : forall p s s', alloc_ok s -> (p ∈ live_ptrs s) -> kf p s = Ret (tt, s') ->
    (room s <= room s')%nat
}.

(** ** The kernel heap implements the interface *)
#[export] Instance kmem_allocator : Allocator kmem := {| kz := kzalloc; kf := kfree |}.

(** The live set of a heap, read off its table: the blocks whose entry has the
    first-block bit. *)
Definition first_blocks (es : list Z) : gset nat :=
  list_to_set (filter (fun j => match es !! j with
                                | Some e => Z.testbit e 6
                                | None => false
                                end = true) (seq 0 (length es))).

Definition kmem_live (k : kmem) : gset Z :=
  set_map (fun b => block_addr (kernel_heap k) b) (first_blocks (entries (table (kernel_heap k)))).

Lemma elem_of_first_blocks es j :
  (j ∈ first_blocks es) <-> exists e, es !! j = Some e /\ Z.testbit e 6 = true.
Proof.
  unfold first_blocks. rewrite elem_of_list_to_set, list_elem_of_filter, elem_of_seq.
  split.
  - intros [H _]. destruct (es !! j) as [e|]; [by exists e|done].
  - intros (e & He & Hb). rewrite He. split; [done|]. apply lookup_lt_Some in He. lia.
Qed.

Lemma tail_entries_bit n e : (e ∈ tail_entries n) -> Z.testbit e 6 = false.
Proof.
  destruct n as [|n]; simpl; [by intros ?%elem_of_nil|].
  rewrite elem_of_app, elem_of_replicate, list_elem_of_singleton. by intros [[-> _] | -> ].
Qed.

(** First-block bits of a rendered table are exactly the live allocations. *)
Lemma first_blocks_render ss i :
  Forall seg_ok ss ->
  forall j, (exists e, render ss !! j = Some e /\ Z.testbit e 6 = true) <->
            is_Some (live_at ss i !! (i + j)%nat).
Proof.
  intros Hok. revert i. induction Hok as [|s ss Hs Hok IH]; intros i j; simpl.
  { rewrite lookup_empty. split; [by intros (e & He & _)|by intros [? ?]]. }
  rewrite render_cons. destruct s as [|n]; simpl.
  - destruct j as [|j]; simpl.
    + split; [by intros (e & [= <-] & ?)|]. intros [m Hm%live_at_ge]. lia.
    + rewrite (IH (S i) j). by replace (S i + j)%nat with (i + S j)%nat by lia.
  - destruct n as [|n]; [simpl in Hs; lia|]. destruct (decide (j < S n)%nat) as [Hlt|Hge].
    + rewrite lookup_app_l by (by rewrite length_group). destruct j as [|j].
      * rewrite Nat.add_0_r, lookup_insert_eq. split; [done|]. intros _. simpl.
        eexists. split; [done|]. by destruct (decide (n = 0%nat)).
      * rewrite lookup_insert_ne by lia. split.
        -- intros (e & He & Hb). simpl in He. apply list_elem_of_lookup_2 in He.
           change (Z.testbit e 6 = true) in Hb. by rewrite (tail_entries_bit n e He) in Hb.
        -- intros [m Hm%live_at_ge]. lia.
    + rewrite lookup_app_r by (rewrite length_group; lia). rewrite length_group.
      rewrite lookup_insert_ne by lia. rewrite (IH (i + S n)%nat (j - S n)%nat).
      by replace (i + S n + (j - S n))%nat with (i + j)%nat by lia.
Qed.

Lemma first_blocks_live h live b :
  heap_inv h live -> (b ∈ first_blocks (entries (table h))) <-> is_Some (live !! b).
Proof.
  intros [_ _ _ _ (ss & -> & Hok & ->)]. rewrite elem_of_first_blocks.
  apply (first_blocks_render ss 0 Hok).
Qed.

Lemma kmem_live_spec k live p :
  heap_inv (kernel_heap k) live ->
  (p ∈ kmem_live k) <-> exists b, p = block_addr (kernel_heap k) b /\ is_Some (live !! b).
Proof.
  intros Hinv. unfold kmem_live. rewrite elem_of_map.
  split; intros (b & -> & Hb); exists b; split; try done; by eapply first_blocks_live.
Qed.

Lemma block_addr_inj h a b : block_addr h a = block_addr h b -> a = b.
Proof. unfold block_addr, SERPAEOS_HEAP_BLOCK_SIZE. lia. Qed.

Lemma kmem_live_insert k k' live b n :
  heap_inv (kernel_heap k) live -> heap_inv (kernel_heap k') (<[b := n]> live) ->
  saddr (kernel_heap k') = saddr (kernel_heap k) ->
  kmem_live k' = {[block_addr (kernel_heap k) b]} ∪ kmem_live k.
Proof.
  intros H1 H2 Hs. apply set_eq. intros p.
  rewrite elem_of_union, elem_of_singleton, (kmem_live_spec k' _ p H2), (kmem_live_spec k _ p H1).
  unfold block_addr. rewrite Hs. split.
  - intros (c & -> & Hc). rewrite lookup_insert in Hc. case_decide; [left; by subst|right; by exists c].
  - intros [-> |(c & -> & Hc)].
    + exists b. split; [done|]. by rewrite lookup_insert_eq.
    + exists c. split; [done|]. rewrite lookup_insert. by case_decide.
Qed.

Lemma kmem_live_delete k k' live b :
  heap_inv (kernel_heap k) live -> heap_inv (kernel_heap k') (delete b live) ->
  saddr (kernel_heap k') = saddr (kernel_heap k) ->
  kmem_live k' = kmem_live k ∖ {[block_addr (kernel_heap k) b]}.
Proof.
  intros H1 H2 Hs. apply set_eq. intros p.
  rewrite elem_of_difference, elem_of_singleton, (kmem_live_spec k' _ p H2), (kmem_live_spec k _ p H1).
  unfold block_addr. rewrite Hs. split.
  - intros (c & -> & Hc). rewrite lookup_delete in Hc. case_decide; [by destruct Hc|].
    split; [by exists c|]. unfold SERPAEOS_HEAP_BLOCK_SIZE. lia.
  - intros [(c & -> & Hc) Hne]. exists c. split; [done|]. rewrite lookup_delete.
    case_decide; [by subst|done].
Qed.

Definition kmem_ok (k : kmem) : Prop := exists live, heap_inv (kernel_heap k) live.

Lemma kmem_live_same k k' live :
  heap_inv (kernel_heap k) live -> kernel_heap k' = kernel_heap k -> kmem_live k' = kmem_live k.
Proof. intros _ Hk. unfold kmem_live. by rewrite Hk. Qed.

Lemma kzalloc_spec size k p k' :
  kmem_ok k -> 0 < size <= 2147479552 -> kzalloc size k = Ret (p, k') ->
  kmem_ok k' /\
  (p = 0 /\ kmem_live k' = kmem_live k \/
   0 < p < 2147483648 /\ p mod SERPAEOS_HEAP_BLOCK_SIZE = 0 /\
   (p ∉ kmem_live k) /\ kmem_live k' = {[p]} ∪ kmem_live k).
Proof.
  intros [live Hinv] Hs. unfold kzalloc, kmalloc, mbind, cmd_bind, outcome_bind.
  destruct (malloc_cases _ live size Hinv Hs)
    as [(b & h' & -> & Hff & HN & Hinv' & Hsa & _)| [-> | ->]]; simpl; [| |done].
  - pose proof (free_run_fits _ _ _ (blocks_for_pos size ltac:(lia)) (proj1 Hff)) as Hfit.
    pose proof Hinv as [Htot Hsp Hal Htop _].
    unfold SERPAEOS_HEAP_BLOCK_SIZE in *.
    pose proof (blocks_for_pos size ltac:(lia)).
    assert (0 < block_addr (kernel_heap k) b < 2147483648) as Hp
      by (unfold block_addr, SERPAEOS_HEAP_BLOCK_SIZE; lia).
    rewrite (proj2 (Z.eqb_neq _ 0)) by lia. simpl. intros [= <- <-].
    split; [by eexists|]. right. split; [done|]. split.
    { unfold block_addr, SERPAEOS_HEAP_BLOCK_SIZE. zlia. }
    split.
    { rewrite (kmem_live_spec k live) by done. intros (c & Hc%block_addr_inj & Hl). subst c.
      rewrite HN in Hl. by destruct Hl. }
    by apply (kmem_live_insert k _ live b (blocks_for size)).
  - intros [= <- <-]. split; [by exists live|]. left. done.
Qed.

Lemma kfree_spec p k :
  kmem_ok k -> (p ∈ kmem_live k) ->
  exists k', kfree p k = Ret (tt, k') /\ kmem_ok k' /\ kmem_live k' = kmem_live k ∖ {[p]}.
Proof.
  intros [live Hinv] Hp. apply (kmem_live_spec k live p Hinv) in Hp as (b & -> & [n Hn]).
  pose proof (live_in_range _ live Hinv b n Hn).
  destruct (mark_free_inv _ live Hinv b n Hn) as (h' & Hf & Hsa & Hinv' & _).
  unfold kfree, heap_free. rewrite (block_addr_block _ live Hinv) by lia. rewrite Hf. simpl.
  eexists. split; [done|]. split; [by eexists|]. by apply (kmem_live_delete k _ live b).
Qed.

Definition kmem_room (k : kmem) : nat := free_blocks (kernel_heap k).

Lemma kzalloc_room size k :
  kmem_ok k -> 0 < size <= 4096 -> (0 < kmem_room k)%nat ->
  exists p k', kzalloc size k = Ret (p, k') /\ p <> 0 /\ S (kmem_room k') = kmem_room k.
Proof.
  intros [live Hinv] Hs Hroom. unfold kzalloc, kmalloc, mbind, cmd_bind, outcome_bind.
  destruct (malloc_one_block _ live size Hinv Hs Hroom) as (b & h' & -> & Hb & Hr).
  pose proof Hinv as [_ Hsp _ _ _].
  assert (block_addr (kernel_heap k) b <> 0) as Hp
    by (unfold block_addr, SERPAEOS_HEAP_BLOCK_SIZE; lia).
  simpl. rewrite (proj2 (Z.eqb_neq _ 0)) by done. simpl. eauto.
Qed.

(** Freeing only writes free entries. *)
Lemma insert_free_count (es : list Z) i :
  (length (filter is_free es) <= length (filter is_free (<[i := HEAP_BLOCK_TABLE_ENTRY_FREE]> es)))%nat.
Proof.
  destruct (es !! i) as [e|] eqn:Hi.
  - rewrite insert_take_drop by (by eapply lookup_lt_Some).
    rewrite <- (take_drop_middle _ _ _ Hi) at 1. rewrite !filter_app, !length_app, !filter_cons.
    rewrite (decide_True (P := is_free HEAP_BLOCK_TABLE_ENTRY_FREE)) by done.
    case_decide; simpl; lia.
  - apply lookup_ge_None_1 in Hi. by rewrite list_insert_ge by lia.
Qed.

Lemma mark_free_count n es i es' :
  mark_free_loop n es i = Ret es' -> (length (filter is_free es) <= length (filter is_free es'))%nat.
Proof.
  revert es i. induction n as [|n IH]; intros es i; cbn [mark_free_loop]; [by intros [= <-]|].
  destruct (load es i) as [e| | |]; try done. simpl mbind.
  destruct (store es i HEAP_BLOCK_TABLE_ENTRY_FREE) as [es1| | |] eqn:Hs; try done. simpl mbind.
  apply store_inv in Hs as [_ ->]. pose proof (insert_free_count es (Z.to_nat i)).
  bcase; [intros [= <-]; done|]. intros Hr%IH. lia.
Qed.

Lemma kfree_room p k k' :
  kmem_ok k -> (p ∈ kmem_live k) -> kfree p k = Ret (tt, k') -> (kmem_room k <= kmem_room k')%nat.
Proof.
  intros _ _. unfold kfree, heap_free, heap_mark_blocks_free.
  destruct (mark_free_loop _ _ _) as [es'| | |] eqn:E; try done. simpl. intros [= <-].
  apply mark_free_count in E. exact E.
Qed.

#[export] Instance kmem_allocator_ok : AllocatorOk kmem := {|
  live_ptrs := kmem_live;
  alloc_ok := kmem_ok;
  kz_spec := kzalloc_spec;
  kf_spec := kfree_spec;
  room := kmem_room;
  kz_room := kzalloc_room;
  kf_room := kfree_room
|}.

(** ** Zeroing *)
Lemma zero_fill_lookup n ptr m a :
  zero_fill n ptr m !! a =
    if decide (ptr <= a < ptr + Z.of_nat n) then Some 0 else m !! a.
Proof.
  revert ptr m. induction n as [|n IH]; intros ptr m; simpl.
  { rewrite decide_False by lia. done. }
  rewrite IH. destruct (decide (a = ptr)) as [->|Hne].
  - rewrite decide_False, decide_True, lookup_insert_eq by lia. done.
  - rewrite lookup_insert_ne by done. by do 2 case_decide; try lia.
Qed.

Lemma kzalloc_zeroed size k p k' a :
  kzalloc size k = Ret (p, k') -> p <> 0 -> p <= a < p + size -> mem k' !! a = Some 0.
Proof.
  unfold kzalloc, mbind, cmd_bind. destruct (kmalloc size k) as [[q k1]| | |]; simpl; try done.
  destruct (q =? 0) eqn:Hq; breflect; simpl; intros [= <- <-] Hp Ha; [done|].
  simpl. rewrite zero_fill_lookup, decide_True by lia. done.
Qed.

(** ** Properties *)

(** [kheap_init] does not panic: the constants of config.h satisfy the
    checks of [heap_create], and whatever the memory at the table's address
    held, the kernel starts with 409600 free blocks at 0x01000000. *)
Theorem kheap_init_ok h0 raw :
  Z.of_nat (length raw) = 409600 ->
  exists h, kheap_init h0 raw = Ret h /\ heap_inv h ∅ /\
    saddr h = SERPAEOS_HEAP_ADDRESS /\ total (table h) = 409600 /\
    entries (table h) = replicate (length raw) HEAP_BLOCK_TABLE_ENTRY_FREE.
Proof.
  intros Hlen. unfold kheap_init.
  change (SERPAEOS_HEAP_SIZE_BYTES / SERPAEOS_HEAP_BLOCK_SIZE) with 409600.
  pose proof (heap_create_ok h0 SERPAEOS_HEAP_ADDRESS
    (SERPAEOS_HEAP_ADDRESS + SERPAEOS_HEAP_SIZE_BYTES) (mk_heap_table raw 409600)
    ltac:(done) ltac:(done) eq_refl eq_refl eq_refl ltac:(done)) as Hc.
  rewrite Hc. eexists. split; [done|]. split; [|done].
  by eapply heap_create_inv; [..|exact Hc].
Qed.

Lemma kheap_init_ok_witness :
  exists h, kheap_init demo_heap (replicate (Z.to_nat 409600) 0xFF) = Ret h /\ total (table h) = 409600.
Proof.
  destruct (kheap_init_ok demo_heap (replicate (Z.to_nat 409600) 0xFF)) as (h & Hk & _ & _ & Ht & _).
  - rewrite length_replicate, Z2Nat.id by lia. reflexivity.
  - exists h. split; [exact Hk|exact Ht].
Defined.

(** [kfree(NULL)] does not return early: the null pointer is turned into a
    negative block number, whatever the place and size of the heap. *)
Lemma kfree_null k : kmem_ok k -> kfree 0 k = Oob.
Proof.
  intros [live [Htot Hs Hal Htop _]]. unfold kfree, heap_free, heap_address_to_block, heap_mark_blocks_free.
  unfold SERPAEOS_HEAP_BLOCK_SIZE in *. rewrite (s32_id (0 - _)), (s32_id (total _)) by lia.
  rewrite Z.sub_0_l, Z.quot_opp_l, Z.quot_div_nonneg by lia.
  assert (0 < saddr (kernel_heap k) / 4096) by zlia.
  destruct (Z.to_nat _) as [|n] eqn:E; [lia|]. cbn [mark_free_loop]. by rewrite load_oob by lia.
Qed.
