(* ===== verification/AllocSpans.v ===== *)
(** * Extents of allocations

    A second interface of the allocator, for clients that use the memory
    behind a pointer page by page: every live pointer has a number of blocks,
    and the ranges of two live pointers do not overlap.  The kernel heap
    implements it. *)
From S2P Require Import Prelude Config CMem Heap HeapSpec Kheap.

(** The blocks of a request. *)
Definition pages_for (size : Z) : Z := (size + 4095) / 4096.

Class AllocatorSpans (H : Type) `{AllocatorOk H} := {
  spans : H -> gmap Z Z -> Prop;
  spans_ok : forall h m, spans h m -> alloc_ok h;
  spans_exists : forall h, alloc_ok h -> exists m, spans h m;
  spans_live : forall h m, spans h m -> dom m = live_ptrs h;
  spans_range : forall h m p n, spans h m -> m !! p = Some n ->
    0 < p /\ p mod 4096 = 0 /\ 0 < n /\ p + n * 4096 <= 2147483648;
  spans_disjoint : forall h m p q n k, spans h m -> m !! p = Some n -> m !! q = Some k -> p <> q ->
    p + n * 4096 <= q \/ q + k * 4096 <= p;
  kz_spans : forall size h m p h', spans h m -> 0 < size <= 2147479552 -> kz size h = Ret (p, h') ->
    if decide (p = 0) then spans h' m else m !! p = None /\ spans h' (<[p := pages_for size]> m);
  kf_spans : forall h m p n, spans h m -> m !! p = Some n ->
    exists h', kf p h = Ret (tt, h') /\ spans h' (delete p m)
}.

(** ** The kernel heap *)
#[export] Instance block_addr_inj_inst h : Inj (=) (=) (block_addr h).
Proof. intros a b. apply block_addr_inj. Qed.

Definition kmem_spans (k : kmem) (m : gmap Z Z) : Prop :=
  exists live, heap_inv (kernel_heap k) live /\ m = kmap (block_addr (kernel_heap k)) (Z.of_nat <$> live).

Lemma kmem_spans_lookup k live p n :
  kmap (M2 := gmap Z) (block_addr (kernel_heap k)) (Z.of_nat <$> (live : gmap nat nat)) !! p = Some n <->
  exists b c, p = block_addr (kernel_heap k) b /\ live !! b = Some c /\ n = Z.of_nat c.
Proof.
  rewrite lookup_kmap_Some by apply _. split.
  - intros (b & -> & Hb). rewrite lookup_fmap_Some in Hb. destruct Hb as (c & <- & Hc). by exists b, c.
  - intros (b & c & -> & Hc & ->). exists b. split; [done|]. by rewrite lookup_fmap, Hc.
Qed.

Lemma kmem_spans_range k m p n :
  kmem_spans k m -> m !! p = Some n -> 0 < p /\ p mod 4096 = 0 /\ 0 < n /\ p + n * 4096 <= 2147483648.
Proof.
  intros (live & Hinv & ->) (b & c & -> & Hc & ->)%kmem_spans_lookup.
  pose proof (live_in_range _ live Hinv b c Hc) as Hr. destruct Hinv as [Htot Hs Hal Htop _].
  unfold block_addr, SERPAEOS_HEAP_BLOCK_SIZE in *. split_and!; try lia. zlia.
Qed.

Lemma kmem_spans_disjoint k m p q n c :
  kmem_spans k m -> m !! p = Some n -> m !! q = Some c -> p <> q ->
  p + n * 4096 <= q \/ q + c * 4096 <= p.
Proof.
  intros (live & Hinv & ->) (b1 & c1 & -> & H1 & ->)%kmem_spans_lookup (b2 & c2 & -> & H2 & ->)%kmem_spans_lookup Hne.
  assert (b1 <> b2) by congruence.
  pose proof (live_disjoint _ live Hinv b1 c1 b2 c2 H1 H2 ltac:(done)).
  unfold block_addr, SERPAEOS_HEAP_BLOCK_SIZE. lia.
Qed.

Lemma kmem_kz_spans size k m p k' :
  kmem_spans k m -> 0 < size <= 2147479552 -> kzalloc size k = Ret (p, k') ->
  if decide (p = 0) then kmem_spans k' m else m !! p = None /\ kmem_spans k' (<[p := pages_for size]> m).
Proof.
  intros (live & Hinv & ->) Hs. unfold kzalloc, kmalloc, mbind, cmd_bind, outcome_bind.
  destruct (malloc_cases _ live size Hinv Hs)
    as [(b & h' & -> & _ & HN & Hinv' & Hsa & _)| [-> | ->]]; simpl; [| |done].
  - assert (Hp : 0 < block_addr (kernel_heap k) b).
    { pose proof Hinv as [_ Hsp _ _ _]. unfold block_addr, SERPAEOS_HEAP_BLOCK_SIZE. lia. }
    rewrite (proj2 (Z.eqb_neq _ 0)) by lia. simpl. intros [= <- <-].
    rewrite decide_False by lia. split.
    { apply eq_None_not_Some. intros [n (c & d & Hc%block_addr_inj & Hd & _)%kmem_spans_lookup]. subst c. congruence. }
    exists (<[b := blocks_for size]> live). split; [done|]. cbn [kernel_heap].
    assert (Hba : forall x, block_addr h' x = block_addr (kernel_heap k) x) by (intros; unfold block_addr; by rewrite Hsa).
    apply map_eq. intros q. apply option_eq. intros n.
    rewrite (kmem_spans_lookup (mk_kmem h' (zero_fill (Z.to_nat size) (block_addr (kernel_heap k) b) (mem k)))). cbn [kernel_heap].
    rewrite lookup_insert_Some, kmem_spans_lookup. split.
    + intros [[<- <-]|[Hne (c & d & -> & Hd & ->)]].
      * exists b, (blocks_for size). rewrite Hba, lookup_insert_eq. split_and!; [done|done|].
        unfold blocks_for, pages_for. rewrite Z2Nat.id by zlia. done.
      * exists c, d. rewrite Hba, lookup_insert_ne by congruence. done.
    + intros (c & d & -> & Hd & ->). rewrite Hba. apply lookup_insert_Some in Hd as [[<- <-]|[Hne Hd]].
      * left. split; [done|]. unfold blocks_for, pages_for. rewrite Z2Nat.id by zlia. done.
      * right. split; [by intros ?%block_addr_inj|]. by exists c, d.
  - intros [= <- <-]. rewrite decide_True by done. by exists live.
Qed.

Lemma kmem_kf_spans k m p n :
  kmem_spans k m -> m !! p = Some n -> exists k', kfree p k = Ret (tt, k') /\ kmem_spans k' (delete p m).
Proof.
  intros (live & Hinv & ->) (b & c & -> & Hc & ->)%kmem_spans_lookup.
  pose proof (live_in_range _ live Hinv b c Hc).
  destruct (mark_free_inv _ live Hinv b c Hc) as (h' & Hf & Hsa & Hinv' & _).
  unfold kfree, heap_free. rewrite (block_addr_block _ live Hinv) by lia. rewrite Hf. simpl.
  eexists. split; [done|]. exists (delete b live). cbn [kernel_heap]. split; [done|].
  rewrite fmap_delete. assert (Hba : block_addr h' = block_addr (kernel_heap k)) by (unfold block_addr; by rewrite Hsa).
  by rewrite Hba, kmap_delete by apply _.
Qed.

Lemma kmem_spans_live k m : kmem_spans k m -> dom m = kmem_live k.
Proof.
  intros (live & Hinv & ->). apply set_eq. intros p. rewrite elem_of_dom, (kmem_live_spec k live p Hinv). split.
  - intros [n (b & c & -> & Hc & _)%kmem_spans_lookup]. exists b. split; [done|by eexists].
  - intros (b & -> & [c Hc]). exists (Z.of_nat c). apply kmem_spans_lookup. by exists b, c.
Qed.

Lemma kmem_spans_ok k m : kmem_spans k m -> kmem_ok k.
Proof. intros (live & Hinv & _). by exists live. Qed.

Lemma kmem_spans_exists k : kmem_ok k -> exists m, kmem_spans k m.
Proof. intros [live Hinv]. eexists. by exists live. Qed.

#[export] Instance kmem_allocator_spans : AllocatorSpans kmem := {|
  spans := kmem_spans;
  spans_ok := kmem_spans_ok;
  spans_exists := kmem_spans_exists;
  spans_live := kmem_spans_live;
  spans_range := kmem_spans_range;
  spans_disjoint := kmem_spans_disjoint;
  kz_spans := kmem_kz_spans;
  kf_spans := kmem_kf_spans
|}.

(** ** Pointers into a block

    [kfree] rounds a pointer down to its block, so that a pointer anywhere into
    the first block of an allocation frees the allocation. *)
Class AllocatorInterior (H : Type) `{AllocatorOk H} := {
  kf_interior : forall p o h, alloc_ok h -> p ∈ live_ptrs h -> 0 <= o < 4096 -> kf (p + o) h = kf p h
}.

Lemma kfree_interior p o k : kmem_ok k -> p ∈ kmem_live k -> 0 <= o < 4096 -> kfree (p + o) k = kfree p k.
Proof.
  intros [live Hinv] Hp Ho. apply (kmem_live_spec k live p Hinv) in Hp as (b & -> & [n Hn]).
  pose proof (live_in_range _ live Hinv b n Hn). unfold kfree, heap_free.
  rewrite (block_addr_block _ live Hinv) by lia.
  assert (heap_address_to_block (kernel_heap k) (block_addr (kernel_heap k) b + o) = Z.of_nat b) as ->; [|done].
  destruct Hinv as [Htot Hs Hal Htop _]. unfold heap_address_to_block, block_addr, SERPAEOS_HEAP_BLOCK_SIZE in *.
  rewrite s32_id by lia. rewrite Z.quot_div_nonneg by lia. zlia.
Qed.

#[export] Instance kmem_allocator_interior : AllocatorInterior kmem := {| kf_interior := kfree_interior |}.
