(* ===== verification/Paging.v ===== *)
(** * Paging (src/src/memory/paging/paging.c)

    Page directories and page tables are arrays of 1024 32-bit words in kernel
    memory, found by their address.  A [paging_4gb_chunk] holds the address of
    a directory.  The allocator is used through its interface. *)
From S2P Require Import Prelude Config Kheap.

Definition PAGING_CACHE_DISABLED : Z := 0x10.
Definition PAGING_WRITE_THROUGH : Z := 0x08.
Definition PAGING_ACCESS_FROM_ALL : Z := 0x04.
Definition PAGING_IS_WRITEABLE : Z := 0x02.
Definition PAGING_IS_PRESENT : Z := 0x01.
Definition PAGING_TOTAL_ENTRIES_PER_TABLE : Z := 1024.
Definition PAGING_PAGE_SIZE : Z := 4096.

(** Arrays of words in memory, by address.  Address 0 is the null pointer. *)
Definition arrays : Type := gmap Z (list Z).

Definition wload (ar : gmap Z (list Z)) (p i : Z) : outcome Z :=
  if p =? 0 then Oob else match ar !! p with Some l => load l i | None => Oob end.

Definition wstore (ar : gmap Z (list Z)) (p i v : Z) : outcome (gmap Z (list Z)) :=
  if p =? 0 then Oob
  else match ar !! p with
       | Some l => l ← store l i v; Ret (<[p := l]> ar)
       | None => Oob
       end.

(** [chunk_ptr] is the address of the struct itself. *)
Record paging_4gb_chunk := mk_chunk { chunk_ptr : Z; directory_entry : Z }.

Definition paging_4gb_chunk_get_directory (chunk : paging_4gb_chunk) : Z := directory_entry chunk.

Definition paging_is_aligned (addr : Z) : bool := u32 addr mod PAGING_PAGE_SIZE =? 0.

(** The result and the two out parameters, which stay as they were on an error. *)
Definition paging_get_indexes (virtual_address directory_index table_index : Z) : Z * Z * Z :=
  if negb (paging_is_aligned virtual_address) then (- EINVARG, directory_index, table_index)
  else
    (0,
     u32 virtual_address / (PAGING_TOTAL_ENTRIES_PER_TABLE * PAGING_PAGE_SIZE),
     u32 virtual_address mod (PAGING_TOTAL_ENTRIES_PER_TABLE * PAGING_PAGE_SIZE) / PAGING_PAGE_SIZE).

Definition paging_align_address (ptr : Z) : Z :=
  if c_true (u32 ptr mod PAGING_PAGE_SIZE)
  then u32 (u32 ptr + PAGING_PAGE_SIZE - u32 ptr mod PAGING_PAGE_SIZE)
  else ptr.

Definition paging_align_to_lower_page (addr : Z) : Z :=
  let _addr := u32 addr in
  _addr - _addr mod PAGING_PAGE_SIZE.

Definition paging_set (ar : gmap Z (list Z)) (directory virt val : Z)
    : outcome (Z * gmap Z (list Z)) :=
  if negb (paging_is_aligned virt) then Ret (- EINVARG, ar)
  else
    let '(res, directory_index, table_index) := paging_get_indexes virt 0 0 in
    if res <? 0 then Ret (res, ar)
    else
      entry ← wload ar directory directory_index;
      let table := Z.land entry 0xfffff000 in
      ar ← wstore ar table table_index val;
      Ret (0, ar).

(** The result of [paging_get_indexes] is ignored here. *)
Definition paging_get (ar : gmap Z (list Z)) (directory virt : Z) : outcome Z :=
  let '(_, directory_index, table_index) := paging_get_indexes virt 0 0 in
  entry ← wload ar directory directory_index;
  let table := Z.land entry 0xfffff000 in
  wload ar table table_index.

Definition paging_map (ar : gmap Z (list Z)) (directory : paging_4gb_chunk)
    (virt phys flags : Z) : outcome (Z * gmap Z (list Z)) :=
  if c_true (u32 virt mod PAGING_PAGE_SIZE) || c_true (u32 phys mod PAGING_PAGE_SIZE)
  then Ret (- EINVARG, ar)
  else paging_set ar (directory_entry directory) virt (u32 (Z.lor (u32 phys) flags)).

(** [res] is the value of the variable when the loop is entered. *)
Fixpoint map_range_loop (n : nat) (ar : gmap Z (list Z)) (directory : paging_4gb_chunk)
    (virt phys flags res : Z) : outcome (Z * gmap Z (list Z)) :=
  match n with
  | O => Ret (res, ar)
  | S n =>
      '(res, ar) ← paging_map ar directory virt phys flags;
      if res <? 0 then Ret (res, ar)
      else map_range_loop n ar directory (u32 (virt + PAGING_PAGE_SIZE))
             (u32 (phys + PAGING_PAGE_SIZE)) flags res
  end.

Definition paging_map_range (ar : gmap Z (list Z)) (directory : paging_4gb_chunk)
    (virt phys count flags : Z) : outcome (Z * gmap Z (list Z)) :=
  map_range_loop (Z.to_nat count) ar directory virt phys flags 0.

Definition paging_map_to (ar : gmap Z (list Z)) (directory : paging_4gb_chunk)
    (virt phys phys_end flags : Z) : outcome (Z * gmap Z (list Z)) :=
  if c_true (u32 virt mod PAGING_PAGE_SIZE) then Ret (- EINVARG, ar)
  else if c_true (u32 phys mod PAGING_PAGE_SIZE) then Ret (- EINVARG, ar)
  else if c_true (u32 phys_end mod PAGING_PAGE_SIZE) then Ret (- EINVARG, ar)
  else if u32 phys_end <? u32 phys then Ret (- EINVARG, ar)
  else
    let total_bytes := u32 (phys_end - phys) in
    let total_pages := s32 (total_bytes / PAGING_PAGE_SIZE) in
    paging_map_range ar directory virt phys total_pages flags.

Definition paging_get_physical_address (ar : gmap Z (list Z)) (directory virt : Z) : outcome Z :=
  let virt_addr_new := paging_align_to_lower_page virt in
  let difference := u32 (u32 virt - u32 virt_addr_new) in
  entry ← paging_get ar directory virt_addr_new;
  Ret (u32 (Z.land entry 0xfffff000 + difference)).

(** ** Building and releasing an address space *)
Section with_allocator.
Context {H : Type} `{AllocatorOk H}.

(** The allocator, the word arrays, and the directory the processor uses. *)
Record pstate := mk_pstate { palloc : H; parrays : gmap Z (list Z); current_directory : Z }.

Definition pk {A} (c : cmd H A) : cmd pstate A := fun s =>
  '(a, h) ← c (palloc s); Ret (a, mk_pstate h (parrays s) (current_directory s)).

Definition pa {A} (f : gmap Z (list Z) -> outcome (A * gmap Z (list Z))) : cmd pstate A := fun s =>
  '(a, ar) ← f (parrays s); Ret (a, mk_pstate (palloc s) ar (current_directory s)).

(** [kzalloc(sizeof(uint32_t) * n)]: a zeroed array appears at the pointer. *)
Definition kzalloc_words (n : nat) : cmd pstate Z :=
  p ← pk (kz (4 * Z.of_nat n));
  pa (fun ar => Ret (p, if p =? 0 then ar else <[p := replicate n 0]> ar)).

(** The inner loop, on the array at [entry]. *)
Definition fill_table (entry offset flags : Z) (ar : gmap Z (list Z))
    : outcome (unit * gmap Z (list Z)) :=
  if entry =? 0 then Oob
  else match ar !! entry with
       | None => Oob
       | Some l =>
           l ← store_loop (fun b => u32 (Z.lor (s32 (offset + b * PAGING_PAGE_SIZE)) flags))
                 (Z.to_nat PAGING_TOTAL_ENTRIES_PER_TABLE) l 0;
           Ret (tt, <[entry := l]> ar)
       end.

Fixpoint new_tables (n : nat) (directory i offset flags : Z) : cmd pstate unit :=
  match n with
  | O => mret tt
  | S n =>
      entry ← kzalloc_words 1024;
      pa (fill_table entry offset flags);;
      let offset := s32 (offset + PAGING_TOTAL_ENTRIES_PER_TABLE * PAGING_PAGE_SIZE) in
      pa (fun ar =>
            ar ← wstore ar directory i (u32 (Z.lor (Z.lor entry flags) PAGING_IS_WRITEABLE));
            Ret (tt, ar));;
      new_tables n directory (i + 1) offset flags
  end.

Definition paging_new_4gb (flags : Z) : cmd pstate paging_4gb_chunk :=
  directory ← kzalloc_words 1024;
  new_tables (Z.to_nat PAGING_TOTAL_ENTRIES_PER_TABLE) directory 0 0 flags;;
  chunk_4gb ← pk (kz 4);
  (if chunk_4gb =? 0 then liftO Oob else mret tt);;
  mret (mk_chunk chunk_4gb directory).

(** [paging_load_directory] writes CR3, which the global mirrors. *)
Definition paging_switch (directory : paging_4gb_chunk) : cmd pstate unit :=
  modifyS (fun s => mk_pstate (palloc s) (parrays s) (directory_entry directory)).

Fixpoint free_tables (n : nat) (chunk : paging_4gb_chunk) (i : Z) : cmd pstate unit :=
  match n with
  | O => mret tt
  | S n =>
      entry ← pa (fun ar => e ← wload ar (directory_entry chunk) i; Ret (e, ar));
      let table := Z.land entry 0xfffff000 in
      pk (kf table);;
      free_tables n chunk (i + 1)
  end.

Definition paging_free_4gb (chunk : paging_4gb_chunk) : cmd pstate unit :=
  free_tables 1024 chunk 0;;
  pk (kf (directory_entry chunk));;
  pk (kf (chunk_ptr chunk)).
End with_allocator.
Arguments pstate H : clear implicits.
