(* ===== verification/PagingSpec.v ===== *)
(** * What the paging code promises

    Well-formed address spaces, the entry of a page as the code reads it, and
    the effect of every mapping operation on all 2^20 pages at once. *)
From S2P Require Import Prelude Config Kheap Paging.

(** Number of pages of a 32-bit address space. *)
Definition NPAGES : Z := 1048576.

(** [dir] is a directory whose 1024 entries refer to the distinct tables
    [tabs], each of 1024 words. *)
Record dir_wf (ar : gmap Z (list Z)) (dir : Z) (tabs : list Z) : Prop := {
  wf_dir : dir <> 0;
  wf_len : length tabs = 1024%nat;
  wf_nodup : NoDup tabs;
  wf_fresh : dir ∉ tabs;
  wf_entries : exists d, ar !! dir = Some d /\ length d = 1024%nat /\
    forall i t, tabs !! i = Some t ->
      exists e, d !! i = Some e /\ 0 <= e < 4294967296 /\ e / 4096 * 4096 = t;
  wf_tables : forall i t, tabs !! i = Some t ->
    t <> 0 /\ exists l, ar !! t = Some l /\ length l = 1024%nat /\
                        Forall (fun e => 0 <= e < 4294967296) l
}.

(** The entry of page [vp]. *)
Definition pte (ar : gmap Z (list Z)) (dir vp : Z) : outcome Z := paging_get ar dir (vp * 4096).

Lemma get_indexes_page vp a b :
  0 <= vp < NPAGES -> paging_get_indexes (vp * 4096) a b = (0, vp / 1024, vp mod 1024).
Proof.
  unfold NPAGES. intros Hvp. unfold paging_get_indexes, paging_is_aligned.
  unfold PAGING_PAGE_SIZE, PAGING_TOTAL_ENTRIES_PER_TABLE. rewrite u32_id by lia.
  rewrite Z.mod_mul by lia. simpl. f_equal; [f_equal|]; zlia.
Qed.

Lemma page_aligned vp : 0 <= vp < NPAGES -> paging_is_aligned (vp * 4096) = true.
Proof.
  unfold NPAGES. intros Hvp. unfold paging_is_aligned, PAGING_PAGE_SIZE. rewrite u32_id by lia.
  rewrite Z.mod_mul by lia. done.
Qed.

Section wf.
Context (ar : gmap Z (list Z)) (dir : Z) (tabs : list Z) (Hwf : dir_wf ar dir tabs).

(** The table that holds the entry of a page. *)
Lemma table_of vp :
  0 <= vp < NPAGES ->
  exists e t l, wload ar dir (vp / 1024) = Ret e /\ Z.land e 0xfffff000 = t /\
    tabs !! Z.to_nat (vp / 1024) = Some t /\ t <> 0 /\ ar !! t = Some l /\
    length l = 1024%nat /\ Forall (fun e => 0 <= e < 4294967296) l.
Proof using Hwf.
  unfold NPAGES. intros Hvp. destruct Hwf as [Hd Hlen _ _ (d & Hdir & Hdl & Hent) Htab].
  destruct (lookup_lt_is_Some_2 tabs (Z.to_nat (vp / 1024))) as [t Ht]; [rewrite Hlen; zlia|].
  destruct (Hent _ _ Ht) as (e & He & Hr & Hpe). destruct (Htab _ _ Ht) as (Ht0 & l & Hl & Hll & Hfl).
  exists e, t, l. split_and!; try done; [|rewrite land_page by done; done].
  unfold wload. rewrite (proj2 (Z.eqb_neq dir 0)), Hdir by done.
  apply load_Some; [zlia|done].
Qed.

Lemma pte_lookup vp :
  0 <= vp < NPAGES ->
  exists t l e, tabs !! Z.to_nat (vp / 1024) = Some t /\ ar !! t = Some l /\
    l !! Z.to_nat (vp mod 1024) = Some e /\ 0 <= e < 4294967296 /\ pte ar dir vp = Ret e.
Proof using Hwf.
  intros Hvp. destruct (table_of vp Hvp) as (e & t & l & He & Hland & Ht & Ht0 & Hl & Hll & Hfl).
  destruct (lookup_lt_is_Some_2 l (Z.to_nat (vp mod 1024))) as [v Hv]; [rewrite Hll; zlia|].
  exists t, l, v. split_and!; try done.
  1, 2: by eapply (Forall_lookup_1 _ _ _ _ Hfl Hv).
  unfold pte, paging_get. rewrite get_indexes_page by done. rewrite He. simpl.
  rewrite Hland. unfold wload. rewrite (proj2 (Z.eqb_neq t 0)), Hl by done.
  apply load_Some; [zlia|done].
Qed.

(** Writing the entry of one page. *)
Lemma paging_set_page vp val :
  0 <= vp < NPAGES -> 0 <= val < 4294967296 ->
  exists ar', paging_set ar dir (vp * 4096) val = Ret (0, ar') /\ dir_wf ar' dir tabs /\
    (forall p, p ∉ tabs -> ar' !! p = ar !! p) /\
    forall vp', 0 <= vp' < NPAGES ->
      pte ar' dir vp' = if decide (vp' = vp) then Ret val else pte ar dir vp'.
Proof using Hwf.
  intros Hvp Hval. destruct (table_of vp Hvp) as (e & t & l & He & Hland & Ht & Ht0 & Hl & Hll & Hfl).
  set (l' := <[Z.to_nat (vp mod 1024) := val]> l).
  assert (Htt : t ∈ tabs) by (by eapply list_elem_of_lookup_2).
  assert (Hset : paging_set ar dir (vp * 4096) val = Ret (0, <[t := l']> ar)).
  { unfold paging_set. rewrite page_aligned, get_indexes_page by done. simpl.
    rewrite He. simpl. rewrite Hland. unfold wstore.
    rewrite (proj2 (Z.eqb_neq t 0)), Hl, store_Ret by (done || (rewrite Hll; zlia)). done. }
  exists (<[t := l']> ar).
  assert (Hwf' : dir_wf (<[t := l']> ar) dir tabs).
  { destruct Hwf as [Hd Hlen Hnd Hfr (d & Hdir & Hdl & Hent) Htab]. split; [done..| |].
    - exists d. rewrite lookup_insert_ne by (by intros ->). done.
    - intros i t' Ht'. destruct (decide (t' = t)) as [->|Hne].
      + split; [done|]. exists l'. rewrite lookup_insert_eq. split_and!; [done| |].
        * subst l'. by rewrite length_insert.
        * by apply Forall_insert.
      + rewrite lookup_insert_ne by done. by apply (Htab i). }
  split_and!; [done|done|by intros p Hp; rewrite lookup_insert_ne by (by intros ->)|].
  intros vp' Hvp'. destruct (table_of vp' Hvp') as (e2 & t2 & l2 & He2 & Hland2 & Ht2 & Ht20 & Hl2 & Hll2 & Hfl2).
  unfold pte, paging_get. rewrite get_indexes_page by done.
  assert (wload (<[t := l']> ar) dir (vp' / 1024) = wload ar dir (vp' / 1024)) as ->.
  { unfold wload. rewrite lookup_insert_ne; [done|]. pose proof (wf_fresh _ _ _ Hwf). by intros ->. }
  rewrite He2. simpl. rewrite Hland2. unfold wload.
  rewrite (proj2 (Z.eqb_neq t2 0)) by done. rewrite lookup_insert.
  case_decide as Heq.
  - rewrite <- Heq in *. assert (l2 = l) as -> by congruence.
    assert (vp' / 1024 = vp / 1024) as Hdiv.
    { pose proof (NoDup_lookup _ _ _ _ (wf_nodup _ _ _ Hwf) Ht Ht2). unfold NPAGES in *. zlia. }
    subst l'. rewrite Hl. case_decide.
    + subst vp'. apply load_Some; [zlia|]. apply list_lookup_insert_eq. rewrite Hll. zlia.
    + destruct (lookup_lt_is_Some_2 l (Z.to_nat (vp' mod 1024))) as [v Hv]; [rewrite Hll; zlia|].
      rewrite (load_Some l _ v) by (zlia || done).
      apply load_Some; [zlia|]. rewrite list_lookup_insert_ne; [done|]. unfold NPAGES in *. zlia.
  - rewrite Hl2. rewrite decide_False; [done|]. intros ->. congruence.
Qed.
End wf.

(** ** Mapping ranges *)
Definition page_entry (pp flags : Z) : Z := pp * 4096 + flags.

Lemma lor_entry pp flags :
  0 <= pp < NPAGES -> 0 <= flags < 4096 ->
  u32 (Z.lor (u32 (pp * 4096)) flags) = page_entry pp flags.
Proof.
  unfold NPAGES. intros Hp Hf. rewrite (u32_id (pp * 4096)) by lia. rewrite lor_page by done.
  rewrite u32_id; unfold page_entry; lia.
Qed.

Lemma page_mod pp : 0 <= pp < NPAGES -> c_true (u32 (pp * 4096) mod PAGING_PAGE_SIZE) = false.
Proof.
  unfold NPAGES. intros Hp. rewrite u32_id by lia. unfold PAGING_PAGE_SIZE. by rewrite Z.mod_mul by lia.
Qed.

Lemma map_page ar c tabs vp pp flags :
  dir_wf ar (directory_entry c) tabs ->
  0 <= vp < NPAGES -> 0 <= pp < NPAGES -> 0 <= flags < 4096 ->
  exists ar', paging_map ar c (vp * 4096) (pp * 4096) flags = Ret (0, ar') /\
    dir_wf ar' (directory_entry c) tabs /\
    (forall p, p ∉ tabs -> ar' !! p = ar !! p) /\
    forall vp', 0 <= vp' < NPAGES ->
      pte ar' (directory_entry c) vp' =
        if decide (vp' = vp) then Ret (page_entry pp flags) else pte ar (directory_entry c) vp'.
Proof.
  intros Hwf Hv Hp Hf. unfold paging_map. rewrite !page_mod by done. simpl.
  rewrite lor_entry by done. apply paging_set_page; [done..|].
  unfold page_entry, NPAGES in *. lia.
Qed.

Lemma map_range_loop_spec n ar c tabs vp pp flags :
  dir_wf ar (directory_entry c) tabs ->
  0 <= vp -> vp + Z.of_nat n <= NPAGES -> 0 <= pp -> pp + Z.of_nat n <= NPAGES -> 0 <= flags < 4096 ->
  exists ar', map_range_loop n ar c (u32 (vp * 4096)) (u32 (pp * 4096)) flags 0 = Ret (0, ar') /\
    dir_wf ar' (directory_entry c) tabs /\
    (forall p, p ∉ tabs -> ar' !! p = ar !! p) /\
    forall vp', 0 <= vp' < NPAGES ->
      pte ar' (directory_entry c) vp' =
        if decide (vp <= vp' < vp + Z.of_nat n) then Ret (page_entry (pp + (vp' - vp)) flags)
        else pte ar (directory_entry c) vp'.
Proof.
  revert ar vp pp. induction n as [|n IH]; intros ar vp pp Hwf Hv Hvn Hp Hpn Hf.
  { exists ar. split_and!; [done..|]. intros vp' _. by rewrite decide_False by lia. }
  simpl. rewrite (u32_id (vp * 4096)), (u32_id (pp * 4096)) by (unfold NPAGES in *; lia).
  destruct (map_page ar c tabs vp pp flags) as (ar1 & -> & Hwf1 & Hfr1 & Hpte1); [done|lia|lia|done|].
  simpl. unfold PAGING_PAGE_SIZE.
  replace (vp * 4096 + 4096) with ((vp + 1) * 4096) by lia.
  replace (pp * 4096 + 4096) with ((pp + 1) * 4096) by lia.
  destruct (IH ar1 (vp + 1) (pp + 1) Hwf1) as (ar2 & Hm & Hwf2 & Hfr2 & Hpte2); [lia..|done|].
  exists ar2. split_and!; [done|done|by intros p Hpt; rewrite Hfr2, Hfr1|].
  intros vp' Hvp'. rewrite Hpte2, Hpte1 by done. destruct (decide (vp' = vp)) as [->|].
  - rewrite !decide_False, decide_True by lia. f_equal. f_equal. lia.
  - destruct (decide (vp <= vp' < vp + Z.of_nat (S n))).
    + rewrite decide_True by lia. do 2 f_equal. lia.
    + rewrite decide_False by lia. done.
Qed.

Lemma map_to_pages ar c tabs vp pp pe flags :
  dir_wf ar (directory_entry c) tabs ->
  0 <= vp -> 0 <= pp <= pe -> pe < NPAGES -> vp + (pe - pp) <= NPAGES -> vp < NPAGES -> 0 <= flags < 4096 ->
  exists ar', paging_map_to ar c (vp * 4096) (pp * 4096) (pe * 4096) flags = Ret (0, ar') /\
    dir_wf ar' (directory_entry c) tabs /\
    (forall p, p ∉ tabs -> ar' !! p = ar !! p) /\
    forall vp', 0 <= vp' < NPAGES ->
      pte ar' (directory_entry c) vp' =
        if decide (vp <= vp' < vp + (pe - pp)) then Ret (page_entry (pp + (vp' - vp)) flags)
        else pte ar (directory_entry c) vp'.
Proof.
  intros Hwf Hv Hp Hpe Hvn Hvn' Hf. unfold paging_map_to. rewrite !page_mod by lia.
  unfold NPAGES in *. rewrite (u32_id (pe * 4096)), (u32_id (pp * 4096)) by lia.
  rewrite (proj2 (Z.ltb_ge _ _)) by lia. unfold paging_map_range, PAGING_PAGE_SIZE.
  replace (pe * 4096 - pp * 4096) with ((pe - pp) * 4096) by lia.
  rewrite (u32_id ((pe - pp) * 4096)), Z.div_mul, s32_id by lia.
  destruct (map_range_loop_spec (Z.to_nat (pe - pp)) ar c tabs vp pp flags) as (ar' & Hm & Hrest);
    [done|unfold NPAGES; lia..|done|].
  rewrite (u32_id (vp * 4096)), (u32_id (pp * 4096)) in Hm by lia.
  rewrite Z2Nat.id in Hrest by lia. by exists ar'.
Qed.

(** ** Address translation *)
Lemma physical_address ar dir vp off pp flags :
  0 <= vp < NPAGES -> 0 <= off < 4096 -> 0 <= pp < NPAGES -> 0 <= flags < 4096 ->
  pte ar dir vp = Ret (page_entry pp flags) ->
  paging_get_physical_address ar dir (vp * 4096 + off) = Ret (pp * 4096 + off).
Proof.
  unfold NPAGES. intros Hv Ho Hp Hf Hpte.
  unfold paging_get_physical_address, paging_align_to_lower_page, PAGING_PAGE_SIZE.
  rewrite (u32_id (vp * 4096 + off)) by lia.
  replace (vp * 4096 + off - (vp * 4096 + off) mod 4096) with (vp * 4096) by zlia.
  unfold pte in Hpte. rewrite Hpte. simpl. rewrite land_page by (unfold page_entry; lia).
  unfold page_entry. replace ((pp * 4096 + flags) / 4096) with pp by zlia.
  rewrite (u32_id (vp * 4096)) by lia. rewrite (u32_id (_ - _)) by lia. rewrite u32_id by lia.
  f_equal. lia.
Qed.
