(* ===== verification/AddressSpace.v ===== *)
(** * Whole address spaces

    [paging_new_4gb] builds an identity-mapped address space out of 1026
    allocations, and [paging_free_4gb] gives every one of them back.  Both are
    proved against the allocator's interface, so they hold for any
    implementation of it. *)
From S2P Require Import Prelude Config Kheap Paging PagingSpec HeapSpec Heap.

(** The words of the [k]th table of an identity mapping. *)
Definition identity_table (k : nat) (flags : Z) : list Z :=
  (fun b => page_entry (Z.of_nat k * 1024 + b) flags) <$> seqZ 0 1024.

Lemma identity_table_lookup k flags b :
  0 <= b < 1024 ->
  identity_table k flags !! Z.to_nat b = Some (page_entry (Z.of_nat k * 1024 + b) flags).
Proof.
  intros Hb. unfold identity_table. rewrite list_lookup_fmap, lookup_seqZ_lt by lia. simpl.
  do 3 f_equal. lia.
Qed.

Lemma length_identity_table k flags : length (identity_table k flags) = 1024%nat.
Proof. unfold identity_table. by rewrite length_fmap, length_seqZ. Qed.

(** The word the inner loop computes, through the [int] offset that wraps
    half-way through the address space. *)
Lemma table_word k b flags :
  (k < 1024)%nat -> 0 <= b < 1024 -> 0 <= flags < 4096 ->
  u32 (Z.lor (s32 (s32 (Z.of_nat k * 4194304) + b * 4096)) flags) =
    page_entry (Z.of_nat k * 1024 + b) flags.
Proof.
  intros Hk Hb Hf.
  assert (exists a, s32 (s32 (Z.of_nat k * 4194304) + b * 4096) = a * 4096 /\
                    (a - (Z.of_nat k * 1024 + b)) mod 1048576 = 0) as (a & -> & Ha).
  { exists (s32 (s32 (Z.of_nat k * 4194304) + b * 4096) / 4096). unfold s32. split; zlia. }
  rewrite lor_page by done. unfold page_entry, u32. zlia.
Qed.

Lemma fill_table_spec k entry flags ar :
  entry <> 0 -> (k < 1024)%nat -> 0 <= flags < 4096 ->
  ar !! entry = Some (replicate 1024 0) ->
  fill_table entry (s32 (Z.of_nat k * 4194304)) flags ar =
    Ret (tt, <[entry := identity_table k flags]> ar).
Proof.
  intros He Hk Hf Har. unfold fill_table. rewrite (proj2 (Z.eqb_neq entry 0)), Har by done.
  change (Z.to_nat PAGING_TOTAL_ENTRIES_PER_TABLE) with 1024%nat. unfold PAGING_PAGE_SIZE.
  destruct (store_loop_spec (fun b => u32 (Z.lor (s32 (s32 (Z.of_nat k * 4194304) + b * 4096)) flags))
              1024 (replicate 1024 0) 0) as (l & -> & Hlen & Hl);
    [lia|rewrite length_replicate; lia|].
  change (0 + Z.of_nat 1024) with 1024 in Hl. rewrite length_replicate in Hlen.
  change ((l ← Ret l; Ret (tt, <[entry := l]> ar)) =
    Ret (tt, <[entry := identity_table k flags]> ar)). simpl mbind.
  do 3 f_equal. apply list_eq. intros j. rewrite Hl.
  destruct (decide (0 <= Z.of_nat j < 1024)) as [Hj|Hj].
  - rewrite table_word by done. rewrite <- (Nat2Z.id j) at 2. by rewrite identity_table_lookup.
  - rewrite !lookup_ge_None_2; [done|rewrite length_identity_table; lia|rewrite length_replicate; lia].
Qed.

(** The word stored in the directory for table [t]. *)
Definition dir_word (t flags : Z) : Z := t + Z.lor flags PAGING_IS_WRITEABLE.

Lemma lor_flags_range flags : 0 <= flags < 4096 -> 0 <= Z.lor flags PAGING_IS_WRITEABLE < 4096.
Proof.
  intros Hf. split; [apply Z.lor_nonneg; unfold PAGING_IS_WRITEABLE; lia|].
  change 4096 with (2 ^ 12) in *. destruct (decide (flags = 0)) as [->|]; [done|].
  assert (0 < Z.lor flags PAGING_IS_WRITEABLE) as Hpos.
  { assert (0 <= Z.lor flags PAGING_IS_WRITEABLE) by (apply Z.lor_nonneg; unfold PAGING_IS_WRITEABLE; lia).
    destruct (decide (Z.lor flags PAGING_IS_WRITEABLE = 0)) as [H0|]; [|lia].
    apply Z.lor_eq_0_iff in H0. lia. }
  apply Z.log2_lt_pow2; [done|]. rewrite Z.log2_lor by (unfold PAGING_IS_WRITEABLE; lia).
  apply Z.max_lub_lt; [apply Z.log2_lt_pow2; lia|done].
Qed.

Lemma dir_word_eq t flags :
  0 < t < 2147483648 -> t mod 4096 = 0 -> 0 <= flags < 4096 ->
  u32 (Z.lor (Z.lor t flags) PAGING_IS_WRITEABLE) = dir_word t flags /\
  0 <= dir_word t flags < 4294967296 /\ dir_word t flags / 4096 * 4096 = t.
Proof.
  intros Ht Hm Hf. pose proof (lor_flags_range flags Hf). rewrite <- Z.lor_assoc.
  replace t with (t / 4096 * 4096) at 1 by zlia. rewrite lor_page by done.
  unfold dir_word. split; [rewrite u32_id; zlia|zlia].
Qed.

Section with_allocator.
Context {H : Type} `{AllocatorOk H}.

Implicit Types s : pstate H.
Definition live s : gset Z := live_ptrs (palloc s).
Definition proom s : nat := room (palloc s).

(** An allocation of at most one block, while there is room. *)
Lemma pk_kz size s :
  alloc_ok (palloc s) -> 0 < size <= 4096 -> (0 < proom s)%nat ->
  exists p h, pk (kz size) s = Ret (p, mk_pstate h (parrays s) (current_directory s)) /\
    0 < p < 2147483648 /\ p mod 4096 = 0 /\ (p ∉ live s) /\
    alloc_ok h /\ live_ptrs h = {[p]} ∪ live s /\ S (room h) = proom s.
Proof.
  intros Hok Hs Hr. destruct (kz_room size (palloc s) Hok Hs Hr) as (p & h & Hk & Hp & Hroom).
  destruct (kz_spec size (palloc s) p h Hok ltac:(lia) Hk) as (Hok' & [[-> _] | (Hpr & Hpm & Hnew & Hl)]);
    [done|].
  exists p, h. unfold pk. rewrite Hk. split_and!; try done; lia.
Qed.

Lemma kzalloc_words_ok n s :
  alloc_ok (palloc s) -> (0 < n <= 1024)%nat -> (0 < proom s)%nat ->
  exists p h, kzalloc_words n s =
      Ret (p, mk_pstate h (<[p := replicate n 0]> (parrays s)) (current_directory s)) /\
    0 < p < 2147483648 /\ p mod 4096 = 0 /\ (p ∉ live s) /\
    alloc_ok h /\ live_ptrs h = {[p]} ∪ live s /\ S (room h) = proom s.
Proof.
  intros Hok Hn Hr. destruct (pk_kz (4 * Z.of_nat n) s) as (p & h & Hk & Hp & Hrest); [done|lia|done|].
  exists p, h. split; [|done]. unfold kzalloc_words, mbind, cmd_bind. rewrite Hk.
  unfold pa. simpl. by rewrite (proj2 (Z.eqb_neq p 0)) by lia.
Qed.

(** The directory while it is being built: its first entries refer to [tabs]. *)
Record building s (dir : Z) (flags : Z) (tabs : list Z) : Prop := {
  b_ok : alloc_ok (palloc s);
  b_dir : 0 < dir < 2147483648;
  b_dir_live : dir ∈ live s;
  b_live : forall t, t ∈ tabs -> t ∈ live s;
  b_nodup : NoDup (dir :: tabs);
  b_entries : exists d, parrays s !! dir = Some d /\ length d = 1024%nat /\
    forall i t, tabs !! i = Some t -> d !! i = Some (dir_word t flags);
  b_tables : forall i t, tabs !! i = Some t ->
    0 < t < 2147483648 /\ t mod 4096 = 0 /\ parrays s !! t = Some (identity_table i flags)
}.

(** One turn of the outer loop. *)
Lemma new_table_step s dir flags tabs t h :
  building s dir flags tabs -> 0 <= flags < 4096 -> (length tabs < 1024)%nat ->
  0 < t < 2147483648 -> t mod 4096 = 0 -> (t ∉ live s) ->
  alloc_ok h -> live_ptrs h = {[t]} ∪ live s ->
  exists ar, wstore (<[t := identity_table (length tabs) flags]> (parrays s)) dir
               (Z.of_nat (length tabs)) (dir_word t flags) = Ret ar /\
    building (mk_pstate h ar (current_directory s)) dir flags (tabs ++ [t]) /\
    forall p, p ∈ live s -> p <> dir -> ar !! p = parrays s !! p.
Proof.
  intros [Hok Hd Hdl Htl Hnd (d & Hdir & Hdlen & Hent) Htab] Hf Hlen Ht Htm Htn Hok' Hl'.
  assert (t <> dir) by (by intros ->).
  assert (t ∉ tabs) as Htt by (by intros ?%Htl).
  unfold wstore. rewrite (proj2 (Z.eqb_neq dir 0)), lookup_insert_ne, Hdir, store_Ret by (done || lia).
  simpl. eexists. split; [done|]. rewrite Nat2Z.id.
  set (ar := <[dir := _]> _). split; [split; simpl|].
  - done.
  - done.
  - unfold live. simpl. rewrite Hl'. by apply elem_of_union_r.
  - unfold live. simpl. rewrite Hl'. intros x. rewrite elem_of_app, list_elem_of_singleton.
    intros [?%Htl| ->]; [by apply elem_of_union_r|by apply elem_of_union_l, elem_of_singleton].
  - rewrite app_comm_cons. apply NoDup_app. split; [done|]. split; [|apply NoDup_singleton].
    intros x Hx. rewrite list_elem_of_singleton. intros ->. by apply elem_of_cons in Hx as [?|?].
  - exists (<[length tabs := dir_word t flags]> d). subst ar. rewrite lookup_insert_eq, length_insert.
    split_and!; [done..|]. intros i t' Hi. apply lookup_app_Some in Hi as [Hi|[Hi1 Hi2]].
    + rewrite list_lookup_insert_ne by (apply lookup_lt_Some in Hi; lia). auto.
    + destruct (i - length tabs)%nat eqn:E; [|done]. injection Hi2 as <-.
      replace i with (length tabs) by lia. apply list_lookup_insert_eq. lia.
  - intros i t' Hi. apply lookup_app_Some in Hi as [Hi|[Hi1 Hi2]].
    + destruct (Htab i t' Hi) as (Hr & Hm & Ha). split_and!; try done; try lia. subst ar.
      apply list_elem_of_lookup_2 in Hi. apply NoDup_cons in Hnd as [Hnd _].
      rewrite !lookup_insert_ne by (by intros ->). done.
    + destruct (i - length tabs)%nat eqn:E; [|done]. injection Hi2 as <-.
      replace i with (length tabs) by lia. split_and!; try done; try lia. subst ar.
      by rewrite lookup_insert_ne, lookup_insert_eq.
  - intros p Hp Hpd. subst ar. rewrite !lookup_insert_ne by (done || (by intros ->)). done.
Qed.

Lemma new_tables_spec n s dir flags tabs :
  building s dir flags tabs -> 0 <= flags < 4096 -> (length tabs + n = 1024)%nat -> (n <= proom s)%nat ->
  exists s' tabs', new_tables n dir (Z.of_nat (length tabs)) (s32 (Z.of_nat (length tabs) * 4194304)) flags s
      = Ret (tt, s') /\
    building s' dir flags (tabs ++ tabs') /\ length tabs' = n /\
    live s' = list_to_set tabs' ∪ live s /\ (forall t, t ∈ tabs' -> t ∉ live s) /\
    (proom s' + n = proom s)%nat /\ current_directory s' = current_directory s /\
    forall p, p ∈ live s -> p <> dir -> parrays s' !! p = parrays s !! p.
Proof.
  revert s tabs. induction n as [|n IH]; intros s tabs Hb Hf Hlen Hr.
  { exists s, []. rewrite app_nil_r. split_and!; try done; [by simpl; rewrite (left_id_L ∅ (∪))|by intros t ?%elem_of_nil]. }
  simpl. destruct (kzalloc_words_ok 1024 s) as (t & h & Hk & Ht & Htm & Htn & Hok & Hl & Hroom);
    [apply Hb|lia|lia|].
  unfold mbind, cmd_bind. rewrite Hk. unfold pa. cbn [parrays palloc current_directory].
  rewrite (fill_table_spec (length tabs)) by (lia || done || by rewrite lookup_insert_eq).
  cbn [mbind outcome_bind parrays palloc current_directory].
  rewrite insert_insert_eq. rewrite (proj1 (dir_word_eq t flags Ht Htm Hf)).
  destruct (new_table_step s dir flags tabs t h) as (ar & -> & Hb' & Hfr); try done; [lia|].
  cbn [mbind outcome_bind parrays palloc current_directory].
  destruct (IH (mk_pstate h ar (current_directory s)) (tabs ++ [t])) as
    (s' & tabs' & Hn & Hb2 & Hl2 & Hlive & Hnew & Hroom2 & Hcur & Hfr2); try done.
  { rewrite length_app. simpl. lia. }
  { unfold proom in *. simpl. lia. }
  assert (forall x, x ∈ live s -> x ∈ live (mk_pstate h ar (current_directory s))) as Hsub.
  { intros x Hx. unfold live in *. simpl. rewrite Hl. by apply elem_of_union_r. }
  rewrite length_app in Hn. simpl in Hn. rewrite Nat2Z.inj_add in Hn.
  exists s', (t :: tabs'). rewrite <- app_assoc in Hb2. split.
  { etransitivity; [|exact Hn]. f_equal. unfold PAGING_TOTAL_ENTRIES_PER_TABLE, PAGING_PAGE_SIZE, s32.
    zlia. }
  split_and!; try done.
  - simpl. lia.
  - rewrite Hlive. unfold live in *. simpl. rewrite Hl.
    by rewrite (assoc_L (∪)), (comm_L (∪) (list_to_set tabs')).
  - intros x [-> |Hx]%elem_of_cons; [done|]. intros Hxs. by apply (Hnew x Hx), Hsub.
  - unfold proom in *. simpl in *. lia.
  - intros p Hp Hpd. rewrite Hfr2 by auto. simpl. auto.
Qed.

Lemma building_wf s dir flags tabs :
  building s dir flags tabs -> 0 <= flags < 4096 -> length tabs = 1024%nat ->
  dir_wf (parrays s) dir tabs /\
  forall vp, 0 <= vp < NPAGES -> pte (parrays s) dir vp = Ret (page_entry vp flags).
Proof.
  intros [Hok Hd Hdl Htl Hnd (d & Hdir & Hdlen & Hent) Htab] Hf Hlen.
  apply NoDup_cons in Hnd as [Hfr Hnd].
  assert (Hwf : dir_wf (parrays s) dir tabs).
  { split; [lia|done|done|done| |].
    - exists d. split_and!; [done..|]. intros i t Hi. exists (dir_word t flags).
      destruct (Htab i t Hi) as (Hr & Hm & _). split; [by apply Hent|].
      by apply dir_word_eq.
    - intros i t Hi. destruct (Htab i t Hi) as (Hr & Hm & Ha). split; [lia|].
      exists (identity_table i flags). rewrite length_identity_table. split_and!; [done..|].
      apply lookup_lt_Some in Hi. unfold identity_table. apply Forall_fmap, Forall_seqZ.
      intros b Hb. unfold page_entry. simpl. lia. }
  split; [done|]. intros vp Hvp.
  destruct (pte_lookup _ _ _ Hwf vp Hvp) as (t & l & e & Ht & Hl & He & _ & ->).
  destruct (Htab _ _ Ht) as (_ & _ & Ha). assert (l = identity_table (Z.to_nat (vp / 1024)) flags) as -> by congruence.
  unfold NPAGES in Hvp. rewrite identity_table_lookup in He by zlia. injection He as <-.
  do 2 f_equal. zlia.
Qed.

(** What a finished address space owns. *)
Definition owned (c : paging_4gb_chunk) (tabs : list Z) : gset Z :=
  {[chunk_ptr c]} ∪ ({[directory_entry c]} ∪ list_to_set tabs).

Lemma new_4gb_spec flags s :
  alloc_ok (palloc s) -> 0 <= flags < 256 -> (1026 <= proom s)%nat ->
  exists c tabs s', paging_new_4gb flags s = Ret (c, s') /\
    alloc_ok (palloc s') /\ dir_wf (parrays s') (directory_entry c) tabs /\
    (forall vp, 0 <= vp < NPAGES ->
       pte (parrays s') (directory_entry c) vp = Ret (page_entry vp flags)) /\
    live s' = owned c tabs ∪ live s /\ owned c tabs ## live s /\
    NoDup (chunk_ptr c :: directory_entry c :: tabs) /\
    (proom s' + 1026 = proom s)%nat /\ current_directory s' = current_directory s /\ chunk_ptr c <> 0 /\
    forall p, p ∈ live s -> parrays s' !! p = parrays s !! p.
Proof.
  intros Hok Hf Hr. unfold paging_new_4gb.
  destruct (kzalloc_words_ok 1024 s) as (d & h & Hk & Hd & Hdm & Hdn & Hok1 & Hl1 & Hr1); [done|lia|lia|].
  unfold mbind at 1, cmd_bind at 1. rewrite Hk.
  set (s1 := mk_pstate h (<[d := replicate 1024 0]> (parrays s)) (current_directory s)).
  assert (Hb : building s1 d flags []).
  { split; try done; [by unfold live; simpl; rewrite Hl1; apply elem_of_union_l, elem_of_singleton
      |by intros t ?%elem_of_nil|apply NoDup_singleton|].
    exists (replicate 1024 0). unfold s1. cbn [parrays]. by rewrite lookup_insert_eq, length_replicate. }
  destruct (new_tables_spec 1024 s1 d flags [] Hb) as
    (s2 & tabs & Hn & Hb2 & Hlen & Hl2 & Hnew & Hr2 & Hcur & Hfr); [lia|done|unfold proom in *; simpl; lia|].
  change (s32 (Z.of_nat (length (@nil Z)) * 4194304)) with 0 in Hn.
  change (Z.of_nat (length (@nil Z))) with 0 in Hn. simpl app in Hb2.
  change (Z.to_nat PAGING_TOTAL_ENTRIES_PER_TABLE) with 1024%nat.
  unfold mbind at 1, cmd_bind at 1. rewrite Hn.
  destruct (pk_kz 4 s2) as (c & h2 & Hk2 & Hc & _ & Hcn & Hok3 & Hl3 & Hr3);
    [apply Hb2|lia|unfold proom in *; simpl in *; lia|].
  unfold mbind at 1, cmd_bind at 1. rewrite Hk2, (proj2 (Z.eqb_neq c 0)) by lia.
  exists (mk_chunk c d), tabs, (mk_pstate h2 (parrays s2) (current_directory s2)).
  destruct (building_wf s2 d flags tabs Hb2) as [Hwf Hpte]; [lia|done|].
  assert (Hlive1 : live s1 = {[d]} ∪ live s) by done.
  pose proof (b_nodup _ _ _ _ Hb2) as Hnd.
  split; [done|]. split_and!; try done; unfold owned; simpl.
  - unfold live at 1. simpl. rewrite Hl3, Hl2, Hlive1. clear. set_solver.
  - rewrite Hl2, Hlive1 in Hcn. rewrite Hlive1 in Hnew. clear -Hnew Hcn Hdn. set_solver.
  - apply NoDup_cons. split; [|done]. rewrite Hl2, Hlive1 in Hcn. clear -Hcn. set_solver.
  - unfold proom in *. simpl in *. lia.
  - lia.
  - intros p Hp. assert (p <> d) by (by intros ->). rewrite Hfr; [|rewrite Hlive1; clear -Hp; set_solver|done].
    unfold s1. simpl. by rewrite lookup_insert_ne.
Qed.

(** ** Releasing *)
Lemma pk_kf p s :
  alloc_ok (palloc s) -> p ∈ live s ->
  exists h, pk (kf p) s = Ret (tt, mk_pstate h (parrays s) (current_directory s)) /\
    alloc_ok h /\ live_ptrs h = live s ∖ {[p]}.
Proof.
  intros Hok Hp. destruct (kf_spec p (palloc s) Hok Hp) as (h & Hk & Hok' & Hl).
  exists h. unfold pk. rewrite Hk. done.
Qed.

Lemma free_tables_spec n s c tabs i :
  dir_wf (parrays s) (directory_entry c) tabs -> alloc_ok (palloc s) ->
  (i + n = 1024)%nat -> (forall t, t ∈ drop i tabs -> t ∈ live s) ->
  exists h, free_tables n c (Z.of_nat i) s = Ret (tt, mk_pstate h (parrays s) (current_directory s)) /\
    alloc_ok h /\ live_ptrs h = live s ∖ list_to_set (drop i tabs).
Proof.
  revert s i. induction n as [|n IH]; intros s i Hwf Hok Hi Hlive.
  { exists (palloc s). rewrite drop_ge by (rewrite (wf_len _ _ _ Hwf); lia). simpl.
    rewrite difference_empty_L. by destruct s. }
  destruct Hwf as [Hd Hlen Hnd Hfr (d & Hdir & Hdl & Hent) Htab] eqn:Hw. clear Hw.
  destruct (lookup_lt_is_Some_2 tabs i) as [t Ht]; [lia|].
  destruct (Hent i t Ht) as (e & He & Her & Hpage).
  rewrite (drop_S _ _ _ Ht) in Hlive |- *.
  destruct (pk_kf t s) as (h & Hk & Hok' & Hl); [done|apply Hlive; by left|].
  cbn [free_tables]. unfold mbind at 1, cmd_bind at 1, pa.
  unfold wload. rewrite (proj2 (Z.eqb_neq (directory_entry c) 0)), Hdir by done.
  rewrite (load_Some d (Z.of_nat i) e) by (lia || by rewrite Nat2Z.id).
  cbn [mbind outcome_bind parrays palloc current_directory].
  rewrite land_page, Hpage by done.
  assert (mk_pstate (palloc s) (parrays s) (current_directory s) = s) as -> by (by destruct s).
  unfold mbind, cmd_bind. rewrite Hk. replace (Z.of_nat i + 1) with (Z.of_nat (S i)) by lia.
  destruct (IH (mk_pstate h (parrays s) (current_directory s)) (S i)) as (h' & -> & Hok2 & Hl2); try done; [lia| |].
  { intros t' Ht'. unfold live. simpl. rewrite Hl. apply elem_of_difference.
    split; [apply Hlive; by right|]. rewrite elem_of_singleton. intros ->.
    apply list_elem_of_lookup in Ht' as [k Hk']. rewrite lookup_drop in Hk'.
    pose proof (NoDup_lookup _ _ _ _ Hnd Ht Hk'). lia. }
  exists h'. split_and!; [done..|]. rewrite Hl2. unfold live. simpl. rewrite Hl. clear. set_solver.
Qed.

Lemma free_4gb_spec c tabs s :
  alloc_ok (palloc s) -> dir_wf (parrays s) (directory_entry c) tabs ->
  NoDup (chunk_ptr c :: directory_entry c :: tabs) -> owned c tabs ⊆ live s ->
  exists s', paging_free_4gb c s = Ret (tt, s') /\ alloc_ok (palloc s') /\
    live s' = live s ∖ owned c tabs.
Proof.
  intros Hok Hwf Hnd Hown. unfold owned in *.
  apply NoDup_cons in Hnd as [Hc Hnd]. apply NoDup_cons in Hnd as [Hd Hnd].
  destruct (free_tables_spec 1024 s c tabs 0) as (h & Hf & Hok1 & Hl1); try done.
  { simpl. intros t Ht. clear -Ht Hown. set_solver. }
  change (drop 0 tabs) with tabs in Hl1. change (Z.of_nat 0) with 0 in Hf.
  unfold paging_free_4gb, mbind, cmd_bind. rewrite Hf.
  destruct (pk_kf (directory_entry c) (mk_pstate h (parrays s) (current_directory s)))
    as (h2 & -> & Hok2 & Hl2); [done| |].
  { unfold live. simpl. rewrite Hl1. clear -Hown Hd. set_solver. }
  destruct (pk_kf (chunk_ptr c) (mk_pstate h2 (parrays s) (current_directory s)))
    as (h3 & Hk3 & Hok3 & Hl3); [done| |].
  { unfold live. simpl. rewrite Hl2. unfold live. simpl. rewrite Hl1. clear -Hown Hd Hc. set_solver. }
  cbn [parrays current_directory]. rewrite Hk3.
  eexists. split_and!; [done..|]. unfold live in *. simpl in *. rewrite Hl3, Hl2, Hl1.
  clear. set_solver.
Qed.
End with_allocator.

(** ** Every mapping call keeps the address space well formed *)
Lemma aligned_page virt : paging_is_aligned virt = true -> exists vp, 0 <= vp < NPAGES /\ u32 virt = vp * 4096.
Proof.
  unfold paging_is_aligned, PAGING_PAGE_SIZE. intros Ha. breflect. pose proof (u32_range virt).
  exists (u32 virt / 4096). unfold NPAGES. zlia.
Qed.

Lemma paging_set_u32 ar dir virt val : paging_set ar dir (u32 virt) val = paging_set ar dir virt val.
Proof.
  unfold paging_set, paging_is_aligned, paging_get_indexes, paging_is_aligned.
  by rewrite (u32_id (u32 virt)) by apply u32_range.
Qed.

Lemma paging_map_wf ar c tabs virt phys flags :
  dir_wf ar (directory_entry c) tabs ->
  exists r ar', paging_map ar c virt phys flags = Ret (r, ar') /\ dir_wf ar' (directory_entry c) tabs.
Proof.
  intros Hwf. unfold paging_map. bcase; [by eauto|]. breflect.
  rewrite <- paging_set_u32.
  destruct (aligned_page virt) as (vp & Hvp & ->).
  { unfold paging_is_aligned. unfold c_true in *. by destruct (_ =? 0). }
  destruct (paging_set_page ar _ tabs Hwf vp (u32 (Z.lor (u32 phys) flags)) Hvp (u32_range _))
    as (ar' & -> & Hwf' & _). by eauto.
Qed.

Lemma map_range_loop_wf n ar c tabs virt phys flags res :
  dir_wf ar (directory_entry c) tabs ->
  exists r ar', map_range_loop n ar c virt phys flags res = Ret (r, ar') /\ dir_wf ar' (directory_entry c) tabs.
Proof.
  revert ar virt phys res. induction n as [|n IH]; intros ar virt phys res Hwf; simpl; [by eauto|].
  destruct (paging_map_wf ar c tabs virt phys flags Hwf) as (r & ar' & -> & Hwf'). simpl.
  bcase; [by eauto|by apply IH].
Qed.

Lemma map_to_wf ar c tabs virt phys phys_end flags :
  dir_wf ar (directory_entry c) tabs ->
  exists r ar', paging_map_to ar c virt phys phys_end flags = Ret (r, ar') /\
    dir_wf ar' (directory_entry c) tabs.
Proof.
  intros Hwf. unfold paging_map_to, paging_map_range.
  repeat (bcase; [by eauto|]). by apply map_range_loop_wf.
Qed.

(** Any sequence of [paging_map_to] calls, with any arguments, good or bad. *)
Inductive mappings (c : paging_4gb_chunk) (ar : gmap Z (list Z)) : gmap Z (list Z) -> Prop :=
| mappings_none : mappings c ar ar
| mappings_call ar1 ar2 virt phys phys_end flags r :
    mappings c ar ar1 -> paging_map_to ar1 c virt phys phys_end flags = Ret (r, ar2) ->
    mappings c ar ar2.

Lemma mappings_wf c ar ar' tabs :
  mappings c ar ar' -> dir_wf ar (directory_entry c) tabs -> dir_wf ar' (directory_entry c) tabs.
Proof.
  intros Hm Hwf. induction Hm as [|ar1 ar2 virt phys phys_end flags r _ IH Hc]; [done|].
  destruct (map_to_wf ar1 c tabs virt phys phys_end flags IH) as (r' & ar3 & Hc' & Hwf').
  congruence.
Qed.

Definition set_arrays {H} (s : pstate H) (ar : gmap Z (list Z)) : pstate H :=
  mk_pstate (palloc s) ar (current_directory s).

(** ** Properties *)

(** C2: an address space can be built whenever the allocator has room for
    1026 blocks; each of its 2^20 pages is then mapped to itself with the
    flags that were asked for; and after any sequence of [paging_map_to]
    calls, whatever their arguments, [paging_free_4gb] succeeds and leaves
    exactly the allocations that were live before: nothing leaks, nothing is
    freed twice. *)
Theorem address_space_lifecycle {H} `{AllocatorOk H} (s : pstate H) flags :
  alloc_ok (palloc s) -> 0 <= flags < 256 -> (1026 <= room (palloc s))%nat ->
  exists c s1, paging_new_4gb flags s = Ret (c, s1) /\
    (forall vp off, 0 <= vp < NPAGES -> 0 <= off < 4096 ->
       pte (parrays s1) (directory_entry c) vp = Ret (page_entry vp flags) /\
       paging_get_physical_address (parrays s1) (directory_entry c) (vp * 4096 + off) =
         Ret (vp * 4096 + off)) /\
    forall ar, mappings c (parrays s1) ar ->
      exists s2, paging_free_4gb c (set_arrays s1 ar) = Ret (tt, s2) /\ alloc_ok (palloc s2) /\
        live_ptrs (palloc s2) = live_ptrs (palloc s).
Proof.
  intros Hok Hf Hr.
  destruct (new_4gb_spec flags s Hok Hf Hr)
    as (c & tabs & s1 & Hn & Hok1 & Hwf & Hpte & Hl1 & Hdisj & Hnd & _).
  exists c, s1. split; [done|]. split.
  { intros vp off Hvp Hoff. split; [by apply Hpte|].
    apply (physical_address _ _ _ _ _ flags); try done; [lia|by apply Hpte]. }
  intros ar Hm. destruct (free_4gb_spec c tabs (set_arrays s1 ar)) as (s2 & Hfree & Hok2 & Hl2); try done.
  - by eapply mappings_wf.
  - change (live (set_arrays s1 ar)) with (live s1). rewrite Hl1. set_solver.
  - exists s2. split_and!; [done..|]. change (live_ptrs (palloc s2)) with (live s2).
    rewrite Hl2. change (live (set_arrays s1 ar)) with (live s1). rewrite Hl1.
    change (live_ptrs (palloc s)) with (live s). set_solver.
Qed.

(** A kernel heap of 1030 free blocks for the witnesses. *)
Definition demo_kmem : kmem :=
  mk_kmem (mk_heap (mk_heap_table (replicate 1030 0x00) 1030) 0x1000000) ∅.

Definition demo_pstate : pstate kmem := mk_pstate demo_kmem ∅ 0.

Lemma demo_kmem_ok : alloc_ok (palloc demo_pstate).
Proof.
  exists ∅. eapply (heap_create_inv demo_heap 0x1000000 0x1406000 (mk_heap_table (replicate 1030 0xFF) 1030));
    [done|done|vm_compute; reflexivity|]. vm_compute. reflexivity.
Qed.

Lemma demo_room : (1026 <= room (palloc demo_pstate))%nat.
Proof. apply Nat.leb_le. vm_compute. reflexivity. Qed.

Lemma address_space_lifecycle_witness :
  exists c s1, paging_new_4gb 7 demo_pstate = Ret (c, s1) /\
    exists s2, paging_free_4gb c (set_arrays s1 (parrays s1)) = Ret (tt, s2) /\
      live_ptrs (palloc s2) = live_ptrs (palloc demo_pstate).
Proof.
  destruct (address_space_lifecycle demo_pstate 7 demo_kmem_ok) as (c & s1 & Hn & _ & Hf).
  - lia.
  - exact demo_room.
  - exists c, s1. split; [exact Hn|].
    destruct (Hf (parrays s1) (mappings_none _ _)) as (s2 & Hs2 & _ & Hl).
    exists s2. split; [exact Hs2|exact Hl].
Defined.

(** In a well-formed address space a page-aligned range that fits maps in
    full: every byte of the range translates to the corresponding physical
    byte and carries the flags, every page outside it keeps its entry, and no
    memory outside the page tables is written. *)
Theorem map_to_translates ar c tabs vp pp pe flags :
  dir_wf ar (directory_entry c) tabs ->
  0 <= vp < NPAGES -> 0 <= pp <= pe -> pe < NPAGES -> vp + (pe - pp) <= NPAGES -> 0 <= flags < 4096 ->
  exists ar', paging_map_to ar c (vp * 4096) (pp * 4096) (pe * 4096) flags = Ret (0, ar') /\
    dir_wf ar' (directory_entry c) tabs /\
    (forall b, vp * 4096 <= b < vp * 4096 + (pe - pp) * 4096 ->
       paging_get_physical_address ar' (directory_entry c) b = Ret (b - vp * 4096 + pp * 4096) /\
       paging_get ar' (directory_entry c) (b / 4096 * 4096) =
         Ret (page_entry (b / 4096 - vp + pp) flags)) /\
    (forall vp', 0 <= vp' < NPAGES -> ~ (vp <= vp' < vp + (pe - pp)) ->
       pte ar' (directory_entry c) vp' = pte ar (directory_entry c) vp') /\
    (forall p, p ∉ tabs -> ar' !! p = ar !! p).
Proof.
  intros Hwf Hv Hp Hpe Hfit Hf.
  destruct (map_to_pages ar c tabs vp pp pe flags) as (ar' & Hm & Hwf' & Hfr & Hpte); try done; [lia..|].
  exists ar'. split_and!; try done.
  - intros b Hb. set (q := b / 4096). assert (vp <= q < vp + (pe - pp)) by (subst q; zlia).
    assert (Hq : pte ar' (directory_entry c) q = Ret (page_entry (q - vp + pp) flags)).
    { rewrite Hpte by (unfold NPAGES in *; lia). rewrite decide_True by lia. do 2 f_equal. lia. }
    split; [|exact Hq].
    replace b with (q * 4096 + b mod 4096) by (subst q; zlia).
    rewrite (physical_address _ _ _ _ (q - vp + pp) flags);
      [f_equal; subst q; zlia|unfold NPAGES in *; lia|zlia|unfold NPAGES in *; lia|done|done].
  - intros vp' Hvp' Hout. rewrite Hpte by done. by rewrite decide_False.
Qed.

Lemma map_to_translates_witness :
  exists c ar ar', paging_map_to ar c (1024 * 4096) (4096 * 4096) (4100 * 4096) 7 = Ret (0, ar') /\
    paging_get_physical_address ar' (directory_entry c) 0x401234 = Ret 0x1001234.
Proof.
  destruct (new_4gb_spec 7 demo_pstate demo_kmem_ok ltac:(lia) demo_room)
    as (c & tabs & s1 & _ & _ & Hwf & _).
  destruct (map_to_translates (parrays s1) c tabs 1024 4096 4100 7 Hwf)
    as (ar' & Hm & _ & Htr & _); [unfold NPAGES; lia..|].
  exists c, (parrays s1), ar'. split; [exact Hm|].
  destruct (Htr 0x401234) as [Ht _]; [lia|]. exact Ht.
Defined.

(** [paging_map_to] refuses a misaligned address or a reversed range
    before it touches a page table, and in a well-formed address space it
    refuses nothing else. *)
Theorem map_to_rejects ar c tabs virt phys phys_end flags :
  dir_wf ar (directory_entry c) tabs -> 0 <= flags < 4096 ->
  0 <= virt < 4294967296 -> 0 <= phys < 4294967296 -> 0 <= phys_end < 4294967296 ->
  virt + (phys_end - phys) <= 4294967296 ->
  (virt mod 4096 <> 0 \/ phys mod 4096 <> 0 \/ phys_end mod 4096 <> 0 \/ phys_end < phys ->
     paging_map_to ar c virt phys phys_end flags = Ret (- EINVARG, ar)) /\
  (forall r ar', paging_map_to ar c virt phys phys_end flags = Ret (r, ar') ->
     r = - EINVARG ->
     virt mod 4096 <> 0 \/ phys mod 4096 <> 0 \/ phys_end mod 4096 <> 0 \/ phys_end < phys).
Proof.
  intros Hwf Hf Hv Hp He Hfit. split.
  - intros Hbad. unfold paging_map_to, c_true, PAGING_PAGE_SIZE. rewrite !u32_id by lia.
    destruct (virt mod 4096 =? 0) eqn:E1; [|done]. destruct (phys mod 4096 =? 0) eqn:E2; [|done].
    destruct (phys_end mod 4096 =? 0) eqn:E3; [|done]. destruct (phys_end <? phys) eqn:E4; [done|].
    breflect. lia.
  - intros r ar' Hm ->.
    destruct (decide (virt mod 4096 = 0)) as [E1|]; [|by left].
    destruct (decide (phys mod 4096 = 0)) as [E2|]; [|by right; left].
    destruct (decide (phys_end mod 4096 = 0)) as [E3|]; [|by right; right; left].
    destruct (decide (phys_end < phys)) as [E4|]; [by right; right; right|].
    replace virt with (virt / 4096 * 4096) in Hm by zlia.
    replace phys with (phys / 4096 * 4096) in Hm by zlia.
    replace phys_end with (phys_end / 4096 * 4096) in Hm by zlia.
    destruct (map_to_pages ar c tabs (virt / 4096) (phys / 4096) (phys_end / 4096) flags Hwf)
      as (ar2 & Hm2 & _); [unfold NPAGES; zlia..|done|].
    rewrite Hm in Hm2. injection Hm2 as Hm2 _. done.
Qed.

Lemma map_to_rejects_witness :
  exists c ar, paging_map_to ar c 0x400010 0x1000000 0x1004000 7 = Ret (- EINVARG, ar).
Proof.
  destruct (new_4gb_spec 7 demo_pstate demo_kmem_ok ltac:(lia) demo_room)
    as (c & tabs & s1 & _ & _ & Hwf & _).
  exists c, (parrays s1).
  apply (map_to_rejects (parrays s1) c tabs 0x400010 0x1000000 0x1004000 7 Hwf);
    [lia..|]. left. vm_compute. discriminate.
Defined.
