(* ===== verification/CString.v ===== *)
(** * The kernel's string routines (src/src/string/string.c, string.h)

    A [char *] is the list of bytes that can be reached from it, each a [Z]
    between 0 and 255; reading or writing past the list is [Oob].  [atoi] is
    the C library's of the user programs (src/programs/stdlib/src/string.c). *)
From S2P Require Import Prelude.
From Stdlib Require Strings.Ascii Strings.String.
Export Strings.String.StringSyntax.

(** A literal of the source: its characters, and with the terminator. *)
Definition chars (s : String.string) : list Z :=
  map (fun c => Z.of_N (Ascii.N_of_ascii c)) (String.list_ascii_of_string s).
Arguments chars s%_string_scope.
Definition lit (s : String.string) : list Z := chars s ++ [0].
Arguments lit s%_string_scope.

Fixpoint strlen (ptr : list Z) : outcome Z :=
  match ptr with
  | [] => Oob
  | c :: ptr => if c =? 0 then Ret 0 else n ← strlen ptr; Ret (s32 (n + 1))
  end.

Fixpoint strnlen_loop (n : nat) (ptr : list Z) (i : Z) : outcome Z :=
  match n with
  | O => Ret i
  | S n =>
      c ← load ptr i;
      if c =? 0 then Ret i else strnlen_loop n ptr (i + 1)
  end.

Definition strnlen (ptr : list Z) (max : Z) : outcome Z := strnlen_loop (Z.to_nat max) ptr 0.

Fixpoint strnlen_terminator_loop (n : nat) (str : list Z) (i terminator : Z) : outcome Z :=
  match n with
  | O => Ret i
  | S n =>
      c ← load str i;
      if (c =? 0) || (c =? terminator) then Ret i
      else strnlen_terminator_loop n str (i + 1) terminator
  end.

Definition strnlen_terminator (str : list Z) (max terminator : Z) : outcome Z :=
  strnlen_terminator_loop (Z.to_nat max) str 0 terminator.

Definition toupper (x : Z) : Z := if (97 <=? x) && (x <=? 122) then x - 0x20 else x.
Definition tolower (x : Z) : Z := if (65 <=? x) && (x <=? 90) then x + 0x20 else x.

Fixpoint istrncmp_loop (n : nat) (s1 s2 : list Z) : outcome Z :=
  match n with
  | O => Ret 0
  | S n =>
      match s1, s2 with
      | u1 :: s1, u2 :: s2 =>
          if negb (u1 =? u2) && negb (tolower u1 =? tolower u2) then Ret (u1 - u2)
          else if u1 =? 0 then Ret 0
          else istrncmp_loop n s1 s2
      | _, _ => Oob
      end
  end.

Definition istrncmp (s1 s2 : list Z) (n : Z) : outcome Z := istrncmp_loop (Z.to_nat n) s1 s2.

Fixpoint strncmp_loop (n : nat) (str1 str2 : list Z) : outcome Z :=
  match n with
  | O => Ret 0
  | S n =>
      match str1, str2 with
      | u1 :: str1, u2 :: str2 =>
          if negb (u1 =? u2) then Ret (u1 - u2)
          else if u1 =? 0 then Ret 0
          else strncmp_loop n str1 str2
      | _, _ => Oob
      end
  end.

Definition strncmp (str1 str2 : list Z) (n : Z) : outcome Z := strncmp_loop (Z.to_nat n) str1 str2.

Fixpoint strcpy (dest src : list Z) : outcome (list Z) :=
  match src, dest with
  | c :: src, _ :: dest =>
      if c =? 0 then Ret (0 :: dest) else rest ← strcpy dest src; Ret (c :: rest)
  | _, _ => Oob
  end.

(** The loop leaves with the value of [i]; the terminator is written after it. *)
Fixpoint strncpy_loop (n : nat) (dest src : list Z) (i : Z) : outcome (list Z * Z) :=
  match n with
  | O => Ret (dest, i)
  | S n =>
      c ← load src i;
      if c =? 0 then Ret (dest, i)
      else dest ← store dest i c; strncpy_loop n dest src (i + 1)
  end.

Definition strncpy (dest src : list Z) (count : Z) : outcome (list Z) :=
  '(dest, i) ← strncpy_loop (Z.to_nat (count - 1)) dest src 0;
  store dest i 0.

Definition isdigit (c : Z) : bool := (48 <=? c) && (c <=? 57).
Definition tonumericdigit (c : Z) : Z := c - 48.

(** [text] is the static buffer as the last call left it; the result is the
    buffer and the index of the first character.  An [int] has at most ten
    digits, so eleven turns are enough for the loop test to fail. *)
Fixpoint itoa_loop (fuel : nat) (text : list Z) (loc i : Z) : outcome (list Z * Z) :=
  match fuel with
  | O => OutOfFuel
  | S fuel =>
      if i =? 0 then Ret (text, loc)
      else
        text ← store text (loc - 1) (u8 (48 - Z.rem i 10));
        itoa_loop fuel text (loc - 1) (Z.quot i 10)
  end.

Definition itoa (text : list Z) (i : Z) : outcome (list Z * Z) :=
  let loc := 11 in
  text ← store text 11 0;
  let '(neg, i) := if 0 <=? i then (0, - i) else (1, i) in
  '(text, loc) ← itoa_loop 11 text loc i;
  '(text, loc) ← (if loc =? 11 then text ← store text (loc - 1) 48; Ret (text, loc - 1)
                  else Ret (text, loc));
  if c_true neg then text ← store text (loc - 1) 45; Ret (text, loc - 1)
  else Ret (text, loc).

(** The loop tests and rewrites the first character: the pointer never moves. *)
Fixpoint strupper (fuel : nat) (str : list Z) : outcome (list Z) :=
  match fuel with
  | O => OutOfFuel
  | S fuel =>
      match str with
      | [] => Oob
      | c :: t => if c =? 0 then Ret str else strupper fuel (toupper c :: t)
      end
  end.

Fixpoint atoi_loop (s : list Z) (res : Z) : outcome Z :=
  match s with
  | [] => Oob
  | c :: s =>
      if negb (c =? 0) && isdigit c
      then atoi_loop s (s32 (s32 (res * 10) + tonumericdigit c))
      else Ret res
  end.

Definition atoi (s : list Z) : outcome Z := atoi_loop s 0.

(** ** Strings in buffers *)

(** The buffer starts with the characters [s] and their terminator. *)
Definition cstr (buf s : list Z) : Prop :=
  (0 ∉ s) /\ exists rest, buf = s ++ 0 :: rest.

Lemma cstr_cons c buf s : cstr (c :: buf) (c :: s) <-> c <> 0 /\ cstr buf s.
Proof.
  unfold cstr. rewrite not_elem_of_cons. split.
  - intros [[Hc Hs] [rest [= ->]]]. split; [done|]. split; [done|by exists rest].
  - intros [Hc [Hs [rest ->]]]. split; [done|by exists rest].
Qed.

Lemma cstr_nil buf : cstr buf [] <-> exists rest, buf = 0 :: rest.
Proof. unfold cstr. split; [by intros [_ ?]|]. intros ?. split; [by intros ?%elem_of_nil|done]. Qed.

Lemma cstr_inv buf s :
  cstr buf s ->
  (s = [] /\ exists rest, buf = 0 :: rest) \/
  exists c s' buf', s = c :: s' /\ buf = c :: buf' /\ c <> 0 /\ cstr buf' s'.
Proof.
  intros H. destruct s as [|c s]; [left; split; [done|exact (proj1 (cstr_nil _) H)]|].
  right. destruct H as [Hs [rest ->]]. exists c, s, (s ++ 0 :: rest). split_and!; try done.
  - by apply not_elem_of_cons in Hs as [? _].
  - apply not_elem_of_cons in Hs as [_ ?]. split; [done|by exists rest].
Qed.

(** Two buffers hold at most one string each. *)
Lemma cstr_unique buf s1 s2 : cstr buf s1 -> cstr buf s2 -> s1 = s2.
Proof.
  revert buf s2. induction s1 as [|c s1 IH]; intros buf s2 H1 H2.
  - apply cstr_nil in H1 as [r ->].
    destruct (cstr_inv _ _ H2) as [[-> _] | (d & s' & b' & -> & [= <- <-] & Hd & _)]; done.
  - destruct (cstr_inv _ _ H1) as [[? _] | (d & s' & b' & [= <- <-] & -> & Hd & H1')]; [done|].
    destruct (cstr_inv _ _ H2) as [[-> [r [= -> _]]] | (d & s'' & b'' & -> & [= <- <-] & _ & H2')];
      [lia|]. f_equal. by eapply IH.
Qed.

Lemma strlen_spec buf s :
  cstr buf s -> Z.of_nat (length s) < 2147483648 -> strlen buf = Ret (Z.of_nat (length s)).
Proof.
  revert buf. induction s as [|c s IH]; intros buf H Hlen.
  - apply cstr_nil in H as [r ->]. done.
  - destruct (cstr_inv _ _ H) as [[? _] | (d & s' & b' & [= <- <-] & -> & Hd & H')]; [done|].
    simpl length in *. cbn [strlen]. rewrite (proj2 (Z.eqb_neq c 0)) by done.
    rewrite (IH _ H') by lia. simpl mbind. f_equal. rewrite s32_id; lia.
Qed.

Lemma strnlen_loop_spec n pre buf s :
  cstr buf s ->
  strnlen_loop n (pre ++ buf) (Z.of_nat (length pre)) =
    Ret (Z.of_nat (length pre) + Z.of_nat (n `min` length s)).
Proof.
  revert pre buf s. induction n as [|n IH]; intros pre buf s H; cbn [strnlen_loop].
  { f_equal. lia. }
  destruct (cstr_inv _ _ H) as [[-> [r ->]] | (c & s' & b' & -> & -> & Hc & H')].
  - rewrite (load_Some _ _ 0) by (try lia; rewrite Nat2Z.id; apply list_lookup_middle; done).
    simpl. f_equal. lia.
  - rewrite (load_Some _ _ c) by (try lia; rewrite Nat2Z.id; apply list_lookup_middle; done).
    simpl mbind. rewrite (proj2 (Z.eqb_neq c 0)) by done.
    specialize (IH (pre ++ [c]) b' s' H'). rewrite length_app, <- app_assoc in IH. simpl in IH.
    replace (Z.of_nat (length pre) + 1) with (Z.of_nat (length pre + 1)) by lia. rewrite IH.
    f_equal. simpl. lia.
Qed.

Lemma strnlen_spec buf s max :
  cstr buf s -> 0 <= max -> strnlen buf max = Ret (Z.min max (Z.of_nat (length s))).
Proof.
  intros H Hm. unfold strnlen. rewrite (strnlen_loop_spec _ [] buf s H). f_equal. simpl. lia.
Qed.

(** ** Comparison *)

(** Equality of the first [n] characters up to [f]. *)
Definition prefix_eq (f : Z -> Z) (n : Z) (s1 s2 : list Z) : Prop :=
  f <$> take (Z.to_nat n) s1 = f <$> take (Z.to_nat n) s2.

Lemma tolower_zero c : 0 <= c -> tolower c = tolower 0 -> c = 0.
Proof. unfold tolower. intros Hc. change (tolower 0) with 0. simpl. bcase; breflect; lia. Qed.

Lemma tolower_eq_zero c : 0 <= c -> c <> 0 -> tolower c <> 0.
Proof. intros H1 H2 H3. apply H2. by apply tolower_zero. Qed.

Lemma istrncmp_loop_spec n b1 b2 s1 s2 :
  cstr b1 s1 -> cstr b2 s2 -> bytes s1 -> bytes s2 ->
  exists r, istrncmp_loop n b1 b2 = Ret r /\
    (r = 0 <-> tolower <$> take n s1 = tolower <$> take n s2).
Proof.
  revert b1 b2 s1 s2. induction n as [|n IH]; intros b1 b2 s1 s2 H1 H2 B1 B2; cbn [istrncmp_loop].
  { by exists 0. }
  destruct (cstr_inv _ _ H1) as [[-> [r1 ->]] | (c & s1' & b1' & -> & -> & Hc & H1')];
  destruct (cstr_inv _ _ H2) as [[-> [r2 ->]] | (d & s2' & b2' & -> & -> & Hd & H2')].
  - exists 0. done.
  - inversion B2 as [|? ? Hb ?]; subst. unfold is_byte in Hb.
    pose proof (tolower_eq_zero d ltac:(lia) Hd) as Hne. change (tolower 0) with 0.
    rewrite (proj2 (Z.eqb_neq 0 d)), (proj2 (Z.eqb_neq 0 (tolower d))) by lia. simpl.
    exists (0 - d). split; [done|]. split; [lia|done].
  - inversion B1 as [|? ? Hb ?]; subst. unfold is_byte in Hb.
    pose proof (tolower_eq_zero c ltac:(lia) Hc) as Hne. change (tolower 0) with 0.
    rewrite (proj2 (Z.eqb_neq c 0)), (proj2 (Z.eqb_neq (tolower c) 0)) by lia. simpl.
    exists (c - 0). split; [done|]. split; [lia|done].
  - inversion B1 as [|? ? Hb1 B1']; subst. inversion B2 as [|? ? Hb2 B2']; subst.
    destruct (IH _ _ _ _ H1' H2' B1' B2') as (r & Hr & Hiff).
    rewrite (proj2 (Z.eqb_neq c 0)) by done. cbn [take fmap list_fmap].
    destruct (tolower c =? tolower d) eqn:E; breflect.
    + rewrite andb_false_r. exists r. split; [done|]. rewrite Hiff. split; [by intros ->; rewrite E|].
      by intros [= _ ?].
    + assert (c <> d) by (by intros ->). rewrite (proj2 (Z.eqb_neq c d)) by done. simpl.
      exists (c - d). split; [done|]. split; [lia|]. by intros [= ? _].
Qed.

(** [istrncmp], with which the FAT drivers compare file names, never reads past
    a terminator and returns 0 exactly when the first [n] characters agree up
    to the case of ASCII letters. *)
Lemma istrncmp_zero b1 b2 s1 s2 n :
  cstr b1 s1 -> cstr b2 s2 -> bytes s1 -> bytes s2 ->
  exists r, istrncmp b1 b2 n = Ret r /\ (r = 0 <-> prefix_eq tolower n s1 s2).
Proof. apply istrncmp_loop_spec. Qed.

(** ** Bounded copy *)
Lemma strncpy_loop_spec n pre dest sbuf s spre :
  cstr sbuf s -> length spre = length pre -> (n <= length dest)%nat ->
  strncpy_loop n (pre ++ dest) (spre ++ sbuf) (Z.of_nat (length pre)) =
    Ret (pre ++ take n s ++ drop (n `min` length s) dest,
         Z.of_nat (length pre) + Z.of_nat (n `min` length s)).
Proof.
  revert pre dest sbuf s spre. induction n as [|n IH]; intros pre dest sbuf s spre H Hl Hn; cbn [strncpy_loop].
  { simpl. by rewrite Z.add_0_r. }
  assert (forall (x : Z) t, load (spre ++ x :: t) (Z.of_nat (length pre)) = Ret x) as Hload.
  { intros x t. apply load_Some; [lia|]. rewrite Nat2Z.id. by apply list_lookup_middle. }
  destruct (cstr_inv _ _ H) as [[-> [r ->]] | (c & s' & b' & -> & -> & Hc & H')]; rewrite Hload; simpl mbind.
  - simpl. by rewrite Z.add_0_r.
  - rewrite (proj2 (Z.eqb_neq c 0)) by done. destruct dest as [|x dest]; [simpl in Hn; lia|].
    rewrite store_Ret by (rewrite length_app; simpl; lia).
    simpl mbind. rewrite Nat2Z.id, insert_app_r_alt, Nat.sub_diag by lia. simpl insert.
    specialize (IH (pre ++ [c]) dest b' s' (spre ++ [c]) H').
    rewrite !length_app, <- !app_assoc in IH. simpl in IH. simpl in Hn.
    replace (Z.of_nat (length pre) + 1) with (Z.of_nat (length pre + 1)) by lia.
    rewrite IH by lia. f_equal. f_equal. simpl. lia.
Qed.

(** [strncpy] keeps at most [count - 1] characters and always terminates them. *)
Lemma strncpy_spec dest sbuf s count :
  cstr sbuf s -> 0 < count <= Z.of_nat (length dest) ->
  exists dest', strncpy dest sbuf count = Ret dest' /\ length dest' = length dest /\
    cstr dest' (take (Z.to_nat (count - 1)) s).
Proof.
  intros H Hc. unfold strncpy.
  rewrite (strncpy_loop_spec _ [] dest sbuf s []) by (done || lia). simpl.
  set (n := Z.to_nat (count - 1)). assert (n < length dest)%nat by lia.
  set (d1 := take n s ++ _).
  assert (Hl : length (take n s) = (n `min` length s)%nat) by apply length_take.
  assert (Hd1 : length d1 = length dest) by (subst d1; rewrite length_app, length_drop, Hl; lia).
  change (Z.of_nat 0) with 0. rewrite Z.add_0_l, store_Ret by lia. rewrite Nat2Z.id.
  eexists. split; [done|]. split; [by rewrite length_insert|].
  subst d1. rewrite <- Hl, insert_app_r_alt, Nat.sub_diag by lia.
  destruct (drop (length (take n s)) dest) as [|x t] eqn:E.
  { apply (f_equal length) in E. rewrite length_drop, Hl in E. simpl in E. lia. }
  split; [|by exists t]. intros Hin. apply (proj1 H).
  rewrite <- (take_drop n s). apply elem_of_app. by left.
Qed.

(** ** Decimal numbers *)
Definition is_digit (c : Z) : Prop := 48 <= c <= 57.

(** The number a string of digits denotes. *)
Definition dec_value (ds : list Z) : Z := foldl (fun a d => 10 * a + (d - 48)) 0 ds.

Lemma dec_value_snoc ds d : dec_value (ds ++ [d]) = 10 * dec_value ds + (d - 48).
Proof. unfold dec_value. by rewrite foldl_app. Qed.

Lemma dec_value_nonneg ds : Forall is_digit ds -> 0 <= dec_value ds.
Proof.
  induction ds as [|d ds IH] using rev_ind; [done|].
  rewrite Forall_app, Forall_singleton, dec_value_snoc. unfold is_digit. intros [H1 H2].
  specialize (IH H1). lia.
Qed.

Lemma itoa_loop_spec n fuel text loc i :
  0 <= - i < 10 ^ Z.of_nat n -> (n < fuel)%nat -> (n <= loc <= length text)%nat ->
  exists ds text', itoa_loop fuel text (Z.of_nat loc) i = Ret (text', Z.of_nat (loc - length ds)) /\
    (length ds <= n)%nat /\ length text' = length text /\
    drop (loc - length ds) text' = ds ++ drop loc text /\
    Forall is_digit ds /\ dec_value ds = - i /\ head ds <> Some 48.
Proof.
  revert fuel text loc i. induction n as [|n IH]; intros fuel text loc i Hi Hf Hl;
    (destruct fuel as [|fuel]; [lia|]); cbn [itoa_loop].
  { simpl in Hi. assert (i = 0) as -> by lia. exists [], text. simpl.
    rewrite Nat.sub_0_r. split_and!; try done; lia. }
  destruct (i =? 0) eqn:E; breflect.
  { subst i. exists [], text. simpl. rewrite Nat.sub_0_r. split_and!; try done; lia. }
  rewrite Nat2Z.inj_succ, Z.pow_succ_r in Hi by lia.
  set (d := 48 - Z.rem i 10). assert (is_digit d) as Hd by (subst d; unfold is_digit; zlia).
  rewrite u8_id by (unfold is_digit in Hd; lia).
  rewrite store_Ret by lia. simpl mbind.
  set (text1 := <[Z.to_nat (Z.of_nat loc - 1) := d]> text).
  destruct (IH fuel text1 (loc - 1)%nat (Z.quot i 10)) as (ds & text' & Hr & Hn & Hlt & Hdrop & Hds & Hv & Hh).
  { zlia. } { lia. } { subst text1. rewrite length_insert. lia. }
  exists (ds ++ [d]), text'. rewrite length_app. simpl length.
  replace (Z.of_nat loc - 1) with (Z.of_nat (loc - 1)) by lia. rewrite Hr.
  replace (loc - (length ds + 1))%nat with (loc - 1 - length ds)%nat by lia.
  split_and!; try done; [lia|subst text1; by rewrite length_insert in Hlt| | | |].
  - rewrite Hdrop, <- app_assoc. f_equal. subst text1.
    replace (Z.to_nat (Z.of_nat loc - 1)) with (loc - 1)%nat by lia.
    rewrite (drop_S _ d) by (apply list_lookup_insert_eq; lia). simpl. f_equal.
    replace (S (loc - 1)) with loc by lia. rewrite drop_insert_lt by lia. done.
  - apply Forall_app. split; [done|by apply Forall_singleton].
  - rewrite dec_value_snoc, Hv. subst d. zlia.
  - destruct ds as [|x ds]; [|done]. simpl. intros [= Hd48]. subst d.
    unfold dec_value in Hv. simpl in Hv. zlia.
Qed.

#[local] Arguments itoa_loop : simpl never.

(** What [itoa] leaves in the buffer: a sign, digits without leading zeros that
    denote the absolute value, and the terminator. *)
Lemma itoa_spec text i :
  length text = 12%nat -> -2147483648 <= i < 2147483648 ->
  exists text' loc ds, itoa text i = Ret (text', loc) /\ 0 <= loc < 12 /\ length text' = 12%nat /\
    drop (Z.to_nat loc) text' = (if i <? 0 then [45] else []) ++ ds ++ [0] /\
    Forall is_digit ds /\ dec_value ds = Z.abs i /\ ds <> [] /\ (head ds = Some 48 -> ds = [48]).
Proof.
  intros Hlen Hi. unfold itoa. rewrite store_Ret by lia. simpl mbind.
  set (t1 := <[Z.to_nat 11 := 0]> text).
  assert (Ht1 : length t1 = 12%nat /\ drop 11 t1 = [0]).
  { subst t1. rewrite length_insert. split; [done|]. change (Z.to_nat 11) with 11%nat.
    rewrite (drop_S _ 0) by (apply list_lookup_insert_eq; lia).
    rewrite drop_ge by (rewrite length_insert; lia). done. }
  clearbody t1. destruct Ht1 as [Ht1 Hd1].
  set (j := if 0 <=? i then - i else i).
  assert ((if 0 <=? i then (0, - i) else (1, i)) = ((if i <? 0 then 1 else 0), j)) as ->.
  { subst j. destruct (0 <=? i) eqn:E1, (i <? 0) eqn:E2; breflect; try lia; done. }
  assert (Hj : - j = Z.abs i) by (subst j; bcase; breflect; lia).
  destruct (itoa_loop_spec 10 11 t1 11 j) as (ds & t2 & Hr & Hn & Hl2 & Hdrop & Hds & Hv & Hh);
    [rewrite Hj; simpl; lia|lia|lia|].
  change (Z.of_nat 11) with 11 in Hr. cbv beta iota zeta. rewrite Hr. simpl mbind. rewrite Hd1 in Hdrop. rewrite Hj in Hv.
  assert (exists ds2 t3 loc2,
    (if Z.of_nat (11 - length ds) =? 11
     then text0 ← store t2 (Z.of_nat (11 - length ds) - 1) 48; Ret (text0, Z.of_nat (11 - length ds) - 1)
     else Ret (t2, Z.of_nat (11 - length ds))) = Ret (t3, Z.of_nat loc2) /\
    (0 < loc2 < 12)%nat /\ length t3 = 12%nat /\ drop loc2 t3 = ds2 ++ [0] /\ Forall is_digit ds2 /\
    dec_value ds2 = Z.abs i /\ ds2 <> [] /\ (head ds2 = Some 48 -> ds2 = [48]))
    as (ds2 & t3 & loc2 & -> & Hloc & Hl3 & Hdrop3 & Hds2 & Hv2 & Hne & Hz).
  { destruct (Z.of_nat (11 - length ds) =? 11) eqn:E; breflect.
    - assert (ds = []) as -> by (destruct ds; [done|simpl in *; lia]). simpl in Hdrop |- *.
      rewrite store_Ret by lia. change (Z.to_nat 10) with 10%nat.
      exists [48], (<[10%nat := 48]> t2), 10%nat. rewrite length_insert. split_and!; try done; try lia.
      + rewrite (drop_S _ 48) by (apply list_lookup_insert_eq; lia).
        rewrite drop_insert_lt by lia. by rewrite Hdrop.
      + apply Forall_singleton. unfold is_digit. lia.
    - exists ds, t2, (11 - length ds)%nat. split_and!; try done; try lia.
      intros ->. simpl in E. lia. }
  simpl mbind. destruct (i <? 0) eqn:Hneg; simpl c_true; cbv iota.
  - rewrite store_Ret by lia. simpl mbind. eexists _, _, ds2. split; [done|].
    rewrite length_insert. split_and!; try done; try lia.
    rewrite (drop_S _ 45) by (apply list_lookup_insert_eq; lia).
    rewrite drop_insert_lt by lia. replace (S (Z.to_nat (Z.of_nat loc2 - 1))) with loc2 by lia.
    by rewrite Hdrop3.
  - exists t3, (Z.of_nat loc2), ds2. rewrite Nat2Z.id. split_and!; try done; lia.
Qed.

(** A decimal number: a sign and digits without leading zeros. *)
Definition decimal (v : Z) (out : list Z) : Prop :=
  exists ds, out = (if v <? 0 then [45] else []) ++ ds /\ Forall is_digit ds /\ dec_value ds = Z.abs v /\
    ds <> [] /\ (head ds = Some 48 -> ds = [48]).

Lemma decimal_unique v a b : decimal v a -> decimal v b -> a = b.
Proof.
  intros (ds & -> & Hd1 & Hd2 & Hd3 & Hd4) (es & -> & He1 & He2 & He3 & He4). f_equal.
  rewrite <- Hd2 in He2. clear v Hd2.
  revert es He1 He2 He3 He4. induction ds as [|d ds IH] using rev_ind; [done|].
  intros es He1 He2 He3 He4. destruct es as [|e es _] using rev_ind; [done|].
  rewrite !dec_value_snoc in He2. 
  apply Forall_app in Hd1 as [Hd1 Hd], He1 as [He1 He]. rewrite Forall_singleton in Hd, He.
  unfold is_digit in Hd, He. assert (d = e) as -> by lia. f_equal.
  assert (Hv : dec_value es = dec_value ds) by lia.
  assert (Hhead : forall l x, l <> [] -> (head (l ++ [x]) = Some 48 -> l ++ [x] = [48]) -> head l <> Some 48).
  { clear. intros [|a l] x Hne H Ha; [done|]. simpl in *. injection Ha as ->. specialize (H eq_refl).
    injection H as H. by destruct l. }
  assert (Hpos : forall l, Forall is_digit l -> l <> [] -> head l <> Some 48 -> dec_value l <> 0).
  { clear. intros l. induction l as [|x l IH] using rev_ind; [done|]. intros Hl _ Hh.
    apply Forall_app in Hl as [Hl Hx]. rewrite Forall_singleton in Hx. rewrite dec_value_snoc. pose proof (dec_value_nonneg l Hl).
    unfold is_digit in Hx. destruct l as [|y l]; [unfold dec_value; simpl in *; intros ?; apply Hh; f_equal; lia|].
    assert (dec_value (y :: l) <> 0) by (apply IH; [done|done|done]). lia. }
  destruct (decide (ds = [])) as [->|Hds], (decide (es = [])) as [->|Hes].
  - done.
  - exfalso. eapply (Hpos es); [done|done|by eapply Hhead|]. by rewrite Hv.
  - exfalso. eapply (Hpos ds); [done|done|by eapply Hhead|]. by rewrite <- Hv.
  - apply IH; [done|done| |done|done|done|].
    + intros H. exfalso. by eapply (Hhead ds).
    + intros H. exfalso. by eapply (Hhead es).
Qed.

Lemma decimal_bytes v out : decimal v out -> Forall (fun c => c = 45 \/ is_digit c) out.
Proof.
  intros (ds & -> & Hd & _). apply Forall_app. split; [destruct (v <? 0); repeat constructor; by left|].
  eapply Forall_impl; [exact Hd|]. by right.
Qed.

Lemma dec_value_low ds : Forall is_digit ds -> ds <> [] -> head ds <> Some 48 -> 10 ^ (Z.of_nat (length ds) - 1) <= dec_value ds.
Proof.
  induction ds as [|d ds IH] using rev_ind; [done|]. intros [Hds Hd]%Forall_app _ Hh. rewrite Forall_singleton in Hd.
  rewrite dec_value_snoc, length_app. unfold is_digit in Hd. destruct ds as [|e ds].
  { unfold dec_value. simpl in *. assert (d <> 48) by congruence. lia. }
  specialize (IH Hds ltac:(done) Hh). cbn [length] in *.
  replace (Z.of_nat (S (length ds) + 1) - 1) with (Z.succ (Z.of_nat (S (length ds)) - 1)) by lia.
  rewrite Z.pow_succ_r by lia. lia.
Qed.

(** A number below 10^k has at most k digits. *)
Lemma decimal_length k v out : decimal v out -> 0 <= v < 10 ^ Z.of_nat k -> (0 < k)%nat -> (length out <= k)%nat.
Proof.
  intros (ds & -> & Hd & Hv & Hne & Hz) Hr Hk. rewrite (proj2 (Z.ltb_ge v 0)) by lia. cbn [app].
  destruct (decide (head ds = Some 48)) as [E|E]; [rewrite (Hz E); simpl; lia|].
  pose proof (dec_value_low ds Hd Hne E) as Hlow. rewrite Hv, Z.abs_eq in Hlow by lia.
  destruct (decide (length ds <= k)%nat) as [|Hgt]; [done|exfalso].
  assert (10 ^ Z.of_nat k <= 10 ^ (Z.of_nat (length ds) - 1)) by (apply Z.pow_le_mono_r; lia). lia.
Qed.

Lemma itoa_decimal text v :
  length text = 12%nat -> -2147483648 <= v < 2147483648 ->
  exists text' loc out, itoa text v = Ret (text', loc) /\ length text' = 12%nat /\
    drop (Z.to_nat loc) text' = out ++ [0] /\ decimal v out.
Proof.
  intros Hl Hv. destruct (itoa_spec text v Hl Hv) as (t & loc & ds & E & _ & Ht & Hd & H1 & H2 & H3 & H4).
  exists t, loc, ((if v <? 0 then [45] else []) ++ ds). split; [done|]. split; [done|]. rewrite Hd, <- app_assoc.
  split; [done|]. by exists ds.
Qed.

Lemma isdigit_spec c : isdigit c = true <-> is_digit c.
Proof. unfold isdigit, is_digit. rewrite andb_true_iff, !Z.leb_le. lia. Qed.

Lemma foldl_dec a ds :
  foldl (fun a d => 10 * a + (d - 48)) a ds = a * 10 ^ Z.of_nat (length ds) + dec_value ds.
Proof.
  revert a. induction ds as [|d ds IH]; intros a.
  - unfold dec_value. simpl. lia.
  - unfold dec_value. cbn [foldl]. rewrite IH, (IH (10 * 0 + (d - 48))).
    cbn [length]. rewrite Nat2Z.inj_succ, Z.pow_succ_r by lia. lia.
Qed.

Lemma atoi_loop_spec ds rest a :
  Forall is_digit ds -> 0 <= a -> a * 10 ^ Z.of_nat (length ds) + dec_value ds < 2147483648 ->
  atoi_loop (ds ++ 0 :: rest) a = Ret (a * 10 ^ Z.of_nat (length ds) + dec_value ds).
Proof.
  revert a. induction ds as [|d ds IH]; intros a Hds Ha Hb.
  - cbn. f_equal. unfold dec_value. simpl. lia.
  - inversion Hds as [|? ? Hd Hds']; subst. cbn [app atoi_loop].
    rewrite (proj2 (isdigit_spec d)) by done. rewrite (proj2 (Z.eqb_neq d 0)) by (unfold is_digit in Hd; lia).
    cbn [negb andb]. unfold tonumericdigit.
    assert (Hv : dec_value (d :: ds) = (d - 48) * 10 ^ Z.of_nat (length ds) + dec_value ds).
    { unfold dec_value at 1. cbn [foldl]. rewrite foldl_dec. f_equal. }
    rewrite Hv in *. cbn [length] in *. rewrite Nat2Z.inj_succ, Z.pow_succ_r in * by lia.
    pose proof (dec_value_nonneg ds Hds'). unfold is_digit in Hd.
    assert (1 <= 10 ^ Z.of_nat (length ds)) by (apply (Z.pow_le_mono_r 10 0); lia).
    rewrite (s32_id (a * 10)) by nia. rewrite s32_id by nia.
    rewrite IH; [f_equal; lia|done|lia|lia].
Qed.

(** ** Properties *)

(** For every [int], [itoa] stays inside its 12-byte buffer, and the
    string it returns is an optional minus sign followed by the decimal digits
    of the absolute value without leading zeros (INT_MIN included); for a
    non-negative number [atoi] reads that string back to the number, and for a
    negative one it stops at the sign and gives 0. *)
Theorem itoa_atoi_roundtrip text i :
  length text = 12%nat -> -2147483648 <= i < 2147483648 ->
  exists text' loc s, itoa text i = Ret (text', loc) /\ cstr (drop (Z.to_nat loc) text') s /\
    (exists ds, s = (if i <? 0 then [45] else []) ++ ds /\ Forall is_digit ds /\
       dec_value ds = Z.abs i /\ ds <> [] /\ (head ds = Some 48 -> ds = [48])) /\
    atoi (drop (Z.to_nat loc) text') = Ret (Z.max i 0).
Proof.
  intros Hlen Hi. destruct (itoa_spec text i Hlen Hi)
    as (text' & loc & ds & -> & _ & _ & Hdrop & Hds & Hv & Hne & Hz).
  exists text', loc, ((if i <? 0 then [45] else []) ++ ds). rewrite Hdrop.
  assert (0 ∉ ds) as Hnz.
  { intros Hin. rewrite Forall_forall in Hds. specialize (Hds 0 Hin). unfold is_digit in Hds. lia. }
  split_and!; [done| |by exists ds|].
  - split; [|exists []; by rewrite <- app_assoc].
    destruct (i <? 0); simpl; [|done]. by rewrite not_elem_of_cons.
  - unfold atoi. destruct (i <? 0) eqn:E; breflect; simpl app.
    + simpl. f_equal. lia.
    + rewrite atoi_loop_spec; [f_equal; lia|done|lia|lia].
Qed.

Lemma itoa_atoi_roundtrip_witness :
  exists text' loc s, itoa (replicate 12 0) 2147483647 = Ret (text', loc) /\
    cstr (drop (Z.to_nat loc) text') s /\ atoi (drop (Z.to_nat loc) text') = Ret 2147483647.
Proof.
  destruct (itoa_atoi_roundtrip (replicate 12 0) 2147483647) as (t & l & s & Hi & Hs & _ & Ha).
  - reflexivity.
  - lia.
  - exists t, l, s. split; [exact Hi|]. split; [exact Hs|exact Ha].
Defined.

(** [strupper] never returns on a string that is not empty: the loop
    keeps testing the first character, so every amount of fuel runs out. *)
Theorem strupper_diverges fuel c s :
  0 < c < 256 -> strupper fuel (c :: s) = OutOfFuel.
Proof.
  revert c. induction fuel as [|fuel IH]; intros c Hc; simpl; [done|].
  rewrite (proj2 (Z.eqb_neq c 0)) by lia. apply IH. unfold toupper. bcase; breflect; lia.
Qed.

Lemma strupper_diverges_witness : strupper 100 [97; 0] = OutOfFuel.
Proof. apply (strupper_diverges 100 97 [0]). lia. Defined.
