(* ===== verification/PathParser.v ===== *)
(** * The path parser (src/src/fs/pparser.c)

    Paths are parsed into a linked list of heap objects.  The model keeps the
    objects in a store by address, so the list is built by writing [next]
    fields and released by walking them, as in the code; an object disappears
    from the store when it is freed. *)
From S2P Require Import Prelude Config CMem CString Kheap.

Definition SLASH : Z := 47.

Section with_allocator.
Context {H : Type} `{AllocatorOk H}.

(** The allocator, the name buffers, the [path_part]s ([part], [next]) and
    the [path_root]s ([drive_no], [first]). *)
Record ppstate := mk_pp {
  ppalloc : H;
  pp_strs : gmap Z (list Z);
  pp_parts : gmap Z (Z * Z);
  pp_roots : gmap Z (Z * Z)
}.

Definition ppk {A} (c : cmd H A) : cmd ppstate A := fun s =>
  '(a, h) ← c (ppalloc s); Ret (a, mk_pp h (pp_strs s) (pp_parts s) (pp_roots s)).

Definition kfree_str (p : Z) : cmd ppstate unit :=
  ppk (kf p);;
  modifyS (fun s => mk_pp (ppalloc s) (delete p (pp_strs s)) (pp_parts s) (pp_roots s)).

Definition kfree_part (p : Z) : cmd ppstate unit :=
  ppk (kf p);;
  modifyS (fun s => mk_pp (ppalloc s) (pp_strs s) (delete p (pp_parts s)) (pp_roots s)).

Definition kfree_root (p : Z) : cmd ppstate unit :=
  ppk (kf p);;
  modifyS (fun s => mk_pp (ppalloc s) (pp_strs s) (pp_parts s) (delete p (pp_roots s))).

(** [&&] of the source evaluates the comparison only on a digit. *)
Definition pathparser_path_valid_format (filename : list Z) : outcome bool :=
  len ← strnlen filename SERPAEOS_MAX_PATH;
  if 3 <=? len then
    c0 ← load filename 0;
    if isdigit c0 then
      r ← memcmp (drop 1 filename) [58; SLASH; 0] 2;
      Ret (r =? 0)
    else Ret false
  else Ret false.

(** The drive or the error, and where [*path] then points. *)
Definition pathparser_get_drive_by_path (path : list Z) : outcome (Z * list Z) :=
  valid ← pathparser_path_valid_format path;
  if negb valid then Ret (- EBADPATH, path)
  else
    c0 ← load path 0;
    let drive_no := tonumericdigit c0 in
    Ret (drive_no, drop 3 path).

Definition pathparser_create_root (drive_number : Z) : cmd ppstate Z :=
  path_r ← ppk (kz 8);
  if path_r =? 0 then liftO Oob
  else
    modifyS (fun s => mk_pp (ppalloc s) (pp_strs s) (pp_parts s)
                       (<[path_r := (drive_number, 0)]> (pp_roots s)));;
    mret path_r.

(** The copying loop: the buffer, the rest of the path and [i]. *)
Fixpoint part_loop (path : list Z) (buf : list Z) (i : Z) : outcome (list Z * list Z * Z) :=
  match path with
  | [] => Oob
  | c :: t =>
      if negb (c =? SLASH) && negb (c =? 0) then
        buf ← store buf i c;
        part_loop t buf (i + 1)
      else Ret (buf, path, i)
  end.

Definition pathparser_get_path_part (path : list Z) : cmd ppstate (Z * list Z) :=
  result_path_part ← ppk (kz SERPAEOS_MAX_PATH);
  let buf := if result_path_part =? 0 then [] else replicate (Z.to_nat SERPAEOS_MAX_PATH) 0 in
  '(buf, path, i) ← liftO (part_loop path buf 0);
  modifyS (fun s => mk_pp (ppalloc s) (<[result_path_part := buf]> (pp_strs s))
                     (pp_parts s) (pp_roots s));;
  c ← liftO (load path 0);
  let path := if c =? SLASH then drop 1 path else path in
  if i =? 0 then
    kfree_str result_path_part;;
    mret (0, path)
  else mret (result_path_part, path).

Definition pathparser_parse_path_part (last_part : Z) (path : list Z) : cmd ppstate (Z * list Z) :=
  '(path_part_str, path) ← pathparser_get_path_part path;
  if path_part_str =? 0 then mret (0, path)
  else
    part ← ppk (kz 8);
    if part =? 0 then liftO Oob
    else
      modifyS (fun s => mk_pp (ppalloc s) (pp_strs s)
                         (<[part := (path_part_str, 0)]> (pp_parts s)) (pp_roots s));;
      s ← getS;
      (if negb (last_part =? 0) then
         match pp_parts s !! last_part with
         | Some (str, _) =>
             putS (mk_pp (ppalloc s) (pp_strs s) (<[last_part := (str, part)]> (pp_parts s)) (pp_roots s))
         | None => liftO Oob
         end
       else mret tt);;
      mret (part, path).

Fixpoint free_parts (fuel : nat) (part : Z) : cmd ppstate unit :=
  match fuel with
  | O => liftO OutOfFuel
  | S fuel =>
      if part =? 0 then mret tt
      else
        s ← getS;
        match pp_parts s !! part with
        | None => liftO Oob
        | Some (str, next_part) =>
            kfree_str str;;
            kfree_part part;;
            free_parts fuel next_part
        end
  end.

(** The list cannot be longer than the parts there are. *)
Definition pathparser_free (root : Z) : cmd ppstate unit :=
  s ← getS;
  match pp_roots s !! root with
  | None => liftO Oob
  | Some (_, first) =>
      free_parts (S (size (pp_parts s))) first;;
      kfree_root root
  end.

(** [while(part) part = pathparser_parse_path_part(part, &tmp_path);] *)
Fixpoint parse_loop (fuel : nat) (part : Z) (path : list Z) : cmd ppstate unit :=
  match fuel with
  | O => liftO OutOfFuel
  | S fuel =>
      if part =? 0 then mret tt
      else
        '(part, path) ← pathparser_parse_path_part part path;
        parse_loop fuel part path
  end.

(** Every turn of the loop consumes a character, so the length of the path
    bounds the turns. *)
Definition pathparser_parse (path : list Z) : cmd ppstate Z :=
  len ← liftO (strlen path);
  if SERPAEOS_MAX_PATH <? len then mret 0
  else
    '(res, tmp_path) ← liftO (pathparser_get_drive_by_path path);
    if res <? 0 then mret 0
    else
      path_root ← pathparser_create_root res;
      '(first_part, tmp_path) ← pathparser_parse_path_part 0 tmp_path;
      if first_part =? 0 then mret path_root
      else
        s ← getS;
        putS (mk_pp (ppalloc s) (pp_strs s) (pp_parts s)
                (<[path_root := (res, first_part)]> (pp_roots s)));;
        '(part, tmp_path) ← pathparser_parse_path_part first_part tmp_path;
        parse_loop (S (length path)) part tmp_path;;
        mret path_root.

(** [path] is not null. *)
Fixpoint pathparser_get_last_part (fuel : nat) (s : ppstate) (path : Z) : outcome Z :=
  match fuel with
  | O => OutOfFuel
  | S fuel =>
      match pp_parts s !! path with
      | None => Oob
      | Some (_, next) =>
          if negb (next =? 0) then pathparser_get_last_part fuel s next else Ret path
      end
  end.
End with_allocator.
Arguments ppstate H : clear implicits.

(** ** Reference: the names of a path *)

(** The first component and what follows its slash. *)
Fixpoint part_name (s : list Z) : list Z * list Z :=
  match s with
  | [] => ([], [])
  | c :: t => if c =? SLASH then ([], t) else let '(n, r) := part_name t in (c :: n, r)
  end.

(** Components up to the first empty one. *)
Fixpoint split_names (fuel : nat) (s : list Z) : list (list Z) :=
  match fuel with
  | O => []
  | S fuel =>
      let '(n, r) := part_name s in
      match n with
      | [] => []
      | _ => n :: split_names fuel r
      end
  end.

Definition path_names (s : list Z) : list (list Z) := split_names (S (length s)) s.

(** The path of a list of names on a drive. *)
Fixpoint join_names (names : list (list Z)) : list Z :=
  match names with
  | [] => []
  | [n] => n
  | n :: ns => n ++ SLASH :: join_names ns
  end.

Definition print_path (drive : Z) (names : list (list Z)) : list Z :=
  (48 + drive) :: 58 :: SLASH :: join_names names.

Lemma part_name_length s n r : part_name s = (n, r) -> (length n + length r <= length s)%nat.
Proof.
  revert n r. induction s as [|c s IH]; intros n r; cbn [part_name]; [by intros [= <- <-]|].
  bcase; [intros [= <- <-]; simpl; lia|].
  destruct (part_name s) as [n' r'] eqn:E. intros [= <- <-].
  specialize (IH n' r' eq_refl). simpl. lia.
Qed.

Lemma split_names_fuel f1 f2 s :
  (length s < f1)%nat -> (length s < f2)%nat -> split_names f1 s = split_names f2 s.
Proof.
  revert f2 s. induction f1 as [|f1 IH]; intros f2 s H1 H2; [lia|]. destruct f2 as [|f2]; [lia|].
  cbn [split_names]. destruct (part_name s) as [n r] eqn:E. apply part_name_length in E.
  destruct n as [|c n]; [done|]. f_equal. simpl in E. apply IH; lia.
Qed.

Lemma path_names_eq s :
  path_names s =
    let '(n, r) := part_name s in match n with [] => [] | _ => n :: path_names r end.
Proof.
  unfold path_names at 1. cbn [split_names]. destruct (part_name s) as [n r] eqn:E.
  apply part_name_length in E. destruct n as [|c n]; [done|]. f_equal. simpl in E.
  apply split_names_fuel; lia.
Qed.

Lemma part_name_app n t : SLASH ∉ n -> part_name (n ++ SLASH :: t) = (n, t).
Proof.
  induction n as [|c n IH]; intros Hn; [done|]. apply not_elem_of_cons in Hn as [Hc Hn]. simpl.
  rewrite (proj2 (Z.eqb_neq c SLASH)) by done. by rewrite IH.
Qed.

Lemma part_name_last n : SLASH ∉ n -> part_name n = (n, []).
Proof.
  induction n as [|c n IH]; intros Hn; [done|]. apply not_elem_of_cons in Hn as [Hc Hn]. simpl.
  rewrite (proj2 (Z.eqb_neq c SLASH)) by done. by rewrite IH.
Qed.

(** A name that can stand between two slashes. *)
Definition good_name (n : list Z) : Prop := n <> [] /\ (SLASH ∉ n).

Lemma path_names_join names : Forall good_name names -> path_names (join_names names) = names.
Proof.
  induction 1 as [|n ns [Hn Hs] Hns IH]; [done|]. destruct ns as [|m ns].
  - cbn [join_names]. rewrite path_names_eq, part_name_last by done. by destruct n.
  - change (join_names (n :: m :: ns)) with (n ++ SLASH :: join_names (m :: ns)).
    rewrite path_names_eq, part_name_app by done. rewrite IH. by destruct n.
Qed.
