(* ===== verification/PathParserSpec.v ===== *)
(** * What the path parser promises

    A parsed path is a linked list of exactly the names of the path, built
    from fresh allocations; releasing it gives all of them back. *)
From S2P Require Import Prelude Config CMem CString Kheap PathParser HeapSpec AddressSpace.

(** ** Copying one component *)
Lemma store_replicate (pre : list Z) k c :
  (0 < k)%nat ->
  store (pre ++ replicate k 0) (Z.of_nat (length pre)) c = Ret ((pre ++ [c]) ++ replicate (k - 1) 0).
Proof.
  intros Hk. destruct k as [|k]; [lia|].
  rewrite store_Ret by (rewrite length_app, length_replicate; lia). f_equal.
  rewrite Nat2Z.id, insert_app_r_alt, Nat.sub_diag by lia. cbn [replicate insert list_insert].
  rewrite <- app_assoc. simpl. by rewrite Nat.sub_0_r.
Qed.

Lemma part_loop_spec path s n r pre k :
  cstr path s -> part_name s = (n, r) -> (length n <= k)%nat ->
  exists path2, part_loop path (pre ++ replicate k 0) (Z.of_nat (length pre)) =
      Ret (pre ++ n ++ replicate (k - length n) 0, path2, Z.of_nat (length pre + length n)) /\
    ((exists t, path2 = SLASH :: t /\ cstr t r) \/ cstr path2 [] /\ r = []).
Proof.
  revert path n r pre k. induction s as [|c s IH]; intros path n r pre k Hs Hp Hk.
  - injection Hp as <- <-. pose proof Hs as Hs'. apply cstr_nil in Hs as [t ->].
    exists (0 :: t). split; [|by right]. simpl. by rewrite Nat.sub_0_r, Nat.add_0_r.
  - destruct (cstr_inv _ _ Hs) as [[? _] | (d & s' & b' & [= <- <-] & -> & Hc & Hs')]; [done|].
    cbn [part_name] in Hp. cbn [part_loop]. destruct (c =? SLASH) eqn:E; breflect.
    + injection Hp as <- <-. subst c. exists (SLASH :: b'). split; [|left; by exists b'].
      simpl. by rewrite Nat.sub_0_r, Nat.add_0_r.
    + destruct (part_name s) as [n' r'] eqn:En. injection Hp as <- <-. simpl in Hk.
      rewrite (proj2 (Z.eqb_neq c 0)) by done. cbn [negb andb].
      rewrite store_replicate by lia. simpl mbind.
      destruct (IH b' n' r' (pre ++ [c]) (k - 1)%nat Hs' eq_refl) as (path2 & Hr & Hrest); [lia|].
      exists path2. split; [|done]. rewrite length_app in Hr. simpl in Hr.
      replace (Z.of_nat (length pre) + 1) with (Z.of_nat (length pre + 1)) by lia. rewrite Hr.
      rewrite <- app_assoc. cbn [app length].
      replace (k - 1 - length n')%nat with (k - S (length n'))%nat by lia.
      by replace (length pre + 1 + length n')%nat with (length pre + S (length n'))%nat by lia.
Qed.

Lemma part_name_chars s n r : part_name s = (n, r) -> (0 ∉ s) -> (0 ∉ n).
Proof.
  revert n r. induction s as [|c s IH]; intros n r; cbn [part_name]; [by intros [= <- _]|].
  bcase; [intros [= <- _]; by intros _ ?%elem_of_nil|].
  destruct (part_name s) as [n' r'] eqn:E. intros [= <- _].
  rewrite !not_elem_of_cons. intros [? ?]. split; [done|by eapply IH].
Qed.

(** A path names a drive if it starts with a digit and [:/]. *)
Definition valid_path (str : list Z) : bool :=
  match str with
  | c :: d :: e :: _ => isdigit c && (d =? 58) && (e =? SLASH)
  | _ => false
  end.

Lemma path_valid_format_spec path str :
  cstr path str -> pathparser_path_valid_format path = Ret (valid_path str).
Proof.
  intros Hs. unfold pathparser_path_valid_format. rewrite (strnlen_spec _ _ _ Hs) by done.
  simpl mbind. pose proof Hs as [_ [rest ->]].
  destruct str as [|a [|b [|c str]]]; [done..|]. unfold SERPAEOS_MAX_PATH.
  rewrite (proj2 (Z.leb_le _ _)) by (simpl length; lia). unfold valid_path.
  change (load _ 0) with (Ret a). simpl mbind. destruct (isdigit a); [|done].
  unfold memcmp. change (Z.to_nat 2) with 2%nat. cbn [app drop memcmp_loop andb].
  destruct (b =? 58); cbn [negb andb]; [|by destruct (s8 b <? s8 58)].
  destruct (c =? SLASH); cbn [negb andb]; [done|]. by destruct (s8 c <? s8 SLASH).
Qed.

Lemma get_drive_spec path str :
  cstr path str ->
  pathparser_get_drive_by_path path =
    Ret (if valid_path str then (default 0 (head str) - 48, drop 3 path) else (- EBADPATH, path)).
Proof.
  intros Hs. unfold pathparser_get_drive_by_path. rewrite (path_valid_format_spec _ _ Hs).
  simpl mbind. destruct (valid_path str) eqn:E; [|done].
  pose proof Hs as [_ [rest ->]]. by destruct str as [|a str].
Qed.

Section with_allocator.
Context {H : Type} `{AllocatorOk H}.
Implicit Types s : ppstate H.

Definition pplive s : gset Z := live_ptrs (ppalloc s).
Definition pproom s : nat := room (ppalloc s).

Lemma ppk_kz size s :
  alloc_ok (ppalloc s) -> 0 < size <= 4096 -> (0 < pproom s)%nat ->
  exists p h, ppk (kz size) s = Ret (p, mk_pp h (pp_strs s) (pp_parts s) (pp_roots s)) /\
    p <> 0 /\ (p ∉ pplive s) /\ alloc_ok h /\ live_ptrs h = {[p]} ∪ pplive s /\ S (room h) = pproom s.
Proof.
  intros Hok Hs Hr. destruct (kz_room size (ppalloc s) Hok Hs Hr) as (p & h & Hk & Hp & Hroom).
  destruct (kz_spec size (ppalloc s) p h Hok ltac:(lia) Hk) as (Hok' & [[-> _] | (Hpr & _ & Hnew & Hl)]);
    [done|].
  exists p, h. unfold ppk. rewrite Hk. split_and!; try done; lia.
Qed.

Lemma ppk_kf p s :
  alloc_ok (ppalloc s) -> p ∈ pplive s ->
  exists h, ppk (kf p) s = Ret (tt, mk_pp h (pp_strs s) (pp_parts s) (pp_roots s)) /\
    alloc_ok h /\ live_ptrs h = pplive s ∖ {[p]} /\ (pproom s <= room h)%nat.
Proof.
  intros Hok Hp. destruct (kf_spec p (ppalloc s) Hok Hp) as (h & Hk & Hok' & Hl).
  exists h. pose proof (kf_room p (ppalloc s) h Hok Hp Hk). unfold ppk. rewrite Hk. done.
Qed.

(** Both outcomes of reading one component. *)
Lemma get_path_part_spec path str n r s :
  alloc_ok (ppalloc s) -> (0 < pproom s)%nat -> cstr path str -> (length str < 108)%nat ->
  part_name str = (n, r) ->
  exists p path2 h strs, pathparser_get_path_part path s =
      Ret ((p, path2), mk_pp h strs (pp_parts s) (pp_roots s)) /\
    cstr path2 r /\ alloc_ok h /\ (forall x, x ∈ pplive s -> strs !! x = pp_strs s !! x) /\
    (n = [] /\ p = 0 /\ live_ptrs h = pplive s /\ (pproom s <= S (room h))%nat \/
     n <> [] /\ p <> 0 /\ (p ∉ pplive s) /\ live_ptrs h = {[p]} ∪ pplive s /\ S (room h) = pproom s /\
       exists buf, strs !! p = Some buf /\ length buf = 108%nat /\ cstr buf n).
Proof.
  intros Hok Hr Hs Hlen Hn. unfold pathparser_get_path_part.
  destruct (ppk_kz SERPAEOS_MAX_PATH s) as (p & h & Hk & Hp & Hnew & Hok' & Hl & Hroom);
    [done|unfold SERPAEOS_MAX_PATH; lia|done|].
  step Hk. rewrite (proj2 (Z.eqb_neq p 0)) by done.
  pose proof (part_name_length _ _ _ Hn) as Hnl.
  destruct (part_loop_spec path str n r [] (Z.to_nat SERPAEOS_MAX_PATH) Hs Hn)
    as (path2 & Hloop & Hpath2); [change (Z.to_nat SERPAEOS_MAX_PATH) with 108%nat; lia|].
  change (Z.to_nat SERPAEOS_MAX_PATH) with 108%nat in *. change (Z.of_nat (length (@nil Z))) with 0 in Hloop.
  cbv zeta. change ([] ++ replicate 108 0) with (replicate 108 0) in Hloop.
  rewrite (bind_liftO _ _ _ _ Hloop). cbn [app length Nat.add].
  set (buf := n ++ replicate (108 - length n) 0).
  erewrite bind_Ret by reflexivity. cbn [ppalloc pp_strs pp_parts pp_roots].
  set (s2 := mk_pp _ _ _ _).
  set (path3 := match path2 with c :: t => if c =? SLASH then t else path2 | [] => path2 end).
  assert (exists c, load path2 0 = Ret c /\ (if c =? SLASH then drop 1 path2 else path2) = path3 /\ cstr path3 r)
    as (c & Hc & Hp3 & Hpath3).
  { destruct Hpath2 as [(t & -> & Ht) | [Ht ->]]; [by exists SLASH|]. subst path3.
    pose proof Ht as Ht2. apply cstr_nil in Ht2 as [u ->]. by exists 0. }
  rewrite (bind_liftO _ _ _ _ Hc), Hp3. clear Hc Hp3 c.
  assert (Hfr : forall x, x ∈ pplive s -> <[p := buf]> (pp_strs s) !! x = pp_strs s !! x)
    by (intros x Hx; apply lookup_insert_ne; by intros ->).
  destruct n as [|c n].
  - change (Z.of_nat (length (@nil Z)) =? 0) with true. cbv iota.
    unfold kfree_str.
    destruct (ppk_kf p s2) as (h2 & Hk2 & Hok2 & Hl2 & Hr2);
      [done|unfold pplive; simpl; rewrite Hl; apply elem_of_union_l; by apply elem_of_singleton|].
    exists 0, path3, h2, (delete p (pp_strs s2)). split.
    { erewrite bind_Ret; [reflexivity|]. step Hk2. reflexivity. }
    split_and!; try done.
    + intros x Hx. rewrite lookup_delete_ne by (by intros ->). by apply Hfr.
    + left. split_and!; try done.
      * rewrite Hl2. unfold pplive at 1. simpl. rewrite Hl. clear -Hnew. set_solver.
      * unfold pproom in *. simpl in *. lia.
  - rewrite (proj2 (Z.eqb_neq (Z.of_nat (length (c :: n))) 0)) by (simpl; lia).
    exists p, path3, h, (<[p := buf]> (pp_strs s)). split_and!; try done.
    right. split_and!; try done. exists buf. rewrite lookup_insert_eq. split; [done|].
    split; [subst buf; rewrite length_app, length_replicate; simpl in *; lia|].
    split; [apply (part_name_chars _ _ _ Hn), Hs|].
    exists (replicate (107 - length (c :: n)) 0). subst buf. f_equal.
    replace (108 - length (c :: n))%nat with (S (107 - length (c :: n))) by lia. done.
Qed.

(** ** The linked list *)

(** A node: the address of the part, of its name, and the name. *)
Definition node : Type := Z * Z * list Z.
Definition addrs (l : list node) : list Z := l ≫= fun '(q, sp, _) => [q; sp].
Definition names (l : list node) : list (list Z) := snd <$> l.
Definition first_addr (l : list node) : Z :=
  match l with [] => 0 | (q, _, _) :: _ => q end.

(** [p] is the head of the list of nodes [l]. *)
Fixpoint chain s (p : Z) (l : list node) : Prop :=
  match l with
  | [] => p = 0
  | (q, sp, n) :: l =>
      p = q /\ q <> 0 /\ exists nx buf, pp_parts s !! q = Some (sp, nx) /\
        pp_strs s !! sp = Some buf /\ length buf = 108%nat /\ cstr buf n /\ chain s nx l
  end.

Lemma chain_first s p l : chain s p l -> p = first_addr l.
Proof. destruct l as [|[[q sp] n] l]; simpl; [done|by intros [-> _]]. Qed.

(** Writing [next] of the last part. *)
Definition link (last q : Z) (parts : gmap Z (Z * Z)) : gmap Z (Z * Z) :=
  if last =? 0 then parts
  else match parts !! last with Some (str, _) => <[last := (str, q)]> parts | None => parts end.

Lemma parse_path_part_spec last path str n r s :
  alloc_ok (ppalloc s) -> (2 <= pproom s)%nat -> cstr path str -> (length str < 108)%nat ->
  part_name str = (n, r) -> (last = 0 \/ is_Some (pp_parts s !! last)) ->
  exists q path2 h strs parts, pathparser_parse_path_part last path s =
      Ret ((q, path2), mk_pp h strs parts (pp_roots s)) /\
    cstr path2 r /\ alloc_ok h /\ (forall x, x ∈ pplive s -> strs !! x = pp_strs s !! x) /\
    (n = [] /\ q = 0 /\ live_ptrs h = pplive s /\ parts = pp_parts s /\ (pproom s <= S (room h))%nat \/
     n <> [] /\ q <> 0 /\ exists sp, (q ∉ pplive s) /\ (sp ∉ pplive s) /\ q <> sp /\
       live_ptrs h = {[q; sp]} ∪ pplive s /\ S (S (room h)) = pproom s /\
       parts = link last q (<[q := (sp, 0)]> (pp_parts s)) /\
       exists buf, strs !! sp = Some buf /\ length buf = 108%nat /\ cstr buf n).
Proof.
  intros Hok Hr Hs Hlen Hn Hlast. unfold pathparser_parse_path_part.
  destruct (get_path_part_spec path str n r s) as (sp & path2 & h & strs & Hg & Hp2 & Hok' & Hfr & Hcase);
    try done; [lia|].
  step Hg.
  destruct Hcase as [(-> & -> & Hl & Hr1) | (Hne & Hsp & Hnew & Hl & Hroom & buf & Hbuf & Hbl & Hbs)].
  { exists 0, path2, h, strs, (pp_parts s). split; [done|]. split_and!; try done. by left. }
  rewrite (proj2 (Z.eqb_neq sp 0)) by done. set (s1 := mk_pp _ _ _ _).
  destruct (ppk_kz 8 s1) as (q & h2 & Hk & Hq & Hqn & Hok2 & Hl2 & Hroom2);
    [done|lia|unfold pproom; simpl; lia|].
  step Hk. rewrite (proj2 (Z.eqb_neq q 0)) by done.
  erewrite bind_Ret by reflexivity. erewrite bind_Ret by reflexivity. cbn [ppalloc pp_strs pp_parts pp_roots s1].
  exists q, path2, h2, strs, (link last q (<[q := (sp, 0)]> (pp_parts s))).
  unfold pplive in Hqn, Hl2. simpl in Hqn, Hl2. rewrite Hl in Hqn, Hl2.
  split.
  { unfold link. destruct (last =? 0) eqn:E; breflect; cbn [negb]; [done|].
    destruct Hlast as [?|[[str' nx'] Hlast]]; [done|].
    destruct (decide (last = q)) as [->|Hne'].
    - by rewrite lookup_insert_eq.
    - by rewrite lookup_insert_ne, Hlast. }
  split_and!; try done.
  right. split_and!; try done. exists sp. unfold pproom in *. simpl in *.
  split_and!; try done.
  - clear -Hqn. set_solver.
  - clear -Hqn. set_solver.
  - rewrite Hl2. clear. set_solver.
  - lia.
  - by exists buf.
Qed.

Lemma parse_loop_S fuel part path :
  parse_loop (S fuel) part path =
    if part =? 0 then mret tt
    else '(part, path) ← pathparser_parse_path_part part path; parse_loop fuel part path.
Proof. reflexivity. Qed.

Lemma parse_loop_spec fuel q sp0 path str s :
  alloc_ok (ppalloc s) -> cstr path str -> (length str < 108)%nat ->
  (length str + 2 <= fuel)%nat -> (2 * length str + 2 <= pproom s)%nat ->
  q <> 0 -> q ∈ pplive s -> pp_parts s !! q = Some (sp0, 0) ->
  exists l s', parse_loop fuel q path s = Ret (tt, s') /\
    alloc_ok (ppalloc s') /\ names l = path_names str /\
    pp_parts s' !! q = Some (sp0, first_addr l) /\ chain s' (first_addr l) l /\
    pplive s' = list_to_set (addrs l) ∪ pplive s /\
    NoDup (addrs l) /\ (forall x, x ∈ addrs l -> x ∉ pplive s) /\ pp_roots s' = pp_roots s /\
    (pproom s <= pproom s' + 2 * length str + 1)%nat /\
    (forall x, x ∈ pplive s -> pp_strs s' !! x = pp_strs s !! x) /\
    (forall x, x ∈ pplive s -> x <> q -> pp_parts s' !! x = pp_parts s !! x).
Proof.
  revert q sp0 path str s. induction fuel as [|fuel IH];
    intros q sp0 path str s Hok Hs Hlen Hf Hr Hq Hql Hpq; [lia|].
  cbn [parse_loop]. rewrite (proj2 (Z.eqb_neq q 0)) by done.
  destruct (part_name str) as [n r] eqn:Hn. rewrite path_names_eq, Hn.
  pose proof (part_name_length _ _ _ Hn) as Hnl.
  destruct (parse_path_part_spec q path str n r s) as
    (q' & path2 & h & strs & parts & Hp & Hp2 & Hok' & Hfr & Hcase); try done; [lia|by right|].
  step Hp.
  destruct Hcase as [(-> & -> & Hl & -> & Hr1)|
    (Hne & Hq' & sp & Hqn & Hspn & Hqsp & Hl & Hroom & -> & buf & Hbuf & Hbl & Hbs)].
  { destruct fuel as [|fuel]; [lia|]. exists [], (mk_pp h strs (pp_parts s) (pp_roots s)).
    split_and!; try done.
    - unfold pplive at 1. simpl. rewrite Hl. clear. set_solver.
    - constructor.
    - by intros x ?%elem_of_nil.
    - unfold pproom in *. simpl in *. lia. }
  set (s1 := mk_pp _ _ _ _).
  assert (q <> q') as Hqq by (by intros ->).
  assert (Hlive1 : pplive s1 = {[q'; sp]} ∪ pplive s) by done.
  assert (Hparts1 : pp_parts s1 = <[q := (sp0, q')]> (<[q' := (sp, 0)]> (pp_parts s))).
  { unfold s1, link. simpl. rewrite (proj2 (Z.eqb_neq q 0)) by done.
    by rewrite lookup_insert_ne, Hpq by done. }
  assert (0 < length n)%nat by (destruct n; [done|simpl; lia]).
  destruct (IH q' sp path2 r s1) as (l & s' & Hloop & Hok2 & Hnames & Hpq' & Hch & Hl2 & Hnd & Hdisj & Hroots & Hr2 & Hfs & Hfp);
    try done; [lia|lia|unfold pproom in *; simpl in *; lia|rewrite Hlive1; clear; set_solver| |].
  { rewrite Hparts1, lookup_insert_ne by done. apply lookup_insert_eq. }
  rewrite Hlive1 in Hl2, Hdisj, Hfs, Hfp.
  exists ((q', sp, n) :: l), s'. split; [exact Hloop|]. cbn [first_addr]. split_and!; try done.
  - change (names ((q', sp, n) :: l)) with (n :: names l). rewrite Hnames. by destruct n.
  - rewrite Hfp; [|clear -Hql; set_solver|done]. rewrite Hparts1. apply lookup_insert_eq.
  - cbn [chain]. split_and!; try done. exists (first_addr l), buf. split_and!; try done.
    rewrite Hfs by (clear; set_solver). done.
  - rewrite Hl2. change (addrs ((q', sp, n) :: l)) with (q' :: sp :: addrs l). clear. set_solver.
  - change (addrs ((q', sp, n) :: l)) with (q' :: sp :: addrs l).
    apply NoDup_cons. split; [|apply NoDup_cons; split; [|done]].
    + rewrite not_elem_of_cons. split; [done|]. intros Hx%Hdisj. clear -Hx. set_solver.
    + intros Hx%Hdisj. clear -Hx. set_solver.
  - change (addrs ((q', sp, n) :: l)) with (q' :: sp :: addrs l).
    intros x. rewrite !elem_of_cons. intros [-> |[-> |Hx%Hdisj]]; [exact Hqn|exact Hspn|].
    clear -Hx. set_solver.
  - unfold pproom in *. simpl in *. lia.
  - intros x Hx. rewrite Hfs by (clear -Hx; set_solver). simpl. by apply Hfr.
  - intros x Hx Hxq. assert (x <> q') by (by intros ->).
    rewrite Hfp; [|clear -Hx; set_solver|done]. rewrite Hparts1.
    by rewrite !lookup_insert_ne by done.
Qed.

(** A parsed path: its root, its nodes, and what they own. *)
Record parsed s (root drive : Z) (l : list node) : Prop := {
  pr_root : root <> 0;
  pr_first : pp_roots s !! root = Some (drive, first_addr l);
  pr_chain : chain s (first_addr l) l;
  pr_nodup : NoDup (root :: addrs l)
}.

Definition path_owned (root : Z) (l : list node) : gset Z := {[root]} ∪ list_to_set (addrs l).

Lemma create_root_spec drive s :
  alloc_ok (ppalloc s) -> (0 < pproom s)%nat ->
  exists root h, pathparser_create_root drive s =
      Ret (root, mk_pp h (pp_strs s) (pp_parts s) (<[root := (drive, 0)]> (pp_roots s))) /\
    root <> 0 /\ (root ∉ pplive s) /\ alloc_ok h /\ live_ptrs h = {[root]} ∪ pplive s /\ S (room h) = pproom s.
Proof.
  intros Hok Hr. destruct (ppk_kz 8 s) as (p & h & Hk & Hp & Hrest); [done|lia|done|].
  exists p, h. split; [|done]. unfold pathparser_create_root. step Hk.
  rewrite (proj2 (Z.eqb_neq p 0)) by done. reflexivity.
Qed.

Lemma parse_spec path str s :
  alloc_ok (ppalloc s) -> cstr path str -> (length str <= 108)%nat -> valid_path str = true ->
  (2 * length str + 3 <= pproom s)%nat ->
  exists root l s', pathparser_parse path s = Ret (root, s') /\
    alloc_ok (ppalloc s') /\ parsed s' root (default 0 (head str) - 48) l /\
    names l = path_names (drop 3 str) /\
    pplive s' = path_owned root l ∪ pplive s /\ path_owned root l ## pplive s /\
    (pproom s <= pproom s' + 2 * length str + 3)%nat /\
    (forall x, x ∈ pplive s -> pp_strs s' !! x = pp_strs s !! x /\ pp_parts s' !! x = pp_parts s !! x /\
                               pp_roots s' !! x = pp_roots s !! x).
Proof.
  intros Hok Hs Hlen Hv Hr. unfold pathparser_parse.
  rewrite (bind_liftO _ _ _ _ (strlen_spec _ _ Hs ltac:(lia))).
  rewrite (proj2 (Z.ltb_ge _ _)) by (unfold SERPAEOS_MAX_PATH; lia).
  rewrite (bind_liftO _ _ _ _ (get_drive_spec _ _ Hs)), Hv. cbv iota.
  assert (exists a rest prest, str = a :: 58 :: SLASH :: rest /\ path = a :: 58 :: SLASH :: prest /\
            is_digit a /\ cstr prest rest) as (a & rest & prest & -> & -> & Ha & Hrest).
  { destruct str as [|a [|b [|c rest]]]; [done..|]. simpl in Hv. breflect. subst b c.
    destruct Hs as [Hz [tl ->]]. exists a, rest, (rest ++ 0 :: tl). split_and!; try done.
    - by apply isdigit_spec.
    - split; [|by exists tl]. clear -Hz. rewrite !not_elem_of_cons in Hz. tauto. }
  change (drop 3 (a :: 58 :: SLASH :: rest)) with rest in *.
  change (drop 3 (a :: 58 :: SLASH :: prest)) with prest in *.
  cbn [head default length] in *. unfold default, id, tonumericdigit, is_digit in *.
  rewrite (proj2 (Z.ltb_ge _ _)) by lia.
  destruct (create_root_spec (a - 48) s) as (root & h & Hc & Hroot & Hrn & Hok1 & Hl1 & Hr1); [done|lia|].
  step Hc. set (s1 := mk_pp _ _ _ _).
  destruct (part_name rest) as [n r] eqn:Hn. rewrite path_names_eq, Hn.
  pose proof (part_name_length _ _ _ Hn) as Hnl.
  destruct (parse_path_part_spec 0 prest rest n r s1) as
    (q & path2 & h2 & strs & parts & Hp & Hp2 & Hok2 & Hfr & Hcase);
    try done; [unfold pproom; simpl; lia|lia|by left|].
  step Hp. assert (Hlive1 : pplive s1 = {[root]} ∪ pplive s) by done.
  rewrite Hlive1 in Hfr, Hcase.
  assert (Hrootfr : forall x v, x ∈ pplive s -> <[root := v]> (pp_roots s) !! x = pp_roots s !! x)
    by (intros x v Hx; apply lookup_insert_ne; by intros ->).
  destruct Hcase as [(-> & -> & Hl & -> & Hr2)|
    (Hne & Hq' & sp & Hqn & Hspn & Hqsp & Hl & Hroom & Hparts & buf & Hbuf & Hbl & Hbs)].
  { exists root, [], (mk_pp h2 strs (pp_parts s1) (pp_roots s1)).
    split; [done|]. unfold path_owned. split_and!; try done.
    - split; try done; [simpl; by rewrite lookup_insert_eq|apply NoDup_singleton].
    - unfold pplive at 1. simpl. rewrite Hl. clear. set_solver.
    - clear -Hrn. simpl. set_solver.
    - unfold pproom in *. simpl in *. lia.
    - intros x Hx. split_and!; [apply Hfr; clear -Hx; set_solver|done|by apply Hrootfr]. }
  rewrite (proj2 (Z.eqb_neq q 0)) by done.
  erewrite bind_Ret by reflexivity. erewrite bind_Ret by reflexivity.
  cbn [ppalloc pp_strs pp_parts pp_roots]. set (s2 := mk_pp _ _ _ _).
  assert (Hlive2 : pplive s2 = {[q; sp]} ∪ ({[root]} ∪ pplive s)) by done.
  assert (0 < length n)%nat by (destruct n; [done|simpl; lia]).
  unfold link in Hparts. simpl in Hparts.
  destruct (parse_loop_spec (S (S (length (a :: 58 :: SLASH :: prest)))) q sp path2 r s2)
    as (l & s' & Hloop & Hok3 & Hnames & Hpq & Hch & Hl2 & Hnd & Hdisj & Hroots & Hr3 & Hfs & Hfp); try done.
  { lia. }
  { destruct Hrest as [_ [tl ->]]. simpl. rewrite length_app. simpl. lia. }
  { unfold pproom in *. simpl in *. lia. }
  { rewrite Hlive2. clear. set_solver. }
  { simpl. rewrite Hparts. apply lookup_insert_eq. }
  rewrite parse_loop_S in Hloop. rewrite (proj2 (Z.eqb_neq q 0)) in Hloop by done.
  exists root, ((q, sp, n) :: l), s'. split.
  { revert Hloop. unfold mbind, cmd_bind.
    destruct (pathparser_parse_path_part q path2 s2) as [[[q3 path3] s3]| | |]; try done.
    intros E. cbn [length] in E |- *. rewrite E. reflexivity. }
  rewrite Hlive2 in Hl2, Hdisj, Hfs, Hfp. change (addrs ((q, sp, n) :: l)) with (q :: sp :: addrs l) in *.
  assert (Hq_l : q ∉ addrs l) by (intros Hx%Hdisj; clear -Hx; set_solver).
  assert (Hsp_l : sp ∉ addrs l) by (intros Hx%Hdisj; clear -Hx; set_solver).
  assert (Hroot_l : root ∉ addrs l) by (intros Hx%Hdisj; clear -Hx; set_solver).
  split; [done|]. split; [split|].
  - done.
  - rewrite Hroots. apply lookup_insert_eq.
  - cbn [chain first_addr]. split_and!; try done. exists (first_addr l), buf.
    split_and!; try done. rewrite Hfs by (clear; set_solver). done.
  - change (addrs ((q, sp, n) :: l)) with (q :: sp :: addrs l). rewrite !NoDup_cons, !not_elem_of_cons.
    clear -Hqn Hspn Hqsp Hq_l Hsp_l Hroot_l Hnd. set_solver.
  - split_and!.
    + change (names ((q, sp, n) :: l)) with (n :: names l). rewrite Hnames. by destruct n.
    + rewrite Hl2. unfold path_owned. change (addrs ((q, sp, n) :: l)) with (q :: sp :: addrs l).
      clear. set_solver.
    + unfold path_owned. change (addrs ((q, sp, n) :: l)) with (q :: sp :: addrs l).
      clear -Hdisj Hqn Hspn Hrn. set_solver.
    + unfold pproom in *. simpl in *. lia.
    + intros x Hx. assert (x <> q) by (clear -Hqn Hx; set_solver).
      rewrite Hfs by (clear -Hx; set_solver). rewrite Hfp; [|clear -Hx; set_solver|done].
      split_and!; [apply Hfr; clear -Hx; set_solver|simpl; rewrite Hparts; by apply lookup_insert_ne|].
      rewrite Hroots. simpl. rewrite insert_insert_eq. by apply Hrootfr.
Qed.

(** ** Releasing a path *)
Lemma addrs_cons q sp n l : addrs ((q, sp, n) :: l) = q :: sp :: addrs l.
Proof. reflexivity. Qed.

Lemma chain_frame s s' p l :
  (forall x, x ∈ addrs l -> pp_parts s' !! x = pp_parts s !! x /\ pp_strs s' !! x = pp_strs s !! x) ->
  chain s p l -> chain s' p l.
Proof.
  revert p. induction l as [|[[q sp] n] l IH]; intros p Hfr; [done|]. rewrite addrs_cons in Hfr.
  intros (-> & Hq & nx & buf & Hp & Hb & Hbl & Hbs & Hch). split_and!; try done.
  exists nx, buf. rewrite (proj1 (Hfr q ltac:(by left))), (proj2 (Hfr sp ltac:(right; by left))).
  split_and!; try done. apply IH; [|done]. intros x Hx. apply Hfr. by do 2 right.
Qed.

Lemma chain_parts s p l x : chain s p l -> x ∈ fst ∘ fst <$> l -> is_Some (pp_parts s !! x).
Proof.
  revert p. induction l as [|[[q sp] n] l IH]; intros p; [by intros _ ?%elem_of_nil|].
  intros (-> & Hq & nx & buf & Hp & _ & _ & _ & Hch). rewrite fmap_cons, elem_of_cons.
  intros [-> |Hx]; [simpl; by rewrite Hp|by eapply IH].
Qed.

Lemma addrs_parts l : (fst ∘ fst <$> l) `sublist_of` addrs l.
Proof.
  induction l as [|[[q sp] n] l IH]; [done|]. rewrite addrs_cons, fmap_cons. simpl.
  apply sublist_skip, sublist_cons. done.
Qed.

Lemma chain_length s p l : chain s p l -> NoDup (addrs l) -> (length l <= size (pp_parts s))%nat.
Proof.
  intros Hch Hnd. rewrite <- (length_fmap (fst ∘ fst : node -> Z)), <- (size_dom (D := gset Z)).
  rewrite <- (size_list_to_set (C := gset Z)) by (eapply sublist_NoDup; [done|apply addrs_parts]).
  apply subseteq_size. intros x. rewrite elem_of_list_to_set, elem_of_dom. by apply (chain_parts s p).
Qed.

Lemma free_parts_spec fuel s p l :
  alloc_ok (ppalloc s) -> chain s p l -> NoDup (addrs l) ->
  (forall x, x ∈ addrs l -> x ∈ pplive s) -> (length l < fuel)%nat ->
  exists s', free_parts fuel p s = Ret (tt, s') /\ alloc_ok (ppalloc s') /\
    pp_roots s' = pp_roots s /\ pplive s' = pplive s ∖ list_to_set (addrs l) /\
    (pproom s <= pproom s')%nat.
Proof.
  revert s p l. induction fuel as [|fuel IH]; intros s p l Hok Hch Hnd Hlive Hf; [lia|].
  cbn [free_parts]. destruct l as [|[[q sp] n] l].
  { cbn in Hch. subst p. exists s. split_and!; try done. simpl. by rewrite difference_empty_L. }
  rewrite addrs_cons in Hnd, Hlive |- *. destruct Hch as (-> & Hq & nx & buf & Hp & Hb & Hbl & Hbs & Hch).
  apply NoDup_cons in Hnd as [Hq1 Hnd]. apply NoDup_cons in Hnd as [Hsp1 Hnd].
  apply not_elem_of_cons in Hq1 as [Hqsp Hq1].
  rewrite (proj2 (Z.eqb_neq q 0)) by done. erewrite bind_Ret by reflexivity. rewrite Hp.
  destruct (ppk_kf sp s Hok) as (h & Hk & Hok1 & Hl1 & Hr1); [apply Hlive; right; by left|].
  unfold kfree_str, kfree_part. erewrite bind_Ret; [|step Hk; reflexivity].
  cbn [ppalloc pp_strs pp_parts pp_roots]. set (s1 := mk_pp _ _ _ _).
  destruct (ppk_kf q s1 Hok1) as (h2 & Hk2 & Hok2 & Hl2 & Hr2).
  { unfold pplive. simpl. rewrite Hl1. apply elem_of_difference. split; [apply Hlive; by left|].
    by rewrite elem_of_singleton. }
  erewrite bind_Ret; [|step Hk2; reflexivity]. cbn [ppalloc pp_strs pp_parts pp_roots s1].
  set (s2 := mk_pp _ _ _ _).
  assert (Hlive2 : pplive s2 = pplive s ∖ {[sp]} ∖ {[q]}) by (unfold pplive; simpl; by rewrite Hl2; unfold pplive; simpl; rewrite Hl1).
  destruct (IH s2 nx l) as (s' & Hfree & Hok' & Hroots & Hl' & Hr'); try done; [| |simpl in Hf; lia|].
  - eapply chain_frame; [|exact Hch]. intros x Hx. simpl.
    by rewrite !lookup_delete_ne by (by intros ->).
  - intros x Hx. rewrite Hlive2, !elem_of_difference, !elem_of_singleton.
    split; [split; [apply Hlive; by do 2 right|]|]; by intros ->.
  - exists s'. split_and!; try done.
    + rewrite Hl', Hlive2. clear. set_solver.
    + unfold pproom in *. simpl in *. lia.
Qed.

Lemma free_path_spec s root drive l :
  alloc_ok (ppalloc s) -> parsed s root drive l -> path_owned root l ⊆ pplive s ->
  exists s', pathparser_free root s = Ret (tt, s') /\ alloc_ok (ppalloc s') /\
    pplive s' = pplive s ∖ path_owned root l /\ (pproom s <= pproom s')%nat.
Proof.
  intros Hok [Hroot Hfirst Hch Hnd] Hown. unfold path_owned in *. unfold pathparser_free.
  apply NoDup_cons in Hnd as [Hrl Hnd].
  erewrite bind_Ret by reflexivity. rewrite Hfirst.
  destruct (free_parts_spec (S (size (pp_parts s))) s (first_addr l) l) as (s1 & Hf & Hok1 & Hroots & Hl1 & Hr1);
    try done; [intros x Hx; apply Hown; clear -Hx; set_solver
              |pose proof (chain_length _ _ _ Hch Hnd); lia|].
  step Hf. destruct (ppk_kf root s1 Hok1) as (h & Hk & Hok2 & Hl2 & Hr2).
  { rewrite Hl1. clear -Hown Hrl. set_solver. }
  unfold kfree_root. step Hk. eexists. split; [reflexivity|]. split; [done|].
  split; [unfold pplive at 1; simpl; rewrite Hl2, Hl1; clear; set_solver|].
  unfold pproom in *. simpl. lia.
Qed.

Lemma get_last_part_spec fuel s p l :
  chain s p l -> l <> [] -> (length l <= fuel)%nat ->
  exists q sp n l', l = l' ++ [(q, sp, n)] /\ pathparser_get_last_part fuel s p = Ret q.
Proof.
  revert p l. induction fuel as [|fuel IH]; intros p l Hch Hne Hf; [destruct l; [done|simpl in Hf; lia]|].
  destruct l as [|[[q sp] n] l]; [done|].
  destruct Hch as (-> & Hq & nx & buf & Hp & _ & _ & _ & Hch). cbn [pathparser_get_last_part]. rewrite Hp.
  destruct l as [|[[q2 sp2] n2] l].
  - cbn in Hch. subst nx. by exists q, sp, n, [].
  - pose proof Hch as (-> & Hq2 & _). rewrite (proj2 (Z.eqb_neq q2 0)) by done. cbn [negb].
    destruct (IH q2 ((q2, sp2, n2) :: l) Hch) as (q' & sp' & n' & l' & Hl & Hg); [done|simpl in *; lia|].
    exists q', sp', n', ((q, sp, n) :: l'). split; [by rewrite <- app_comm_cons, <- Hl|exact Hg].
Qed.
End with_allocator.

(** ** Properties *)

Lemma valid_print drive names : 0 <= drive <= 9 -> valid_path (print_path drive names) = true.
Proof.
  intros Hd. unfold print_path, valid_path. rewrite (proj2 (isdigit_spec _)) by (unfold is_digit; lia). done.
Qed.

(** C13: parsing inverts printing.  The path [d:/n1/n2/...] of at most 108
    characters, made of non-empty names without slashes, parses to the drive
    [d] and the list of exactly those names, in order, each in its own
    terminated 108-byte buffer; all its objects are new and distinct; and
    [pathparser_free] then leaves exactly the allocations that were live
    before.  The parser needs room for two blocks per character. *)
Theorem parse_print_roundtrip {H} `{AllocatorOk H} (s : ppstate H) path drive ns :
  alloc_ok (ppalloc s) -> 0 <= drive <= 9 -> Forall good_name ns ->
  cstr path (print_path drive ns) -> (length (print_path drive ns) <= 108)%nat ->
  (2 * length (print_path drive ns) + 3 <= room (ppalloc s))%nat ->
  exists root l s1, pathparser_parse path s = Ret (root, s1) /\
    parsed s1 root drive l /\ names l = ns /\ path_owned root l ## live_ptrs (ppalloc s) /\
    (forall x, x ∈ live_ptrs (ppalloc s) ->
       pp_strs s1 !! x = pp_strs s !! x /\ pp_parts s1 !! x = pp_parts s !! x) /\
    exists s2, pathparser_free root s1 = Ret (tt, s2) /\ alloc_ok (ppalloc s2) /\
      live_ptrs (ppalloc s2) = live_ptrs (ppalloc s).
Proof.
  intros Hok Hd Hns Hpath Hlen Hroom.
  destruct (parse_spec path _ s Hok Hpath Hlen (valid_print drive ns Hd) Hroom)
    as (root & l & s1 & Hp & Hok1 & Hparsed & Hnames & Hlive & Hdisj & _ & Hfr).
  assert (default 0 (head (print_path drive ns)) - 48 = drive) as Hdr by (simpl; lia).
  rewrite Hdr in Hparsed. change (drop 3 (print_path drive ns)) with (join_names ns) in Hnames.
  rewrite path_names_join in Hnames by done.
  exists root, l, s1. split_and!; try done.
  { intros x Hx. by destruct (Hfr x Hx) as (? & ? & _). }
  destruct (free_path_spec s1 root drive l Hok1 Hparsed) as (s2 & Hf & Hok2 & Hl2 & _).
  { rewrite Hlive. set_solver. }
  exists s2. split_and!; try done. change (pplive s2 = pplive s). rewrite Hl2, Hlive.
  clear -Hdisj. set_solver.
Qed.

Definition demo_ppstate : ppstate kmem := mk_pp demo_kmem ∅ ∅ ∅.

Lemma parse_print_roundtrip_witness :
  exists root l s1, pathparser_parse [48; 58; 47; 97; 47; 98; 99; 0] demo_ppstate = Ret (root, s1) /\
    parsed s1 root 0 l /\ names l = [[97]; [98; 99]].
Proof.
  destruct (parse_print_roundtrip demo_ppstate [48; 58; 47; 97; 47; 98; 99; 0] 0 [[97]; [98; 99]])
    as (root & l & s1 & Hp & Hd & Hn & _).
  - exact demo_kmem_ok.
  - lia.
  - repeat constructor; try discriminate; apply (bool_decide_unpack _); vm_compute; exact I.
  - split; [apply (bool_decide_unpack _); vm_compute; exact I|exists []; reflexivity].
  - simpl. lia.
  - transitivity 1026%nat; [simpl; lia|exact demo_room].
  - exists root, l, s1. split; [exact Hp|]. split; [exact Hd|exact Hn].
Defined.

(** A path that is longer than 108 characters or does not start with a
    digit and [:/] is refused with a null root, and nothing is allocated. *)
Theorem parse_rejects {H} `{AllocatorOk H} (s : ppstate H) path str :
  cstr path str -> Z.of_nat (length str) < 2147483648 ->
  (108 < length str)%nat \/ valid_path str = false ->
  pathparser_parse path s = Ret (0, s).
Proof.
  intros Hs Hlen Hbad. unfold pathparser_parse.
  rewrite (bind_liftO _ _ _ _ (strlen_spec _ _ Hs Hlen)). unfold SERPAEOS_MAX_PATH.
  destruct (108 <? Z.of_nat (length str)) eqn:E; breflect; [done|].
  destruct Hbad as [?|Hv]; [lia|].
  rewrite (bind_liftO _ _ _ _ (get_drive_spec _ _ Hs)), Hv. done.
Qed.

Lemma parse_rejects_witness :
  pathparser_parse [97; 58; 47; 97; 0] demo_ppstate = Ret (0, demo_ppstate).
Proof.
  apply (parse_rejects demo_ppstate [97; 58; 47; 97; 0] [97; 58; 47; 97]).
  - split; [apply (bool_decide_unpack _); vm_compute; exact I|exists []; reflexivity].
  - simpl. lia.
  - right. reflexivity.
Defined.
