(* ===== verification/Keyboard.v ===== *)
(** * The keyboard (src/src/keyboard/keyboard.c, classic.c)

    The scancode translator is a state machine over the driver's global flags;
    what it asks of the process component (flipping screens, terminating the
    current process, showing the directory) is returned as a list of actions.
    Each process has a 1024-byte ring buffer of characters. *)
From Stdlib Require Import Ascii.
From S2P Require Import Prelude Config.

(** The code of a character. *)
Definition ch (a : ascii) : Z := Z.of_N (N_of_ascii a).

(** ** The translator's state and actions

    The driver's flags, without [escape_pressed], which nothing writes. *)
Record kbd := mk_kbd {
  shift_pressed : bool;
  caps_pressed : bool;
  backspace_pressed : bool;
  alt_pressed : bool;
  ctrl_pressed : bool;
  enter_pressed : bool;
  dir_on : bool;
  superkey_pressed : bool;
  superkey_was_used : bool;
  e0_check : bool
}.

#[global] Instance kbd_eq_dec : EqDecision kbd.
Proof. solve_decision. Defined.

Definition set_shift (b : bool) (s : kbd) : kbd :=
  mk_kbd b (caps_pressed s) (backspace_pressed s) (alt_pressed s) (ctrl_pressed s) (enter_pressed s)
    (dir_on s) (superkey_pressed s) (superkey_was_used s) (e0_check s).
Definition set_caps (b : bool) (s : kbd) : kbd :=
  mk_kbd (shift_pressed s) b (backspace_pressed s) (alt_pressed s) (ctrl_pressed s) (enter_pressed s)
    (dir_on s) (superkey_pressed s) (superkey_was_used s) (e0_check s).
Definition set_backspace (b : bool) (s : kbd) : kbd :=
  mk_kbd (shift_pressed s) (caps_pressed s) b (alt_pressed s) (ctrl_pressed s) (enter_pressed s)
    (dir_on s) (superkey_pressed s) (superkey_was_used s) (e0_check s).
Definition set_alt (b : bool) (s : kbd) : kbd :=
  mk_kbd (shift_pressed s) (caps_pressed s) (backspace_pressed s) b (ctrl_pressed s) (enter_pressed s)
    (dir_on s) (superkey_pressed s) (superkey_was_used s) (e0_check s).
Definition set_ctrl (b : bool) (s : kbd) : kbd :=
  mk_kbd (shift_pressed s) (caps_pressed s) (backspace_pressed s) (alt_pressed s) b (enter_pressed s)
    (dir_on s) (superkey_pressed s) (superkey_was_used s) (e0_check s).
Definition set_enter (b : bool) (s : kbd) : kbd :=
  mk_kbd (shift_pressed s) (caps_pressed s) (backspace_pressed s) (alt_pressed s) (ctrl_pressed s) b
    (dir_on s) (superkey_pressed s) (superkey_was_used s) (e0_check s).
Definition set_dir (b : bool) (s : kbd) : kbd :=
  mk_kbd (shift_pressed s) (caps_pressed s) (backspace_pressed s) (alt_pressed s) (ctrl_pressed s)
    (enter_pressed s) b (superkey_pressed s) (superkey_was_used s) (e0_check s).
Definition set_super (b : bool) (s : kbd) : kbd :=
  mk_kbd (shift_pressed s) (caps_pressed s) (backspace_pressed s) (alt_pressed s) (ctrl_pressed s)
    (enter_pressed s) (dir_on s) b (superkey_was_used s) (e0_check s).
Definition set_super_used (b : bool) (s : kbd) : kbd :=
  mk_kbd (shift_pressed s) (caps_pressed s) (backspace_pressed s) (alt_pressed s) (ctrl_pressed s)
    (enter_pressed s) (dir_on s) (superkey_pressed s) b (e0_check s).
Definition set_e0 (b : bool) (s : kbd) : kbd :=
  mk_kbd (shift_pressed s) (caps_pressed s) (backspace_pressed s) (alt_pressed s) (ctrl_pressed s)
    (enter_pressed s) (dir_on s) (superkey_pressed s) (superkey_was_used s) b.

Inductive kaction :=
| OutEOI                  (** [outb(0x20, 0x20)] *)
| TerminateCurrent        (** [process_terminate(process_current())] *)
| Flip (id : Z)           (** [process_flip(id)] *)
| ShowDirectory
| HideDirectory.

#[global] Instance kaction_eq_dec : EqDecision kaction.
Proof. solve_decision. Defined.

Definition KEY_DOWN : Z := 220.
Definition KEY_UP : Z := 221.
Definition KEY_RIGHT : Z := 223.
Definition KEY_LEFT : Z := 224.
Definition EOF_CHAR : Z := u8 (-1).

(** What a piece of the function does: it returns, or control goes on with
    the globals as they then are. *)
Inductive flow :=
| Return (c : Z) (s : kbd) (acts : list kaction)
| Next (s : kbd).

(** [if (shift_pressed == true) return a; else return b;] *)
Definition by_shift (s : kbd) (a b : ascii) : flow :=
  Return (if shift_pressed s then ch a else ch b) s [].

(** [if (shift_pressed == true || caps_pressed == true) return a; else return b;] *)
Definition by_case (s : kbd) (a b : ascii) : flow :=
  Return (if shift_pressed s || caps_pressed s then ch a else ch b) s [].

(** The extension prefix, escape, the digit row, backspace and tab. *)
Definition scan_digit_row (s : kbd) (scancode : Z) : flow :=
  match scancode with
  | 0xE0 => Return 0 (set_e0 true s) []
  | 0x01 => Return 27 s []
  | 0x02 => by_shift s "!" "1"
  | 0x03 => by_shift s "@" "2"
  | 0x04 => by_shift s "#" "3"
  | 0x05 => by_shift s "$" "4"
  | 0x06 => by_shift s "%" "5"
  | 0x07 => by_shift s "^" "6"
  | 0x08 => by_shift s "&" "7"
  | 0x09 => by_shift s "*" "8"
  | 0x0A => by_shift s "(" "9"
  | 0x0B => by_shift s ")" "0"
  | 0x0C => by_shift s "_" "-"
  | 0x0D => by_shift s "+" "="
  | 0x0E => Return 8 (set_backspace true s) []
  | 0x0F => Return 9 s []
  | _ => Next s
  end.

(** The rows of letters, with enter, control, shift, alt, space and caps lock. *)
Definition scan_q_row (s : kbd) (scancode : Z) : flow :=
  match scancode with
  | 0x10 =>
      if ctrl_pressed s && negb (shift_pressed s) then Return 0 s [OutEOI; TerminateCurrent]
      else by_case s "Q" "q"
  | 0x11 => by_case s "W" "w"
  | 0x12 => by_case s "E" "e"
  | 0x13 => by_case s "R" "r"
  | 0x14 => by_case s "T" "t"
  | 0x15 => by_case s "Y" "y"
  | 0x16 => by_case s "U" "u"
  | 0x17 => by_case s "I" "i"
  | 0x18 => by_case s "O" "o"
  | 0x19 => by_case s "P" "p"
  | 0x1A => by_shift s "{" "["
  | 0x1B => by_shift s "}" "]"
  | 0x1C => Return 13 (set_enter true s) []
  | 0x1D => Return 0 (set_ctrl true s) []
  | 0x9D => Return 0 (set_ctrl false s) []
  | _ => Next s
  end.

Definition scan_a_row (s : kbd) (scancode : Z) : flow :=
  match scancode with
  | 0x1E => by_case s "A" "a"
  | 0x1F => by_case s "S" "s"
  | 0x20 =>
      if ctrl_pressed s && negb (shift_pressed s) then Return EOF_CHAR s []
      else by_case s "D" "d"
  | 0x21 => by_case s "F" "f"
  | 0x22 => by_case s "G" "g"
  | 0x23 => by_case s "H" "h"
  | 0x24 => by_case s "J" "j"
  | 0x25 => by_case s "K" "k"
  | 0x26 => by_case s "L" "l"
  | 0x27 => by_shift s ":" ";"
  | 0x28 => by_shift s "|" "'"
  | 0x29 => by_shift s "~" "`"
  | _ => Next s
  end.

Definition scan_z_row (s : kbd) (scancode : Z) : flow :=
  match scancode with
  | 0x2A | 0x36 => Return 0 (set_shift true s) []
  | 0x2B => by_shift s "|" "\"
  | 0x2C => by_case s "Z" "z"
  | 0x2D => by_case s "X" "x"
  | 0x2E => by_case s "C" "c"
  | 0x2F => by_case s "V" "v"
  | 0x30 => by_case s "B" "b"
  | 0x31 => by_case s "N" "n"
  | 0x32 => by_case s "M" "m"
  | 0x33 => by_shift s "<" ","
  | 0x34 => by_shift s ">" "."
  | 0x35 => by_shift s "?" "/"
  | 0x38 => Next (set_alt true s)
  | 0x39 => Return (ch " ") s []
  | 0x3A => Return 0 (set_caps (negb (caps_pressed s)) s) []
  | _ => Next s
  end.

(** Shift released; the function keys and Home flip between processes. *)
Definition scan_function_keys (s : kbd) (scancode : Z) : flow :=
  if (scancode =? 0xAA) || (scancode =? 0xB6) then Return 0 (set_shift false s) []
  else if (0x3B <=? scancode) && (scancode <=? 0x46)
  then Return 0 s [OutEOI; Flip (scancode - 0x3B + 1)]
  else if (scancode =? 0x47) && e0_check s then Return 0 (set_e0 false s) [OutEOI; Flip 0]
  else Next s.

Definition scan_super_key (s : kbd) (scancode : Z) : flow :=
  if ((scancode =? 0x5B) || (scancode =? 0x5C)) && e0_check s
  then Return 0 (set_super true (set_e0 false s)) []
  else if ((scancode =? 0xDB) || (scancode =? 0xDC)) && e0_check s then
    let s := set_e0 false (set_super false s) in
    if negb (superkey_was_used s) then
      let s := set_dir (negb (dir_on s)) s in
      Return 0 (set_super_used false s) [OutEOI; if negb (dir_on s) then HideDirectory else ShowDirectory]
    else Return 0 (set_super_used false s) [OutEOI]
  else Next s.

(** A keypad key that is an arrow after the extension prefix. *)
Definition arrow (s : kbd) (key : Z) (digit : ascii) : flow :=
  Return (if e0_check s then key else ch digit) (set_e0 false s) [].

Definition scan_keypad (s : kbd) (scancode : Z) : flow :=
  match scancode with
  | 0x34 => Return (ch "/") s []
  | 37 => Return (ch "*") s []
  | 0x4A => Return (ch "-") s []
  | 0x4E => Return (ch "+") s []
  | 0x1C => Return 13 s []
  | 0x53 => Return (ch ".") s []
  | 0x52 => Return (ch "0") s []
  | 0x4F => Return (ch "1") s []
  | 0x50 => arrow s KEY_DOWN "2"
  | 0x51 => Return (ch "3") s []
  | 0x4B => arrow s KEY_LEFT "4"
  | 0x4C => Return (ch "5") s []
  | 0x4D => arrow s KEY_RIGHT "6"
  | 0x47 => Return (ch "7") s []
  | 0x48 => arrow s KEY_UP "8"
  | 0x49 => Return (ch "9") s []
  | _ => Next s
  end.

(** Run the pieces in order until one returns; the function ends with
    [return '\0']. *)
Fixpoint run_flow (l : list (kbd -> Z -> flow)) (s : kbd) (scancode : Z) : Z * kbd * list kaction :=
  match l with
  | [] => (0, s, [])
  | f :: l =>
      match f s scancode with
      | Return c s acts => (c, s, acts)
      | Next s => run_flow l s scancode
      end
  end.

Definition classic_keyboard_scancode_to_char (s : kbd) (scancode : Z) : Z * kbd * list kaction :=
  run_flow [scan_digit_row; scan_q_row; scan_a_row; scan_z_row; scan_function_keys;
            scan_super_key; scan_keypad] s scancode.

(** ** The ring buffer of a process *)
Record ring := mk_ring { buffer : list Z; tail : Z; head : Z }.

(** [sizeof] is unsigned, so the index is taken modulo the buffer size as an
    unsigned number. *)
Definition ring_index (i : Z) : Z := u32 i mod SERPAEOS_KEYBOARD_BUFFER_SIZE.

Definition keyboard_get_tail_index (r : ring) : Z := ring_index (tail r).

Definition keyboard_backspace (r : ring) : outcome ring :=
  let r := mk_ring (buffer r) (s32 (tail r - 1)) (head r) in
  b ← store (buffer r) (keyboard_get_tail_index r) 0;
  Ret (mk_ring b (tail r) (head r)).

(** [None] is the absence of a current process. *)
Definition keyboard_push (process : option ring) (c : Z) : outcome (option ring) :=
  match process with
  | None => Ret None
  | Some r =>
      if c =? 0 then Ret (Some r)
      else
        b ← store (buffer r) (keyboard_get_tail_index r) c;
        Ret (Some (mk_ring b (s32 (tail r + 1)) (head r)))
  end.

Definition keyboard_pop (process : option ring) : outcome (Z * option ring) :=
  match process with
  | None => Ret (0, None)
  | Some r =>
      let real_index := ring_index (head r) in
      c ← load (buffer r) real_index;
      if c =? 0 then Ret (0, Some r)
      else
        b ← store (buffer r) real_index 0;
        Ret (c, Some (mk_ring b (tail r) (s32 (head r + 1))))
  end.

(** The interrupt handler: [scancode] is what port 0x60 gave. *)
Definition classic_keyboard_handle_interrupt (s : kbd) (process : option ring) (scancode : Z)
    : outcome (option ring * kbd * list kaction) :=
  let '(c, s, acts) := classic_keyboard_scancode_to_char s scancode in
  process ← (if 0 <? c then keyboard_push process c else Ret process);
  Ret (process, s, acts).

(** ** The list of keyboards *)
Record keyboard := mk_keyboard { kb_init : option Z; kb_name : list Z }.

(** Keyboards in list order; [kb_init] is the result of the driver's [init]
    function, [None] for a null pointer. *)
Definition keyboard_insert (ks : list keyboard) (k : keyboard) : Z * list keyboard :=
  match kb_init k with
  | None => (- EINVARG, ks)
  | Some res => (res, ks ++ [k])
  end.
