(* ===== verification/KeyboardSpec.v ===== *)
(** * What the keyboard promises

    The ring buffer is a FIFO queue, the translator is the QWERTY layout with
    modifier keys, and the two places where it is not. *)
From S2P Require Import Prelude Config Keyboard.

(** ** The ring buffer as a queue *)
Lemma ring_index_mod i : ring_index i = i mod 1024.
Proof. unfold ring_index, u32, SERPAEOS_KEYBOARD_BUFFER_SIZE. zlia. Qed.

Lemma s32_mod i : s32 i mod 1024 = i mod 1024.
Proof. unfold s32. zlia. Qed.

Lemma s32_add_mod a b : (s32 a + b) mod 1024 = (a + b) mod 1024.
Proof. unfold s32. zlia. Qed.

(** The position of the [i]th character after the head. *)
Definition slot (r : ring) (i : nat) : nat := Z.to_nat ((head r + Z.of_nat i) mod 1024).

(** [r] holds exactly the characters [q], oldest first, and zeros elsewhere. *)
Record ring_queue (r : ring) (q : list Z) : Prop := {
  rq_len : length (buffer r) = 1024%nat;
  rq_tail : tail r mod 1024 = (head r + Z.of_nat (length q)) mod 1024;
  rq_fits : (length q <= 1024)%nat;
  rq_chars : Forall (fun c => c <> 0) q;
  rq_slots : forall i, (i < 1024)%nat -> buffer r !! slot r i = Some (default 0 (q !! i))
}.

Lemma slot_lt r i : (slot r i < 1024)%nat.
Proof. unfold slot. zlia. Qed.

Lemma slot_inj r i j : (i < 1024)%nat -> (j < 1024)%nat -> slot r i = slot r j -> i = j.
Proof. unfold slot. intros Hi Hj He. zlia. Qed.

Lemma store_slot r q i x :
  ring_queue r q -> store (buffer r) (ring_index (head r + Z.of_nat i)) x = Ret (<[slot r i := x]> (buffer r)).
Proof.
  intros Hq. rewrite ring_index_mod, store_Ret; [done|]. rewrite (rq_len _ _ Hq). zlia.
Qed.

Lemma push_spec r q c :
  ring_queue r q -> (length q < 1024)%nat -> c <> 0 ->
  exists r', keyboard_push (Some r) c = Ret (Some r') /\ ring_queue r' (q ++ [c]).
Proof.
  intros Hq Hlen Hc. unfold keyboard_push. rewrite (proj2 (Z.eqb_neq c 0)) by done.
  unfold keyboard_get_tail_index.
  assert (ring_index (tail r) = ring_index (head r + Z.of_nat (length q))) as ->
    by (rewrite !ring_index_mod; apply Hq).
  rewrite (store_slot _ _ _ _ Hq). simpl. eexists. split; [done|].
  destruct Hq as [Hbl Htail Hfit Hch Hsl]. split; simpl.
  - by rewrite length_insert.
  - rewrite s32_mod, length_app. simpl. rewrite <- Z.add_mod_idemp_l, Htail, Z.add_mod_idemp_l by lia.
    f_equal. lia.
  - rewrite length_app. simpl. lia.
  - apply Forall_app. split; [done|by apply Forall_singleton].
  - intros i Hi. change (slot (mk_ring _ _ _) i) with (slot r i).
    destruct (decide (i = length q)) as [->|Hne].
    + rewrite list_lookup_insert_eq by (rewrite Hbl; apply slot_lt). by rewrite list_lookup_middle.
    + rewrite list_lookup_insert_ne by (intros He%slot_inj; lia). rewrite Hsl by done.
      destruct (decide (i < length q)%nat).
      * by rewrite lookup_app_l.
      * rewrite !lookup_ge_None_2; [done|rewrite length_app; simpl; lia|lia].
Qed.

Lemma pop_empty r : ring_queue r [] -> keyboard_pop (Some r) = Ret (0, Some r).
Proof.
  intros Hq. unfold keyboard_pop. rewrite ring_index_mod.
  pose proof (rq_slots _ _ Hq 0%nat ltac:(lia)) as Hs. unfold slot in Hs. rewrite Z.add_0_r in Hs.
  rewrite (load_Some _ _ 0) by (zlia || done). done.
Qed.

Lemma pop_spec r c q :
  ring_queue r (c :: q) ->
  exists r', keyboard_pop (Some r) = Ret (c, Some r') /\ ring_queue r' q.
Proof.
  intros Hq. unfold keyboard_pop.
  pose proof (rq_slots _ _ Hq 0%nat ltac:(lia)) as Hs.
  pose proof (store_slot _ _ 0 0 Hq) as Hst. rewrite Z.add_0_r in Hst.
  unfold slot in Hs. rewrite Z.add_0_r, <- ring_index_mod in Hs.
  rewrite (load_Some _ _ c); [|rewrite ring_index_mod; zlia|exact Hs]. simpl mbind.
  pose proof (rq_chars _ _ Hq) as Hch. inversion Hch as [|? ? Hc Hch']; subst.
  rewrite (proj2 (Z.eqb_neq c 0)) by done. rewrite Hst. simpl. eexists. split; [done|].
  destruct Hq as [Hbl Htail Hfit _ Hsl]. simpl in Hfit, Htail. split; simpl.
  - by rewrite length_insert.
  - rewrite Htail, s32_add_mod. f_equal. lia.
  - lia.
  - done.
  - intros i Hi.
    assert (slot (mk_ring (<[slot r 0:=0]> (buffer r)) (tail r) (s32 (head r + 1))) i = slot r (S i)) as ->.
    { unfold slot. cbn [head]. rewrite s32_add_mod. do 2 f_equal. lia. }
    destruct (decide (i = 1023%nat)) as [->|].
    + assert (slot r 1024 = slot r 0) as -> by (unfold slot; zlia).
      rewrite list_lookup_insert_eq by (rewrite Hbl; apply slot_lt).
      by rewrite lookup_ge_None_2 by lia.
    + rewrite list_lookup_insert_ne by (intros He%slot_inj; lia). by rewrite Hsl by lia.
Qed.

Lemma backspace_spec r q c :
  ring_queue r (q ++ [c]) ->
  exists r', keyboard_backspace r = Ret r' /\ ring_queue r' q.
Proof.
  intros Hq. pose proof Hq as [Hbl Htail Hfit Hch Hsl]. rewrite length_app in Hfit, Htail. simpl in *.
  unfold keyboard_backspace, keyboard_get_tail_index. cbn [tail head buffer].
  assert (ring_index (s32 (tail r - 1)) = ring_index (head r + Z.of_nat (length q))) as Hidx.
  { rewrite !ring_index_mod, s32_mod. rewrite <- Zminus_mod_idemp_l, Htail, Zminus_mod_idemp_l.
    f_equal. lia. }
  rewrite Hidx, (store_slot _ _ _ _ Hq). simpl. eexists. split; [done|]. split; simpl.
  - by rewrite length_insert.
  - by rewrite !ring_index_mod in Hidx.
  - lia.
  - by apply Forall_app in Hch as [? _].
  - intros i Hi. change (slot (mk_ring _ _ _) i) with (slot r i).
    destruct (decide (i = length q)) as [->|Hne].
    + rewrite list_lookup_insert_eq by (rewrite Hbl; apply slot_lt). by rewrite lookup_ge_None_2.
    + rewrite list_lookup_insert_ne by (intros He%slot_inj; lia). rewrite Hsl by done.
      destruct (decide (i < length q)%nat).
      * by rewrite lookup_app_l.
      * rewrite !lookup_ge_None_2; [done|lia|rewrite length_app; simpl; lia].
Qed.

(** ** Traces of operations *)
Inductive kop := KPush (c : Z) | KPop.

Fixpoint run_ring (ops : list kop) (r : option ring) : outcome (list Z * option ring) :=
  match ops with
  | [] => Ret ([], r)
  | KPush c :: ops => r ← keyboard_push r c; run_ring ops r
  | KPop :: ops =>
      '(c, r) ← keyboard_pop r;
      '(out, r) ← run_ring ops r;
      Ret (c :: out, r)
  end.

(** The abstract queue: pushing 0 does nothing, popping an empty queue gives 0;
    [None] when a push finds 1024 characters waiting. *)
Fixpoint run_queue (ops : list kop) (q : list Z) : option (list Z * list Z) :=
  match ops with
  | [] => Some ([], q)
  | KPush c :: ops =>
      if c =? 0 then run_queue ops q
      else if bool_decide (length q < 1024)%nat then run_queue ops (q ++ [c]) else None
  | KPop :: ops =>
      match q with
      | [] => '(out, q) ← run_queue ops []; Some (0 :: out, q)
      | c :: q => '(out, q) ← run_queue ops q; Some (c :: out, q)
      end
  end.

(** A fresh process' buffer: zeroed by the allocator. *)
Definition empty_ring : ring := mk_ring (replicate 1024 0) 0 0.

Lemma empty_ring_queue : ring_queue empty_ring [].
Proof.
  split; [done|done|simpl; lia|constructor|]. intros i Hi. cbn [buffer empty_ring]. apply lookup_replicate_2. apply slot_lt.
Qed.

(** C9: a process' keyboard buffer is a FIFO queue.  Whatever characters are
    pushed and popped, in any order, as long as at most 1024 are waiting, the
    pops return the characters in the order they were pushed (0 when none is
    waiting), also when the head and tail counters wrap around. *)
Theorem ring_refines_queue ops r q out q' :
  ring_queue r q -> run_queue ops q = Some (out, q') ->
  exists r', run_ring ops (Some r) = Ret (out, Some r') /\ ring_queue r' q'.
Proof.
  revert r q out. induction ops as [|[c|] ops IH]; intros r q out Hq; cbn [run_queue run_ring].
  - intros [= <- <-]. by exists r.
  - destruct (c =? 0) eqn:E; breflect.
    + intros Hrun. subst c. simpl. by apply (IH r q).
    + case_bool_decide as Hlen; [|done]. intros Hrun.
      destruct (push_spec r q c Hq Hlen E) as (r1 & -> & Hq1). simpl. by apply (IH r1 (q ++ [c])).
  - destruct q as [|c q].
    + destruct (run_queue ops []) as [[out1 q1]|] eqn:Hrun; [|done]. intros [= <- <-].
      rewrite (pop_empty r Hq). simpl. destruct (IH r [] out1 Hq Hrun) as (r' & -> & Hq').
      simpl. by exists r'.
    + destruct (run_queue ops q) as [[out1 q1]|] eqn:Hrun; [|done]. intros [= <- <-].
      destruct (pop_spec r c q Hq) as (r1 & -> & Hq1). simpl.
      destruct (IH r1 q out1 Hq1 Hrun) as (r' & -> & Hq'). simpl. by exists r'.
Qed.

Lemma ring_refines_queue_witness :
  exists r', run_ring [KPush 104; KPush 105; KPop; KPush 33; KPop; KPop; KPop] (Some empty_ring) =
    Ret ([104; 105; 33; 0], Some r').
Proof.
  destruct (ring_refines_queue [KPush 104; KPush 105; KPop; KPush 33; KPop; KPop; KPop]
              empty_ring [] [104; 105; 33; 0] []) as (r' & Hr & _).
  - exact empty_ring_queue.
  - reflexivity.
  - exists r'. exact Hr.
Defined.

(** ** The translator, checked on every state and every scancode *)
Definition bools : list bool := [true; false].

(** All values of the six flags the translator reads; the other four are
    carried along as variables. *)
Definition all_kbd (backspace alt enter super : bool) : list kbd :=
  shift ← bools; caps ← bools; ctrl ← bools; dir ← bools; used ← bools; e0 ← bools;
  [mk_kbd shift caps backspace alt ctrl enter dir super used e0].

Lemma elem_of_bools b : b ∈ bools.
Proof. destruct b; [by left|right; by left]. Qed.

Lemma elem_of_all_kbd s :
  s ∈ all_kbd (backspace_pressed s) (alt_pressed s) (enter_pressed s) (superkey_pressed s).
Proof.
  destruct s. unfold all_kbd.
  do 6 (apply list_elem_of_bind; eexists; split; [|apply elem_of_bools]).
  by apply list_elem_of_singleton.
Qed.

(** A decidable fact holds of all states and scancodes if it evaluates to
    true on each of them. *)
Lemma kbd_exhaust (P : kbd -> Z -> bool) :
  (forall b a e p, forallb (fun s => forallb (P s) (seqZ 0 256)) (all_kbd b a e p) = true) ->
  forall s sc, 0 <= sc < 256 -> P s sc = true.
Proof.
  intros Hall s sc Hsc.
  specialize (Hall (backspace_pressed s) (alt_pressed s) (enter_pressed s) (superkey_pressed s)).
  rewrite forallb_forall in Hall.
  specialize (Hall s (proj1 (list_elem_of_In _ _) (elem_of_all_kbd s))). rewrite forallb_forall in Hall.
  apply Hall, list_elem_of_In, elem_of_seqZ. lia.
Qed.

(** The reference transition of the modifier keys. *)
Definition shift_after (s : kbd) (sc : Z) : bool :=
  if (sc =? 0x2A) || (sc =? 0x36) then true
  else if (sc =? 0xAA) || (sc =? 0xB6) then false else shift_pressed s.
Definition ctrl_after (s : kbd) (sc : Z) : bool :=
  if sc =? 0x1D then true else if sc =? 0x9D then false else ctrl_pressed s.
Definition caps_after (s : kbd) (sc : Z) : bool :=
  if sc =? 0x3A then negb (caps_pressed s) else caps_pressed s.
Definition super_released (s : kbd) (sc : Z) : bool :=
  ((sc =? 0xDB) || (sc =? 0xDC)) && e0_check s.

(** The actions a scancode asks for. *)
Definition actions_of (s : kbd) (sc : Z) : list kaction :=
  if (sc =? 0x10) && ctrl_pressed s && negb (shift_pressed s) then [OutEOI; TerminateCurrent]
  else if (0x3B <=? sc) && (sc <=? 0x46) then [OutEOI; Flip (sc - 0x3A)]
  else if (sc =? 0x47) && e0_check s then [OutEOI; Flip 0]
  else if super_released s sc then
    OutEOI :: (if superkey_was_used s then []
               else [if dir_on s then HideDirectory else ShowDirectory])
  else [].

Definition transition_ok (s : kbd) (sc : Z) : bool :=
  let '(c, s', acts) := classic_keyboard_scancode_to_char s sc in
  (0 <=? c) && (c <? 256) &&
  bool_decide (shift_pressed s' = shift_after s sc /\ ctrl_pressed s' = ctrl_after s sc /\
               caps_pressed s' = caps_after s sc /\
               dir_on s' = xorb (dir_on s) (super_released s sc && negb (superkey_was_used s)) /\
               acts = actions_of s sc /\ (acts <> [] -> c = 0)).

Lemma transition_all s sc : 0 <= sc < 256 -> transition_ok s sc = true.
Proof. apply kbd_exhaust. intros b a e p. vm_compute. reflexivity. Qed.

(** The translator on every one of its states and every scancode byte:
    it yields a byte; shift is down exactly after a shift press and up after a
    release, control likewise, caps lock toggles on its key only, the
    directory flag flips exactly when the super key is released unused; a
    process is terminated on Ctrl+Q only, screens are flipped on F1 to F12 and
    Home only, and a scancode that asks for such an action yields no
    character. *)
Theorem scancode_transition s sc :
  0 <= sc < 256 ->
  exists c s', classic_keyboard_scancode_to_char s sc = (c, s', actions_of s sc) /\ 0 <= c < 256 /\
    shift_pressed s' = shift_after s sc /\ ctrl_pressed s' = ctrl_after s sc /\
    caps_pressed s' = caps_after s sc /\
    dir_on s' = xorb (dir_on s) (super_released s sc && negb (superkey_was_used s)) /\
    (actions_of s sc <> [] -> c = 0).
Proof.
  intros Hsc. pose proof (transition_all s sc Hsc) as Hok. unfold transition_ok in Hok.
  destruct (classic_keyboard_scancode_to_char s sc) as [[c s'] acts]. breflect.
  match goal with H : bool_decide _ = true |- _ => apply bool_decide_eq_true in H end.
  destruct_and!. subst acts. by exists c, s'.
Qed.

Definition kbd0 : kbd := mk_kbd false false false false false false false false false false.

Lemma scancode_transition_witness :
  exists c s', classic_keyboard_scancode_to_char kbd0 0x3B = (c, s', [OutEOI; Flip 1]) /\ c = 0.
Proof.
  destruct (scancode_transition kbd0 0x3B) as (c & s' & Hr & _ & _ & _ & _ & _ & Hc).
  - lia.
  - exists c, s'. split; [exact Hr|apply Hc; vm_compute; discriminate].
Defined.

(** ** The letters *)
Definition qwerty : list (Z * list Z) :=
  [(0x10, [113; 119; 101; 114; 116; 121; 117; 105; 111; 112]);
   (0x1E, [97; 115; 100; 102; 103; 104; 106; 107; 108]);
   (0x2C, [122; 120; 99; 118; 98; 110; 109])].

(** Without control, each of the 26 letter keys of the QWERTY layout gives
    its letter, upper case exactly when shift or caps lock is active (both
    together included), and changes nothing. *)
Theorem letters_qwerty s start row i c :
  (start, row) ∈ qwerty -> row !! i = Some c -> ctrl_pressed s = false ->
  classic_keyboard_scancode_to_char s (start + Z.of_nat i) =
    ((if shift_pressed s || caps_pressed s then c - 32 else c), s, []).
Proof.
  intros Hrow Hi Hctrl. destruct s; simpl in Hctrl; subst.
  repeat (apply elem_of_cons in Hrow as [[= -> ->]|Hrow];
    [repeat (destruct i as [|i]; [injection Hi as <-; reflexivity|]); discriminate Hi|]).
  by apply elem_of_nil in Hrow.
Qed.

Lemma letters_qwerty_witness :
  classic_keyboard_scancode_to_char kbd0 0x23 = (104, kbd0, []).
Proof.
  apply (letters_qwerty kbd0 0x1E [97; 115; 100; 102; 103; 104; 106; 107; 108] 5 104).
  - right. left.
  - reflexivity.
  - reflexivity.
Defined.

(** ** Two scancode sequences the layout gets wrong *)
Fixpoint translate (s : kbd) (codes : list Z) : list Z * kbd :=
  match codes with
  | [] => ([], s)
  | sc :: codes =>
      let '(c, s, _) := classic_keyboard_scancode_to_char s sc in
      let '(out, s) := translate s codes in
      (c :: out, s)
  end.

Definition sticky_ok (s : kbd) (_ : Z) : bool :=
  bool_decide ((translate s [0xE0; 0x48; 0xE0; 0xC8; 0x48]).1 = [0; KEY_UP; 0; 0; KEY_UP]).

(** After an arrow key has been pressed (E0 48) and released (E0 C8), in
    every state of the driver, the keypad 8 (48) is read as another arrow: the
    prefix of the release is never consumed. *)
Theorem arrow_release_sticks s :
  (translate s [0xE0; 0x48; 0xE0; 0xC8; 0x48]).1 = [0; KEY_UP; 0; 0; KEY_UP].
Proof.
  apply (bool_decide_eq_true_1 _). change (sticky_ok s 0 = true).
  apply kbd_exhaust; [intros b a e p; vm_compute; reflexivity|lia].
Qed.

(** The keypad [*] key (scancode 0x37) gives nothing: the code compares with
    decimal 37, the key of the letter K, which an earlier branch has taken. *)
Lemma keypad_star_dead s : classic_keyboard_scancode_to_char s 0x37 = (0, s, []).
Proof. reflexivity. Qed.

(** ** Types of the values that pass through *)

(** The keyboard sends a byte, or a program asks for a key. *)
Inductive kevent := KScan (scancode : Z) | KGet.

Fixpoint run_events (evs : list kevent) (s : kbd) (r : option ring) :
    outcome (list Z * list kaction * kbd * option ring) :=
  match evs with
  | [] => Ret ([], [], s, r)
  | KScan sc :: evs =>
      '(r, s, acts) ← classic_keyboard_handle_interrupt s r sc;
      '(got, acts', s, r) ← run_events evs s r;
      Ret (got, acts ++ acts', s, r)
  | KGet :: evs =>
      '(c, r) ← keyboard_pop r;
      '(got, acts', s, r) ← run_events evs s r;
      Ret (c :: got, acts', s, r)
  end.

Definition is_byte (c : Z) : Prop := 0 <= c < 256.
Record ring_typed (r : ring) : Prop := {
  rt_length : length (buffer r) = 1024%nat;
  rt_bytes : Forall is_byte (buffer r)
}.
Definition action_typed (a : kaction) : Prop :=
  match a with
  | Flip id => 0 <= id <= 12
  | _ => True
  end.

Lemma ring_index_range i : 0 <= ring_index i < 1024.
Proof. rewrite ring_index_mod. zlia. Qed.

Lemma store_typed r i c t h :
  ring_typed r -> is_byte c -> exists b, store (buffer r) (ring_index i) c = Ret b /\ ring_typed (mk_ring b t h).
Proof.
  intros [Hl Hb] Hc. pose proof (ring_index_range i). eexists. split; [apply store_Ret; lia|]. split; cbn.
  - by rewrite length_insert.
  - by apply Forall_insert.
Qed.

Lemma push_typed r c : ring_typed r -> is_byte c -> exists r', keyboard_push (Some r) c = Ret (Some r') /\ ring_typed r'.
Proof.
  intros Hr Hc. unfold keyboard_push, keyboard_get_tail_index. destruct (c =? 0); [by exists r|].
  destruct (store_typed r (tail r) c (s32 (tail r + 1)) (head r) Hr Hc) as (b & E & Hr'). rewrite E. by eexists.
Qed.

Lemma pop_typed r :
  ring_typed r -> exists c r', keyboard_pop (Some r) = Ret (c, Some r') /\ is_byte c /\ ring_typed r'.
Proof.
  intros Hr. pose proof Hr as [Hl Hb]. unfold keyboard_pop. pose proof (ring_index_range (head r)) as Hi.
  destruct (lookup_lt_is_Some_2 (buffer r) (Z.to_nat (ring_index (head r)))) as [c Hc]; [lia|].
  rewrite (load_Some _ _ c) by (done || lia). cbn [mbind outcome_bind].
  pose proof (Forall_lookup_1 _ _ _ _ Hb Hc) as Hcb. destruct (c =? 0) eqn:E; [exists 0, r; split_and!; [done|unfold is_byte; lia|done]|].
  destruct (store_typed r (head r) 0 (tail r) (s32 (head r + 1)) Hr) as (b & E' & Hr'); [unfold is_byte; lia|].
  rewrite E'. by eexists c, _.
Qed.

Lemma scancode_typed s sc :
  is_byte sc -> exists c s' acts, classic_keyboard_scancode_to_char s sc = (c, s', acts) /\ is_byte c /\ Forall action_typed acts.
Proof.
  intros Hsc. pose proof (transition_all s sc Hsc) as Hok. unfold transition_ok in Hok.
  destruct (classic_keyboard_scancode_to_char s sc) as [[c s'] acts]. breflect.
  match goal with H : bool_decide _ = true |- _ => apply bool_decide_eq_true in H end.
  destruct_and!. subst acts. exists c, s'. eexists. split; [done|]. split; [unfold is_byte; lia|]. unfold actions_of.
  repeat match goal with |- context [if ?b then _ else _] => destruct b eqn:? end; breflect; repeat constructor; cbn; lia.
Qed.

(** C10: types of keys.  Whatever bytes the keyboard sends and however often
    programs ask for keys, in any order and even when more keys come than the
    buffer of a process holds, no access leaves the buffer: it keeps its 1024
    places and holds bytes only, every key a program gets is a byte, and every
    process the user can switch to with a key has a number from 0 to 12. *)
Theorem keyboard_events_typed evs s r :
  ring_typed r -> (forall sc, KScan sc ∈ evs -> is_byte sc) ->
  exists got acts s' r', run_events evs s (Some r) = Ret (got, acts, s', Some r') /\ ring_typed r' /\
    Forall is_byte got /\ Forall action_typed acts.
Proof.
  revert s r. induction evs as [|e evs IH]; intros s r Hr Hb; [by exists [], [], s, r|].
  assert (Hb' : forall sc, KScan sc ∈ evs -> is_byte sc) by (intros sc Hin; apply Hb; by right).
  destruct e as [sc|]; cbn [run_events].
  - destruct (scancode_typed s sc) as (c & s1 & acts & E & Hc & Ha); [apply Hb; by left|].
    unfold classic_keyboard_handle_interrupt. rewrite E.
    assert (exists r1, (if 0 <? c then keyboard_push (Some r) c else Ret (Some r)) = Ret (Some r1) /\ ring_typed r1) as (r1 & E1 & Hr1).
    { destruct (0 <? c); [by apply push_typed|by exists r]. }
    rewrite E1. cbn [mbind outcome_bind]. destruct (IH s1 r1 Hr1 Hb') as (got & acts' & s' & r' & E2 & Hr' & Hg & Ha').
    rewrite E2. exists got, (acts ++ acts'), s', r'. split_and!; [done..|]. by apply Forall_app.
  - destruct (pop_typed r Hr) as (c & r1 & E1 & Hc & Hr1). rewrite E1. cbn [mbind outcome_bind].
    destruct (IH s r1 Hr1 Hb') as (got & acts' & s' & r' & E2 & Hr' & Hg & Ha'). rewrite E2.
    exists (c :: got), acts', s', r'. split_and!; [done|done|by constructor|done].
Qed.

Lemma keyboard_events_typed_witness :
  exists got acts s' r', run_events [KScan 0x1E; KGet; KScan 0x3B; KGet] kbd0 (Some empty_ring) = Ret (got, acts, s', Some r') /\
    ring_typed r'.
Proof.
  destruct (keyboard_events_typed [KScan 0x1E; KGet; KScan 0x3B; KGet] kbd0 empty_ring)
    as (got & acts & s' & r' & E & Hr & _ & _).
  - split; [reflexivity|]. apply Forall_replicate. unfold is_byte; lia.
  - intros sc Hin. rewrite !elem_of_cons, elem_of_nil in Hin. unfold is_byte.
    destruct Hin as [[= ->]|[[=]|[[= ->]|[[=]|[]]]]]; lia.
  - exists got, acts, s', r'. split; [exact E|exact Hr].
Defined.
