(* ===== verification/Disk.v ===== *)
(** * ATA disks (src/src/disk/disk.c)

    The driver talks to the controller through port instructions, which are
    an interface here ([Ports]); [AtaDevice.v] has a controller that
    implements it.  [enum device_type] has no negative enumerator, so its
    underlying type is [unsigned int] and values stored in it are [u32]. *)
From S2P Require Import Prelude Config CMem.

(** The port instructions of io.asm on a machine state [D]. *)
Class Ports (D : Type) := {
  inb : Z -> cmd D Z;
  inw : Z -> cmd D Z;
  outb : Z -> Z -> cmd D unit;
  outw : Z -> Z -> cmd D unit
}.

Definition PRIMARY_BASE : Z := 0x1F0.
Definition SECONDARY_BASE : Z := 0x170.
Definition MASTER : Z := 1.
Definition SLAVE : Z := 2.
Definition PRIMARY : Z := 1.
Definition SECONDARY : Z := 2.

Definition UNKNOWN_DEV_TYPE : Z := 0.
Definition PATAPI : Z := 1.
Definition SATAPI : Z := 2.
Definition PATA : Z := 3.
Definition SATA : Z := 4.

Definition SERPAEOS_DISK_TYPE_REAL : Z := 1.
Definition SERPAEOS_DISK_TYPE_PARTITION : Z := 2.

(** [filesystem] and [fs_private] are pointers, 0 for null. *)
Record disk := mk_disk {
  type : Z;
  sector_size : Z;
  dev : Z;
  id : Z;
  filesystem : Z;
  fs_private : Z;
  master_slave : Z;
  primary_secondary : Z;
  offset : Z
}.

Definition disk_zero : disk := mk_disk 0 0 0 0 0 0 0 0 0.

Definition set_dev (d : disk) (v : Z) : disk :=
  mk_disk (type d) (sector_size d) (u32 v) (id d) (filesystem d) (fs_private d)
    (master_slave d) (primary_secondary d) (offset d).

Definition set_partition (d : disk) (v lba : Z) : disk :=
  mk_disk SERPAEOS_DISK_TYPE_PARTITION (sector_size d) (u32 v) (id d) (filesystem d) (fs_private d)
    (master_slave d) (primary_secondary d) lba.

(** [unsigned short *ptr = buf; ptr[i] = w;] on the bytes of the buffer. *)
Definition store16 (buf : list Z) (i w : Z) : outcome (list Z) :=
  buf ← store buf (2 * i) (u8 w);
  store buf (2 * i + 1) (u8 (w / 256)).

Definition load16 (buf : list Z) (i : Z) : outcome Z :=
  lo ← load buf (2 * i);
  hi ← load buf (2 * i + 1);
  Ret (lo + 256 * hi).

(** A little-endian 32-bit field at a byte offset. *)
Definition load32 (buf : list Z) (i : Z) : outcome Z :=
  a ← load buf i; b ← load buf (i + 1); c ← load buf (i + 2); d ← load buf (i + 3);
  Ret (le_combine [a; b; c; d]).

Section with_ports.
Context {D : Type} `{Ports D}.

Definition pors (primary_secondary : Z) : Z :=
  if primary_secondary =? PRIMARY then PRIMARY_BASE else SECONDARY_BASE.

Fixpoint outb_zero_from (n : nat) (port : Z) : cmd D unit :=
  match n with
  | O => mret tt
  | S n => outb port 0;; outb_zero_from n (port + 1)
  end.

(** Poll the status register until [stop] holds of it.  The loops of
    [ata_identify] and of the cache flush have no bound of their own. *)
Fixpoint poll (fuel : nat) (port : Z) (stop : Z -> bool) : cmd D unit :=
  match fuel with
  | O => liftO OutOfFuel
  | S fuel =>
      status ← inb port;
      if stop status then mret tt else poll fuel port stop
  end.

Fixpoint read_words (n : nat) (port : Z) (buf : list Z) (i : Z) : cmd D (list Z) :=
  match n with
  | O => mret buf
  | S n =>
      w ← inw port;
      buf ← liftO (store16 buf i w);
      read_words n port buf (i + 1)
  end.

Fixpoint write_words (n : nat) (port : Z) (buf : list Z) (i : Z) : cmd D unit :=
  match n with
  | O => mret tt
  | S n =>
      w ← liftO (load16 buf i);
      outw port w;;
      write_words n port buf (i + 1)
  end.

(** The device type or an error, and the 256 words of the answer in [ptr]. *)
Definition ata_identify (fuel : nat) (master_slave primary_secondary : Z) (ptr : list Z)
    : cmd D (Z * list Z) :=
  let base := pors primary_secondary in
  outb (base + 6) (if master_slave =? MASTER then 0xA0 else 0xB0);;
  outb_zero_from 4 (base + 2);;
  outb (base + 7) 0xEC;;
  status ← inb (base + 7);
  if status =? 0 then mret (- ENODISKSPACE, ptr)
  else
    poll fuel (base + 7) (fun status => negb (c_true (Z.land status 0x80)));;
    lba_mid ← inb (base + 4);
    lba_hi ← inb (base + 5);
    let res :=
      if (lba_hi =? 0) || (lba_mid =? 0) then PATA
      else if (lba_hi =? 0xEB) && (lba_mid =? 0x14) then PATAPI
      else if (lba_hi =? 0x96) && (lba_mid =? 0x69) then SATAPI
      else if (lba_hi =? 0xC3) && (lba_mid =? 0x3C) then SATA
      else UNKNOWN_DEV_TYPE in
    poll fuel (base + 7) (fun status => c_true (Z.land status 0x08) || c_true (Z.land status 1));;
    ptr ← read_words 256 base ptr 0;
    mret (res, ptr).

(** [while(!(c & 0x08))] with its timer: false is the timeout. *)
Fixpoint wait_drq (n : nat) (port : Z) : cmd D bool :=
  match n with
  | O => mret false
  | S n =>
      c ← inb port;
      if c_true (Z.land c 0x08) then mret true else wait_drq n port
  end.

(** One read of the status register, then at most 0x10000 more; the last one
    is not tested. *)
Definition DRQ_POLLS : nat := Z.to_nat 0x10000.
Opaque DRQ_POLLS.

Definition task_file (base : Z) (drive : bool) (lba total command : Z) : cmd D unit :=
  outb (base + 6) (u8 (Z.lor (Z.shiftr lba 24) (if drive then 0xe0 else 0xf0)));;
  outb (base + 2) (u8 total);;
  outb (base + 3) (u8 (Z.land lba 0xff));;
  outb (base + 4) (u8 (Z.shiftr lba 8));;
  outb (base + 5) (u8 (Z.shiftr lba 16));;
  outb (base + 7) command.

Fixpoint read_sectors (n : nat) (base : Z) (buf : list Z) (i : Z) : cmd D (Z * list Z) :=
  match n with
  | O => mret (0, buf)
  | S n =>
      ready ← wait_drq DRQ_POLLS (base + 7);
      if ready : bool then
        buf ← read_words 256 base buf i;
        read_sectors n base buf (i + 256)
      else
        inb (base + 7);;
        mret (- ETIMEDOUT, buf)
  end.

Definition pata_read_sector (primary_secondary : Z) (drive : bool) (lba total : Z) (buf : list Z)
    : cmd D (Z * list Z) :=
  let base := pors primary_secondary in
  task_file base drive lba total 0x20;;
  read_sectors (Z.to_nat total) base buf 0.

Fixpoint write_sectors (n : nat) (base : Z) (buf : list Z) (i : Z) : cmd D Z :=
  match n with
  | O => mret 0
  | S n =>
      ready ← wait_drq DRQ_POLLS (base + 7);
      if ready : bool then
        write_words 256 base buf i;;
        write_sectors n base buf (i + 256)
      else
        inb (base + 7);;
        mret (- ETIMEDOUT)
  end.

Definition pata_write_sector (fuel : nat) (primary_secondary : Z) (drive : bool) (lba total : Z)
    (buf : list Z) : cmd D Z :=
  let base := pors primary_secondary in
  task_file base drive lba total 0x30;;
  res ← write_sectors (Z.to_nat total) base buf 0;
  if res <? 0 then mret res
  else
    outb (base + 7) 0xE7;;
    poll fuel (base + 7) (fun c => negb (c_true (Z.land c 0x80)));;
    mret 0.

(** [dev] is unsigned: [<= UNKNOWN_DEV_TYPE] is equality with 0. *)
Definition disk_read_block (idisk : disk) (lba total : Z) (buf : list Z) : cmd D (Z * list Z) :=
  if dev idisk <=? UNKNOWN_DEV_TYPE then mret (- EINVARG, buf)
  else
    pata_read_sector (primary_secondary idisk) (master_slave idisk =? MASTER)
      (s32 (u32 (lba + if type idisk =? SERPAEOS_DISK_TYPE_PARTITION then offset idisk else 0)))
      total buf.

Definition disk_write_block (fuel : nat) (idisk : disk) (lba total : Z) (buf : list Z) : cmd D Z :=
  if dev idisk <=? UNKNOWN_DEV_TYPE then mret (- EINVARG)
  else
    pata_write_sector fuel (primary_secondary idisk) (master_slave idisk =? MASTER)
      (s32 (u32 (lba + offset idisk))) total buf.

(** ** Finding the disks *)

(** [fs_resolve] of file.c: the filesystem pointer, and the disk with the
    private data the filesystem may have attached to it. *)
Context (fs_resolve : disk -> cmd D (Z * disk)).

Definition init_disk (disks : list disk) (i pri_sec master_slave : Z) : cmd D (list disk) :=
  d ← liftO (load disks i);
  let d := mk_disk (type d)
             (if (dev d =? PATA) || (dev d =? SATA) then SERPAEOS_DEFAULT_SECTOR_SIZE else CD_SECTOR_SIZE)
             (dev d) i (filesystem d) (fs_private d) master_slave pri_sec (offset d) in
  '(fs, d) ← fs_resolve d;
  liftO (store disks i
    (mk_disk (type d) (sector_size d) (dev d) (id d) fs (fs_private d)
       (Disk.master_slave d) (primary_secondary d) (offset d))).

(** The four entries of the partition table in the boot sector. *)
Fixpoint partition_loop (n : nat) (disks : list disk) (bootsect : list Z) (i disk_offset tmp
    pri_sec master_slave partitions_used : Z) : cmd D (list disk * Z) :=
  match n with
  | O => mret (disks, partitions_used)
  | S n =>
      let entry := 0x1BE + 16 * i in
      size ← liftO (load32 bootsect (entry + 12));
      if size =? 0 then
        partition_loop n disks bootsect (i + 1) disk_offset tmp pri_sec master_slave partitions_used
      else
        lba ← liftO (load32 bootsect (entry + 8));
        d ← liftO (load disks (i + disk_offset));
        disks ← liftO (store disks (i + disk_offset) (set_partition d tmp lba));
        disks ← init_disk disks (disk_offset + i) pri_sec master_slave;
        d ← liftO (load disks (disk_offset + i));
        if negb (filesystem d =? 0) then
          partition_loop n disks bootsect (i + 1) disk_offset tmp pri_sec master_slave
            (partitions_used + 1)
        else
          disks ← liftO (store disks (disk_offset + i) (set_dev d UNKNOWN_DEV_TYPE));
          partition_loop n disks bootsect (i + 1) disk_offset tmp pri_sec master_slave partitions_used
  end.

(** One of the three optional devices; [buf] is the stack buffer that the
    three share. *)
Definition probe (fuel : nat) (pri_sec master_slave : Z) (st : list disk * list Z * Z)
    : cmd D (list disk * list Z * Z) :=
  let '(disks, buf, disk_offset) := st in
  let disk_offset := disk_offset + 1 in
  '(tmp, buf) ← ata_identify fuel master_slave pri_sec buf;
  d ← liftO (load disks disk_offset);
  disks ← liftO (store disks disk_offset (set_dev d tmp));
  if u32 tmp <=? 0 then mret (disks, buf, disk_offset)
  else
    disks ← init_disk disks disk_offset pri_sec master_slave;
    d ← liftO (load disks disk_offset);
    if negb (filesystem d =? 0) then mret (disks, buf, disk_offset)
    else
      '(_, buf) ← disk_read_block d 0 1 buf;
      '(disks, partitions_used) ← partition_loop 4 disks buf 0 disk_offset tmp pri_sec master_slave 0;
      mret (disks, buf, disk_offset + partitions_used).

(** [junk] is what the uninitialised stack buffer holds. *)
Definition disk_search_and_init (fuel : nat) (junk : list Z) : cmd D (list disk) :=
  let disks := replicate (Z.to_nat SERPAEOS_MAX_DISKS) disk_zero in
  d ← liftO (load disks 0);
  disks ← liftO (store disks 0 (set_dev d PATA));
  disks ← init_disk disks 0 PRIMARY MASTER;
  st ← probe fuel PRIMARY SLAVE (disks, junk, 0);
  st ← probe fuel SECONDARY MASTER st;
  '(disks, _, _) ← probe fuel SECONDARY SLAVE st;
  mret disks.
End with_ports.

(** A null pointer is [None]. *)
Definition disk_get (disks : list disk) (index : Z) : outcome (option disk) :=
  if SERPAEOS_MAX_DISKS - 1 <? index then Ret None
  else
    d ← load disks index;
    if dev d <=? 0 then Ret None else Ret (Some d).
