(* ===== verification/Streamer.v ===== *)
(** * Disk streams (src/src/disk/streamer.c)

    Byte streams over a disk, which is seen through an interface: one sector
    is read or written at a time. *)
From S2P Require Import Prelude Config Disk Kheap.

(** [disk_read_block(disk, lba, 1, buf)] and [disk_write_block(disk, lba, 1, buf)]
    of one disk. *)
Class BlockDev (D : Type) := {
  read_block : Z -> list Z -> cmd D (Z * list Z);
  write_block : Z -> list Z -> cmd D Z
}.

(** What the stream relies on: the disk is at least [nsectors] sectors of 512
    bytes, a read gives the sector, a write replaces it, and neither touches another.
    A stream position is an int, so it can only reach bytes below 2 GB: [nsectors]
    counts the sectors there.  A disk may be larger (the reference drive of
    [AtaDevice.v] has any number of sectors, the volume of boot.asm 0x800000); the
    theorems about streams say nothing of its further sectors, whose positions are
    negative ([Fat16Spec.far_cluster_negative]). *)
Class BlockDevOk (D : Type) `{BlockDev D} := {
  nsectors : Z;
  bd_ok : D -> Prop;
  sector : D -> Z -> list Z;
  nsectors_max : 0 <= nsectors < 4194304;
  sector_len : forall d lba, bd_ok d -> 0 <= lba < nsectors -> length (sector d lba) = 512%nat;
  read_block_ok : forall d lba buf, bd_ok d -> 0 <= lba < nsectors -> length buf = 512%nat ->
    exists d', read_block lba buf d = Ret ((0, sector d lba), d') /\ bd_ok d' /\
      forall i, 0 <= i < nsectors -> sector d' i = sector d i;
  write_block_ok : forall d lba buf, bd_ok d -> 0 <= lba < nsectors -> length buf = 512%nat -> bytes buf ->
    exists d', write_block lba buf d = Ret (0, d') /\ bd_ok d' /\
      forall i, 0 <= i < nsectors -> sector d' i = if i =? lba then buf else sector d i;
  sector_bytes : forall d lba, bd_ok d -> 0 <= lba < nsectors -> bytes (sector d lba)
}.

Section with_disk.
Context {D : Type} `{BlockDev D}.

(** The stream's disk and its position. *)
Record stream := mk_stream { sdisk : D; pos : Z }.

Definition on_disk {A} (c : cmd D A) : cmd stream A := fun s =>
  '(a, d) ← c (sdisk s); Ret (a, mk_stream d (pos s)).

Definition diskstreamer_seek (p : Z) : cmd stream Z := fun s =>
  Ret (0, mk_stream (sdisk s) p).

(** [for (i = 0; i < n; i++) *out++ = buf[offset + i];] *)
Fixpoint copy_out (n : nat) (buf : list Z) (i : Z) : outcome (list Z) :=
  match n with
  | O => Ret []
  | S n => b ← load buf i; rest ← copy_out n buf (i + 1); Ret (b :: rest)
  end.

(** The result and the bytes written through [out].  Every recursive call
    has at least one byte less to read, which bounds their number. *)
Fixpoint read_rec (fuel : nat) (total : Z) : cmd stream (Z * list Z) :=
  match fuel with
  | O => liftO OutOfFuel
  | S fuel =>
      p ← gets pos;
      let sector := Z.quot p SERPAEOS_DEFAULT_SECTOR_SIZE in
      let offset := Z.rem p SERPAEOS_DEFAULT_SECTOR_SIZE in
      let overflow := SERPAEOS_DEFAULT_SECTOR_SIZE <=? s32 (offset + total) in
      let total_to_read :=
        if overflow then total - (offset + total - SERPAEOS_DEFAULT_SECTOR_SIZE) else total in
      '(res, buf) ← on_disk (read_block sector (replicate 512 0));
      if res <? 0 then mret (res, [])
      else
        out ← liftO (copy_out (Z.to_nat total_to_read) buf offset);
        modifyS (fun s => mk_stream (sdisk s) (s32 (pos s + total_to_read)));;
        if overflow then
          '(res, out') ← read_rec fuel (total - total_to_read);
          mret (res, out ++ out')
        else mret (res, out)
  end.

Definition diskstreamer_read (total : Z) : cmd stream (Z * list Z) := read_rec (S (Z.to_nat total)) total.

(** The results of the two disk operations are ignored. *)
Definition write_byte (c : Z) : cmd stream unit :=
  p ← gets pos;
  '(_, buf) ← on_disk (read_block (Z.quot p SERPAEOS_DEFAULT_SECTOR_SIZE) (replicate 512 0));
  buf ← liftO (store buf (Z.rem p SERPAEOS_DEFAULT_SECTOR_SIZE) c);
  on_disk (write_block (Z.quot p SERPAEOS_DEFAULT_SECTOR_SIZE) buf);;
  mret tt.

Fixpoint write_loop (n : nat) (buf : list Z) (i : Z) : cmd stream Z :=
  match n with
  | O => mret i
  | S n =>
      c ← liftO (load buf i);
      write_byte c;;
      modifyS (fun s => mk_stream (sdisk s) (s32 (pos s + 1)));;
      write_loop n buf (i + 1)
  end.

Definition diskstreamer_write (buffer : list Z) (total : Z) : cmd stream Z :=
  write_loop (Z.to_nat total) buffer 0.
End with_disk.
Arguments stream D : clear implicits.

(** ** Opening and closing *)
Section with_allocator.
Context {H : Type} `{Allocator H}.

(** The address of the new stream and the disk it is on; a null pointer from
    the allocator is written through. *)
Definition diskstreamer_new (disks : list disk) (disk_id : Z) : cmd H (option (Z * disk)) :=
  d ← liftO (disk_get disks disk_id);
  match d with
  | None => mret None
  | Some d =>
      streamer ← kz 8;
      if streamer =? 0 then liftO Oob else mret (Some (streamer, d))
  end.

Definition diskstreamer_close (streamer : Z) : cmd H unit := kf streamer.
End with_allocator.

(** ** The disk as one array of bytes *)
Section with_disk_ok.
Context {D : Type} `{BlockDevOk D}.
Implicit Types s : stream D.

(** Byte [p] of the disk. *)
Definition byte_at (d : D) (p : Z) : Z := default 0 (sector d (p / 512) !! Z.to_nat (p mod 512)).

Definition slice (d : D) (p : Z) (n : nat) : list Z := (fun i => byte_at d (p + i)) <$> seqZ 0 (Z.of_nat n).

Definition disk_size : Z := nsectors * 512.

Lemma slice_app d p n m : slice d p (n + m) = slice d p n ++ slice d (p + Z.of_nat n) m.
Proof.
  unfold slice. rewrite Nat2Z.inj_add, seqZ_app by lia. rewrite fmap_app. f_equal.
  rewrite Z.add_0_l. rewrite <- (Z.add_0_r (Z.of_nat n)) at 1.
  rewrite <- fmap_add_seqZ, <- list_fmap_compose. apply list_fmap_ext.
  intros i x _. simpl. f_equal. lia.
Qed.

Lemma length_slice d p n : length (slice d p n) = n.
Proof. unfold slice. rewrite length_fmap, length_seqZ. lia. Qed.

Lemma slice_same d d' p n :
  (forall i, 0 <= i < nsectors -> sector d' i = sector d i) -> 0 <= p -> p + Z.of_nat n <= disk_size ->
  slice d' p n = slice d p n.
Proof.
  intros Hs Hp Hn. unfold slice. apply list_fmap_ext. intros i x [-> Hi]%lookup_seqZ.
  unfold byte_at. rewrite Hs; [done|]. unfold disk_size in Hn. zlia.
Qed.

Lemma copy_out_slice d p n :
  bd_ok d -> 0 <= p -> p / 512 < nsectors -> p mod 512 + Z.of_nat n <= 512 ->
  copy_out n (sector d (p / 512)) (p mod 512) = Ret (slice d p n).
Proof.
  intros Hok Hp Hlt. revert p Hp Hlt. induction n as [|n IH]; intros p Hp Hlt Hn; [done|].
  cbn [copy_out].
  assert (Hlen : length (sector d (p / 512)) = 512%nat) by (apply sector_len; [done|zlia]).
  destruct (lookup_lt_is_Some_2 (sector d (p / 512)) (Z.to_nat (p mod 512))) as [b Hb]; [rewrite Hlen; zlia|].
  rewrite (load_Some _ _ b) by (zlia || done). simpl mbind.
  replace (slice d p (S n)) with (b :: slice d (p + 1) n).
  - destruct n as [|n]; [done|].
    assert ((p + 1) / 512 = p / 512) as Hd by zlia.
    replace (p mod 512 + 1) with ((p + 1) mod 512) by zlia. rewrite <- Hd.
    rewrite IH by zlia. done.
  - change (S n) with (1 + n)%nat. rewrite slice_app. unfold slice at 2, byte_at.
    change (seqZ 0 (Z.of_nat 1)) with [0]. simpl. rewrite Z.add_0_r, Hb. done.
Qed.

(** A read that does not reach the end of the disk returns its bytes. *)
Lemma read_rec_spec fuel total s :
  bd_ok (sdisk s) -> 0 <= pos s -> 0 <= total -> pos s + total < disk_size -> (Z.to_nat total < fuel)%nat ->
  exists s', read_rec fuel total s = Ret ((0, slice (sdisk s) (pos s) (Z.to_nat total)), s') /\
    bd_ok (sdisk s') /\ pos s' = pos s + total /\
    forall i, 0 <= i < nsectors -> sector (sdisk s') i = sector (sdisk s) i.
Proof.
  revert total s. induction fuel as [|fuel IH]; intros total s Hok Hp Ht Hend Hf; [lia|].
  pose proof nsectors_max. unfold disk_size in Hend.
  cbn [read_rec]. erewrite bind_Ret by reflexivity. unfold SERPAEOS_DEFAULT_SECTOR_SIZE.
  rewrite Z.quot_div_nonneg, Z.rem_mod_nonneg by lia.
  destruct (read_block_ok (sdisk s) (pos s / 512) (replicate 512 0)) as (d' & Hrd & Hok' & Hsame);
    [done|zlia|by rewrite length_replicate|].
  rewrite s32_id by zlia.
  assert (Hstep : on_disk (read_block (pos s / 512) (replicate 512 0)) s =
            Ret ((0, sector (sdisk s) (pos s / 512)), mk_stream d' (pos s)))
    by (unfold on_disk; by rewrite Hrd).
  step Hstep. cbn [Z.ltb Z.compare].
  destruct (512 <=? pos s mod 512 + total) eqn:Ho; breflect.
  - set (n := total - (pos s mod 512 + total - 512)).
    assert (Hn : 0 < n <= total /\ n = 512 - pos s mod 512) by (subst n; zlia).
    rewrite (bind_liftO _ _ _ (slice (sdisk s) (pos s) (Z.to_nat n))).
    2: { apply copy_out_slice; zlia || done. }
    erewrite bind_Ret by reflexivity. cbn [pos sdisk]. rewrite s32_id by zlia.
    destruct (IH (total - n) (mk_stream d' (pos s + n))) as (s' & Hr & Hok2 & Hp2 & Hs2); cbn [pos sdisk] in *;
      [done|lia|lia|unfold disk_size; lia|lia|].
    step Hr. exists s'. split; [|split_and!; [done|lia|]].
    + replace (Z.to_nat total) with (Z.to_nat n + Z.to_nat (total - n))%nat by lia.
      rewrite slice_app, Z2Nat.id by lia. rewrite (slice_same (sdisk s) d') by
        (done || unfold disk_size; lia). done.
    + intros i Hi. by rewrite Hs2, Hsame.
  - rewrite (bind_liftO _ _ _ (slice (sdisk s) (pos s) (Z.to_nat total))).
    2: { apply copy_out_slice; zlia || done. }
    erewrite bind_Ret by reflexivity. cbn [pos sdisk]. rewrite s32_id by zlia.
    eexists. split; [reflexivity|]. by split_and!.
Qed.

Lemma write_byte_spec c s :
  bd_ok (sdisk s) -> 0 <= pos s < disk_size -> is_byte c ->
  exists d', write_byte c s = Ret (tt, mk_stream d' (pos s)) /\ bd_ok d' /\
    forall p, 0 <= p < disk_size ->
      byte_at d' p = if decide (p = pos s) then c else byte_at (sdisk s) p.
Proof.
  intros Hok Hp Hc. unfold disk_size in Hp. unfold write_byte.
  erewrite bind_Ret by reflexivity. unfold SERPAEOS_DEFAULT_SECTOR_SIZE.
  rewrite Z.quot_div_nonneg, Z.rem_mod_nonneg by lia.
  destruct (read_block_ok (sdisk s) (pos s / 512) (replicate 512 0)) as (d1 & Hrd & Hok1 & Hsame);
    [done|zlia|by rewrite length_replicate|].
  erewrite bind_Ret; [|unfold on_disk; by rewrite Hrd].
  assert (Hlen : length (sector (sdisk s) (pos s / 512)) = 512%nat) by (apply sector_len; [done|zlia]).
  cbv beta iota. rewrite (bind_liftO _ _ _ (<[Z.to_nat (pos s mod 512) := c]> (sector (sdisk s) (pos s / 512))))
    by (apply store_Ret; rewrite Hlen; zlia). cbn [sdisk pos].
  destruct (write_block_ok d1 (pos s / 512) (<[Z.to_nat (pos s mod 512) := c]> (sector (sdisk s) (pos s / 512))))
    as (d2 & Hwr & Hok2 & Hnew); [done|zlia|by rewrite length_insert|
      apply Forall_insert; [apply sector_bytes; [done|zlia]|done]|].
  erewrite bind_Ret; [|unfold on_disk; cbn [sdisk]; by rewrite Hwr].
  exists d2. split; [done|]. split; [done|]. intros p Hq. unfold disk_size in Hq. unfold byte_at.
  rewrite Hnew by zlia. destruct (p / 512 =? pos s / 512) eqn:E; breflect.
  - destruct (decide (p = pos s)) as [->|Hne].
    + rewrite list_lookup_insert_eq by (rewrite Hlen; zlia). done.
    + rewrite list_lookup_insert_ne by zlia. by rewrite E.
  - rewrite Hsame by zlia. rewrite decide_False by congruence. done.
Qed.

(** Bytes [p .. p + length buf) of the disk replaced by [buf]. *)
Definition patched (d d' : D) (p : Z) (buf : list Z) : Prop :=
  forall q, 0 <= q < disk_size ->
    byte_at d' q = if decide (p <= q < p + Z.of_nat (length buf))
                   then default 0 (buf !! Z.to_nat (q - p)) else byte_at d q.

Lemma write_loop_spec n buf i s :
  bd_ok (sdisk s) -> 0 <= pos s -> pos s + Z.of_nat n <= disk_size -> bytes buf ->
  (i + n <= length buf)%nat ->
  exists s', write_loop n buf (Z.of_nat i) s = Ret (Z.of_nat (i + n), s') /\ bd_ok (sdisk s') /\
    pos s' = pos s + Z.of_nat n /\ patched (sdisk s) (sdisk s') (pos s) (take n (drop i buf)).
Proof.
  revert i s. induction n as [|n IH]; intros i s Hok Hp Hend Hb Hn; cbn [write_loop].
  { exists s. rewrite Nat.add_0_r. split_and!; [done|done|lia|]. intros q Hq. simpl.
    by rewrite decide_False by lia. }
  pose proof nsectors_max as Hmax. pose proof Hend as Hend'. unfold disk_size in Hend'.
  destruct (lookup_lt_is_Some_2 buf i) as [c Hc]; [lia|].
  rewrite (bind_liftO _ _ _ c) by (apply load_Some; [lia|by rewrite Nat2Z.id]).
  destruct (write_byte_spec c s Hok) as (d1 & Hw & Hok1 & Hd1);
    [unfold disk_size; lia|by eapply (Forall_lookup_1 _ _ _ _ Hb Hc)|].
  step Hw. erewrite bind_Ret by reflexivity. cbn [sdisk pos]. rewrite s32_id by lia.
  replace (Z.of_nat i + 1) with (Z.of_nat (S i)) by lia.
  destruct (IH (S i) (mk_stream d1 (pos s + 1))) as (s' & Hr & Hok' & Hp' & Hpat); cbn [sdisk pos] in *;
    [done|lia|lia|done|lia|].
  exists s'. split; [rewrite Hr; do 3 f_equal; lia|]. split_and!; [done|lia|].
  intros q Hq. rewrite (Hpat q Hq), (Hd1 q Hq).
  rewrite (drop_S _ _ _ Hc). cbn [take].
  assert (length (take n (drop (S i) buf)) = n) as Hl by (rewrite length_take, length_drop; lia).
  rewrite Hl. cbn [length]. rewrite Hl.
  destruct (decide (q = pos s)) as [->|Hne].
  - rewrite decide_False, decide_True by lia. by rewrite Z.sub_diag.
  - destruct (decide (pos s + 1 <= q < pos s + 1 + Z.of_nat n)).
    + rewrite decide_True by lia.
      replace (Z.to_nat (q - pos s)) with (S (Z.to_nat (q - (pos s + 1)))) by lia. done.
    + by rewrite decide_False by lia.
Qed.

Lemma slice_patched d d' p buf :
  patched d d' p buf -> 0 <= p -> p + Z.of_nat (length buf) <= disk_size ->
  slice d' p (length buf) = buf.
Proof.
  intros Hpat Hp Hend. apply list_eq. intros i. unfold slice. rewrite list_lookup_fmap.
  destruct (decide (i < length buf)%nat) as [Hi|Hi].
  - rewrite lookup_seqZ_lt by lia. simpl. rewrite Hpat by lia. rewrite decide_True by lia.
    destruct (lookup_lt_is_Some_2 buf i Hi) as [x Hx].
    replace (Z.to_nat (p + (0 + Z.of_nat i) - p)) with i by lia. by rewrite Hx.
  - rewrite lookup_seqZ_ge by lia. symmetry. apply lookup_ge_None_2. lia.
Qed.
End with_disk_ok.

(** ** Properties *)

(** A stream read that ends before the end of the disk succeeds, returns
    exactly the disk's bytes at the stream's position, whatever sectors they
    straddle, advances the position by their number and leaves the disk as it
    was. *)
Theorem stream_read_correct {D} `{BlockDevOk D} (s : stream D) total :
  bd_ok (sdisk s) -> 0 <= pos s -> 0 <= total -> pos s + total < disk_size (D := D) ->
  exists s', diskstreamer_read total s = Ret ((0, slice (sdisk s) (pos s) (Z.to_nat total)), s') /\
    bd_ok (sdisk s') /\ pos s' = pos s + total /\
    forall i, 0 <= i < nsectors (D := D) -> sector (sdisk s') i = sector (sdisk s) i.
Proof. intros Hok Hp Ht Hend. unfold diskstreamer_read. apply read_rec_spec; (done || lia). Qed.

(** C8: a stream write below 2 GB puts the buffer's bytes at the stream's position, keeps
    every other byte of the disk (also in the sectors it shares), returns the
    number of bytes, and seeking back and reading gives the bytes again. *)
Theorem stream_write_read_roundtrip {D} `{BlockDevOk D} (s : stream D) buf :
  bd_ok (sdisk s) -> 0 <= pos s -> pos s + Z.of_nat (length buf) < disk_size (D := D) -> bytes buf ->
  exists s1 s2 s3, diskstreamer_write buf (Z.of_nat (length buf)) s = Ret (Z.of_nat (length buf), s1) /\
    patched (sdisk s) (sdisk s1) (pos s) buf /\
    diskstreamer_seek (pos s) s1 = Ret (0, s2) /\
    diskstreamer_read (Z.of_nat (length buf)) s2 = Ret ((0, buf), s3).
Proof.
  intros Hok Hp Hend Hb.
  destruct (write_loop_spec (length buf) buf 0 s) as (s1 & Hw & Hok1 & Hp1 & Hpat); [done|done|lia|done|lia|].
  rewrite drop_0, take_ge in Hpat by lia.
  exists s1, (mk_stream (sdisk s1) (pos s)).
  destruct (read_rec_spec (S (Z.to_nat (Z.of_nat (length buf)))) (Z.of_nat (length buf))
              (mk_stream (sdisk s1) (pos s))) as (s3 & Hr & _); [done|done|lia|done|lia|].
  exists s3. split_and!; [unfold diskstreamer_write; rewrite Nat2Z.id; exact Hw|done|done|].
  unfold diskstreamer_read. rewrite Hr. cbn [sdisk pos]. rewrite Nat2Z.id.
  by rewrite (slice_patched (sdisk s) (sdisk s1)) by (done || lia).
Qed.
