(* ===== verification/AtaDevice.v ===== *)
(** * A disk controller

    A reference ATA controller in PIO mode with one drive: the task file, the
    DRQ status bit, the data port and the read, write and flush commands, as
    the ATA specification describes them.  On it, [disk_read_block] and
    [disk_write_block] of disk.c give the block device that streams rely on. *)
From S2P Require Import Prelude Config CMem Disk Streamer.

Record ata := mk_ata {
  r_count : Z; r_lo : Z; r_mid : Z; r_hi : Z; r_dev : Z;
  fifo : list Z;          (* words the host has still to read *)
  wlba : Z; wbuf : list Z; wleft : nat;   (* a write in progress *)
  image : list (list Z)   (* the sectors, as bytes *)
}.

Fixpoint words_of_bytes (l : list Z) : list Z :=
  match l with
  | a :: b :: l => (a + 256 * b) :: words_of_bytes l
  | _ => []
  end.

Fixpoint bytes_of_words (ws : list Z) : list Z :=
  match ws with
  | [] => []
  | w :: ws => u8 w :: u8 (w / 256) :: bytes_of_words ws
  end.

Definition ata_lba (d : ata) : Z :=
  r_lo d + 256 * r_mid d + 65536 * r_hi d + 16777216 * (r_dev d mod 16).

Definition ata_count (d : ata) : nat := if r_count d =? 0 then 256%nat else Z.to_nat (r_count d).

Definition ata_status (d : ata) : Z :=
  if bool_decide (fifo d = [] /\ wleft d = 0%nat) then 0x40 else 0x48.

Definition ata_command (d : ata) (v : Z) : ata :=
  if v =? 0x20 then
    mk_ata (r_count d) (r_lo d) (r_mid d) (r_hi d) (r_dev d)
      (take (ata_count d) (drop (Z.to_nat (ata_lba d)) (image d)) ≫= words_of_bytes)
      0 [] 0 (image d)
  else if v =? 0x30 then
    mk_ata (r_count d) (r_lo d) (r_mid d) (r_hi d) (r_dev d) [] (ata_lba d) [] (ata_count d) (image d)
  else d.

Definition ata_outb (port v : Z) (d : ata) : ata :=
  if port =? 0x1F2 then mk_ata v (r_lo d) (r_mid d) (r_hi d) (r_dev d) (fifo d) (wlba d) (wbuf d) (wleft d) (image d)
  else if port =? 0x1F3 then mk_ata (r_count d) v (r_mid d) (r_hi d) (r_dev d) (fifo d) (wlba d) (wbuf d) (wleft d) (image d)
  else if port =? 0x1F4 then mk_ata (r_count d) (r_lo d) v (r_hi d) (r_dev d) (fifo d) (wlba d) (wbuf d) (wleft d) (image d)
  else if port =? 0x1F5 then mk_ata (r_count d) (r_lo d) (r_mid d) v (r_dev d) (fifo d) (wlba d) (wbuf d) (wleft d) (image d)
  else if port =? 0x1F6 then mk_ata (r_count d) (r_lo d) (r_mid d) (r_hi d) v (fifo d) (wlba d) (wbuf d) (wleft d) (image d)
  else if port =? 0x1F7 then ata_command d v
  else d.

(** A complete sector is committed; words outside a write command are lost. *)
Definition ata_outw (port v : Z) (d : ata) : ata :=
  if (port =? 0x1F0) && negb (bool_decide (wleft d = 0%nat)) then
    let wbuf' := wbuf d ++ [v] in
    if bool_decide (length wbuf' = 256%nat) then
      mk_ata (r_count d) (r_lo d) (r_mid d) (r_hi d) (r_dev d) (fifo d) (wlba d + 1) [] (wleft d - 1)
        (<[Z.to_nat (wlba d) := bytes_of_words wbuf']> (image d))
    else
      mk_ata (r_count d) (r_lo d) (r_mid d) (r_hi d) (r_dev d) (fifo d) (wlba d) wbuf' (wleft d) (image d)
  else d.

Definition ata_inb (port : Z) (d : ata) : Z :=
  if port =? 0x1F7 then ata_status d
  else if port =? 0x1F4 then r_mid d
  else if port =? 0x1F5 then r_hi d
  else 0xFF.

Definition ata_inw (port : Z) (d : ata) : Z * ata :=
  match fifo d with
  | w :: ws =>
      if port =? 0x1F0 then
        (w, mk_ata (r_count d) (r_lo d) (r_mid d) (r_hi d) (r_dev d) ws (wlba d) (wbuf d) (wleft d) (image d))
      else (0xFFFF, d)
  | [] => (0xFFFF, d)
  end.

(** A drive of [N] sectors. *)
Definition ata_dev (N : nat) : Type := ata.

#[export] Instance ata_ports (N : nat) : Ports (ata_dev N) := {|
  inb := fun port d => Ret (ata_inb port d, d);
  inw := fun port d => Ret (ata_inw port d);
  outb := fun port v d => Ret (tt, ata_outb port v d);
  outw := fun port v d => Ret (tt, ata_outw port v d)
|}.

(** The primary master, as [disk_search_and_init] sets it up. *)
Definition disk0 : disk := mk_disk 0 512 PATA 0 0 0 MASTER PRIMARY 0.

#[export] Instance ata_blockdev (N : nat) : BlockDev (ata_dev N) := {|
  read_block := fun lba buf => disk_read_block disk0 lba 1 buf;
  write_block := fun lba buf => disk_write_block 1 disk0 lba 1 buf
|}.

(** ** Words and bytes *)
Lemma bytes_words l :
  bytes l -> Nat.Even (length l) -> bytes_of_words (words_of_bytes l) = l.
Proof.
  intros Hb [k Hk]. revert l Hb Hk. induction k as [|k IH]; intros l Hb Hk.
  - destruct l; [done|simpl in Hk; lia].
  - destruct l as [|a [|b l]]; [simpl in Hk; lia..|].
    inversion Hb as [|? ? Ha Hb']; subst. inversion Hb' as [|? ? Hbb Hb'']; subst.
    unfold is_byte in *. cbn [words_of_bytes bytes_of_words].
    rewrite IH by (done || simpl in Hk; lia). unfold u8. repeat f_equal; zlia.
Qed.

Lemma length_words_of_bytes k l : length l = (2 * k)%nat -> length (words_of_bytes l) = k.
Proof.
  revert l. induction k as [|k IH]; intros l Hl; [by destruct l|].
  destruct l as [|a [|b l]]; [simpl in Hl; lia..|]. simpl. f_equal. apply IH. simpl in Hl. lia.
Qed.

Lemma length_bytes_of_words ws : length (bytes_of_words ws) = (2 * length ws)%nat.
Proof. induction ws as [|w ws IH]; [done|]. simpl. rewrite IH. lia. Qed.

Lemma bytes_of_words_bytes ws : bytes (bytes_of_words ws).
Proof.
  induction ws as [|w ws IH]; [constructor|]. cbn.
  repeat constructor; [apply u8_range..|exact IH].
Qed.

Lemma store16_app pre a b t w i :
  length pre = (2 * i)%nat ->
  store16 (pre ++ a :: b :: t) (Z.of_nat i) w = Ret (pre ++ u8 w :: u8 (w / 256) :: t).
Proof.
  intros Hl. unfold store16. rewrite store_Ret by (rewrite length_app; simpl; lia). simpl mbind.
  replace (Z.to_nat (2 * Z.of_nat i)) with (length pre + 0)%nat by lia. rewrite insert_app_r.
  cbn [insert list_insert]. rewrite store_Ret by (rewrite length_app; simpl; lia).
  replace (Z.to_nat (2 * Z.of_nat i + 1)) with (length pre + 1)%nat by lia. by rewrite insert_app_r.
Qed.

Lemma load16_app pre a b t i :
  length pre = (2 * i)%nat -> load16 (pre ++ a :: b :: t) (Z.of_nat i) = Ret (a + 256 * b).
Proof.
  intros Hl. unfold load16.
  rewrite (load_Some _ (2 * Z.of_nat i) a); [|lia|].
  2: { replace (Z.to_nat (2 * Z.of_nat i)) with (length pre) by lia. by apply list_lookup_middle. }
  simpl mbind. rewrite (load_Some _ _ b); [done|lia|].
  replace (Z.to_nat (2 * Z.of_nat i + 1)) with (length (pre ++ [a])) by (rewrite length_app; simpl; lia).
  change (a :: b :: t) with ([a] ++ b :: t). rewrite (app_assoc pre [a] (b :: t)). by apply list_lookup_middle.
Qed.

Section device.
Context (N : nat).
Implicit Types d : ata_dev N.

Definition set_fifo d (ws : list Z) : ata_dev N :=
  mk_ata (r_count d) (r_lo d) (r_mid d) (r_hi d) (r_dev d) ws (wlba d) (wbuf d) (wleft d) (image d).

(** Reading words off the data port. *)
Lemma read_words_spec ws rest d pre old i :
  fifo d = ws ++ rest -> length pre = (2 * i)%nat -> (2 * length ws <= length old)%nat ->
  read_words (length ws) 0x1F0 (pre ++ old) (Z.of_nat i) d =
    Ret (pre ++ bytes_of_words ws ++ drop (2 * length ws) old, set_fifo d rest).
Proof.
  revert d pre old i. induction ws as [|w ws IH]; intros d pre old i Hf Hp Ho; cbn [length read_words].
  { simpl in Hf. subst rest. by destruct d. }
  destruct old as [|a [|b old]]; [simpl in Ho; lia..|].
  assert (inw 0x1F0 d = Ret (w, set_fifo d (ws ++ rest))) as Hin
    by (unfold inw; simpl; unfold ata_inw; by rewrite Hf).
  step Hin. rewrite (bind_liftO _ _ _ _ (store16_app pre a b old w i Hp)).
  replace (Z.of_nat i + 1) with (Z.of_nat (S i)) by lia.
  rewrite (cons_middle (u8 w)), (cons_middle (u8 (w / 256))), !app_assoc.
  rewrite (IH (set_fifo d (ws ++ rest)) _ old (S i)); [|done|rewrite !length_app; simpl; lia|simpl in Ho; lia].
  replace (2 * S (length ws))%nat with (S (S (2 * length ws))) by lia. simpl. by rewrite <- !app_assoc.
Qed.

(** Writing the words of a sector to the data port. *)
Definition write_state d (lba : Z) (acc : list Z) (left : nat) (img : list (list Z)) : ata_dev N :=
  mk_ata (r_count d) (r_lo d) (r_mid d) (r_hi d) (r_dev d) (fifo d) lba acc left img.

Lemma write_words_spec n pre buf d i :
  wleft d = 1%nat -> (length (wbuf d) + n = 256)%nat -> (0 < n)%nat ->
  length pre = (2 * i)%nat -> length buf = (2 * n)%nat ->
  write_words n 0x1F0 (pre ++ buf) (Z.of_nat i) d =
    Ret (tt, write_state d (wlba d + 1) [] 0
               (<[Z.to_nat (wlba d) := bytes_of_words (wbuf d ++ words_of_bytes buf)]> (image d))).
Proof.
  revert pre buf d i. induction n as [|n IH]; intros pre buf d i Hw Hn Hpos Hp Hb; [lia|].
  destruct buf as [|a [|b buf]]; [simpl in Hb; lia..|]. cbn [write_words].
  rewrite (bind_liftO _ _ _ _ (load16_app pre a b buf i Hp)).
  assert (outw 0x1F0 (a + 256 * b) d =
    Ret (tt, if bool_decide (n = 0%nat)
             then write_state d (wlba d + 1) [] 0
                    (<[Z.to_nat (wlba d) := bytes_of_words (wbuf d ++ [a + 256 * b])]> (image d))
             else write_state d (wlba d) (wbuf d ++ [a + 256 * b]) 1 (image d))) as Hout.
  { unfold outw. simpl. unfold ata_outw. rewrite Hw. simpl. rewrite length_app. simpl.
    destruct (decide (n = 0%nat)) as [->|Hne].
    - rewrite !bool_decide_eq_true_2 by (done || lia). done.
    - rewrite !bool_decide_eq_false_2 by (done || lia). done. }
  step Hout. destruct (decide (n = 0%nat)) as [->|Hne].
  - rewrite bool_decide_eq_true_2 by done. destruct buf; [done|simpl in Hb; lia].
  - rewrite bool_decide_eq_false_2 by done.
    replace (Z.of_nat i + 1) with (Z.of_nat (S i)) by lia.
    rewrite (cons_middle a), (cons_middle b), !app_assoc.
    rewrite IH; [|done|simpl; rewrite length_app; simpl; lia|lia|rewrite !length_app; simpl; lia|simpl in Hb; lia].
    simpl. by rewrite <- app_assoc.
Qed.

Definition regs d (count lo mid hi dv : Z) : ata_dev N :=
  mk_ata count lo mid hi dv (fifo d) (wlba d) (wbuf d) (wleft d) (image d).

(** The task file addresses the sector. *)
Lemma task_file_spec d lba command :
  0 <= lba < 4194304 ->
  exists d1, task_file 0x1F0 true lba 1 command d = Ret (tt, ata_command d1 command) /\
    ata_lba d1 = lba /\ ata_count d1 = 1%nat /\ image d1 = image d.
Proof.
  intros Hl.
  exists (regs d 1 (u8 (Z.land lba 0xff)) (u8 (Z.shiftr lba 8)) (u8 (Z.shiftr lba 16))
            (u8 (Z.lor (Z.shiftr lba 24) 0xe0))).
  split; [reflexivity|]. split; [|done]. unfold ata_lba. simpl.
  change 0xff with (Z.ones 8). rewrite Z.land_ones, !Z.shiftr_div_pow2 by lia.
  replace (lba / 2 ^ 24) with 0 by zlia. change (u8 (Z.lor 0 0xe0) mod 16) with 0.
  unfold u8. change (2 ^ 8) with 256. change (2 ^ 16) with 65536. zlia.
Qed.

Lemma DRQ_POLLS_S : exists n, DRQ_POLLS = S n.
Proof. exists (Z.to_nat 0xFFFF). unfold DRQ_POLLS. rewrite <- Z2Nat.inj_succ by lia. done. Qed.

Lemma wait_drq_ready d :
  fifo d <> [] \/ wleft d <> 0%nat -> wait_drq DRQ_POLLS 0x1F7 d = Ret (true, d).
Proof.
  intros Hd. destruct DRQ_POLLS_S as [n ->]. cbn [wait_drq].
  assert (inb 0x1F7 d = Ret (0x48, d)) as Hin.
  { unfold inb. simpl. unfold ata_inb, ata_status. simpl.
    rewrite bool_decide_eq_false_2; [done|]. intros [? ?]. by destruct Hd. }
  step Hin. done.
Qed.

Definition ata_ok d : Prop :=
  length (image d) = N /\ Forall (fun s => length s = 512%nat /\ bytes s) (image d).

Definition ata_sector d (lba : Z) : list Z := default [] (image d !! Z.to_nat lba).
Definition ata_nsectors : Z := Z.min (Z.of_nat N) 4194303.

Lemma ata_sector_ok d lba :
  ata_ok d -> 0 <= lba < ata_nsectors ->
  image d !! Z.to_nat lba = Some (ata_sector d lba) /\
  length (ata_sector d lba) = 512%nat /\ bytes (ata_sector d lba).
Proof.
  intros [Hn Hs] Hl. unfold ata_nsectors in Hl. unfold ata_sector.
  destruct (lookup_lt_is_Some_2 (image d) (Z.to_nat lba)) as [x Hx]; [lia|]. rewrite Hx. simpl.
  split; [done|]. by apply (Forall_lookup_1 _ _ _ _ Hs Hx).
Qed.

Lemma ata_read d lba buf :
  ata_ok d -> 0 <= lba < ata_nsectors -> length buf = 512%nat ->
  exists d', disk_read_block (D := ata_dev N) disk0 lba 1 buf d = Ret ((0, ata_sector d lba), d') /\ ata_ok d' /\
    forall i, 0 <= i < ata_nsectors -> ata_sector d' i = ata_sector d i.
Proof.
  intros Hok Hl Hb. destruct (ata_sector_ok d lba Hok Hl) as (Hx & Hlen & Hbytes).
  assert (0 <= lba < 4194304) as Hl4 by (unfold ata_nsectors in Hl; lia).
  unfold disk_read_block. simpl.
  rewrite Z.add_0_r, u32_id, s32_id by lia. unfold pata_read_sector.
  destruct (task_file_spec d lba 0x20 Hl4) as (d1 & Ht & Hlba & Hcnt & Himg).
  change (pors 1) with 0x1F0. step Ht. set (d2 := (ata_command d1 0x20 : ata_dev N)).
  assert (Hfifo : fifo d2 = words_of_bytes (ata_sector d lba) ++ []).
  { subst d2. unfold ata_command. simpl. rewrite Hlba, Hcnt, Himg, (drop_S _ _ _ Hx). reflexivity. }
  assert (Hwl : length (words_of_bytes (ata_sector d lba)) = 256%nat) by (by apply length_words_of_bytes).
  change (Z.to_nat 1) with 1%nat. cbn [read_sectors].
  assert (wait_drq DRQ_POLLS (0x1F0 + 7) d2 = Ret (true, d2)) as Hwait.
  { apply wait_drq_ready. left. rewrite Hfifo, app_nil_r. intros E. rewrite E in Hwl. done. }
  step Hwait. cbv iota.
  pose proof (read_words_spec (words_of_bytes (ata_sector d lba)) [] d2 [] buf 0 Hfifo eq_refl) as Hrd.
  rewrite Hwl in Hrd. specialize (Hrd ltac:(lia)). change (Z.of_nat 0) with 0 in Hrd.
  change ([] ++ buf) with buf in Hrd. step Hrd.
  rewrite bytes_words by (done || (rewrite Hlen; by exists 256%nat)).
  rewrite drop_ge by lia. rewrite app_nil_r. eexists. split; [reflexivity|].
  assert (image (set_fifo d2 []) = image d) as Hi by (simpl; exact Himg).
  split; [unfold ata_ok; rewrite Hi; exact Hok|]. intros i _. unfold ata_sector. by rewrite Hi.
Qed.

Lemma ata_write d lba buf :
  ata_ok d -> 0 <= lba < ata_nsectors -> length buf = 512%nat -> bytes buf ->
  exists d', disk_write_block (D := ata_dev N) 1 disk0 lba 1 buf d = Ret (0, d') /\ ata_ok d' /\
    forall i, 0 <= i < ata_nsectors -> ata_sector d' i = if i =? lba then buf else ata_sector d i.
Proof.
  intros Hok Hl Hb Hbytes. assert (0 <= lba < 4194304) as Hl4 by (unfold ata_nsectors in Hl; lia).
  unfold disk_write_block. simpl.
  rewrite Z.add_0_r, u32_id, s32_id by lia. unfold pata_write_sector.
  destruct (task_file_spec d lba 0x30 Hl4) as (d1 & Ht & Hlba & Hcnt & Himg).
  change (pors 1) with 0x1F0. step Ht. set (d2 := (ata_command d1 0x30 : ata_dev N)).
  assert (Hd2 : wleft d2 = 1%nat /\ wbuf d2 = [] /\ wlba d2 = lba /\ image d2 = image d /\ fifo d2 = []).
  { subst d2. unfold ata_command. simpl. by rewrite Hlba, Hcnt. }
  destruct Hd2 as (Hwl & Hwb & Hwlba & Hwi & Hwf).
  change (Z.to_nat 1) with 1%nat. cbn [write_sectors].
  assert (wait_drq DRQ_POLLS (0x1F0 + 7) d2 = Ret (true, d2)) as Hwait
    by (apply wait_drq_ready; right; by rewrite Hwl).
  pose proof (write_words_spec 256 [] buf d2 0 Hwl) as Hww. rewrite Hwb in Hww.
  specialize (Hww eq_refl ltac:(lia) eq_refl Hb). change (Z.of_nat 0) with 0 in Hww.
  change ([] ++ buf) with buf in Hww. simpl app in Hww.
  rewrite bytes_words, Hwlba, Hwi in Hww by (done || (rewrite Hb; by exists 256%nat)).
  set (d3 := write_state d2 (lba + 1) [] 0 (<[Z.to_nat lba := buf]> (image d))) in *.
  erewrite bind_Ret; [|step Hwait; cbv iota; step Hww; reflexivity].
  cbn [Z.ltb Z.compare].
  assert (poll 1 (0x1F0 + 7) (fun c => negb (c_true (Z.land c 0x80))) d3 = Ret (tt, d3)) as Hpoll.
  { cbn [poll]. unfold d3, write_state, mbind, cmd_bind, inb. simpl. unfold ata_inb, ata_status. simpl.
    reflexivity. }
  exists d3. split.
  { erewrite bind_Ret; [|reflexivity]. change (ata_outb (0x1F0 + 7) 0xE7 d3) with d3. step Hpoll. done. }
  destruct Hok as [Hn Hs]. split.
  { split; simpl; [by rewrite length_insert|]. by apply Forall_insert. }
  intros i Hi. unfold ata_sector, ata_nsectors in *. simpl. destruct (i =? lba) eqn:E; breflect.
  - subst i. rewrite list_lookup_insert_eq by lia. done.
  - rewrite list_lookup_insert_ne by lia. done.
Qed.
End device.

(** The driver on the reference controller is a block device. *)
#[export] Instance ata_blockdev_ok (N : nat) : BlockDevOk (ata_dev N).
Proof.
  refine {| nsectors := ata_nsectors N; bd_ok := ata_ok N; sector := ata_sector N;
            read_block_ok := ata_read N; write_block_ok := ata_write N |}.
  - unfold ata_nsectors. lia.
  - intros d lba Hok Hl. by apply ata_sector_ok.
  - intros d lba Hok Hl. by apply ata_sector_ok.
Defined.

(** A drive of eight empty sectors for the witnesses. *)
Definition demo_drive : ata_dev 8 := mk_ata 0 0 0 0 0 [] 0 [] 0 (replicate 8 (replicate 512 0)).

Lemma demo_drive_ok : bd_ok demo_drive.
Proof.
  split; [done|]. apply Forall_replicate. split; [done|]. apply Forall_replicate. unfold is_byte. lia.
Qed.

Lemma stream_read_correct_witness :
  exists s', diskstreamer_read 700 (mk_stream demo_drive 400) =
    Ret ((0, slice demo_drive 400 (Z.to_nat 700)), s') /\ pos s' = 1100.
Proof.
  destruct (stream_read_correct (mk_stream demo_drive 400) 700) as (s' & Hr & _ & Hp & _).
  - exact demo_drive_ok.
  - simpl. lia.
  - lia.
  - reflexivity.
  - exists s'. split; [exact Hr|exact Hp].
Defined.

Lemma stream_write_read_roundtrip_witness :
  exists s1 s2 s3, diskstreamer_write [72; 105; 33] 3 (mk_stream demo_drive 510) = Ret (3, s1) /\
    diskstreamer_seek 510 s1 = Ret (0, s2) /\ diskstreamer_read 3 s2 = Ret ((0, [72; 105; 33]), s3).
Proof.
  destruct (stream_write_read_roundtrip (mk_stream demo_drive 510) [72; 105; 33])
    as (s1 & s2 & s3 & Hw & _ & Hs & Hr).
  - exact demo_drive_ok.
  - simpl. lia.
  - reflexivity.
  - repeat constructor; unfold is_byte; lia.
  - exists s1, s2, s3. split; [exact Hw|]. split; [exact Hs|exact Hr].
Defined.

(** ** Properties *)

(** On an ATA controller, writing a sector through the driver's port
    sequence and reading any sector back gives the written bytes at that
    address and the old bytes everywhere else, for every sector number below
    2^22 and every 512-byte buffer. *)
Theorem driver_write_read N (d : ata_dev N) lba buf :
  ata_ok N d -> 0 <= lba < ata_nsectors N -> length buf = 512%nat -> bytes buf ->
  exists d1, disk_write_block 1 disk0 lba 1 buf d = Ret (0, d1) /\
    forall i old, 0 <= i < ata_nsectors N -> length old = 512%nat ->
      exists d2, disk_read_block disk0 i 1 old d1 =
        Ret ((0, if i =? lba then buf else ata_sector N d i), d2).
Proof.
  intros Hok Hl Hb Hby. destruct (ata_write N d lba buf Hok Hl Hb Hby) as (d1 & Hw & Hok1 & Hs).
  exists d1. split; [exact Hw|]. intros i old Hi Ho.
  destruct (ata_read N d1 i old Hok1 Hi Ho) as (d2 & Hr & _). exists d2. rewrite <- Hs by done. exact Hr.
Qed.

Lemma driver_write_read_witness :
  exists d1, disk_write_block 1 disk0 3 1 (replicate 512 7) demo_drive = Ret (0, d1) /\
    exists d2, disk_read_block disk0 3 1 (replicate 512 0) d1 = Ret ((0, replicate 512 7), d2).
Proof.
  destruct (driver_write_read 8 demo_drive 3 (replicate 512 7)) as (d1 & Hw & Hr).
  - exact demo_drive_ok.
  - vm_compute. split; [discriminate|reflexivity].
  - reflexivity.
  - apply Forall_replicate. unfold is_byte. lia.
  - exists d1. split; [exact Hw|]. apply (Hr 3 (replicate 512 0)).
    + vm_compute. split; [discriminate|reflexivity].
    + reflexivity.
Defined.

(** A drive that [ata_identify] reports as missing is not skipped.  The
    negative error code is stored in an unsigned enumeration, so the test
    [<= 0] does not see it: the disk is initialised (here a filesystem
    resolver that panics shows that it is called), and [disk_get] hands the
    missing disk out. *)
Theorem missing_drive_not_skipped {D} `{Ports D} fuel pri_sec ms disks buf buf' off d0 d1 dk :
  ata_identify fuel ms pri_sec buf d0 = Ret ((- ENODISKSPACE, buf'), d1) ->
  0 <= off + 1 <= 12 -> disks !! Z.to_nat (off + 1) = Some dk -> length disks = 13%nat ->
  probe (fun _ _ => Panic) fuel pri_sec ms (disks, buf, off) d0 = Panic /\
  disk_get (<[Z.to_nat (off + 1) := set_dev dk (- ENODISKSPACE)]> disks) (off + 1) =
    Ret (Some (set_dev dk (- ENODISKSPACE))).
Proof.
  intros Hid Hoff Hdk Hlen. split.
  - unfold probe. step Hid. rewrite (bind_liftO _ _ _ _ (load_Some _ (off + 1) _ ltac:(lia) Hdk)).
    rewrite (bind_liftO _ _ _ _ (store_Ret disks (off + 1) _ ltac:(lia))).
    change (u32 (- ENODISKSPACE) <=? 0) with false. cbv iota.
    unfold mbind at 1, cmd_bind at 1. unfold init_disk.
    rewrite (bind_liftO _ _ _ (set_dev dk (- ENODISKSPACE))); [done|].
    apply load_Some; [lia|]. apply list_lookup_insert_eq. lia.
  - unfold disk_get. change (SERPAEOS_MAX_DISKS - 1) with 12. rewrite (proj2 (Z.ltb_ge _ _)) by lia.
    rewrite (load_Some _ _ (set_dev dk (- ENODISKSPACE))); [done|lia|].
    apply list_lookup_insert_eq. lia.
Qed.

(** A bus without a drive: the status register reads 0. *)
Definition no_drive : Type := unit.
#[export] Instance no_drive_ports : Ports no_drive := {|
  inb := fun _ d => Ret (0, d);
  inw := fun _ d => Ret (0, d);
  outb := fun _ _ d => Ret (tt, d);
  outw := fun _ _ d => Ret (tt, d)
|}.

Lemma missing_drive_not_skipped_witness :
  probe (D := no_drive) (fun _ _ => Panic) 1 PRIMARY SLAVE (replicate 13 disk_zero, [], 0) tt = Panic.
Proof.
  apply (missing_drive_not_skipped (D := no_drive) 1 PRIMARY SLAVE (replicate 13 disk_zero) [] [] 0 tt tt disk_zero).
  - reflexivity.
  - lia.
  - reflexivity.
  - reflexivity.
Defined.
