(* ===== verification/Vfs.v ===== *)
(** * The virtual file system (src/src/fs/file.c)

    Filesystem drivers are records of operations, as in [struct filesystem];
    file descriptors are heap objects found through a table of 512 pointers.
    The drivers work on the part of the state they need: the allocator, the
    parsed paths and a state [F] of their own. *)
From S2P Require Import Prelude Config CMem CString Kheap PathParser Disk.

(** [struct date_time] of time.h, without the century, which time.c keeps
    apart. *)
Record date_time := mk_date {
  seconds : Z; minutes : Z; hours : Z; day : Z; month : Z; year : Z
}.
Definition no_date : date_time := mk_date 0 0 0 0 0 0.

(** [struct filestat], without the date of the last access, which no driver
    sets. *)
Record file_stat := mk_stat { flags : Z; filesize : Z; creation_datetime : date_time }.

(** [struct filesystem], without the [rename] entry no code calls. *)
Record filesystem_ops (St : Type) := mk_fs {
  fs_resolve_op : disk -> cmd St (Z * disk);
  fs_open : disk -> Z -> Z -> cmd St Z;
  fs_read : disk -> Z -> Z -> Z -> cmd St (Z * list Z);
  fs_seek : Z -> Z -> Z -> cmd St Z;
  fs_stat : disk -> Z -> file_stat -> cmd St (Z * file_stat);
  fs_close : Z -> cmd St Z;
  fs_write : disk -> Z -> list Z -> Z -> cmd St Z;
  fs_delete : disk -> Z -> cmd St Z;
  fs_ftell : Z -> cmd St Z
}.
Arguments mk_fs {St}.
Arguments fs_resolve_op {St}.
Arguments fs_open {St}.
Arguments fs_read {St}.
Arguments fs_seek {St}.
Arguments fs_stat {St}.
Arguments fs_close {St}.
Arguments fs_write {St}.
Arguments fs_delete {St}.
Arguments fs_ftell {St}.

(** [d_filesystem] points to the driver; [d_disk] is the disk's number. *)
Record file_descriptor := mk_fd {
  index : Z;
  d_filesystem : Z;
  private : Z;
  d_disk : Z;
  mode : Z
}.

Fixpoint file_get_mode_by_string_loop (str : list Z) (mode : Z) : outcome Z :=
  match str with
  | [] => Oob
  | c :: str =>
      if c =? 0 then Ret mode
      else
        let mode :=
          if (c =? 114) || (c =? 82) then Z.lor mode FILE_MODE_READ
          else if (c =? 119) || (c =? 87) then Z.lor mode FILE_MODE_WRITE
          else if (c =? 97) || (c =? 65) then Z.lor mode FILE_MODE_APPEND
          else mode in
        file_get_mode_by_string_loop str mode
  end.

Definition file_get_mode_by_string (str : list Z) : outcome Z :=
  file_get_mode_by_string_loop str FILE_MODE_INVALID.

(** The first null pointer of an array, from index [i]. *)
Fixpoint first_null (l : list Z) (i : Z) : option Z :=
  match l with
  | [] => None
  | p :: l => if p =? 0 then Some i else first_null l (i + 1)
  end.

Section vfs.
Context {H : Type} `{Allocator H} {F : Type}.

Definition fsst : Type := ppstate H * F.

(** The drivers by address. *)
Context (drivers : gmap Z (filesystem_ops fsst)).

Record vfs := mk_vfs {
  vst : fsst;
  filesystems : list Z;
  file_descriptors : list Z;
  descs : gmap Z file_descriptor;
  disks : list disk
}.

Definition set_vst (s : vfs) (st : fsst) : vfs :=
  mk_vfs st (filesystems s) (file_descriptors s) (descs s) (disks s).
Definition set_fds (s : vfs) (fds : list Z) (ds : gmap Z file_descriptor) : vfs :=
  mk_vfs (vst s) (filesystems s) fds ds (disks s).

Definition on_st {A} (c : cmd fsst A) : cmd vfs A := fun s =>
  '(a, st) ← c (vst s); Ret (a, set_vst s st).
Definition on_path {A} (c : cmd (ppstate H) A) : cmd vfs A := fun s =>
  '(a, pp) ← c (fst (vst s)); Ret (a, set_vst s (pp, snd (vst s))).
Definition on_heap {A} (c : cmd H A) : cmd vfs A := on_path (ppk c).

Definition driver (p : Z) : cmd vfs (filesystem_ops fsst) :=
  match drivers !! p with
  | Some ops => mret ops
  | None => liftO Oob
  end.

Definition fs_get_free_filesystem (s : vfs) : option Z := first_null (filesystems s) 0.

(** A full table prints a message and loops for ever. *)
Definition fs_insert_filesystem (fs : Z) : cmd vfs unit :=
  s ← getS;
  match fs_get_free_filesystem s with
  | None => liftO OutOfFuel
  | Some i =>
      l ← liftO (store (filesystems s) i fs);
      putS (mk_vfs (vst s) l (file_descriptors s) (descs s) (disks s))
  end.

(** [fat16] and [fat32] are the addresses the drivers' [init] functions return. *)
Definition fs_load (fat16 fat32 : Z) : cmd vfs unit :=
  modifyS (fun s => mk_vfs (vst s) (replicate (Z.to_nat SERPAEOS_MAX_FILESYSTEMS) 0)
                      (file_descriptors s) (descs s) (disks s));;
  fs_insert_filesystem fat16;;
  fs_insert_filesystem fat32.

Definition fs_init (fat16 fat32 : Z) : cmd vfs unit :=
  modifyS (fun s => set_fds s (replicate (Z.to_nat SERPAEOS_MAX_FILE_DESCRIPTORS) 0) (descs s));;
  fs_load fat16 fat32.

Definition load_desc (p : Z) : cmd vfs file_descriptor :=
  s ← getS;
  match descs s !! p with
  | Some d => mret d
  | None => liftO Oob
  end.

Definition file_free_descriptor (desc : Z) : cmd vfs unit :=
  d ← load_desc desc;
  s ← getS;
  fds ← liftO (store (file_descriptors s) (index d - 1) 0);
  putS (set_fds s fds (descs s));;
  on_heap (kf desc);;
  modifyS (fun s => set_fds s (file_descriptors s) (delete desc (descs s))).

(** The result and the descriptor; 20 is the size of the structure. *)
Definition file_new_descriptor : cmd vfs (Z * Z) :=
  s ← getS;
  match first_null (file_descriptors s) 0 with
  | None => mret (- ENOMEM, 0)
  | Some i =>
      desc ← on_heap (kz 20);
      if desc =? 0 then liftO Oob
      else
        s ← getS;
        fds ← liftO (store (file_descriptors s) i desc);
        putS (set_fds s fds (<[desc := mk_fd (i + 1) 0 0 0 0]> (descs s)));;
        mret (0, desc)
  end.

(** The descriptor's address, 0 if there is none. *)
Definition file_get_descriptor (fd : Z) : cmd vfs Z :=
  s ← getS;
  if (fd <=? 0) || (SERPAEOS_MAX_FILE_DESCRIPTORS <=? fd) then mret 0
  else liftO (load (file_descriptors s) (fd - 1)).

Fixpoint fs_resolve_loop (fss : list Z) (d : disk) : cmd vfs (Z * disk) :=
  match fss with
  | [] => mret (0, d)
  | fs :: fss =>
      if fs =? 0 then fs_resolve_loop fss d
      else
        ops ← driver fs;
        '(res, d) ← on_st (fs_resolve_op ops d);
        if res =? 0 then mret (fs, d) else fs_resolve_loop fss d
  end.

Definition fs_resolve (d : disk) : cmd vfs (Z * disk) :=
  s ← getS;
  fs_resolve_loop (filesystems s) d.

(** The code before the label [out]: the result, the root and the driver's
    private data as they are there. *)
Definition fopen_body (filename mode_str : list Z) : cmd vfs (Z * Z * Z) :=
  root_path ← on_path (pathparser_parse filename);
  if root_path =? 0 then mret (- EINVARG, root_path, 0)
  else
    s ← getS;
    '(drive_no, first) ← liftO (match pp_roots (fst (vst s)) !! root_path with
                                | Some r => Ret r
                                | None => Oob
                                end);
    if first =? 0 then mret (- EINVARG, root_path, 0)
    else
      d ← liftO (disk_get (disks s) drive_no);
      match d with
      | None => mret (- EIO, root_path, 0)
      | Some d =>
          if filesystem d =? 0 then mret (- EIO, root_path, 0)
          else
            mode ← liftO (file_get_mode_by_string mode_str);
            if mode =? FILE_MODE_INVALID then mret (- EINVARG, root_path, 0)
            else
              ops ← driver (filesystem d);
              descriptor_private_data ← on_st (fs_open ops d first mode);
              if ISERR descriptor_private_data
              then mret (s32 descriptor_private_data, root_path, descriptor_private_data)
              else
                '(res, desc) ← file_new_descriptor;
                if res <? 0 then mret (res, root_path, descriptor_private_data)
                else
                  fd ← load_desc desc;
                  modifyS (fun s => set_fds s (file_descriptors s)
                    (<[desc := mk_fd (index fd) (filesystem d) descriptor_private_data drive_no mode]>
                       (descs s)));;
                  on_path (kfree_root root_path);;
                  mret (index fd, root_path, descriptor_private_data)
      end.

Definition fopen (filename mode_str : list Z) : cmd vfs Z :=
  '(res, root_path, descriptor_private_data) ← fopen_body filename mode_str;
  if res <? 0 then
    (if negb (root_path =? 0) then on_path (pathparser_free root_path) else mret tt);;
    (if negb (descriptor_private_data =? 0) then on_heap (kf descriptor_private_data) else mret tt);;
    mret res
  else mret res.

Definition load_disk (i : Z) : cmd vfs disk :=
  s ← getS;
  liftO (load (disks s) i).

(** The driver, the disk and the descriptor behind a descriptor's address. *)
Definition resolve_desc (desc : Z) : cmd vfs (filesystem_ops fsst * disk * file_descriptor) :=
  fd ← load_desc desc;
  ops ← driver (d_filesystem fd);
  d ← load_disk (d_disk fd);
  mret (ops, d, fd).

(** [stat] is what the caller's structure holds before the call. *)
Definition fstat (fd : Z) (stat : file_stat) : cmd vfs (Z * file_stat) :=
  desc ← file_get_descriptor fd;
  if desc =? 0 then mret (- EIO, stat)
  else
    '(ops, d, f) ← resolve_desc desc;
    on_st (fs_stat ops d (private f) stat).

Definition fclose (fd : Z) : cmd vfs Z :=
  desc ← file_get_descriptor fd;
  if desc =? 0 then mret (- EIO)
  else
    '(ops, d, f) ← resolve_desc desc;
    res ← on_st (fs_close ops (private f));
    if res =? SERPAEOS_ALL_OK then file_free_descriptor desc;; mret res
    else mret res.

Definition fseek (fd offset whence : Z) : cmd vfs Z :=
  desc ← file_get_descriptor fd;
  if desc =? 0 then mret (- EIO)
  else
    '(ops, d, f) ← resolve_desc desc;
    on_st (fs_seek ops (private f) (u32 offset) whence).

(** The result and the bytes written through [ptr]. *)
Definition fread (fd size : Z) : cmd vfs (Z * list Z) :=
  if (size =? 0) || (fd <? 1) then mret (- EINVARG, [])
  else
    desc ← file_get_descriptor fd;
    if desc =? 0 then mret (- EINVARG, [])
    else
      '(ops, d, f) ← resolve_desc desc;
      on_st (fs_read ops d (private f) (u32 size) 1).

(** [None] is a null buffer. *)
Definition fwrite (fd : Z) (buf : option (list Z)) (size : Z) : cmd vfs Z :=
  match buf with
  | None => mret (- EINVARG)
  | Some b =>
      if (fd <=? 0) || (size =? 0) then mret (- EINVARG)
      else
        desc ← file_get_descriptor fd;
        if desc =? 0 then mret (- EINVARG)
        else
          '(ops, d, f) ← resolve_desc desc;
          on_st (fs_write ops d (private f) b size)
  end.

Definition ftell (fd : Z) : cmd vfs Z :=
  if fd <=? 0 then mret (- EINVARG)
  else
    desc ← file_get_descriptor fd;
    if desc =? 0 then mret (- EINVARG)
    else
      '(ops, d, f) ← resolve_desc desc;
      on_st (fs_ftell ops (private f)).

Definition fdelete (fd : Z) : cmd vfs Z :=
  if fd <? 1 then mret (- EINVARG)
  else
    desc ← file_get_descriptor fd;
    if desc =? 0 then mret (- EINVARG)
    else
      '(ops, d, f) ← resolve_desc desc;
      res ← on_st (fs_delete ops d (private f));
      file_free_descriptor desc;;
      mret res.
End vfs.
Arguments vfs H F : clear implicits.
Arguments fsst H F : clear implicits.

(** ** Directory descriptors

    The table has its own objects; nothing else in the kernel uses it yet. *)
Definition SERPAEOS_MAX_DIRECTORY_DESCRIPTORS : Z := 512.
Definition sizeof_directory_descriptor : Z := 16.

Record directory_descriptor := mk_dd { dd_index : Z; dd_filesystem : Z; dd_count : Z; dd_entries : Z }.

Section directories.
Context {H : Type} `{Allocator H}.

Record ddst := mk_dds { dd_heap : H; dir_descriptors : list Z; dir_objects : gmap Z directory_descriptor }.

Definition directory_free_descriptor (desc : Z) : cmd ddst unit :=
  s ← getS;
  match dir_objects s !! desc with
  | None => liftO Oob
  | Some d =>
      l ← liftO (store (dir_descriptors s) (dd_index d - 1) 0);
      '(_, h) ← liftO (kf desc (dd_heap s));
      putS (mk_dds h l (delete desc (dir_objects s)))
  end.

(** The new index is written through the pointer before it is looked at. *)
Definition directory_new_descriptor : cmd ddst (Z * Z) :=
  s ← getS;
  match first_null (dir_descriptors s) 0 with
  | None => mret (- ENOMEM, 0)
  | Some i =>
      '(desc, h) ← liftO (kz sizeof_directory_descriptor (dd_heap s));
      if desc =? 0 then liftO Oob
      else
        l ← liftO (store (dir_descriptors s) i desc);
        putS (mk_dds h l (<[desc := mk_dd (i + 1) 0 0 0]> (dir_objects s)));;
        mret (0, desc)
  end.

Definition directory_get_descriptor (dd : Z) : cmd ddst Z :=
  if (dd <=? 0) || (SERPAEOS_MAX_DIRECTORY_DESCRIPTORS <=? dd) then mret 0
  else s ← getS; liftO (load (dir_descriptors s) (dd - 1)).
End directories.
Arguments ddst H : clear implicits.
