(* ===== verification/VfsSpec.v ===== *)
(** * What the virtual file system promises

    The table of descriptor pointers refines a finite map from descriptor
    numbers to descriptors; opening, closing and the rejection of numbers that
    are not open; and what happens to an error a driver returns. *)
From S2P Require Import Prelude Config CMem CString Heap HeapSpec Kheap.
From S2P Require Import AddressSpace PathParser PathParserSpec Disk Vfs.

(** ** Free slots *)
Lemma first_null_spec l i :
  match first_null l i with
  | Some j => exists k, j = i + Z.of_nat k /\ l !! k = Some 0 /\ forall k', (k' < k)%nat -> l !! k' <> Some 0
  | None => forall k, l !! k <> Some 0
  end.
Proof.
  revert i. induction l as [|p l IH]; intros i; cbn [first_null]; [by intros k|].
  destruct (p =? 0) eqn:E; breflect.
  - subst p. exists 0%nat. split_and!; [lia|done|]. intros k' Hk'. lia.
  - specialize (IH (i + 1)). destruct (first_null l (i + 1)) as [j|].
    + destruct IH as (k & -> & Hk & Hlt). exists (S k). split_and!; [lia|done|].
      intros [|k'] Hk'; [by intros [= ?]|]. apply Hlt. lia.
    + intros [|k]; [by intros [= ?]|]. apply IH.
Qed.

Section vfs.
Context {H : Type} `{AllocatorOk H} {F : Type} (drivers : gmap Z (filesystem_ops (fsst H F))).
Implicit Types s : vfs H F.

Definition vheap s : H := ppalloc (fst (vst s)).
Definition vlive s : gset Z := live_ptrs (vheap s).
Definition vroom s : nat := room (vheap s).

(** [m] are the open descriptors by number. *)
Record fd_table s (m : gmap Z file_descriptor) : Prop := {
  ft_ok : alloc_ok (vheap s);
  ft_len : length (file_descriptors s) = 512%nat;
  ft_dom : forall fd d, m !! fd = Some d -> 1 <= fd <= 512;
  ft_slot : forall i p, file_descriptors s !! i = Some p ->
    (p = 0 /\ m !! (Z.of_nat i + 1) = None) \/
    (p <> 0 /\ exists d, m !! (Z.of_nat i + 1) = Some d /\ descs s !! p = Some d /\
               index d = Z.of_nat i + 1 /\ p ∈ vlive s)
}.

Lemma on_heap_step {A} (c : cmd H A) s a h :
  c (vheap s) = Ret (a, h) ->
  on_heap c s = Ret (a, set_vst s (mk_pp h (pp_strs (fst (vst s))) (pp_parts (fst (vst s)))
                                     (pp_roots (fst (vst s))), snd (vst s))).
Proof. intros E. unfold on_heap, on_path, ppk. fold (vheap s). by rewrite E. Qed.

(** The pointer in the table and the descriptor behind it. *)
Lemma get_descriptor_open s m fd d :
  fd_table s m -> m !! fd = Some d -> fd <> 512 ->
  exists p, file_get_descriptor fd s = Ret (p, s) /\ p <> 0 /\ descs s !! p = Some d /\ index d = fd /\
    p ∈ vlive s /\ file_descriptors s !! Z.to_nat (fd - 1) = Some p.
Proof.
  intros Ht Hm Hfd. pose proof (ft_dom _ _ Ht fd d Hm) as Hr. unfold file_get_descriptor.
  erewrite bind_Ret by reflexivity. unfold SERPAEOS_MAX_FILE_DESCRIPTORS.
  rewrite (proj2 (Z.leb_gt fd 0)), (proj2 (Z.leb_gt 512 fd)) by lia. cbn [orb].
  destruct (lookup_lt_is_Some_2 (file_descriptors s) (Z.to_nat (fd - 1))) as [p Hp];
    [rewrite (ft_len _ _ Ht); lia|].
  rewrite (load_Some _ _ p) by (lia || done).
  exists p. split; [done|]. destruct (ft_slot _ _ Ht _ _ Hp) as [[_ Hn]|(Hp0 & d' & Hd & Hds & Hi & Hl)].
  - replace (Z.of_nat (Z.to_nat (fd - 1)) + 1) with fd in Hn by lia. congruence.
  - replace (Z.of_nat (Z.to_nat (fd - 1)) + 1) with fd in * by lia.
    assert (d' = d) as -> by congruence. split_and!; done.
Qed.

Lemma get_descriptor_closed s m fd :
  fd_table s m -> m !! fd = None \/ fd = 512 -> file_get_descriptor fd s = Ret (0, s).
Proof.
  intros Ht Hm. unfold file_get_descriptor.
  erewrite bind_Ret by reflexivity. unfold SERPAEOS_MAX_FILE_DESCRIPTORS.
  destruct (fd <=? 0) eqn:E1; [done|]. destruct (512 <=? fd) eqn:E2; [done|]. breflect. cbn [orb].
  destruct (lookup_lt_is_Some_2 (file_descriptors s) (Z.to_nat (fd - 1))) as [p Hp];
    [rewrite (ft_len _ _ Ht); lia|].
  rewrite (load_Some _ _ p) by (lia || done).
  destruct (ft_slot _ _ Ht _ _ Hp) as [[-> _]|(Hp0 & d' & Hd & _)]; [done|].
  replace (Z.of_nat (Z.to_nat (fd - 1)) + 1) with fd in Hd by lia.
  destruct Hm as [Hm| ->]; [congruence|lia].
Qed.

(** Allocating the first free number. *)
Lemma new_descriptor_spec s m i :
  fd_table s m -> (0 < vroom s)%nat -> first_null (file_descriptors s) 0 = Some i ->
  exists desc s', file_new_descriptor s = Ret ((0, desc), s') /\
    fd_table s' (<[i + 1 := mk_fd (i + 1) 0 0 0 0]> m) /\ m !! (i + 1) = None /\
    descs s' !! desc = Some (mk_fd (i + 1) 0 0 0 0) /\ 1 <= i + 1 <= 512 /\
    file_descriptors s' = <[Z.to_nat i := desc]> (file_descriptors s) /\
    (desc ∉ vlive s) /\ vlive s' = {[desc]} ∪ vlive s /\ pp_roots (fst (vst s')) = pp_roots (fst (vst s)) /\
    snd (vst s') = snd (vst s) /\ disks s' = disks s /\ filesystems s' = filesystems s.
Proof.
  intros Ht Hroom Hfn. pose proof (first_null_spec (file_descriptors s) 0) as Hs. rewrite Hfn in Hs.
  destruct Hs as (k & -> & Hk & _). rewrite Z.add_0_l in *.
  pose proof (ft_len _ _ Ht) as Hlen. pose proof (lookup_lt_Some _ _ _ Hk) as Hkl.
  unfold file_new_descriptor. erewrite bind_Ret by reflexivity. rewrite Hfn.
  destruct (kz_room 20 (vheap s) (ft_ok _ _ Ht) ltac:(lia) Hroom) as (p & h & Hz & Hp & _).
  destruct (kz_spec 20 (vheap s) p h (ft_ok _ _ Ht) ltac:(lia) Hz) as (Hok' & [[-> _] | (_ & _ & Hnew & Hl)]);
    [done|].
  step (on_heap_step (kz 20) s p h Hz). rewrite (proj2 (Z.eqb_neq p 0)) by done.
  erewrite bind_Ret by reflexivity. set (s1 := set_vst s _). cbn [file_descriptors set_vst s1].
  rewrite (bind_liftO _ _ _ _ (store_Ret (file_descriptors s) (Z.of_nat k) p ltac:(lia))). rewrite Nat2Z.id.
  erewrite bind_Ret by reflexivity. eexists p, _. split; [reflexivity|].
  assert (m !! (Z.of_nat k + 1) = None) as Hnone.
  { destruct (ft_slot _ _ Ht _ _ Hk) as [[_ ?]|[? _]]; done. }
  split; [split|]; simpl.
  - done.
  - by rewrite length_insert.
  - intros fd d. rewrite lookup_insert. case_decide; [intros _; lia|apply (ft_dom _ _ Ht)].
  - intros j q Hj. destruct (decide (j = k)) as [->|Hne].
    + rewrite list_lookup_insert_eq in Hj by lia. injection Hj as <-. right. split; [done|].
      eexists. rewrite !lookup_insert_eq. split_and!; try done.
      unfold vlive, vheap. simpl. rewrite Hl. apply elem_of_union_l. by apply elem_of_singleton.
    + rewrite list_lookup_insert_ne in Hj by done. rewrite (lookup_insert_ne m) by lia.
      destruct (ft_slot _ _ Ht _ _ Hj) as [?|(Hq & d & Hd & Hds & Hi & Hql)]; [by left|right].
      split; [done|]. exists d. assert (q <> p) by (intros ->; by apply Hnew).
      rewrite lookup_insert_ne by done. split_and!; try done.
      unfold vlive, vheap in *. simpl. rewrite Hl. by apply elem_of_union_r.
  - rewrite lookup_insert_eq. split_and!; try done; try lia.
Qed.

(** Releasing a descriptor. *)
Lemma free_descriptor_spec s m fd d p :
  fd_table s m -> m !! fd = Some d -> descs s !! p = Some d -> index d = fd -> p ∈ vlive s ->
  file_descriptors s !! Z.to_nat (fd - 1) = Some p ->
  exists s', file_free_descriptor p s = Ret (tt, s') /\ fd_table s' (delete fd m) /\
    vlive s' = vlive s ∖ {[p]} /\ file_descriptors s' = <[Z.to_nat (fd - 1) := 0]> (file_descriptors s).
Proof.
  intros Ht Hm Hp Hi Hpl Hfd. pose proof (ft_dom _ _ Ht fd d Hm) as Hr.
  pose proof (ft_len _ _ Ht) as Hlen. unfold file_free_descriptor.
  assert (load_desc p s = Ret (d, s)) as Hld.
  { unfold load_desc. erewrite bind_Ret by reflexivity. by rewrite Hp. }
  step Hld. erewrite bind_Ret by reflexivity. rewrite Hi.
  rewrite (bind_liftO _ _ _ _ (store_Ret (file_descriptors s) (fd - 1) 0 ltac:(lia))).
  erewrite bind_Ret by reflexivity. set (s1 := set_fds s _ _).
  destruct (kf_spec p (vheap s1) (ft_ok _ _ Ht) Hpl) as (h & Hf & Hok' & Hl).
  step (on_heap_step (kf p) s1 tt h Hf).
  eexists. split; [reflexivity|]. split; [split|]; simpl.
  - done.
  - by rewrite length_insert.
  - intros fd' d'. rewrite lookup_delete. case_decide; [done|apply (ft_dom _ _ Ht)].
  - intros j q Hj. destruct (decide (j = Z.to_nat (fd - 1))) as [->|Hne].
    + rewrite list_lookup_insert_eq in Hj by lia. injection Hj as <-. left. split; [done|].
      replace (Z.of_nat (Z.to_nat (fd - 1)) + 1) with fd by lia. apply lookup_delete_eq.
    + rewrite list_lookup_insert_ne in Hj by done.
      pose proof (lookup_lt_Some _ _ _ Hj) as Hjl. rewrite (lookup_delete_ne m) by lia.
      destruct (ft_slot _ _ Ht _ _ Hj) as [?|(Hq & d' & Hd & Hds & Hi' & Hql)]; [by left|right].
      split; [done|]. exists d'. assert (q <> p) by (intros ->; assert (d' = d) by congruence; subst; lia).
      rewrite lookup_delete_ne by done. split_and!; try done.
      unfold vlive, vheap in *. simpl. rewrite Hl. apply elem_of_difference.
      split; [done|]. by rewrite elem_of_singleton.
  - split; [|done]. unfold vlive, vheap. simpl. rewrite Hl. done.
Qed.

(** ** How the table survives other parts of the state changing *)
Lemma fd_table_vst s m st :
  fd_table s m -> alloc_ok (ppalloc (fst st)) ->
  (forall i p, file_descriptors s !! i = Some p -> p <> 0 -> p ∈ vlive s -> p ∈ live_ptrs (ppalloc (fst st))) ->
  fd_table (set_vst s st) m.
Proof.
  intros [_ Hlen Hdom Hslot] Hok Hkeep. split; simpl; [done|done|done|].
  intros i p Hi. destruct (Hslot i p Hi) as [?|(Hp & d & Hd & Hds & Hix & Hl)]; [by left|right].
  split; [done|]. exists d. split_and!; try done. by eapply Hkeep.
Qed.

Lemma fd_table_set s m fd d d' p :
  fd_table s m -> m !! fd = Some d -> file_descriptors s !! Z.to_nat (fd - 1) = Some p ->
  index d' = fd ->
  fd_table (set_fds s (file_descriptors s) (<[p := d']> (descs s))) (<[fd := d']> m).
Proof.
  intros Ht Hm Hp Hix. pose proof (ft_dom _ _ Ht fd d Hm) as Hr. destruct Ht as [Hok Hlen Hdom Hslot].
  split; simpl; [done|done| |].
  - intros fd' d0. rewrite lookup_insert. case_decide; [intros _; lia|apply Hdom].
  - intros i q Hi. pose proof (lookup_lt_Some _ _ _ Hi) as Hil.
    destruct (decide (Z.of_nat i + 1 = fd)) as [He|Hne].
    + replace (Z.to_nat (fd - 1)) with i in Hp by lia. assert (q = p) as -> by congruence.
      rewrite He in *. destruct (Hslot i p Hi) as [[_ Hn]|(Hq & d0 & Hd0 & _ & _ & Hl)]; [congruence|].
      right. split; [done|]. exists d'. rewrite !lookup_insert_eq. split_and!; try done.
    + rewrite (lookup_insert_ne m) by lia.
      destruct (Hslot i q Hi) as [?|(Hq & d0 & Hd0 & Hds & Hi0 & Hl)]; [by left|right].
      split; [done|]. exists d0. assert (q <> p).
      { intros ->. destruct (Hslot _ _ Hp) as [[? _]|(_ & d1 & _ & Hds1 & Hi1 & _)]; [done|].
        assert (d1 = d0) by congruence. subst d1. lia. }
      by rewrite lookup_insert_ne.
Qed.

Lemma resolve_desc_spec s p f ops d :
  descs s !! p = Some f -> drivers !! d_filesystem f = Some ops ->
  load (disks s) (d_disk f) = Ret d ->
  resolve_desc drivers p s = Ret ((ops, d, f), s).
Proof.
  intros Hp Ho Hd. unfold resolve_desc, load_desc, driver, load_disk, mbind, cmd_bind, getS, mret, cmd_ret, liftO.
  rewrite Hp, Ho, Hd. done.
Qed.
End vfs.

(** ** Properties *)

(** A descriptor number that is not open is rejected by every operation
    with an error, and nothing changes: not the table, not the heap, not the
    driver's state, not the caller's [stat] structure.  Number 512 is always
    rejected. *)
Theorem closed_fd_rejected {H F} `{AllocatorOk H} (drivers : gmap Z (filesystem_ops (fsst H F)))
    (s : vfs H F) m fd st buf size offset whence :
  fd_table s m -> m !! fd = None \/ fd = 512 ->
  fstat drivers fd st s = Ret ((- EIO, st), s) /\
  fclose drivers fd s = Ret (- EIO, s) /\
  fseek drivers fd offset whence s = Ret (- EIO, s) /\
  fread drivers fd size s = Ret ((- EINVARG, []), s) /\
  fwrite drivers fd buf size s = Ret (- EINVARG, s) /\
  ftell drivers fd s = Ret (- EINVARG, s) /\
  fdelete drivers fd s = Ret (- EINVARG, s).
Proof.
  intros Ht Hm. pose proof (get_descriptor_closed s m fd Ht Hm) as Hg.
  unfold fstat, fclose, fseek, fread, fwrite, ftell, fdelete.
  split_and!; try (step Hg; done).
  - bcase; [done|]. step Hg. done.
  - destruct buf; [|done]. bcase; [done|]. step Hg. done.
  - bcase; [done|]. step Hg. done.
  - bcase; [done|]. step Hg. done.
Qed.

(** An empty table over the demo heap. *)
Definition demo_vfs : vfs kmem unit :=
  mk_vfs (demo_ppstate, tt) (replicate 12 0) (replicate 512 0) ∅
    [mk_disk 0 512 PATA 0 100 0 MASTER PRIMARY 0].

Lemma demo_vfs_table : fd_table demo_vfs ∅.
Proof.
  split; [exact demo_kmem_ok|done|by intros fd d; rewrite lookup_empty|].
  intros i p Hi. apply lookup_replicate in Hi as [-> _]. left. split; [done|apply lookup_empty].
Qed.

Lemma closed_fd_rejected_witness : fclose (F := unit) ∅ 3 demo_vfs = Ret (- EIO, demo_vfs).
Proof.
  apply (closed_fd_rejected ∅ demo_vfs ∅ 3 (mk_stat 0 0 no_date) None 1 0 0 demo_vfs_table).
  left. reflexivity.
Defined.

(** C36: closing an open descriptor other than 512 (a number that is handed out and
    then refused) whose driver closes it successfully removes
    exactly that number from the open ones and frees the descriptor; when the
    driver reports an error the descriptor stays open. *)
Theorem fclose_refines {H F} `{AllocatorOk H} (drivers : gmap Z (filesystem_ops (fsst H F)))
    (s : vfs H F) m fd f ops d res st :
  fd_table s m -> m !! fd = Some f -> fd <> 512 -> drivers !! d_filesystem f = Some ops ->
  load (disks s) (d_disk f) = Ret d ->
  fs_close ops (private f) (vst s) = Ret (res, st) -> alloc_ok (ppalloc (fst st)) ->
  (forall i p, file_descriptors s !! i = Some p -> p <> 0 -> p ∈ live_ptrs (ppalloc (fst st))) ->
  exists s', fclose drivers fd s = Ret (res, s') /\
    fd_table s' (if res =? 0 then delete fd m else m) /\
    exists p, descs s !! p = Some f /\
      vlive s' = if res =? 0 then live_ptrs (ppalloc (fst st)) ∖ {[p]} else live_ptrs (ppalloc (fst st)).
Proof.
  intros Ht Hm Hfd Hops Hd Hclose Hok Hkeep.
  destruct (get_descriptor_open s m fd f Ht Hm Hfd) as (p & Hg & Hp & Hds & Hix & Hl & Hslot).
  unfold fclose. step Hg. rewrite (proj2 (Z.eqb_neq p 0)) by done.
  step (resolve_desc_spec drivers s p f ops d Hds Hops Hd).
  assert (on_st (fs_close ops (private f)) s = Ret (res, set_vst s st)) as Hst
    by (unfold on_st; by rewrite Hclose).
  step Hst.
  assert (Ht1 : fd_table (set_vst s st) m).
  { apply (fd_table_vst s m st Ht Hok). intros i q Hi Hq _. by eapply Hkeep. }
  unfold SERPAEOS_ALL_OK. destruct (res =? 0) eqn:E.
  - destruct (free_descriptor_spec (set_vst s st) m fd f p Ht1 Hm) as (s' & Hf & Ht' & Hl' & _); try done.
    { by eapply Hkeep. }
    step Hf. exists s'. split; [done|]. split; [done|]. by exists p.
  - exists (set_vst s st). split; [done|]. split; [done|]. by exists p.
Qed.

(** A driver that opens everything as private data 77 and keeps no state. *)
Definition demo_driver : filesystem_ops (fsst kmem unit) :=
  mk_fs (fun d st => Ret ((0, d), st)) (fun _ _ _ st => Ret (77, st)) (fun _ _ _ _ st => Ret ((0, []), st))
    (fun _ _ _ st => Ret (0, st)) (fun _ _ stat st => Ret ((0, stat), st)) (fun _ st => Ret (0, st))
    (fun _ _ _ n st => Ret (n, st)) (fun _ _ st => Ret (0, st)) (fun _ st => Ret (0, st)).

(** ** Opening *)

(** What [fopen] needs of the driver's [open]: it succeeds with [priv], may
    allocate [used] blocks, and frees nothing that was live. *)
Definition open_contract {H F} `{AllocatorOk H} (ops : filesystem_ops (fsst H F)) (d : disk)
    (md priv : Z) (used : nat) : Prop :=
  forall st first, alloc_ok (ppalloc (fst st)) -> (used <= room (ppalloc (fst st)))%nat ->
    exists st', fs_open ops d first md st = Ret (priv, st') /\ alloc_ok (ppalloc (fst st')) /\
      live_ptrs (ppalloc (fst st)) ⊆ live_ptrs (ppalloc (fst st')) /\
      pp_roots (fst st') = pp_roots (fst st) /\
      (room (ppalloc (fst st)) <= room (ppalloc (fst st')) + used)%nat.

Lemma disk_get_present disks i d :
  0 <= i <= 12 -> disks !! Z.to_nat i = Some d -> 0 < dev d -> disk_get disks i = Ret (Some d).
Proof.
  intros Hi Hd Hdev. unfold disk_get. change (SERPAEOS_MAX_DISKS - 1) with 12.
  rewrite (proj2 (Z.ltb_ge _ _)) by lia. rewrite (load_Some _ _ d) by (lia || done). simpl.
  by rewrite (proj2 (Z.leb_gt _ _)) by lia.
Qed.

Section opening.
Context {H F : Type} `{AllocatorOk H} (drivers : gmap Z (filesystem_ops (fsst H F))).
Implicit Types s : vfs H F.

(** A call of [fopen] with a path on a present disk and a valid mode, up to
    the driver: [s1] is the state with the parsed path. *)
Record open_call s (path mode_str : list Z) (drive : Z) (ns : list (list Z)) (md : Z)
    (d : disk) (ops : filesystem_ops (fsst H F)) : Prop := {
  oc_drive : 0 <= drive <= 9;
  oc_names : Forall good_name ns;
  oc_some : ns <> [];
  oc_path : cstr path (print_path drive ns);
  oc_len : (length (print_path drive ns) <= 108)%nat;
  oc_mode : file_get_mode_by_string mode_str = Ret md;
  oc_valid : md <> FILE_MODE_INVALID;
  oc_disk : disks s !! Z.to_nat drive = Some d;
  oc_dev : 0 < dev d;
  oc_fs : filesystem d <> 0;
  oc_driver : drivers !! filesystem d = Some ops
}.

(** The prefix common to all calls: the path is parsed, the disk found, and
    the driver called. *)
Lemma fopen_prefix s path mode_str drive ns md d ops :
  open_call s path mode_str drive ns md d ops -> alloc_ok (vheap s) ->
  (2 * length (print_path drive ns) + 3 <= vroom s)%nat ->
  exists root l pp, alloc_ok (ppalloc pp) /\ parsed pp root drive l /\
    pplive pp = path_owned root l ∪ vlive s /\ path_owned root l ## vlive s /\
    (vroom s <= pproom pp + 2 * length (print_path drive ns) + 3)%nat /\
    first_addr l <> 0 /\ names l = ns /\
    fopen_body drivers path mode_str s =
      (descriptor_private_data ← on_st (fs_open ops d (first_addr l) md);
       if ISERR descriptor_private_data
       then mret (s32 descriptor_private_data, root, descriptor_private_data)
       else
         '(res, desc) ← file_new_descriptor;
         if res <? 0 then mret (res, root, descriptor_private_data)
         else
           fd ← load_desc desc;
           modifyS (fun s => set_fds s (file_descriptors s)
             (<[desc := mk_fd (index fd) (filesystem d) descriptor_private_data drive md]> (descs s)));;
           on_path (kfree_root root);;
           mret (index fd, root, descriptor_private_data))
        (set_vst s (pp, snd (vst s))).
Proof.
  intros [Hd Hns Hne Hpath Hlen Hmode Hvalid Hdisk Hdev Hfs Hdrv] Hok Hroom.
  destruct (parse_spec path _ (fst (vst s)) Hok Hpath Hlen (valid_print drive ns Hd) Hroom)
    as (root & l & pp & Hp & Hok1 & Hparsed & Hnames & Hlive & Hdisj & Hr & _).
  assert (default 0 (head (print_path drive ns)) - 48 = drive) as Hdr by (simpl; lia).
  rewrite Hdr in Hparsed. change (drop 3 (print_path drive ns)) with (join_names ns) in Hnames.
  rewrite path_names_join in Hnames by done.
  assert (Hfirst : first_addr l <> 0).
  { destruct Hparsed as [_ _ Hch _]. destruct l as [|[[q sp] n] l]; [by destruct ns|]. by destruct Hch as (_ & ? & _). }
  exists root, l, pp. split_and!; try done.
  unfold fopen_body.
  assert (on_path (pathparser_parse path) s = Ret (root, set_vst s (pp, snd (vst s)))) as Hstep
    by (unfold on_path; by rewrite Hp).
  step Hstep. destruct Hparsed as [Hroot Hfr _ _].
  rewrite (proj2 (Z.eqb_neq root 0)) by done. erewrite bind_Ret by reflexivity.
  cbn [set_vst vst fst snd disks]. rewrite Hfr. erewrite bind_liftO by reflexivity. cbv beta iota.
  rewrite (proj2 (Z.eqb_neq (first_addr l) 0)) by done.
  rewrite (bind_liftO _ _ _ _ (disk_get_present (disks s) drive d ltac:(lia) Hdisk Hdev)).
  rewrite (proj2 (Z.eqb_neq (filesystem d) 0)) by done.
  rewrite (bind_liftO _ _ _ _ Hmode). rewrite (proj2 (Z.eqb_neq md FILE_MODE_INVALID)) by done.
  erewrite bind_Ret; [reflexivity|]. unfold driver. by rewrite Hdrv.
Qed.

Lemma mode_range mode_str md : file_get_mode_by_string mode_str = Ret md -> 0 <= md.
Proof.
  unfold file_get_mode_by_string. assert (0 <= FILE_MODE_INVALID) as Hm by done. revert Hm.
  generalize FILE_MODE_INVALID. induction mode_str as [|c t IH]; intros m Hm; cbn; [done|].
  bcase; [by intros [= <-]|]. apply IH.
  repeat bcase; try done; apply Z.lor_nonneg; by split.
Qed.

Lemma fopen_success s m path mode_str drive ns md d ops priv used i :
  fd_table s m -> open_call s path mode_str drive ns md d ops ->
  open_contract ops d md priv used -> ISERR priv = false ->
  (2 * length (print_path drive ns) + 4 + used <= vroom s)%nat ->
  first_null (file_descriptors s) 0 = Some i ->
  exists s', fopen drivers path mode_str s = Ret (i + 1, s') /\
    fd_table s' (<[i + 1 := mk_fd (i + 1) (filesystem d) priv drive md]> m) /\
    m !! (i + 1) = None /\ disks s' = disks s /\
    exists l desc, names l = ns /\ (forall x, x ∈ addrs l -> x ∉ vlive s) /\
      (forall x, x ∈ addrs l -> x ∈ vlive s') /\ descs s' !! desc = Some (mk_fd (i + 1) (filesystem d) priv drive md).
Proof.
  intros Ht Hcall Hopen Herr Hroom Hfn.
  destruct (fopen_prefix s path mode_str drive ns md d ops Hcall (ft_ok _ _ Ht) ltac:(lia))
    as (root & l & pp & Hok1 & Hparsed & Hlive1 & Hdisj & Hr1 & Hfirst & Hnames & Hbody).
  destruct (Hopen (pp, snd (vst s)) (first_addr l)) as (st & Hop & Hok2 & Hsub & Hroots & Hr2); cbn [fst] in *;
    [done|unfold pproom in Hr1; lia|].
  set (s1 := set_vst s (pp, snd (vst s))) in *.
  assert (Hon : on_st (fs_open ops d (first_addr l) md) s1 = Ret (priv, set_vst s st))
    by (unfold on_st, s1; cbn [vst set_vst]; by rewrite Hop).
  set (s2 := set_vst s st) in *.
  assert (Hsub2 : vlive s ⊆ vlive s2).
  { unfold s2, vlive, vheap. simpl. etransitivity; [|exact Hsub].
    change (vlive s ⊆ pplive pp). rewrite Hlive1. clear. set_solver. }
  assert (Hroot2 : forall x, x ∈ path_owned root l -> x ∈ vlive s2).
  { intros x Hx. apply Hsub. change (x ∈ pplive pp). rewrite Hlive1. clear -Hx. set_solver. }
  assert (Ht2 : fd_table s2 m).
  { apply fd_table_vst; [done|done|]. intros j p _ _ Hp. by apply Hsub2. }
  destruct (new_descriptor_spec s2 m i Ht2) as (desc & s3 & Hnew & Ht3 & Hnone & Hdesc & Hi & Hfds & Hdn & Hl3 & Hroots3 & _ & Hdisks3 & _);
    [unfold vroom, vheap, s2, pproom in *; simpl in *; lia|done|].
  assert (Hne_root : desc <> root).
  { intros ->. apply Hdn, Hroot2. unfold path_owned. clear. set_solver. }
  assert (Hslot3 : file_descriptors s3 !! Z.to_nat (i + 1 - 1) = Some desc).
  { rewrite Hfds. replace (i + 1 - 1) with i by lia. apply list_lookup_insert_eq.
    rewrite (ft_len _ _ Ht2). lia. }
  pose proof (fd_table_set s3 _ (i + 1) _ (mk_fd (i + 1) (filesystem d) priv drive md) desc Ht3
                (lookup_insert_eq _ _ _) Hslot3 eq_refl) as Ht4.
  rewrite insert_insert_eq in Ht4. set (s4 := set_fds s3 _ _) in Ht4.
  destruct (ppk_kf root (fst (vst s4)) (ft_ok _ _ Ht4)) as (h5 & Hk5 & Hok5 & Hl5 & _).
  { change (root ∈ vlive s3). rewrite Hl3. apply elem_of_union_r, Hroot2. unfold path_owned. clear. set_solver. }
  set (pp5 := mk_pp h5 (pp_strs (fst (vst s4))) (pp_parts (fst (vst s4))) (delete root (pp_roots (fst (vst s4))))).
  assert (Hkr : on_path (kfree_root root) s4 = Ret (tt, set_vst s4 (pp5, snd (vst s4)))).
  { unfold on_path, kfree_root. rewrite (bind_Ret _ _ _ _ _ Hk5). reflexivity. }
  exists (set_vst s4 (pp5, snd (vst s4))). split.
  { unfold fopen. erewrite bind_Ret.
    2: { rewrite Hbody. step Hon. rewrite Herr. step Hnew. cbn [Z.ltb Z.compare].
         assert (load_desc desc s3 = Ret (mk_fd (i + 1) 0 0 0 0, s3)) as Hld
           by (unfold load_desc; erewrite bind_Ret by reflexivity; by rewrite Hdesc).
         step Hld. erewrite bind_Ret by reflexivity. cbn [index]. step Hkr. reflexivity. }
    cbv beta iota. by rewrite (proj2 (Z.ltb_ge _ _)) by lia. }
  assert (Hlive5 : live_ptrs h5 = vlive s3 ∖ {[root]}) by exact Hl5.
  split_and!; try done.
  - apply fd_table_vst; [done|done|]. intros j p Hj Hp Hpl. cbn [fst ppalloc pp5]. rewrite Hlive5.
    apply elem_of_difference. split; [exact Hpl|]. rewrite elem_of_singleton. intros ->.
    change (file_descriptors s3 !! j = Some root) in Hj. rewrite Hfds in Hj.
    destruct (decide (j = Z.to_nat i)) as [->|Hji].
    + rewrite list_lookup_insert_eq in Hj by (rewrite (ft_len _ _ Ht2); lia). congruence.
    + rewrite list_lookup_insert_ne in Hj by done.
      destruct (ft_slot _ _ Ht _ _ Hj) as [[? _]|(_ & d0 & _ & _ & _ & Hlr)]; [done|].
      clear -Hdisj Hlr. unfold path_owned in Hdisj. set_solver.
  - assert (forall x, x ∈ addrs l -> x ∈ path_owned root l) as Hown
      by (intros x Hx; unfold path_owned; clear -Hx; set_solver).
    exists l, desc. split_and!; try done.
    + intros x Hx%Hown Hxs. clear -Hx Hxs Hdisj. set_solver.
    + intros x Hx. unfold vlive, vheap. cbn [vst set_vst fst ppalloc pp5]. rewrite Hlive5, Hl3.
      pose proof (Hroot2 x (Hown x Hx)) as Hx2.
      assert (x <> root) as Hxr.
      { intros ->. destruct Hparsed as [_ _ _ Hnd]. by apply NoDup_cons in Hnd as [? _]. }
      clear -Hx2 Hxr. set_solver.
    + cbn [descs set_vst s4 set_fds]. apply lookup_insert_eq.
Qed.
End opening.

(** [fopen] with a well-formed path on a present disk, when the driver
    opens the file, returns the smallest free descriptor number (from 1), and
    the table then maps that number, and no other new one, to a descriptor
    with the driver, its private data, the disk and the mode.  The nodes and
    names of the parsed path stay allocated: only its root is freed. *)
Theorem fopen_opens {H F} `{AllocatorOk H} (drivers : gmap Z (filesystem_ops (fsst H F)))
    (s : vfs H F) m path mode_str drive ns md d ops priv used i :
  fd_table s m -> open_call drivers s path mode_str drive ns md d ops ->
  open_contract ops d md priv used -> ISERR priv = false ->
  (2 * length (print_path drive ns) + 4 + used <= vroom s)%nat ->
  first_null (file_descriptors s) 0 = Some i ->
  exists s', fopen drivers path mode_str s = Ret (i + 1, s') /\
    fd_table s' (<[i + 1 := mk_fd (i + 1) (filesystem d) priv drive md]> m) /\
    m !! (i + 1) = None /\ disks s' = disks s /\
    exists l desc, names l = ns /\ (forall x, x ∈ addrs l -> x ∉ vlive s) /\
      (forall x, x ∈ addrs l -> x ∈ vlive s') /\ descs s' !! desc = Some (mk_fd (i + 1) (filesystem d) priv drive md).
Proof. apply fopen_success. Qed.

Definition demo_drivers : gmap Z (filesystem_ops (fsst kmem unit)) := {[100 := demo_driver]}.

(** [0:/ab], opened for reading. *)
Lemma demo_open_call (dr : filesystem_ops (fsst kmem unit)) :
  open_call {[100 := dr]} demo_vfs [48; 58; 47; 97; 98; 0] [114; 0] 0 [[97; 98]] 1
    (mk_disk 0 512 PATA 0 100 0 MASTER PRIMARY 0) dr.
Proof.
  split; try done.
  - repeat constructor; [done|]. apply (bool_decide_unpack _). vm_compute. exact I.
  - split; [apply (bool_decide_unpack _); vm_compute; exact I|by exists []].
  - simpl. lia.
Qed.

Lemma demo_vfs_room : (2 * length (print_path 0 [[97%Z; 98%Z]]) + 4 + 0 <= vroom demo_vfs)%nat.
Proof. transitivity 1026%nat; [simpl; lia|exact demo_room]. Qed.

Lemma demo_open_contract :
  open_contract demo_driver (mk_disk 0 512 PATA 0 100 0 MASTER PRIMARY 0) 1 77 0.
Proof.
  intros st first Hok _. exists st. split; [reflexivity|]. split; [exact Hok|].
  split; [reflexivity|]. split; [reflexivity|]. lia.
Qed.

Lemma fopen_opens_witness :
  exists s', fopen demo_drivers [48; 58; 47; 97; 98; 0] [114; 0] demo_vfs = Ret (1, s') /\
    fd_table s' {[1 := mk_fd 1 100 77 0 1]}.
Proof.
  destruct (fopen_opens demo_drivers demo_vfs ∅ [48; 58; 47; 97; 98; 0] [114; 0] 0 [[97; 98]] 1
              (mk_disk 0 512 PATA 0 100 0 MASTER PRIMARY 0) demo_driver 77 0 0
              demo_vfs_table (demo_open_call demo_driver) demo_open_contract)
    as (s' & Hf & Ht & _).
  - reflexivity.
  - exact demo_vfs_room.
  - reflexivity.
  - exists s'. split; [exact Hf|exact Ht].
Defined.

(** Closing the file the previous example opens. *)
Lemma fclose_refines_witness :
  exists s s', fclose demo_drivers 1 s = Ret (0, s') /\ fd_table s' (delete 1 {[1 := mk_fd 1 100 77 0 1]}).
Proof.
  destruct (fopen_success demo_drivers demo_vfs ∅ [48; 58; 47; 97; 98; 0] [114; 0] 0 [[97; 98]] 1
              (mk_disk 0 512 PATA 0 100 0 MASTER PRIMARY 0) demo_driver 77 0 0
              demo_vfs_table (demo_open_call demo_driver) demo_open_contract eq_refl demo_vfs_room eq_refl)
    as (s & _ & Ht & _ & Hd & _).
  destruct (fclose_refines demo_drivers s {[1 := mk_fd 1 100 77 0 1]} 1 (mk_fd 1 100 77 0 1) demo_driver
              (mk_disk 0 512 PATA 0 100 0 MASTER PRIMARY 0) 0 (vst s)) as (s' & Hc & Ht' & _).
  - exact Ht.
  - reflexivity.
  - lia.
  - reflexivity.
  - rewrite Hd. reflexivity.
  - reflexivity.
  - exact (ft_ok _ _ Ht).
  - intros i p Hi Hp. destruct (ft_slot _ _ Ht i p Hi) as [[Hz _]|(_ & d & _ & _ & _ & Hl)]; [contradiction|exact Hl].
  - exists s, s'. split; [exact Hc|exact Ht'].
Defined.

(** [kfree] of an error code is outside the heap's table. *)
Lemma kfree_error_code k e :
  kmem_ok k -> (0 < kmem_room k)%nat -> 4294963200 <= e < 4294967296 -> kfree e k = Oob.
Proof.
  intros [live [Htot Hs Hal Htop _]] Hroom He. unfold kfree, heap_free, heap_mark_blocks_free, heap_address_to_block.
  unfold SERPAEOS_HEAP_BLOCK_SIZE in *.
  assert (1 <= total (table (kernel_heap k))).
  { unfold kmem_room, free_blocks in Hroom. rewrite Htot.
    pose proof (length_filter is_free (entries (table (kernel_heap k)))). lia. }
  assert (s32 (e - saddr (kernel_heap k)) = e - 4294967296 - saddr (kernel_heap k)) as ->
    by (unfold s32; zlia).
  set (b := Z.quot _ _). assert (b < 0) by (subst b; zlia).
  rewrite s32_id by lia.
  destruct (Z.to_nat (total (table (kernel_heap k)) - b)) as [|n] eqn:E; [lia|].
  cbn [mark_free_loop]. rewrite load_oob by lia. done.
Qed.

(** When the driver's [open] fails, [fopen] frees the error code: it hands
    the driver's negative result to [kfree] as if it were a pointer, and on
    the kernel heap that accesses the block table out of bounds. *)
Theorem fopen_error_frees_code {F} (drivers : gmap Z (filesystem_ops (fsst kmem F)))
    (s : vfs kmem F) m path mode_str drive ns md d ops e :
  fd_table s m -> open_call drivers s path mode_str drive ns md d ops ->
  (forall st first, fs_open ops d first md st = Ret (e, st)) -> 4294963200 <= e < 4294967296 ->
  (2 * length (print_path drive ns) + 4 <= vroom s)%nat ->
  fopen drivers path mode_str s = Oob.
Proof.
  intros Ht Hcall Hopen He Hroom.
  destruct (fopen_prefix drivers s path mode_str drive ns md d ops Hcall (ft_ok _ _ Ht) ltac:(lia))
    as (root & l & pp & Hok1 & Hparsed & Hlive1 & Hdisj & Hr1 & Hfirst & _ & Hbody).
  set (s1 := set_vst s (pp, snd (vst s))) in *.
  assert (Hon : on_st (fs_open ops d (first_addr l) md) s1 = Ret (e, s1))
    by (unfold on_st; by rewrite Hopen).
  assert (s32 e = e - 4294967296) as Hs32 by (unfold s32; zlia).
  unfold fopen. erewrite bind_Ret.
  2: { rewrite Hbody. step Hon. unfold ISERR. rewrite Hs32, (proj2 (Z.ltb_lt _ _)) by lia. reflexivity. }
  cbv beta iota. rewrite (proj2 (Z.ltb_lt _ _)) by lia.
  rewrite (proj2 (Z.eqb_neq root 0)) by apply Hparsed. cbn [negb].
  destruct (free_path_spec pp root drive l Hok1 Hparsed) as (pp2 & Hfree & Hok2 & _ & Hr2).
  { rewrite Hlive1. set_solver. }
  erewrite bind_Ret; [|unfold on_path, s1; cbn [vst set_vst fst snd]; by rewrite Hfree].
  rewrite (proj2 (Z.eqb_neq e 0)) by lia. cbn [negb].
  unfold mbind, cmd_bind, on_heap, on_path, ppk. cbn [vst set_vst fst snd].
  change (kf e (ppalloc pp2)) with (kfree e (ppalloc pp2)).
  rewrite kfree_error_code; [done|exact Hok2| |done].
  unfold pproom, vroom, room in *. simpl in *. lia.
Qed.

(** A driver that finds nothing: [open] returns [-EIO]. *)
Definition missing_driver : filesystem_ops (fsst kmem unit) :=
  mk_fs (fun d st => Ret ((0, d), st)) (fun _ _ _ st => Ret (u32 (- EIO), st)) (fun _ _ _ _ st => Ret ((0, []), st))
    (fun _ _ _ st => Ret (0, st)) (fun _ _ stat st => Ret ((0, stat), st)) (fun _ st => Ret (0, st))
    (fun _ _ _ n st => Ret (n, st)) (fun _ _ st => Ret (0, st)) (fun _ st => Ret (0, st)).

Lemma fopen_error_frees_code_witness :
  fopen {[100 := missing_driver]} [48; 58; 47; 97; 98; 0] [114; 0] demo_vfs = Oob.
Proof.
  apply (fopen_error_frees_code {[100 := missing_driver]} demo_vfs ∅ [48; 58; 47; 97; 98; 0] [114; 0]
           0 [[97; 98]] 1 (mk_disk 0 512 PATA 0 100 0 MASTER PRIMARY 0) missing_driver (u32 (- EIO))).
  - exact demo_vfs_table.
  - exact (demo_open_call missing_driver).
  - intros st first. reflexivity.
  - vm_compute. split; [discriminate|reflexivity].
  - exact demo_vfs_room.
Defined.

(** ** Directory descriptors

    A descriptor in any slot but the last is found under its number and gives
    everything back; the number of the last slot is one the lookup refuses. *)
Theorem directory_descriptor_cycle {H} `{AllocatorOk H} (s : ddst H) i :
  alloc_ok (dd_heap s) -> (0 < room (dd_heap s))%nat -> length (dir_descriptors s) = 512%nat ->
  dom (dir_objects s) ⊆ live_ptrs (dd_heap s) -> first_null (dir_descriptors s) 0 = Some i ->
  exists desc s1 s2, directory_new_descriptor s = Ret (0, desc, s1) /\ desc <> 0 /\
    directory_get_descriptor (i + 1) s1 = Ret (if i =? 511 then 0 else desc, s1) /\
    directory_free_descriptor desc s1 = Ret (tt, s2) /\ dir_descriptors s2 = dir_descriptors s /\
    dir_objects s2 = dir_objects s /\ live_ptrs (dd_heap s2) = live_ptrs (dd_heap s).
Proof.
  intros Hok Hroom Hlen Hdom Hfn. pose proof (first_null_spec (dir_descriptors s) 0) as Hs. rewrite Hfn in Hs.
  destruct Hs as (k & -> & Hk & _). rewrite Z.add_0_l in *. pose proof (lookup_lt_Some _ _ _ Hk) as Hkl.
  destruct (kz_room sizeof_directory_descriptor (dd_heap s) Hok ltac:(unfold sizeof_directory_descriptor; lia) Hroom)
    as (p & h & Hz & Hp & _).
  destruct (kz_spec sizeof_directory_descriptor (dd_heap s) p h Hok ltac:(unfold sizeof_directory_descriptor; lia) Hz)
    as (Hok' & [[-> _] | (_ & _ & Hnew & Hl)]); [done|].
  destruct (kf_spec p h Hok') as (h2 & Hf & _ & Hl2); [rewrite Hl; by apply elem_of_union_l, elem_of_singleton|].
  assert (Hfresh : dir_objects s !! p = None).
  { apply not_elem_of_dom. intros Hin. by apply Hnew, Hdom. }
  eexists p, _, _. split_and!.
  - unfold directory_new_descriptor. rewrite bind_getS, Hfn. rewrite (bind_liftO _ _ _ _ Hz).
    rewrite (proj2 (Z.eqb_neq p 0)) by done. rewrite store_Ret by lia. rewrite (bind_liftO _ _ _ _ eq_refl). reflexivity.
  - done.
  - unfold directory_get_descriptor, SERPAEOS_MAX_DIRECTORY_DESCRIPTORS. rewrite (proj2 (Z.leb_gt _ 0)) by lia. cbn [orb].
    destruct (512 <=? Z.of_nat k + 1) eqn:E; breflect.
    + rewrite (proj2 (Z.eqb_eq (Z.of_nat k) 511)) by lia. done.
    + rewrite (proj2 (Z.eqb_neq (Z.of_nat k) 511)) by lia. rewrite bind_getS. cbn [dir_descriptors].
      unfold liftO. rewrite (load_Some _ _ p); [done|lia|]. rewrite Nat2Z.id.
      replace (Z.to_nat (Z.of_nat k + 1 - 1)) with k by lia. by apply list_lookup_insert_eq.
  - unfold directory_free_descriptor. rewrite bind_getS. cbn [dir_objects dd_heap dir_descriptors].
    rewrite lookup_insert_eq. cbn [dd_index]. rewrite store_Ret by (rewrite length_insert; lia).
    rewrite (bind_liftO _ _ _ _ eq_refl), (bind_liftO _ _ _ _ Hf). reflexivity.
  - cbn. rewrite Nat2Z.id. replace (Z.to_nat (Z.of_nat k + 1 - 1)) with k by lia.
    rewrite list_insert_insert_eq. by apply list_insert_id.
  - cbn. by rewrite delete_insert_id.
  - cbn. rewrite Hl2, Hl. set_solver.
Qed.
