(* ===== verification/Fat16.v ===== *)
(** * The FAT16 driver: headers, chains and file contents
      (src/src/fs/fat/fat16.c, fat16_write.c, fat16_common.h)

    The driver's state is the disk, the positions of its three streams, the
    boot-sector header and the root directory.  Directory entries are their 32
    bytes. *)
From S2P Require Import Prelude Config CMem CString Disk Streamer Vfs.

Definition SERPAEOS_FAT16_FAT_ENTRY_SIZE : Z := 2.
Definition SERPAEOS_FAT16_BAD_SECTOR : Z := 0xFFF7.
Definition SERPAEOS_FAT16_UNUSED : Z := 0.
Definition EOC : Z := 0xFFFF.
Definition FAT_ITEM_TYPE_DIRECTORY : Z := 0.
Definition FAT_ITEM_TYPE_FILE : Z := 1.
Definition FAT_FILE_READ_ONLY : Z := 0x01.
Definition FAT_FILE_SUBDIRECTORY : Z := 0x10.

(** The fields of [struct fat_h] that the driver reads. *)
Record fat_header := mk_header {
  sectors_per_cluster : Z;
  reserved_sectors : Z;
  fat_copies : Z;
  root_dir_entries : Z;
  sectors_per_fat : Z;
  sectors_big : Z;
  signature : Z
}.

(** The packed layout of the 62-byte header. *)
Definition header_size : Z := 62.
Definition field (n : nat) (i : nat) (b : list Z) : Z := le_combine (take n (drop i b)).
Definition parse_header (b : list Z) : fat_header :=
  mk_header (field 1 13 b) (field 2 14 b) (field 1 16 b) (field 2 17 b) (field 2 22 b)
    (field 4 32 b) (field 1 38 b).

(** [struct fat_directory_item] as bytes: the fields by offset. *)
Definition item_size : Z := 32.
Definition item_filename (it : list Z) : list Z := take 8 it.
Definition item_ext (it : list Z) : list Z := take 3 (drop 8 it).
Definition item_attribute (it : list Z) : Z := field 1 11 it.
Definition item_creation_time (it : list Z) : Z := field 2 14 it.
Definition item_creation_date (it : list Z) : Z := field 2 16 it.
Definition item_high_cluster (it : list Z) : Z := field 2 20 it.
Definition item_low_cluster (it : list Z) : Z := field 2 26 it.
Definition item_filesize (it : list Z) : Z := field 4 28 it.

Definition fat16_get_first_cluster (it : list Z) : Z :=
  s32 (Z.lor (Z.shiftl (item_high_cluster it) 16) (item_low_cluster it)).

Record fat_directory := mk_dir {
  dir_items : list Z;
  dir_total : Z;
  dir_sector_pos : Z;
  dir_ending_sector_pos : Z
}.

Section with_disk.
Context {D : Type} `{BlockDev D}.

Record fatst := mk_fatst {
  fdev : D;
  cluster_pos : Z;
  fat_pos : Z;
  dir_pos : Z;
  fdisk : disk;
  header : fat_header;
  root_directory : fat_directory
}.

(** The three streams are on the same disk. *)
Definition on_cluster {A} (c : cmd (stream D) A) : cmd fatst A := fun s =>
  '(a, st) ← c (mk_stream (fdev s) (cluster_pos s));
  Ret (a, mk_fatst (sdisk st) (pos st) (fat_pos s) (dir_pos s) (fdisk s) (header s) (root_directory s)).
Definition on_fat {A} (c : cmd (stream D) A) : cmd fatst A := fun s =>
  '(a, st) ← c (mk_stream (fdev s) (fat_pos s));
  Ret (a, mk_fatst (sdisk st) (cluster_pos s) (pos st) (dir_pos s) (fdisk s) (header s) (root_directory s)).
Definition on_dir {A} (c : cmd (stream D) A) : cmd fatst A := fun s =>
  '(a, st) ← c (mk_stream (fdev s) (dir_pos s));
  Ret (a, mk_fatst (sdisk st) (cluster_pos s) (fat_pos s) (pos st) (fdisk s) (header s) (root_directory s)).

(** ** Layout macros *)
Definition fat16_sector_to_absolute (s : fatst) (sector : Z) : Z := s32 (sector * sector_size (fdisk s)).
Definition fat16_cluster_to_sector (s : fatst) (cluster : Z) : Z :=
  s32 (dir_ending_sector_pos (root_directory s) + (cluster - 2) * sectors_per_cluster (header s)).
Definition cluster_bytes (s : fatst) : Z := sectors_per_cluster (header s) * sector_size (fdisk s).

(** ** The file allocation table *)
Definition fat16_get_fat_entry (cluster : Z) : cmd fatst Z :=
  s ← getS;
  let fat_table_position := u32 (reserved_sectors (header s) * sector_size (fdisk s)) in
  res ← on_fat (diskstreamer_seek (s32 (u32 (fat_table_position + cluster * SERPAEOS_FAT16_FAT_ENTRY_SIZE))));
  if res <? 0 then mret res
  else
    '(res, b) ← on_fat (diskstreamer_read 2);
    if res <? 0 then mret res else mret (le_combine b).

Definition fat16_write_fat_entry (entry val : Z) : cmd fatst Z :=
  s ← getS;
  let location_bytes := u32 (u32 (reserved_sectors (header s) * sector_size (fdisk s)) + entry * 2) in
  on_fat (diskstreamer_seek (s32 location_bytes));;
  on_fat (diskstreamer_write (le_split 2 val) 2).

(** The loop tries every cluster from 3 up to the size of the disk. *)
Fixpoint first_cluster_loop (fuel : nat) (cluster : Z) : cmd fatst Z :=
  match fuel with
  | O => liftO OutOfFuel
  | S fuel =>
      code ← fat16_get_fat_entry cluster;
      s ← getS;
      if u16 code =? SERPAEOS_FAT16_UNUSED then mret (u16 cluster)
      else if sectors_big (header s) / sectors_per_cluster (header s) <=? cluster then mret 0
      else first_cluster_loop fuel (u32 (cluster + 1))
  end.

Definition fat16_get_first_first_cluster : cmd fatst Z :=
  s ← getS;
  first_cluster_loop (S (Z.to_nat (sectors_big (header s) / sectors_per_cluster (header s)))) 3.

(** Chains are followed without a bound; [fuel] limits the steps. *)
Fixpoint fat16_find_last_cluster_of_chain (fuel : nat) (curr : Z) : cmd fatst Z :=
  match fuel with
  | O => liftO OutOfFuel
  | S fuel =>
      code ← fat16_get_fat_entry curr;
      if 0xFFF8 <=? u16 code then mret curr
      else fat16_find_last_cluster_of_chain fuel (u16 code)
  end.

(** Every cluster of [out] is the first free one, as none of them is marked;
    the end mark is stored past the last, leaving one element unwritten. *)
Fixpoint new_cluster_loop16 (n : nat) (out : list Z) (i : Z) : cmd fatst (Z * list Z) :=
  match n with
  | O =>
      out ← liftO (store out (i + 1) EOC);
      mret (i, out)
  | S n =>
      c ← fat16_get_first_first_cluster;
      out ← liftO (store out i c);
      if c =? 0 then mret (- ENODISKSPACE, out) else new_cluster_loop16 n out (i + 1)
  end.

Definition fat16_new_cluster_chain (out : list Z) (count : Z) : cmd fatst (Z * list Z) :=
  new_cluster_loop16 (Z.to_nat (count - 1)) out 0.

(** The clusters written to [out], in order. *)
Fixpoint fat16_get_cluster_chain (fuel : nat) (curr : Z) : cmd fatst (list Z) :=
  match fuel with
  | O => liftO OutOfFuel
  | S fuel =>
      next ← fat16_get_fat_entry curr;
      if u16 next <? 0xFFF8 then
        rest ← fat16_get_cluster_chain fuel (u16 next);
        mret (curr :: rest)
      else mret [curr]
  end.

Fixpoint fat16_count_clusters_in_chain (fuel : nat) (curr i : Z) : cmd fatst Z :=
  match fuel with
  | O => liftO OutOfFuel
  | S fuel =>
      next ← fat16_get_fat_entry curr;
      if u16 next <? 0xFFF8 then fat16_count_clusters_in_chain fuel (u16 next) (i + 1)
      else mret i
  end.

Definition fat16_add_cluster_to_chain (fuel : nat) (first_cluster : Z) : cmd fatst Z :=
  cluster ← fat16_find_last_cluster_of_chain fuel first_cluster;
  next_first_cluster ← fat16_get_first_first_cluster;
  if next_first_cluster =? 0 then mret (- ENODISKSPACE)
  else
    r ← fat16_write_fat_entry cluster next_first_cluster;
    if negb (r =? 2) then mret (- EIO)
    else
      r ← fat16_write_fat_entry next_first_cluster EOC;
      if negb (r =? 2) then mret (- EIO) else mret 0.

Fixpoint add_clusters (fuel : nat) (n : nat) (first : Z) : cmd fatst unit :=
  match n with
  | O => mret tt
  | S n => fat16_add_cluster_to_chain fuel first;; add_clusters fuel n first
  end.

(** Errors are truncated to 16 bits by the result type. *)
Definition fat16_generate_cluster_chain (fuel : nat) (count : Z) : cmd fatst Z :=
  if count <=? 0 then mret (u16 (- EINVARG))
  else
    first ← fat16_get_first_first_cluster;
    if first =? 0 then mret 0
    else
      r ← fat16_write_fat_entry first 0xFFFF;
      if negb (r =? 2) then mret (u16 (- EIO))
      else
        add_clusters fuel (Z.to_nat (count - 1)) first;;
        mret first.

Fixpoint erase_loop (fuel : nat) (curr : Z) : cmd fatst unit :=
  match fuel with
  | O => liftO OutOfFuel
  | S fuel =>
      code ← fat16_get_fat_entry curr;
      fat16_write_fat_entry curr 0;;
      if u16 code =? 0xFFFF then mret tt else erase_loop fuel (u16 code)
  end.

Definition fat16_erase_cluster_chain (fuel : nat) (first : Z) : cmd fatst Z :=
  if first <=? 2 then mret (- EINVARG)
  else erase_loop fuel first;; mret 0.

Definition fat16_filesize_to_cluster_count (s : fatst) (filesize : Z) : Z :=
  let bytes_per_cluster := u32 (cluster_bytes s) in
  let res := filesize / bytes_per_cluster in
  if c_true (filesize mod bytes_per_cluster) then u32 (res + 1) else res.

(** ** Reading a file *)
Fixpoint cluster_for_offset_loop (n : nat) (cluster_to_use : Z) : cmd fatst Z :=
  match n with
  | O => mret cluster_to_use
  | S n =>
      entry ← fat16_get_fat_entry cluster_to_use;
      if (entry =? 0xFF8) || (entry =? 0xFFF) then mret (- EIO)
      else if entry =? SERPAEOS_FAT16_BAD_SECTOR then mret (- EIO)
      else if (entry =? 0xFF0) || (entry =? 0xFF6) then mret (- EIO)
      else if entry =? 0 then mret (- EIO)
      else cluster_for_offset_loop n entry
  end.

Definition fat16_get_cluster_for_offset (starting_cluster offset : Z) : cmd fatst Z :=
  s ← getS;
  let clusters_ahead := Z.quot offset (cluster_bytes s) in
  cluster_for_offset_loop (Z.to_nat clusters_ahead) starting_cluster.

(** The result and the bytes written through [out].  Every call reads at
    least one byte, so the number of bytes bounds the calls. *)
Fixpoint fat16_read_internal_from_stream (fuel : nat) (cluster offset total : Z) : cmd fatst (Z * list Z) :=
  match fuel with
  | O => liftO OutOfFuel
  | S fuel =>
      s ← getS;
      let size_of_cluster_bytes := cluster_bytes s in
      cluster_to_use ← fat16_get_cluster_for_offset cluster offset;
      if cluster_to_use <? 0 then mret (cluster_to_use, [])
      else
        s ← getS;
        let offset_from_cluster := Z.rem offset size_of_cluster_bytes in
        let starting_sector := fat16_cluster_to_sector s cluster_to_use in
        let starting_pos := s32 (starting_sector * sector_size (fdisk s) + offset_from_cluster) in
        let total_to_read := if size_of_cluster_bytes <? total then size_of_cluster_bytes else total in
        res ← on_cluster (diskstreamer_seek starting_pos);
        if negb (res =? SERPAEOS_ALL_OK) then mret (res, [])
        else
          '(res, out) ← on_cluster (diskstreamer_read total_to_read);
          if negb (res =? SERPAEOS_ALL_OK) then mret (res, out)
          else
            let total := total - total_to_read in
            if 0 <? total then
              '(res, out') ← fat16_read_internal_from_stream fuel cluster
                               (s32 (offset + total_to_read)) total;
              mret (res, out ++ out')
            else mret (res, out)
  end.

Definition fat16_read_internal (starting_cluster offset total : Z) : cmd fatst (Z * list Z) :=
  fat16_read_internal_from_stream (S (Z.to_nat total)) starting_cluster offset total.

(** ** Open files: the type and the bytes of the item, the position, the mode *)
Record fat_file_descriptor := mk_fdesc { f_type : Z; f_item : list Z; f_pos : Z; f_mode : Z }.

Fixpoint read_members (n : nat) (item : list Z) (offset size : Z) : cmd fatst (Z * list Z * Z) :=
  match n with
  | O => mret (0, [], offset)
  | S n =>
      '(res, out) ← fat16_read_internal (fat16_get_first_cluster item) offset (s32 size);
      if ISERR res then mret (res, out, offset)
      else
        '(res', out', offset) ← read_members n item (s32 (offset + size)) size;
        mret ((if bool_decide (n = 0%nat) then res else res'), out ++ out', offset)
  end.

(** The result, the bytes read and the descriptor; the position moves only
    when every member was read. *)
Definition fat16_read (desc : fat_file_descriptor) (size nmemb : Z)
    : cmd fatst (Z * list Z * fat_file_descriptor) :=
  '(res, out, offset) ← read_members (Z.to_nat nmemb) (f_item desc) (s32 (f_pos desc)) size;
  if ISERR res then mret (res, out, desc)
  else mret (res, out, mk_fdesc (f_type desc) (f_item desc) (u32 offset) (f_mode desc)).
End with_disk.
Arguments fatst D : clear implicits.

Definition fat16_ftell (desc : fat_file_descriptor) : Z := s32 (f_pos desc).

Definition fat16_seek (desc : fat_file_descriptor) (offset seek_mode : Z) : Z * fat_file_descriptor :=
  let set p := mk_fdesc (f_type desc) (f_item desc) (u32 p) (f_mode desc) in
  if negb (f_type desc =? FAT_ITEM_TYPE_FILE) then (- EINVARG, desc)
  else if item_filesize (f_item desc) <=? offset then (- EIO, desc)
  else if seek_mode =? SEEK_SET then (0, set offset)
  else if seek_mode =? SEEK_END then (0, set (item_filesize (f_item desc) - offset))
  else if seek_mode =? SEEK_CUR then (0, set (f_pos desc + offset))
  else if seek_mode =? SEEK_NEG then (0, set (f_pos desc - offset))
  else (- EINVARG, desc).

(** The caller's structure is left alone when the item is not a file. *)
Definition fat16_stat (desc : fat_file_descriptor) (stat : file_stat) : Z * file_stat :=
  if negb (f_type desc =? FAT_ITEM_TYPE_FILE) then (- EINVARG, stat)
  else
    let it := f_item desc in
    (0, mk_stat (if c_true (Z.land (item_attribute it) FAT_FILE_READ_ONLY) then FILE_STAT_READ_ONLY else 0)
          (item_filesize it)
          (mk_date (Z.land (item_creation_time it) 31 * 2) (Z.land (Z.shiftr (item_creation_time it) 5) 63)
             (Z.shiftr (item_creation_time it) 11) (Z.land (item_creation_date it) 31)
             (Z.land (Z.shiftr (item_creation_date it) 5) 15) (1980 + Z.shiftr (item_creation_date it) 9))).
