(* ===== verification/FatChain.v ===== *)
(** * Cluster chains of a file allocation table

    The chains that both FAT drivers walk, as lists of cluster numbers over a
    table seen as a function.  [eoc] is the lowest end-of-chain mark and [top]
    bounds the values of an entry.  The last section has the bytes of a chain's
    clusters as one sequence. *)
From S2P Require Import Prelude Streamer.

(** Links of a chain stay inside a table of [N] entries and skip the two
    reserved ones. *)
Definition link_ok (N c : Z) : Prop := 2 <= c < N.

Section chains.
Context {eoc top : Z}.

Fixpoint chain (f : Z -> Z) (N c : Z) (l : list Z) : Prop :=
  match l with
  | [] => False
  | x :: l =>
      x = c /\ link_ok N c /\
      match l with
      | [] => eoc <= f c < top
      | _ => f c < eoc /\ chain f N (f c) l
      end
  end.

Lemma chain_cons f N c x y l :
  chain f N c (x :: y :: l) <-> x = c /\ link_ok N c /\ f c < eoc /\ chain f N (f c) (y :: l).
Proof. reflexivity. Qed.

Lemma chain_unique f N c l1 l2 : chain f N c l1 -> chain f N c l2 -> l1 = l2.
Proof.
  revert c l2. induction l1 as [|x l1 IH]; intros c l2; [done|].
  destruct l2 as [|y l2]; [done|].
  intros (-> & _ & H1) (-> & _ & H2). f_equal. destruct l1 as [|x1 l1], l2 as [|y2 l2]; try lia; [done|].
  destruct H1 as [_ H1], H2 as [_ H2]. by apply (IH (f c)).
Qed.

Lemma chain_ok f N c l x : chain f N c l -> x ∈ l -> link_ok N x.
Proof.
  revert c. induction l as [|y l IH]; intros c; [done|]. intros (-> & Hc & Hl).
  rewrite elem_of_cons. intros [-> |Hx]; [done|].
  destruct l as [|z l]; [by apply elem_of_nil in Hx|]. destruct Hl as [_ Hl]. by apply (IH (f c)).
Qed.

(** The rest of a chain from one of its clusters. *)
Lemma chain_suffix f N c l x :
  chain f N c l -> x ∈ l -> exists l1 l2, l = l1 ++ l2 /\ chain f N x l2.
Proof.
  revert c. induction l as [|y l IH]; intros c; [done|]. intros Hch.
  rewrite elem_of_cons. intros [-> |Hx].
  - exists [], (y :: l). split; [done|]. by destruct Hch as [-> ?].
  - destruct l as [|z l]; [by apply elem_of_nil in Hx|].
    destruct Hch as (_ & _ & _ & Hch). destruct (IH (f c) Hch Hx) as (l1 & l2 & Hl & H2).
    exists (y :: l1), l2. by rewrite Hl.
Qed.

Lemma chain_nodup f N c l : chain f N c l -> NoDup l.
Proof.
  revert c. induction l as [|x l IH]; intros c Hch; [constructor|].
  apply NoDup_cons. split.
  - intros Hx. pose proof Hch as (-> & _ & Hl). destruct l as [|y l]; [by apply elem_of_nil in Hx|].
    destruct Hl as [_ Hl]. destruct (chain_suffix f N _ _ c Hl Hx) as (l1 & l2 & He & H2).
    pose proof (chain_unique f N c _ _ Hch H2) as Hu. apply (f_equal length) in He.
    rewrite length_app in He. rewrite <- Hu in He. simpl in He. lia.
  - destruct Hch as (-> & _ & Hl). destruct l as [|y l]; [constructor|]. destruct Hl as [_ Hl]. by apply (IH (f c)).
Qed.

(** No cluster of a chain is free. *)
Lemma chain_used f N c l x : 0 < eoc -> chain f N c l -> x ∈ l -> f x <> 0.
Proof.
  intros Heoc Hch Hx. destruct (chain_suffix f N c l x Hch Hx) as (l1 & l2 & _ & H2).
  destruct l2 as [|y [|z l2]]; [done| |].
  - destruct H2 as (_ & _ & ?). lia.
  - destruct H2 as (_ & _ & _ & -> & Hz & _). unfold link_ok in Hz. lia.
Qed.

(** The last cluster holds an end mark. *)
Lemma chain_last f N c l e : chain f N c l -> last l = Some e -> eoc <= f e < top.
Proof.
  revert c. induction l as [|x l IH]; intros c; [done|]. intros (-> & _ & Hl) He.
  destruct l as [|y l]; [by injection He as ->|]. destruct Hl as [_ Hl]. rewrite last_cons_cons in He. by apply (IH (f c)).
Qed.

(** A chain only depends on the entries of its clusters. *)
Lemma chain_ext f g N c l : (forall x, x ∈ l -> g x = f x) -> chain f N c l -> chain g N c l.
Proof.
  revert c. induction l as [|x l IH]; intros c Hfg; [done|]. intros (-> & Hc & Hl).
  assert (g c = f c) as Hgc by (apply Hfg; by left).
  split; [done|]. split; [done|]. destruct l as [|y l]; [by rewrite Hgc|].
  destruct Hl as [? Hl]. rewrite Hgc. split; [done|]. apply IH; [|done]. intros z Hz. apply Hfg. by right.
Qed.

(** Another end mark in the last cluster keeps the chain. *)
Lemma chain_end f g N c l n :
  chain f N c l -> eoc <= n < top ->
  (forall x, x ∈ l -> g x = if decide (last l = Some x) then n else f x) ->
  chain g N c l.
Proof.
  intros Hch Hn. revert c Hch. induction l as [|x l IH]; intros c; [done|].
  intros Hch Hg. pose proof (chain_nodup f N c _ Hch) as [Hcl _]%NoDup_cons.
  destruct Hch as (-> & Hc & Hl). pose proof (Hg c ltac:(by left)) as Hgc. destruct l as [|y l].
  - rewrite decide_True in Hgc by done. cbn. by rewrite Hgc.
  - destruct Hl as [Hfc Hl]. rewrite decide_False in Hgc.
    2: { rewrite last_cons_cons. by intros ?%last_Some_elem_of. }
    apply chain_cons. split; [done|]. split; [done|]. rewrite Hgc. split; [done|].
    apply IH; [done|]. intros z Hz. rewrite (Hg z) by (by right). by rewrite last_cons_cons.
Qed.

(** Linking a new last cluster. *)
Lemma chain_snoc f g N c l n :
  chain f N c l -> link_ok N n -> n < eoc -> (n ∉ l) -> eoc <= g n < top ->
  (forall x, x ∈ l -> g x = if decide (last l = Some x) then n else f x) ->
  chain g N c (l ++ [n]).
Proof.
  intros Hch Hn Hn8 Hnl Hgn. revert c Hch. induction l as [|x l IH]; intros c; [done|].
  intros (-> & Hc & Hl) Hg. assert (n <> c) by (intros ->; apply Hnl; by left).
  pose proof (Hg c ltac:(by left)) as Hgc. cbn [app].
  destruct l as [|y l].
  - rewrite decide_True in Hgc by done. cbn. rewrite Hgc. done.
  - destruct Hl as [Hfc Hl]. assert (c ∉ y :: l) as Hcl.
    { pose proof (chain_nodup f N c (c :: y :: l)) as Hnd. apply NoDup_cons in Hnd as [? _]; [done|done]. }
    rewrite decide_False in Hgc.
    2: { rewrite last_cons_cons. intros Hlast. apply last_Some_elem_of in Hlast. done. }
    rewrite <- app_comm_cons. apply chain_cons. split; [done|]. split; [done|]. rewrite Hgc. split; [done|].
    apply IH; [intros ?; apply Hnl; by right|done|].
    intros z Hz. rewrite (Hg z) by (by right). by rewrite last_cons_cons.
Qed.
End chains.

(** ** The bytes of a list of clusters *)
Section contents.
Context {D : Type} `{BlockDevOk D}.

Lemma slice_take d p n m : (n <= m)%nat -> take n (slice d p m) = slice d p n.
Proof.
  intros Hn. replace m with (n + (m - n))%nat by lia. rewrite slice_app.
  by rewrite take_app_length' by (by rewrite length_slice).
Qed.

Lemma slice_drop d p n m : (n <= m)%nat -> drop n (slice d p m) = slice d (p + Z.of_nat n) (m - n).
Proof.
  intros Hn. replace m with (n + (m - n))%nat at 1 by lia. rewrite slice_app.
  by rewrite drop_app_length' by (by rewrite length_slice).
Qed.

(** The clusters [l] in order, each of [n] bytes at [cpos]. *)
Definition clusters_data (d : D) (cpos : Z -> Z) (n : nat) (l : list Z) : list Z :=
  concat ((fun x => slice d (cpos x) n) <$> l).

(** A piece inside one cluster. *)
Lemma clusters_data_piece d cpos n l k x r t :
  l !! k = Some x -> (r + t <= n)%nat ->
  take t (drop (k * n + r) (clusters_data d cpos n l)) = slice d (cpos x + Z.of_nat r) t.
Proof.
  revert l. induction k as [|k IH]; intros l Hx Hr; (destruct l as [|y l]; [done|]);
    unfold clusters_data; cbn [fmap list_fmap concat].
  - cbn in Hx. injection Hx as ->. cbn [Nat.mul Nat.add].
    rewrite drop_app_le by (rewrite length_slice; lia). rewrite slice_drop by lia.
    rewrite take_app_le by (rewrite length_slice; lia). by rewrite slice_take by lia.
  - rewrite drop_app_ge by (rewrite length_slice; lia). rewrite length_slice.
    replace (S k * n + r - n)%nat with (k * n + r)%nat by lia. by apply IH.
Qed.
End contents.
