(* ===== verification/Fat16Spec.v ===== *)
(** * What the FAT16 driver promises

    The file allocation table as a function on cluster numbers, cluster chains
    as lists, and the contents of files. *)
From S2P Require Import Prelude Config CMem CString Disk Streamer AtaDevice FatChain Fat16.

(** ** The table on the disk *)
Section with_disk.
Context {D : Type} `{BlockDevOk D}.
Implicit Types s : fatst D.

(** The number of entries, and where entry [c] is. *)
Definition entries_of s : Z := sectors_per_fat (header s) * 256.
Definition entry_pos s (c : Z) : Z := reserved_sectors (header s) * 512 + 2 * c.

(** A mounted disk: its geometry fits the disk. *)
Record fat_wf s : Prop := {
  fw_dev : bd_ok (fdev s);
  fw_sector : sector_size (fdisk s) = 512;
  fw_spc : 1 <= sectors_per_cluster (header s) <= 128;
  fw_reserved : 0 <= reserved_sectors (header s);
  fw_spf : 0 <= sectors_per_fat (header s) <= 256;
  fw_fits : (reserved_sectors (header s) + sectors_per_fat (header s)) * 512 < disk_size (D := D)
}.

Definition fat_at s (c : Z) : Z :=
  byte_at (fdev s) (entry_pos s c) + 256 * byte_at (fdev s) (entry_pos s c + 1).

(** Nothing but stream positions changed. *)
Record same_disk s s' : Prop := {
  sd_wf : fat_wf s';
  sd_bytes : forall p, 0 <= p < disk_size (D := D) -> byte_at (fdev s') p = byte_at (fdev s) p;
  sd_disk : fdisk s' = fdisk s;
  sd_header : header s' = header s;
  sd_root : root_directory s' = root_directory s
}.

Lemma disk_size_bound : disk_size (D := D) < 2147483648.
Proof. unfold disk_size. pose proof (nsectors_max (D := D)). lia. Qed.

Lemma same_disk_refl s : fat_wf s -> same_disk s s.
Proof. by split. Qed.

Lemma same_disk_trans s1 s2 s3 : same_disk s1 s2 -> same_disk s2 s3 -> same_disk s1 s3.
Proof.
  intros [_ Hb1 Hd1 Hh1 Hr1] [Hw Hb2 Hd2 Hh2 Hr2].
  split; [done|intros p Hp; by rewrite Hb2, Hb1|congruence..].
Qed.

(** The table, and the two bytes behind it, are on the disk. *)
Lemma entry_range_le s c :
  fat_wf s -> 0 <= c <= entries_of s -> 0 <= entry_pos s c /\ entry_pos s c + 2 < disk_size (D := D).
Proof. intros [_ _ _ Hr Hs Hf] Hc. unfold entry_pos, entries_of, disk_size in *. lia. Qed.

Lemma entry_range s c :
  fat_wf s -> 0 <= c < entries_of s -> 0 <= entry_pos s c /\ entry_pos s c + 2 < disk_size (D := D).
Proof. intros Hw Hc. apply entry_range_le; [done|lia]. Qed.

Lemma same_disk_fat s s' c :
  fat_wf s -> same_disk s s' -> 0 <= c < entries_of s -> fat_at s' c = fat_at s c.
Proof.
  intros Hw Hs Hc. pose proof (entry_range s c Hw Hc). unfold fat_at, entry_pos in *.
  rewrite (sd_header _ _ Hs), !(sd_bytes _ _ Hs) by lia. done.
Qed.

Lemma byte_at_range d p : bd_ok d -> 0 <= p < disk_size (D := D) -> is_byte (byte_at d p).
Proof.
  intros Hok Hp. unfold disk_size in Hp. unfold byte_at.
  assert (0 <= p / 512 < nsectors (D := D)) as Hs by zlia.
  pose proof (sector_len d _ Hok Hs) as Hl.
  destruct (lookup_lt_is_Some_2 (sector d (p / 512)) (Z.to_nat (p mod 512))) as [b Hb]; [rewrite Hl; zlia|].
  rewrite Hb. simpl. by apply (Forall_lookup_1 _ _ _ _ (sector_bytes d _ Hok Hs) Hb).
Qed.

Lemma fat_at_range_le s c : fat_wf s -> 0 <= c <= entries_of s -> 0 <= fat_at s c < 65536.
Proof.
  intros Hw Hc. pose proof (entry_range_le s c Hw Hc).
  pose proof (byte_at_range (fdev s) (entry_pos s c) (fw_dev _ Hw) ltac:(lia)) as Hb1.
  pose proof (byte_at_range (fdev s) (entry_pos s c + 1) (fw_dev _ Hw) ltac:(lia)) as Hb2.
  unfold fat_at, is_byte in *. lia.
Qed.

Lemma fat_at_range s c : fat_wf s -> 0 <= c < entries_of s -> 0 <= fat_at s c < 65536.
Proof. intros Hw Hc. apply fat_at_range_le; [done|lia]. Qed.

(** The position [fat16_get_fat_entry] and [fat16_write_fat_entry] seek to. *)
Lemma entry_seek s c :
  fat_wf s -> 0 <= c <= entries_of s ->
  s32 (u32 (u32 (reserved_sectors (header s) * sector_size (fdisk s)) + c * 2)) = entry_pos s c.
Proof.
  intros Hw Hc. pose proof (entry_range_le s c Hw Hc). pose proof disk_size_bound.
  pose proof (fw_reserved _ Hw). rewrite (fw_sector _ Hw). unfold entry_pos in *.
  rewrite (u32_id (_ * 512)) by (unfold entries_of in Hc; lia).
  rewrite u32_id, s32_id by (unfold entries_of in Hc; lia). lia.
Qed.

Lemma get_fat_entry_le s c :
  fat_wf s -> 0 <= c <= entries_of s ->
  exists s', fat16_get_fat_entry c s = Ret (fat_at s c, s') /\ same_disk s s'.
Proof.
  intros Hw Hc. pose proof (entry_range_le s c Hw Hc) as Hr. unfold fat16_get_fat_entry.
  erewrite bind_Ret by reflexivity. unfold SERPAEOS_FAT16_FAT_ENTRY_SIZE. rewrite entry_seek by done.
  erewrite bind_Ret by reflexivity. cbn [Z.ltb Z.compare].
  destruct (read_rec_spec (S (Z.to_nat 2)) 2 (mk_stream (fdev s) (entry_pos s c)))
    as (st & Hrd & Hok & _ & Hsame); cbn [sdisk pos] in *; [apply Hw|lia|lia|lia|lia|].
  erewrite bind_Ret; [|unfold on_fat; cbn [sdisk pos fdev fat_pos]; unfold diskstreamer_read; rewrite Hrd; reflexivity].
  cbn [Z.ltb Z.compare]. eexists. split.
  { unfold mret, cmd_ret. do 2 f_equal. unfold slice. change (seqZ 0 (Z.of_nat (Z.to_nat 2))) with [0; 1].
    cbn. unfold fat_at. rewrite Z.add_0_r. lia. }
  destruct Hw as [Hok0 Hs1 Hs2 Hs3 Hs4 Hs5]. split; simpl; try done.
  intros p Hp. unfold byte_at. rewrite Hsame; [done|]. unfold disk_size in Hp. zlia.
Qed.

Lemma get_fat_entry_spec s c :
  fat_wf s -> 0 <= c < entries_of s ->
  exists s', fat16_get_fat_entry c s = Ret (fat_at s c, s') /\ same_disk s s'.
Proof. intros Hw Hc. apply get_fat_entry_le; [done|lia]. Qed.

(** Only the entry changed. *)
Record entry_written s s' (c v : Z) : Prop := {
  ew_wf : fat_wf s';
  ew_disk : fdisk s' = fdisk s;
  ew_header : header s' = header s;
  ew_root : root_directory s' = root_directory s;
  ew_bytes : forall p, 0 <= p < disk_size (D := D) -> ~ (entry_pos s c <= p < entry_pos s c + 2) ->
    byte_at (fdev s') p = byte_at (fdev s) p;
  ew_entry : fat_at s' c = v;
  ew_other : forall c', 0 <= c' < entries_of s -> c' <> c -> fat_at s' c' = fat_at s c'
}.

Lemma write_fat_entry_spec s c v :
  fat_wf s -> 0 <= c < entries_of s -> 0 <= v < 65536 ->
  exists s', fat16_write_fat_entry c v s = Ret (2, s') /\ entry_written s s' c v.
Proof.
  intros Hw Hc Hv. pose proof (entry_range s c Hw Hc) as Hr. unfold fat16_write_fat_entry.
  erewrite bind_Ret by reflexivity. rewrite entry_seek by (done || lia).
  erewrite bind_Ret by reflexivity.
  destruct (write_loop_spec 2 (le_split 2 v) 0 (mk_stream (fdev s) (entry_pos s c)))
    as (st & Hwr & Hok & _ & Hpat); cbn [sdisk pos] in *;
    [apply Hw|lia|lia|apply le_split_bytes|rewrite length_le_split; lia|].
  change (drop 0 (le_split 2 v)) with (le_split 2 v) in Hpat.
  change (take 2 (le_split 2 v)) with [v mod 256; v / 256 mod 256] in Hpat.
  eexists. split.
  { unfold on_fat. cbn [fdev fat_pos]. unfold diskstreamer_write.
    change (Z.to_nat 2) with 2%nat. change 0 with (Z.of_nat 0) at 1. rewrite Hwr. reflexivity. }
  unfold patched in Hpat. change (Z.of_nat (length [v mod 256; v / 256 mod 256])) with 2 in Hpat.
  destruct Hw as [Hok0 Hs1 Hs2 Hs3 Hs4 Hs5].
  split; simpl; try done.
  - intros p Hp Hne. rewrite Hpat by done. by rewrite decide_False by lia.
  - unfold fat_at, entry_pos in *. cbn [fdev header]. rewrite !Hpat by lia. rewrite !decide_True by lia.
    rewrite Z.sub_diag. replace (_ + 1 - _) with 1 by lia.
    change (v mod 256 + 256 * (v / 256 mod 256) = v). zlia.
  - intros c' Hc' Hne. pose proof (entry_range s c' (Build_fat_wf s Hok0 Hs1 Hs2 Hs3 Hs4 Hs5) Hc').
    unfold fat_at, entry_pos in *. cbn [fdev header]. rewrite !Hpat by lia. by rewrite !decide_False by lia.
Qed.

(** ** Walking a chain *)

(** The chain of clusters [l] from [c] on the disk of [s]. *)
Definition disk_chain s (c : Z) (l : list Z) : Prop := chain (eoc := 0xFFF8) (top := 65536) (fat_at s) (entries_of s) c l.

Lemma disk_chain_used s c l x : disk_chain s c l -> x ∈ l -> fat_at s x <> 0.
Proof. by apply chain_used. Qed.

Lemma same_disk_chain s s' c l : fat_wf s -> same_disk s s' -> disk_chain s c l -> disk_chain s' c l.
Proof.
  intros Hw Hs Hch. unfold disk_chain, entries_of in *. rewrite (sd_header _ _ Hs).
  eapply chain_ext; [|exact Hch]. intros x Hx. pose proof (chain_ok _ _ _ _ _ Hch Hx) as Hok.
  apply (same_disk_fat s s' x Hw Hs). unfold link_ok, entries_of in *. lia.
Qed.

(** One step of a walk: the next cluster, or the end of the chain. *)
Lemma chain_step s c x l :
  fat_wf s -> disk_chain s c (x :: l) ->
  exists s', fat16_get_fat_entry c s = Ret (fat_at s c, s') /\ same_disk s s' /\ x = c /\
    u16 (fat_at s c) = fat_at s c /\
    match l with
    | [] => 0xFFF8 <= fat_at s c
    | _ => fat_at s c < 0xFFF8 /\ disk_chain s' (fat_at s c) l
    end.
Proof.
  intros Hw (-> & Hc & Hl). unfold link_ok in Hc.
  destruct (get_fat_entry_spec s c Hw ltac:(lia)) as (s' & Hg & Hs).
  pose proof (fat_at_range s c Hw ltac:(lia)). exists s'. split_and!; try done; [by apply u16_id|].
  destruct l as [|y l]; [lia|]. destruct Hl as [Hlt Hl]. split; [done|].
  by apply (same_disk_chain s s').
Qed.

Lemma find_last_spec fuel s c l :
  fat_wf s -> disk_chain s c l -> (length l <= fuel)%nat ->
  exists s' e, fat16_find_last_cluster_of_chain fuel c s = Ret (e, s') /\ same_disk s s' /\ last l = Some e.
Proof.
  revert s c l. induction fuel as [|fuel IH]; intros s c l Hw Hch Hf;
    (destruct l as [|x l]; [done|]); [simpl in Hf; lia|].
  destruct (chain_step s c x l Hw Hch) as (s1 & Hg & Hs & -> & Hu & Hl).
  cbn [fat16_find_last_cluster_of_chain]. step Hg. rewrite Hu. destruct l as [|y l].
  - rewrite (proj2 (Z.leb_le _ _)) by lia. by exists s1, c.
  - destruct Hl as [Hlt Hch1]. rewrite (proj2 (Z.leb_gt _ _)) by lia.
    destruct (IH s1 (fat_at s c) (y :: l)) as (s2 & e & Hr & Hs2 & He); [apply Hs|done|simpl in *; lia|].
    exists s2, e. split; [done|]. split; [by eapply same_disk_trans|]. by rewrite last_cons_cons.
Qed.

Lemma get_chain_spec fuel s c l :
  fat_wf s -> disk_chain s c l -> (length l <= fuel)%nat ->
  exists s', fat16_get_cluster_chain fuel c s = Ret (l, s') /\ same_disk s s'.
Proof.
  revert s c l. induction fuel as [|fuel IH]; intros s c l Hw Hch Hf;
    (destruct l as [|x l]; [done|]); [simpl in Hf; lia|].
  destruct (chain_step s c x l Hw Hch) as (s1 & Hg & Hs & -> & Hu & Hl).
  cbn [fat16_get_cluster_chain]. step Hg. rewrite Hu. destruct l as [|y l].
  - rewrite (proj2 (Z.ltb_ge _ _)) by lia. by exists s1.
  - destruct Hl as [Hlt Hch1]. rewrite (proj2 (Z.ltb_lt _ _)) by lia.
    destruct (IH s1 (fat_at s c) (y :: l)) as (s2 & Hr & Hs2); [apply Hs|done|simpl in *; lia|].
    step Hr. exists s2. split; [done|]. by eapply same_disk_trans.
Qed.

Lemma count_chain_spec fuel s c l i :
  fat_wf s -> disk_chain s c l -> (length l <= fuel)%nat ->
  exists s', fat16_count_clusters_in_chain fuel c i s = Ret (i + Z.of_nat (length l) - 1, s') /\ same_disk s s'.
Proof.
  revert s c l i. induction fuel as [|fuel IH]; intros s c l i Hw Hch Hf;
    (destruct l as [|x l]; [done|]); [simpl in Hf; lia|].
  destruct (chain_step s c x l Hw Hch) as (s1 & Hg & Hs & -> & Hu & Hl).
  cbn [fat16_count_clusters_in_chain]. step Hg. rewrite Hu. destruct l as [|y l].
  - rewrite (proj2 (Z.ltb_ge _ _)) by lia. exists s1. split; [|done]. unfold mret, cmd_ret.
    do 2 f_equal. simpl. lia.
  - destruct Hl as [Hlt Hch1]. rewrite (proj2 (Z.ltb_lt _ _)) by lia.
    destruct (IH s1 (fat_at s c) (y :: l) (i + 1)) as (s2 & Hr & Hs2); [apply Hs|done|simpl in *; lia|].
    exists s2. split; [|by eapply same_disk_trans]. rewrite Hr. do 2 f_equal. simpl. lia.
Qed.

(** ** Finding a free cluster *)
Definition limit s : Z := sectors_big (header s) / sectors_per_cluster (header s).

(** The last cluster the search looks at: cluster 3 is looked at before the
    bound is compared. *)
Definition scan_end s : Z := Z.max 3 (limit s).

(** The search for a free cluster stays where it may: its end is in the table;
    or both the table and the search end at 65536, as on the volume of boot.asm
    (then the two bytes behind the table are looked at, and a 0 there becomes
    cluster number 65536, which is 0 in 16 bits); or there is a free cluster in
    the table to stop at. *)
Definition searchable_from s (c : Z) : Prop :=
  scan_end s < entries_of s \/ (scan_end s = 65536 /\ entries_of s = 65536) \/
  exists n, c <= n < entries_of s /\ fat_at s n = 0.
Definition searchable s : Prop := 3 < entries_of s /\ searchable_from s 3.

(** [n] is the lowest free cluster of the table that the search looks at. *)
Definition lowest_free s (c n : Z) : Prop :=
  c <= n <= scan_end s /\ n < entries_of s /\ fat_at s n = 0 /\
  forall c', c <= c' < n -> fat_at s c' <> 0.
Definition none_free s (c : Z) : Prop :=
  forall c', c <= c' <= scan_end s -> c' < entries_of s -> fat_at s c' <> 0.

Lemma entries_of_max s : fat_wf s -> entries_of s <= 65536.
Proof. intros Hw. pose proof (fw_spf _ Hw). unfold entries_of. lia. Qed.

Lemma same_disk_geometry s s' : same_disk s s' -> entries_of s' = entries_of s /\ scan_end s' = scan_end s.
Proof. intros Hs. unfold entries_of, scan_end, limit. by rewrite (sd_header _ _ Hs). Qed.

(** The geometry of boot.asm, and a volume whose sectors_big is 0 (then only
    cluster 3 is looked at). *)
Lemma boot_volume_searchable s :
  sectors_big (header s) = 0x800000 -> sectors_per_cluster (header s) = 0x80 ->
  sectors_per_fat (header s) = 0x100 -> searchable s.
Proof.
  intros Hb Hc Hf. unfold searchable, searchable_from, scan_end, limit, entries_of. rewrite Hb, Hc, Hf.
  split; [lia|]. right. left. split; reflexivity.
Qed.

Lemma small_volume_searchable s :
  sectors_big (header s) = 0 -> 1 <= sectors_per_fat (header s) -> searchable s.
Proof.
  intros Hb Hf. unfold searchable, searchable_from, scan_end, limit, entries_of. rewrite Hb, Zdiv_0_l. lia.
Qed.

(** A cluster that is in use is passed over. *)
Lemma searchable_next s c :
  searchable_from s c -> fat_at s c <> 0 -> searchable_from s (c + 1).
Proof.
  intros [Hs|[Hs|(n & Hn & Hfree)]] Hc; [by left|by right; left|right; right].
  exists n. split; [|done]. assert (n <> c) by congruence. lia.
Qed.

Lemma same_disk_searchable s s' c :
  fat_wf s -> same_disk s s' -> 0 <= c -> searchable_from s c -> searchable_from s' c.
Proof.
  intros Hw Hs Hc. destruct (same_disk_geometry s s' Hs) as [He Hl]. unfold searchable_from. rewrite He, Hl.
  intros [Hse|[Hse|(n & Hn & Hfree)]]; [by left|by right; left|right; right].
  exists n. split; [done|]. rewrite (same_disk_fat s s') by (done || lia). done.
Qed.

Lemma lowest_free_next s c n : fat_at s c <> 0 -> lowest_free s (c + 1) n -> lowest_free s c n.
Proof.
  intros Hc (Hn & Hne & Hfree & Hmin). split; [lia|]. split; [done|]. split; [done|]. intros c' Hc'.
  destruct (decide (c' = c)) as [->|]; [done|]. apply Hmin. lia.
Qed.

Lemma none_free_next s c : fat_at s c <> 0 -> none_free s (c + 1) -> none_free s c.
Proof.
  intros Hc Hall c' Hc' He. destruct (decide (c' = c)) as [->|]; [done|]. apply Hall; lia.
Qed.

Lemma same_disk_free s s' c n :
  fat_wf s -> same_disk s s' -> 0 <= c -> lowest_free s' c n -> lowest_free s c n.
Proof.
  intros Hw Hs Hc (Hn & Hne & Hfree & Hmin). destruct (same_disk_geometry s s' Hs) as [He Hl].
  rewrite He in Hne. rewrite Hl in Hn. rewrite (same_disk_fat s s') in Hfree by (done || lia).
  split_and!; try done; try lia. intros c' Hc'. rewrite <- (same_disk_fat s s') by (done || lia). by apply Hmin.
Qed.

Lemma same_disk_none s s' c :
  fat_wf s -> same_disk s s' -> 0 <= c -> none_free s' c -> none_free s c.
Proof.
  intros Hw Hs Hc Hall c' Hc' Hlt. destruct (same_disk_geometry s s' Hs) as [He Hl].
  rewrite <- (same_disk_fat s s') by (done || lia). apply Hall; lia.
Qed.

Lemma first_cluster_loop_spec fuel s c :
  fat_wf s -> searchable_from s c -> 3 <= c <= scan_end s -> c <= entries_of s -> scan_end s - c < Z.of_nat fuel ->
  exists r s', first_cluster_loop fuel c s = Ret (r, s') /\ same_disk s s' /\
    (lowest_free s c r \/ (r = 0 /\ none_free s c)).
Proof.
  revert s c. induction fuel as [|fuel IH]; intros s c Hw Hse Hc Hce Hf; [lia|].
  pose proof (entries_of_max s Hw) as Hmax. cbn [first_cluster_loop].
  destruct (get_fat_entry_le s c Hw ltac:(lia)) as (s1 & Hg & Hs). step Hg.
  erewrite bind_Ret by reflexivity. rewrite (sd_header _ _ Hs). fold (limit s).
  pose proof (fat_at_range_le s c Hw ltac:(lia)). rewrite u16_id by done. unfold SERPAEOS_FAT16_UNUSED.
  destruct (decide (c = entries_of s)) as [Hend|Hlt].
  { assert (c = 65536 /\ limit s <= c) as [-> Hlim].
    { unfold searchable_from, scan_end in *. destruct Hse as [?|[[? ?]|(n & Hn & _)]]; lia. }
    exists 0, s1. split; [by destruct (fat_at s 65536 =? 0); [|rewrite (proj2 (Z.leb_le _ _)) by done]|].
    split; [done|]. right. split; [done|]. intros c' Hc' Hc2. lia. }
  destruct (fat_at s c =? 0) eqn:E; breflect.
  { exists c, s1. rewrite u16_id by lia. split; [done|]. split; [done|]. left. split_and!; try done; lia. }
  destruct (limit s <=? c) eqn:E2; breflect.
  { exists 0, s1. split; [done|]. split; [done|]. right. split; [done|]. intros c' Hc' _.
    replace c' with c by (unfold scan_end in *; lia). done. }
  destruct (same_disk_geometry s s1 Hs) as [He Hl]. rewrite u32_id by lia.
  destruct (IH s1 (c + 1)) as (r & s2 & Hr & Hs2 & Hcase);
    [apply Hs|apply (same_disk_searchable s s1); [done|done|lia|by apply searchable_next]
    |rewrite Hl; unfold scan_end in *; lia|rewrite He; lia|rewrite Hl; lia|].
  exists r, s2. split; [done|]. split; [by eapply same_disk_trans|].
  destruct Hcase as [Hlow|[-> Hall]]; [left|right; split; [done|]].
  - apply lowest_free_next; [done|]. by apply (same_disk_free s s1); [| |lia|].
  - apply none_free_next; [done|]. by apply (same_disk_none s s1); [| |lia|].
Qed.

(** The lowest free cluster from 3 on, or 0. *)
Lemma first_free_spec s :
  fat_wf s -> searchable s ->
  exists r s', fat16_get_first_first_cluster s = Ret (r, s') /\ same_disk s s' /\
    (lowest_free s 3 r \/ (r = 0 /\ none_free s 3)).
Proof.
  intros Hw [H3 Hse]. unfold fat16_get_first_first_cluster. erewrite bind_Ret by reflexivity. fold (limit s).
  apply first_cluster_loop_spec; [done|done|unfold scan_end; lia|lia|unfold scan_end; lia].
Qed.

(** ** Changing chains *)

(** Same geometry, and no byte outside the table changed. *)
Record same_data s s' : Prop := {
  da_wf : fat_wf s';
  da_disk : fdisk s' = fdisk s;
  da_header : header s' = header s;
  da_root : root_directory s' = root_directory s;
  da_bytes : forall p, entry_pos s (entries_of s) <= p < disk_size (D := D) ->
    byte_at (fdev s') p = byte_at (fdev s) p
}.

Lemma same_disk_data s s' : fat_wf s -> same_disk s s' -> same_data s s'.
Proof.
  intros [_ _ _ Hr Hsp _] [Hw Hb Hd Hh Hro]. split; try done. intros p Hp. apply Hb.
  unfold entry_pos, entries_of in Hp. lia.
Qed.

Lemma entry_written_data s s' c v :
  fat_wf s -> 0 <= c < entries_of s -> entry_written s s' c v -> same_data s s'.
Proof.
  intros [_ _ _ Hr Hsp _] Hc [Hw Hd Hh Hro Hb _ _]. split; try done. intros p Hp.
  unfold entry_pos in *. apply Hb; unfold entries_of in *; lia.
Qed.

Lemma same_data_trans s1 s2 s3 : same_data s1 s2 -> same_data s2 s3 -> same_data s1 s3.
Proof.
  intros [_ Hd1 Hh1 Hr1 Hb1] [Hw Hd2 Hh2 Hr2 Hb2]. split; [done|congruence..|].
  intros p Hp. rewrite Hb2, Hb1; [done|done|]. unfold entry_pos, entries_of in *. by rewrite Hh1.
Qed.

Lemma same_data_entries s s' : same_data s s' -> entries_of s' = entries_of s.
Proof. intros Hs. unfold entries_of. by rewrite (da_header _ _ Hs). Qed.

(** Cluster [n] was given to the chain, and nothing else changed.  A number
    from 0xFFF8 on is an end mark when it is stored in the last cluster: then the
    chain stays as it was and the cluster is lost. *)
Record chain_grown s s' (c : Z) (l : list Z) (n : Z) : Prop := {
  cg_data : same_data s s';
  cg_free : lowest_free s 3 n;
  cg_taken : fat_at s' n = EOC;
  cg_chain : disk_chain s' c (if n <? 0xFFF8 then l ++ [n] else l);
  cg_other : forall x, 0 <= x < entries_of s -> (x ∉ l) -> x <> n -> fat_at s' x = fat_at s x
}.

(** The last link of a chain is set to [n], and [n] is marked as an end. *)
Lemma chain_link_last (f g : Z -> Z) N c l n e :
  chain (eoc := 0xFFF8) (top := 65536) f N c l -> last l = Some e -> 3 <= n < N -> n < 65536 -> (n ∉ l) ->
  (forall x, 0 <= x < N -> g x = if decide (x = n) then EOC else if decide (x = e) then n else f x) ->
  chain (eoc := 0xFFF8) (top := 65536) g N c (if n <? 0xFFF8 then l ++ [n] else l).
Proof.
  intros Hch He Hn Hn16 Hnl Hg.
  assert (Hgl : forall x, x ∈ l -> g x = if decide (last l = Some x) then n else f x).
  { intros x Hx. pose proof (chain_ok _ _ _ _ _ Hch Hx) as Hok. unfold link_ok in Hok.
    rewrite Hg by lia. rewrite decide_False by (by intros ->).
    rewrite He. do 2 case_decide; try done; naive_solver. }
  destruct (n <? 0xFFF8) eqn:E; breflect.
  - apply (chain_snoc f); [done|unfold link_ok; lia|lia|done| |done].
    rewrite Hg, decide_True by (done || lia). unfold EOC. lia.
  - apply (chain_end f g N c l n); [done|lia|done].
Qed.

Lemma add_cluster_spec fuel s c l :
  fat_wf s -> searchable s -> disk_chain s c l -> (length l <= fuel)%nat ->
  exists r s', fat16_add_cluster_to_chain fuel c s = Ret (r, s') /\
    ((r = 0 /\ exists n, chain_grown s s' c l n) \/
     (r = - ENODISKSPACE /\ same_disk s s' /\ none_free s 3)).
Proof.
  intros Hw Hse Hch Hf. pose proof (entries_of_max s Hw) as Hmax. unfold fat16_add_cluster_to_chain.
  destruct (find_last_spec fuel s c l Hw Hch Hf) as (s1 & e & Hl & Hs1 & He). step Hl.
  destruct (same_disk_geometry s s1 Hs1) as [Hent1 Hend1].
  destruct (first_free_spec s1) as (n & s2 & Hff & Hs2 & Hcase); [apply Hs1| |].
  { destruct Hse as [H3 Hse]. split; [lia|]. by apply (same_disk_searchable s s1); [| |lia|]. }
  step Hff. pose proof (same_disk_trans _ _ _ Hs1 Hs2) as Hs02.
  destruct (same_disk_geometry s s2 Hs02) as [Hent2 _].
  destruct Hcase as [Hlow|[-> Hall]].
  2: { exists (- ENODISKSPACE), s2. split; [done|]. right. split; [done|]. split; [done|].
       by apply (same_disk_none s s1); [| |lia|]. }
  apply (same_disk_free s s1) in Hlow; [|done|done|lia]. pose proof Hlow as (Hn & Hne & Hfree & _). rewrite (proj2 (Z.eqb_neq n 0)) by lia.
  assert (Hel : e ∈ l) by (by apply last_Some_elem_of).
  pose proof (chain_ok _ _ _ _ _ Hch Hel) as Heok. unfold link_ok in Heok.
  assert (Hnl : n ∉ l) by (intros Hin; by apply (disk_chain_used _ _ _ _ Hch Hin)).
  destruct (write_fat_entry_spec s2 e n) as (s3 & Hw3 & Hew3); [apply Hs2|lia|lia|].
  step Hw3. cbn [Z.eqb negb Pos.eqb].
  assert (Hent3 : entries_of s3 = entries_of s) by (unfold entries_of; by rewrite (ew_header _ _ _ _ Hew3), (sd_header _ _ Hs02)).
  destruct (write_fat_entry_spec s3 n EOC) as (s4 & Hw4 & Hew4); [apply Hew3|lia|unfold EOC; lia|].
  step Hw4. cbn [Z.eqb negb Pos.eqb].
  assert (Hfat : forall x, 0 <= x < entries_of s ->
            fat_at s4 x = if decide (x = n) then EOC else if decide (x = e) then n else fat_at s x).
  { intros x Hx. destruct (decide (x = n)) as [->|Hxn]; [apply Hew4|].
    rewrite (ew_other _ _ _ _ Hew4) by lia.
    destruct (decide (x = e)) as [->|Hxe]; [apply Hew3|].
    rewrite (ew_other _ _ _ _ Hew3) by lia. by apply (same_disk_fat s s2). }
  exists 0, s4. split; [done|]. left. split; [done|]. exists n. split; [|done|apply Hew4| |].
  - eapply same_data_trans; [exact (same_disk_data _ _ Hw Hs02)|].
    eapply same_data_trans; [apply (entry_written_data s2 s3 e n); [apply Hs2|lia|done]|].
    apply (entry_written_data s3 s4 n EOC); [apply Hew3|lia|done].
  - unfold disk_chain. replace (entries_of s4) with (entries_of s)
      by (unfold entries_of in *; rewrite (ew_header _ _ _ _ Hew4); lia).
    by apply (chain_link_last (fat_at s) _ _ _ _ _ e); [| |lia|lia| |].
  - intros x Hx Hxl Hxn. rewrite Hfat by done. rewrite !decide_False; [done| |done]. by intros ->.
Qed.

(** Growing one chain keeps every other chain. *)
Lemma chain_grown_other s s' c l n c2 l2 :
  chain_grown s s' c l n -> disk_chain s c2 l2 -> (forall x, x ∈ l2 -> x ∉ l) -> disk_chain s' c2 l2.
Proof.
  intros [Hd (Hn & _ & Hfree & _) _ _ Hoth] Hch Hdis. unfold disk_chain. rewrite (same_data_entries _ _ Hd).
  eapply chain_ext; [|exact Hch]. intros x Hx. pose proof (chain_ok _ _ _ _ _ Hch Hx) as Hok.
  unfold link_ok in Hok. apply Hoth; [lia|by apply Hdis|]. intros ->. by apply (disk_chain_used _ _ _ _ Hch Hx).
Qed.

(** ** Erasing *)
Record chain_erased s s' (l : list Z) : Prop := {
  ce_data : same_data s s';
  ce_free : forall x, x ∈ l -> fat_at s' x = 0;
  ce_other : forall x, 0 <= x < entries_of s -> (x ∉ l) -> fat_at s' x = fat_at s x
}.

Lemma erase_loop_spec fuel s c l :
  fat_wf s -> disk_chain s c l -> (length l <= fuel)%nat ->
  (forall e, last l = Some e -> fat_at s e = 0xFFFF) ->
  exists s', erase_loop fuel c s = Ret (tt, s') /\ chain_erased s s' l.
Proof.
  revert s c l. induction fuel as [|fuel IH]; intros s c l Hw Hch Hf Hlast;
    (destruct l as [|x l]; [done|]); [simpl in Hf; lia|].
  destruct (chain_step s c x l Hw Hch) as (s1 & Hg & Hs & -> & Hu & Hl).
  pose proof (chain_nodup _ _ _ _ Hch) as Hnd. apply NoDup_cons in Hnd as [Hcl _].
  assert (Hc : link_ok (entries_of s) c) by (eapply (chain_ok (eoc := 0xFFF8)); [exact Hch|by left]). unfold link_ok in Hc.
  cbn [erase_loop]. step Hg.
  assert (Hent1 : entries_of s1 = entries_of s) by (unfold entries_of; by rewrite (sd_header _ _ Hs)).
  destruct (write_fat_entry_spec s1 c 0) as (s2 & Hw2 & Hew); [apply Hs|lia|lia|]. step Hw2. rewrite Hu.
  assert (Hfat2 : forall x, 0 <= x < entries_of s -> x <> c -> fat_at s2 x = fat_at s x).
  { intros x Hx Hne. rewrite (ew_other _ _ _ _ Hew) by lia. by apply (same_disk_fat s s1). }
  assert (Hd2 : same_data s s2).
  { eapply same_data_trans; [exact (same_disk_data _ _ Hw Hs)|].
    apply (entry_written_data s1 s2 c 0); [apply Hs|lia|done]. }
  destruct l as [|y l].
  - rewrite (Hlast c) by done. rewrite Z.eqb_refl. exists s2. split; [done|]. split; [done| |].
    + intros x Hx%list_elem_of_singleton. subst x. apply Hew.
    + intros x Hx Hxl. apply Hfat2; [done|]. intros ->. apply Hxl. by left.
  - destruct Hl as [Hlt Hch1]. rewrite (proj2 (Z.eqb_neq _ _)) by lia.
    pose proof (chain_nodup _ _ _ _ Hch) as Hnd.
    assert (Hch0 : disk_chain s (fat_at s c) (y :: l)) by apply Hch.
    assert (Hch2 : disk_chain s2 (fat_at s c) (y :: l)).
    { unfold disk_chain. rewrite (same_data_entries _ _ Hd2). eapply chain_ext; [|exact Hch0].
      intros x Hx. pose proof (chain_ok _ _ _ _ _ Hch0 Hx) as Hok. unfold link_ok in Hok.
      apply Hfat2; [lia|]. by intros ->. }
    destruct (IH s2 (fat_at s c) (y :: l)) as (s3 & Hr & [Hd3 Hfr3 Hoth3]); [apply Hd2|done|simpl in *; lia| |].
    { intros e He. assert (e ∈ y :: l) by (by apply last_Some_elem_of).
      pose proof (chain_ok _ _ _ _ e Hch0 ltac:(done)) as Hok. unfold link_ok in Hok.
      rewrite Hfat2 by (lia || by intros ->). apply Hlast. by rewrite last_cons_cons. }
    exists s3. split; [done|]. rewrite (same_data_entries _ _ Hd2) in Hoth3.
    split; [by eapply same_data_trans| |].
    + intros x. rewrite elem_of_cons. intros [-> |Hx]; [|by apply Hfr3].
      rewrite Hoth3 by (done || lia). apply Hew.
    + intros x Hx Hxl. apply not_elem_of_cons in Hxl as [? ?]. rewrite Hoth3 by done. by apply Hfat2.
Qed.

(** ** File contents *)

(** The cluster numbers that [fat16_get_cluster_for_offset] does not take for
    an end or error mark. *)
Definition plain (x : Z) : Prop :=
  x <> 0xFF0 /\ x <> 0xFF6 /\ x <> 0xFF8 /\ x <> 0xFFF /\ x <> SERPAEOS_FAT16_BAD_SECTOR.

Lemma plain_tests z :
  plain z -> z <> 0 ->
  (z =? 0xFF8) || (z =? 0xFFF) = false /\ (z =? SERPAEOS_FAT16_BAD_SECTOR) = false /\
  (z =? 0xFF0) || (z =? 0xFF6) = false /\ (z =? 0) = false.
Proof.
  intros (H1 & H2 & H3 & H4 & H5) H6. rewrite !orb_false_iff, !Z.eqb_neq. done.
Qed.

Lemma cluster_loop_spec n s c l x :
  fat_wf s -> disk_chain s c l -> Forall plain l -> l !! n = Some x ->
  exists s', cluster_for_offset_loop n c s = Ret (x, s') /\ same_disk s s'.
Proof.
  revert s c l. induction n as [|n IH]; intros s c l Hw Hch Hpl Hx; (destruct l as [|y l]; [done|]).
  - cbn in Hx. injection Hx as <-. destruct Hch as [-> _]. exists s. split; [done|by apply same_disk_refl].
  - destruct (chain_step s c y l Hw Hch) as (s1 & Hg & Hs & -> & _ & Hl).
    destruct l as [|z l]; [done|]. destruct Hl as [_ Hch1]. cbn [cluster_for_offset_loop]. step Hg.
    inversion Hpl as [|? ? _ Hpl']; subst. inversion Hpl' as [|? ? Hz _]; subst.
    assert (fat_at s c = z) as Hfz by (by destruct Hch1).
    assert (fat_at s c <> 0).
    { by apply (disk_chain_used s c (c :: z :: l)); [|left]. }
    rewrite Hfz in *. destruct (plain_tests z) as (-> & -> & -> & ->); [done|done|].
    destruct (IH s1 z (z :: l)) as (s2 & Hr & Hs2); [apply Hs|done|done|done|].
    exists s2. split; [done|]. by eapply same_disk_trans.
Qed.

(** Where a cluster's bytes are, and what they are. *)
Definition data_pos s (x : Z) : Z :=
  (dir_ending_sector_pos (root_directory s) + (x - 2) * sectors_per_cluster (header s)) * 512.
Definition cluster_size s : nat := Z.to_nat (sectors_per_cluster (header s) * 512).
Definition cluster_data s (x : Z) : list Z := slice (fdev s) (data_pos s x) (cluster_size s).
Definition file_data s (l : list Z) : list Z := concat (cluster_data s <$> l).

Definition data_fits s (x : Z) : Prop :=
  0 <= data_pos s x /\ data_pos s x + Z.of_nat (cluster_size s) < disk_size (D := D).

(** A cluster behind the first 2 GB, of which the volume of boot.asm has about
    half: the position the driver seeks to is negative. *)
Lemma far_cluster_negative s x :
  sector_size (fdisk s) = 512 -> 2147483648 <= data_pos s x < 4294967296 ->
  fat16_sector_to_absolute s (fat16_cluster_to_sector s x) = data_pos s x - 4294967296.
Proof.
  intros Hs Hx. unfold fat16_sector_to_absolute, fat16_cluster_to_sector. rewrite Hs. unfold data_pos in *.
  set (k := dir_ending_sector_pos _ + _) in *. rewrite (s32_id k) by lia. unfold s32. zlia.
Qed.

(** Writing one of the reserved sectors, in front of the table, keeps every
    chain and every file whose clusters lie behind them: what the programs that
    write sectors rely on. *)
Definition set_fdev (d : D) s : fatst D :=
  mk_fatst d (cluster_pos s) (fat_pos s) (dir_pos s) (fdisk s) (header s) (root_directory s).

Lemma reserved_write_keeps_files s k buf c l :
  fat_wf s -> 0 <= k < reserved_sectors (header s) -> length buf = 512%nat -> bytes buf ->
  disk_chain s c l -> Forall (data_fits s) l -> Forall (fun x => reserved_sectors (header s) * 512 <= data_pos s x) l ->
  exists d', write_block k buf (fdev s) = Ret (0, d') /\ fat_wf (set_fdev d' s) /\
    disk_chain (set_fdev d' s) c l /\ file_data (set_fdev d' s) l = file_data s l.
Proof.
  intros Hw Hk Hl Hb Hch Hfit Hbehind. pose proof Hw as [Hok Hsec Hspc Hres Hspf Hfits].
  destruct (write_block_ok (fdev s) k buf Hok ltac:(unfold disk_size in Hfits; lia) Hl Hb) as (d' & E & Hok' & Hsame).
  exists d'. assert (Hbyte : forall p, reserved_sectors (header s) * 512 <= p < disk_size (D := D) -> byte_at d' p = byte_at (fdev s) p).
  { intros p Hp. unfold byte_at. rewrite Hsame by (unfold disk_size in Hp; zlia). by rewrite (proj2 (Z.eqb_neq _ _)) by zlia. }
  split; [exact E|]. split; [by split|]. split.
  - eapply chain_ext; [|exact Hch]. intros x Hx. pose proof (chain_ok _ _ _ _ _ Hch Hx) as Hxok. unfold link_ok in Hxok.
    pose proof (entry_range s x Hw ltac:(lia)) as Hr. unfold fat_at, entry_pos in *. cbn [fdev header set_fdev].
    by rewrite !Hbyte by lia.
  - unfold file_data. f_equal. apply list_fmap_ext. intros i x Hx. unfold cluster_data, slice. cbn [fdev header set_fdev].
    apply list_fmap_ext. intros j p [-> Hj]%lookup_seqZ. apply Hbyte.
    rewrite Forall_lookup in Hfit, Hbehind. specialize (Hfit i x Hx). specialize (Hbehind i x Hx). cbn beta in Hbehind.
    unfold data_fits in Hfit. change (data_pos (set_fdev d' s) x) with (data_pos s x). 
    change (cluster_size (set_fdev d' s)) with (cluster_size s) in Hj. lia.
Qed.

(** A piece of a file inside one cluster. *)
Lemma file_data_piece s l k x r t :
  l !! k = Some x -> (r + t <= cluster_size s)%nat ->
  take t (drop (k * cluster_size s + r) (file_data s l)) = slice (fdev s) (data_pos s x + Z.of_nat r) t.
Proof. apply (clusters_data_piece (fdev s) (data_pos s)). Qed.

Lemma same_disk_piece s s' x r t :
  same_disk s s' -> data_fits s x -> (r + t <= cluster_size s)%nat ->
  slice (fdev s') (data_pos s x + Z.of_nat r) t = slice (fdev s) (data_pos s x + Z.of_nat r) t.
Proof.
  intros Hs [Hf1 Hf2] Hr. unfold slice. apply list_fmap_ext. intros i y [-> Hi]%lookup_seqZ.
  apply (sd_bytes _ _ Hs). lia.
Qed.

Lemma same_disk_file s s' l :
  same_disk s s' -> Forall (data_fits s) l -> file_data s' l = file_data s l.
Proof.
  intros Hs Hl. unfold file_data. f_equal. apply list_fmap_ext. intros i x Hx.
  pose proof (Forall_lookup_1 _ _ _ _ Hl Hx) as Hf. unfold cluster_data.
  assert (data_pos s' x = data_pos s x) as -> by (unfold data_pos; by rewrite (sd_root _ _ Hs), (sd_header _ _ Hs)).
  assert (cluster_size s' = cluster_size s) as -> by (unfold cluster_size; by rewrite (sd_header _ _ Hs)).
  pose proof (same_disk_piece s s' x 0 (cluster_size s) Hs Hf ltac:(lia)) as Hp.
  by rewrite Z.add_0_r in Hp.
Qed.

Lemma cluster_bytes_eq s : fat_wf s -> cluster_bytes s = Z.of_nat (cluster_size s).
Proof. intros Hw. unfold cluster_bytes, cluster_size. rewrite (fw_sector _ Hw). pose proof (fw_spc _ Hw). lia. Qed.

(** What the driver may be asked to read: whole clusters from a cluster
    boundary, or bytes of one cluster. *)
Definition readable s (offset total : Z) : Prop :=
  offset mod Z.of_nat (cluster_size s) = 0 \/
  offset mod Z.of_nat (cluster_size s) + total <= Z.of_nat (cluster_size s).

(** One turn: the piece of the file in the cluster of [offset]. *)
Lemma read_piece s c l offset t k x :
  fat_wf s -> disk_chain s c l -> Forall plain l -> Forall (data_fits s) l ->
  0 <= offset -> k = Z.to_nat (offset / Z.of_nat (cluster_size s)) -> l !! k = Some x -> 0 <= t ->
  offset mod Z.of_nat (cluster_size s) + t <= Z.of_nat (cluster_size s) ->
  exists s1 s2, fat16_get_cluster_for_offset c offset s = Ret (x, s1) /\ same_disk s s1 /\
    (on_cluster (diskstreamer_seek (s32 (fat16_cluster_to_sector s1 x * sector_size (fdisk s1) +
                                           Z.rem offset (cluster_bytes s)))) ≫= fun _ =>
     on_cluster (diskstreamer_read t)) s1 =
      Ret ((0, take (Z.to_nat t) (drop (Z.to_nat offset) (file_data s l))), s2) /\ same_disk s s2.
Proof.
  intros Hw Hch Hpl Hfit Ho -> Hx Ht Hr. set (cs := cluster_size s) in *.
  assert (Hcs : 512 <= Z.of_nat cs <= 65536) by (subst cs; unfold cluster_size; pose proof (fw_spc _ Hw); lia).
  unfold fat16_get_cluster_for_offset. erewrite bind_Ret by reflexivity.
  rewrite cluster_bytes_eq by done. fold cs. rewrite Z.quot_div_nonneg, Z.rem_mod_nonneg by lia.
  destruct (cluster_loop_spec _ s c l x Hw Hch Hpl Hx) as (s1 & Hc1 & Hs1). exists s1.
  pose proof (Forall_lookup_1 _ _ _ _ Hfit Hx) as [Hf1 Hf2]. pose proof disk_size_bound.
  pose proof (Z.mod_pos_bound offset (Z.of_nat cs) ltac:(lia)) as Hmb. fold cs in Hf2.
  assert (Hdb : 0 <= offset / Z.of_nat cs) by (apply Z.div_pos; lia).
  assert (Hoff : Z.to_nat offset = (Z.to_nat (offset / Z.of_nat cs) * cs + Z.to_nat (offset mod Z.of_nat cs))%nat).
  { apply Nat2Z.inj. rewrite Nat2Z.inj_add, Nat2Z.inj_mul, !Z2Nat.id by lia.
    pose proof (Z.div_mod offset (Z.of_nat cs)). lia. }
  pose proof (chain_ok _ _ _ _ _ Hch (list_elem_of_lookup_2 _ _ _ Hx)) as Hxok. unfold link_ok in Hxok.
  set (p := data_pos s x + offset mod Z.of_nat cs).
  assert (s32 (fat16_cluster_to_sector s1 x * sector_size (fdisk s1) + offset mod Z.of_nat cs) = p) as ->.
  { unfold fat16_cluster_to_sector. rewrite (sd_root _ _ Hs1), (sd_header _ _ Hs1), (sd_disk _ _ Hs1), (fw_sector _ Hw).
    subst p. unfold data_pos in *.
    set (a := dir_ending_sector_pos (root_directory s) + (x - 2) * sectors_per_cluster (header s)) in *.
    rewrite (s32_id a) by lia. rewrite s32_id by lia. lia. }
  assert (Hp : 0 <= p /\ p + t < disk_size (D := D)) by (subst p; lia).
  destruct (read_rec_spec (S (Z.to_nat t)) t (mk_stream (fdev s1) p)) as (st & Hrd & Hok & _ & Hsame);
    cbn [sdisk pos] in *; [apply Hs1|lia|lia|lia|lia|].
  eexists. split; [done|]. split; [done|]. split.
  { erewrite bind_Ret by reflexivity. unfold on_cluster. cbn [fdev cluster_pos sdisk pos].
    unfold diskstreamer_read. rewrite Hrd.
    assert (slice (fdev s1) p (Z.to_nat t) = take (Z.to_nat t) (drop (Z.to_nat offset) (file_data s l))) as ->;
      [|reflexivity].
    rewrite Hoff.
    rewrite (file_data_piece s l _ x) by (done || (fold cs; lia)).
    rewrite <- (same_disk_piece s s1 x) by (done || (fold cs; lia)).
    subst p. by rewrite Z2Nat.id by lia. }
  destruct Hs1 as [Hw1 Hb1 Hd1 Hh1 Hr1]. split; simpl; try done.
  - destruct Hw1. by split.
  - intros q Hq. rewrite <- Hb1 by done. unfold byte_at. rewrite Hsame; [done|]. unfold disk_size in Hq. zlia.
Qed.

Lemma read_internal_spec fuel s c l offset total :
  fat_wf s -> disk_chain s c l -> Forall plain l -> Forall (data_fits s) l ->
  0 <= offset -> 0 < total -> offset + total <= Z.of_nat (length l * cluster_size s) ->
  offset + total < 2147483648 -> readable s offset total -> (Z.to_nat total <= fuel)%nat ->
  exists s', fat16_read_internal_from_stream fuel c offset total s =
      Ret ((0, take (Z.to_nat total) (drop (Z.to_nat offset) (file_data s l))), s') /\ same_disk s s'.
Proof.
  revert s offset total. induction fuel as [|fuel IH]; intros s offset total Hw Hch Hpl Hfit Ho Ht Hend Hmax Hrd Hf;
    [lia|]. set (cs := cluster_size s) in *.
  assert (Hcs : 512 <= Z.of_nat cs <= 65536) by (subst cs; unfold cluster_size; pose proof (fw_spc _ Hw); lia).
  unfold readable in Hrd. fold cs in Hrd.
  assert (Hk : (Z.to_nat (offset / Z.of_nat cs) < length l)%nat).
  { apply Nat2Z.inj_lt. rewrite Z2Nat.id by (apply Z.div_pos; lia). apply Z.div_lt_upper_bound; lia. }
  destruct (lookup_lt_is_Some_2 l _ Hk) as [x Hx].
  set (t := if Z.of_nat cs <? total then Z.of_nat cs else total).
  assert (Htr : 0 < t <= total /\ offset mod Z.of_nat cs + t <= Z.of_nat cs /\ (t < total -> t = Z.of_nat cs)).
  { subst t. bcase; breflect; [|split_and!; lia].
    destruct Hrd as [Hrd|Hrd]; [rewrite Hrd; lia|]. pose proof (Z.mod_pos_bound offset (Z.of_nat cs)). lia. }
  destruct (read_piece s c l offset t _ x Hw Hch Hpl Hfit Ho eq_refl Hx) as (s1 & s2 & Hg & Hs1 & Hread & Hs2);
    [lia|fold cs; lia|].
  cbn [fat16_read_internal_from_stream]. erewrite bind_Ret by reflexivity. cbv zeta. step Hg.
  pose proof (chain_ok _ _ _ _ _ Hch (list_elem_of_lookup_2 _ _ _ Hx)) as Hxok. unfold link_ok in Hxok.
  rewrite (proj2 (Z.ltb_ge x 0)) by lia. erewrite bind_Ret by reflexivity.
  set (p := s32 _) in Hread |- *. rewrite (bind_Ret _ _ _ 0 _ eq_refl) in Hread.
  erewrite bind_Ret by reflexivity. cbn [Z.eqb negb SERPAEOS_ALL_OK].
  rewrite cluster_bytes_eq by done. fold cs. fold t. step Hread. cbn [Z.eqb negb SERPAEOS_ALL_OK].
  clearbody t. destruct (0 <? total - t) eqn:E; breflect.
  - assert (t = Z.of_nat cs) as Htcs by lia. rewrite s32_id by lia.
    assert (cluster_size s2 = cs) as Hcs2 by (unfold cluster_size; by rewrite (sd_header _ _ Hs2)).
    assert (Forall (data_fits s2) l) as Hfit2.
    { eapply Forall_impl; [exact Hfit|]. intros y. unfold data_fits, data_pos, cluster_size.
      by rewrite (sd_root _ _ Hs2), (sd_header _ _ Hs2). }
    assert (Hrd2 : readable s2 (offset + t) (total - t)).
    { unfold readable. rewrite Hcs2. left. rewrite Htcs, <- Zplus_mod_idemp_r, Z_mod_same_full, Z.add_0_r.
      destruct Hrd as [Hrd|Hrd]; [done|]. pose proof (Z.mod_pos_bound offset (Z.of_nat cs)). lia. }
    destruct (IH s2 (offset + t) (total - t)) as (s3 & Hr3 & Hs3);
      [apply Hs2|by apply (same_disk_chain s s2)|done|done|lia|lia|rewrite Hcs2; lia|lia|done|lia|].
    step Hr3. exists s3. split; [|by eapply same_disk_trans].
      rewrite (same_disk_file s s2 l Hs2 Hfit). unfold mret, cmd_ret. do 3 f_equal.
      replace (Z.to_nat total) with (Z.to_nat t + Z.to_nat (total - t))%nat by lia.
      replace (Z.to_nat (offset + t)) with (Z.to_nat offset + Z.to_nat t)%nat by lia.
      by rewrite <- drop_drop, take_take_drop.
  - assert (total = t) as -> by lia. exists s2. split; done.
Qed.
End with_disk.

(** ** Properties *)

(** A disk of 64 sectors for the witnesses: one reserved sector, a table of
    256 entries with the chain 2, 4 and everything else free, the data area
    from sector 4 on, one sector per cluster, sector [k] filled with [k]. *)
Definition demo_table : list Z :=
  [0xF8; 0xFF; 0xFF; 0xFF; 4; 0; 0; 0; 0xFF; 0xFF] ++ replicate 502 0.
Definition demo_image : list (list Z) :=
  replicate 512 0 :: demo_table :: ((fun k => replicate 512 k) <$> seqZ 2 62).
Definition demo_fat : fatst (ata_dev 64) :=
  mk_fatst (mk_ata 0 0 0 0 0 [] 0 [] 0 demo_image) 0 0 0 disk0
    (mk_header 1 1 1 32 1 50 0x29) (mk_dir [] 0 2 4).

Lemma demo_fat_wf : fat_wf demo_fat.
Proof.
  split; [|reflexivity|vm_compute; split; discriminate|vm_compute; discriminate
    |vm_compute; split; discriminate|vm_compute; reflexivity].
  split; [reflexivity|]. apply (bool_decide_unpack _). vm_compute. exact I.
Qed.

Lemma demo_fat_searchable : searchable demo_fat.
Proof. split; [reflexivity|left; reflexivity]. Qed.

Lemma demo_fat_chain : disk_chain demo_fat 2 [2; 4].
Proof. vm_compute. repeat split; discriminate. Qed.

(** A table entry that is written is read back, for every cluster of the
    table and every 16-bit value; every other entry, and every byte of the
    disk outside the entry, keeps its value. *)
Theorem fat_entry_roundtrip {D} `{BlockDevOk D} (s : fatst D) c v :
  fat_wf s -> 0 <= c < entries_of s -> 0 <= v < 65536 ->
  exists s1, fat16_write_fat_entry c v s = Ret (2, s1) /\ fat_wf s1 /\
    (forall c', 0 <= c' < entries_of s ->
       exists s2, fat16_get_fat_entry c' s1 = Ret (if c' =? c then v else fat_at s c', s2)) /\
    (forall p, 0 <= p < disk_size (D := D) -> ~ (entry_pos s c <= p < entry_pos s c + 2) ->
       byte_at (fdev s1) p = byte_at (fdev s) p).
Proof.
  intros Hw Hc Hv. destruct (write_fat_entry_spec s c v Hw Hc Hv) as (s1 & Hwr & Hew).
  exists s1. split_and!; [done|apply Hew| |apply Hew].
  intros c' Hc'. destruct (get_fat_entry_spec s1 c') as (s2 & Hg & _); [apply Hew| |].
  { unfold entries_of in *. by rewrite (ew_header _ _ _ _ Hew). }
  exists s2. rewrite Hg. destruct (c' =? c) eqn:E; breflect.
  - subst c'. by rewrite (ew_entry _ _ _ _ Hew).
  - by rewrite (ew_other _ _ _ _ Hew).
Qed.

Lemma fat_entry_roundtrip_witness :
  exists s1 s2, fat16_write_fat_entry 7 0x1234 demo_fat = Ret (2, s1) /\
    fat16_get_fat_entry 7 s1 = Ret (0x1234, s2).
Proof.
  destruct (fat_entry_roundtrip demo_fat 7 0x1234 demo_fat_wf) as (s1 & Hw & _ & Hg & _).
  - vm_compute. split; [discriminate|reflexivity].
  - lia.
  - destruct (Hg 7) as (s2 & Hs2); [vm_compute; split; [discriminate|reflexivity]|].
    exists s1, s2. split; [exact Hw|exact Hs2].
Defined.

(** The three ways the driver walks a chain agree: on every well-formed
    chain that fits the fuel, [fat16_find_last_cluster_of_chain] returns its last
    cluster, [fat16_count_clusters_in_chain] its length and
    [fat16_get_cluster_chain] the clusters themselves, without changing the disk. *)
Theorem chain_walks_agree {D} `{BlockDevOk D} fuel (s : fatst D) c l :
  fat_wf s -> disk_chain s c l -> (length l <= fuel)%nat ->
  (exists s1 e, fat16_find_last_cluster_of_chain fuel c s = Ret (e, s1) /\ last l = Some e /\ same_disk s s1) /\
  (exists s1, fat16_count_clusters_in_chain fuel c 1 s = Ret (Z.of_nat (length l), s1) /\ same_disk s s1) /\
  (exists s1, fat16_get_cluster_chain fuel c s = Ret (l, s1) /\ same_disk s s1).
Proof.
  intros Hw Hch Hf. split_and!.
  - destruct (find_last_spec fuel s c l Hw Hch Hf) as (s1 & e & ? & ? & ?). by exists s1, e.
  - destruct (count_chain_spec fuel s c l 1 Hw Hch Hf) as (s1 & Hr & Hs). exists s1. split; [|done].
    rewrite Hr. do 2 f_equal. lia.
  - by apply get_chain_spec.
Qed.

Lemma chain_walks_agree_witness :
  exists s1, fat16_get_cluster_chain 2 2 demo_fat = Ret ([2; 4], s1).
Proof.
  destruct (chain_walks_agree 2 demo_fat 2 [2; 4] demo_fat_wf demo_fat_chain) as (_ & _ & s1 & Hr & _).
  - simpl. lia.
  - exists s1. exact Hr.
Defined.

(** C35: [fat16_add_cluster_to_chain] takes the lowest free cluster from 3 on
    (cluster 2 is never considered) that is not above the bound of the search,
    sectors_big / sectors_per_cluster, and appends it to the chain; it keeps every
    other chain and touches no byte outside the table.  When the cluster's number
    is 0xFFF8 or more, the driver stores an end mark in place of a link: it
    reports success, the chain is as it was and the cluster is lost.  When no
    cluster is free it reports that and changes nothing.  The search must end in
    the table, or with it at 65536 (the volume of boot.asm), or find a free
    cluster there: [searchable]. *)
Theorem add_cluster_grows {D} `{BlockDevOk D} fuel (s : fatst D) c l :
  fat_wf s -> searchable s -> disk_chain s c l -> (length l <= fuel)%nat ->
  exists r s', fat16_add_cluster_to_chain fuel c s = Ret (r, s') /\
    ((r = 0 /\ exists n, 3 <= n <= Z.max 3 (limit s) /\ n < entries_of s /\ fat_at s n = 0 /\
        (forall c', 3 <= c' < n -> fat_at s c' <> 0) /\
        disk_chain s' c (if n <? 0xFFF8 then l ++ [n] else l) /\ fat_at s' n = 0xFFFF /\ same_data s s' /\
        forall c2 l2, disk_chain s c2 l2 -> (forall x, x ∈ l2 -> x ∉ l) -> disk_chain s' c2 l2) \/
     (r = - ENODISKSPACE /\ same_disk s s' /\
      forall c', 3 <= c' <= Z.max 3 (limit s) -> c' < entries_of s -> fat_at s c' <> 0)).
Proof.
  intros Hw Hse Hch Hf. destruct (add_cluster_spec fuel s c l Hw Hse Hch Hf) as (r & s' & Hr & Hcase).
  exists r, s'. split; [done|]. destruct Hcase as [(-> & n & Hg)|Hno]; [left|by right].
  split; [done|]. exists n. pose proof Hg as [Hd (Hn & Hne & Hfree & Hmin) Htk Hchain _]. split_and!; try done; try apply Hn.
  intros c2 l2. by apply (chain_grown_other s s' c l n).
Qed.

Lemma add_cluster_grows_witness :
  exists r s', fat16_add_cluster_to_chain 2 2 demo_fat = Ret (r, s') /\ r = 0.
Proof.
  destruct (add_cluster_grows 2 demo_fat 2 [2; 4] demo_fat_wf demo_fat_searchable demo_fat_chain)
    as (r & s' & Hr & [[Hz _]|(_ & _ & Hfull)]).
  - simpl. lia.
  - exists r, s'. split; [exact Hr|exact Hz].
  - destruct (Hfull 3); [vm_compute; split; discriminate|vm_compute; reflexivity|vm_compute; reflexivity].
Defined.

(** [fat16_erase_cluster_chain] of a chain that ends in 0xFFFF frees
    exactly the clusters of the chain, and touches no other entry and no byte
    outside the table. *)
Theorem erase_chain_frees {D} `{BlockDevOk D} fuel (s : fatst D) c l :
  fat_wf s -> disk_chain s c l -> 3 <= c -> (length l <= fuel)%nat ->
  (forall e, last l = Some e -> fat_at s e = 0xFFFF) ->
  exists s', fat16_erase_cluster_chain fuel c s = Ret (0, s') /\ same_data s s' /\
    (forall x, x ∈ l -> fat_at s' x = 0) /\
    (forall x, 0 <= x < entries_of s -> (x ∉ l) -> fat_at s' x = fat_at s x).
Proof.
  intros Hw Hch Hc Hf Hlast. unfold fat16_erase_cluster_chain. rewrite (proj2 (Z.leb_gt _ _)) by lia.
  destruct (erase_loop_spec fuel s c l Hw Hch Hf Hlast) as (s' & Hr & [Hd Hfr Hoth]).
  step Hr. by exists s'.
Qed.

Lemma erase_chain_frees_witness :
  exists s', fat16_erase_cluster_chain 1 4 demo_fat = Ret (0, s') /\ fat_at s' 4 = 0.
Proof.
  destruct (erase_chain_frees 1 demo_fat 4 [4] demo_fat_wf) as (s' & Hr & _ & Hfr & _).
  - vm_compute. repeat split; discriminate.
  - lia.
  - simpl. lia.
  - intros e He. injection He as <-. reflexivity.
  - exists s'. split; [exact Hr|]. apply Hfr. left.
Defined.

(** Reading a file: for a request of whole clusters from a cluster
    boundary, or of bytes of a single cluster, inside the file's chain,
    [fat16_read_internal] returns exactly the bytes of the chain's clusters at
    that offset, in order, and does not change the disk. *)
Theorem read_internal_correct {D} `{BlockDevOk D} (s : fatst D) c l offset total :
  fat_wf s -> disk_chain s c l -> Forall plain l -> Forall (data_fits s) l ->
  0 <= offset -> 0 < total -> offset + total <= Z.of_nat (length l * cluster_size s) ->
  offset + total < 2147483648 -> readable s offset total ->
  exists s', fat16_read_internal c offset total s =
    Ret ((0, take (Z.to_nat total) (drop (Z.to_nat offset) (file_data s l))), s') /\ same_disk s s'.
Proof. intros. unfold fat16_read_internal. apply read_internal_spec; (done || lia). Qed.

Lemma read_internal_correct_witness :
  exists s', fat16_read_internal 2 0 600 demo_fat =
    Ret ((0, take (Z.to_nat 600) (drop (Z.to_nat 0) (file_data demo_fat [2; 4]))), s').
Proof.
  destruct (read_internal_correct demo_fat 2 [2; 4] 0 600 demo_fat_wf demo_fat_chain) as (s' & Hr & _).
  - repeat constructor; vm_compute; discriminate.
  - repeat constructor; vm_compute; (discriminate || reflexivity).
  - lia.
  - lia.
  - vm_compute. discriminate.
  - lia.
  - left. vm_compute. reflexivity.
  - exists s'. exact Hr.
Defined.

(** An offset just past the end of a file is not recognised as such: for
    a chain that ends in 0xFFFF, [fat16_get_cluster_for_offset] returns 0xFFFF as
    the number of the next cluster, because it looks for the 12-bit marks 0xFF8
    and 0xFFF. *)
Theorem offset_past_end_unnoticed {D} `{BlockDevOk D} (s : fatst D) c l e :
  fat_wf s -> disk_chain s c l -> Forall plain l -> last l = Some e -> fat_at s e = 0xFFFF ->
  exists s', fat16_get_cluster_for_offset c (Z.of_nat (length l * cluster_size s)) s = Ret (0xFFFF, s').
Proof.
  intros Hw Hch Hpl He Hend. unfold fat16_get_cluster_for_offset. erewrite bind_Ret by reflexivity.
  rewrite cluster_bytes_eq by done.
  assert (0 < cluster_size s)%nat by (unfold cluster_size; pose proof (fw_spc _ Hw); lia).
  rewrite Nat2Z.inj_mul, Z.quot_mul, Nat2Z.id by lia.
  revert s c Hw Hch Hend H1. induction l as [|x l IH]; intros s c Hw Hch Hend Hcs; [done|].
  destruct (chain_step s c x l Hw Hch) as (s1 & Hg & Hs & -> & _ & Hl).
  inversion Hpl as [|? ? _ Hpl']; subst. cbn [length cluster_for_offset_loop]. step Hg.
  destruct l as [|y l].
  - injection He as ->. rewrite Hend. by exists s1.
  - destruct Hl as [Hlt Hch1]. assert (fat_at s c = y) as Hy by (by destruct Hch1).
    inversion Hpl' as [|? ? Hz _]; subst y.
    assert (fat_at s c <> 0) by (by apply (disk_chain_used _ _ _ _ Hch); left).
    destruct (plain_tests (fat_at s c)) as (-> & -> & -> & ->); [done|done|].
    rewrite last_cons_cons in He.
    assert (He_in : e ∈ fat_at s c :: l) by (by apply last_Some_elem_of).
    apply (IH Hpl' He s1 (fat_at s c)); [apply Hs|done| |unfold cluster_size; by rewrite (sd_header _ _ Hs)].
    rewrite <- Hend. apply (same_disk_fat s s1 e Hw Hs).
    pose proof (chain_ok _ _ _ _ e Hch ltac:(by right)) as Hok. unfold link_ok in Hok. lia.
Qed.

Lemma offset_past_end_unnoticed_witness :
  exists s', fat16_get_cluster_for_offset 2 1024 demo_fat = Ret (0xFFFF, s').
Proof.
  apply (offset_past_end_unnoticed demo_fat 2 [2; 4] 4 demo_fat_wf demo_fat_chain).
  - repeat constructor; vm_compute; discriminate.
  - reflexivity.
  - reflexivity.
Defined.
