(* ===== verification/Fat16Names.v ===== *)
(** * FAT file names and directory searches
      (src/src/fs/fat/fat16.c, fat16_write.c)

    The conversions between the 8.3 form of a directory entry and a path
    component, and the searches through the entries of a loaded directory. *)
From S2P Require Import Prelude Config CMem CString Disk Streamer Fat16.

(** [fat16_to_proper_string]: [j] is where [*out] points; the result is the
    buffer and the new place.  [i] counts the characters already copied. *)
Fixpoint proper_loop (inp : list Z) (buf : list Z) (j i size : Z) : outcome (list Z * Z) :=
  match inp with
  | [] => Oob
  | c :: inp =>
      if negb (c =? 0) && negb (c =? 0x20) then
        buf ← store buf j c;
        if size - 1 <=? i then Ret (buf, j + 1)
        else proper_loop inp buf (j + 1) (i + 1) size
      else Ret (buf, j)
  end.

Definition fat16_to_proper_string (buf : list Z) (j : Z) (inp : list Z) (size : Z) : outcome (list Z * Z) :=
  '(buf, j) ← proper_loop inp buf j 0 size;
  buf ← store buf j 0;
  Ret (buf, j).

(** [item] is the 32 bytes of an entry, [out] the caller's buffer. *)
Definition fat16_get_full_relative_filename (item out : list Z) (max_len : Z) : outcome (list Z) :=
  out ← memset out 0 max_len;
  '(out, out_tmp) ← fat16_to_proper_string out 0 item 8;
  ext0 ← load item 8;
  if negb (ext0 =? 0) && negb (ext0 =? 0x20) then
    out ← store out out_tmp 46;
    '(out, _) ← fat16_to_proper_string out (out_tmp + 1) (drop 8 item) 3;
    Ret out
  else Ret out.

(** The loop of [string_to_FAT_filename], with its counters; it returns early
    when the eighth character of the name or the third of the extension has
    been written. *)
Fixpoint fatname_loop (n : nat) (filename out : list Z) (ext : bool) (f e : Z) : outcome (list Z) :=
  match n with
  | O => Ret out
  | S n =>
      match filename with
      | [] => Oob
      | c :: filename =>
          if c =? 0 then Ret out
          else if c =? 46 then fatname_loop n filename out true f e
          else if ext then
            out ← store out (8 + e) (toupper c);
            if e + 1 =? 3 then Ret out else fatname_loop n filename out ext f (e + 1)
          else
            out ← store out f (toupper c);
            if f + 1 =? 8 then Ret out else fatname_loop n filename out ext (f + 1) e
      end
  end.

Definition string_to_FAT_filename (filename out : list Z) : outcome (list Z) :=
  out ← memset out 32 11;
  fatname_loop 13 filename out false 0 0.

(** The [i]th entry of a directory's array, and the bytes from it on. *)
Definition item_at (dir : fat_directory) (i : Z) : outcome (list Z) :=
  if (0 <=? i) && (32 * i + 32 <=? Z.of_nat (length (dir_items dir)))
  then Ret (take 32 (drop (Z.to_nat (32 * i)) (dir_items dir)))
  else Oob.

(** The index of the entry with a name, -1 if there is none; [tmp] is the
    108-byte stack buffer. *)
Fixpoint find_entry_loop (n : nat) (dir : fat_directory) (tmp name : list Z) (i : Z) : outcome Z :=
  match n with
  | O => Ret (-1)
  | S n =>
      item ← item_at dir i;
      tmp ← fat16_get_full_relative_filename item tmp SERPAEOS_MAX_PATH;
      r ← istrncmp tmp name SERPAEOS_MAX_PATH;
      if r =? 0 then Ret i else find_entry_loop n dir tmp name (i + 1)
  end.

Definition fat16_find_entry_in_directory (dir : fat_directory) (name : list Z) : outcome Z :=
  find_entry_loop (Z.to_nat (dir_total dir)) dir (replicate 108 0) name 0.

(** [uint16_t res] wraps; the array ends the search by [Oob]. *)
Fixpoint fat16_find_free_entry_in_directory (fuel : nat) (dir : fat_directory) (res : Z) : outcome Z :=
  match fuel with
  | O => OutOfFuel
  | S fuel =>
      item ← item_at dir res;
      c ← load item 0;
      if (c =? 0) || (c =? 0xE5) then Ret res
      else fat16_find_free_entry_in_directory fuel dir (u16 (res + 1))
  end.

Section with_disk.
Context {D : Type} `{BlockDev D}.

(** Entries are counted until one starts with a zero byte; deleted ones are
    skipped.  There is no other bound. *)
Fixpoint total_items_loop (fuel : nat) (i : Z) : cmd (fatst D) Z :=
  match fuel with
  | O => liftO OutOfFuel
  | S fuel =>
      '(res, item) ← on_dir (diskstreamer_read item_size);
      if negb (res =? SERPAEOS_ALL_OK) then mret (- EIO)
      else
        c ← liftO (load item 0);
        if c =? 0 then mret i
        else if c =? 0xE5 then total_items_loop fuel i
        else total_items_loop fuel (i + 1)
  end.

Definition fat16_get_total_items_for_directory (fuel : nat) (directory_start_sector : Z) : cmd (fatst D) Z :=
  s ← getS;
  let directory_start_pos := s32 (directory_start_sector * sector_size (fdisk s)) in
  r ← on_dir (diskstreamer_seek directory_start_pos);
  if negb (r =? SERPAEOS_ALL_OK) then mret (- EIO)
  else total_items_loop fuel 0.
End with_disk.

(** ** The 8.3 form *)

(** A character that can be in either part of a name. *)
Definition name_char (c : Z) : Prop := 32 < c < 256 /\ c <> 46.

Definition pad (n : nat) (l : list Z) : list Z := l ++ replicate (n - length l) 32.
#[local] Arguments pad : simpl never.
Definition entry_name (base ext : list Z) : list Z := pad 8 (toupper <$> base) ++ pad 3 (toupper <$> ext).

Lemma toupper_char c : name_char c -> 32 < toupper c < 256 /\ toupper c <> 46.
Proof. unfold name_char, toupper. intros [? ?]. bcase; breflect; lia. Qed.

Lemma length_pad n l : (length l <= n)%nat -> length (pad n l) = n.
Proof. intros Hl. unfold pad. rewrite length_app, length_replicate. lia. Qed.

(** Overwriting the padding one character at a time. *)
Lemma store_pad pre done c k post i :
  i = Z.of_nat (length pre + length done) -> (0 < k)%nat ->
  store (pre ++ (done ++ replicate k 32) ++ post) i c =
    Ret (pre ++ ((done ++ [c]) ++ replicate (k - 1) 32) ++ post).
Proof.
  intros -> Hk. destruct k as [|k]; [lia|]. rewrite store_Ret by (rewrite !length_app, length_replicate; lia).
  rewrite Nat2Z.id. f_equal. rewrite insert_app_r. f_equal. rewrite <- !app_assoc.
  rewrite <- (Nat.add_0_r (length done)). rewrite insert_app_r. f_equal. cbn [replicate app insert list_insert].
  by rewrite Nat.sub_succ, Nat.sub_0_r.
Qed.

Lemma fatname_base n base rest done e post :
  Forall name_char base -> (length done + length base < 8)%nat -> (length base <= n)%nat ->
  fatname_loop n (base ++ rest) ((done ++ replicate (8 - length done) 32) ++ post) false (Z.of_nat (length done)) e =
  fatname_loop (n - length base) rest (((done ++ (toupper <$> base)) ++ replicate (8 - length done - length base) 32) ++ post)
    false (Z.of_nat (length done + length base)) e.
Proof.
  revert n done. induction base as [|c base IH]; intros n done Hb Hl Hn.
  { cbn [length app fmap list_fmap]. by rewrite app_nil_r, !Nat.sub_0_r, Nat.add_0_r. }
  inversion Hb as [|? ? [Hc1 Hc2] Hb']; subst. destruct n as [|n]; [simpl in Hn; lia|].
  cbn [app fatname_loop]. rewrite (proj2 (Z.eqb_neq c 0)), (proj2 (Z.eqb_neq c 46)) by lia.
  pose proof (store_pad [] done (toupper c) (8 - length done) post (Z.of_nat (length done)) eq_refl) as Hst.
  cbn [app] in Hst. simpl in Hl, Hn. rewrite Hst by lia. simpl mbind.
  rewrite (proj2 (Z.eqb_neq (Z.of_nat (length done) + 1) 8)) by lia.
  specialize (IH n (done ++ [toupper c]) Hb'). rewrite length_app in IH. cbn [length] in IH.
  replace (8 - length done - 1)%nat with (8 - (length done + 1))%nat by lia.
  replace (Z.of_nat (length done) + 1) with (Z.of_nat (length done + 1)) by lia.
  rewrite IH by lia. cbn [length fmap list_fmap]. rewrite <- (app_assoc done). cbn [app].
  replace (8 - (length done + 1) - length base)%nat with (8 - length done - S (length base))%nat by lia.
  by replace (length done + 1 + length base)%nat with (length done + S (length base))%nat by lia.
Qed.

Lemma fatname_ext n ext rest done pre f post :
  Forall name_char ext -> (length done + length ext <= 3)%nat -> (length ext < n)%nat -> length pre = 8%nat ->
  fatname_loop n (ext ++ 0 :: rest) (pre ++ (done ++ replicate (3 - length done) 32) ++ post) true f
    (Z.of_nat (length done)) =
  Ret (pre ++ ((done ++ (toupper <$> ext)) ++ replicate (3 - length done - length ext) 32) ++ post).
Proof.
  revert n done. induction ext as [|c ext IH]; intros n done Hb Hl Hn Hpre; (destruct n as [|n]; [simpl in *; lia|]).
  { cbn [length app fmap list_fmap fatname_loop Z.eqb]. by rewrite app_nil_r, Nat.sub_0_r. }
  inversion Hb as [|? ? [Hc1 Hc2] Hb']; subst.
  cbn [app fatname_loop]. rewrite (proj2 (Z.eqb_neq c 0)), (proj2 (Z.eqb_neq c 46)) by lia.
  simpl in Hl, Hn.
  rewrite (store_pad pre done (toupper c) (3 - length done) post (8 + Z.of_nat (length done))) by lia.
  simpl mbind.
  replace (3 - length done - 1)%nat with (3 - length (done ++ [toupper c]))%nat by (rewrite length_app; simpl; lia).
  destruct (Z.of_nat (length done) + 1 =? 3) eqn:E; breflect.
  - destruct ext; [|simpl in *; lia]. cbn [fmap list_fmap length].
    replace (3 - length done - 1)%nat with 0%nat by lia.
    by replace (3 - length (done ++ [toupper c]))%nat with 0%nat by (rewrite length_app; simpl; lia).
  - replace (Z.of_nat (length done) + 1) with (Z.of_nat (length (done ++ [toupper c]))) by (rewrite length_app; simpl; lia).
    rewrite IH; [|done|rewrite length_app; simpl; lia|lia|done].
    rewrite length_app. cbn [length fmap list_fmap]. rewrite <- (app_assoc done). cbn [app].
    by replace (3 - (length done + 1) - length ext)%nat with (3 - length done - S (length ext))%nat by lia.
Qed.

(** A name of at most seven characters with its extension becomes the eleven
    bytes of an entry; the rest of the entry is kept. *)
Lemma string_to_FAT_filename_spec base ext rest out :
  Forall name_char base -> Forall name_char ext ->
  (length base <= 7)%nat -> (length ext <= 3)%nat -> (11 <= length out)%nat ->
  string_to_FAT_filename (base ++ 46 :: ext ++ 0 :: rest) out = Ret (entry_name base ext ++ drop 11 out).
Proof.
  intros Hb He Hlb Hle Hlo. unfold string_to_FAT_filename. rewrite memset_spec by lia. cbn [mbind outcome_bind].
  change (replicate (Z.to_nat 11) (u8 32)) with (replicate 8 32 ++ replicate 3 32).
  change (Z.to_nat 11) with 11%nat. rewrite <- (app_assoc _ (replicate 3 _)).
  pose proof (fatname_base 13 base (46 :: ext ++ 0 :: rest) [] 0 (replicate 3 32 ++ drop 11 out)) as E.
  cbn [length app] in E. change (Z.of_nat 0) with 0 in E. 
  change (8 - 0)%nat with 8%nat in E. rewrite E by (done || lia). clear E.
  destruct (13 - length base)%nat as [|n] eqn:En; [lia|]. cbn [fatname_loop Z.eqb Pos.eqb].
  pose proof (fatname_ext n ext rest [] ((toupper <$> base) ++ replicate (8 - length base) 32)
                (Z.of_nat (0 + length base)) (drop 11 out)) as E.
  cbn [length app] in E. change (Z.of_nat 0) with 0 in E.
  change (3 - 0)%nat with 3%nat in E.
  rewrite E; [|done|lia|lia|rewrite length_app, length_fmap, length_replicate; lia]. f_equal.
  unfold entry_name, pad. rewrite !length_fmap, <- !app_assoc. done.
Qed.

(** ** Reading the name of an entry *)
Lemma proper_loop_spec s inp pre old post i size :
  Forall name_char s -> length old = length s -> 0 <= i ->
  i + Z.of_nat (length s) <= size ->
  (i + Z.of_nat (length s) < size -> exists t, inp = 32 :: t) -> (i < size) ->
  proper_loop (s ++ inp) (pre ++ old ++ post) (Z.of_nat (length pre)) i size =
    Ret (pre ++ s ++ post, Z.of_nat (length pre + length s)).
Proof.
  revert pre old i. induction s as [|c s IH]; intros pre old i Hs Ho Hi Hle Hend Hlt.
  - destruct Hend as [t ->]; [simpl; lia|]. destruct old; [|done]. simpl. by rewrite Nat.add_0_r.
  - inversion Hs as [|? ? [Hc1 Hc2] Hs']; subst. destruct old as [|o old]; [done|].
    cbn [app proper_loop]. change 0x20 with 32.
    rewrite (proj2 (Z.eqb_neq c 0)), (proj2 (Z.eqb_neq c 32)) by lia. cbn [negb andb].
    rewrite store_Ret by (rewrite length_app; simpl; lia). simpl mbind.
    rewrite Nat2Z.id, insert_app_r_alt, Nat.sub_diag by lia. cbn [insert list_insert].
    simpl in Hle, Ho, Hend. destruct (size - 1 <=? i) eqn:E; breflect.
    + destruct s; [|simpl in *; lia]. destruct old; [|done]. simpl. do 2 f_equal. lia.
    + specialize (IH (pre ++ [c]) old (i + 1) Hs').
      rewrite length_app, <- !app_assoc in IH. cbn [app length] in IH.
      replace (Z.of_nat (length pre) + 1) with (Z.of_nat (length pre + 1)) by lia.
      rewrite IH by (lia || (intros; apply Hend; lia)). do 2 f_equal. simpl. lia.
Qed.

Lemma to_proper_string_spec s tail pre old z post n :
  Forall name_char s -> length old = length s -> (length s <= n)%nat -> (0 < n)%nat ->
  fat16_to_proper_string (pre ++ old ++ z :: post) (Z.of_nat (length pre)) (pad n s ++ tail) (Z.of_nat n) =
    Ret (pre ++ s ++ 0 :: post, Z.of_nat (length pre + length s)).
Proof.
  intros Hs Ho Hn Hn0. unfold fat16_to_proper_string, pad. rewrite <- app_assoc.
  rewrite proper_loop_spec; try (done || lia).
  - simpl mbind. rewrite store_Ret by (rewrite !length_app; simpl; lia). simpl mbind.
    rewrite Nat2Z.id, insert_app_r, <- (Nat.add_0_r (length s)), insert_app_r.
    cbn [insert list_insert]. by rewrite Nat.add_0_r.
  - intros Hlt. destruct (n - length s)%nat as [|k] eqn:Ek; [lia|]. simpl. by eexists.
Qed.

(** The name of a path component: the base, and the extension after a dot. *)
Definition full_name (base ext : list Z) : list Z :=
  if bool_decide (ext = []) then base else base ++ 46 :: ext.

Lemma name_char_upper s : Forall name_char s -> Forall name_char (toupper <$> s).
Proof. intros H. apply Forall_fmap. eapply Forall_impl; [exact H|]. intros c Hc. by apply toupper_char. Qed.

(** The buffer [fat16_get_full_relative_filename] leaves: the name in upper
    case, then zeros. *)
Lemma full_relative_filename_spec base ext tail out max :
  Forall name_char base -> Forall name_char ext -> (length base <= 8)%nat -> (length ext <= 3)%nat ->
  length out = Z.to_nat max -> Z.of_nat (length (full_name base ext)) < max < 4294967296 ->
  fat16_get_full_relative_filename (entry_name base ext ++ tail) out max =
    Ret ((toupper <$> full_name base ext) ++
         replicate (Z.to_nat max - length (full_name base ext)) 0).
Proof.
  intros Hb He Hlb Hle Hlo Hmax. unfold fat16_get_full_relative_filename.
  assert (Hfull : (length base + (if bool_decide (ext = []) then 0 else S (length ext)) < Z.to_nat max)%nat).
  { unfold full_name in Hmax. case_bool_decide; [lia|]. rewrite length_app in Hmax. cbn [length] in Hmax. lia. }
  rewrite memset_spec by lia. cbn [mbind outcome_bind]. rewrite (drop_ge out), app_nil_r by lia. change (u8 0) with 0.
  set (ub := toupper <$> base). set (ue := toupper <$> ext).
  assert (Hlub : length ub = length base) by apply length_fmap.
  assert (Hlue : length ue = length ext) by apply length_fmap.
  assert (Hub : Forall name_char ub) by by apply name_char_upper.
  assert (Hue : Forall name_char ue) by by apply name_char_upper.
  destruct (Z.to_nat max) as [|m] eqn:Em; [lia|].
  assert (Hrep : forall a b : nat, (a < b)%nat ->
            replicate b 0 = replicate a 0 ++ 0 :: replicate (b - a - 1) 0).
  { intros a b Hab. rewrite <- (replicate_S (b - a - 1)), <- replicate_add. f_equal. lia. }
  rewrite (Hrep (length ub) (S m)) by lia.
  assert (Hen : entry_name base ext ++ tail = pad 8 ub ++ pad 3 ue ++ tail).
  { unfold entry_name. by rewrite <- app_assoc. }
  rewrite Hen.
  pose proof (to_proper_string_spec ub (pad 3 ue ++ tail) [] (replicate (length ub) 0) 0
                (replicate (S m - length ub - 1) 0) 8 Hub) as E.
  cbn [length app] in E. change (Z.of_nat 0) with 0 in E. change (Z.of_nat 8) with 8 in E.
  rewrite E by (rewrite ?length_replicate; lia). clear E. cbn [mbind outcome_bind].
  assert (Hd8 : drop 8 (pad 8 ub ++ pad 3 ue ++ tail) = pad 3 ue ++ tail).
  { apply drop_app_length'. by rewrite length_pad by lia. }
  clear Hmax. unfold full_name. destruct ext as [|c ext].
  - rewrite bool_decide_true by done.
    rewrite (load_Some _ _ 32); [|lia|].
    + simpl. change 0 with (0)%Z. f_equal. fold ub.
      rewrite <- (replicate_S (_ - 1)). do 2 f_equal. lia.
    + change (Z.to_nat 8) with (8 + 0)%nat. by rewrite <- lookup_drop, Hd8.
  - rewrite bool_decide_false in Hfull |- * by done. subst ue. cbn [length] in Hfull. cbn [fmap list_fmap] in *.
    inversion Hue as [|? ? [Hc1 Hc2] _]; subst.
    rewrite (load_Some _ _ (toupper c)); [|lia|].
    2: { change (Z.to_nat 8) with (8 + 0)%nat. by rewrite <- lookup_drop, Hd8. }
    cbn [mbind outcome_bind]. change 0x20 with 32.
    rewrite (proj2 (Z.eqb_neq (toupper c) 0)), (proj2 (Z.eqb_neq (toupper c) 32)) by lia.
    cbn [negb andb]. rewrite store_Ret by (rewrite length_app; simpl; lia). cbn [mbind outcome_bind].
    rewrite Nat2Z.id, insert_app_r_alt, Nat.sub_diag by lia. cbn [insert list_insert].
    set (ue := toupper c :: (toupper <$> ext)) in *.
    assert (Hue1 : length ue = S (length ext)) by exact Hlue.
    assert (length ue <= 3)%nat by (rewrite Hlue; done). rewrite (Hrep (length ue) (S m - length ub - 1)%nat) by lia.
    pose proof (to_proper_string_spec ue tail (ub ++ [46]) (replicate (length ue) 0) 0
                (replicate (S m - length ub - 1 - length ue - 1) 0) 3 Hue) as E.
    rewrite length_app, <- !app_assoc in E. cbn [app length] in E.
    rewrite drop_app_length' by (rewrite length_pad; lia). replace (Z.of_nat (0 + length ub) + 1) with (Z.of_nat (length ub + 1)) by lia.
    change (Z.of_nat 3) with 3 in E. rewrite E by (rewrite ?length_replicate; lia). cbn [mbind outcome_bind]. f_equal.
    rewrite fmap_app. cbn [fmap list_fmap]. fold ub ue. rewrite <- app_assoc. cbn [app]. do 2 f_equal.
    change (toupper 46) with 46. f_equal. f_equal.
    rewrite <- replicate_S, length_app. cbn [length]. f_equal. subst ue. simpl in *. lia.
Qed.

(** Name round trip.  The eleven bytes [string_to_FAT_filename] writes for
    a path component whose base has at most seven characters, put back through
    [fat16_get_full_relative_filename], are that component in upper case, so
    the search by name ([istrncmp]) finds the entry again; every byte of the
    entry after the name is left as it was. *)
Theorem fatname_roundtrip base ext rest item :
  Forall name_char base -> Forall name_char ext ->
  (length base <= 7)%nat -> (length ext <= 3)%nat -> length item = 32%nat ->
  exists item' out,
    string_to_FAT_filename (base ++ 46 :: ext ++ 0 :: rest) item = Ret item' /\
    drop 11 item' = drop 11 item /\
    fat16_get_full_relative_filename item' (replicate 108 0) SERPAEOS_MAX_PATH = Ret out /\
    cstr out (toupper <$> full_name base ext) /\
    istrncmp out (full_name base ext ++ [0]) SERPAEOS_MAX_PATH = Ret 0.
Proof.
  intros Hb He Hlb Hle Hi.
  assert (Hc : Forall (fun c => 32 < c < 256) (full_name base ext)).
  { assert (forall l, Forall name_char l -> Forall (fun c => 32 < c < 256) l) as Hw
      by (intros l Hl; eapply Forall_impl; [exact Hl|by intros ? [? ?]]).
    unfold full_name. case_bool_decide; [by apply Hw|]. apply Forall_app. split; [by apply Hw|].
    constructor; [lia|by apply Hw]. }
  set (fn := full_name base ext) in *.
  eexists _, ((toupper <$> fn) ++ replicate (108 - length fn) 0).
  rewrite string_to_FAT_filename_spec by (done || lia).
  assert (Hlfn : (length fn <= 11)%nat).
  { unfold fn, full_name. case_bool_decide; [lia|]. rewrite length_app. simpl. lia. }
  split; [done|]. split.
  { rewrite drop_app_length'; [done|]. unfold entry_name.
    by rewrite length_app, !length_pad by (rewrite length_fmap; lia). }
  rewrite full_relative_filename_spec by (done || (rewrite ?length_replicate; fold fn; unfold SERPAEOS_MAX_PATH; lia)).
  split; [done|].
  assert (H0 : forall l, Forall (fun c => 32 < c < 256) l -> (0 ∉ l) /\ bytes l).
  { intros l Hl. split; [intros Hin; rewrite Forall_forall in Hl; specialize (Hl _ Hin); lia|].
    eapply Forall_impl; [exact Hl|]. unfold is_byte. intros; simpl in *; lia. }
  assert (Hu : Forall (fun c => 32 < c < 256) (toupper <$> fn)).
  { apply Forall_fmap. eapply Forall_impl; [exact Hc|]. intros c. simpl. unfold toupper. bcase; breflect; lia. }
  assert (Hcs : cstr ((toupper <$> fn) ++ replicate (108 - length fn) 0) (toupper <$> fn)).
  { split; [by apply H0|]. destruct (108 - length fn)%nat eqn:E; [lia|]. by eexists. }
  split; [done|].
  destruct (istrncmp_zero _ (fn ++ [0]) _ fn SERPAEOS_MAX_PATH Hcs) as (r & -> & Hr);
    [split; [by apply H0|by eexists]|by apply H0|by apply H0|].
  f_equal. apply Hr. unfold prefix_eq. rewrite <- !fmap_take, <- list_fmap_compose.
  apply list_fmap_ext. intros i c _. unfold compose, tolower, toupper. by repeat (bcase; breflect); lia.
Qed.

Lemma fatname_roundtrip_witness :
  exists item' out,
    string_to_FAT_filename ([107; 101; 114] ++ 46 :: [98; 105; 110] ++ 0 :: []) (replicate 32 0) = Ret item' /\
    drop 11 item' = drop 11 (replicate 32 0) /\
    fat16_get_full_relative_filename item' (replicate 108 0) SERPAEOS_MAX_PATH = Ret out /\
    cstr out (toupper <$> full_name [107; 101; 114] [98; 105; 110]) /\
    istrncmp out (full_name [107; 101; 114] [98; 105; 110] ++ [0]) SERPAEOS_MAX_PATH = Ret 0.
Proof.
  apply (fatname_roundtrip [107; 101; 114] [98; 105; 110] [] (replicate 32 0)).
  - repeat constructor; simpl; lia.
  - repeat constructor; simpl; lia.
  - simpl; lia.
  - simpl; lia.
  - reflexivity.
Defined.

(** The extension is lost.  A base of eight characters makes
    [string_to_FAT_filename] return as soon as the eighth is written, so the
    entry gets blanks for its extension, whatever the component has after the
    dot. *)
Theorem fatname_drops_extension base tail out :
  Forall name_char base -> length base = 8%nat -> (11 <= length out)%nat ->
  string_to_FAT_filename (base ++ tail) out = Ret ((toupper <$> base) ++ replicate 3 32 ++ drop 11 out).
Proof.
  intros Hb Hlb Hlo. destruct base as [|x base] using rev_ind; [done|]. clear IHbase.
  rewrite length_app in Hlb. simpl in Hlb. apply Forall_app in Hb as [Hb Hx].
  inversion Hx as [|? ? [Hx1 Hx2] _]; subst.
  unfold string_to_FAT_filename. rewrite memset_spec by lia. cbn [mbind outcome_bind].
  change (replicate (Z.to_nat 11) (u8 32)) with (replicate 8 32 ++ replicate 3 32).
  change (Z.to_nat 11) with 11%nat. rewrite <- !app_assoc. cbn [app].
  pose proof (fatname_base 13 base (x :: tail) [] 0 (replicate 3 32 ++ drop 11 out)) as E.
  cbn [length app] in E. change (Z.of_nat 0) with 0 in E. change (8 - 0)%nat with 8%nat in E.
  rewrite E by (done || lia). clear E. replace (length base) with 7%nat by lia.
  change (13 - 7)%nat with 6%nat. change (8 - 7)%nat with 1%nat. cbn [fatname_loop].
  rewrite (proj2 (Z.eqb_neq x 0)), (proj2 (Z.eqb_neq x 46)) by lia.
  pose proof (store_pad [] (toupper <$> base) (toupper x) 1 (replicate 3 32 ++ drop 11 out)
                (Z.of_nat (0 + 7))) as Hst.
  cbn [app length] in Hst. rewrite Hst by (rewrite ?length_fmap; lia). cbn [mbind outcome_bind].
  change (Z.of_nat (0 + 7) + 1 =? 8) with true. cbn [replicate Nat.sub app].
  rewrite fmap_app, <- !app_assoc. done.
Qed.

Lemma fatname_drops_extension_witness :
  string_to_FAT_filename ([97; 98; 99; 100; 101; 102; 103; 104] ++ [46; 98; 105; 110; 0]) (replicate 32 0) =
  Ret ((toupper <$> [97; 98; 99; 100; 101; 102; 103; 104]) ++ replicate 3 32 ++ drop 11 (replicate 32 0)).
Proof.
  apply (fatname_drops_extension [97; 98; 99; 100; 101; 102; 103; 104] [46; 98; 105; 110; 0] (replicate 32 0)).
  - repeat constructor; simpl; lia.
  - reflexivity.
  - simpl; lia.
Defined.
