(* ===== verification/Fat32.v ===== *)
(** * The FAT32 driver: headers, chains and file contents
      (src/src/fs/fat32/fat32.c)

    The part of the driver below its directories.  The state is the disk, the
    positions of the three streams, the boot-sector header and the 512 bytes of
    the information sector.  Directory entries are those of FAT16. *)
From S2P Require Import Prelude Config CMem Disk Streamer Fat16.

Definition SERPAEOS_FAT32_FAT_ENTRY_SIZE : Z := 4.

(** The fields of the two packed headers that the driver reads. *)
Record fat32_header := mk_header32 {
  h_sectors_per_cluster : Z;
  h_reserved_sectors : Z;
  h_fat_copies : Z;
  h_sectors_big : Z;
  h_sectors_per_fat : Z;
  h_root_cluster : Z;
  h_fs_info_location : Z;
  h_signature : Z
}.

(** [sizeof(struct fat_h)], and the fields by their packed offsets. *)
Definition header32_size : Z := 90.
Definition parse_header32 (b : list Z) : fat32_header :=
  mk_header32 (field 1 13 b) (field 2 14 b) (field 1 16 b) (field 4 32 b) (field 4 36 b)
    (field 4 44 b) (field 2 48 b) (field 1 66 b).

(** [struct fat_fsinfo] is the bytes of its sector. *)
Definition fsinfo_size : Z := 512.
Definition fsinfo_lead (b : list Z) : Z := field 4 0 b.
Definition next_free_cluster (b : list Z) : Z := field 4 492 b.
Definition fsinfo_trail (b : list Z) : Z := field 4 508 b.
Definition set_next_free (v : Z) (b : list Z) : list Z := take 492 b ++ le_split 4 v ++ drop 496 b.

Section with_disk.
Context {D : Type} `{BlockDev D}.

Record fat32st := mk_fat32st {
  vdev : D;
  vcluster_pos : Z;
  vfat_pos : Z;
  vdir_pos : Z;
  vdisk : disk;
  vheader : fat32_header;
  fsinfo : list Z
}.

(** The three streams are on the same disk. *)
Definition on_cluster32 {A} (c : cmd (stream D) A) : cmd fat32st A := fun s =>
  '(a, st) ← c (mk_stream (vdev s) (vcluster_pos s));
  Ret (a, mk_fat32st (sdisk st) (pos st) (vfat_pos s) (vdir_pos s) (vdisk s) (vheader s) (fsinfo s)).
Definition on_fat32 {A} (c : cmd (stream D) A) : cmd fat32st A := fun s =>
  '(a, st) ← c (mk_stream (vdev s) (vfat_pos s));
  Ret (a, mk_fat32st (sdisk st) (vcluster_pos s) (pos st) (vdir_pos s) (vdisk s) (vheader s) (fsinfo s)).
Definition on_dir32 {A} (c : cmd (stream D) A) : cmd fat32st A := fun s =>
  '(a, st) ← c (mk_stream (vdev s) (vdir_pos s));
  Ret (a, mk_fat32st (sdisk st) (vcluster_pos s) (vfat_pos s) (pos st) (vdisk s) (vheader s) (fsinfo s)).
Definition on_dev32 {A} (c : cmd D A) : cmd fat32st A := fun s =>
  '(a, d) ← c (vdev s);
  Ret (a, mk_fat32st d (vcluster_pos s) (vfat_pos s) (vdir_pos s) (vdisk s) (vheader s) (fsinfo s)).

(** ** Layout *)
Definition cluster_bytes32 (s : fat32st) : Z := h_sectors_per_cluster (vheader s) * sector_size (vdisk s).

Definition fat32_cluster_to_sector (s : fat32st) (cluster : Z) : Z :=
  let res := u32 (h_reserved_sectors (vheader s) + u32 (h_fat_copies (vheader s) * h_sectors_per_fat (vheader s))) in
  u32 (res + u32 (u32 (cluster - 2) * h_sectors_per_cluster (vheader s))).

Definition fat32_filesize_to_cluster_count (s : fat32st) (filesize : Z) : Z :=
  let bytes_per_cluster := u32 (cluster_bytes32 s) in
  let res := filesize / bytes_per_cluster in
  if c_true (filesize mod bytes_per_cluster) then u32 (res + 1) else res.

(** ** The file allocation table

    [res] is unsigned, so [res < 0] is never true; any result other than 0 of
    the read gives 0xFFFFFFFF. *)
Definition fat32_get_fat_entry (cluster : Z) : cmd fat32st Z :=
  s ← getS;
  let fat_table_position := u32 (h_reserved_sectors (vheader s) * sector_size (vdisk s)) in
  on_fat32 (diskstreamer_seek (s32 (u32 (fat_table_position + cluster * SERPAEOS_FAT32_FAT_ENTRY_SIZE))));;
  '(res, b) ← on_fat32 (diskstreamer_read 4);
  if negb (res =? SERPAEOS_ALL_OK) then mret 0xFFFFFFFF else mret (le_combine b).

Definition fat32_write_fat_entry (entry val : Z) : cmd fat32st Z :=
  s ← getS;
  let location_bytes := u32 (h_reserved_sectors (vheader s) * sector_size (vdisk s) + entry * 4) in
  on_fat32 (diskstreamer_seek (s32 location_bytes));;
  on_fat32 (diskstreamer_write (le_split 4 val) 4).

(** The result of the write is ignored. *)
Definition fat32_update_fsinfo : cmd fat32st unit :=
  s ← getS;
  on_dev32 (write_block (h_fs_info_location (vheader s)) (fsinfo s));;
  mret tt.

Fixpoint free_cluster_loop (fuel : nat) (cluster : Z) : cmd fat32st Z :=
  match fuel with
  | O => liftO OutOfFuel
  | S fuel =>
      code ← fat32_get_fat_entry cluster;
      s ← getS;
      if code =? 0 then
        putS (mk_fat32st (vdev s) (vcluster_pos s) (vfat_pos s) (vdir_pos s) (vdisk s) (vheader s)
                (set_next_free cluster (fsinfo s)));;
        fat32_update_fsinfo;;
        mret cluster
      else if h_sectors_big (vheader s) / h_sectors_per_cluster (vheader s) <=? cluster then mret 0
      else free_cluster_loop fuel (u32 (cluster + 1))
  end.

(** The search starts at the hint of the information sector and does not wrap
    around. *)
Definition fat32_get_first_free_cluster : cmd fat32st Z :=
  s ← getS;
  let cluster := if next_free_cluster (fsinfo s) =? 0xFFFFFFFF then 3 else next_free_cluster (fsinfo s) in
  free_cluster_loop (S (Z.to_nat (h_sectors_big (vheader s) / h_sectors_per_cluster (vheader s)))) cluster.

Fixpoint fat32_find_last_cluster_of_chain (fuel : nat) (curr : Z) : cmd fat32st Z :=
  match fuel with
  | O => liftO OutOfFuel
  | S fuel =>
      code ← fat32_get_fat_entry curr;
      if 0x0FFFFFF8 <=? code then mret curr else fat32_find_last_cluster_of_chain fuel code
  end.

(** [out] is an array of [count] entries at least; the end mark is stored past
    the last cluster, leaving one element unwritten. *)
Fixpoint new_cluster_loop (n : nat) (out : list Z) (i : Z) : cmd fat32st (Z * list Z) :=
  match n with
  | O =>
      out ← liftO (store out (i + 1) 0x0FFFFFFF);
      mret (i, out)
  | S n =>
      c ← fat32_get_first_free_cluster;
      out ← liftO (store out i c);
      if c =? 0 then mret (- ENODISKSPACE, out) else new_cluster_loop n out (i + 1)
  end.

Definition fat32_new_cluster_chain (out : list Z) (count : Z) : cmd fat32st (Z * list Z) :=
  new_cluster_loop (Z.to_nat (count - 1)) out 0.

(** The clusters written to [out], in order. *)
Fixpoint fat32_get_cluster_chain (fuel : nat) (curr : Z) : cmd fat32st (list Z) :=
  match fuel with
  | O => liftO OutOfFuel
  | S fuel =>
      next ← fat32_get_fat_entry curr;
      if next <? 0x0FFFFFF8 then
        rest ← fat32_get_cluster_chain fuel next;
        mret (curr :: rest)
      else mret [curr]
  end.

Fixpoint count_clusters_loop (fuel : nat) (curr i : Z) : cmd fat32st Z :=
  match fuel with
  | O => liftO OutOfFuel
  | S fuel =>
      next ← fat32_get_fat_entry curr;
      if next <? 0x0FFFFFF8 then count_clusters_loop fuel next (i + 1) else mret i
  end.

(** The argument is a [uint16_t]. *)
Definition fat32_count_clusters_in_chain (fuel : nat) (first_cluster : Z) : cmd fat32st Z :=
  count_clusters_loop fuel (u16 first_cluster) 1.

(** The number of bytes written, 4, is compared with 2. *)
Definition fat32_add_cluster_to_chain (fuel : nat) (first_cluster : Z) : cmd fat32st Z :=
  cluster ← fat32_find_last_cluster_of_chain fuel first_cluster;
  next_free_cluster ← fat32_get_first_free_cluster;
  if next_free_cluster =? 0 then mret (- ENODISKSPACE)
  else
    r ← fat32_write_fat_entry cluster next_free_cluster;
    if negb (r =? 2) then mret (- EIO)
    else
      r ← fat32_write_fat_entry next_free_cluster 0x0FFFFFFF;
      if negb (r =? 2) then mret (- EIO) else mret 0.

Fixpoint add_clusters32 (fuel : nat) (n : nat) (first : Z) : cmd fat32st unit :=
  match n with
  | O => mret tt
  | S n => fat32_add_cluster_to_chain fuel first;; add_clusters32 fuel n first
  end.

(** The mark written is 0x0FFFFFF, seven digits; errors become [uint32_t]. *)
Definition fat32_generate_cluster_chain (fuel : nat) (count : Z) : cmd fat32st Z :=
  if count <=? 0 then mret (u32 (- EINVARG))
  else
    first ← fat32_get_first_free_cluster;
    if first =? 0 then mret 0
    else
      r ← fat32_write_fat_entry first 0x0FFFFFF;
      if negb (r =? 4) then mret (u32 (- EIO))
      else
        add_clusters32 fuel (Z.to_nat (count - 1)) first;;
        mret first.

(** The loop stops at 0x0FFFFFF only. *)
Fixpoint erase_loop32 (fuel : nat) (curr : Z) : cmd fat32st unit :=
  match fuel with
  | O => liftO OutOfFuel
  | S fuel =>
      code ← fat32_get_fat_entry curr;
      fat32_write_fat_entry curr 0;;
      if code =? 0x0FFFFFF then mret tt else erase_loop32 fuel code
  end.

Definition fat32_erase_cluster_chain (fuel : nat) (first : Z) : cmd fat32st Z :=
  if first <=? 2 then mret (- EINVARG)
  else erase_loop32 fuel first;; mret 0.

(** ** Reading a file *)
Fixpoint cluster_for_offset_loop32 (n : nat) (cluster_to_use : Z) : cmd fat32st Z :=
  match n with
  | O => mret cluster_to_use
  | S n =>
      entry ← fat32_get_fat_entry (u32 cluster_to_use);
      if 0x0FFFFFF8 <=? entry then mret (- EIO)
      else if entry =? 0x0FFFFFF7 then mret (- EIO)
      else if (entry =? 0x0FFFFFF0) || (entry =? 0x0FFFFFF6) then mret (- EIO)
      else if entry =? 0 then mret (- EIO)
      else cluster_for_offset_loop32 n (s32 entry)
  end.

Definition fat32_get_cluster_for_offset (starting_cluster offset : Z) : cmd fat32st Z :=
  s ← getS;
  let clusters_ahead := Z.quot offset (cluster_bytes32 s) in
  cluster_for_offset_loop32 (Z.to_nat clusters_ahead) starting_cluster.

(** The size of a cluster is unsigned here, so [offset] and [total] are
    converted to compare with it. *)
Fixpoint fat32_read_internal_from_stream (fuel : nat) (cluster offset total : Z) : cmd fat32st (Z * list Z) :=
  match fuel with
  | O => liftO OutOfFuel
  | S fuel =>
      s ← getS;
      let size_of_cluster_bytes := u32 (cluster_bytes32 s) in
      cluster_to_use ← fat32_get_cluster_for_offset (s32 cluster) offset;
      if cluster_to_use <? 0 then mret (cluster_to_use, [])
      else
        s ← getS;
        let offset_from_cluster := s32 (u32 offset mod size_of_cluster_bytes) in
        let starting_sector := s32 (fat32_cluster_to_sector s (u32 cluster_to_use)) in
        let starting_pos := s32 (starting_sector * sector_size (vdisk s) + offset_from_cluster) in
        let total_to_read :=
          s32 (if size_of_cluster_bytes <? u32 total then size_of_cluster_bytes else u32 total) in
        res ← on_cluster32 (diskstreamer_seek starting_pos);
        if negb (res =? SERPAEOS_ALL_OK) then mret (res, [])
        else
          '(res, out) ← on_cluster32 (diskstreamer_read total_to_read);
          if negb (res =? SERPAEOS_ALL_OK) then mret (res, out)
          else
            let total := s32 (total - total_to_read) in
            if 0 <? total then
              '(res, out') ← fat32_read_internal_from_stream fuel cluster
                               (s32 (offset + total_to_read)) total;
              mret (res, out ++ out')
            else mret (res, out)
  end.

Definition fat32_read_internal (starting_cluster offset total : Z) : cmd fat32st (Z * list Z) :=
  fat32_read_internal_from_stream (S (Z.to_nat total)) (u32 starting_cluster) offset total.

(** Entries are counted until one starts with a zero byte. *)
Fixpoint total_items_loop32 (fuel : nat) (i : Z) : cmd fat32st Z :=
  match fuel with
  | O => liftO OutOfFuel
  | S fuel =>
      '(res, item) ← on_dir32 (diskstreamer_read item_size);
      if negb (res =? SERPAEOS_ALL_OK) then mret (- EIO)
      else
        c ← liftO (load item 0);
        if c =? 0 then mret i
        else if c =? 0xE5 then total_items_loop32 fuel i
        else total_items_loop32 fuel (i + 1)
  end.

Definition fat32_get_total_items_for_directory (fuel : nat) (directory_start_sector : Z) : cmd fat32st Z :=
  s ← getS;
  let directory_start_pos := s32 (u32 (directory_start_sector * sector_size (vdisk s))) in
  r ← on_dir32 (diskstreamer_seek directory_start_pos);
  if negb (r =? SERPAEOS_ALL_OK) then mret (- EIO)
  else total_items_loop32 fuel 0.
End with_disk.
Arguments fat32st D : clear implicits.
