(* ===== verification/Fat32Spec.v ===== *)
(** * What the FAT32 driver does with its table and its files

    The counterpart of [Fat16Spec.v]: the table as a function on cluster
    numbers, the chains the driver walks, the free-cluster search with its hint,
    and the two places where the chains it writes are not the chains it reads. *)
From S2P Require Import Prelude Config CMem Disk Streamer AtaDevice FatChain Fat16 Fat16Spec Fat32.

Section with_disk.
Context {D : Type} `{BlockDevOk D}.
Implicit Types s : fat32st D.

(** The number of entries, where entry [c] is, and what it holds. *)
Definition entries32 s : Z := h_sectors_per_fat (vheader s) * 128.
Definition entry_pos32 s (c : Z) : Z := h_reserved_sectors (vheader s) * 512 + 4 * c.
Definition fat32_at s (c : Z) : Z := le_combine (slice (vdev s) (entry_pos32 s c) 4).

(** A mounted disk: the table fits it, and the information sector is one of
    the reserved sectors. *)
Record fat32_wf s : Prop := {
  vw_dev : bd_ok (vdev s);
  vw_sector : sector_size (vdisk s) = 512;
  vw_spc : 1 <= h_sectors_per_cluster (vheader s) <= 128;
  vw_spf : 0 <= h_sectors_per_fat (vheader s) /\ h_sectors_per_fat (vheader s) * 128 <= 0x0FFFFFF0;
  vw_fits : (h_reserved_sectors (vheader s) + h_sectors_per_fat (vheader s)) * 512 < disk_size (D := D);
  vw_info : 0 <= h_fs_info_location (vheader s) < h_reserved_sectors (vheader s);
  vw_fsinfo : length (fsinfo s) = 512%nat /\ bytes (fsinfo s)
}.

(** Nothing but stream positions changed. *)
Record same32 s s' : Prop := {
  sv_wf : fat32_wf s';
  sv_bytes : forall p, 0 <= p < disk_size (D := D) -> byte_at (vdev s') p = byte_at (vdev s) p;
  sv_disk : vdisk s' = vdisk s;
  sv_header : vheader s' = vheader s;
  sv_fsinfo : fsinfo s' = fsinfo s
}.

Lemma same32_refl s : fat32_wf s -> same32 s s.
Proof. by split. Qed.

Lemma same32_trans s1 s2 s3 : same32 s1 s2 -> same32 s2 s3 -> same32 s1 s3.
Proof.
  intros [_ Hb1 Hd1 Hh1 Hr1] [Hw Hb2 Hd2 Hh2 Hr2].
  split; [done|intros p Hp; by rewrite Hb2, Hb1|congruence..].
Qed.

Lemma entry_range32 s c :
  fat32_wf s -> 0 <= c < entries32 s -> 0 <= entry_pos32 s c /\ entry_pos32 s c + 4 < disk_size (D := D).
Proof. intros [_ _ _ Hs Hf Hi _] Hc. unfold entry_pos32, entries32 in *. lia. Qed.

Lemma slice_bytes_eq (d d' : D) p n :
  (forall q, p <= q < p + Z.of_nat n -> byte_at d' q = byte_at d q) -> slice d' p n = slice d p n.
Proof. intros Hq. unfold slice. apply list_fmap_ext. intros i x [-> Hi]%lookup_seqZ. apply Hq. lia. Qed.

Lemma same32_fat s s' c :
  fat32_wf s -> same32 s s' -> 0 <= c < entries32 s -> fat32_at s' c = fat32_at s c.
Proof.
  intros Hw Hs Hc. pose proof (entry_range32 s c Hw Hc). unfold fat32_at, entry_pos32 in *.
  rewrite (sv_header _ _ Hs). f_equal. apply slice_bytes_eq. intros q Hq. apply (sv_bytes _ _ Hs). lia.
Qed.

Lemma slice_is_bytes d p n : bd_ok d -> 0 <= p -> p + Z.of_nat n <= disk_size (D := D) -> bytes (slice d p n).
Proof.
  intros Hok Hp Hn. apply Forall_lookup. intros i x. unfold slice. rewrite list_lookup_fmap.
  intros (j & [-> Hj]%lookup_seqZ & ->)%fmap_Some. apply byte_at_range; [done|lia].
Qed.

Lemma fat32_at_range s c : fat32_wf s -> 0 <= c < entries32 s -> 0 <= fat32_at s c < 4294967296.
Proof.
  intros Hw Hc. pose proof (entry_range32 s c Hw Hc).
  pose proof (le_combine_range (slice (vdev s) (entry_pos32 s c) 4)) as Hr.
  rewrite length_slice in Hr. apply Hr. apply slice_is_bytes; [apply Hw|lia|lia].
Qed.

Lemma entry_bound32 s c : fat32_wf s -> 0 <= c < entries32 s -> 0 <= c < 536870912.
Proof.
  intros Hw Hc. pose proof (entry_range32 s c Hw Hc). pose proof (disk_size_bound (D := D)).
  pose proof (vw_info _ Hw). unfold entry_pos32 in *. lia.
Qed.

(** ** Reading and writing entries *)
Lemma get_fat_entry32_spec s c :
  fat32_wf s -> 0 <= c < entries32 s ->
  exists s', fat32_get_fat_entry c s = Ret (fat32_at s c, s') /\ same32 s s'.
Proof.
  intros Hw Hc. pose proof (entry_range32 s c Hw Hc) as Hr. pose proof (disk_size_bound (D := D)).
  pose proof (vw_info _ Hw). unfold fat32_get_fat_entry, SERPAEOS_FAT32_FAT_ENTRY_SIZE.
  erewrite bind_Ret by reflexivity. rewrite (vw_sector _ Hw).
  replace (s32 (u32 (u32 (h_reserved_sectors (vheader s) * 512) + c * 4))) with (entry_pos32 s c).
  2: { unfold entry_pos32 in *. rewrite (u32_id (_ * 512)) by lia. rewrite u32_id, s32_id by lia. lia. }
  erewrite bind_Ret by reflexivity.
  destruct (read_rec_spec (S (Z.to_nat 4)) 4 (mk_stream (vdev s) (entry_pos32 s c)))
    as (st & Hrd & Hok & _ & Hsame); cbn [sdisk pos] in *; [apply Hw|lia|lia|lia|lia|].
  erewrite bind_Ret; [|unfold on_fat32; cbn [sdisk pos vdev vfat_pos]; unfold diskstreamer_read; rewrite Hrd; reflexivity].
  cbn [Z.eqb negb SERPAEOS_ALL_OK]. eexists. split; [reflexivity|].
  destruct Hw as [? ? ? [? ?] ? ? ?]. split; simpl; try done.
  intros p Hp. unfold byte_at. rewrite Hsame; [done|]. unfold disk_size in Hp. zlia.
Qed.

(** Only the entry changed. *)
Record entry_written32 s s' (c v : Z) : Prop := {
  ev_wf : fat32_wf s';
  ev_disk : vdisk s' = vdisk s;
  ev_header : vheader s' = vheader s;
  ev_fsinfo : fsinfo s' = fsinfo s;
  ev_bytes : forall p, 0 <= p < disk_size (D := D) -> ~ (entry_pos32 s c <= p < entry_pos32 s c + 4) ->
    byte_at (vdev s') p = byte_at (vdev s) p;
  ev_entry : fat32_at s' c = v;
  ev_other : forall c', 0 <= c' < entries32 s -> c' <> c -> fat32_at s' c' = fat32_at s c'
}.

Lemma write_fat_entry32_spec s c v :
  fat32_wf s -> 0 <= c < entries32 s -> 0 <= v < 4294967296 ->
  exists s', fat32_write_fat_entry c v s = Ret (4, s') /\ entry_written32 s s' c v.
Proof.
  intros Hw Hc Hv. pose proof (entry_range32 s c Hw Hc) as Hr. pose proof (disk_size_bound (D := D)).
  pose proof (vw_info _ Hw). unfold fat32_write_fat_entry.
  erewrite bind_Ret by reflexivity. rewrite (vw_sector _ Hw).
  replace (s32 (u32 (h_reserved_sectors (vheader s) * 512 + c * 4))) with (entry_pos32 s c).
  2: { unfold entry_pos32 in *. rewrite u32_id, s32_id by lia. lia. }
  erewrite bind_Ret by reflexivity.
  destruct (write_loop_spec 4 (le_split 4 v) 0 (mk_stream (vdev s) (entry_pos32 s c)))
    as (st & Hwr & Hok & _ & Hpat); cbn [sdisk pos] in *;
    [apply Hw|lia|lia|apply le_split_bytes|rewrite length_le_split; lia|].
  rewrite drop_0, take_ge in Hpat by (rewrite length_le_split; lia).
  eexists. split.
  { unfold on_fat32. cbn [vdev vfat_pos]. unfold diskstreamer_write.
    change (Z.to_nat 4) with 4%nat. change 0 with (Z.of_nat 0) at 1. rewrite Hwr. reflexivity. }
  pose proof Hpat as Hq. unfold patched in Hq. rewrite length_le_split in Hq. change (Z.of_nat 4) with 4 in Hq.
  pose proof Hw as [? ? ? [? ?] ? ? ?].
  split; simpl; try done.
  - intros p Hp Hne. rewrite Hq by done. by rewrite decide_False by lia.
  - unfold fat32_at, entry_pos32 in *. cbn [vdev vheader].
    pose proof (slice_patched _ _ _ _ Hpat) as Hs. rewrite length_le_split in Hs.
    rewrite Hs by (change (Z.of_nat 4) with 4; lia). apply le_combine_split. simpl. lia.
  - intros c' Hc' Hne. pose proof (entry_range32 s c' Hw Hc'). unfold fat32_at, entry_pos32 in *.
    cbn [vdev vheader]. f_equal. apply slice_bytes_eq. intros q Hq'. rewrite Hq by lia.
    by rewrite decide_False by lia.
Qed.

(** ** Walking a chain *)
Definition disk_chain32 s (c : Z) (l : list Z) : Prop :=
  chain (eoc := 0x0FFFFFF8) (top := 4294967296) (fat32_at s) (entries32 s) c l.

Lemma chain32_transport s s' c l :
  entries32 s' = entries32 s -> (forall x, 0 <= x < entries32 s -> x ∈ l -> fat32_at s' x = fat32_at s x) ->
  disk_chain32 s c l -> disk_chain32 s' c l.
Proof.
  intros He Hf Hch. unfold disk_chain32 in *. rewrite He.
  eapply chain_ext; [|exact Hch]. intros x Hx. pose proof (chain_ok _ _ _ _ _ Hch Hx) as Hok.
  unfold link_ok in Hok. apply Hf; [lia|done].
Qed.

Lemma same32_entries s s' : same32 s s' -> entries32 s' = entries32 s.
Proof. intros Hs. unfold entries32. by rewrite (sv_header _ _ Hs). Qed.

Lemma same32_chain s s' c l : fat32_wf s -> same32 s s' -> disk_chain32 s c l -> disk_chain32 s' c l.
Proof.
  intros Hw Hs. apply chain32_transport; [by apply same32_entries|].
  intros x Hx _. by apply (same32_fat s s').
Qed.

Lemma disk_chain32_used s c l x : disk_chain32 s c l -> x ∈ l -> fat32_at s x <> 0.
Proof. by apply chain_used. Qed.

Lemma disk_chain32_range s c l x : disk_chain32 s c l -> x ∈ l -> 2 <= x < entries32 s.
Proof. intros Hch Hx. exact (chain_ok _ _ _ _ _ Hch Hx). Qed.

(** One step of a walk: the next cluster, or the end of the chain. *)
Lemma chain_step32 s c x l :
  fat32_wf s -> disk_chain32 s c (x :: l) ->
  exists s', fat32_get_fat_entry c s = Ret (fat32_at s c, s') /\ same32 s s' /\ x = c /\
    match l with
    | [] => 0x0FFFFFF8 <= fat32_at s c
    | _ => fat32_at s c < 0x0FFFFFF8 /\ disk_chain32 s' (fat32_at s c) l
    end.
Proof.
  intros Hw (-> & Hc & Hl). unfold link_ok in Hc.
  destruct (get_fat_entry32_spec s c Hw ltac:(lia)) as (s' & Hg & Hs).
  exists s'. split_and!; try done.
  destruct l as [|y l]; [lia|]. destruct Hl as [Hlt Hl]. split; [done|].
  by apply (same32_chain s s').
Qed.

Lemma find_last32_spec fuel s c l :
  fat32_wf s -> disk_chain32 s c l -> (length l <= fuel)%nat ->
  exists s' e, fat32_find_last_cluster_of_chain fuel c s = Ret (e, s') /\ same32 s s' /\ last l = Some e.
Proof.
  revert s c l. induction fuel as [|fuel IH]; intros s c l Hw Hch Hf;
    (destruct l as [|x l]; [done|]); [simpl in Hf; lia|].
  destruct (chain_step32 s c x l Hw Hch) as (s1 & Hg & Hs & -> & Hl).
  cbn [fat32_find_last_cluster_of_chain]. step Hg. destruct l as [|y l].
  - rewrite (proj2 (Z.leb_le _ _)) by lia. by exists s1, c.
  - destruct Hl as [Hlt Hch1]. rewrite (proj2 (Z.leb_gt _ _)) by lia.
    destruct (IH s1 (fat32_at s c) (y :: l)) as (s2 & e & Hr & Hs2 & He); [apply Hs|done|simpl in *; lia|].
    exists s2, e. split; [done|]. split; [by eapply same32_trans|]. by rewrite last_cons_cons.
Qed.

Lemma get_chain32_spec fuel s c l :
  fat32_wf s -> disk_chain32 s c l -> (length l <= fuel)%nat ->
  exists s', fat32_get_cluster_chain fuel c s = Ret (l, s') /\ same32 s s'.
Proof.
  revert s c l. induction fuel as [|fuel IH]; intros s c l Hw Hch Hf;
    (destruct l as [|x l]; [done|]); [simpl in Hf; lia|].
  destruct (chain_step32 s c x l Hw Hch) as (s1 & Hg & Hs & -> & Hl).
  cbn [fat32_get_cluster_chain]. step Hg. destruct l as [|y l].
  - rewrite (proj2 (Z.ltb_ge _ _)) by lia. by exists s1.
  - destruct Hl as [Hlt Hch1]. rewrite (proj2 (Z.ltb_lt _ _)) by lia.
    destruct (IH s1 (fat32_at s c) (y :: l)) as (s2 & Hr & Hs2); [apply Hs|done|simpl in *; lia|].
    step Hr. exists s2. split; [done|]. by eapply same32_trans.
Qed.

Lemma count_chain32_spec fuel s c l i :
  fat32_wf s -> disk_chain32 s c l -> (length l <= fuel)%nat ->
  exists s', count_clusters_loop fuel c i s = Ret (i + Z.of_nat (length l) - 1, s') /\ same32 s s'.
Proof.
  revert s c l i. induction fuel as [|fuel IH]; intros s c l i Hw Hch Hf;
    (destruct l as [|x l]; [done|]); [simpl in Hf; lia|].
  destruct (chain_step32 s c x l Hw Hch) as (s1 & Hg & Hs & -> & Hl).
  cbn [count_clusters_loop]. step Hg. destruct l as [|y l].
  - rewrite (proj2 (Z.ltb_ge _ _)) by lia. exists s1. split; [|done]. unfold mret, cmd_ret.
    do 2 f_equal. simpl. lia.
  - destruct Hl as [Hlt Hch1]. rewrite (proj2 (Z.ltb_lt _ _)) by lia.
    destruct (IH s1 (fat32_at s c) (y :: l) (i + 1)) as (s2 & Hr & Hs2); [apply Hs|done|simpl in *; lia|].
    exists s2. split; [|by eapply same32_trans]. rewrite Hr. do 2 f_equal. simpl. lia.
Qed.

(** ** The information sector *)
Lemma set_next_free_ok v b :
  length b = 512%nat /\ bytes b -> length (set_next_free v b) = 512%nat /\ bytes (set_next_free v b).
Proof.
  intros [Hl Hb]. unfold set_next_free.
  split; [rewrite !length_app, length_take, length_drop, length_le_split; lia|].
  apply Forall_app. split; [by apply Forall_take|]. apply Forall_app. split; [apply le_split_bytes|by apply Forall_drop].
Qed.

Lemma next_free_set v b :
  length b = 512%nat -> 0 <= v < 4294967296 -> next_free_cluster (set_next_free v b) = v.
Proof.
  intros Hl Hv. unfold next_free_cluster, field, set_next_free.
  rewrite drop_app_length' by (rewrite length_take; lia).
  rewrite take_app_length' by (by rewrite length_le_split). apply le_combine_split. simpl. lia.
Qed.

(** The hint was moved to [n] and written to its sector; nothing else changed. *)
Record hinted s s' (n : Z) : Prop := {
  hi_wf : fat32_wf s';
  hi_disk : vdisk s' = vdisk s;
  hi_header : vheader s' = vheader s;
  hi_fsinfo : fsinfo s' = set_next_free n (fsinfo s);
  hi_patched : patched (vdev s) (vdev s') (h_fs_info_location (vheader s) * 512) (fsinfo s');
  hi_fat : forall c, 0 <= c < entries32 s -> fat32_at s' c = fat32_at s c
}.

Lemma update_fsinfo_spec s n :
  fat32_wf s -> 
  let s1 := mk_fat32st (vdev s) (vcluster_pos s) (vfat_pos s) (vdir_pos s) (vdisk s) (vheader s)
              (set_next_free n (fsinfo s)) in
  exists s', fat32_update_fsinfo s1 = Ret (tt, s') /\ hinted s s' n.
Proof.
  intros Hw s1. unfold fat32_update_fsinfo. erewrite bind_Ret by reflexivity. cbn [vheader fsinfo s1].
  pose proof (vw_info _ Hw) as Hi. pose proof (vw_fits _ Hw) as Hf. pose proof (vw_spf _ Hw).
  assert (Hn : 0 <= h_fs_info_location (vheader s) < nsectors (D := D)) by (unfold disk_size in Hf; lia).
  destruct (set_next_free_ok n _ (vw_fsinfo _ Hw)) as [Hl Hb].
  destruct (write_block_ok (vdev s) (h_fs_info_location (vheader s)) (set_next_free n (fsinfo s)))
    as (d' & Hwr & Hok & Hsec); [apply Hw|done|done|done|].
  assert (Hst : on_dev32 (write_block (h_fs_info_location (vheader s)) (set_next_free n (fsinfo s))) s1 =
            Ret (0, mk_fat32st d' (vcluster_pos s) (vfat_pos s) (vdir_pos s) (vdisk s) (vheader s)
                      (set_next_free n (fsinfo s)))) by (unfold on_dev32; cbn [vdev s1]; by rewrite Hwr).
  step Hst. eexists. split; [reflexivity|]. pose proof Hw as [? ? ? [? ?] ? ? ?].
  split; simpl; try done.
  - intros p Hp. unfold disk_size in Hp. unfold byte_at. rewrite Hsec, Hl by zlia.
    destruct (_ =? _) eqn:E; breflect.
    + rewrite decide_True by zlia. by replace (p - _) with (p mod 512) by zlia.
    + by rewrite decide_False by zlia.
  - intros c Hc. pose proof (entry_range32 s c Hw Hc) as Hr. unfold fat32_at, entry_pos32 in *. cbn [vdev vheader].
    f_equal. apply slice_bytes_eq. intros q Hq. unfold byte_at. rewrite Hsec by (unfold disk_size in Hr; zlia).
    rewrite (proj2 (Z.eqb_neq _ _)) by zlia. done.
Qed.

(** ** Finding a free cluster *)
Definition limit32 s : Z := h_sectors_big (vheader s) / h_sectors_per_cluster (vheader s).

(** Where the search starts. *)
Definition hint s : Z :=
  if next_free_cluster (fsinfo s) =? 0xFFFFFFFF then 3 else next_free_cluster (fsinfo s).

Definition searchable32 s : Prop := 2 <= hint s <= limit32 s /\ limit32 s < entries32 s.

(** A search from [c] found the lowest free cluster, or none. *)
Definition search_result s s' (c r : Z) : Prop :=
  (c <= r <= limit32 s /\ fat32_at s r = 0 /\ (forall c', c <= c' < r -> fat32_at s c' <> 0) /\ hinted s s' r) \/
  (r = 0 /\ same32 s s' /\ forall c', c <= c' <= limit32 s -> fat32_at s c' <> 0).

Lemma hinted_same s1 s2 s3 n : same32 s1 s2 -> hinted s2 s3 n -> hinted s1 s3 n.
Proof.
  intros [_ Hb Hd Hh Hi] [Hw Hd2 Hh2 Hi2 Hp Hf]. pose proof Hw as [? ? ? [? ?] ? ? ?].
  split; [done|congruence..| |].
  - intros p Hr. rewrite Hp by done. rewrite Hh. case_decide; [done|by apply Hb].
  - intros c Hc. rewrite Hf by (unfold entries32 in *; by rewrite Hh). unfold fat32_at, entry_pos32.
    rewrite Hh. f_equal. apply slice_bytes_eq. intros q Hq. apply Hb.
    unfold entries32 in Hc. rewrite Hh2, Hh in *. lia.
Qed.

Lemma free_cluster_loop_spec fuel s c :
  fat32_wf s -> 0 <= c <= limit32 s -> limit32 s < entries32 s -> limit32 s - c < Z.of_nat fuel ->
  exists r s', free_cluster_loop fuel c s = Ret (r, s') /\ search_result s s' c r.
Proof.
  revert s c. induction fuel as [|fuel IH]; intros s c Hw Hc Hl Hf; [lia|].
  cbn [free_cluster_loop].
  destruct (get_fat_entry32_spec s c Hw ltac:(lia)) as (s1 & Hg & Hs). step Hg.
  erewrite bind_Ret by reflexivity. rewrite (sv_header _ _ Hs). fold (limit32 s).
  destruct (fat32_at s c =? 0) eqn:E; breflect.
  { erewrite bind_Ret by reflexivity.
    destruct (update_fsinfo_spec s1 c (sv_wf _ _ Hs)) as (s2 & Hu & Hh).
    rewrite <- (sv_header _ _ Hs). step Hu. exists c, s2. split; [done|]. left. split_and!; try lia.
    by eapply hinted_same. }
  destruct (limit32 s <=? c) eqn:E2; breflect.
  { exists 0, s1. split; [done|]. right. split_and!; try done. intros c' Hc'. by replace c' with c by lia. }
  pose proof (entry_bound32 s c Hw ltac:(lia)).
  assert (Hlim : limit32 s1 = limit32 s) by (unfold limit32; by rewrite (sv_header _ _ Hs)).
  pose proof (same32_entries _ _ Hs) as He.
  rewrite u32_id by lia.
  destruct (IH s1 (c + 1)) as (r & s2 & Hr & Hcase); [apply Hs|lia|lia|lia|].
  unfold search_result in *. rewrite Hlim in Hcase.
  assert (Hsame : forall x, c + 1 <= x <= limit32 s -> fat32_at s1 x = fat32_at s x)
    by (intros x Hx; apply (same32_fat s s1); [done|done|lia]).
  assert (Hlow : forall x, c <= x < c + 1 -> fat32_at s x <> 0) by (intros x Hx; by replace x with c by lia).
  exists r, s2. split; [done|]. destruct Hcase as [(Hr1 & Hr2 & Hr3 & Hh)|(-> & Hs2 & Hall)].
  - left. rewrite Hsame in Hr2 by lia. split_and!; try lia; [|by eapply hinted_same].
    intros c' Hc'. destruct (decide (c' < c + 1)); [by apply Hlow; lia|]. rewrite <- Hsame by lia. apply Hr3. lia.
  - right. split_and!; [done|by eapply same32_trans|].
    intros c' Hc'. destruct (decide (c' < c + 1)); [by apply Hlow; lia|]. rewrite <- Hsame by lia. apply Hall. lia.
Qed.

Lemma first_free32_spec s :
  fat32_wf s -> searchable32 s ->
  exists r s', fat32_get_first_free_cluster s = Ret (r, s') /\ search_result s s' (hint s) r.
Proof.
  intros Hw [Hh Hl]. unfold fat32_get_first_free_cluster. erewrite bind_Ret by reflexivity.
  fold (limit32 s). fold (hint s). apply free_cluster_loop_spec; [done|lia|lia|lia].
Qed.

(** ** Changing chains *)

(** The chain's last entry was pointed at a free cluster whose own entry was
    left free; the call still reports a failure. *)
Lemma add_cluster32_spec fuel s c l :
  fat32_wf s -> searchable32 s -> disk_chain32 s c l -> (length l <= fuel)%nat ->
  exists r s', fat32_add_cluster_to_chain fuel c s = Ret (r, s') /\
    ((r = - ENODISKSPACE /\ same32 s s' /\ forall c', hint s <= c' <= limit32 s -> fat32_at s c' <> 0) \/
     (r = - EIO /\ fat32_wf s' /\ exists n e, last l = Some e /\ hint s <= n <= limit32 s /\ fat32_at s n = 0 /\
        forall x, 0 <= x < entries32 s -> fat32_at s' x = if decide (x = e) then n else fat32_at s x)).
Proof.
  intros Hw Hse Hch Hf. unfold fat32_add_cluster_to_chain.
  destruct (find_last32_spec fuel s c l Hw Hch Hf) as (s1 & e & Hl & Hs1 & He). step Hl.
  assert (Hel : e ∈ l) by (by apply last_Some_elem_of).
  pose proof (disk_chain32_range _ _ _ _ Hch Hel) as Her.
  assert (Hlim : limit32 s1 = limit32 s) by (unfold limit32; by rewrite (sv_header _ _ Hs1)).
  assert (Hhi : hint s1 = hint s) by (unfold hint; by rewrite (sv_fsinfo _ _ Hs1)).
  pose proof (same32_entries _ _ Hs1) as Hen. destruct Hse as [Hh Hlt].
  destruct (first_free32_spec s1) as (n & s2 & Hff & Hcase); [apply Hs1|unfold searchable32; lia|].
  step Hff. unfold search_result in Hcase. rewrite Hlim, Hhi in Hcase.
  assert (Hsame1 : forall x, 0 <= x < entries32 s -> fat32_at s1 x = fat32_at s x)
    by (intros x Hx; by apply (same32_fat s s1)).
  destruct Hcase as [(Hn & Hfree & _ & Hhint)|(-> & Hs2 & Hall)].
  2: { exists (- ENODISKSPACE), s2. split; [done|]. left. split_and!; [done|by eapply same32_trans|].
       intros c' Hc'. rewrite <- Hsame1 by lia. by apply Hall. }
  rewrite (proj2 (Z.eqb_neq n 0)) by lia.
  assert (Hent2 : entries32 s2 = entries32 s) by (rewrite <- Hen; unfold entries32; by rewrite (hi_header _ _ _ Hhint)).
  pose proof (entry_bound32 s n Hw ltac:(lia)).
  destruct (write_fat_entry32_spec s2 e n) as (s3 & Hw3 & Hew3); [apply Hhint|lia|lia|].
  step Hw3. cbn [Z.eqb negb Pos.eqb]. exists (- EIO), s3. split; [done|]. right.
  split_and!; [done|apply Hew3|]. exists n, e. split_and!; try done; try lia.
  { rewrite <- Hsame1 by lia. done. }
  intros x Hx. destruct (decide (x = e)) as [->|Hne]; [apply Hew3|].
  rewrite (ev_other _ _ _ _ Hew3) by lia. rewrite (hi_fat _ _ _ Hhint) by lia. by apply Hsame1.
Qed.

(** Erasing frees the clusters of the chain and goes on with the end mark. *)
Lemma erase_loop32_spec s c l e :
  fat32_wf s -> disk_chain32 s c l -> last l = Some e -> (0x0FFFFFF ∉ l) ->
  exists s', (forall fuel, erase_loop32 (length l + fuel) c s = erase_loop32 fuel (fat32_at s e) s') /\
    fat32_wf s' /\ vheader s' = vheader s /\
    forall x, 0 <= x < entries32 s -> fat32_at s' x = if decide (x ∈ l) then 0 else fat32_at s x.
Proof.
  revert s c. induction l as [|x l IH]; intros s c Hw Hch He Hmk; [done|].
  apply not_elem_of_cons in Hmk as [Hmk1 Hmk].
  destruct (chain_step32 s c x l Hw Hch) as (s1 & Hg & Hs & -> & Hl).
  pose proof (chain_nodup _ _ _ _ Hch) as Hnd. apply NoDup_cons in Hnd as [Hcl _].
  pose proof (disk_chain32_range _ _ _ c Hch ltac:(by left)) as Hc.
  pose proof (same32_entries _ _ Hs) as Hen.
  destruct (write_fat_entry32_spec s1 c 0) as (s2 & Hw2 & Hew); [apply Hs|lia|lia|].
  assert (Hfat2 : forall x, 0 <= x < entries32 s -> x <> c -> fat32_at s2 x = fat32_at s x).
  { intros x Hx Hne. rewrite (ev_other _ _ _ _ Hew) by lia. by apply (same32_fat s s1). }
  assert (Hhd : vheader s2 = vheader s) by (rewrite (ev_header _ _ _ _ Hew); apply Hs).
  assert (Hstep : forall fuel, erase_loop32 (S fuel) c s =
            (if fat32_at s c =? 0x0FFFFFF then mret tt else erase_loop32 fuel (fat32_at s c)) s2).
  { intros fuel. cbn [erase_loop32]. step Hg. step Hw2. by destruct (_ =? _). }
  destruct l as [|y l].
  - injection He as ->. exists s2. split_and!; [|apply Hew|done|].
    + intros fuel. cbn [length Nat.add]. rewrite Hstep. by rewrite (proj2 (Z.eqb_neq _ _)) by lia.
    + intros z Hz. destruct (decide (z ∈ [e])) as [->%list_elem_of_singleton|Hn]; [apply Hew|].
      apply Hfat2; [done|]. intros ->. apply Hn. by left.
  - destruct Hl as [Hlt Hch1]. assert (Hy : fat32_at s c = y) by (by destruct Hch1).
    assert (Hch2 : disk_chain32 s2 (fat32_at s c) (y :: l)).
    { apply (chain32_transport s1); [unfold entries32; by rewrite (ev_header _ _ _ _ Hew)| |done].
      intros z Hz Hzl. apply Hew; [done|]. by intros ->. }
    rewrite last_cons_cons in He.
    assert (Hel : e ∈ y :: l) by (by apply last_Some_elem_of).
    pose proof (disk_chain32_range _ _ _ e Hch ltac:(by right)).
    destruct (IH s2 (fat32_at s c)) as (s3 & Hr & Hw3 & Hh3 & Hf3); [apply Hew|try done..|].
    exists s3. split_and!; [|done|congruence|].
    + intros fuel. rewrite <- (Hfat2 e) by (lia || by intros ->). rewrite <- (Hr fuel).
      change (length (c :: y :: l) + fuel)%nat with (S (length (y :: l) + fuel)). rewrite Hstep.
      rewrite Hy, (proj2 (Z.eqb_neq y _)); [done|]. intros ->. apply Hmk. by left.
    + intros z Hz. rewrite Hf3 by (unfold entries32 in *; by rewrite Hhd).
      destruct (decide (z = c)) as [->|Hne].
      * rewrite decide_False, decide_True by (done || by left). apply Hew.
      * rewrite Hfat2 by done. destruct (decide (z ∈ y :: l)) as [Hz1|Hz1];
          [by rewrite decide_True by (by right)|by rewrite decide_False by (by rewrite not_elem_of_cons)].
Qed.

(** ** File contents *)

(** Where a cluster's bytes are, and the bytes of a chain. *)
Definition data_pos32 s (x : Z) : Z :=
  (h_reserved_sectors (vheader s) + h_fat_copies (vheader s) * h_sectors_per_fat (vheader s) +
   (x - 2) * h_sectors_per_cluster (vheader s)) * 512.
Definition cluster_size32 s : nat := Z.to_nat (h_sectors_per_cluster (vheader s) * 512).
Definition file_data32 s (l : list Z) : list Z := clusters_data (vdev s) (data_pos32 s) (cluster_size32 s) l.

Definition data_fits32 s (x : Z) : Prop :=
  0 <= data_pos32 s x /\ data_pos32 s x + Z.of_nat (cluster_size32 s) < disk_size (D := D).

Lemma cluster_size32_range s :
  fat32_wf s -> cluster_bytes32 s = Z.of_nat (cluster_size32 s) /\ 512 <= Z.of_nat (cluster_size32 s) <= 65536.
Proof.
  intros Hw. unfold cluster_bytes32, cluster_size32. rewrite (vw_sector _ Hw). pose proof (vw_spc _ Hw). lia.
Qed.

Lemma cluster_loop32_spec n s c l x :
  fat32_wf s -> disk_chain32 s c l -> l !! n = Some x ->
  exists s', cluster_for_offset_loop32 n c s = Ret (x, s') /\ same32 s s'.
Proof.
  revert s c l. induction n as [|n IH]; intros s c l Hw Hch Hx; (destruct l as [|y l]; [done|]).
  - cbn in Hx. injection Hx as <-. destruct Hch as [-> _]. exists s. split; [done|by apply same32_refl].
  - destruct (chain_step32 s c y l Hw Hch) as (s1 & Hg & Hs & -> & Hl).
    destruct l as [|z l]; [done|]. destruct Hl as [_ Hch1]. cbn [cluster_for_offset_loop32].
    pose proof (disk_chain32_range _ _ _ c Hch ltac:(by left)) as Hc.
    pose proof (disk_chain32_range _ _ _ z Hch ltac:(by right; left)) as Hz.
    pose proof (vw_spf _ Hw). rewrite u32_id by (unfold entries32 in *; lia). step Hg.
    assert (fat32_at s c = z) as Hfz by (by destruct Hch1). rewrite Hfz in *. unfold entries32 in Hz.
    rewrite (proj2 (Z.leb_gt _ _)) by lia. rewrite !(proj2 (Z.eqb_neq z _)) by lia. cbn [orb].
    rewrite s32_id by lia.
    destruct (IH s1 z (z :: l)) as (s2 & Hr & Hs2); [apply Hs|done|done|].
    exists s2. split; [done|]. by eapply same32_trans.
Qed.

Lemma cluster_to_sector32_eq s x :
  fat32_wf s -> 2 <= x < entries32 s -> 0 <= h_fat_copies (vheader s) -> data_fits32 s x ->
  s32 (fat32_cluster_to_sector s (u32 x)) * sector_size (vdisk s) = data_pos32 s x.
Proof.
  intros Hw Hx Hc [Hf1 Hf2]. pose proof (disk_size_bound (D := D)). pose proof (entry_bound32 s x Hw ltac:(lia)).
  pose proof (vw_spc _ Hw). pose proof (vw_info _ Hw). pose proof (vw_spf _ Hw). rewrite (vw_sector _ Hw).
  unfold fat32_cluster_to_sector, data_pos32 in *.
  assert (0 <= h_fat_copies (vheader s) * h_sectors_per_fat (vheader s)) by (apply Z.mul_nonneg_nonneg; lia).
  assert (0 <= (x - 2) * h_sectors_per_cluster (vheader s)) by (apply Z.mul_nonneg_nonneg; lia).
  rewrite (u32_id x) by lia. rewrite (u32_id (x - 2)) by lia.
  rewrite (u32_id (_ * h_sectors_per_fat (vheader s))) by lia.
  rewrite (u32_id ((x - 2) * _)) by lia. rewrite (u32_id (h_reserved_sectors _ + _)) by lia.
  rewrite u32_id by lia. rewrite s32_id by lia. lia.
Qed.

(** What the driver may be asked to read: whole clusters from a cluster
    boundary, or bytes of one cluster. *)
Definition readable32 s (offset total : Z) : Prop :=
  offset mod Z.of_nat (cluster_size32 s) = 0 \/
  offset mod Z.of_nat (cluster_size32 s) + total <= Z.of_nat (cluster_size32 s).

Lemma same32_geometry s s' :
  same32 s s' -> cluster_size32 s' = cluster_size32 s /\ (forall x, data_pos32 s' x = data_pos32 s x) /\
    (forall x, data_fits32 s x -> data_fits32 s' x).
Proof. intros Hs. unfold cluster_size32, data_fits32, data_pos32, cluster_size32. by rewrite (sv_header _ _ Hs). Qed.

Lemma same32_file s s' l :
  same32 s s' -> Forall (data_fits32 s) l -> file_data32 s' l = file_data32 s l.
Proof.
  intros Hs Hl. destruct (same32_geometry _ _ Hs) as (Hc & Hp & _).
  unfold file_data32, clusters_data. rewrite Hc. f_equal. apply list_fmap_ext. intros i x Hx.
  pose proof (Forall_lookup_1 _ _ _ _ Hl Hx) as [Hf1 Hf2]. rewrite Hp. apply slice_bytes_eq.
  intros q Hq. apply (sv_bytes _ _ Hs). lia.
Qed.

(** The bytes of one cluster, from its stream. *)
Lemma read_cluster32 s x r t :
  fat32_wf s -> data_fits32 s x -> 0 <= r -> 0 <= t -> r + t <= Z.of_nat (cluster_size32 s) ->
  exists s', on_cluster32 (diskstreamer_read t)
      (mk_fat32st (vdev s) (data_pos32 s x + r) (vfat_pos s) (vdir_pos s) (vdisk s) (vheader s) (fsinfo s)) =
    Ret ((0, slice (vdev s) (data_pos32 s x + r) (Z.to_nat t)), s') /\ same32 s s'.
Proof.
  intros Hw [Hf1 Hf2] Hr Ht Hrt. unfold on_cluster32. cbn [vdev vcluster_pos].
  destruct (read_rec_spec (S (Z.to_nat t)) t (mk_stream (vdev s) (data_pos32 s x + r))) as (st & Hrd & Hok & _ & Hsame);
    cbn [sdisk pos] in *; [apply Hw|lia|lia|lia|lia|].
  unfold diskstreamer_read. rewrite Hrd. eexists. split; [reflexivity|].
  destruct Hw as [? ? ? [? ?] ? ? ?]. split; simpl; try done.
  intros p Hp. unfold byte_at. rewrite Hsame; [done|]. unfold disk_size in Hp. zlia.
Qed.

(** Where an offset is: the cluster of the chain and the rest. *)
Lemma offset_split32 s c l offset :
  fat32_wf s -> disk_chain32 s c l -> 0 <= offset -> offset < Z.of_nat (length l * cluster_size32 s) ->
  let cs := cluster_size32 s in let k := Z.to_nat (offset / Z.of_nat cs) in
  exists x, l !! k = Some x /\ 2 <= x < entries32 s /\ 0 <= x < 536870912 /\ 0 <= c < 536870912 /\
    Z.to_nat offset = (k * cs + Z.to_nat (offset mod Z.of_nat cs))%nat.
Proof.
  intros Hw Hch Ho Hend cs k. destruct (cluster_size32_range s Hw) as [_ Hcs]. fold cs in Hcs, Hend.
  assert (0 <= offset / Z.of_nat cs) by (apply Z.div_pos; lia).
  assert (Hk : (k < length l)%nat).
  { apply Nat2Z.inj_lt. subst k. rewrite Z2Nat.id by done. apply Z.div_lt_upper_bound; lia. }
  destruct (lookup_lt_is_Some_2 l _ Hk) as [x Hx]. exists x.
  pose proof (disk_chain32_range _ _ _ _ Hch (list_elem_of_lookup_2 _ _ _ Hx)) as Hxr.
  split_and!; try done; try lia; try (by apply (entry_bound32 s x Hw); lia).
  - destruct l as [|y l]; [done|]. pose proof Hch as [<- _].
    pose proof (disk_chain32_range _ _ _ y Hch ltac:(by left)). lia.
  - destruct l as [|y l]; [done|]. pose proof Hch as [<- _].
    pose proof (disk_chain32_range _ _ _ y Hch ltac:(by left)). by apply (entry_bound32 s y Hw); lia.
  - apply Nat2Z.inj. subst k. rewrite Nat2Z.inj_add, Nat2Z.inj_mul, !Z2Nat.id by
      (lia || (apply Z.mod_pos_bound; lia)). pose proof (Z.div_mod offset (Z.of_nat cs)). lia.
Qed.

(** One turn reads the piece of the file in the cluster of [offset]. *)
Lemma read_turn32 fuel s c l offset total t :
  fat32_wf s -> 0 <= h_fat_copies (vheader s) -> disk_chain32 s c l -> Forall (data_fits32 s) l ->
  0 <= offset -> offset + total < 2147483648 -> offset < Z.of_nat (length l * cluster_size32 s) ->
  t = (if Z.of_nat (cluster_size32 s) <? total then Z.of_nat (cluster_size32 s) else total) -> 0 < t ->
  offset mod Z.of_nat (cluster_size32 s) + t <= Z.of_nat (cluster_size32 s) ->
  let piece := take (Z.to_nat t) (drop (Z.to_nat offset) (file_data32 s l)) in
  exists s2, same32 s s2 /\ fat32_read_internal_from_stream (S fuel) c offset total s =
    (if 0 <? total - t then
       '(res, out') ← fat32_read_internal_from_stream fuel c (s32 (offset + t)) (total - t);
       mret (res, piece ++ out')
     else mret (0, piece)) s2.
Proof.
  intros Hw Hcp Hch Hfit Ho Hmax Hend Ht Ht0 Htr piece. destruct (cluster_size32_range s Hw) as [Hcb Hcs].
  destruct (offset_split32 s c l offset Hw Hch Ho Hend) as (x & Hx & Hxr & Hxb & Hc0 & Hoff).
  set (cs := cluster_size32 s) in *. set (k := Z.to_nat (offset / Z.of_nat cs)) in *.
  pose proof (Forall_lookup_1 _ _ _ _ Hfit Hx) as Hxf.
  pose proof (Z.mod_pos_bound offset (Z.of_nat cs) ltac:(lia)) as Hmb.
  assert (Htt : 0 < t <= total) by (subst t; bcase; breflect; lia).
  destruct (cluster_loop32_spec k s c l x Hw Hch Hx) as (s1 & Hg & Hs1).
  destruct (same32_geometry _ _ Hs1) as (Hcs1 & Hp1 & Hfit1). pose proof (disk_size_bound (D := D)).
  destruct (read_cluster32 s1 x (offset mod Z.of_nat cs) t) as (s2 & Hread & Hs2);
    [apply Hs1|by apply Hfit1|lia|lia|rewrite Hcs1; fold cs; lia|].
  exists s2. split; [by eapply same32_trans|].
  assert (Hcl : fat32_get_cluster_for_offset (s32 c) offset s = Ret (x, s1)).
  { unfold fat32_get_cluster_for_offset. erewrite bind_Ret by reflexivity. rewrite s32_id by lia.
    rewrite Hcb, Z.quot_div_nonneg by lia. exact Hg. }
  cbn [fat32_read_internal_from_stream]. erewrite bind_Ret by reflexivity. cbv zeta. step Hcl.
  rewrite (proj2 (Z.ltb_ge x 0)) by lia. erewrite bind_Ret by reflexivity.
  rewrite (cluster_to_sector32_eq s1 x) by
    (apply Hs1 || (rewrite (same32_entries _ _ Hs1); lia) || (rewrite (sv_header _ _ Hs1); lia) || by apply Hfit1).
  rewrite Hcb. rewrite (u32_id (Z.of_nat cs)), (u32_id offset), (u32_id total) by lia.
  rewrite (s32_id (offset mod Z.of_nat cs)) by lia. destruct Hxf as [Hf1 Hf2]. fold cs in Hf2.
  rewrite (s32_id (data_pos32 s1 x + _)) by (rewrite Hp1; lia).
  erewrite bind_Ret by reflexivity. cbn [Z.eqb negb SERPAEOS_ALL_OK]. rewrite <- Ht, (s32_id t) by lia.
  step Hread. cbn [Z.eqb negb SERPAEOS_ALL_OK]. rewrite (s32_id (total - t)) by lia.
  assert (slice (vdev s1) (data_pos32 s1 x + offset mod Z.of_nat cs) (Z.to_nat t) = piece) as ->; [|done].
  subst piece. rewrite Hoff. unfold file_data32. fold cs.
  rewrite (clusters_data_piece _ _ _ l k x) by (done || lia). rewrite Z2Nat.id, Hp1 by lia.
  apply slice_bytes_eq. intros q Hq. apply (sv_bytes _ _ Hs1). lia.
Qed.

Lemma read_internal32_spec fuel s c l offset total :
  fat32_wf s -> 0 <= h_fat_copies (vheader s) -> disk_chain32 s c l -> Forall (data_fits32 s) l ->
  0 <= offset -> 0 < total -> offset + total <= Z.of_nat (length l * cluster_size32 s) ->
  offset + total < 2147483648 -> readable32 s offset total -> (Z.to_nat total <= fuel)%nat ->
  exists s', fat32_read_internal_from_stream fuel c offset total s =
      Ret ((0, take (Z.to_nat total) (drop (Z.to_nat offset) (file_data32 s l))), s') /\ same32 s s'.
Proof.
  revert s offset total. induction fuel as [|fuel IH]; intros s offset total Hw Hcp Hch Hfit Ho Ht Hend Hmax Hrd Hf;
    [lia|]. destruct (cluster_size32_range s Hw) as [_ Hcs]. unfold readable32 in Hrd.
  set (t := if Z.of_nat (cluster_size32 s) <? total then Z.of_nat (cluster_size32 s) else total).
  assert (Htr : 0 < t <= total /\ offset mod Z.of_nat (cluster_size32 s) + t <= Z.of_nat (cluster_size32 s) /\
            (t < total -> t = Z.of_nat (cluster_size32 s))).
  { pose proof (Z.mod_pos_bound offset (Z.of_nat (cluster_size32 s)) ltac:(lia)).
    subst t. bcase; breflect; [|split_and!; lia]. destruct Hrd as [Hrd|Hrd]; [rewrite Hrd; lia|lia]. }
  destruct (read_turn32 fuel s c l offset total t) as (s2 & Hs2 & ->); [done..|lia|done|lia|lia|].
  clearbody t. destruct (0 <? total - t) eqn:E; breflect.
  - destruct (same32_geometry _ _ Hs2) as (Hcs2 & Hp2 & Hfit2).
    assert (Hrd2 : readable32 s2 (offset + t) (total - t)).
    { unfold readable32. rewrite Hcs2. left. rewrite (proj2 (proj2 Htr)) by lia.
      rewrite <- Zplus_mod_idemp_r, Z_mod_same_full, Z.add_0_r.
      destruct Hrd as [Hrd|Hrd]; [done|]. pose proof (Z.mod_pos_bound offset (Z.of_nat (cluster_size32 s)) ltac:(lia)). lia. }
    rewrite s32_id by lia.
    destruct (IH s2 (offset + t) (total - t)) as (s3 & Hr3 & Hs3);
      [apply Hs2|rewrite (sv_header _ _ Hs2); lia|by apply (same32_chain s s2)
      |by eapply Forall_impl|lia|lia|rewrite Hcs2; lia|lia|done|lia|].
    step Hr3. exists s3. split; [|by eapply same32_trans].
    rewrite (same32_file s s2 l Hs2 Hfit). unfold mret, cmd_ret. do 3 f_equal.
    replace (Z.to_nat total) with (Z.to_nat t + Z.to_nat (total - t))%nat by lia.
    replace (Z.to_nat (offset + t)) with (Z.to_nat offset + Z.to_nat t)%nat by lia.
    by rewrite <- drop_drop, take_take_drop.
  - assert (total = t) as -> by lia. exists s2. split; done.
Qed.
End with_disk.

(** ** Properties *)

(** A volume of 64 sectors: a boot sector, the information sector with the
    hint 3, a table of 128 entries with the chain 2, 4 and everything else free,
    and the data area from sector 3 on, one sector per cluster. *)
Definition demo_table32 : list Z :=
  [0xF8; 0xFF; 0xFF; 0x0F; 0xFF; 0xFF; 0xFF; 0x0F; 4; 0; 0; 0; 0; 0; 0; 0; 0xFF; 0xFF; 0xFF; 0x0F] ++ replicate 492 0.
Definition demo_info : list Z := replicate 492 0 ++ [3; 0; 0; 0] ++ replicate 16 0.
Definition demo_image32 : list (list Z) :=
  replicate 512 0 :: demo_info :: demo_table32 :: ((fun k => replicate 512 k) <$> seqZ 3 61).
Definition demo_fat32 : fat32st (ata_dev 64) :=
  mk_fat32st (mk_ata 0 0 0 0 0 [] 0 [] 0 demo_image32) 0 0 0 disk0
    (mk_header32 1 2 1 50 1 2 1 0x29) demo_info.

Lemma demo_fat32_wf : fat32_wf demo_fat32.
Proof.
  split; [|reflexivity|vm_compute; split; discriminate|vm_compute; split; discriminate
    |vm_compute; reflexivity|vm_compute; split; [discriminate|reflexivity]|].
  - split; [reflexivity|]. apply (bool_decide_unpack _). vm_compute. exact I.
  - split; [reflexivity|]. apply (bool_decide_unpack _). vm_compute. exact I.
Qed.

Lemma demo_fat32_chain : disk_chain32 demo_fat32 2 [2; 4].
Proof. vm_compute. repeat split; discriminate. Qed.

Lemma demo_fat32_searchable : searchable32 demo_fat32.
Proof. vm_compute. repeat split; discriminate. Qed.

(** A FAT32 table entry that is written is read back, for every cluster of
    the table and every 32-bit value; every other entry, and every byte of the
    disk outside the entry, keeps its value. *)
Theorem fat32_entry_roundtrip {D} `{BlockDevOk D} (s : fat32st D) c v :
  fat32_wf s -> 0 <= c < entries32 s -> 0 <= v < 4294967296 ->
  exists s1, fat32_write_fat_entry c v s = Ret (4, s1) /\ fat32_wf s1 /\
    (forall c', 0 <= c' < entries32 s ->
       exists s2, fat32_get_fat_entry c' s1 = Ret (if c' =? c then v else fat32_at s c', s2)) /\
    (forall p, 0 <= p < disk_size (D := D) -> ~ (entry_pos32 s c <= p < entry_pos32 s c + 4) ->
       byte_at (vdev s1) p = byte_at (vdev s) p).
Proof.
  intros Hw Hc Hv. destruct (write_fat_entry32_spec s c v Hw Hc Hv) as (s1 & Hwr & Hew).
  exists s1. split_and!; [done|apply Hew| |apply Hew].
  intros c' Hc'. destruct (get_fat_entry32_spec s1 c') as (s2 & Hg & _); [apply Hew| |].
  { unfold entries32 in *. by rewrite (ev_header _ _ _ _ Hew). }
  exists s2. rewrite Hg. destruct (c' =? c) eqn:E; breflect.
  - subst c'. by rewrite (ev_entry _ _ _ _ Hew).
  - by rewrite (ev_other _ _ _ _ Hew).
Qed.

Lemma fat32_entry_roundtrip_witness :
  exists s1 s2, fat32_write_fat_entry 7 0x0ABCDEF0 demo_fat32 = Ret (4, s1) /\
    fat32_get_fat_entry 7 s1 = Ret (0x0ABCDEF0, s2).
Proof.
  destruct (fat32_entry_roundtrip demo_fat32 7 0x0ABCDEF0 demo_fat32_wf) as (s1 & Hw & _ & Hg & _).
  - vm_compute. split; [discriminate|reflexivity].
  - lia.
  - destruct (Hg 7) as (s2 & Hs2); [vm_compute; split; [discriminate|reflexivity]|].
    exists s1, s2. split; [exact Hw|exact Hs2].
Defined.

(** The three ways the FAT32 driver walks a chain agree: on every
    well-formed chain that fits the fuel, [fat32_find_last_cluster_of_chain]
    returns its last cluster, [fat32_get_cluster_chain] the clusters, and
    [fat32_count_clusters_in_chain] their number if the first one fits its 16-bit
    argument; the disk does not change. *)
Theorem fat32_walks_agree {D} `{BlockDevOk D} fuel (s : fat32st D) c l :
  fat32_wf s -> disk_chain32 s c l -> (length l <= fuel)%nat ->
  (exists s1 e, fat32_find_last_cluster_of_chain fuel c s = Ret (e, s1) /\ last l = Some e /\ same32 s s1) /\
  (c < 65536 -> exists s1, fat32_count_clusters_in_chain fuel c s = Ret (Z.of_nat (length l), s1) /\ same32 s s1) /\
  (exists s1, fat32_get_cluster_chain fuel c s = Ret (l, s1) /\ same32 s s1).
Proof.
  intros Hw Hch Hf. split_and!.
  - destruct (find_last32_spec fuel s c l Hw Hch Hf) as (s1 & e & ? & ? & ?). by exists s1, e.
  - intros Hc. destruct (count_chain32_spec fuel s c l 1 Hw Hch Hf) as (s1 & Hr & Hs). exists s1. split; [|done].
    unfold fat32_count_clusters_in_chain. rewrite u16_id.
    + rewrite Hr. do 2 f_equal. lia.
    + destruct l as [|x l]; [done|]. pose proof Hch as [<- _].
      pose proof (disk_chain32_range s x (x :: l) x Hch ltac:(by left)). lia.
  - by apply get_chain32_spec.
Qed.

Lemma fat32_walks_agree_witness :
  exists s1, fat32_get_cluster_chain 2 2 demo_fat32 = Ret ([2; 4], s1).
Proof.
  destruct (fat32_walks_agree 2 demo_fat32 2 [2; 4] demo_fat32_wf demo_fat32_chain) as (_ & _ & s1 & Hr & _).
  - simpl. lia.
  - exists s1. exact Hr.
Defined.

(** C34: reading a FAT32 file whose clusters all lie below 2 GB on the disk (the
    driver computes positions in an int): for a request of whole clusters from a
    cluster boundary, or of bytes of a single cluster, inside the file's chain and
    ending below 2 GB, [fat32_read_internal] returns exactly the bytes of the chain's clusters at
    that offset, in order, and does not change the disk. *)
Theorem fat32_read_correct {D} `{BlockDevOk D} (s : fat32st D) c l offset total :
  fat32_wf s -> 0 <= h_fat_copies (vheader s) -> disk_chain32 s c l -> Forall (data_fits32 s) l ->
  0 <= offset -> 0 < total -> offset + total <= Z.of_nat (length l * cluster_size32 s) ->
  offset + total < 2147483648 -> readable32 s offset total -> 0 <= c < 4294967296 ->
  exists s', fat32_read_internal c offset total s =
    Ret ((0, take (Z.to_nat total) (drop (Z.to_nat offset) (file_data32 s l))), s') /\ same32 s s'.
Proof.
  intros. unfold fat32_read_internal. rewrite u32_id by done. apply read_internal32_spec; (done || lia).
Qed.

Lemma fat32_read_correct_witness :
  exists s', fat32_read_internal 2 0 600 demo_fat32 =
    Ret ((0, take (Z.to_nat 600) (drop (Z.to_nat 0) (file_data32 demo_fat32 [2; 4]))), s').
Proof.
  destruct (fat32_read_correct demo_fat32 2 [2; 4] 0 600 demo_fat32_wf) as (s' & Hr & _).
  - vm_compute. discriminate.
  - exact demo_fat32_chain.
  - repeat constructor; vm_compute; (discriminate || reflexivity).
  - lia.
  - lia.
  - vm_compute. discriminate.
  - lia.
  - left. vm_compute. reflexivity.
  - lia.
  - exists s'. exact Hr.
Defined.

(** The free-cluster search of FAT32: from the hint of the information
    sector on, it returns the lowest free cluster, makes it the new hint and
    writes it to the information sector, and changes no table entry; it returns
    0, and changes nothing, when every cluster from the hint on is in use,
    whatever is free below the hint. *)
Theorem fat32_first_free_correct {D} `{BlockDevOk D} (s : fat32st D) :
  fat32_wf s -> searchable32 s ->
  exists r s', fat32_get_first_free_cluster s = Ret (r, s') /\ search_result s s' (hint s) r /\
    (r <> 0 -> next_free_cluster (fsinfo s') = r /\
       slice (vdev s') (h_fs_info_location (vheader s) * 512) 512 = fsinfo s').
Proof.
  intros Hw Hse. destruct (first_free32_spec s Hw Hse) as (r & s' & Hr & Hres). exists r, s'.
  split_and!; [done|done|]. intros Hnz. destruct Hres as [(Hrr & _ & _ & Hh)|(? & _)]; [|done].
  destruct (vw_fsinfo _ (hi_wf _ _ _ Hh)) as [Hl _]. destruct Hse as [? Hlt].
  pose proof (entry_bound32 s r Hw ltac:(lia)). pose proof (vw_info _ Hw). pose proof (vw_fits _ Hw).
  pose proof (vw_spf _ Hw). split.
  - rewrite (hi_fsinfo _ _ _ Hh). apply next_free_set; [apply Hw|lia].
  - rewrite <- Hl. apply (slice_patched (vdev s)); [apply Hh|lia|lia].
Qed.

Lemma fat32_first_free_correct_witness :
  exists r s', fat32_get_first_free_cluster demo_fat32 = Ret (r, s') /\ search_result demo_fat32 s' 3 r.
Proof.
  destruct (fat32_first_free_correct demo_fat32 demo_fat32_wf demo_fat32_searchable) as (r & s' & Hr & Hs & _).
  exists r, s'. split; [exact Hr|exact Hs].
Defined.

(** [fat32_add_cluster_to_chain] never succeeds: it compares the 4 bytes
    it writes with 2.  On a well-formed chain it returns -ENODISKSPACE when the
    search finds nothing, and otherwise -EIO after linking the last cluster to a
    free cluster whose own entry stays free, so that the chain has no end any
    more. *)
Theorem fat32_add_cluster_fails {D} `{BlockDevOk D} fuel (s : fat32st D) c l :
  fat32_wf s -> searchable32 s -> disk_chain32 s c l -> (length l <= fuel)%nat ->
  exists r s', fat32_add_cluster_to_chain fuel c s = Ret (r, s') /\ r < 0 /\
    ((r = - ENODISKSPACE /\ same32 s s') \/
     (r = - EIO /\ exists n e, last l = Some e /\ fat32_at s n = 0 /\ fat32_at s' e = n /\ fat32_at s' n = 0 /\
        (forall l', ~ disk_chain32 s' c l') /\
        forall x, 0 <= x < entries32 s -> x <> e -> fat32_at s' x = fat32_at s x)).
Proof.
  intros Hw Hse Hch Hf. destruct (add_cluster32_spec fuel s c l Hw Hse Hch Hf) as (r & s' & Hr & Hcase).
  exists r, s'. destruct Hcase as [(-> & Hs & _)|(-> & Hw' & n & e & He & Hn & Hfree & Hat)].
  { split_and!; [done|unfold ENODISKSPACE; lia|by left]. }
  split_and!; [done|unfold EIO; lia|]. right. split; [done|]. exists n, e.
  assert (Hel : e ∈ l) by (by apply last_Some_elem_of).
  pose proof (disk_chain32_range _ _ _ _ Hch Hel) as Her. destruct Hse as [? ?].
  assert (Hne : n <> e). { intros ->. by apply (disk_chain32_used _ _ _ _ Hch Hel). }
  assert (He' : fat32_at s' e = n) by (by rewrite Hat, decide_True by lia).
  assert (Hn' : fat32_at s' n = 0) by (by rewrite Hat, decide_False by lia).
  split_and!; try done; [|intros x Hx Hxe; by rewrite Hat, decide_False].
  assert (Hnb : n < 0x0FFFFFF8) by (pose proof (vw_spf _ Hw); unfold entries32 in *; lia).
  clear Hr Hf Hfree Hn. revert c Hch. induction l as [|x l IH]; intros c Hch l' Hch'; [done|].
  destruct l' as [|x' l']; [done|]. pose proof Hch as (-> & Hc & Hl). pose proof Hch' as (-> & Hc' & Hl').
  unfold link_ok in Hc. destruct l as [|y l].
  - injection He as ->. rewrite He' in Hl'. destruct l' as [|y' l']; [lia|]. destruct Hl' as [_ Hl'].
    by apply (disk_chain32_used s' n (y' :: l') n Hl'); [destruct Hl' as [-> _]; left|].
  - destruct Hl as [Hlt Hl]. rewrite last_cons_cons in He.
    assert (Hyl : e ∈ y :: l) by (by apply last_Some_elem_of).
    assert (fat32_at s' c = fat32_at s c) as Hcc.
    { rewrite Hat, decide_False; [done| |lia]. intros ->.
      pose proof (chain_nodup _ _ _ _ Hch) as Hnd. by apply NoDup_cons in Hnd as [? _]. }
    rewrite Hcc in Hl'. destruct l' as [|y' l']; [lia|]. destruct Hl' as [_ Hl'].
    by apply (IH He Hyl (fat32_at s c) Hl (y' :: l')).
Qed.

Lemma fat32_add_cluster_fails_witness :
  exists r s', fat32_add_cluster_to_chain 2 2 demo_fat32 = Ret (r, s') /\ r < 0.
Proof.
  destruct (fat32_add_cluster_fails 2 demo_fat32 2 [2; 4] demo_fat32_wf demo_fat32_searchable demo_fat32_chain)
    as (r & s' & Hr & Hneg & _).
  - simpl. lia.
  - exists r, s'. split; [exact Hr|exact Hneg].
Defined.

(** [fat32_erase_cluster_chain] does not stop at the end of a chain: after
    freeing the clusters of a chain that ends as FAT32 chains do, the loop goes
    on with the end mark as if it were a cluster, because it stops at 0x0FFFFFF
    only. *)
Theorem fat32_erase_runs_past_end {D} `{BlockDevOk D} (s : fat32st D) c l e :
  fat32_wf s -> disk_chain32 s c l -> last l = Some e -> (0x0FFFFFF ∉ l) -> 3 <= c ->
  exists s', (forall x, 0 <= x < entries32 s -> fat32_at s' x = if decide (x ∈ l) then 0 else fat32_at s x) /\
    0x0FFFFFF8 <= fat32_at s e /\
    forall fuel, fat32_erase_cluster_chain (length l + fuel) c s =
      (erase_loop32 fuel (fat32_at s e);; mret 0) s'.
Proof.
  intros Hw Hch He Hmk Hc. destruct (erase_loop32_spec s c l e Hw Hch He Hmk) as (s' & Hr & _ & _ & Hf).
  exists s'. split_and!; [done| |].
  - exact (proj1 (chain_last _ _ _ _ _ Hch He)).
  - intros fuel. unfold fat32_erase_cluster_chain. rewrite (proj2 (Z.leb_gt _ _)) by lia.
    unfold mbind, cmd_bind. by rewrite Hr.
Qed.

Lemma fat32_erase_runs_past_end_witness :
  exists s', forall fuel, fat32_erase_cluster_chain (1 + fuel) 4 demo_fat32 =
    (erase_loop32 fuel 0x0FFFFFFF;; mret 0) s'.
Proof.
  destruct (fat32_erase_runs_past_end demo_fat32 4 [4] 4 demo_fat32_wf) as (s' & _ & _ & Hr).
  - vm_compute. repeat split; discriminate.
  - reflexivity.
  - intros Hin%list_elem_of_singleton. discriminate.
  - lia.
  - exists s'. exact Hr.
Defined.

(** A chain made by [fat32_generate_cluster_chain] has no end: the mark it
    writes, 0x0FFFFFF, is a link for every walk. *)
Lemma fat32_generated_unterminated {D} `{BlockDevOk D} fuel (s : fat32st D) :
  fat32_wf s -> searchable32 s ->
  exists r s', fat32_generate_cluster_chain fuel 1 s = Ret (r, s') /\
    (r <> 0 -> exists s2, forall fuel',
       fat32_find_last_cluster_of_chain (S fuel') r s' = fat32_find_last_cluster_of_chain fuel' 0x0FFFFFF s2).
Proof.
  intros Hw Hse. unfold fat32_generate_cluster_chain. cbn [Z.leb Z.compare].
  destruct (first_free32_spec s Hw Hse) as (n & s1 & Hff & Hcase). step Hff.
  destruct Hcase as [(Hn & _ & _ & Hh)|(-> & _)]; [|by exists 0, s1].
  destruct Hse as [? ?]. rewrite (proj2 (Z.eqb_neq n 0)) by lia.
  assert (Hen : entries32 s1 = entries32 s) by (unfold entries32; by rewrite (hi_header _ _ _ Hh)).
  destruct (write_fat_entry32_spec s1 n 0x0FFFFFF) as (s2 & Hw2 & Hew); [apply Hh|lia|lia|]. step Hw2.
  change (Z.to_nat (1 - 1)) with 0%nat. cbn [Z.eqb negb Pos.eqb add_clusters32].
  exists n, s2. split; [done|]. intros _.
  assert (Hen2 : entries32 s2 = entries32 s) by (rewrite <- Hen; unfold entries32; by rewrite (ev_header _ _ _ _ Hew)).
  destruct (get_fat_entry32_spec s2 n) as (s3 & Hg & _); [apply Hew|lia|]. exists s3. intros fuel'.
  cbn [fat32_find_last_cluster_of_chain]. step Hg. by rewrite (ev_entry _ _ _ _ Hew).
Qed.
