(* ===== verification/FatDirs.v ===== *)
(** * Directories and open files of the FAT drivers
      (src/src/fs/fat/fat16.c, fat16_write.c, src/src/fs/fat32/fat32.c)

    The two drivers have the same code above their allocation tables, so it is
    written once over an interface, [FatVolume], of what differs.  Directories,
    their entry arrays, items and descriptors are heap objects by address; an
    access to an address that holds none is [Oob], and an object disappears when
    it is freed. *)
From S2P Require Import Prelude Config CMem CString Kheap PathParser Disk Streamer Vfs Fat16 Fat16Names.

Definition FAT_FILE_VOLUME_LABEL : Z := 0x08.

(** [struct fat_directory] with the pointer to its entries, [struct fat_item]
    with its union, and [struct fat_file_descriptor]. *)
Record dir_obj := mk_dobj { d_items : Z; d_total : Z; d_sector : Z }.
Record fat_item := mk_fitem { i_ptr : Z; i_type : Z }.
Record fat_fdesc := mk_ffd { ff_path : Z; ff_item : Z; ff_pos : Z; ff_mode : Z }.
Definition sizeof_fat_directory : Z := 16.
Definition sizeof_fat_item : Z := 8.
Definition sizeof_fat_file_descriptor : Z := 16.
Definition sizeof_path_root : Z := 8.

(** What a driver has below its directories.  [V] is [struct fat_private] with
    its disk; [vol_dev] and [vol_with] take the disk out and put it in. *)
Class FatVolume (D V : Type) := {
  vol_dev : V -> D;
  vol_with : D -> V -> V;
  vol_sector_size : V -> Z;
  vol_cluster_bytes : V -> Z;
  vol_cluster_to_sector : V -> Z -> Z;
  vol_total_items : nat -> Z -> cmd V Z;
  vol_read_internal : Z -> Z -> Z -> cmd V (Z * list Z);
  vol_dir : forall A, cmd (stream D) A -> cmd V A;
  vol_data : forall A, cmd (stream D) A -> cmd V A;
  vol_entry : Z -> cmd V Z;
  vol_end_mark : Z;
  vol_last_cluster : nat -> Z -> cmd V Z;
  vol_add_cluster : nat -> Z -> cmd V Z;
  vol_erase : nat -> Z -> cmd V Z;
  vol_cluster_count : V -> Z -> Z;
  vol_skip_labels : bool;
  vol_open_tries : nat
}.
Arguments vol_dir {D V _ A}.
Arguments vol_data {D V _ A}.

Section fat.
Context {H : Type} `{Allocator H} {D V : Type} `{BlockDev D} `{!FatVolume D V}.

(** The one disk, and the objects: private structures with the address of
    their root directory, directories, byte buffers, items, descriptors. *)
Record fatfs := mk_fatfs {
  fs_dev : D;
  privs : gmap Z (V * Z);
  dirs : gmap Z dir_obj;
  bufs : gmap Z (list Z);
  fitems : gmap Z fat_item;
  ffds : gmap Z fat_fdesc
}.
Definition fdst : Type := fsst H fatfs.

Definition set_privs (m : gmap Z (V * Z)) (s : fatfs) : fatfs :=
  mk_fatfs (fs_dev s) m (dirs s) (bufs s) (fitems s) (ffds s).
Definition set_dirs (m : gmap Z dir_obj) (s : fatfs) : fatfs :=
  mk_fatfs (fs_dev s) (privs s) m (bufs s) (fitems s) (ffds s).
Definition set_bufs (m : gmap Z (list Z)) (s : fatfs) : fatfs :=
  mk_fatfs (fs_dev s) (privs s) (dirs s) m (fitems s) (ffds s).
Definition set_fitems (m : gmap Z fat_item) (s : fatfs) : fatfs :=
  mk_fatfs (fs_dev s) (privs s) (dirs s) (bufs s) m (ffds s).
Definition set_ffds (m : gmap Z fat_fdesc) (s : fatfs) : fatfs :=
  mk_fatfs (fs_dev s) (privs s) (dirs s) (bufs s) (fitems s) m.

(** Running the parts. *)
Definition on_pp {A} (c : cmd (ppstate H) A) : cmd fdst A := fun s =>
  '(a, pp) ← c (fst s); Ret (a, (pp, snd s)).
Definition upd (f : fatfs -> fatfs) : cmd fdst unit := modifyS (fun s => (fst s, f (snd s))).
Definition look {A} (m : fatfs -> gmap Z A) (p : Z) : cmd fdst A := fun s =>
  match m (snd s) !! p with
  | Some a => Ret (a, s)
  | None => Oob
  end.
Definition fkz (size : Z) : cmd fdst Z := on_pp (ppk (kz size)).

(** The object of a block goes with the block; the private structure contains
    the root directory of FAT16, and the allocator frees the allocation a
    pointer points into. *)
Definition fkf (p : Z) : cmd fdst unit :=
  on_pp (ppk (kf p));;
  upd (fun s => mk_fatfs (fs_dev s) (delete (p - p mod 4096) (privs s)) (delete p (dirs s)) (delete p (bufs s))
                  (delete p (fitems s)) (delete p (ffds s))).

(** [disk->fs_private], with the disk. *)
Definition on_vol {A} (d : disk) (c : cmd V A) : cmd fdst A := fun s =>
  match privs (snd s) !! fs_private d with
  | Some (v, root) =>
      '(a, v) ← c (vol_with (fs_dev (snd s)) v);
      Ret (a, (fst s, mk_fatfs (vol_dev v) (<[fs_private d := (v, root)]> (privs (snd s))) (dirs (snd s))
                        (bufs (snd s)) (fitems (snd s)) (ffds (snd s))))
  | None => Oob
  end.
Definition get_vol (d : disk) : cmd fdst V := '(v, _) ← look privs (fs_private d); mret v.
Definition get_root (d : disk) : cmd fdst Z := '(_, r) ← look privs (fs_private d); mret r.

(** ** Items and directories *)
Definition fat_clone_directory_item (item : list Z) (size : Z) : cmd fdst Z :=
  if size <? 32 then mret 0
  else
    item_copy ← fkz size;
    if item_copy =? 0 then mret 0
    else
      upd (fun s => set_bufs (<[item_copy := take (Z.to_nat size) item]> (bufs s)) s);;
      mret item_copy.

Definition fat_free_directory (directory : Z) : cmd fdst unit :=
  if directory =? 0 then mret tt
  else
    dir ← look dirs directory;
    (if negb (d_items dir =? 0) then fkf (d_items dir) else mret tt);;
    fkf directory.

Definition fat_fat_item_free (item : Z) : cmd fdst unit :=
  it ← look fitems item;
  (if i_type it =? FAT_ITEM_TYPE_DIRECTORY then fat_free_directory (i_ptr it)
   else if i_type it =? FAT_ITEM_TYPE_FILE then fkf (i_ptr it)
   else mret tt);;
  fkf item.

(** [buf[0..]] overwritten by the bytes a read delivered. *)
Definition overlay (out buf : list Z) : list Z := out ++ drop (length out) buf.

(** The code before the label [out]: the result and [directory]. *)
Definition load_fat_directory_body (fuel : nat) (d : disk) (item : list Z) : cmd fdst (Z * Z) :=
  if negb (c_true (Z.land (item_attribute item) FAT_FILE_SUBDIRECTORY)) then mret (- EINVARG, 0)
  else
    directory ← fkz sizeof_fat_directory;
    if directory =? 0 then mret (- ENOMEM, 0)
    else
      upd (fun s => set_dirs (<[directory := mk_dobj 0 0 0]> (dirs s)) s);;
      v ← get_vol d;
      let cluster := fat16_get_first_cluster item in
      let cluster_sector := vol_cluster_to_sector v cluster in
      total_items ← on_vol d (vol_total_items fuel cluster_sector);
      let directory_size := s32 (u32 (total_items * 32)) in
      items ← fkz (u32 directory_size);
      upd (fun s => set_dirs (<[directory := mk_dobj items total_items 0]> (dirs s)) s);;
      if items =? 0 then mret (- ENOMEM, directory)
      else
        '(res, out) ← on_vol d (vol_read_internal cluster 0 directory_size);
        upd (fun s => set_bufs (<[items := overlay out (replicate (Z.to_nat directory_size) 0)]> (bufs s)) s);;
        if negb (res =? SERPAEOS_ALL_OK) then mret (res, directory)
        else
          upd (fun s => set_dirs (<[directory := mk_dobj items total_items cluster_sector]> (dirs s)) s);;
          mret (res, directory).

(** The pointer is returned also when it was freed. *)
Definition fat_load_fat_directory (fuel : nat) (d : disk) (item : list Z) : cmd fdst Z :=
  '(res, directory) ← load_fat_directory_body fuel d item;
  (if negb (res =? SERPAEOS_ALL_OK) then fat_free_directory directory else mret tt);;
  mret directory.

Definition fat_new_fat_item_for_directory_item (fuel : nat) (d : disk) (item : list Z) : cmd fdst Z :=
  f_item ← fkz sizeof_fat_item;
  if f_item =? 0 then mret 0
  else if c_true (Z.land (item_attribute item) FAT_FILE_SUBDIRECTORY) then
    directory ← fat_load_fat_directory fuel d item;
    upd (fun s => set_fitems (<[f_item := mk_fitem directory FAT_ITEM_TYPE_DIRECTORY]> (fitems s)) s);;
    mret f_item
  else
    clone ← fat_clone_directory_item item 32;
    upd (fun s => set_fitems (<[f_item := mk_fitem clone FAT_ITEM_TYPE_FILE]> (fitems s)) s);;
    mret f_item.

(** The entry with a name, from index [i]; [tmp] is the stack buffer. *)
Fixpoint find_item_loop (n : nat) (items tmp name : list Z) (i : Z) : outcome (option (list Z)) :=
  match n with
  | O => Ret None
  | S n =>
      item ← item_at (mk_dir items 0 0 0) i;
      if vol_skip_labels && c_true (Z.land (item_attribute item) FAT_FILE_VOLUME_LABEL)
      then find_item_loop n items tmp name (i + 1)
      else
        tmp ← fat16_get_full_relative_filename item tmp SERPAEOS_MAX_PATH;
        r ← istrncmp tmp name SERPAEOS_MAX_PATH;
        if r =? 0 then Ret (Some item) else find_item_loop n items tmp name (i + 1)
  end.

(** The array is not looked at when the directory has no entries. *)
Definition dir_bytes (dir : dir_obj) : cmd fdst (list Z) :=
  if d_total dir <=? 0 then mret [] else look bufs (d_items dir).

Definition fat_find_item_in_directory (fuel : nat) (d : disk) (directory : Z) (name : list Z) : cmd fdst Z :=
  dir ← look dirs directory;
  items ← dir_bytes dir;
  found ← liftO (find_item_loop (Z.to_nat (d_total dir)) items (replicate 108 0) name 0);
  match found with
  | Some item => fat_new_fat_item_for_directory_item fuel d item
  | None => mret 0
  end.

(** A path component: its name and the next component. *)
Definition get_part (p : Z) : cmd fdst (list Z * Z) := fun s =>
  match pp_parts (fst s) !! p with
  | Some (str, next) =>
      match pp_strs (fst s) !! str with
      | Some name => Ret ((name, next), s)
      | None => Oob
      end
  | None => Oob
  end.

Fixpoint directory_entry_loop (n : nat) (fuel : nat) (d : disk) (current_item next_part : Z) : cmd fdst Z :=
  match n with
  | O => liftO OutOfFuel
  | S n =>
      if next_part =? 0 then mret current_item
      else
        it ← look fitems current_item;
        if negb (i_type it =? FAT_ITEM_TYPE_DIRECTORY) then mret 0
        else
          '(name, next) ← get_part next_part;
          tmp_item ← fat_find_item_in_directory fuel d (i_ptr it) name;
          fat_fat_item_free current_item;;
          directory_entry_loop n fuel d tmp_item next
  end.

(** The path cannot be longer than the parts there are. *)
Definition fat_get_directory_entry (fuel : nat) (d : disk) (path : Z) : cmd fdst Z :=
  root ← get_root d;
  '(name, next_part) ← get_part path;
  root_item ← fat_find_item_in_directory fuel d root name;
  if root_item =? 0 then mret 0
  else
    s ← getS;
    directory_entry_loop (S (size (pp_parts (fst s)))) fuel d root_item next_part.

(** [for (curr = path; curr->next->next; curr = curr->next);] *)
Fixpoint last_but_one (n : nat) (parts : gmap Z (Z * Z)) (curr : Z) : outcome Z :=
  match n with
  | O => OutOfFuel
  | S n =>
      match parts !! curr with
      | Some (_, next) =>
          match parts !! next with
          | Some (_, next2) => if next2 =? 0 then Ret curr else last_but_one n parts next
          | None => Oob
          end
      | None => Oob
      end
  end.

Definition set_next (curr next : Z) : cmd fdst unit := fun s =>
  match pp_parts (fst s) !! curr with
  | Some (str, _) =>
      Ret (tt, (mk_pp (ppalloc (fst s)) (pp_strs (fst s)) (<[curr := (str, next)]> (pp_parts (fst s)))
                  (pp_roots (fst s)), snd s))
  | None => Oob
  end.

(** The item of a path of one component points to the root directory itself. *)
Definition fat_get_parent_dir (fuel : nat) (d : disk) (path : Z) : cmd fdst Z :=
  if path =? 0 then mret 0
  else
    '(_, next) ← get_part path;
    if next =? 0 then
      root ← get_root d;
      res ← fkz sizeof_fat_item;
      if res =? 0 then liftO Oob
      else
        upd (fun s => set_fitems (<[res := mk_fitem root FAT_ITEM_TYPE_DIRECTORY]> (fitems s)) s);;
        mret res
    else
      s ← getS;
      curr ← liftO (last_but_one (S (size (pp_parts (fst s)))) (pp_parts (fst s)) path);
      '(_, tmp) ← get_part curr;
      set_next curr 0;;
      res ← fat_get_directory_entry fuel d path;
      set_next curr tmp;;
      mret res.

(** ** Directory entries on the disk *)

(** The index of the entry in the 12-byte buffer's comparison, and the
    location after the entries before it. *)
Fixpoint write_entry_loop (n : nat) (items tmp last : list Z) (i location : Z) : outcome (Z * Z) :=
  match n with
  | O => Ret (i, location)
  | S n =>
      item ← item_at (mk_dir items 0 0 0) i;
      tmp ← fat16_get_full_relative_filename item tmp 12;
      r ← istrncmp last tmp 12;
      if r =? 0 then Ret (i, location)
      else write_entry_loop n items tmp last (i + 1) (u32 (location + 32))
  end.

(** The name of the last component of a path. *)
Definition last_name (path : Z) : cmd fdst (list Z) :=
  s ← getS;
  p ← liftO (pathparser_get_last_part (S (size (pp_parts (fst s)))) (fst s) path);
  '(name, _) ← get_part p;
  mret name.

(** The rewriting, once the item of the parent directory is there. *)
Definition write_entry_in (d : disk) (path : Z) (new_item : list Z) (parent_dir_item : Z) : cmd fdst Z :=
  it ← look fitems parent_dir_item;
  let dir := i_ptr it in
  if dir =? 0 then mret (- EBADPATH)
  else
    dobj ← look dirs dir;
    v ← get_vol d;
    items ← dir_bytes dobj;
    name ← last_name path;
    '(i, location_bytes) ← liftO (write_entry_loop (Z.to_nat (d_total dobj)) items (replicate 12 0) name 0
                                    (u32 (d_sector dobj * vol_sector_size v)));
    if i =? d_total dobj then mret (- EINVARG)
    else
      i ← on_vol d (vol_dir (diskstreamer_seek (s32 location_bytes)));
      if negb (i =? SERPAEOS_ALL_OK) then mret i
      else
        i ← on_vol d (vol_dir (diskstreamer_write new_item 32));
        fat_fat_item_free parent_dir_item;;
        mret i.

Definition fat_write_directory_entry (fuel : nat) (d : disk) (path : Z) (new_item : list Z) : cmd fdst Z :=
  parent_dir_item ← fat_get_parent_dir fuel d path;
  write_entry_in d path new_item parent_dir_item.

(** ** Open files *)
Definition set_field (n : nat) (off : nat) (v : Z) (it : list Z) : list Z :=
  take off it ++ le_split n v ++ drop (off + n) it.

(** The entry a descriptor's item points to, and its address. *)
Definition desc_item (desc : fat_fdesc) : cmd fdst (fat_item * list Z) :=
  it ← look fitems (ff_item desc);
  bytes ← look bufs (i_ptr it);
  mret (it, bytes).

Definition as_fdesc (it : fat_item) (bytes : list Z) (desc : fat_fdesc) : fat_file_descriptor :=
  mk_fdesc (i_type it) bytes (ff_pos desc) (ff_mode desc).

(** [get_directory_entry], repeated while nothing was found and a try is left. *)
Fixpoint find_tries (n : nat) (fuel : nat) (d : disk) (path : Z) : cmd fdst Z :=
  match n with
  | O => mret 0
  | S n =>
      item ← fat_get_directory_entry fuel d path;
      if item =? 0 then find_tries n fuel d path else mret item
  end.

Definition FAT_DATE (now : date_time) : Z :=
  u16 (Z.lor (Z.lor (Z.land (day now) 31) (Z.shiftl (month now) 5)) (Z.shiftl (year now - 1980) 9)).

(** The code before the label [err_out]: the error and the descriptor. *)
Definition open_body (fuel : nat) (now : date_time) (d : disk) (path mode : Z) : cmd fdst (Z * Z) :=
  descriptor ← fkz sizeof_fat_file_descriptor;
  if descriptor =? 0 then mret (- ENOMEM, 0)
  else
    upd (fun s => set_ffds (<[descriptor := mk_ffd 0 0 0 0]> (ffds s)) s);;
    item ← find_tries vol_open_tries fuel d path;
    upd (fun s => set_ffds (<[descriptor := mk_ffd 0 item 0 0]> (ffds s)) s);;
    if item =? 0 then mret (- EIO, descriptor)
    else
      it ← look fitems item;
      if negb (i_type it =? FAT_ITEM_TYPE_FILE) then mret (- EINVARG, descriptor)
      else
        bytes ← look bufs (i_ptr it);
        if c_true (Z.land mode FILE_MODE_WRITE) && c_true (Z.land (item_attribute bytes) FAT_FILE_READ_ONLY)
        then mret (- ERDONLY, descriptor)
        else
          let pos :=
            if c_true (Z.land mode FILE_MODE_APPEND)
            then f_pos (snd (fat16_seek (mk_fdesc (i_type it) bytes 0 0) 0 SEEK_END)) else 0 in
          upd (fun s => set_ffds (<[descriptor := mk_ffd path item pos mode]> (ffds s)) s);;
          let bytes := set_field 2 18 (FAT_DATE now) bytes in
          upd (fun s => set_bufs (<[i_ptr it := bytes]> (bufs s)) s);;
          fat_write_directory_entry fuel d path bytes;;
          mret (0, descriptor).

(** The descriptor or an error as a pointer; [now] is [get_current_time]. *)
Definition fat_open (fuel : nat) (now : date_time) (d : disk) (path mode : Z) : cmd fdst Z :=
  '(err_code, descriptor) ← open_body fuel now d path mode;
  if err_code =? 0 then mret descriptor
  else
    (if negb (descriptor =? 0) then fkf descriptor else mret tt);;
    mret (u32 err_code).

Definition fat_free_file_descriptor (desc : Z) : cmd fdst unit :=
  ff ← look ffds desc;
  fat_fat_item_free (ff_item ff);;
  fkf desc.

Definition fat_close (private : Z) : cmd fdst Z :=
  root ← fkz sizeof_path_root;
  if root =? 0 then liftO Oob
  else
    ff ← look ffds private;
    on_pp (modifyS (fun s => mk_pp (ppalloc s) (pp_strs s) (pp_parts s) (<[root := (0, ff_path ff)]> (pp_roots s))));;
    on_pp (pathparser_free root);;
    fat_free_file_descriptor private;;
    mret 0.

(** The caller's structure is left alone when the item is not a file. *)
Definition fat_fstat (d : disk) (private : Z) (stat : file_stat) : cmd fdst (Z * file_stat) :=
  ff ← look ffds private;
  it ← look fitems (ff_item ff);
  if negb (i_type it =? FAT_ITEM_TYPE_FILE) then mret (- EINVARG, stat)
  else
    '(it, bytes) ← desc_item ff;
    mret (fat16_stat (as_fdesc it bytes ff) stat).

Definition fat_ftell (private : Z) : cmd fdst Z :=
  ff ← look ffds private;
  mret (s32 (ff_pos ff)).

Definition fat_seek (private offset seek_mode : Z) : cmd fdst Z :=
  ff ← look ffds private;
  it ← look fitems (ff_item ff);
  if negb (i_type it =? FAT_ITEM_TYPE_FILE) then mret (- EINVARG)
  else
    '(it, bytes) ← desc_item ff;
    let '(res, fd) := fat16_seek (as_fdesc it bytes ff) offset seek_mode in
    upd (fun s => set_ffds (<[private := mk_ffd (ff_path ff) (ff_item ff) (f_pos fd) (ff_mode ff)]> (ffds s)) s);;
    mret res.

(** The members of a read: the last result, the bytes, the offset after them. *)
Fixpoint read_members_loop (n : nat) (d : disk) (item : list Z) (offset size : Z) : cmd fdst (Z * list Z * Z) :=
  match n with
  | O => mret (0, [], offset)
  | S n =>
      '(res, out) ← on_vol d (vol_read_internal (fat16_get_first_cluster item) offset (s32 size));
      if ISERR res then mret (res, out, offset)
      else
        '(res', out', offset) ← read_members_loop n d item (s32 (offset + size)) size;
        mret ((if bool_decide (n = 0%nat) then res else res'), out ++ out', offset)
  end.

Definition fat_read (d : disk) (private size nmemb : Z) : cmd fdst (Z * list Z) :=
  ff ← look ffds private;
  '(_, item) ← desc_item ff;
  '(res, out, offset) ← read_members_loop (Z.to_nat nmemb) d item (s32 (ff_pos ff)) size;
  if ISERR res then mret (res, out)
  else
    upd (fun s => set_ffds (<[private := mk_ffd (ff_path ff) (ff_item ff) (u32 offset) (ff_mode ff)]> (ffds s)) s);;
    mret (res, out).

Definition fat_delete (fuel : nat) (d : disk) (private : Z) : cmd fdst Z :=
  ff ← look ffds private;
  if Z.land (ff_mode ff) FILE_MODE_WRITE =? 0 then mret (- EINVARG)
  else
    '(it, bytes) ← desc_item ff;
    if c_true (Z.land (item_attribute bytes) FAT_FILE_READ_ONLY) then mret (- EINVARG)
    else
      bytes ← liftO (store bytes 0 0xE5);
      upd (fun s => set_bufs (<[i_ptr it := bytes]> (bufs s)) s);;
      res ← fat_write_directory_entry fuel d (ff_path ff) bytes;
      if res <? 0 then mret (- EIO)
      else
        res ← on_vol d (vol_erase fuel (fat16_get_first_cluster bytes));
        fat_free_file_descriptor private;;
        mret res.

(** ** Writing *)
Fixpoint grow_loop (n : nat) (fuel : nat) (d : disk) (first_cluster : Z) : cmd fdst Z :=
  match n with
  | O => mret 0
  | S n =>
      res ← on_vol d (vol_add_cluster fuel first_cluster);
      if res <? 0 then mret res else grow_loop n fuel d first_cluster
  end.

(** The rest of the clusters; each turn but the last writes a whole one. *)
Fixpoint write_clusters (n : nat) (d : disk) (target_cluster : Z) (buf : list Z) (size res : Z) : cmd fdst Z :=
  match n with
  | O => liftO OutOfFuel
  | S n =>
      if size <=? 0 then mret res
      else
        target_cluster ← on_vol d (vol_entry target_cluster);
        if vol_end_mark <=? target_cluster then mret res
        else
          v ← get_vol d;
          let total_to_write := if size <=? vol_cluster_bytes v then size else vol_cluster_bytes v in
          res ← on_vol d (vol_data (diskstreamer_seek
                   (s32 (u32 (vol_cluster_to_sector v target_cluster * vol_sector_size v)))));
          if res <? 0 then mret res
          else
            res ← on_vol d (vol_data (diskstreamer_write buf total_to_write));
            if res <? 0 then mret res
            else write_clusters n d target_cluster (drop (Z.to_nat total_to_write) buf) (size - total_to_write) res
  end.

(** Step 3 of the driver: the data.  The bytes written to the first cluster
    are as many as the position is into its cluster. *)
Definition write_data (fuel : nat) (d : disk) (first_cluster_to_write pos : Z) (buf : list Z) (size : Z) : cmd fdst Z :=
  v ← get_vol d;
  let free_space_of_first_cluster := pos mod u32 (vol_cluster_bytes v) in
  let offset := u32 (u32 (vol_cluster_to_sector v first_cluster_to_write * vol_sector_size v)
                     + free_space_of_first_cluster) in
  res ← on_vol d (vol_data (diskstreamer_seek (s32 offset)));
  if res <? 0 then mret res
  else
    res ← on_vol d (vol_data (diskstreamer_write buf (s32 free_space_of_first_cluster)));
    if res <? 0 then mret res
    else
      let size := s32 (u32 (size - free_space_of_first_cluster)) in
      write_clusters fuel d first_cluster_to_write (drop (Z.to_nat free_space_of_first_cluster) buf) size res.

(** [None] is a null buffer. *)
Definition fat_write (fuel : nat) (d : disk) (descriptor : Z) (buf : list Z) (size : Z) : cmd fdst Z :=
  if (descriptor =? 0) || (size =? 0) then mret (- EINVARG)
  else
    ff ← look ffds descriptor;
    it ← look fitems (ff_item ff);
    if negb (i_type it =? FAT_ITEM_TYPE_FILE) then mret (- EINVARG)
    else if Z.land (ff_mode ff) FILE_MODE_WRITE =? 0 then mret (- ERDONLY)
    else
      bytes ← look bufs (i_ptr it);
      v ← get_vol d;
      let old_filesize := item_filesize bytes in
      let old_cluster_count := vol_cluster_count v old_filesize in
      let first_cluster := fat16_get_first_cluster bytes in
      first_cluster_to_write ← on_vol d (vol_last_cluster fuel first_cluster);
      res ← (if u32 (old_cluster_count * vol_cluster_bytes v) <? u32 (old_filesize + size) then
               grow_loop (Z.to_nat (u32 (vol_cluster_count v (u32 (old_filesize + size)) - old_cluster_count)))
                 fuel d first_cluster
             else mret 0);
      if res <? 0 then mret res
      else
        let bytes := set_field 4 28 (u32 (old_filesize + size)) bytes in
        upd (fun s => set_bufs (<[i_ptr it := bytes]> (bufs s)) s);;
        res ← fat_write_directory_entry fuel d (ff_path ff) bytes;
        if res <=? 0 then mret res
        else
          ff ← look ffds descriptor;
          write_data fuel d first_cluster_to_write (ff_pos ff) buf size.
End fat.
Arguments fatfs D V : clear implicits.
Arguments fdst H D V : clear implicits.
