(* ===== verification/FatMount.v ===== *)
(** * The two FAT drivers: mounting, and their operations
      (src/src/fs/fat/fat16.c, fat16_write.c, src/src/fs/fat32/fat32.c)

    [FatDirs.v] applied to the two allocation tables, what each driver does to
    recognise and mount a disk, the creation of a file, and the two tables of
    operations that the virtual file system calls. *)
From S2P Require Import Prelude Config CMem CString Kheap PathParser Disk Streamer Vfs Fat16 Fat16Names Fat32 FatDirs.

Section mount.
Context {H : Type} `{Allocator H} {D : Type} `{BlockDev D}.

(** ** FAT16 *)
#[export] Instance fat16_volume : FatVolume D (Fat16.fatst D) := {|
  vol_dev := fdev;
  vol_with d v := mk_fatst d (cluster_pos v) (fat_pos v) (dir_pos v) (fdisk v) (header v) (root_directory v);
  vol_sector_size v := sector_size (fdisk v);
  vol_cluster_bytes := cluster_bytes;
  vol_cluster_to_sector := fat16_cluster_to_sector;
  vol_total_items := fat16_get_total_items_for_directory;
  vol_read_internal := fat16_read_internal;
  vol_dir := @on_dir D;
  vol_data := @on_cluster D;
  vol_entry c := (code ← fat16_get_fat_entry c; mret (u16 code));
  vol_end_mark := 0xFFF8;
  vol_last_cluster fuel c := fat16_find_last_cluster_of_chain fuel (u16 c);
  vol_add_cluster fuel c := fat16_add_cluster_to_chain fuel (u16 c);
  vol_erase fuel c := fat16_erase_cluster_chain fuel (u16 c);
  vol_cluster_count := fat16_filesize_to_cluster_count;
  vol_skip_labels := false;
  vol_open_tries := 2
|}.

(** ** FAT32 *)
#[export] Instance fat32_volume : FatVolume D (fat32st D) := {|
  vol_dev := vdev;
  vol_with d v := mk_fat32st d (vcluster_pos v) (vfat_pos v) (vdir_pos v) (vdisk v) (vheader v) (fsinfo v);
  vol_sector_size v := sector_size (vdisk v);
  vol_cluster_bytes := cluster_bytes32;
  vol_cluster_to_sector v c := fat32_cluster_to_sector v (u32 c);
  vol_total_items := fat32_get_total_items_for_directory;
  vol_read_internal := fat32_read_internal;
  vol_dir := @on_dir32 D;
  vol_data := @on_cluster32 D;
  vol_entry := fat32_get_fat_entry;
  vol_end_mark := 0x0FFFFFF8;
  vol_last_cluster fuel c := fat32_find_last_cluster_of_chain fuel (u32 c);
  vol_add_cluster fuel c := fat32_add_cluster_to_chain fuel (u32 c);
  vol_erase fuel c := fat32_erase_cluster_chain fuel (u32 c);
  vol_cluster_count := fat32_filesize_to_cluster_count;
  vol_skip_labels := true;
  vol_open_tries := 1
|}.

(** Names: the same code as in the FAT16 driver, apart from the search for a
    free entry, which takes only deleted ones. *)
Definition fat32_to_proper_string := fat16_to_proper_string.
Definition fat32_get_full_relative_filename := fat16_get_full_relative_filename.
Definition fat32_find_entry_in_directory := fat16_find_entry_in_directory.
Fixpoint fat32_find_free_entry_in_directory (fuel : nat) (dir : fat_directory) (res : Z) : outcome Z :=
  match fuel with
  | O => OutOfFuel
  | S fuel =>
      item ← item_at dir res;
      c ← load item 0;
      if c =? 0 then Ret 0xFFFFFFFF
      else if c =? 0xE5 then Ret res
      else fat32_find_free_entry_in_directory fuel dir (u32 (res + 1))
  end.

Definition fat32_clone_directory_item := fat_clone_directory_item (H := H) (D := D) (V := fat32st D).
Definition fat32_free_directory := fat_free_directory (H := H) (D := D) (V := fat32st D).
Definition fat32_fat_item_free := fat_fat_item_free (H := H) (D := D) (V := fat32st D).
Definition fat32_load_fat_directory := fat_load_fat_directory (H := H) (D := D) (V := fat32st D).
Definition fat32_new_fat_item_for_directory_item := fat_new_fat_item_for_directory_item (H := H) (D := D) (V := fat32st D).
Definition fat32_find_item_in_directory := fat_find_item_in_directory (H := H) (D := D) (V := fat32st D).
Definition fat32_get_directory_entry := fat_get_directory_entry (H := H) (D := D) (V := fat32st D).
Definition fat32_get_parent_dir := fat_get_parent_dir (H := H) (D := D) (V := fat32st D).
Definition fat32_write_directory_entry := fat_write_directory_entry (H := H) (D := D) (V := fat32st D).
Definition fat32_open := fat_open (H := H) (D := D) (V := fat32st D).
Definition fat32_free_file_descriptor := fat_free_file_descriptor (H := H) (D := D) (V := fat32st D).
Definition fat32_close := fat_close (H := H) (D := D) (V := fat32st D).
Definition fat32_stat := fat_fstat (H := H) (D := D) (V := fat32st D).
Definition fat32_ftell := fat_ftell (H := H) (D := D) (V := fat32st D).
Definition fat32_seek := fat_seek (H := H) (D := D) (V := fat32st D).
Definition fat32_read := fat_read (H := H) (D := D) (V := fat32st D).
Definition fat32_delete := fat_delete (H := H) (D := D) (V := fat32st D).
Definition fat32_write := fat_write (H := H) (D := D) (V := fat32st D).

(** ** Mounting *)

(** The global array of disks, for [diskstreamer_new]. *)
Context (disks : list disk).

(** Reads through a stream of its own at [p]. *)
Definition on_raw {V A} (p : Z) (c : cmd (stream D) A) : cmd (fdst H D V) A := fun s =>
  '(a, st) ← c (mk_stream (fs_dev (snd s)) p);
  Ret (a, (fst s, mk_fatfs (sdisk st) (privs (snd s)) (dirs (snd s)) (bufs (snd s)) (fitems (snd s)) (ffds (snd s)))).

Definition new_stream {V} (d : disk) : cmd (fdst H D V) Z :=
  r ← on_pp (ppk (diskstreamer_new disks (id d)));
  mret (match r with
        | Some (p, _) => p
        | None => 0
        end).

Definition set_fs (fs priv : Z) (d : disk) : disk :=
  mk_disk (type d) (sector_size d) (dev d) (id d) fs priv (master_slave d) (primary_secondary d) (offset d).

(** The private structure of the disk replaced by [f] of it. *)
Definition upd_priv {V} (p : Z) (f : V * Z -> V * Z) : cmd (fdst H D V) unit :=
  v ← look privs p;
  upd (fun s => set_privs (<[p := f v]> (privs s)) s).

(** Where [root_directory] is in [struct fat_private]. *)
Definition ROOT_OFFSET : Z := 64.
Definition sizeof_fat_private : Z := 92.
Definition zero_header : fat_header := mk_header 0 0 0 0 0 0 0.

(** The structure is cleared and gets its three streams. *)
Definition fat16_init_private (d : disk) (private : Z) : cmd (fdst H D (Fat16.fatst D)) unit :=
  s ← getS;
  upd (fun f => set_privs (<[private := (mk_fatst (fs_dev f) 0 0 0 d zero_header (mk_dir [] 0 0 0),
                                         private + ROOT_OFFSET)]> (privs f))
                  (set_dirs (<[private + ROOT_OFFSET := mk_dobj 0 0 0]> (dirs f)) f));;
  new_stream d;;
  new_stream d;;
  new_stream d;;
  mret tt.

Definition fat16_get_root_directory (fuel : nat) (d : disk) (fat_private : Z) : cmd (fdst H D (Fat16.fatst D)) Z :=
  '(v, root) ← look privs fat_private;
  let h := header v in
  let root_dir_sector_pos := s32 (fat_copies h * sectors_per_fat h + reserved_sectors h) in
  let root_dir_size := root_dir_entries h * 32 in
  total_items ← on_vol d (fat16_get_total_items_for_directory fuel root_dir_sector_pos);
  dir ← fkz root_dir_size;
  if dir =? 0 then mret (- ENOMEM)
  else
    r ← on_vol d (on_dir (diskstreamer_seek (fat16_sector_to_absolute v root_dir_sector_pos)));
    if negb (r =? SERPAEOS_ALL_OK) then fkf dir;; mret (- EIO)
    else
      '(r, out) ← on_vol d (on_dir (diskstreamer_read root_dir_size));
      if negb (r =? SERPAEOS_ALL_OK) then fkf dir;; mret (- EIO)
      else
        upd (fun s => set_bufs (<[dir := out]> (bufs s))
                        (set_dirs (<[root := mk_dobj dir total_items root_dir_sector_pos]> (dirs s)) s));;
        upd_priv fat_private (fun '(v, root) =>
          (mk_fatst (fdev v) (cluster_pos v) (fat_pos v) (dir_pos v) (fdisk v) (header v)
             (mk_dir [] total_items root_dir_sector_pos
                (s32 (root_dir_sector_pos + Z.quot root_dir_size (sector_size d)))), root));;
        mret 0.

(** [fs] is the address of [fat16_fs]; the result, and the disk with its new
    [filesystem] and [fs_private]. *)
Definition fat16_resolve (fs : Z) (fuel : nat) (d : disk) : cmd (fdst H D (Fat16.fatst D)) (Z * disk) :=
  fat_private ← fkz sizeof_fat_private;
  if fat_private =? 0 then liftO Oob
  else
    fat16_init_private d fat_private;;
    let d := set_fs fs fat_private d in
    stream ← new_stream d;
    res ← (if stream =? 0 then mret (- ENOMEM)
           else
             '(r, b) ← on_raw 0 (diskstreamer_read header_size);
             if negb (r =? SERPAEOS_ALL_OK) then mret (- EIO)
             else
               upd_priv fat_private (fun '(v, root) =>
                 (mk_fatst (fdev v) (cluster_pos v) (fat_pos v) (dir_pos v) (fdisk v) (parse_header b)
                    (root_directory v), root));;
               if negb (signature (parse_header b) =? 0x29) then mret (- ENOTUS)
               else
                 r ← fat16_get_root_directory fuel d fat_private;
                 mret (if negb (r =? SERPAEOS_ALL_OK) then - EIO else 0));
    (if negb (stream =? 0) then on_pp (ppk (diskstreamer_close stream)) else mret tt);;
    if res <? 0 then
      fkf fat_private;;
      upd (fun s => set_dirs (delete (fat_private + ROOT_OFFSET) (dirs s)) s);;
      mret (res, set_fs (filesystem d) 0 d)
    else mret (res, d).

Definition sizeof_fat_private32 : Z := 620.
Definition zero_header32 : fat32_header := mk_header32 0 0 0 0 0 0 0 0.

Definition fat32_init_private (d : disk) (private : Z) : cmd (fdst H D (fat32st D)) unit :=
  upd (fun f => set_privs (<[private := (mk_fat32st (fs_dev f) 0 0 0 d zero_header32 (replicate 512 0), 0)]> (privs f)) f);;
  new_stream d;;
  new_stream d;;
  new_stream d;;
  mret tt.

(** The code before the label [out]: the result and [directory]. *)
Definition load_root_dir_body (fuel : nat) (d : disk) (private : Z) : cmd (fdst H D (fat32st D)) (Z * Z) :=
  directory ← fkz sizeof_fat_directory;
  if directory =? 0 then mret (- ENOMEM, 0)
  else
    upd (fun s => set_dirs (<[directory := mk_dobj 0 0 0]> (dirs s)) s);;
    '(v, _) ← look privs private;
    let cluster := h_root_cluster (vheader v) in
    let cluster_sector := fat32_cluster_to_sector v cluster in
    total_items ← on_vol d (fat32_get_total_items_for_directory fuel cluster_sector);
    let directory_size := s32 (u32 (total_items * 32)) in
    items ← fkz (u32 directory_size);
    upd (fun s => set_dirs (<[directory := mk_dobj items total_items 0]> (dirs s)) s);;
    if items =? 0 then mret (- ENOMEM, directory)
    else
      '(res, out) ← on_vol d (fat32_read_internal (s32 cluster) 0 directory_size);
      upd (fun s => set_bufs (<[items := overlay out (replicate (Z.to_nat directory_size) 0)]> (bufs s)) s);;
      if negb (res =? SERPAEOS_ALL_OK) then mret (res, directory)
      else
        upd (fun s => set_dirs (<[directory := mk_dobj items total_items cluster_sector]> (dirs s)) s);;
        upd_priv private (fun '(v, _) => (v, directory));;
        mret (res, directory).

Definition fat32_load_root_dir (fuel : nat) (d : disk) (private : Z) : cmd (fdst H D (fat32st D)) Z :=
  '(res, directory) ← load_root_dir_body fuel d private;
  if negb (res =? SERPAEOS_ALL_OK) then
    fat32_free_directory directory;;
    upd_priv private (fun '(v, _) => (v, 0));;
    mret res
  else mret res.

Definition fat32_resolve (fs : Z) (fuel : nat) (d : disk) : cmd (fdst H D (fat32st D)) (Z * disk) :=
  fat_private ← fkz sizeof_fat_private32;
  if fat_private =? 0 then liftO Oob
  else
    fat32_init_private d fat_private;;
    let d := set_fs fs fat_private d in
    stream ← new_stream d;
    res ← (if stream =? 0 then mret (- ENOMEM)
           else
             '(r, b) ← on_raw 0 (diskstreamer_read header32_size);
             if negb (r =? SERPAEOS_ALL_OK) then mret (- EIO)
             else
               upd_priv fat_private (fun '(v, root) =>
                 (mk_fat32st (vdev v) (vcluster_pos v) (vfat_pos v) (vdir_pos v) (vdisk v) (parse_header32 b)
                    (fsinfo v), root));;
               if negb (h_signature (parse_header32 b) =? 0x29) then mret (- ENOTUS)
               else
                 r ← fat32_load_root_dir fuel d fat_private;
                 if negb (r =? SERPAEOS_ALL_OK) then mret (- EIO)
                 else
                   let fsinfo_location := u32 (h_fs_info_location (parse_header32 b) * sector_size d) in
                   '(r, i) ← on_raw (s32 fsinfo_location) (diskstreamer_read fsinfo_size);
                   if negb (r =? SERPAEOS_ALL_OK) then mret (- EIO)
                   else
                     upd_priv fat_private (fun '(v, root) =>
                       (mk_fat32st (vdev v) (vcluster_pos v) (vfat_pos v) (vdir_pos v) (vdisk v) (vheader v) i, root));;
                     mret (if negb (fsinfo_lead i =? 0x41615252) || negb (fsinfo_trail i =? 0xAA550000)
                           then - ENOTUS else 0));
    (if negb (stream =? 0) then on_pp (ppk (diskstreamer_close stream)) else mret tt);;
    if res <? 0 then
      fkf fat_private;;
      mret (res, set_fs (filesystem d) 0 d)
    else mret (res, d).

(** ** Creating a file (FAT16) *)
Definition FAT16_DIRECTORY_ENTRIES_PER_CLUSTER (v : Fat16.fatst D) : Z := u32 (cluster_bytes v) / 32.

Definition fat16_sector_to_cluster (v : Fat16.fatst D) (sector : Z) : Z :=
  if dir_ending_sector_pos (root_directory v) <? sector
  then s32 (sector - dir_ending_sector_pos (root_directory v) + 2) else 0.

(** The cluster of the directory that the new entry goes to, and the entries
    left for it. *)
Fixpoint find_dir_cluster (n : nat) (d : disk) (epc i cluster : Z) : cmd (fdst H D (Fat16.fatst D)) (Z * Z) :=
  match n with
  | O => liftO OutOfFuel
  | S n =>
      if (epc <? u32 i) && (cluster <? 0xFFF0) && (2 <? cluster) then
        code ← on_vol d (fat16_get_fat_entry cluster);
        find_dir_cluster n d epc (s32 (u32 (i - epc))) (u16 code)
      else mret (i, cluster)
  end.

(** The byte position of the new entry, or -ENODISKSPACE. *)
Definition new_entry_position (d : disk) (v : Fat16.fatst D) (dir : dir_obj) : cmd (fdst H D (Fat16.fatst D)) (Z * Z) :=
  let epc := FAT16_DIRECTORY_ENTRIES_PER_CLUSTER v in
  let clusters := u16 (u32 (d_total dir) / epc) in
  if c_true clusters then
    '(i, cluster) ← find_dir_cluster (S (Z.to_nat (d_total dir))) d epc (d_total dir)
                      (u16 (fat16_sector_to_cluster v (d_sector dir)));
    if i <? 1 then mret (- ENODISKSPACE, 0)
    else mret (0, u32 (u32 (i * 32) + fat16_sector_to_absolute v (fat16_cluster_to_sector v cluster)))
  else mret (0, u32 (fat16_sector_to_absolute v (d_sector dir) + u32 (32 * d_total dir))).

(** The code between the generation of the chain and the label [out]. *)
Definition create_body (fuel : nat) (now : date_time) (d : disk) (path parent_dir_item first_cluster : Z)
    : cmd (fdst H D (Fat16.fatst D)) Z :=
  if parent_dir_item =? 0 then mret (- EBADPATH)
  else
    it ← look fitems parent_dir_item;
    dir ← look dirs (i_ptr it);
    name ← last_name path;
    let tmp := set_field 2 26 first_cluster (set_field 2 16 (FAT_DATE now) (replicate 32 0)) in
    tmp ← liftO (string_to_FAT_filename name tmp);
    items ← look bufs (d_items dir);
    offset ← liftO (fat16_find_free_entry_in_directory fuel (mk_dir items (d_total dir) 0 0) 0);
    if offset =? 0xFFFF then mret (- ENODISKSPACE)
    else
      v ← get_vol d;
      '(res, disk_loc) ← new_entry_position d v dir;
      if res <? 0 then mret res
      else
        upd (fun s => set_dirs (<[i_ptr it := mk_dobj (d_items dir) (s32 (d_total dir + 1)) (d_sector dir)]> (dirs s)) s);;
        res ← on_vol d (on_cluster (diskstreamer_seek (s32 disk_loc)));
        if res <? 0 then mret res else on_vol d (on_cluster (diskstreamer_write tmp 32)).

Definition fat16_create_file (fuel : nat) (now : date_time) (d : disk) (path : Z) : cmd (fdst H D (Fat16.fatst D)) Z :=
  first_cluster ← on_vol d (fat16_generate_cluster_chain fuel 1);
  if first_cluster =? 0 then mret (- ENODISKSPACE)
  else
    parent_dir_item ← fat_get_parent_dir fuel d path;
    res ← create_body fuel now d path parent_dir_item first_cluster;
    fat_fat_item_free parent_dir_item;;
    (if res <? 0 then on_vol d (fat16_erase_cluster_chain fuel first_cluster);; mret tt else mret tt);;
    mret res.

(** ** The tables of operations

    [fs] is the address of the table, [fuel] bounds the chains and the
    directories, [now] is the time of day. *)
Definition fat_ops {V} `{!FatVolume D V} (resolve : disk -> cmd (fdst H D V) (Z * disk)) (fuel : nat)
    (now : date_time) : filesystem_ops (fdst H D V) :=
  mk_fs resolve (fat_open fuel now) fat_read fat_seek
    fat_fstat
    fat_close (fat_write fuel) (fat_delete fuel) fat_ftell.

Definition fat16_fs (fs : Z) (fuel : nat) (now : date_time) : filesystem_ops (fdst H D (Fat16.fatst D)) :=
  fat_ops (fat16_resolve fs fuel) fuel now.
Definition fat32_fs (fs : Z) (fuel : nat) (now : date_time) : filesystem_ops (fdst H D (fat32st D)) :=
  fat_ops (fat32_resolve fs fuel) fuel now.
End mount.
