(* ===== verification/FatDirsSpec.v ===== *)
(** * What the FAT drivers promise about their heap objects

    Releasing items and descriptors, the search of a directory, and what a
    lookup does with a path whose middle is missing. *)
From S2P Require Import Prelude Config CMem CString Kheap PathParser PathParserSpec Disk Streamer Vfs Fat16 Fat16Names FatDirs.

Section fat.
Context {H : Type} `{AllocatorOk H} {D V : Type} `{BlockDev D} `{!FatVolume D V}.
Implicit Types s : fdst H D V.

Definition fheap s : H := ppalloc (fst s).
Definition flive s : gset Z := live_ptrs (fheap s).

(** The state with another heap, and with the objects of a block gone. *)
Definition with_heap (h : H) s : fdst H D V :=
  (mk_pp h (pp_strs (fst s)) (pp_parts (fst s)) (pp_roots (fst s)), snd s).
Definition gone (p : Z) (f : fatfs D V) : fatfs D V :=
  mk_fatfs (fs_dev f) (delete (p - p mod 4096) (privs f)) (delete p (dirs f)) (delete p (bufs f))
    (delete p (fitems f)) (delete p (ffds f)).

Lemma fkz_ok size s :
  alloc_ok (fheap s) -> 0 < size <= 4096 -> (0 < room (fheap s))%nat ->
  exists p h, fkz size s = Ret (p, with_heap h s) /\ p <> 0 /\ (p ∉ flive s) /\ alloc_ok h /\
    live_ptrs h = {[p]} ∪ flive s.
Proof.
  intros Hok Hs Hr. destruct (ppk_kz size (fst s) Hok Hs Hr) as (p & h & Hk & Hp & Hn & Hok' & Hl & _).
  exists p, h. unfold fkz, on_pp. rewrite Hk. by split_and!.
Qed.

(** Releasing a live block. *)
Lemma fkf_ok p s :
  alloc_ok (fheap s) -> p ∈ flive s ->
  exists h, fkf p s = Ret (tt, (fst (with_heap h s), gone p (snd s))) /\
    alloc_ok h /\ live_ptrs h = flive s ∖ {[p]}.
Proof.
  intros Hok Hp. destruct (ppk_kf p (fst s) Hok Hp) as (h & Hk & Hok' & Hl & _).
  exists h. split_and!; [|done|done]. unfold fkf, on_pp, upd, modifyS, mbind, cmd_bind. cbn. by rewrite Hk.
Qed.

Lemma look_Some {A} (m : fatfs D V -> gmap Z A) p a s : m (snd s) !! p = Some a -> look m p s = Ret (a, s).
Proof. intros E. unfold look. by rewrite E. Qed.

Lemma look_None {A} (m : fatfs D V -> gmap Z A) p s : m (snd s) !! p = None -> look m p s = Oob.
Proof. intros E. unfold look. by rewrite E. Qed.

(** ** Releasing items and descriptors *)

(** [p] is a descriptor of an open file: its item [i] and the entry at [q]. *)
Record open_file s (p path i q : Z) (entry : list Z) : Prop := {
  of_desc : exists pos mode, ffds (snd s) !! p = Some (mk_ffd path i pos mode);
  of_item : fitems (snd s) !! i = Some (mk_fitem q FAT_ITEM_TYPE_FILE);
  of_entry : bufs (snd s) !! q = Some entry;
  of_live : p ∈ flive s /\ i ∈ flive s /\ q ∈ flive s;
  of_apart : p <> i /\ p <> q /\ i <> q
}.

Lemma free_file_item s i q :
  alloc_ok (fheap s) -> fitems (snd s) !! i = Some (mk_fitem q FAT_ITEM_TYPE_FILE) ->
  i ∈ flive s -> q ∈ flive s -> i <> q ->
  exists h, fat_fat_item_free i s = Ret (tt, (fst (with_heap h s), gone i (gone q (snd s)))) /\
    alloc_ok h /\ live_ptrs h = flive s ∖ {[q]} ∖ {[i]}.
Proof.
  intros Hok Hi Hil Hql Hne. unfold fat_fat_item_free.
  step (look_Some fitems i _ s Hi). cbn [i_type i_ptr Z.eqb FAT_ITEM_TYPE_FILE FAT_ITEM_TYPE_DIRECTORY Pos.eqb].
  destruct (fkf_ok q s Hok Hql) as (h1 & Hk1 & Hok1 & Hl1). step Hk1.
  destruct (fkf_ok i (fst (with_heap h1 s), gone q (snd s)) Hok1) as (h2 & Hk2 & Hok2 & Hl2).
  { unfold flive, fheap. simpl. rewrite Hl1. apply elem_of_difference. by rewrite elem_of_singleton. }
  exists h2. split; [exact Hk2|]. split; [done|]. rewrite Hl2. unfold flive at 1, fheap. simpl. by rewrite Hl1.
Qed.

Lemma free_file_descriptor_ok s p path i q entry :
  alloc_ok (fheap s) -> open_file s p path i q entry ->
  exists h, fat_free_file_descriptor p s =
      Ret (tt, (fst (with_heap h s), gone p (gone i (gone q (snd s))))) /\
    alloc_ok h /\ live_ptrs h = flive s ∖ {[q]} ∖ {[i]} ∖ {[p]}.
Proof.
  intros Hok [(pos & mode & Hd) Hi He (Hp & Hil & Hql) (Hpi & Hpq & Hiq)]. unfold fat_free_file_descriptor.
  step (look_Some ffds p _ s Hd). cbn [ff_item].
  destruct (free_file_item s i q Hok Hi Hil Hql Hiq) as (h1 & Hk1 & Hok1 & Hl1). step Hk1.
  destruct (fkf_ok p (fst (with_heap h1 s), gone i (gone q (snd s))) Hok1) as (h2 & Hk2 & Hok2 & Hl2).
  { unfold flive, fheap. simpl. rewrite Hl1. rewrite !elem_of_difference, !elem_of_singleton. done. }
  exists h2. split; [exact Hk2|]. split; [done|]. rewrite Hl2. unfold flive at 1, fheap. simpl. by rewrite Hl1.
Qed.

(** ** Searching a directory *)

(** An entry in use, as its name and the bytes after it. *)
Record named_entry := mk_named { ne_base : list Z; ne_ext : list Z; ne_rest : list Z }.
Definition entry_bytes (e : named_entry) : list Z := entry_name (ne_base e) (ne_ext e) ++ ne_rest e.
Definition entry_ok (e : named_entry) : Prop :=
  Forall name_char (ne_base e) /\ Forall name_char (ne_ext e) /\ (length (ne_base e) <= 8)%nat /\
  (length (ne_ext e) <= 3)%nat /\ length (ne_rest e) = 21%nat.
Definition entry_full (e : named_entry) : list Z := full_name (ne_base e) (ne_ext e).

Lemma entry_bytes_length e : entry_ok e -> length (entry_bytes e) = 32%nat.
Proof.
  intros (_ & _ & Hb & Hx & Hr). unfold entry_bytes, entry_name.
  by rewrite !length_app, !length_pad, Hr by (rewrite length_fmap; lia).
Qed.

Lemma entry_full_length e : entry_ok e -> (length (entry_full e) <= 12)%nat.
Proof.
  intros (_ & _ & Hb & Hx & _). unfold entry_full, full_name. case_bool_decide; [lia|].
  rewrite length_app. simpl. lia.
Qed.

(** The reference: the first entry that is not a skipped label and has the
    name, letters compared without regard to case. *)
Definition entry_matches (name : list Z) (e : named_entry) : Prop :=
  (vol_skip_labels && c_true (Z.land (item_attribute (entry_bytes e)) FAT_FILE_VOLUME_LABEL)) = false /\
  tolower <$> entry_full e = tolower <$> name.
#[global] Instance entry_matches_dec name e : Decision (entry_matches name e).
Proof. apply _. Defined.

Fixpoint first_match (name : list Z) (es : list named_entry) : option (list Z) :=
  match es with
  | [] => None
  | e :: es => if decide (entry_matches name e) then Some (entry_bytes e) else first_match name es
  end.

(** Upper-case names are strings, and case does not matter. *)
Lemma upper_name_ok (e : named_entry) :
  entry_ok e -> bytes (toupper <$> entry_full e) /\ (0 ∉ toupper <$> entry_full e).
Proof.
  intros (Hb & Hx & _). assert (Hw : forall l, Forall name_char l -> Forall (fun c => 32 < c < 256) l)
    by (intros l Hl; eapply Forall_impl; [exact Hl|by intros ? [? ?]]).
  assert (Hc : Forall (fun c => 32 < c < 256) (entry_full e)).
  { unfold entry_full, full_name. case_bool_decide; [by apply Hw|]. apply Forall_app. split; [by apply Hw|].
    constructor; [lia|by apply Hw]. }
  assert (Hu : Forall (fun c => 32 < c < 256) (toupper <$> entry_full e)).
  { apply Forall_fmap. eapply Forall_impl; [exact Hc|]. intros c. simpl. unfold toupper. bcase; breflect; lia. }
  split.
  - eapply Forall_impl; [exact Hu|]. intros c Hcc. unfold is_byte. simpl in *. lia.
  - intros Hin. rewrite Forall_forall in Hu. specialize (Hu _ Hin). simpl in Hu. lia.
Qed.

Lemma lower_upper (l : list Z) : tolower <$> (toupper <$> l) = tolower <$> l.
Proof.
  rewrite <- list_fmap_compose. apply list_fmap_ext. intros i c _. unfold compose, tolower, toupper.
  by repeat (bcase; breflect); lia.
Qed.

(** The comparison of an entry's name with a path component. *)
Lemma name_compare (e : named_entry) buf name :
  entry_ok e -> cstr buf name -> bytes name -> (length name <= 108)%nat ->
  exists r, istrncmp ((toupper <$> entry_full e) ++ replicate (108 - length (entry_full e)) 0) buf SERPAEOS_MAX_PATH
      = Ret r /\ (r = 0 <-> tolower <$> entry_full e = tolower <$> name).
Proof.
  intros He Hbuf Hbn Hln. pose proof (entry_full_length e He) as Hlfn. destruct (upper_name_ok e He) as [Hb1 Hz].
  assert (Hcs : cstr ((toupper <$> entry_full e) ++ replicate (108 - length (entry_full e)) 0) (toupper <$> entry_full e)).
  { split; [done|]. destruct (108 - length (entry_full e))%nat eqn:E; [lia|]. by eexists. }
  destruct (istrncmp_zero _ buf _ name SERPAEOS_MAX_PATH Hcs Hbuf Hb1 Hbn) as (r & -> & Hr).
  exists r. split; [done|]. rewrite Hr. unfold prefix_eq. change (Z.to_nat SERPAEOS_MAX_PATH) with 108%nat.
  rewrite !take_ge by (rewrite ?length_fmap; lia). by rewrite lower_upper.
Qed.

(** The bytes of the [i]th entry of an array. *)
Lemma item_at_app pre e post :
  Forall (fun b => length b = 32%nat) pre -> length e = 32%nat ->
  item_at (mk_dir (concat pre ++ e ++ post) 0 0 0) (Z.of_nat (length pre)) = Ret e.
Proof.
  intros Hpre He. assert (Hl : length (concat pre) = (32 * length pre)%nat).
  { clear He. induction Hpre as [|b pre Hb _ IH]; [done|]. cbn [concat length]. rewrite length_app, IH, Hb. lia. }
  unfold item_at. cbn [dir_items]. rewrite !length_app, Hl, He.
  replace ((0 <=? _) && _) with true.
  - f_equal. replace (Z.to_nat (32 * Z.of_nat (length pre))) with (length (concat pre)) by lia.
    rewrite drop_app_length. by rewrite take_app_length'.
  - symmetry. apply andb_true_intro. split; apply Z.leb_le; lia.
Qed.

(** The search looks at the entries in order; the rest of the array does not
    matter. *)
Lemma find_item_loop_spec es pre post tmp buf name :
  Forall (fun b => length b = 32%nat) pre -> Forall entry_ok es -> length tmp = 108%nat ->
  cstr buf name -> bytes name -> (length name <= 108)%nat ->
  find_item_loop (length es) (concat pre ++ concat (entry_bytes <$> es) ++ post) tmp buf (Z.of_nat (length pre)) =
    Ret (first_match name es).
Proof.
  intros Hpre Hes Htmp Hbuf Hbn Hln. revert pre tmp Hpre Htmp.
  induction Hes as [|e es He Hes IH]; intros pre tmp Hpre Htmp; [done|].
  cbn [length find_item_loop fmap list_fmap concat first_match]. rewrite <- app_assoc.
  rewrite item_at_app by (done || by apply entry_bytes_length). cbn [mbind outcome_bind].
  specialize (IH (pre ++ [entry_bytes e])). rewrite concat_app, length_app in IH. cbn [concat length] in IH.
  rewrite app_nil_r, <- app_assoc in IH. replace (Z.of_nat (length pre + 1)) with (Z.of_nat (length pre) + 1) in IH by lia.
  assert (Hpre' : Forall (fun b => length b = 32%nat) (pre ++ [entry_bytes e])).
  { apply Forall_app. split; [done|]. constructor; [by apply entry_bytes_length|constructor]. }
  destruct (vol_skip_labels && c_true (Z.land (item_attribute (entry_bytes e)) FAT_FILE_VOLUME_LABEL)) eqn:Elab.
  { rewrite decide_False by (unfold entry_matches; rewrite Elab; by intros [? _]). by apply IH. }
  pose proof He as (Hb & Hx & Hlb & Hlx & _). 
  pose proof (full_relative_filename_spec (ne_base e) (ne_ext e) (ne_rest e) tmp SERPAEOS_MAX_PATH Hb Hx Hlb Hlx
                Htmp ltac:(pose proof (entry_full_length e He); unfold entry_full in *; unfold SERPAEOS_MAX_PATH; lia)) as Hfn.
  fold (entry_bytes e) in Hfn. rewrite Hfn. cbn [mbind outcome_bind]. change (Z.to_nat SERPAEOS_MAX_PATH) with 108%nat.
  destruct (name_compare e buf name He Hbuf Hbn Hln) as (r & Hr & Hiff). fold (entry_full e). rewrite Hr. cbn [mbind outcome_bind].
  destruct (r =? 0) eqn:E; breflect.
  - rewrite decide_True; [done|]. split; [exact Elab|by apply Hiff].
  - rewrite decide_False by (intros [_ Hm]; by apply E, Hiff). apply IH; [done|].
    rewrite length_app, length_fmap, length_replicate. pose proof (entry_full_length e He). lia.
Qed.

(** ** The entry to rewrite *)

(** The other comparison, of twelve characters with a buffer of twelve. *)
Lemma name_compare12 (e : named_entry) buf name :
  entry_ok e -> (length (entry_full e) < 12)%nat -> cstr buf name -> bytes name ->
  exists r, istrncmp buf ((toupper <$> entry_full e) ++ replicate (12 - length (entry_full e)) 0) 12
      = Ret r /\ (r = 0 <-> tolower <$> entry_full e = tolower <$> name).
Proof.
  intros He Hlt Hbuf Hbn. destruct (upper_name_ok e He) as [Hb1 Hz].
  assert (Hcs : cstr ((toupper <$> entry_full e) ++ replicate (12 - length (entry_full e)) 0) (toupper <$> entry_full e)).
  { split; [done|]. destruct (12 - length (entry_full e))%nat eqn:E; [lia|]. by eexists. }
  destruct (istrncmp_zero buf _ name _ 12 Hbuf Hcs Hbn Hb1) as (r & -> & Hr).
  exists r. split; [done|]. rewrite Hr. unfold prefix_eq. change (Z.to_nat 12) with 12%nat.
  rewrite (take_ge (toupper <$> _)) by (rewrite length_fmap; lia). rewrite lower_upper. split.
  - intros Heq. pose proof (f_equal length Heq) as Hlen. rewrite !length_fmap, length_take in Hlen.
    rewrite take_ge in Heq by lia. done.
  - intros Heq. pose proof (f_equal length Heq) as Hlen. rewrite !length_fmap in Hlen. by rewrite take_ge by lia.
Qed.

(** An entry before the one looked for: its name fits and is another. *)
Definition other_entry (name : list Z) (e : named_entry) : Prop :=
  entry_ok e /\ (length (entry_full e) < 12)%nat /\ tolower <$> entry_full e <> tolower <$> name.

(** One turn of the loop, on an entry whose name fits the buffer. *)
Lemma write_entry_turn n e pre post tmp buf name loc :
  Forall (fun b => length b = 32%nat) pre -> entry_ok e -> (length (entry_full e) < 12)%nat -> length tmp = 12%nat ->
  cstr buf name -> bytes name ->
  exists tmp', length tmp' = 12%nat /\
    write_entry_loop (S n) (concat pre ++ entry_bytes e ++ post) tmp buf (Z.of_nat (length pre)) loc =
      if decide (tolower <$> entry_full e = tolower <$> name) then Ret (Z.of_nat (length pre), loc)
      else write_entry_loop n (concat pre ++ entry_bytes e ++ post) tmp' buf (Z.of_nat (length pre) + 1) (u32 (loc + 32)).
Proof.
  intros Hpre He Hlt Htmp Hbuf Hbn. cbn [write_entry_loop].
  rewrite item_at_app by (done || by apply entry_bytes_length). cbn [mbind outcome_bind].
  pose proof He as (Hb & Hx & Hlb & Hlx & _).
  pose proof (full_relative_filename_spec (ne_base e) (ne_ext e) (ne_rest e) tmp 12 Hb Hx Hlb Hlx
                Htmp ltac:(unfold entry_full in Hlt; lia)) as Hfn.
  fold (entry_bytes e) (entry_full e) in Hfn. rewrite Hfn. cbn [mbind outcome_bind]. change (Z.to_nat 12) with 12%nat.
  destruct (name_compare12 e buf name He Hlt Hbuf Hbn) as (r & Hr & Hiff). rewrite Hr. cbn [mbind outcome_bind].
  eexists. split; [|destruct (r =? 0) eqn:E; breflect;
    [by rewrite decide_True by (by apply Hiff)|by rewrite decide_False by (by rewrite <- Hiff)]].
  rewrite length_app, length_fmap, length_replicate. lia.
Qed.

Lemma write_entry_skip n es pre post tmp buf name loc :
  Forall (fun b => length b = 32%nat) pre -> Forall (other_entry name) es -> length tmp = 12%nat ->
  cstr buf name -> bytes name -> 0 <= loc -> loc + 32 * Z.of_nat (length es) < 4294967296 ->
  exists tmp', length tmp' = 12%nat /\
    write_entry_loop (length es + n) (concat pre ++ concat (entry_bytes <$> es) ++ post) tmp buf (Z.of_nat (length pre)) loc =
    write_entry_loop n (concat pre ++ concat (entry_bytes <$> es) ++ post) tmp' buf
      (Z.of_nat (length pre + length es)) (loc + 32 * Z.of_nat (length es)).
Proof.
  intros Hpre Hes. revert pre tmp loc Hpre. induction Hes as [|e es (He & Hlt & Hne) _ IH];
    intros pre tmp loc Hpre Htmp Hbuf Hbn Hl0 Hl1.
  { exists tmp. split; [done|]. cbn [length Nat.add]. f_equal; lia. }
  cbn [length Nat.add fmap list_fmap concat] in *. rewrite <- app_assoc.
  destruct (write_entry_turn (length es + n) e pre (concat (entry_bytes <$> es) ++ post) tmp buf name loc)
    as (tmp1 & Htmp1 & ->); [done..|]. rewrite decide_False by done. rewrite u32_id by lia.
  destruct (IH (pre ++ [entry_bytes e]) tmp1 (loc + 32)) as (tmp2 & Htmp2 & E2); [|done|done|done|lia|lia|].
  { apply Forall_app. split; [done|]. constructor; [by apply entry_bytes_length|constructor]. }
  rewrite concat_app, length_app in E2. cbn [concat length] in E2. rewrite app_nil_r, <- app_assoc in E2.
  replace (Z.of_nat (length pre + 1)) with (Z.of_nat (length pre) + 1) in E2 by lia.
  exists tmp2. split; [done|]. rewrite E2. f_equal; lia.
Qed.

Lemma write_entry_found n es e post buf name loc :
  Forall (other_entry name) es -> entry_ok e -> (length (entry_full e) < 12)%nat ->
  tolower <$> entry_full e = tolower <$> name ->
  cstr buf name -> bytes name -> 0 <= loc -> loc + 32 * Z.of_nat (length es) < 4294967296 ->
  write_entry_loop (length es + S n) (concat (entry_bytes <$> es) ++ entry_bytes e ++ post) (replicate 12 0) buf 0 loc =
    Ret (Z.of_nat (length es), loc + 32 * Z.of_nat (length es)).
Proof.
  intros Hes He Hlt Heq Hbuf Hbn Hl0 Hl1.
  destruct (write_entry_skip (S n) es [] (entry_bytes e ++ post) (replicate 12 0) buf name loc) as (tmp1 & Ht1 & E); [done..|].
  cbn [concat app length] in E. change (Z.of_nat 0) with 0 in E. rewrite E. clear E.
  destruct (write_entry_turn n e (entry_bytes <$> es) post tmp1 buf name (loc + 32 * Z.of_nat (length es)))
    as (tmp2 & _ & E); [|done..|].
  { apply Forall_fmap. eapply Forall_impl; [exact Hes|]. intros x [Hx _]. by apply entry_bytes_length. }
  rewrite length_fmap in E. rewrite Nat.add_0_l, E. by rewrite decide_True.
Qed.

(** A name of eight and three characters does not fit: its terminator goes
    past the buffer. *)
Lemma long_name_oob e tmp :
  entry_ok e -> length (ne_base e) = 8%nat -> length (ne_ext e) = 3%nat -> length tmp = 12%nat ->
  fat16_get_full_relative_filename (entry_bytes e) tmp 12 = Oob.
Proof.
  intros (Hb & Hx & _ & _ & _) Hlb Hlx Htmp. unfold fat16_get_full_relative_filename.
  rewrite memset_spec by lia. cbn [mbind outcome_bind]. change (Z.to_nat 12) with 12%nat. change (u8 0) with 0.
  rewrite (drop_ge tmp), app_nil_r by lia.
  set (ub := toupper <$> ne_base e). set (ux := toupper <$> ne_ext e).
  assert (Hlub : length ub = 8%nat) by (unfold ub; by rewrite length_fmap).
  assert (Hlux : length ux = 3%nat) by (unfold ux; by rewrite length_fmap).
  assert (Hub : Forall name_char ub) by by apply name_char_upper.
  assert (Hux : Forall name_char ux) by by apply name_char_upper.
  assert (Hen : entry_bytes e = ub ++ ux ++ ne_rest e).
  { unfold entry_bytes, entry_name, pad. fold ub ux. rewrite Hlub, Hlux, !app_nil_r. by rewrite <- app_assoc. }
  rewrite Hen. unfold fat16_to_proper_string.
  pose proof (proper_loop_spec ub (ux ++ ne_rest e) [] (replicate 8 0) (replicate 4 0) 0 8) as E.
  cbn [length app] in E. change (Z.of_nat 0) with 0 in E. change (replicate 12 0) with (replicate 8 0 ++ replicate 4 0).
  rewrite E by (try done; rewrite ?Hlub; simpl; lia). clear E. cbn [mbind outcome_bind]. rewrite Nat.add_0_l, Hlub.
  rewrite store_Ret by (rewrite length_app, Hlub; simpl; lia). cbn [mbind outcome_bind].
  change (Z.to_nat (Z.of_nat 8)) with 8%nat. rewrite insert_app_r_alt, Hlub by lia. cbn [Nat.sub insert list_insert replicate].
  destruct ux as [|c ux]; [done|]. apply Forall_cons in Hux as [[Hc1 Hc2] Hux].
  rewrite (load_Some _ _ c); [|lia|by rewrite lookup_app_r, Hlub by lia].
  cbn [mbind outcome_bind]. change 0x20 with 32.
  rewrite (proj2 (Z.eqb_neq c 0)), (proj2 (Z.eqb_neq c 32)) by lia. cbn [negb andb].
  rewrite store_Ret by (rewrite length_app, Hlub; simpl; lia). cbn [mbind outcome_bind].
  change (Z.to_nat (Z.of_nat 8)) with 8%nat. rewrite insert_app_r_alt, Hlub by lia. cbn [Nat.sub insert list_insert replicate].
  rewrite drop_app_length' by lia.
  pose proof (proper_loop_spec (c :: ux) (ne_rest e) (ub ++ [46]) (replicate 3 0) [] 0 3) as E.
  rewrite length_app, Hlub, <- !app_assoc in E. change ([46] ++ replicate 3 0 ++ []) with [46; 0; 0; 0] in E.
  change (Z.of_nat (8 + length [46])) with 9 in E. change (Z.of_nat 8 + 1) with 9.
  change ((c :: ux) ++ ne_rest e) with (c :: ux ++ ne_rest e) in *. cbn [app] in E |- *.
  rewrite E; [|by constructor|rewrite Hlux; done|lia|rewrite Hlux; simpl; lia|rewrite Hlux; lia|lia]. clear E.
  cbn [mbind outcome_bind]. rewrite store_oob; [done|]. rewrite Hlux, !length_app, Hlub.
  cbn [length] in *. rewrite ?length_app. cbn [length]. lia.
Qed.

(** A loaded directory: its entries, and whatever follows them in the array. *)
Record dir_at s (dir : Z) (es : list named_entry) : Prop := {
  da_obj : exists items sector, dirs (snd s) !! dir = Some (mk_dobj items (Z.of_nat (length es)) sector) /\
    (es <> [] -> exists post, bufs (snd s) !! items = Some (concat (entry_bytes <$> es) ++ post));
  da_entries : Forall entry_ok es
}.

Lemma find_item_step fuel d dir es buf name s :
  dir_at s dir es -> cstr buf name -> bytes name -> (length name <= 108)%nat ->
  fat_find_item_in_directory fuel d dir buf s =
    match first_match name es with
    | Some item => fat_new_fat_item_for_directory_item fuel d item s
    | None => Ret (0, s)
    end.
Proof.
  intros [(items & sector & Hd & Hbuf) Hes] Hn Hb Hl. unfold fat_find_item_in_directory.
  step (look_Some dirs dir _ s Hd). unfold dir_bytes. cbn [d_total d_items].
  destruct es as [|e es]; [reflexivity|]. destruct Hbuf as [post Hbuf]; [done|].
  rewrite (proj2 (Z.leb_gt _ 0)) by (cbn [length]; lia).
  step (look_Some bufs items _ s Hbuf). rewrite Nat2Z.id.
  pose proof (find_item_loop_spec (e :: es) [] post (replicate 108 0) buf name) as E.
  cbn [concat app length] in E. rewrite (bind_liftO _ _ _ _ (E (Forall_nil_2 _) Hes (length_replicate _ _) Hn Hb Hl)).
  by destruct (first_match name (e :: es)).
Qed.

Lemma clone_item entry s :
  alloc_ok (fheap s) -> (0 < room (fheap s))%nat -> length entry = 32%nat ->
  exists q h, fat_clone_directory_item entry 32 s =
      Ret (q, (fst (with_heap h s), set_bufs (<[q := entry]> (bufs (snd s))) (snd s))) /\
    q <> 0 /\ (q ∉ flive s) /\ alloc_ok h /\ live_ptrs h = {[q]} ∪ flive s.
Proof.
  intros Hok Hr Hl. destruct (fkz_ok 32 s Hok ltac:(lia) Hr) as (q & h & E & Hq & Hn & Hok' & Hl').
  exists q, h. split; [|done]. unfold fat_clone_directory_item. change (32 <? 32) with false. cbv iota.
  step E. rewrite (proj2 (Z.eqb_neq q 0)) by done. change (Z.to_nat 32) with 32%nat.
  rewrite take_ge by lia. reflexivity.
Qed.

(** A file's item: a new item with a copy of the entry. *)
Lemma new_file_item fuel d entry s :
  alloc_ok (fheap s) -> (2 <= room (fheap s))%nat -> length entry = 32%nat ->
  c_true (Z.land (item_attribute entry) FAT_FILE_SUBDIRECTORY) = false ->
  exists i q h, fat_new_fat_item_for_directory_item fuel d entry s =
      Ret (i, (fst (with_heap h s),
               set_fitems (<[i := mk_fitem q FAT_ITEM_TYPE_FILE]> (fitems (snd s)))
                 (set_bufs (<[q := entry]> (bufs (snd s))) (snd s)))) /\
    i <> 0 /\ q <> 0 /\ i <> q /\ (i ∉ flive s) /\ (q ∉ flive s) /\ alloc_ok h /\ live_ptrs h = {[q]} ∪ ({[i]} ∪ flive s).
Proof.
  intros Hok Hr Hl Hfile. unfold fat_new_fat_item_for_directory_item.
  destruct (kz_room sizeof_fat_item (fheap s)) as (i & h1 & Hk1 & Hi & Hr1); [done|unfold sizeof_fat_item; lia|lia|].
  destruct (kz_spec sizeof_fat_item (fheap s) i h1 Hok ltac:(unfold sizeof_fat_item; lia) Hk1) as (Hok1 & [[-> _]|(_ & _ & Hn1 & Hl1)]); [done|].
  assert (E1 : fkz sizeof_fat_item s = Ret (i, with_heap h1 s)).
  { unfold fkz, on_pp, ppk. fold (fheap s). by rewrite Hk1. }
  step E1. rewrite (proj2 (Z.eqb_neq i 0)) by done. rewrite Hfile.
  destruct (clone_item entry (with_heap h1 s)) as (q & h2 & E2 & Hq & Hn2 & Hok2 & Hl2);
    [exact Hok1|change (0 < room h1)%nat; lia|done|]. step E2.
  exists i, q, h2. unfold flive, fheap in Hn2, Hl2. simpl in Hn2, Hl2. rewrite Hl1 in Hn2, Hl2.
  split; [reflexivity|split_and!; try done].
  - intros ->. apply Hn2. apply elem_of_union_l. by apply elem_of_singleton.
  - intros Hin. apply Hn2. by apply elem_of_union_r.
Qed.

(** The list of a path's parts below the drivers. *)
Definition path_at s (path : Z) (l : list node) : Prop := PathParserSpec.chain (fst s) path l.

Lemma get_part_spec s p q sp n l :
  path_at s p ((q, sp, n) :: l) -> exists buf, get_part p s = Ret ((buf, first_addr l), s) /\ cstr buf n.
Proof.
  intros (-> & _ & nx & buf & Hp & Hs & _ & Hc & Hch). exists buf. split; [|done].
  unfold get_part. rewrite Hp, Hs. by rewrite (chain_first _ _ _ Hch).
Qed.

(** Releasing a loaded directory's item. *)
Lemma free_dir_item s i dir items total sector :
  alloc_ok (fheap s) -> fitems (snd s) !! i = Some (mk_fitem dir FAT_ITEM_TYPE_DIRECTORY) ->
  dirs (snd s) !! dir = Some (mk_dobj items total sector) -> dir <> 0 -> items <> 0 ->
  i ∈ flive s -> dir ∈ flive s -> items ∈ flive s -> i <> dir -> i <> items -> dir <> items ->
  exists h, fat_fat_item_free i s =
      Ret (tt, (fst (with_heap h s), gone i (gone dir (gone items (snd s))))) /\
    alloc_ok h /\ live_ptrs h = flive s ∖ {[items]} ∖ {[dir]} ∖ {[i]}.
Proof.
  intros Hok Hi Hd Hd0 Hi0 Hil Hdl Hql Hid Hiq Hdq. unfold fat_fat_item_free.
  step (look_Some fitems i _ s Hi). cbn [i_type i_ptr Z.eqb FAT_ITEM_TYPE_DIRECTORY]. unfold fat_free_directory.
  rewrite (proj2 (Z.eqb_neq dir 0)) by done. 
  destruct (fkf_ok items s Hok Hql) as (h1 & Hk1 & Hok1 & Hl1).
  destruct (fkf_ok dir (fst (with_heap h1 s), gone items (snd s)) Hok1) as (h2 & Hk2 & Hok2 & Hl2).
  { unfold flive, fheap. simpl. rewrite Hl1. rewrite elem_of_difference, elem_of_singleton. done. }
  assert (E : (dir0 ← look dirs dir; (if negb (d_items dir0 =? 0) then fkf (d_items dir0) else mret tt);; fkf dir) s =
            Ret (tt, (fst (with_heap h2 s), gone dir (gone items (snd s))))).
  { step (look_Some dirs dir _ s Hd). cbn [d_items]. rewrite (proj2 (Z.eqb_neq items 0)) by done. cbn [negb].
    step Hk1. exact Hk2. }
  step E.
  destruct (fkf_ok i (fst (with_heap h2 s), gone dir (gone items (snd s))) Hok2) as (h3 & Hk3 & Hok3 & Hl3).
  { unfold flive, fheap. simpl. rewrite Hl2. unfold flive, fheap. simpl. rewrite Hl1.
    rewrite !elem_of_difference, !elem_of_singleton. done. }
  exists h3. split; [exact Hk3|]. split; [done|]. rewrite Hl3. unfold flive at 1, fheap. simpl. rewrite Hl2.
  unfold flive at 1, fheap. simpl. by rewrite Hl1.
Qed.
End fat.

(** ** Properties *)

(** C32: looking up a path of one component searches the root directory: it
    gives null and changes nothing when no entry has the name (upper and lower
    case are the same, and FAT32 skips volume labels), and otherwise, when the
    first entry with the name is a file, a new item with a copy of that entry's
    32 bytes. *)
Theorem root_lookup_correct {H} `{AllocatorOk H} {D V} `{BlockDev D} `{!FatVolume D V}
    fuel (d : disk) path q sp name (v : V) root es (s : fdst H D V) :
  alloc_ok (fheap s) -> (2 <= room (fheap s))%nat ->
  privs (snd s) !! fs_private d = Some (v, root) -> dir_at s root es ->
  path_at s path [(q, sp, name)] -> bytes name -> (length name <= 108)%nat ->
  match first_match (D := D) (V := V) name es with
  | None => fat_get_directory_entry fuel d path s = Ret (0, s)
  | Some entry =>
      c_true (Z.land (item_attribute entry) FAT_FILE_SUBDIRECTORY) = false -> length entry = 32%nat ->
      exists i p s', fat_get_directory_entry fuel d path s = Ret (i, s') /\
        fitems (snd s') !! i = Some (mk_fitem p FAT_ITEM_TYPE_FILE) /\ bufs (snd s') !! p = Some entry /\
        flive s' = {[p]} ∪ ({[i]} ∪ flive s) /\ (i ∉ flive s) /\ (p ∉ flive s) /\ fs_dev (snd s') = fs_dev (snd s)
  end.
Proof.
  intros Hok Hr Hp Hd Hpath Hb Hl. destruct (get_part_spec s path q sp name [] Hpath) as (buf & Hgp & Hc).
  assert (Hroot : get_root d s = Ret (root, s)) by (unfold get_root; by step (look_Some privs (fs_private d) _ s Hp)).
  assert (E : forall k, (root ← get_root d; '(name, next_part) ← get_part path;
      root_item ← fat_find_item_in_directory fuel d root name; k next_part root_item : cmd (fdst H D V) Z) s =
      (root_item ← fat_find_item_in_directory fuel d root buf; k 0 root_item) s).
  { intros k. step Hroot. step Hgp. reflexivity. }
  unfold fat_get_directory_entry. rewrite E. clear E.
  pose proof (find_item_step fuel d root es buf name s Hd Hc Hb Hl) as Hfind.
  destruct (first_match name es) as [entry|]; [|by step Hfind].
  intros Hfile Hlen. destruct (new_file_item fuel d entry s Hok Hr Hlen Hfile)
    as (i & p & h & Hnew & Hi & Hp0 & Hip & Hn1 & Hn2 & Hok' & Hl').
  rewrite <- Hfind in Hnew. step Hnew. rewrite (proj2 (Z.eqb_neq i 0)) by done.
  eexists i, p, _. split; [reflexivity|]. cbn [snd fitems bufs set_fitems set_bufs fs_dev].
  rewrite !lookup_insert_eq. by split_and!.
Qed.

(** A path whose middle is missing is not rejected but followed through a
    null pointer: when a directory on the way has no entry with the next name and
    the path goes on, the lookup reads the type of the item at address 0. *)
Theorem missing_middle_null {H} `{AllocatorOk H} {D V} `{BlockDev D} `{!FatVolume D V}
    n fuel (d : disk) i dir items total sector es path q sp name q2 sp2 n2 l (s : fdst H D V) :
  alloc_ok (fheap s) -> fitems (snd s) !! i = Some (mk_fitem dir FAT_ITEM_TYPE_DIRECTORY) ->
  dirs (snd s) !! dir = Some (mk_dobj items total sector) -> dir <> 0 -> items <> 0 ->
  i ∈ flive s -> dir ∈ flive s -> items ∈ flive s -> NoDup [i; dir; items] ->
  dir_at s dir es -> path_at s path ((q, sp, name) :: (q2, sp2, n2) :: l) -> bytes name -> (length name <= 108)%nat ->
  first_match (D := D) (V := V) name es = None -> fitems (snd s) !! 0 = None ->
  directory_entry_loop (S (S n)) fuel d i path s = Oob.
Proof.
  intros Hok Hi Hd Hd0 Hi0 Hil Hdl Hql Hnd Hes Hpath Hb Hl Hnone Hnull.
  apply NoDup_cons in Hnd as [Hx1 Hnd]. apply not_elem_of_cons in Hx1 as [Hid Hx1].
  apply not_elem_of_cons in Hx1 as [Hiq _]. apply NoDup_cons in Hnd as [Hx2 _]. apply not_elem_of_cons in Hx2 as [Hdq _].
  destruct (get_part_spec s path q sp name _ Hpath) as (buf & Hgp & Hc).
  assert (Hq2 : q2 <> 0) by (by destruct Hpath as (_ & _ & nx & b & _ & _ & _ & _ & _ & Hq2 & _)).
  assert (Hpq : path <> 0) by (by destruct Hpath as (-> & Hq & _)).
  cbn [directory_entry_loop]. rewrite (proj2 (Z.eqb_neq path 0)) by done.
  step (look_Some fitems i _ s Hi). cbn [i_type i_ptr Z.eqb negb FAT_ITEM_TYPE_DIRECTORY].
  step Hgp. pose proof (find_item_step fuel d dir es buf name s Hes Hc Hb Hl) as Hfind. rewrite Hnone in Hfind.
  assert (Hfi : fat_find_item_in_directory fuel d dir buf s = Ret (0, s)) by exact Hfind. step Hfi.
  destruct (free_dir_item s i dir items total sector) as (h & Hf & _); [done..|]. step Hf.
  cbn [first_addr]. rewrite (proj2 (Z.eqb_neq q2 0)) by done.
  unfold mbind, cmd_bind. rewrite look_None; [done|]. cbn [snd gone fitems].
  repeat (apply lookup_delete_None; right). done.
Qed.

(** Closing a file returns everything it owns: the descriptor, its item
    and its entry, and the parts and names of its path are freed, nothing else is,
    and the disk and the path of no other file change. *)
Theorem fat_close_releases {H} `{AllocatorOk H} {D V} `{BlockDev D} `{!FatVolume D V}
    p path i q entry l (s : fdst H D V) :
  alloc_ok (fheap s) -> (0 < room (fheap s))%nat -> open_file s p path i q entry ->
  path_at s path l -> NoDup (addrs l) -> (forall x, x ∈ addrs l -> x ∈ flive s) ->
  (p ∉ addrs l) -> (i ∉ addrs l) -> (q ∉ addrs l) ->
  exists s', fat_close p s = Ret (0, s') /\ alloc_ok (fheap s') /\
    flive s' = flive s ∖ ({[p; i; q]} ∪ list_to_set (addrs l)) /\
    ffds (snd s') = delete p (delete i (delete q (ffds (snd s)))) /\ fs_dev (snd s') = fs_dev (snd s).
Proof.
  intros Hok Hr Hof Hpath Hnd Hpl Hpn Hin Hqn. pose proof Hof as [(pos & mode & Hd) Hi He (Hp & Hil & Hql) Hap].
  unfold fat_close.
  destruct (fkz_ok sizeof_path_root s Hok ltac:(unfold sizeof_path_root; lia) Hr) as (root & h1 & E1 & Hr0 & Hrn & Hok1 & Hl1).
  step E1. rewrite (proj2 (Z.eqb_neq root 0)) by done.
  step (look_Some ffds p _ (with_heap h1 s) Hd). cbn [ff_path].
  set (pp1 := mk_pp h1 (pp_strs (fst s)) (pp_parts (fst s)) (<[root := (0, path)]> (pp_roots (fst s)))).
  erewrite bind_Ret by reflexivity. cbn [fst snd with_heap pp_strs pp_parts pp_roots ppalloc]. fold pp1.
  assert (Hparsed : parsed pp1 root 0 l).
  { split; [done| | |].
    - cbn [pp1 pp_roots]. rewrite lookup_insert_eq. by rewrite (chain_first _ _ _ Hpath).
    - rewrite <- (chain_first _ _ _ Hpath). eapply chain_frame; [|exact Hpath]. done.
    - apply NoDup_cons. split; [intros Hx; by apply Hrn, Hpl|done]. }
  assert (Hown : path_owned root l ⊆ pplive pp1).
  { unfold path_owned, pplive. cbn [pp1 ppalloc]. rewrite Hl1. clear -Hpl. set_solver. }
  destruct (free_path_spec pp1 root 0 l Hok1 Hparsed Hown) as (pp2 & Hf & Hok2 & Hl2 & _).
  assert (Hf' : on_pp (pathparser_free root) (pp1, snd s) = Ret (tt, (pp2, snd s))) by (unfold on_pp; simpl; by rewrite Hf).
  step Hf'. unfold pplive in Hl2. cbn [pp1 ppalloc] in Hl2. rewrite Hl1 in Hl2.
  assert (Hof2 : open_file (pp2, snd s) p path i q entry).
  { assert (Hkeep : forall x, x ∈ flive s -> (x ∉ addrs l) -> x ∈ live_ptrs (ppalloc pp2)).
    { intros x Hx Hxl. rewrite Hl2. unfold path_owned. rewrite elem_of_difference, !elem_of_union, elem_of_singleton,
        elem_of_list_to_set. split; [by right|]. intros [->|?]; done. }
    split; [by exists pos, mode|done|done|split_and!; by apply Hkeep|done]. }
  destruct (free_file_descriptor_ok (pp2, snd s) p path i q entry Hok2 Hof2) as (h3 & E3 & Hok3 & Hl3). step E3.
  eexists. split; [reflexivity|]. split; [done|]. split; [|done].
  unfold flive at 1, fheap. simpl. rewrite Hl3. unfold flive at 1, fheap. simpl. rewrite Hl2. unfold path_owned.
  clear -Hrn. set_solver.
Qed.
