(* ===== verification/FatMountSpec.v ===== *)
(** * The FAT16 driver above its table

    Counting and searching a directory with deleted entries, what updating the
    entry of a file in the root directory releases, the bytes a write stores, and
    reading a file through the virtual file system. *)
From S2P Require Import Prelude Config CMem CString Heap HeapSpec Kheap AddressSpace PathParser PathParserSpec Disk Streamer.
From S2P Require Import AllocSpans AtaDevice Vfs VfsSpec FatChain Fat16 Fat16Spec Fat16Names Fat32 FatDirs FatMount FatDirsSpec.

(** ** Counting the entries of a directory *)
Section count.
Context {D : Type} `{BlockDevOk D}.
Implicit Types v : Fat16.fatst D.

(** One read through the directory stream. *)
Lemma dir_read_spec v n :
  fat_wf v -> 0 <= dir_pos v -> 0 <= n -> dir_pos v + n < disk_size (D := D) ->
  exists v', on_dir (diskstreamer_read n) v = Ret ((0, slice (fdev v) (dir_pos v) (Z.to_nat n)), v') /\
    same_disk v v' /\ dir_pos v' = dir_pos v + n.
Proof.
  intros Hw Hp Hn Hend. unfold on_dir, diskstreamer_read.
  destruct (read_rec_spec (S (Z.to_nat n)) n (mk_stream (fdev v) (dir_pos v))) as (st & Hrd & Hok & Hpos & Hsame);
    cbn [sdisk pos] in *; [apply Hw|lia|lia|lia|lia|].
  rewrite Hrd. eexists. split; [reflexivity|]. split; [|done].
  destruct Hw as [Hok0 Hs1 Hs2 Hs3 Hs4 Hs5]. split; simpl; try done.
  intros p Hq. unfold byte_at. rewrite Hsame; [done|]. unfold disk_size in Hq. zlia.
Qed.

(** The entries [raw], then one that starts with a zero byte. *)
Record raw_directory v (p : Z) (raw : list (list Z)) : Prop := {
  rd_len : Forall (fun e => length e = 32%nat) raw;
  rd_used : Forall (fun e => head e <> Some 0) raw;
  rd_fits : 0 <= p /\ p + 32 * Z.of_nat (length raw) + 32 < disk_size (D := D);
  rd_bytes : slice (fdev v) p (32 * length raw) = concat raw;
  rd_end : byte_at (fdev v) (p + 32 * Z.of_nat (length raw)) = 0
}.

Definition deleted (e : list Z) : bool := bool_decide (head e = Some 0xE5).
Definition used_count (raw : list (list Z)) : nat := length (filter (fun e => deleted e = false) raw).

Lemma used_count_cons e raw :
  used_count (e :: raw) = if deleted e then used_count raw else S (used_count raw).
Proof. unfold used_count. rewrite filter_cons. by destruct (deleted e). Qed.

Lemma raw_directory_tail v v' p e raw :
  raw_directory v p (e :: raw) -> same_disk v v' -> raw_directory v' (p + 32) raw.
Proof.
  intros [Hl Hu [Hf1 Hf2] Hb He] Hs. cbn [length] in *.
  apply Forall_cons in Hl as [Hle Hl']. apply Forall_cons in Hu as [Hue Hu'].
  assert (Hd : forall q n, p <= q -> q + Z.of_nat n <= p + 32 * Z.of_nat (S (length raw)) + 32 ->
            slice (fdev v') q n = slice (fdev v) q n).
  { intros q n Hq Hqn. unfold slice. apply list_fmap_ext. intros i y [-> Hi]%lookup_seqZ.
    apply (sd_bytes _ _ Hs). lia. }
  split; [done|done|lia| |].
  - rewrite Hd by lia. replace (32 * S (length raw))%nat with (32 + 32 * length raw)%nat in Hb by lia.
    rewrite slice_app in Hb. cbn [concat] in Hb. change (Z.of_nat 32) with 32 in Hb.
    apply app_inj_1 in Hb as [_ Hb]; [done|by rewrite length_slice].
  - rewrite (sd_bytes _ _ Hs) by lia. rewrite <- He. f_equal. lia.
Qed.

Lemma total_items_loop_spec fuel v raw i :
  fat_wf v -> raw_directory v (dir_pos v) raw -> (length raw < fuel)%nat ->
  exists v', total_items_loop fuel i v = Ret (i + Z.of_nat (used_count raw), v') /\ same_disk v v'.
Proof.
  revert v raw i. induction fuel as [|fuel IH]; intros v raw i Hw Hraw Hf; [lia|].
  pose proof (rd_fits _ _ _ Hraw) as [Hf1 Hf2]. cbn [total_items_loop].
  destruct (dir_read_spec v item_size Hw) as (v1 & Hrd & Hs1 & Hp1); [lia|unfold item_size; lia|unfold item_size; lia|].
  unfold item_size in *. change (Z.to_nat 32) with 32%nat in Hrd. step Hrd. cbn [Z.eqb negb SERPAEOS_ALL_OK].
  destruct raw as [|e raw].
  - rewrite (bind_liftO _ _ _ 0).
    2: { apply load_Some; [lia|]. unfold slice. change (seqZ 0 (Z.of_nat 32)) with (0 :: seqZ 1 31). simpl.
         pose proof (rd_end _ _ _ Hraw) as He. simpl in He. by rewrite Z.add_0_r in *; rewrite He. }
    rewrite Z.eqb_refl. exists v1. split; [|done]. unfold mret, cmd_ret. do 2 f_equal. unfold used_count. simpl. lia.
  - pose proof (rd_bytes _ _ _ Hraw) as Hb. cbn [length concat] in Hb.
    replace (32 * S (length raw))%nat with (32 + 32 * length raw)%nat in Hb by lia. rewrite slice_app in Hb.
    pose proof (rd_len _ _ _ Hraw) as Hl. apply Forall_cons in Hl as [Hle _].
    apply app_inj_1 in Hb as [Hb _]; [|by rewrite length_slice]. rewrite Hb.
    pose proof (rd_used _ _ _ Hraw) as Hu. apply Forall_cons in Hu as [Hue _].
    destruct e as [|c e]; [done|]. rewrite (bind_liftO _ _ _ c) by (by apply load_Some).
    assert (c <> 0) by (intros ->; by apply Hue). rewrite (proj2 (Z.eqb_neq c 0)) by done.
    pose proof (raw_directory_tail _ _ _ _ _ Hraw Hs1) as Hraw1. rewrite <- Hp1 in Hraw1.
    rewrite used_count_cons. unfold deleted. cbn [head].
    destruct (c =? 0xE5) eqn:E; breflect.
    + rewrite bool_decide_true by (by subst).
      destruct (IH v1 raw i) as (v2 & Hr & Hs2); [apply Hs1|done|simpl in Hf; lia|].
      exists v2. split; [exact Hr|by eapply same_disk_trans].
    + rewrite bool_decide_false by (by intros [= ?]).
      destruct (IH v1 raw (i + 1)) as (v2 & Hr & Hs2); [apply Hs1|done|simpl in Hf; lia|].
      exists v2. split; [|by eapply same_disk_trans]. rewrite Hr. do 2 f_equal. lia.
Qed.

Lemma total_items_spec fuel v sector raw :
  fat_wf v -> raw_directory v (sector * 512) raw -> (length raw < fuel)%nat ->
  exists v', fat16_get_total_items_for_directory fuel sector v = Ret (Z.of_nat (used_count raw), v') /\ same_disk v v'.
Proof.
  intros Hw Hraw Hf. pose proof (rd_fits _ _ _ Hraw) as [Hf1 Hf2]. pose proof (disk_size_bound (D := D)).
  unfold fat16_get_total_items_for_directory. erewrite bind_Ret by reflexivity.
  rewrite (fw_sector _ Hw), s32_id by lia. erewrite bind_Ret by reflexivity. cbn [Z.eqb negb SERPAEOS_ALL_OK].
  set (v0 := mk_fatst _ _ _ _ _ _ _).
  assert (Hs0 : same_disk v v0) by (destruct Hw; by split).
  destruct (total_items_loop_spec fuel v0 raw 0) as (v' & Hr & Hs); [apply Hs0| |done|].
  - destruct Hraw. by split.
  - exists v'. split; [exact Hr|by eapply same_disk_trans].
Qed.
End count.

(** ** Running on the mounted volume *)
Section volume.
Context {H : Type} `{AllocatorOk H} {D : Type} `{BlockDevOk D}.
Implicit Types s : fdst H D (Fat16.fatst D).
Implicit Types v : Fat16.fatst D.

(** The volume of a disk, with the one device in it. *)
Definition mounted s (d : disk) (v0 v : Fat16.fatst D) (root : Z) : Prop :=
  privs (snd s) !! fs_private d = Some (v0, root) /\ v = vol_with (fs_dev (snd s)) v0.

(** The state after the volume became [v]. *)
Definition after s (d : disk) (root : Z) v : fdst H D (Fat16.fatst D) :=
  (fst s, mk_fatfs (fdev v) (<[fs_private d := (v, root)]> (privs (snd s))) (dirs (snd s)) (bufs (snd s))
            (fitems (snd s)) (ffds (snd s))).

Lemma on_vol_step {A} (c : cmd (Fat16.fatst D) A) s d v0 v root a v' :
  mounted s d v0 v root -> c v = Ret (a, v') -> on_vol d c s = Ret (a, after s d root v').
Proof. intros [Hp ->] E. unfold on_vol. rewrite Hp. cbn [mbind outcome_bind]. by rewrite E. Qed.

Lemma after_mounted s d v root : mounted (after s d root v) d v v root.
Proof. split; [simpl; by rewrite lookup_insert_eq|by destruct v]. Qed.

Lemma get_vol_step s d v0 v root : mounted s d v0 v root -> get_vol d s = Ret (v0, s).
Proof. intros [Hp _]. unfold get_vol. by step (look_Some privs _ _ s Hp). Qed.

(** Writing through the directory stream and through the data stream. *)
Lemma dir_write_spec v n buf :
  fat_wf v -> 0 <= dir_pos v -> n = Z.of_nat (length buf) -> dir_pos v + n <= disk_size (D := D) -> bytes buf ->
  exists v', on_dir (diskstreamer_write buf n) v = Ret (n, v') /\ bd_ok (fdev v') /\
    patched (fdev v) (fdev v') (dir_pos v) buf.
Proof.
  intros Hw Hp -> Hend Hb. unfold on_dir, diskstreamer_write. rewrite Nat2Z.id.
  destruct (write_loop_spec (length buf) buf 0 (mk_stream (fdev v) (dir_pos v))) as (st & Hwr & Hok & _ & Hpat);
    cbn [sdisk pos] in *; [apply Hw|lia|lia|done|lia|].
  rewrite drop_0, take_ge in Hpat by lia. change 0 with (Z.of_nat 0). rewrite Hwr. by eexists.
Qed.

(** Releasing the root directory of FAT16 releases the private structure. *)
Lemma free_root `{!AllocatorInterior H} s priv i items total sector :
  alloc_ok (fheap s) -> priv mod 4096 = 0 -> priv ∈ flive s -> items ∈ flive s -> i ∈ flive s ->
  items <> 0 -> priv + ROOT_OFFSET <> 0 -> NoDup [priv; items; i] ->
  fitems (snd s) !! i = Some (mk_fitem (priv + ROOT_OFFSET) FAT_ITEM_TYPE_DIRECTORY) ->
  dirs (snd s) !! (priv + ROOT_OFFSET) = Some (mk_dobj items total sector) ->
  exists s', fat_fat_item_free i s = Ret (tt, s') /\ privs (snd s') !! priv = None /\
    flive s' = flive s ∖ {[items; priv; i]} /\ fs_dev (snd s') = fs_dev (snd s) /\ alloc_ok (fheap s').
Proof.
  intros Hok Hmod Hpl Hql Hil Hq0 Hr0 Hnd Hi Hd.
  apply NoDup_cons in Hnd as [Hx1 Hnd]. apply not_elem_of_cons in Hx1 as [Hpq Hx1]. apply not_elem_of_cons in Hx1 as [Hpi _].
  apply NoDup_cons in Hnd as [Hx2 _]. apply not_elem_of_cons in Hx2 as [Hqi _].
  unfold fat_fat_item_free. step (look_Some fitems i _ s Hi). cbn [i_type i_ptr Z.eqb FAT_ITEM_TYPE_DIRECTORY].
  destruct (fkf_ok items s Hok Hql) as (h1 & Hk1 & Hok1 & Hl1).
  set (s1 := (fst (with_heap h1 s), gone items (snd s)) : fdst H D (Fat16.fatst D)) in Hk1.
  assert (Hpl1 : priv ∈ live_ptrs h1) by (rewrite Hl1, elem_of_difference, elem_of_singleton; done).
  destruct (kf_spec priv h1 Hok1 Hpl1) as (h2 & Hk2 & Hok2 & Hl2).
  assert (Hk2' : fkf (priv + ROOT_OFFSET) s1 =
            Ret (tt, (fst (with_heap h2 s), gone (priv + ROOT_OFFSET) (gone items (snd s))))).
  { unfold fkf, on_pp, upd, modifyS, ppk, mbind, cmd_bind. cbn [s1 fst snd with_heap ppalloc pp_strs pp_parts pp_roots].
    rewrite (kf_interior priv ROOT_OFFSET h1 Hok1 Hpl1 ltac:(unfold ROOT_OFFSET; lia)), Hk2. reflexivity. }
  set (s2 := (fst (with_heap h2 s), gone (priv + ROOT_OFFSET) (gone items (snd s))) : fdst H D (Fat16.fatst D)) in Hk2'.
  assert (E : fat_free_directory (priv + ROOT_OFFSET) s = Ret (tt, s2)).
  { unfold fat_free_directory. rewrite (proj2 (Z.eqb_neq _ 0)) by done.
    step (look_Some dirs (priv + ROOT_OFFSET) _ s Hd). cbn [d_items].
    rewrite (proj2 (Z.eqb_neq items 0)) by done. cbn [negb]. step Hk1. exact Hk2'. }
  step E. destruct (fkf_ok i s2 Hok2) as (h3 & Hk3 & Hok3 & Hl3).
  { unfold flive, fheap. cbn [s2 fst with_heap ppalloc]. rewrite Hl2, Hl1, !elem_of_difference, !elem_of_singleton. done. }
  eexists. split; [exact Hk3|]. split_and!; [|unfold flive, fheap; cbn [fst with_heap ppalloc]; rewrite Hl3; unfold flive, fheap;
     cbn [s2 fst with_heap ppalloc]; rewrite Hl2, Hl1; clear; set_solver|reflexivity|done].
  cbn [s2 snd gone privs]. apply lookup_delete_None. right. apply lookup_delete_None. left.
  unfold ROOT_OFFSET. zlia.
Qed.

Lemma last_name_single s path q sp name buf :
  path_at s path [(q, sp, name)] -> get_part path s = Ret ((buf, 0), s) -> last_name path s = Ret (buf, s).
Proof.
  intros (-> & _ & nx & b & Hp & Hs & _ & _ & ->) Hgp. unfold last_name.
  erewrite bind_Ret by reflexivity. cbn [pathparser_get_last_part]. rewrite Hp. cbn [Z.eqb negb].
  erewrite bind_Ret by reflexivity. by step Hgp.
Qed.

(** The parent of a path of one component: a new item for the root. *)
Lemma parent_of_root fuel d s path q sp name v0 root :
  alloc_ok (fheap s) -> (0 < room (fheap s))%nat -> path_at s path [(q, sp, name)] ->
  privs (snd s) !! fs_private d = Some (v0, root) ->
  exists p h, fat_get_parent_dir fuel d path s =
      Ret (p, (fst (with_heap h s), set_fitems (<[p := mk_fitem root FAT_ITEM_TYPE_DIRECTORY]> (fitems (snd s))) (snd s))) /\
    (p ∉ flive s) /\ alloc_ok h /\ live_ptrs h = {[p]} ∪ flive s.
Proof.
  intros Hok Hr Hpath Hp. destruct (get_part_spec s path q sp name [] Hpath) as (buf & Hgp & _).
  assert (Hpq : path <> 0) by (by destruct Hpath as (-> & Hq & _)). unfold fat_get_parent_dir.
  rewrite (proj2 (Z.eqb_neq path 0)) by done. step Hgp. cbn [first_addr Z.eqb].
  assert (Hroot : get_root d s = Ret (root, s)) by (unfold get_root; by step (look_Some privs (fs_private d) _ s Hp)).
  step Hroot. destruct (fkz_ok sizeof_fat_item s Hok ltac:(unfold sizeof_fat_item; lia) Hr) as (p & h & E & Hp0 & Hn & Hok' & Hl).
  step E. rewrite (proj2 (Z.eqb_neq p 0)) by done. exists p, h. split; [reflexivity|done].
Qed.

(** A directory whose entries are all in use, at sector [sector] of the disk. *)
Record disk_dir s (dir items sector : Z) (es : list named_entry) : Prop := {
  dd_obj : dirs (snd s) !! dir = Some (mk_dobj items (Z.of_nat (length es)) sector);
  dd_bytes : exists post, bufs (snd s) !! items = Some (concat (entry_bytes <$> es) ++ post);
  dd_fits : 0 <= sector /\ sector * 512 + 32 * Z.of_nat (length es) <= disk_size (D := D)
}.

(** Writing the entry once its directory is known: the 32 bytes go to the
    entry's place on the disk, and the directory's item is released. *)
Lemma write_entry_step s d v0 v root dir items sector pre e post path q sp name new p :
  mounted s d v0 v root -> fat_wf v -> disk_dir s dir items sector (pre ++ e :: post) ->
  fitems (snd s) !! p = Some (mk_fitem dir FAT_ITEM_TYPE_DIRECTORY) -> dir <> 0 ->
  path_at s path [(q, sp, name)] -> bytes name -> Forall (other_entry name) pre -> entry_ok e ->
  (length (entry_full e) < 12)%nat -> tolower <$> entry_full e = tolower <$> name ->
  length new = 32%nat -> bytes new ->
  exists v', bd_ok (fdev v') /\
    patched (fdev v) (fdev v') (sector * 512 + 32 * Z.of_nat (length pre)) new /\
    write_entry_in d path new p s =
    (fat_fat_item_free p;; mret 32) (after s d root v').
Proof.
  intros Hm Hw [Hd [tail Hb] [Hf1 Hf2]] Hi Hd0 Hpath Hbn Hpre He Hlt Heq Hln Hnb.
  destruct (get_part_spec s path q sp name [] Hpath) as (buf & Hgp & Hc). cbn [first_addr] in Hgp.
  pose proof (disk_size_bound (D := D)).
  rewrite length_app in Hf2, Hd. cbn [length] in Hf2, Hd.
  pose proof (write_entry_found (length post) pre e (concat (entry_bytes <$> post) ++ tail) buf name (sector * 512)
                Hpre He Hlt Heq Hc Hbn ltac:(lia) ltac:(lia)) as Hloop.
  set (loc := sector * 512 + 32 * Z.of_nat (length pre)) in *.
  set (v1 := mk_fatst (fdev v) (cluster_pos v) (fat_pos v) loc (fdisk v) (header v) (root_directory v)).
  assert (Hw1 : fat_wf v1) by (destruct Hw; by split).
  destruct (dir_write_spec v1 32 new Hw1) as (v2 & Hwr & Hok2 & Hpat); [subst loc; cbn; lia|lia|subst loc; cbn; lia|done|].
  exists v2. split; [done|]. split; [exact Hpat|].
  unfold write_entry_in. step (look_Some fitems p _ s Hi). cbn [i_ptr]. rewrite (proj2 (Z.eqb_neq dir 0)) by done. cbv zeta.
  step (look_Some dirs dir _ s Hd). step (get_vol_step s d v0 v root Hm).
  assert (Hdb : dir_bytes (mk_dobj items (Z.of_nat (length pre + S (length post))) sector) s =
            Ret (concat (entry_bytes <$> pre ++ e :: post) ++ tail, s)).
  { unfold dir_bytes. cbn [d_total d_items]. rewrite (proj2 (Z.leb_gt _ 0)) by lia. by apply look_Some. }
  step Hdb. step (last_name_single s path q sp name buf Hpath Hgp). cbn [d_total d_sector].
  assert (Hsz : vol_sector_size v0 = 512).
  { pose proof (fw_sector _ Hw) as Hs. destruct Hm as [_ ->]. exact Hs. }
  rewrite Hsz, u32_id by lia. rewrite Nat2Z.id, fmap_app, concat_app, <- app_assoc. cbn [fmap list_fmap concat].
  rewrite <- app_assoc, (bind_liftO _ _ _ _ Hloop). rewrite (proj2 (Z.eqb_neq _ _)) by lia.
  rewrite s32_id by (subst loc; lia).
  assert (Hseek : vol_dir (diskstreamer_seek loc) v = Ret (0, v1)) by reflexivity.
  step (on_vol_step _ s d v0 v root 0 v1 Hm Hseek). cbn [Z.eqb negb SERPAEOS_ALL_OK].
  assert (Hwr' : vol_dir (diskstreamer_write new 32) v1 = Ret (32, v2)) by exact Hwr.
  step (on_vol_step _ (after s d root v1) d v1 v1 root 32 v2 (after_mounted s d v1 root) Hwr').
  unfold after. cbn [fst snd privs dirs bufs fitems ffds]. by rewrite insert_insert_eq.
Qed.
End volume.

(** ** Recognising a disk *)
Section recognise.
Context {H : Type} `{AllocatorOk H} {D : Type} `{BlockDevOk D} (ds : list disk).
Implicit Types s : fdst H D (Fat16.fatst D).

Lemma fkz_room size s :
  alloc_ok (fheap s) -> 0 < size <= 4096 -> (0 < room (fheap s))%nat ->
  exists p h, fkz size s = Ret (p, with_heap h s) /\ p <> 0 /\ p mod 4096 = 0 /\ (p ∉ flive s) /\ alloc_ok h /\
    live_ptrs h = {[p]} ∪ flive s /\ S (room h) = room (fheap s).
Proof.
  intros Hok Hs Hr. destruct (kz_room size (fheap s) Hok Hs Hr) as (p & h & Hk & Hp & Hroom).
  destruct (kz_spec size (fheap s) p h Hok ltac:(lia) Hk) as (Hok' & [[-> _] | (_ & Hmod & Hnew & Hl)]); [done|].
  exists p, h. unfold fkz, on_pp, ppk. fold (fheap s). rewrite Hk. by split_and!.
Qed.

Lemma new_stream_ok s d dk :
  alloc_ok (fheap s) -> (0 < room (fheap s))%nat -> disk_get ds (id d) = Ret (Some dk) ->
  exists p h, new_stream ds d s = Ret (p, with_heap h s) /\ p <> 0 /\ (p ∉ flive s) /\ alloc_ok h /\
    live_ptrs h = {[p]} ∪ flive s /\ S (room h) = room (fheap s).
Proof.
  intros Hok Hr Hd. destruct (kz_room 8 (fheap s) Hok ltac:(lia) Hr) as (p & h & Hk & Hp & Hroom).
  destruct (kz_spec 8 (fheap s) p h Hok ltac:(lia) Hk) as (Hok' & [[-> _] | (_ & _ & Hnew & Hl)]); [done|].
  exists p, h. split; [|by split_and!].
  assert (E : on_pp (ppk (diskstreamer_new ds (id d))) s = Ret (Some (p, dk), with_heap h s)).
  { unfold on_pp, ppk. fold (fheap s). unfold diskstreamer_new. rewrite (bind_liftO _ _ _ _ Hd). step Hk.
    by rewrite (proj2 (Z.eqb_neq p 0)). }
  unfold new_stream. by step E.
Qed.

(** The private structure with its three streams. *)
Lemma init_private_ok s d dk priv :
  alloc_ok (fheap s) -> (3 <= room (fheap s))%nat -> disk_get ds (id d) = Ret (Some dk) ->
  exists p1 p2 p3 h, let v := mk_fatst (fs_dev (snd s)) 0 0 0 d zero_header (mk_dir [] 0 0 0) in
    fat16_init_private ds d priv s =
      Ret (tt, (fst (with_heap h s), set_privs (<[priv := (v, priv + ROOT_OFFSET)]> (privs (snd s)))
                  (set_dirs (<[priv + ROOT_OFFSET := mk_dobj 0 0 0]> (dirs (snd s))) (snd s)))) /\
    alloc_ok h /\ live_ptrs h = {[p1; p2; p3]} ∪ flive s /\ {[p1; p2; p3]} ## flive s /\ size ({[p1; p2; p3]} : gset Z) = 3%nat /\
    (3 + room h = room (fheap s))%nat.
Proof.
  intros Hok Hr Hd. unfold fat16_init_private. erewrite bind_Ret by reflexivity. erewrite bind_Ret by reflexivity.
  match goal with |- context [(new_stream ds d ≫= _) ?x] => set (s0 := x) end.
  destruct (new_stream_ok s0 d dk) as (p1 & h1 & E1 & _ & Hn1 & Hok1 & Hl1 & Hr1); [done|change (fheap s0) with (fheap s); lia|done|].
  destruct (new_stream_ok (with_heap h1 s0) d dk) as (p2 & h2 & E2 & _ & Hn2 & Hok2 & Hl2 & Hr2);
    [done|change (0 < room h1)%nat; change (fheap s0) with (fheap s) in Hr1; lia|done|].
  destruct (new_stream_ok (with_heap h2 s0) d dk) as (p3 & h3 & E3 & _ & Hn3 & Hok3 & Hl3 & Hr3);
    [done|change (0 < room h2)%nat; change (fheap s0) with (fheap s) in Hr1; change (fheap (with_heap h1 s0)) with h1 in Hr2; lia|done|].
  exists p1, p2, p3, h3. cbv zeta. split.
  { step E1. assert (E2' : new_stream ds d (with_heap h1 s0) = Ret (p2, with_heap h2 s0)) by exact E2. step E2'.
    assert (E3' : new_stream ds d (with_heap h2 s0) = Ret (p3, with_heap h3 s0)) by exact E3. step E3'. reflexivity. }
  change (flive s0) with (flive s) in *. change (fheap s0) with (fheap s) in *.
  change (flive (with_heap h1 s0)) with (live_ptrs h1) in *. change (fheap (with_heap h1 s0)) with h1 in *.
  change (flive (with_heap h2 s0)) with (live_ptrs h2) in *. change (fheap (with_heap h2 s0)) with h2 in *.
  rewrite Hl3, Hl2, Hl1 in *. split; [done|]. split; [clear; set_solver|]. split; [clear -Hn1 Hn2 Hn3; set_solver|].
  split; [|lia]. rewrite size_union by (clear -Hn1 Hn2 Hn3; set_solver).
  rewrite size_union by (clear -Hn1 Hn2 Hn3; set_solver). by rewrite !size_singleton.
Qed.

(** Reading the beginning of the disk. *)
Lemma on_raw_read s n :
  bd_ok (fs_dev (snd s)) -> 0 <= n < disk_size (D := D) ->
  exists dev', on_raw 0 (diskstreamer_read n) s =
      Ret ((0, slice (fs_dev (snd s)) 0 (Z.to_nat n)),
           (fst s, mk_fatfs dev' (privs (snd s)) (dirs (snd s)) (bufs (snd s)) (fitems (snd s)) (ffds (snd s)))) /\
    bd_ok dev' /\ forall i, 0 <= i < nsectors (D := D) -> sector dev' i = sector (fs_dev (snd s)) i.
Proof.
  intros Hok Hn. unfold on_raw, diskstreamer_read.
  destruct (read_rec_spec (S (Z.to_nat n)) n (mk_stream (fs_dev (snd s)) 0)) as (st & Hrd & Hok' & _ & Hsame);
    cbn [sdisk pos] in *; [done|lia|lia|lia|lia|].
  rewrite Hrd. by exists (sdisk st).
Qed.
End recognise.

(** ** Properties *)

(** C30: updating the directory entry of a file in the root directory of a FAT16
    disk, whose name with its extension has fewer than 12 characters, which opening, writing and deleting it all do, writes the 32 bytes to
    their place on the disk and then frees the root directory as if it had been
    loaded for the purpose: its entries go, and, since it lies in the private
    structure of the mounted disk, that structure goes too, so that no later
    lookup on the disk finds it. *)
Theorem root_update_releases_volume {H} `{AllocatorInterior H} {D} `{BlockDevOk D}
    fuel (d : disk) v0 v items sector pre e post path q sp name new (s : fdst H D (Fat16.fatst D)) :
  let priv := fs_private d in let root := priv + ROOT_OFFSET in
  alloc_ok (fheap s) -> (0 < room (fheap s))%nat -> mounted s d v0 v root -> fat_wf v ->
  disk_dir s root items sector (pre ++ e :: post) ->
  0 < priv -> priv mod 4096 = 0 -> priv ∈ flive s -> items ∈ flive s -> items <> 0 -> items <> priv ->
  path_at s path [(q, sp, name)] -> bytes name -> Forall (other_entry name) pre -> entry_ok e ->
  (length (entry_full e) < 12)%nat -> tolower <$> entry_full e = tolower <$> name ->
  length new = 32%nat -> bytes new ->
  exists s', fat_write_directory_entry fuel d path new s = Ret (32, s') /\
    patched (fs_dev (snd s)) (fs_dev (snd s')) (sector * 512 + 32 * Z.of_nat (length pre)) new /\
    flive s' = flive s ∖ {[items; priv]} /\
    forall fuel' path', fat_get_directory_entry fuel' d path' s' = Oob.
Proof.
  intros priv root Hok Hr Hm Hw Hdd Hp0 Hmod Hpl Hql Hq0 Hqp Hpath Hbn Hpre He Hlt Heq Hln Hnb.
  destruct (parent_of_root fuel d s path q sp name v0 root Hok Hr Hpath (proj1 Hm)) as (p & h & E & Hpn & Hokh & Hlh).
  unfold fat_write_directory_entry. step E.
  set (s1 := (fst (with_heap h s), set_fitems _ _) : fdst H D (Fat16.fatst D)).
  assert (Hlive1 : flive s1 = {[p]} ∪ flive s) by exact Hlh.
  assert (Hdd1 : disk_dir s1 root items sector (pre ++ e :: post)) by (destruct Hdd; by split).
  assert (Hpath1 : path_at s1 path [(q, sp, name)]) by exact Hpath.
  destruct (write_entry_step s1 d v0 v root root items sector pre e post path q sp name new p)
    as (v' & Hdev & Hpat & ->); try done; [by cbn; rewrite lookup_insert_eq|unfold root, ROOT_OFFSET; lia|].
  set (s2 := after s1 d root v').
  destruct (free_root s2 priv p items (Z.of_nat (length (pre ++ e :: post))) sector)
    as (s3 & Hfree & Hgone & Hl3 & Hd3 & _); try done.
  - change (flive s2) with (flive s1). rewrite Hlive1. by apply elem_of_union_r.
  - change (flive s2) with (flive s1). rewrite Hlive1. by apply elem_of_union_r.
  - change (flive s2) with (flive s1). rewrite Hlive1. apply elem_of_union_l. by apply elem_of_singleton.
  - unfold ROOT_OFFSET; lia.
  - assert (p <> priv /\ p <> items) as [? ?] by (split; intros ->; by apply Hpn).
    apply NoDup_cons. split; [clear -Hqp H5; set_solver|].
    apply NoDup_cons. split; [clear -H6; set_solver|apply NoDup_singleton].
  - cbn. by rewrite lookup_insert_eq.
  - apply (dd_obj _ _ _ _ _ Hdd).
  - step Hfree. exists s3. split_and!; [done| | |].
    + rewrite Hd3. destruct Hm as [_ ->]. exact Hpat.
    + rewrite Hl3. change (flive s2) with (flive s1). rewrite Hlive1. clear -Hpn. set_solver.
    + intros fuel' path'. unfold fat_get_directory_entry, get_root. unfold mbind, cmd_bind.
      rewrite look_None by done. done.
Qed.

(** A directory with deleted entries loses as many entries at its end:
    the driver counts the entries in use, and then searches that many of the
    entries on the disk from the first one, deleted ones included. *)
Theorem deleted_entries_hide_last {D} `{BlockDevOk D} fuel (v : Fat16.fatst D) sector es buf name :
  fat_wf v -> raw_directory v (sector * 512) (entry_bytes <$> es) -> Forall entry_ok es ->
  (length es < fuel)%nat -> cstr buf name -> bytes name -> (length name <= 108)%nat ->
  let n := used_count (entry_bytes <$> es) in
  exists v', fat16_get_total_items_for_directory fuel sector v = Ret (Z.of_nat n, v') /\ same_disk v v' /\
    find_item_loop (V := Fat16.fatst D) n (slice (fdev v) (sector * 512) (32 * length es)) (replicate 108 0) buf 0 =
      Ret (first_match (V := Fat16.fatst D) name (take n es)).
Proof.
  intros Hw Hraw Hes Hf Hbuf Hbn Hln n.
  destruct (total_items_spec fuel v sector _ Hw Hraw) as (v' & Ht & Hs); [by rewrite length_fmap|].
  exists v'. split; [exact Ht|]. split; [done|].
  pose proof (rd_bytes _ _ _ Hraw) as Hb. rewrite length_fmap in Hb. rewrite Hb.
  assert (Hn : (n <= length es)%nat).
  { subst n. unfold used_count. rewrite <- (length_fmap entry_bytes es). apply length_filter. }
  rewrite <- (take_drop n es) at 1. rewrite fmap_app, concat_app.
  pose proof (find_item_loop_spec (V := Fat16.fatst D) (take n es) [] (concat (entry_bytes <$> drop n es)) (replicate 108 0) buf name) as E.
  rewrite length_take, Nat.min_l in E by done. cbn [concat app length] in E.
  apply E; (done || by apply Forall_take || constructor).
Qed.

(** Reading through the virtual file system: only the state of the driver changes. *)
Lemma fread_fat16_spec {H} `{AllocatorOk H} {D} `{BlockDevOk D} drivers ds fuel now
    (s : vfs H (fatfs D (Fat16.fatst D))) m fd f d v0 v root path i q entry pos mode l size :
  drivers !! d_filesystem f = Some (fat16_fs ds (d_filesystem f) fuel now) ->
  fd_table s m -> m !! fd = Some f -> fd <> 512 -> load (disks s) (d_disk f) = Ret d ->
  mounted (vst s) d v0 v root -> fat_wf v ->
  ffds (snd (vst s)) !! private f = Some (mk_ffd path i pos mode) ->
  fitems (snd (vst s)) !! i = Some (mk_fitem q FAT_ITEM_TYPE_FILE) -> bufs (snd (vst s)) !! q = Some entry ->
  disk_chain v (fat16_get_first_cluster entry) l -> Forall plain l -> Forall (data_fits v) l ->
  0 <= pos -> 0 < size -> pos + size <= Z.of_nat (length l * cluster_size v) -> pos + size < 2147483648 ->
  readable v pos size ->
  exists v', same_disk v v' /\ fread drivers fd size s =
    Ret ((0, take (Z.to_nat size) (drop (Z.to_nat pos) (file_data v l))),
         set_vst s (fst (vst s), set_ffds (<[private f := mk_ffd path i (pos + size) mode]> (ffds (snd (vst s)))) (snd (after (vst s) d root v')))).
Proof.
  intros Hdr Ht Hm Hfd Hd Hmt Hw Hff Hi Hq Hch Hpl Hfit Hp0 Hs0 Hend Hmax Hrd.
  destruct (get_descriptor_open s m fd f Ht Hm Hfd) as (p & Hg & Hp & Hds & _).
  pose proof (ft_dom _ _ Ht fd f Hm). unfold fread.
  rewrite (proj2 (Z.eqb_neq size 0)), (proj2 (Z.ltb_ge fd 1)) by lia. cbn [orb]. step Hg.
  rewrite (proj2 (Z.eqb_neq p 0)) by done. step (resolve_desc_spec drivers s p f _ d Hds Hdr Hd).
  destruct (read_internal_spec (S (Z.to_nat size)) v (fat16_get_first_cluster entry) l pos size)
    as (v' & Hrd' & Hsame); [done..|lia|].
  assert (Hread : vol_read_internal (fat16_get_first_cluster entry) (s32 pos) (s32 (u32 size)) v =
            Ret ((0, take (Z.to_nat size) (drop (Z.to_nat pos) (file_data v l))), v')).
  { rewrite u32_id, !s32_id by lia. exact Hrd'. }
  pose proof (on_vol_step _ (vst s) d v0 v root _ v' Hmt Hread) as Hov.
  set (st1 := after (vst s) d root v') in Hov.
  assert (Hfat : fat_read d (private f) (u32 size) 1 (vst s) =
            Ret ((0, take (Z.to_nat size) (drop (Z.to_nat pos) (file_data v l))),
                 (fst st1, set_ffds (<[private f := mk_ffd path i (pos + size) mode]> (ffds (snd st1))) (snd st1)))).
  { unfold fat_read. step (look_Some ffds (private f) _ (vst s) Hff). cbn [ff_item ff_pos].
    assert (Hdi : desc_item (mk_ffd path i pos mode) (vst s) = Ret ((mk_fitem q FAT_ITEM_TYPE_FILE, entry), vst s)).
    { unfold desc_item. cbn [ff_item]. step (look_Some fitems i _ (vst s) Hi). cbn [i_ptr].
      by step (look_Some bufs q _ (vst s) Hq). }
    step Hdi. change (Z.to_nat 1) with 1%nat. cbn [read_members_loop].
    rewrite (bind_Ret _ _ _ (0, take (Z.to_nat size) (drop (Z.to_nat pos) (file_data v l)), pos + size) st1).
    2: { step Hov. change (ISERR 0) with false. unfold mret, cmd_ret, mbind, cmd_bind, outcome_bind. cbv iota beta.
         rewrite app_nil_r, u32_id, (s32_id pos), s32_id by lia. done. }
    change (ISERR 0) with false. cbv iota. rewrite u32_id by lia. reflexivity. }
  cbn [fs_read fat16_fs fat_ops].
  exists v'. split; [exact Hsame|]. unfold on_st. rewrite Hfat. reflexivity.
Qed.

(** C7: reading an open file through the virtual file system.  The file's
    clusters lie below 2 GB on the disk (a stream position is an int) and none of
    them is number 0xFF0, 0xFF6, 0xFF8, 0xFFF or 0xFFF7 (the driver takes these for
    marks in the table and refuses them); the descriptor is not 512.  For a
    request of whole clusters from a cluster boundary, or of bytes of one cluster,
    inside the file and ending below 2 GB, [fread] on a descriptor of the FAT16
    driver returns the bytes of the file's clusters at the descriptor's position,
    and the position moves past them; the disk keeps its bytes. *)
Theorem fread_fat16_correct {H} `{AllocatorOk H} {D} `{BlockDevOk D} drivers ds fuel now
    (s : vfs H (fatfs D (Fat16.fatst D))) m fd f d v0 v root path i q entry pos mode l size :
  drivers !! d_filesystem f = Some (fat16_fs ds (d_filesystem f) fuel now) ->
  fd_table s m -> m !! fd = Some f -> fd <> 512 -> load (disks s) (d_disk f) = Ret d ->
  mounted (vst s) d v0 v root -> fat_wf v ->
  ffds (snd (vst s)) !! private f = Some (mk_ffd path i pos mode) ->
  fitems (snd (vst s)) !! i = Some (mk_fitem q FAT_ITEM_TYPE_FILE) -> bufs (snd (vst s)) !! q = Some entry ->
  disk_chain v (fat16_get_first_cluster entry) l -> Forall plain l -> Forall (data_fits v) l ->
  0 <= pos -> 0 < size -> pos + size <= Z.of_nat (length l * cluster_size v) -> pos + size < 2147483648 ->
  readable v pos size ->
  exists s', fread drivers fd size s = Ret ((0, take (Z.to_nat size) (drop (Z.to_nat pos) (file_data v l))), s') /\
    ffds (snd (vst s')) !! private f = Some (mk_ffd path i (pos + size) mode) /\
    forall p, 0 <= p < disk_size (D := D) -> byte_at (fs_dev (snd (vst s'))) p = byte_at (fs_dev (snd (vst s))) p.
Proof.
  intros Hdr Ht Hm Hfd Hd Hmt. intros.
  destruct (fread_fat16_spec drivers ds fuel now s m fd f d v0 v root path i q entry pos mode l size) as (v' & Hsame & E); [done..|].
  eexists. split; [exact E|]. split; [cbn; by rewrite lookup_insert_eq|].
  intros r Hr. cbn. rewrite (sd_bytes _ _ Hsame) by done. by destruct Hmt as [_ ->].
Qed.

(** A write that starts at a cluster boundary stores nothing: the driver
    writes to the first cluster as many bytes as the position is into its
    cluster, none, and then goes on with the next cluster, of which there is
    none.  It returns 0 and the disk keeps every byte, although the file was
    made longer by [size] before. *)
Theorem write_at_cluster_start_lost {H} `{AllocatorOk H} {D} `{BlockDevOk D} fuel (d : disk) v0 v root c pos buf size
    (s : fdst H D (Fat16.fatst D)) :
  mounted s d v0 v root -> fat_wf v -> 0 <= c < entries_of v -> 0xFFF8 <= fat_at v c ->
  0 <= pos -> pos mod Z.of_nat (cluster_size v) = 0 -> 0 < size < 2147483648 ->
  exists s', write_data (S fuel) d c pos buf size s = Ret (0, s') /\ fst s' = fst s /\
    forall p, 0 <= p < disk_size (D := D) -> byte_at (fs_dev (snd s')) p = byte_at (fs_dev (snd s)) p.
Proof.
  intros Hm Hw Hc Heoc Hp Hmod Hsz. unfold write_data. step (get_vol_step s d v0 v root Hm).
  assert (Hcb : vol_cluster_bytes v0 = Z.of_nat (cluster_size v)).
  { destruct Hm as [_ Hv]. rewrite <- (cluster_bytes_eq v Hw). by rewrite Hv. }
  assert (0 < Z.of_nat (cluster_size v) <= 65536) by (unfold cluster_size; pose proof (fw_spc _ Hw); lia).
  rewrite Hcb, u32_id, Hmod by lia. cbv zeta.
  set (o := s32 (u32 (u32 (vol_cluster_to_sector v0 c * vol_sector_size v0) + 0))).
  set (v1 := mk_fatst (fdev v) o (fat_pos v) (dir_pos v) (fdisk v) (header v) (root_directory v)).
  assert (Hseek : vol_data (diskstreamer_seek o) v = Ret (0, v1)) by reflexivity.
  step (on_vol_step _ s d v0 v root 0 v1 Hm Hseek). change (0 <? 0) with false. cbv iota.
  assert (Hwr : vol_data (diskstreamer_write buf (s32 0)) v1 = Ret (0, v1)) by reflexivity.
  step (on_vol_step _ (after s d root v1) d v1 v1 root 0 v1 (after_mounted s d v1 root) Hwr).
  change (0 <? 0) with false. cbv iota. rewrite Z.sub_0_r, u32_id, s32_id by lia. cbn [write_clusters].
  rewrite (proj2 (Z.leb_gt size 0)) by lia.
  assert (Hw1 : fat_wf v1) by (destruct Hw; by split).
  destruct (get_fat_entry_spec v1 c Hw1 Hc) as (v2 & Hg & Hs2).
  pose proof (fat_at_range v c Hw Hc) as Hr.
  assert (Hent : vol_entry c v1 = Ret (fat_at v c, v2)).
  { cbn [vol_entry fat16_volume]. step Hg. change (fat_at v1 c) with (fat_at v c). by rewrite u16_id. }
  set (s2 := after (after s d root v1) d root v1).
  step (on_vol_step _ s2 d v1 v1 root (fat_at v c) v2 (after_mounted _ d v1 root) Hent).
  change vol_end_mark with 0xFFF8. rewrite (proj2 (Z.leb_le _ _)) by lia.
  eexists. split; [reflexivity|]. split; [done|]. intros p Hp'. cbn.
  rewrite (sd_bytes _ _ Hs2) by done. cbn. by destruct Hm as [_ ->].
Qed.

(** A disk whose boot sector does not have the FAT16 signature 0x29 at
    offset 38 is refused: [fat16_resolve] returns -ENOTUS with a null
    [fs_private], releases the private structure and its own stream, and leaves
    the disk's bytes alone; but the three streams of the private structure are
    never freed, so each refusal costs the heap three allocations. *)
Theorem resolve_refuses_and_leaks {H} `{AllocatorOk H} {D} `{BlockDevOk D} ds fs fuel (d : disk) dk
    (s : fdst H D (Fat16.fatst D)) :
  alloc_ok (fheap s) -> (5 <= room (fheap s))%nat -> disk_get ds (id d) = Ret (Some dk) ->
  bd_ok (fs_dev (snd s)) -> 512 < disk_size (D := D) -> byte_at (fs_dev (snd s)) 38 <> 0x29 ->
  exists d' s' leaked, fat16_resolve ds fs fuel d s = Ret ((- ENOTUS, d'), s') /\ fs_private d' = 0 /\
    size (leaked : gset Z) = 3%nat /\ leaked ## flive s /\ flive s' = leaked ∪ flive s /\
    forall p, 0 <= p < disk_size (D := D) -> byte_at (fs_dev (snd s')) p = byte_at (fs_dev (snd s)) p.
Proof.
  intros Hok Hr Hd Hdev Hsz Hsig. unfold fat16_resolve.
  destruct (fkz_room sizeof_fat_private s Hok) as (priv & h1 & E1 & Hp0 & Hpm & Hn1 & Hok1 & Hl1 & Hr1);
    [unfold sizeof_fat_private; lia|lia|].
  step E1. rewrite (proj2 (Z.eqb_neq priv 0)) by done.
  destruct (init_private_ok ds (with_heap h1 s) d dk priv) as (p1 & p2 & p3 & h2 & E2 & Hok2 & Hl2 & Hdis & Hsize & Hr2);
    [done|change (3 <= room h1)%nat; lia|done|].
  change (flive (with_heap h1 s)) with (live_ptrs h1) in *. change (fheap (with_heap h1 s)) with h1 in *.
  rewrite Hl1 in Hl2, Hdis. cbv zeta in E2. step E2. match goal with |- context [(new_stream ds ?d1 ≫= _) ?x] => set (d2 := d1); set (s2 := x) end.
  destruct (new_stream_ok ds s2 d2 dk) as (st & h3 & E3 & Hst & Hn3 & Hok3 & Hl3 & Hr3);
    [done|change (0 < room h2)%nat; lia|done|].
  step E3. rewrite (proj2 (Z.eqb_neq st 0)) by done.
  change (flive s2) with (live_ptrs h2) in *. rewrite Hl2 in Hl3, Hn3.
  destruct (on_raw_read (with_heap h3 s2) header_size) as (dev' & E4 & Hdev' & Hsame); [exact Hdev|unfold header_size; lia|].
  set (s4 := (_, mk_fatfs dev' _ _ _ _ _)) in E4. set (b := slice _ _ _) in E4.
  assert (Hb : signature (parse_header b) <> 0x29).
  { assert (signature (parse_header b) = byte_at (fs_dev (snd s)) 38) as ->; [|done].
    cbn [parse_header signature]. unfold field. subst b. unfold header_size. change (Z.to_nat 62) with 62%nat.
    rewrite slice_drop by lia. rewrite slice_take by lia. change (fs_dev (snd (with_heap h3 s2))) with (fs_dev (snd s)).
    unfold slice. change (seqZ 0 (Z.of_nat 1)) with [0]. cbn [fmap list_fmap le_combine].
    change (0 + Z.of_nat 38 + 0) with 38. lia. }
  set (v1 := mk_fatst (fs_dev (snd s)) 0 0 0 d (parse_header b) (mk_dir [] 0 0 0)).
  set (s5 := (fst s4, set_privs (<[priv := (v1, priv + ROOT_OFFSET)]> (privs (snd s4))) (snd s4))).
  assert (E5 : upd_priv priv (fun '(v, root) => (mk_fatst (fdev v) (cluster_pos v) (fat_pos v) (dir_pos v) (fdisk v)
                 (parse_header b) (root_directory v), root)) s4 = Ret (tt, s5)).
  { unfold upd_priv. rewrite (bind_Ret _ _ _ (mk_fatst (fs_dev (snd s)) 0 0 0 d zero_header (mk_dir [] 0 0 0), priv + ROOT_OFFSET) s4).
    - reflexivity.
    - apply look_Some. cbn. by rewrite lookup_insert_eq. }
  match goal with |- context [(?c ≫= _) (with_heap h3 s2)] => assert (E6 : c (with_heap h3 s2) = Ret (- ENOTUS, s5)) end.
  { step E4. cbn [Z.eqb negb SERPAEOS_ALL_OK]. step E5. rewrite (proj2 (Z.eqb_neq _ 0x29)) by done. reflexivity. }
  step E6. cbn [negb].
  assert (Hst5 : st ∈ live_ptrs (ppalloc (fst s5))) by (cbn; rewrite Hl3; apply elem_of_union_l; by apply elem_of_singleton).
  destruct (kf_spec st (ppalloc (fst s5)) Hok3 Hst5) as (h6 & Hk6 & Hok6 & Hl6).
  assert (E7 : on_pp (ppk (diskstreamer_close st)) s5 = Ret (tt, with_heap h6 s5)).
  { unfold on_pp, ppk, diskstreamer_close. by rewrite Hk6. }
  step E7. change (- ENOTUS <? 0) with true. cbv iota.
  change (live_ptrs (ppalloc (fst s5))) with (live_ptrs h3) in Hl6. rewrite Hl3 in Hl6.
  destruct (fkf_ok priv (with_heap h6 s5)) as (h8 & E8 & Hok8 & Hl8); [done| |].
  { change (flive (with_heap h6 s5)) with (live_ptrs h6). rewrite Hl6. clear -Hn3 Hdis. set_solver. }
  step E8. erewrite bind_Ret by reflexivity. eexists _, _, {[p1; p2; p3]}. split; [reflexivity|].
  split; [done|]. split; [done|]. split; [clear -Hdis; set_solver|]. split.
  - match goal with |- flive ?x = _ => change (flive x) with (live_ptrs h8) end. rewrite Hl8. change (flive (with_heap h6 s5)) with (live_ptrs h6). rewrite Hl6.
    clear -Hn1 Hn3 Hdis. set_solver.
  - intros p Hp. cbn. unfold byte_at. rewrite Hsame; [done|]. unfold disk_size in Hp. zlia.
Qed.

(** ** A mounted FAT16 disk for the witnesses *)

(** Blocks of a heap, one after the other. *)
Fixpoint kz_many {H} `{Allocator H} (n : nat) : cmd H (list Z) :=
  match n with
  | O => mret []
  | S n => p ← kz 100; l ← kz_many n; mret (p :: l)
  end.

Lemma kz_many_ok {H} `{AllocatorOk H} n (h h' : H) l :
  alloc_ok h -> kz_many n h = Ret (l, h') -> Forall (fun p => p <> 0) l ->
  alloc_ok h' /\ live_ptrs h ⊆ live_ptrs h' /\ forall p, p ∈ l -> p ∈ live_ptrs h'.
Proof.
  revert h l. induction n as [|n IH]; intros h l Hok; cbn [kz_many].
  { intros [= <- <-] _. split_and!; [done|done|]. by intros p ?%elem_of_nil. }
  unfold mbind, cmd_bind. destruct (kz 100 h) as [[p h1]| | |] eqn:E1; try done. cbn [mbind outcome_bind].
  destruct (kz_many n h1) as [[l1 h2]| | |] eqn:E2; try done. cbn. intros [= <- <-] Hl.
  apply Forall_cons in Hl as [Hp Hl].
  destruct (kz_spec 100 h p h1 Hok ltac:(lia) E1) as (Hok1 & [[? _]|(_ & _ & _ & Hl1)]); [done|].
  destruct (IH h1 l1 Hok1 E2 Hl) as (Hok2 & Hsub & Hin). split_and!; [done|set_solver|].
  intros q. rewrite elem_of_cons. intros [->|Hq]; [apply Hsub; set_solver|by apply Hin].
Qed.

Definition block (k : Z) : Z := 0x1000000 + k * 4096.
Definition demo_heap13 : kmem :=
  match kz_many 13 demo_kmem with Ret (_, k) => k | _ => demo_kmem end.

Lemma demo_heap13_ok : alloc_ok demo_heap13 /\ forall k, 0 <= k < 13 -> block k ∈ live_ptrs demo_heap13.
Proof.
  assert (E : kz_many 13 demo_kmem = Ret (block <$> seqZ 0 13, demo_heap13)) by (vm_compute; reflexivity).
  destruct (kz_many_ok 13 demo_kmem demo_heap13 _ demo_kmem_ok E) as (Hok & _ & Hin).
  { apply (bool_decide_unpack _). vm_compute. exact I. }
  split; [exact Hok|]. intros k Hk. apply Hin. apply list_elem_of_fmap. exists k. split; [done|].
  apply elem_of_seqZ. lia.
Qed.

Lemma demo_heap13_room : (1000 <= room demo_heap13)%nat.
Proof. apply Nat.leb_le. vm_compute. reflexivity. Qed.

Lemma room_below (n m : nat) : (1000 <= m)%nat -> (n <? 1000)%nat = true -> (n < m)%nat.
Proof. intros H Hn. apply Nat.ltb_lt in Hn. lia. Qed.

(** The file A.TXT in cluster 2, and two entries of which the first is deleted. *)
Definition demo_entry (c : Z) (cl : Z) : named_entry :=
  mk_named [c] [84; 88; 84] ([0; 0; 0; 0; 0; 0; 0; 0; 0; 0; 0; 0; 0; 0; 0] ++ [cl; 0] ++ [5; 0; 0; 0]).
Definition entry_A : named_entry := demo_entry 65 2.
Definition sector_of (es : list named_entry) : list Z :=
  concat (entry_bytes <$> es) ++ replicate (512 - 32 * length es) 0.
Definition demo_table16 : list Z := [0xF8; 0xFF; 0xFF; 0xFF; 0xFF; 0xFF] ++ replicate 506 0.
Definition demo_files_image : list (list Z) :=
  [replicate 512 0; demo_table16; sector_of [entry_A]; replicate 512 7; sector_of [demo_entry 0xE5 5; demo_entry 66 6]]
  ++ replicate 59 (replicate 512 0).
Definition demo_ata : ata_dev 64 := mk_ata 0 0 0 0 0 [] 0 [] 0 demo_files_image.
Definition demo_volume : Fat16.fatst (ata_dev 64) :=
  mk_fatst demo_ata 0 0 0 (mk_disk 0 512 PATA 0 100 (block 0) MASTER PRIMARY 0)
    (mk_header 1 1 1 16 1 50 0x29) (mk_dir [] 1 2 3).
Definition demo_disk : disk := mk_disk 0 512 PATA 0 100 (block 0) MASTER PRIMARY 0.

Definition str108 (l : list Z) : list Z := l ++ replicate (108 - length l) 0.
Definition a_txt : list Z := [97; 46; 116; 120; 116].

(** The disk is mounted at block 0; "a.txt" is open with the descriptor in
    block 4; a directory without entries is in block 8. *)
Definition demo_files : fdst kmem (ata_dev 64) (Fat16.fatst (ata_dev 64)) :=
  (mk_pp demo_heap13 {[block 3 := str108 a_txt; block 11 := str108 a_txt]}
     {[block 2 := (block 3, 0); block 10 := (block 11, block 2)]} ∅,
   mk_fatfs demo_ata {[block 0 := (demo_volume, block 0 + ROOT_OFFSET)]}
     {[block 0 + ROOT_OFFSET := mk_dobj (block 1) 1 2; block 8 := mk_dobj (block 9) 0 0]}
     {[block 1 := sector_of [entry_A]; block 6 := entry_bytes entry_A]}
     {[block 5 := mk_fitem (block 6) FAT_ITEM_TYPE_FILE; block 7 := mk_fitem (block 8) FAT_ITEM_TYPE_DIRECTORY]}
     {[block 4 := mk_ffd (block 2) (block 5) 0 1]}).

Lemma demo_volume_wf : fat_wf demo_volume.
Proof.
  split; [|reflexivity|vm_compute; split; discriminate|vm_compute; discriminate
    |vm_compute; split; discriminate|vm_compute; reflexivity].
  split; [reflexivity|]. apply (bool_decide_unpack _). vm_compute. exact I.
Qed.

Lemma demo_mounted : mounted demo_files demo_disk demo_volume demo_volume (block 0 + ROOT_OFFSET).
Proof. split; reflexivity. Qed.

Lemma a_txt_cstr : cstr (str108 a_txt) a_txt.
Proof. split; [apply (bool_decide_unpack _); vm_compute; exact I|by exists (replicate 102 0)]. Qed.

Lemma demo_path : path_at demo_files (block 2) [(block 2, block 3, a_txt)].
Proof.
  split; [done|]. split; [done|]. exists 0, (str108 a_txt). split_and!; try reflexivity.
  all: apply a_txt_cstr.
Qed.

Lemma demo_path2 :
  path_at demo_files (block 10) [(block 10, block 11, a_txt); (block 2, block 3, a_txt)].
Proof.
  split; [done|]. split; [done|]. exists (block 2), (str108 a_txt). split_and!; try reflexivity; apply a_txt_cstr || apply demo_path.
Qed.

Lemma demo_entry_ok c cl : name_char c -> entry_ok (demo_entry c cl).
Proof. intros Hc. split_and!; [constructor; [done|constructor]|repeat constructor; lia|simpl; lia|simpl; lia|reflexivity]. Qed.

Lemma a_txt_bytes : bytes a_txt.
Proof. apply (bool_decide_unpack _). vm_compute. exact I. Qed.


Lemma root_lookup_correct_witness :
  exists i p s', fat_get_directory_entry 10 demo_disk (block 2) demo_files = Ret (i, s') /\
    fitems (snd s') !! i = Some (mk_fitem p FAT_ITEM_TYPE_FILE) /\ bufs (snd s') !! p = Some (entry_bytes entry_A).
Proof.
  pose proof (root_lookup_correct 10 demo_disk (block 2) (block 2) (block 3) a_txt demo_volume (block 0 + ROOT_OFFSET)
                [entry_A] demo_files (proj1 demo_heap13_ok)) as E.
  destruct E as (i & p & s' & E1 & E2 & E3 & _).
  - eapply room_below; [exact demo_heap13_room|vm_compute; reflexivity].
  - reflexivity.
  - split.
    + exists (block 1), 2. split; [reflexivity|]. intros _. exists (replicate 480 0). reflexivity.
    + constructor; [apply demo_entry_ok; unfold name_char; lia|constructor].
  - exact demo_path.
  - exact a_txt_bytes.
  - simpl. lia.
  - reflexivity.
  - reflexivity.
  - exists i, p, s'. split; [exact E1|]. split; [exact E2|exact E3].
Defined.

Lemma missing_middle_null_witness :
  directory_entry_loop 2 10 demo_disk (block 7) (block 10) demo_files = Oob.
Proof.
  destruct demo_heap13_ok as [Hok Hl].
  apply (missing_middle_null 0 10 demo_disk (block 7) (block 8) (block 9) 0 0 [] (block 10) (block 10) (block 11) a_txt
           (block 2) (block 3) a_txt [] demo_files Hok).
  - reflexivity.
  - reflexivity.
  - discriminate.
  - discriminate.
  - apply Hl. lia.
  - apply Hl. lia.
  - apply Hl. lia.
  - apply (bool_decide_unpack _). vm_compute. exact I.
  - split; [|constructor]. exists (block 9), 0. split; [reflexivity|]. intros Hne. destruct (Hne eq_refl).
  - exact demo_path2.
  - exact a_txt_bytes.
  - simpl. lia.
  - reflexivity.
  - reflexivity.
Defined.

Lemma fat_close_releases_witness :
  exists s', fat_close (block 4) demo_files = Ret (0, s') /\
    ffds (snd s') = delete (block 4) (delete (block 5) (delete (block 6) (ffds (snd demo_files)))).
Proof.
  destruct demo_heap13_ok as [Hok Hl].
  destruct (fat_close_releases (block 4) (block 2) (block 5) (block 6) (entry_bytes entry_A) [(block 2, block 3, a_txt)]
              demo_files Hok) as (s' & E & _ & _ & Hf & _).
  - eapply room_below; [exact demo_heap13_room|vm_compute; reflexivity].
  - split; [by exists 0, 1|reflexivity|reflexivity|split_and!; apply Hl; lia|split_and!; discriminate].
  - exact demo_path.
  - apply (bool_decide_unpack _). vm_compute. exact I.
  - intros x Hx. change (addrs _) with [block 2; block 3] in Hx.
    apply elem_of_cons in Hx as [->|Hx]; [apply Hl; lia|]. apply list_elem_of_singleton in Hx as ->. apply Hl. lia.
  - apply (bool_decide_unpack _). vm_compute. exact I.
  - apply (bool_decide_unpack _). vm_compute. exact I.
  - apply (bool_decide_unpack _). vm_compute. exact I.
  - exists s'. split; [exact E|exact Hf].
Defined.

Lemma demo_disk_dir : disk_dir demo_files (block 0 + ROOT_OFFSET) (block 1) 2 ([] ++ entry_A :: []).
Proof.
  split; [reflexivity|exists (replicate 480 0); reflexivity|vm_compute; split; discriminate].
Qed.

Lemma root_update_releases_volume_witness :
  exists s', fat_write_directory_entry 10 demo_disk (block 2) (entry_bytes entry_A) demo_files = Ret (32, s') /\
    fat_get_directory_entry 10 demo_disk (block 2) s' = Oob.
Proof.
  destruct demo_heap13_ok as [Hok Hl].
  destruct (root_update_releases_volume 10 demo_disk demo_volume demo_volume (block 1) 2 [] entry_A [] (block 2) (block 2)
              (block 3) a_txt (entry_bytes entry_A) demo_files Hok) as (s' & E & _ & _ & Hno).
  - eapply room_below; [exact demo_heap13_room|vm_compute; reflexivity].
  - exact demo_mounted.
  - exact demo_volume_wf.
  - exact demo_disk_dir.
  - reflexivity.
  - reflexivity.
  - apply Hl. lia.
  - apply Hl. lia.
  - discriminate.
  - discriminate.
  - exact demo_path.
  - exact a_txt_bytes.
  - constructor.
  - apply demo_entry_ok. unfold name_char. lia.
  - simpl. lia.
  - reflexivity.
  - reflexivity.
  - apply (bool_decide_unpack _). vm_compute. exact I.
  - exists s'. split; [exact E|]. apply Hno.
Defined.

Lemma deleted_entries_hide_last_witness :
  exists v', fat16_get_total_items_for_directory 10 4 demo_volume = Ret (1, v') /\
    find_item_loop (V := Fat16.fatst (ata_dev 64)) 1
      (slice (fdev demo_volume) (4 * 512) 64) (replicate 108 0) [98; 46; 116; 120; 116; 0] 0 = Ret None.
Proof.
  destruct (deleted_entries_hide_last 10 demo_volume 4 [demo_entry 0xE5 5; demo_entry 66 6] [98; 46; 116; 120; 116; 0]
              [98; 46; 116; 120; 116] demo_volume_wf) as (v' & E1 & _ & E2).
  - split.
    + repeat constructor.
    + repeat constructor; discriminate.
    + vm_compute. split; [discriminate|reflexivity].
    + vm_compute. reflexivity.
    + vm_compute. reflexivity.
  - constructor; [|constructor; [|constructor]]; apply demo_entry_ok; unfold name_char; lia.
  - simpl. lia.
  - split; [apply (bool_decide_unpack _); vm_compute; exact I|by exists []].
  - apply (bool_decide_unpack _). vm_compute. exact I.
  - simpl. lia.
  - exists v'. split; [exact E1|]. exact E2.
Defined.

Definition demo_fat_vfs : vfs kmem (fatfs (ata_dev 64) (Fat16.fatst (ata_dev 64))) :=
  mk_vfs demo_files (replicate 12 0) (<[0%nat := block 12]> (replicate 512 0)) {[block 12 := mk_fd 1 100 (block 4) 0 1]}
    (replicate 16 demo_disk).

Lemma demo_fat_table : fd_table demo_fat_vfs {[1 := mk_fd 1 100 (block 4) 0 1]}.
Proof.
  destruct demo_heap13_ok as [Hok Hl]. split; [exact Hok|reflexivity| |].
  - intros fd d [<- _]%lookup_singleton_Some. lia.
  - intros i p Hi. change (file_descriptors demo_fat_vfs) with (<[0%nat := block 12]> (replicate 512 0)) in Hi.
    destruct i as [|i].
    + injection Hi as <-. right. split; [discriminate|]. exists (mk_fd 1 100 (block 4) 0 1).
      split_and!; [reflexivity|reflexivity|reflexivity|apply Hl; lia].
    + left. rewrite list_lookup_insert_ne in Hi by lia. apply lookup_replicate in Hi as [-> _].
      split; [done|]. apply lookup_singleton_None. lia.
Qed.

Lemma fread_fat16_correct_witness :
  exists s', fread {[100 := fat16_fs [] 100 10 (mk_date 0 0 0 1 1 2020)]} 1 5 demo_fat_vfs = Ret ((0, [7; 7; 7; 7; 7]), s').
Proof.
  destruct (fread_fat16_correct {[100 := fat16_fs [] 100 10 (mk_date 0 0 0 1 1 2020)]} [] 10 (mk_date 0 0 0 1 1 2020)
              demo_fat_vfs {[1 := mk_fd 1 100 (block 4) 0 1]} 1 (mk_fd 1 100 (block 4) 0 1) demo_disk demo_volume
              demo_volume (block 0 + ROOT_OFFSET) (block 2) (block 5) (block 6) (entry_bytes entry_A) 0 1 [2] 5)
    as (s' & E & _).
  - reflexivity.
  - exact demo_fat_table.
  - reflexivity.
  - lia.
  - reflexivity.
  - exact demo_mounted.
  - exact demo_volume_wf.
  - reflexivity.
  - reflexivity.
  - reflexivity.
  - vm_compute. repeat split; discriminate.
  - repeat constructor; vm_compute; discriminate.
  - repeat constructor; vm_compute; (discriminate || reflexivity).
  - lia.
  - lia.
  - vm_compute. discriminate.
  - lia.
  - left. vm_compute. reflexivity.
  - exists s'. exact E.
Defined.

Lemma write_at_cluster_start_lost_witness :
  exists s', write_data 1 demo_disk 2 0 [1; 2; 3] 3 demo_files = Ret (0, s').
Proof.
  destruct (write_at_cluster_start_lost 0 demo_disk demo_volume demo_volume (block 0 + ROOT_OFFSET) 2 0 [1; 2; 3] 3
              demo_files demo_mounted demo_volume_wf) as (s' & E & _).
  - vm_compute. split; [discriminate|reflexivity].
  - vm_compute. discriminate.
  - lia.
  - reflexivity.
  - lia.
  - exists s'. exact E.
Defined.

Lemma resolve_refuses_and_leaks_witness :
  exists d' s' leaked, fat16_resolve (replicate 16 demo_disk) 100 10 demo_disk demo_files = Ret ((- ENOTUS, d'), s') /\
    size (leaked : gset Z) = 3%nat /\ flive s' = leaked ∪ flive demo_files.
Proof.
  destruct (resolve_refuses_and_leaks (replicate 16 demo_disk) 100 10 demo_disk demo_disk demo_files (proj1 demo_heap13_ok))
    as (d' & s' & leaked & E & _ & Hsz & _ & Hl & _).
  - eapply room_below; [exact demo_heap13_room|vm_compute; reflexivity].
  - reflexivity.
  - split; [reflexivity|]. apply (bool_decide_unpack _). vm_compute. exact I.
  - vm_compute. reflexivity.
  - vm_compute. discriminate.
  - exists d', s', leaked. split; [exact E|]. split; [exact Hsz|exact Hl].
Defined.
