(* ===== verification/Clock.v ===== *)
(** * The real-time clock (src/src/time/time.c)

    The clock chip is read through two ports, one to select a register and one
    for its value ([Ports] of [Disk.v]).  The reference chip below changes all
    its registers at one moment, as the chip does once a second, which may fall
    between any two of the reads. *)
From S2P Require Import Prelude Config Disk Vfs.

Definition cmos_address : Z := 0x70.
Definition cmos_data : Z := 0x71.
Definition CENTRAL : Z := -6.
Definition RELEASE_YEAR : Z := 2023.

(** The chip, and the globals of time.c; [now] is a [date_time] and its
    century. *)
Record clock (D : Type) := mk_clock {
  chip : D;
  now : date_time;
  now_century : Z;
  century_register : Z;
  TIMEZONE : Z
}.
Arguments mk_clock {D}. Arguments chip {D}. Arguments now {D}. Arguments now_century {D}.
Arguments century_register {D}. Arguments TIMEZONE {D}.

(** As the program starts. *)
Definition clock_init {D} (c : D) : clock D := mk_clock c no_date 0 0 CENTRAL.

Definition set_now {D} (d : date_time) (c : clock D) : clock D :=
  mk_clock (chip c) d (now_century c) (century_register c) (TIMEZONE c).

Definition same_reading (a b : date_time) : bool :=
  (seconds a =? seconds b) && (minutes a =? minutes b) && (hours a =? hours b) && (day a =? day b)
  && (month a =? month b) && (year a =? year b).

Section clock.
Context {D : Type} `{Ports D}.

Definition on_chip {A} (c : cmd D A) : cmd (clock D) A := fun s =>
  '(a, d) ← c (chip s);
  Ret (a, mk_clock d (now s) (now_century s) (century_register s) (TIMEZONE s)).

Definition cmod_get_update_in_progress_flag : cmd D Z :=
  outb cmos_address 0x0A;;
  v ← inb cmos_data;
  mret (Z.land v 0x80).

Definition cmos_get_RTC_reg (reg : Z) : cmd D Z :=
  outb cmos_address reg;;
  inb cmos_data.

(** [while (cmod_get_update_in_progress_flag());] *)
Fixpoint wait_update (fuel : nat) : cmd D unit :=
  match fuel with
  | O => liftO OutOfFuel
  | S fuel =>
      f ← cmod_get_update_in_progress_flag;
      if c_true f then wait_update fuel else mret tt
  end.

(** The six registers; the result is [century], which is read only when there is a register for it. *)
Definition read_registers (century : Z) : cmd (clock D) Z :=
  s ← getS;
  sec ← on_chip (cmos_get_RTC_reg 0x0);
  min ← on_chip (cmos_get_RTC_reg 0x2);
  hour ← on_chip (cmos_get_RTC_reg 0x4);
  d ← on_chip (cmos_get_RTC_reg 0x7);
  m ← on_chip (cmos_get_RTC_reg 0x8);
  y ← on_chip (cmos_get_RTC_reg 0x9);
  modifyS (set_now (mk_date sec min (u8 (hour + TIMEZONE s)) d m y));;
  if negb (century_register s =? 0) then on_chip (cmos_get_RTC_reg (century_register s)) else mret century.

(** The do-while loop: until a reading is the same as the one before. *)
Fixpoint read_until_stable (fuel : nat) (wait : nat) (century : Z) : cmd (clock D) unit :=
  match fuel with
  | O => liftO OutOfFuel
  | S fuel =>
      last ← getS;
      on_chip (wait_update wait);;
      century ← read_registers century;
      s ← getS;
      if negb (same_reading (now last) (now s)) || negb (now_century last =? century)
      then read_until_stable fuel wait century
      else mret tt
  end.

(** What follows the loop, with the value of register B. *)
Definition bcd (v : Z) : Z := Z.land v 0xF + v / 16 * 10.

Definition decode (registerB : Z) (s : clock D) : clock D :=
  let n := now s in
  if Z.land registerB 0x4 =? 0 then
    mk_clock (chip s)
      (mk_date (u8 (bcd (seconds n))) (u8 (bcd (minutes n)))
         (u8 (Z.lor (Z.land (hours n) 0x0F + Z.land (hours n) 0x70 / 16 * 10) (Z.land (hours n) 0x80) + TIMEZONE s))
         (u8 (bcd (day n))) (u8 (bcd (month n))) (bcd (year n)))
      (if negb (century_register s =? 0) then u8 (bcd (now_century s)) else now_century s)
      (century_register s) (TIMEZONE s)
  else s.

Definition twelve_hours (registerB : Z) (s : clock D) : clock D :=
  let n := now s in
  if (Z.land registerB 0x02 =? 0) && c_true (Z.land (hours n) 0x80) then
    set_now (mk_date (seconds n) (minutes n) (u8 ((Z.land (hours n) 0x7F + 12) mod 24 + TIMEZONE s))
               (day n) (month n) (year n)) s
  else s.

Definition full_year (s : clock D) : clock D :=
  let n := now s in
  let y :=
    if negb (century_register s =? 0) then u32 (year n + now_century s * 100)
    else
      let y := u32 (year n + RELEASE_YEAR / 100 * 100) in
      if y <? RELEASE_YEAR then u32 (y + 100) else y in
  set_now (mk_date (seconds n) (minutes n) (hours n) (day n) (month n) y) s.

(** The local [century] is not initialised: its first value is an argument. *)
Definition cmos_read_RTC (fuel wait : nat) (century : Z) : cmd (clock D) unit :=
  on_chip (wait_update wait);;
  century ← read_registers century;
  read_until_stable fuel wait century;;
  registerB ← on_chip (cmos_get_RTC_reg 0xB);
  modifyS (fun s => full_year (twelve_hours registerB (decode registerB s))).

Definition get_current_time (s : clock D) : date_time := now s.
End clock.

(** ** A reference chip

    Registers have the values [before] until the [tick]th read and [after] from
    then on; the flag of register A is up during the [uip] reads before it. *)
Record rtc := mk_rtc { sel : Z; clk : nat; tick : nat; uip : nat; before : Z -> Z; after : Z -> Z }.

Definition rtc_value (d : rtc) (c : nat) (r : Z) : Z :=
  if r =? 0x0A then (if bool_decide (tick d - uip d <= c < tick d)%nat then 0x80 else 0)
  else if bool_decide (c < tick d)%nat then before d r else after d r.

Definition at_clk (c : nat) (r : Z) (d : rtc) : rtc := mk_rtc r c (tick d) (uip d) (before d) (after d).

#[export] Instance rtc_ports : Ports rtc := {|
  inb port d := if port =? cmos_data then Ret (rtc_value d (clk d) (sel d), at_clk (S (clk d)) (sel d) d) else Ret (0, d);
  inw port d := Ret (0, d);
  outb port v d := Ret (tt, if port =? cmos_address then at_clk (clk d) v d else d);
  outw port v d := Ret (tt, d)
|}.

(** The registers all at one time, with the hour as the driver stores it. *)
Definition snapshot (tz : Z) (f : Z -> Z) : date_time :=
  mk_date (f 0) (f 2) (u8 (f 4 + tz)) (f 7) (f 8) (f 9).

Definition set_chip (d : rtc) (s : clock rtc) : clock rtc :=
  mk_clock d (now s) (now_century s) (century_register s) (TIMEZONE s).

Lemma get_reg_spec r (d : rtc) : cmos_get_RTC_reg r d = Ret (rtc_value d (clk d) r, at_clk (S (clk d)) r d).
Proof. done. Qed.

Lemma on_chip_spec {A} (c : cmd rtc A) (s : clock rtc) a d :
  c (chip s) = Ret (a, d) -> on_chip c s = Ret (a, set_chip d s).
Proof. unfold on_chip. by intros ->. Qed.

(** A reading from time [c] on. *)
Definition reading (tz : Z) (d : rtc) (c : nat) : date_time :=
  mk_date (rtc_value d c 0) (rtc_value d (1 + c) 2) (u8 (rtc_value d (2 + c) 4 + tz)) (rtc_value d (3 + c) 7)
    (rtc_value d (4 + c) 8) (rtc_value d (5 + c) 9).

Lemma read_registers_spec (s : clock rtc) century :
  century_register s = 0 ->
  exists r, read_registers century s =
    Ret (century, set_now (reading (TIMEZONE s) (chip s) (clk (chip s)))
                    (set_chip (at_clk (6 + clk (chip s)) r (chip s)) s)).
Proof. intros Hc. exists 9. destruct s as [d n c cr tz]. simpl in Hc. subst cr. reflexivity. Qed.

Lemma reading_before tz d c : (6 + c <= tick d)%nat -> reading tz d c = snapshot tz (before d).
Proof. intros Hc. unfold reading, snapshot, rtc_value. simpl. by rewrite !bool_decide_eq_true_2 by lia. Qed.

Lemma reading_after tz d c : (tick d <= c)%nat -> reading tz d c = snapshot tz (after d).
Proof. intros Hc. unfold reading, snapshot, rtc_value. simpl. by rewrite !bool_decide_eq_false_2 by lia. Qed.

Lemma at_clk_twice c r c' r' d : at_clk c r (at_clk c' r' d) = at_clk c r d.
Proof. done. Qed.

(** The flag is up for [uip] reads at most. *)
Lemma wait_update_spec n (d : rtc) :
  ((tick d - clk d) `min` uip d < n)%nat ->
  exists c r, wait_update n d = Ret (tt, at_clk c r d) /\ (clk d < c)%nat.
Proof.
  revert d. induction n as [|n IH]; intros d Hn; [lia|]. cbn [wait_update].
  assert (E : cmod_get_update_in_progress_flag d =
    Ret (Z.land (rtc_value d (clk d) 0x0A) 0x80, at_clk (S (clk d)) 0x0A d)) by done.
  step E. unfold rtc_value. simpl (10 =? 10). cbv iota. case_bool_decide as Ht.
  - destruct (IH (at_clk (S (clk d)) 0x0A d)) as (c & r & Hr & Hc); [simpl; lia|].
    simpl in Hc. exists c, r. split; [|lia]. exact Hr.
  - exists (S (clk d)), 0x0A. split; [done|lia].
Qed.

Lemma same_reading_spec a b : same_reading a b = true <-> a = b.
Proof.
  split; [|intros ->; unfold same_reading; by rewrite !Z.eqb_refl].
  unfold same_reading. intros H. breflect. destruct a, b. simpl in *. by subst.
Qed.

(** Two readings in a row that agree are not torn. *)
Lemma stable_reading tz d c c1 :
  (6 + c <= c1)%nat -> reading tz d c1 = reading tz d c ->
  reading tz d c1 = snapshot tz (before d) \/ reading tz d c1 = snapshot tz (after d).
Proof.
  intros Hc E. destruct (decide (tick d <= c1)%nat).
  - right. by apply reading_after.
  - left. rewrite E. apply reading_before. lia.
Qed.

(** A state between two readings: the last one started at [c]. *)
Definition read_at (tz : Z) (d : rtc) (cen : Z) (c : nat) (s : clock rtc) : Prop :=
  exists k r, (6 + c <= k)%nat /\ s = mk_clock (at_clk k r d) (reading tz d c) cen 0 tz.

Lemma loop_turn wait tz d cen c s :
  (uip d < wait)%nat -> read_at tz d cen c s ->
  exists c1 s1, (6 + c < c1)%nat /\ read_at tz d cen c1 s1 /\
    forall fuel century, read_until_stable (S fuel) wait century s =
      if negb (same_reading (reading tz d c) (reading tz d c1)) || negb (cen =? century)
      then read_until_stable fuel wait century s1 else Ret (tt, s1).
Proof.
  intros Hw (k & r & Hk & ->).
  destruct (wait_update_spec wait (at_clk k r d)) as (c1 & r1 & Hwt & Hc1); [simpl; lia|].
  apply (on_chip_spec _ (mk_clock (at_clk k r d) (reading tz d c) cen 0 tz)) in Hwt. simpl in Hc1.
  set (s0 := set_chip _ _) in Hwt.
  eexists c1, _. split; [lia|]. split; [exists (6 + c1)%nat, 9; split; [lia|reflexivity]|].
  intros fuel century. cbn [read_until_stable]. rewrite bind_getS. step Hwt.
  assert (E : read_registers century s0 =
    Ret (century, mk_clock (at_clk (6 + c1) 9 d) (reading tz d c1) cen 0 tz)) by reflexivity.
  step E. rewrite bind_getS. simpl now. simpl now_century. by destruct (_ || _).
Qed.

#[local] Arguments read_until_stable : simpl never.

Lemma read_until_stable_spec wait tz d cen c s :
  (uip d < wait)%nat -> read_at tz d cen c s ->
  exists c1 s1, read_until_stable 3 wait cen s = Ret (tt, s1) /\ read_at tz d cen c1 s1 /\
    (reading tz d c1 = snapshot tz (before d) \/ reading tz d c1 = snapshot tz (after d)).
Proof.
  intros Hw Hs.
  destruct (loop_turn _ _ _ _ _ _ Hw Hs) as (c1 & s1 & Hc1 & Hs1 & E1).
  destruct (loop_turn _ _ _ _ _ _ Hw Hs1) as (c2 & s2 & Hc2 & Hs2 & E2).
  destruct (loop_turn _ _ _ _ _ _ Hw Hs2) as (c3 & s3 & Hc3 & Hs3 & E3).
  rewrite E1, Z.eqb_refl, orb_false_r.
  destruct (same_reading (reading tz d c) (reading tz d c1)) eqn:B1; simpl.
  { apply same_reading_spec in B1. exists c1, s1. split; [done|]. split; [done|].
    apply (stable_reading _ _ c); [lia|done]. }
  rewrite E2, Z.eqb_refl, orb_false_r.
  destruct (same_reading (reading tz d c1) (reading tz d c2)) eqn:B2; simpl.
  { apply same_reading_spec in B2. exists c2, s2. split; [done|]. split; [done|].
    apply (stable_reading _ _ c1); [lia|done]. }
  rewrite E3, Z.eqb_refl, orb_false_r.
  assert (tick d <= c2)%nat as Ht.
  { destruct (decide (tick d <= c2)%nat); [done|]. exfalso.
    rewrite (reading_before _ _ c), (reading_before _ _ c1) in B1 by lia.
    assert (same_reading (snapshot tz (before d)) (snapshot tz (before d)) = true) by by apply same_reading_spec.
    congruence. }
  rewrite !reading_after by lia. rewrite (proj2 (same_reading_spec _ _)) by done. simpl.
  exists c3, s3. split; [done|]. split; [done|]. right. apply reading_after. lia.
Qed.

(** The value of register B, which does not change with the time. *)
Definition mode_of (d : rtc) (b : Z) : Prop := before d 0xB = b /\ after d 0xB = b.

(** The time the driver makes of the registers [f]. *)
Definition shown (b tz cen : Z) (f : Z -> Z) : date_time :=
  now (full_year (twelve_hours b (decode b (mk_clock tt (snapshot tz f) cen 0 tz)))).

(** A reading whose uninitialised local happens to hold the current century. *)
Lemma rtc_read_stable (s : clock rtc) b wait :
  let d := chip s in
  century_register s = 0 -> (uip d < wait)%nat -> mode_of d b ->
  exists s', cmos_read_RTC 3 wait (now_century s) s = Ret (tt, s') /\
    (get_current_time s' = shown b (TIMEZONE s) (now_century s) (before d) \/
     get_current_time s' = shown b (TIMEZONE s) (now_century s) (after d)).
Proof.
  intros d Hcr Hw [Hb1 Hb2]. unfold cmos_read_RTC.
  destruct (wait_update_spec wait d) as (c & r & Hwt & Hc); [lia|].
  apply (on_chip_spec _ s) in Hwt. step Hwt.
  destruct (read_registers_spec (set_chip (at_clk c r d) s) (now_century s) Hcr) as (r1 & E). step E.
  destruct (read_until_stable_spec wait (TIMEZONE s) d (now_century s) c
              (set_now (reading (TIMEZONE s) d c) (set_chip (at_clk (6 + c) r1 d) s))) as (c1 & s1 & E1 & (k & r2 & _ & ->) & Hsnap).
  { done. }
  { exists (6 + c)%nat, r1. split; [lia|]. destruct s. simpl in *. by subst. }
  simpl chip in *. simpl TIMEZONE in *. step E1.
  assert (EB : rtc_value (at_clk k r2 d) k 0xB = b).
  { unfold rtc_value. simpl. by case_bool_decide. }
  assert (E2 : on_chip (cmos_get_RTC_reg 0xB) (mk_clock (at_clk k r2 d) (reading (TIMEZONE s) d c1) (now_century s) 0 (TIMEZONE s))
    = Ret (b, mk_clock (at_clk (S k) 0xB d) (reading (TIMEZONE s) d c1) (now_century s) 0 (TIMEZONE s))).
  { by rewrite (on_chip_spec _ _ _ _ (get_reg_spec 0xB _)); simpl chip; simpl clk; rewrite EB. }
  step E2. eexists. split; [reflexivity|].
  assert (Hno : forall (x y : rtc) (n : date_time) cen tz, now (full_year (twelve_hours b (decode b (mk_clock x n cen 0 tz)))) =
      now (full_year (twelve_hours b (decode b (mk_clock tt n cen 0 tz))))).
  { intros. unfold decode, twelve_hours, full_year. simpl. by destruct (Z.land b 4 =? 0), (_ && _). }
  unfold get_current_time, shown. rewrite Hno by done. destruct Hsnap as [-> | ->]; [by left|by right].
Qed.

Definition demo_rtc : rtc :=
  mk_rtc 0 0 10 3 (fun r => if r =? 0xB then 6 else 10) (fun r => if r =? 0xB then 6 else 11).

(** The loop compares the century of the last time with a local variable
    that nothing has assigned when there is no century register; whatever the
    chip does, the loop never ends if its memory holds anything else. *)
Lemma rtc_century_garbage_hangs (s : clock rtc) wait fuel century :
  century_register s = 0 -> (uip (chip s) < wait)%nat -> century <> now_century s ->
  cmos_read_RTC fuel wait century s = OutOfFuel.
Proof.
  intros Hcr Hw Hne. unfold cmos_read_RTC.
  destruct (wait_update_spec wait (chip s)) as (c & r & Hwt & Hc); [lia|].
  apply (on_chip_spec _ s) in Hwt. step Hwt.
  destruct (read_registers_spec (set_chip (at_clk c r (chip s)) s) century Hcr) as (r1 & E). step E. clear E Hwt.
  assert (Hs : read_at (TIMEZONE s) (chip s) (now_century s) c
    (set_now (reading (TIMEZONE s) (chip s) c) (set_chip (at_clk (6 + c) r1 (chip s)) s))).
  { exists (6 + c)%nat, r1. split; [lia|]. destruct s. simpl in *. by subst. }
  assert (Hloop : forall fuel c s0, read_at (TIMEZONE s) (chip s) (now_century s) c s0 ->
    read_until_stable fuel wait century s0 = OutOfFuel).
  { clear -Hw Hne. intros fuel. induction fuel as [|fuel IH]; intros c s0 Hs; [done|].
    destruct (loop_turn _ _ _ _ _ _ Hw Hs) as (c1 & s1 & _ & Hs1 & E). rewrite E.
    rewrite (proj2 (Z.eqb_neq _ _)) by congruence. rewrite orb_true_r. by apply (IH c1). }
  unfold mbind, cmd_bind. by rewrite (Hloop fuel c).
Qed.

(** C29: whether reading the clock ends depends on one local variable that
    nothing assigns when there is no century register, and that the loop compares
    with the century of the last reading.  If it holds that century, reading ends
    and is never torn: whenever the chip moves on to the next second, even between
    two of the reads or during the wait for its update flag, four readings of the
    registers are enough, and the time that is stored is that of all the registers
    before or of all the registers after the change.  If it holds anything else,
    reading never ends, whatever the chip does. *)
Theorem rtc_read_never_torn (s : clock rtc) b wait century :
  let d := chip s in
  century_register s = 0 -> (uip d < wait)%nat -> mode_of d b ->
  (century = now_century s ->
   exists s', cmos_read_RTC 3 wait century s = Ret (tt, s') /\
     (get_current_time s' = shown b (TIMEZONE s) (now_century s) (before d) \/
      get_current_time s' = shown b (TIMEZONE s) (now_century s) (after d))) /\
  (century <> now_century s -> forall fuel, cmos_read_RTC fuel wait century s = OutOfFuel).
Proof.
  intros d Hcr Hw Hb. split.
  - intros ->. by apply rtc_read_stable.
  - intros Hne fuel. by apply rtc_century_garbage_hangs.
Qed.

Lemma rtc_read_never_torn_witness :
  (exists s', cmos_read_RTC 3 4 0 (clock_init demo_rtc) = Ret (tt, s') /\ year (get_current_time s') <> 2023) /\
  cmos_read_RTC 100 4 1 (clock_init demo_rtc) = OutOfFuel.
Proof.
  split.
  - destruct (rtc_read_never_torn (clock_init demo_rtc) 6 4 0) as [Hend _]; [reflexivity|simpl; lia|split; reflexivity|].
    destruct (Hend eq_refl) as (s' & E & [Hs | Hs]); exists s'; (split; [exact E|]); rewrite Hs; vm_compute; discriminate.
  - destruct (rtc_read_never_torn (clock_init demo_rtc) 6 4 1) as [_ Hhang]; [reflexivity|simpl; lia|split; reflexivity|].
    apply Hhang. discriminate.
Defined.

(** ** What the registers become *)
Definition to_bcd (n : Z) : Z := n / 10 * 16 + n mod 10.

Lemma check_range (P : Z -> bool) k n : forallb P (seqZ 0 k) = true -> 0 <= n < k -> P n = true.
Proof. rewrite forallb_forall. intros H Hn. apply H, list_elem_of_In, elem_of_seqZ. lia. Qed.

Lemma bcd_to_bcd n : 0 <= n < 100 -> bcd (to_bcd n) = n.
Proof.
  intros Hn. apply Z.eqb_eq. apply (check_range (fun n => bcd (to_bcd n) =? n) 100); [|done]. vm_compute. done.
Qed.

Definition hour_check (h : Z) : bool :=
  let r := u8 (to_bcd h + CENTRAL) in
  eqb (u8 (Z.lor (Z.land r 0x0F + Z.land r 0x70 / 16 * 10) (Z.land r 0x80) + CENTRAL) =? (h + CENTRAL) mod 24)
    ((10 <=? h) && (h mod 10 <? 6)).

Lemma hour_check_spec h :
  hour_check h = true ->
  let r := u8 (to_bcd h + CENTRAL) in
  u8 (Z.lor (Z.land r 0x0F + Z.land r 0x70 / 16 * 10) (Z.land r 0x80) + CENTRAL) = (h + CENTRAL) mod 24 <->
  10 <= h /\ h mod 10 < 6.
Proof.
  unfold hour_check. intros E%eqb_prop. rewrite <- Z.eqb_eq, E, andb_true_iff, Z.leb_le, Z.ltb_lt. done.
Qed.

(** In the format that PCs use, BCD with 24 hours, the seconds, minutes,
    days, months and years of 2023 to 2122 are decoded correctly; the hour, from
    which the time zone is taken once before the decoding and once after, is the
    local one exactly when its last digit is below 6 and it is 10 or later. *)
Theorem clock_hour_right_iff b f h mi s d mo y :
  Z.land b 4 = 0 -> Z.land b 2 <> 0 -> 0 <= s < 60 -> 0 <= mi < 60 -> 0 <= h < 24 -> 1 <= d <= 31 -> 1 <= mo <= 12 ->
  0 <= y < 100 -> f 0 = to_bcd s -> f 2 = to_bcd mi -> f 4 = to_bcd h -> f 7 = to_bcd d -> f 8 = to_bcd mo -> f 9 = to_bcd y ->
  let t := shown b CENTRAL 0 f in
  seconds t = s /\ minutes t = mi /\ day t = d /\ month t = mo /\ year t = (if y <? 23 then 2100 + y else 2000 + y) /\
  (hours t = (h + CENTRAL) mod 24 <-> 10 <= h /\ h mod 10 < 6).
Proof.
  intros H4 H2 Hs Hmi Hh Hd Hmo Hy E0 E2 E4 E7 E8 E9 t. subst t. unfold shown, decode. rewrite H4. simpl Z.eqb. cbv iota.
  unfold twelve_hours. rewrite (proj2 (Z.eqb_neq _ _) H2). cbn [andb]. unfold full_year, set_now, snapshot. simpl.
  rewrite E0, E2, E7, E8, E9, !bcd_to_bcd by lia. rewrite !u8_id by lia. split_and!; try done.
  - unfold RELEASE_YEAR. change (2023 / 100 * 100) with 2000. rewrite (u32_id (y + 2000)) by lia.
    destruct (y <? 23) eqn:E; breflect.
    + rewrite (proj2 (Z.ltb_lt _ _)) by lia. rewrite u32_id by lia. lia.
    + rewrite (proj2 (Z.ltb_ge _ _)) by lia. lia.
  - rewrite E4. apply hour_check_spec, (check_range hour_check 24); [|done]. vm_compute. done.
Qed.

Lemma clock_hour_right_iff_witness :
  let f r := nth (Z.to_nat r) [0x59; 0; 0x30; 0; 0x16; 0; 0; 0x24; 0x12; 0x23] 0 in
  let t := shown 2 CENTRAL 0 f in year t = 2023 /\ hours t <> 10.
Proof.
  destruct (clock_hour_right_iff 2 (fun r => nth (Z.to_nat r) [0x59; 0; 0x30; 0; 0x16; 0; 0; 0x24; 0x12; 0x23] 0)
              16 30 59 24 12 23) as (_ & _ & _ & _ & Hy & Hh); try lia; try reflexivity.
  { discriminate. }
  split; [exact Hy|]. intros E. apply Hh in E. vm_compute in E. destruct E as [_ E]. discriminate E.
Defined.
