(* ===== verification/UserString.v ===== *)
(** * The string routines of the user library
      (src/programs/stdlib/src/string.c, string.h)

    Most of them are the code of the kernel's and take its definitions.
    [strtok], which keeps a pointer between its calls and writes terminators
    into the string, is over one flat memory: an address is an index, and 0 is
    the null pointer, whose bytes can be read as the first ones. *)
From S2P Require Import Prelude CString.

Module UString.
Definition strlen := CString.strlen.
Definition strnlen := CString.strnlen.
Definition strnlen_terminator := CString.strnlen_terminator.
Definition strncmp := CString.strncmp.
Definition strcpy := CString.strcpy.
Definition strncpy := CString.strncpy.
Definition itoa := CString.itoa.

(** The macro of string.h adds 32 to everything that is not a small letter. *)
Definition tolower (c : Z) : Z := if (c <=? 122) && (97 <=? c) then c else c + 32.

Fixpoint istrncmp_loop (n : nat) (s1 s2 : list Z) : outcome Z :=
  match n with
  | O => Ret 0
  | S n =>
      match s1, s2 with
      | u1 :: s1, u2 :: s2 =>
          if negb (u1 =? u2) && negb (tolower u1 =? tolower u2) then Ret (u1 - u2)
          else if u1 =? 0 then Ret 0
          else istrncmp_loop n s1 s2
      | _, _ => Oob
      end
  end.
Definition istrncmp (s1 s2 : list Z) (n : Z) : outcome Z := istrncmp_loop (Z.to_nat n) s1 s2.

Fixpoint strcmp (s1 s2 : list Z) : outcome Z :=
  match s1, s2 with
  | u1 :: s1, u2 :: s2 =>
      if negb (u1 =? u2) then Ret (u1 - u2)
      else if negb (u1 =? 0) && negb (u2 =? 0) then strcmp s1 s2
      else Ret 0
  | _, _ => Oob
  end.

(** The two ends are exchanged until they meet. *)
Fixpoint reverse_loop (n : nat) (s : list Z) (i j : Z) : outcome (list Z) :=
  match n with
  | O => OutOfFuel
  | S n =>
      if i <? j then
        c ← load s i;
        d ← load s j;
        s ← store s i d;
        s ← store s j c;
        reverse_loop n s (i + 1) (j - 1)
      else Ret s
  end.
Definition reverse (s : list Z) : outcome (list Z) :=
  n ← strlen s;
  reverse_loop (S (length s)) s 0 (n - 1).

Fixpoint strnocc_loop (s : list Z) (delim i : Z) : outcome Z :=
  match s with
  | [] => Oob
  | c :: s =>
      if c =? 0 then Ret i
      else strnocc_loop s delim (if c =? delim then s32 (i + 1) else i)
  end.
Definition strnocc (s : list Z) (delim : Z) : outcome Z := strnocc_loop s delim 0.
End UString.

(** The memory of the program, and the static pointer of [strtok]. *)
Record tokst := mk_tok { mem : list Z; sp : Z }.
Definition set_sp (p : Z) (s : tokst) : tokst := mk_tok (mem s) p.
Definition rd (p : Z) : cmd tokst Z := s ← getS; liftO (load (mem s) p).
Definition wr (p v : Z) : cmd tokst unit := fun s =>
  m ← store (mem s) p v;
  Ret (tt, mk_tok m (sp s)).

(** [for (i = 0; i < len; i++) if (c == delimiters[i]) break;] *)
Fixpoint delim_loop (n : nat) (c delimiters i : Z) : cmd tokst Z :=
  match n with
  | O => mret i
  | S n =>
      d ← rd (delimiters + i);
      if c =? d then mret i else delim_loop n c delimiters (i + 1)
  end.

(** The loop over the separators before a token. *)
Fixpoint skip_loop (fuel : nat) (len delimiters p_start : Z) : cmd tokst Z :=
  match fuel with
  | O => liftO OutOfFuel
  | S fuel =>
      c ← rd p_start;
      i ← delim_loop (Z.to_nat len) c delimiters 0;
      if i =? len then modifyS (set_sp p_start);; mret p_start
      else skip_loop fuel len delimiters (p_start + 1)
  end.

(** The loop to the end of a token. *)
Fixpoint end_loop (fuel : nat) (len delimiters : Z) : cmd tokst unit :=
  match fuel with
  | O => liftO OutOfFuel
  | S fuel =>
      s ← getS;
      c ← rd (sp s);
      if c =? 0 then mret tt
      else
        i ← delim_loop (Z.to_nat len) c delimiters 0;
        (if i <? len then wr (sp s) 0 else mret tt);;
        modifyS (set_sp (sp s + 1));;
        if i <? len then mret tt else end_loop fuel len delimiters
  end.

Definition strtok (s delimiters : Z) : cmd tokst Z :=
  st ← getS;
  len ← liftO (UString.strlen (drop (Z.to_nat delimiters) (mem st)));
  if (s =? 0) && (sp st =? 0) then mret 0
  else
    (if negb (s =? 0) && (sp st =? 0) then modifyS (set_sp s) else mret tt);;
    if (s =? 0) && (delimiters =? 0) then modifyS (set_sp 0);; mret 0
    else
      st ← getS;
      p_start ← skip_loop (S (length (mem st))) len delimiters (sp st);
      c ← rd p_start;
      if c =? 0 then modifyS (set_sp 0);; mret 0
      else
        end_loop (S (length (mem st))) len delimiters;;
        mret p_start.

(** Appends to the right. *)
Ltac app_norm := simpl; repeat (rewrite <- app_assoc; simpl).

(** ** Words *)

(** The pieces of a string between separators, [cur] being the start of one. *)
Fixpoint words (D : Z -> bool) (cur s : list Z) : list (list Z) :=
  match s with
  | [] => if decide (cur = []) then [] else [cur]
  | c :: s =>
      if D c then (if decide (cur = []) then words D [] s else cur :: words D [] s)
      else words D (cur ++ [c]) s
  end.

Lemma words_seps (D : Z -> bool) seps s : Forall (fun c => D c = true) seps -> words D [] (seps ++ s) = words D [] s.
Proof. induction 1 as [|c l Hc _ IH]; [done|]. simpl. by rewrite Hc. Qed.

Lemma words_token (D : Z -> bool) t cur s :
  Forall (fun c => D c = false) t -> words D cur (t ++ s) = words D (cur ++ t) s.
Proof.
  intros Ht. revert cur. induction Ht as [|c l Hc _ IH]; intros cur; simpl; [by rewrite app_nil_r|].
  rewrite Hc, IH, <- app_assoc. done.
Qed.

Lemma span_exists (P : Z -> bool) s :
  exists a b, s = a ++ b /\ Forall (fun c => P c = true) a /\ forall c r, b = c :: r -> P c = false.
Proof.
  induction s as [|c s (a & b & -> & Ha & Hb)]; [by exists [], []|].
  destruct (P c) eqn:E.
  - exists (c :: a), b. split; [done|]. split; [by constructor|done].
  - exists [], (c :: a ++ b). split; [done|]. split; [done|]. by intros ? ? [= <- <-].
Qed.

(** ** [strtok] *)
Definition is_delim (ds : list Z) (c : Z) : bool := bool_decide (c ∈ ds).

(** The string [t] with its terminator is at [p]. *)
Definition str_at (m : list Z) (p : Z) (t : list Z) : Prop :=
  0 <= p /\ (0 ∉ t) /\ forall i c, (t ++ [0]) !! i = Some c -> m !! (Z.to_nat p + i)%nat = Some c.

Lemma str_at_length m p t : str_at m p t -> p + Z.of_nat (length t) < Z.of_nat (length m).
Proof.
  intros (Hp & _ & Ht). specialize (Ht (length t) 0). rewrite lookup_app_r, Nat.sub_diag in Ht by lia.
  specialize (Ht eq_refl). apply lookup_lt_Some in Ht. lia.
Qed.

Lemma str_at_frame m m' p t :
  (forall i, (i <= length t)%nat -> m' !! (Z.to_nat p + i)%nat = m !! (Z.to_nat p + i)%nat) -> str_at m p t -> str_at m' p t.
Proof.
  intros Hf (Hp & H0 & Ht). split; [done|]. split; [done|]. intros i c Hi. rewrite Hf; [by apply Ht|].
  apply lookup_lt_Some in Hi. rewrite length_app in Hi. simpl in Hi. lia.
Qed.

Lemma str_at_drop m p t : str_at m p t -> exists x, drop (Z.to_nat p) m = t ++ 0 :: x.
Proof.
  intros Hs. pose proof (str_at_length _ _ _ Hs) as Hl. destruct Hs as (Hp & _ & Ht).
  exists (drop (S (length t)) (drop (Z.to_nat p) m)).
  change (0 :: drop (S (length t)) (drop (Z.to_nat p) m)) with ([0] ++ drop (S (length t)) (drop (Z.to_nat p) m)).
  rewrite app_assoc. rewrite <- (take_drop (S (length t)) (drop (Z.to_nat p) m)) at 1. f_equal.
  apply list_eq_same_length with (n := S (length t)).
  - rewrite length_app. simpl. lia.
  - rewrite length_take, length_drop. lia.
  - intros i x y Hi Hx Hy. rewrite lookup_take_lt, lookup_drop in Hx by done. rewrite (Ht i y Hy) in Hx. congruence.
Qed.

Lemma str_at_cstr m p t : str_at m p t -> cstr (drop (Z.to_nat p) m) t.
Proof. intros Hs. split; [apply Hs|by apply str_at_drop]. Qed.

Lemma str_at_app pre t x : (0 ∉ t) -> str_at (pre ++ t ++ 0 :: x) (Z.of_nat (length pre)) t.
Proof.
  intros H0. split; [lia|]. split; [done|]. intros i c Hi. rewrite Nat2Z.id, lookup_app_r by lia.
  replace (length pre + i - length pre)%nat with i by lia. change (0 :: x) with ([0] ++ x). rewrite app_assoc.
  by apply lookup_app_l_Some.
Qed.

(** The separators are a string of the memory, and the places in [W], which may
    be written, are none of its. *)
Record delims (m : list Z) (W : Z -> Prop) (dp : Z) (ds : list Z) : Prop := {
  dl_pos : 0 < dp;
  dl_str : str_at m dp ds;
  dl_apart : forall j, W j -> ~ dp <= j <= dp + Z.of_nat (length ds);
  dl_len : Z.of_nat (length ds) < 2147483648
}.

Lemma delims_frame m m' (W W' : Z -> Prop) dp ds :
  delims m W dp ds -> (forall j : nat, ~ W (Z.of_nat j) -> m' !! j = m !! j) -> (forall j, W' j -> W j) -> delims m' W' dp ds.
Proof.
  intros [Hp Hs Ha Hl] Hf HW. split; [done| | |done].
  - eapply str_at_frame; [|exact Hs]. intros i Hi. apply Hf. intros Hj. apply (Ha _ Hj). lia.
  - intros j Hj. by apply Ha, HW.
Qed.

Definition between (lo hi j : Z) : Prop := lo <= j < hi.

Lemma rd_at (s : tokst) p c l : 0 <= p -> drop (Z.to_nat p) (mem s) = c :: l -> rd p s = Ret (c, s).
Proof.
  intros Hp Hd. unfold rd. rewrite bind_getS. unfold liftO. rewrite (load_Some _ _ c); [done|done|].
  rewrite <- (Nat.add_0_r (Z.to_nat p)), <- lookup_drop, Hd. done.
Qed.

Lemma delim_loop_spec (s : tokst) dp c ds i x :
  0 <= dp -> 0 <= i -> drop (Z.to_nat (dp + i)) (mem s) = ds ++ x ->
  exists k, delim_loop (length ds) c dp i s = Ret (k, s) /\ i <= k <= i + Z.of_nat (length ds) /\
    (k =? i + Z.of_nat (length ds)) = negb (is_delim ds c).
Proof.
  intros Hdp. revert i. induction ds as [|d ds IH]; intros i Hi Hd.
  { exists i. split; [done|]. split; [simpl; lia|]. simpl. rewrite Z.add_0_r. apply Z.eqb_refl. }
  cbn [length delim_loop]. step (rd_at s (dp + i) d (ds ++ x) ltac:(lia) Hd).
  destruct (c =? d) eqn:E; breflect.
  - subst d. exists i. split; [done|]. split; [lia|]. unfold is_delim.
    rewrite bool_decide_eq_true_2 by set_solver. simpl. apply Z.eqb_neq. lia.
  - destruct (IH (i + 1)) as (k & Hk & Hb & Hiff); [lia| |].
    { replace (Z.to_nat (dp + (i + 1))) with (Z.to_nat (dp + i) + 1)%nat by lia.
      rewrite <- drop_drop, Hd. done. }
    exists k. split; [done|]. split; [lia|].
    replace (i + Z.of_nat (S (length ds))) with (i + 1 + Z.of_nat (length ds)) by lia. rewrite Hiff. f_equal.
    unfold is_delim. apply bool_decide_ext. set_solver.
Qed.

(** In the loops, the test against all separators. *)
Lemma delim_test W (s : tokst) dp ds c :
  delims (mem s) W dp ds ->
  exists k, delim_loop (Z.to_nat (Z.of_nat (length ds))) c dp 0 s = Ret (k, s) /\
    (k =? Z.of_nat (length ds)) = negb (is_delim ds c) /\ (k <? Z.of_nat (length ds)) = is_delim ds c.
Proof.
  intros Hd. pose proof (dl_pos _ _ _ _ Hd). destruct (str_at_drop _ _ _ (dl_str _ _ _ _ Hd)) as [x Hx].
  destruct (delim_loop_spec s dp c ds 0 (0 :: x)) as (k & Hk & Hb & Hiff); [lia|lia|by rewrite Z.add_0_r|].
  rewrite Nat2Z.id. exists k. split; [done|]. split; [done|]. simpl in Hiff.
  destruct (is_delim ds c); simpl in Hiff; breflect; [apply Z.ltb_lt|apply Z.ltb_ge]; lia.
Qed.

Lemma drop_pre {A} (pre l : list A) : drop (Z.to_nat (Z.of_nat (length pre))) (pre ++ l) = l.
Proof. by rewrite Nat2Z.id, drop_app_length. Qed.

Lemma skip_loop_spec n W dp ds seps r c pre m p :
  delims m W dp ds -> Forall (fun c => is_delim ds c = true) seps -> is_delim ds c = false -> (length seps < n)%nat ->
  m = pre ++ seps ++ c :: r ->
  skip_loop n (Z.of_nat (length ds)) dp (Z.of_nat (length pre)) (mk_tok m p) =
    Ret (Z.of_nat (length pre + length seps), mk_tok m (Z.of_nat (length pre + length seps))).
Proof.
  intros Hd Hs Hc Hn ->. revert pre n Hd Hn. induction Hs as [|x seps Hx Hs IH]; intros pre n Hd Hn;
    (destruct n as [|n]; [simpl in Hn; lia|]); cbn [skip_loop].
  - simpl app. step (rd_at (mk_tok (pre ++ c :: r) p) (Z.of_nat (length pre)) c r ltac:(lia) (drop_pre _ _)).
    destruct (delim_test W (mk_tok (pre ++ c :: r) p) dp ds c Hd) as (k & Hk & Hk1 & _). step Hk.
    rewrite Hk1, Hc. simpl. rewrite Nat.add_0_r. done.
  - set (m := pre ++ (x :: seps) ++ c :: r).
    step (rd_at (mk_tok m p) (Z.of_nat (length pre)) x (seps ++ c :: r) ltac:(lia) (drop_pre _ _)).
    destruct (delim_test W (mk_tok m p) dp ds x Hd) as (k & Hk & Hk1 & _). step Hk.
    rewrite Hk1, Hx. cbn [negb].
    specialize (IH (pre ++ [x]) n). rewrite length_app, <- app_assoc in IH. simpl in IH.
    specialize (IH Hd ltac:(simpl in Hn; lia)). subst m. simpl app.
    replace (Z.of_nat (length pre) + 1) with (Z.of_nat (length pre + 1)) by lia. rewrite IH. simpl.
    by replace (length pre + 1 + length seps)%nat with (length pre + S (length seps))%nat by lia.
Qed.

(** What is left after a token: the memory and the pointer. *)
Lemma end_loop_spec n W dp ds t pre rest :
  delims (pre ++ t ++ rest) W dp ds -> Forall (fun c => is_delim ds c = false) t -> (0 ∉ t) -> (length t < n)%nat ->
  forall c r, rest = c :: r -> (c = 0 \/ is_delim ds c = true) ->
  end_loop n (Z.of_nat (length ds)) dp (mk_tok (pre ++ t ++ rest) (Z.of_nat (length pre))) =
    Ret (tt, if c =? 0 then mk_tok (pre ++ t ++ rest) (Z.of_nat (length (pre ++ t)))
             else mk_tok ((pre ++ t ++ [0]) ++ r) (Z.of_nat (length (pre ++ t ++ [0])))).
Proof.
  intros Hd Ht H0 Hn c r -> Hc. revert pre n Hd Hn. induction Ht as [|x t Hx Ht IH]; intros pre n Hd Hn;
    (destruct n as [|n]; [simpl in Hn; lia|]); cbn [end_loop]; rewrite bind_getS; simpl sp.
  - rewrite app_nil_r. simpl app. set (s := mk_tok _ _).
    step (rd_at s (Z.of_nat (length pre)) c r ltac:(lia) (drop_pre _ _)).
    destruct (c =? 0) eqn:E; [done|].
    destruct (delim_test W s dp ds c Hd) as (k & Hk & _ & Hk2). step Hk.
    breflect. destruct Hc as [?|Hc]; [done|]. rewrite Hk2, Hc.
    assert (Hwr : wr (Z.of_nat (length pre)) 0 s = Ret (tt, mk_tok (pre ++ 0 :: r) (Z.of_nat (length pre)))).
    { unfold wr, s. simpl. rewrite store_Ret by (rewrite length_app; simpl; lia). simpl.
      by rewrite Nat2Z.id, insert_app_r_alt, Nat.sub_diag by lia. }
    step Hwr. rewrite bind_modifyS. unfold set_sp, mret, cmd_ret. simpl. rewrite <- app_assoc. simpl.
    do 3 f_equal. rewrite length_app. simpl. lia.
  - apply not_elem_of_cons in H0 as [Hx0 H0]. set (s := mk_tok _ _).
    step (rd_at s (Z.of_nat (length pre)) x (t ++ c :: r) ltac:(lia) (drop_pre _ _)).
    rewrite (proj2 (Z.eqb_neq x 0)) by lia.
    destruct (delim_test W s dp ds x Hd) as (k & Hk & _ & Hk2). step Hk.
    rewrite Hk2, Hx, bind_mret, bind_modifyS.
    specialize (IH H0 (pre ++ [x]) n). rewrite length_app, <- !app_assoc in IH. simpl app in IH. simpl app.
    specialize (IH Hd ltac:(simpl in Hn; lia)).
    replace (Z.of_nat (length pre) + 1) with (Z.of_nat (length pre + length [x])) by (simpl; lia).
    unfold s, set_sp. simpl mem. rewrite IH.
    destruct (c =? 0); app_norm; done.
Qed.

#[local] Arguments skip_loop : simpl never.
#[local] Arguments end_loop : simpl never.

(** What a call leaves of the string: a terminator after the token, unless the
    token is the last, and the rest. *)
Inductive cut (D : Z -> bool) : list Z -> list Z -> list Z -> list Z -> list Z -> Prop :=
| cut_last seps t : cut D (seps ++ t) seps t [] []
| cut_more seps t c s : cut D (seps ++ t ++ c :: s) seps t [0] s.

(** [strtok(NULL, delimiters)] with the string [s] left. *)
Lemma strtok_next pre W dp ds s post :
  delims (pre ++ s ++ 0 :: post) W dp ds -> pre <> [] -> (0 ∉ s) ->
  let st := mk_tok (pre ++ s ++ 0 :: post) (Z.of_nat (length pre)) in
  (words (is_delim ds) [] s = [] /\ strtok 0 dp st = Ret (0, mk_tok (mem st) 0)) \/
  exists seps t z s', cut (is_delim ds) s seps t z s' /\
    words (is_delim ds) [] s = t :: words (is_delim ds) [] s' /\
    strtok 0 dp st = Ret (Z.of_nat (length (pre ++ seps)),
      mk_tok ((pre ++ seps ++ t ++ z) ++ s' ++ 0 :: post) (Z.of_nat (length (pre ++ seps ++ t ++ z)))).
Proof.
  intros Hd Hne H0 st. set (m := mem st).
  assert (Hp : Z.of_nat (length pre) <> 0) by (destruct pre; simpl; [done|lia]).
  assert (Hlen : UString.strlen (drop (Z.to_nat dp) m) = Ret (Z.of_nat (length ds))).
  { apply strlen_spec; [|apply Hd]. by apply str_at_cstr, Hd. }
  destruct (span_exists (is_delim ds) s) as (seps & b & -> & Hseps & Hb).
  assert (Hskip : forall c r, b ++ 0 :: post = c :: r -> is_delim ds c = false ->
     skip_loop (S (length m)) (Z.of_nat (length ds)) dp (Z.of_nat (length pre)) st =
       Ret (Z.of_nat (length (pre ++ seps)), mk_tok m (Z.of_nat (length (pre ++ seps))))).
  { intros c r E Hc. rewrite length_app. apply (skip_loop_spec _ W _ _ _ r c); try done.
    - unfold m, st. simpl. rewrite !length_app. lia.
    - unfold m, st. simpl. by rewrite <- app_assoc, E. }
  assert (Hz : is_delim ds 0 = false) by (apply bool_decide_eq_false; apply (dl_str _ _ _ _ Hd)).
  unfold strtok. rewrite bind_getS, (bind_liftO _ _ _ _ Hlen).
  change (sp st) with (Z.of_nat (length pre)). rewrite (proj2 (Z.eqb_neq _ _) Hp). cbn [Z.eqb andb negb].
  rewrite bind_mret. pose proof (dl_pos _ _ _ _ Hd). rewrite (proj2 (Z.eqb_neq dp 0)) by lia. rewrite bind_getS.
  assert (Hm : drop (Z.to_nat (Z.of_nat (length (pre ++ seps)))) m = b ++ 0 :: post).
  { unfold m, st. simpl. rewrite <- app_assoc, app_assoc. apply drop_pre. }
  change (sp st) with (Z.of_nat (length pre)). change (mem st) with m.
  rewrite words_seps by done.
  destruct b as [|c b]; [left|right].
  { split; [done|]. step (Hskip 0 post eq_refl Hz).
    step (rd_at (mk_tok m (Z.of_nat (length (pre ++ seps)))) _ 0 post (Zle_0_nat _) Hm). done. }
  assert (Hc : is_delim ds c = false) by by eapply Hb.
  assert (Hc0 : c <> 0) by (intros ->; set_solver).
  step (Hskip c _ eq_refl Hc). step (rd_at (mk_tok m (Z.of_nat (length (pre ++ seps)))) _ c _ (Zle_0_nat _) Hm).
  rewrite (proj2 (Z.eqb_neq _ _) Hc0).
  destruct (span_exists (fun c => negb (is_delim ds c)) b) as (t & u & -> & Ht & Hu).
  assert (Ht' : Forall (fun c => is_delim ds c = false) (c :: t)).
  { constructor; [done|]. eapply Forall_impl; [exact Ht|]. simpl. by intros ? ?%negb_true_iff. }
  assert (E : forall x r, u ++ 0 :: post = x :: r -> (x = 0 \/ is_delim ds x = true) ->
    end_loop (S (length m)) (Z.of_nat (length ds)) dp (mk_tok m (Z.of_nat (length (pre ++ seps)))) =
    Ret (tt, if x =? 0 then mk_tok ((pre ++ seps) ++ (c :: t) ++ u ++ 0 :: post) (Z.of_nat (length ((pre ++ seps) ++ c :: t)))
             else mk_tok (((pre ++ seps) ++ (c :: t) ++ [0]) ++ r) (Z.of_nat (length ((pre ++ seps) ++ (c :: t) ++ [0]))))).
  { intros x r Ex Hx.
    assert (m = (pre ++ seps) ++ (c :: t) ++ u ++ 0 :: post) as ->.
    { unfold m, st. simpl. app_norm. done. }
    apply (end_loop_spec _ W _ _ (c :: t) (pre ++ seps) (u ++ 0 :: post)) with (c := x) (r := r); try done.
    - revert Hd. app_norm. done.
    - set_solver.
    - rewrite !length_app. simpl. lia. }
  destruct u as [|x u].
  - exists seps, (c :: t), [], []. split; [rewrite app_nil_r; constructor|]. split.
    + pose proof (words_token (is_delim ds) (c :: t) [] [] Ht') as Hwt. by rewrite app_nil_r in Hwt |- *.
    + step (E 0 post eq_refl (or_introl eq_refl)). app_norm. by rewrite !app_nil_r.
  - assert (Hx : is_delim ds x = true) by (apply negb_false_iff; by eapply Hu).
    exists seps, (c :: t), [0], u. split; [apply (cut_more _ seps (c :: t))|]. split.
    + change (c :: t ++ x :: u) with ((c :: t) ++ x :: u). rewrite words_token by done. simpl. by rewrite Hx.
    + step (E x (u ++ 0 :: post) eq_refl (or_intror Hx)).
      rewrite (proj2 (Z.eqb_neq x 0)) by (intros ->; congruence). app_norm. done.
Qed.

(** The calls after the first, up to the null pointer. *)
Fixpoint strtok_rest (n : nat) (delimiters : Z) : cmd tokst (list Z) :=
  match n with
  | O => liftO OutOfFuel
  | S n =>
      p ← strtok 0 delimiters;
      if p =? 0 then mret []
      else
        ps ← strtok_rest n delimiters;
        mret (p :: ps)
  end.

Definition strtok_all (n : nat) (s delimiters : Z) : cmd tokst (list Z) :=
  p ← strtok s delimiters;
  if p =? 0 then mret []
  else
    ps ← strtok_rest n delimiters;
    mret (p :: ps).

Lemma strtok_first s dp st :
  s <> 0 -> dp <> 0 -> sp st = 0 -> strtok s dp st = strtok 0 dp (set_sp s st).
Proof.
  intros Hs Hd Hsp. unfold strtok. rewrite !bind_getS. unfold set_sp. simpl mem. simpl sp. rewrite Hsp.
  unfold liftO. destruct (UString.strlen _); [|done..]. unfold mbind at 1 3. unfold cmd_bind.
  rewrite (proj2 (Z.eqb_neq s 0) Hs), (proj2 (Z.eqb_neq dp 0) Hd). reflexivity.
Qed.

(** A pointer to the string [t] of the final memory. *)
Definition points_to (m : list Z) (p : Z) (t : list Z) : Prop := 0 < p /\ cstr (drop (Z.to_nat p) m) t.

Lemma cut_spec D s seps t z s' : cut D s seps t z s' ->
  (exists y, s = seps ++ t ++ y ++ s' /\ length y = length z) /\ (z = [] /\ s' = [] \/ z = [0]).
Proof.
  intros [|]; split; try (by left); try (by right).
  - exists []. by rewrite !app_nil_r.
  - by eexists [_].
Qed.

Lemma words_nonempty D s cur : Forall (fun t => t <> []) (words D cur s).
Proof.
  revert cur. induction s as [|c s IH]; intros cur; simpl; [by case_decide; [constructor|constructor]|].
  destruct (D c); [case_decide; [done|by constructor]|done].
Qed.

(** Every call makes the string that is left shorter. *)
Lemma cut_shorter D s seps t z s' :
  cut D s seps t z s' -> words D [] s = t :: words D [] s' -> (length s' < length s)%nat.
Proof.
  intros Hcut Hw. destruct (cut_spec _ _ _ _ _ _ Hcut) as [(y & -> & Hy) Hz]. rewrite !length_app.
  destruct Hz as [[-> ->] | ->]; simpl in *; [|lia]. destruct t; simpl; [|lia].
  pose proof (words_nonempty D (seps ++ [] ++ y ++ []) []) as Hall. rewrite Hw in Hall. by inversion Hall.
Qed.

(** A call only writes inside the string. *)
Lemma cut_frame D s seps t z s' pre post (j : nat) :
  cut D s seps t z s' ->
  ~ between (Z.of_nat (length pre)) (Z.of_nat (length pre + length s)) (Z.of_nat j) ->
  ((pre ++ seps ++ t ++ z) ++ s' ++ 0 :: post) !! j = (pre ++ s ++ 0 :: post) !! j.
Proof.
  intros Hcut Hj. destruct (cut_spec _ _ _ _ _ _ Hcut) as [(y & -> & Hy) _]. unfold between in Hj.
  rewrite !length_app in Hj. destruct (decide (j < length pre)%nat) as [Hlt|Hge].
  - rewrite <- app_assoc. by rewrite !lookup_app_l by done.
  - rewrite (app_assoc (pre ++ seps ++ t ++ z)), (app_assoc pre (seps ++ t ++ y ++ s')).
    rewrite !(lookup_app_r _ (0 :: post)); rewrite ?length_app; try lia. f_equal. rewrite ?length_app. lia.
Qed.

(** The tokens that are still to come do not touch the memory before them. *)
Lemma strtok_rest_spec n pre W dp ds s post :
  (length s < n)%nat -> delims (pre ++ s ++ 0 :: post) W dp ds -> pre <> [] -> (0 ∉ s) ->
  (forall j, between (Z.of_nat (length pre)) (Z.of_nat (length pre + length s)) j -> W j) ->
  exists ps m2, strtok_rest n dp (mk_tok (pre ++ s ++ 0 :: post) (Z.of_nat (length pre))) =
      Ret (ps, mk_tok (pre ++ m2 ++ 0 :: post) 0) /\ length m2 = length s /\
    Forall2 (points_to (pre ++ m2 ++ 0 :: post)) ps (words (is_delim ds) [] s).
Proof.
  revert pre s. induction n as [|n IH]; intros pre s Hn Hd Hne H0 HW; [lia|]. cbn [strtok_rest].
  destruct (strtok_next pre W dp ds s post Hd Hne H0) as [[Hw E] | (seps & t & z & s' & Hcut & Hw & E)]; step E.
  { exists [], s. split; [done|]. split; [done|]. rewrite Hw. constructor. }
  pose proof (fun j => cut_frame _ _ _ _ _ _ pre post j Hcut) as Hfr.
  pose proof (cut_shorter _ _ _ _ _ _ Hcut Hw) as Hlt.
  destruct (cut_spec _ _ _ _ _ _ Hcut) as [(y & -> & Hy) Hz].
  assert (Hpos : 0 < Z.of_nat (length (pre ++ seps))) by (rewrite length_app; destruct pre; simpl; [done|lia]).
  rewrite (proj2 (Z.eqb_neq _ _)) by lia.
  destruct (IH (pre ++ seps ++ t ++ z) s') as (ps & m2 & E2 & Hl & Hps); [lia| |by destruct pre|set_solver| |].
  { eapply delims_frame; [exact Hd| |done]. intros j Hj. apply Hfr. intros Hb. by apply Hj, HW. }
  { intros j Hj. apply HW. unfold between in *. rewrite !length_app in *. lia. }
  step E2. eexists _, (seps ++ t ++ z ++ m2). split; [app_norm; reflexivity|].
  split; [rewrite !length_app; lia|]. rewrite Hw. revert Hps. app_norm. intros Hps. constructor; [|done].
  split; [done|]. rewrite app_assoc, drop_pre. split; [set_solver|].
  destruct Hz as [[-> ->] | ->]; [destruct m2; [|done]; by exists post|]. by eexists.
Qed.

(** C27: [strtok] splits a string into its words: called on a string and then
    with null until it returns null, it gives one pointer for each longest piece
    without a separator, in order; at the end each points to its word as a
    string of its own, nothing outside the string has changed, and the function
    is ready for the next string.  The separators may be before or after the
    string, but not inside it. *)
Theorem strtok_splits pre dp ds s post :
  delims (pre ++ s ++ 0 :: post) (between (Z.of_nat (length pre)) (Z.of_nat (length pre + length s))) dp ds ->
  pre <> [] -> (0 ∉ s) ->
  exists ps m2, strtok_all (length s) (Z.of_nat (length pre)) dp (mk_tok (pre ++ s ++ 0 :: post) 0) =
      Ret (ps, mk_tok (pre ++ m2 ++ 0 :: post) 0) /\ length m2 = length s /\
    Forall2 (points_to (pre ++ m2 ++ 0 :: post)) ps (words (is_delim ds) [] s).
Proof.
  intros Hd Hne H0. pose proof (dl_pos _ _ _ _ Hd).
  destruct (strtok_rest_spec (S (length s)) pre _ dp ds s post ltac:(lia) Hd Hne H0 ltac:(done)) as (ps & m2 & E & Hl & Hps).
  assert (Hp : Z.of_nat (length pre) <> 0) by (destruct pre; simpl; [done|lia]).
  exists ps, m2. split; [|done]. unfold strtok_all.
  revert E. cbn [strtok_rest].
  assert (Hf : strtok (Z.of_nat (length pre)) dp (mk_tok (pre ++ s ++ 0 :: post) 0) =
    strtok 0 dp (mk_tok (pre ++ s ++ 0 :: post) (Z.of_nat (length pre)))) by (apply strtok_first; [done|lia|done]).
  unfold mbind, cmd_bind. rewrite Hf. done.
Qed.

(** The memory: a page that is not used, the string, and after it the
    separators, as with a string on the stack and a literal of the program. *)
Lemma strtok_splits_witness :
  exists ps m2, strtok_all 8 4 13 (mk_tok ([9; 9; 9; 9] ++ [32; 97; 98; 32; 32; 99; 100; 32] ++ [0; 32; 0]) 0) =
      Ret (ps, mk_tok ([9; 9; 9; 9] ++ m2 ++ [0; 32; 0]) 0) /\
    Forall2 (points_to ([9; 9; 9; 9] ++ m2 ++ [0; 32; 0])) ps [[97; 98]; [99; 100]].
Proof.
  destruct (strtok_splits [9; 9; 9; 9] 13 [32] [32; 97; 98; 32; 32; 99; 100; 32] [32; 0]) as (ps & m2 & E & _ & Hps).
  - split; [lia| | |simpl; lia].
    + apply (str_at_app [9; 9; 9; 9; 32; 97; 98; 32; 32; 99; 100; 32; 0] [32] []).
      apply (bool_decide_unpack _). vm_compute. exact I.
    + intros j Hj. unfold between in Hj. simpl in *. lia.
  - discriminate.
  - apply (bool_decide_unpack _). vm_compute. exact I.
  - exists ps, m2. split; [exact E|exact Hps].
Defined.

(** A new string is not looked at while the last one was not finished. *)
Lemma strtok_unfinished s dp st :
  sp st <> 0 -> dp <> 0 -> strtok s dp st = strtok 0 dp st.
Proof.
  intros Hs Hd. unfold strtok. rewrite !bind_getS. unfold liftO.
  destruct (UString.strlen _); [|done..]. unfold mbind at 1 3. unfold cmd_bind.
  rewrite (proj2 (Z.eqb_neq _ _) Hs), (proj2 (Z.eqb_neq _ _) Hd), !andb_false_r. done.
Qed.

(** [strtok(NULL, NULL)], with which the programs reset it, takes the length
    of the string at address 0 before it looks at its arguments. *)
Lemma strtok_reset st n :
  UString.strlen (mem st) = Ret n -> strtok 0 0 st = Ret (0, mk_tok (mem st) 0).
Proof.
  intros E. unfold strtok. rewrite bind_getS. simpl drop. rewrite (bind_liftO _ _ _ _ E). simpl.
  destruct st as [m p]. simpl. destruct (p =? 0) eqn:Ep; [|done]. breflect. by subst.
Qed.

(** ** The other routines *)

(** The macro [tolower] distinguishes the same letters as the kernel's. *)
Lemma utolower_spec c d :
  is_byte c -> is_byte d -> UString.tolower c = UString.tolower d <-> CString.tolower c = CString.tolower d.
Proof.
  unfold is_byte, UString.tolower, CString.tolower. intros Hc Hd.
  repeat bcase; breflect; repeat match goal with H : (_ && _) = false |- _ => apply andb_false_iff in H end; breflect;
    try lia.
Qed.

Lemma uistrncmp_eq s1 s2 n : bytes s1 -> bytes s2 -> UString.istrncmp s1 s2 n = CString.istrncmp s1 s2 n.
Proof.
  unfold UString.istrncmp, CString.istrncmp. generalize (Z.to_nat n) as k. intros k. revert s1 s2.
  induction k as [|k IH]; intros s1 s2 H1 H2; [done|]. destruct H1 as [|c s1 Hc H1], H2 as [|d s2 Hd H2]; try done.
  simpl. rewrite IH by done.
  replace (UString.tolower c =? UString.tolower d) with (CString.tolower c =? CString.tolower d); [done|].
  apply eq_true_iff_eq. rewrite !Z.eqb_eq. symmetry. by apply utolower_spec.
Qed.

Lemma reverse_loop_spec n a m b :
  (length m < n)%nat ->
  UString.reverse_loop n (a ++ m ++ b) (Z.of_nat (length a)) (Z.of_nat (length a + length m) - 1) =
    Ret (a ++ rev m ++ b).
Proof.
  revert a m b. induction n as [|n IH]; intros a m b Hn; [lia|]. cbn [UString.reverse_loop].
  destruct m as [|x m]; [rewrite (proj2 (Z.ltb_ge _ _)) by (simpl; lia); done|].
  destruct m as [|y m _] using rev_ind; [rewrite (proj2 (Z.ltb_ge _ _)) by (simpl; lia); done|].
  assert (Hlm : length (x :: m ++ [y]) = (length m + 2)%nat) by (simpl; rewrite length_app; simpl; lia).
  rewrite Hlm in Hn |- *. rewrite (proj2 (Z.ltb_lt _ _)) by lia.
  replace (Z.of_nat (length a + (length m + 2)) - 1) with (Z.of_nat (length (a ++ x :: m)))
    by (rewrite length_app; simpl; lia).
  assert (E0 : a ++ (x :: m ++ [y]) ++ b = (a ++ x :: m) ++ y :: b) by by app_norm.
  rewrite (load_Some _ (Z.of_nat (length a)) x); [|lia|rewrite Nat2Z.id; exact (list_lookup_middle a ((m ++ [y]) ++ b) x _ eq_refl)].
  rewrite E0, (load_Some _ _ y); [|lia|rewrite Nat2Z.id; by apply list_lookup_middle].
  simpl mbind. rewrite <- E0. rewrite store_Ret by (rewrite !length_app; simpl; lia). simpl mbind.
  rewrite Nat2Z.id, insert_app_r_alt, Nat.sub_diag by lia. cbn [app insert list_insert].
  replace (length (a ++ x :: m)) with (length (a ++ y :: m)) by (rewrite !length_app; done).
  replace (a ++ y :: (m ++ [y]) ++ b) with ((a ++ y :: m) ++ y :: b) by by app_norm.
  rewrite store_Ret by (rewrite !length_app; simpl; lia). simpl mbind.
  rewrite Nat2Z.id, insert_app_r_alt, Nat.sub_diag by lia. cbn [insert list_insert].
  specialize (IH (a ++ [y]) m (x :: b) ltac:(lia)).
  change (rev (x :: m ++ [y])) with (rev (m ++ [y]) ++ [x]). rewrite rev_app_distr. revert IH. app_norm.
  rewrite !length_app. simpl.
  replace (Z.of_nat (length a + 1)) with (Z.of_nat (length a) + 1) by lia.
  replace (Z.of_nat (length a + S (length m)) - 1) with (Z.of_nat (length a + 1 + length m) - 1) by lia. done.
Qed.

(** [reverse] turns the string around in its place. *)
Lemma reverse_spec s rest :
  (0 ∉ s) -> Z.of_nat (length s) < 2147483648 -> UString.reverse (s ++ 0 :: rest) = Ret (rev s ++ 0 :: rest).
Proof.
  intros H0 Hl. unfold UString.reverse, UString.strlen.
  rewrite (strlen_spec _ s) by (done || (split; [done|by eexists])).
  pose proof (reverse_loop_spec (S (length (s ++ 0 :: rest))) [] s (0 :: rest) ltac:(rewrite length_app; simpl; lia)) as E.
  exact E.
Qed.

(** [strcmp] tells whether two strings are the same. *)
Lemma strcmp_spec b1 b2 s1 s2 :
  cstr b1 s1 -> cstr b2 s2 -> exists r, UString.strcmp b1 b2 = Ret r /\ (r = 0 <-> s1 = s2).
Proof.
  revert b1 b2 s2. induction s1 as [|c s1 IH]; intros b1 b2 s2 H1 H2.
  - apply cstr_nil in H1 as [r1 ->].
    destruct (cstr_inv _ _ H2) as [[-> [r2 ->]] | (d & s2' & b2' & -> & -> & Hd & _)]; [by exists 0|].
    cbn [UString.strcmp]. rewrite (proj2 (Z.eqb_neq 0 d)) by done. exists (0 - d). split; [done|]. split; [lia|done].
  - destruct (cstr_inv _ _ H1) as [[? _] | (? & ? & b1' & [= <- <-] & -> & Hc & H1')]; [done|].
    destruct (cstr_inv _ _ H2) as [[-> [r2 ->]] | (d & s2' & b2' & -> & -> & Hd & H2')]; simpl.
    + rewrite (proj2 (Z.eqb_neq c 0)) by done. exists (c - 0). split; [done|]. split; [lia|done].
    + destruct (c =? d) eqn:E; breflect; simpl.
      * subst d. rewrite (proj2 (Z.eqb_neq c 0)) by done. simpl.
        destruct (IH _ _ _ H1' H2') as (r & -> & Hr). exists r. split; [done|]. rewrite Hr. split; [by intros ->|by intros [= ->]].
      * exists (c - d). split; [done|]. split; [lia|by intros [= ? _]].
Qed.
