(* ===== verification/UserCommand.v ===== *)
(** * Command lines (src/programs/stdlib/src/serpaeos.c, [system] of stdio.c)

    A program splits a command line into a list of arguments and hands it to
    the kernel.  The memory is that of [UserString]; the addresses that the
    system call [sos_malloc] returns are a list, and 0 when it is used up. *)
From S2P Require Import Prelude CString UserString.

Definition ARGUMENT : Z := 512.
Definition sizeof_command_argument : Z := 516.

Record ust := mk_ust { tok : tokst; grants : list Z }.
Definition on_tok {A} (c : cmd tokst A) : cmd ust A := fun s =>
  '(a, t) ← c (tok s); Ret (a, mk_ust t (grants s)).

Definition sos_malloc (size : Z) : cmd ust Z := fun s =>
  match grants s with
  | [] => Ret (0, s)
  | g :: gs => Ret (g, mk_ust (tok s) gs)
  end.

(** [strncpy] inside the memory. *)
Fixpoint flat_strncpy_loop (n : nat) (dest src i : Z) : cmd tokst Z :=
  match n with
  | O => mret i
  | S n =>
      c ← rd (src + i);
      if c =? 0 then mret i else wr (dest + i) c;; flat_strncpy_loop n dest src (i + 1)
  end.
Definition flat_strncpy (dest src count : Z) : cmd tokst unit :=
  i ← flat_strncpy_loop (Z.to_nat (count - 1)) dest src 0;
  wr (dest + i) 0.

(** A 32-bit word, in four bytes. *)
Fixpoint wr_bytes (p : Z) (bs : list Z) : cmd tokst unit :=
  match bs with
  | [] => mret tt
  | b :: bs => wr p b;; wr_bytes (p + 1) bs
  end.
Definition set_next (arg v : Z) : cmd tokst unit := wr_bytes (arg + ARGUMENT) (le_split 4 v).

(** The loop over the tokens after the first; [space] is the literal. *)
Fixpoint parse_loop (fuel : nat) (space current : Z) : cmd ust unit :=
  match fuel with
  | O => liftO OutOfFuel
  | S fuel =>
      token ← on_tok (strtok 0 space);
      if token =? 0 then mret tt
      else
        new_command ← sos_malloc sizeof_command_argument;
        if new_command =? 0 then mret tt
        else
          on_tok (flat_strncpy new_command token ARGUMENT);;
          on_tok (set_next new_command 0);;
          on_tok (set_next current new_command);;
          parse_loop fuel space new_command
  end.

(** [scommand] is the address of the array of 1025 bytes on the stack. *)
Definition sos_parse_command (fuel : nat) (scommand space command max : Z) : cmd ust Z :=
  on_tok (strtok 0 0);;
  if 1025 <=? max then mret 0
  else
    on_tok (flat_strncpy scommand command 1025);;
    token ← on_tok (strtok scommand space);
    if token =? 0 then mret 0
    else
      root_command ← sos_malloc sizeof_command_argument;
      if root_command =? 0 then mret 0
      else
        on_tok (flat_strncpy root_command token ARGUMENT);;
        on_tok (set_next root_command 0);;
        parse_loop fuel space root_command;;
        mret root_command.

(** [system]; the system call is an argument. *)
Definition system (sos_system : Z -> cmd ust Z) (fuel : nat) (scommand space filename : Z) : cmd ust Z :=
  args ← sos_parse_command fuel scommand space filename 512;
  if args =? 0 then mret (-2) else sos_system args.

(** ** Memory *)

(** The bytes [bs] written at [a]. *)
Definition put (a : Z) (bs m : list Z) : list Z := list_inserts (Z.to_nat a) bs m.

Lemma put_lookup_out a bs m j :
  0 <= a -> Z.of_nat j < a \/ a + Z.of_nat (length bs) <= Z.of_nat j -> put a bs m !! j = m !! j.
Proof.
  intros Ha [Hj|Hj]; unfold put; [apply list_lookup_inserts_lt; lia|apply list_lookup_inserts_ge; lia].
Qed.

Lemma put_lookup_in a bs m i :
  0 <= a -> (i < length bs)%nat -> a + Z.of_nat (length bs) <= Z.of_nat (length m) ->
  put a bs m !! (Z.to_nat a + i)%nat = bs !! i.
Proof.
  intros Ha Hi Hm. unfold put. rewrite list_lookup_inserts by lia. f_equal. lia.
Qed.

Lemma length_put a bs m : length (put a bs m) = length m.
Proof. apply length_inserts. Qed.

Lemma put_snoc a bs c m : 0 <= a -> <[(Z.to_nat a + length bs)%nat := c]> (put a bs m) = put a (bs ++ [c]) m.
Proof. intros Ha. unfold put. rewrite list_inserts_app_l. rewrite Nat.add_comm. done. Qed.

Lemma put_high a bs l1 l2 :
  Z.of_nat (length l1) <= a -> put a bs (l1 ++ l2) = l1 ++ put (a - Z.of_nat (length l1)) bs l2.
Proof.
  intros Ha. unfold put. replace (Z.to_nat a) with (length l1 + Z.to_nat (a - Z.of_nat (length l1)))%nat by lia.
  apply list_inserts_app_r.
Qed.

Lemma rd_lookup (s : tokst) p c : 0 <= p -> mem s !! Z.to_nat p = Some c -> rd p s = Ret (c, s).
Proof. intros Hp Hc. unfold rd. rewrite bind_getS. unfold liftO. by rewrite (load_Some _ _ c). Qed.

Lemma wr_spec m q p v : 0 <= p < Z.of_nat (length m) -> wr p v (mk_tok m q) = Ret (tt, mk_tok (<[Z.to_nat p := v]> m) q).
Proof. intros Hp. unfold wr. cbn [mem]. by rewrite store_Ret. Qed.

(** The copy of a string to a place apart from it. *)
Lemma flat_strncpy_loop_spec n m q dest src t i :
  str_at m src t -> 0 <= dest -> dest + Z.of_nat i + Z.of_nat n < Z.of_nat (length m) ->
  src + Z.of_nat (length t) < dest \/ dest + Z.of_nat i + Z.of_nat n <= src -> (i <= length t)%nat ->
  flat_strncpy_loop n dest src (Z.of_nat i) (mk_tok (put dest (take i t) m) q) =
    Ret (Z.of_nat (min (i + n) (length t)), mk_tok (put dest (take (i + n) t) m) q).
Proof.
  intros Hs Hd Hlen Hap Hi. revert i Hlen Hap Hi. induction n as [|n IH]; intros i Hlen Hap Hi.
  { cbn [flat_strncpy_loop]. by rewrite Nat.add_0_r, Nat.min_l by lia. }
  cbn [flat_strncpy_loop]. destruct Hs as (Hsrc & H0 & Ht).
  assert (Hrd : forall c, (t ++ [0]) !! i = Some c ->
    rd (src + Z.of_nat i) (mk_tok (put dest (take i t) m) q) = Ret (c, mk_tok (put dest (take i t) m) q)).
  { intros c Hc. apply rd_lookup; [lia|]. cbn [mem]. rewrite put_lookup_out.
    - replace (Z.to_nat (src + Z.of_nat i)) with (Z.to_nat src + i)%nat by lia. by apply Ht.
    - done.
    - rewrite length_take. lia. }
  destruct (decide (i = length t)) as [->|Hne].
  - rewrite lookup_app_r, Nat.sub_diag in Hrd by lia. step (Hrd 0 eq_refl). cbn [Z.eqb].
    rewrite Nat.min_r by lia. by rewrite !take_ge by lia.
  - destruct (lookup_lt_is_Some_2 t i) as [c Hc]; [lia|].
    step (Hrd c (lookup_app_l_Some _ _ _ _ Hc)).
    rewrite (proj2 (Z.eqb_neq c 0)) by (intros ->; apply H0; by eapply list_elem_of_lookup_2).
    step (wr_spec (put dest (take i t) m) q (dest + Z.of_nat i) c ltac:(rewrite length_put; lia)).
    replace (Z.to_nat (dest + Z.of_nat i)) with (Z.to_nat dest + length (take i t))%nat by (rewrite length_take; lia).
    rewrite put_snoc, <- take_S_r by done. replace (Z.of_nat i + 1) with (Z.of_nat (S i)) by lia.
    rewrite IH by lia. by replace (S i + n)%nat with (i + S n)%nat by lia.
Qed.

Lemma flat_strncpy_spec m q dest src t count :
  str_at m src t -> 0 <= dest -> 0 < count -> dest + count <= Z.of_nat (length m) ->
  src + Z.of_nat (length t) < dest \/ dest + count <= src ->
  flat_strncpy dest src count (mk_tok m q) =
    Ret (tt, mk_tok (put dest (take (Z.to_nat (count - 1)) t ++ [0]) m) q).
Proof.
  intros Hs Hd Hc Hlen Hap. unfold flat_strncpy.
  pose proof (flat_strncpy_loop_spec (Z.to_nat (count - 1)) m q dest src t 0 Hs Hd ltac:(lia) ltac:(lia) ltac:(lia)) as E.
  rewrite take_0 in E. change (put dest [] m) with m in E. step E. rewrite Nat.add_0_l.
  set (k := Z.to_nat (count - 1)). assert (Hk : (k < Z.to_nat count)%nat) by lia.
  assert (Hl : length (take k t) = min k (length t)) by apply length_take.
  rewrite wr_spec by (rewrite length_put; lia).
  replace (Z.to_nat (dest + Z.of_nat (min k (length t)))) with (Z.to_nat dest + length (take k t))%nat by lia.
  by rewrite put_snoc.
Qed.

Lemma wr_bytes_spec m q p bs done :
  0 <= p -> p + Z.of_nat (length done) + Z.of_nat (length bs) <= Z.of_nat (length m) ->
  wr_bytes (p + Z.of_nat (length done)) bs (mk_tok (put p done m) q) = Ret (tt, mk_tok (put p (done ++ bs) m) q).
Proof.
  intros Hp. revert done. induction bs as [|b bs IH]; intros d Hl; cbn [wr_bytes].
  { by rewrite app_nil_r. }
  cbn [length] in Hl. step (wr_spec (put p d m) q (p + Z.of_nat (length d)) b ltac:(rewrite length_put; lia)).
  replace (Z.to_nat (p + Z.of_nat (length d))) with (Z.to_nat p + length d)%nat by lia. rewrite put_snoc by done.
  specialize (IH (d ++ [b])). rewrite length_app in IH. cbn [length] in IH.
  replace (p + Z.of_nat (length d) + 1) with (p + Z.of_nat (length d + 1)) by lia. rewrite IH by lia.
  by rewrite <- app_assoc.
Qed.

Lemma set_next_spec m q a v :
  0 <= a -> a + 516 <= Z.of_nat (length m) -> set_next a v (mk_tok m q) = Ret (tt, mk_tok (put (a + 512) (le_split 4 v) m) q).
Proof.
  intros Ha Hl. unfold set_next, ARGUMENT. pose proof (wr_bytes_spec m q (a + 512) (le_split 4 v) []) as E.
  cbn [length] in E. rewrite Z.add_0_r in E. change (put (a + 512) [] m) with m in E. apply E; [lia|].
  rewrite length_le_split. lia.
Qed.

(** ** Lists of arguments *)

(** The word [v] is at [p]. *)
Definition word_at (m : list Z) (p v : Z) : Prop :=
  forall i b, le_split 4 v !! i = Some b -> m !! (Z.to_nat p + i)%nat = Some b.

(** The arguments from [p] on, in some of the blocks [gs]: each is the start of
    a word, as much of it as fits. *)
Inductive arg_list (m gs : list Z) : Z -> list (list Z) -> Prop :=
| al_nil : arg_list m gs 0 []
| al_cons p w q ws :
    p ∈ gs -> p <> 0 -> str_at m p (take 511 w) -> word_at m (p + 512) q -> arg_list m gs q ws -> arg_list m gs p (w :: ws).

Lemma arg_list_mono m gs gs' p ws : arg_list m gs p ws -> gs ⊆ gs' -> arg_list m gs' p ws.
Proof. intros Ha Hgs. induction Ha; [constructor|]. econstructor; eauto. Qed.

Definition apart (a b : Z) : Prop := a + 516 <= b \/ b + 516 <= a.

(** An address that is not written: not in the string from [lo] to [hi], not in
    the pointer of the last argument, not in a block to come. *)
Definition untouched (lo hi cur : Z) (gs : list Z) (j : nat) : Prop :=
  ~ lo <= Z.of_nat j < hi /\ ~ cur + 512 <= Z.of_nat j < cur + 516 /\
  forall g, g ∈ gs -> ~ g <= Z.of_nat j < g + 516.

Lemma word_at_put m p v : 0 <= p -> p + 4 <= Z.of_nat (length m) -> word_at (put p (le_split 4 v) m) p v.
Proof.
  intros Hp Hl i b Hi. pose proof (lookup_lt_Some _ _ _ Hi) as Hlt. rewrite length_le_split in Hlt.
  by rewrite put_lookup_in by (rewrite ?length_le_split; lia).
Qed.

Lemma word_at_frame m m' p v :
  (forall i, (i < 4)%nat -> m' !! (Z.to_nat p + i)%nat = m !! (Z.to_nat p + i)%nat) -> word_at m p v -> word_at m' p v.
Proof.
  intros Hf Hw i b Hi. pose proof (lookup_lt_Some _ _ _ Hi) as Hlt. rewrite length_le_split in Hlt. rewrite Hf by done. by apply Hw.
Qed.

Lemma str_at_put m a t :
  0 <= a -> (0 ∉ t) -> a + Z.of_nat (length t) < Z.of_nat (length m) -> str_at (put a (t ++ [0]) m) a t.
Proof.
  intros Ha H0 Hl. split; [done|]. split; [done|]. intros i c Hi. pose proof (lookup_lt_Some _ _ _ Hi) as Hlt.
  rewrite length_app in Hlt. simpl in Hlt. by rewrite put_lookup_in by (rewrite ?length_app; simpl; lia).
Qed.

(** A new argument: the start of the token, and a null pointer. *)
Definition node (g : Z) (t m : list Z) : list Z := put (g + 512) (le_split 4 0) (put g (take 511 t ++ [0]) m).

Lemma length_node g t m : length (node g t m) = length m.
Proof. unfold node. by rewrite !length_put. Qed.

Lemma node_out g t m j : 0 < g -> ~ g <= Z.of_nat j < g + 516 -> node g t m !! j = m !! j.
Proof.
  intros Hg Hj. pose proof (length_take t 511). unfold node.
  rewrite !put_lookup_out; rewrite ?length_le_split, ?length_app; cbn [length]; try lia. done.
Qed.

Lemma node_next g t m : 0 < g -> g + 516 <= Z.of_nat (length m) -> word_at (node g t m) (g + 512) 0.
Proof. intros Hg Hl. apply word_at_put; rewrite ?length_put; lia. Qed.

Lemma node_str g t m :
  0 < g -> g + 516 <= Z.of_nat (length m) -> (0 ∉ t) -> str_at (node g t m) g (take 511 t).
Proof.
  intros Hg Hgl H0. pose proof (length_take t 511) as Hl.
  eapply str_at_frame; [|apply (str_at_put m g (take 511 t)); [lia| |lia]].
  - intros i Hi. unfold node. rewrite (put_lookup_out (g + 512)); rewrite ?length_le_split; try lia. done.
  - intros [i Hi]%list_elem_of_lookup_1. apply lookup_take_Some in Hi as [Hi _]. apply H0. by eapply list_elem_of_lookup_2.
Qed.

(** Writes above a part of the memory leave it. *)
Lemma put_above a bs pre post : Z.of_nat (length pre) <= a -> exists post', put a bs (pre ++ post) = pre ++ post' /\ length post' = length post.
Proof. intros Ha. rewrite put_high by done. eexists. split; [done|]. apply length_put. Qed.

Lemma node_above g t pre s post :
  Z.of_nat (length pre + length s + 1) <= g ->
  exists post', node g t (pre ++ s ++ 0 :: post) = pre ++ s ++ 0 :: post'.
Proof.
  intros Hg. unfold node.
  assert (E : pre ++ s ++ 0 :: post = (pre ++ s ++ [0]) ++ post) by (by rewrite <- !app_assoc).
  rewrite E. destruct (put_above g (take 511 t ++ [0]) (pre ++ s ++ [0]) post) as (post1 & -> & _);
    [rewrite !length_app; simpl; lia|].
  destruct (put_above (g + 512) (le_split 4 0) (pre ++ s ++ [0]) post1) as (post2 & -> & _);
    [rewrite !length_app; simpl; lia|].
  exists post2. by rewrite <- !app_assoc.
Qed.

(** ** One token

    The memory [m1] and the pointer [p] after a call that finds the token [t]:
    the string [s] became [pre1] and [s'], nothing else changed. *)
Record token_found (pre s post : list Z) (D : Z -> bool) (p : Z) (t pre1 s' : list Z) : Prop := {
  tf_words : words D [] s = t :: words D [] s';
  tf_shorter : (length s' < length s)%nat;
  tf_length : (length pre1 + length s' = length pre + length s)%nat;
  tf_prefix : exists x, pre1 = pre ++ x;
  tf_zero : (0 ∉ t) /\ (0 ∉ s');
  tf_pos : (p <> 0 /\ Z.of_nat (length pre) <= p) /\ p + Z.of_nat (length t) < Z.of_nat (length pre + length s + 1);
  tf_str : str_at (pre1 ++ s' ++ 0 :: post) p t;
  tf_frame : forall j, ~ Z.of_nat (length pre) <= Z.of_nat j < Z.of_nat (length pre + length s + 1) ->
    (pre1 ++ s' ++ 0 :: post) !! j = (pre ++ s ++ 0 :: post) !! j
}.

Lemma strtok_token pre W dp ds s post :
  delims (pre ++ s ++ 0 :: post) W dp ds -> pre <> [] -> (0 ∉ s) ->
  let st := mk_tok (pre ++ s ++ 0 :: post) (Z.of_nat (length pre)) in
  (words (is_delim ds) [] s = [] /\ strtok 0 dp st = Ret (0, mk_tok (mem st) 0)) \/
  exists p t pre1 s', token_found pre s post (is_delim ds) p t pre1 s' /\
    strtok 0 dp st = Ret (p, mk_tok (pre1 ++ s' ++ 0 :: post) (Z.of_nat (length pre1))).
Proof.
  intros Hd Hne H0 st. destruct (strtok_next pre W dp ds s post Hd Hne H0) as [?|(seps & t & z & s' & Hcut & Hws & E)]; [by left|right].
  pose proof (cut_shorter _ _ _ _ _ _ Hcut Hws) as Hlt. destruct (cut_spec _ _ _ _ _ _ Hcut) as [(y & Hs & Hy) Hz].
  exists (Z.of_nat (length (pre ++ seps))), t, (pre ++ seps ++ t ++ z), s'. split; [|exact E].
  assert (Hlen : (length (pre ++ seps ++ t ++ z) + length s' = length pre + length s)%nat).
  { rewrite Hs, !length_app. lia. }
  assert (H0s : (0 ∉ t) /\ (0 ∉ s')) by (rewrite Hs in H0; set_solver).
  split; [done|done|done|by exists (seps ++ t ++ z)|done| | |].
  - split; [rewrite length_app; destruct pre; simpl; [done|lia]|].
    rewrite Hs, !length_app in *. destruct Hz as [[-> ->]| ->]; simpl in *; lia.
  - split; [lia|]. split; [apply H0s|]. intros i c Hi. rewrite Nat2Z.id.
    assert (exists w, (pre ++ seps ++ t ++ z) ++ s' ++ 0 :: post = (pre ++ seps) ++ (t ++ [0]) ++ w) as [w ->].
    { destruct Hz as [[-> ->]| ->]; [exists post|exists (s' ++ 0 :: post)]; app_norm; done. }
    rewrite lookup_app_r by lia. replace (length (pre ++ seps) + i - length (pre ++ seps))%nat with i by lia.
    by apply lookup_app_l_Some.
  - intros j Hj. apply (cut_frame _ _ _ _ _ _ pre post j Hcut). unfold between. lia.
Qed.

(** ** The loop *)
Lemma on_tok_spec {A} (c : cmd tokst A) t gs a t' : c t = Ret (a, t') -> on_tok c (mk_ust t gs) = Ret (a, mk_ust t' gs).
Proof. intros E. unfold on_tok. cbn [tok]. by rewrite E. Qed.

(** Filling a new argument. *)
Lemma fill_node m q gs g p t :
  str_at m p t -> 0 < g -> g + 516 <= Z.of_nat (length m) -> p + Z.of_nat (length t) < g ->
  on_tok (flat_strncpy g p ARGUMENT) (mk_ust (mk_tok m q) gs) = Ret (tt, mk_ust (mk_tok (put g (take 511 t ++ [0]) m) q) gs) /\
  on_tok (set_next g 0) (mk_ust (mk_tok (put g (take 511 t ++ [0]) m) q) gs) = Ret (tt, mk_ust (mk_tok (node g t m) q) gs).
Proof.
  intros Hs Hg Hgl Hp. split; apply on_tok_spec.
  - apply (flat_strncpy_spec m q g p t ARGUMENT Hs); unfold ARGUMENT; lia.
  - apply set_next_spec; rewrite ?length_put; lia.
Qed.

Lemma command_loop_spec fuel pre s post W dp ds cur gs :
  (length s < fuel)%nat -> delims (pre ++ s ++ 0 :: post) W dp ds -> pre <> [] -> (0 ∉ s) ->
  let m := pre ++ s ++ 0 :: post in
  let hi := Z.of_nat (length pre + length s + 1) in
  (forall j, between (Z.of_nat (length pre)) hi j -> W j) -> (forall g j, g ∈ cur :: gs -> between g (g + 516) j -> W j) ->
  (forall g, g ∈ cur :: gs -> hi <= g /\ g + 516 <= Z.of_nat (length m)) -> ForallOrdPairs apart (cur :: gs) ->
  word_at m (cur + 512) 0 ->
  exists m' p' gs' q, parse_loop fuel dp cur (mk_ust (mk_tok m (Z.of_nat (length pre))) gs) = Ret (tt, mk_ust (mk_tok m' p') gs') /\
    length m' = length m /\ word_at m' (cur + 512) q /\
    arg_list m' gs q (take (length gs) (words (is_delim ds) [] s)) /\
    forall j, untouched (Z.of_nat (length pre)) hi cur gs j -> m' !! j = m !! j.
Proof.
  revert pre s post cur gs. induction fuel as [|fuel IH]; intros pre s post cur gs Hf Hd Hne H0 m hi HW1 HW2 Hin Hap Hw; [lia|].
  cbn [parse_loop]. destruct (strtok_token pre W dp ds s post Hd Hne H0) as [[Hws E]|(p & t & pre1 & s' & Htf & E)]; fold m in E.
  { step (on_tok_spec _ _ gs _ _ E). exists m, 0, gs, 0. rewrite Hws, take_nil. split_and!; [done|done|done|constructor|done]. }
  step (on_tok_spec _ _ gs _ _ E). destruct Htf as [Hws Hlt Hlen [x Hx] [H0t H0s'] [[Hp _] Hpt] Hstr Hframe].
  set (m1 := pre1 ++ s' ++ 0 :: post) in *. fold m hi in Hframe, Hpt. rewrite (proj2 (Z.eqb_neq p 0)) by done.
  assert (Hm1 : length m1 = length m) by (unfold m1, m; rewrite !length_app; simpl; lia).
  destruct (Hin cur ltac:(left)) as [Hcl Hch]. unfold sos_malloc. unfold mbind at 1, cmd_bind at 1. cbn [grants tok].
  destruct gs as [|g gs].
  { exists m1, (Z.of_nat (length pre1)), [], 0. split_and!; [done|done| |constructor|intros j (Hj & _); by apply Hframe].
    eapply word_at_frame; [|exact Hw]. intros i Hi. apply Hframe. unfold hi in *. lia. }
  destruct (Hin g ltac:(right; left)) as [Hgl Hgh].
  assert (Forall (apart cur) (g :: gs) /\ ForallOrdPairs apart (g :: gs)) as [Hap1 Hap2] by (by inversion Hap).
  assert (Hcg : apart cur g) by (by inversion Hap1). unfold apart in Hcg.
  assert (0 < g /\ 0 < cur) as [Hg0 Hc0] by (unfold hi in *; lia).
  rewrite (proj2 (Z.eqb_neq g 0)) by lia.
  destruct (fill_node m1 (Z.of_nat (length pre1)) gs g p t Hstr Hg0 ltac:(lia) ltac:(lia)) as [E1 E2]. step E1. step E2.
  destruct (node_above g t pre1 s' post ltac:(rewrite Hlen; exact Hgl)) as [post2 Hn]. fold m1 in Hn.
  pose proof (on_tok_spec (set_next cur g) _ gs _ _ (set_next_spec (node g t m1) (Z.of_nat (length pre1)) cur g ltac:(lia)
    ltac:(rewrite length_node; lia))) as E3. step E3.
  set (m4 := put (cur + 512) (le_split 4 g) (node g t m1)).
  assert (Hm4 : exists post4, m4 = pre1 ++ s' ++ 0 :: post4).
  { unfold m4. rewrite Hn. destruct (put_above (cur + 512) (le_split 4 g) (pre1 ++ s' ++ [0]) post2) as (post4 & Hp4 & _).
    - rewrite !length_app. simpl. unfold hi in *. lia.
    - exists post4. rewrite <- !app_assoc in Hp4. exact Hp4. }
  destruct Hm4 as [post4 Hm4].
  assert (Hl4 : length m4 = length m) by (unfold m4; rewrite length_put, length_node; done).
  assert (Hm4o : forall j, ~ cur + 512 <= Z.of_nat j < cur + 516 -> m4 !! j = node g t m1 !! j).
  { intros j Hj. unfold m4. apply put_lookup_out; rewrite ?length_le_split; lia. }
  destruct (IH pre1 s' post4 g gs) as (m' & p' & gs' & q & Hrun & Hl' & Hwq & Hargs & Hout); rewrite <- ?Hm4;
    [lia| |by subst pre1; destruct pre|done| |intros g' j Hg'; apply HW2; by right
    |rewrite Hl4; intros g' Hg'; rewrite Hlen; apply Hin; by right|done| |].
  { eapply delims_frame; [exact Hd| |done]. intros j Hj. rewrite Hm4o, node_out.
    - apply Hframe. intros Hb. by apply Hj, HW1.
    - done.
    - intros Hb. apply Hj, (HW2 g); [right; left|done].
    - intros Hb. apply Hj, (HW2 cur); [left|unfold between; lia]. }
  { intros j Hj. apply HW1. unfold between in *. subst pre1. rewrite !length_app in *. lia. }
  { eapply word_at_frame; [|apply (node_next g t m1); lia]. intros i Hi. apply Hm4o. lia. }
  rewrite Hlen in Hout. fold hi in Hout. rewrite <- Hm4 in Hout, Hl', Hrun.
  assert (Hkeep : forall j, hi <= Z.of_nat j -> ~ g + 512 <= Z.of_nat j < g + 516 ->
    cur <= Z.of_nat j < cur + 516 \/ g <= Z.of_nat j < g + 516 -> m' !! j = m4 !! j).
  { intros j Hj Hj2 Hj3. apply Hout. split; [unfold hi in *; lia|]. split; [done|]. intros g' Hg'.
    assert (Hap3 : Forall (apart g) gs) by (by inversion Hap2). rewrite Forall_forall in Hap1, Hap3.
    specialize (Hap1 g' ltac:(by right)). specialize (Hap3 g' Hg'). unfold apart in *. lia. }
  exists m', p', gs', g. split; [exact Hrun|]. split; [congruence|]. split; [|split].
  - eapply word_at_frame; [|apply (word_at_put (node g t m1) (cur + 512) g); rewrite ?length_node; lia].
    intros i Hi. apply Hkeep; lia.
  - rewrite Hws. cbn [length take]. apply (al_cons _ _ _ _ q); [left|lia| |exact Hwq|eapply arg_list_mono; [exact Hargs|set_solver]].
    eapply str_at_frame; [|apply (node_str g t m1 Hg0 ltac:(lia) H0t)].
    intros i Hi. rewrite length_take in Hi. rewrite Hkeep by lia. apply Hm4o. lia.
  - intros j (Hj1 & Hj2 & Hj3). rewrite Hout.
    + rewrite Hm4o by done. rewrite node_out by (done || apply Hj3; left). by apply Hframe.
    + split; [subst pre1; rewrite !length_app; lia|]. split.
      * intros Hj. apply (Hj3 g); [left|lia].
      * intros g' Hg'. apply Hj3. by right.
Qed.

(** ** The whole function *)
Lemma put_start bs pre l :
  (length bs <= length l)%nat -> put (Z.of_nat (length pre)) bs (pre ++ l) = pre ++ bs ++ drop (length bs) l.
Proof.
  intros Hl. rewrite put_high, Z.sub_diag by lia. f_equal. unfold put. change (Z.to_nat 0) with 0%nat.
  apply list_eq. intros i. destruct (decide (i < length bs)%nat) as [Hi|Hi].
  - rewrite list_lookup_inserts, lookup_app_l by (rewrite ?length_app, ?length_take, ?length_drop; lia). f_equal. lia.
  - rewrite list_lookup_inserts_ge by lia. rewrite lookup_app_r, lookup_drop by lia. f_equal. lia.
Qed.

(** The call of [strtok] that resets it, and the copy of the command. *)
Lemma command_copied pre buf post command cs p n :
  (length buf = 1025)%nat -> str_at (pre ++ buf ++ post) command cs ->
  (command + Z.of_nat (length cs) < Z.of_nat (length pre) \/ Z.of_nat (length pre) + 1025 <= command) ->
  UString.strlen (pre ++ buf ++ post) = Ret n ->
  exists post', length (pre ++ take 1024 cs ++ 0 :: post') = length (pre ++ buf ++ post) /\
    (forall j, ~ Z.of_nat (length pre) <= Z.of_nat j < Z.of_nat (length pre) + 1025 ->
       (pre ++ take 1024 cs ++ 0 :: post') !! j = (pre ++ buf ++ post) !! j) /\
    strtok 0 0 (mk_tok (pre ++ buf ++ post) p) = Ret (0, mk_tok (pre ++ buf ++ post) 0) /\
    flat_strncpy (Z.of_nat (length pre)) command 1025 (mk_tok (pre ++ buf ++ post) 0) =
      Ret (tt, mk_tok (pre ++ take 1024 cs ++ 0 :: post') 0).
Proof.
  intros Hb Hs Hc Hn. pose proof (length_take cs 1024) as Hl.
  exists (drop (length (take 1024 cs ++ [0])) (buf ++ post)).
  assert (E : pre ++ take 1024 cs ++ 0 :: drop (length (take 1024 cs ++ [0])) (buf ++ post) =
    put (Z.of_nat (length pre)) (take 1024 cs ++ [0]) (pre ++ buf ++ post)).
  { rewrite put_start by (rewrite !length_app; simpl; lia). app_norm. done. }
  rewrite E. split; [apply length_put|]. split.
  { intros j Hj. apply put_lookup_out; [lia|]. rewrite length_app. simpl. lia. }
  split; [by apply (strtok_reset (mk_tok (pre ++ buf ++ post) p) n)|].
  rewrite (flat_strncpy_spec _ _ _ _ cs) by (done || (rewrite ?length_app; lia)). done.
Qed.

(** The first argument, filled. *)
Lemma node_keeps_string g t pre s post q gs p :
  let m := pre ++ s ++ 0 :: post in
  str_at m p t -> (0 ∉ t) -> Z.of_nat (length pre + length s + 1) <= g -> g + 516 <= Z.of_nat (length m) ->
  p + Z.of_nat (length t) < g ->
  exists post', node g t m = pre ++ s ++ 0 :: post' /\
    on_tok (flat_strncpy g p ARGUMENT) (mk_ust (mk_tok m q) gs) = Ret (tt, mk_ust (mk_tok (put g (take 511 t ++ [0]) m) q) gs) /\
    on_tok (set_next g 0) (mk_ust (mk_tok (put g (take 511 t ++ [0]) m) q) gs) =
      Ret (tt, mk_ust (mk_tok (pre ++ s ++ 0 :: post') q) gs).
Proof.
  intros m' Hs H0 Hg Hgl Hp. destruct (node_above g t pre s post Hg) as [post' Hn].
  destruct (fill_node m' q gs g p t Hs ltac:(lia) Hgl Hp) as [E1 E2]. fold m' in Hn. rewrite Hn in E2. by exists post'.
Qed.

(** What the splitting of a command may write: the array at [lo] and the blocks. *)
Definition command_writes (lo : Z) (gs : list Z) (j : Z) : Prop :=
  between lo (lo + 1025) j \/ exists g, g ∈ gs /\ between g (g + 516) j.

(** A command line becomes the list of its words: [sos_parse_command]
    returns a linked list with one argument for each word between spaces, in
    order, each cut to the 511 characters an argument has room for; the command
    is cut to the 1024 characters of the array on the stack; when the kernel
    has no more memory the list ends early, and is null when nothing fits or
    there is no word.  Neither the command itself nor any other memory
    changes.  The command and the separator may be before or behind the array,
    but not in what is written. *)
Lemma parse_command_spec fuel pre buf post space command cs p n gs max :
  (1024 < fuel)%nat -> max < 1025 -> (length buf = 1025)%nat -> 0 < Z.of_nat (length pre) ->
  delims (pre ++ buf ++ post) (command_writes (Z.of_nat (length pre)) gs) space [32] ->
  str_at (pre ++ buf ++ post) command cs ->
  (command + Z.of_nat (length cs) < Z.of_nat (length pre) \/ Z.of_nat (length pre) + 1025 <= command) ->
  UString.strlen (pre ++ buf ++ post) = Ret n ->
  (forall g, g ∈ gs -> Z.of_nat (length pre) + 1025 <= g /\ g + 516 <= Z.of_nat (length (pre ++ buf ++ post))) ->
  ForallOrdPairs apart gs ->
  exists m' p' gs' q,
    sos_parse_command fuel (Z.of_nat (length pre)) space command max (mk_ust (mk_tok (pre ++ buf ++ post) p) gs) =
      Ret (q, mk_ust (mk_tok m' p') gs') /\ length m' = length (pre ++ buf ++ post) /\
    arg_list m' gs q (take (length gs) (words (is_delim [32]) [] (take 1024 cs))) /\
    forall j : nat, ~ command_writes (Z.of_nat (length pre)) gs (Z.of_nat j) -> m' !! j = (pre ++ buf ++ post) !! j.
Proof.
  intros Hf Hmax Hb Hlp Hd Hs Hc Hn Hgs Hap. pose proof (length_take cs 1024) as Hl.
  assert (H0 : 0 ∉ take 1024 cs).
  { destruct Hs as (_ & H0 & _). intros [i [Hi _]%lookup_take_Some]%list_elem_of_lookup_1. apply H0. by eapply list_elem_of_lookup_2. }
  assert (Hne : pre <> []) by (intros ->; simpl in Hlp; lia).
  destruct (command_copied pre buf post command cs p n Hb Hs Hc Hn) as (post1 & Hm1 & Hout1 & E1 & E2).
  set (line := take 1024 cs) in *. set (W := command_writes (Z.of_nat (length pre)) gs) in *.
  assert (HWb : forall j, between (Z.of_nat (length pre)) (Z.of_nat (length pre) + 1025) j -> W j) by (intros j Hj; by left).
  assert (HWg : forall g j, g ∈ gs -> between g (g + 516) j -> W j) by (intros g j Hg Hj; right; by exists g).
  assert (Hd1 : delims (pre ++ line ++ 0 :: post1) W space [32]).
  { eapply delims_frame; [exact Hd| |done]. intros j Hj. apply Hout1. intros Hb'. by apply Hj, HWb. }
  unfold sos_parse_command. step (on_tok_spec _ _ gs _ _ E1).
  rewrite (proj2 (Z.leb_gt 1025 max)) by done. step (on_tok_spec _ _ gs _ _ E2). clear E1 E2.
  assert (Ef : forall m, strtok (Z.of_nat (length pre)) space (mk_tok m 0) = strtok 0 space (mk_tok m (Z.of_nat (length pre)))).
  { intros m. apply strtok_first; [lia|destruct Hd; lia|done]. }
  destruct (strtok_token pre W space [32] line post1 Hd1 Hne H0) as [[Hws E]|(tp & t & pre1 & s' & Htf & E)]; rewrite <- Ef in E;
    step (on_tok_spec _ _ gs _ _ E).
  { exists (pre ++ line ++ 0 :: post1), 0, gs, 0. rewrite Hws, take_nil. split; [done|]. split; [done|]. split; [constructor|].
    intros j Hj. apply Hout1. intros Hb'. by apply Hj, HWb. }
  destruct Htf as [Hws Hlt Hlen [x Hx] [H0t H0s'] [[Hp _] Hpt] Hstr Hframe]. rewrite (proj2 (Z.eqb_neq tp 0)) by done.
  assert (Hlm : length (pre1 ++ s' ++ 0 :: post1) = length (pre ++ buf ++ post)).
  { rewrite <- Hm1, !length_app. simpl. lia. }
  assert (Hkept : forall j : nat, ~ W (Z.of_nat j) -> (pre1 ++ s' ++ 0 :: post1) !! j = (pre ++ buf ++ post) !! j).
  { intros j Hj. rewrite Hframe; [apply Hout1|]; intros Hb'; apply Hj, HWb; unfold between; lia. }
  unfold sos_malloc. unfold mbind at 1, cmd_bind at 1. cbn [grants tok]. destruct gs as [|g gs].
  { exists (pre1 ++ s' ++ 0 :: post1), (Z.of_nat (length pre1)), [], 0. split; [done|]. split; [done|]. split; [constructor|done]. }
  destruct (Hgs g ltac:(left)) as [Hgl Hgh]. rewrite (proj2 (Z.eqb_neq g 0)) by lia.
  destruct (node_keeps_string g t pre1 s' post1 (Z.of_nat (length pre1)) gs tp Hstr H0t) as (post2 & Hnode & E3 & E4); [lia..|].
  step E3. step E4.
  assert (Hnk : forall j : nat, ~ W (Z.of_nat j) -> node g t (pre1 ++ s' ++ 0 :: post1) !! j = (pre ++ buf ++ post) !! j).
  { intros j Hj. rewrite node_out; [by apply Hkept|lia|]. intros Hb'. apply Hj, (HWg g); [left|done]. }
  destruct (command_loop_spec fuel pre1 s' post2 W space [32] g gs) as (m' & p' & gs' & q & Hrun & Hl' & Hwq & Hargs & Hout); rewrite <- ?Hnode;
    [lia| |by subst pre1; destruct pre|done| |intros g' j Hg'; by apply HWg| |done|apply node_next; lia|].
  { by eapply delims_frame; [exact Hd|exact Hnk|done]. }
  { intros j Hj. apply HWb. unfold between in *. subst pre1. rewrite length_app in *. lia. }
  { rewrite length_node, Hlm. intros g' Hg'. specialize (Hgs g' Hg'). lia. }
  rewrite Hnode. step Hrun. exists m', p', gs', g. split; [done|]. rewrite <- Hnode in Hout, Hl'.
  split; [by rewrite Hl', length_node|]. split.
  - rewrite Hws. cbn [length take]. apply (al_cons _ _ _ _ q); [left|lia| |exact Hwq|eapply arg_list_mono; [exact Hargs|set_solver]].
    eapply str_at_frame; [|apply (node_str g t (pre1 ++ s' ++ 0 :: post1)); [lia|lia|done]].
    intros i Hi. rewrite length_take in Hi. apply Hout. split; [lia|]. split; [lia|]. intros g' Hg'.
    assert (Hap1 : Forall (apart g) gs) by (by inversion Hap). rewrite Forall_forall in Hap1.
    specialize (Hap1 g' Hg'). unfold apart in Hap1. lia.
  - intros j Hj. rewrite Hout; [by apply Hnk|]. split; [|split].
    + intros Hb'. apply Hj, HWb. unfold between. subst pre1. rewrite length_app in *. lia.
    + intros Hb'. apply Hj, (HWg g); [left|unfold between; lia].
    + intros g' Hg' Hb'. apply Hj, (HWg g'); [by right|done].
Qed.
