(* ===== verification/UserStdio.v ===== *)
(** * Formatted output and line input of the user library
      (src/programs/stdlib/src/stdio.c)

    The routines make system calls: the output is the sequence of them, and the
    input is what [getkey] will return from now on, 0 when no key was pressed.  A
    program that waits for ever is [OutOfFuel]. *)
From S2P Require Import Prelude CString UserString.

Inductive syscall :=
| SPrint (s : list Z)
| SPutchar (c : Z).

(** [text] is the static buffer of [itoa]. *)
Record io := mk_io { keys : list Z; calls : list syscall; text : list Z }.

Definition emit (c : syscall) : cmd io unit := modifyS (fun s => mk_io (keys s) (calls s ++ [c]) (text s)).

(** The bytes up to the terminator, which the system call copies. *)
Fixpoint string_at (p : list Z) : outcome (list Z) :=
  match p with
  | [] => Oob
  | c :: p => if c =? 0 then Ret [] else s ← string_at p; Ret (c :: s)
  end.

Definition print (msg : list Z) : cmd io unit :=
  s ← liftO (string_at msg);
  emit (SPrint s).

Definition puts (str : list Z) : cmd io Z := print str;; mret 0.
Definition putchar (ch : Z) : cmd io Z := emit (SPutchar (u8 ch));; mret 0.

Definition getkey : cmd io Z := fun s =>
  match keys s with
  | [] => OutOfFuel
  | k :: ks => Ret (k, mk_io ks (calls s) (text s))
  end.

(** The result is put into an [unsigned char]. *)
Fixpoint getchar_loop (n : nat) : cmd io Z :=
  match n with
  | O => liftO OutOfFuel
  | S n =>
      k ← getkey;
      let c := u8 k in
      if c =? 0 then getchar_loop n else mret c
  end.
Definition getchar : cmd io Z := s ← getS; getchar_loop (length (keys s)).

(** ** printf *)

(** What [va_arg] finds; reading it as something else is not defined. *)
Inductive vararg :=
| VInt (v : Z)
| VStr (p : list Z).

Definition print_int (v : Z) : cmd io unit :=
  s ← getS;
  '(t, loc) ← liftO (UString.itoa (text s) v);
  modifyS (fun s => mk_io (keys s) (calls s) t);;
  print (drop (Z.to_nat loc) t).

Fixpoint printf_loop (p : list Z) (ap : list vararg) : cmd io unit :=
  match p with
  | [] => liftO Oob
  | c :: p =>
      if c =? 0 then mret tt
      else if negb (c =? 37) then putchar c;; printf_loop p ap
      else
        match p with
        | [] => liftO Oob
        | c :: p =>
            if (c =? 105) || (c =? 100) then
              match ap with
              | VInt v :: ap => print_int v;; printf_loop p ap
              | _ => liftO Oob
              end
            else if c =? 115 then
              match ap with
              | VStr s :: ap => print s;; printf_loop p ap
              | _ => liftO Oob
              end
            else if c =? 99 then
              match ap with
              | VInt v :: ap => putchar v;; printf_loop p ap
              | _ => liftO Oob
              end
            else putchar c;; printf_loop p ap
        end
  end.
Definition printf (fmt : list Z) (ap : list vararg) : cmd io Z := printf_loop fmt ap;; mret 0.

(** ** Line input: [out] is at index [o] of its buffer *)
Definition KEY_DOWN : Z := 220.

Fixpoint gets_loop (n : nat) (buf : list Z) (o : Z) : cmd io (list Z) :=
  match n with
  | O => liftO OutOfFuel
  | S n =>
      c ← getchar;
      if c =? 13 then liftO (store buf o 0)
      else if KEY_DOWN <=? c then gets_loop n buf o
      else if c =? 8 then
        if o =? 0 then gets_loop n buf o
        else
          buf ← liftO (store buf (o - 1) 0);
          putchar 8;;
          gets_loop n buf (o - 1)
      else
        buf ← liftO (store buf o c);
        putchar c;;
        gets_loop n buf (o + 1)
  end.
Definition gets (buf : list Z) : cmd io (list Z) := s ← getS; gets_loop (S (length (keys s))) buf 0.

(** [i] is an [unsigned char] that the code does not initialise. *)
Fixpoint getline_loop (n : nat) (buf : list Z) (o i max : Z) : cmd io (list Z * Z) :=
  match n with
  | O => liftO OutOfFuel
  | S n =>
      c ← getchar;
      if (c =? 13) || (max <=? i) then
        buf ← liftO (store buf o 0);
        mret (buf, i)
      else if KEY_DOWN <=? c then getline_loop n buf o i max
      else if c =? 8 then
        if o =? 0 then getline_loop n buf o i max
        else
          buf ← liftO (store buf (o - 1) 0);
          putchar 8;;
          getline_loop n buf (o - 1) (u8 (i - 1)) max
      else
        buf ← liftO (store buf o c);
        putchar c;;
        getline_loop n buf (o + 1) (u8 (i + 1)) max
  end.
Definition getline (i : Z) (buf : list Z) (max : Z) : cmd io (list Z * Z) :=
  s ← getS; getline_loop (S (length (keys s))) buf 0 i max.

(** The line of [scanf]; [i] counts the spaces. *)
Fixpoint get_s_loop (n : nat) (buf : list Z) (o i lim : Z) : cmd io (list Z) :=
  match n with
  | O => liftO OutOfFuel
  | S n =>
      c ← getchar;
      if (c =? 13) || (lim <=? i) then liftO (store buf o 0)
      else if KEY_DOWN <=? c then get_s_loop n buf o i lim
      else if c =? 8 then
        if o =? 0 then get_s_loop n buf o i lim
        else
          buf ← liftO (store buf (o - 1) 0);
          putchar 8;;
          get_s_loop n buf (o - 1) i lim
      else
        buf ← liftO (store buf o c);
        putchar c;;
        get_s_loop n buf (o + 1) (if c =? 32 then u8 (i + 1) else i) lim
  end.
Definition get_s (i : Z) (buf : list Z) (lim : Z) : cmd io (list Z) :=
  s ← getS; get_s_loop (S (length (keys s))) buf 0 i lim.

(** ** What is shown *)
Definition shown_text (c : syscall) : list Z :=
  match c with
  | SPrint s => s
  | SPutchar c => [c]
  end.
Definition output (s : io) : list Z := concat (shown_text <$> calls s).

(** The parts of a format, what they take and what they print. *)
Inductive piece :=
| PLit (c : Z)
| PInt (v : Z)
| PStr (buf s : list Z)
| PChr (v : Z)
| POther (c : Z).

Definition piece_format (p : piece) : list Z :=
  match p with
  | PLit c => [c]
  | PInt _ => [37; 100]
  | PStr _ _ => [37; 115]
  | PChr _ => [37; 99]
  | POther c => [37; c]
  end.

Definition piece_args (p : piece) : list vararg :=
  match p with
  | PInt v | PChr v => [VInt v]
  | PStr buf _ => [VStr buf]
  | _ => []
  end.

Definition piece_text (p : piece) (out : list Z) : Prop :=
  match p with
  | PLit c => out = [c] /\ c <> 37 /\ 0 < c < 256
  | PInt v => decimal v out /\ -2147483648 <= v < 2147483648
  | PStr buf s => out = s /\ cstr buf s
  | PChr v => out = [u8 v]
  | POther c => out = [c] /\ 0 < c < 256 /\ c <> 105 /\ c <> 100 /\ c <> 115 /\ c <> 99
  end.

Lemma string_at_spec buf s : cstr buf s -> string_at buf = Ret s.
Proof.
  revert buf. induction s as [|c s IH]; intros buf H.
  - by apply cstr_nil in H as [r ->].
  - destruct (cstr_inv _ _ H) as [[? _] | (? & ? & b & [= <- <-] & -> & Hc & H')]; [done|].
    simpl. rewrite (proj2 (Z.eqb_neq c 0)) by done. by rewrite (IH _ H').
Qed.

Lemma print_spec buf s st : cstr buf s -> print buf st = Ret (tt, mk_io (keys st) (calls st ++ [SPrint s]) (text st)).
Proof. intros H. unfold print. by rewrite (bind_liftO _ _ _ _ (string_at_spec _ _ H)). Qed.

Lemma print_int_spec v st :
  length (text st) = 12%nat -> -2147483648 <= v < 2147483648 ->
  exists s t, print_int v st = Ret (tt, mk_io (keys st) (calls st ++ [SPrint s]) t) /\ decimal v s /\ length t = 12%nat.
Proof.
  intros Hl Hv. destruct (itoa_decimal (text st) v Hl Hv) as (t & loc & out & E & Ht & Hd & Hdec).
  unfold print_int. rewrite bind_getS. unfold UString.itoa. rewrite (bind_liftO _ _ _ _ E), bind_modifyS.
  exists out, t. split; [|done]. apply (print_spec _ _ (mk_io (keys st) (calls st) t)). rewrite Hd. split; [|by exists []].
  intros H0. pose proof (decimal_bytes v out Hdec) as Hb. rewrite Forall_forall in Hb.
  specialize (Hb 0 H0). unfold is_digit in Hb. lia.
Qed.

Lemma output_emit s c ks t : output (mk_io ks (calls s ++ [c]) t) = output s ++ shown_text c.
Proof. unfold output. simpl. by rewrite fmap_app, concat_app; simpl; rewrite app_nil_r. Qed.

(** The conversions one by one. *)
Lemma printf_d v p ap s : printf_loop (37 :: 100 :: p) (VInt v :: ap) s = (print_int v;; printf_loop p ap) s.
Proof. done. Qed.
Lemma printf_s b p ap s : printf_loop (37 :: 115 :: p) (VStr b :: ap) s = (print b;; printf_loop p ap) s.
Proof. done. Qed.
Lemma printf_c v p ap s : printf_loop (37 :: 99 :: p) (VInt v :: ap) s = (putchar v;; printf_loop p ap) s.
Proof. done. Qed.
Lemma printf_other c p ap s :
  c <> 105 -> c <> 100 -> c <> 115 -> c <> 99 -> printf_loop (37 :: c :: p) ap s = (putchar c;; printf_loop p ap) s.
Proof.
  intros H1 H2 H3 H4. cbn [printf_loop]. change (37 =? 0) with false. change (37 =? 37) with true. cbn [negb].
  by rewrite (proj2 (Z.eqb_neq _ _) H1), (proj2 (Z.eqb_neq _ _) H2), (proj2 (Z.eqb_neq _ _) H3), (proj2 (Z.eqb_neq _ _) H4).
Qed.

Lemma printf_loop_spec ps outs post s :
  Forall2 piece_text ps outs -> length (text s) = 12%nat ->
  exists s', printf_loop (concat (piece_format <$> ps) ++ 0 :: post) (concat (piece_args <$> ps)) s = Ret (tt, s') /\
    output s' = output s ++ concat outs /\ keys s' = keys s.
Proof.
  intros H. revert s. induction H as [|p o ps outs Hp _ IH]; intros s Hl.
  { exists s. simpl. by rewrite app_nil_r. }
  assert (Hput : forall c, exists s1, (putchar c;; printf_loop (concat (piece_format <$> ps) ++ 0 :: post) (concat (piece_args <$> ps))) s =
      printf_loop (concat (piece_format <$> ps) ++ 0 :: post) (concat (piece_args <$> ps)) s1 /\
      output s1 = output s ++ [u8 c] /\ keys s1 = keys s /\ length (text s1) = 12%nat).
  { intros c. exists (mk_io (keys s) (calls s ++ [SPutchar (u8 c)]) (text s)). split; [done|].
    split; [apply output_emit|done]. }
  assert (Hend : forall s1 o1, output s1 = output s ++ o1 -> keys s1 = keys s -> length (text s1) = 12%nat ->
     exists s', printf_loop (concat (piece_format <$> ps) ++ 0 :: post) (concat (piece_args <$> ps)) s1 = Ret (tt, s') /\
       output s' = output s ++ o1 ++ concat outs /\ keys s' = keys s).
  { intros s1 o1 Ho Hk Hl1. destruct (IH s1 Hl1) as (s' & E & Ho' & Hk'). exists s'. split; [done|].
    rewrite Ho', Ho, <- app_assoc, Hk'. done. }
  destruct p as [c|v|buf str|v|c]; simpl in Hp; cbn [fmap list_fmap concat piece_format piece_args app].
  - destruct Hp as (-> & Hc & Hr). cbn [printf_loop]. rewrite (proj2 (Z.eqb_neq c 0)), (proj2 (Z.eqb_neq c 37)) by lia. cbn [negb].
    destruct (Hput c) as (s1 & -> & Ho & Hk & Hl1). rewrite u8_id in Ho by lia. by apply Hend.
  - destruct Hp as [Hd Hr]. rewrite printf_d.
    destruct (print_int_spec v s Hl Hr) as (str & t & E & Hd2 & Ht). step E.
    rewrite (decimal_unique v o str) by done. apply Hend; [apply output_emit|done|done].
  - destruct Hp as [-> Hc]. rewrite printf_s. step (print_spec _ _ s Hc).
    apply Hend; [apply output_emit|done|done].
  - subst o. rewrite printf_c. destruct (Hput v) as (s1 & -> & Ho & Hk & Hl1). by apply Hend.
  - destruct Hp as (-> & Hr & H1 & H2 & H3 & H4). rewrite printf_other by done.
    destruct (Hput c) as (s1 & -> & Ho & Hk & Hl1). rewrite u8_id in Ho by lia. by apply Hend.
Qed.

(** C28: [printf] prints what the format says: for every format of literal
    characters, %d, %s, %c and % before any other character, and arguments to
    match, the characters of its system calls are the literal ones, the decimal
    digits of every int, the strings and the characters, in order. *)
Theorem printf_correct ps outs post s :
  Forall2 piece_text ps outs -> length (text s) = 12%nat ->
  exists s', printf (concat (piece_format <$> ps) ++ 0 :: post) (concat (piece_args <$> ps)) s = Ret (0, s') /\
    output s' = output s ++ concat outs /\ keys s' = keys s.
Proof.
  intros Hps Hl. destruct (printf_loop_spec ps outs post s Hps Hl) as (s' & E & Ho).
  exists s'. split; [|exact Ho]. unfold printf. by step E.
Qed.

(** ** That a call of [printf] comes back: the conversions of a format, and
    arguments that suit them *)
Inductive conv := CInt | CStr | CChr.

Fixpoint conversions (p : list Z) : option (list conv) :=
  match p with
  | [] => None
  | c :: p =>
      if c =? 0 then Some []
      else if negb (c =? 37) then conversions p
      else
        match p with
        | [] => None
        | c :: p =>
            if (c =? 105) || (c =? 100) then cons CInt <$> conversions p
            else if c =? 115 then cons CStr <$> conversions p
            else if c =? 99 then cons CChr <$> conversions p
            else conversions p
        end
  end.

Definition arg_ok (c : conv) (a : vararg) : Prop :=
  match c, a with
  | CInt, VInt v => -2147483648 <= v < 2147483648
  | CStr, VStr b => exists s, cstr b s
  | CChr, VInt _ => True
  | _, _ => False
  end.

Definition same_input (s s' : io) : Prop := keys s' = keys s /\ length (text s') = 12%nat.

Lemma printf_loop_total n p ks ap s :
  (length p <= n)%nat -> conversions p = Some ks -> Forall2 arg_ok ks ap -> length (text s) = 12%nat ->
  exists s', printf_loop p ap s = Ret (tt, s') /\ same_input s s'.
Proof.
  revert p ks ap s. induction n as [|n IH]; intros [|c p] ks ap s Hn Hc Ha Hl; simpl in Hn; [done|lia|done|].
  assert (Hstep : forall (k : cmd io unit) s1 p' ks' ap', k s = Ret (tt, s1) -> same_input s s1 -> (length p' <= n)%nat ->
    conversions p' = Some ks' -> Forall2 arg_ok ks' ap' ->
    exists s', (k;; printf_loop p' ap') s = Ret (tt, s') /\ same_input s s').
  { intros k s1 p' ks' ap' E [Hk Ht] Hp Hcv Hap. step E. destruct (IH p' ks' ap' s1 Hp Hcv Hap Ht) as (s' & E' & Hk' & Ht').
    exists s'. split; [done|]. split; [congruence|done]. }
  assert (Hput : forall v, exists s1, (putchar v;; mret tt) s = Ret (tt, s1) /\ same_input s s1).
  { intros v. by eexists. }
  cbn [conversions] in Hc. cbn [printf_loop]. destruct (c =? 0); [by exists s|].
  destruct (c =? 37); cbn [negb] in *.
  2: { destruct (Hput c) as (s1 & E & Hs). exact (Hstep (putchar c;; mret tt) s1 p ks ap E Hs ltac:(lia) Hc Ha). }
  destruct p as [|c2 p]; [done|]. simpl in Hn.
  destruct ((c2 =? 105) || (c2 =? 100)).
  { apply fmap_Some in Hc as (ks' & Hc & ->). inversion Ha as [|? [v|b] ? ap' Hok Hap]; subst; [|done].
    destruct (print_int_spec v s Hl Hok) as (str & t & E & _ & Ht).
    exact (Hstep (print_int v) _ p ks' ap' E (conj eq_refl Ht) ltac:(lia) Hc Hap). }
  destruct (c2 =? 115).
  { apply fmap_Some in Hc as (ks' & Hc & ->). inversion Ha as [|? [v|b] ? ap' Hok Hap]; subst; [done|].
    destruct Hok as [str Hs].
    exact (Hstep (print b) _ p ks' ap' (print_spec _ _ s Hs) (conj eq_refl Hl) ltac:(lia) Hc Hap). }
  destruct (c2 =? 99).
  { apply fmap_Some in Hc as (ks' & Hc & ->). inversion Ha as [|? [v|b] ? ap' Hok Hap]; subst; [|done].
    destruct (Hput v) as (s1 & E & Hs). exact (Hstep (putchar v;; mret tt) s1 p ks' ap' E Hs ltac:(lia) Hc Hap). }
  destruct (Hput c2) as (s1 & E & Hs). exact (Hstep (putchar c2;; mret tt) s1 p ks ap E Hs ltac:(lia) Hc Ha).
Qed.

Lemma printf_total fmt ks ap s :
  conversions fmt = Some ks -> Forall2 arg_ok ks ap -> length (text s) = 12%nat ->
  exists s', printf fmt ap s = Ret (0, s') /\ same_input s s'.
Proof.
  intros Hc Ha Hl. destruct (printf_loop_total (length fmt) fmt ks ap s ltac:(lia) Hc Ha Hl) as (s' & E & Hs).
  exists s'. split; [|done]. unfold printf. by step E.
Qed.

(** "id %d%%" with -5. *)
Lemma printf_correct_witness :
  exists s', printf [105; 100; 32; 37; 100; 37; 37; 0] [VInt (-5)] (mk_io [] [] (replicate 12 0)) = Ret (0, s') /\
    output s' = [105; 100; 32; 45; 53; 37].
Proof.
  destruct (printf_correct [PLit 105; PLit 100; PLit 32; PInt (-5); POther 37] [[105]; [100]; [32]; [45; 53]; [37]] []
              (mk_io [] [] (replicate 12 0))) as (s' & E & Ho & _).
  - do 3 (constructor; [split; [reflexivity|lia]|]).
    constructor; [|constructor; [split; [reflexivity|lia]|constructor]].
    split; [|lia]. exists [53]. split_and!; try reflexivity; [|discriminate|discriminate].
    apply Forall_cons. split; [unfold is_digit; lia|apply Forall_nil; exact I].
  - reflexivity.
  - exists s'. split; [exact E|exact Ho].
Defined.

(** A % at the end of the format takes the terminator for its letter: it is
    printed, and the bytes behind it are read as the rest of the format. *)
Lemma printf_percent_at_end p ap s : printf_loop (37 :: 0 :: p) ap s = (putchar 0;; printf_loop p ap) s.
Proof. done. Qed.

(** ** Line input *)

(** The line that was typed, last key first: a backspace takes a key back, the
    keys from [KEY_DOWN] on do nothing. *)
Definition edit (line : list Z) (k : Z) : list Z :=
  if KEY_DOWN <=? k then line else if k =? 8 then tail line else k :: line.

(** What appears on the screen for a key. *)
Definition echo (line : list Z) (k : Z) : list Z :=
  if KEY_DOWN <=? k then [] else if k =? 8 then (if decide (line = []) then [] else [8]) else [k].

Fixpoint echoes (line ks : list Z) : list Z :=
  match ks with
  | [] => []
  | k :: ks => echo line k ++ echoes (edit line k) ks
  end.

Definition set_keys (ks : list Z) (s : io) : io := mk_io ks (calls s) (text s).

Lemma getchar_zero k ks s : u8 k = 0 -> getchar (set_keys (k :: ks) s) = getchar (set_keys ks s).
Proof.
  intros Hk. unfold getchar. rewrite !bind_getS. simpl length. cbn [getchar_loop].
  unfold getkey, mbind, cmd_bind. simpl keys. cbv beta iota. rewrite Hk. done.
Qed.

Lemma getchar_key k ks s : u8 k <> 0 -> getchar (set_keys (k :: ks) s) = Ret (u8 k, set_keys ks s).
Proof.
  intros Hk. unfold getchar. rewrite bind_getS. simpl length. cbn [getchar_loop].
  unfold getkey, mbind, cmd_bind. simpl keys. cbv beta iota. rewrite (proj2 (Z.eqb_neq _ _) Hk). done.
Qed.

(** The keys that [getchar] delivers. *)
Definition typed (input : list Z) : list Z := filter (fun c => c <> 0) (u8 <$> input).

Lemma typed_cons k input : typed (k :: input) = if decide (u8 k = 0) then typed input else u8 k :: typed input.
Proof. unfold typed. cbn [fmap list_fmap]. rewrite filter_cons. by repeat case_decide. Qed.

Lemma getchar_loop_typed n s c t :
  (length (keys s) <= n)%nat -> typed (keys s) = c :: t ->
  exists ks, getchar_loop n s = Ret (c, set_keys ks s) /\ typed ks = t /\ (length ks < length (keys s))%nat /\ 0 < c < 256.
Proof.
  revert s. induction n as [|n IH]; intros [[|k ks] cs tx] Hn Ht; simpl in Hn; [done|lia|done|].
  cbn [keys] in Ht. rewrite typed_cons in Ht. cbn [getchar_loop]. unfold getkey, mbind, cmd_bind. cbv beta iota. cbn [keys].
  destruct (decide (u8 k = 0)) as [Hz|Hz].
  - rewrite (proj2 (Z.eqb_eq _ _)) by done. destruct (IH (mk_io ks cs tx)) as (ks' & E & Hty & Hl & Hc); [simpl; lia|done|].
    exists ks'. simpl in *. split_and!; [exact E|done|lia|lia|lia].
  - rewrite (proj2 (Z.eqb_neq _ _)) by done. injection Ht as <- <-. exists ks. pose proof (u8_range k).
    split_and!; [done|done|simpl; lia|lia|lia].
Qed.

(** [getchar] takes the next key that was typed, or waits for ever. *)
Lemma getchar_typed s c t :
  typed (keys s) = c :: t ->
  exists ks, getchar s = Ret (c, set_keys ks s) /\ typed ks = t /\ (length ks < length (keys s))%nat /\ 0 < c < 256.
Proof. intros Ht. unfold getchar. rewrite bind_getS. by apply getchar_loop_typed. Qed.

Lemma getchar_waits s : typed (keys s) = [] -> getchar s = OutOfFuel.
Proof.
  unfold getchar. rewrite bind_getS. generalize (length (keys s)). intros n. revert s.
  induction n as [|n IH]; intros [ks cs tx]; [done|]. simpl keys. cbn [getchar_loop]. unfold getkey, mbind, cmd_bind. cbn [keys].
  destruct ks as [|k ks]; [done|]. rewrite typed_cons. destruct (decide (u8 k = 0)) as [Hz|Hz]; [|done]. intros Ht.
  rewrite (proj2 (Z.eqb_eq _ _)) by done. by apply IH.
Qed.

(** The buffer starts with the line. *)
Definition holds (buf line : list Z) : Prop := exists rest, buf = rev line ++ rest.

Lemma holds_push buf line k :
  holds buf line -> (length line < length buf)%nat -> exists buf', store buf (Z.of_nat (length line)) k = Ret buf' /\
    holds buf' (k :: line) /\ length buf' = length buf.
Proof.
  intros [rest ->] Hl. rewrite length_app, length_rev in Hl. destruct rest as [|x rest]; [simpl in Hl; lia|].
  rewrite store_Ret by (rewrite length_app, length_rev; simpl; lia).
  eexists. split; [done|]. split; [|by rewrite length_insert]. exists rest.
  rewrite Nat2Z.id, <- length_rev, insert_app_r_alt, Nat.sub_diag by lia. simpl. by rewrite <- app_assoc.
Qed.

Lemma holds_pop buf k line :
  holds buf (k :: line) -> exists buf', store buf (Z.of_nat (length (k :: line)) - 1) 0 = Ret buf' /\
    holds buf' line /\ length buf' = length buf.
Proof.
  intros [rest ->]. rewrite store_Ret by (rewrite length_app, length_rev; simpl; lia).
  eexists. split; [done|]. split; [|by rewrite length_insert]. exists (0 :: rest).
  simpl rev. rewrite <- app_assoc. simpl app.
  replace (Z.to_nat _) with (length (rev line) + 0)%nat by (rewrite length_rev; simpl; lia).
  by rewrite insert_app_r.
Qed.

Lemma gets_loop_spec n input later k13 buf line s :
  (length input < n)%nat -> (13 ∉ typed input) -> u8 k13 = 13 -> holds buf line -> (0 ∉ line) ->
  (length line + length (typed input) < length buf)%nat ->
  exists buf' s', gets_loop n buf (Z.of_nat (length line)) (set_keys (input ++ k13 :: later) s) = Ret (buf', s') /\
    cstr buf' (rev (fold_left edit (typed input) line)) /\ length buf' = length buf /\
    output s' = output s ++ echoes line (typed input) /\ keys s' = later /\ text s' = text s.
Proof.
  intros Hn H13 Hk. revert n buf line s Hn. induction input as [|k input IH]; intros n buf line s Hn Hb H0 Hl;
    (destruct n as [|n]; [simpl in Hn; lia|]).
  { cbn [app gets_loop]. step (getchar_key k13 later s ltac:(lia)). rewrite Hk. simpl (13 =? 13). cbv iota.
    destruct (holds_push buf line 0 Hb) as (buf' & E & [rest Hr] & Hlb); [simpl in Hl; lia|].
    exists buf', (set_keys later s). unfold liftO. rewrite E. split; [done|].
    split; [|split; [done|split; [by rewrite app_nil_r|done]]]. simpl. split.
    - by rewrite list_elem_of_In, <- in_rev, <- list_elem_of_In.
    - exists rest. rewrite Hr. simpl. by rewrite <- app_assoc. }
  rewrite typed_cons in H13, Hl |- *. cbn [app gets_loop]. simpl in Hn.
  destruct (decide (u8 k = 0)) as [Hz|Hz].
  { unfold mbind, cmd_bind. rewrite getchar_zero by done. apply (IH H13 (S n)); [lia|done..]. }
  step (getchar_key k (input ++ k13 :: later) s Hz).
  apply not_elem_of_cons in H13 as [Hk13 H13]. simpl in Hl. rewrite (proj2 (Z.eqb_neq (u8 k) 13)) by congruence.
  cbn [fold_left echoes].
  destruct (KEY_DOWN <=? u8 k) eqn:Ed.
  { unfold edit at 2 3, echo. rewrite Ed. apply (IH H13); [lia|done|done|lia]. }
  destruct (u8 k =? 8) eqn:E8; [|].
  - unfold edit at 2 3, echo. rewrite Ed, E8. destruct line as [|x line].
    { rewrite decide_True by done. apply (IH H13 n buf []); [lia|done|done|simpl in *; lia]. }
    rewrite (proj2 (Z.eqb_neq _ _)) by (simpl; lia). rewrite decide_False by done.
    destruct (holds_pop _ _ _ Hb) as (buf1 & E & Hb1 & Hl1). rewrite (bind_liftO _ _ _ _ E).
    replace (Z.of_nat (length (x :: line)) - 1) with (Z.of_nat (length line)) by (simpl; lia).
    destruct (IH H13 n buf1 line (mk_io (keys s) (calls s ++ [SPutchar 8]) (text s))) as (buf' & s' & E' & Hc & Hlb & Ho & Hks & Htx);
      [lia|done|set_solver|simpl in Hl; lia|].
    exists buf', s'. split; [exact E'|]. split; [done|]. split; [congruence|]. split; [|done].
    by rewrite Ho, output_emit, <- app_assoc.
  - unfold edit at 2 3, echo. rewrite Ed, E8.
    destruct (holds_push buf line (u8 k) Hb) as (buf1 & E & Hb1 & Hl1); [lia|]. rewrite (bind_liftO _ _ _ _ E).
    replace (Z.of_nat (length line) + 1) with (Z.of_nat (length (u8 k :: line))) by (simpl; lia).
    destruct (IH H13 n buf1 (u8 k :: line) (mk_io (keys s) (calls s ++ [SPutchar (u8 (u8 k))]) (text s))) as (buf' & s' & E' & Hc & Hlb & Ho & Hks & Htx);
      [lia|done|set_solver|simpl; lia|].
    exists buf', s'. split; [exact E'|]. split; [done|]. split; [congruence|]. split; [|done].
    rewrite Ho, output_emit, <- app_assoc, u8_id by apply u8_range. done.
Qed.

(** [gets] is a line editor: whatever is typed before the enter key, with
    any waiting in between, the buffer gets the keys that were not taken back by
    a backspace, in order and terminated, arrow keys being ignored; the screen
    gets each of them and each effective backspace; and the keys after the enter
    key are left for the next call. *)
Theorem gets_edits_line input k13 later buf s :
  (13 ∉ typed input) -> u8 k13 = 13 -> (length (typed input) < length buf)%nat ->
  exists buf' s', gets buf (set_keys (input ++ k13 :: later) s) = Ret (buf', s') /\
    cstr buf' (rev (fold_left edit (typed input) [])) /\ length buf' = length buf /\
    output s' = output s ++ echoes [] (typed input) /\ keys s' = later /\ text s' = text s.
Proof.
  intros H13 Hk Hl. unfold gets. rewrite bind_getS.
  apply (gets_loop_spec _ input later k13 buf [] s); [simpl; rewrite length_app; simpl; lia|done|done| |set_solver|done].
  by exists buf.
Qed.

(** "ax", backspace, an arrow key, "b" and enter. *)
Lemma gets_edits_line_witness :
  exists buf' s', gets [1; 1; 1; 1; 1; 1] (mk_io [97; 0; 120; 8; 221; 98; 13; 99] [] []) = Ret (buf', s') /\
    cstr buf' [97; 98] /\ output s' = [97; 120; 8; 98] /\ keys s' = [99].
Proof.
  destruct (gets_edits_line [97; 0; 120; 8; 221; 98] 13 [99] [1; 1; 1; 1; 1; 1] (mk_io [] [] []))
    as (buf' & s' & E & Hc & _ & Ho & Hk & _).
  - apply (bool_decide_unpack _). vm_compute. exact I.
  - reflexivity.
  - apply Nat.ltb_lt. vm_compute. reflexivity.
  - exists buf', s'. split; [exact E|]. split; [exact Hc|]. split; [exact Ho|exact Hk].
Defined.
