(* ===== verification/UserRuntime.v ===== *)
(** * The rest of the user library (src/programs/stdlib/src/: stdlib.c,
      memory.c, errno.c, cursor.c, start.c, [scanf] and [getc] of stdio.c,
      [newthread] of serpaeos.c)

    A program runs on its console, its memory with the static variables of the
    library, and a world that it can only change by system calls.  The class
    [SystemCalls] has one operation for each call that is not about the console
    or memory; their handlers in the kernel are those of [Syscalls]. *)
From S2P Require Import Prelude CMem CString UserString UserCommand UserStdio.

(** [fread] gives the bytes that it puts at the start of the buffer. *)
Class SystemCalls (W : Type) := {
  sys_fopen : list Z -> list Z -> cmd W Z;
  sys_fclose : Z -> cmd W Z;
  sys_fread : Z -> Z -> cmd W (Z * list Z);
  sys_fwrite : Z -> Z -> list Z -> cmd W Z;
  sys_fseek : Z -> Z -> Z -> cmd W Z;
  sys_ftell : Z -> cmd W Z;
  sys_remove : list Z -> cmd W unit;
  sys_writesector : Z -> Z -> list Z -> cmd W Z;
  sys_system : list Z -> Z -> cmd W Z;
  sys_kill : Z -> cmd W Z;
  sys_retcode : Z -> cmd W Z;
  sys_newthread : list Z -> Z -> Z -> Z -> cmd W Z;
  sys_get_arguments : cmd W (list (list Z));
  sys_clrscr : Z -> cmd W unit;
  sys_set_cursor : Z -> Z -> cmd W unit;
  sys_draw_block : Z -> Z -> Z -> cmd W unit;
  sys_play : Z -> cmd W unit;
  sys_quit_sound : cmd W unit
}.

Definition EOF : Z := -1.
Definition SEEK_SET : Z := 0.
Definition SEEK_END : Z := 2.

(** How a program ends: its main function returns, or it calls [exit] with a
    status, which [sos_exit] is called with. *)
Inductive ending :=
| Returned (res : Z)
| Exited (code : Z).

Section runtime.
Context {W : Type} `{SystemCalls W}.

(** [exit_funcs] holds addresses of functions; the memory is that of
    [UserCommand], with the blocks that [sos_malloc] will return. *)
Record prog := mk_prog {
  console : io;
  user : ust;
  errno : Z;
  exit_funcs : list Z;
  world : W
}.

Definition on_console {A} (c : cmd io A) : cmd prog A := fun s =>
  '(a, k) ← c (console s); Ret (a, mk_prog k (user s) (errno s) (exit_funcs s) (world s)).
Definition on_user {A} (c : cmd ust A) : cmd prog A := fun s =>
  '(a, u) ← c (user s); Ret (a, mk_prog (console s) u (errno s) (exit_funcs s) (world s)).
Definition on_world {A} (c : cmd W A) : cmd prog A := fun s =>
  '(a, w) ← c (world s); Ret (a, mk_prog (console s) (user s) (errno s) (exit_funcs s) w).
Definition set_errno (e : Z) (s : prog) : prog := mk_prog (console s) (user s) e (exit_funcs s) (world s).
Definition set_exit_funcs (l : list Z) (s : prog) : prog := mk_prog (console s) (user s) (errno s) l (world s).

(** ** memory.c: as in the kernel, but [memset] clears [errno] *)
Definition memset (buf : list Z) (c size : Z) : cmd prog (list Z) :=
  b ← liftO (CMem.memset buf c size);
  modifyS (set_errno 0);;
  mret b.
Definition memcmp := CMem.memcmp.
Definition memcpy := CMem.memcpy.

(** ** errno.c *)
Definition std_errors_count : Z := 13.
Definition str_errors : list (list Z) := [
  lit "No Error!";
  lit "Operation not permitted";
  lit "No such file or directory";
  lit "No such process";
  lit "Interrupted system call";
  lit "I/O error";
  lit "No such device or address";
  lit "Argument list too long";
  lit "Exec format error";
  lit "Bad file number";
  lit "No child processes";
  lit "Try Again";
  lit "Out of memory";
  lit "Permission denied"].

(** A null pointer has no bytes. *)
Definition null_string : list Z := [].
Definition strerror (errnum : Z) : outcome (list Z) :=
  if (std_errors_count <? errnum) || (errnum <? 0) then Ret null_string else load str_errors errnum.
Definition perror (str : list Z) : cmd prog unit :=
  s ← getS;
  msg ← liftO (strerror (errno s));
  on_console (printf (lit "%s: %s") [VStr str; VStr msg]);;
  mret tt.

(** ** stdlib.c *)
Definition malloc (size : Z) : cmd prog Z := on_user (sos_malloc size).

(** When no entry is free the function is dropped; the result says nothing. *)
Fixpoint atexit_loop (n : nat) (i func : Z) : cmd prog unit :=
  match n with
  | O => mret tt
  | S n =>
      s ← getS;
      f ← liftO (load (exit_funcs s) i);
      if f =? 0 then
        l ← liftO (store (exit_funcs s) i func);
        modifyS (set_exit_funcs l)
      else atexit_loop n (i + 1) func
  end.
Definition atexit (func : Z) : cmd prog Z := atexit_loop 20 0 func;; mret 0.

(** The code behind the addresses of functions. *)
Context (functions : gmap Z (cmd prog unit)).
Definition call_function (f : Z) : cmd prog unit :=
  match (functions !! f : option (cmd prog unit)) with
  | Some c => c
  | None => liftO Oob
  end.

Fixpoint exit_loop (n : nat) : cmd prog unit :=
  match n with
  | O => mret tt
  | S n =>
      s ← getS;
      f ← liftO (load (exit_funcs s) (Z.of_nat n));
      (if negb (f =? 0) then call_function f else mret tt);;
      exit_loop n
  end.

Definition exit_format : list Z := 10 :: lit ">>>EXIT: status %d. Press any key to terminate".
Definition exit (code : Z) : cmd prog ending :=
  exit_loop 20;;
  on_console (printf exit_format [VInt code]);;
  on_console getchar;;
  mret (Exited code).

(** ** start.c: [colour(WHITE, BLACK)] is 15 *)
Definition c_start (main : list (list Z) -> cmd prog ending) : cmd prog ending :=
  argv ← on_world sys_get_arguments;
  modifyS (set_exit_funcs (replicate 20 0));;
  modifyS (set_errno 0);;
  res ← main argv;
  match res with
  | Returned _ => on_world (sys_clrscr 15);; mret res
  | Exited _ => mret res
  end.

(** ** cursor.c *)
Fixpoint draw_row_loop (n : nat) (colour i row : Z) : cmd prog unit :=
  match n with
  | O => mret tt
  | S n => on_world (sys_draw_block colour i row);; draw_row_loop n colour (i + 1) row
  end.
Definition draw_row (colour row : Z) : cmd prog unit := draw_row_loop 80 (u8 colour) 0 (u16 row).

Fixpoint draw_collumn_loop (n : nat) (colour collumn i : Z) : cmd prog unit :=
  match n with
  | O => mret tt
  | S n => on_world (sys_draw_block colour collumn i);; draw_collumn_loop n colour collumn (i + 1)
  end.
Definition draw_collumn (colour collumn : Z) : cmd prog unit := draw_collumn_loop 25 (u8 colour) (u16 collumn) 0.

(** ** Files *)

(** [fread] into a buffer. *)
Definition fread (fp size : Z) (buf : list Z) : cmd prog (Z * list Z) :=
  '(res, bs) ← on_world (sys_fread fp size);
  if (length bs <=? length buf)%nat then mret (res, bs ++ drop (length bs) buf) else liftO Oob.

(** The byte is a [char]. *)
Definition getc (fp : Z) : cmd prog Z :=
  if fp =? 0 then mret 0
  else
    '(_, buf) ← fread fp 1 [0];
    c ← liftO (load buf 0);
    mret (s8 c).

(** ** Commands: [system] hands the kernel the list in memory *)
Definition sos_system (args : Z) : cmd prog Z :=
  s ← getS; on_world (sys_system (mem (tok (user s))) args).

Definition system (fuel : nat) (scommand space filename : Z) : cmd prog Z :=
  args ← on_user (sos_parse_command fuel scommand space filename 512);
  if args =? 0 then mret (-2) else sos_system args.

(** ** Threads: the arguments end with a zero, which is not passed on *)
Fixpoint count_args (ap : list Z) : outcome Z :=
  match ap with
  | [] => Oob
  | a :: ap => if a =? 0 then Ret 0 else n ← count_args ap; Ret (n + 1)
  end.

Fixpoint store_args (n : nat) (arguments : Z) (ap : list Z) : cmd tokst unit :=
  match n with
  | O => mret tt
  | S n =>
      match ap with
      | [] => liftO Oob
      | a :: ap => wr_bytes arguments (le_split 4 (u32 a));; store_args n (arguments + 4) ap
      end
  end.

Definition newthread (addr : Z) (ap : list Z) : cmd prog Z :=
  count ← liftO (count_args ap);
  arguments ← on_user (sos_malloc (count * 4));
  on_user (on_tok (store_args (Z.to_nat count) arguments ap));;
  s ← getS;
  on_world (sys_newthread (mem (tok (user s))) addr count arguments).

(** ** scanf *)

(** [strcpy] inside the memory. *)
Fixpoint flat_strcpy (fuel : nat) (dest src : Z) : cmd tokst unit :=
  match fuel with
  | O => liftO OutOfFuel
  | S fuel =>
      c ← rd src;
      wr dest c;;
      if c =? 0 then mret tt else flat_strcpy fuel (dest + 1) (src + 1)
  end.

(** The bytes from an address on. *)
Definition bytes_from (p : Z) : cmd prog (list Z) := s ← getS; mret (drop (Z.to_nat p) (mem (tok (user s)))).

(** [atof] is the library's conversion to a [double], as 8 bytes. *)
Context (atof : list Z -> list Z).

(** The arguments are the addresses the results go to. *)
Fixpoint scanf_loop (space : Z) (p : list Z) (ap : list Z) (token : Z) : cmd prog unit :=
  match p with
  | [] => liftO Oob
  | c :: p =>
      if (c =? 0) || (token =? 0) then mret tt
      else if negb (c =? 37) then scanf_loop space p ap token
      else
        match p with
        | [] => liftO Oob
        | c :: p =>
            if c =? 115 then
              match ap with
              | sval :: ap =>
                  s ← getS;
                  on_user (on_tok (flat_strcpy (S (length (mem (tok (user s))))) sval token));;
                  token ← on_user (on_tok (strtok 0 space));
                  scanf_loop space p ap token
              | [] => liftO Oob
              end
            else if (c =? 105) || (c =? 100) then
              match ap with
              | ival :: ap =>
                  t ← bytes_from token;
                  v ← liftO (CString.atoi t);
                  on_user (on_tok (wr_bytes ival (le_split 4 (u32 v))));;
                  token ← on_user (on_tok (strtok 0 space));
                  scanf_loop space p ap token
              | [] => liftO Oob
              end
            else if c =? 102 then
              match ap with
              | dval :: ap =>
                  t ← bytes_from token;
                  on_user (on_tok (wr_bytes dval (atof t)));;
                  token ← on_user (on_tok (strtok 0 space));
                  scanf_loop space p ap token
              | [] => liftO Oob
              end
            else scanf_loop space p ap token
        end
  end.

(** [buf] is the address of the static buffer of 2048 bytes, [i] what the
    counter of [get_s] starts with. *)
Definition scanf (i buf space : Z) (fmt : list Z) (ap : list Z) : cmd prog Z :=
  n ← liftO (UString.strnocc fmt 32);
  b ← bytes_from buf;
  line ← on_console (get_s i (take 2048 b) (n + 1));
  on_user (on_tok (wr_bytes buf line));;
  token ← on_user (on_tok (strtok buf space));
  scanf_loop space fmt ap token;;
  mret 0.
End runtime.
Arguments prog W : clear implicits.

(** ** Exit handlers *)
Section handlers.
Context {W : Type} `{SystemCalls W} (functions : gmap Z (cmd (prog W) unit)).
Implicit Types s : prog W.

(** A series of registrations, and a series of calls. *)
Fixpoint register (fs : list Z) : cmd (prog W) unit :=
  match fs with
  | [] => mret tt
  | f :: fs => atexit f;; register fs
  end.
Fixpoint run_all (fs : list Z) : cmd (prog W) unit :=
  match fs with
  | [] => mret tt
  | f :: fs => call_function functions f;; run_all fs
  end.

(** The handlers do not register others. *)
Definition keeps_handlers : Prop := forall f c s s',
  functions !! f = Some c -> c s = Ret (tt, s') -> exit_funcs s' = exit_funcs s.

Lemma nonzero_registered l k : (0 ∉ l) -> filter (fun f => f <> 0) (l ++ replicate k 0) = l.
Proof.
  intros H0. rewrite filter_app. assert (E : filter (fun f : Z => f <> 0) (replicate k 0) = []).
  { induction k as [|k IH]; [done|]. simpl replicate. by rewrite filter_cons, decide_False by lia. }
  rewrite E, app_nil_r. clear E. induction l as [|x l IH]; [done|]. apply not_elem_of_cons in H0 as [Hx H0].
  by rewrite filter_cons, decide_True, IH by done.
Qed.

(** The table with [l] registered, in order. *)
Definition registered (l : list Z) : list Z := l ++ replicate (20 - length l) 0.

Lemma atexit_loop_spec n j l f s :
  exit_funcs s = registered l -> (length l <= 20)%nat -> (0 ∉ l) -> (j <= length l)%nat -> (n = 20 - j)%nat ->
  atexit_loop n (Z.of_nat j) f s =
    Ret (tt, if (length l <? 20)%nat then set_exit_funcs (registered (l ++ [f])) s else s).
Proof.
  intros He Hl H0. revert j. induction n as [|n IH]; intros j Hj Hn; cbn [atexit_loop].
  { rewrite (proj2 (Nat.ltb_ge _ _)) by lia. done. }
  rewrite bind_getS, He. destruct (decide (j < length l)%nat) as [Hlt|Hge].
  - destruct (lookup_lt_is_Some_2 l j Hlt) as [x Hx].
    rewrite (bind_liftO _ _ _ x) by (apply load_Some; [lia|]; rewrite Nat2Z.id; unfold registered; by rewrite lookup_app_l).
    rewrite (proj2 (Z.eqb_neq x 0)) by (intros ->; apply H0; by eapply list_elem_of_lookup_2).
    replace (Z.of_nat j + 1) with (Z.of_nat (S j)) by lia. apply IH; lia.
  - assert (j = length l) as -> by lia. rewrite (proj2 (Nat.ltb_lt _ _)) by lia.
    rewrite (bind_liftO _ _ _ 0).
    2: { apply load_Some; [lia|]. rewrite Nat2Z.id. unfold registered. rewrite lookup_app_r, Nat.sub_diag by lia.
         apply lookup_replicate_2. lia. }
    change (0 =? 0) with true. cbv iota. rewrite (bind_liftO _ _ _ (registered (l ++ [f]))); [done|].
    rewrite store_Ret by (unfold registered; rewrite length_app, length_replicate; lia). rewrite Nat2Z.id.
    unfold registered. rewrite insert_app_r_alt, Nat.sub_diag by lia. rewrite <- app_assoc. do 3 f_equal.
    rewrite length_app. cbn [length]. replace (20 - length l)%nat with (S (20 - (length l + 1))) by lia. done.
Qed.

Lemma register_spec fs l s :
  exit_funcs s = registered l -> (length l <= 20)%nat -> (0 ∉ l) -> (0 ∉ fs) ->
  register fs s = Ret (tt, set_exit_funcs (registered (take 20 (l ++ fs))) s).
Proof.
  revert l s. induction fs as [|f fs IH]; intros l s He Hl H0 Hf; cbn [register].
  { rewrite app_nil_r, take_ge, <- He by done. by destruct s. }
  apply not_elem_of_cons in Hf as [Hf0 Hf]. unfold atexit. unfold mbind at 1 2, cmd_bind at 1 2.
  change 0 with (Z.of_nat 0) at 1. rewrite (atexit_loop_spec 20 0 l f s) by (done || lia). unfold mret, cmd_ret.
  destruct (length l <? 20)%nat eqn:E; [apply Nat.ltb_lt in E|apply Nat.ltb_ge in E].
  - rewrite (IH (l ++ [f])); [by rewrite <- app_assoc|done|rewrite length_app; simpl; lia| |done].
    rewrite not_elem_of_app, list_elem_of_singleton. split; [done|congruence].
  - rewrite (IH l) by done. rewrite !take_app_le by lia. done.
Qed.

Lemma exit_loop_spec n T s :
  keeps_handlers -> exit_funcs s = T -> (n <= length T)%nat ->
  exit_loop functions n s = run_all (rev (filter (fun f => f <> 0) (take n T))) s.
Proof.
  intros Hk. revert s. induction n as [|n IH]; intros s He Hn; [done|]. cbn [exit_loop]. rewrite bind_getS, He.
  destruct (lookup_lt_is_Some_2 T n Hn) as [f Hf].
  rewrite (bind_liftO _ _ _ f) by (apply load_Some; [lia|by rewrite Nat2Z.id]).
  rewrite (take_S_r _ _ f) by done. rewrite filter_app, filter_cons, filter_nil, rev_app_distr.
  destruct (decide (f <> 0)) as [Hf0|Hf0].
  - rewrite (proj2 (Z.eqb_neq f 0)) by done. cbn [negb rev app run_all]. unfold mbind, cmd_bind.
    unfold call_function. destruct (functions !! f) as [c|] eqn:Ec; [|done].
    destruct (c s) as [[[] s']| | |] eqn:E; [|done..]. apply IH; [|lia]. rewrite <- He. by eapply Hk.
  - assert (f = 0) as -> by (destruct (decide (f = 0)); [done|exfalso; by apply Hf0]).
    cbn [rev app negb Z.eqb]. change (negb (0 =? 0)) with false. cbv iota. rewrite bind_mret. apply IH; [done|lia].
Qed.

(** [atexit] and [exit].  Starting from the empty table that [c_start]
    makes, registering any functions and then calling [exit] runs them in the
    opposite order, then prints the status, waits for a key and passes the
    status on.  Only the first twenty are run: the others were dropped, although
    every call of [atexit] reported success. *)
Theorem exit_runs_registered fs code s :
  exit_funcs s = replicate 20 0 -> (0 ∉ fs) -> keeps_handlers ->
  exists s1, register fs s = Ret (tt, s1) /\ s1 = set_exit_funcs (registered (take 20 fs)) s /\
    exit functions code s1 =
      (run_all (rev (take 20 fs));; on_console (printf exit_format [VInt code]);; on_console getchar;; mret (Exited code)) s1.
Proof.
  intros He Hf Hk. eexists. split; [apply (register_spec fs [] s He); [simpl; lia|set_solver|done]|].
  split; [done|]. cbn [app]. set (l := take 20 fs).
  assert (Hl : (length l <= 20)%nat) by (unfold l; rewrite length_take; lia).
  assert (Hreg : length (registered l) = 20%nat) by (unfold registered; rewrite length_app, length_replicate; lia).
  unfold exit. unfold mbind at 1, cmd_bind at 1. rewrite (exit_loop_spec 20 (registered l)) by (done || lia).
  rewrite take_ge by lia. unfold registered at 1. rewrite nonzero_registered; [done|].
  intros (i & Hi & _)%elem_of_take. apply Hf. by eapply list_elem_of_lookup_2.
Qed.
End handlers.

(** A world without files, for programs that only use the console. *)
#[export] Instance no_calls : SystemCalls unit := {|
  sys_fopen := fun _ _ => mret 0;
  sys_fclose := fun _ => mret (-1);
  sys_fread := fun _ _ => mret (-1, []);
  sys_fwrite := fun _ _ _ => mret (-1);
  sys_fseek := fun _ _ _ => mret (-1);
  sys_ftell := fun _ => mret (-1);
  sys_remove := fun _ => mret tt;
  sys_writesector := fun _ _ _ => mret (-1);
  sys_system := fun _ _ => mret (-1);
  sys_kill := fun _ => mret (-1);
  sys_retcode := fun _ => mret (-1);
  sys_newthread := fun _ _ _ _ => mret 0;
  sys_get_arguments := mret [];
  sys_clrscr := fun _ => mret tt;
  sys_set_cursor := fun _ _ => mret tt;
  sys_draw_block := fun _ _ _ => mret tt;
  sys_play := fun _ => mret tt;
  sys_quit_sound := mret tt
|}.

Definition bare_prog (ks : list Z) : prog unit :=
  mk_prog (mk_io ks [] (replicate 12 0)) (mk_ust (mk_tok [] 0) []) 0 (replicate 20 0) tt.

(** Two handlers that print a letter; a key ends the wait. *)
Definition goodbye : gmap Z (cmd (prog unit) unit) :=
  <[0x400100 := on_console (emit (SPutchar 65))]> {[0x400200 := on_console (emit (SPutchar 66))]}.

Lemma exit_runs_registered_witness :
  exists s1 s2, register [0x400100; 0x400200] (bare_prog [32]) = Ret (tt, s1) /\
    exit goodbye 3 s1 = Ret (Exited 3, s2) /\ take 2 (output (console s2)) = [66; 65].
Proof.
  destruct (exit_runs_registered goodbye [0x400100; 0x400200] 3 (bare_prog [32])) as (s1 & E & Hs & Ex).
  - reflexivity.
  - apply (bool_decide_unpack _). vm_compute. exact I.
  - intros f c s s' Hc. unfold goodbye in Hc. rewrite lookup_insert_Some, lookup_singleton_Some in Hc.
    destruct Hc as [[_ <-]|[_ [_ <-]]]; intros [= <-]; reflexivity.
  - exists s1. rewrite Ex, Hs. eexists. split; [rewrite <- Hs; exact E|]. split; [vm_compute; reflexivity|vm_compute; reflexivity].
Defined.
