(* ===== verification/UserPrograms.v ===== *)
(** * The programs (src/programs/)

    Each program is the [main] of its source file, one Module for each.  The
    arguments are the buffers behind [argv]; an array on the stack starts with
    the bytes [uninit n].  A loop that waits for keys has the number of keys
    still to come as its fuel. *)
From S2P Require Import Prelude CMem CString UserString UserCommand UserStdio UserRuntime.

Section programs.
Context {W : Type} `{SystemCalls W} (functions : gmap Z (cmd (prog W) unit)) (uninit : Z -> list Z).

Definition say (fmt : list Z) (ap : list vararg) : cmd (prog W) unit := on_console (printf fmt ap);; mret tt.

(** [argv[i]]. *)
Definition arg (argv : list (list Z)) (i : nat) : outcome (list Z) :=
  match argv !! i with Some a => Ret a | None => Oob end.

(** [strcpy] to an offset of an array; the character a string starts with. *)
Definition strcpy_at (buf : list Z) (off : Z) (src : list Z) : outcome (list Z) :=
  if (0 <=? off) && (off <=? Z.of_nat (length buf)) then
    rest ← CString.strcpy (drop (Z.to_nat off) buf) src;
    Ret (take (Z.to_nat off) buf ++ rest)
  else Oob.
Definition first (s : list Z) : outcome Z := load s 0.

Definition keys_left : cmd (prog W) nat := s ← getS; mret (length (keys (console s))).

(** [while (getkey() != EOF);] *)
Fixpoint wait_eof (n : nat) : cmd (prog W) unit :=
  match n with
  | O => liftO OutOfFuel
  | S n => k ← on_console getkey; if k =? EOF then mret tt else wait_eof n
  end.
Definition pause : cmd (prog W) unit := n ← keys_left; wait_eof (S n).

(** [while ((c = getchar()) != ...);]: the first key that is wanted. *)
Fixpoint wait_char (n : nat) (wanted : Z -> bool) : cmd (prog W) Z :=
  match n with
  | O => liftO OutOfFuel
  | S n => c ← on_console getchar; if wanted c then mret c else wait_char n wanted
  end.
Definition await (wanted : Z -> bool) : cmd (prog W) Z := n ← keys_left; wait_char (S n) wanted.

(** The path of a file of the user: a ~ stands for the directory of files. *)
Definition tilde_path (path : list Z) (a : list Z) : outcome (list Z) :=
  c ← first a;
  if c =? 126 then
    path ← strcpy_at path 0 (lit "0:/usr/files");
    strcpy_at path 12 (tail a)
  else strcpy_at path 0 a.

(** ** sosupdt: copies a kernel image to the start of the disk *)
Fixpoint sosupdt_copy (fuel : nat) (kernel_image filesize sector : Z) (buf : list Z) : cmd (prog W) (option Z) :=
  if filesize <=? 0 then mret None
  else match fuel with
       | O => liftO OutOfFuel
       | S fuel =>
           '(_, buf) ← fread kernel_image 512 buf;
           say (10 :: lit "Sector %d") [VInt sector];;
           res ← on_world (sys_writesector sector 0 buf);
           if res =? 0 then
             buf ← memset buf 0 512;
             sosupdt_copy fuel kernel_image (filesize - 512) (sector + 1) buf
           else
             say (10 :: chars "sosupdt: Fail on sector %d. SerpaeOS may have been corrupted, and it may be best that you don't boot this copy of SerpaeOS ever again. Your files can probably be backed up before you reinstall SerpaeOS."
                  ++ 10 :: chars "For help, contact us at " ++ 34 :: chars "serpaeos.devers@gmail.com" ++ 34 :: lit ".Press any key to continue...")
               [VInt sector];;
             on_console getchar;;
             on_world (sys_fclose kernel_image);;
             mret (Some (-2))
       end.

Definition sosupdt_main (argv : list (list Z)) : cmd (prog W) ending :=
  say (chars "SerpaeOS Update Center version %s" ++ [10; 0]) [VStr (lit "23.2.1")];;
  path ← (if negb (length argv =? 2)%nat then
            say (10 :: lit "Please enter path to the kernel image: ") [];;
            '(path, _) ← on_console (getline (default 0 (uninit 1 !! 0%nat)) (uninit 108) 107);
            mret path
          else
            a ← liftO (arg argv 1);
            liftO (strcpy_at (uninit 108) 0 a));
  say (10 :: lit "Are you sure you want to use %s as your kernel image? Using a kernel image not produced by SerpaeOS developers can be very dangerous. [Y/n]")
    [VStr path];;
  c ← await (fun c => (c =? 89) || (c =? 121) || (c =? 78) || (c =? 110));
  if (c =? 78) || (c =? 110) then mret (Returned (-1))
  else
    kernel_image ← on_world (sys_fopen path (lit "r"));
    if kernel_image =? 0 then
      say (10 :: lit "sosupdt: ERROR: file %s cannot be accessed") [VStr path];;
      pause;;
      mret (Returned (-1))
    else
      say (10 :: lit "Working...") [];;
      on_world (sys_fseek kernel_image 0 SEEK_END);;
      filesize ← on_world (sys_ftell kernel_image);
      on_world (sys_fseek kernel_image 0 SEEK_SET);;
      res ← sosupdt_copy (Z.to_nat filesize) kernel_image filesize 0 (uninit 512);
      match res with
      | Some r => mret (Returned r)
      | None =>
          say (10 :: chars "Done! Once you reboot, you can enjoy an updated SerpaeOS!" ++ [7; 0]) [];;
          on_console getchar;;
          mret (Returned 0)
      end.

(** ** pr: asks for the password, then runs the program that was named *)

(** The packed [struct configeration]. *)
Definition sizeof_config : Z := 60.
Definition username (config : list Z) : list Z := drop 8 config.
Definition password (config : list Z) : list Z := drop 29 config.

(** The loop that fills the array of 30 bytes; [c] is a [char]. *)
Fixpoint pr_line (n : nat) (buf : list Z) (i : Z) : cmd (prog W) (list Z) :=
  match n with
  | O => liftO (store buf i 0)
  | S n =>
      c ← on_console getchar;
      if c =? 13 then liftO (store buf i 0)
      else
        buf ← liftO (store buf i c);
        pr_line n buf (i + 1)
  end.

(** Whether the password was typed before the word exit. *)
Fixpoint pr_ask (fuel : nat) (config buf : list Z) : cmd (prog W) bool :=
  match fuel with
  | O => liftO OutOfFuel
  | S fuel =>
      say (lit "[%s] password: ") [VStr (username config)];;
      buf ← pr_line 29 buf 0;
      r ← liftO (UString.strcmp (password config) buf);
      if r =? 0 then mret true
      else
        e ← liftO (UString.strncmp (lit "exit") buf 30);
        if e =? 0 then mret false
        else
          on_console (putchar 10);;
          pr_ask fuel config buf
  end.

(** The command: the arguments after the first, each followed by a space. *)
Fixpoint pr_command (path : list Z) (curr : Z) (args : list (list Z)) : outcome (list Z) :=
  match args with
  | [] => Ret path
  | a :: args =>
      path ← strcpy_at path curr a;
      n ← CString.strlen a;
      path ← store path (curr + n) 32;
      pr_command path (curr + n + 1) args
  end.

(** The part after the right password.  [path_at] is the address of the array
    that holds the command, the other addresses are those [system] needs. *)
Definition pr_run (fuel : nat) (scommand space path_at : Z) (argv : list (list Z)) : cmd (prog W) ending :=
  path ← liftO (pr_command (chars "he " ++ replicate 105 0) 3 (tail argv));
  on_user (on_tok (wr_bytes path_at path));;
  r ← system fuel scommand space path_at;
  (if r =? -2 then
     a ← liftO (arg argv 1);
     say (10 :: chars "ERROR: " ++ 34 :: chars "%s" ++ 34 :: lit " is not a valid program name.") [VStr a]
   else mret tt);;
  mret (Returned 0).

Definition pr_main (fuel : nat) (scommand space path_at : Z) (argv : list (list Z)) : cmd (prog W) ending :=
  if (length argv <? 2)%nat then
    say (chars "[pr] ERROR: invalid usage" ++ [10; 0]) [];;
    mret (Returned (-2))
  else
    fp ← on_world (sys_fopen (lit "0:/sys/config/config.dat") (lit "r"));
    on_world (sys_fseek fp 0x3c SEEK_SET);;
    '(_, config) ← fread fp sizeof_config (replicate (Z.to_nat sizeof_config) 0);
    n ← keys_left;
    ok ← pr_ask (S n) config (uninit 30);
    if negb ok then mret (Returned 0) else pr_run fuel scommand space path_at argv.

(** ** new_usr: asks for the time zone, the name and the password *)

(** [i] is an [unsigned char] that is not initialised. *)
Fixpoint new_usr_get_s_loop (n : nat) (buf : list Z) (o i lim : Z) : cmd (prog W) (list Z) :=
  match n with
  | O => liftO OutOfFuel
  | S n =>
      c ← on_console getchar;
      if (c =? 13) || (lim <=? i) then liftO (store buf o 0)
      else if KEY_DOWN <=? c then new_usr_get_s_loop n buf o i lim
      else if c =? 8 then
        if o =? 0 then new_usr_get_s_loop n buf o i lim
        else
          buf ← liftO (store buf (o - 1) 0);
          on_console (putchar 8);;
          new_usr_get_s_loop n buf (o - 1) (u8 (i - 1)) lim
      else
        buf ← liftO (store buf o c);
        on_console (putchar 42);;
        new_usr_get_s_loop n buf (o + 1) (u8 (i + 1)) lim
  end.
Definition new_usr_get_s (buf : list Z) (lim : Z) : cmd (prog W) (list Z) :=
  n ← keys_left; new_usr_get_s_loop (S n) buf 0 (default 0 (uninit 1 !! 0%nat)) lim.

Fixpoint new_usr_password (fuel : nat) (password1 password2 : list Z) : cmd (prog W) (list Z) :=
  match fuel with
  | O => liftO OutOfFuel
  | S fuel =>
      say (10 :: lit "Please enter your new password (30 character limit): ") [];;
      password1 ← new_usr_get_s password1 30;
      say (10 :: lit "Please re-enter your password: ") [];;
      password2 ← new_usr_get_s password2 30;
      r ← liftO (UString.strcmp password1 password2);
      if negb (r =? 0) then
        say (10 :: chars "Passwords do not match. Please try again..." ++ [10; 0]) [];;
        new_usr_password fuel password1 password2
      else mret password1
  end.

Definition config_magic : list Z := [83; 79; 83; 0x3E].

(** [he_pr] is the address of the literal command. *)
Definition new_usr_main (fuel : nat) (scommand space he_pr : Z) (argv : list (list Z)) : cmd (prog W) ending :=
  fd ← on_world (sys_fopen (lit "0:/sys/config/config.dat") (lit "rwa"));
  if fd =? 0 then
    say (lit "ERROR: 0:/sys/config/config.dat in inaccesable") [];;
    exit functions 1
  else
    config ← memset (replicate (Z.to_nat sizeof_config) 0) 0 sizeof_config;
    say (chars "It looks like you're a new user. Welcome to SerpaeOS!" ++ 10 ::
         chars "Please enter your timezone from UTC (ie, enter -6 for Central time zone):" ++ [10; 0]) [];;
    zone ← on_console (gets (uninit 10));
    timezone ← liftO (CString.atoi zone);
    let config := take 4 config ++ le_split 4 (u32 timezone) ++ drop 8 config in
    say (10 :: chars "Great! Please enter your new username (20 character limit):" ++ [10; 0]) [];;
    name ← on_console (gets (username config));
    let config := take 8 config ++ name in
    n ← keys_left;
    password1 ← new_usr_password (S n) (uninit 31) (uninit 31);
    say (10 :: lit "Writing... ") [];;
    config ← liftO (strcpy_at config 29 password1);
    config ← liftO (memcpy config config_magic 4);
    res ← on_world (sys_fwrite fd sizeof_config config);
    if res <? 0 then
      say (10 :: lit "ERROR") [];;
      exit functions 1
    else
      system fuel scommand space he_pr;;
      mret (Returned 0).

(** ** fapp: appends what is typed to a file *)

(** The buffer is written when it is full, but [i] goes on. *)
Fixpoint fapp_loop (n : nat) (fp : Z) (buf : list Z) (i : Z) : cmd (prog W) unit :=
  match n with
  | O => liftO OutOfFuel
  | S n =>
      c ← on_console getkey;
      if c =? 0 then fapp_loop n fp buf i
      else
        (if (i =? 1024) || (c =? EOF) then
           on_world (sys_fwrite fp i (take (Z.to_nat i) buf));; mret tt
         else mret tt);;
        if c =? EOF then mret tt
        else
          on_console (putchar c);;
          if negb (c =? 8) then
            buf ← liftO (store buf i (u8 c));
            fapp_loop n fp buf (i + 1)
          else fapp_loop n fp buf (i - 1)
  end.

Definition fapp_main (argv : list (list Z)) : cmd (prog W) ending :=
  if (length argv <? 2)%nat then
    say (chars "fapp: ERROR: invalid usage" ++ [10; 0]) [];;
    pause;;
    mret (Returned (-2))
  else
    a ← liftO (arg argv 1);
    path ← liftO (tilde_path (uninit 108) a);
    fp ← on_world (sys_fopen path (lit "rwa"));
    if fp =? 0 then
      say (chars "fapp: ERROR: file %s is inaccessable" ++ [10; 0]) [VStr path];;
      pause;;
      mret (Returned (-1))
    else
      n ← keys_left;
      fapp_loop (S n) fp (uninit 1024) 0;;
      on_world (sys_fclose fp);;
      mret (Returned 0).

(** ** fwrite: the same with escape as the last key *)
Fixpoint fwrite_loop (n : nat) (fp : Z) (buf : list Z) (i : Z) : cmd (prog W) unit :=
  match n with
  | O => liftO OutOfFuel
  | S n =>
      c ← on_console getchar;
      (if (i =? 1024) || (c =? 27) then
         on_world (sys_fwrite fp i (take (Z.to_nat i) buf));; mret tt
       else mret tt);;
      if c =? 27 then mret tt
      else
        on_console (putchar c);;
        if negb (c =? 8) then
          buf ← liftO (store buf i (u8 c));
          fwrite_loop n fp buf (i + 1)
        else fwrite_loop n fp buf (i - 1)
  end.

(** [while (getchar() != EOF);]: [getchar] never gives [EOF]. *)
Definition wait_for_eof : cmd (prog W) unit := await (fun c => c =? EOF);; mret tt.

(** [strncpy] to an offset of an array. *)
Definition strncpy_at (buf : list Z) (off : Z) (src : list Z) (n : Z) : outcome (list Z) :=
  if (0 <=? off) && (off <=? Z.of_nat (length buf)) then
    rest ← CString.strncpy (drop (Z.to_nat off) buf) src n;
    Ret (take (Z.to_nat off) buf ++ rest)
  else Oob.

(** The path is put at offset 3 of the array. *)
Definition fwrite_main (argv : list (list Z)) : cmd (prog W) ending :=
  if (length argv <? 2)%nat then
    say (chars "fwrite: ERROR: invalid usage" ++ [10; 0]) [];;
    wait_for_eof;;
    mret (Returned (-2))
  else
    a ← liftO (arg argv 1);
    c ← liftO (first a);
    path ← liftO (if c =? 126 then
                    path ← strncpy_at (uninit 108) 3 (lit "0:/usr/files") 12;
                    strncpy_at path 15 (tail a) 108
                  else strncpy_at (uninit 108) 3 a 108);
    fp ← on_world (sys_fopen path (lit "rw"));
    if fp =? 0 then
      say (chars "fwrite: ERROR: file %s is inaccessable" ++ [10; 0]) [VStr path];;
      wait_for_eof;;
      mret (Returned (-1))
    else
      n ← keys_left;
      fwrite_loop (S n) fp (uninit 1024) 0;;
      on_world (sys_fclose fp);;
      mret (Returned 0).

(** ** rm: the same offset; [cur] keeps moving from one argument to the next *)
Fixpoint rm_loop (path : list Z) (cur : Z) (args : list (list Z)) : cmd (prog W) unit :=
  match args with
  | [] => mret tt
  | a :: args =>
      c ← liftO (first a);
      '(path, cur, a) ← liftO (if c =? 126 then
                                 path ← strcpy_at path cur (lit "0:/usr/files");
                                 Ret (path, cur + 12, tail a)
                               else Ret (path, cur, a));
      path ← liftO (strcpy_at path cur a);
      on_world (sys_remove path);;
      rm_loop path cur args
  end.
Definition rm_main (argv : list (list Z)) : cmd (prog W) ending :=
  if (length argv <? 2)%nat then mret (Returned (-1))
  else
    rm_loop (uninit 108) 3 (tail argv);;
    mret (Returned 0).

(** ** view: shows a file page by page *)

(** One line of at most 80 characters; the result says whether it was the last.
    The text is the format of [printf]. *)
Fixpoint view_line_loop (n : nat) (fp : Z) (buf : list Z) (i : Z) : cmd (prog W) Z :=
  match n with
  | O => say buf [];; mret 0
  | S n =>
      c ← getc fp;
      if (c =? 10) || (c =? 13) then
        buf ← liftO (store buf i (u8 c));
        say buf [];;
        mret 0
      else if (c =? 0) || (c =? EOF) then
        buf ← liftO (store buf i 10);
        say buf [];;
        mret 1
      else
        buf ← liftO (store buf i (u8 c));
        view_line_loop n fp buf (i + 1)
  end.
Definition print_line (fp : Z) : cmd (prog W) Z :=
  buf ← memset (replicate 81 0) 0 81;
  view_line_loop 80 fp buf 0.

Fixpoint view_page (n : nat) (fp : Z) : cmd (prog W) bool :=
  match n with
  | O => mret false
  | S n => r ← print_line fp; if c_true r then mret true else view_page n fp
  end.

(** [colour(BLACK, WHITE)] is 0xF0. *)
Fixpoint view_loop (fuel : nat) (fp : Z) : cmd (prog W) unit :=
  match fuel with
  | O => liftO OutOfFuel
  | S fuel =>
      on_world (sys_clrscr 0xF0);;
      last ← view_page 24 fp;
      if (last : bool) then pause
      else
        on_world (sys_set_cursor 0 79);;
        say (lit "---------PAGING: press 'c' to continue with the next page, 'q' to quit---------") [];;
        cm ← await (fun c => (c =? 99) || (c =? 113));
        if cm =? 113 then mret tt else view_loop fuel fp
  end.

Definition view_main (argv : list (list Z)) : cmd (prog W) ending :=
  if (length argv <? 2)%nat then
    say (chars "view: ERROR: invalid usage" ++ [10; 0]) [];;
    on_console getchar;;
    mret (Returned (-2))
  else
    a ← liftO (arg argv 1);
    path ← liftO (tilde_path (uninit 108) a);
    fp ← on_world (sys_fopen path (lit "r"));
    if fp =? 0 then
      say (chars "view: ERROR: file %s is inaccessable for reading" ++ [10; 0]) [VStr path];;
      on_console getchar;;
      mret (Returned (-1))
    else
      n ← keys_left;
      view_loop (S n) fp;;
      on_world (sys_fclose fp);;
      mret (Returned 0).

(** ** musicbox: plays the notes of a file *)
Definition error (name msg : list Z) : cmd (prog W) ending :=
  say (name ++ chars ": ERROR: %s" ++ 10 :: lit "Press any key to terminate...") [VStr msg];;
  on_console getchar;;
  exit functions 1.

(** The frequency of a note with an accidental; [None] is an invalid note.  The
    test before the accidental is read is never true. *)
Definition note_hertz (note accidental : Z) : option Z :=
  let natural := accidental =? 110 in
  let sharp := accidental =? 35 in
  if note =? 97 then Some (if natural then 440 else if sharp then 466 else 415)
  else if note =? 98 then Some (if natural then 494 else 466)
  else if note =? 99 then Some (if natural then 262 else 277)
  else if note =? 100 then Some (if natural then 294 else if sharp then 311 else 277)
  else if note =? 101 then Some (if natural then 330 else 311)
  else if note =? 102 then Some (if natural then 349 else 370)
  else if note =? 103 then Some (if natural then 392 else if sharp then 415 else 370)
  else None.

Definition next_note (music : Z) : cmd (prog W) (Z + ending) :=
  note ← getc music;
  if (note =? 0) || (note =? EOF) then e ← error (chars "musicbox") (lit "end of file"); mret (inr e)
  else if note =? 114 then mret (inl 0)
  else if (note <? 97) && (103 <? note) then e ← error (chars "musicbox") (lit "invalid note"); mret (inr e)
  else
    accidental ← getc music;
    if (accidental =? 0) || (note =? EOF) then e ← error (chars "musicbox") (lit "end of file"); mret (inr e)
    else if negb (accidental =? 98) && negb (accidental =? 35) && negb (accidental =? 110) then
      e ← error (chars "musicbox") (lit "invalid accidental"); mret (inr e)
    else
      match note_hertz note accidental with
      | Some hz => mret (inl hz)
      | None => e ← error (chars "musicbox") (lit "invalid note"); mret (inr e)
      end.

(** The delay between two notes only takes time. *)
Fixpoint music_loop (fuel : nat) (music : Z) : cmd (prog W) ending :=
  match fuel with
  | O => liftO OutOfFuel
  | S fuel =>
      r ← next_note music;
      match r with
      | inr e => mret e
      | inl note =>
          (if 262 <=? note then on_world (sys_play note) else mret tt);;
          on_world sys_quit_sound;;
          music_loop fuel music
      end
  end.

Definition musicbox_main (fuel : nat) (argv : list (list Z)) : cmd (prog W) ending :=
  if negb (length argv =? 2)%nat then error (chars "musicbox") (lit "invalid usage")
  else
    a ← liftO (arg argv 1);
    path ← liftO (strcpy_at (chars "0:/usr/files/musicbox/" ++ replicate 86 0) 22 a);
    music ← on_world (sys_fopen path (lit "r"));
    if music =? 0 then error (chars "musicbox") (lit "file provided is inaccessable for reading")
    else music_loop fuel music.

(** ** edit and blank: only their beginnings are written *)
Definition edit_error (msg : list Z) : cmd (prog W) ending :=
  say (lit "edit: ERROR: %s") [VStr msg];;
  exit functions 1.
Definition edit_main (argv : list (list Z)) : cmd (prog W) ending :=
  if (length argv <? 2)%nat then edit_error (chars "invalid usage" ++ 10 :: lit "USAGE: edit [filename]")
  else
    a ← liftO (arg argv 1);
    file ← on_world (sys_fopen a (lit "rw"));
    if file =? 0 then edit_error (lit "file is unaccessable")
    else
      on_world (sys_clrscr 0xF0);;
      exit functions 0.
Definition blank_main : cmd (prog W) ending := exit functions 1.

(** ** shell: reads command lines *)
Definition help_page : list Z :=
  chars "Shell help center" ++
  10 :: chars "You are currently running SerpaeOS Shell v23.4.1. If this is an older version" ++
  10 :: chars "than the Kernel version (release the super key), please update shell." ++
  10 :: chars "Bug reports, questions, and tips can be emailed to " ++ 34 :: chars "serpaeos.devers@gmail.com" ++ 34 ::
  10 :: chars "All software that comes wih SerpaeOS is copyright (c) 2023 Jaihson Kresak" ++
  10 :: chars "All software under GNU General Pubic Licese v2. See 0:/usr/files/LICENSE for " ++
  10 :: chars "details" ++
  10 :: chars "List of programs and commands:" ++
  10 :: chars "fapp        -    File Append" ++
  10 :: chars "    example: fapp ~/sample.txt" ++
  10 :: chars "view        -    View File" ++
  10 :: chars "    example: view ~/sample.txt" ++
  10 :: chars "rm          -    remove file(s)" ++
  10 :: chars "    example: rm ~/sample.txt ~/another.txt" ++
  10 :: chars "shell.elf   -    SerpaeOS Shell" ++
  10 :: chars "pr          -    give privileged execution to program" ++
  10 :: chars "    example: pr shell.elf" ++
  10 :: chars "help        -    SerpaeOS Help Page (this)" ++
  10 :: chars "clear       -    clear he terminal" ++
  10 :: chars "kill        -    Kill another application (by process ID)" ++
  10 :: chars "    example: kill 5" ++
  10 :: chars "    note: find process ID by pressing and releasing the Windows Key" ++
  10 :: chars "rc          -    get return code (by process ID)" ++
  10 :: lit "    example: rc 5".

(** Addresses: the two buffers of 1024 bytes, the literals, the array of
    [sos_parse_command]; the fuel of its loop. *)
Record shell_layout := mk_shell { sh_input : Z; sh_space : Z; sh_view : Z; sh_scommand : Z; sh_fuel : nat }.

(** What follows a line. *)
Inductive turn :=
| Again (newline : bool)
| Leave.

(** [gets] into the memory; [memcpy] inside it. *)
Definition gets_at (p : Z) : cmd (prog W) unit :=
  b ← bytes_from p;
  line ← on_console (gets b);
  on_user (on_tok (wr_bytes p line)).
Definition memcpy_at (dest src : Z) (n : nat) : cmd (prog W) unit :=
  b ← bytes_from src;
  if (n <=? length b)%nat then on_user (on_tok (wr_bytes dest (take n b))) else liftO Oob.

(** [istrncmp(word, token, n) == 0]. *)
Definition command_is (word : list Z) (token n : Z) : cmd (prog W) bool :=
  t ← bytes_from token;
  r ← liftO (UString.istrncmp word t n);
  mret (r =? 0).

(** The number after a command. *)
Definition number_argument (l : shell_layout) : cmd (prog W) Z :=
  p ← on_user (on_tok (strtok 0 (sh_space l)));
  t ← bytes_from p;
  liftO (CString.atoi t).

Definition shell_command (l : shell_layout) (token : Z) : cmd (prog W) turn :=
  is_exit ← command_is (lit "exit") token 5;
  if (is_exit : bool) then say (10 :: lit "Exiting...") [];; mret Leave
  else
  is_help ← command_is (lit "help") token 5;
  if (is_help : bool) then on_world (sys_clrscr 15);; say help_page [];; mret (Again true)
  else
  is_about ← command_is (lit "about") token 6;
  is_man ← (if (is_about : bool) then mret true else command_is (lit "man") token 4);
  if (is_man : bool) then system (sh_fuel l) (sh_scommand l) (sh_space l) (sh_view l);; mret (Again true)
  else
  is_clear ← command_is (lit "clear") token 6;
  if (is_clear : bool) then on_world (sys_clrscr 15);; mret (Again false)
  else
  is_kill ← command_is (lit "kill") token 5;
  if (is_kill : bool) then
    id ← number_argument l;
    res ← on_world (sys_kill id);
    (if negb (res =? 0) then
       say (10 :: lit "ERROR: kill: Process %d could not be killed (error code %d)") [VInt id; VInt res]
     else mret tt);;
    mret (Again true)
  else
  is_rc ← command_is (lit "rc") token 3;
  if (is_rc : bool) then
    id ← number_argument l;
    res ← on_world (sys_retcode id);
    say (10 :: lit "return code for process %d is %d") [VInt id; VInt res];;
    mret (Again true)
  else
  r ← system (sh_fuel l) (sh_scommand l) (sh_space l) (sh_input l + 1024);
  (if r <? 0 then
     t ← bytes_from token;
     say (10 :: chars "ERROR: " ++ 34 :: chars "%s" ++ 34 :: chars " is not recognized as an operable program or command. Try "
          ++ 34 :: chars "man" ++ [34; 0]) [VStr t]
   else mret tt);;
  mret (Again true).

Definition shell_turn (l : shell_layout) (newline : bool) : cmd (prog W) turn :=
  (if newline then on_console (putchar 10);; mret tt else mret tt);;
  say (lit ">") [];;
  on_user (on_tok (strtok 0 0));;
  gets_at (sh_input l);;
  memcpy_at (sh_input l + 1024) (sh_input l) 1024;;
  token ← on_user (on_tok (strtok (sh_input l) (sh_space l)));
  if (token <? sh_input l) || (sh_input l + 1024 <? token) then mret (Again true)
  else shell_command l token.

Fixpoint shell_loop (n : nat) (l : shell_layout) (newline : bool) : cmd (prog W) unit :=
  match n with
  | O => liftO OutOfFuel
  | S n =>
      t ← shell_turn l newline;
      match t with
      | Again newline => shell_loop n l newline
      | Leave => mret tt
      end
  end.

Definition shell_main (l : shell_layout) : cmd (prog W) ending :=
  say (lit "SerpaeOS Shell v23.4.1") [];;
  input ← malloc 2048;
  n ← keys_left;
  shell_loop (S n) (mk_shell input (sh_space l) (sh_view l) (sh_scommand l) (sh_fuel l)) true;;
  mret (Returned 0).
End programs.
