(* ===== verification/UserProgramsSpec.v ===== *)
(** * What the programs do

    Theorems about the programs of [UserPrograms], against the promises the
    kernel makes about files ([FilesOk]) and about writing sectors ([SectorsOk]);
    a small world of files and a small volume that keep them are the examples. *)
From S2P Require Import Prelude CMem CString UserString UserCommand UserStdio UserRuntime UserPrograms.

(** ** Files, as the programs see them

    An open file has the bytes that are stored for it, which go on to the end
    of its last cluster, its size and its position. *)
Record ofile := mk_ofile { f_data : list Z; f_size : Z; f_pos : Z }.
Definition seek_to (p : Z) (f : ofile) : ofile := mk_ofile (f_data f) (f_size f) p.

(** The bytes of a file from [p] on. *)
Definition piece (f : ofile) (p n : Z) : list Z := take (Z.to_nat n) (drop (Z.to_nat p) (f_data f)).

(** What the kernel promises.  A read is for bytes of one sector, below 2 GB,
    which the FAT16 driver serves whatever the size of its clusters. *)
Class FilesOk (W : Type) `{SystemCalls W} := {
  opened : W -> Z -> option ofile;
  sectors : W -> gmap Z (list Z);
  fread_ok : forall w fp f n, opened w fp = Some f -> 0 < n -> 0 <= f_pos f ->
    f_pos f + n <= Z.of_nat (length (f_data f)) -> f_pos f + n < 2147483648 -> f_pos f mod 512 + n <= 512 ->
    exists r w', sys_fread fp n w = Ret (r, piece f (f_pos f) n, w') /\
      opened w' fp = Some (seek_to (f_pos f + n) f) /\ sectors w' = sectors w;
  fseek_set_ok : forall w fp f p, opened w fp = Some f -> 0 <= p < f_size f ->
    exists w', sys_fseek fp p SEEK_SET w = Ret (0, w') /\ opened w' fp = Some (seek_to p f) /\ sectors w' = sectors w;
  fseek_end_ok : forall w fp f p, opened w fp = Some f -> 0 <= p < f_size f ->
    exists w', sys_fseek fp p SEEK_END w = Ret (0, w') /\ opened w' fp = Some (seek_to (f_size f - p) f) /\
      sectors w' = sectors w;
  ftell_ok : forall w fp f, opened w fp = Some f -> 0 <= f_pos f < 2147483648 -> sys_ftell fp w = Ret (f_pos f, w)
}.

(** Writing sectors needs a privilege, and may destroy what is stored there.
    [writable w fp k]: the process has the privilege (isr80h_command18_write_sector
    asks for it), sector [k] is one of the disk, and neither the open file [fp] nor
    what finds it is stored there (on the volume of boot.asm, whose files and tables
    begin behind the reserved sectors, [k] is one of the 28672 reserved ones).
    [refused w k]: the process lacks the privilege, or the disk fails; then the call
    returns an error and changes nothing.  The other calls take no rights away. *)
Class SectorsOk (W : Type) `{FilesOk W} := {
  writable : W -> Z -> Z -> Prop;
  refused : W -> Z -> Prop;
  writesector_ok : forall w fp f k b, writable w fp k -> opened w fp = Some f -> length b = 512%nat ->
    exists w', sys_writesector k 0 b w = Ret (0, w') /\ opened w' fp = Some f /\ sectors w' = <[k := b]> (sectors w) /\
      (forall j, writable w fp j -> writable w' fp j) /\ (forall j, refused w j -> refused w' j);
  writesector_refused : forall w k b, refused w k -> exists r, sys_writesector k 0 b w = Ret (r, w) /\ r <> 0;
  fread_rights : forall w fp n r b w', sys_fread fp n w = Ret (r, b, w') ->
    (forall j, writable w fp j -> writable w' fp j) /\ (forall j, refused w j -> refused w' j);
  fseek_rights : forall w fp p wh r w', sys_fseek fp p wh w = Ret (r, w') ->
    (forall j, writable w fp j -> writable w' fp j) /\ (forall j, refused w j -> refused w' j);
  fclose_sectors : forall w fp f, opened w fp = Some f -> exists r w', sys_fclose fp w = Ret (r, w') /\ sectors w' = sectors w
}.

(** ** Copying strings *)
Lemma strcpy_spec src str dest :
  cstr src str -> (length str < length dest)%nat ->
  CString.strcpy dest src = Ret (str ++ 0 :: drop (S (length str)) dest).
Proof.
  revert src dest. induction str as [|c str IH]; intros src dest Hs Hl; (destruct dest as [|d dest]; [simpl in Hl; lia|]).
  - apply cstr_nil in Hs as [r ->]. done.
  - destruct (cstr_inv _ _ Hs) as [[? _] | (? & ? & b & [= <- <-] & -> & Hc & Hs')]; [done|].
    simpl in Hl. cbn [CString.strcpy]. rewrite (proj2 (Z.eqb_neq c 0)) by done. rewrite (IH b dest Hs') by lia. done.
Qed.

Lemma strcpy_at_spec buf off src str :
  cstr src str -> 0 <= off -> off + Z.of_nat (length str) < Z.of_nat (length buf) ->
  strcpy_at buf off src =
    Ret (take (Z.to_nat off) buf ++ str ++ 0 :: drop (Z.to_nat off + S (length str)) buf).
Proof.
  intros Hs H0 Hl. unfold strcpy_at. rewrite (proj2 (Z.leb_le _ _)), (proj2 (Z.leb_le off _)) by lia. cbn [andb].
  rewrite (strcpy_spec src str) by (try done; rewrite length_drop; lia). cbn [mbind outcome_bind]. by rewrite drop_drop.
Qed.

(** ** Output never stands in the way *)
Section console.
Context {W : Type} `{SystemCalls W}.
Implicit Types s : prog W.

Definition with_console (k : io) s : prog W := mk_prog k (user s) (errno s) (exit_funcs s) (world s).
Definition with_world (w : W) s : prog W := mk_prog (console s) (user s) (errno s) (exit_funcs s) w.
Definition printing s : Prop := length (text (console s)) = 12%nat.

Lemma on_console_spec {A} (c : cmd io A) s a k : c (console s) = Ret (a, k) -> on_console c s = Ret (a, with_console k s).
Proof. intros E. unfold on_console. by rewrite E. Qed.
Lemma on_world_spec {A} (c : cmd W A) s a w :
  c (world s) = Ret (a, w) -> on_world c s = Ret (a, with_world w s).
Proof. intros E. unfold on_world. by rewrite E. Qed.

Lemma say_prints fmt ks ap s :
  conversions fmt = Some ks -> Forall2 arg_ok ks ap -> printing s ->
  exists k, say fmt ap s = Ret (tt, with_console k s) /\ same_input (console s) k.
Proof.
  intros Hc Ha Hp. destruct (printf_total fmt ks ap (console s) Hc Ha Hp) as (k & E & Hk).
  exists k. split; [|done]. unfold say. by step (on_console_spec _ s 0 k E).
Qed.

(** A call of [printf] whose format is known piece by piece: what it prints. *)
Lemma say_text fmt ks ap ps outs post s :
  conversions fmt = Some ks -> Forall2 arg_ok ks ap -> printing s ->
  fmt = concat (piece_format <$> ps) ++ 0 :: post -> ap = concat (piece_args <$> ps) -> Forall2 piece_text ps outs ->
  exists k, say fmt ap s = Ret (tt, with_console k s) /\ same_input (console s) k /\
    output k = output (console s) ++ concat outs.
Proof.
  intros Hc Ha Hp Hf Hap Hps. destruct (printf_total fmt ks ap (console s) Hc Ha Hp) as (k & E & Hk).
  exists k. split; [unfold say; by step (on_console_spec _ s 0 k E)|]. split; [done|].
  destruct (printf_loop_spec ps outs post (console s) Hps Hp) as (k' & E' & Ho & _). unfold printf in E.
  rewrite Hf, Hap, (bind_Ret _ _ _ _ _ E') in E. by injection E as <-.
Qed.

(** Literal characters. *)
Lemma literal_pieces l : Forall (fun c => c <> 37 /\ 0 < c < 256) l ->
  Forall2 piece_text (PLit <$> l) ((fun c => [c]) <$> l) /\ concat (piece_format <$> (PLit <$> l)) = l /\
  concat (piece_args <$> (PLit <$> l)) = [] /\ concat ((fun c : Z => [c]) <$> l) = l.
Proof.
  induction 1 as [|c l Hc _ (IH1 & IH2 & IH3 & IH4)]; [by split_and!|]. rewrite !fmap_cons. cbn [concat piece_format piece_args app].
  rewrite IH2, IH3, IH4. split_and!; try done. by constructor.
Qed.

Lemma key_spec s c t :
  typed (keys (console s)) = c :: t ->
  exists ks, on_console getchar s = Ret (c, with_console (set_keys ks (console s)) s) /\ typed ks = t /\
    (length ks < length (keys (console s)))%nat /\ 0 < c < 256.
Proof.
  intros Ht. destruct (getchar_typed (console s) c t Ht) as (ks & E & Hr). exists ks. split; [|done].
  by apply on_console_spec.
Qed.

Lemma fread_spec fp n buf s r bs w :
  sys_fread fp n (world s) = Ret (r, bs, w) -> (length bs <= length buf)%nat ->
  fread fp n buf s = Ret (r, bs ++ drop (length bs) buf, with_world w s).
Proof.
  intros E Hl. unfold fread. rewrite (bind_Ret _ _ _ _ _ (on_world_spec (sys_fread fp n) s _ w E)).
  by rewrite (proj2 (Nat.leb_le _ _) Hl).
Qed.

Lemma memset_step buf c n s :
  0 <= n < 4294967296 -> (Z.to_nat n <= length buf)%nat ->
  UserRuntime.memset buf c n s = Ret (replicate (Z.to_nat n) (u8 c) ++ drop (Z.to_nat n) buf, set_errno 0 s).
Proof. intros Hn Hl. unfold UserRuntime.memset. by rewrite (bind_liftO _ _ _ _ (memset_spec buf c n Hn Hl)). Qed.

Lemma keys_left_spec s : keys_left s = Ret (length (keys (console s)), s).
Proof. done. Qed.

(** Waiting for one of some keys. *)
Lemma wait_char_spec n wanted before c after s :
  typed (keys (console s)) = before ++ c :: after -> Forall (fun d => wanted d = false) before -> wanted c = true ->
  (length (keys (console s)) < n)%nat ->
  exists ks, wait_char n wanted s = Ret (c, with_console (set_keys ks (console s)) s) /\ typed ks = after.
Proof.
  revert n s. induction before as [|d before IH]; intros n s Ht Hb Hc Hn; (destruct n as [|n]; [lia|]); cbn [wait_char app] in *.
  - destruct (key_spec s c after Ht) as (ks & E & Hty & _). step E. rewrite Hc. by exists ks.
  - inversion Hb as [|? ? Hd Hb']; subst. destruct (key_spec s d _ Ht) as (ks & E & Hty & Hl & _). step E. rewrite Hd.
    destruct (IH n (with_console (set_keys ks (console s)) s)) as (ks' & E' & Hty'); [done..|cbn; lia|].
    by exists ks'.
Qed.
End console.

(** ** sosupdt *)
Section sosupdt.
Context {W : Type} `{SectorsOk W} (uninit : Z -> list Z).
Implicit Types s : prog W.

(** [n] sectors from [k] on with the bytes of the file. *)
Fixpoint copied (n : nat) (k : Z) (f : ofile) (m : gmap Z (list Z)) : gmap Z (list Z) :=
  match n with
  | O => m
  | S n => copied n (k + 1) f (<[k := piece f (512 * k) 512]> m)
  end.

Lemma copied_lookup n k f m j :
  copied n k f m !! j = if decide (k <= j < k + Z.of_nat n) then Some (piece f (512 * j) 512) else m !! j.
Proof.
  revert k m. induction n as [|n IH]; intros k m; cbn [copied]; [by rewrite decide_False by lia|].
  rewrite IH. destruct (decide (j = k)) as [->|Hne].
  - rewrite decide_False, decide_True, lookup_insert_eq by lia. done.
  - rewrite lookup_insert_ne by done. do 2 case_decide; try lia; done.
Qed.

Lemma copied_seek n k p f m : copied n k (seek_to p f) m = copied n k f m.
Proof. revert k m. induction n as [|n IH]; intros k m; cbn [copied]; [done|apply IH]. Qed.

Lemma length_piece f p n : 0 <= p -> 0 <= n -> p + n <= Z.of_nat (length (f_data f)) -> length (piece f p n) = Z.to_nat n.
Proof. intros. unfold piece. rewrite length_take, length_drop. lia. Qed.

(** What a call that only moves the position of the file leaves. *)
Definition same_rights (fp : Z) (w w' : W) : Prop :=
  (forall j, writable w fp j -> writable w' fp j) /\ (forall j, refused w j -> refused w' j).

Lemma same_rights_trans fp w1 w2 w3 : same_rights fp w1 w2 -> same_rights fp w2 w3 -> same_rights fp w1 w3.
Proof. intros [A1 A2] [B1 B2]. split; auto. Qed.

(** One turn: a sector of the file is read, its number is printed, and what the
    call that writes it returned is looked at. *)
Lemma copy_turn fuel fp f filesize sector buf s :
  opened (world s) fp = Some f -> f_pos f = 512 * sector -> 0 <= sector < 2147483648 -> length buf = 512%nat -> printing s ->
  0 < filesize -> 512 * sector + 512 <= Z.of_nat (length (f_data f)) < 2147483648 ->
  exists k w, same_input (console s) k /\ opened w fp = Some (seek_to (512 * (sector + 1)) f) /\ sectors w = sectors (world s) /\
    same_rights fp (world s) w /\
    forall r w', sys_writesector sector 0 (piece f (512 * sector) 512) w = Ret (r, w') ->
      let s' := with_world w' (with_console k s) in
      (r = 0 -> exists e, sosupdt_copy (S fuel) fp filesize sector buf s =
         sosupdt_copy fuel fp (filesize - 512) (sector + 1) (replicate 512 0) (set_errno e s')) /\
      (r <> 0 -> forall c later r2 w2, typed (keys (console s)) = c :: later -> sys_fclose fp w' = Ret (r2, w2) ->
         exists s2, sosupdt_copy (S fuel) fp filesize sector buf s = Ret (Some (-2), s2) /\ world s2 = w2).
Proof.
  intros Hf Hp Hk0 Hb Hpr Hs Hd.
  destruct (fread_ok (world s) fp f 512 Hf ltac:(lia) ltac:(lia) ltac:(lia) ltac:(lia) ltac:(zlia)) as (r1 & w1 & E1 & Hf1 & Hs1).
  pose proof (length_piece f (f_pos f) 512 ltac:(lia) ltac:(lia) ltac:(lia)) as Hlp. change (Z.to_nat 512) with 512%nat in Hlp.
  destruct (say_prints (10 :: lit "Sector %d") [CInt] [VInt sector] (with_world w1 s)) as (k & E2 & Hk & Ht);
    [reflexivity|constructor; [cbn; lia|constructor]|done|].
  exists k, w1. split; [done|]. split; [rewrite Hf1; do 2 f_equal; lia|]. split; [done|].
  split; [by apply (fread_rights _ _ _ _ _ _ E1)|]. intros r w' E3. rewrite <- Hp in E3. cbn [sosupdt_copy].
  rewrite (proj2 (Z.leb_gt _ _)) by lia.
  step (fread_spec fp 512 buf s r1 _ w1 E1 ltac:(lia)). rewrite Hlp, drop_ge, app_nil_r by lia. step E2.
  step (on_world_spec (sys_writesector sector 0 (piece f (f_pos f) 512)) (with_console k (with_world w1 s)) r w' E3).
  split.
  - intros ->. cbn [Z.eqb]. eexists. step (memset_step (piece f (f_pos f) 512) 0 512 (with_world w' (with_console k (with_world w1 s)))
      ltac:(lia) ltac:(rewrite Hlp; reflexivity)).
    change (Z.to_nat 512) with 512%nat. rewrite drop_ge, app_nil_r by lia. reflexivity.
  - intros Hr c later r2 w2 Hty Hcl. rewrite (proj2 (Z.eqb_neq r 0)) by done.
    set (s3 := with_world w' _).
    match goal with |- context [mbind _ (say ?fmt [VInt sector]) s3] =>
      destruct (say_prints fmt [CInt] [VInt sector] s3) as (k4 & E4 & Hk4 & Ht4) end;
      [reflexivity|constructor; [cbn; lia|constructor]|unfold printing; cbn; by rewrite Ht|]. step E4.
    destruct (key_spec (with_console k4 s3) c later) as (ks & E5 & _).
    { cbn. rewrite Hk4. cbn. rewrite Hk. exact Hty. }
    step E5. set (s5 := with_console _ _). step (on_world_spec (sys_fclose fp) s5 r2 w2 Hcl).
    eexists. split; [reflexivity|done].
Qed.

(** The loop copies sectors as long as the kernel writes them. *)
Lemma copy_spec n fuel fp f filesize sector buf s c later :
  opened (world s) fp = Some f -> f_pos f = 512 * sector -> 0 <= sector -> length buf = 512%nat -> printing s ->
  typed (keys (console s)) = c :: later ->
  512 * (Z.of_nat n - 1) < filesize <= 512 * Z.of_nat fuel ->
  512 * (sector + (filesize + 511) / 512) <= Z.of_nat (length (f_data f)) -> Z.of_nat (length (f_data f)) < 2147483648 ->
  (forall k, sector <= k < sector + Z.of_nat n -> writable (world s) fp k) ->
  filesize <= 512 * Z.of_nat n \/ refused (world s) (sector + Z.of_nat n) ->
  exists s', sosupdt_copy fuel fp filesize sector buf s = Ret (if filesize <=? 512 * Z.of_nat n then None else Some (-2), s') /\
    (filesize <= 512 * Z.of_nat n -> printing s' /\ typed (keys (console s')) = c :: later) /\
    sectors (world s') = copied n sector f (sectors (world s)).
Proof.
  revert fuel f filesize sector buf s. induction n as [|n IH]; intros fuel f filesize sector buf s Hf Hp Hk0 Hb Hpr Hty Hs Hd Hmax Hwr Hst;
    (destruct (Z.leb_spec filesize 0) as [Hz|Hz]; [rewrite (proj2 (Z.leb_le filesize (512 * _))) by lia|]).
  3: lia.
  1: exists s; destruct fuel; cbn [sosupdt_copy]; by rewrite (proj2 (Z.leb_le filesize 0)) by lia.
  - (* the call fails *)
    destruct Hst as [?|Hrf]; [lia|]. rewrite Z.add_0_r in Hrf. destruct fuel as [|fuel]; [lia|].
    assert (512 <= 512 * ((filesize + 511) / 512)) by zlia.
    destruct (copy_turn fuel fp f filesize sector buf s) as (k & w & _ & Hf1 & Hs1 & [_ Hr1] & Hturn); try done; try lia.
    destruct (writesector_refused w sector (piece f (512 * sector) 512) (Hr1 _ Hrf)) as (r & Ew & Hr).
    destruct (fclose_sectors w fp _ Hf1) as (r2 & w2 & Ec & Hs2).
    destruct (Hturn r w Ew) as [_ Hfail]. destruct (Hfail Hr c later r2 w2 Hty Ec) as (s2 & E & Hw2).
    exists s2. rewrite (proj2 (Z.leb_gt filesize _)) by lia. split; [exact E|]. split; [lia|]. cbn [copied]. by rewrite Hw2, Hs2.
  - destruct fuel as [|fuel]; [lia|]. assert (512 <= 512 * ((filesize + 511) / 512)) by zlia.
    assert (Hq : (filesize - 512 + 511) / 512 = (filesize + 511) / 512 - 1) by zlia.
    destruct (copy_turn fuel fp f filesize sector buf s) as (k & w & [Hk Ht] & Hf1 & Hs1 & [Hw1 Hr1] & Hturn); try done; try lia.
    pose proof (length_piece f (512 * sector) 512 ltac:(lia) ltac:(lia) ltac:(lia)) as Hlp.
    destruct (writesector_ok w fp _ sector (piece f (512 * sector) 512) (Hw1 _ (Hwr sector ltac:(lia))) Hf1 Hlp)
      as (w' & Ew & Hf2 & Hs2 & Hw2 & Hr2).
    destruct (Hturn 0 w' Ew) as [Hok _]. destruct (Hok eq_refl) as (e & E).
    destruct (IH fuel (seek_to (512 * (sector + 1)) f) (filesize - 512) (sector + 1) (replicate 512 0)
                (set_errno e (with_world w' (with_console k s)))) as (s' & E4 & Hp' & Hs'); try done; try lia.
    + cbn. by rewrite Hk.
    + rewrite Hq. cbn [f_data seek_to]. lia.
    + intros j Hj. cbn [world set_errno with_world]. apply Hw2, Hw1, Hwr. lia.
    + destruct Hst as [?|Hrf]; [left; lia|right]. cbn [world set_errno with_world]. apply Hr2, Hr1.
      by replace (sector + 1 + Z.of_nat n) with (sector + Z.of_nat (S n)) by lia.
    + exists s'. rewrite E, E4. split.
      { assert (Hl : (filesize - 512 <=? 512 * Z.of_nat n) = (filesize <=? 512 * Z.of_nat (S n))).
        { apply eq_true_iff_eq. rewrite !Z.leb_le. lia. }
        by rewrite Hl. }
      split; [intros ?; apply Hp'; lia|]. rewrite Hs'. cbn [copied world set_errno with_world]. by rewrite Hs2, Hs1, copied_seek.
Qed.

(** What comes before the loop: the question, and the size of the file. *)
Lemma sosupdt_start a0 a1 name fp f before k c later w4 s :
  cstr a1 name -> length (uninit 108) = 108%nat -> (length name < 108)%nat ->
  printing s -> typed (keys (console s)) = before ++ k :: c :: later ->
  Forall (fun c => c <> 89 /\ c <> 121 /\ c <> 78 /\ c <> 110) before -> k = 89 \/ k = 121 ->
  (forall p, cstr p name -> sys_fopen p (lit "r") (world s) = Ret (fp, w4)) ->
  opened w4 fp = Some f -> fp <> 0 -> 0 < f_size f < 2147483648 ->
  exists s8, printing s8 /\ typed (keys (console s8)) = c :: later /\ opened (world s8) fp = Some (seek_to 0 f) /\
    sectors (world s8) = sectors w4 /\ same_rights fp w4 (world s8) /\
    sosupdt_main uninit [a0; a1] s =
      (res ← sosupdt_copy (Z.to_nat (f_size f)) fp (f_size f) 0 (uninit 512);
       match res with
       | Some r => mret (Returned r)
       | None =>
           say (10 :: chars "Done! Once you reboot, you can enjoy an updated SerpaeOS!" ++ [7; 0]) [];;
           on_console getchar;;
           mret (Returned 0)
       end) s8.
Proof.
  intros Ha Hu Hn Hpr Hty Hb Hk Hopen Hf4 Hfp Hsz.
  pose proof (strcpy_at_spec (uninit 108) 0 a1 name Ha ltac:(lia) ltac:(lia)) as Ep. cbn [take app Z.to_nat] in Ep.
  set (path := name ++ _) in Ep. assert (Hpath : cstr path name) by (split; [apply Ha|by eexists]).
  unfold sosupdt_main.
  destruct (say_prints (chars "SerpaeOS Update Center version %s" ++ [10; 0]) [CStr] [VStr (lit "23.2.1")] s) as (c1 & E1 & Hc1 & Ht1);
    [reflexivity| |done|].
  { constructor; [|constructor]. exists (chars "23.2.1"). split; [by apply (bool_decide_unpack _)|by exists []]. }
  step E1. set (s1 := with_console c1 s). change (negb (length [a0; a1] =? 2)%nat) with false. cbv iota.
  rewrite (bind_Ret _ _ s1 path s1) by (by rewrite (bind_liftO _ _ _ a1 eq_refl); unfold liftO; rewrite Ep).
  match goal with |- context [mbind _ (say ?fmt [VStr path]) s1] =>
    destruct (say_prints fmt [CStr] [VStr path] s1) as (c2 & E2 & Hc2 & Ht2) end;
    [reflexivity|constructor; [by exists name|constructor]|done|]. step E2.
  set (s2 := with_console c2 s1). cbn [console with_console s1] in Hc2.
  assert (Hty2 : typed (keys (console s2)) = before ++ k :: c :: later) by (cbn; by rewrite Hc2, Hc1).
  match goal with |- context [await ?w] => set (wanted := w) end.
  destruct (wait_char_spec (S (length (keys (console s2)))) wanted before k (c :: later) s2 Hty2) as (ks3 & E3 & Hty3);
    [|by destruct Hk as [->| ->]|lia|].
  { eapply Forall_impl; [exact Hb|]. intros d (? & ? & ? & ?). unfold wanted.
    by rewrite !(proj2 (Z.eqb_neq d _)) by done. }
  assert (Eaw : await wanted s2 = Ret (k, with_console (set_keys ks3 (console s2)) s2)).
  { unfold await. step (keys_left_spec s2). exact E3. }
  step Eaw. set (s3 := with_console _ s2).
  assert (Hno : (k =? 78) || (k =? 110) = false) by (by destruct Hk as [->| ->]). rewrite Hno.
  step (on_world_spec _ s3 fp w4 (Hopen path Hpath)).
  rewrite (proj2 (Z.eqb_neq fp 0)) by done. set (s4 := with_world w4 s3).
  destruct (say_prints (10 :: lit "Working...") [] [] s4) as (c5 & E5 & Hc5 & Ht5); [reflexivity|constructor|done|]. step E5.
  set (s5 := with_console c5 s4).
  destruct (fseek_end_ok w4 fp f 0 Hf4 ltac:(lia)) as (w6 & E6 & Hf6 & Hs6). step (on_world_spec (sys_fseek fp 0 SEEK_END) s5 0 w6 E6).
  set (s6 := with_world w6 s5). step (on_world_spec (sys_ftell fp) s6 _ w6 (ftell_ok w6 fp _ Hf6 ltac:(cbn; lia))). cbn [f_pos seek_to].
  rewrite Z.sub_0_r. set (s7 := with_world w6 s6).
  destruct (fseek_set_ok w6 fp _ 0 Hf6 ltac:(cbn; lia)) as (w8 & E8 & Hf8 & Hs8).
  step (on_world_spec (sys_fseek fp 0 SEEK_SET) s7 0 w8 E8). exists (with_world w8 s7).
  split; [done|]. split; [cbn; rewrite Hc5; exact Hty3|]. split; [exact Hf8|]. split; [cbn; by rewrite Hs8, Hs6|]. split; [|reflexivity].
  eapply same_rights_trans; [exact (fseek_rights _ _ _ _ _ _ E6)|exact (fseek_rights _ _ _ _ _ _ E8)].
Qed.

(** C24: the update program.  Started with the path of a file and told yes, it
    writes the file to the first sectors of the disk, one after the other: sector
    [k] gets the [k]th 512 bytes of what is stored for the file.  When the process
    may write every sector the file reaches into (it has the privilege, and the
    file is not stored in these sectors), all of them are written and it returns 0;
    when it may write the first [m] of them and the kernel refuses the next one
    ([m] is 0 for a process without the privilege), it has written those, waits for
    a key and returns -2.  No other sector changes.  The last sector of the file is
    not padded with zeros: it ends with what the volume holds after the end of the
    file. *)
Theorem sosupdt_copies_image a0 a1 name fp f before k c later w s m :
  cstr a1 name -> length (uninit 108) = 108%nat -> length (uninit 512) = 512%nat -> (length name < 108)%nat ->
  printing s -> typed (keys (console s)) = before ++ k :: c :: later ->
  Forall (fun c => c <> 89 /\ c <> 121 /\ c <> 78 /\ c <> 110) before -> k = 89 \/ k = 121 ->
  (forall p, cstr p name -> sys_fopen p (lit "r") (world s) = Ret (fp, w)) -> fp <> 0 ->
  opened w fp = Some f -> sectors w = sectors (world s) -> 0 < f_size f ->
  512 * ((f_size f + 511) / 512) <= Z.of_nat (length (f_data f)) -> Z.of_nat (length (f_data f)) < 2147483648 ->
  let n := (f_size f + 511) / 512 in
  0 <= m <= n -> (forall j, 0 <= j < m -> writable w fp j) -> m = n \/ refused w m ->
  exists s', sosupdt_main uninit [a0; a1] s = Ret (Returned (if m =? n then 0 else -2), s') /\
    forall j, sectors (world s') !! j =
      if decide (0 <= j < m) then Some (piece f (512 * j) 512) else sectors (world s) !! j.
Proof.
  intros Ha Hu Hu2 Hn Hpr Hty Hb Hk Hopen Hfp Hf Hsec Hsz Hd Hmax n Hm Hwr Hst.
  assert (Hdm : f_size f <= 512 * n < f_size f + 512) by (unfold n; zlia).
  destruct (sosupdt_start a0 a1 name fp f before k c later w s Ha Hu Hn Hpr Hty Hb Hk Hopen Hf Hfp ltac:(lia))
    as (s8 & Hp8 & Hk8 & Hf8 & Hs8 & [Hw8 Hr8] & ->).
  assert (Hmn : (f_size f <=? 512 * Z.of_nat (Z.to_nat m)) = (m =? n)).
  { apply eq_true_iff_eq. rewrite Z.leb_le, Z.eqb_eq. lia. }
  destruct (copy_spec (Z.to_nat m) (Z.to_nat (f_size f)) fp _ (f_size f) 0 (uninit 512) s8 c later Hf8) as (s9 & E9 & Hk9 & Hs9);
    try done; try lia; rewrite ?Z.add_0_l, ?Z2Nat.id by lia.
  { intros j Hj. apply Hw8, Hwr. lia. }
  { destruct Hst as [->|Hst]; [left; lia|right; by apply Hr8]. }
  assert (Hall : forall j, sectors (world s9) !! j =
      if decide (0 <= j < m) then Some (piece f (512 * j) 512) else sectors (world s) !! j).
  { intros j. rewrite Hs9, copied_lookup, Hs8, Hsec, Z.add_0_l, Z2Nat.id by lia. done. }
  step E9. rewrite Hmn in *. destruct (m =? n) eqn:Emn; breflect; [|by exists s9].
  destruct (Hk9 ltac:(lia)) as [Hp9 Ht9].
  match goal with |- context [mbind _ (say ?fmt []) s9] => destruct (say_prints fmt [] [] s9) as (c10 & E10 & Hc10 & Ht10) end;
    [reflexivity|constructor|done|]. step E10.
  destruct (key_spec (with_console c10 s9) c later) as (ks11 & E11 & _); [cbn; by rewrite Hc10|]. step E11.
  eexists. split; [done|exact Hall].
Qed.
End sosupdt.

(** ** A small world: some open files, the name of the one that can be opened,
    the sectors of the disk, and the commands that were run *)
Record small := mk_small {
  sm_files : gmap Z ofile;
  sm_name : list Z;
  sm_sectors : gmap Z (list Z);
  sm_ran : list Z
}.
Definition sm_set (fp : Z) (f : ofile) (w : small) : small :=
  mk_small (<[fp := f]> (sm_files w)) (sm_name w) (sm_sectors w) (sm_ran w).
Definition sm_file (fp : Z) (c : ofile -> cmd small Z) : cmd small Z := fun w =>
  match sm_files w !! fp with Some f => c f w | None => Ret (-1, w) end.

#[export] Instance small_calls : SystemCalls small := {|
  sys_fopen := fun path _ w =>
    match string_at path with
    | Ret p => Ret (if decide (p = sm_name w) then 5 else 0, w)
    | _ => Oob
    end;
  sys_fclose := fun _ => mret 0;
  sys_fread := fun fp n w =>
    match sm_files w !! fp with
    | Some f =>
        if (0 <=? f_pos f) && (f_pos f + n <=? Z.of_nat (length (f_data f)))
        then Ret (n, piece f (f_pos f) n, sm_set fp (seek_to (f_pos f + n) f) w)
        else Ret (-1, [], w)
    | None => Ret (-1, [], w)
    end;
  sys_fwrite := fun fp n buf => sm_file fp (fun f =>
    modifyS (sm_set fp (mk_ofile (f_data f ++ buf) (f_size f + n) (f_pos f)));; mret n);
  sys_fseek := fun fp p whence => sm_file fp (fun f =>
    if (0 <=? p) && (p <? f_size f) then
      modifyS (sm_set fp (seek_to (if whence =? SEEK_END then f_size f - p else p) f));; mret 0
    else mret (-1));
  sys_ftell := fun fp => sm_file fp (fun f => mret (f_pos f));
  sys_remove := fun _ => mret tt;
  sys_writesector := fun k _ b =>
    modifyS (fun w => mk_small (sm_files w) (sm_name w) (<[k := b]> (sm_sectors w)) (sm_ran w));; mret 0;
  sys_system := fun _ args =>
    modifyS (fun w => mk_small (sm_files w) (sm_name w) (sm_sectors w) (sm_ran w ++ [args]));; mret 7;
  sys_kill := fun _ => mret 0;
  sys_retcode := fun _ => mret 0;
  sys_newthread := fun _ _ _ _ => mret 0;
  sys_get_arguments := mret [];
  sys_clrscr := fun _ => mret tt;
  sys_set_cursor := fun _ _ => mret tt;
  sys_draw_block := fun _ _ _ => mret tt;
  sys_play := fun _ => mret tt;
  sys_quit_sound := mret tt
|}.

#[export] Instance small_files_ok : FilesOk small.
Proof.
  refine {| opened := fun w fp => sm_files w !! fp; sectors := sm_sectors |}.
  - intros w fp f n Hf Hn Hp Hl _ _. simpl. rewrite Hf, (proj2 (Z.leb_le 0 _)), (proj2 (Z.leb_le _ _)) by lia.
    eexists _, _. split; [done|]. simpl. by rewrite lookup_insert_eq.
  - intros w fp f p Hf Hp. simpl. unfold sm_file. rewrite Hf, (proj2 (Z.leb_le 0 _)), (proj2 (Z.ltb_lt _ _)) by lia.
    eexists. split; [done|]. simpl. by rewrite lookup_insert_eq.
  - intros w fp f p Hf Hp. simpl. unfold sm_file. rewrite Hf, (proj2 (Z.leb_le 0 _)), (proj2 (Z.ltb_lt _ _)) by lia.
    eexists. split; [done|]. simpl. by rewrite lookup_insert_eq.
  - intros w fp f Hf _. simpl. unfold sm_file. by rewrite Hf.
Defined.

(** ** A small volume: a disk of 64 sectors, whose files are stored in sectors
    behind the reserved ones; one file, which can be opened *)
Record volume := mk_volume {
  vo_sectors : gmap Z (list Z);
  vo_reserved : Z;
  vo_priv : bool;
  vo_name : list Z;
  vo_first : Z;
  vo_count : Z;
  vo_size : Z;
  vo_pos : Z
}.
Definition vo_at (p : Z) (w : volume) : volume :=
  mk_volume (vo_sectors w) (vo_reserved w) (vo_priv w) (vo_name w) (vo_first w) (vo_count w) (vo_size w) p.
Definition vo_write (k : Z) (b : list Z) (w : volume) : volume :=
  mk_volume (<[k := b]> (vo_sectors w)) (vo_reserved w) (vo_priv w) (vo_name w) (vo_first w) (vo_count w) (vo_size w) (vo_pos w).

(** The file is what its sectors hold; there is none when they are not behind
    the reserved ones. *)
Definition vo_data (w : volume) : list Z :=
  concat ((fun k => default [] (vo_sectors w !! k)) <$> seqZ (vo_first w) (vo_count w)).
Definition vo_file (w : volume) (fp : Z) : option ofile :=
  if (fp =? 5) && (vo_reserved w <=? vo_first w) then Some (mk_ofile (vo_data w) (vo_size w) (vo_pos w)) else None.

#[export] Instance volume_calls : SystemCalls volume := {|
  sys_fopen := fun path _ w =>
    match string_at path with
    | Ret p => Ret (if decide (p = vo_name w) then 5 else 0, w)
    | _ => Oob
    end;
  sys_fclose := fun _ => mret 0;
  sys_fread := fun fp n w =>
    match vo_file w fp with
    | Some f =>
        if (0 <=? f_pos f) && (f_pos f + n <=? Z.of_nat (length (f_data f)))
        then Ret (n, piece f (f_pos f) n, vo_at (f_pos f + n) w)
        else Ret (-1, [], w)
    | None => Ret (-1, [], w)
    end;
  sys_fwrite := fun _ _ _ => mret (-1);
  sys_fseek := fun fp p whence w =>
    match vo_file w fp with
    | Some f =>
        if (0 <=? p) && (p <? f_size f) then Ret (0, vo_at (if whence =? SEEK_END then f_size f - p else p) w) else Ret (-1, w)
    | None => Ret (-1, w)
    end;
  sys_ftell := fun fp w => Ret (match vo_file w fp with Some f => f_pos f | None => -1 end, w);
  sys_remove := fun _ => mret tt;
  (* -ENOTPRIV *)
  sys_writesector := fun k _ b w =>
    if vo_priv w && (0 <=? k) && (k <? 64) then Ret (0, vo_write k b w) else Ret (-14, w);
  sys_system := fun _ _ => mret (-1);
  sys_kill := fun _ => mret 0;
  sys_retcode := fun _ => mret 0;
  sys_newthread := fun _ _ _ _ => mret 0;
  sys_get_arguments := mret [];
  sys_clrscr := fun _ => mret tt;
  sys_set_cursor := fun _ _ => mret tt;
  sys_draw_block := fun _ _ _ => mret tt;
  sys_play := fun _ => mret tt;
  sys_quit_sound := mret tt
|}.

#[export] Instance volume_files_ok : FilesOk volume.
Proof.
  refine {| opened := vo_file; sectors := vo_sectors |}.
  - intros w fp f n Hf Hn Hp Hl _ _. simpl. rewrite Hf, (proj2 (Z.leb_le 0 _)), (proj2 (Z.leb_le _ _)) by lia.
    eexists _, _. split; [done|]. unfold vo_file in *. simpl. destruct ((fp =? 5) && _); [|done]. by injection Hf as <-.
  - intros w fp f p Hf Hp. simpl. rewrite Hf, (proj2 (Z.leb_le 0 _)), (proj2 (Z.ltb_lt _ _)) by lia.
    eexists. split; [done|]. unfold vo_file in *. simpl. destruct ((fp =? 5) && _); [|done]. by injection Hf as <-.
  - intros w fp f p Hf Hp. simpl. rewrite Hf, (proj2 (Z.leb_le 0 _)), (proj2 (Z.ltb_lt _ _)) by lia.
    eexists. split; [done|]. unfold vo_file in *. simpl. destruct ((fp =? 5) && _); [|done]. by injection Hf as <-.
  - intros w fp f Hf _. simpl. by rewrite Hf.
Defined.

Lemma vo_data_write w k b : k < vo_first w -> vo_data (vo_write k b w) = vo_data w.
Proof.
  intros Hk. unfold vo_data. simpl. f_equal. apply list_fmap_ext. intros i j Hj.
  apply list_elem_of_lookup_2 in Hj. apply elem_of_seqZ in Hj. by rewrite lookup_insert_ne by lia.
Qed.

(** The reserved sectors may be written, with the privilege. *)
#[export] Instance volume_sectors_ok : SectorsOk volume.
Proof.
  refine {| writable := fun w _ k => vo_priv w = true /\ 0 <= k < vo_reserved w /\ k < 64;
            refused := fun w k => vo_priv w = false \/ ~ 0 <= k < 64 |}.
  - intros w fp f k b (Hp & Hk & Hk64) Hf Hb. change (vo_file w fp = Some f) in Hf. simpl. rewrite Hp, (proj2 (Z.leb_le 0 k)), (proj2 (Z.ltb_lt k 64)) by lia.
    eexists. split; [done|]. split; [|split; [reflexivity|]; split; intros j Hj; simpl; by rewrite Hp]. unfold vo_file in *. simpl.
    destruct ((fp =? 5) && (vo_reserved w <=? vo_first w)) eqn:E; [|done]. breflect.
    change (vo_data _) with (vo_data (vo_write k b w)). by rewrite vo_data_write by lia.
  - intros w k b Hr. simpl. exists (-14). split; [|done].
    destruct Hr as [-> |Hk]; [done|]. destruct (vo_priv w && (0 <=? k) && (k <? 64)) eqn:E; [|done]. breflect. lia.
  - intros w fp n r b w' E. simpl in E. destruct (vo_file w fp) as [f|]; [destruct (_ && _)|]; injection E as _ _ <-; done.
  - intros w fp p wh r w' E. simpl in E. destruct (vo_file w fp) as [f|]; [destruct (_ && _)|]; injection E as _ <-; done.
  - intros w fp f _. by eexists _, _.
Defined.

(** A file of 700 bytes, in sectors 40 and 41; 32 sectors are reserved. *)
Definition image_sectors : gmap Z (list Z) :=
  {[7 := [1]; 40 := replicate 512 65; 41 := replicate 188 65 ++ replicate 324 0]}.
Definition image : ofile := mk_ofile (replicate 700 65 ++ replicate 324 0) 700 0.
Definition update_volume (priv : bool) : volume := mk_volume image_sectors 32 priv (chars "new.bin") 40 2 700 0.
Definition update_prog (priv : bool) (ks : list Z) : prog volume :=
  mk_prog (mk_io ks [] (replicate 12 0)) (mk_ust (mk_tok [] 0) []) 0 (replicate 20 0) (update_volume priv).
Definition zeros (n : Z) : list Z := replicate (Z.to_nat n) 0.

Lemma update_open priv p :
  cstr p (chars "new.bin") -> sys_fopen p (lit "r") (world (update_prog priv [120; 121; 32])) = Ret (5, update_volume priv).
Proof. intros Hp. simpl. by rewrite (string_at_spec p (chars "new.bin") Hp). Qed.

Lemma sosupdt_copies_image_witness :
  (exists s', sosupdt_main zeros [lit "sosupdt"; lit "new.bin"] (update_prog true [120; 121; 32]) = Ret (Returned 0, s') /\
     vo_sectors (world s') !! 1 = Some (piece image 512 512) /\ vo_sectors (world s') !! 7 = Some [1]) /\
  (exists s', sosupdt_main zeros [lit "sosupdt"; lit "new.bin"] (update_prog false [120; 121; 32]) = Ret (Returned (-2), s') /\
     vo_sectors (world s') !! 1 = None).
Proof.
  assert (Hn : cstr (lit "new.bin") (chars "new.bin")) by (split; [by apply (bool_decide_unpack _)|by exists []]).
  assert (Hk : Forall (fun c : Z => c <> 89 /\ c <> 121 /\ c <> 78 /\ c <> 110) [120]) by (constructor; [lia|constructor]).
  split.
  - destruct (sosupdt_copies_image zeros (lit "sosupdt") (lit "new.bin") (chars "new.bin") 5 image [120] 121 32 []
                (update_volume true) (update_prog true [120; 121; 32]) 2 Hn) as (s' & E & Hs);
      try reflexivity; try exact Hk; try (by right); try (by left); try lia.
    + simpl; lia.
    + apply update_open.
    + vm_compute. split; discriminate.
    + intros j Hj. simpl. lia.
    + exists s'. split; [exact E|]. split; [exact (Hs 1)|exact (Hs 7)].
  - destruct (sosupdt_copies_image zeros (lit "sosupdt") (lit "new.bin") (chars "new.bin") 5 image [120] 121 32 []
                (update_volume false) (update_prog false [120; 121; 32]) 0 Hn) as (s' & E & Hs);
      try reflexivity; try exact Hk; try (by right); try lia.
    + simpl; lia.
    + apply update_open.
    + vm_compute. split; discriminate.
    + right. by left.
    + exists s'. split; [exact E|exact (Hs 1)].
Defined.

(** ** pr *)

(** [strncmp] tells strings apart that fit the count. *)
Lemma strncmp_spec b1 b2 s1 s2 n :
  cstr b1 s1 -> cstr b2 s2 -> (length s1 < Z.to_nat n)%nat ->
  exists r, UString.strncmp b1 b2 n = Ret r /\ (r = 0 <-> s1 = s2).
Proof.
  unfold UString.strncmp, CString.strncmp. generalize (Z.to_nat n) as k. intros k H1. revert b1 b2 s2 k H1.
  induction s1 as [|c s1 IH]; intros b1 b2 s2 [|k] H1 H2 Hl; simpl in Hl; try lia.
  - apply cstr_nil in H1 as [r1 ->].
    destruct (cstr_inv _ _ H2) as [[-> [r2 ->]] | (d & s2' & b2' & -> & -> & Hd & _)]; [by exists 0|].
    cbn [strncmp_loop]. rewrite (proj2 (Z.eqb_neq 0 d)) by done. exists (0 - d). split; [done|]. split; [lia|done].
  - destruct (cstr_inv _ _ H1) as [[? _] | (? & ? & b1' & [= <- <-] & -> & Hc & H1')]; [done|].
    destruct (cstr_inv _ _ H2) as [[-> [r2 ->]] | (d & s2' & b2' & -> & -> & Hd & H2')]; cbn [strncmp_loop].
    + rewrite (proj2 (Z.eqb_neq c 0)) by done. exists (c - 0). split; [done|]. split; [lia|done].
    + destruct (c =? d) eqn:E; breflect; cbn [negb].
      * subst d. rewrite (proj2 (Z.eqb_neq c 0)) by done. destruct (IH b1' b2' s2' k H1' H2' ltac:(lia)) as (r & -> & Hr).
        exists r. split; [done|]. rewrite Hr. split; [by intros ->|by intros [= ->]].
      * exists (c - d). split; [done|]. split; [lia|by intros [= -> _]].
Qed.

(** The next line of at most [n] characters and what is left; [None] when the
    enter key is missing. *)
Fixpoint take_line (n : nat) (ks : list Z) : option (list Z * list Z) :=
  match n with
  | O => Some ([], ks)
  | S n =>
      match ks with
      | [] => None
      | c :: ks => if c =? 13 then Some ([], ks) else '(l, r) ← take_line n ks; Some (c :: l, r)
      end
  end.

(** Whether the password is among the lines before the word exit. *)
Fixpoint answer (n : nat) (pw ks : list Z) : option (bool * list Z) :=
  match n with
  | O => None
  | S n =>
      '(l, r) ← take_line 29 ks;
      if decide (pw = l) then Some (true, r)
      else if decide (l = chars "exit") then Some (false, r)
      else answer n pw r
  end.

Lemma take_line_app n l r : (length l < n)%nat -> (13 ∉ l) -> take_line n (l ++ 13 :: r) = Some (l, r).
Proof.
  revert n. induction l as [|c l IH]; intros [|n] Hl H13; simpl in Hl; try lia; [done|].
  apply not_elem_of_cons in H13 as [Hc H13]. cbn [take_line app]. rewrite (proj2 (Z.eqb_neq c 13)) by congruence.
  by rewrite IH by (done || lia).
Qed.

Lemma take_line_infix n ks l r :
  take_line n ks = Some (l, r) -> (length l <= n)%nat /\ exists b, ks = l ++ b /\ exists a, b = a ++ r.
Proof.
  revert ks l. induction n as [|n IH]; intros ks l Ht.
  - injection Ht as <- <-. split; [done|]. exists ks. split; [done|]. by exists [].
  - destruct ks as [|c ks]; [done|]. cbn [take_line] in Ht. destruct (c =? 13).
    + injection Ht as <- <-. split; [simpl; lia|]. exists (c :: ks). split; [done|]. by exists [c].
    + destruct (take_line n ks) as [[l' r']|] eqn:E; [|done]. injection Ht as <- ->.
      destruct (IH ks l' E) as (Hl & b & -> & Hb). split; [simpl; lia|]. by exists b.
Qed.

(** A password that is accepted was typed, in 29 characters or fewer. *)
Lemma answer_typed n pw ks r :
  answer n pw ks = Some (true, r) -> (length pw <= 29)%nat /\ exists a b, ks = a ++ pw ++ b.
Proof.
  revert ks. induction n as [|n IH]; intros ks Ha; [done|]. cbn [answer] in Ha.
  destruct (take_line 29 ks) as [[l r']|] eqn:E; [|done]. destruct (take_line_infix _ _ _ _ E) as (Hl & b & -> & a & ->).
  cbn [mbind option_bind] in Ha. destruct (decide (pw = l)) as [->|Hne]; [by split; [|exists [], (a ++ r')]|].
  destruct (decide (l = _)); [done|]. destruct (IH r' Ha) as (Hp & a' & b' & ->). split; [done|].
  exists (l ++ a ++ a'), b'. by rewrite <- !app_assoc.
Qed.

Lemma answer_lines n ls pw r :
  (length ls < n)%nat -> Forall (fun l => (length l < 29)%nat /\ 13 ∉ l) ls -> (pw ∉ ls) -> (chars "exit" ∉ ls) ->
  (length pw < 29)%nat -> (13 ∉ pw) ->
  answer n pw (concat ((fun l => l ++ [13]) <$> ls) ++ pw ++ 13 :: r) = Some (true, r).
Proof.
  intros Hn Hls Hp He Hl H13. revert n Hn. induction Hls as [|l ls [Hll Hl13] Hls IH]; intros [|n] Hn; simpl in Hn; try lia.
  - cbn [fmap list_fmap concat app answer]. rewrite take_line_app by done. cbn [mbind option_bind]. by rewrite decide_True.
  - apply not_elem_of_cons in Hp as [Hpl Hp], He as [Hel He]. cbn [fmap list_fmap concat answer].
    rewrite <- !app_assoc. cbn [app]. rewrite take_line_app by done. cbn [mbind option_bind].
    rewrite decide_False, decide_False by congruence. apply IH; [done|done|lia].
Qed.

Section pr.
Context {W : Type} `{SystemCalls W} (uninit : Z -> list Z).
Implicit Types s : prog W.

Definition with_keys (ks : list Z) s : prog W := with_console (set_keys ks (console s)) s.

Lemma key_waits s : typed (keys (console s)) = [] -> on_console getchar s = OutOfFuel.
Proof. intros Ht. unfold on_console, mbind, cmd_bind, outcome_bind. by rewrite getchar_waits. Qed.

Lemma pr_line_spec n pre rest s :
  length rest = S n ->
  match take_line n (typed (keys (console s))) with
  | Some (l, r) => exists ks x,
      pr_line n (pre ++ rest) (Z.of_nat (length pre)) s = Ret (pre ++ l ++ 0 :: x, with_keys ks s) /\
      typed ks = r /\ (0 ∉ l) /\ (length l + S (length x) = S n)%nat
  | None => pr_line n (pre ++ rest) (Z.of_nat (length pre)) s = OutOfFuel
  end.
Proof.
  assert (Hput : forall c y (x : list Z) (p : list Z), store (p ++ y :: x) (Z.of_nat (length p)) c = Ret (p ++ c :: x)).
  { intros c y x p. rewrite store_Ret by (rewrite length_app; simpl; lia).
    by rewrite Nat2Z.id, insert_app_r_alt, Nat.sub_diag by lia. }
  revert pre rest s. induction n as [|n IH]; intros pre rest s Hl; (destruct rest as [|y rest]; [done|]); simpl in Hl.
  - cbn [take_line pr_line]. exists (keys (console s)), rest. unfold liftO. rewrite Hput. split; [|split; [done|split; [set_solver|simpl; lia]]].
    by destruct s as [[]].
  - cbn [take_line pr_line]. destruct (typed (keys (console s))) as [|c t] eqn:Ht.
    { unfold mbind, cmd_bind. by rewrite key_waits. }
    destruct (key_spec s c t Ht) as (ks & E & Hty & _ & Hc). fold (with_keys ks s) in E. destruct (c =? 13) eqn:E13.
    { step E. rewrite E13. unfold liftO. rewrite Hput. exists ks, rest. split_and!; [done|done|set_solver|simpl; lia]. }
    step E. rewrite E13, (bind_liftO _ _ _ _ (Hput c y rest pre)).
    specialize (IH (pre ++ [c]) rest (with_keys ks s) ltac:(lia)). rewrite <- app_assoc in IH. cbn [app] in IH.
    change (keys (console (with_keys ks s))) with ks in IH. rewrite Hty in IH.
    replace (Z.of_nat (length (pre ++ [c]))) with (Z.of_nat (length pre) + 1) in IH by (rewrite length_app; simpl; lia).
    destruct (take_line n t) as [[l r]|]; cbn [mbind option_bind].
    + destruct IH as (ks' & x & E' & Hty' & H0 & Hx). exists ks', x. rewrite E', <- app_assoc. split_and!; [done|done| |simpl; lia].
      apply not_elem_of_cons. split; [lia|done].
    + exact IH.
Qed.

Lemma pr_ask_spec n config name pw buf s :
  length buf = 30%nat -> cstr (username config) name -> cstr (password config) pw -> printing s ->
  match answer n pw (typed (keys (console s))) with
  | Some (b, r) => exists s1, pr_ask n config buf s = Ret (b, s1) /\ typed (keys (console s1)) = r /\ world s1 = world s
  | None => pr_ask n config buf s = OutOfFuel
  end.
Proof.
  intros Hb Hu Hp. revert buf s Hb. induction n as [|n IH]; intros buf s Hb Hpr; [done|]. cbn [answer pr_ask].
  destruct (say_prints (lit "[%s] password: ") [CStr] [VStr (username config)] s) as (k1 & E1 & Hk1 & Ht1);
    [reflexivity|constructor; [by exists name|constructor]|done|]. step E1. set (s1 := with_console k1 s).
  pose proof (pr_line_spec 29 [] buf s1 Hb) as Hl. change (typed (keys (console s1))) with (typed (keys k1)) in Hl.
  rewrite Hk1 in Hl. cbn [app length] in Hl. change (Z.of_nat 0) with 0 in Hl.
  destruct (take_line 29 (typed (keys (console s)))) as [[l r]|]; cbn [mbind option_bind]; [|unfold mbind, cmd_bind; by rewrite Hl].
  destruct Hl as (ks & x & E2 & Hty & H0 & Hx). step E2. set (s2 := with_keys ks s1).
  assert (Hcl : cstr (l ++ 0 :: x) l) by (split; [done|by exists x]).
  destruct (strcmp_spec _ _ _ _ Hp Hcl) as (r1 & E3 & Hr1). rewrite (bind_liftO _ _ _ _ E3).
  destruct (decide (pw = l)) as [Heq|Hne].
  { rewrite (proj2 (Z.eqb_eq r1 0)) by (by apply Hr1). exists s2. done. }
  rewrite (proj2 (Z.eqb_neq r1 0)) by (intros Hz; by apply Hne, Hr1).
  assert (Hexit : cstr (lit "exit") (chars "exit")) by (split; [by apply (bool_decide_unpack _)|by exists []]).
  destruct (strncmp_spec _ _ _ _ 30 Hexit Hcl ltac:(simpl; lia)) as (r2 & E4 & Hr2). rewrite (bind_liftO _ _ _ _ E4).
  destruct (decide (l = chars "exit")) as [Heq|Hne2].
  { rewrite (proj2 (Z.eqb_eq r2 0)) by (by apply Hr2). exists s2. done. }
  rewrite (proj2 (Z.eqb_neq r2 0)) by (intros Hz; by apply Hne2; symmetry; apply Hr2).
  set (s3 := with_console (mk_io (keys (console s2)) (calls (console s2) ++ [SPutchar 10]) (text (console s2))) s2).
  assert (E5 : on_console (putchar 10) s2 = Ret (0, s3)) by done. step E5.
  assert (Hlen : length (l ++ 0 :: x) = 30%nat) by (rewrite length_app; simpl in *; lia).
  specialize (IH _ s3 Hlen Ht1). change (keys (console s3)) with ks in IH. by rewrite Hty in IH.
Qed.

(** The start of pr, with the configuration of the machine: the file is opened,
    and 60 bytes at offset 60 are read from it into [config]. *)
Record configured s (w : W) (config name pw : list Z) : Prop := {
  cf_read : exists fp w1 r w2 r2,
    sys_fopen (lit "0:/sys/config/config.dat") (lit "r") (world s) = Ret (fp, w1) /\
    sys_fseek fp 0x3c SEEK_SET w1 = Ret (r, w2) /\ sys_fread fp sizeof_config w2 = Ret (r2, config, w);
  cf_length : length config = 60%nat;
  cf_name : cstr (username config) name;
  cf_password : cstr (password config) pw
}.

Lemma pr_main_spec fuel scommand space path_at argv w config name pw s :
  configured s w config name pw -> (2 <= length argv)%nat -> length (uninit 30) = 30%nat -> printing s ->
  match answer (S (length (keys (console s)))) pw (typed (keys (console s))) with
  | Some (b, r) => exists s1, typed (keys (console s1)) = r /\ world s1 = w /\
      pr_main uninit fuel scommand space path_at argv s =
        if b then pr_run fuel scommand space path_at argv s1 else Ret (Returned 0, s1)
  | None => pr_main uninit fuel scommand space path_at argv s = OutOfFuel
  end.
Proof.
  intros [(fp & w1 & r & w2 & r2 & E1 & E2 & E3) Hl Hn Hp] Ha Hu Hpr. unfold pr_main.
  rewrite (proj2 (Nat.ltb_ge _ _)) by lia. step (on_world_spec _ s fp w1 E1).
  step (on_world_spec _ (with_world w1 s) r w2 E2).
  step (fread_spec fp sizeof_config (replicate (Z.to_nat sizeof_config) 0) (with_world w2 (with_world w1 s)) r2 config w E3
          ltac:(rewrite Hl; simpl; lia)).
  rewrite (drop_ge (replicate _ _)), app_nil_r by (rewrite Hl; simpl; lia). set (s3 := with_world w _).
  step (keys_left_spec s3). pose proof (pr_ask_spec (S (length (keys (console s3)))) config name pw (uninit 30) s3 Hu Hn Hp Hpr) as Hask.
  change (console s3) with (console s) in *. destruct (answer _ pw _) as [[b r']|].
  - destruct Hask as (s4 & E4 & Hty & Hw). exists s4. split; [done|]. split; [done|]. step E4. by destruct b.
  - unfold mbind, cmd_bind. by rewrite Hask.
Qed.

Lemma typed_length ks : (length (typed ks) <= length ks)%nat.
Proof. induction ks as [|k ks IH]; [done|]. rewrite typed_cons. case_decide; simpl; lia. Qed.

Lemma lines_length (ls : list (list Z)) r : (length ls <= length (concat ((fun l => l ++ [13%Z]) <$> ls) ++ r))%nat.
Proof.
  induction ls as [|l ls IH]; [simpl; lia|]. cbn [fmap list_fmap concat]. rewrite <- !app_assoc, !length_app in *. simpl in *. lia.
Qed.

(** C23: the password.  However many wrong lines are typed first, typing the
    password runs the program that was named, after exactly those keys; and when
    the password is not typed, pr waits for more keys or ends, and the world is
    as it was after the configuration was read: no program has been run.  In
    particular nothing typed can be taken for a password of 30 characters, which
    new_usr lets the user choose. *)
Theorem pr_password_gate fuel scommand space path_at argv w config name pw s :
  configured s w config name pw -> (2 <= length argv)%nat -> length (uninit 30) = 30%nat -> printing s ->
  (forall ls rest, typed (keys (console s)) = concat ((fun l => l ++ [13]) <$> ls) ++ pw ++ 13 :: rest ->
     Forall (fun l => (length l < 29)%nat /\ 13 ∉ l) ls -> (pw ∉ ls) -> (chars "exit" ∉ ls) ->
     (length pw < 29)%nat -> (13 ∉ pw) ->
     exists s1, typed (keys (console s1)) = rest /\ world s1 = w /\
       pr_main uninit fuel scommand space path_at argv s = pr_run fuel scommand space path_at argv s1) /\
  (~ ((length pw <= 29)%nat /\ exists a b, typed (keys (console s)) = a ++ pw ++ b) ->
     pr_main uninit fuel scommand space path_at argv s = OutOfFuel \/
     exists s1, pr_main uninit fuel scommand space path_at argv s = Ret (Returned 0, s1) /\ world s1 = w).
Proof.
  intros Hc Ha Hu Hpr. pose proof (pr_main_spec fuel scommand space path_at argv w config name pw s Hc Ha Hu Hpr) as Hm.
  split.
  - intros ls rest Hty Hls Hpls Hels Hl H13. rewrite Hty, answer_lines in Hm; try done.
    pose proof (typed_length (keys (console s))). rewrite Hty in *. pose proof (lines_length ls (pw ++ 13 :: rest)). lia.
  - intros Hno. destruct (answer _ _ _) as [[[] r]|] eqn:E; [|by right; destruct Hm as (s1 & _ & Hw & E1); exists s1|by left].
    exfalso. by apply Hno, (answer_typed _ _ _ _ E).
Qed.
End pr.

(** The witness: the configuration at offset 60 of a file, and a wrong line. *)
Definition demo_config : list Z :=
  config_magic ++ le_split 4 0 ++ (chars "kim" ++ zeros 18) ++ (chars "sesame" ++ zeros 25).
Definition guarded (ks : list Z) : prog small :=
  mk_prog (mk_io ks [] (replicate 12 0)) (mk_ust (mk_tok [] 0) []) 0 (replicate 20 0)
    (mk_small {[5 := mk_ofile (zeros 60 ++ demo_config) 120 0]} (chars "0:/sys/config/config.dat") ∅ []).
Definition after_config : small :=
  mk_small {[5 := mk_ofile (zeros 60 ++ demo_config) 120 120]} (chars "0:/sys/config/config.dat") ∅ [].
Definition demo_pr_keys : list Z := chars "open" ++ 13 :: chars "sesame" ++ [13; 32].

Lemma pr_password_gate_witness :
  exists s1, world s1 = after_config /\ typed (keys (console s1)) = [32] /\
    pr_main zeros 2000 0 0 0 [lit "pr"; lit "shell.elf"] (guarded demo_pr_keys) =
      pr_run 2000 0 0 0 [lit "pr"; lit "shell.elf"] s1.
Proof.
  destruct (pr_password_gate zeros 2000 0 0 0 [lit "pr"; lit "shell.elf"] after_config demo_config (chars "kim") (chars "sesame")
              (guarded demo_pr_keys)) as [Hopen _].
  - split.
    + eexists 5, _, 0, _, 60. split; [vm_compute; reflexivity|]. split; [vm_compute; reflexivity|vm_compute; reflexivity].
    + reflexivity.
    + split; [by apply (bool_decide_unpack _)|by eexists].
    + split; [by apply (bool_decide_unpack _)|by eexists].
  - simpl; lia.
  - reflexivity.
  - reflexivity.
  - destruct (Hopen [chars "open"] [32]) as (s1 & Ht & Hw & E).
    + reflexivity.
    + constructor; [|constructor]. split; [simpl; lia|by apply (bool_decide_unpack _)].
    + by apply (bool_decide_unpack _).
    + by apply (bool_decide_unpack _).
    + simpl; lia.
    + by apply (bool_decide_unpack _).
    + exists s1. split; [exact Hw|]. split; [exact Ht|exact E].
Defined.

(** ** fapp *)

(** What a key does to the text, last character first. *)
Definition type_key (line : list Z) (k : Z) : list Z :=
  if k =? 0 then line else if k =? 8 then tail line else u8 k :: line.

(** No backspace before the start. *)
Fixpoint in_line (line input : list Z) : Prop :=
  match input with
  | [] => True
  | k :: input => (k = 8 -> line <> []) /\ in_line (type_key line k) input
  end.

(** A ~ at the start of a path. *)
Definition expand (name : list Z) : list Z :=
  match name with
  | c :: r => if c =? 126 then chars "0:/usr/files" ++ r else name
  | [] => name
  end.

Lemma tilde_path_spec path a name :
  cstr a name -> length path = 108%nat -> (length (expand name) < 108)%nat ->
  exists p, tilde_path path a = Ret p /\ cstr p (expand name).
Proof.
  intros Ha Hl Hn. unfold tilde_path, first. destruct name as [|c name].
  - pose proof Ha as [r ->]%cstr_nil. change (load (0 :: r) 0) with (Ret 0). cbn [mbind outcome_bind].
    change (0 =? 126) with false. cbv iota. pose proof (strcpy_at_spec path 0 (0 :: r) [] Ha ltac:(lia) ltac:(simpl; lia)) as E.
    eexists. split; [exact E|]. cbn [take app Z.to_nat expand]. split; [set_solver|by eexists].
  - destruct (cstr_inv _ _ Ha) as [[? _] | (? & ? & b & [= <- <-] & -> & Hc & Hb)]; [done|].
    change (load (c :: b) 0) with (Ret c). cbn [mbind outcome_bind expand] in *. destruct (c =? 126) eqn:E.
    + assert (Hd : cstr (lit "0:/usr/files") (chars "0:/usr/files")) by (split; [by apply (bool_decide_unpack _)|by exists []]).
      rewrite length_app in Hn. change (length (chars "0:/usr/files")) with 12%nat in Hn.
      rewrite (strcpy_at_spec path 0 _ _ Hd) by (simpl; lia). cbn [mbind outcome_bind tail].
      eexists. split.
      { apply strcpy_at_spec; [exact Hb|lia|].
        rewrite !length_app, length_take. cbn [length]. rewrite length_drop.
        change (length (chars "0:/usr/files")) with 12%nat. simpl. lia. }
      cbn [take app Z.to_nat Pos.to_nat]. split.
      * rewrite elem_of_app. intros [Hin|Hin]; [by revert Hin; apply (bool_decide_unpack _)|by apply Hb].
      * eexists. rewrite <- app_assoc. reflexivity.
    + eexists. split; [apply (strcpy_at_spec path 0 _ _ Ha); simpl in *; lia|]. cbn [take app Z.to_nat].
      split; [apply Ha|by eexists].
Qed.

Section fapp.
Context {W : Type} `{SystemCalls W} (uninit : Z -> list Z).
Implicit Types s : prog W.

Definition count_keys (input : list Z) : nat := length (filter (fun k => k <> 0) input).

Lemma holds_tail buf x line : holds buf (x :: line) -> holds buf line.
Proof. intros [rest ->]. exists (x :: rest). simpl. by rewrite <- app_assoc. Qed.

Lemma getkey_spec k ks s :
  keys (console s) = k :: ks -> on_console getkey s = Ret (k, with_keys ks s).
Proof. intros Hk. apply on_console_spec. unfold getkey. rewrite Hk. by destruct s as [[]]. Qed.

Lemma fapp_loop_run input n fp buf line rest s :
  keys (console s) = input ++ rest -> Forall (fun k => k <> EOF) input -> in_line line input ->
  (length line + count_keys input <= 1024)%nat -> holds buf line -> length buf = 1024%nat ->
  exists buf' s', fapp_loop (length input + n) fp buf (Z.of_nat (length line)) s =
      fapp_loop n fp buf' (Z.of_nat (length (fold_left type_key input line))) s' /\
    holds buf' (fold_left type_key input line) /\ length buf' = 1024%nat /\
    keys (console s') = rest /\ world s' = world s.
Proof.
  intros Hk He. revert buf line s Hk. induction He as [|k input Hke He IH]; intros buf line s Hk Hin Hc Hb Hl.
  { by exists buf, s. }
  destruct Hin as [H8 Hin]. cbn [length Nat.add fapp_loop fold_left].
  step (getkey_spec k (input ++ rest) s Hk). set (s1 := with_keys (input ++ rest) s).
  unfold count_keys in Hc. rewrite filter_cons in Hc. unfold type_key in Hin |- * at 2 4. destruct (k =? 0) eqn:E0; breflect.
  { rewrite decide_False in Hc by lia. apply (IH buf line s1); done. }
  rewrite decide_True in Hc by done. cbn [length] in Hc.
  rewrite (proj2 (Z.eqb_neq (Z.of_nat (length line)) 1024)), (proj2 (Z.eqb_neq k EOF)) by (done || lia). cbn [orb]. rewrite bind_mret.
  set (s2 := with_console (mk_io (keys (console s1)) (calls (console s1) ++ [SPutchar (u8 k)]) (text (console s1))) s1).
  assert (E5 : on_console (putchar k) s1 = Ret (0, s2)) by done. step E5. destruct (k =? 8) eqn:E8; cbn [negb]; breflect.
  - destruct line as [|x line]; [by exfalso; apply H8|].
    replace (Z.of_nat (length (x :: line)) - 1) with (Z.of_nat (length line)) by (simpl; lia).
    apply (IH buf line s2); [done|done|unfold count_keys; simpl in Hc; lia|by eapply holds_tail|done].
  - destruct (holds_push buf line (u8 k) Hb) as (buf1 & E & Hb1 & Hl1); [lia|]. rewrite (bind_liftO _ _ _ _ E).
    replace (Z.of_nat (length line) + 1) with (Z.of_nat (length (u8 k :: line))) by (simpl; lia).
    apply (IH buf1 (u8 k :: line) s2); [done|done|unfold count_keys; simpl; lia|done|congruence].
Qed.

Lemma fapp_loop_key n fp buf i k ks s :
  keys (console s) = k :: ks -> k <> 0 ->
  fapp_loop (S n) fp buf i s =
    ((if (i =? 1024) || (k =? EOF) then on_world (sys_fwrite fp i (take (Z.to_nat i) buf));; mret tt else mret tt);;
     if k =? EOF then mret tt
     else
       on_console (putchar k);;
       if negb (k =? 8) then
         buf ← liftO (store buf i (u8 k));
         fapp_loop n fp buf (i + 1)
       else fapp_loop n fp buf (i - 1)) (with_keys ks s).
Proof. intros Hk H0. cbn [fapp_loop]. step (getkey_spec k ks s Hk). by rewrite (proj2 (Z.eqb_neq k 0)). Qed.

Lemma take_holds buf line : holds buf line -> take (length line) buf = rev line.
Proof. intros [rest ->]. by rewrite <- length_rev, take_app_length. Qed.

(** Fapp.  What is typed up to the end of input, with every backspace
    taking back a character, is what is written to the end of the file, once and
    in order; the file is closed and the program ends.  When 1024 characters are
    in the buffer, the next one is stored behind it: the buffer is written but
    its index is not reset. *)
Theorem fapp_appends_typed a0 a1 name input k rest fp w1 r2 w2 r3 w3 s :
  cstr a1 name -> (length (expand name) < 108)%nat -> length (uninit 108) = 108%nat -> length (uninit 1024) = 1024%nat ->
  keys (console s) = input ++ k :: rest -> Forall (fun k => k <> EOF) input -> in_line [] input ->
  (count_keys input <= 1024)%nat ->
  (forall p, cstr p (expand name) -> sys_fopen p (lit "rwa") (world s) = Ret (fp, w1)) -> fp <> 0 ->
  let line := fold_left type_key input [] in
  sys_fwrite fp (Z.of_nat (length line)) (rev line) w1 = Ret (r2, w2) -> sys_fclose fp w2 = Ret (r3, w3) ->
  (k = EOF -> exists s', fapp_main uninit [a0; a1] s = Ret (Returned 0, s') /\ world s' = w3 /\ keys (console s') = rest) /\
  (k <> EOF -> k <> 0 -> k <> 8 -> length line = 1024%nat -> fapp_main uninit [a0; a1] s = Oob).
Proof.
  intros Ha Hn Hu Hu2 Hk He Hin Hc Hopen Hfp line Hw Hcl.
  destruct (tilde_path_spec (uninit 108) a1 name Ha Hu Hn) as (p & Ep & Hp). unfold fapp_main.
  change (length [a0; a1] <? 2)%nat with false. cbv iota. rewrite (bind_liftO _ _ _ a1 eq_refl), (bind_liftO _ _ _ p Ep).
  step (on_world_spec _ s fp w1 (Hopen p Hp)). rewrite (proj2 (Z.eqb_neq fp 0)) by done. set (s1 := with_world w1 s).
  step (keys_left_spec s1).
  destruct (fapp_loop_run input (S (S (length rest))) fp (uninit 1024) [] (k :: rest) s1) as (buf & s2 & E & Hb & Hl & Hk2 & Hw2);
    try done; [by exists (uninit 1024)|].
  replace (S (length (keys (console s1)))) with (length input + S (S (length rest)))%nat
    by (change (console s1) with (console s); rewrite Hk, length_app; simpl; lia).
  change (Z.of_nat (length (@nil Z))) with 0 in E. fold line in E, Hb.
  set (s3 := with_keys rest s2).
  assert (Hwr : (on_world (sys_fwrite fp (Z.of_nat (length line)) (take (Z.to_nat (Z.of_nat (length line))) buf));; mret tt) s3 =
    Ret (tt, with_world w2 s3)).
  { rewrite Nat2Z.id, take_holds by done. rewrite (bind_Ret _ _ s3 r2 (with_world w2 s3)); [done|]. apply on_world_spec.
    change (world s3) with (world s2). by rewrite Hw2. }
  split.
  - intros ->. rewrite (fapp_loop_key _ fp buf _ EOF rest s2 Hk2) in E by done. fold s3 in E.
    rewrite orb_true_r, (bind_Ret _ _ _ _ _ Hwr) in E. unfold mret at 1, cmd_ret at 1 in E. step E.
    step (on_world_spec (sys_fclose fp) (with_world w2 s3) r3 w3 Hcl). eexists. split; [done|]. split; [done|]. done.
  - intros H1 H0 H8 Hlen. rewrite (fapp_loop_key _ fp buf _ k rest s2 Hk2) in E by done. fold s3 in E.
    rewrite Hlen in E, Hwr. change (Z.of_nat 1024 =? 1024) with true in E. cbn [orb] in E.
    rewrite (bind_Ret _ _ _ _ _ Hwr), (proj2 (Z.eqb_neq k EOF)), (proj2 (Z.eqb_neq k 8)) in E by done. cbn [negb] in E.
    rewrite store_oob in E by (rewrite Hl; lia). unfold mbind at 1, cmd_bind at 1. by rewrite E.
Qed.
End fapp.

(** The witness: "ab", a backspace, "c". *)
Definition appending (ks : list Z) : prog small :=
  mk_prog (mk_io ks [] (replicate 12 0)) (mk_ust (mk_tok [] 0) []) 0 (replicate 20 0)
    (mk_small {[5 := mk_ofile [48] 1 1]} (chars "0:/usr/files/x") ∅ []).

Lemma fapp_appends_typed_witness :
  exists s', fapp_main zeros [lit "fapp"; lit "~/x"] (appending [97; 0; 98; 8; 99; -1]) = Ret (Returned 0, s') /\
    sm_files (world s') !! 5 = Some (mk_ofile [48; 97; 99] 3 1).
Proof.
  pose (w2 := mk_small {[5 := mk_ofile [48; 97; 99] 3 1]} (chars "0:/usr/files/x") ∅ []).
  destruct (fapp_appends_typed zeros (lit "fapp") (lit "~/x") (chars "~/x") [97; 0; 98; 8; 99] (-1) [] 5
              (world (appending [])) 2 w2 0 w2 (appending [97; 0; 98; 8; 99; -1])) as [Hend _].
  - split; [by apply (bool_decide_unpack _)|by exists []].
  - simpl; lia.
  - reflexivity.
  - reflexivity.
  - reflexivity.
  - repeat constructor; unfold EOF; lia.
  - simpl. repeat split; discriminate.
  - unfold count_keys; simpl; lia.
  - intros p Hp. simpl. by rewrite (string_at_spec p _ Hp).
  - lia.
  - vm_compute; reflexivity.
  - reflexivity.
  - destruct (Hend eq_refl) as (s' & E & Hw & _). exists s'. split; [exact E|]. rewrite Hw. reflexivity.
Defined.

(** ** rm and musicbox *)

(** rm puts the path at offset 3 of its array and passes the whole array: the
    name the kernel is asked to remove starts with the three bytes that happen
    to be there; when the first of them is zero, that name is empty. *)
Theorem rm_prefixes_garbage {W} `{SystemCalls W} (uninit : Z -> list Z) a0 a1 c name w (s : prog W) :
  cstr a1 (c :: name) -> c <> 126 -> length (uninit 108) = 108%nat -> (length (c :: name) < 105)%nat ->
  (forall r, sys_remove (take 3 (uninit 108) ++ (c :: name) ++ 0 :: r) (world s) = Ret (tt, w)) ->
  rm_main uninit [a0; a1] s = Ret (Returned 0, with_world w s).
Proof.
  intros Ha Hc Hu Hl Hr. unfold rm_main. change (length [a0; a1] <? 2)%nat with false. cbv iota.
  assert (E : rm_loop (uninit 108) 3 (tail [a0; a1]) s = Ret (tt, with_world w s)); [|by step E].
  cbn [tail rm_loop]. destruct Ha as (H0 & r & ->). change (first ((c :: name) ++ 0 :: r)) with (Ret c).
  rewrite (bind_liftO _ _ _ c eq_refl), (proj2 (Z.eqb_neq c 126)) by done.
  rewrite (bind_liftO _ _ _ (uninit 108, 3, (c :: name) ++ 0 :: r) eq_refl).
  assert (Ha : cstr ((c :: name) ++ 0 :: r) (c :: name)) by (split; [done|by exists r]).
  pose proof (strcpy_at_spec (uninit 108) 3 _ _ Ha ltac:(lia) ltac:(lia)) as Ep. rewrite (bind_liftO _ _ _ _ Ep).
  step (on_world_spec _ s tt w (Hr (drop (Z.to_nat 3 + S (length (c :: name))) (uninit 108)))). done.
Qed.

(** There is no key between E and F: the sharp of E is played as its flat, and
    the flats of C and F as their sharps. *)
Lemma wrong_accidentals :
  note_hertz 101 35 = note_hertz 101 98 /\ note_hertz 99 98 = note_hertz 99 35 /\ note_hertz 102 98 = note_hertz 102 35.
Proof. done. Qed.

(** Every note is in the octave from C to B, so it is played. *)
Lemma note_in_octave note accidental hz : note_hertz note accidental = Some hz -> 262 <= hz <= 494.
Proof.
  unfold note_hertz. repeat match goal with |- context [if ?b then _ else _] => destruct b end; intros [= <-]; lia.
Qed.
