(* ===== verification/ShellSpec.v ===== *)
(** * What the shell does with a line

    One turn of the shell's loop, from the keys to the system call: the line
    that is edited, its first word, the commands the shell knows, and the
    program that any other word starts.  This composes [gets], [strtok],
    [istrncmp] and [sos_parse_command] on one memory. *)
From S2P Require Import Prelude CString UserString UserCommand UserStdio UserRuntime UserPrograms UserProgramsSpec.

(** ** Comparing without case *)
Lemma uistrncmp_cut n s1 s2 r1 r2 :
  (0 ∉ s1) -> (0 ∉ s2) ->
  UString.istrncmp_loop n (s1 ++ 0 :: r1) (s2 ++ 0 :: r2) = UString.istrncmp_loop n (s1 ++ [0]) (s2 ++ [0]).
Proof.
  revert s1 s2. induction n as [|n IH]; intros s1 s2 H1 H2; [done|].
  destruct s1 as [|c s1], s2 as [|d s2]; cbn [app UString.istrncmp_loop].
  - destruct (negb (0 =? 0) && _); done.
  - apply not_elem_of_cons in H2 as [Hd _]. by repeat bcase.
  - apply not_elem_of_cons in H1 as [Hc _]. rewrite (proj2 (Z.eqb_neq c 0)) by done. bcase; [done|].
    exfalso. apply andb_false_iff in Hb as [Hb|Hb]; breflect; [done|].
    unfold UString.tolower in Hb. simpl in Hb. destruct ((c <=? 122) && (97 <=? c)) eqn:E; breflect; lia.
  - apply not_elem_of_cons in H1 as [Hc H1]. apply not_elem_of_cons in H2 as [Hd H2].
    bcase; [done|]. bcase; [done|]. by apply IH.
Qed.

Definition folded (w : list Z) : list Z := CString.tolower <$> w.

Lemma uistrncmp_spec wd t b1 b2 n :
  cstr b1 wd -> cstr b2 t -> bytes wd -> bytes t -> (length wd < Z.to_nat n)%nat ->
  exists r, UString.istrncmp b1 b2 n = Ret r /\ (r = 0 <-> folded t = folded wd).
Proof.
  intros (H1 & r1 & ->) (H2 & r2 & ->) B1 B2 Hn. unfold UString.istrncmp. rewrite uistrncmp_cut by done.
  assert (Hb : forall l, bytes l -> bytes (l ++ [0])).
  { intros l Hl. apply Forall_app. split; [done|]. constructor; [unfold is_byte; lia|constructor]. }
  pose proof (uistrncmp_eq (wd ++ [0]) (t ++ [0]) n (Hb _ B1) (Hb _ B2)) as E. unfold UString.istrncmp in E. rewrite E.
  destruct (istrncmp_zero (wd ++ [0]) (t ++ [0]) wd t n) as (r & Er & Hr); [by split; [|exists []]..|done|done|].
  exists r. split; [exact Er|]. rewrite Hr. unfold prefix_eq, folded. rewrite (take_ge wd) by lia. split.
  - intros Ef. assert (Hl : length wd = length (take (Z.to_nat n) t)).
    { apply (f_equal length) in Ef. by rewrite !length_fmap in Ef. }
    rewrite length_take in Hl. rewrite take_ge in Ef by lia. done.
  - intros Ef. assert (Hl : length t = length wd) by (apply (f_equal length) in Ef; by rewrite !length_fmap in Ef).
    by rewrite take_ge, Ef by lia.
Qed.

(** ** What is typed *)
Lemma typed_bytes input : bytes (typed input).
Proof.
  apply Forall_forall. intros c Hc. unfold typed in Hc. apply list_elem_of_filter in Hc as [_ Hc].
  apply list_elem_of_fmap in Hc as (k & -> & _). apply u8_range.
Qed.

Lemma edit_Forall (P : Z -> Prop) ks line : Forall P ks -> Forall P line -> Forall P (fold_left edit ks line).
Proof.
  intros Hk. revert line. induction Hk as [|k ks Hk _ IH]; intros line Hl; [done|]. cbn [fold_left]. apply IH.
  unfold edit. repeat bcase; [done| |by constructor]. destruct Hl; [constructor|done].
Qed.

Lemma edit_length ks line : (length (fold_left edit ks line) <= length ks + length line)%nat.
Proof.
  revert line. induction ks as [|k ks IH]; intros line; [done|]. cbn [fold_left length]. etrans; [apply IH|].
  unfold edit. repeat bcase; simpl; try lia. destruct line; simpl; lia.
Qed.

(** The characters of a word are characters of the line. *)
Lemma words_Forall (P : Z -> Prop) D cur s : Forall P cur -> Forall P s -> Forall (Forall P) (words D cur s).
Proof.
  intros Hc Hs. revert cur Hc. induction Hs as [|c s Hp _ IH]; intros cur Hc; cbn [words].
  { case_decide; [constructor|]. by constructor. }
  bcase; [case_decide; [by apply IH|constructor; [done|by apply IH]]|].
  apply IH, Forall_app. split; [done|]. by constructor.
Qed.

(** ** The memory of the shell *)
Lemma strlen_total m : (0 ∈ m) -> Z.of_nat (length m) < 2147483648 -> exists n, UString.strlen m = Ret n.
Proof.
  intros H0 Hl. destruct (span_exists (fun c => negb (c =? 0)) m) as (a & b & -> & Ha & Hb).
  assert (H0a : 0 ∉ a).
  { intros Hin. rewrite Forall_forall in Ha. by specialize (Ha 0 Hin). }
  destruct b as [|c r]; [by rewrite app_nil_r in H0|]. specialize (Hb c r eq_refl). breflect. subst c.
  eexists. apply (CString.strlen_spec _ a); [by split; [|exists r]|]. rewrite length_app in Hl. lia.
Qed.

Lemma delims_zero m W dp ds : delims m W dp ds -> 0 ∈ m.
Proof.
  intros Hd. destruct (str_at_drop _ _ _ (dl_str _ _ _ _ Hd)) as [x Hx]. rewrite <- (take_drop (Z.to_nat dp) m), Hx.
  apply elem_of_app. right. apply elem_of_app. right. left.
Qed.

Lemma put_rest a bs pre (post : list Z) :
  Z.of_nat (length pre) = a -> length bs = length post -> put a bs (pre ++ post) = pre ++ bs.
Proof. intros <- Hl. rewrite put_start by lia. by rewrite Hl, drop_all, app_nil_r. Qed.

Section shell.
Context {W : Type} `{SystemCalls W}.
Implicit Types s : prog W.

Definition memory_of s : list Z := mem (tok (user s)).
Definition with_user (u : ust) s : prog W := mk_prog (console s) u (errno s) (exit_funcs s) (world s).

Lemma on_user_spec {A} (c : cmd ust A) s a u : c (user s) = Ret (a, u) -> on_user c s = Ret (a, with_user u s).
Proof. intros E. unfold on_user. by rewrite E. Qed.
Lemma bytes_from_spec p s : bytes_from p s = Ret (drop (Z.to_nat p) (memory_of s), s).
Proof. done. Qed.
Lemma wr_bytes_put p bs m q gs :
  0 <= p -> p + Z.of_nat (length bs) <= Z.of_nat (length m) ->
  on_tok (wr_bytes p bs) (mk_ust (mk_tok m q) gs) = Ret (tt, mk_ust (mk_tok (put p bs m) q) gs).
Proof.
  intros Hp Hl. apply on_tok_spec. pose proof (wr_bytes_spec m q p bs [] Hp) as E. cbn [length app] in E.
  rewrite Z.add_0_r in E. apply E. lia.
Qed.

(** What the shell may write: the array of the command on the stack, the blocks
    of the arguments, and its input buffer with all that is behind it. *)
Definition shell_writes (l : shell_layout) (gs : list Z) (j : Z) : Prop :=
  command_writes (sh_scommand l) gs j \/ sh_input l <= j.

(** The stack is below the literals of the program, which are below the two
    buffers; a block that the kernel gives is no part of these. *)
Record shell_ready (l : shell_layout) s : Prop := {
  sr_printing : printing s;
  sr_fuel : (1024 < sh_fuel l)%nat;
  sr_stack : 0 < sh_scommand l /\ sh_scommand l + 1025 <= sh_input l;
  sr_input : sh_input l + 2048 <= Z.of_nat (length (memory_of s)) < 2147483648;
  sr_space : delims (memory_of s) (shell_writes l (grants (user s))) (sh_space l) [32];
  sr_blocks : forall g, g ∈ grants (user s) -> sh_scommand l + 1025 <= g /\
    g + 516 <= Z.of_nat (length (memory_of s)) /\ (g + 516 <= sh_input l \/ sh_input l + 2048 <= g);
  sr_apart : ForallOrdPairs apart (grants (user s))
}.

(** ** Reading a line *)
Lemma gets_at_spec s pre b q gs input k13 later :
  user s = mk_ust (mk_tok (pre ++ b) q) gs -> keys (console s) = input ++ k13 :: later ->
  (13 ∉ typed input) -> u8 k13 = 13 -> (length (typed input) < length b)%nat ->
  exists b' k, gets_at (Z.of_nat (length pre)) s = Ret (tt, with_user (mk_ust (mk_tok (pre ++ b') q) gs) (with_console k s)) /\
    cstr b' (rev (fold_left edit (typed input) [])) /\ length b' = length b /\ keys k = later /\
    length (text k) = length (text (console s)) /\ output k = output (console s) ++ echoes [] (typed input).
Proof.
  intros Hu Hk H13 Hk13 Hl.
  destruct (gets_edits_line input k13 later b (console s) H13 Hk13 Hl) as (b' & k & E & Hc & Hlb & Ho & Hkk & Ht).
  exists b', k. split; [|split_and!; [done|done|done|by rewrite Ht|done]]. unfold gets_at. step (bytes_from_spec (Z.of_nat (length pre)) s).
  unfold memory_of. rewrite Hu. cbn [tok mem]. rewrite drop_pre.
  assert (Es : set_keys (input ++ k13 :: later) (console s) = console s) by (destruct (console s); cbn in *; by rewrite Hk).
  rewrite Es in E. step (on_console_spec _ s _ _ E). apply on_user_spec. cbn [user with_console]. rewrite Hu.
  rewrite wr_bytes_put by (rewrite ?length_app; lia). by rewrite (put_rest _ b' pre b).
Qed.

Lemma memcpy_at_spec s pre a b r q gs n :
  user s = mk_ust (mk_tok (pre ++ a ++ b ++ r) q) gs -> length a = n -> length b = n ->
  memcpy_at (Z.of_nat (length pre) + Z.of_nat n) (Z.of_nat (length pre)) n s =
    Ret (tt, with_user (mk_ust (mk_tok (pre ++ a ++ a ++ r) q) gs) s).
Proof.
  intros Hu Ha Hb. unfold memcpy_at. step (bytes_from_spec (Z.of_nat (length pre)) s). unfold memory_of. rewrite Hu. cbn [tok mem].
  rewrite drop_pre. rewrite (proj2 (Nat.leb_le _ _)) by (rewrite length_app; lia). rewrite <- Ha, take_app_length.
  apply on_user_spec. rewrite Hu, wr_bytes_put by (rewrite ?length_app; lia).
  rewrite (app_assoc pre a (b ++ r)). replace (Z.of_nat (length pre) + Z.of_nat (length a)) with (Z.of_nat (length (pre ++ a)))
    by (rewrite length_app; lia).
  rewrite put_start by (rewrite length_app; lia). replace (length a) with (length b) by lia.
  by rewrite drop_app_length, <- app_assoc.
Qed.

Lemma newline_spec (newline : bool) s :
  printing s -> exists k, (if newline then on_console (putchar 10);; mret tt else mret tt) s = Ret (tt, with_console k s) /\
    same_input (console s) k /\ output k = output (console s) ++ (if newline then [10] else []).
Proof.
  intros Hp. destruct newline.
  - eexists. split; [done|]. split; [done|]. apply output_emit.
  - exists (console s). split; [by destruct s|]. split; [done|]. by rewrite app_nil_r.
Qed.

(** What appears while a line is read: the prompt, and the keys that are echoed. *)
Definition prompted (newline : bool) (input : list Z) : list Z :=
  (if newline then [10] else []) ++ [62] ++ echoes [] (typed input).

(** The state in which the first word of a line is looked at. *)
Record line_read (l : shell_layout) s (later line : list Z) (token : Z) s1 : Prop := {
  lr_world : world s1 = world s;
  lr_keys : keys (console s1) = later;
  lr_ready : shell_ready l s1;
  lr_grants : grants (user s1) = grants (user s);
  lr_copy : str_at (memory_of s1) (sh_input l + 1024) line;
  lr_line : (length line < 1024)%nat /\ bytes line;
  lr_token : (words (is_delim [32]) [] line = [] /\ token = 0) \/
    exists w ws, words (is_delim [32]) [] line = w :: ws /\ str_at (memory_of s1) token w /\
      sh_input l <= token /\ token + Z.of_nat (length w) < sh_input l + 1024
}.

(** A state that differs in what the shell may write. *)
Lemma ready_frame l s s1 :
  shell_ready l s -> printing s1 -> grants (user s1) = grants (user s) -> length (memory_of s1) = length (memory_of s) ->
  (forall j : nat, ~ shell_writes l (grants (user s)) (Z.of_nat j) -> memory_of s1 !! j = memory_of s !! j) -> shell_ready l s1.
Proof.
  intros [Hp Hf Hst Hin Hsp Hbl Hap] Hp1 Hg Hl Hm. split; rewrite ?Hg, ?Hl; try done.
  by eapply delims_frame; [exact Hsp|exact Hm|].
Qed.

(** The two buffers after the line was read and copied. *)
Lemma line_stored m a b line :
  0 <= a -> a + 2048 <= Z.of_nat (length m) -> length b = (length m - Z.to_nat a)%nat -> cstr b line -> (length line < 1024)%nat ->
  exists A B R x, b = A ++ B ++ R /\ length A = 1024%nat /\ length B = 1024%nat /\ A = line ++ 0 :: x /\
    length (take (Z.to_nat a) m ++ A ++ A ++ R) = length m /\
    str_at (take (Z.to_nat a) m ++ A ++ A ++ R) (a + 1024) line /\
    forall j : nat, Z.of_nat j < a -> (take (Z.to_nat a) m ++ A ++ A ++ R) !! j = m !! j.
Proof.
  intros Ha Hm Hlb (H0 & r & Hr) Hl. set (pre := take (Z.to_nat a) m).
  assert (Hpre : Z.of_nat (length pre) = a) by (unfold pre; rewrite length_take; lia).
  assert (HAl : exists x, take 1024 b = line ++ 0 :: x).
  { rewrite Hr, take_app_ge by lia. destruct (1024 - length line)%nat eqn:En; [lia|]. by eexists. }
  destruct HAl as [x Hx]. exists (take 1024 b), (take 1024 (drop 1024 b)), (drop 1024 (drop 1024 b)), x.
  assert (HA : length (take 1024 b) = 1024%nat) by (rewrite length_take; lia).
  split_and!; [by rewrite !take_drop|done|rewrite length_take, length_drop; lia|done| | |].
  - apply Nat2Z.inj. rewrite !length_app, !length_drop, HA. lia.
  - rewrite app_assoc. replace (a + 1024) with (Z.of_nat (length (pre ++ take 1024 b))) by (rewrite length_app; lia).
    assert (EA : take 1024 b ++ drop 1024 (drop 1024 b) = line ++ 0 :: (x ++ drop 1024 (drop 1024 b))).
    { rewrite Hx at 1. by rewrite <- app_assoc. }
    rewrite EA. by apply str_at_app.
  - intros j Hj. rewrite lookup_app_l by lia. unfold pre. by rewrite lookup_take_lt by lia.
Qed.

(** The first call of [strtok] on the line in the first buffer. *)
Lemma first_word l s pre line post gs :
  user s = mk_ust (mk_tok (pre ++ line ++ 0 :: post) 0) gs -> Z.of_nat (length pre) = sh_input l -> 0 < sh_input l ->
  delims (pre ++ line ++ 0 :: post) (shell_writes l gs) (sh_space l) [32] -> (0 ∉ line) -> (length line < 1024)%nat ->
  exists token m p, on_user (on_tok (strtok (sh_input l) (sh_space l))) s = Ret (token, with_user (mk_ust (mk_tok m p) gs) s) /\
    length m = length (pre ++ line ++ 0 :: post) /\
    (forall j : nat, ~ sh_input l <= Z.of_nat j < sh_input l + 1024 -> m !! j = (pre ++ line ++ 0 :: post) !! j) /\
    ((words (is_delim [32]) [] line = [] /\ token = 0) \/
     exists w ws, words (is_delim [32]) [] line = w :: ws /\ str_at m token w /\
       sh_input l <= token /\ token + Z.of_nat (length w) < sh_input l + 1024).
Proof.
  intros Hu Hpre Ha Hd H0 Hl. set (m := pre ++ line ++ 0 :: post) in *.
  assert (Ef : on_tok (strtok (sh_input l) (sh_space l)) (user s) = on_tok (strtok 0 (sh_space l)) (mk_ust (mk_tok m (sh_input l)) gs)).
  { unfold on_tok. rewrite Hu. cbn [tok grants]. rewrite strtok_first; [done|lia| |done]. pose proof (dl_pos _ _ _ _ Hd). lia. }
  assert (Hne : pre <> []) by (intros E; rewrite E in Hpre; simpl in Hpre; lia).
  destruct (strtok_token pre _ (sh_space l) [32] line post Hd Hne H0) as [[Hws E]|(p & t & pre1 & s' & Htf & E)]; fold m in E;
    rewrite Hpre in E; apply (on_tok_spec _ _ gs) in E; rewrite <- Ef in E; apply on_user_spec in E.
  - exists 0, m, 0. split; [exact E|]. split; [done|]. split; [done|by left].
  - exists p, (pre1 ++ s' ++ 0 :: post), (Z.of_nat (length pre1)).
    destruct Htf as [Hws _ Hlen _ _ [[_ Hlow] Hpt] Hstr Hframe]. split; [exact E|]. split_and!.
    + unfold m. rewrite !length_app. cbn [length]. lia.
    + intros j Hj. apply Hframe. lia.
    + right. exists t, (words (is_delim [32]) [] s'). split; [done|]. split; [exact Hstr|]. lia.
Qed.

(** The prompt, and the reset of [strtok]. *)
Lemma prompt_spec (newline : bool) s :
  printing s -> (exists n, UString.strlen (memory_of s) = Ret n) ->
  exists k, same_input (console s) k /\ output k = output (console s) ++ (if newline then [10] else []) ++ [62] /\
    forall A (f : unit -> cmd (prog W) A),
    ((if newline then on_console (putchar 10);; mret tt else mret tt);; say (lit ">") [];; on_user (on_tok (strtok 0 0));; f tt) s =
      f tt (with_user (mk_ust (mk_tok (memory_of s) 0) (grants (user s))) (with_console k s)).
Proof.
  intros Hp [n Hn]. destruct (newline_spec newline s Hp) as (k1 & E1 & (Hk1 & Ht1) & Ho1).
  destruct (say_text (lit ">") [] [] [PLit 62] [[62]] [] (with_console k1 s)) as (k2 & E2 & (Hk2 & Ht2) & Ho2);
    [reflexivity|constructor|done|reflexivity|reflexivity|by repeat constructor|].
  exists k2. split; [split; [by rewrite Hk2|done]|]. split; [rewrite Ho2; cbn; by rewrite Ho1, <- app_assoc|]. intros A f. step E1. step E2.
  set (s2 := with_console k2 (with_console k1 s)).
  assert (E3 : on_user (on_tok (strtok 0 0)) s2 = Ret (0, with_user (mk_ust (mk_tok (memory_of s) 0) (grants (user s))) s2)).
  { apply on_user_spec. change (user s2) with (user s). unfold memory_of in *. destruct (user s) as [t g].
    apply on_tok_spec. by apply (strtok_reset t n). }
  by step E3.
Qed.

Lemma shell_reads l newline s input k13 later :
  shell_ready l s -> keys (console s) = input ++ k13 :: later -> (13 ∉ typed input) -> u8 k13 = 13 ->
  (length (typed input) < 1024)%nat ->
  exists s1 token, line_read l s later (rev (fold_left edit (typed input) [])) token s1 /\
    output (console s1) = output (console s) ++ prompted newline input /\
    shell_turn l newline s =
      (if (token <? sh_input l) || (sh_input l + 1024 <? token) then mret (Again true) else shell_command l token) s1.
Proof.
  intros Hr Hk H13 Hk13 Hlt. destruct (Hr) as [Hp _ [Hst1 Hst2] Hin Hsp _ _].
  set (a := sh_input l) in *. set (line := rev _). set (m := memory_of s) in *. set (gs := grants (user s)) in *.
  assert (Hll : (length line < 1024)%nat).
  { unfold line. rewrite length_rev. pose proof (edit_length (typed input) []). simpl in *. lia. }
  assert (Hlb : bytes line) by (apply Forall_rev, edit_Forall; [apply typed_bytes|constructor]).
  destruct (prompt_spec newline s Hp (strlen_total m (delims_zero _ _ _ _ Hsp) ltac:(lia))) as (k2 & [Hk2 Ht2] & Ho2 & E).
  unfold shell_turn. rewrite (E _ (fun _ => _)). fold m gs. clear E. set (s3 := with_user _ _). set (pre := take (Z.to_nat a) m).
  assert (Hpre : Z.of_nat (length pre) = a) by (unfold pre; rewrite length_take; lia).
  destruct (gets_at_spec s3 pre (drop (Z.to_nat a) m) 0 gs input k13 later) as (b & k4 & E4 & Hb & Hlb4 & Hk4 & Ht4 & Ho4); try done.
  { cbn. unfold pre. by rewrite take_drop. }
  { cbn. by rewrite Hk2. }
  { rewrite length_drop. lia. }
  rewrite Hpre in E4. step E4. rewrite length_drop in Hlb4. fold line in Hb. set (s4 := with_user _ _).
  destruct (line_stored m a b line ltac:(lia) ltac:(lia) Hlb4 Hb Hll) as (A & B & R & x & Eb & HA & HB & Hx & Hl5 & Hcopy & Hlow).
  fold pre in Hl5, Hcopy, Hlow.
  pose proof (memcpy_at_spec s4 pre A B R 0 gs 1024 ltac:(cbn; by rewrite Eb) HA HB) as E5. rewrite Hpre in E5. step E5.
  set (s5 := with_user _ _). set (m5 := pre ++ A ++ A ++ R) in *.
  assert (Hm5 : m5 = pre ++ line ++ 0 :: (x ++ A ++ R)) by (unfold m5; rewrite Hx at 1; by rewrite <- app_assoc).
  assert (Hfr : forall j : nat, ~ shell_writes l gs (Z.of_nat j) -> m5 !! j = m !! j).
  { intros j Hj. apply Hlow. destruct (Z.lt_ge_cases (Z.of_nat j) a); [done|]. exfalso. apply Hj. by right. }
  assert (Hd5 : delims m5 (shell_writes l gs) (sh_space l) [32]) by (by eapply delims_frame; [exact Hsp|exact Hfr|]).
  destruct (first_word l s5 pre line (x ++ A ++ R) gs) as (token & m6 & p & E6 & Hl6 & Hfr6 & Htok);
    rewrite <- ?Hm5; try done; [lia|apply Hb|].
  rewrite <- Hm5 in Hl6, Hfr6. step E6. eexists _, token.
  split; [|split; [|reflexivity]].
  2: { change (output k4 = output (console s) ++ prompted newline input).
       rewrite Ho4. change (console s3) with k2. rewrite Ho2. unfold prompted. by rewrite <- !app_assoc. }
  split; [done|done| |done| |done|exact Htok].
  - apply (ready_frame l s); [done|unfold printing; cbn; by rewrite Ht4|done|exact (eq_trans Hl6 Hl5)|].
    intros j Hj. change (m6 !! j = m !! j). rewrite Hfr6; [by apply Hfr|]. intros Hb'. apply Hj. right. fold a in Hb' |- *. lia.
  - change (str_at m6 (a + 1024) line). eapply str_at_frame; [|exact Hcopy]. intros i Hi. apply Hfr6. fold a. lia.
Qed.

(** ** The first word *)
Lemma command_is_spec word wd n token t s :
  cstr word wd -> bytes wd -> bytes t -> str_at (memory_of s) token t -> (length wd < Z.to_nat n)%nat ->
  command_is word token n s = Ret (bool_decide (folded t = folded wd), s).
Proof.
  intros Hw B1 B2 Ht Hn. unfold command_is. step (bytes_from_spec token s).
  destruct (uistrncmp_spec wd t word (drop (Z.to_nat token) (memory_of s)) n Hw (str_at_cstr _ _ _ Ht) B1 B2 Hn) as (r & E & Hr).
  rewrite (bind_liftO _ _ _ _ E). unfold mret, cmd_ret. do 2 f_equal. apply eq_true_iff_eq.
  by rewrite Z.eqb_eq, bool_decide_eq_true.
Qed.

(** The words the shell knows itself. *)
Definition builtins : list (list Z) :=
  [chars "exit"; chars "help"; chars "about"; chars "man"; chars "clear"; chars "kill"; chars "rc"].

Lemma builtin_is name n token t s :
  name ∈ builtins -> bytes t -> str_at (memory_of s) token t -> (length name < Z.to_nat n)%nat ->
  command_is (name ++ [0]) token n s = Ret (bool_decide (folded t = name), s).
Proof.
  intros Hin Ht Hs Hn. assert (folded name = name /\ bytes name /\ (0 ∉ name)) as (Ef & Hb & H0).
  { clear Hn. revert name Hin. apply Forall_forall. apply (bool_decide_unpack _). vm_compute. exact I. }
  rewrite (command_is_spec _ name n token t) by (done || (split; [done|by exists []])). do 2 f_equal.
  apply bool_decide_ext. by rewrite Ef.
Qed.

(** ** Starting a program *)
Lemma system_spec l s later line token s1 w ws :
  line_read l s later line token s1 -> words (is_delim [32]) [] line = w :: ws -> grants (user s) <> [] ->
  str_at (memory_of s1) token w -> sh_input l <= token -> token + Z.of_nat (length w) < sh_input l + 1024 ->
  exists m q s2, arg_list m (grants (user s)) q (take (length (grants (user s))) (w :: ws)) /\ memory_of s2 = m /\ str_at m token w /\
    console s2 = console s1 /\ world s2 = world s1 /\
    system (sh_fuel l) (sh_scommand l) (sh_space l) (sh_input l + 1024) s1 = sos_system q s2.
Proof.
  intros [Hw Hk Hr Hg Hcp [Hll _] _] Hws Hne Hs Hlow Hhigh. destruct Hr as [Hp Hf [Hst1 Hst2] Hin Hsp Hbl Hap].
  rewrite Hg in Hsp, Hbl, Hap. set (gs := grants (user s)) in *. set (m := memory_of s1) in *. set (sc := sh_scommand l) in *.
  set (pre := take (Z.to_nat sc) m). set (buf := take 1025 (drop (Z.to_nat sc) m)). set (post := drop 1025 (drop (Z.to_nat sc) m)).
  assert (Em : m = pre ++ buf ++ post) by (unfold pre, buf, post; by rewrite !take_drop).
  assert (Hpre : Z.of_nat (length pre) = sc) by (unfold pre; rewrite length_take; lia).
  destruct (strlen_total m (delims_zero _ _ _ _ Hsp) ltac:(lia)) as [n Hn].
  destruct (parse_command_spec (sh_fuel l) pre buf post (sh_space l) (sh_input l + 1024) line (sp (tok (user s1))) n gs 512)
    as (m' & p' & gs' & q & E & Hl' & Hargs & Hout); rewrite <- ?Em, ?Hpre; try done; try lia.
  { unfold buf. rewrite length_take, length_drop. lia. }
  { eapply delims_frame; [exact Hsp|done|]. intros j Hj. by left. }
  { intros g Hgg. destruct (Hbl g Hgg) as (? & ? & _). done. }
  rewrite <- Em, Hpre in E, Hout. rewrite (take_ge line) in Hargs by lia. rewrite Hws in Hargs.
  assert (Eu : user s1 = mk_ust (mk_tok m (sp (tok (user s1)))) gs).
  { unfold m, memory_of. rewrite <- Hg. by destruct (user s1) as [[]]. }
  set (s2 := with_user (mk_ust (mk_tok m' p') gs') s1).
  exists m', q, s2. split; [exact Hargs|]. split; [done|]. split.
  { eapply str_at_frame; [|exact Hs]. intros i Hi. apply Hout. unfold command_writes, between.
    intros [Hb|(g & Hgg & Hb)]; [lia|]. specialize (Hbl g Hgg). lia. }
  split; [done|]. split; [done|]. unfold system. rewrite <- Eu in E. step (on_user_spec _ s1 q _ E).
  assert (q <> 0); [|by rewrite (proj2 (Z.eqb_neq q 0))]. destruct gs; [done|]. by inversion Hargs.
Qed.

Lemma line_words line w ws : bytes line -> words (is_delim [32]) [] line = w :: ws -> bytes w.
Proof.
  intros Hb Hw. pose proof (words_Forall is_byte (is_delim [32]) [] line ltac:(constructor) Hb) as Hall. rewrite Hw in Hall.
  by inversion Hall.
Qed.

(** The commands are tried in this order. *)
Ltac try_command name n token w s1 Hb Hs :=
  step (builtin_is name n token w s1 ltac:(apply (bool_decide_unpack _); vm_compute; exact I) Hb Hs ltac:(simpl; lia)).
Ltac other_command :=
  rewrite bool_decide_eq_false_2 by
    (intros Eq; match goal with Hn : folded _ ∉ builtins |- _ => apply Hn; rewrite Eq; by apply (bool_decide_unpack _)
     | Hf : folded _ = _ |- _ => rewrite Hf in Eq; discriminate Eq end).

Lemma shell_exit l token w s1 :
  bytes w -> str_at (memory_of s1) token w -> folded w = chars "exit" -> printing s1 ->
  exists k, shell_command l token s1 = Ret (Leave, with_console k s1) /\ same_input (console s1) k /\
    output k = output (console s1) ++ 10 :: chars "Exiting...".
Proof.
  intros Hb Hs Hf Hp. unfold shell_command. try_command (chars "exit") 5 token w s1 Hb Hs.
  rewrite bool_decide_eq_true_2 by done.
  destruct (literal_pieces (10 :: chars "Exiting...")) as (H1 & H2 & H3 & H4); [apply (bool_decide_unpack _); vm_compute; exact I|].
  destruct (say_text (10 :: lit "Exiting...") [] [] _ _ [] s1 ltac:(reflexivity) ltac:(constructor) Hp
              ltac:(by rewrite H2) ltac:(by rewrite H3) H1) as (k & E & Hk & Ho). step E.
  exists k. rewrite H4 in Ho. done.
Qed.

Lemma shell_clear l token w s1 w' :
  bytes w -> str_at (memory_of s1) token w -> folded w = chars "clear" -> sys_clrscr 15 (world s1) = Ret (tt, w') ->
  shell_command l token s1 = Ret (Again false, with_world w' s1).
Proof.
  intros Hb Hs Hf Hc. unfold shell_command. try_command (chars "exit") 5 token w s1 Hb Hs. other_command.
  try_command (chars "help") 5 token w s1 Hb Hs. other_command. try_command (chars "about") 6 token w s1 Hb Hs. other_command.
  try_command (chars "man") 4 token w s1 Hb Hs. other_command. try_command (chars "clear") 6 token w s1 Hb Hs.
  rewrite bool_decide_eq_true_2 by done. step (on_world_spec _ s1 tt w' Hc). done.
Qed.

(** The message for a line that starts no program. *)
Definition not_recognized (w : list Z) : list Z :=
  10 :: chars "ERROR: " ++ [34] ++ w ++ 34 :: chars " is not recognized as an operable program or command. Try "
    ++ 34 :: chars "man" ++ [34].

Lemma say_not_recognized b w s :
  cstr b w -> printing s ->
  exists k, say (10 :: chars "ERROR: " ++ 34 :: chars "%s" ++ 34 :: chars " is not recognized as an operable program or command. Try "
                 ++ 34 :: chars "man" ++ [34; 0]) [VStr b] s = Ret (tt, with_console k s) /\
    same_input (console s) k /\ output k = output (console s) ++ not_recognized w.
Proof.
  intros Hb Hp. set (l1 := 10 :: chars "ERROR: " ++ [34]).
  set (l2 := 34 :: chars " is not recognized as an operable program or command. Try " ++ 34 :: chars "man" ++ [34]).
  destruct (literal_pieces l1) as (A1 & A2 & A3 & A4); [apply (bool_decide_unpack _); vm_compute; exact I|].
  destruct (literal_pieces l2) as (B1 & B2 & B3 & B4); [apply (bool_decide_unpack _); vm_compute; exact I|].
  destruct (say_text (l1 ++ chars "%s" ++ l2 ++ [0]) [CStr] [VStr b] ((PLit <$> l1) ++ [PStr b w] ++ (PLit <$> l2))
    (((fun c => [c]) <$> l1) ++ [w] ++ ((fun c => [c]) <$> l2)) [] s) as (k & E & Hk & Ho).
  - reflexivity.
  - constructor; [by exists w|constructor].
  - done.
  - rewrite !fmap_app, !concat_app, A2, B2. by rewrite <- !app_assoc.
  - by rewrite !fmap_app, !concat_app, A3, B3.
  - apply Forall2_app; [done|]. apply Forall2_app; [|done]. constructor; [by split|constructor].
  - exists k. split; [exact E|]. split; [done|]. rewrite Ho, !concat_app, A4, B4. f_equal.
    unfold not_recognized, l1, l2. cbn [concat]. by rewrite app_nil_r.
Qed.

Lemma shell_program l token w s1 r s2 m q w' :
  bytes w -> str_at (memory_of s1) token w -> folded w ∉ builtins ->
  system (sh_fuel l) (sh_scommand l) (sh_space l) (sh_input l + 1024) s1 = sos_system q s2 ->
  memory_of s2 = m -> str_at m token w -> printing s2 -> sys_system m q (world s2) = Ret (r, w') ->
  exists k, shell_command l token s1 = Ret (Again true, with_console k (with_world w' s2)) /\ same_input (console s2) k /\
    output k = output (console s2) ++ (if r <? 0 then not_recognized w else []).
Proof.
  intros Hb Hs Hf Hsys Hm Hs2 Hp Hc. unfold shell_command. try_command (chars "exit") 5 token w s1 Hb Hs. other_command.
  try_command (chars "help") 5 token w s1 Hb Hs. other_command. try_command (chars "about") 6 token w s1 Hb Hs. other_command.
  try_command (chars "man") 4 token w s1 Hb Hs. other_command. try_command (chars "clear") 6 token w s1 Hb Hs. other_command.
  try_command (chars "kill") 5 token w s1 Hb Hs. other_command. try_command (chars "rc") 3 token w s1 Hb Hs. other_command.
  unfold memory_of in Hm. set (s3 := with_world w' s2).
  assert (E : system (sh_fuel l) (sh_scommand l) (sh_space l) (sh_input l + 1024) s1 = Ret (r, s3)).
  { rewrite Hsys. unfold sos_system. rewrite bind_getS, Hm. by apply on_world_spec. }
  step E. destruct (r <? 0).
  - destruct (say_not_recognized (drop (Z.to_nat token) (memory_of s3)) w s3) as (k & E4 & Hk); [|done|].
    + apply str_at_cstr. unfold memory_of, s3. cbn. by rewrite Hm.
    + exists k. rewrite (bind_Ret _ _ s3 tt (with_console k s3)); [done|]. by step (bytes_from_spec token s3).
  - exists (console s3). split; [by destruct s2|]. split; [done|]. by rewrite app_nil_r.
Qed.

(** C20: a line of fewer than 1024 keys in the shell.  The prompt is printed (on a
    new line, unless the screen was just cleared) and the keys are echoed.  The line
    that was edited is split at spaces.  An empty one is read again.  "exit", in any
    case, prints a message and leaves the loop; "clear" clears the screen, and the
    next prompt is not put on a new line.  Any word that is not one of the shell's
    own starts a program: the kernel is called once, with the list of all the words
    of the line, each as much of it as an argument holds, as far as there was memory
    for the arguments; when the call fails, the message that the word is not
    recognized is printed, and nothing otherwise; and the shell reads the next line.
    The keys after the enter key are left. *)
Theorem shell_runs_line l newline s input k13 later :
  shell_ready l s -> keys (console s) = input ++ k13 :: later -> (13 ∉ typed input) -> u8 k13 = 13 ->
  (length (typed input) < 1024)%nat ->
  let line := rev (fold_left edit (typed input) []) in
  let shown := output (console s) ++ prompted newline input in
  (words (is_delim [32]) [] line = [] ->
     exists s', shell_turn l newline s = Ret (Again true, s') /\ world s' = world s /\ keys (console s') = later /\
       output (console s') = shown /\ shell_ready l s') /\
  forall w ws, words (is_delim [32]) [] line = w :: ws ->
    (folded w = chars "exit" ->
       exists s', shell_turn l newline s = Ret (Leave, s') /\ world s' = world s /\ keys (console s') = later /\
         output (console s') = shown ++ 10 :: chars "Exiting...") /\
    (folded w = chars "clear" -> forall w', sys_clrscr 15 (world s) = Ret (tt, w') ->
       exists s', shell_turn l newline s = Ret (Again false, s') /\ world s' = w' /\ keys (console s') = later /\
         output (console s') = shown /\ shell_ready l s') /\
    (folded w ∉ builtins -> grants (user s) <> [] ->
       exists m q, arg_list m (grants (user s)) q (take (length (grants (user s))) (w :: ws)) /\
         forall r w', sys_system m q (world s) = Ret (r, w') ->
           exists s', shell_turn l newline s = Ret (Again true, s') /\ world s' = w' /\ keys (console s') = later /\
             output (console s') = shown ++ (if r <? 0 then not_recognized w else [])).
Proof.
  intros Hr Hk H13 Hk13 Hlt line shown.
  destruct (shell_reads l newline s input k13 later Hr Hk H13 Hk13 Hlt) as (s1 & token & Hlr & Ho1 & ->). fold line in Hlr.
  fold shown in Ho1.
  pose proof Hlr as [Hw Hk1 Hr1 Hg Hcp [Hll Hb] Ht]. pose proof (sr_stack _ _ Hr1) as [Hst1 Hst2].
  destruct Ht as [[Hws ->]|(w & ws & Hws & Hs & Hlow & Hhigh)].
  { rewrite (proj2 (Z.ltb_lt 0 _)) by lia. split; [intros _; by exists s1|]. intros w ws E. by rewrite Hws in E. }
  rewrite (proj2 (Z.ltb_ge token _)), (proj2 (Z.ltb_ge _ token)) by lia. cbn [orb].
  split; [intros E; by rewrite Hws in E|]. intros w2 ws2 E. rewrite Hws in E. injection E as <- <-.
  pose proof (line_words _ _ _ Hb Hws) as Hbw. pose proof (sr_printing _ _ Hr1) as Hp1. split; [|split].
  - intros Hf. destruct (shell_exit l token w s1 Hbw Hs Hf Hp1) as (k & E & [Hk2 _] & Ho2). rewrite E.
    eexists. split; [done|]. split; [done|]. cbn. by rewrite Hk2, Ho2, Ho1.
  - intros Hf w' Hc. rewrite <- Hw in Hc. rewrite (shell_clear l token w s1 w' Hbw Hs Hf Hc).
    eexists. split; [done|]. split; [done|]. split; [done|]. split; [done|]. by apply (ready_frame l s1).
  - intros Hf Hne. destruct (system_spec l s later line token s1 w ws Hlr Hws Hne Hs Hlow Hhigh)
      as (m & q & s2 & Hargs & Hm & Hs2 & Hc2 & Hw2 & Hsys).
    exists m, q. split; [exact Hargs|]. intros r w' Hsc. rewrite <- Hw, <- Hw2 in Hsc.
    assert (Hp2 : printing s2) by (unfold printing; by rewrite Hc2).
    destruct (shell_program l token w s1 r s2 m q w' Hbw Hs Hf Hsys Hm Hs2 Hp2 Hsc) as (k & E & [Hk2 _] & Ho2). rewrite E.
    eexists. split; [done|]. split; [done|]. cbn. by rewrite Hk2, Ho2, Hc2, Ho1.
Qed.
End shell.

(** The witness: the array at 8, the separator at 1034, the buffers at 1036, and
    two blocks; "LS x" and enter are typed. *)
Definition demo_layout : shell_layout := mk_shell 1036 1034 0 8 1025.
Definition at_prompt (ks : list Z) : prog small :=
  mk_prog (mk_io ks [] (replicate 12 0)) (mk_ust (mk_tok (replicate 1034 0 ++ [32] ++ 0 :: replicate 3080 0) 0) [3084; 3600]) 0
    (replicate 20 0) (mk_small ∅ [] ∅ []).

Lemma demo_shell_ready ks : shell_ready demo_layout (at_prompt ks).
Proof.
  split; cbn [at_prompt user grants demo_layout sh_scommand sh_input sh_space sh_fuel].
  - reflexivity.
  - lia.
  - lia.
  - split; [|reflexivity]. apply Z.leb_le. vm_compute. reflexivity.
  - split; [lia| | |simpl; lia].
    + apply (str_at_app (replicate 1034 0) [32] (replicate 3080 0)). apply (bool_decide_unpack _). vm_compute. exact I.
    + unfold shell_writes, command_writes, between. cbn [demo_layout sh_scommand sh_input length]. intros j [[Hj|(g & Hg & Hj)]|Hj].
      1, 3: lia. repeat (apply elem_of_cons in Hg as [->|Hg]; [lia|]). by apply not_elem_of_nil in Hg.
  - intros g Hg. repeat (apply elem_of_cons in Hg as [->|Hg];
      [split; [lia|split; [apply Z.leb_le; vm_compute; reflexivity|lia]]|]). by apply not_elem_of_nil in Hg.
  - repeat constructor. unfold apart. lia.
Qed.

Lemma shell_runs_line_witness :
  exists m q s' s2, arg_list m [3084; 3600] q [chars "LS"; chars "x"] /\
    shell_turn demo_layout true (at_prompt (chars "LS x" ++ [13; 97])) = Ret (Again true, s') /\ sm_ran (world s') = [q] /\
    keys (console s') = [97] /\ output (console s') = 10 :: chars ">LS x" /\
    shell_turn demo_layout true (at_prompt (chars "EXIT" ++ [13; 97])) = Ret (Leave, s2) /\
    output (console s2) = 10 :: chars ">EXIT" ++ 10 :: chars "Exiting...".
Proof.
  destruct (shell_runs_line demo_layout true (at_prompt (chars "EXIT" ++ [13; 97])) (chars "EXIT") 13 [97]) as [_ Hx];
    [apply demo_shell_ready|reflexivity|apply (bool_decide_unpack _); vm_compute; exact I|reflexivity
    |apply Nat.ltb_lt; vm_compute; reflexivity|].
  destruct (Hx (chars "EXIT") []) as (Hexit & _ & _); [vm_compute; reflexivity|].
  destruct Hexit as (s2 & E2 & _ & _ & Ho2); [vm_compute; reflexivity|].
  destruct (shell_runs_line demo_layout true (at_prompt (chars "LS x" ++ [13; 97])) (chars "LS x") 13 [97]) as [_ Hw].
  - apply demo_shell_ready.
  - reflexivity.
  - apply (bool_decide_unpack _). vm_compute. exact I.
  - reflexivity.
  - apply Nat.ltb_lt. vm_compute. reflexivity.
  - destruct (Hw (chars "LS") [chars "x"]) as (_ & _ & Hrun).
    + vm_compute. reflexivity.
    + destruct Hrun as (m & q & Hargs & Hret).
      * apply (bool_decide_unpack _). vm_compute. exact I.
      * discriminate.
      * destruct (Hret 7 (mk_small ∅ [] ∅ [q])) as (s' & E & Hws & Hk & Ho).
        -- reflexivity.
        -- exists m, q, s', s2. split; [exact Hargs|]. split; [exact E|]. split; [by rewrite Hws|]. split; [exact Hk|].
           split; [rewrite Ho; vm_compute; reflexivity|]. split; [exact E2|rewrite Ho2; vm_compute; reflexivity].
Defined.
