(* ===== verification/SetupSpec.v ===== *)
(** * From the set-up program to the password prompt

    new_usr asks for a time zone, a name and a password and writes them to the
    configuration; pr reads them from there.  What one writes is what the other
    accepts. *)
From S2P Require Import Prelude CMem CString UserString UserCommand UserStdio UserRuntime UserPrograms UserProgramsSpec.

(** ** Lines of the keyboard *)

(** The keys up to an enter key, among the keys that are there. *)
Lemma typed_split ks l rest :
  typed ks = l ++ 13 :: rest -> (13 ∉ l) ->
  exists input k later, ks = input ++ k :: later /\ typed input = l /\ u8 k = 13 /\ typed later = rest.
Proof.
  revert l. induction ks as [|k ks IH]; intros l Ht H13; [by destruct l|]. rewrite typed_cons in Ht. case_decide as Hz.
  - destruct (IH l Ht H13) as (input & k' & later & -> & Hi & Hk & Hl). exists (k :: input), k', later.
    split_and!; [done| |done|done]. by rewrite typed_cons, decide_True.
  - destruct l as [|c l]; injection Ht as Hc Ht; [by exists [], k, ks|]. apply not_elem_of_cons in H13 as [_ H13].
    destruct (IH l Ht H13) as (input & k' & later & -> & Hi & Hk & Hl). exists (k :: input), k', later.
    split_and!; [done| |done|done]. rewrite typed_cons, decide_False by done. by rewrite Hi, Hc.
Qed.

(** The line that the keys [l] edit. *)
Definition edited (l : list Z) : list Z := rev (fold_left edit l []).

Section lines.
Context {W : Type} `{SystemCalls W}.
Implicit Types s : prog W.

Lemma gets_line s l rest buf :
  typed (keys (console s)) = l ++ 13 :: rest -> (13 ∉ l) -> (length l < length buf)%nat ->
  exists buf' k, on_console (gets buf) s = Ret (buf', with_console k s) /\ cstr buf' (edited l) /\
    length buf' = length buf /\ typed (keys k) = rest /\ text k = text (console s).
Proof.
  intros Ht H13 Hl. destruct (typed_split _ l rest Ht H13) as (input & k13 & later & Hks & <- & Hk & <-).
  destruct (gets_edits_line input k13 later buf (console s) H13 Hk Hl) as (buf' & k & E & Hc & Hlb & _ & Hkk & Htx).
  assert (Es : set_keys (input ++ k13 :: later) (console s) = console s) by (destruct (console s); cbn in *; by rewrite Hks).
  rewrite Es in E. exists buf', k. split; [by apply on_console_spec|]. by rewrite Hkk.
Qed.

(** ** The password *)

(** A key that is taken as it is. *)
Definition plain_key (c : Z) : Prop := c <> 0 /\ c <> 13 /\ c <> 8 /\ c < KEY_DOWN.

(** Only the keys, and what is on the screen, change. *)
Record reads s s' (rest : list Z) : Prop := {
  rd_typed : typed (keys (console s')) = rest;
  rd_printing : printing s -> printing s';
  rd_user : user s' = user s;
  rd_world : world s' = world s
}.

Lemma reads_trans s s1 s2 r1 r2 : reads s s1 r1 -> reads s1 s2 r2 -> reads s s2 r2.
Proof. intros [] []. split; [done|tauto|congruence|congruence]. Qed.

Lemma say_reads fmt s : conversions fmt = Some [] -> printing s ->
  exists s', say fmt [] s = Ret (tt, s') /\ reads s s' (typed (keys (console s))).
Proof.
  intros Hc Hp. destruct (say_prints fmt [] [] s Hc ltac:(constructor) Hp) as (k & E & Hk & Ht).
  eexists. split; [exact E|]. split; [by rewrite <- Hk|done..].
Qed.

Lemma gets_reads s l rest buf :
  typed (keys (console s)) = l ++ 13 :: rest -> (13 ∉ l) -> (length l < length buf)%nat ->
  exists buf' s', on_console (gets buf) s = Ret (buf', s') /\ cstr buf' (edited l) /\ length buf' = length buf /\ reads s s' rest.
Proof.
  intros Ht H13 Hl. destruct (gets_line s l rest buf Ht H13 Hl) as (buf' & k & E & Hc & Hlb & Htk & Htx).
  eexists _, _. split; [exact E|]. split_and!; [done|done|]. split; [done| |done|done]. unfold printing. cbn. by rewrite Htx.
Qed.

Context (uninit : Z -> list Z).

Lemma get_s_loop_spec n buf line l rest i s :
  typed (keys (console s)) = l ++ 13 :: rest -> Forall plain_key l -> holds buf line -> (0 ∉ line) ->
  (length (keys (console s)) < n)%nat -> 0 <= i -> i + Z.of_nat (length l) <= 30 ->
  (length line + length l < length buf)%nat ->
  exists buf' s', new_usr_get_s_loop n buf (Z.of_nat (length line)) i 30 s = Ret (buf', s') /\
    cstr buf' (rev line ++ l) /\ length buf' = length buf /\ reads s s' rest.
Proof.
  revert n buf line i s. induction l as [|c l IH]; intros n buf line i s Ht Hl Hb H0 Hn Hi0 Hi Hlen;
    (destruct n as [|n]; [lia|]); cbn [new_usr_get_s_loop app] in *;
    destruct (key_spec s _ _ Ht) as (ks & E & Htk & Hks & Hc); step E.
  - change (13 =? 13) with true. cbn [orb]. destruct (holds_push buf line 0 Hb ltac:(simpl in Hlen; lia)) as (buf' & Es & [r ->] & Hlb).
    unfold liftO. rewrite Es. eexists _, _. split; [done|]. split; [|split; [done|by split]].
    split; [by rewrite app_nil_r, list_elem_of_In, <- in_rev, <- list_elem_of_In|]. exists r. cbn [rev]. by rewrite app_nil_r, <- app_assoc.
  - apply Forall_cons in Hl as [(Hc0 & H13 & H8 & Hk) Hl]. cbn [length] in *.
    rewrite (proj2 (Z.eqb_neq c 13)), (proj2 (Z.leb_gt 30 i)), (proj2 (Z.leb_gt KEY_DOWN c)), (proj2 (Z.eqb_neq c 8)) by lia. cbn [orb].
    destruct (holds_push buf line c Hb ltac:(lia)) as (buf' & Es & Hb' & Hlb). rewrite (bind_liftO _ _ _ _ Es).
    set (s1 := with_console _ s). set (s2 := with_console (mk_io ks (calls (console s) ++ [SPutchar 42]) (text (console s))) s).
    assert (Ep : on_console (putchar 42) s1 = Ret (0, s2)) by done. step Ep.
    rewrite u8_id by lia. replace (Z.of_nat (length line) + 1) with (Z.of_nat (length (c :: line))) by (simpl; lia).
    destruct (IH n buf' (c :: line) (i + 1) s2) as (buf2 & s' & E2 & Hcs & Hlb2 & Hr); try done; try (simpl; lia).
    { by apply not_elem_of_cons. }
    exists buf2, s'. split; [exact E2|]. cbn [rev] in Hcs. rewrite <- app_assoc in Hcs. split; [exact Hcs|]. split; [lia|].
    eapply (reads_trans s s2); [|exact Hr]. split; [done|done|done|done].
Qed.

(** A password that fits, with the value [i0] that the counter starts with. *)
Record fits (i0 : Z) (l : list Z) : Prop := {
  ft_plain : Forall plain_key l;
  ft_count : i0 + Z.of_nat (length l) <= 30
}.

Context (i0 : Z) (Hi0 : 0 <= i0) (Huninit : uninit 1 = [i0]).

Lemma get_s_spec buf l rest s :
  typed (keys (console s)) = l ++ 13 :: rest -> fits i0 l -> length buf = 31%nat ->
  exists buf' s', new_usr_get_s uninit buf 30 s = Ret (buf', s') /\ cstr buf' l /\ length buf' = 31%nat /\ reads s s' rest.
Proof using Hi0 Huninit.
  intros Ht [Hp Hl] Hb. unfold new_usr_get_s. step (keys_left_spec s). rewrite Huninit. cbn [default lookup list_lookup].
  rewrite <- Hb. apply (get_s_loop_spec (S (length (keys (console s)))) buf [] l rest i0 s); try done; try (simpl; lia).
  - by exists buf.
  - set_solver.
Qed.

(** The keys of an attempt at the two lines. *)
Definition attempt (a : list Z * list Z) : list Z := a.1 ++ 13 :: a.2 ++ [13].

Lemma attempts_length tries : (length tries <= length (concat (attempt <$> tries)))%nat.
Proof.
  induction tries as [|[p q] tries IH]; [done|]. rewrite fmap_cons. cbn [concat]. rewrite length_app.
  unfold attempt at 1. cbn [fst snd]. rewrite !length_app. simpl in *. lia.
Qed.

Lemma password_spec n tries pw rest b1 b2 s :
  typed (keys (console s)) = concat (attempt <$> tries) ++ attempt (pw, pw) ++ rest -> (length tries < n)%nat ->
  Forall (fun a => fits i0 a.1 /\ fits i0 a.2 /\ a.1 <> a.2) tries -> fits i0 pw ->
  length b1 = 31%nat -> length b2 = 31%nat -> printing s ->
  exists buf s', new_usr_password uninit n b1 b2 s = Ret (buf, s') /\ cstr buf pw /\ reads s s' rest.
Proof using Hi0 Huninit.
  revert n b1 b2 s. induction tries as [|[p q] tries IH]; intros n b1 b2 s Ht Hn Htr Hpw Hb1 Hb2 Hpr;
    (destruct n as [|n]; [lia|]); cbn [new_usr_password fmap list_fmap concat app] in *;
    match goal with |- context [mbind _ (say ?fmt []) s] =>
      destruct (say_reads fmt s) as (s1 & E1 & R1); [reflexivity|done|]; step E1 end.
  - unfold attempt in Ht. cbn [fst snd] in Ht. rewrite <- app_assoc in Ht. cbn [app] in Ht. rewrite <- app_assoc in Ht. cbn [app] in Ht.
    destruct (get_s_spec b1 pw (pw ++ 13 :: rest) s1) as (c1 & s2 & E2 & Hc1 & Hl1 & R2); [by rewrite (rd_typed _ _ _ R1)|done|done|]. step E2.
    match goal with |- context [mbind _ (say ?fmt []) s2] =>
      destruct (say_reads fmt s2) as (s3 & E3 & R3); [reflexivity|by apply (rd_printing _ _ _ R2), (rd_printing _ _ _ R1)|]; step E3 end.
    destruct (get_s_spec b2 pw rest s3) as (c2 & s4 & E4 & Hc2 & Hl2 & R4); [by rewrite (rd_typed _ _ _ R3), (rd_typed _ _ _ R2)|done|done|]. step E4.
    destruct (strcmp_spec _ _ _ _ Hc1 Hc2) as (r & E5 & Hr). rewrite (bind_liftO _ _ _ _ E5), (proj2 Hr), Z.eqb_refl by done.
    cbn [negb]. exists c1, s4. split; [done|]. split; [done|]. by do 3 (eapply reads_trans; [eassumption|]).
  - apply Forall_cons in Htr as [(Hp & Hq & Hne) Htr]. cbn [fst snd length] in *. unfold attempt at 1 in Ht. cbn [fst snd] in Ht.
    repeat (rewrite <- ?app_assoc in Ht; cbn [app] in Ht). fold attempt in Ht.
    set (r1 := concat (attempt <$> tries) ++ _) in *.
    destruct (get_s_spec b1 p (q ++ 13 :: r1) s1) as (c1 & s2 & E2 & Hc1 & Hl1 & R2); [by rewrite (rd_typed _ _ _ R1)|done|done|]. step E2.
    match goal with |- context [mbind _ (say ?fmt []) s2] =>
      destruct (say_reads fmt s2) as (s3 & E3 & R3); [reflexivity|by apply (rd_printing _ _ _ R2), (rd_printing _ _ _ R1)|]; step E3 end.
    destruct (get_s_spec b2 q r1 s3) as (c2 & s4 & E4 & Hc2 & Hl2 & R4); [by rewrite (rd_typed _ _ _ R3), (rd_typed _ _ _ R2)|done|done|]. step E4.
    destruct (strcmp_spec _ _ _ _ Hc1 Hc2) as (r & E5 & Hr). rewrite (bind_liftO _ _ _ _ E5), (proj2 (Z.eqb_neq r 0)) by (by rewrite Hr).
    cbn [negb]. pose proof (reads_trans _ _ _ _ _ R1 (reads_trans _ _ _ _ _ R2 (reads_trans _ _ _ _ _ R3 R4))) as R.
    match goal with |- context [mbind _ (say ?fmt []) s4] =>
      destruct (say_reads fmt s4) as (s5 & E6 & R5); [reflexivity|by apply (rd_printing _ _ _ R)|]; step E6 end.
    pose proof (reads_trans _ _ _ _ _ R R5) as R'.
    destruct (IH n c1 c2 s5) as (buf & s' & E7 & Hc & R7); try done; try lia.
    + by rewrite (rd_typed _ _ _ R'), (rd_typed _ _ _ R).
    + by apply (rd_printing _ _ _ R').
    + exists buf, s'. split; [exact E7|]. split; [done|]. by eapply reads_trans.
Qed.
End lines.

(** ** The configuration *)
Lemma atoi_total buf l : cstr buf l -> exists v, CString.atoi buf = Ret v.
Proof.
  unfold CString.atoi. generalize 0. revert buf. induction l as [|c l IH]; intros buf res Hb.
  - apply cstr_nil in Hb as [r ->]. by exists res.
  - destruct (cstr_inv _ _ Hb) as [[? _] | (? & ? & b & [= <- <-] & -> & Hc & Hb')]; [done|]. cbn [CString.atoi_loop].
    bcase; [by apply IH|by exists res].
Qed.

(** The bytes of the structure: the magic, the zone, the array of the name and
    the one of the password, which starts with the password. *)
Lemma config_fields head body name pw x :
  length head = 8%nat -> length body = 52%nat -> cstr body name -> (length name <= 20)%nat -> (0 ∉ pw) ->
  (length pw <= 30)%nat -> x = drop (29 + S (length pw)) (head ++ body) ->
  let config := config_magic ++ drop 4 (take 29 (head ++ body) ++ pw ++ 0 :: x) in
  length config = 60%nat /\ take 4 config = config_magic /\ cstr (username config) name /\ cstr (password config) pw.
Proof.
  intros Hh Hb [Hn [r Er]] Hl Hpw Hpl Hx config.
  assert (Ht : take 29 (head ++ body) = head ++ take 21 body) by (rewrite take_app_ge by lia; by rewrite Hh).
  assert (Hd : drop 4 (take 29 (head ++ body) ++ pw ++ 0 :: x) = drop 4 head ++ take 21 body ++ pw ++ 0 :: x).
  { by rewrite Ht, <- app_assoc, drop_app_le by lia. }
  unfold config. rewrite Hd. assert (Hd4 : length (drop 4 head) = 4%nat) by (rewrite length_drop; lia).
  assert (Hp8 : length (config_magic ++ drop 4 head) = 8%nat) by (rewrite length_app, Hd4; done).
  assert (Ht21 : length (take 21 body) = 21%nat) by (rewrite length_take; lia).
  split_and!.
  - rewrite !length_app, Hd4, Ht21. cbn [length]. rewrite Hx, length_drop, length_app, Hh, Hb. simpl. lia.
  - done.
  - unfold username. rewrite app_assoc, drop_app_length' by done. split; [done|].
    rewrite Er, take_app_ge by lia. destruct (21 - length name)%nat as [|k] eqn:Ek; [lia|]. cbn [take].
    eexists. rewrite <- !app_assoc. reflexivity.
  - unfold password. rewrite !app_assoc, <- (app_assoc _ pw).
    assert (Hp29 : length ((config_magic ++ drop 4 head) ++ take 21 body) = 29%nat) by (rewrite length_app, Hp8, Ht21; done).
    rewrite drop_app_length' by done. split; [done|]. by exists x.
Qed.

Section setup.
Context {W : Type} `{SystemCalls W} (functions : gmap Z (cmd (prog W) unit)) (uninit : Z -> list Z).
Implicit Types s : prog W.

(** What the user types: the zone, the name, failed attempts at the password,
    the password twice. *)
Definition setup_keys (zone name : list Z) (tries : list (list Z * list Z)) (pw : list Z) : list Z :=
  zone ++ 13 :: name ++ 13 :: concat (attempt <$> tries) ++ attempt (pw, pw).

(** The 60 bytes at offset 60 of the configuration file are [config]. *)
Definition stores s (w : W) (config : list Z) : Prop :=
  exists fp w1 r w2 r2,
    sys_fopen (lit "0:/sys/config/config.dat") (lit "r") (world s) = Ret (fp, w1) /\
    sys_fseek fp 0x3c SEEK_SET w1 = Ret (r, w2) /\ sys_fread fp sizeof_config w2 = Ret (r2, config, w).

Lemma new_usr_spec fuel scommand space he_pr argv s fd w1 zone name tries pw i0 :
  sys_fopen (lit "0:/sys/config/config.dat") (lit "rwa") (world s) = Ret (fd, w1) -> fd <> 0 ->
  (forall c, length c = 60%nat -> exists r w2, 0 <= r /\ sys_fwrite fd sizeof_config c w1 = Ret (r, w2)) ->
  printing s -> uninit 1 = [i0] -> 0 <= i0 -> length (uninit 10) = 10%nat -> length (uninit 31) = 31%nat ->
  typed (keys (console s)) = setup_keys zone name tries pw ->
  (13 ∉ zone) -> (length zone < 10)%nat -> (13 ∉ name) -> (length name < 52)%nat -> (length (edited name) <= 20)%nat ->
  Forall (fun a => fits i0 a.1 /\ fits i0 a.2 /\ a.1 <> a.2) tries -> fits i0 pw ->
  exists config r w2 s1,
    length config = 60%nat /\ take 4 config = config_magic /\ cstr (username config) (edited name) /\ cstr (password config) pw /\
    sys_fwrite fd sizeof_config config w1 = Ret (r, w2) /\ world s1 = w2 /\
    new_usr_main functions uninit fuel scommand space he_pr argv s = (system fuel scommand space he_pr;; mret (Returned 0)) s1.
Proof.
  intros Hopen Hfd Hwrite Hpr Hu1 Hi0 Hu10 Hu31 Ht Hz13 Hzl Hn13 Hnl Hel Htr Hpw.
  assert (Hpl : (length pw <= 30)%nat) by (pose proof (ft_count _ _ Hpw); lia).
  assert (Hp0 : 0 ∉ pw).
  { intros Hin. pose proof (ft_plain _ _ Hpw) as Hf. rewrite Forall_forall in Hf. by destruct (Hf 0 Hin). }
  unfold new_usr_main. step (on_world_spec _ s fd w1 Hopen). rewrite (proj2 (Z.eqb_neq fd 0)) by done.
  set (s0 := with_world w1 s). change (Z.to_nat sizeof_config) with 60%nat.
  step (memset_step (replicate 60 0) 0 sizeof_config s0 ltac:(unfold sizeof_config; lia) ltac:(by apply Nat.leb_le)).
  change (replicate (Z.to_nat sizeof_config) (u8 0) ++ drop (Z.to_nat sizeof_config) (replicate 60 0)) with (replicate 60 0).
  set (s1 := set_errno 0 s0).
  match goal with |- context [mbind _ (say ?fmt []) s1] =>
    destruct (say_reads fmt s1) as (s2 & E2 & R2); [reflexivity|done|]; step E2 end.
  destruct (gets_reads s2 zone (name ++ 13 :: concat (attempt <$> tries) ++ attempt (pw, pw)) (uninit 10))
    as (zb & s3 & E3 & Hzb & _ & R3); [by rewrite (rd_typed _ _ _ R2)|done|lia|]. step E3.
  destruct (atoi_total _ _ Hzb) as [tz Etz]. rewrite (bind_liftO _ _ _ _ Etz).
  set (head := take 4 (replicate 60 0) ++ le_split 4 (u32 tz)).
  assert (Hhead : length head = 8%nat) by (unfold head; by rewrite length_app, length_le_split).
  assert (Hc0 : take 4 (replicate 60 0) ++ le_split 4 (u32 tz) ++ drop 8 (replicate 60 0) = head ++ replicate 52 0).
  { unfold head. by rewrite <- app_assoc. }
  rewrite Hc0. pose proof (reads_trans _ _ _ _ _ R2 R3) as R23.
  match goal with |- context [mbind _ (say ?fmt []) s3] =>
    destruct (say_reads fmt s3) as (s4 & E4 & R4); [reflexivity|by apply (rd_printing _ _ _ R23)|]; step E4 end.
  assert (Hus : username (head ++ replicate 52 0) = replicate 52 0) by (unfold username; by rewrite drop_app_length').
  rewrite Hus. pose proof (reads_trans _ _ _ _ _ R23 R4) as R24.
  destruct (gets_reads s4 name (concat (attempt <$> tries) ++ attempt (pw, pw)) (replicate 52 0))
    as (body & s5 & E5 & Hbody & Hbl & R5); [by rewrite (rd_typed _ _ _ R24), (rd_typed _ _ _ R3)|done|by rewrite length_replicate|]. step E5.
  rewrite length_replicate in Hbl. pose proof (reads_trans _ _ _ _ _ R24 R5) as R25.
  rewrite take_app_le, (take_ge head) by lia. step (keys_left_spec s5).
  assert (Htries : (length tries < S (length (keys (console s5))))%nat).
  { pose proof (typed_length (keys (console s5))) as Hlt. rewrite (rd_typed _ _ _ R5), length_app in Hlt.
    pose proof (attempts_length tries). lia. }
  destruct (password_spec uninit i0 Hi0 Hu1 _ tries pw [] (uninit 31) (uninit 31) s5 ltac:(rewrite app_nil_r; apply (rd_typed _ _ _ R5))
              Htries Htr Hpw Hu31 Hu31 ltac:(by apply (rd_printing _ _ _ R25))) as (pb & s6 & E6 & Hpb & R6). step E6.
  pose proof (reads_trans _ _ _ _ _ R25 R6) as R26.
  match goal with |- context [mbind _ (say ?fmt []) s6] =>
    destruct (say_reads fmt s6) as (s7 & E7 & R7); [reflexivity|by apply (rd_printing _ _ _ R26)|]; step E7 end.
  pose proof (reads_trans _ _ _ _ _ R26 R7) as R27.
  assert (Hhb : length (head ++ body) = 60%nat) by (rewrite length_app; lia).
  pose proof (strcpy_at_spec (head ++ body) 29 pb pw Hpb ltac:(lia) ltac:(lia)) as Ec. change (Z.to_nat 29) with 29%nat in Ec.
  rewrite (bind_liftO _ _ _ _ Ec). set (x := drop (29 + S (length pw)) (head ++ body)).
  destruct (config_fields head body (edited name) pw x Hhead Hbl Hbody Hel Hp0 Hpl eq_refl) as (Hlc & Hmag & Huser & Hpass).
  set (c1 := take 29 (head ++ body) ++ pw ++ 0 :: x) in *.
  assert (Hl1 : (4 <= length c1)%nat) by (unfold c1; rewrite length_app, length_take; lia).
  assert (Em : memcpy c1 config_magic 4 = Ret (config_magic ++ drop 4 c1)) by (apply memcpy_spec; [lia|exact Hl1|simpl; lia]).
  rewrite (bind_liftO _ _ _ _ Em). set (config := config_magic ++ drop 4 c1) in *.
  destruct (Hwrite config Hlc) as (r & w2 & Hr & Ew).
  assert (Ew' : sys_fwrite fd sizeof_config config (world s7) = Ret (r, w2)) by (by rewrite (rd_world _ _ _ R27)).
  step (on_world_spec _ s7 r w2 Ew'). rewrite (proj2 (Z.ltb_ge r 0)) by done.
  exists config, r, w2, (with_world w2 s7). split_and!; try done.
Qed.

Lemma pr_with_config fuel scommand space path_at argv config name pw i0 s w :
  stores s w config -> length config = 60%nat -> cstr (username config) name -> cstr (password config) pw -> fits i0 pw ->
  (2 <= length argv)%nat -> length (uninit 30) = 30%nat -> printing s ->
  (forall rest, typed (keys (console s)) = pw ++ 13 :: rest -> (length pw < 29)%nat ->
     exists s1, typed (keys (console s1)) = rest /\ world s1 = w /\
       pr_main uninit fuel scommand space path_at argv s = pr_run fuel scommand space path_at argv s1) /\
  (length pw = 30%nat ->
     pr_main uninit fuel scommand space path_at argv s = OutOfFuel \/
     exists s1, pr_main uninit fuel scommand space path_at argv s = Ret (Returned 0, s1) /\ world s1 = w).
Proof.
  intros Hst Hlc Hn Hp Hpw Hargv Hu Hpr. assert (Hcf : configured s w config name pw) by (by split).
  assert (Hp13 : 13 ∉ pw).
  { intros Hin. pose proof (ft_plain _ _ Hpw) as Hf. rewrite Forall_forall in Hf. by destruct (Hf 13 Hin) as (_ & ? & _). }
  pose proof (pr_main_spec uninit fuel scommand space path_at argv w config name pw s Hcf Hargv Hu Hpr) as Hm. split.
  - intros rest Hty Hl. rewrite Hty in Hm. pose proof (answer_lines (S (length (keys (console s)))) [] pw rest) as Ha.
    cbn [fmap list_fmap concat app] in Ha. rewrite Ha in Hm; try done; [simpl; lia|apply not_elem_of_nil..].
  - intros Hl. destruct (answer _ _ _) as [[[] r']|] eqn:E; [|by right; destruct Hm as (s1 & _ & Hw & E1); exists s1|by left].
    apply answer_typed in E as [E _]. lia.
Qed.

(** C22: what the set-up program writes is what the password prompt accepts.  The
    counter of its input loop is not initialised; what it happens to hold, [i0], is
    not negative and leaves room for the passwords that are typed ([fits]).
    When the user types a zone, a name of at most 20 characters and, after any
    number of attempts whose two lines differ, a password twice, new_usr writes
    one configuration of 60 bytes, with the magic, the name and the password in
    their fields, and goes on to its command; and for every machine that has
    these bytes where pr reads them, typing the password there opens it when it
    has less than 29 characters, while no keys whatever open it when it has 30,
    which the set-up allows. *)
Theorem new_usr_then_pr fuel scommand space he_pr argv s fd w1 zone name tries pw i0 :
  sys_fopen (lit "0:/sys/config/config.dat") (lit "rwa") (world s) = Ret (fd, w1) -> fd <> 0 ->
  (forall c, length c = 60%nat -> exists r w2, 0 <= r /\ sys_fwrite fd sizeof_config c w1 = Ret (r, w2)) ->
  printing s -> uninit 1 = [i0] -> 0 <= i0 -> length (uninit 10) = 10%nat -> length (uninit 31) = 31%nat ->
  typed (keys (console s)) = setup_keys zone name tries pw ->
  (13 ∉ zone) -> (length zone < 10)%nat -> (13 ∉ name) -> (length name < 52)%nat -> (length (edited name) <= 20)%nat ->
  Forall (fun a => fits i0 a.1 /\ fits i0 a.2 /\ a.1 <> a.2) tries -> fits i0 pw ->
  exists config r w2 s1,
    length config = 60%nat /\ take 4 config = config_magic /\ cstr (username config) (edited name) /\ cstr (password config) pw /\
    sys_fwrite fd sizeof_config config w1 = Ret (r, w2) /\ world s1 = w2 /\
    new_usr_main functions uninit fuel scommand space he_pr argv s = (system fuel scommand space he_pr;; mret (Returned 0)) s1 /\
    forall fuel' sc sp path_at argv' s2 w, stores s2 w config -> (2 <= length argv')%nat -> length (uninit 30) = 30%nat -> printing s2 ->
      (forall rest, typed (keys (console s2)) = pw ++ 13 :: rest -> (length pw < 29)%nat ->
         exists s3, typed (keys (console s3)) = rest /\ world s3 = w /\
           pr_main uninit fuel' sc sp path_at argv' s2 = pr_run fuel' sc sp path_at argv' s3) /\
      (length pw = 30%nat ->
         pr_main uninit fuel' sc sp path_at argv' s2 = OutOfFuel \/
         exists s3, pr_main uninit fuel' sc sp path_at argv' s2 = Ret (Returned 0, s3) /\ world s3 = w).
Proof.
  intros Hopen Hfd Hwrite Hpr Hu1 Hi0 Hu10 Hu31 Ht Hz13 Hzl Hn13 Hnl Hel Htr Hpw.
  destruct (new_usr_spec fuel scommand space he_pr argv s fd w1 zone name tries pw i0)
    as (config & r & w2 & s1 & Hlc & Hmag & Huser & Hpass & Ew & Hw & E); try done.
  exists config, r, w2, s1. split_and!; try done. intros fuel' sc sp path_at argv' s2 w Hst Hargv Hu30 Hpr2.
  by apply (pr_with_config fuel' sc sp path_at argv' config (edited name) pw i0).
Qed.
End setup.

(** ** The witness: an attempt whose two lines differ, then a password *)
Definition setup_prog : prog small :=
  mk_prog (mk_io (chars "-6" ++ 13 :: chars "kim" ++ 13 :: chars "sesame" ++ 13 :: chars "sesami" ++ 13 ::
                  chars "sesame" ++ 13 :: chars "sesame" ++ [13]) [] (replicate 12 0))
    (mk_ust (mk_tok [] 0) []) 0 (replicate 20 0)
    (mk_small {[5 := mk_ofile [] 0 0]} (chars "0:/sys/config/config.dat") ∅ []).

Definition config_file (config : list Z) (pos : Z) : ofile := mk_ofile (zeros 60 ++ config) 120 pos.
Definition with_config (config : list Z) (pos : Z) : small :=
  mk_small {[5 := config_file config pos]} (chars "0:/sys/config/config.dat") ∅ [].
Definition config_prog (config ks : list Z) : prog small :=
  mk_prog (mk_io ks [] (replicate 12 0)) (mk_ust (mk_tok [] 0) []) 0 (replicate 20 0) (with_config config 0).

Lemma small_fread fp n w f :
  sm_files w !! fp = Some f -> 0 <= f_pos f -> f_pos f + n <= Z.of_nat (length (f_data f)) ->
  sys_fread fp n w = Ret (n, piece f (f_pos f) n, sm_set fp (seek_to (f_pos f + n) f) w).
Proof. intros Hf Hp Hl. cbn. by rewrite Hf, (proj2 (Z.leb_le 0 _)), (proj2 (Z.leb_le _ _)) by lia. Qed.

Lemma config_prog_stores config ks : length config = 60%nat -> stores (config_prog config ks) (with_config config 120) config.
Proof.
  intros Hl. assert (Hp : piece (config_file config 60) 60 60 = config).
  { unfold piece. cbn [f_data config_file]. rewrite drop_app_length' by reflexivity. apply take_ge. rewrite Hl. by apply Nat.leb_le. }
  eexists 5, _, 0, (with_config config 60), 60. split; [vm_compute; reflexivity|]. split; [reflexivity|].
  rewrite (small_fread 5 sizeof_config (with_config config 60) (config_file config 60)); [|done|done|].
  - change (f_pos (config_file config 60)) with 60. unfold sizeof_config. by rewrite Hp.
  - cbn [f_data config_file]. rewrite length_app, Hl. unfold sizeof_config. cbn [f_pos]. by apply Z.leb_le.
Qed.

Lemma new_usr_then_pr_witness :
  exists config s1, new_usr_main ∅ zeros 2000 0 0 0 [] setup_prog = (system 2000 0 0 0;; mret (Returned 0)) s1 /\
    cstr (username config) (chars "kim") /\ cstr (password config) (chars "sesame") /\
    exists s3, typed (keys (console s3)) = [32] /\
      pr_main zeros 2000 0 0 0 [lit "pr"; lit "shell.elf"] (config_prog config (chars "sesame" ++ [13; 32])) =
      pr_run 2000 0 0 0 [lit "pr"; lit "shell.elf"] s3.
Proof.
  destruct (new_usr_then_pr ∅ zeros 2000 0 0 0 [] setup_prog 5 (world setup_prog) (chars "-6") (chars "kim")
              [(chars "sesame", chars "sesami")] (chars "sesame") 0)
    as (config & r & w2 & s1 & Hl & _ & Hn & Hp & _ & _ & E & Hpr).
  - vm_compute. reflexivity.
  - lia.
  - intros c Hc. eexists _, _. split; [|reflexivity]. unfold sizeof_config. lia.
  - reflexivity.
  - reflexivity.
  - lia.
  - reflexivity.
  - reflexivity.
  - vm_compute. reflexivity.
  - by apply (bool_decide_unpack _).
  - simpl; lia.
  - by apply (bool_decide_unpack _).
  - simpl; lia.
  - simpl; lia.
  - constructor; [|constructor]. split_and!; [split..|discriminate]; try (simpl; lia); repeat constructor; vm_compute; done.
  - split; [|simpl; lia]. repeat constructor; vm_compute; done.
  - exists config, s1. split; [exact E|]. split; [exact Hn|]. split; [exact Hp|].
    destruct (Hpr 2000%nat 0 0 0 [lit "pr"; lit "shell.elf"] (config_prog config (chars "sesame" ++ [13; 32])) (with_config config 120))
      as [Hopen _].
    + by apply config_prog_stores.
    + simpl; lia.
    + reflexivity.
    + reflexivity.
    + destruct (Hopen [32]) as (s3 & Ht & _ & E3); [reflexivity|simpl; lia|]. exists s3. split; [exact Ht|exact E3].
Defined.
