(* ===== verification/FileRefines.v ===== *)
(** * An open file as its user sees it

    A file that is open with the FAT16 driver is a sequence of bytes, a size and
    a position ([ofile]).  Reading, seeking and telling through the virtual file
    system, the driver, the chain of clusters and the disk is what it should be
    on these three, for the requests that the driver can serve; the system calls
    that do it are in the second part. *)
From S2P Require Import Prelude Config CMem CString Heap HeapSpec Kheap AllocSpans Paging PagingSpec AddressSpace.
From S2P Require Import UserString UserCommand UserStdio UserRuntime UserPrograms UserProgramsSpec.
From S2P Require Import PathParser Keyboard Disk Streamer AtaDevice Vfs VfsSpec Fat16 FatChain Fat16Spec FatDirs FatMount FatDirsSpec FatMountSpec.

#[local] Notation f_pos := UserProgramsSpec.f_pos.

Section vfs.
Context {H : Type} `{AllocatorOk H} {B : Type} `{BlockDevOk B}.
Context (drivers : gmap Z (filesystem_ops (fsst H (fatfs B (Fat16.fatst B))))).
Implicit Types kf : vfs H (fatfs B (Fat16.fatst B)).

(** The parts of the kernel that a descriptor leads to. *)
Record behind := mk_behind {
  b_table : gmap Z file_descriptor;
  b_desc : file_descriptor;
  b_disk : disk;
  b_vol0 : Fat16.fatst B;
  b_vol : Fat16.fatst B;
  b_root : Z;
  b_path : Z;
  b_item : Z;
  b_buf : Z;
  b_entry : list Z;
  b_mode : Z;
  b_chain : list Z;
  b_disks : list disk;
  b_fuel : nat;
  b_now : date_time
}.

(** The descriptor [fd] is the file [f], with what is behind it. *)
Record opened_as kf (fd : Z) (f : ofile) (y : behind) : Prop := {
  oa_driver : drivers !! d_filesystem (b_desc y) = Some (fat16_fs (b_disks y) (d_filesystem (b_desc y)) (b_fuel y) (b_now y));
  oa_table : fd_table kf (b_table y);
  oa_desc : b_table y !! fd = Some (b_desc y);
  oa_fd : fd <> 512;
  oa_disk : load (disks kf) (d_disk (b_desc y)) = Ret (b_disk y);
  oa_mounted : mounted (vst kf) (b_disk y) (b_vol0 y) (b_vol y) (b_root y);
  oa_wf : fat_wf (b_vol y);
  oa_file : ffds (snd (vst kf)) !! private (b_desc y) = Some (mk_ffd (b_path y) (b_item y) (f_pos f) (b_mode y));
  oa_item : fitems (snd (vst kf)) !! b_item y = Some (mk_fitem (b_buf y) FAT_ITEM_TYPE_FILE);
  oa_entry : bufs (snd (vst kf)) !! b_buf y = Some (b_entry y);
  oa_chain : disk_chain (b_vol y) (fat16_get_first_cluster (b_entry y)) (b_chain y);
  oa_plain : Forall plain (b_chain y);
  oa_fits : Forall (data_fits (b_vol y)) (b_chain y);
  oa_data : f_data f = file_data (b_vol y) (b_chain y);
  oa_size : f_size f = item_filesize (b_entry y);
  oa_pos : 0 <= f_pos f < 4294967296
}.

(** The same, for a volume with clusters of [cs] bytes. *)
Definition reads_as kf (fd cs : Z) (f : ofile) : Prop :=
  exists y, opened_as kf fd f y /\ cs = Z.of_nat (cluster_size (b_vol y)).

(** The position alone changes when the descriptor of the driver does. *)
Lemma reads_as_moved kf fd f y fs' p :
  opened_as kf fd f y -> 0 <= p < 4294967296 ->
  fs_dev fs' = fs_dev (snd (vst kf)) -> privs fs' = privs (snd (vst kf)) -> fitems fs' = fitems (snd (vst kf)) ->
  bufs fs' = bufs (snd (vst kf)) ->
  ffds fs' = <[private (b_desc y) := mk_ffd (b_path y) (b_item y) p (b_mode y)]> (ffds (snd (vst kf))) ->
  opened_as (set_vst kf (fst (vst kf), fs')) fd (seek_to p f) y.
Proof.
  intros [] Hp Hd Hpr Hi Hb Hf. split; cbn [vst set_vst snd disks f_pos f_data f_size seek_to]; rewrite ?Hi, ?Hb, ?Hf; try done.
  - apply fd_table_vst; [done|by apply (ft_ok _ _ oa_table0)|done].
  - destruct oa_mounted0 as [Hm Hv]. split; cbn [snd]; by rewrite ?Hpr, ?Hd.
  - by rewrite lookup_insert_eq.
Qed.

(** ** Reading *)
Lemma length_file_data (v : Fat16.fatst B) l : length (file_data v l) = (length l * cluster_size v)%nat.
Proof.
  unfold file_data. induction l as [|x l IH]; [done|]. rewrite fmap_cons. cbn [concat]. rewrite length_app, IH.
  unfold cluster_data. rewrite length_slice. cbn [length]. rewrite Nat.mul_succ_l. apply Nat.add_comm.
Qed.

Lemma vfs_read kf fd cs f n :
  reads_as kf fd cs f -> 0 < n -> f_pos f + n <= Z.of_nat (length (f_data f)) -> f_pos f + n < 2147483648 ->
  f_pos f mod cs = 0 \/ f_pos f mod cs + n <= cs ->
  exists kf', fread drivers fd n kf = Ret ((0, piece f (f_pos f) n), kf') /\ reads_as kf' fd cs (seek_to (f_pos f + n) f) /\
    fst (vst kf') = fst (vst kf).
Proof.
  intros (y & Ho & ->) Hn Hend Hmax Hrd. destruct (Ho) as [Hdr Ht Hm Hfd Hd Hmt Hw Hff Hi He Hch Hpl Hfit Hdat Hsz Hpos].
  assert (Hlen : length (f_data f) = (length (b_chain y) * cluster_size (b_vol y))%nat).
  { rewrite Hdat. apply length_file_data. }
  destruct (fread_fat16_spec drivers (b_disks y) (b_fuel y) (b_now y) kf (b_table y) fd (b_desc y) (b_disk y) (b_vol0 y) (b_vol y)
              (b_root y) (b_path y) (b_item y) (b_buf y) (b_entry y) (f_pos f) (b_mode y) (b_chain y) n)
    as (v' & Hsame & E); try done; try lia.
  eexists. split; [unfold piece; rewrite Hdat; exact E|]. split; [|done].
  exists (mk_behind (b_table y) (b_desc y) (b_disk y) v' v' (b_root y) (b_path y) (b_item y) (b_buf y) (b_entry y) (b_mode y)
            (b_chain y) (b_disks y) (b_fuel y) (b_now y)).
  split; [|cbn [b_vol]; unfold cluster_size; by rewrite (sd_header _ _ Hsame)].
  split; cbn [b_table b_desc b_disk b_vol0 b_vol b_root b_path b_item b_buf b_entry b_mode b_chain b_disks b_fuel b_now
              vst set_vst disks snd f_pos f_data f_size seek_to]; try done.
  - apply fd_table_vst; [done|by apply (ft_ok _ _ Ht)|done].
  - split; [cbn; by rewrite lookup_insert_eq|by destruct v'].
  - apply (sd_wf _ _ Hsame).
  - cbn. by rewrite lookup_insert_eq.
  - by apply (same_disk_chain (b_vol y)).
  - eapply Forall_impl; [exact Hfit|]. intros x [Hx1 Hx2]. unfold data_fits, data_pos, cluster_size in *.
    by rewrite (sd_root _ _ Hsame), (sd_header _ _ Hsame).
  - by rewrite (same_disk_file (b_vol y) v').
  - lia.
Qed.

(** ** Seeking: any request *)
Definition seek_result (f : ofile) (offset whence : Z) : Z * Z :=
  if f_size f <=? offset then (- EIO, f_pos f)
  else if whence =? Config.SEEK_SET then (0, u32 offset)
  else if whence =? Config.SEEK_END then (0, u32 (f_size f - offset))
  else if whence =? SEEK_CUR then (0, u32 (f_pos f + offset))
  else if whence =? SEEK_NEG then (0, u32 (f_pos f - offset))
  else (- EINVARG, f_pos f).

Lemma vfs_seek kf fd cs f offset whence :
  reads_as kf fd cs f ->
  exists kf', fseek drivers fd offset whence kf = Ret (fst (seek_result f (u32 offset) whence), kf') /\
    reads_as kf' fd cs (seek_to (snd (seek_result f (u32 offset) whence)) f) /\ fst (vst kf') = fst (vst kf).
Proof.
  intros (y & Ho & ->). destruct (Ho) as [Hdr Ht Hm Hfd Hd Hmt Hw Hff Hi He Hch Hpl Hfit Hdat Hsz Hpos].
  destruct (get_descriptor_open kf (b_table y) fd (b_desc y) Ht Hm Hfd) as (p & Hg & Hp & Hds & _).
  unfold fseek. step Hg. rewrite (proj2 (Z.eqb_neq p 0)) by done. step (resolve_desc_spec drivers kf p (b_desc y) _ _ Hds Hdr Hd).
  cbn [fs_seek fat16_fs fat_ops]. set (r := seek_result f (u32 offset) whence).
  set (fs' := set_ffds (<[private (b_desc y) := mk_ffd (b_path y) (b_item y) (snd r) (b_mode y)]> (ffds (snd (vst kf)))) (snd (vst kf))).
  assert (E : fat_seek (private (b_desc y)) (u32 offset) whence (vst kf) = Ret (fst r, (fst (vst kf), fs'))).
  { unfold fat_seek. step (look_Some ffds _ _ (vst kf) Hff). cbn [ff_item]. step (look_Some fitems _ _ (vst kf) Hi).
    cbn [i_type]. change (FAT_ITEM_TYPE_FILE =? FAT_ITEM_TYPE_FILE) with true. cbn [negb].
    assert (Hdi : desc_item (mk_ffd (b_path y) (b_item y) (f_pos f) (b_mode y)) (vst kf) =
      Ret ((mk_fitem (b_buf y) FAT_ITEM_TYPE_FILE, b_entry y), vst kf)).
    { unfold desc_item. cbn [ff_item]. step (look_Some fitems _ _ (vst kf) Hi). cbn [i_ptr]. by step (look_Some bufs _ _ (vst kf) He). }
    step Hdi.
    assert (Hsk : exists fdsc, fat16_seek (as_fdesc (mk_fitem (b_buf y) FAT_ITEM_TYPE_FILE) (b_entry y) (mk_ffd (b_path y) (b_item y) (f_pos f) (b_mode y)))
              (u32 offset) whence = (fst r, fdsc) /\ Fat16.f_pos fdsc = snd r).
    { unfold fat16_seek, r, seek_result, as_fdesc. cbn [i_type f_type f_item Fat16.f_pos ff_pos ff_mode].
      change (FAT_ITEM_TYPE_FILE =? FAT_ITEM_TYPE_FILE) with true. cbn [negb]. rewrite Hsz.
      repeat bcase; eexists; split; reflexivity. }
    destruct Hsk as (fdsc & -> & Hfp). cbn [ff_path ff_item ff_mode]. rewrite Hfp. reflexivity. }
  unfold on_st. rewrite E. eexists. split; [reflexivity|]. split; [|done]. exists y. split; [|done].
  apply reads_as_moved; try done. unfold r, seek_result. repeat bcase; cbn [snd]; (exact Hpos || apply u32_range).
Qed.

Lemma vfs_tell kf fd cs f : reads_as kf fd cs f -> 0 < fd -> ftell drivers fd kf = Ret (s32 (f_pos f), kf).
Proof.
  intros (y & Ho & _) Hfd0. destruct (Ho) as [Hdr Ht Hm Hfd Hd Hmt Hw Hff Hi He Hch Hpl Hfit Hdat Hsz Hpos].
  destruct (get_descriptor_open kf (b_table y) fd (b_desc y) Ht Hm Hfd) as (p & Hg & Hp & Hds & _).
  unfold ftell. rewrite (proj2 (Z.leb_gt fd 0)) by done. step Hg. rewrite (proj2 (Z.eqb_neq p 0)) by done.
  step (resolve_desc_spec drivers kf p (b_desc y) _ _ Hds Hdr Hd). cbn [fs_ftell fat16_fs fat_ops].
  assert (E : fat_ftell (private (b_desc y)) (vst kf) = Ret (s32 (f_pos f), vst kf)).
  { unfold fat_ftell. by step (look_Some ffds _ _ (vst kf) Hff). }
  unfold on_st. rewrite E. by destruct kf.
Qed.
End vfs.
