(* ===== verification/Gdt.v ===== *)
(** * Segment descriptors (src/src/gdt/gdt.c, the table of src/src/kernel.c)

    [encodeGdtEntry] scatters the base, limit and type of a segment over the
    eight bytes the processor expects.  The theorem at the end puts a decoder,
    written from the processor's layout, behind the kernel's encoder. *)
From S2P Require Import Prelude Config.

Record gdt_structured := mk_seg { base : Z; limit : Z; type : Z }.

(** [target] is the byte array and [o] the offset of the entry in it; [lim] is
    the limit field of the local copy of the structure after scaling. *)
Definition encode_fields (target : list Z) (o lim : Z) (source : gdt_structured) : outcome (list Z) :=
  target ← store target (o + 0) (Z.land lim 0xFF);
  target ← store target (o + 1) (Z.land (Z.shiftr lim 8) 0xFF);
  flags ← load target (o + 6);
  target ← store target (o + 6) (Z.lor flags (Z.land (Z.shiftr lim 16) 0x0F));
  target ← store target (o + 2) (Z.land (base source) 0xFF);
  target ← store target (o + 3) (Z.land (Z.shiftr (base source) 8) 0xFF);
  target ← store target (o + 4) (Z.land (Z.shiftr (base source) 16) 0xFF);
  target ← store target (o + 7) (Z.land (Z.shiftr (base source) 24) 0xFF);
  store target (o + 5) (type source).

Definition encodeGdtEntry (target : list Z) (o : Z) (source : gdt_structured) : outcome (list Z) :=
  if (65536 <? limit source) && negb (Z.land (limit source) 0xFFF =? 0xFFF) then Panic
  else
    target ← store target (o + 6) 0x40;
    if 65536 <? limit source then
      target ← store target (o + 6) 0xC0;
      encode_fields target o (Z.shiftr (limit source) 12) source
    else encode_fields target o (limit source) source.

Fixpoint gdt_loop (structured : list gdt_structured) (gdt : list Z) (i : Z) : outcome (list Z) :=
  match structured with
  | [] => Ret gdt
  | e :: structured => gdt ← encodeGdtEntry gdt (8 * i) e; gdt_loop structured gdt (i + 1)
  end.

(** The loop runs over the first [total] structures of the array. *)
Definition gdt_structured_to_gdt (gdt : list Z) (structured : list gdt_structured) (total : Z) : outcome (list Z) :=
  if Z.of_nat (length structured) <? total then Oob
  else gdt_loop (take (Z.to_nat total) structured) gdt 0.

(** The kernel's table; [tss] is the address of the task state segment and
    [sizeof_tss] its size. *)
Definition kernel_gdt (tss sizeof_tss : Z) : list gdt_structured :=
  [ mk_seg 0 0 0; mk_seg 0 0xffffffff 0x9a; mk_seg 0 0xffffffff 0x92;
    mk_seg 0 0xffffffff 0xf8; mk_seg 0 0xffffffff 0xf2; mk_seg tss sizeof_tss 0xE9 ].

(** ** The processor's view of a descriptor *)

(** Eight bytes: limit 0-15, base 0-23, access, then flags and limit 16-19,
    base 24-31.  Bit 7 of the flags scales the limit to pages. *)
Definition decode_seg (b : list Z) : option gdt_structured :=
  match b with
  | [l0; l1; b0; b1; b2; acc; fl; b3] =>
      let lim := l0 + 256 * l1 + 65536 * (fl mod 16) in
      Some (mk_seg (b0 + 256 * b1 + 65536 * b2 + 16777216 * b3)
              (if Z.testbit fl 7 then lim * 4096 + 4095 else lim) acc)
  | _ => None
  end.

Definition entry_bytes (gdt : list Z) (i : nat) : list Z := take 8 (drop (8 * i) gdt).

(** A structure in the ranges of its C fields, with a limit that can be encoded. *)
Definition seg_ok (e : gdt_structured) : Prop :=
  0 <= base e < 4294967296 /\ 0 <= limit e < 4294967296 /\ 0 <= type e < 256 /\
  (limit e <= 65536 \/ limit e mod 4096 = 4095).

#[global] Instance seg_ok_dec e : Decision (seg_ok e).
Proof. unfold seg_ok. apply _. Defined.

(** The bytes of an entry, by arithmetic. *)
Definition encoded (e : gdt_structured) : list Z :=
  let big := 65536 <? limit e in
  let lim := if big then limit e / 4096 else limit e in
  [ lim mod 256; lim / 256 mod 256; base e mod 256; base e / 256 mod 256; base e / 65536 mod 256;
    type e; (if big then 0xC0 else 0x40) + lim / 65536 mod 16; base e / 16777216 mod 256 ].

Lemma land_ones_mod x n m : 0 <= n -> m = Z.ones n -> Z.land x m = x mod 2 ^ n.
Proof. intros Hn ->. by apply Z.land_ones. Qed.

Lemma lor_nibble f x : f = 0x40 \/ f = 0xC0 -> 0 <= x < 16 -> Z.lor f x = f + x.
Proof.
  intros Hf Hx.
  assert (x = 0 \/ x = 1 \/ x = 2 \/ x = 3 \/ x = 4 \/ x = 5 \/ x = 6 \/ x = 7 \/ x = 8 \/ x = 9 \/
          x = 10 \/ x = 11 \/ x = 12 \/ x = 13 \/ x = 14 \/ x = 15) as Hc by lia.
  destruct Hf as [-> | ->]; by repeat destruct Hc as [-> | Hc]; subst.
Qed.

(** Accesses relative to the entry between [pre] and the rest. *)
Lemma store_rel (pre l : list Z) (i : nat) o x :
  o = Z.of_nat i -> (i < length l)%nat ->
  store (pre ++ l) (Z.of_nat (length pre) + o) x = Ret (pre ++ <[i := x]> l).
Proof.
  intros -> Hi. rewrite store_Ret by (rewrite length_app; lia).
  by rewrite Z2Nat.inj_add, !Nat2Z.id, insert_app_r by lia.
Qed.

Lemma load_rel (pre l : list Z) (i : nat) o x :
  o = Z.of_nat i -> l !! i = Some x -> load (pre ++ l) (Z.of_nat (length pre) + o) = Ret x.
Proof.
  intros -> Hi. apply load_Some; [lia|].
  rewrite Z2Nat.inj_add, !Nat2Z.id by lia. by rewrite lookup_app_r, Nat.add_comm, Nat.add_sub by lia.
Qed.

Lemma encode_fields_spec pre a0 a1 a2 a3 a4 a5 f a7 post lim e :
  f = 0x40 \/ f = 0xC0 ->
  encode_fields (pre ++ [a0; a1; a2; a3; a4; a5; f; a7] ++ post) (Z.of_nat (length pre)) lim e =
  Ret (pre ++ [ lim mod 256; lim / 256 mod 256; base e mod 256; base e / 256 mod 256;
                base e / 65536 mod 256; type e; f + lim / 65536 mod 16; base e / 16777216 mod 256 ] ++ post).
Proof.
  intros Hf. unfold encode_fields.
  rewrite (store_rel _ _ 0) by (simpl; lia). cbn [mbind outcome_bind].
  rewrite (store_rel _ _ 1) by (simpl; lia). cbn [mbind outcome_bind].
  rewrite (load_rel _ _ 6 _ f) by done. cbn [mbind outcome_bind].
  rewrite (store_rel _ _ 6) by (simpl; lia). cbn [mbind outcome_bind].
  rewrite (store_rel _ _ 2) by (simpl; lia). cbn [mbind outcome_bind].
  rewrite (store_rel _ _ 3) by (simpl; lia). cbn [mbind outcome_bind].
  rewrite (store_rel _ _ 4) by (simpl; lia). cbn [mbind outcome_bind].
  rewrite (store_rel _ _ 7) by (simpl; lia). cbn [mbind outcome_bind].
  rewrite (store_rel _ _ 5) by (simpl; lia). do 2 f_equal. cbn [insert list_insert app].
  rewrite !Z.shiftr_div_pow2 by lia. rewrite !(land_ones_mod _ 8 0xFF), !(land_ones_mod _ 4 0x0F) by done.
  rewrite lor_nibble; [done|done|]. change (2 ^ 4) with 16. zlia.
Qed.

(** One entry written over eight bytes between [pre] and [post]. *)
Lemma encodeGdtEntry_spec pre old post e :
  seg_ok e -> length old = 8%nat ->
  encodeGdtEntry (pre ++ old ++ post) (Z.of_nat (length pre)) e = Ret (pre ++ encoded e ++ post).
Proof.
  intros (Hb & Hl & Ht & Hlim) Ho. do 8 (destruct old as [|? old]; [done|]). destruct old; [|done].
  unfold encodeGdtEntry, encoded. destruct (65536 <? limit e) eqn:E; breflect; cbn [andb].
  - rewrite (land_ones_mod _ 12) by done. change (2 ^ 12) with 4096.
    rewrite (proj2 (Z.eqb_eq (limit e mod 4096) 0xFFF)) by lia. cbn [negb].
    rewrite (store_rel _ _ 6) by (simpl; lia). cbn [mbind outcome_bind].
    rewrite (store_rel _ _ 6) by (simpl; lia). cbn [mbind outcome_bind].
    rewrite Z.shiftr_div_pow2 by lia. apply encode_fields_spec. by right.
  - rewrite (store_rel _ _ 6) by (simpl; lia). cbn [mbind outcome_bind].
    apply encode_fields_spec. by left.
Qed.

Lemma length_encoded e : length (encoded e) = 8%nat.
Proof. done. Qed.

Lemma decode_encoded e : seg_ok e -> decode_seg (encoded e) = Some e.
Proof.
  intros (Hb & Hl & Ht & Hlim). unfold encoded, decode_seg. destruct e as [b l t]; cbn [base limit type] in *.
  f_equal. destruct (65536 <? l) eqn:E; breflect.
  - set (x := l / 4096 / 65536 mod 16). assert (Hx : 0 <= x < 16) by (unfold x; zlia).
    assert (Hbit : Z.testbit (0xC0 + x) 7 = true).
    { rewrite <- lor_nibble by (lia || done || by right). rewrite Z.lor_spec. done. }
    rewrite Hbit. f_equal; [zlia|]. unfold x. zlia.
  - set (x := l / 65536 mod 16). assert (Hx : 0 <= x < 16) by (unfold x; zlia).
    assert (Hbit : Z.testbit (0x40 + x) 7 = false).
    { rewrite <- lor_nibble by (lia || done || by left). rewrite Z.lor_spec.
      rewrite <- (Z.mod_small x (2 ^ 7)) by lia. by rewrite Z.mod_pow2_bits_high by lia. }
    rewrite Hbit. f_equal; [zlia|]. unfold x. zlia.
Qed.

Lemma gdt_loop_spec es pre old post :
  Forall seg_ok es -> length old = (8 * length es)%nat -> (length pre mod 8 = 0)%nat ->
  gdt_loop es (pre ++ old ++ post) (Z.of_nat (length pre / 8)) =
    Ret (pre ++ concat (encoded <$> es) ++ post).
Proof.
  revert pre old. induction es as [|e es IH]; intros pre old Hes Ho Hp.
  { destruct old; [|simpl in Ho; lia]. done. }
  inversion Hes; subst. cbn [gdt_loop fmap list_fmap concat].
  rewrite <- (take_drop 8 old), <- (app_assoc (take 8 old)).
  assert (Hp8 : length pre = (8 * (length pre / 8))%nat)
    by (pose proof (Nat.div_mod_eq (length pre) 8); lia).
  replace (8 * Z.of_nat (length pre / 8)) with (Z.of_nat (length pre)) by lia.
  rewrite encodeGdtEntry_spec by (done || (rewrite length_take; simpl in Ho; lia)).
  cbn [mbind outcome_bind].
  replace (Z.of_nat (length pre / 8) + 1) with (Z.of_nat (length (pre ++ encoded e) / 8)).
  2: { rewrite length_app, length_encoded.
       replace (length pre + 8)%nat with (length pre + 1 * 8)%nat by lia. rewrite Nat.div_add by lia. lia. }
  rewrite app_assoc, IH; [by rewrite <- !app_assoc|done|rewrite length_drop; simpl in Ho; lia|].
  rewrite length_app, length_encoded. replace (length pre + 8)%nat with (length pre + 1 * 8)%nat by lia.
  by rewrite Nat.Div0.mod_add.
Qed.

Lemma entry_bytes_concat es i e post :
  es !! i = Some e -> entry_bytes (concat (encoded <$> es) ++ post) i = encoded e.
Proof.
  revert i. induction es as [|x es IH]; intros i Hi; [done|]. unfold entry_bytes in *.
  cbn [fmap list_fmap concat]. rewrite <- app_assoc. destruct i as [|i].
  - injection Hi as ->. rewrite Nat.mul_0_r, drop_0. by rewrite take_app_length'.
  - replace (8 * S i)%nat with (length (encoded x) + 8 * i)%nat by (rewrite length_encoded; lia).
    rewrite drop_app_add. by apply IH.
Qed.

(** Segment descriptors.  For structures whose limit fits in bytes up to
    64 KiB or is a whole number of pages, [gdt_structured_to_gdt] does not
    panic, keeps the size of the table and leaves at every index eight bytes
    that the processor decodes to exactly that base, limit and type; a limit
    above 64 KiB that does not end a page stops the kernel. *)
Theorem gdt_encode_decode gdt es :
  Forall seg_ok es -> (8 * length es <= length gdt)%nat ->
  (exists gdt', gdt_structured_to_gdt gdt es (Z.of_nat (length es)) = Ret gdt' /\
    length gdt' = length gdt /\ drop (8 * length es) gdt' = drop (8 * length es) gdt /\
    forall i e, es !! i = Some e -> decode_seg (entry_bytes gdt' i) = Some e) /\
  (forall e target o, 65536 < limit e -> limit e mod 4096 <> 4095 -> encodeGdtEntry target o e = Panic).
Proof.
  intros Hes Hl. split.
  - exists (concat (encoded <$> es) ++ drop (8 * length es) gdt).
    assert (Hc : length (concat (encoded <$> es)) = (8 * length es)%nat).
    { clear. induction es as [|e es IH]; [done|]. cbn [fmap list_fmap concat].
      rewrite length_app, IH, length_encoded. simpl. lia. }
    split_and!.
    + unfold gdt_structured_to_gdt. rewrite Z.ltb_irrefl, Nat2Z.id, firstn_all.
      pose proof (gdt_loop_spec es [] (take (8 * length es) gdt) (drop (8 * length es) gdt) Hes) as E.
      cbn [app] in E. rewrite take_drop in E. apply E; [rewrite length_take; lia|done].
    + rewrite length_app, Hc, length_drop. lia.
    + by rewrite drop_app_length'.
    + intros i e Hi. rewrite (entry_bytes_concat _ _ _ _ Hi). apply decode_encoded.
      rewrite Forall_forall in Hes. apply Hes. by eapply list_elem_of_lookup_2.
  - intros e target o Hb Hm. unfold encodeGdtEntry. rewrite (proj2 (Z.ltb_lt _ _)) by done.
    rewrite (land_ones_mod _ 12) by done. change (2 ^ 12) with 4096.
    by rewrite (proj2 (Z.eqb_neq (limit e mod 4096) 0xFFF)) by done.
Qed.

Lemma gdt_encode_decode_witness :
  (exists gdt', gdt_structured_to_gdt (replicate 48 0) (kernel_gdt 0x123456 104) 6 = Ret gdt' /\
    length gdt' = 48%nat /\ drop 48 gdt' = drop 48 (replicate 48 0) /\
    forall i e, kernel_gdt 0x123456 104 !! i = Some e -> decode_seg (entry_bytes gdt' i) = Some e) /\
  (forall e target o, 65536 < limit e -> limit e mod 4096 <> 4095 -> encodeGdtEntry target o e = Panic).
Proof.
  apply (gdt_encode_decode (replicate 48 0) (kernel_gdt 0x123456 104)).
  - apply (bool_decide_unpack _). vm_compute. reflexivity.
  - simpl; lia.
Defined.
