(* ===== verification/Terminal.v ===== *)
(** * The text terminal (src/src/graphics/graphics.c)

    The screen is the array of 16-bit cells at 0xB8000, low byte character,
    high byte attribute; the visible page is 80 by 25 cells.  A cell beyond the
    list is [Oob].  The speaker is not modelled: the state counts the beeps. *)
From S2P Require Import Prelude Config CMem CString.

Record term := mk_term {
  video_mem : list Z;
  terminal_row : Z;
  terminal_col : Z;
  beeps : Z
}.

Definition set_video (v : list Z) (t : term) : term := mk_term v (terminal_row t) (terminal_col t) (beeps t).
Definition set_row (r : Z) (t : term) : term := mk_term (video_mem t) (u16 r) (terminal_col t) (beeps t).
Definition set_col (c : Z) (t : term) : term := mk_term (video_mem t) (terminal_row t) (u16 c) (beeps t).
Definition beep : cmd term unit := modifyS (fun t => mk_term (video_mem t) (terminal_row t) (terminal_col t) (beeps t + 1)).

(** The odd byte of a cell. *)
Definition get_attribute (x y : Z) : cmd term Z :=
  t ← getS;
  cell ← liftO (load (video_mem t) (y * VGA_WIDTH + x));
  mret (Z.shiftr cell 8).

Definition terminal_get_attr : cmd term Z :=
  t ← getS; get_attribute (terminal_col t) (terminal_row t).

(** [char] is signed: both operands are sign-extended before the [|]. *)
Definition terminal_make_char (c colour : Z) : Z := u16 (Z.lor (Z.shiftl (s8 colour) 8) (s8 c)).

Definition terminal_putchar (x y c colour : Z) : cmd term unit :=
  t ← getS;
  v ← liftO (store (video_mem t) (y * VGA_WIDTH + x) (terminal_make_char c colour));
  putS (set_video v t).

(** [memcpy(&video_mem[(i - 1) * 80], &video_mem[i * 80], VGA_WIDTH * 2)]: 80 cells. *)
Definition copy_row (i : Z) : cmd term unit :=
  t ← getS;
  let d := Z.to_nat ((i - 1) * 80) in
  let s := Z.to_nat (i * 80) in
  r ← liftO (memcpy_loop (Z.to_nat VGA_WIDTH) (drop d (video_mem t)) (drop s (video_mem t)));
  putS (set_video (take d (video_mem t) ++ r) t).

Fixpoint scroll_rows (n : nat) (i : Z) : cmd term unit :=
  match n with
  | O => mret tt
  | S n => copy_row i;; scroll_rows n (i + 1)
  end.

(** The colour is read again at every turn. *)
Fixpoint blank_last (n : nat) (i : Z) : cmd term unit :=
  match n with
  | O => mret tt
  | S n =>
      a ← terminal_get_attr;
      terminal_putchar i 24 32 a;;
      blank_last n (i + 1)
  end.

Definition scroll_down : cmd term unit :=
  scroll_rows (Z.to_nat (VGA_HEIGHT - 1)) 1;;
  blank_last (Z.to_nat VGA_WIDTH) 0.

(** The end of [terminal_writechar]: a character is drawn at the cursor. *)
Definition draw_char (c colour : Z) : cmd term unit :=
  t ← getS;
  (if (terminal_col t =? 79) && (terminal_row t =? 24) then scroll_down else mret tt);;
  terminal_putchar (terminal_col t) (terminal_row t) c colour;;
  modifyS (fun t => set_col (terminal_col t + 1) t);;
  t ← getS;
  if VGA_WIDTH <=? terminal_col t then
    modifyS (fun t => set_row (terminal_row t + 1) (set_col 0 t))
  else mret tt.

(** [terminal_writechar] and [terminal_backspace] call each other; the second
    only writes blanks, so the inner call never comes back to it. *)
Definition writechar_with (backspace : cmd term unit) (c colour : Z) : cmd term unit :=
  t ← getS;
  if ((c =? 10) || (c =? 13)) && (terminal_row t <? VGA_HEIGHT) then
    (if terminal_row t =? 24 then scroll_down else modifyS (fun t => set_row (terminal_row t + 1) t));;
    modifyS (set_col 0)
  else if (c =? 12) && (terminal_row t <? VGA_HEIGHT) then
    (if terminal_row t =? 24 then scroll_down else modifyS (fun t => set_row (terminal_row t + 1) t))
  else if c =? 7 then beep
  else if c =? 8 then backspace
  else
    (if c =? 9 then modifyS (fun t => set_col (if terminal_col t =? 75 then 79 else terminal_col t + 4) t)
     else mret tt);;
    draw_char c colour.

Definition terminal_backspace : cmd term unit :=
  t ← getS;
  if (terminal_row t =? 0) && (terminal_col t =? 0) then mret tt
  else if terminal_col t <=? 0 then
    modifyS (fun t => set_col (VGA_WIDTH - 1) (set_row (terminal_row t - 1) t));;
    writechar_with (liftO OutOfFuel) 32 15;;
    modifyS (fun t => set_col (VGA_WIDTH - 1) (set_row (terminal_row t - 1) t))
  else
    modifyS (fun t => set_col (terminal_col t - 1) t);;
    writechar_with (liftO OutOfFuel) 32 15;;
    modifyS (fun t => set_col (terminal_col t - 1) t).

Definition terminal_writechar (c colour : Z) : cmd term unit := writechar_with terminal_backspace c colour.

Definition set_cursor (x y : Z) : cmd term unit :=
  let x := if VGA_WIDTH <=? x then VGA_WIDTH - 1 else x in
  let y := if VGA_HEIGHT <=? y then VGA_HEIGHT - 1 else y in
  modifyS (fun t => set_row y (set_col x t)).

Definition get_cursor : cmd term (Z * Z) := gets (fun t => (terminal_col t, terminal_row t)).

(** The odd byte of the cell is replaced. *)
Definition graphics_put (c x y : Z) : cmd term unit :=
  t ← getS;
  cell ← liftO (load (video_mem t) (y * VGA_WIDTH + x));
  v ← liftO (store (video_mem t) (y * VGA_WIDTH + x) (cell mod 256 + 256 * u8 c));
  putS (set_video v t).

Fixpoint draw_line_loop (n : nat) (c i y : Z) : cmd term unit :=
  match n with
  | O => mret tt
  | S n => graphics_put c i y;; draw_line_loop n c (i + 1) y
  end.
Definition graphics_draw_line (c y : Z) : cmd term unit := draw_line_loop (Z.to_nat VGA_WIDTH) c 0 y.

Fixpoint draw_collumn_loop (n : nat) (c x i : Z) : cmd term unit :=
  match n with
  | O => mret tt
  | S n => graphics_put c x i;; draw_collumn_loop n c x (i + 1)
  end.
Definition graphics_draw_collumn (c x : Z) : cmd term unit := draw_collumn_loop (Z.to_nat VGA_HEIGHT) c x 0.

Fixpoint clrscr_cells (n : nat) (x y : Z) : cmd term unit :=
  match n with
  | O => mret tt
  | S n =>
      a ← terminal_get_attr;
      terminal_putchar x y 32 a;;
      clrscr_cells n (x + 1) y
  end.
Fixpoint clrscr_rows (n : nat) (c y : Z) : cmd term unit :=
  match n with
  | O => mret tt
  | S n =>
      graphics_draw_line c y;;
      clrscr_cells (Z.to_nat VGA_WIDTH) 0 y;;
      clrscr_rows n c (y + 1)
  end.
Definition clrscr (c : Z) : cmd term unit :=
  clrscr_rows (Z.to_nat VGA_HEIGHT) c 0;;
  set_cursor 0 0.

Definition terminal_initialize : cmd term unit :=
  modifyS (fun t => set_col 0 (set_row 0 t));;
  clrscr 15.

Fixpoint print_loop (n : nat) (str : list Z) (i : Z) : cmd term unit :=
  match n with
  | O => mret tt
  | S n =>
      c ← liftO (load str i);
      a ← terminal_get_attr;
      terminal_writechar c a;;
      print_loop n str (i + 1)
  end.

Definition print (str : list Z) : cmd term unit :=
  len ← liftO (strlen str);
  print_loop (Z.to_nat len) str 0.

(** Booting leaves a white blank page, whatever was on the screen. *)
Example initialize_blank :
  terminal_initialize (mk_term (replicate 2000 0x1F41) 3 7 0) = Ret (tt, mk_term (replicate 2000 0x0F20) 0 0 0).
Proof. vm_compute. reflexivity. Qed.

(** ** Scrolling *)
#[local] Arguments Nat.mul : simpl never.
#[local] Arguments Nat.div : simpl never.
#[local] Arguments Nat.modulo : simpl never.

Definition cell (a c : Z) : Z := a * 256 + c.

Lemma make_char c a : 0 <= c < 128 -> 0 <= a < 256 -> terminal_make_char c a = cell a c.
Proof.
  intros Hc Ha. unfold terminal_make_char, cell, u16, s8.
  rewrite Z.shiftl_mul_pow2 by lia. change (2 ^ 8) with 256.
  replace ((c + 128) mod 256 - 128) with c by zlia.
  rewrite (lor_low 8) by lia. change (2 ^ 8) with 256.
  destruct (decide (a < 128)).
  - replace ((a + 128) mod 256 - 128) with a by zlia. zlia.
  - replace ((a + 128) mod 256 - 128) with (a - 256) by zlia. zlia.
Qed.

Lemma attribute_cell a c : 0 <= c < 256 -> Z.shiftr (cell a c) 8 = a.
Proof. intros Hc. unfold cell. rewrite Z.shiftr_div_pow2 by lia. change (2 ^ 8) with 256. zlia. Qed.

Definition video_ok (v : list Z) : Prop := length v = 2000%nat /\ Forall (fun x => 0 <= x < 65536) v.

Lemma copy_row_spec v k r c b :
  length v = 2000%nat -> (1 <= k <= 24)%nat ->
  copy_row (Z.of_nat k) (mk_term (take (80 * (k - 1)) (drop 80 v) ++ drop (80 * (k - 1)) v) r c b) =
    Ret (tt, mk_term (take (80 * k) (drop 80 v) ++ drop (80 * k) v) r c b).
Proof.
  intros Hl Hk. unfold copy_row. rewrite bind_getS. cbn [video_mem].
  replace (Z.to_nat ((Z.of_nat k - 1) * 80)) with (80 * (k - 1))%nat by lia.
  replace (Z.to_nat (Z.of_nat k * 80)) with (80 * (k - 1) + 80)%nat by lia.
  set (A := take (80 * (k - 1)) (drop 80 v)).
  assert (HA : length A = (80 * (k - 1))%nat) by (subst A; rewrite length_take, length_drop; lia).
  rewrite <- (drop_drop _ 80 (80 * (k - 1))), !(drop_app_length' A), (take_app_length' A) by done.
  rewrite drop_drop. change (Z.to_nat VGA_WIDTH) with 80%nat.
  rewrite memcpy_loop_spec by (rewrite length_drop; lia). rewrite (bind_liftO _ _ _ _ eq_refl). unfold putS, set_video.
  cbn [terminal_row terminal_col beeps]. do 3 f_equal. rewrite drop_drop, (app_assoc A).
  replace (80 * (k - 1) + 80)%nat with (80 * k)%nat by lia. f_equal.
  replace (80 * k)%nat with (80 * (k - 1) + 80)%nat at 2 by lia. rewrite <- take_take_drop. subst A. f_equal.
  rewrite drop_drop. do 2 f_equal. lia.
Qed.

Lemma scroll_rows_spec n v k r c b :
  length v = 2000%nat -> (1 <= k)%nat -> (k + n = 25)%nat ->
  scroll_rows n (Z.of_nat k) (mk_term (take (80 * (k - 1)) (drop 80 v) ++ drop (80 * (k - 1)) v) r c b) =
    Ret (tt, mk_term (drop 80 v ++ drop 1920 v) r c b).
Proof.
  revert k. induction n as [|n IH]; intros k Hl Hk Hn.
  - replace k with 25%nat by lia. cbn [scroll_rows mret cmd_ret]. unfold mret, cmd_ret.
    rewrite take_ge by (rewrite length_drop; lia). done.
  - cbn [scroll_rows]. rewrite (bind_Ret _ _ _ tt _ (copy_row_spec v k r c b Hl ltac:(lia))).
    specialize (IH (S k) Hl ltac:(lia) ltac:(lia)). rewrite Nat.sub_succ, Nat.sub_0_r in IH.
    replace (Z.of_nat k + 1) with (Z.of_nat (S k)) by lia. done.
Qed.

Lemma putchar_spec t x y c a p :
  p = Z.to_nat (y * 80 + x) -> 0 <= y * 80 + x < Z.of_nat (length (video_mem t)) ->
  terminal_putchar x y c a t = Ret (tt, set_video (<[p := terminal_make_char c a]> (video_mem t)) t).
Proof.
  intros -> Hp. unfold terminal_putchar. rewrite bind_getS.
  unfold VGA_WIDTH. rewrite store_Ret by done. done.
Qed.

Lemma get_attr_spec t x p :
  terminal_row t * 80 + terminal_col t = Z.of_nat p -> video_mem t !! p = Some x ->
  terminal_get_attr t = Ret (Z.shiftr x 8, t).
Proof.
  intros Hp Hx. unfold terminal_get_attr, get_attribute. rewrite !bind_getS. unfold VGA_WIDTH.
  rewrite Hp, (load_Some _ _ x) by (try lia; by rewrite Nat2Z.id). done.
Qed.

(** The last row while it is being blanked: every cell read back has the
    attribute [a]. *)
Lemma blank_last_spec n P L i c b a x :
  length P = 1920%nat -> length L = 80%nat -> (i + n = 80)%nat -> 0 <= a < 256 ->
  L !! Z.to_nat c = Some x -> x / 256 = a -> 0 <= c < 80 ->
  blank_last n (Z.of_nat i) (mk_term (P ++ replicate i (cell a 32) ++ drop i L) 24 c b) =
    Ret (tt, mk_term (P ++ replicate 80 (cell a 32)) 24 c b).
Proof.
  intros HP HL Hn Ha Hx Hxa Hc. revert i Hn. induction n as [|n IH]; intros i Hn.
  { replace i with 80%nat by lia. rewrite drop_ge, app_nil_r by lia. done. }
  cbn [blank_last]. set (t := mk_term _ _ _ _).
  assert (Hat : exists y, video_mem t !! (1920 + Z.to_nat c)%nat = Some y /\ Z.shiftr y 8 = a).
  { cbn [video_mem t]. rewrite lookup_app_r by lia. replace (1920 + Z.to_nat c - length P)%nat with (Z.to_nat c) by lia.
    destruct (decide (Z.to_nat c < i)%nat).
    - exists (cell a 32). rewrite lookup_app_l by (rewrite length_replicate; lia).
      split; [by apply lookup_replicate_2|by apply attribute_cell].
    - exists x. rewrite lookup_app_r, length_replicate, lookup_drop by (rewrite length_replicate; lia).
      split; [rewrite <- Hx; f_equal; lia|]. rewrite Z.shiftr_div_pow2 by lia. done. }
  destruct Hat as (y & Hy & Hya).
  step (get_attr_spec t y (1920 + Z.to_nat c) ltac:(simpl; lia) Hy). rewrite Hya.
  step (putchar_spec t (Z.of_nat i) 24 32 a (1920 + i) ltac:(lia)
          ltac:(cbn [video_mem t]; rewrite !length_app, length_replicate, length_drop; lia)).
  rewrite make_char by lia. unfold set_video. cbn [video_mem terminal_row terminal_col beeps t].
  rewrite <- HP, insert_app_r.
  destruct (drop i L) as [|z rest] eqn:Ed; [apply (f_equal length) in Ed; rewrite length_drop in Ed; simpl in Ed; lia|].
  rewrite insert_app_r_alt, length_replicate, Nat.sub_diag by (rewrite length_replicate; lia).
  cbn [insert list_insert]. specialize (IH (S i) ltac:(lia)).
  replace (drop (S i) L) with rest in IH.
  2: { replace (S i) with (i + 1)%nat by lia. rewrite <- drop_drop, Ed. done. }
  rewrite replicate_S_end, <- app_assoc in IH. cbn [app] in IH.
  replace (Z.of_nat i + 1) with (Z.of_nat (S i)) by lia. exact IH.
Qed.

(** One line up, a blank line in the colour of the cursor's cell at the bottom. *)
Definition scrolled (v : list Z) (p : nat) : list Z :=
  drop 80 v ++ replicate 80 (cell (v !!! p / 256) 32).

Lemma scroll_down_spec v c b :
  video_ok v -> 0 <= c < 80 ->
  scroll_down (mk_term v 24 c b) = Ret (tt, mk_term (scrolled v (1920 + Z.to_nat c)) 24 c b).
Proof.
  intros [Hl Hv] Hc. unfold scroll_down. change (Z.to_nat (VGA_HEIGHT - 1)) with 24%nat.
  change (Z.to_nat VGA_WIDTH) with 80%nat.
  pose proof (scroll_rows_spec 24 v 1 24 c b Hl ltac:(lia) ltac:(lia)) as E.
  change (80 * (1 - 1))%nat with 0%nat in E. rewrite take_0, drop_0 in E. cbn [app] in E.
  change (Z.of_nat 1) with 1 in E. step E.
  destruct (lookup_lt_is_Some_2 v (1920 + Z.to_nat c)) as [x Hx]; [lia|].
  assert (Hr : 0 <= x < 65536) by (rewrite Forall_forall in Hv; apply Hv; by eapply list_elem_of_lookup_2).
  pose proof (blank_last_spec 80 (drop 80 v) (drop 1920 v) 0 c b (x / 256) x) as E2.
  rewrite drop_0 in E2. cbn [replicate app] in E2. change (Z.of_nat 0) with 0 in E2.
  rewrite E2; rewrite ?length_drop; try lia.
  - unfold scrolled. by rewrite (list_lookup_total_correct _ _ _ Hx).
  - zlia.
  - by rewrite lookup_drop.
Qed.

(** ** Text on an abstract screen

    The screen is its cells and one linear position; a line break goes to the
    start of the next line, scrolling on the last one, and any other character
    replaces the character of the cell and keeps its colour. *)
Definition is_break (c : Z) : bool := (c =? 10) || (c =? 13).
Definition text_char (c : Z) : Prop := c = 10 \/ c = 13 \/ 32 <= c < 128.

Definition screen_step (s : list Z * nat) (c : Z) : list Z * nat :=
  let '(v, p) := s in
  if is_break c then
    if (p / 80 =? 24)%nat then (scrolled v p, 1920%nat) else (v, (80 * (p / 80 + 1))%nat)
  else (<[p := cell (v !!! p / 256) c]> v, S p).

(** No character is put in the last cell of the page. *)
Fixpoint fits (s : list Z * nat) (str : list Z) : bool :=
  match str with
  | [] => true
  | c :: str => (is_break c || (snd s <? 1999)%nat) && fits (screen_step s c) str
  end.

Definition term_of (s : list Z * nat) (b : Z) : term :=
  mk_term (fst s) (Z.of_nat (snd s / 80)) (Z.of_nat (snd s mod 80)) b.

Lemma video_ok_cell v p : video_ok v -> (p < 2000)%nat -> exists x, v !! p = Some x /\ 0 <= x < 65536.
Proof.
  intros [Hl Hv] Hp. destruct (lookup_lt_is_Some_2 v p) as [x Hx]; [lia|]. exists x. split; [done|].
  rewrite Forall_forall in Hv. apply Hv. by eapply list_elem_of_lookup_2.
Qed.

Lemma scrolled_ok v p : video_ok v -> (p < 2000)%nat -> video_ok (scrolled v p).
Proof.
  intros Hv Hp. destruct (video_ok_cell v p Hv Hp) as (x & Hx & Hr). destruct Hv as [Hl Hv].
  unfold scrolled. rewrite (list_lookup_total_correct _ _ _ Hx). split.
  - rewrite length_app, length_drop, length_replicate. lia.
  - apply Forall_app. split; [by apply Forall_drop|]. apply Forall_replicate. unfold cell. zlia.
Qed.

Lemma screen_step_ok s c :
  video_ok (fst s) -> (snd s < 2000)%nat -> text_char c -> is_break c || (snd s <? 1999)%nat = true ->
  video_ok (fst (screen_step s c)) /\ (snd (screen_step s c) < 2000)%nat.
Proof.
  destruct s as [v p]. cbn [fst snd]. intros Hv Hp Hc Hfit. unfold screen_step.
  destruct (is_break c) eqn:Eb.
  - destruct (p / 80 =? 24)%nat eqn:E; cbn [fst snd].
    + split; [by apply scrolled_ok|lia].
    + apply Nat.eqb_neq in E. pose proof (Nat.div_mod_eq p 80). pose proof (Nat.mod_upper_bound p 80). split; [done|lia].
  - cbn [orb] in Hfit. apply Nat.ltb_lt in Hfit. cbn [fst snd].
    destruct (video_ok_cell v p Hv Hp) as (x & Hx & Hr). rewrite (list_lookup_total_correct _ _ _ Hx).
    unfold is_break in Eb. unfold text_char in Hc. breflect.
    destruct Hv as [Hl Hv]. split; [|lia]. split; [by rewrite length_insert|].
    apply Forall_insert; [done|]. unfold cell. zlia.
Qed.

(** One character drawn away from the last cell. *)
Lemma draw_char_spec v p b c a :
  length v = 2000%nat -> (p < 1999)%nat ->
  draw_char c a (term_of (v, p) b) = Ret (tt, term_of (<[p := terminal_make_char c a]> v, S p) b).
Proof.
  intros Hl Hp. unfold draw_char, term_of. cbn [fst snd]. rewrite bind_getS. cbn [terminal_col terminal_row].
  pose proof (Nat.div_mod_eq p 80) as Hdm. pose proof (Nat.mod_upper_bound p 80 ltac:(lia)) as Hm.
  replace ((Z.of_nat (p mod 80) =? 79) && (Z.of_nat (p / 80) =? 24)) with false.
  2: { symmetry. apply andb_false_iff. rewrite !Z.eqb_neq. lia. }
  rewrite bind_mret.
  step (putchar_spec (mk_term v (Z.of_nat (p / 80)) (Z.of_nat (p mod 80)) b) (Z.of_nat (p mod 80)) (Z.of_nat (p / 80))
          c a p ltac:(lia) ltac:(cbn [video_mem]; lia)).
  rewrite bind_modifyS, bind_getS. unfold set_video, set_col, set_row. cbn [video_mem terminal_row terminal_col beeps].
  rewrite u16_id by lia. unfold VGA_WIDTH.
  destruct (80 <=? Z.of_nat (p mod 80) + 1) eqn:E; breflect.
  - unfold modifyS. cbn [video_mem terminal_row terminal_col beeps]. rewrite u16_id by lia.
    assert (Hq : S p = ((p / 80 + 1) * 80)%nat) by lia.
    do 3 f_equal; rewrite Hq; [rewrite Nat.div_mul by lia; lia|by rewrite Nat.Div0.mod_mul].
  - assert (Hd : (S p / 80 = p / 80 /\ S p mod 80 = p mod 80 + 1)%nat).
    { assert (Hq : S p = (p mod 80 + 1 + p / 80 * 80)%nat) by lia.
      rewrite Hq, Nat.div_add, Nat.Div0.mod_add, Nat.div_small, Nat.mod_small by lia. lia. }
    destruct Hd as [-> ->]. unfold mret, cmd_ret. do 3 f_equal. lia.
Qed.

Lemma writechar_step s b c :
  video_ok (fst s) -> (snd s < 2000)%nat -> text_char c -> is_break c || (snd s <? 1999)%nat = true ->
  terminal_writechar c (fst s !!! snd s / 256) (term_of s b) = Ret (tt, term_of (screen_step s c) b).
Proof.
  destruct s as [v p]. cbn [fst snd]. intros Hv Hp Hc Hfit.
  destruct (video_ok_cell v p Hv Hp) as (x & Hx & Hr).
  pose proof (Nat.div_mod_eq p 80) as Hdm. pose proof (Nat.mod_upper_bound p 80 ltac:(lia)) as Hm.
  unfold terminal_writechar, writechar_with. rewrite bind_getS. fold (is_break c).
  unfold screen_step. destruct (is_break c) eqn:Eb.
  - unfold term_of at 1. cbn [terminal_row fst snd]. unfold VGA_HEIGHT.
    rewrite (proj2 (Z.ltb_lt _ _)) by lia. cbn [andb].
    destruct (p / 80 =? 24)%nat eqn:E.
    + apply Nat.eqb_eq in E. unfold term_of at 1. cbn [terminal_row fst snd]. rewrite E. cbn [Z.of_nat Z.eqb Pos.eqb].
      unfold term_of at 1. cbn [fst snd]. rewrite E. change (Z.of_nat 24) with 24.
      step (scroll_down_spec v (Z.of_nat (p mod 80)) b Hv ltac:(lia)).
      unfold modifyS, set_col, term_of. cbn [video_mem terminal_row terminal_col beeps fst snd].
      do 3 f_equal. f_equal. lia.
    + apply Nat.eqb_neq in E. unfold term_of at 1. cbn [terminal_row fst snd].
      rewrite (proj2 (Z.eqb_neq _ _)) by lia. rewrite bind_modifyS.
      unfold modifyS, set_col, set_row, term_of. cbn [video_mem terminal_row terminal_col beeps fst snd].
      rewrite u16_id by lia. rewrite (Nat.mul_comm 80), Nat.div_mul, Nat.Div0.mod_mul by lia.
      do 3 f_equal. lia.
  - cbn [andb]. cbn [orb] in Hfit. apply Nat.ltb_lt in Hfit.
    unfold is_break in Eb. unfold text_char in Hc. breflect.
    rewrite (proj2 (Z.eqb_neq c 12)), (proj2 (Z.eqb_neq c 7)), (proj2 (Z.eqb_neq c 8)),
      (proj2 (Z.eqb_neq c 9)) by lia. cbn [andb]. rewrite bind_mret.
    rewrite draw_char_spec by (done || apply Hv). do 4 f_equal.
    rewrite (list_lookup_total_correct _ _ _ Hx). f_equal. apply make_char; [lia|zlia].
Qed.

Lemma print_loop_spec s pre str rest b :
  video_ok (fst s) -> (snd s < 2000)%nat -> Forall text_char str -> fits s str = true ->
  print_loop (length str) (pre ++ str ++ rest) (Z.of_nat (length pre)) (term_of s b) =
    Ret (tt, term_of (foldl screen_step s str) b).
Proof.
  revert s pre. induction str as [|c str IH]; intros s pre Hv Hp Hs Hfit; [done|].
  inversion Hs; subst. cbn [fits] in Hfit. apply andb_true_iff in Hfit as [Hf1 Hf2].
  cbn [length print_loop foldl].
  rewrite (bind_liftO _ _ _ c).
  2: { apply load_Some; [lia|]. rewrite Nat2Z.id. by apply list_lookup_middle. }
  destruct s as [v p]. cbn [fst snd] in *. destruct (video_ok_cell v p Hv Hp) as (x & Hx & Hr).
  pose proof (Nat.div_mod_eq p 80) as Hdm.
  step (get_attr_spec (term_of (v, p) b) x p ltac:(unfold term_of; cbn [terminal_row terminal_col fst snd]; lia) Hx).
  rewrite Z.shiftr_div_pow2 by lia. change (2 ^ 8) with 256.
  rewrite <- (list_lookup_total_correct _ _ _ Hx).
  step (writechar_step (v, p) b c Hv Hp ltac:(done) Hf1).
  destruct (screen_step_ok (v, p) c Hv Hp ltac:(done) Hf1) as [Hv' Hp'].
  specialize (IH (screen_step (v, p) c) (pre ++ [c]) Hv' Hp' ltac:(done) Hf2).
  rewrite length_app, <- app_assoc in IH. cbn [length app] in IH.
  replace (Z.of_nat (length pre) + 1) with (Z.of_nat (length pre + 1)) by lia. exact IH.
Qed.

(** C39: printing.  On an 80 by 25 page [print] of a string of printable
    characters and line breaks does what the abstract screen does with the
    same characters: each one replaces the character at the position and
    keeps that cell's colour, a break moves to the next line, and a break on
    the last line shifts the page up by one line.  The string must not reach
    the last cell of the page. *)
Theorem print_refines v p str rest b :
  video_ok v -> (p < 2000)%nat -> Forall text_char str -> Z.of_nat (length str) < 2147483648 ->
  fits (v, p) str = true ->
  print (str ++ 0 :: rest) (term_of (v, p) b) = Ret (tt, term_of (foldl screen_step (v, p) str) b).
Proof.
  intros Hv Hp Hs Hlen Hfit. unfold print.
  rewrite (bind_liftO _ _ _ (Z.of_nat (length str))).
  - rewrite Nat2Z.id. by apply (print_loop_spec (v, p) [] str (0 :: rest) b).
  - apply strlen_spec; [|done]. split; [|by exists rest]. intros Hin.
    rewrite Forall_forall in Hs. specialize (Hs _ Hin). unfold text_char in Hs. lia.
Qed.

Lemma print_refines_witness :
  print ([72; 105; 10; 33] ++ 0 :: []) (term_of (replicate 2000 0x0F20, 1930%nat) 0) =
  Ret (tt, term_of (foldl screen_step (replicate 2000 0x0F20, 1930%nat) [72; 105; 10; 33]) 0).
Proof.
  apply (print_refines (replicate 2000 0x0F20) 1930 [72; 105; 10; 33] [] 0).
  - split; [reflexivity|]. apply Forall_replicate. lia.
  - lia.
  - repeat constructor; unfold text_char; lia.
  - simpl; lia.
  - vm_compute; reflexivity.
Defined.

(** The last cell.  A character printed in the bottom right corner scrolls
    the page but leaves the cursor on row 25, below the page; from there every
    printable character and every line break is drawn outside the page, since
    the tests for line breaks require a row below 25. *)
Theorem bottom_right_leaves_page v b c1 a1 c2 a2 :
  video_ok v -> 32 <= c1 < 128 -> text_char c2 ->
  exists t, terminal_writechar c1 a1 (term_of (v, 1999%nat) b) = Ret (tt, t) /\
    terminal_row t = 25 /\ terminal_col t = 0 /\ length (video_mem t) = 2000%nat /\
    terminal_writechar c2 a2 t = Oob.
Proof.
  intros Hv Hc1 Hc2. exists (mk_term (<[1999%nat := terminal_make_char c1 a1]> (scrolled v 1999)) 25 0 b).
  cbn [terminal_row terminal_col video_mem].
  assert (Hl : length (scrolled v 1999) = 2000%nat) by apply (scrolled_ok v 1999 Hv ltac:(lia)).
  split_and!; [| done | done | by rewrite length_insert |].
  - unfold terminal_writechar, writechar_with. rewrite bind_getS.
    rewrite (proj2 (Z.eqb_neq c1 10)), (proj2 (Z.eqb_neq c1 13)), (proj2 (Z.eqb_neq c1 12)), (proj2 (Z.eqb_neq c1 7)),
      (proj2 (Z.eqb_neq c1 8)), (proj2 (Z.eqb_neq c1 9)) by lia. cbn [andb orb]. rewrite bind_mret.
    unfold draw_char. rewrite bind_getS. change (term_of (v, 1999%nat) b) with (mk_term v 24 79 b).
    cbn [terminal_col terminal_row Z.eqb Pos.eqb andb].
    step (scroll_down_spec v 79 b Hv ltac:(lia)). change (1920 + Z.to_nat 79)%nat with 1999%nat.
    step (putchar_spec (mk_term (scrolled v 1999) 24 79 b) 79 24 c1 a1 1999 eq_refl
            ltac:(cbn [video_mem]; lia)).
    done.
  - unfold terminal_writechar, writechar_with. rewrite bind_getS. cbn [terminal_row].
    unfold VGA_HEIGHT. change (25 <? 25) with false. rewrite !andb_false_r.
    unfold text_char in Hc2.
    rewrite (proj2 (Z.eqb_neq c2 7)), (proj2 (Z.eqb_neq c2 8)), (proj2 (Z.eqb_neq c2 9)) by lia.
    rewrite bind_mret. unfold draw_char. rewrite bind_getS. cbn [terminal_col terminal_row Z.eqb Pos.eqb andb].
    rewrite bind_mret. unfold terminal_putchar.
    unfold mbind at 1, cmd_bind at 1. rewrite bind_getS. cbn [video_mem].
    change (25 * VGA_WIDTH + 0) with 2000. by rewrite store_oob by (rewrite length_insert; lia).
Qed.

Lemma bottom_right_leaves_page_witness :
  exists t, terminal_writechar 65 15 (term_of (replicate 2000 0x0F20, 1999%nat) 0) = Ret (tt, t) /\
    terminal_row t = 25 /\ terminal_col t = 0 /\ length (video_mem t) = 2000%nat /\
    terminal_writechar 10 15 t = Oob.
Proof.
  apply (bottom_right_leaves_page (replicate 2000 0x0F20) 0 65 15 10 15).
  - split; [reflexivity|]. apply Forall_replicate. lia.
  - lia.
  - unfold text_char; lia.
Defined.
