(* ===== verification/Vbe.v ===== *)
(** * The experimental graphics mode (src/src/graphics/graphics.c)

    Pixels of 16 bits in a linear frame buffer, which the machine describes in
    a block that it leaves at a fixed address.  [pixels] is the memory at
    [screen_ptr]. *)
From S2P Require Import Prelude.

Record VBE_info_block := mk_vbe { x_resolution : Z; y_resolution : Z; pixels : list Z }.
Definition set_pixels (l : list Z) (s : VBE_info_block) : VBE_info_block :=
  mk_vbe (x_resolution s) (y_resolution s) l.

Definition rgb (r g b : Z) : Z :=
  let r := r / 3 in
  let g := g / 2 in
  let b := b / 3 in
  u16 (Z.lor (Z.lor (Z.shiftl r 11) (Z.shiftl g 5)) b).

Definition draw_pixel (x y colour : Z) : cmd VBE_info_block unit :=
  s ← getS;
  let offset := u32 (y * x_resolution s + x) in
  l ← liftO (store (pixels s) offset colour);
  modifyS (set_pixels l).

Fixpoint clear_row (n : nat) (x y colour : Z) : cmd VBE_info_block unit :=
  match n with
  | O => mret tt
  | S n => draw_pixel x y colour;; clear_row n (x + 1) y colour
  end.
Fixpoint clear_rows (n : nat) (y colour : Z) : cmd VBE_info_block unit :=
  match n with
  | O => mret tt
  | S n =>
      s ← getS;
      clear_row (Z.to_nat (x_resolution s)) 0 y colour;;
      clear_rows n (y + 1) colour
  end.
Definition clear_screen (colour : Z) : cmd VBE_info_block unit :=
  s ← getS; clear_rows (Z.to_nat (y_resolution s)) 0 colour.

(** The screen is [w] by [h] pixels. *)
Definition of_size (w h : nat) (s : VBE_info_block) : Prop :=
  x_resolution s = Z.of_nat w /\ y_resolution s = Z.of_nat h /\ (w * h <= length (pixels s))%nat /\ Z.of_nat (w * h) <= 4294967296.

Lemma vbe_row_cleared w h n x y c s :
  of_size w h s -> (y < h)%nat -> (x + n <= w)%nat ->
  clear_row n (Z.of_nat x) (Z.of_nat y) c s =
    Ret (tt, set_pixels (take (y * w + x) (pixels s) ++ replicate n c ++ drop (y * w + x + n) (pixels s)) s).
Proof.
  revert x s. induction n as [|n IH]; intros x s Hs Hy Hx; cbn [clear_row].
  { cbn [replicate app]. rewrite Nat.add_0_r, take_drop. by destruct s. }
  destruct Hs as (Hw & Hh & Hl & Hm). assert (Hb : (y * w + x < w * h)%nat) by nia.
  set (o := (y * w + x)%nat) in *. assert (Ho : u32 (Z.of_nat y * x_resolution s + Z.of_nat x) = Z.of_nat o).
  { rewrite Hw, u32_id; lia. }
  assert (E : draw_pixel (Z.of_nat x) (Z.of_nat y) c s = Ret (tt, set_pixels (<[o := c]> (pixels s)) s)).
  { unfold draw_pixel. rewrite bind_getS, Ho, store_Ret, (bind_liftO _ _ _ _ eq_refl), Nat2Z.id by lia. done. }
  step E. replace (Z.of_nat x + 1) with (Z.of_nat (S x)) by lia.
  rewrite IH; [|split_and!; cbn; rewrite ?length_insert; done|lia|lia]. cbn [pixels set_pixels x_resolution y_resolution].
  replace (y * w + S x)%nat with (S o) by lia. unfold set_pixels. cbn. do 3 f_equal.
  rewrite drop_insert_lt by lia. replace (o + S n)%nat with (S o + n)%nat by lia.
  rewrite (take_S_r _ _ c) by (apply list_lookup_insert_eq; lia). rewrite take_insert_ge by lia.
  by rewrite <- app_assoc.
Qed.

Lemma vbe_rows_cleared w h n y c s :
  of_size w h s -> (y + n <= h)%nat ->
  clear_rows n (Z.of_nat y) c s =
    Ret (tt, set_pixels (take (y * w) (pixels s) ++ replicate (n * w) c ++ drop ((y + n) * w) (pixels s)) s).
Proof.
  revert y s. induction n as [|n IH]; intros y s Hs Hy; cbn [clear_rows].
  { cbn [replicate app Nat.mul]. rewrite Nat.add_0_r, take_drop. by destruct s. }
  pose proof Hs as (Hw & Hh & Hl & Hm). rewrite bind_getS, Hw, Nat2Z.id.
  step (vbe_row_cleared w h w 0 y c s Hs ltac:(lia) ltac:(lia)). rewrite Nat.add_0_r.
  replace (Z.of_nat y + 1) with (Z.of_nat (S y)) by lia.
  assert (Hyw : (S y * w <= length (pixels s))%nat) by nia.
  set (P := take (y * w) (pixels s) ++ replicate w c ++ drop (y * w + w) (pixels s)).
  assert (HP : length P = length (pixels s)).
  { unfold P. rewrite !length_app, length_take, length_replicate, length_drop. lia. }
  rewrite IH; [|split_and!; cbn; rewrite ?HP; done|lia]. cbn [pixels set_pixels x_resolution y_resolution].
  unfold set_pixels. cbn. do 3 f_equal.
  assert (Hcut : P = (take (y * w) (pixels s) ++ replicate w c) ++ drop (y * w + w) (pixels s)) by (unfold P; by rewrite app_assoc).
  assert (Hlen : length (take (y * w) (pixels s) ++ replicate w c) = (S y * w)%nat).
  { rewrite length_app, length_take, length_replicate. lia. }
  rewrite Hcut, take_app_length' by done.
  rewrite drop_app_ge, Hlen, drop_drop by nia.
  replace (y * w + w + ((S y + n) * w - S y * w))%nat with ((y + S n) * w)%nat by nia.
  rewrite <- app_assoc. f_equal. rewrite app_assoc, <- replicate_add. do 2 f_equal. lia.
Qed.

(** Clearing fills the visible screen and nothing after it. *)
Theorem clear_screen_fills w h c s :
  of_size w h s ->
  clear_screen c s = Ret (tt, set_pixels (replicate (h * w) c ++ drop (h * w) (pixels s)) s).
Proof.
  intros Hs. unfold clear_screen. rewrite bind_getS. pose proof Hs as (_ & Hh & _). rewrite Hh, Nat2Z.id.
  change 0 with (Z.of_nat 0) at 1. by rewrite (vbe_rows_cleared w h h 0 c s Hs) by lia.
Qed.

(** The fields of a pixel, 5, 6 and 5 bits wide. *)
Definition red (p : Z) : Z := Z.shiftr p 11.
Definition green (p : Z) : Z := Z.land (Z.shiftr p 5) 63.
Definition blue (p : Z) : Z := Z.land p 31.

(** Dividing by 3 and by 2 does not make a byte fit its field: white, whose
    fields should be 31, 63 and 31, comes out as 21, 63 and 21.  Below 96, 128 and 96 the three fields are what was asked for. *)
Theorem rgb_fields r g b :
  0 <= r < 96 -> 0 <= g < 128 -> 0 <= b < 96 ->
  red (rgb r g b) = r / 3 /\ green (rgb r g b) = g / 2 /\ blue (rgb r g b) = b / 3.
Proof.
  intros Hr Hg Hb. unfold red, green, blue, rgb.
  assert (Hr' : 0 <= r / 3 < 32) by (split; [apply Z.div_pos|apply Z.div_lt_upper_bound]; lia).
  assert (Hg' : 0 <= g / 2 < 64) by (split; [apply Z.div_pos|apply Z.div_lt_upper_bound]; lia).
  assert (Hb' : 0 <= b / 3 < 32) by (split; [apply Z.div_pos|apply Z.div_lt_upper_bound]; lia).
  generalize dependent (r / 3). generalize dependent (g / 2). generalize dependent (b / 3).
  intros b' Hb' g' Hg' r' Hr'.
  assert (E : Z.lor (Z.lor (Z.shiftl r' 11) (Z.shiftl g' 5)) b' = r' * 2048 + g' * 32 + b').
  { rewrite !Z.shiftl_mul_pow2, <- Z.lor_assoc, (lor_low 5 g' b') by (cbn; lia).
    rewrite (lor_low 11 r') by (cbn; lia). cbn. lia. }
  rewrite E. unfold u16. rewrite Z.mod_small by lia. rewrite !Z.shiftr_div_pow2 by lia.
  change (2 ^ 11) with 2048. change (2 ^ 5) with 32.
  rewrite (Z.land_ones _ 6), (Z.land_ones _ 5) by lia. change (2 ^ 6) with 64. change (2 ^ 5) with 32. zlia.
Qed.


Example rgb_white : let p := rgb 255 255 255 in (red p, green p, blue p) = (21, 63, 21).
Proof. reflexivity. Qed.
