(* ===== verification/TerminalSpec.v ===== *)
(** * Clearing the screen (clrscr of src/src/graphics/graphics.c)

    [clrscr] colours each row and then writes blanks with the colour it reads
    at the cursor, which it moves only at the end. *)
From S2P Require Import Prelude Config CMem CString Terminal.

(** The cell at the position [i] of the page has the attribute [a]. *)
Definition coloured_at (v : list Z) (i a : Z) : Prop := exists x, 0 <= i /\ v !! Z.to_nat i = Some x /\ x / 256 = a.

Lemma coloured_at_attr v r c b a :
  coloured_at v (r * 80 + c) a -> terminal_get_attr (mk_term v r c b) = Ret (a, mk_term v r c b).
Proof.
  intros (x & Hi & Hx & <-). rewrite <- (Z2Nat.id _ Hi) in Hx. rewrite Nat2Z.id in Hx.
  rewrite (get_attr_spec _ x (Z.to_nat (r * 80 + c))); [|cbn [terminal_row terminal_col]; lia|done].
  by rewrite Z.shiftr_div_pow2.
Qed.

Lemma coloured_insert v i a (j : nat) :
  0 <= a < 256 -> coloured_at v i a -> (j < length v)%nat -> coloured_at (<[j := cell a 32]> v) i a.
Proof.
  intros Ha (x & Hi & Hx & Hxa) Hj. destruct (decide (Z.to_nat i = j)) as [<-|Hne].
  - exists (cell a 32). rewrite list_lookup_insert_eq by done. split; [done|]. split; [done|]. unfold cell. zlia.
  - exists x. by rewrite list_lookup_insert_ne.
Qed.

Lemma insert_head {A} (l : list A) x y r : <[length l := y]> (l ++ x :: r) = l ++ y :: r.
Proof. rewrite <- (Nat.add_0_r (length l)). by rewrite insert_app_r. Qed.

(** Blanks over a stretch of the page. *)
Lemma clear_cells_spec todo A B x y r c b a :
  y * 80 + x = Z.of_nat (length A) -> 0 <= a < 256 -> coloured_at (A ++ todo ++ B) (r * 80 + c) a ->
  clrscr_cells (length todo) x y (mk_term (A ++ todo ++ B) r c b) =
    Ret (tt, mk_term (A ++ replicate (length todo) (cell a 32) ++ B) r c b).
Proof.
  intros Hp Ha. revert A x Hp. induction todo as [|w todo IH]; intros A x Hp Hc; [done|].
  cbn [length clrscr_cells replicate]. step (coloured_at_attr _ _ _ b _ Hc).
  step (putchar_spec (mk_term (A ++ (w :: todo) ++ B) r c b) x y 32 a (length A) ltac:(lia)
    ltac:(cbn [video_mem]; rewrite !length_app; cbn [length]; lia)).
  unfold set_video. cbn [video_mem terminal_row terminal_col beeps]. rewrite make_char by lia.
  assert (E : forall l, A ++ (cell a 32 :: l) ++ B = (A ++ [cell a 32]) ++ l ++ B) by (intros; by rewrite <- app_assoc).
  pose proof (coloured_insert _ _ _ (length A) Ha Hc ltac:(rewrite length_app; simpl; lia)) as Hc'.
  cbn [app] in Hc' |- *. rewrite insert_head in Hc' |- *.
  specialize (IH (A ++ [cell a 32]) (x + 1)). rewrite <- !app_assoc in IH. cbn [app] in IH. apply IH; [|done].
  rewrite length_app. cbn [length]. lia.
Qed.

(** The colour of a stretch of the page. *)
Definition recolour (a x : Z) : Z := x mod 256 + 256 * u8 a.

Lemma draw_line_spec todo A B x y r c b a :
  y * 80 + x = Z.of_nat (length A) ->
  draw_line_loop (length todo) a x y (mk_term (A ++ todo ++ B) r c b) =
    Ret (tt, mk_term (A ++ map (recolour a) todo ++ B) r c b).
Proof.
  revert A x. induction todo as [|w todo IH]; intros A x Hp; [done|]. cbn [length draw_line_loop map].
  assert (E : graphics_put a x y (mk_term (A ++ (w :: todo) ++ B) r c b) =
    Ret (tt, mk_term (A ++ (recolour a w :: todo) ++ B) r c b)).
  { unfold graphics_put, VGA_WIDTH. rewrite bind_getS. cbn [video_mem]. rewrite Hp. cbn [app].
    rewrite (bind_liftO _ _ _ w) by (apply load_Some; [lia|]; rewrite Nat2Z.id; by apply list_lookup_middle).
    rewrite store_Ret by (rewrite length_app; simpl; lia). rewrite (bind_liftO _ _ _ _ eq_refl).
    rewrite Nat2Z.id, insert_head. done. }
  step E. specialize (IH (A ++ [recolour a w]) (x + 1)). rewrite <- !app_assoc in IH. cbn [app] in IH |- *.
  apply IH. rewrite length_app. cbn [length]. lia.
Qed.

(** One row: the blanks have the colour at the cursor after the row was
    coloured_at. *)
Lemma clear_row_spec A row B y r c b a a1 :
  y * 80 = Z.of_nat (length A) -> length row = 80%nat -> 0 <= a1 < 256 ->
  coloured_at (A ++ map (recolour a) row ++ B) (r * 80 + c) a1 ->
  forall n, clrscr_rows (S n) a y (mk_term (A ++ row ++ B) r c b) =
    clrscr_rows n a (y + 1) (mk_term (A ++ replicate 80 (cell a1 32) ++ B) r c b).
Proof.
  intros Hy Hrow Ha Hc n. cbn [clrscr_rows]. unfold graphics_draw_line. change (Z.to_nat VGA_WIDTH) with 80%nat.
  rewrite <- Hrow at 1. step (draw_line_spec row A B 0 y r c b a ltac:(lia)).
  pose proof (clear_cells_spec (map (recolour a) row) A B 0 y r c b a1 ltac:(lia) Ha Hc) as E.
  rewrite length_map, Hrow in E. by step E.
Qed.

(** Rows that get the same colour. *)
Lemma clear_rows_spec n m A L y r c b a a1 :
  y * 80 = Z.of_nat (length A) -> (80 * n <= length L)%nat -> 0 <= a1 < 256 ->
  (forall k, (k < n)%nat -> coloured_at (A ++ replicate (80 * k) (cell a1 32) ++ map (recolour a) (take 80 (drop (80 * k) L))
                                        ++ drop (80 * (k + 1)) L) (r * 80 + c) a1) ->
  clrscr_rows (n + m) a y (mk_term (A ++ L) r c b) =
    clrscr_rows m a (y + Z.of_nat n) (mk_term (A ++ replicate (80 * n) (cell a1 32) ++ drop (80 * n) L) r c b).
Proof.
  revert A L y. induction n as [|n IH]; intros A L y Hy Hl Ha Hc.
  { cbn [Nat.add]. by rewrite Z.add_0_r. }
  pose proof (Hc 0%nat ltac:(lia)) as Hc0. cbn [Nat.add] in *. change (80 * 0)%nat with 0%nat in Hc0. rewrite drop_0 in Hc0.
  rewrite <- (take_drop 80 L) at 1. rewrite (clear_row_spec A _ _ y r c b a a1); [|done|rewrite length_take; lia|done|done].
  rewrite app_assoc. rewrite IH.
  - replace (y + 1 + Z.of_nat n) with (y + Z.of_nat (S n)) by lia. rewrite drop_drop.
    replace (80 * S n)%nat with (80 + 80 * n)%nat by lia. rewrite replicate_add. by rewrite <- !app_assoc.
  - rewrite length_app, length_replicate. lia.
  - rewrite length_drop. lia.
  - done.
  - intros k Hk. specialize (Hc (S k) ltac:(lia)).
    replace (80 * S k)%nat with (80 + 80 * k)%nat in Hc by lia. rewrite replicate_add in Hc.
    rewrite !drop_drop. replace (80 * (S k + 1))%nat with (80 + 80 * (k + 1))%nat in Hc by lia.
    rewrite <- !app_assoc in *. exact Hc.
Qed.

Lemma coloured_mid (A row B : list Z) i a :
  0 <= a < 256 -> (length A <= i < length A + length row)%nat -> Forall (fun x => x / 256 = a) row ->
  coloured_at (A ++ row ++ B) (Z.of_nat i) a.
Proof.
  intros Ha Hi Hrow. destruct (lookup_lt_is_Some_2 row (i - length A)) as [x Hx]; [lia|]. exists x. split; [lia|].
  rewrite Nat2Z.id. split; [|rewrite Forall_forall in Hrow; apply Hrow; by eapply list_elem_of_lookup_2].
  rewrite lookup_app_r by lia. by apply lookup_app_l_Some.
Qed.

(** Clearing the screen.  [clrscr] leaves a page of blanks with the cursor in
    the top left corner.  The rows from the cursor's on get the new colour; the
    rows above it get the colour that the cell under the cursor had before. *)
Theorem clrscr_colours v p b a :
  video_ok v -> (p < 2000)%nat -> 0 <= a < 256 ->
  clrscr a (term_of (v, p) b) =
    Ret (tt, term_of (replicate (80 * (p / 80)) (cell (v !!! p / 256) 32) ++
                      replicate (80 * (25 - p / 80)) (cell a 32), 0%nat) b).
Proof.
  intros Hv Hp Ha. destruct (video_ok_cell v p Hv Hp) as (x & Hx & Hr). destruct Hv as [Hl _].
  rewrite (list_lookup_total_correct _ _ _ Hx). set (a0 := x / 256). assert (Ha0 : 0 <= a0 < 256) by (unfold a0; zlia).
  pose proof (Nat.div_mod_eq p 80) as Hdm. pose proof (Nat.mod_upper_bound p 80 ltac:(lia)) as Hm.
  set (R := (p / 80)%nat) in *. unfold clrscr, term_of at 1. cbn [fst snd]. fold R. change (Z.to_nat VGA_HEIGHT) with 25%nat.
  assert (Hcur : Z.of_nat R * 80 + Z.of_nat (p mod 80) = Z.of_nat p) by lia.
  pose proof (clear_rows_spec R (25 - R) [] v 0 (Z.of_nat R) (Z.of_nat (p mod 80)) b a a0 eq_refl ltac:(lia) Ha0) as E1.
  rewrite Hcur in E1. replace (R + (25 - R))%nat with 25%nat in E1 by lia. cbn [app] in E1.
  unfold mbind, cmd_bind. rewrite E1; clear E1.
  2: { intros k Hk. exists x. split; [lia|]. rewrite Nat2Z.id. split; [|done].
       rewrite app_assoc, lookup_app_r by (rewrite length_app, length_replicate, length_map, length_take, length_drop; lia).
       rewrite length_app, length_replicate, length_map, length_take, length_drop, lookup_drop.
       rewrite <- Hx. f_equal. lia. }
  set (A := replicate (80 * R) (cell a0 32)). assert (HA : length A = (80 * R)%nat) by apply length_replicate.
  pose proof (clear_rows_spec (25 - R) 0 A (drop (80 * R) v) (Z.of_nat R) (Z.of_nat R) (Z.of_nat (p mod 80)) b a a) as E2.
  rewrite Hcur, Nat.add_0_r in E2. rewrite Z.add_0_l. fold A. rewrite E2; clear E2.
  - cbn [clrscr_rows]. rewrite drop_drop, drop_ge, app_nil_r by lia. done.
  - lia.
  - rewrite length_drop. lia.
  - done.
  - intros k Hk. destruct k as [|k].
    + rewrite Nat.mul_0_r, drop_0. cbn [replicate app]. apply coloured_mid; [done| |].
      * rewrite length_map, length_take, length_drop. lia.
      * rewrite Forall_map. apply Forall_true. intros w. unfold recolour, u8. zlia.
    + apply coloured_mid; [done| |].
      * rewrite length_replicate. lia.
      * apply Forall_replicate. unfold cell. zlia.
Qed.

(** A blue page, cleared to white with the cursor in the sixth row. *)
Lemma clrscr_colours_witness :
  clrscr 15 (term_of (replicate 2000 0x1F41, 405%nat) 0) =
    Ret (tt, term_of (replicate 400 0x1F20 ++ replicate 1600 0x0F20, 0%nat) 0).
Proof.
  apply (clrscr_colours (replicate 2000 0x1F41) 405 0 15).
  - split; [reflexivity|]. apply Forall_replicate. lia.
  - lia.
  - lia.
Defined.
