(* ===== verification/Power.v ===== *)
(** * Power management (src/src/power/power.c, power.h)

    The search for the ACPI tables in physical memory, and turning the machine
    off.  [mem a] is the byte at the physical address [a]; addresses wrap at 32
    bits.  The tables are structures of firmware; power.h gives their fields,
    of which the model keeps the offsets. *)
From S2P Require Import Prelude Config CMem CString Disk Terminal.

Definition ACPI_VER_1 : Z := 1.
Definition ACPI_VER_2 : Z := 2.

(** The static variables of power.c. *)
Record acpi := mk_acpi {
  SMI_CMD : Z;
  ACPI_ENABLE : Z;
  ACPI_DISABLE : Z;
  PM1a_CNT : Z;
  PM1b_CNT : Z;
  SLP_TYPa : Z;
  SLP_TYPb : Z;
  SLP_EN : Z;
  SCI_EN : Z;
  PM1_CNT_LEN : Z;
  acpi_version : Z
}.
Definition acpi_start : acpi := mk_acpi 0 0 0 0 0 0 0 0 0 0 0.
Definition set_version (v : Z) (a : acpi) : acpi :=
  mk_acpi (SMI_CMD a) (ACPI_ENABLE a) (ACPI_DISABLE a) (PM1a_CNT a) (PM1b_CNT a) (SLP_TYPa a) (SLP_TYPb a)
    (SLP_EN a) (SCI_EN a) (PM1_CNT_LEN a) v.

(** The variables and the terminal. *)
Record pm := mk_pm { vars : acpi; console : term }.
Definition on_console {A} (c : cmd term A) : cmd pm A := fun s =>
  '(a, t) ← c (console s); Ret (a, mk_pm (vars s) t).
Definition modify_vars (f : acpi -> acpi) : cmd pm unit := modifyS (fun s => mk_pm (f (vars s)) (console s)).

(** [struct RSDPtr] *)
Definition sizeof_RSDPtr : Z := 20.
Definition RSDP_revision : Z := 15.
Definition RSDP_rsdtAddress : Z := 16.

(** [struct FACP]: the signature has eight bytes. *)
Definition FACP_DSDT : Z := 44.
Definition FACP_SMI_CMD : Z := 52.
Definition FACP_ACPI_Enable : Z := 56.
Definition FACP_ACPI_Disable : Z := 57.
Definition FACP_PM1a_CNT_BLK : Z := 68.
Definition FACP_PM1b_CNT_BLK : Z := 72.
Definition FACP_PM1_CNT_LEN : Z := 93.

(** "RSD PTR ", "RSDT", "FACP", "DSDT", "_S5_" *)
Definition RSD_PTR : list Z := [82; 83; 68; 32; 80; 84; 82; 32].
Definition RSDT : list Z := [82; 83; 68; 84].
Definition FACP : list Z := [70; 65; 67; 80].
Definition DSDT : list Z := [68; 83; 68; 84].
Definition S5 : list Z := [95; 83; 53; 95].

(** The messages. *)
Definition S5_PARSE_ERROR : list Z := [10; 92; 95; 83; 53; 32; 112; 97; 114; 115; 101; 32; 101; 114; 114; 111; 114; 0].
Definition S5_NOT_PRESENT : list Z :=
  [10; 92; 95; 83; 53; 32; 110; 111; 116; 32; 112; 114; 101; 115; 101; 110; 116; 10; 0].
Definition DSDT_INVALID : list Z := [10; 68; 83; 68; 84; 32; 105; 110; 118; 97; 108; 105; 100; 10; 0].
Definition NO_FACP : list Z := [10; 78; 111; 32; 70; 65; 67; 80; 32; 112; 114; 101; 115; 101; 110; 116; 0].

Section tables.
Context (mem : Z -> Z).

Definition byte_of (a : Z) : Z := mem (u32 a).
Fixpoint bytes_from (n : nat) (a : Z) : list Z :=
  match n with
  | O => []
  | S n => byte_of a :: bytes_from n (a + 1)
  end.
Definition word_of (a : Z) : Z := le_combine (bytes_from 4 a).

(** [memcmp] of a constant with the memory. *)
Definition is_signature (a : Z) (sig : list Z) : outcome bool :=
  r ← memcmp sig (bytes_from (length sig) a) (Z.of_nat (length sig)); Ret (r =? 0).

(** [check += *bptr; bptr++;], [n] times. *)
Fixpoint sum_bytes (n : nat) (a check : Z) : Z :=
  match n with
  | O => check
  | S n => sum_bytes n (a + 1) (s8 (check + s8 (byte_of a)))
  end.

Definition acpi_check_RSDPtr (ptr : Z) : cmd pm Z :=
  found ← liftO (is_signature ptr RSD_PTR);
  if (found : bool) && (sum_bytes (Z.to_nat sizeof_RSDPtr) ptr 0 =? 0) then
    modify_vars (set_version (if byte_of (ptr + RSDP_revision) =? 0 then ACPI_VER_1 else ACPI_VER_2));;
    mret (word_of (ptr + RSDP_rsdtAddress))
  else mret 0.

(** One of the two loops, over [n] addresses 16 bytes apart. *)
Fixpoint rsdp_loop (n : nat) (addr : Z) : cmd pm Z :=
  match n with
  | O => mret 0
  | S n =>
      rsdp ← acpi_check_RSDPtr addr;
      if negb (rsdp =? 0) then mret rsdp else rsdp_loop n (addr + 0x10)
  end.

Definition acpi_get_RSDPtr : cmd pm Z :=
  rsdp ← rsdp_loop (Z.to_nat ((0x100000 - 0xE0000) / 0x10)) 0xE0000;
  if negb (rsdp =? 0) then mret rsdp
  else
    let ebda := Z.land (s16 (le_combine (bytes_from 2 0x40E)) * 0x10) 0xFFFFF in
    rsdp_loop (Z.to_nat (1024 / 0x10)) ebda.

Definition acpi_check_header (ptr : Z) (sig : list Z) : outcome Z :=
  found ← is_signature ptr sig;
  if (found : bool) then
    let len := s32 (word_of (ptr + 4)) in
    Ret (if sum_bytes (Z.to_nat len) ptr 0 =? 0 then 0 else - EINVARG)
  else Ret (- EINVARG).

(** [while(0 < dsdt_length--)]: the address and the length after the loop. *)
Fixpoint s5_loop (n : nat) (S5Addr : Z) : outcome (Z * Z) :=
  match n with
  | O => Ret (S5Addr, -1)
  | S n =>
      found ← is_signature S5Addr S5;
      if (found : bool) then Ret (S5Addr, Z.of_nat n) else s5_loop n (S5Addr + 1)
  end.

(** A [char]. *)
Definition char_at (a : Z) : Z := s8 (byte_of a).
Definition skip_prefix (a : Z) : Z := if char_at a =? 0x0A then a + 1 else a.

Definition parse_s5 (facp S5Addr : Z) : cmd pm bool :=
  if ((char_at (S5Addr - 1) =? 0x08) || ((char_at (S5Addr - 2) =? 0x08) && (char_at (S5Addr - 1) =? 92)))
     && (char_at (S5Addr + 4) =? 0x12) then
    let a := S5Addr + 5 in
    let a := a + (Z.shiftr (Z.land (char_at a) 0xC0) 6 + 2) in
    let a := skip_prefix a in
    let typ_a := u16 (Z.shiftl (char_at a) 10) in
    let a := skip_prefix (a + 1) in
    let typ_b := u16 (Z.shiftl (char_at a) 10) in
    modify_vars (fun v => mk_acpi (word_of (facp + FACP_SMI_CMD)) (byte_of (facp + FACP_ACPI_Enable))
                            (byte_of (facp + FACP_ACPI_Disable)) (word_of (facp + FACP_PM1a_CNT_BLK))
                            (word_of (facp + FACP_PM1b_CNT_BLK)) typ_a typ_b (Z.shiftl 1 13) 1
                            (byte_of (facp + FACP_PM1_CNT_LEN)) (acpi_version v));;
    mret true
  else on_console (print S5_PARSE_ERROR);; mret false.

Definition use_facp (facp : Z) : cmd pm bool :=
  let dsdt := word_of (facp + FACP_DSDT) in
  h ← liftO (acpi_check_header dsdt DSDT);
  if h =? 0 then
    let dsdt_length := s32 (word_of (dsdt + 4) - 36) in
    '(S5Addr, dsdt_length) ← liftO (s5_loop (Z.to_nat dsdt_length) (dsdt + 36));
    if 0 <? dsdt_length then parse_s5 facp S5Addr
    else on_console (print S5_NOT_PRESENT);; mret false
  else on_console (print DSDT_INVALID);; mret false.

(** The first table with the signature ends the search, usable or not. *)
Fixpoint entries_loop (n : nat) (ptr : Z) : cmd pm Z :=
  match n with
  | O => on_console (print NO_FACP);; mret (- ECANNOTDO)
  | S n =>
      let facp := word_of ptr in
      h ← liftO (acpi_check_header facp FACP);
      if h =? 0 then
        ok ← use_facp facp;
        if (ok : bool) then mret 0 else on_console (print NO_FACP);; mret (- ECANNOTDO)
      else entries_loop n (ptr + 4)
  end.

Definition init_acpi : cmd pm Z :=
  ptr ← acpi_get_RSDPtr;
  if ptr =? 0 then mret (- ECANNOTDO)
  else
    h ← liftO (acpi_check_header ptr RSDT);
    if h =? 0 then
      let entrys := s32 (word_of (ptr + 4)) in
      let entrys := Z.quot (s32 (entrys - 36)) 4 in
      entries_loop (Z.to_nat entrys) (ptr + 36)
    else mret (- ECANNOTDO).
End tables.

Section switches.
Context {D : Type} `{Ports D} (mem : Z -> Z).

(** The counter is not initialised: [i] is its value. *)
Fixpoint enable_loop (fuel : nat) (a : acpi) (i : Z) : cmd D Z :=
  match fuel with
  | O => liftO OutOfFuel
  | S fuel =>
      v ← inw (u16 (PM1b_CNT a));
      if Z.land v (SCI_EN a) =? 1 then mret 0
      else if 0x800 <? s32 (i + 1) then mret (- ETIMEDOUT) else enable_loop fuel a (s32 (i + 1))
  end.

Definition acpi_enable (fuel : nat) (a : acpi) (i : Z) : cmd D Z :=
  v ← inw (u16 (PM1a_CNT a));
  if negb (Z.land v (SCI_EN a) =? 0) then mret 0
  else if (SMI_CMD a =? 0) || (ACPI_ENABLE a =? 0) then mret (- ECANNOTDO)
  else
    outb (u16 (word_of mem (SMI_CMD a))) (ACPI_ENABLE a);;
    enable_loop fuel a i.

(** The writes that turn the machine off; it is a panic to get past them. *)
Definition poweroff_writes (a : acpi) : cmd D unit :=
  outw (u16 (PM1a_CNT a)) (u16 (Z.lor (SLP_TYPa a) (SLP_EN a)));;
  if negb (PM1b_CNT a =? 0) then outw (u16 (PM1b_CNT a)) (u16 (Z.lor (SLP_TYPb a) (SLP_EN a))) else mret tt.

Definition acpi_poweroff (a : acpi) : cmd D unit :=
  if SCI_EN a =? 0 then mret tt else poweroff_writes a;; liftO Panic.
End switches.
