(* ===== verification/PowerSpec.v ===== *)
(** * What the power management code promises

    The checksum of a table, the search for the tables in memory, and the
    values with which the machine is turned off. *)
From S2P Require Import Prelude Config CMem CString Disk Terminal Power.

(** ** Checksums *)
Fixpoint total (mem : Z -> Z) (n : nat) (a : Z) : Z :=
  match n with
  | O => 0
  | S n => byte_of mem a + total mem n (a + 1)
  end.

Lemma sum_bytes_spec mem n a c :
  -128 <= c < 128 -> sum_bytes mem n a c = s8 (c + total mem n a).
Proof.
  revert a c. induction n as [|n IH]; intros a c Hc; cbn [sum_bytes total].
  - unfold s8. zlia.
  - rewrite IH by (unfold s8; zlia). unfold s8. zlia.
Qed.

Lemma total_agree mem mem' n a :
  (forall i, 0 <= i < Z.of_nat n -> byte_of mem' (a + i) = byte_of mem (a + i)) -> total mem' n a = total mem n a.
Proof.
  revert a. induction n as [|n IH]; intros a Hb; cbn [total]; [done|].
  rewrite IH. { specialize (Hb 0 ltac:(lia)). rewrite Z.add_0_r in Hb. by rewrite Hb. }
  intros i Hi. specialize (Hb (i + 1) ltac:(lia)). by replace (a + 1 + i) with (a + (i + 1)) by lia.
Qed.

Lemma total_change mem mem' n a k :
  0 <= k < Z.of_nat n -> (forall i, 0 <= i < Z.of_nat n -> i <> k -> byte_of mem' (a + i) = byte_of mem (a + i)) ->
  total mem' n a - total mem n a = byte_of mem' (a + k) - byte_of mem (a + k).
Proof.
  revert a k. induction n as [|n IH]; intros a k Hk Hb; [lia|]. cbn [total].
  destruct (decide (k = 0)) as [->|Hne].
  - rewrite Z.add_0_r. rewrite (total_agree mem mem' n (a + 1)); [lia|].
    intros i Hi. specialize (Hb (i + 1) ltac:(lia) ltac:(lia)). by replace (a + 1 + i) with (a + (i + 1)) by lia.
  - specialize (IH (a + 1) (k - 1) ltac:(lia)). replace (a + 1 + (k - 1)) with (a + k) in IH by lia.
    assert (H0 : byte_of mem' a = byte_of mem a).
    { specialize (Hb 0 ltac:(lia) ltac:(lia)). by rewrite Z.add_0_r in Hb. }
    rewrite H0. rewrite <- IH; [lia|]. intros i Hi Hne'. specialize (Hb (i + 1) ltac:(lia) ltac:(lia)).
    by replace (a + 1 + i) with (a + (i + 1)) by lia.
Qed.

(** ** Signatures *)
Lemma memcmp_loop_spec s1 s2 :
  length s1 = length s2 -> exists r, memcmp_loop (length s1) s1 s2 = Ret r /\ (r = 0 <-> s1 = s2).
Proof.
  revert s2. induction s1 as [|a s1 IH]; intros [|b s2] Hl; try (by simpl in Hl).
  - by exists 0.
  - injection Hl as Hl. cbn [length memcmp_loop]. destruct (Z.eqb_spec a b) as [->|Hne]; cbn [negb].
    + destruct (IH s2 Hl) as (r & E & Hr). exists r. split; [done|]. rewrite Hr. split; congruence.
    + eexists. split; [done|]. split; [destruct (_ <? _); lia|congruence].
Qed.

Lemma length_bytes_from mem n a : length (bytes_from mem n a) = n.
Proof. revert a. induction n as [|n IH]; intros a; [done|]. cbn. by rewrite IH. Qed.

Lemma is_signature_spec mem a sig :
  is_signature mem a sig = Ret (bool_decide (bytes_from mem (length sig) a = sig)).
Proof.
  unfold is_signature, memcmp. rewrite Nat2Z.id.
  destruct (memcmp_loop_spec sig (bytes_from mem (length sig) a)) as (r & -> & Hr).
  { by rewrite length_bytes_from. }
  cbn. f_equal. apply eq_true_iff_eq. rewrite Z.eqb_eq, Hr, bool_decide_eq_true. split; congruence.
Qed.

(** A table with its signature and a checksum of 0. *)
Definition table_len (mem : Z -> Z) (p : Z) : Z := s32 (word_of mem (p + 4)).
Definition valid_table (mem : Z -> Z) (p : Z) (sig : list Z) : Prop :=
  bytes_from mem (length sig) p = sig /\ total mem (Z.to_nat (table_len mem p)) p mod 256 = 0.

Lemma check_header_spec mem p sig :
  exists r, acpi_check_header mem p sig = Ret r /\ (r = 0 \/ r = - EINVARG) /\ (r = 0 <-> valid_table mem p sig).
Proof.
  unfold acpi_check_header. rewrite is_signature_spec. cbn [mbind outcome_bind]. unfold valid_table.
  case_bool_decide as Hs.
  - fold (table_len mem p). rewrite sum_bytes_spec by lia. rewrite Z.add_0_l.
    destruct (Z.eqb_spec (s8 (total mem (Z.to_nat (table_len mem p)) p)) 0) as [E|E]; eexists; (split; [done|]).
    + split; [by left|]. split; [|done]. intros _. split; [done|]. unfold s8 in E. zlia.
    + split; [by right|]. split; [done|]. intros [_ Hm]. exfalso. apply E. unfold s8. zlia.
  - eexists. split; [done|]. split; [by right|]. split; [done|]. by intros [? _].
Qed.

Lemma check_header_valid mem p sig : valid_table mem p sig -> acpi_check_header mem p sig = Ret 0.
Proof. intros Hv. destruct (check_header_spec mem p sig) as (r & -> & _ & Hr). f_equal. by apply Hr. Qed.

Lemma check_header_invalid mem p sig : ~ valid_table mem p sig -> acpi_check_header mem p sig = Ret (- EINVARG).
Proof. intros Hv. destruct (check_header_spec mem p sig) as (r & -> & [->| ->] & Hr); [|done]. exfalso. by apply Hv, Hr. Qed.

(** C26: a damaged table.  When one byte of a table that is accepted, other than
    those of its length, is changed to any other value, the table is refused. *)
Theorem acpi_corruption_detected mem mem' p sig k :
  acpi_check_header mem p sig = Ret 0 -> length sig = 4%nat ->
  0 <= k < table_len mem p -> ~ 4 <= k < 8 ->
  0 <= byte_of mem (p + k) < 256 -> 0 <= byte_of mem' (p + k) < 256 -> byte_of mem' (p + k) <> byte_of mem (p + k) ->
  (forall i, 0 <= i < 4294967296 -> i <> k -> byte_of mem' (p + i) = byte_of mem (p + i)) ->
  acpi_check_header mem' p sig = Ret (- EINVARG).
Proof.
  intros Hok Hsig Hk Hlen Hb Hb' Hne Hsame. apply check_header_invalid. intros [Hs' Ht'].
  destruct (check_header_spec mem p sig) as (r & Hr & _ & Hv). rewrite Hr in Hok. injection Hok as ->.
  destruct (proj1 Hv eq_refl) as [Hs Ht]. unfold table_len in *. pose proof (s32_range (word_of mem (p + 4))).
  assert (Hw : word_of mem' (p + 4) = word_of mem (p + 4)).
  { unfold word_of. cbn [bytes_from]. do 2 f_equal.
    - apply Hsame; lia.
    - replace (p + 4 + 1) with (p + 5) by lia. replace (p + 5 + 1) with (p + 6) by lia. replace (p + 6 + 1) with (p + 7) by lia.
      rewrite !Hsame by lia. done. }
  rewrite Hw in Ht'.
  pose proof (total_change mem mem' (Z.to_nat (s32 (word_of mem (p + 4)))) p k ltac:(lia)) as Hd.
  specialize (Hd ltac:(intros; apply Hsame; lia)). zlia.
Qed.

(** ** The search *)
Section search.
Context (mem : Z -> Z).

(** A root pointer at [p], and what it points to. *)
Definition root_pointer (p rsdt : Z) : Prop :=
  bytes_from mem 8 p = RSD_PTR /\ total mem 20 p mod 256 = 0 /\ word_of mem (p + 16) = rsdt.
Definition version_at (p : Z) : Z := if byte_of mem (p + 15) =? 0 then ACPI_VER_1 else ACPI_VER_2.

Lemma check_RSDPtr_found s p rsdt :
  root_pointer p rsdt ->
  acpi_check_RSDPtr mem p s = Ret (rsdt, mk_pm (set_version (version_at p) (vars s)) (console s)).
Proof.
  intros (Hs & Ht & Hw). unfold acpi_check_RSDPtr. rewrite (bind_liftO _ _ _ _ (is_signature_spec mem p RSD_PTR)).
  change (length RSD_PTR) with 8%nat. rewrite bool_decide_true by done. cbn [andb].
  change (Z.to_nat sizeof_RSDPtr) with 20%nat. rewrite sum_bytes_spec by lia. rewrite Z.add_0_l.
  assert (E : (s8 (total mem 20 p) =? 0) = true) by (apply Z.eqb_eq; unfold s8; zlia).
  rewrite E. unfold modify_vars. rewrite bind_modifyS. unfold mret, cmd_ret, RSDP_rsdtAddress, version_at, RSDP_revision.
  by rewrite Hw.
Qed.

Lemma check_RSDPtr_other s p : bytes_from mem 8 p <> RSD_PTR -> acpi_check_RSDPtr mem p s = Ret (0, s).
Proof.
  intros Hs. unfold acpi_check_RSDPtr. rewrite (bind_liftO _ _ _ _ (is_signature_spec mem p RSD_PTR)).
  change (length RSD_PTR) with 8%nat. by rewrite bool_decide_false.
Qed.

Lemma rsdp_loop_found n s a k rsdt :
  (k < n)%nat -> root_pointer (a + 16 * Z.of_nat k) rsdt -> rsdt <> 0 ->
  (forall i, (i < k)%nat -> bytes_from mem 8 (a + 16 * Z.of_nat i) <> RSD_PTR) ->
  rsdp_loop mem n a s = Ret (rsdt, mk_pm (set_version (version_at (a + 16 * Z.of_nat k)) (vars s)) (console s)).
Proof.
  revert a k. induction n as [|n IH]; intros a k Hk Hr Hz Hno; [lia|]. cbn [rsdp_loop]. destruct k as [|k].
  - rewrite Z.mul_0_r, Z.add_0_r in *. step (check_RSDPtr_found s a rsdt Hr). by rewrite (proj2 (Z.eqb_neq rsdt 0)).
  - pose proof (Hno 0%nat ltac:(lia)) as H0. rewrite Z.mul_0_r, Z.add_0_r in H0. step (check_RSDPtr_other s a H0). cbn [Z.eqb negb].
    replace (a + 16 * Z.of_nat (S k)) with (a + 16 + 16 * Z.of_nat k) in * by lia. apply (IH (a + 16)); [lia|done|done|].
    intros i Hi. specialize (Hno (S i) ltac:(lia)). by replace (a + 16 + 16 * Z.of_nat i) with (a + 16 * Z.of_nat (S i)) by lia.
Qed.

Lemma s5_loop_found n a i :
  (i < n)%nat -> bytes_from mem 4 (a + Z.of_nat i) = S5 ->
  (forall j, (j < i)%nat -> bytes_from mem 4 (a + Z.of_nat j) <> S5) ->
  s5_loop mem n a = Ret (a + Z.of_nat i, Z.of_nat (n - S i)).
Proof.
  revert a i. induction n as [|n IH]; intros a i Hi Hs Hno; [lia|]. cbn [s5_loop]. rewrite is_signature_spec.
  change (length S5) with 4%nat. cbn [mbind outcome_bind]. destruct i as [|i].
  - rewrite Z.add_0_r in *. rewrite bool_decide_true by done. do 3 f_equal. lia.
  - pose proof (Hno 0%nat ltac:(lia)) as H0. rewrite Z.add_0_r in H0. rewrite bool_decide_false by done.
    replace (a + Z.of_nat (S i)) with (a + 1 + Z.of_nat i) in * by lia. apply (IH (a + 1)); [lia|done|].
    intros j Hj. specialize (Hno (S j) ltac:(lia)). by replace (a + 1 + Z.of_nat j) with (a + Z.of_nat (S j)) by lia.
Qed.

(** The object named _S5_ with two one-digit values, as compilers of the DSDT
    write it: a name, a package of at most 63 bytes, a count, two bytes. *)
Record s5_object (p va vb : Z) : Prop := {
  s5_sig : bytes_from mem 4 p = S5;
  s5_name : byte_of mem (p - 1) = 8;
  s5_package : byte_of mem (p + 4) = 0x12;
  s5_short : 0 <= byte_of mem (p + 5) < 64;
  s5_a : byte_of mem (p + 7) = 0x0A /\ byte_of mem (p + 8) = va /\ 0 <= va < 8;
  s5_b : byte_of mem (p + 9) = 0x0A /\ byte_of mem (p + 10) = vb /\ 0 <= vb < 8
}.

(** What [init_acpi] stores. *)
Definition acpi_vars (facp va vb v : Z) : acpi :=
  mk_acpi (word_of mem (facp + 52)) (byte_of mem (facp + 56)) (byte_of mem (facp + 57)) (word_of mem (facp + 68))
    (word_of mem (facp + 72)) (va * 1024) (vb * 1024) 8192 1 (byte_of mem (facp + 93)) v.

Lemma char_small a b : byte_of mem a = b -> 0 <= b < 128 -> char_at mem a = b.
Proof. intros E Hb. unfold char_at. rewrite E. unfold s8. zlia. Qed.

Lemma parse_s5_found s facp p va vb :
  s5_object p va vb ->
  parse_s5 mem facp p s = Ret (true, mk_pm (acpi_vars facp va vb (acpi_version (vars s))) (console s)).
Proof.
  intros [Hsig Hn Hp Hs (Ha1 & Ha & Hva) (Hb1 & Hb & Hvb)]. unfold parse_s5.
  rewrite (char_small (p - 1) 8), (char_small (p + 4) 0x12) by (done || lia). cbn [Z.eqb Pos.eqb orb andb].
  assert (Hl : Z.shiftr (Z.land (char_at mem (p + 5)) 0xC0) 6 + 2 = 2).
  { rewrite (char_small (p + 5) (byte_of mem (p + 5))) by (done || lia).
    rewrite Z.shiftr_land. change (Z.shiftr 0xC0 6) with 3. rewrite Z.shiftr_div_pow2 by lia.
    rewrite Z.div_small by (simpl; lia). done. }
  rewrite Hl. replace (p + 5 + 2) with (p + 7) by lia.
  assert (Hska : skip_prefix mem (p + 7) = p + 8).
  { unfold skip_prefix. rewrite (char_small (p + 7) 0x0A) by (done || lia). cbn [Z.eqb Pos.eqb]. lia. }
  assert (Hskb : skip_prefix mem (p + 8 + 1) = p + 10).
  { unfold skip_prefix. replace (p + 8 + 1) with (p + 9) by lia. rewrite (char_small (p + 9) 0x0A) by (done || lia).
    cbn [Z.eqb Pos.eqb]. lia. }
  rewrite Hska, Hskb, (char_small (p + 8) va), (char_small (p + 10) vb) by (done || lia).
  rewrite !Z.shiftl_mul_pow2 by lia. change (2 ^ 10) with 1024. rewrite !u16_id by lia.
  unfold modify_vars. by rewrite bind_modifyS.
Qed.

(** The tables of a machine up to the fixed table: a root pointer in the BIOS
    area, the root table at [rsdt], whose [j]th entry is the fixed table at [facp]. *)
Record acpi_tables (k : nat) (rsdt facp : Z) (j : nat) : Prop := {
  am_root : Z.of_nat k < 8192 /\ root_pointer (0xE0000 + 16 * Z.of_nat k) rsdt /\ rsdt <> 0;
  am_first : forall i, (i < k)%nat -> bytes_from mem 8 (0xE0000 + 16 * Z.of_nat i) <> RSD_PTR;
  am_rsdt : valid_table mem rsdt RSDT;
  am_entry : Z.of_nat j < Z.quot (s32 (table_len mem rsdt - 36)) 4 /\ word_of mem (rsdt + 36 + 4 * Z.of_nat j) = facp;
  am_others : forall i, (i < j)%nat -> ~ valid_table mem (word_of mem (rsdt + 36 + 4 * Z.of_nat i)) FACP;
  am_facp : valid_table mem facp FACP
}.

(** The fixed table as ACPI documents it: the address of the DSDT at byte 40,
    behind it the interrupt model, a reserved byte and the number of the
    interrupt. *)
Record documented_fadt (facp dsdt int_model sci : Z) : Prop := {
  df_dsdt : word_of mem (facp + 40) = dsdt /\ valid_table mem dsdt DSDT;
  df_model : byte_of mem (facp + 44) = int_model;
  df_reserved : byte_of mem (facp + 45) = 0;
  df_sci : byte_of mem (facp + 46) + 256 * byte_of mem (facp + 47) = sci
}.

(** The fixed table as power.h has it, with a signature of eight bytes: every
    field is four bytes further on. *)
Record shifted_fadt (facp s5 va vb : Z) : Prop := {
  sf_dsdt : valid_table mem (word_of mem (facp + 44)) DSDT;
  sf_s5 : exists i, s5 = word_of mem (facp + 44) + 36 + Z.of_nat i /\
    Z.of_nat i + 1 < s32 (word_of mem (word_of mem (facp + 44) + 4) - 36) /\
    forall i', (i' < i)%nat -> bytes_from mem 4 (word_of mem (facp + 44) + 36 + Z.of_nat i') <> S5;
  sf_object : s5_object s5 va vb
}.

Lemma documented_word facp dsdt int_model sci :
  documented_fadt facp dsdt int_model sci -> word_of mem (facp + 44) = int_model + 65536 * sci.
Proof.
  intros [_ <- Hr <-]. unfold word_of. cbn [bytes_from le_combine].
  replace (facp + 44 + 1) with (facp + 45) by lia. replace (facp + 45 + 1) with (facp + 46) by lia.
  replace (facp + 46 + 1) with (facp + 47) by lia. rewrite Hr. lia.
Qed.

(** The loop over the root table stops at the first fixed table, usable or not. *)
Lemma entries_loop_found n s p facp j :
  (j < n)%nat -> word_of mem (p + 4 * Z.of_nat j) = facp ->
  (forall i, (i < j)%nat -> ~ valid_table mem (word_of mem (p + 4 * Z.of_nat i)) FACP) ->
  valid_table mem facp FACP ->
  entries_loop mem n p s =
    (ok ← use_facp mem facp; if (ok : bool) then mret 0 else on_console (print NO_FACP);; mret (- ECANNOTDO)) s.
Proof.
  intros Hj Hw Hno Hv. revert p j Hj Hw Hno. induction n as [|n IH]; intros p j Hj Hw Hno; [lia|].
  cbn [entries_loop]. destruct j as [|j].
  - rewrite Z.mul_0_r, Z.add_0_r in Hw. by rewrite Hw, (bind_liftO _ _ _ _ (check_header_valid mem facp FACP Hv)).
  - pose proof (Hno 0%nat ltac:(lia)) as H0. rewrite Z.mul_0_r, Z.add_0_r in H0.
    rewrite (bind_liftO _ _ _ _ (check_header_invalid mem _ FACP H0)). cbn [Z.eqb].
    change (- EINVARG =? 0) with false. cbn iota.
    replace (p + 4 * Z.of_nat (S j)) with (p + 4 + 4 * Z.of_nat j) in Hw by lia. apply (IH (p + 4) j); [lia|done|].
    intros i Hi. specialize (Hno (S i) ltac:(lia)). by replace (p + 4 + 4 * Z.of_nat i) with (p + 4 * Z.of_nat (S i)) by lia.
Qed.

(** With these tables [init_acpi] reaches the fixed table. *)
Lemma init_acpi_facp s k rsdt facp j :
  acpi_tables k rsdt facp j ->
  init_acpi mem s =
    (ok ← use_facp mem facp; if (ok : bool) then mret 0 else on_console (print NO_FACP);; mret (- ECANNOTDO))
      (mk_pm (set_version (version_at (0xE0000 + 16 * Z.of_nat k)) (vars s)) (console s)).
Proof.
  intros [(Hk & Hroot & Hz) Hfirst Hrsdt (Hj & Hw) Hoth Hfacp].
  set (s1 := mk_pm _ _). unfold init_acpi, acpi_get_RSDPtr.
  assert (Eg : rsdp_loop mem (Z.to_nat ((0x100000 - 0xE0000) / 0x10)) 0xE0000 s = Ret (rsdt, s1)).
  { apply (rsdp_loop_found _ s 0xE0000 k rsdt); try done. change ((0x100000 - 0xE0000) / 0x10) with 8192. lia. }
  unfold mbind at 1, cmd_bind at 1. step Eg. rewrite (proj2 (Z.eqb_neq rsdt 0)) by done. cbn [negb].
  unfold mret at 1, cmd_ret at 1. cbn beta iota. rewrite (proj2 (Z.eqb_neq rsdt 0)) by done.
  rewrite (bind_liftO _ _ _ _ (check_header_valid mem rsdt RSDT Hrsdt)). cbn [Z.eqb].
  fold (table_len mem rsdt). apply (entries_loop_found _ s1 _ facp j); [lia|done..].
Qed.

Lemma use_facp_shifted s facp s5 va vb :
  shifted_fadt facp s5 va vb ->
  use_facp mem facp s = Ret (true, mk_pm (acpi_vars facp va vb (acpi_version (vars s))) (console s)).
Proof.
  intros [Hdsdt (i & -> & Hi & Hno) Hobj]. unfold use_facp, FACP_DSDT.
  rewrite (bind_liftO _ _ _ _ (check_header_valid mem _ DSDT Hdsdt)). cbn [Z.eqb].
  set (n := Z.to_nat (s32 (word_of mem (word_of mem (facp + 44) + 4) - 36))). assert (Hn : (i < n)%nat) by (unfold n; lia).
  rewrite (bind_liftO _ _ _ _ (s5_loop_found n _ i Hn (s5_sig _ _ _ Hobj) Hno)).
  rewrite (proj2 (Z.ltb_lt 0 _)) by (unfold n; lia). by apply parse_s5_found.
Qed.

Lemma on_console_print s str c : print str (console s) = Ret (tt, c) -> on_console (print str) s = Ret (tt, mk_pm (vars s) c).
Proof. unfold on_console. by intros ->. Qed.

Lemma use_facp_invalid s facp c :
  ~ valid_table mem (word_of mem (facp + 44)) DSDT -> print DSDT_INVALID (console s) = Ret (tt, c) ->
  use_facp mem facp s = Ret (false, mk_pm (vars s) c).
Proof.
  intros Hno Hp. unfold use_facp, FACP_DSDT. rewrite (bind_liftO _ _ _ _ (check_header_invalid mem _ DSDT Hno)).
  change (- EINVARG =? 0) with false. cbn iota. by step (on_console_print s DSDT_INVALID c Hp).
Qed.

Lemma sleep_bit x : 0 <= x < 8 -> u16 (Z.lor (x * 1024) 8192) = x * 1024 + 8192.
Proof.
  intros Hx. assert (x = 0 \/ x = 1 \/ x = 2 \/ x = 3 \/ x = 4 \/ x = 5 \/ x = 6 \/ x = 7) as Hc by lia.
  by repeat destruct Hc as [->|Hc]; [..|subst x].
Qed.

(** The two writes with what [init_acpi] stores. *)
Lemma poweroff_writes_spec {D} `{Ports D} facp va vb v (d : D) :
  0 <= va < 8 -> 0 <= vb < 8 ->
  poweroff_writes (acpi_vars facp va vb v) d =
    (outw (u16 (word_of mem (facp + 68))) (va * 1024 + 8192);;
     if word_of mem (facp + 72) =? 0 then mret tt else outw (u16 (word_of mem (facp + 72))) (vb * 1024 + 8192)) d.
Proof.
  intros Ha Hb. unfold poweroff_writes. cbn [SLP_TYPa SLP_TYPb SLP_EN PM1a_CNT PM1b_CNT acpi_vars].
  rewrite !sleep_bit by lia. by destruct (word_of mem (facp + 72) =? 0).
Qed.

(** C25: turning the machine off.  The fixed table of power.h has a signature of
    eight bytes, so [init_acpi] takes every field four bytes behind the place that
    ACPI documents.  On firmware as documented it takes the interrupt model and the
    interrupt number for the address of the DSDT; unless a DSDT happens to lie
    there it prints that the DSDT is invalid and that there is no FACP, fails with
    -ECANNOTDO and stores nothing but the version, so that [acpi_poweroff], for
    which SCI_EN is still 0 as at the start, writes to no port.  On firmware whose fields do lie where power.h has them (DSDT at
    44, the control ports at 68 and 72) it succeeds without a message and stores
    the two values of the object _S5_ (of one digit each, in the form compilers
    write), shifted into place, with those ports;
    [acpi_poweroff] then writes each value with the sleep bit to its port, the
    second one only when there is a second port, and panics. *)
Theorem init_acpi_poweroff {D} `{Ports D} s k rsdt facp j (d : D) :
  acpi_tables k rsdt facp j ->
  (forall dsdt int_model sci c1 c2,
     documented_fadt facp dsdt int_model sci -> ~ valid_table mem (int_model + 65536 * sci) DSDT ->
     print DSDT_INVALID (console s) = Ret (tt, c1) -> print NO_FACP c1 = Ret (tt, c2) ->
     let v := set_version (version_at (0xE0000 + 16 * Z.of_nat k)) (vars s) in
     init_acpi mem s = Ret (- ECANNOTDO, mk_pm v c2) /\ (SCI_EN (vars s) = 0 -> acpi_poweroff v d = Ret (tt, d))) /\
  (forall s5 va vb, shifted_fadt facp s5 va vb ->
     exists v, init_acpi mem s = Ret (0, mk_pm v (console s)) /\ SCI_EN v = 1 /\
       acpi_version v = version_at (0xE0000 + 16 * Z.of_nat k) /\
       let pm1a := word_of mem (facp + 68) in
       let pm1b := word_of mem (facp + 72) in
       poweroff_writes v d =
         (outw (u16 pm1a) (va * 1024 + 8192);;
          if pm1b =? 0 then mret tt else outw (u16 pm1b) (vb * 1024 + 8192)) d /\
       forall d', poweroff_writes v d = Ret (tt, d') -> acpi_poweroff v d = Panic).
Proof.
  intros Ht. rewrite (init_acpi_facp s k rsdt facp j Ht). split.
  - intros dsdt im sci c1 c2 Hdoc Hno Hp1 Hp2 v. rewrite <- (documented_word _ _ _ _ Hdoc) in Hno. split.
    + step (use_facp_invalid (mk_pm v (console s)) facp c1 Hno Hp1). by step (on_console_print (mk_pm v c1) NO_FACP c2 Hp2).
    + intros Hsci. unfold acpi_poweroff. cbn [SCI_EN set_version v]. by rewrite Hsci.
  - intros s5 va vb Hsh. pose proof (sf_object _ _ _ _ Hsh) as [_ _ _ _ (_ & _ & Hva) (_ & _ & Hvb)].
    set (ver := version_at (0xE0000 + 16 * Z.of_nat k)).
    exists (acpi_vars facp va vb ver). split_and!; [|done|done|cbv zeta; split].
    + by step (use_facp_shifted (mk_pm (set_version ver (vars s)) (console s)) facp s5 va vb Hsh).
    + by apply poweroff_writes_spec.
    + intros d' E. unfold acpi_poweroff. cbn [SCI_EN acpi_vars Z.eqb]. by step E.
Qed.
End search.

(** ** A machine, for the witnesses *)

(** Byte [off] of a table makes its sum 0. *)
Definition summed (off : nat) (l : list Z) : list Z := <[off := (- foldr Z.add 0 l) mod 256]> l.
Definition region_mem (rs : list (Z * list Z)) (a : Z) : Z :=
  foldr (fun r v => if (fst r <=? a) && (a <? fst r + Z.of_nat (length (snd r))) then (snd r) !!! Z.to_nat (a - fst r) else v) 0 rs.

Definition demo_rsdp : list Z := summed 8 (RSD_PTR ++ replicate 7 0 ++ [0] ++ le_split 4 0x1000).
Definition demo_rsdt : list Z :=
  summed 9 (RSDT ++ le_split 4 44 ++ replicate 28 0 ++ le_split 4 0x2000 ++ le_split 4 0x3000).
(** The fixed table as power.h has it, and as ACPI has it. *)
Definition demo_facp : list Z :=
  summed 9 (FACP ++ le_split 4 94 ++ replicate 36 0 ++ le_split 4 0x4000 ++ replicate 4 0 ++ le_split 4 0xB2
            ++ [0xF1; 0xF0] ++ replicate 10 0 ++ le_split 4 0x604 ++ le_split 4 0 ++ replicate 17 0 ++ [2]).
Definition demo_fadt : list Z :=
  summed 9 (FACP ++ le_split 4 116 ++ replicate 32 0 ++ le_split 4 0x4000 ++ [1; 0; 9; 0] ++ le_split 4 0xB2
            ++ [0xF1; 0xF0] ++ replicate 10 0 ++ le_split 4 0x604 ++ le_split 4 0 ++ replicate 17 0 ++ [2] ++ replicate 26 0).
Definition demo_dsdt : list Z :=
  summed 9 (DSDT ++ le_split 4 56 ++ replicate 28 0 ++ [8] ++ S5 ++ [0x12; 6; 4; 0x0A; 5; 0x0A; 5] ++ replicate 8 0).
Definition machine_mem (facp : list Z) : Z -> Z :=
  region_mem [(0xE0010, demo_rsdp); (0x1000, demo_rsdt); (0x3000, facp); (0x4000, demo_dsdt)].
Definition demo_mem : Z -> Z := machine_mem demo_facp.

Lemma demo_tables facp :
  facp = demo_facp \/ facp = demo_fadt -> acpi_tables (machine_mem facp) 1 0x1000 0x3000 1.
Proof.
  intros Hf. split.
  - split; [lia|]. split; [|lia]. split; [|split]; destruct Hf as [-> | ->]; vm_compute; reflexivity.
  - intros i Hi. assert (i = 0%nat) as -> by lia. destruct Hf as [-> | ->]; vm_compute; discriminate.
  - destruct Hf as [-> | ->]; split; vm_compute; reflexivity.
  - destruct Hf as [-> | ->]; split; vm_compute; reflexivity.
  - intros i Hi. assert (i = 0%nat) as -> by lia.
    destruct Hf as [-> | ->]; intros [Hs _]; vm_compute in Hs; discriminate.
  - destruct Hf as [-> | ->]; split; vm_compute; reflexivity.
Qed.

Lemma demo_shifted : shifted_fadt demo_mem 0x3000 0x4025 5 5.
Proof.
  split.
  - split; vm_compute; reflexivity.
  - exists 1%nat. split; [vm_compute; reflexivity|]. split; [vm_compute; reflexivity|].
    intros i Hi. assert (i = 0%nat) as -> by lia. vm_compute. discriminate.
  - split; [vm_compute; reflexivity|vm_compute; reflexivity|vm_compute; reflexivity|vm_compute; split; congruence|..].
    + split; [vm_compute; reflexivity|]. split; [vm_compute; reflexivity|lia].
    + split; [vm_compute; reflexivity|]. split; [vm_compute; reflexivity|lia].
Qed.

Lemma demo_documented : documented_fadt (machine_mem demo_fadt) 0x3000 0x4000 1 9.
Proof. split; [split; [|split]; vm_compute; reflexivity|vm_compute; reflexivity..]. Qed.

(** Ports that record what is written to them. *)
#[export] Instance trace_ports : Ports (list (Z * Z)) := {|
  inb := fun _ d => Ret (0, d);
  inw := fun _ d => Ret (0, d);
  outb := fun p v d => Ret (tt, d ++ [(p, v)]);
  outw := fun p v d => Ret (tt, d ++ [(p, v)])
|}.

(** A blank page, and the page after a message. *)
Definition blank_page : term := mk_term (replicate 2000 0x0F20) 0 0 0.
Definition after_print (str : list Z) (c : term) : term :=
  match print str c with Ret (_, c') => c' | _ => c end.

Lemma init_acpi_poweroff_witness :
  (exists v c, init_acpi (machine_mem demo_fadt) (mk_pm acpi_start blank_page) = Ret (- ECANNOTDO, mk_pm v c) /\
     acpi_poweroff v ([] : list (Z * Z)) = Ret (tt, [])) /\
  (exists v, init_acpi demo_mem (mk_pm acpi_start (mk_term [] 0 0 0)) = Ret (0, mk_pm v (mk_term [] 0 0 0)) /\
     poweroff_writes v [] = Ret (tt, [(0x604, 13312)]) /\ acpi_poweroff v ([] : list (Z * Z)) = Panic).
Proof.
  split.
  - destruct (init_acpi_poweroff (machine_mem demo_fadt) (mk_pm acpi_start blank_page) 1 0x1000 0x3000 1
                ([] : list (Z * Z)) (demo_tables demo_fadt (or_intror eq_refl))) as [Hdoc _].
    destruct (Hdoc 0x4000 1 9 (after_print DSDT_INVALID blank_page)
                (after_print NO_FACP (after_print DSDT_INVALID blank_page)) demo_documented) as [E Ep];
      [intros [Hs _]; vm_compute in Hs; discriminate|vm_compute; reflexivity|vm_compute; reflexivity|].
    eexists _, _. split; [exact E|]. apply Ep. reflexivity.
  - destruct (init_acpi_poweroff demo_mem (mk_pm acpi_start (mk_term [] 0 0 0)) 1 0x1000 0x3000 1
                ([] : list (Z * Z)) (demo_tables demo_facp (or_introl eq_refl))) as [_ Hsh].
    destruct (Hsh 0x4025 5 5 demo_shifted) as (v & Hi & _ & _ & Hw & Hp).
    assert (E : poweroff_writes v ([] : list (Z * Z)) = Ret (tt, [(0x604, 13312)])).
    { rewrite Hw. vm_compute. reflexivity. }
    exists v. split; [exact Hi|]. split; [exact E|]. exact (Hp _ E).
Defined.

Lemma acpi_corruption_detected_witness :
  acpi_check_header demo_mem 0x3000 FACP = Ret 0 /\
  acpi_check_header (fun a => if a =? 0x3000 + 68 then 7 else demo_mem a) 0x3000 FACP = Ret (- EINVARG).
Proof.
  assert (Hok : acpi_check_header demo_mem 0x3000 FACP = Ret 0) by (vm_compute; reflexivity).
  split; [exact Hok|].
  apply (acpi_corruption_detected demo_mem (fun a => if a =? 0x3000 + 68 then 7 else demo_mem a) 0x3000 FACP 68 Hok).
  - reflexivity.
  - vm_compute. split; congruence.
  - lia.
  - vm_compute. split; congruence.
  - vm_compute. split; congruence.
  - vm_compute. congruence.
  - intros i Hi Hne. unfold byte_of. destruct (Z.eqb_spec (u32 (0x3000 + i)) (0x3000 + 68)) as [E|E]; [|reflexivity].
    unfold u32 in E. zlia.
Defined.
