(* ===== verification/Sound.v ===== *)
(** * The speaker (src/src/sound/sound.c)

    The second channel of the interval timer drives the speaker when the two
    low bits of port 0x61 are set.  The delay of [beep] is an empty loop and has
    no effect in the model; a division by zero is [Oob]. *)
From S2P Require Import Prelude Disk.

Section sound.
Context {D : Type} `{Ports D}.

Definition play (hertz : Z) : cmd D unit :=
  if hertz =? 0 then liftO Oob
  else
    let div := 1193180 / hertz in
    outb 0x43 0xb6;;
    outb 0x42 (u8 div);;
    outb 0x42 (u8 (Z.shiftr div 8));;
    tmp ← inb 0x61;
    if negb (tmp =? Z.lor tmp 3) then outb 0x61 (Z.lor tmp 3) else mret tt.

Definition quit_sound : cmd D unit :=
  tmp ← inb 0x61;
  outb 0x61 (Z.land tmp 0xFC).

Definition beep : cmd D unit := play 440;; quit_sound.
End sound.

(** ** A timer

    After the command 0xb6 the two writes to port 0x42 are the low and the high
    byte of the divisor. *)
Record pit := mk_pit { gate : Z; divisor : Z; low : option Z }.

#[export] Instance pit_ports : Ports pit := {|
  inb := fun port d => Ret (if port =? 0x61 then gate d else 0, d);
  inw := fun _ d => Ret (0, d);
  outb := fun port v d => Ret (tt,
    if port =? 0x43 then mk_pit (gate d) (divisor d) None
    else if port =? 0x42 then
      match low d with
      | None => mk_pit (gate d) (divisor d) (Some v)
      | Some l => mk_pit (gate d) (l + 256 * v) None
      end
    else if port =? 0x61 then mk_pit v (divisor d) (low d)
    else d);
  outw := fun _ _ d => Ret (tt, d)
|}.

Definition sounding (d : pit) : bool := Z.land (gate d) 3 =? 3.

Lemma gate_on g : Z.land (Z.lor g 3) 3 = 3.
Proof.
  apply Z.bits_inj'. intros n Hn. rewrite Z.land_spec, Z.lor_spec.
  by destruct (Z.testbit g n), (Z.testbit 3 n).
Qed.

Lemma gate_off g : Z.land (Z.land g 0xFC) 3 = 0.
Proof. rewrite <- Z.land_assoc. change (Z.land 0xFC 3) with 0. apply Z.land_0_r. Qed.

(** The speaker sounds with the divisor of the frequency, of which only the low
    16 bits reach the timer: below 19 Hz the pitch is wrong.  It is silent
    after [quit_sound]. *)
Lemma play_divisor hertz d :
  0 < hertz < 4294967296 ->
  exists d', play hertz d = Ret (tt, d') /\ sounding d' = true /\ divisor d' = u16 (1193180 / hertz) /\
    (divisor d' = 1193180 / hertz <-> 19 <= hertz) /\
    exists d2, quit_sound d' = Ret (tt, d2) /\ sounding d2 = false /\ divisor d2 = divisor d'.
Proof.
  intros Hh. unfold play. rewrite (proj2 (Z.eqb_neq hertz 0)) by lia.
  set (div := 1193180 / hertz). assert (Hd : 0 <= div) by (apply Z.div_pos; lia).
  assert (Hdiv : u8 div + 256 * u8 (Z.shiftr div 8) = u16 div).
  { rewrite Z.shiftr_div_pow2 by lia. change (2 ^ 8) with 256. unfold u8, u16. zlia. }
  assert (Hiff : u16 div = div <-> 19 <= hertz).
  { assert (Hsmall : forall x, 0 <= x -> (u16 x = x <-> x < 65536)) by (intros; unfold u16; split; zlia).
    rewrite (Hsmall div Hd). unfold div.
    split; intros Hx; [|apply Z.div_lt_upper_bound; nia].
    destruct (Z_lt_le_dec hertz 19) as [Hlt|]; [|done]. assert (65536 <= 1193180 / hertz); [|lia].
    apply Z.div_le_lower_bound; nia. }
  set (g' := Z.lor (gate d) 3).
  exists (mk_pit g' (u16 div) None).
  assert (Hrun : (tmp ← inb 0x61; if negb (tmp =? Z.lor tmp 3) then outb 0x61 (Z.lor tmp 3) else mret tt)
      (mk_pit (gate d) (u16 div) None) = Ret (tt, mk_pit g' (u16 div) None)).
  { unfold mbind, cmd_bind. cbn. fold g'. destruct (Z.eqb_spec (gate d) g') as [E|E]; cbn [negb]; [|done].
    unfold mret, cmd_ret. by rewrite <- E. }
  split_and!; [|by apply Z.eqb_eq, gate_on|done|done|].
  - rewrite <- Hrun, <- Hdiv. reflexivity.
  - exists (mk_pit (Z.land g' 0xFC) (u16 div) None). split; [reflexivity|]. split; [|done].
    unfold sounding. cbn [gate]. by rewrite gate_off.
Qed.
