(* ===== verification/Screen.v ===== *)
(** * Screens of the processes (src/src/task/process.c, struct screen of process.h)

    Every process has a screen of its own: 2000 cells and a cursor.  What a
    process writes while it is not the visible one is drawn there, by a copy of
    the terminal's drawing code; switching copies between the screen and the
    video memory.  The cursor's coordinates are [int]s, and a cell outside the
    array is [Oob]. *)
From S2P Require Import Prelude Config CMem CString Terminal.

Record screen := mk_screen { current_screen : bool; sx : Z; sy : Z; video : list Z }.
Definition sizeof_screen : Z := 4012.
Definition zero_screen : screen := mk_screen false 0 0 (replicate (Z.to_nat (VGA_HEIGHT * VGA_WIDTH)) 0).

Definition set_sx (x : Z) (s : screen) : screen := mk_screen (current_screen s) x (sy s) (video s).
Definition set_sy (y : Z) (s : screen) : screen := mk_screen (current_screen s) (sx s) y (video s).
Definition set_svideo (v : list Z) (s : screen) : screen := mk_screen (current_screen s) (sx s) (sy s) v.

(** A screen and the terminal. *)
Record scrst := mk_scrst { scr : screen; sterm : term }.
Definition on_term {A} (c : cmd term A) : cmd scrst A := fun s =>
  '(a, t) ← c (sterm s); Ret (a, mk_scrst (scr s) t).
Definition modify_scr (f : screen -> screen) : cmd scrst unit := modifyS (fun s => mk_scrst (f (scr s)) (sterm s)).

(** [memcpy(process->screen->video, 0xb8000, sizeof(video))]: 2000 cells. *)
Definition save_video : cmd scrst unit :=
  s ← getS;
  v ← liftO (memcpy_loop (Z.to_nat (VGA_HEIGHT * VGA_WIDTH)) (video (scr s)) (video_mem (sterm s)));
  '(x, y) ← on_term get_cursor;
  putS (mk_scrst (mk_screen false x y v) (sterm s)).

Definition load_video : cmd scrst unit :=
  s ← getS;
  v ← liftO (memcpy_loop (Z.to_nat (VGA_HEIGHT * VGA_WIDTH)) (video_mem (sterm s)) (video (scr s)));
  on_term (modifyS (set_video v));;
  on_term (set_cursor (sx (scr s)) (sy (scr s)));;
  modify_scr (fun c => mk_screen true (sx c) (sy c) (video c)).

Definition put_cell (i c : Z) : cmd scrst unit :=
  s ← getS;
  v ← liftO (store (video (scr s)) i c);
  modify_scr (set_svideo v).

Definition process_copy_row (i : Z) : cmd scrst unit :=
  s ← getS;
  let v := video (scr s) in
  let d := Z.to_nat ((i - 1) * 80) in
  r ← liftO (memcpy_loop (Z.to_nat VGA_WIDTH) (drop d v) (drop (Z.to_nat (i * 80)) v));
  modify_scr (set_svideo (take d v ++ r)).

Fixpoint process_scroll_rows (n : nat) (i : Z) : cmd scrst unit :=
  match n with
  | O => mret tt
  | S n => process_copy_row i;; process_scroll_rows n (i + 1)
  end.

(** The colour is that of the cell under the terminal's cursor. *)
Fixpoint process_blank_last (n : nat) (i : Z) : cmd scrst unit :=
  match n with
  | O => mret tt
  | S n =>
      a ← on_term terminal_get_attr;
      put_cell (24 * VGA_WIDTH + i) (terminal_make_char 32 a);;
      process_blank_last n (i + 1)
  end.

Definition process_scroll_down : cmd scrst unit :=
  process_scroll_rows (Z.to_nat (VGA_HEIGHT - 1)) 1;;
  process_blank_last (Z.to_nat VGA_WIDTH) 0.

(** A new line keeps the column for a form feed. *)
Definition next_line : cmd scrst unit :=
  s ← getS;
  if sy (scr s) =? 24 then process_scroll_down else modify_scr (fun c => set_sy (sy c + 1) c).

(** The end of [process_writechar]: a character is drawn at the cursor. *)
Definition process_draw_char (c colour : Z) : cmd scrst unit :=
  s ← getS;
  (if (sx (scr s) =? 79) && (sy (scr s) =? 24) then process_scroll_down else mret tt);;
  put_cell (sy (scr s) * VGA_WIDTH + sx (scr s)) (terminal_make_char c colour);;
  modify_scr (fun c => set_sx (sx c + 1) c);;
  s ← getS;
  if VGA_WIDTH <=? sx (scr s) then modify_scr (fun c => set_sy (sy c + 1) (set_sx 0 c)) else mret tt.

(** [process_writechar] and [process_backspace] call each other; the second
    only writes a blank. *)
Definition process_writechar_with (backspace : cmd scrst unit) (c colour : Z) : cmd scrst unit :=
  if (c =? 10) || (c =? 13) then next_line;; modify_scr (set_sx 0)
  else if c =? 12 then next_line
  else if c =? 8 then backspace
  else process_draw_char c colour.

Definition process_backspace : cmd scrst unit :=
  s ← getS;
  if (sx (scr s) =? 0) && (sy (scr s) =? 0) then mret tt
  else
    (if sx (scr s) =? 0 then modify_scr (fun c => set_sx VGA_WIDTH (set_sy (sy c - 1) c))
     else modify_scr (fun c => set_sx (sx c - 1) c));;
    a ← on_term terminal_get_attr;
    process_writechar_with (liftO OutOfFuel) 32 a;;
    modify_scr (fun c => set_sx (sx c - 1) c).

Definition process_writechar (c colour : Z) : cmd scrst unit :=
  process_writechar_with process_backspace c colour.

(** The length of the message is read again at every turn. *)
Fixpoint process_print_loop (n : nat) (message : list Z) (i : Z) : cmd scrst unit :=
  match n with
  | O => mret tt
  | S n =>
      c ← liftO (load message i);
      a ← on_term terminal_get_attr;
      process_writechar c a;;
      process_print_loop n message (i + 1)
  end.

Definition process_print (message : list Z) : cmd scrst unit :=
  s ← getS;
  if (current_screen (scr s) : bool) then on_term (print message)
  else
    len ← liftO (strlen message);
    process_print_loop (Z.to_nat len) message 0.
