(* ===== verification/ScreenSpec.v ===== *)
(** * What the processes' screens promise

    Text written to a hidden screen and then shown is the text the terminal
    would have shown; the bounds of the cursor; where the drawing code leaves
    the array. *)
From S2P Require Import Prelude Config CMem CString Terminal Screen.

#[local] Arguments Nat.mul : simpl never.
#[local] Arguments Nat.div : simpl never.
#[local] Arguments Nat.modulo : simpl never.

(** ** Scrolling, through the terminal's own routine *)
Lemma copy_row_sim i v v' r c b f x y t :
  copy_row i (mk_term v r c b) = Ret (tt, mk_term v' r c b) ->
  process_copy_row i (mk_scrst (mk_screen f x y v) t) = Ret (tt, mk_scrst (mk_screen f x y v') t).
Proof.
  unfold copy_row, process_copy_row. rewrite !bind_getS. cbn [video_mem video scr].
  destruct (memcpy_loop _ _ _) as [l| | |] eqn:E; try discriminate.
  rewrite !(bind_liftO _ _ _ l eq_refl). unfold putS, set_video. cbn [terminal_row terminal_col beeps].
  intros [= <-]. done.
Qed.

Lemma process_scroll_rows_spec n v k f x y t :
  length v = 2000%nat -> (1 <= k)%nat -> (k + n = 25)%nat ->
  process_scroll_rows n (Z.of_nat k)
    (mk_scrst (mk_screen f x y (take (80 * (k - 1)) (drop 80 v) ++ drop (80 * (k - 1)) v)) t) =
    Ret (tt, mk_scrst (mk_screen f x y (drop 80 v ++ drop 1920 v)) t).
Proof.
  revert k. induction n as [|n IH]; intros k Hl Hk Hn.
  - replace k with 25%nat by lia. cbn [process_scroll_rows]. unfold mret, cmd_ret.
    rewrite take_ge by (rewrite length_drop; lia). done.
  - cbn [process_scroll_rows]. step (copy_row_sim _ _ _ _ _ _ f x y t (copy_row_spec v k 0 0 0 Hl ltac:(lia))).
    specialize (IH (S k) Hl ltac:(lia) ltac:(lia)). rewrite Nat.sub_succ, Nat.sub_0_r in IH.
    replace (Z.of_nat k + 1) with (Z.of_nat (S k)) by lia. done.
Qed.

Lemma bind_modify_scr {B} g (k : unit -> cmd scrst B) s t :
  (modify_scr g ≫= k) (mk_scrst s t) = k tt (mk_scrst (g s) t).
Proof. done. Qed.

Lemma put_cell_spec i c f x y v t :
  0 <= i < Z.of_nat (length v) ->
  put_cell i c (mk_scrst (mk_screen f x y v) t) =
    Ret (tt, mk_scrst (mk_screen f x y (<[Z.to_nat i := c]> v)) t).
Proof. intros Hi. unfold put_cell. rewrite bind_getS. cbn [scr video]. by rewrite store_Ret. Qed.

Lemma put_cell_oob i c s :
  ~ 0 <= i < Z.of_nat (length (video (scr s))) -> put_cell i c s = Oob.
Proof. intros Hi. unfold put_cell. rewrite bind_getS, store_oob; done. Qed.

(** The attribute under the terminal's cursor. *)
Definition attr_is (t : term) (a : Z) : Prop := terminal_get_attr t = Ret (a, t).

Lemma on_term_attr s t a : attr_is t a -> on_term terminal_get_attr (mk_scrst s t) = Ret (a, mk_scrst s t).
Proof. unfold attr_is, on_term. cbn [sterm]. by intros ->. Qed.

Lemma process_blank_last_spec n P L i f x y t a :
  attr_is t a -> length P = 1920%nat -> length L = 80%nat -> (i + n = 80)%nat ->
  process_blank_last n (Z.of_nat i)
    (mk_scrst (mk_screen f x y (P ++ replicate i (terminal_make_char 32 a) ++ drop i L)) t) =
    Ret (tt, mk_scrst (mk_screen f x y (P ++ replicate 80 (terminal_make_char 32 a))) t).
Proof.
  intros Ha HP HL. revert i. induction n as [|n IH]; intros i Hn.
  { replace i with 80%nat by lia. rewrite drop_ge, app_nil_r by lia. done. }
  cbn [process_blank_last].
  destruct (drop i L) as [|z rest] eqn:Ed; [apply (f_equal length) in Ed; rewrite length_drop in Ed; simpl in Ed; lia|].
  set (V := P ++ replicate i (terminal_make_char 32 a) ++ z :: rest).
  assert (HV : length V = 2000%nat).
  { unfold V. rewrite !length_app, length_replicate, <- Ed, length_drop. lia. }
  step (on_term_attr (mk_screen f x y V) t a Ha).
  assert (Hi : 0 <= 24 * VGA_WIDTH + Z.of_nat i < Z.of_nat (length V)) by (unfold VGA_WIDTH; lia).
  step (put_cell_spec _ (terminal_make_char 32 a) f x y V t Hi). unfold V.
  replace (Z.to_nat (24 * VGA_WIDTH + Z.of_nat i)) with (length P + i)%nat by (unfold VGA_WIDTH; lia).
  rewrite insert_app_r, insert_app_r_alt, length_replicate, Nat.sub_diag by (rewrite length_replicate; lia).
  cbn [insert list_insert]. specialize (IH (S i) ltac:(lia)).
  replace (drop (S i) L) with rest in IH.
  2: { replace (S i) with (i + 1)%nat by lia. rewrite <- drop_drop, Ed. done. }
  rewrite replicate_S_end, <- app_assoc in IH. cbn [app] in IH.
  replace (Z.of_nat i + 1) with (Z.of_nat (S i)) by lia. exact IH.
Qed.

(** One line up, a blank line in the colour of the terminal's cursor. *)
Definition hidden_scrolled (v : list Z) (a : Z) : list Z := drop 80 v ++ replicate 80 (terminal_make_char 32 a).

Lemma process_scroll_down_spec v f x y t a :
  length v = 2000%nat -> attr_is t a ->
  process_scroll_down (mk_scrst (mk_screen f x y v) t) =
    Ret (tt, mk_scrst (mk_screen f x y (hidden_scrolled v a)) t).
Proof.
  intros Hl Ha. unfold process_scroll_down. change (Z.to_nat (VGA_HEIGHT - 1)) with 24%nat.
  change (Z.to_nat VGA_WIDTH) with 80%nat.
  pose proof (process_scroll_rows_spec 24 v 1 f x y t Hl ltac:(lia) ltac:(lia)) as E.
  change (80 * (1 - 1))%nat with 0%nat in E. rewrite take_0, drop_0 in E. cbn [app] in E.
  change (Z.of_nat 1) with 1 in E. step E.
  pose proof (process_blank_last_spec 80 (drop 80 v) (drop 1920 v) 0 f x y t a) as E2.
  rewrite drop_0 in E2. cbn [replicate app] in E2. change (Z.of_nat 0) with 0 in E2.
  by rewrite E2; rewrite ?length_drop; try lia.
Qed.

(** ** One character *)

(** A screen with its linear cursor position, 80 cells a row. *)
Definition scr_of (f : bool) (s : list Z * nat) : screen :=
  mk_screen f (Z.of_nat (snd s mod 80)) (Z.of_nat (snd s / 80)) (fst s).

Definition hidden_step (a : Z) (s : list Z * nat) (c : Z) : list Z * nat :=
  let '(v, p) := s in
  if is_break c then
    if (p / 80 =? 24)%nat then (hidden_scrolled v a, 1920%nat) else (v, (80 * (p / 80 + 1))%nat)
  else (<[p := terminal_make_char c a]> v, S p).

Lemma process_draw_spec v p c a f t :
  length v = 2000%nat -> (p < 1999)%nat ->
  process_draw_char c a (mk_scrst (scr_of f (v, p)) t) =
    Ret (tt, mk_scrst (scr_of f (<[p := terminal_make_char c a]> v, S p)) t).
Proof.
  intros Hl Hp. unfold process_draw_char, scr_of. cbn [fst snd]. rewrite bind_getS. cbn [scr sx sy].
  pose proof (Nat.div_mod_eq p 80) as Hdm. pose proof (Nat.mod_upper_bound p 80 ltac:(lia)) as Hm.
  replace ((Z.of_nat (p mod 80) =? 79) && (Z.of_nat (p / 80) =? 24)) with false.
  2: { symmetry. apply andb_false_iff. rewrite !Z.eqb_neq. lia. }
  rewrite bind_mret. assert (Hi : 0 <= Z.of_nat (p / 80) * VGA_WIDTH + Z.of_nat (p mod 80) < Z.of_nat (length v))
    by (unfold VGA_WIDTH; lia).
  step (put_cell_spec _ (terminal_make_char c a) f (Z.of_nat (p mod 80)) (Z.of_nat (p / 80)) v t Hi).
  replace (Z.to_nat (Z.of_nat (p / 80) * VGA_WIDTH + Z.of_nat (p mod 80))) with p by (unfold VGA_WIDTH; lia).
  unfold modify_scr. rewrite bind_modifyS, bind_getS. unfold set_sx, set_sy. cbn [scr sx sy video current_screen sterm].
  unfold VGA_WIDTH. destruct (80 <=? Z.of_nat (p mod 80) + 1) eqn:E; breflect.
  - unfold modifyS. cbn [scr sx sy video current_screen sterm].
    assert (Hq : S p = ((p / 80 + 1) * 80)%nat) by lia.
    do 3 f_equal. rewrite Hq, Nat.div_mul, Nat.Div0.mod_mul by lia. f_equal. lia.
  - assert (Hd : (S p / 80 = p / 80 /\ S p mod 80 = p mod 80 + 1)%nat).
    { assert (Hq : S p = (p mod 80 + 1 + p / 80 * 80)%nat) by lia.
      rewrite Hq, Nat.div_add, Nat.Div0.mod_add, Nat.div_small, Nat.mod_small by lia. lia. }
    destruct Hd as [-> ->]. unfold mret, cmd_ret. do 3 f_equal. f_equal. lia.
Qed.

Lemma next_line_spec v p a f t :
  length v = 2000%nat -> (p < 2000)%nat -> attr_is t a ->
  next_line (mk_scrst (scr_of f (v, p)) t) =
    Ret (tt, mk_scrst (if (p / 80 =? 24)%nat then scr_of f (hidden_scrolled v a, p)
                       else scr_of f (v, (p + 80)%nat)) t).
Proof.
  intros Hl Hp Ha. unfold next_line. rewrite bind_getS. unfold scr_of at 1. cbn [scr sy fst snd].
  destruct (p / 80 =? 24)%nat eqn:E.
  - apply Nat.eqb_eq in E. rewrite E. cbn [Z.of_nat Z.eqb Pos.eqb]. by apply process_scroll_down_spec.
  - apply Nat.eqb_neq in E. rewrite (proj2 (Z.eqb_neq _ _)) by lia. unfold modify_scr, modifyS, scr_of, set_sy.
    cbn [scr sx sy video current_screen sterm fst snd].
    replace (p + 80)%nat with (p + 1 * 80)%nat by lia. rewrite Nat.div_add, Nat.Div0.mod_add by lia.
    do 4 f_equal. lia.
Qed.

(** A character that is not a control code is drawn. *)
Lemma draws c : text_char c -> is_break c = false ->
  (c =? 12) = false /\ (c =? 8) = false.
Proof. unfold text_char, is_break. intros Hc Hb. breflect. rewrite !Z.eqb_neq. lia. Qed.

Lemma hidden_writechar s f t c a :
  length (fst s) = 2000%nat -> (snd s < 2000)%nat -> attr_is t a -> text_char c ->
  is_break c || (snd s <? 1999)%nat = true ->
  process_writechar c a (mk_scrst (scr_of f s) t) = Ret (tt, mk_scrst (scr_of f (hidden_step a s c)) t).
Proof.
  destruct s as [v p]. cbn [fst snd]. intros Hl Hp Ha Hc Hfit.
  unfold process_writechar, process_writechar_with, hidden_step. fold (is_break c).
  destruct (is_break c) eqn:Eb.
  - step (next_line_spec v p a f t Hl Hp Ha). unfold modify_scr, modifyS. cbn [scr sterm].
    pose proof (Nat.div_mod_eq p 80) as Hdm. pose proof (Nat.mod_upper_bound p 80 ltac:(lia)) as Hm.
    destruct (p / 80 =? 24)%nat eqn:E; unfold scr_of, set_sx; cbn [sx sy video current_screen fst snd].
    + apply Nat.eqb_eq in E. rewrite E. done.
    + replace (p + 80)%nat with (p mod 80 + (p / 80 + 1) * 80)%nat by lia.
      rewrite Nat.div_add, (Nat.div_small (p mod 80)), (Nat.mul_comm 80), Nat.div_mul, Nat.Div0.mod_mul by lia. done.
  - destruct (draws c Hc Eb) as [-> ->]. cbn [orb] in Hfit. apply Nat.ltb_lt in Hfit. by apply process_draw_spec.
Qed.

(** On a screen of one colour the two screens take the same steps. *)
Definition coloured (a : Z) (v : list Z) : Prop := Forall (fun x => x / 256 = a) v.

Lemma coloured_step a s c :
  0 <= a < 256 -> video_ok (fst s) -> coloured a (fst s) -> (snd s < 2000)%nat -> text_char c ->
  hidden_step a s c = screen_step s c /\ coloured a (fst (screen_step s c)).
Proof.
  destruct s as [v p]. cbn [fst snd]. intros Ha Hv Hcol Hp Hc. unfold hidden_step, screen_step.
  destruct (video_ok_cell v p Hv Hp) as (x & Hx & Hr).
  assert (Hxa : v !!! p / 256 = a).
  { rewrite (list_lookup_total_correct _ _ _ Hx). unfold coloured in Hcol. rewrite Forall_forall in Hcol.
    apply Hcol. by eapply list_elem_of_lookup_2. }
  assert (Hcell : forall c, 0 <= c < 128 -> cell a c / 256 = a) by (intros; unfold cell; zlia).
  destruct (is_break c) eqn:Eb; [destruct (p / 80 =? 24)%nat|]; cbn [fst].
  - unfold hidden_scrolled, scrolled. rewrite Hxa, make_char by lia. split; [done|].
    apply Forall_app. split; [by apply Forall_drop|]. apply Forall_replicate. apply Hcell. lia.
  - done.
  - unfold text_char, is_break in *. breflect. rewrite Hxa, make_char by lia. split; [done|].
    apply Forall_insert; [done|]. apply Hcell. lia.
Qed.

Lemma hidden_print_loop s f pre str rest t a :
  video_ok (fst s) -> coloured a (fst s) -> 0 <= a < 256 -> (snd s < 2000)%nat -> attr_is t a ->
  Forall text_char str -> fits s str = true ->
  process_print_loop (length str) (pre ++ str ++ rest) (Z.of_nat (length pre)) (mk_scrst (scr_of f s) t) =
    Ret (tt, mk_scrst (scr_of f (foldl screen_step s str)) t).
Proof.
  revert s pre. induction str as [|c str IH]; intros s pre Hv Hcol Ha Hp Hat Hs Hfit; [done|].
  inversion Hs; subst. cbn [fits] in Hfit. apply andb_true_iff in Hfit as [Hf1 Hf2].
  cbn [length process_print_loop foldl].
  rewrite (bind_liftO _ _ _ c) by (apply load_Some; [lia|]; rewrite Nat2Z.id; by apply list_lookup_middle).
  step (on_term_attr (scr_of f s) t a Hat).
  step (hidden_writechar s f t c a (proj1 Hv) Hp Hat ltac:(done) Hf1).
  destruct (coloured_step a s c Ha Hv Hcol Hp ltac:(done)) as [-> Hcol'].
  destruct (screen_step_ok s c Hv Hp ltac:(done) Hf1) as [Hv' Hp'].
  specialize (IH (screen_step s c) (pre ++ [c]) Hv' Hcol' Ha Hp' Hat ltac:(done) Hf2).
  rewrite length_app, <- app_assoc in IH. cbn [length app] in IH.
  replace (Z.of_nat (length pre) + 1) with (Z.of_nat (length pre + 1)) by lia. exact IH.
Qed.

(** ** Showing a screen *)
Lemma load_video_spec f s t :
  length (fst s) = 2000%nat -> (snd s < 2000)%nat -> length (video_mem t) = 2000%nat ->
  load_video (mk_scrst (scr_of f s) t) = Ret (tt, mk_scrst (scr_of true s) (term_of s (beeps t))).
Proof.
  destruct s as [v p]. cbn [fst snd]. intros Hl Hp Ht. unfold load_video. rewrite bind_getS. cbn [scr sterm].
  change (video (scr_of f (v, p))) with v. change (Z.to_nat (VGA_HEIGHT * VGA_WIDTH)) with 2000%nat.
  rewrite memcpy_loop_spec by lia. rewrite (bind_liftO _ _ _ _ eq_refl), take_ge, drop_ge, app_nil_r by lia.
  pose proof (Nat.div_mod_eq p 80) as Hdm. pose proof (Nat.mod_upper_bound p 80 ltac:(lia)) as Hm.
  unfold on_term, modifyS, set_cursor, VGA_WIDTH, VGA_HEIGHT, scr_of. cbn [sterm mbind outcome_bind sx sy fst snd scr].
  rewrite (proj2 (Z.leb_gt 80 _)), (proj2 (Z.leb_gt 25 _)) by lia.
  unfold mbind, cmd_bind, modifyS, set_row, set_col, modify_scr, modifyS, set_video, term_of.
  cbn [sterm mbind outcome_bind scr sx sy video fst snd video_mem terminal_row terminal_col beeps].
  by rewrite !u16_id by lia.
Qed.

Lemma save_video_spec f s0 s b :
  length (fst s) = 2000%nat -> length (fst s0) = 2000%nat ->
  save_video (mk_scrst (scr_of f s0) (term_of s b)) = Ret (tt, mk_scrst (scr_of false s) (term_of s b)).
Proof.
  destruct s as [v p], s0 as [v0 p0]. cbn [fst snd]. intros Hl Hl0. unfold save_video. rewrite bind_getS.
  cbn [scr sterm]. change (video (scr_of f (v0, p0))) with v0. change (video_mem (term_of (v, p) b)) with v. change (Z.to_nat (VGA_HEIGHT * VGA_WIDTH)) with 2000%nat.
  rewrite memcpy_loop_spec by lia. rewrite (bind_liftO _ _ _ _ eq_refl), take_ge, drop_ge, app_nil_r by lia. done.
Qed.

(** Printing text on a hidden screen, and on the visible one. *)
Lemma text_strlen str rest :
  Forall text_char str -> Z.of_nat (length str) < 2147483648 -> strlen (str ++ 0 :: rest) = Ret (Z.of_nat (length str)).
Proof.
  intros Hs Hlen. apply strlen_spec; [|done]. split; [|by exists rest]. intros Hin. rewrite Forall_forall in Hs.
  specialize (Hs _ Hin). unfold text_char in Hs. lia.
Qed.

Lemma hidden_print s str rest t a :
  video_ok (fst s) -> coloured a (fst s) -> 0 <= a < 256 -> (snd s < 2000)%nat -> attr_is t a ->
  Forall text_char str -> Z.of_nat (length str) < 2147483648 -> fits s str = true ->
  process_print (str ++ 0 :: rest) (mk_scrst (scr_of false s) t) =
    Ret (tt, mk_scrst (scr_of false (foldl screen_step s str)) t).
Proof.
  intros Hv Hcol Ha Hp Hat Hs Hlen Hfit. unfold process_print. rewrite bind_getS. cbn [scr scr_of current_screen].
  rewrite (bind_liftO _ _ _ _ (text_strlen str rest Hs Hlen)), Nat2Z.id.
  by apply (hidden_print_loop s false [] str (0 :: rest) t a).
Qed.

Lemma visible_print sc s str rest b :
  current_screen sc = true -> video_ok (fst s) -> (snd s < 2000)%nat ->
  Forall text_char str -> Z.of_nat (length str) < 2147483648 -> fits s str = true ->
  process_print (str ++ 0 :: rest) (mk_scrst sc (term_of s b)) =
    Ret (tt, mk_scrst sc (term_of (foldl screen_step s str) b)).
Proof.
  intros Hc Hv Hp Hs Hlen Hfit. unfold process_print. rewrite bind_getS. cbn [scr]. rewrite Hc. unfold on_term. cbn [sterm].
  assert (E : print (str ++ 0 :: rest) (term_of s b) = Ret (tt, term_of (foldl screen_step s str) b)).
  { unfold print. rewrite (bind_liftO _ _ _ _ (text_strlen str rest Hs Hlen)), Nat2Z.id.
    by apply (print_loop_spec s [] str (0 :: rest)). }
  by rewrite E.
Qed.

Lemma fold_screen_ok str s :
  Forall text_char str -> video_ok (fst s) -> (snd s < 2000)%nat -> fits s str = true ->
  video_ok (fst (foldl screen_step s str)) /\ (snd (foldl screen_step s str) < 2000)%nat.
Proof.
  intros Hs. revert s. induction Hs as [|c str Hc Hs IH]; intros s Hv Hp Hf; [done|]. cbn [fits] in Hf.
  apply andb_true_iff in Hf as [Hf1 Hf2]. destruct (screen_step_ok s c Hv Hp Hc Hf1). by apply IH.
Qed.

(** ** Properties *)

(** C33: a hidden screen.  Text a process prints while its screen is hidden
    appears, once the screen is shown, exactly as if the screen had been shown
    first: both orders end with the same page and the same cursor on the
    terminal, and this is the page of the abstract screen.  The screen and the
    cell under the terminal's cursor have the same colour, and the text does
    not reach the last cell. *)
Theorem hidden_print_shown v p str rest t a :
  video_ok v -> coloured a v -> 0 <= a < 256 -> (p < 2000)%nat -> length (video_mem t) = 2000%nat -> attr_is t a ->
  Forall text_char str -> Z.of_nat (length str) < 2147483648 -> fits (v, p) str = true ->
  exists s1 s2,
    (process_print (str ++ 0 :: rest);; load_video) (mk_scrst (scr_of false (v, p)) t) = Ret (tt, s1) /\
    (load_video;; process_print (str ++ 0 :: rest)) (mk_scrst (scr_of false (v, p)) t) = Ret (tt, s2) /\
    sterm s1 = sterm s2 /\ sterm s1 = term_of (foldl screen_step (v, p) str) (beeps t).
Proof.
  intros Hv Hcol Ha Hp Ht Hat Hs Hlen Hfit.
  pose proof (fold_screen_ok str (v, p) Hs Hv Hp Hfit) as Hfold. eexists _, _. split; [|split; [|split]].
  - step (hidden_print (v, p) str rest t a Hv Hcol Ha Hp Hat Hs Hlen Hfit).
    apply load_video_spec; [apply Hfold|apply Hfold|done].
  - step (load_video_spec false (v, p) t (proj1 Hv) Hp Ht).
    by apply (visible_print (scr_of true (v, p)) (v, p)).
  - done.
  - done.
Qed.

Lemma hidden_print_shown_witness :
  exists s1 s2,
    (process_print ([72; 105; 10; 33] ++ 0 :: []);; load_video)
      (mk_scrst (scr_of false (replicate 2000 0x0F20, 1930%nat)) (term_of (replicate 2000 0x0F41, 5%nat) 0)) = Ret (tt, s1) /\
    (load_video;; process_print ([72; 105; 10; 33] ++ 0 :: []))
      (mk_scrst (scr_of false (replicate 2000 0x0F20, 1930%nat)) (term_of (replicate 2000 0x0F41, 5%nat) 0)) = Ret (tt, s2) /\
    sterm s1 = sterm s2 /\
    sterm s1 = term_of (foldl screen_step (replicate 2000 0x0F20, 1930%nat) [72; 105; 10; 33]) 0.
Proof.
  apply (hidden_print_shown (replicate 2000 0x0F20) 1930 [72; 105; 10; 33] [] (term_of (replicate 2000 0x0F41, 5%nat) 0) 15).
  - split; [reflexivity|]. apply Forall_replicate. lia.
  - apply Forall_replicate. reflexivity.
  - lia.
  - lia.
  - reflexivity.
  - vm_compute; reflexivity.
  - repeat constructor; unfold text_char; lia.
  - simpl; lia.
  - vm_compute; reflexivity.
Defined.

(** C40: the bounds of a hidden screen.  With the cursor on the page every line
    break and every character drawn before the last cell stays inside the 2000
    cells and leaves the cursor on the page.  A character drawn in the last
    cell leaves the cursor on row 25, and the next one is written behind the
    array. *)
Theorem hidden_screen_bounds v p c a f t :
  length v = 2000%nat -> (p < 2000)%nat -> attr_is t a -> text_char c ->
  (is_break c || (p <? 1999)%nat = true ->
     exists v' p', process_writechar c a (mk_scrst (scr_of f (v, p)) t) = Ret (tt, mk_scrst (scr_of f (v', p')) t) /\
       length v' = 2000%nat /\ (p' < 2000)%nat) /\
  (is_break c || (p <? 1999)%nat = false ->
     exists s', process_writechar c a (mk_scrst (scr_of f (v, p)) t) = Ret (tt, mk_scrst s' t) /\
       sx s' = 0 /\ sy s' = 25 /\ length (video s') = 2000%nat /\
       forall c2 a2, text_char c2 -> is_break c2 = false -> process_writechar c2 a2 (mk_scrst s' t) = Oob).
Proof.
  intros Hl Hp Ha Hc. split.
  - intros Hfit. exists (fst (hidden_step a (v, p) c)), (snd (hidden_step a (v, p) c)).
    rewrite <- surjective_pairing. rewrite (hidden_writechar (v, p) f t c a Hl Hp Ha Hc Hfit).
    pose proof (Nat.div_mod_eq p 80) as Hdm. pose proof (Nat.mod_upper_bound p 80 ltac:(lia)) as Hm.
    split; [done|]. unfold hidden_step. destruct (is_break c); [destruct (p / 80 =? 24)%nat eqn:E|]; cbn [fst snd].
    + unfold hidden_scrolled. rewrite length_app, length_drop, length_replicate. lia.
    + apply Nat.eqb_neq in E. lia.
    + cbn [orb] in Hfit. apply Nat.ltb_lt in Hfit. rewrite length_insert. lia.
  - intros [Eb Hlast]%orb_false_iff. apply Nat.ltb_ge in Hlast. replace p with 1999%nat by lia.
    destruct (draws c Hc Eb) as [E12 E8]. set (v1 := hidden_scrolled v a).
    assert (Hl1 : length v1 = 2000%nat) by (unfold v1, hidden_scrolled; rewrite length_app, length_drop, length_replicate; lia).
    exists (mk_screen f 0 25 (<[1999%nat := terminal_make_char c a]> v1)). cbn [sx sy video].
    split_and!; [|done|done|by rewrite length_insert|].
    + unfold process_writechar, process_writechar_with. fold (is_break c). rewrite Eb, E12, E8.
      unfold process_draw_char. rewrite bind_getS. change (scr_of f (v, 1999%nat)) with (mk_screen f 79 24 v).
      cbn [scr sx sy Z.eqb Pos.eqb andb].
      step (process_scroll_down_spec v f 79 24 t a Hl Ha).
      assert (Hi : 0 <= 24 * VGA_WIDTH + 79 < Z.of_nat (length (hidden_scrolled v a))) by (fold v1; rewrite Hl1; vm_compute; split; done).
      step (put_cell_spec _ (terminal_make_char c a) f 79 24 (hidden_scrolled v a) t Hi). done.
    + intros c2 a2 Hc2 Eb2. destruct (draws c2 Hc2 Eb2) as [E12' E8'].
      unfold process_writechar, process_writechar_with. fold (is_break c2). rewrite Eb2, E12', E8'.
      unfold process_draw_char. rewrite bind_getS. cbn [scr sx sy Z.eqb Pos.eqb andb]. rewrite bind_mret.
      unfold mbind at 1, cmd_bind at 1. rewrite put_cell_oob; [done|]. cbn [scr video]. rewrite length_insert, Hl1.
      vm_compute. intros [_ ?]. discriminate.
Qed.

Lemma hidden_screen_bounds_witness :
  exists s', process_writechar 65 15 (mk_scrst (scr_of false (replicate 2000 0x0F20, 1999%nat))
                                        (term_of (replicate 2000 0x0F20, 0%nat) 0)) =
      Ret (tt, mk_scrst s' (term_of (replicate 2000 0x0F20, 0%nat) 0)) /\
    sx s' = 0 /\ sy s' = 25 /\ length (video s') = 2000%nat /\
    forall c2 a2, text_char c2 -> is_break c2 = false ->
      process_writechar c2 a2 (mk_scrst s' (term_of (replicate 2000 0x0F20, 0%nat) 0)) = Oob.
Proof.
  apply (hidden_screen_bounds (replicate 2000 0x0F20) 1999 65 15 false (term_of (replicate 2000 0x0F20, 0%nat) 0)).
  - reflexivity.
  - lia.
  - vm_compute; reflexivity.
  - unfold text_char; lia.
  - reflexivity.
Defined.

(** Erasing.  Away from column 0 a backspace blanks the cell before the
    cursor and moves there.  At column 0 of a lower row it blanks the cell
    under the cursor instead of the last one of the row above, and leaves the
    column at -1. *)
Theorem hidden_backspace v p a f t :
  length v = 2000%nat -> (p < 2000)%nat -> attr_is t a ->
  (p mod 80 <> 0 ->
     process_writechar 8 a (mk_scrst (scr_of f (v, p)) t) =
       Ret (tt, mk_scrst (scr_of f (<[pred p := terminal_make_char 32 a]> v, pred p)) t))%nat /\
  (p mod 80 = 0 -> p <> 0 ->
     process_writechar 8 a (mk_scrst (scr_of f (v, p)) t) =
       Ret (tt, mk_scrst (mk_screen f (-1) (Z.of_nat (p / 80)) (<[p := terminal_make_char 32 a]> v)) t))%nat.
Proof.
  intros Hl Hp Ha. pose proof (Nat.div_mod_eq p 80) as Hdm. pose proof (Nat.mod_upper_bound p 80 ltac:(lia)) as Hm.
  change (process_writechar 8 a) with process_backspace. unfold process_backspace. rewrite bind_getS.
  change (sx (scr (mk_scrst (scr_of f (v, p)) t))) with (Z.of_nat (p mod 80)).
  change (sy (scr (mk_scrst (scr_of f (v, p)) t))) with (Z.of_nat (p / 80)).
  split; intros Hmod; [|intros Hp0].
  - rewrite (proj2 (Z.eqb_neq (Z.of_nat (p mod 80)) 0)) by lia. cbn [andb].
    rewrite bind_modify_scr.
    assert (Hq : pred p = (p mod 80 - 1 + p / 80 * 80)%nat) by lia.
    assert (Hd : (pred p / 80 = p / 80 /\ pred p mod 80 = p mod 80 - 1)%nat).
    { rewrite Hq, Nat.div_add, Nat.Div0.mod_add, Nat.div_small, Nat.mod_small by lia. lia. }
    change (set_sx _ (scr_of f (v, p))) with (mk_screen f (Z.of_nat (p mod 80) - 1) (Z.of_nat (p / 80)) v).
    replace (mk_screen f (Z.of_nat (p mod 80) - 1) (Z.of_nat (p / 80)) v) with (scr_of f (v, pred p)).
    2: { unfold scr_of. cbn [fst snd]. destruct Hd as [-> ->]. f_equal. lia. }
    step (on_term_attr (scr_of f (v, pred p)) t a Ha).
    unfold process_writechar_with. cbn [Z.eqb Pos.eqb orb].
    step (process_draw_spec v (pred p) 32 a f t Hl ltac:(lia)).
    unfold modify_scr, modifyS, set_sx, scr_of. cbn [scr sx sy video current_screen sterm fst snd].
    replace (S (pred p)) with p by lia. destruct Hd as [-> ->]. do 3 f_equal. f_equal. lia.
  - rewrite Hmod, (proj2 (Z.eqb_neq (Z.of_nat (p / 80)) 0)) by lia. change (Z.of_nat 0 =? 0) with true. cbn [andb].
    rewrite bind_modify_scr.
    change (set_sx VGA_WIDTH _) with (mk_screen f 80 (Z.of_nat (p / 80) - 1) v).
    step (on_term_attr (mk_screen f 80 (Z.of_nat (p / 80) - 1) v) t a Ha).
    unfold process_writechar_with, process_draw_char. cbn [Z.eqb Pos.eqb orb].
    unfold mbind at 1, cmd_bind at 1. rewrite bind_getS. cbn [scr sx sy Z.eqb Pos.eqb andb]. rewrite bind_mret.
    assert (Hi : 0 <= (Z.of_nat (p / 80) - 1) * VGA_WIDTH + 80 < Z.of_nat (length v)) by (unfold VGA_WIDTH; lia).
    step (put_cell_spec _ (terminal_make_char 32 a) f 80 (Z.of_nat (p / 80) - 1) v t Hi).
    replace (Z.to_nat ((Z.of_nat (p / 80) - 1) * VGA_WIDTH + 80)) with p by (unfold VGA_WIDTH; lia).
    unfold modify_scr. rewrite bind_modifyS, bind_getS. cbn [scr sx sy set_sx video current_screen sterm].
    change (VGA_WIDTH <=? 80 + 1) with true. cbn iota. unfold modifyS, set_sx, set_sy.
    cbn [scr sx sy video current_screen sterm mbind outcome_bind]. do 3 f_equal. f_equal. lia.
Qed.

Lemma hidden_backspace_witness :
  process_writechar 8 15 (mk_scrst (scr_of false (replicate 2000 0x0F41, 160%nat)) (term_of (replicate 2000 0x0F20, 0%nat) 0)) =
    Ret (tt, mk_scrst (mk_screen false (-1) 2 (<[160%nat := terminal_make_char 32 15]> (replicate 2000 0x0F41)))
               (term_of (replicate 2000 0x0F20, 0%nat) 0)).
Proof.
  apply (hidden_backspace (replicate 2000 0x0F41) 160 15 false (term_of (replicate 2000 0x0F20, 0%nat) 0)).
  - reflexivity.
  - lia.
  - vm_compute; reflexivity.
  - reflexivity.
  - lia.
Defined.
