(* ===== verification/Elf.v ===== *)
(** * The ELF loader (src/src/loader/formats/elfloader.c, elf.h)

    A loaded file is the list of its bytes with the address they are at.
    Pointers into the file are offsets; a field outside the bytes is [Oob].
    [elf_load] runs on the virtual file system of Vfs.v. *)
From S2P Require Import Prelude Config CMem Kheap PathParser Disk Vfs.

Definition PT_LOAD : Z := 1.
Definition ET_EXEC : Z := 2.
Definition ELFCLASSNONE : Z := 0.
Definition ELFCLASS32 : Z := 1.
Definition ELFDATANONE : Z := 0.
Definition ELFDATA2LSB : Z := 1.
Definition elf_signature : list Z := [0x7f; 69; 76; 70].

(** A little-endian field of [n] bytes. *)
Definition rd (n : nat) (mem : list Z) (off : Z) : outcome Z :=
  if (0 <=? off) && (off + Z.of_nat n <=? Z.of_nat (length mem))
  then Ret (le_combine (take n (drop (Z.to_nat off) mem)))
  else Oob.

(** The fields of [struct elf_header] and [struct elf32_phdr] that are read. *)
Definition e_class (h : list Z) : outcome Z := rd 1 h 4.
Definition e_data (h : list Z) : outcome Z := rd 1 h 5.
Definition e_type (h : list Z) : outcome Z := rd 2 h 16.
Definition e_entry (h : list Z) : outcome Z := rd 4 h 24.
Definition e_phoff (h : list Z) : outcome Z := r ← rd 4 h 28; Ret (s32 r).
Definition e_phnum (h : list Z) : outcome Z := rd 2 h 44.
Definition p_type (m : list Z) (ph : Z) : outcome Z := rd 4 m ph.
Definition p_offset (m : list Z) (ph : Z) : outcome Z := r ← rd 4 m (ph + 4); Ret (s32 r).
Definition p_vaddr (m : list Z) (ph : Z) : outcome Z := rd 4 m (ph + 8).
Definition p_filesz (m : list Z) (ph : Z) : outcome Z := rd 4 m (ph + 16).

Record elf_file := mk_elf {
  elf_memory : Z;
  image : list Z;
  virtual_base_address : Z;
  virtual_end_address : Z;
  physical_base_address : Z;
  physical_end_address : Z
}.

Definition elf_valid_signature (buffer : list Z) : outcome bool :=
  r ← memcmp buffer elf_signature 4; Ret (r =? 0).
Definition elf_valid_class (header : list Z) : outcome bool :=
  c ← e_class header; Ret ((c =? ELFCLASSNONE) || (c =? ELFCLASS32)).
Definition elf_valid_encoding (header : list Z) : outcome bool :=
  d ← e_data header; Ret ((d =? ELFDATANONE) || (d =? ELFDATA2LSB)).
Definition elf_is_executable (header : list Z) : outcome bool :=
  t ← e_type header;
  if t =? ET_EXEC then e ← e_entry header; Ret (SERPAEOS_PROGRAM_VIRTUAL_ADDRESS <=? e)
  else Ret false.
Definition elf_has_program_header (header : list Z) : outcome bool :=
  o ← e_phoff header; Ret (negb (o =? 0)).

(** The conjunction stops at the first test that fails. *)
Definition elf_validate_loaded (header : list Z) : outcome Z :=
  sig ← elf_valid_signature header;
  if negb sig then Ret (- EINFORMAT)
  else
    cls ← elf_valid_class header;
    if negb cls then Ret (- EINFORMAT)
    else
      enc ← elf_valid_encoding header;
      if negb enc then Ret (- EINFORMAT)
      else
        ph ← elf_has_program_header header;
        if (ph : bool) then Ret SERPAEOS_ALL_OK else Ret (- EINFORMAT).

(** The offset of the program header with an index; a file without headers
    would give an address near 0. *)
Definition elf_program_header (header : list Z) (index : Z) : outcome Z :=
  o ← e_phoff header;
  if o =? 0 then Oob else Ret (o + 32 * index).

(** The section headers, which the loader itself does not use: offsets from the
    header. *)
Definition e_shoff (h : list Z) : outcome Z := r ← rd 4 h 32; Ret (s32 r).
Definition e_shstrndx (h : list Z) : outcome Z := rd 2 h 50.
Definition sh_offset (m : list Z) (sh : Z) : outcome Z := r ← rd 4 m (sh + 16); Ret (s32 r).
Definition elf_sheader (header : list Z) : outcome Z := e_shoff header.
Definition elf_section (header : list Z) (index : Z) : outcome Z :=
  o ← elf_sheader header; Ret (o + 40 * index).
Definition elf_str_table (header : list Z) : outcome Z :=
  i ← e_shstrndx header;
  sh ← elf_section header i;
  sh_offset header sh.

Definition elf_process_phdr_pt_load (f : elf_file) (ph : Z) : outcome (Z * elf_file) :=
  vaddr ← p_vaddr (image f) ph;
  off ← p_offset (image f) ph;
  filesz ← p_filesz (image f) ph;
  let f :=
    if (vaddr <=? virtual_base_address f) || (virtual_base_address f =? 0) then
      mk_elf (elf_memory f) (image f) vaddr (virtual_end_address f)
        (u32 (elf_memory f + off)) (physical_end_address f)
    else f in
  let end_virtual_address := u32 (vaddr + filesz) in
  let f :=
    if (virtual_end_address f <=? end_virtual_address) || (virtual_end_address f =? 0) then
      mk_elf (elf_memory f) (image f) (virtual_base_address f) end_virtual_address
        (physical_base_address f) (u32 (elf_memory f + off + filesz))
    else f in
  Ret (0, f).

Definition elf_process_pheader (f : elf_file) (ph : Z) : outcome (Z * elf_file) :=
  t ← p_type (image f) ph;
  if t =? PT_LOAD then elf_process_phdr_pt_load f ph else Ret (0, f).

Fixpoint pheaders_loop (n : nat) (f : elf_file) (i res : Z) : outcome (Z * elf_file) :=
  match n with
  | O => Ret (res, f)
  | S n =>
      ph ← elf_program_header (image f) i;
      '(res, f) ← elf_process_pheader f ph;
      if res <? 0 then Ret (res, f) else pheaders_loop n f (i + 1) res
  end.

Definition elf_process_pheaders (f : elf_file) : outcome (Z * elf_file) :=
  n ← e_phnum (image f);
  pheaders_loop (Z.to_nat n) f 0 0.

Definition elf_process_loaded (f : elf_file) : outcome (Z * elf_file) :=
  res ← elf_validate_loaded (image f);
  if res <? 0 then Ret (res, f) else elf_process_pheaders f.

Section with_vfs.
Context {H : Type} `{Allocator H} {F : Type} (drivers : gmap Z (filesystem_ops (fsst H F))).

(** The result and the loaded file with its address.  The mode is "r"; 132 is
    the size of [struct elf_file]; neither allocation is checked, so a null
    result is written through. *)
Definition elf_load (filename : list Z) : cmd (vfs H F) (Z * option (Z * elf_file)) :=
  elf_file ← on_heap (kz 132);
  res ← fopen drivers filename [114; 0];
  if res <=? 0 then fclose drivers 0;; mret (- EIO, None)
  else
    let fd := res in
    '(res, stat) ← fstat drivers fd (mk_stat 0 0 no_date);
    if res <? 0 then fclose drivers fd;; mret (res, None)
    else
      memory ← on_heap (kz (filesize stat));
      if (elf_file =? 0) || (memory =? 0) then liftO Oob
      else
        '(res, bytes) ← fread drivers fd (s32 (filesize stat));
        if res <? 0 then fclose drivers fd;; mret (res, None)
        else
          '(res, f) ← liftO (elf_process_loaded (mk_elf memory
            (bytes ++ replicate (Z.to_nat (filesize stat) - length bytes) 0) 0 0 0 0));
          fclose drivers fd;;
          if res <? 0 then mret (res, None) else mret (res, Some (elf_file, f)).

(** The contents and the structure are freed; a null file is ignored. *)
Definition elf_close (file : option (Z * elf_file)) : cmd (vfs H F) unit :=
  match file with
  | None => mret tt
  | Some (p, f) => on_heap (kf (elf_memory f));; on_heap (kf p)
  end.
End with_vfs.

(** ** The extent of the loaded segments *)

(** A loadable segment: virtual address, offset and size in the file. *)
Definition segment : Type := Z * Z * Z.

Definition pt_load (m : list Z) (ph : Z) : option segment :=
  match p_type m ph, p_vaddr m ph, p_offset m ph, p_filesz m ph with
  | Ret t, Ret v, Ret o, Ret z => if t =? PT_LOAD then Some (v, o, z) else None
  | _, _, _, _ => None
  end.

(** The segments of the [n] headers from offset [o] on, in file order. *)
Fixpoint segments (m : list Z) (n : nat) (o : Z) : list segment :=
  match n with
  | O => []
  | S n => match pt_load m o with
           | Some g => g :: segments m n (o + 32)
           | None => segments m n (o + 32)
           end
  end.

(** A segment at a nonzero address that does not wrap around. *)
Definition segment_ok (g : segment) : Prop :=
  let '(v, o, z) := g in 0 < v /\ 0 <= z /\ v + z < 4294967296.

Definition segment_base (mem : Z) (g : segment) : Z * Z := let '(v, o, z) := g in (v, u32 (mem + o)).
Definition segment_end (mem : Z) (g : segment) : Z * Z := let '(v, o, z) := g in (v + z, u32 (mem + o + z)).

(** The bounds kept in the file are the least start and the greatest end of
    the segments seen, each with the place of its own bytes. *)
Definition extent (gs : list segment) (f : elf_file) : Prop :=
  match gs with
  | [] => virtual_base_address f = 0 /\ virtual_end_address f = 0 /\
          physical_base_address f = 0 /\ physical_end_address f = 0
  | _ =>
      (exists g, (g ∈ gs) /\ segment_base (elf_memory f) g = (virtual_base_address f, physical_base_address f)) /\
      (exists g, (g ∈ gs) /\ segment_end (elf_memory f) g = (virtual_end_address f, physical_end_address f)) /\
      forall g, g ∈ gs -> virtual_base_address f <= fst (segment_base (elf_memory f) g) /\
                          fst (segment_end (elf_memory f) g) <= virtual_end_address f
  end.

Lemma rd_Ret n m o : 0 <= o -> o + Z.of_nat n <= Z.of_nat (length m) -> exists x, rd n m o = Ret x.
Proof.
  intros H1 H2. unfold rd. rewrite (proj2 (Z.leb_le _ _)), (proj2 (Z.leb_le _ _)) by done. by eexists.
Qed.

(** One more segment. *)
Definition add_segment (f : elf_file) (g : segment) : elf_file :=
  let '(v, o, z) := g in
  let f :=
    if (v <=? virtual_base_address f) || (virtual_base_address f =? 0)
    then mk_elf (elf_memory f) (image f) v (virtual_end_address f) (u32 (elf_memory f + o)) (physical_end_address f)
    else f in
  if (virtual_end_address f <=? u32 (v + z)) || (virtual_end_address f =? 0)
  then mk_elf (elf_memory f) (image f) (virtual_base_address f) (u32 (v + z)) (physical_base_address f)
         (u32 (elf_memory f + o + z))
  else f.

Lemma add_segment_frame f g : elf_memory (add_segment f g) = elf_memory f /\ image (add_segment f g) = image f.
Proof.
  destruct g as [[v o] z]. unfold add_segment.
  destruct ((v <=? _) || _); cbn [elf_memory image virtual_end_address]; destruct ((_ <=? u32 _) || _); done.
Qed.

Lemma add_segment_extent gs f g :
  Forall segment_ok gs -> segment_ok g -> extent gs f -> extent (gs ++ [g]) (add_segment f g).
Proof.
  intros Hgs Hg Hf. destruct g as [[v o] z]. destruct Hg as (Hv & Hz & Hw).
  unfold add_segment. rewrite (u32_id (v + z)) by lia.
  assert (Hin : forall g, (g ∈ gs ++ [(v, o, z)]) <-> (g ∈ gs) \/ g = (v, o, z)) by (intros; set_solver).
  destruct gs as [|g0 gs'].
  - destruct Hf as (Hb & He & _ & _). rewrite Hb, orb_true_r. cbn [virtual_end_address].
    rewrite He, orb_true_r. cbn. split_and!.
    + exists (v, o, z). split; [set_solver|done].
    + exists (v, o, z). split; [set_solver|done].
    + intros g ->%list_elem_of_singleton. simpl. lia.
  - destruct Hf as ((gb & Hgb & Eb) & (ge & Hge & Ee) & Hall).
    assert (Hpos : 0 < virtual_base_address f /\ 0 < virtual_end_address f).
    { rewrite Forall_forall in Hgs. pose proof (Hgs _ Hgb) as Hb. pose proof (Hgs _ Hge) as He.
      destruct gb as [[vb ob] zb], ge as [[ve oe] ze]. cbn in Eb, Ee, Hb, He. injection Eb as <- _.
      injection Ee as <- _. lia. }
    rewrite (proj2 (Z.eqb_neq (virtual_base_address f) 0)), orb_false_r by lia.
    change (extent ((g0 :: gs') ++ [(v, o, z)])) with (fun f0 => extent (g0 :: (gs' ++ [(v, o, z)])) f0).
    cbn beta. unfold extent. rewrite app_comm_cons.
    destruct (v <=? virtual_base_address f) eqn:E1; cbn [virtual_end_address virtual_base_address];
      rewrite (proj2 (Z.eqb_neq (virtual_end_address f) 0)), orb_false_r by lia;
      destruct (virtual_end_address f <=? v + z) eqn:E2; breflect;
      cbn [virtual_end_address virtual_base_address elf_memory physical_base_address physical_end_address];
      (split_and!;
       [ solve [exists (v, o, z); split; [apply Hin; by right|done] | exists gb; split; [apply Hin; by left|done]]
       | solve [exists (v, o, z); split; [apply Hin; by right|done] | exists ge; split; [apply Hin; by left|done]]
       | intros g [Hg | ->]%Hin; [destruct (Hall g Hg); lia | cbn; lia] ]).
Qed.

Lemma process_pheader_spec f ph :
  0 <= ph -> ph + 32 <= Z.of_nat (length (image f)) ->
  elf_process_pheader f ph =
    Ret (0, match pt_load (image f) ph with Some g => add_segment f g | None => f end).
Proof.
  intros H1 H2. unfold elf_process_pheader, elf_process_phdr_pt_load, pt_load, p_type, p_vaddr, p_offset, p_filesz.
  destruct (rd_Ret 4 (image f) ph) as [t ->]; [lia|lia|].
  destruct (rd_Ret 4 (image f) (ph + 8)) as [v ->]; [lia|lia|].
  destruct (rd_Ret 4 (image f) (ph + 4)) as [o ->]; [lia|lia|].
  destruct (rd_Ret 4 (image f) (ph + 16)) as [z ->]; [lia|lia|].
  cbn [mbind outcome_bind]. by destruct (t =? PT_LOAD).
Qed.

Lemma pheaders_loop_spec n f off i gs :
  e_phoff (image f) = Ret off -> 0 < off -> 0 <= i ->
  off + 32 * (i + Z.of_nat n) <= Z.of_nat (length (image f)) ->
  Forall segment_ok gs -> Forall segment_ok (segments (image f) n (off + 32 * i)) -> extent gs f ->
  exists f', pheaders_loop n f i 0 = Ret (0, f') /\ elf_memory f' = elf_memory f /\ image f' = image f /\
    extent (gs ++ segments (image f) n (off + 32 * i)) f'.
Proof.
  intros Ho Hoff. revert f i gs Ho. induction n as [|n IH]; intros f i gs Ho Hi Hl Hgs Hok Hf.
  { exists f. cbn [pheaders_loop segments]. by rewrite app_nil_r. }
  cbn [pheaders_loop segments] in *. unfold elf_program_header. rewrite Ho. cbn [mbind outcome_bind].
  rewrite (proj2 (Z.eqb_neq off 0)) by lia. cbn [mbind outcome_bind]. rewrite process_pheader_spec by lia. cbn [mbind outcome_bind Z.ltb Z.compare].
  replace (off + 32 * i + 32) with (off + 32 * (i + 1)) in * by lia.
  destruct (pt_load (image f) (off + 32 * i)) as [g|] eqn:Eg.
  - inversion Hok as [|? ? Hg Hok']; subst. destruct (add_segment_frame f g) as [Fm Fi].
    destruct (IH (add_segment f g) (i + 1) (gs ++ [g])) as (f' & -> & Hm & Him & He);
      rewrite ?Fi; try done; try lia.
    + apply Forall_app. by split; [|constructor].
    + by apply add_segment_extent.
    + exists f'. rewrite Fi, <- app_assoc in He. rewrite Hm, Him, Fm, Fi. done.
  - destruct (IH f (i + 1) gs) as (f' & -> & Hm & Him & He); try done; try lia. by exists f'.
Qed.

(** Program headers.  For a file whose header passes the checks and whose
    program headers lie inside it, loading succeeds and the recorded virtual
    range is the smallest one that contains every loadable segment, with the
    physical addresses of the bytes of the lowest segment's start and of the
    highest segment's end.  Segments must start above address 0 and not wrap. *)
Theorem elf_extent_correct mem img off n :
  elf_validate_loaded img = Ret SERPAEOS_ALL_OK ->
  e_phoff img = Ret off -> e_phnum img = Ret n -> 0 < off -> 0 <= n ->
  off + 32 * n <= Z.of_nat (length img) ->
  Forall segment_ok (segments img (Z.to_nat n) off) ->
  exists f, elf_process_loaded (mk_elf mem img 0 0 0 0) = Ret (0, f) /\ elf_memory f = mem /\ image f = img /\
    extent (segments img (Z.to_nat n) off) f.
Proof.
  intros Hv Ho Hn Hoff Hn0 Hl Hok. unfold elf_process_loaded, elf_process_pheaders. cbn [image].
  rewrite Hv. cbn [mbind outcome_bind Z.ltb Z.compare SERPAEOS_ALL_OK]. change (SERPAEOS_ALL_OK <? 0) with false.
  cbn [image]. rewrite Hn. cbn [mbind outcome_bind].
  destruct (pheaders_loop_spec (Z.to_nat n) (mk_elf mem img 0 0 0 0) off 0 []) as (f & Hf & Hm & Hi & He);
    try done; cbn [image]; rewrite ?Z.mul_0_r, ?Z.add_0_r; try lia; [done|].
  cbn [image] in He. rewrite Z.mul_0_r, Z.add_0_r in He. by exists f.
Qed.

(** A file with two loadable segments, the second one lower. *)
Definition sample_elf : list Z :=
  [0x7f; 69; 76; 70; 1; 1; 1; 0] ++ replicate 8 0 ++ [2; 0; 3; 0; 1; 0; 0; 0] ++ le_split 4 0x400000 ++
  le_split 4 52 ++ replicate 12 0 ++ [2; 0] ++ replicate 6 0 ++
  (le_split 4 1 ++ le_split 4 0x1000 ++ le_split 4 0x401000 ++ le_split 4 0 ++ le_split 4 0x800 ++ replicate 12 0) ++
  (le_split 4 1 ++ le_split 4 0x2000 ++ le_split 4 0x400000 ++ le_split 4 0 ++ le_split 4 0x200 ++ replicate 12 0).

Lemma elf_extent_correct_witness :
  exists f, elf_process_loaded (mk_elf 0x1000000 sample_elf 0 0 0 0) = Ret (0, f) /\ elf_memory f = 0x1000000 /\
    image f = sample_elf /\ extent (segments sample_elf (Z.to_nat 2) 52) f.
Proof.
  apply (elf_extent_correct 0x1000000 sample_elf 52 2).
  - vm_compute; reflexivity.
  - vm_compute; reflexivity.
  - vm_compute; reflexivity.
  - lia.
  - lia.
  - vm_compute; discriminate.
  - replace (segments sample_elf (Z.to_nat 2) 52) with [(0x401000, 0x1000, 0x800); (0x400000, 0x2000, 0x200)]
      by (vm_compute; reflexivity).
    repeat constructor; lia.
Defined.
