(* ===== verification/Task.v ===== *)
(** * Tasks and the scheduler (src/src/task/task.c, task.h)

    Tasks are heap objects in a doubly linked list with a head, a tail and a
    current task; addresses are [Z] and 0 is null.  An access to an address
    that holds no live task is [Oob]; freeing a task takes it out of the map.
    Of a process the scheduler reads three fields.  [task_return] enters user
    mode and does not come back: the model returns what it loads. *)
From S2P Require Import Prelude Config Kheap Paging.

Record registers := mk_regs {
  edi : Z; esi : Z; ebp : Z; ebx : Z; edx : Z; ecx : Z; eax : Z;
  ip : Z; cs : Z; eflags : Z; esp : Z; ss : Z
}.
Definition zero_regs : registers := mk_regs 0 0 0 0 0 0 0 0 0 0 0 0.

(** [task_return] of task.asm: the registers that user mode is entered with.
    All are those of the record but the flags: these are the flags of the kernel
    at that moment, with interrupts on, whatever was saved for the task. *)
Definition resumption : Type := Z -> registers.
Definition set_flags (v : Z) (r : registers) : registers :=
  mk_regs (edi r) (esi r) (ebp r) (ebx r) (edx r) (ecx r) (eax r) (ip r) (cs r) v (esp r) (ss r).
Definition task_return (r : registers) : resumption := fun kernel_flags => set_flags (Z.lor kernel_flags 0x200) r.

(** [struct interrupt_frame]: the same registers, with a reserved word. *)
Record interrupt_frame := mk_frame {
  f_edi : Z; f_esi : Z; f_ebp : Z; f_reserved : Z; f_ebx : Z; f_edx : Z; f_ecx : Z; f_eax : Z;
  f_ip : Z; f_cs : Z; f_flags : Z; f_esp : Z; f_ss : Z
}.

Record task := mk_task {
  page_directory : paging_4gb_chunk;
  regs : registers;
  task_process : Z;
  main_task : bool;
  next : Z;
  prev : Z
}.
Definition sizeof_task : Z := 68.
Definition null_chunk : paging_4gb_chunk := mk_chunk 0 0.
Definition zero_task : task := mk_task null_chunk zero_regs 0 false 0 0.

Definition set_next (n : Z) (t : task) : task := mk_task (page_directory t) (regs t) (task_process t) (main_task t) n (prev t).
Definition set_prev (p : Z) (t : task) : task := mk_task (page_directory t) (regs t) (task_process t) (main_task t) (next t) p.
Definition set_regs (r : registers) (t : task) : task := mk_task (page_directory t) r (task_process t) (main_task t) (next t) (prev t).
Definition set_process (p : Z) (t : task) : task := mk_task (page_directory t) (regs t) p (main_task t) (next t) (prev t).
Definition set_main (b : bool) (t : task) : task := mk_task (page_directory t) (regs t) (task_process t) b (next t) (prev t).

(** The fields of [struct process] this file reads: the entry point when the
    file is an ELF file, whether it hosts another process, its main task. *)
Record process_view := mk_proc { elf_entry : option Z; currently_hosting : bool; proc_task : Z }.

Section scheduler.
Context {H : Type} `{Allocator H}.

Record tstate := mk_tstate {
  tpaging : pstate H;
  tasks : gmap Z task;
  procs : gmap Z process_view;
  current_task : Z;
  task_head : Z;
  task_tail : Z
}.

Definition set_tasks (ts : gmap Z task) (s : tstate) : tstate :=
  mk_tstate (tpaging s) ts (procs s) (current_task s) (task_head s) (task_tail s).
Definition set_current (c : Z) (s : tstate) : tstate :=
  mk_tstate (tpaging s) (tasks s) (procs s) c (task_head s) (task_tail s).
Definition set_head (h : Z) (s : tstate) : tstate :=
  mk_tstate (tpaging s) (tasks s) (procs s) (current_task s) h (task_tail s).
Definition set_tail (t : Z) (s : tstate) : tstate :=
  mk_tstate (tpaging s) (tasks s) (procs s) (current_task s) (task_head s) t.

Definition on_paging {A} (c : cmd (pstate H) A) : cmd tstate A := fun s =>
  '(a, p) ← c (tpaging s);
  Ret (a, mk_tstate p (tasks s) (procs s) (current_task s) (task_head s) (task_tail s)).

Definition load_task (p : Z) : cmd tstate task :=
  s ← getS;
  match tasks s !! p with
  | Some t => mret t
  | None => liftO Oob
  end.

Definition update_task (p : Z) (f : task -> task) : cmd tstate unit :=
  t ← load_task p;
  modifyS (fun s => set_tasks (<[p := f t]> (tasks s)) s).

Definition load_process (p : Z) : cmd tstate process_view :=
  s ← getS;
  match procs s !! p with
  | Some v => mret v
  | None => liftO Oob
  end.

(** [kzalloc(sizeof(struct task))]: a zeroed task appears at the address. *)
Definition kzalloc_task : cmd tstate Z :=
  p ← on_paging (pk (kz sizeof_task));
  modifyS (fun s => if p =? 0 then s else set_tasks (<[p := zero_task]> (tasks s)) s);;
  mret p.

Definition kfree_task (p : Z) : cmd tstate unit :=
  on_paging (pk (kf p));;
  modifyS (fun s => set_tasks (delete p (tasks s)) s).

Definition task_current : cmd tstate Z := gets current_task.

Definition task_get_next : cmd tstate Z :=
  c ← task_current;
  t ← load_task c;
  if next t =? 0 then gets task_head else mret (next t).

Definition task_list_remove (task : Z) : cmd tstate unit :=
  t ← load_task task;
  (if negb (prev t =? 0) then update_task (prev t) (set_next (next t)) else mret tt);;
  s ← getS;
  (if task =? task_head s then modifyS (set_head (next t)) else mret tt);;
  s ← getS;
  (if task =? task_tail s then modifyS (set_tail (prev t)) else mret tt);;
  s ← getS;
  if task =? current_task s then n ← task_get_next; modifyS (set_current n) else mret tt.

Definition task_free (task : Z) : cmd tstate Z :=
  t ← load_task task;
  (if (main_task t : bool) then on_paging (paging_free_4gb (page_directory t)) else mret tt);;
  task_list_remove task;;
  kfree_task task;;
  mret 0.

(** The next pointer is read after the task may have been freed. *)
Fixpoint free_all_loop (fuel : nat) (current process : Z) : cmd tstate unit :=
  if current =? 0 then mret tt
  else match fuel with
       | O => liftO OutOfFuel
       | S fuel =>
           t ← load_task current;
           (if task_process t =? process then task_free current;; mret tt else mret tt);;
           t ← load_task current;
           free_all_loop fuel (next t) process
       end.

Definition task_free_all_for_process (fuel : nat) (process : Z) : cmd tstate unit :=
  s ← getS; free_all_loop fuel (task_head s) process.

Definition task_switch (task : Z) : cmd tstate Z :=
  modifyS (set_current task);;
  t ← load_task task;
  on_paging (paging_switch (page_directory t));;
  mret 0.

Definition task_save_state (task : Z) (f : interrupt_frame) : cmd tstate unit :=
  update_task task (set_regs (mk_regs (f_edi f) (f_esi f) (f_ebp f) (f_ebx f) (f_edx f) (f_ecx f) (f_eax f)
                                (f_ip f) (f_cs f) (f_flags f) (f_esp f) (f_ss f))).

Definition task_current_save_state (f : interrupt_frame) : cmd tstate unit :=
  c ← task_current;
  if c =? 0 then liftO Panic else task_save_state c f.

(** [user_registers] loads the user data segment; it is not modelled. *)
Definition task_page : cmd tstate Z :=
  c ← task_current; task_switch c;; mret 0.

Definition task_page_task (task : Z) : cmd tstate Z :=
  t ← load_task task;
  on_paging (paging_switch (page_directory t));;
  mret 0.

Definition task_run_first_ever_task : cmd tstate resumption :=
  s ← getS;
  if current_task s =? 0 then liftO Panic
  else
    task_switch (task_head s);;
    t ← load_task (task_head s);
    mret (task_return (regs t)).

(** The registers of a new task: only the segment registers, the stack
    pointer and the instruction pointer are not zero. *)
Definition start_regs (addr : Z) : registers :=
  mk_regs 0 0 0 0 0 0 0 addr USER_CODE_SEGMENT 0 SERPAEOS_PROGRAM_VIRTUAL_STACK_ADDRESS_START USER_DATA_SEGMENT.

Definition task_init (task process : Z) : cmd tstate Z :=
  update_task task (fun _ => zero_task);;
  dir ← on_paging (paging_new_4gb (Z.lor PAGING_IS_PRESENT PAGING_ACCESS_FROM_ALL));
  update_task task (fun t => mk_task dir (regs t) (task_process t) (main_task t) (next t) (prev t));;
  if chunk_ptr dir =? 0 then mret (- EIO)
  else
    p ← load_process process;
    let addr := match elf_entry p with Some e => e | None => SERPAEOS_PROGRAM_VIRTUAL_ADDRESS end in
    update_task task (fun t => set_main true (set_process process (set_regs (start_regs addr) t)));;
    mret 0.

(** The new task becomes the whole list or its last element. *)
Definition task_append (task : Z) : cmd tstate unit :=
  s ← getS;
  if task_head s =? 0 then
    modifyS (fun s => set_current task (set_tail task (set_head task s)))
  else
    update_task (task_tail s) (set_next task);;
    update_task task (set_prev (task_tail s));;
    modifyS (set_tail task).

(** The task or, as a pointer, the error. *)
Definition task_new (process : Z) : cmd tstate Z :=
  task ← kzalloc_task;
  res ← (if task =? 0 then mret (- ENOMEM)
         else
           res ← task_init task process;
           if negb (res =? SERPAEOS_ALL_OK) then mret res
           else task_append task;; mret res);
  if ISERR res then task_free task;; mret res else mret task.

Definition task_add_to_process (process addr : Z) : cmd tstate Z :=
  task ← kzalloc_task;
  res ← (if task =? 0 then mret (- ENOMEM)
         else
           update_task task (fun _ => zero_task);;
           p ← load_process process;
           pt ← load_task (proc_task p);
           let dir := page_directory pt in
           update_task task (fun t => mk_task dir (regs t) (task_process t) (main_task t) (next t) (prev t));;
           if chunk_ptr dir =? 0 then mret (- EIO)
           else
             update_task task (fun t => set_process process (set_regs (start_regs addr) t));;
             task_append task;;
             mret 0);
  if ISERR res then task_free task;; mret res else mret task.

(** [task_next]: tasks whose process hosts another one are passed over. *)
Fixpoint next_loop (fuel : nat) (next_task : Z) : cmd tstate Z :=
  if next_task =? 0 then mret 0
  else match fuel with
       | O => liftO OutOfFuel
       | S fuel =>
           t ← load_task next_task;
           p ← load_process (task_process t);
           if negb (currently_hosting p) then mret next_task
           else next_loop fuel (next t)
       end.

Definition task_next (fuel : nat) : cmd tstate resumption :=
  n ← task_get_next;
  next_task ← next_loop fuel n;
  if next_task =? 0 then liftO Panic
  else
    task_switch next_task;;
    t ← load_task next_task;
    mret (task_return (regs t)).

(** The loop compares with the head only after a step. *)
Fixpoint main_task_loop (fuel : nat) (p res : Z) : cmd tstate Z :=
  match fuel with
  | O => liftO OutOfFuel
  | S fuel =>
      t ← load_task res;
      if (task_process t =? p) && main_task t then mret res
      else
        s ← getS;
        if next t =? task_head s then mret 0 else main_task_loop fuel p (next t)
  end.

Definition task_get_main_task (fuel : nat) (p : Z) : cmd tstate Z :=
  s ← getS; main_task_loop fuel p (task_head s).

(** The copy keeps the original's [next] pointer. *)
Definition task_duplicate (task : Z) : cmd tstate Z :=
  new ← kzalloc_task;
  if new =? 0 then mret 0
  else
    t ← load_task task;
    update_task new (fun _ => t);;
    s ← getS;
    update_task (task_tail s) (set_next new);;
    update_task new (set_prev (task_tail s));;
    modifyS (set_tail new);;
    mret new.

Fixpoint duplicate_loop (fuel : nat) (current p owner : Z) : cmd tstate bool :=
  if current =? 0 then mret true
  else match fuel with
       | O => liftO OutOfFuel
       | S fuel =>
           t ← load_task current;
           ok ← (if task_process t =? p then
                   tmp ← task_duplicate current;
                   if tmp =? 0 then mret false
                   else update_task tmp (set_process owner);; mret true
                 else mret true);
           if (ok : bool) then
             t ← load_task current;
             duplicate_loop fuel (next t) p owner
           else mret false
       end.

Definition task_duplicate_all_for_process (fuel : nat) (p owner : Z) : cmd tstate Z :=
  if (p =? 0) || (owner =? 0) then mret 0
  else
    s ← getS;
    ok ← duplicate_loop fuel (task_head s) p owner;
    if (ok : bool) then task_get_main_task fuel owner
    else task_free_all_for_process fuel owner;; mret 0.

Definition task_virtual_address_to_physical (task virt : Z) : cmd tstate Z :=
  t ← load_task task;
  s ← getS;
  liftO (paging_get_physical_address (parrays (tpaging s)) (directory_entry (page_directory t)) virt).
End scheduler.
Arguments tstate H : clear implicits.
