(* ===== verification/TaskSpec.v ===== *)
(** * The run order of the scheduler

    The linked tasks as a list: what [task_next] picks, that every runnable
    task gets its turn, and what adding and freeing tasks do to the order. *)
From S2P Require Import Prelude Config Kheap Paging PagingSpec AddressSpace Task.

#[local] Arguments Nat.modulo : simpl never.

(** The registers in an interrupt frame. *)
Definition frame_regs (f : interrupt_frame) : registers :=
  mk_regs (f_edi f) (f_esi f) (f_ebp f) (f_ebx f) (f_edx f) (f_ecx f) (f_eax f)
    (f_ip f) (f_cs f) (f_flags f) (f_esp f) (f_ss f).

Section order.
Context {H : Type} `{AllocatorOk H}.
Implicit Types s : tstate H.

(** The tasks reached from the head through [next] are [l]. *)
Record run_order s (l : list Z) : Prop := {
  ro_nodup : NoDup l;
  ro_null : 0 ∉ l;
  ro_task : forall i x, l !! i = Some x ->
    exists t p, tasks s !! x = Some t /\ next t = default 0 (l !! S i) /\ procs s !! task_process t = Some p;
  ro_head : task_head s = default 0 (l !! 0%nat)
}.

Definition hosting s (x : Z) : bool :=
  match tasks s !! x with
  | Some t => match procs s !! task_process t with Some p => currently_hosting p | None => false end
  | None => false
  end.

Definition runnable s (x : Z) : Prop := hosting s x = false.
#[global] Instance runnable_dec s x : Decision (runnable s x).
Proof. unfold runnable. apply _. Defined.

Lemma load_task_spec s p t : tasks s !! p = Some t -> load_task p s = Ret (t, s).
Proof. intros E. unfold load_task. rewrite bind_getS, E. done. Qed.

Lemma load_process_spec s p v : procs s !! p = Some v -> load_process p s = Ret (v, s).
Proof. intros E. unfold load_process. rewrite bind_getS, E. done. Qed.

Lemma update_task_spec s p t f :
  tasks s !! p = Some t -> update_task p f s = Ret (tt, set_tasks (<[p := f t]> (tasks s)) s).
Proof. intros E. unfold update_task. step (load_task_spec s p t E). done. Qed.

Lemma ro_nonzero s l i x : run_order s l -> l !! i = Some x -> x <> 0.
Proof. intros Ho Hi ->. apply (ro_null _ _ Ho). by eapply list_elem_of_lookup_2. Qed.

(** The search takes the first runnable task from its start to the end of
    the list. *)
Lemma next_loop_spec s l fuel j :
  run_order s l -> (length l <= j + fuel)%nat ->
  next_loop fuel (default 0 (l !! j)) s = Ret (default 0 (head (filter (runnable s) (drop j l))), s).
Proof.
  intros Ho. revert j. induction fuel as [|fuel IH]; intros j Hf.
  { rewrite lookup_ge_None_2, drop_ge by lia. done. }
  destruct (l !! j) as [x|] eqn:Ej.
  2: { apply lookup_ge_None in Ej. rewrite drop_ge by lia. done. }
  destruct (ro_task _ _ Ho j x Ej) as (t & p & Ht & Hn & Hp).
  pose proof (ro_nonzero _ _ _ _ Ho Ej) as Hx. cbn [default from_option next_loop]. change (id x) with x.
  rewrite (proj2 (Z.eqb_neq x 0)) by done. step (load_task_spec s x t Ht).
  step (load_process_spec s _ p Hp). rewrite (drop_S l x j) by done. rewrite filter_cons.
  assert (Hh : hosting s x = currently_hosting p) by (unfold hosting; by rewrite Ht, Hp).
  destruct (currently_hosting p) eqn:Eh; cbn [negb].
  - rewrite decide_False by (unfold runnable; by rewrite Hh). rewrite Hn. apply IH. lia.
  - rewrite decide_True by done. done.
Qed.

(** The index after [i], around the end of the list. *)
Definition after (l : list Z) (i : nat) : nat := if (S i =? length l)%nat then 0%nat else S i.

Lemma task_get_next_spec s l i :
  run_order s l -> l !! i = Some (current_task s) ->
  task_get_next s = Ret (default 0 (l !! after l i), s).
Proof.
  intros Ho Hi. destruct (ro_task _ _ Ho i _ Hi) as (t & p & Ht & Hn & Hp).
  unfold task_get_next, task_current.
  rewrite (bind_Ret (gets current_task) _ s (current_task s) s eq_refl).
  step (load_task_spec s _ t Ht). unfold after. apply lookup_lt_Some in Hi as Hlt.
  destruct (S i =? length l)%nat eqn:E.
  - apply Nat.eqb_eq in E. rewrite lookup_ge_None_2 in Hn by lia. rewrite Hn. change (default 0 None =? 0) with true. cbn [Z.eqb].
    unfold gets. by rewrite (ro_head _ _ Ho).
  - apply Nat.eqb_neq in E. destruct (lookup_lt_is_Some_2 l (S i)) as [y Hy]; [lia|].
    rewrite Hy in *. change (next t = y) in Hn. rewrite Hn, (proj2 (Z.eqb_neq y 0)); [done|].
    by eapply ro_nonzero.
Qed.

(** The state after a switch to a task. *)
Definition switched s (x : Z) (t : task) : tstate H :=
  mk_tstate (mk_pstate (palloc (tpaging s)) (parrays (tpaging s)) (directory_entry (page_directory t)))
    (tasks s) (procs s) x (task_head s) (task_tail s).

Lemma task_next_spec s l fuel i :
  run_order s l -> l !! i = Some (current_task s) -> (length l <= fuel)%nat ->
  task_next fuel s =
    match head (filter (runnable s) (drop (after l i) l)) with
    | Some x => match tasks s !! x with
                | Some t => Ret (task_return (regs t), switched s x t)
                | None => Oob
                end
    | None => Panic
    end.
Proof.
  intros Ho Hi Hf. unfold task_next. step (task_get_next_spec s l i Ho Hi).
  step (next_loop_spec s l fuel (after l i) Ho ltac:(lia)).
  destruct (head (filter _ (drop (after l i) l))) as [x|] eqn:Eh; [|done]. change (default 0 (Some x)) with x.
  assert (Hx : x ∈ l).
  { apply head_Some_elem_of in Eh. apply list_elem_of_filter in Eh as [_ Eh].
    eapply list_elem_of_lookup_1 in Eh as [k Hk]. rewrite lookup_drop in Hk. by eapply list_elem_of_lookup_2. }
  apply list_elem_of_lookup_1 in Hx as [k Hk]. destruct (ro_task _ _ Ho k x Hk) as (t & p & Ht & _ & _).
  rewrite (proj2 (Z.eqb_neq x 0)) by (by eapply ro_nonzero). rewrite Ht.
  unfold task_switch. rewrite (bind_Ret _ _ _ 0 (switched s x t)).
  - by step (load_task_spec (switched s x t) x t Ht).
  - rewrite bind_modifyS. step (load_task_spec (set_current x s) x t Ht). done.
Qed.

Lemma switched_order s l x t : run_order s l -> run_order (switched s x t) l.
Proof. intros [? ? ? ?]. by split. Qed.

(** [k] clock ticks, each one a [task_next]. *)
Fixpoint ticks (fuel k : nat) : cmd (tstate H) unit :=
  match k with
  | O => mret tt
  | S k => task_next fuel;; ticks fuel k
  end.

Lemma after_mod l i : (i < length l)%nat -> after l i = (S i mod length l)%nat.
Proof.
  intros Hi. unfold after. destruct (S i =? length l)%nat eqn:E.
  - apply Nat.eqb_eq in E. rewrite E, Nat.Div0.mod_same. done.
  - apply Nat.eqb_neq in E. rewrite Nat.mod_small by lia. done.
Qed.

Lemma ticks_spec s l fuel i k :
  run_order s l -> l !! i = Some (current_task s) -> (length l <= fuel)%nat ->
  (forall x, x ∈ l -> runnable s x) ->
  exists s', ticks fuel k s = Ret (tt, s') /\ run_order s' l /\ tasks s' = tasks s /\
    l !! ((i + k) mod length l)%nat = Some (current_task s').
Proof.
  intros Ho Hi Hf Hr. revert s i Ho Hi Hr. induction k as [|k IH]; intros s i Ho Hi Hr.
  { exists s. apply lookup_lt_Some in Hi as Hlt. rewrite Nat.add_0_r, Nat.mod_small by done. done. }
  apply lookup_lt_Some in Hi as Hlt. cbn [ticks].
  assert (Ha : (after l i < length l)%nat) by (rewrite after_mod by done; apply Nat.mod_upper_bound; lia).
  destruct (lookup_lt_is_Some_2 l (after l i) Ha) as [y Hy].
  destruct (ro_task _ _ Ho _ y Hy) as (t & p & Ht & Hn & Hp).
  assert (E : task_next fuel s = Ret (task_return (regs t), switched s y t)).
  { rewrite (task_next_spec s l fuel i) by done. rewrite (drop_S l y) by done. rewrite filter_cons.
    rewrite decide_True by (apply Hr; by eapply list_elem_of_lookup_2). cbn [head]. by rewrite Ht. }
  step E. destruct (IH (switched s y t) (after l i)) as (s' & Hs' & Ho' & Ht' & Hc').
  - by apply switched_order.
  - done.
  - done.
  - exists s'. split_and!; [done..|]. rewrite <- Hc'. f_equal. rewrite after_mod by done.
    rewrite Nat.Div0.add_mod_idemp_l. f_equal. lia.
Qed.

(** ** Adding a task *)

(** The task objects are live allocations; the tail is the last task. *)
Record store_ok s (l : list Z) : Prop := {
  so_alloc : alloc_ok (palloc (tpaging s));
  so_live : dom (tasks s) ⊆ live (tpaging s);
  so_tail : task_tail s = default 0 (last l)
}.

(** [task_append] of a task whose object is there but not in the list. *)
Lemma task_append_spec s l x t p :
  run_order s l -> task_tail s = default 0 (last l) -> (x ∉ l) -> x <> 0 ->
  tasks s !! x = Some t -> next t = 0 -> procs s !! task_process t = Some p ->
  prev t = 0 ->
  exists s', task_append x s = Ret (tt, s') /\ run_order s' (l ++ [x]) /\ task_tail s' = x /\
    tasks s' !! x = Some (set_prev (default 0 (last l)) t) /\ dom (tasks s') = dom (tasks s) /\
    tpaging s' = tpaging s /\ current_task s' = (if bool_decide (l = []) then x else current_task s).
Proof.
  intros Ho Htail Hnx Hx Ht Hn Hp Hpr. unfold task_append. rewrite bind_getS, (ro_head _ _ Ho).
  destruct l as [|h l].
  { eexists. split; [done|]. split_and!; try done.
    - split; [apply NoDup_singleton|set_solver| |done].
      intros [|i] y Hy; [|done]. injection Hy as <-. exists t, p. done.
    - cbn. rewrite Ht. by destruct t; simpl in *; subst. }
  change (default 0 ((h :: l) !! 0%nat)) with h.
  rewrite (proj2 (Z.eqb_neq h 0)) by (by eapply (ro_nonzero _ _ 0)).
  set (l0 := h :: l) in *. destruct (last l0) as [w|] eqn:El; [|by apply last_None in El].
  change (default 0 (Some w)) with w in *. rewrite Htail.
  assert (Hw : l0 !! pred (length l0) = Some w) by (by rewrite <- last_lookup).
  destruct (ro_task _ _ Ho _ w Hw) as (tw & pw & Htw & Hnw & Hpw).
  assert (Hwx : w <> x) by (intros ->; apply Hnx; by eapply list_elem_of_lookup_2).
  step (update_task_spec s w tw (set_next x) Htw).
  set (s1 := set_tasks _ s). assert (Ht1 : tasks s1 !! x = Some t) by (unfold s1; cbn; by rewrite lookup_insert_ne).
  step (update_task_spec s1 x t (set_prev w) Ht1).
  eexists. split; [done|]. split_and!; try done.
  - split.
    + apply NoDup_app. split_and!; [apply Ho| |apply NoDup_singleton]. intros y Hy ->%list_elem_of_singleton. done.
    + rewrite elem_of_app, list_elem_of_singleton. intros [?%(ro_null _ _ Ho)| ?]; [done|by subst].
    + intros i y Hy. destruct (decide (i < length l0)%nat) as [Hi|Hi].
      * rewrite lookup_app_l in Hy by done. destruct (ro_task _ _ Ho i y Hy) as (ty & py & Hty & Hny & Hpy).
        assert (y <> x) by (intros ->; apply Hnx; by eapply list_elem_of_lookup_2).
        destruct (decide (S i < length l0)%nat) as [Hi2|Hi2].
        -- rewrite lookup_app_l by done. exists ty, py. cbn [tasks set_tail set_tasks s1]. rewrite lookup_insert_ne by done.
           assert (w <> y).
           { intros ->. pose proof (NoDup_lookup _ _ _ _ (ro_nodup _ _ Ho) Hw Hy). lia. }
           by rewrite lookup_insert_ne by done.
        -- assert (i = pred (length l0)) by lia. subst i. assert (y = w) by congruence. subst y.
           exists (set_next x tw), pw. cbn [tasks set_tail set_tasks s1]. rewrite lookup_insert_ne, lookup_insert_eq by done.
           split; [done|]. split; [|done]. replace (S (pred (length l0))) with (length l0 + 0)%nat by lia.
           by rewrite lookup_app_r, Nat.add_comm, Nat.add_sub by lia.
      * rewrite lookup_app_r in Hy by lia. destruct (i - length l0)%nat as [|k] eqn:Ek; [|done].
        injection Hy as <-. exists (set_prev w t), p. cbn [tasks set_tail set_tasks s1]. rewrite lookup_insert_eq. split; [done|].
        split; [|done]. change (next (set_prev w t)) with (next t). rewrite Hn, lookup_ge_None_2; [done|]. rewrite length_app. change (length [x]) with 1%nat. lia.
    + cbn [task_head set_tail set_tasks s1]. by rewrite (ro_head _ _ Ho).
  - cbn. by rewrite lookup_insert_eq.
  - cbn. rewrite !dom_insert_L. assert (w ∈ dom (tasks s)) by (by apply elem_of_dom_2 in Htw).
    assert (x ∈ dom (tasks s)) by (by apply elem_of_dom_2 in Ht). set_solver.
Qed.
Lemma on_paging_spec {A} (c : cmd (pstate H) A) s a ps :
  c (tpaging s) = Ret (a, ps) ->
  on_paging c s = Ret (a, mk_tstate ps (tasks s) (procs s) (current_task s) (task_head s) (task_tail s)).
Proof. intros E. unfold on_paging. by rewrite E. Qed.

(** A run order only depends on the tasks in it. *)
Lemma run_order_frame s s' l :
  run_order s l -> (forall x, x ∈ l -> tasks s' !! x = tasks s !! x) -> procs s' = procs s ->
  task_head s' = task_head s -> run_order s' l.
Proof.
  intros [Hnd Hz Ht Hh] Hts Hps Hhd. split; [done|done| |congruence].
  intros i x Hi. rewrite Hts, Hps by (by eapply list_elem_of_lookup_2). by apply Ht.
Qed.

Lemma kzalloc_task_spec s :
  alloc_ok (palloc (tpaging s)) -> (0 < proom (tpaging s))%nat ->
  exists p s', kzalloc_task s = Ret (p, s') /\ p <> 0 /\ (p ∉ live (tpaging s)) /\
    tasks s' = <[p := zero_task]> (tasks s) /\ procs s' = procs s /\ current_task s' = current_task s /\
    task_head s' = task_head s /\ task_tail s' = task_tail s /\ alloc_ok (palloc (tpaging s')) /\
    live (tpaging s') = {[p]} ∪ live (tpaging s) /\ S (proom (tpaging s')) = proom (tpaging s).
Proof.
  intros Hok Hr. destruct (pk_kz sizeof_task (tpaging s) Hok) as (p & h & Hk & Hp & _ & Hn & Hok' & Hl & Hr');
    [unfold sizeof_task; lia|done|].
  exists p. eexists. split.
  - unfold kzalloc_task. step (on_paging_spec _ s p _ Hk). rewrite bind_modifyS.
    rewrite (proj2 (Z.eqb_neq p 0)) by lia. done.
  - cbn. split_and!; try done. lia.
Qed.

(** The initial contents of a task's object. *)
Definition started (dir : paging_4gb_chunk) (pv : process_view) (process : Z) : task :=
  mk_task dir (start_regs (default SERPAEOS_PROGRAM_VIRTUAL_ADDRESS (elf_entry pv))) process true 0 0.

Lemma task_init_spec s x process pv :
  alloc_ok (palloc (tpaging s)) -> (1026 <= proom (tpaging s))%nat -> tasks s !! x = Some zero_task ->
  procs s !! process = Some pv ->
  exists dir s', task_init x process s = Ret (0, s') /\
    tasks s' = <[x := started dir pv process]> (tasks s) /\
    procs s' = procs s /\ current_task s' = current_task s /\ task_head s' = task_head s /\
    task_tail s' = task_tail s /\ alloc_ok (palloc (tpaging s')) /\
    live (tpaging s) ⊆ live (tpaging s') /\
    forall vp, 0 <= vp < NPAGES -> pte (parrays (tpaging s')) (directory_entry dir) vp = Ret (page_entry vp 5).
Proof.
  intros Hok Hr Hx Hp. unfold task_init. step (update_task_spec s x zero_task (fun _ => zero_task) Hx).
  set (s1 := set_tasks _ s).
  destruct (new_4gb_spec 5 (tpaging s1) Hok) as
    (dir & tabs & ps & Hnew & Hok2 & _ & Hpte & Hl & _ & _ & _ & _ & Hc & _); [lia|done|].
  change (Z.lor PAGING_IS_PRESENT PAGING_ACCESS_FROM_ALL) with 5. step (on_paging_spec _ s1 dir ps Hnew).
  set (s2 := mk_tstate ps _ _ _ _ _).
  assert (H2 : tasks s2 !! x = Some zero_task) by apply lookup_insert_eq.
  step (update_task_spec s2 x zero_task
          (fun t => mk_task dir (regs t) (task_process t) (main_task t) (next t) (prev t)) H2). set (s3 := set_tasks _ s2).
  rewrite (proj2 (Z.eqb_neq (chunk_ptr dir) 0)) by done.
  assert (H3 : procs s3 !! process = Some pv) by done. step (load_process_spec s3 process pv H3).
  assert (H4 : tasks s3 !! x = Some (mk_task dir zero_regs 0 false 0 0)) by apply lookup_insert_eq.
  step (update_task_spec s3 x _ (fun t => set_main true (set_process process (set_regs (start_regs
          (match elf_entry pv with Some e => e | None => SERPAEOS_PROGRAM_VIRTUAL_ADDRESS end)) t))) H4).
  exists dir. eexists. split; [done|]. cbn. split_and!; try done.
  - rewrite !insert_insert_eq. unfold started, set_main, set_process, set_regs. cbn. by destruct (elf_entry pv).
  - rewrite Hl. set_solver.
Qed.

(** ** Removing a task *)

(** The back pointers are those of the order. *)
Definition back_linked s (l : list Z) : Prop :=
  forall i x t, l !! i = Some x -> tasks s !! x = Some t ->
    prev t = match i with O => 0 | S j => default 0 (l !! j) end.

(** The tasks after the unlinking of the one at index [i], whose object is
    [t]: its predecessor points to its successor. *)
Definition unlinked (ts : gmap Z task) (t : task) : gmap Z task :=
  if prev t =? 0 then ts else alter (set_next (next t)) (prev t) ts.

Lemma list_remove_spec s l i x t :
  run_order s l -> back_linked s l -> l !! i = Some x -> tasks s !! x = Some t ->
  exists s', task_list_remove x s = Ret (tt, s') /\ tasks s' = unlinked (tasks s) t /\ procs s' = procs s /\
    tpaging s' = tpaging s /\ task_tail s' = (if x =? task_tail s then prev t else task_tail s) /\
    task_head s' = (if x =? task_head s then next t else task_head s) /\
    current_task s' = (if x =? current_task s then (if next t =? 0 then task_head s' else next t) else current_task s).
Proof.
  intros Ho Hb Hi Ht. pose proof (Hb i x t Hi Ht) as Hprev.
  destruct (ro_task _ _ Ho i x Hi) as (t' & p & Ht' & Hn & _). assert (t' = t) as -> by congruence.
  unfold task_list_remove. step (load_task_spec s x t Ht).
  assert (Hstep : exists s1, (if negb (prev t =? 0) then update_task (prev t) (set_next (next t)) else mret tt) s
                  = Ret (tt, s1) /\ s1 = set_tasks (unlinked (tasks s) t) s /\ tasks s1 !! x = Some t).
  { unfold unlinked. destruct (prev t =? 0) eqn:E; cbn [negb].
    - exists s. split_and!; [done|by destruct s|done].
    - breflect. destruct i as [|j]; [done|].
      assert (Hj : (j < length l)%nat) by (apply lookup_lt_Some in Hi; lia).
      destruct (lookup_lt_is_Some_2 l j Hj) as [w Hw]. rewrite Hw in Hprev. change (prev t = w) in Hprev.
      destruct (ro_task _ _ Ho j w Hw) as (tw & pw & Htw & _ & _). rewrite Hprev.
      eexists. split; [by apply update_task_spec|]. split.
      + f_equal. apply map_eq. intros k. destruct (decide (k = w)) as [-> |].
        * by rewrite lookup_insert_eq, lookup_alter_eq, Htw.
        * by rewrite lookup_insert_ne, lookup_alter_ne by done.
      + cbn. rewrite lookup_insert_ne; [done|]. intros ->.
        pose proof (NoDup_lookup _ _ _ _ (ro_nodup _ _ Ho) Hw Hi). lia. }
  destruct Hstep as (s1 & E1 & -> & Hx1). step E1. rewrite bind_getS. set (s1 := set_tasks _ s) in *.
  set (s2 := if x =? task_head s then set_head (next t) s1 else s1).
  rewrite (bind_Ret _ _ _ tt s2) by (subst s2; change (task_head s1) with (task_head s); by destruct (x =? task_head s)).
  rewrite bind_getS.
  assert (Hf : tasks s2 = unlinked (tasks s) t /\ procs s2 = procs s /\ tpaging s2 = tpaging s /\
               task_head s2 = (if x =? task_head s then next t else task_head s) /\ tasks s2 !! x = Some t /\
               task_tail s2 = task_tail s /\ current_task s2 = current_task s).
  { subst s2. by destruct (x =? task_head s). }
  destruct Hf as (Hf1 & Hf2 & Hf3 & Hf4 & Hf5 & Hf6 & Hf7). clearbody s2.
  set (s3 := if x =? task_tail s2 then set_tail (prev t) s2 else s2).
  rewrite (bind_Ret _ _ _ tt s3) by (subst s3; by destruct (x =? task_tail s2)). rewrite bind_getS.
  assert (Hg : tasks s3 = tasks s2 /\ procs s3 = procs s2 /\ tpaging s3 = tpaging s2 /\ task_head s3 = task_head s2 /\
               task_tail s3 = (if x =? task_tail s then prev t else task_tail s) /\ current_task s3 = current_task s2).
  { subst s3. rewrite Hf6. by destruct (x =? task_tail s). }
  destruct Hg as (Hg1 & Hg2 & Hg3 & Hg4 & Hg5 & Hg6). clearbody s3. rewrite Hg6, Hf7.
  destruct (x =? current_task s) eqn:Ec.
  - breflect. unfold task_get_next, task_current.
    rewrite (bind_Ret _ _ _ (if next t =? 0 then task_head s3 else next t) s3).
    + eexists. split; [done|]. cbn. rewrite Hg1, Hg2, Hg3, Hg4, Hg5. done.
    + rewrite (bind_Ret (gets current_task) _ s3 (current_task s3) s3 eq_refl), Hg6, Hf7, <- Ec.
      step (load_task_spec s3 x t ltac:(by rewrite Hg1)). by destruct (next t =? 0).
  - exists s3. rewrite Hg1, Hg2, Hg3, Hg4, Hg5, Hg6. done.
Qed.

(** Removing from the middle or the front leaves the order without the task. *)
Lemma unlinked_order s s' l i x t :
  run_order s l -> back_linked s l -> l !! i = Some x -> tasks s !! x = Some t ->
  tasks s' = delete x (unlinked (tasks s) t) -> procs s' = procs s ->
  task_head s' = (if x =? task_head s then next t else task_head s) ->
  run_order s' (delete i l).
Proof.
  intros Ho Hb Hi Ht Hts Hps Hhd. pose proof (Hb i x t Hi Ht) as Hprev.
  destruct (ro_task _ _ Ho i x Hi) as (t' & p & Ht' & Hn & _). assert (t' = t) as -> by congruence.
  pose proof (ro_nodup _ _ Ho) as Hnd. apply lookup_lt_Some in Hi as Hlt.
  assert (Hun : forall j z tz, l !! j = Some z -> tasks s !! z = Some tz -> z <> x ->
            tasks s' !! z = Some (if bool_decide (S j = i) then set_next (next t) tz else tz)).
  { intros j z tz Hj Hz Hne. rewrite Hts, lookup_delete_ne by done. unfold unlinked.
    destruct i as [|i].
    - rewrite bool_decide_false by lia. rewrite (proj2 (Z.eqb_eq (prev t) 0)) by done. done.
    - destruct (lookup_lt_is_Some_2 l i ltac:(lia)) as [w Hw]. rewrite Hw in Hprev. change (prev t = w) in Hprev.
      rewrite Hprev, (proj2 (Z.eqb_neq w 0)) by (by eapply ro_nonzero).
      case_bool_decide.
      + assert (j = i) by lia. subst j. assert (z = w) by congruence. subst z.
        by rewrite lookup_alter_eq, Hz.
      + rewrite lookup_alter_ne; [done|]. intros ->.
        pose proof (NoDup_lookup _ _ _ _ Hnd Hw Hj). lia. }
  split.
  - eapply sublist_NoDup; [exact Hnd|apply sublist_delete].
  - intros Hin. apply (ro_null _ _ Ho). eapply elem_of_sublist; [exact Hin|apply sublist_delete].
  - intros j z Hz. destruct (decide (j < i)%nat) as [Hj|Hj].
    + rewrite list_lookup_delete_lt in Hz by done.
      destruct (ro_task _ _ Ho j z Hz) as (tz & pz & Htz & Hnz & Hpz).
      assert (Hzx : z <> x) by (intros ->; pose proof (NoDup_lookup _ _ _ _ Hnd Hz Hi); lia).
      eexists _, pz. split; [by apply (Hun j)|]. rewrite Hps. case_bool_decide as Hsj; cbn.
      * split; [|done]. rewrite list_lookup_delete_ge by lia. by rewrite Hsj, Hn.
      * split; [|done]. rewrite list_lookup_delete_lt by lia. done.
    + rewrite list_lookup_delete_ge in Hz by lia.
      destruct (ro_task _ _ Ho _ z Hz) as (tz & pz & Htz & Hnz & Hpz).
      assert (Hzx : z <> x) by (intros ->; pose proof (NoDup_lookup _ _ _ _ Hnd Hz Hi); lia).
      eexists _, pz. split; [by apply (Hun (S j))|]. rewrite bool_decide_false by lia.
      split; [|by rewrite Hps]. rewrite list_lookup_delete_ge by lia. done.
  - rewrite Hhd, (ro_head _ _ Ho). destruct i as [|i].
    + rewrite Hi. change (default 0 (Some x)) with x. rewrite Z.eqb_refl, Hn.
      by rewrite list_lookup_delete_ge by lia.
    + destruct (lookup_lt_is_Some_2 l 0 ltac:(lia)) as [h Hh]. rewrite list_lookup_delete_lt, Hh by lia.
      change (default 0 (Some h)) with h. rewrite (proj2 (Z.eqb_neq x h)); [done|]. intros ->.
      pose proof (NoDup_lookup _ _ _ _ Hnd Hh Hi). lia.
Qed.
(** Freeing a thread: its object is gone, the order is the one without it. *)
Lemma task_free_thread s l i x t :
  run_order s l -> back_linked s l -> alloc_ok (palloc (tpaging s)) -> dom (tasks s) ⊆ live (tpaging s) ->
  l !! i = Some x -> tasks s !! x = Some t -> main_task t = false ->
  exists s', task_free x s = Ret (0, s') /\ run_order s' (delete i l) /\
    tasks s' = delete x (unlinked (tasks s) t) /\ procs s' = procs s /\ alloc_ok (palloc (tpaging s')) /\
    live (tpaging s') = live (tpaging s) ∖ {[x]} /\ parrays (tpaging s') = parrays (tpaging s) /\
    current_task s' = (if x =? current_task s then (if next t =? 0 then task_head s' else next t) else current_task s).
Proof.
  intros Ho Hb Hok Hlv Hi Ht Hm.
  destruct (list_remove_spec s l i x t) as (s1 & Hr & Ht1 & Hp1 & Hpg1 & _ & Hh1 & Hc1); try done.
  destruct (pk_kf x (tpaging s1)) as (h & Hk & Hok' & Hl').
  { by rewrite Hpg1. }
  { rewrite Hpg1. apply Hlv. by eapply elem_of_dom_2. }
  set (s2 := mk_tstate (mk_pstate h (parrays (tpaging s1)) (current_directory (tpaging s1))) (delete x (tasks s1))
               (procs s1) (current_task s1) (task_head s1) (task_tail s1)).
  exists s2. split_and!.
  - unfold task_free. step (load_task_spec s x t Ht). rewrite Hm. rewrite bind_mret. step Hr.
    unfold kfree_task. rewrite (bind_Ret _ _ _ tt s2); [done|]. by step (on_paging_spec _ s1 tt _ Hk).
  - apply (unlinked_order s s2 l i x t); try done. cbn. by rewrite Ht1.
  - cbn. by rewrite Ht1.
  - done.
  - done.
  - unfold live in *. cbn. rewrite Hl'. by rewrite Hpg1.
  - cbn. by rewrite Hpg1.
  - cbn. done.
Qed.

(** Every other task keeps its registers, its address space and its process. *)
Lemma unlinked_frame s t x y ty :
  tasks s !! y = Some ty -> y <> x ->
  exists ty', delete x (unlinked (tasks s) t) !! y = Some ty' /\ regs ty' = regs ty /\
    page_directory ty' = page_directory ty /\ task_process ty' = task_process ty.
Proof.
  intros Hy Hne. rewrite lookup_delete_ne by done. unfold unlinked. destruct (prev t =? 0); [by exists ty|].
  destruct (decide (y = prev t)) as [->|Hp].
  - exists (set_next (next t) ty). by rewrite lookup_alter_eq, Hy.
  - exists ty. by rewrite lookup_alter_ne.
Qed.
End order.

(** ** Two threads on a kernel heap, for the witnesses *)
Definition demo_kmem2 : kmem :=
  match (kz sizeof_task;; kz sizeof_task) demo_kmem with Ret (_, k) => k | _ => demo_kmem end.
Definition thread (n p : Z) : task := mk_task (mk_chunk 5 6) zero_regs 7 false n p.
Definition demo_threads : tstate kmem :=
  mk_tstate (mk_pstate demo_kmem2 ∅ 0) {[0x1000000 := thread 0x1001000 0; 0x1001000 := thread 0 0x1000000]}
    {[7 := mk_proc None false 0x1000000]} 0x1000000 0x1000000 0x1001000.
Definition demo_order : list Z := [0x1000000; 0x1001000].

Lemma demo_kmem2_ok : alloc_ok demo_kmem2 /\ {[0x1000000; 0x1001000]} ⊆ live_ptrs demo_kmem2.
Proof.
  pose (k1 := match kz sizeof_task demo_kmem with Ret (_, k) => k | _ => demo_kmem end).
  assert (E1 : kz sizeof_task demo_kmem = Ret (0x1000000, k1)) by (vm_compute; reflexivity).
  assert (E2 : kz sizeof_task k1 = Ret (0x1001000, demo_kmem2)) by (vm_compute; reflexivity).
  destruct (kz_spec sizeof_task demo_kmem _ k1 demo_kmem_ok ltac:(unfold sizeof_task; lia) E1) as [Hok1 [[? _] | (_ & _ & _ & Hl1)]]; [done|].
  destruct (kz_spec sizeof_task k1 _ demo_kmem2 Hok1 ltac:(unfold sizeof_task; lia) E2) as [Hok2 [[? _] | (_ & _ & _ & Hl2)]]; [done|].
  split; [done|]. rewrite Hl2, Hl1. set_solver.
Qed.

Lemma demo_threads_order : run_order demo_threads demo_order.
Proof.
  split.
  - apply (bool_decide_unpack _). vm_compute. exact I.
  - apply (bool_decide_unpack _). vm_compute. exact I.
  - intros [|[|i]] x Hx; [injection Hx as <- ..|done].
    + by exists (thread 0x1001000 0), (mk_proc None false 0x1000000).
    + by exists (thread 0 0x1000000), (mk_proc None false 0x1000000).
  - done.
Qed.

Lemma demo_threads_back : back_linked demo_threads demo_order.
Proof.
  intros [|[|i]] x t Hx Ht; [injection Hx as <- ..|done].
  - by injection Ht as <-.
  - by injection Ht as <-.
Qed.

Lemma demo_threads_store : store_ok demo_threads demo_order.
Proof.
  destruct demo_kmem2_ok as [Hok Hl]. split; [done| |done].
  change (dom (tasks demo_threads)) with ({[0x1000000; 0x1001000]} : gset Z). exact Hl.
Qed.

Lemma demo_threads_runnable x : x ∈ demo_order -> runnable demo_threads x.
Proof. intros [-> | [-> | ?%elem_of_nil]%elem_of_cons]%elem_of_cons; done. Qed.

(** The choice of the next task.  [task_next] starts after the current
    task, going around the end of the list once, and switches to the first
    task from there to the end whose process is not hosting another one: it
    returns that task's saved registers, makes it current and loads its page
    directory.  It panics exactly when there is none: tasks before the start
    are not looked at, even runnable ones. *)
Theorem task_next_picks {H} `{AllocatorOk H} (s : tstate H) l fuel i :
  run_order s l -> l !! i = Some (current_task s) -> (length l <= fuel)%nat ->
  let rest := filter (runnable s) (drop (after l i) l) in
  (rest = [] <-> task_next fuel s = Panic) /\
  (forall x xs, rest = x :: xs -> exists t s', tasks s !! x = Some t /\ task_next fuel s = Ret (task_return (regs t), s') /\
     current_task s' = x /\ current_directory (tpaging s') = directory_entry (page_directory t) /\
     run_order s' l /\ tasks s' = tasks s).
Proof.
  intros Ho Hi Hf rest. rewrite (task_next_spec s l fuel i Ho Hi Hf). fold rest. split.
  - destruct rest as [|x xs] eqn:Er; [done|]. split; [done|]. cbn [head].
    destruct (tasks s !! x); done.
  - intros x xs Er. rewrite Er. cbn [head].
    assert (Hx : x ∈ drop (after l i) l).
    { assert (Hin : x ∈ rest) by (rewrite Er; by left). by apply list_elem_of_filter in Hin as [_ ?]. }
    apply list_elem_of_lookup_1 in Hx as [k Hk]. rewrite lookup_drop in Hk.
    destruct (ro_task _ _ Ho _ x Hk) as (t & p & Ht & _ & _). exists t, (switched s x t). rewrite Ht.
    split_and!; try done. by apply switched_order.
Qed.

Lemma task_next_picks_witness :
  exists t s', tasks demo_threads !! 0x1001000 = Some t /\ task_next 2 demo_threads = Ret (task_return (regs t), s') /\
     current_task s' = 0x1001000 /\ current_directory (tpaging s') = directory_entry (page_directory t) /\
     run_order s' demo_order /\ tasks s' = tasks demo_threads.
Proof.
  apply (task_next_picks demo_threads demo_order 2 0 demo_threads_order) with (xs := []).
  - reflexivity.
  - simpl; lia.
  - vm_compute; reflexivity.
Defined.

(** C14: every task gets its turn.  While no process hosts another one, [k]
    clock ticks move from the task at index [i] of the run order to the one
    at [(i + k) mod n]; so any task of the list is running again after fewer
    than [n] further ticks. *)
Theorem round_robin_fair {H} `{AllocatorOk H} (s : tstate H) l fuel i :
  run_order s l -> l !! i = Some (current_task s) -> (length l <= fuel)%nat ->
  (forall x, x ∈ l -> runnable s x) ->
  (forall k, exists s', ticks fuel k s = Ret (tt, s') /\ l !! ((i + k) mod length l)%nat = Some (current_task s')) /\
  forall x, x ∈ l -> exists k s', (k < length l)%nat /\ ticks fuel k s = Ret (tt, s') /\ current_task s' = x.
Proof.
  intros Ho Hi Hf Hr. split.
  - intros k. destruct (ticks_spec s l fuel i k) as (s' & Hs & _ & _ & Hc); try done. by exists s'.
  - intros x Hx. apply list_elem_of_lookup_1 in Hx as [j Hj].
    apply lookup_lt_Some in Hj as Hlj. apply lookup_lt_Some in Hi as Hli.
    set (k := if decide (i <= j)%nat then (j - i)%nat else (j + length l - i)%nat).
    destruct (ticks_spec s l fuel i k) as (s' & Hs & _ & _ & Hc); try done.
    exists k, s'. assert (Hk : ((i + k) mod length l = j)%nat).
    { unfold k. destruct (decide (i <= j)%nat).
      - rewrite Nat.mod_small; lia.
      - replace (i + (j + length l - i))%nat with (j + 1 * length l)%nat by lia.
        rewrite Nat.Div0.mod_add. by apply Nat.mod_small. }
    rewrite Hk, Hj in Hc. split_and!; [unfold k; case_decide; lia|done|congruence].
Qed.

Lemma round_robin_fair_witness :
  (forall k, exists s', ticks 2 k demo_threads = Ret (tt, s') /\
     demo_order !! ((0 + k) mod length demo_order)%nat = Some (current_task s')) /\
  forall x, x ∈ demo_order -> exists k s', (k < length demo_order)%nat /\
    ticks 2 k demo_threads = Ret (tt, s') /\ current_task s' = x.
Proof.
  apply (round_robin_fair demo_threads demo_order 2 0 demo_threads_order).
  - reflexivity.
  - simpl; lia.
  - exact demo_threads_runnable.
Defined.

(** A new task.  With room for its 1027 blocks, [task_new] returns a fresh
    non-null address and puts that task at the end of the run order, every
    other task keeping its place; the task starts at the ELF entry point (or
    at the fixed program address) with user segments and stack, belongs to the
    process, and has an address space that maps every page to itself, readable
    from user mode and not writable.  The first task ever becomes current. *)
Theorem task_new_appends {H} `{AllocatorOk H} (s : tstate H) l process pv :
  run_order s l -> store_ok s l -> procs s !! process = Some pv -> (1027 <= proom (tpaging s))%nat ->
  exists x dir s', task_new process s = Ret (x, s') /\ x <> 0 /\ (x ∉ l) /\
    run_order s' (l ++ [x]) /\ store_ok s' (l ++ [x]) /\
    tasks s' !! x = Some (set_prev (default 0 (last l)) (started dir pv process)) /\
    (forall vp, 0 <= vp < NPAGES ->
       pte (parrays (tpaging s')) (directory_entry dir) vp = Ret (page_entry vp 5)) /\
    current_task s' = (if bool_decide (l = []) then x else current_task s).
Proof.
  intros Ho [Hok Hlv Htl] Hp Hr.
  destruct (kzalloc_task_spec s Hok ltac:(lia)) as
    (x & s1 & Hk & Hx & Hfresh & Ht1 & Hp1 & Hc1 & Hh1 & Htl1 & Hok1 & Hl1 & Hr1).
  destruct (task_init_spec s1 x process pv) as
    (dir & s2 & Hi & Ht2 & Hp2 & Hc2 & Hh2 & Htl2 & Hok2 & Hl2 & Hpte);
    [done|lia|by rewrite Ht1, lookup_insert_eq|by rewrite Hp1|].
  assert (Hxl : x ∉ l).
  { intros Hin. apply Hfresh, Hlv. apply list_elem_of_lookup_1 in Hin as [k Hk'].
    destruct (ro_task _ _ Ho k x Hk') as (t & _ & Ht & _). by eapply elem_of_dom_2. }
  assert (Ho2 : run_order s2 l).
  { apply (run_order_frame s); [done| |congruence|congruence]. intros y Hy.
    rewrite Ht2, Ht1, !lookup_insert_ne; [done|set_solver..]. }
  destruct (task_append_spec s2 l x (started dir pv process) pv) as
    (s3 & Ha & Ho3 & Htail & Htx & Hdom & Hpg & Hcur); try done; [congruence|by rewrite Ht2, lookup_insert_eq|
      by rewrite Hp2, Hp1|].
  exists x, dir, s3. split_and!; try done.
  - unfold task_new. step Hk. rewrite (proj2 (Z.eqb_neq x 0)) by done.
    rewrite (bind_Ret _ _ _ 0 s3); [done|]. step Hi. cbn [SERPAEOS_ALL_OK Z.eqb negb].
    change (negb (0 =? SERPAEOS_ALL_OK)) with false. cbn iota. by step Ha.
  - split; [by rewrite Hpg| |by rewrite Htail, last_snoc].
    rewrite Hdom, Ht2, Ht1, !dom_insert_L, Hpg. set_solver.
  - by rewrite Hpg.
  - by rewrite Hcur, Hc2, Hc1.
Qed.

Lemma task_new_appends_witness :
  exists x dir s', task_new 7 (mk_tstate demo_pstate ∅ {[7 := mk_proc None false 0]} 0 0 0) = Ret (x, s') /\
    x <> 0 /\ (x ∉ []) /\ run_order s' ([] ++ [x]) /\ store_ok s' ([] ++ [x]) /\
    tasks s' !! x = Some (set_prev (default 0 (last [])) (started dir (mk_proc None false 0) 7)) /\
    (forall vp, 0 <= vp < NPAGES ->
       pte (parrays (tpaging s')) (directory_entry dir) vp = Ret (page_entry vp 5)) /\
    current_task s' = x.
Proof.
  apply (task_new_appends (mk_tstate demo_pstate ∅ {[7 := mk_proc None false 0]} 0 0 0) [] 7 (mk_proc None false 0)).
  - split; [constructor|by intros ?%elem_of_nil|done|done].
  - split; [exact demo_kmem_ok|set_solver|done].
  - reflexivity.
  - apply Nat.leb_le. vm_compute. reflexivity.
Defined.

(** Freeing tasks.  Freeing a thread that is not the last in the list
    takes exactly that task out of the run order.  But its successor keeps a
    back pointer to it, so freeing the successor next writes through the
    pointer to the freed task. *)
Theorem task_free_stale_prev {H} `{AllocatorOk H} (s : tstate H) l i x y tx ty :
  run_order s l -> back_linked s l -> store_ok s l ->
  l !! i = Some x -> l !! S i = Some y -> tasks s !! x = Some tx -> tasks s !! y = Some ty ->
  main_task tx = false -> main_task ty = false ->
  exists s', task_free x s = Ret (0, s') /\ run_order s' (delete i l) /\ alloc_ok (palloc (tpaging s')) /\
    live (tpaging s') = live (tpaging s) ∖ {[x]} /\ task_free y s' = Oob.
Proof.
  intros Ho Hb [Hok Hlv Htl] Hi Hsi Htx Hty Hmx Hmy.
  pose proof (ro_nodup _ _ Ho) as Hnd.
  assert (Hxy : x <> y) by (intros ->; pose proof (NoDup_lookup _ _ _ _ Hnd Hi Hsi); lia).
  destruct (task_free_thread s l i x tx Ho Hb Hok Hlv Hi Htx Hmx) as (s2 & Hf & Ho2 & Ht2 & _ & Hok2 & Hl2 & _).
  exists s2. split_and!; [done..|].
  assert (Hy2 : tasks s2 !! y = Some ty).
  { rewrite Ht2, lookup_delete_ne by done. unfold unlinked. destruct (prev tx =? 0) eqn:E; [done|].
    breflect. rewrite lookup_alter_ne; [done|]. intros Hpy. rewrite (Hb i x tx Hi Htx) in Hpy, E.
    destruct i as [|i]; [done|]. destruct (l !! i) as [w|] eqn:Ew; [|done]. change (w = y) in Hpy. subst w.
    pose proof (NoDup_lookup _ _ _ _ Hnd Ew Hsi). lia. }
  unfold task_free. step (load_task_spec s2 y ty Hy2). rewrite Hmy, bind_mret.
  unfold task_list_remove at 1. unfold mbind at 1, cmd_bind at 1.
  step (load_task_spec s2 y ty Hy2). rewrite (Hb (S i) y ty Hsi Hty), Hi. change (default 0 (Some x)) with x.
  rewrite (proj2 (Z.eqb_neq x 0)) by exact (ro_nonzero s l i x Ho Hi). cbn [negb].
  unfold mbind at 1, cmd_bind at 1. unfold update_task, load_task. unfold mbind at 1, cmd_bind at 1.
  rewrite bind_getS, Ht2. by rewrite lookup_delete_eq.
Qed.

Lemma task_free_stale_prev_witness :
  exists s', task_free 0x1000000 demo_threads = Ret (0, s') /\ run_order s' (delete 0%nat demo_order) /\
    alloc_ok (palloc (tpaging s')) /\ live (tpaging s') = live (tpaging demo_threads) ∖ {[0x1000000]} /\
    task_free 0x1001000 s' = Oob.
Proof.
  apply (task_free_stale_prev demo_threads demo_order 0 0x1000000 0x1001000
           (thread 0x1001000 0) (thread 0 0x1000000) demo_threads_order demo_threads_back demo_threads_store).
  - reflexivity.
  - reflexivity.
  - reflexivity.
  - reflexivity.
  - reflexivity.
  - reflexivity.
Defined.
