(* ===== verification/Process.v ===== *)
(** * Processes (src/src/task/process.c, process.h)

    Processes, their screens and their ELF files are heap objects by address;
    an access to an address that holds none is [Oob], and an object disappears
    when it is freed.  The scheduler, the file system and the terminal keep
    their own states: a call runs on the component's state with the one
    allocator put in, and, for the scheduler, the fields of the processes that
    it reads. *)
From S2P Require Import Prelude Config CMem CString Kheap Paging Keyboard Disk Vfs Elf Task Terminal Screen.

Definition PROCESS_FILETYPE_ELF : Z := 0.
Definition PROCESS_FILETYPE_BINARY : Z := 1.
Definition NFILE : Z := 20.
Definition PF_W : Z := 2.

(** [process_data] is the union of [ptr] and [elf_file]; an allocation is its
    pointer and its size. *)
Record process := mk_process {
  host : Z;
  p_hosting : bool;
  parent : Z;
  process_id : Z;
  filename : list Z;
  p_task : Z;
  allocations : list (Z * Z);
  filetype : Z;
  process_data : Z;
  stack : Z;
  p_size : Z;
  p_keyboard : ring;
  argc : Z;
  argv : Z;
  p_screen : Z;
  iob : list Z;
  priv : bool
}.
Definition sizeof_process : Z := 9464.

(** [process_init]: every field is zero. *)
Definition zero_process : process :=
  mk_process 0 false 0 0 (replicate (Z.to_nat SERPAEOS_MAX_PATH) 0) 0
    (replicate (Z.to_nat SERPAEOS_MAX_PROGRAM_ALLOCATIONS) (0, 0)) 0 0 0 0
    (mk_ring (replicate (Z.to_nat SERPAEOS_KEYBOARD_BUFFER_SIZE) 0) 0 0) 0 0 0 (replicate (Z.to_nat NFILE) 0) false.

Definition set_hosting (b : bool) (p : process) : process :=
  mk_process (host p) b (parent p) (process_id p) (filename p) (p_task p) (allocations p) (filetype p)
    (process_data p) (stack p) (p_size p) (p_keyboard p) (argc p) (argv p) (p_screen p) (iob p) (priv p).
Definition set_allocations (l : list (Z * Z)) (p : process) : process :=
  mk_process (host p) (p_hosting p) (parent p) (process_id p) (filename p) (p_task p) l (filetype p)
    (process_data p) (stack p) (p_size p) (p_keyboard p) (argc p) (argv p) (p_screen p) (iob p) (priv p).
Definition set_data (t d z : Z) (p : process) : process :=
  mk_process (host p) (p_hosting p) (parent p) (process_id p) (filename p) (p_task p) (allocations p) t
    d (stack p) z (p_keyboard p) (argc p) (argv p) (p_screen p) (iob p) (priv p).
Definition set_identity (f : list Z) (st i : Z) (p : process) : process :=
  mk_process (host p) (p_hosting p) (parent p) i f (p_task p) (allocations p) (filetype p)
    (process_data p) st (p_size p) (p_keyboard p) (argc p) (argv p) (p_screen p) (iob p) (priv p).
Definition set_task (t : Z) (p : process) : process :=
  mk_process (host p) (p_hosting p) (parent p) (process_id p) (filename p) t (allocations p) (filetype p)
    (process_data p) (stack p) (p_size p) (p_keyboard p) (argc p) (argv p) (p_screen p) (iob p) (priv p).
Definition set_host (h : Z) (p : process) : process :=
  mk_process h (p_hosting p) (parent p) (process_id p) (filename p) (p_task p) (allocations p) (filetype p)
    (process_data p) (stack p) (p_size p) (p_keyboard p) (argc p) (argv p) (p_screen p) (iob p) (priv p).
Definition set_screen (c : Z) (p : process) : process :=
  mk_process (host p) (p_hosting p) (parent p) (process_id p) (filename p) (p_task p) (allocations p) (filetype p)
    (process_data p) (stack p) (p_size p) (p_keyboard p) (argc p) (argv p) c (iob p) (priv p).
Definition set_args (n v : Z) (p : process) : process :=
  mk_process (host p) (p_hosting p) (parent p) (process_id p) (filename p) (p_task p) (allocations p) (filetype p)
    (process_data p) (stack p) (p_size p) (p_keyboard p) n v (p_screen p) (iob p) (priv p).
Definition set_iob (l : list Z) (p : process) : process :=
  mk_process (host p) (p_hosting p) (parent p) (process_id p) (filename p) (p_task p) (allocations p) (filetype p)
    (process_data p) (stack p) (p_size p) (p_keyboard p) (argc p) (argv p) (p_screen p) l (priv p).
Definition set_priv (b : bool) (p : process) : process :=
  mk_process (host p) (p_hosting p) (parent p) (process_id p) (filename p) (p_task p) (allocations p) (filetype p)
    (process_data p) (stack p) (p_size p) (p_keyboard p) (argc p) (argv p) (p_screen p) (iob p) b.

(** [for (i = 0; ...) if (l[i] == p) ...]: the first index that satisfies a test. *)
Fixpoint first_index {A} (f : A -> bool) (l : list A) (i : Z) : option Z :=
  match l with
  | [] => None
  | x :: l => if f x then Some i else first_index f l (i + 1)
  end.

Definition find_free_alloc_index (p : process) : Z :=
  match first_index (fun a => fst a =? 0) (allocations p) 0 with
  | Some i => i
  | None => - ENOMEM
  end.

Definition process_get_allocation_by_addr (p : process) (addr : Z) : option Z :=
  first_index (fun a => fst a =? addr) (allocations p) 0.

Definition process_allocation_unjoin (ptr : Z) (p : process) : process :=
  set_allocations ((fun a => if fst a =? ptr then (0, 0) else a) <$> allocations p) p.

(** The command-line arguments: each one is a buffer of 512 bytes. *)
Definition command_argument : Type := list Z.
Definition ARGUMENT_SIZE : Z := 512.

Definition process_count_command_arguments (root : list command_argument) : Z := Z.of_nat (length root).

Section processes.
Context {H : Type} `{Allocator H} {F : Type} (drivers : gmap Z (filesystem_ops (fsst H F))).

(** [blocks] are the bytes of the blocks allocated for processes. *)
Record kst := mk_kst {
  ksched : tstate H;
  kfiles : vfs H F;
  pobjs : gmap Z process;
  screens : gmap Z screen;
  elfs : gmap Z elf_file;
  blocks : gmap Z (list Z);
  processes : list Z;
  current_process : Z;
  terminal : term;
  directory_screen : screen;
  directory_screen_is_current : bool
}.

Definition heap_of (s : kst) : H := palloc (tpaging (ksched s)).
Definition set_sched (t : tstate H) (s : kst) : kst :=
  mk_kst t (kfiles s) (pobjs s) (screens s) (elfs s) (blocks s) (processes s) (current_process s) (terminal s)
    (directory_screen s) (directory_screen_is_current s).
Definition set_pobjs (m : gmap Z process) (s : kst) : kst :=
  mk_kst (ksched s) (kfiles s) m (screens s) (elfs s) (blocks s) (processes s) (current_process s) (terminal s)
    (directory_screen s) (directory_screen_is_current s).
Definition set_screens (m : gmap Z screen) (s : kst) : kst :=
  mk_kst (ksched s) (kfiles s) (pobjs s) m (elfs s) (blocks s) (processes s) (current_process s) (terminal s)
    (directory_screen s) (directory_screen_is_current s).
Definition set_elfs (m : gmap Z elf_file) (s : kst) : kst :=
  mk_kst (ksched s) (kfiles s) (pobjs s) (screens s) m (blocks s) (processes s) (current_process s) (terminal s)
    (directory_screen s) (directory_screen_is_current s).
Definition set_blocks (m : gmap Z (list Z)) (s : kst) : kst :=
  mk_kst (ksched s) (kfiles s) (pobjs s) (screens s) (elfs s) m (processes s) (current_process s) (terminal s)
    (directory_screen s) (directory_screen_is_current s).
Definition set_processes (l : list Z) (s : kst) : kst :=
  mk_kst (ksched s) (kfiles s) (pobjs s) (screens s) (elfs s) (blocks s) l (current_process s) (terminal s)
    (directory_screen s) (directory_screen_is_current s).
Definition set_current_process (p : Z) (s : kst) : kst :=
  mk_kst (ksched s) (kfiles s) (pobjs s) (screens s) (elfs s) (blocks s) (processes s) p (terminal s)
    (directory_screen s) (directory_screen_is_current s).
Definition set_terminal (t : term) (s : kst) : kst :=
  mk_kst (ksched s) (kfiles s) (pobjs s) (screens s) (elfs s) (blocks s) (processes s) (current_process s) t
    (directory_screen s) (directory_screen_is_current s).
Definition set_directory (d : screen) (b : bool) (s : kst) : kst :=
  mk_kst (ksched s) (kfiles s) (pobjs s) (screens s) (elfs s) (blocks s) (processes s) (current_process s) (terminal s)
    d b.

(** What the scheduler reads of a process; an ELF process needs its file. *)
Definition view_of (es : gmap Z elf_file) (p : process) : option process_view :=
  if filetype p =? PROCESS_FILETYPE_ELF then
    match es !! process_data p with
    | Some f => match e_entry (image f) with
                | Ret e => Some (mk_proc (Some e) (p_hosting p) (p_task p))
                | _ => None
                end
    | None => None
    end
  else Some (mk_proc None (p_hosting p) (p_task p)).

Definition with_views (s : kst) : tstate H :=
  let t := ksched s in
  mk_tstate (tpaging t) (tasks t) (omap (view_of (elfs s)) (pobjs s)) (current_task t) (task_head t) (task_tail t).

Definition on_sched {A} (c : cmd (tstate H) A) : cmd kst A := fun s =>
  '(a, t) ← c (with_views s); Ret (a, set_sched t s).

Definition put_heap (h : H) (s : kst) : kst :=
  let t := ksched s in
  set_sched (mk_tstate (mk_pstate h (parrays (tpaging t)) (current_directory (tpaging t)))
               (tasks t) (procs t) (current_task t) (task_head t) (task_tail t)) s.

Definition on_alloc {A} (c : cmd H A) : cmd kst A := fun s =>
  '(a, h) ← c (heap_of s); Ret (a, put_heap h s).

(** The file system with the shared allocator. *)
Definition files_with (h : H) (v : vfs H F) : vfs H F :=
  let pp := fst (vst v) in
  set_vst v (PathParser.mk_pp h (PathParser.pp_strs pp) (PathParser.pp_parts pp) (PathParser.pp_roots pp), snd (vst v)).

Definition on_files {A} (c : cmd (vfs H F) A) : cmd kst A := fun s =>
  '(a, v) ← c (files_with (heap_of s) (kfiles s));
  let s := put_heap (PathParser.ppalloc (fst (vst v))) s in
  Ret (a, mk_kst (ksched s) v (pobjs s) (screens s) (elfs s) (blocks s) (processes s) (current_process s) (terminal s)
            (directory_screen s) (directory_screen_is_current s)).

Definition on_terminal {A} (c : cmd term A) : cmd kst A := fun s =>
  '(a, t) ← c (terminal s); Ret (a, set_terminal t s).

Definition obj {A} (f : kst -> gmap Z A) (p : Z) : cmd kst A :=
  s ← getS;
  match f s !! p with
  | Some x => mret x
  | None => liftO Oob
  end.
Definition load_proc (p : Z) : cmd kst process := obj pobjs p.
Definition load_screen (p : Z) : cmd kst screen := obj screens p.

Definition update_proc (p : Z) (f : process -> process) : cmd kst unit :=
  x ← load_proc p;
  modifyS (fun s => set_pobjs (<[p := f x]> (pobjs s)) s).

(** A command on the screen at an address and the terminal. *)
Definition on_screen {A} (p : Z) (c : cmd scrst A) : cmd kst A :=
  x ← load_screen p;
  s ← getS;
  '(a, st) ← liftO (c (mk_scrst x (terminal s)));
  modifyS (fun s => set_terminal (sterm st) (set_screens (<[p := scr st]> (screens s)) s));;
  mret a.

(** [kfree]: whatever object is at the address is gone. *)
Definition kfree_at (p : Z) : cmd kst unit :=
  on_alloc (kf p);;
  modifyS (fun s =>
    set_pobjs (delete p (pobjs s)) (set_screens (delete p (screens s)) (set_elfs (delete p (elfs s))
      (set_blocks (delete p (blocks s)) s)))).

(** [kzalloc(size)]: a block of zeroes. *)
Definition kzalloc_block (size : Z) : cmd kst Z :=
  p ← on_alloc (kz size);
  modifyS (fun s => if p =? 0 then s else set_blocks (<[p := replicate (Z.to_nat size) 0]> (blocks s)) s);;
  mret p.

Definition process_get (id : Z) : cmd kst Z :=
  if (id <? 0) || (SERPAEOS_TOTAL_MAX_PROCESSES <=? id) then mret 0
  else s ← getS; liftO (load (processes s) id).

(** ** Switching *)
Definition process_save_video (p : Z) : cmd kst unit :=
  x ← load_proc p; on_screen (p_screen x) save_video.

Definition process_load_video (p : Z) : cmd kst unit :=
  x ← load_proc p; on_screen (p_screen x) load_video.

Definition process_switch (p : Z) : cmd kst Z :=
  s ← getS;
  process_save_video (current_process s);;
  process_load_video p;;
  modifyS (set_current_process p);;
  mret 0.

Definition hide_directory : cmd kst unit :=
  s ← getS;
  if negb (directory_screen_is_current s) then mret tt
  else
    v ← liftO (memcpy_loop (Z.to_nat (VGA_HEIGHT * VGA_WIDTH)) (video_mem (terminal s)) (video (directory_screen s)));
    on_terminal (modifyS (set_video v));;
    on_terminal (set_cursor (sx (directory_screen s)) (sy (directory_screen s)));;
    modifyS (set_directory (directory_screen s) false).

(** [None] is a return; [Some] is what user mode is entered with. *)
Definition process_flip (id : Z) : cmd kst (option resumption) :=
  if (id <? 0) || (SERPAEOS_MAX_PROCESSES <? id) then mret None
  else
    s ← getS;
    target ← liftO (load (processes s) id);
    if target =? 0 then mret None
    else
      hide_directory;;
      process_switch target;;
      s ← getS;
      p ← load_proc (current_process s);
      on_sched (task_switch (p_task p));;
      c ← on_sched task_current;
      t ← on_sched (load_task c);
      mret (Some (task_return (regs t))).

(** ** Memory *)
Definition page_directory_of (p : process) : cmd kst paging_4gb_chunk :=
  t ← on_sched (load_task (p_task p)); mret (page_directory t).

Definition map_to (c : paging_4gb_chunk) (virt phys phys_end flags : Z) : cmd kst Z :=
  on_sched (on_paging (pa (fun ar => paging_map_to ar c virt phys phys_end flags))).

Definition USER_PAGE : Z := Z.lor (Z.lor PAGING_IS_WRITEABLE PAGING_IS_PRESENT) PAGING_ACCESS_FROM_ALL.

Definition process_malloc (p size : Z) : cmd kst Z :=
  ptr ← kzalloc_block size;
  ok ← (if ptr =? 0 then mret false
        else
          x ← load_proc p;
          let index := find_free_alloc_index x in
          if index <? 0 then mret false
          else
            c ← page_directory_of x;
            res ← map_to c ptr ptr (paging_align_address (ptr + size)) USER_PAGE;
            if res <? 0 then mret false
            else
              l ← liftO (store (allocations x) index (ptr, u32 size));
              update_proc p (set_allocations l);;
              mret true);
  if (ok : bool) then mret ptr
  else (if negb (ptr =? 0) then kfree_at ptr else mret tt);; mret 0.

Definition process_free (p ptr : Z) : cmd kst unit :=
  x ← load_proc p;
  match process_get_allocation_by_addr x ptr with
  | None => mret tt
  | Some i =>
      '(a, z) ← liftO (load (allocations x) i);
      c ← page_directory_of x;
      res ← map_to c a a (paging_align_address (a + z)) 0;
      if res <? 0 then mret tt
      else update_proc p (process_allocation_unjoin ptr);; kfree_at ptr
  end.

(** A write of [bs] at an offset of a block. *)
Definition block_write (p off : Z) (bs : list Z) : cmd kst unit :=
  s ← getS;
  match blocks s !! p with
  | Some b =>
      if (0 <=? off) && (off + Z.of_nat (length bs) <=? Z.of_nat (length b))
      then modifyS (set_blocks (<[p := take (Z.to_nat off) b ++ bs ++ drop (Z.to_nat off + length bs) b]> (blocks s)))
      else liftO Oob
  | None => liftO Oob
  end.

Fixpoint inject_loop (p argv : Z) (args : list command_argument) (i : Z) : cmd kst Z :=
  match args with
  | [] => mret 0
  | a :: args =>
      argument_str ← process_malloc p ARGUMENT_SIZE;
      if argument_str =? 0 then mret (- ENOMEM)
      else
        b ← obj blocks argument_str;
        b ← liftO (strncpy b a ARGUMENT_SIZE);
        block_write argument_str 0 b;;
        block_write argv (4 * i) (le_split 4 argument_str);;
        inject_loop p argv args (i + 1)
  end.

Definition process_inject_arguments (p : Z) (root : list command_argument) : cmd kst Z :=
  let argc := process_count_command_arguments root in
  if argc =? 0 then mret (- EIO)
  else
    argv ← process_malloc p (4 * argc);
    if argv =? 0 then mret (- ENOMEM)
    else
      res ← inject_loop p argv root 0;
      if res <? 0 then mret res
      else update_proc p (set_args argc argv);; mret res.

Definition process_get_arguments (p : Z) : cmd kst (Z * Z) :=
  x ← load_proc p; mret (argc x, argv x).

(** ** Files of a process *)
Definition process_fopen (p : Z) (filename mode : list Z) : cmd kst (option Z) :=
  x ← load_proc p;
  match first_index (fun f => f =? 0) (iob x) 0 with
  | None => mret None
  | Some i =>
      fd ← on_files (fopen drivers filename mode);
      if fd =? 0 then mret None
      else
        x ← load_proc p;
        l ← liftO (store (iob x) i fd);
        update_proc p (set_iob l);;
        mret (Some i)
  end.

(** The file pointer is an index of the process's [iob]. *)
Definition process_fclose (p i : Z) : cmd kst Z :=
  x ← load_proc p;
  fd ← liftO (load (iob x) i);
  on_files (fclose drivers fd);;
  x ← load_proc p;
  l ← liftO (store (iob x) i 0);
  update_proc p (set_iob l);;
  mret 0.

(** ** Loading *)
Definition process_load_binary (filename : list Z) (p : Z) : cmd kst Z :=
  fd ← on_files (fopen drivers filename [114; 0]);
  res ← (if fd =? 0 then mret (- EIO)
         else
           '(res, stat) ← on_files (fstat drivers fd (mk_stat 0 0 no_date));
           if negb (res =? SERPAEOS_ALL_OK) then mret res
           else
             program_data_ptr ← kzalloc_block (filesize stat);
             if program_data_ptr =? 0 then mret (- ENOMEM)
             else
               '(r, bs) ← on_files (fread drivers fd (s32 (filesize stat)));
               if r <? 0 then kfree_at program_data_ptr;; mret (- EIO)
               else
                 block_write program_data_ptr 0 bs;;
                 update_proc p (set_data PROCESS_FILETYPE_BINARY program_data_ptr (filesize stat));;
                 mret res);
  on_files (fclose drivers fd);;
  mret res.

Definition process_load_elf (filename : list Z) (p : Z) : cmd kst Z :=
  '(res, file) ← on_files (elf_load drivers filename);
  if ISERR res then mret res
  else
    match file with
    | None => update_proc p (fun x => set_data PROCESS_FILETYPE_ELF 0 (p_size x) x)
    | Some (e, f) =>
        modifyS (fun s => set_elfs (<[e := f]> (elfs s)) s);;
        update_proc p (fun x => set_data PROCESS_FILETYPE_ELF e (p_size x) x)
    end;;
    mret res.

Definition process_load_data (filename : list Z) (p : Z) : cmd kst Z :=
  res ← process_load_elf filename p;
  if res =? - EINFORMAT then process_load_binary filename p else mret res.

Definition process_map_binary (p : Z) : cmd kst Z :=
  x ← load_proc p;
  c ← page_directory_of x;
  map_to c SERPAEOS_PROGRAM_VIRTUAL_ADDRESS (process_data x)
    (paging_align_address (process_data x + p_size x)) USER_PAGE;;
  mret 0.

Definition p_memsz (m : list Z) (ph : Z) : outcome Z := rd 4 m (ph + 20).
Definition p_flags (m : list Z) (ph : Z) : outcome Z := rd 4 m (ph + 24).

Definition elf_phdr_phys_address (f : elf_file) (ph : Z) : outcome Z :=
  o ← p_offset (image f) ph; Ret (u32 (elf_memory f + o)).

Definition map_elf_segment (c : paging_4gb_chunk) (f : elf_file) (ph : Z) : cmd kst Z :=
  phys ← liftO (elf_phdr_phys_address f ph);
  fl ← liftO (p_flags (image f) ph);
  vaddr ← liftO (p_vaddr (image f) ph);
  memsz ← liftO (p_memsz (image f) ph);
  let flags := Z.lor PAGING_IS_PRESENT PAGING_ACCESS_FROM_ALL in
  let flags := if c_true (Z.land fl PF_W) then Z.lor flags PAGING_IS_WRITEABLE else flags in
  map_to c (paging_align_to_lower_page vaddr) (paging_align_to_lower_page phys)
    (paging_align_address (u32 (phys + memsz))) flags.

Fixpoint map_elf_loop (n : nat) (c : paging_4gb_chunk) (f : elf_file) (i res : Z) : cmd kst Z :=
  match n with
  | O => mret res
  | S n =>
      ph ← liftO (elf_program_header (image f) i);
      res ← map_elf_segment c f ph;
      if ISERR res then mret res else map_elf_loop n c f (i + 1) res
  end.

Definition process_map_elf (p : Z) : cmd kst Z :=
  x ← load_proc p;
  f ← obj elfs (process_data x);
  c ← page_directory_of x;
  n ← liftO (e_phnum (image f));
  map_elf_loop (Z.to_nat n) c f 0 0.

(** The result of mapping the stack is not looked at. *)
Definition process_map_memory (p : Z) : cmd kst Z :=
  x ← load_proc p;
  res ← (if filetype x =? PROCESS_FILETYPE_ELF then process_map_elf p
         else if filetype x =? PROCESS_FILETYPE_BINARY then process_map_binary p
         else liftO Panic);
  if res <? 0 then mret res
  else
    x ← load_proc p;
    c ← page_directory_of x;
    map_to c SERPAEOS_PROGRAM_VIRTUAL_STACK_ADDRESS_END (stack x)
      (paging_align_address (stack x + SERPAEOS_USER_PROGRAM_STACK_SIZE)) USER_PAGE;;
    mret res.

Definition first_free (l : list Z) (i : Z) : Z :=
  match first_index (fun p => p =? 0) l i with Some j => j | None => - EISTKN end.

Definition process_get_free_slot (s : kst) : Z :=
  first_free (take (Z.to_nat SERPAEOS_MAX_PROCESSES) (processes s)) 0.
Definition process_get_child_slot (s : kst) : Z :=
  first_free (drop (Z.to_nat SERPAEOS_MAX_PROCESSES) (processes s)) SERPAEOS_MAX_PROCESSES.

Definition process_free_program_data (p : Z) : cmd kst Z :=
  x ← load_proc p;
  if filetype x =? PROCESS_FILETYPE_BINARY then kfree_at (process_data x);; mret 0
  else if filetype x =? PROCESS_FILETYPE_ELF then
    (if process_data x =? 0 then on_files (elf_close None)
     else
       f ← obj elfs (process_data x);
       on_files (elf_close (Some (process_data x, f)));;
       modifyS (fun s => set_elfs (delete (process_data x) (elfs s)) s));;
    mret 0
  else mret (- EINVARG).

(** The label [out] after an error.  [None] is the local variable before it is
    assigned. *)
Definition load_failed (p : option Z) : cmd kst unit :=
  match p with
  | None => liftO Oob
  | Some p =>
      (if p =? 0 then mret tt
       else
         x ← load_proc p;
         if p_task x =? 0 then mret tt else on_sched (task_free (p_task x));; mret tt);;
      process_free_program_data p;;
      mret tt
  end.

(** The code before [out]: the result, the local [_process], what [*process] is
    set to. *)
Definition load_for_slot_body (filename : list Z) (process_slot hosting : Z)
    : cmd kst (Z * option Z * option Z) :=
  taken ← process_get process_slot;
  if negb (taken =? 0) then mret (- EISTKN, None, None)
  else
    p ← on_alloc (kz sizeof_process);
    if p =? 0 then mret (- ENOMEM, Some 0, None)
    else
      modifyS (fun s => set_pobjs (<[p := zero_process]> (pobjs s)) s);;
      res ← process_load_data filename p;
      if res <? 0 then mret (res, Some p, None)
      else
        program_stack_ptr ← kzalloc_block SERPAEOS_USER_PROGRAM_STACK_SIZE;
        if program_stack_ptr =? 0 then mret (- ENOMEM, Some p, None)
        else
          x ← load_proc p;
          name ← liftO (strncpy (Process.filename x) filename SERPAEOS_MAX_PATH);
          update_proc p (set_identity name program_stack_ptr process_slot);;
          task ← on_sched (task_new p);
          if task =? 0 then mret (0, Some p, None)
          else
            update_proc p (set_task task);;
            res ← process_map_memory p;
            if res <? 0 then mret (res, Some p, None)
            else
              update_proc p (fun x => set_host hosting (set_hosting false x));;
              (if negb (hosting =? 0) then
                 h ← load_proc hosting;
                 update_proc p (set_screen (p_screen h));;
                 update_proc hosting (set_hosting true)
               else
                 c ← on_alloc (kz sizeof_screen);
                 modifyS (fun s => if c =? 0 then s else set_screens (<[c := zero_screen]> (screens s)) s);;
                 update_proc p (set_screen c));;
              s ← getS;
              l ← liftO (store (processes s) process_slot p);
              modifyS (set_processes l);;
              mret (res, Some p, Some p).

Definition process_load_for_slot (filename : list Z) (process_slot hosting : Z) : cmd kst (Z * option Z) :=
  '(res, p, out) ← load_for_slot_body filename process_slot hosting;
  (if ISERR res then load_failed p else mret tt);;
  mret (res, out).

Definition process_load (filename : list Z) (hosting : Z) : cmd kst (Z * option Z) :=
  s ← getS;
  let process_slot := process_get_free_slot s in
  if process_slot <? 0 then mret (- EISTKN, None)
  else process_load_for_slot filename process_slot hosting.

(** A load that sets no process leaves the caller's pointer as it was. *)
Definition process_load_switch (filename : list Z) (hosting : Z) : cmd kst (Z * option Z) :=
  '(res, out) ← process_load filename hosting;
  (if res =? 0 then
     match out with
     | None => liftO Oob
     | Some target =>
         process_switch target;;
         x ← load_proc target;
         if host x =? 0 then on_terminal terminal_initialize else mret tt
     end
   else mret tt);;
  mret (res, out).

(** ** Termination *)
Fixpoint free_allocations (l : list (Z * Z)) : cmd kst unit :=
  match l with
  | [] => mret tt
  | (ptr, _) :: l => kfree_at ptr;; free_allocations l
  end.

Definition process_terminate_allocs (p : Z) : cmd kst unit :=
  x ← load_proc p; free_allocations (allocations x).

Fixpoint terminate_files_loop (n : nat) (p i : Z) : cmd kst unit :=
  match n with
  | O => mret tt
  | S n =>
      x ← load_proc p;
      fd ← liftO (load (iob x) i);
      (if fd =? 0 then process_fclose p i;; mret tt else mret tt);;
      terminate_files_loop n p (i + 1)
  end.
Definition process_terminate_files (p : Z) : cmd kst unit := terminate_files_loop (Z.to_nat NFILE) p 0.

Fixpoint switch_to_any (l : list Z) : cmd kst unit :=
  match l with
  | [] => liftO Panic
  | p :: l => if negb (p =? 0) then process_switch p;; mret tt else switch_to_any l
  end.
Definition process_switch_to_any : cmd kst unit :=
  s ← getS; switch_to_any (take (Z.to_nat SERPAEOS_MAX_PROCESSES) (processes s)).

Definition process_unlink (p : Z) : cmd kst unit :=
  x ← load_proc p;
  s ← getS;
  l ← liftO (store (processes s) (process_id x) 0);
  modifyS (set_processes l);;
  kfree_at p;;
  s ← getS;
  if current_process s =? p then process_switch_to_any else mret tt.

Definition process_terminate (fuel : nat) (p : Z) : cmd kst Z :=
  if p =? 0 then mret (- EINVARG)
  else
    x ← load_proc p;
    if process_id x =? 0 then mret (- EINVARG)
    else
      process_terminate_allocs p;;
      process_terminate_files p;;
      res ← process_free_program_data p;
      if res <? 0 then mret res
      else
        kfree_at (stack x);;
        on_sched (task_free_all_for_process fuel p);;
        (if negb (host x =? 0) then update_proc (host x) (set_hosting false) else mret tt);;
        kfree_at (p_screen x);;
        process_unlink p;;
        mret 0.
End processes.
Arguments kst H F : clear implicits.
