(* ===== verification/Directory.v ===== *)
(** * The process directory (show_directory of src/src/task/process.c)

    While the super key is held the screen shows the processes of the system
    and the date.  The date is that of [get_current_time]; [text] is the static
    buffer of [itoa]. *)
From S2P Require Import Prelude Config CMem CString Kheap Paging AddressSpace PathParser Disk Vfs Elf Task Terminal.
From S2P Require Import TerminalSpec Screen ScreenSpec Process.

Definition VERSION_LINE : list Z :=
  chars "SerpaeOS v23.4.1         symbols: " ++ [34] ++ chars "+" ++ [34] ++ chars " = sleeping process, "
  ++ [34] ++ chars "*" ++ [34] ++ chars " = current process".
Definition numbers : list (list Z) :=
  [lit "Home"; lit "1"; lit "2"; lit "3"; lit "4"; lit "5"; lit "6"; lit "7"; lit "8"; lit "9"; lit "10"; lit "11"; lit "12"].
Definition months : list (list Z) :=
  [lit "INVALID "; lit "January "; lit "Febuary "; lit "March "; lit "April "; lit "May "; lit "June "; lit "July ";
   lit "August "; lit "September "; lit "October "; lit "November "; lit "December "].

Section directory.
Context {H : Type} `{Allocator H} {F : Type}.

(** The line of a process. *)
Definition directory_entry (i p : Z) : cmd (kst H F) unit :=
  on_terminal (terminal_writechar 10 15);;
  number ← liftO (load numbers i);
  on_terminal (print number);;
  on_terminal (a ← terminal_get_attr; terminal_writechar 58 a);;
  s ← getS;
  x ← load_proc p;
  on_terminal (print (if current_process s =? p then lit " *" else if p_hosting x then lit " +" else lit "  "));;
  on_terminal (print (filename x)).

Fixpoint directory_loop (n : nat) (i : Z) : cmd (kst H F) unit :=
  match n with
  | O => mret tt
  | S n =>
      s ← getS;
      p ← liftO (load (processes s) i);
      (if p =? 0 then mret tt else directory_entry i p);;
      directory_loop n (i + 1)
  end.

(** A number, as [itoa] leaves it in its buffer. *)
Definition print_number (text : list Z) (v : Z) : cmd (kst H F) (list Z) :=
  '(text, loc) ← liftO (itoa text v);
  on_terminal (print (drop (Z.to_nat loc) text));;
  mret text.

Definition show_directory (now : date_time) (text : list Z) : cmd (kst H F) (list Z) :=
  s ← getS;
  v ← liftO (memcpy_loop (Z.to_nat (VGA_HEIGHT * VGA_WIDTH)) (video (directory_screen s)) (video_mem (terminal s)));
  '(x, y) ← on_terminal get_cursor;
  modifyS (set_directory (mk_screen (current_screen (directory_screen s)) x y v) true);;
  on_terminal (set_cursor 0 0);;
  on_terminal (clrscr 15);;
  on_terminal (print (VERSION_LINE ++ [0]));;
  directory_loop (Z.to_nat SERPAEOS_MAX_PROCESSES) 0;;
  on_terminal (set_cursor 60 24);;
  month_name ← liftO (load months (month now));
  on_terminal (print month_name);;
  text ← print_number text (day now);
  on_terminal (print (lit ", "));;
  print_number text (s32 (year now)).
End directory.

(** ** What the page shows *)

(** The string at the start of a buffer. *)
Fixpoint string_of (l : list Z) : list Z :=
  match l with
  | [] => []
  | c :: l => if c =? 0 then [] else c :: string_of l
  end.

Lemma string_of_spec l : (0 ∈ l) -> exists rest, l = string_of l ++ 0 :: rest.
Proof.
  induction l as [|c l IH]; [by intros ?%not_elem_of_nil|]. cbn [string_of]. destruct (c =? 0) eqn:E; breflect.
  - subst. by exists l.
  - intros [?|Hin]%elem_of_cons; [congruence|]. destruct (IH Hin) as [rest Hr]. exists rest. cbn [app]. f_equal. exact Hr.
Qed.

Section page.
Context {H : Type} `{Allocator H} {F : Type}.
Implicit Types (s : kst H F).

(** The process at [p] and the line it gets. *)
Definition entry_text s (i p : Z) : list Z :=
  match pobjs s !! p with
  | Some x =>
      10 :: string_of (numbers !!! Z.to_nat i) ++ [58]
      ++ (if current_process s =? p then chars " *" else if p_hosting x then chars " +" else chars "  ")
      ++ string_of (filename x)
  | None => []
  end.
Fixpoint lines_text s (n : nat) (i : Z) : list Z :=
  match n with
  | O => []
  | S n =>
      let p := processes s !!! Z.to_nat i in
      (if p =? 0 then [] else entry_text s i p) ++ lines_text s n (i + 1)
  end.
Definition directory_text s : list Z := VERSION_LINE ++ lines_text s (Z.to_nat SERPAEOS_MAX_PROCESSES) 0.

(** The processes of the table exist and have printable names. *)
Definition named s : Prop :=
  (13 <= length (processes s))%nat /\
  forall i p, (i < 13)%nat -> processes s !! i = Some p -> p <> 0 ->
    exists x, pobjs s !! p = Some x /\ (0 ∈ filename x) /\ Forall text_char (string_of (filename x)) /\
  Z.of_nat (length (filename x)) < 2147483648.

(** A step of the terminal, while the rest of the state stays. *)
Definition draws_text (c : cmd (kst H F) unit) s str : Prop :=
  forall sc b, video_ok (fst sc) -> (snd sc < 2000)%nat -> fits sc str = true ->
    c (set_terminal (term_of sc b) s) = Ret (tt, set_terminal (term_of (foldl screen_step sc str) b) s).

Lemma fits_app a sc l : fits sc (a ++ l) = fits sc a && fits (foldl screen_step sc a) l.
Proof. revert sc. induction a as [|c a IH]; intros sc; cbn [app fits foldl]; [done|]. by rewrite IH, andb_assoc. Qed.

Lemma draws_app c1 c2 s a l :
  draws_text c1 s a -> draws_text c2 s l -> Forall text_char a -> draws_text (c1;; c2) s (a ++ l).
Proof.
  intros H1 H2 Ha sc b Hv Hp Hf. rewrite fits_app in Hf. apply andb_true_iff in Hf as [Hf1 Hf2].
  step (H1 sc b Hv Hp Hf1). rewrite foldl_app. destruct (fold_screen_ok a sc Ha Hv Hp Hf1). by apply H2.
Qed.

Lemma on_terminal_spec {A} (c : cmd term A) s t a t' : c t = Ret (a, t') -> on_terminal c (set_terminal t s) = Ret (a, set_terminal t' s).
Proof. intros E. unfold on_terminal. cbn [terminal set_terminal]. by rewrite E. Qed.

Lemma draws_print s str rest :
  Forall text_char str -> Z.of_nat (length str) < 2147483648 -> draws_text (on_terminal (print (str ++ 0 :: rest))) s str.
Proof.
  intros Hs Hl [v p] b Hv Hp Hf. apply on_terminal_spec. unfold print.
  rewrite (bind_liftO _ _ _ _ (text_strlen str rest Hs Hl)), Nat2Z.id. by apply (print_loop_spec (v, p) [] str (0 :: rest)).
Qed.

Lemma draws_ext (c c' : cmd (kst H F) unit) s str :
  (forall t, c (set_terminal t s) = c' (set_terminal t s)) -> draws_text c' s str -> draws_text c s str.
Proof. intros He Hc sc b Hv Hp Hf. rewrite He. by apply Hc. Qed.

(** A line break has no colour. *)
Lemma draws_break s a : draws_text (on_terminal (terminal_writechar 10 a)) s [10].
Proof.
  intros [v p] b Hv Hp Hf. apply on_terminal_spec. cbn [fst snd foldl] in *.
  assert (E : forall a', terminal_writechar 10 a (term_of (v, p) b) = terminal_writechar 10 a' (term_of (v, p) b)).
  { intros a'. unfold terminal_writechar, writechar_with. rewrite !bind_getS. unfold term_of. cbn [terminal_row fst snd].
    pose proof (Nat.div_mod_eq p 80). pose proof (Nat.mod_upper_bound p 80).
    by rewrite (proj2 (Z.ltb_lt (Z.of_nat (p / 80)) VGA_HEIGHT)) by (unfold VGA_HEIGHT; lia). }
  rewrite (E (v !!! p / 256)). by apply (writechar_step (v, p)); [..|left|].
Qed.

Lemma draws_char s c :
  text_char c -> draws_text (on_terminal (a ← terminal_get_attr; terminal_writechar c a)) s [c].
Proof.
  intros Hc [v p] b Hv Hp Hf. apply on_terminal_spec. cbn [fst snd foldl fits] in *.
  destruct (video_ok_cell v p Hv Hp) as (x & Hx & Hr). rewrite andb_true_r in Hf.
  pose proof (Nat.div_mod_eq p 80) as Hdm.
  step (get_attr_spec (term_of (v, p) b) x p ltac:(unfold term_of; cbn [terminal_row terminal_col fst snd]; lia) Hx).
  rewrite Z.shiftr_div_pow2 by lia. change (2 ^ 8) with 256. rewrite <- (list_lookup_total_correct _ _ _ Hx).
  by apply (writechar_step (v, p)).
Qed.

(** The strings of the page. *)
Definition text_char_b (c : Z) : bool := (c =? 10) || (c =? 13) || ((32 <=? c) && (c <? 128)).
Lemma forallb_Forall (f : Z -> bool) (P : Z -> Prop) l : (forall c, f c = true -> P c) -> forallb f l = true -> Forall P l.
Proof.
  intros Hf Hl. apply Forall_forall. intros c Hc. rewrite forallb_forall in Hl.
  by apply Hf, Hl, list_elem_of_In.
Qed.

Lemma text_chars l : forallb text_char_b l = true -> Forall text_char l.
Proof. apply forallb_Forall. intros c. unfold text_char_b, text_char. intros ?. breflect. lia. Qed.

Lemma number_name (i : nat) :
  (i < 13)%nat -> exists l, numbers !! i = Some (l ++ [0]) /\ string_of (numbers !!! i) = l /\ Forall text_char l /\
    Z.of_nat (length l) < 2147483648.
Proof.
  intros Hi. do 13 (destruct i as [|i]; [eexists; split; [reflexivity|]; split; [reflexivity|]; split;
    [apply text_chars; reflexivity|simpl; lia]|]). lia.
Qed.

Lemma entry_draws s (i : nat) p :
  named s -> (i < 13)%nat -> processes s !! i = Some p -> p <> 0 ->
  draws_text (directory_entry (Z.of_nat i) p) s (entry_text s (Z.of_nat i) p) /\ Forall text_char (entry_text s (Z.of_nat i) p).
Proof.
  intros [_ Hn] Hi Hp Hp0. destruct (Hn i p Hi Hp Hp0) as (x & Hx & Hz & Ht & Hl).
  destruct (number_name i Hi) as (l & Hnum & Hls & Hlt & Hll). destruct (string_of_spec _ Hz) as [rest Hr].
  unfold entry_text. rewrite Hx, Nat2Z.id, Hls.
  set (mark := if current_process s =? p then chars " *" else if p_hosting x then chars " +" else chars "  ").
  assert (Hm : Forall text_char mark /\ Z.of_nat (length mark) < 2147483648 /\
    (if current_process s =? p then lit " *" else if p_hosting x then lit " +" else lit "  ") = mark ++ 0 :: []).
  { unfold mark, lit. destruct (current_process s =? p); [|destruct (p_hosting x)]; (split; [apply text_chars|]); done. }
  destruct Hm as (Hm1 & Hm2 & Hm3). assert (Hlf : Z.of_nat (length (string_of (filename x))) < 2147483648).
  { rewrite Hr in Hl. rewrite length_app in Hl. lia. }
  split.
  - change (10 :: l ++ [58] ++ mark ++ string_of (filename x)) with ([10] ++ l ++ [58] ++ mark ++ string_of (filename x)).
    apply draws_app; [apply draws_break| |by apply text_chars].
    eapply draws_ext; [intros t; rewrite (bind_liftO _ _ _ (l ++ [0])) by (apply load_Some; [lia|by rewrite Nat2Z.id]); reflexivity|].
    apply draws_app; [by apply draws_print| |done].
    apply draws_app; [apply draws_char; unfold text_char; lia| |by apply text_chars].
    apply (draws_ext _ (on_terminal (print (mark ++ [0]));; on_terminal (print (filename x)))).
    { intros t. rewrite bind_getS. rewrite (bind_Ret _ _ _ x (set_terminal t s)).
      - cbn [current_process set_terminal]. by rewrite Hm3.
      - unfold load_proc, obj. rewrite bind_getS. cbn [pobjs set_terminal]. by rewrite Hx. }
    apply draws_app; [by apply draws_print| |done]. rewrite Hr at 1. by apply draws_print.
  - constructor; [unfold text_char; lia|]. rewrite !Forall_app. split_and!; [done|by apply text_chars|done|done].
Qed.

Lemma draws_nil s : draws_text (mret tt) s [].
Proof. intros sc b _ _ _. done. Qed.

Lemma loop_draws s n (i : nat) :
  named s -> (i + n <= 13)%nat ->
  draws_text (directory_loop n (Z.of_nat i)) s (lines_text s n (Z.of_nat i)) /\ Forall text_char (lines_text s n (Z.of_nat i)).
Proof.
  intros Hn. revert i. induction n as [|n IH]; intros i Hi; cbn [directory_loop lines_text]; [split; [apply draws_nil|done]|].
  destruct (IH (S i) ltac:(lia)) as [IH1 IH2]. replace (Z.of_nat (S i)) with (Z.of_nat i + 1) in IH1, IH2 by lia.
  pose proof Hn as [Hlen _]. destruct (lookup_lt_is_Some_2 (processes s) i) as [p Hp]; [lia|].
  rewrite Nat2Z.id, (list_lookup_total_correct _ _ _ Hp).
  set (line := if p =? 0 then [] else entry_text s (Z.of_nat i) p).
  assert (Hline : draws_text (if p =? 0 then mret tt else directory_entry (Z.of_nat i) p) s line /\ Forall text_char line).
  { unfold line. destruct (p =? 0) eqn:E; breflect; [split; [apply draws_nil|done]|]. apply entry_draws; [done|lia|done|done]. }
  destruct Hline as [Hl1 Hl2]. split; [|apply Forall_app; by split].
  apply (draws_ext _ ((if p =? 0 then mret tt else directory_entry (Z.of_nat i) p);; directory_loop n (Z.of_nat i + 1))).
  { intros t. rewrite bind_getS. cbn [processes set_terminal].
    by rewrite (bind_liftO _ _ _ p) by (apply load_Some; [lia|by rewrite Nat2Z.id]). }
  by apply draws_app.
Qed.

(** ** The date *)
Definition month_name (now : date_time) : list Z := string_of (months !!! Z.to_nat (month now)).

Definition date_text (now : date_time) (str : list Z) : Prop :=
  exists d y, str = month_name now ++ d ++ chars ", " ++ y /\ decimal (day now) d /\ decimal (year now) y.

(** Characters that are not line breaks. *)
Definition plain (c : Z) : Prop := 32 <= c < 128.
Lemma plain_chars l : forallb (fun c => (32 <=? c) && (c <? 128)) l = true -> Forall plain l.
Proof. apply forallb_Forall. intros c. unfold plain. intros ?. breflect. lia. Qed.
Lemma plain_text str : Forall plain str -> Forall text_char str.
Proof. intros Hs. eapply Forall_impl; [exact Hs|]. intros c Hc. unfold text_char. by right; right. Qed.

Lemma fits_plain str sc : Forall plain str -> (snd sc + length str <= 1999)%nat -> fits sc str = true.
Proof.
  intros Hs. revert sc. induction Hs as [|c str Hc Hs IH]; intros [v p] Hl; [done|]. cbn [fits length snd screen_step] in *.
  rewrite (proj2 (Nat.ltb_lt p 1999)), orb_true_r by lia. cbn [andb]. assert (is_break c = false) as ->.
  { unfold is_break. rewrite (proj2 (Z.eqb_neq c 10)), (proj2 (Z.eqb_neq c 13)); [done|unfold plain in Hc; lia..]. }
  apply IH. cbn [snd]. lia.
Qed.

Lemma plain_pos str sc : Forall plain str -> snd (foldl screen_step sc str) = (snd sc + length str)%nat.
Proof.
  intros Hs. revert sc. induction Hs as [|c str Hc Hs IH]; intros [v p]; [simpl; lia|]. cbn [foldl length screen_step].
  assert (is_break c = false) as ->.
  { unfold is_break. rewrite (proj2 (Z.eqb_neq c 10)), (proj2 (Z.eqb_neq c 13)); [done|unfold plain in Hc; lia..]. }
  rewrite IH. cbn [snd]. lia.
Qed.

Lemma month_spec (m : nat) :
  (m <= 12)%nat -> exists l, months !! m = Some (l ++ [0]) /\ string_of (months !!! m) = l /\ Forall plain l /\ (length l <= 10)%nat.
Proof.
  intros Hm. do 13 (destruct m as [|m]; [eexists; split; [reflexivity|]; split; [reflexivity|]; split;
    [apply plain_chars; reflexivity|simpl; lia]|]). lia.
Qed.

Lemma print_number_spec s text v (k : nat) :
  length text = 12%nat -> 0 <= v < 10 ^ Z.of_nat k -> (0 < k <= 9)%nat ->
  exists d text', decimal v d /\ (length d <= k)%nat /\ Forall plain d /\ length text' = 12%nat /\
    forall sc b, video_ok (fst sc) -> (snd sc < 2000)%nat -> fits sc d = true ->
      print_number text v (set_terminal (term_of sc b) s) = Ret (text', set_terminal (term_of (foldl screen_step sc d) b) s).
Proof.
  intros Ht Hv Hk. assert (10 ^ Z.of_nat k <= 10 ^ 9) by (apply Z.pow_le_mono_r; lia).
  destruct (itoa_decimal text v Ht ltac:(lia)) as (text' & loc & d & E & Ht' & Hd & Hdec).
  exists d, text'. pose proof (decimal_length k v d Hdec Hv ltac:(lia)) as Hl.
  assert (Hpl : Forall plain d).
  { eapply Forall_impl; [exact (decimal_bytes v d Hdec)|]. intros c [->|Hc]; unfold plain; unfold is_digit in *; lia. }
  split_and!; try done. intros sc b Hvd Hp Hf. unfold print_number. rewrite (bind_liftO _ _ _ _ E), Hd.
  step (draws_print s d [] (plain_text d Hpl) ltac:(lia) sc b Hvd Hp Hf). done.
Qed.

(** ** Showing and hiding *)
Definition blank_page : list Z := replicate 2000 (cell 15 32).

Lemma blank_page_ok : video_ok blank_page.
Proof. split; [apply length_replicate|]. apply Forall_replicate. unfold cell. lia. Qed.

Lemma set_cursor_spec v p b x y :
  0 <= x < 80 -> 0 <= y < 25 -> set_cursor x y (term_of (v, p) b) = Ret (tt, term_of (v, Z.to_nat (80 * y + x)) b).
Proof.
  intros Hx Hy. unfold set_cursor, VGA_WIDTH, VGA_HEIGHT. rewrite (proj2 (Z.leb_gt 80 x)), (proj2 (Z.leb_gt 25 y)) by lia.
  unfold modifyS, set_row, set_col, term_of. cbn [fst snd video_mem terminal_row terminal_col beeps].
  rewrite !u16_id by lia.
  rewrite Nat2Z.inj_div, Nat2Z.inj_mod, !Z2Nat.id by lia. change (Z.of_nat 80) with 80.
  assert ((80 * y + x) / 80 = y /\ (80 * y + x) mod 80 = x) as [-> ->] by zlia. done.
Qed.

(** The page after the date. *)
Definition directory_page s (date : list Z) : list Z * nat :=
  foldl screen_step (fst (foldl screen_step (blank_page, 0%nat) (directory_text s)), 1980%nat) date.

(** The page of processes, from the moment the cursor is in the corner. *)
Lemma page_drawn {B} (k : cmd (kst H F) B) s v p b :
  named s -> video_ok v -> (p < 2000)%nat -> fits (blank_page, 0%nat) (directory_text s) = true ->
  (on_terminal (set_cursor 0 0);; on_terminal (clrscr 15);; on_terminal (print (VERSION_LINE ++ [0]));;
   directory_loop (Z.to_nat SERPAEOS_MAX_PROCESSES) 0;; on_terminal (set_cursor 60 24);; k) (set_terminal (term_of (v, p) b) s) =
  k (set_terminal (term_of (fst (foldl screen_step (blank_page, 0%nat) (directory_text s)), 1980%nat) b) s).
Proof.
  intros Hn Hv Hp Hf. step (on_terminal_spec _ s _ _ _ (set_cursor_spec v p b 0 0 ltac:(lia) ltac:(lia))).
  change (Z.to_nat (80 * 0 + 0)) with 0%nat. step (on_terminal_spec _ s _ _ _ (clrscr_colours v 0 b 15 Hv ltac:(lia) ltac:(lia))).
  change (replicate (80 * (0 / 80)) (cell (v !!! 0%nat / 256) 32) ++ replicate (80 * (25 - 0 / 80)) (cell 15 32)) with blank_page.
  assert (Hver : Forall text_char VERSION_LINE) by (by apply text_chars).
  destruct (loop_draws s 13 0 Hn ltac:(lia)) as [Hloop Hlines].
  pose proof (draws_app _ _ s _ _ (draws_print s VERSION_LINE [] Hver ltac:(done)) Hloop Hver) as Hpage.
  assert (Htext : Forall text_char (directory_text s)) by (apply Forall_app; by split).
  pose proof blank_page_ok as Hbl. specialize (Hpage (blank_page, 0%nat) b Hbl ltac:(simpl; lia) Hf).
  destruct (fold_screen_ok _ (blank_page, 0%nat) Htext Hbl ltac:(simpl; lia) Hf) as [Hv' Hp'].
  change (VERSION_LINE ++ lines_text s 13 (Z.of_nat 0)) with (directory_text s) in Hpage. destruct (foldl screen_step (blank_page, 0%nat) (directory_text s)) as [v' p'].
  assert (Ha : forall (c1 c2 : cmd (kst H F) unit) (c3 : cmd (kst H F) B) t, (c1;; c2;; c3) t = ((c1;; c2);; c3) t).
  { intros. unfold mbind, cmd_bind. by destruct (c1 t) as [[[] ?]| | |]. }
  rewrite Ha. step Hpage. by step (on_terminal_spec _ s _ _ _ (set_cursor_spec v' p' b 60 24 ltac:(lia) ltac:(lia))).
Qed.

(** The date, from the cell (60, 24) on. *)
Lemma date_drawn s now text v b :
  video_ok v -> length text = 12%nat -> 0 <= month now <= 12 -> 0 <= day now < 100 -> 0 <= year now < 10000 ->
  exists str text', date_text now str /\
    (month_name ← liftO (load months (month now));
     on_terminal (print month_name);;
     text ← print_number text (day now);
     on_terminal (print (lit ", "));;
     print_number text (s32 (year now))) (set_terminal (term_of (v, 1980%nat) b) s) =
    Ret (text', set_terminal (term_of (foldl screen_step (v, 1980%nat) str) b) s) /\
    video_ok (fst (foldl screen_step (v, 1980%nat) str)).
Proof.
  intros Hv Ht Hm Hd Hy. destruct (month_spec (Z.to_nat (month now)) ltac:(lia)) as (mn & Hmn & Hname & Hmp & Hml).
  destruct (print_number_spec s text (day now) 2 Ht ltac:(simpl; lia) ltac:(lia)) as (d & text1 & Hdd & Hdl & Hdp & Ht1 & Ed).
  destruct (print_number_spec s text1 (year now) 4 Ht1 ltac:(simpl; lia) ltac:(lia)) as (y & text2 & Hyd & Hyl & Hyp & Ht2 & Ey).
  exists (mn ++ d ++ chars ", " ++ y), text2. split; [exists d, y; by unfold month_name; rewrite Hname|].
  rewrite (bind_liftO _ _ _ (mn ++ [0])) by (apply load_Some; [lia|done]).
  assert (Hc : Forall plain (chars ", ")) by (by apply plain_chars).
  assert (Hstep : forall sc str, video_ok (fst sc) -> (snd sc + length str <= 1999)%nat -> Forall plain str ->
    video_ok (fst (foldl screen_step sc str)) /\ (snd sc < 2000)%nat /\ fits sc str = true).
  { intros sc str Hsc Hl Hp. pose proof (fits_plain str sc Hp Hl) as Hf.
    split; [|split; [lia|done]]. by apply fold_screen_ok; [apply plain_text|..|lia|]. }
  rewrite !foldl_app. destruct (Hstep (v, 1980%nat) mn Hv ltac:(cbn [snd]; lia) Hmp) as (Hv1 & Hp1 & Hf1).
  step (draws_print s mn [] (plain_text _ Hmp) ltac:(lia) (v, 1980%nat) b Hv Hp1 Hf1).
  pose proof (plain_pos mn (v, 1980%nat) Hmp) as P1. set (s1 := foldl screen_step (v, 1980%nat) mn) in *. cbn [snd] in P1.
  destruct (Hstep s1 d Hv1 ltac:(lia) Hdp) as (Hv2 & Hp2 & Hf2). step (Ed s1 b Hv1 Hp2 Hf2).
  pose proof (plain_pos d s1 Hdp) as P2. set (s2 := foldl screen_step s1 d) in *.
  destruct (Hstep s2 (chars ", ") Hv2 ltac:(simpl length; lia) Hc) as (Hv3 & Hp3 & Hf3).
  step (draws_print s (chars ", ") [] (plain_text _ Hc) ltac:(done) s2 b Hv2 Hp3 Hf3).
  pose proof (plain_pos (chars ", ") s2 Hc) as P3. set (s3 := foldl screen_step s2 (chars ", ")) in *. simpl length in P3.
  destruct (Hstep s3 y Hv3 ltac:(lia) Hyp) as (Hv4 & Hp4 & Hf4). rewrite s32_id by lia. split; [by apply Ey|done].
Qed.

(** C19: the directory of processes comes and goes.  Holding the super key shows a
    page with a title, one line for each process with its number, a mark and its
    name, and the date in the last row; releasing it brings back the page and the
    cursor that were there before, and the rest of the kernel has not changed.
    The lines must fit the page. *)
Theorem directory_roundtrip now text s v p b :
  named s -> terminal s = term_of (v, p) b -> video_ok v -> (p < 2000)%nat ->
  length (video (directory_screen s)) = 2000%nat -> length text = 12%nat ->
  fits (blank_page, 0%nat) (directory_text s) = true ->
  0 <= month now <= 12 -> 0 <= day now < 100 -> 0 <= year now < 10000 ->
  exists s1 date text', date_text now date /\ show_directory now text s = Ret (text', s1) /\
    terminal s1 = term_of (directory_page s date) b /\
    hide_directory s1 = Ret (tt, set_directory (mk_screen (current_screen (directory_screen s))
                                   (Z.of_nat (p mod 80)) (Z.of_nat (p / 80)) v) false s).
Proof.
  intros Hn Ht Hv Hp Hd Hx Hf Hm Hday Hy.
  set (saved := mk_screen (current_screen (directory_screen s)) (Z.of_nat (p mod 80)) (Z.of_nat (p / 80)) v).
  set (s0 := set_directory saved true s).
  destruct (date_drawn s0 now text (fst (foldl screen_step (blank_page, 0%nat) (directory_text s0))) b) as (date & text' & Hdate & E & [Hpage _]);
    [|done..|].
  { assert (Htext : Forall text_char (directory_text s)).
    { apply Forall_app. split; [by apply text_chars|]. by apply (loop_draws s 13 0 Hn). }
    by apply (fold_screen_ok _ (blank_page, 0%nat) Htext blank_page_ok ltac:(simpl; lia) Hf). }
  exists (set_terminal (term_of (directory_page s date) b) s0), date, text'. split; [done|]. split; [|split; [done|]].
  - destruct Hv as [Hvl Hvr]. unfold show_directory. rewrite bind_getS, Ht. change (video_mem (term_of (v, p) b)) with v.
    change (Z.to_nat (VGA_HEIGHT * VGA_WIDTH)) with 2000%nat.
    rewrite (bind_liftO _ _ _ _ (memcpy_loop_spec 2000 (video (directory_screen s)) v ltac:(lia) ltac:(lia))), drop_ge, app_nil_r, take_ge by lia.
    assert (Hc : on_terminal get_cursor s = Ret (((Z.of_nat (p mod 80)), Z.of_nat (p / 80)), s)).
    { unfold on_terminal. rewrite Ht. change (get_cursor (term_of (v, p) b)) with
        (Ret ((Z.of_nat (p mod 80), Z.of_nat (p / 80)), term_of (v, p) b)). rewrite <- Ht. by destruct s. }
    step Hc. rewrite bind_modifyS. fold saved. fold s0.
    assert (Hs0 : s0 = set_terminal (term_of (v, p) b) s0) by (unfold s0; rewrite <- Ht; by destruct s). rewrite Hs0 at 1.
    rewrite (page_drawn _ s0 v p b); [exact E|exact Hn|by split|done|exact Hf].
  - unfold hide_directory. rewrite bind_getS. cbn [directory_screen_is_current set_terminal s0 set_directory negb].
    cbn [directory_screen terminal video saved sx sy].
    change (Z.to_nat (VGA_HEIGHT * VGA_WIDTH)) with 2000%nat. change (directory_text s0) with (directory_text s) in Hpage.
    fold (directory_page s date) in Hpage. change (video_mem (term_of ?sc b)) with (fst sc). destruct Hv as [Hvl _].
    rewrite (bind_liftO _ _ _ _ (memcpy_loop_spec 2000 _ v ltac:(rewrite Hpage; lia) ltac:(lia))), drop_ge, app_nil_r, take_ge by lia.
    assert (Hc : on_terminal (modifyS (set_video v)) (set_terminal (term_of (directory_page s date) b) s0) =
      Ret (tt, set_terminal (term_of (v, snd (directory_page s date)) b) s0)) by done.
    step Hc. pose proof (Nat.mod_upper_bound p 80 ltac:(lia)) as Hm80. pose proof (Nat.div_mod_eq p 80) as Hdm.
    step (on_terminal_spec _ s0 _ _ _ (set_cursor_spec v (snd (directory_page s date)) b (Z.of_nat (p mod 80)) (Z.of_nat (p / 80))
      ltac:(lia) ltac:(lia))).
    replace (Z.to_nat (80 * Z.of_nat (p / 80) + Z.of_nat (p mod 80))) with p by lia. rewrite <- Ht. by destruct s.
Qed.
End page.

(** The shell, asleep, and the program it hosts. *)
Definition listed (name : list Z) (p : process) : process := set_identity (name ++ replicate 50 0) 0 0 p.
Definition two_listed : kst kmem unit :=
  mk_kst (mk_tstate (mk_pstate demo_kmem ∅ 0) ∅ ∅ 0 0 0) (mk_vfs (mk_pp demo_kmem ∅ ∅ ∅, tt) [] [] ∅ [])
    (<[10 := listed (chars "0:/sys/bin/shell.elf") (set_hosting true zero_process)]>
       {[20 := listed (chars "0:/usr/bin/view") zero_process]})
    ∅ ∅ ∅ (10 :: 20 :: replicate 48 0) 20 (term_of (replicate 2000 0x0F41, 170%nat) 0) zero_screen false.

Lemma two_listed_named : named two_listed.
Proof.
  split; [simpl; lia|]. intros i p Hi Hp Hp0.
  destruct i as [|[|i]]; [injection Hp as <-|injection Hp as <-|].
  - eexists. split; [reflexivity|]. split; [apply (bool_decide_unpack _); vm_compute; exact I|].
    split; [by apply text_chars; vm_compute|vm_compute; reflexivity].
  - eexists. split; [reflexivity|]. split; [apply (bool_decide_unpack _); vm_compute; exact I|].
    split; [by apply text_chars; vm_compute|vm_compute; reflexivity].
  - change (replicate 48 0 !! i = Some p) in Hp. apply lookup_replicate in Hp as [-> _]. done.
Qed.

Lemma directory_roundtrip_witness :
  exists s1 date text', date_text (mk_date 0 0 0 31 12 2023) date /\
    show_directory (mk_date 0 0 0 31 12 2023) (replicate 12 0) two_listed = Ret (text', s1) /\
    terminal s1 = term_of (directory_page two_listed date) 0.
Proof.
  destruct (directory_roundtrip (mk_date 0 0 0 31 12 2023) (replicate 12 0) two_listed (replicate 2000 0x0F41) 170 0)
    as (s1 & date & text' & Hd & E & Ht & _).
  - exact two_listed_named.
  - reflexivity.
  - split; [reflexivity|]. apply Forall_replicate. lia.
  - lia.
  - reflexivity.
  - reflexivity.
  - vm_compute. reflexivity.
  - simpl; lia.
  - simpl; lia.
  - simpl; lia.
  - exists s1, date, text'. split; [exact Hd|]. split; [exact E|exact Ht].
Defined.
