(* ===== verification/ProcessSpec.v ===== *)
(** * What the processes promise

    The memory of a process: every allocation it has recorded is its own block
    of the kernel heap, zeroed, and mapped for it; allocating and freeing keep
    this, and touch nobody else's memory. *)
From S2P Require Import Prelude Config CMem CString Heap HeapSpec Kheap AllocSpans Paging PagingSpec AddressSpace.
From S2P Require Import Keyboard Disk Vfs Elf Task TaskSpec Terminal Screen Process.

(** ** Searching *)
Lemma first_index_spec {A} (f : A -> bool) l i :
  match first_index f l i with
  | Some j => exists k x, j = i + Z.of_nat k /\ l !! k = Some x /\ f x = true /\
                forall k' y, (k' < k)%nat -> l !! k' = Some y -> f y = false
  | None => forall k y, l !! k = Some y -> f y = false
  end.
Proof.
  revert i. induction l as [|x l IH]; intros i; cbn [first_index]; [done|].
  destruct (f x) eqn:E.
  - exists 0%nat, x. split_and!; [lia|done|done|]. intros k' y Hk. lia.
  - specialize (IH (i + 1)). destruct (first_index f l (i + 1)) as [j|].
    + destruct IH as (k & y & -> & Hk & Hf & Hlt). exists (S k), y. split_and!; [lia|done|done|].
      intros [|k'] z Hk' Hz; [by injection Hz as <-|]. by apply (Hlt k' z); [lia|].
    + intros [|k] y Hy; [by injection Hy as <-|]. by eapply IH.
Qed.

Lemma first_index_at {A} (f : A -> bool) l i x :
  l !! i = Some x -> f x = true -> (forall k y, (k < i)%nat -> l !! k = Some y -> f y = false) ->
  first_index f l 0 = Some (Z.of_nat i).
Proof.
  intros Hi Hx Hlt. pose proof (first_index_spec f l 0) as Hfi. destruct (first_index f l 0) as [j|].
  - destruct Hfi as (k & y & -> & Hk & Hy & Hk'). f_equal. rewrite Z.add_0_l. f_equal.
    destruct (Nat.lt_trichotomy k i) as [Hki|[->|Hki]]; [|done|].
    + specialize (Hlt k y Hki Hk). congruence.
    + specialize (Hk' i x Hki Hi). congruence.
  - specialize (Hfi i x Hi). congruence.
Qed.

(** ** Pages *)
Lemma map_nothing ar c a fl :
  a mod 4096 = 0 -> 0 < a < 2147483648 -> paging_map_to ar c a a (paging_align_address (a + 0)) fl = Ret (0, ar).
Proof.
  intros Ha Hr. assert (Hal : paging_align_address (a + 0) = a).
  { unfold paging_align_address, PAGING_PAGE_SIZE. rewrite Z.add_0_r, u32_id, Ha by lia. done. }
  rewrite Hal. unfold paging_map_to, PAGING_PAGE_SIZE, c_true. rewrite u32_id, Ha, Z.ltb_irrefl, Z.sub_diag by lia. done.
Qed.

Lemma align_up x : 0 <= x <= 2147483648 -> paging_align_address x = (x + 4095) / 4096 * 4096.
Proof.
  intros Hx. unfold paging_align_address, PAGING_PAGE_SIZE. rewrite u32_id by lia.
  destruct (c_true (x mod 4096)) eqn:E; unfold c_true in E; breflect; [rewrite u32_id; zlia|zlia].
Qed.

Lemma align_block a z :
  a mod 4096 = 0 -> 0 < a -> 0 < z -> a + pages_for z * 4096 <= 2147483648 ->
  paging_align_address (a + z) = (a / 4096 + pages_for z) * 4096.
Proof. unfold pages_for. intros. rewrite align_up; zlia. Qed.

(** The pages of a block are mapped to themselves with some flags. *)
Definition block_mapped (ar : gmap Z (list Z)) (dir a z fl : Z) : Prop :=
  forall vp, a / 4096 <= vp < a / 4096 + pages_for z -> pte ar dir vp = Ret (page_entry vp fl).

Lemma map_block ar c tabs a z fl :
  dir_wf ar (directory_entry c) tabs -> a mod 4096 = 0 -> 0 < a -> 0 < z ->
  a + pages_for z * 4096 <= 2147483648 -> 0 <= fl < 4096 ->
  exists ar', paging_map_to ar c a a (paging_align_address (a + z)) fl = Ret (0, ar') /\
    dir_wf ar' (directory_entry c) tabs /\ block_mapped ar' (directory_entry c) a z fl /\
    (forall q, q ∉ tabs -> ar' !! q = ar !! q) /\
    forall vp, 0 <= vp < NPAGES -> ~ (a / 4096 <= vp < a / 4096 + pages_for z) ->
      pte ar' (directory_entry c) vp = pte ar (directory_entry c) vp.
Proof.
  intros Hwf Ha Hp Hz Htop Hfl. rewrite align_block by done. unfold NPAGES, block_mapped in *.
  assert (0 < pages_for z) by (unfold pages_for; zlia).
  destruct (map_to_pages ar c tabs (a / 4096) (a / 4096) (a / 4096 + pages_for z) fl Hwf) as (ar' & Hm & Hwf' & Hfr & Hpte);
    unfold NPAGES in *; try zlia.
  exists ar'. replace (a / 4096 * 4096) with a in Hm by zlia. split_and!; [done|done| |done|].
  - intros vp Hvp. rewrite Hpte by zlia. rewrite decide_True by lia. do 2 f_equal. lia.
  - intros vp Hvp Hne. rewrite Hpte by done. rewrite decide_False by lia. done.
Qed.

(** A directory whose own words did not change. *)
Lemma dir_frame ar ar' dir tabs :
  dir_wf ar dir tabs -> (forall a, a ∈ dir :: tabs -> ar' !! a = ar !! a) ->
  dir_wf ar' dir tabs /\ forall vp, 0 <= vp < NPAGES -> pte ar' dir vp = pte ar dir vp.
Proof.
  intros Hwf Hfr. assert (Hwf' : dir_wf ar' dir tabs).
  { destruct Hwf as [Hd Hlen Hnd Hf (d & Hdir & Hdl & He) Ht]. split; try done.
    - exists d. by rewrite Hfr by set_solver.
    - intros i t Hi. rewrite Hfr; [by eapply Ht|]. apply list_elem_of_lookup_2 in Hi. set_solver. }
  split; [done|]. intros vp Hvp.
  destruct (pte_lookup ar dir tabs Hwf vp Hvp) as (t & l & e & Ht & Hl & He & _ & ->).
  destruct (pte_lookup ar' dir tabs Hwf' vp Hvp) as (t' & l' & e' & Ht' & Hl' & He' & _ & ->).
  assert (t' = t) by congruence. subst t'. rewrite Hfr in Hl'; [congruence|].
  apply list_elem_of_lookup_2 in Ht. set_solver.
Qed.

Section memory.
Context {H : Type} `{AllocatorSpans H} {F : Type}.
Implicit Types s : kst H F.

Definition arrays_of s : gmap Z (list Z) := parrays (tpaging (ksched s)).

(** The state after calls to the scheduler that changed the allocator and the
    page tables. *)
Definition put_state (h : H) (ar : gmap Z (list Z)) s : kst H F :=
  set_sched (mk_tstate (mk_pstate h ar (current_directory (tpaging (ksched s)))) (tasks (ksched s))
               (omap (view_of (elfs s)) (pobjs s)) (current_task (ksched s)) (task_head (ksched s))
               (task_tail (ksched s))) s.

Lemma obj_spec {A} (f : kst H F -> gmap Z A) s p x : f s !! p = Some x -> obj f p s = Ret (x, s).
Proof. intros E. unfold obj. rewrite bind_getS, E. done. Qed.

Lemma load_proc_spec s p x : pobjs s !! p = Some x -> load_proc p s = Ret (x, s).
Proof. apply (obj_spec pobjs). Qed.

Lemma update_proc_spec s p x f :
  pobjs s !! p = Some x -> update_proc p f s = Ret (tt, set_pobjs (<[p := f x]> (pobjs s)) s).
Proof. intros E. unfold update_proc. step (load_proc_spec s p x E). done. Qed.

Lemma page_directory_of_spec s x t :
  tasks (ksched s) !! p_task x = Some t ->
  page_directory_of x s = Ret (page_directory t, put_state (heap_of s) (arrays_of s) s).
Proof.
  intros Ht. unfold page_directory_of, on_sched. unfold mbind at 1, cmd_bind at 1.
  rewrite (load_task_spec (with_views s) _ t Ht). unfold put_state, heap_of, arrays_of, with_views.
  destruct s as [[[? ? ?] ? ? ? ? ?] ? ? ? ? ? ? ? ? ? ?]. done.
Qed.

Lemma map_to_spec s c virt phys pe fl r ar :
  paging_map_to (arrays_of s) c virt phys pe fl = Ret (r, ar) ->
  map_to c virt phys pe fl s = Ret (r, put_state (heap_of s) ar s).
Proof.
  intros E. unfold map_to, on_sched, on_paging, pa. unfold arrays_of in E.
  cbn [with_views tpaging parrays]. unfold with_views. cbn [tpaging]. rewrite E. done.
Qed.

Lemma kzalloc_block_spec s size p h :
  kz size (heap_of s) = Ret (p, h) ->
  kzalloc_block size s =
    Ret (p, if p =? 0 then put_heap h s
            else set_blocks (<[p := replicate (Z.to_nat size) 0]> (blocks s)) (put_heap h s)).
Proof.
  intros E. unfold kzalloc_block, on_alloc. unfold mbind at 1, cmd_bind at 1. rewrite E.
  cbn [mbind outcome_bind]. rewrite bind_modifyS. by destruct (p =? 0).
Qed.

Definition forget (p : Z) s : kst H F :=
  set_pobjs (delete p (pobjs s)) (set_screens (delete p (screens s)) (set_elfs (delete p (elfs s))
    (set_blocks (delete p (blocks s)) s))).

Lemma kfree_at_spec s p h :
  kf p (heap_of s) = Ret (tt, h) -> kfree_at p s = Ret (tt, forget p (put_heap h s)).
Proof. intros E. unfold kfree_at, on_alloc. unfold mbind at 1, cmd_bind at 1. by rewrite E. Qed.

(** [m] are the live blocks of the heap with their number of pages. *)
Record proc_ok s (p : Z) (x : process) (c : paging_4gb_chunk) (tabs : list Z) (m : gmap Z Z) : Prop := {
  po_spans : spans (heap_of s) m;
  po_proc : pobjs s !! p = Some x;
  po_live : is_Some (m !! p);
  po_task : exists t, tasks (ksched s) !! p_task x = Some t /\ page_directory t = c;
  po_dir : dir_wf (arrays_of s) (directory_entry c) tabs;
  po_len : length (allocations x) = 1024%nat;
  po_alloc : forall i a z, allocations x !! i = Some (a, z) -> a <> 0 ->
    a <> p /\ 0 < z <= 2147479552 /\ m !! a = Some (pages_for z) /\
    (exists b, blocks s !! a = Some b /\ length b = Z.to_nat z) /\
    block_mapped (arrays_of s) (directory_entry c) a z USER_PAGE;
  po_nodup : forall i j a z z', allocations x !! i = Some (a, z) -> allocations x !! j = Some (a, z') -> a <> 0 -> i = j
}.

(** Mapping one live block leaves the pages of another alone. *)
Lemma other_block_mapped h m ar ar' dir a z b n fl :
  spans h m -> m !! a = Some (pages_for z) -> m !! b = Some n -> a <> b ->
  (forall vp, 0 <= vp < NPAGES -> ~ (b / 4096 <= vp < b / 4096 + n) -> pte ar' dir vp = pte ar dir vp) ->
  block_mapped ar dir a z fl -> block_mapped ar' dir a z fl.
Proof.
  intros Hsp Ha Hb Hne Hframe Hm vp Hvp.
  destruct (spans_range h m a _ Hsp Ha) as (Ha0 & Ham & _ & Hat).
  destruct (spans_range h m b _ Hsp Hb) as (Hb0 & Hbm & _ & Hbt).
  pose proof (spans_disjoint h m a b _ _ Hsp Ha Hb Hne) as Hd.
  rewrite Hframe; [by apply Hm|unfold NPAGES; zlia|zlia].
Qed.

Lemma pages_for_pos z : 0 < z -> 0 < pages_for z.
Proof. unfold pages_for. zlia. Qed.

(** The state after a successful allocation. *)
Definition malloced s (p : Z) (x : process) (i : nat) (ptr size : Z) (h : H) (ar : gmap Z (list Z)) : kst H F :=
  set_pobjs (<[p := set_allocations (<[i := (ptr, size)]> (allocations x)) x]> (pobjs s))
    (set_blocks (<[ptr := replicate (Z.to_nat size) 0]> (blocks s)) (put_state h ar s)).

Lemma process_malloc_spec s p x c tabs m size ptr h i z0 :
  proc_ok s p x c tabs m -> 0 < size <= 2147479552 ->
  kz size (heap_of s) = Ret (ptr, h) -> ptr <> 0 ->
  allocations x !! i = Some (0, z0) -> (forall k y, (k < i)%nat -> allocations x !! k = Some y -> fst y <> 0) ->
  exists ar, process_malloc p size s = Ret (ptr, malloced s p x i ptr size h ar) /\
    proc_ok (malloced s p x i ptr size h ar) p (set_allocations (<[i := (ptr, size)]> (allocations x)) x) c tabs
      (<[ptr := pages_for size]> m) /\
    m !! ptr = None /\ (forall q, q ∉ tabs -> ar !! q = arrays_of s !! q) /\
    forall vp, 0 <= vp < NPAGES -> ~ (ptr / 4096 <= vp < ptr / 4096 + pages_for size) ->
      pte ar (directory_entry c) vp = pte (arrays_of s) (directory_entry c) vp.
Proof.
  intros Hpo Hs Hkz Hptr Hi Hfirst. destruct Hpo as [Hsp Hx [n0 Hlive] (t & Ht & <-) Hwf Hlen Hal Hnd].
  pose proof (kz_spans size (heap_of s) m ptr h Hsp Hs Hkz) as Hkz'. rewrite decide_False in Hkz' by done.
  destruct Hkz' as [Hnew Hsp'].
  destruct (spans_range h _ ptr _ Hsp' (lookup_insert_eq _ _ _)) as (Hp0 & Hpm & Hn & Htop).
  destruct (map_block (arrays_of s) (page_directory t) tabs ptr size USER_PAGE Hwf Hpm Hp0 ltac:(lia) Htop ltac:(vm_compute; split; done))
    as (ar & Hmap & Hwf' & Hbm & Harr & Hframe).
  assert (Hpp : p <> ptr) by congruence.
  exists ar. split; [|split; [|done]].
  - unfold process_malloc. step (kzalloc_block_spec s size ptr h Hkz). rewrite (proj2 (Z.eqb_neq ptr 0)) by done.
    set (s1 := set_blocks _ (put_heap h s)). unfold mbind at 1, cmd_bind at 1.
    step (load_proc_spec s1 p x Hx). unfold find_free_alloc_index.
    rewrite (first_index_at (fun a => fst a =? 0) (allocations x) i (0, z0) Hi eq_refl)
      by (intros k y Hk Hy; apply Z.eqb_neq; by eapply Hfirst).
    rewrite (proj2 (Z.ltb_ge _ 0)) by lia. step (page_directory_of_spec s1 x t Ht).
    step (map_to_spec (put_state (heap_of s1) (arrays_of s1) s1) _ _ _ _ _ _ _ Hmap). cbn [Z.ltb Z.compare].
    rewrite store_Ret, Nat2Z.id by (apply lookup_lt_Some in Hi; lia). rewrite u32_id by lia.
    rewrite (bind_liftO _ _ _ _ eq_refl).
    set (s2 := put_state _ ar _). step (update_proc_spec s2 p x (set_allocations (<[i:=(ptr, size)]> (allocations x))) Hx).
    cbn [mbind outcome_bind]. done.
  - split.
    + done.
    + cbn. by rewrite lookup_insert_eq.
    + rewrite lookup_insert_ne by done. by eexists.
    + by exists t.
    + done.
    + cbn [allocations set_allocations]. by rewrite length_insert.
    + cbn [allocations set_allocations]. intros j a z Hj Ha.
      destruct (decide (j = i)) as [->|Hne].
      * rewrite list_lookup_insert_eq in Hj by (by eapply lookup_lt_Some). injection Hj as <- <-.
        split_and!; [done|lia|lia|by rewrite lookup_insert_eq| |done].
        eexists. cbn. rewrite lookup_insert_eq. split; [done|by rewrite length_replicate].
      * rewrite list_lookup_insert_ne in Hj by done. destruct (Hal j a z Hj Ha) as (Hap & Hz & Hma & (b & Hb & Hbl) & Hbma).
        assert (a <> ptr) by congruence. split_and!; [done|lia|lia|by rewrite lookup_insert_ne by done| |].
        -- exists b. cbn. by rewrite lookup_insert_ne by done.
        -- eapply (other_block_mapped h _ (arrays_of s) ar _ a z ptr); [done|..|done|].
           ++ by rewrite lookup_insert_ne by done.
           ++ by rewrite lookup_insert_eq.
           ++ done.
           ++ done.
    + cbn [allocations set_allocations]. intros j k a z z' Hj Hk Ha.
      assert (Hno : forall k z, allocations x !! k = Some (ptr, z) -> False).
      { intros k' z'' Hk'. destruct (Hal k' ptr z'' Hk' Hptr) as (_ & _ & Hma & _). congruence. }
      apply list_lookup_insert_Some in Hj as [(<- & Ej & _)|[Hj1 Hj]];
        apply list_lookup_insert_Some in Hk as [(<- & Ek & _)|[Hk1 Hk]]; simplify_eq; naive_solver.
Qed.

(** A changed heap, with the invariant read off the same objects. *)
Lemma proc_ok_heap s p x c tabs m h :
  proc_ok s p x c tabs m -> spans h m -> proc_ok (put_heap h s) p x c tabs m.
Proof. intros [] Hsp. by split. Qed.

Lemma forget_new s p x c tabs m q :
  proc_ok s p x c tabs m -> m !! q = None -> proc_ok (forget q s) p x c tabs m.
Proof.
  intros [Hsp Hx [n0 Hlive] Ht Hwf Hlen Hal Hnd] Hq. assert (p <> q) by congruence. split; try done.
  - cbn. by rewrite lookup_delete_ne by done.
  - intros i a z Hi Ha. destruct (Hal i a z Hi Ha) as (? & ? & Hma & (b & Hb & Hbl) & ?). split_and!; try done; try lia.
    exists b. cbn. by rewrite lookup_delete_ne by congruence.
Qed.

Lemma malloc_no_memory s p x c tabs m size h :
  proc_ok s p x c tabs m -> 0 < size <= 2147479552 -> kz size (heap_of s) = Ret (0, h) ->
  process_malloc p size s = Ret (0, put_heap h s) /\ proc_ok (put_heap h s) p x c tabs m.
Proof.
  intros Hpo Hs Hkz. split.
  - unfold process_malloc. step (kzalloc_block_spec s size 0 h Hkz). done.
  - eapply proc_ok_heap; [done|]. pose proof (kz_spans _ _ _ _ _ (po_spans _ _ _ _ _ _ Hpo) Hs Hkz) as Hk.
    by rewrite decide_True in Hk by done.
Qed.

(** With 1024 allocations recorded the new block is given back. *)
Lemma malloc_full s p x c tabs m size ptr h :
  proc_ok s p x c tabs m -> 0 < size <= 2147479552 -> kz size (heap_of s) = Ret (ptr, h) -> ptr <> 0 ->
  (forall i y, allocations x !! i = Some y -> fst y <> 0) ->
  exists s', process_malloc p size s = Ret (0, s') /\ proc_ok s' p x c tabs m /\
    (forall q, q <> ptr -> blocks s' !! q = blocks s !! q /\ pobjs s' !! q = pobjs s !! q) /\
    arrays_of s' = arrays_of s /\ tasks (ksched s') = tasks (ksched s).
Proof.
  intros Hpo Hs Hkz Hptr Hfull. pose proof (kz_spans _ _ _ _ _ (po_spans _ _ _ _ _ _ Hpo) Hs Hkz) as Hk.
  rewrite decide_False in Hk by done. destruct Hk as [Hnew Hsp'].
  destruct (kf_spans h _ ptr _ Hsp' (lookup_insert_eq _ _ _)) as (h2 & Hkf & Hsp2).
  rewrite delete_insert_eq, delete_id in Hsp2 by done.
  set (s1 := set_blocks (<[ptr := replicate (Z.to_nat size) 0]> (blocks s)) (put_heap h s)).
  exists (forget ptr (put_heap h2 s1)). split; [|split].
  - unfold process_malloc. step (kzalloc_block_spec s size ptr h Hkz). rewrite (proj2 (Z.eqb_neq ptr 0)) by done.
    fold s1. unfold mbind at 1, cmd_bind at 1. step (load_proc_spec s1 p x (po_proc _ _ _ _ _ _ Hpo)).
    unfold find_free_alloc_index. pose proof (first_index_spec (fun a => fst a =? 0) (allocations x) 0) as Hfi.
    destruct (first_index _ _ 0) as [j|].
    + destruct Hfi as (k & y & _ & Hk & Hy%Z.eqb_eq & _). by specialize (Hfull k y Hk).
    + change (- ENOMEM <? 0) with true. cbn [mbind outcome_bind mret cmd_ret]. unfold mret, cmd_ret.
      cbn [mbind outcome_bind negb]. step (kfree_at_spec s1 ptr h2 Hkf). done.
  - assert (E : forall s0 s0', blocks s0' = <[ptr := replicate (Z.to_nat size) 0]> (blocks s0) -> heap_of s0' = h2 ->
      pobjs s0' = pobjs s0 -> tasks (ksched s0') = tasks (ksched s0) -> arrays_of s0' = arrays_of s0 ->
      proc_ok s0 p x c tabs m -> proc_ok s0' p x c tabs m).
    { intros s0 s0' Eb Eh Ep Et Ea [? ? ? ? ? ? Hal ?]. split; rewrite ?Eh, ?Ep, ?Et, ?Ea; try done.
      intros i a z Hi Ha. destruct (Hal i a z Hi Ha) as (? & ? & Hma & (b & Hb & Hbl) & ?). split_and!; try done; try lia.
      exists b. rewrite Eb, lookup_insert_ne by congruence. done. }
    apply forget_new; [|done]. by apply (E s).
  - split; [|done]. intros q Hq. cbn. rewrite !lookup_delete_ne, lookup_insert_ne by done. done.
Qed.

Lemma unjoin_spec x i a z :
  allocations x !! i = Some (a, z) ->
  (forall j z', allocations x !! j = Some (a, z') -> j = i) ->
  process_allocation_unjoin a x = set_allocations (<[i := (0, 0)]> (allocations x)) x.
Proof.
  intros Hi Huniq. unfold process_allocation_unjoin. f_equal. apply list_eq. intros j.
  rewrite list_lookup_fmap. destruct (decide (j = i)) as [->|Hne].
  - rewrite Hi, list_lookup_insert_eq by (by eapply lookup_lt_Some). cbn. by rewrite Z.eqb_refl.
  - rewrite list_lookup_insert_ne by done. destruct (allocations x !! j) as [[b z']|] eqn:Ej; [|done]. cbn.
    destruct (b =? a) eqn:E; [|done]. apply Z.eqb_eq in E. subst b. by apply Huniq in Ej.
Qed.

(** The state after an allocation was freed. *)
Definition freed s (p : Z) (x : process) (i : nat) (ptr : Z) (h : H) (ar : gmap Z (list Z)) : kst H F :=
  forget ptr (put_heap h (set_pobjs (<[p := set_allocations (<[i := (0, 0)]> (allocations x)) x]> (pobjs s))
    (put_state (heap_of s) ar s))).

Lemma process_free_spec s p x c tabs m i ptr z :
  proc_ok s p x c tabs m -> allocations x !! i = Some (ptr, z) -> ptr <> 0 ->
  exists ar h, process_free p ptr s = Ret (tt, freed s p x i ptr h ar) /\
    proc_ok (freed s p x i ptr h ar) p (set_allocations (<[i := (0, 0)]> (allocations x)) x) c tabs (delete ptr m) /\
    block_mapped ar (directory_entry c) ptr z 0 /\ (forall q, q ∉ tabs -> ar !! q = arrays_of s !! q) /\
    forall vp, 0 <= vp < NPAGES -> ~ (ptr / 4096 <= vp < ptr / 4096 + pages_for z) ->
      pte ar (directory_entry c) vp = pte (arrays_of s) (directory_entry c) vp.
Proof.
  intros [Hsp Hx [n0 Hlive] (t & Ht & <-) Hwf Hlen Hal Hnd] Hi Hptr.
  destruct (Hal i ptr z Hi Hptr) as (Hap & Hz & Hma & _ & _).
  destruct (spans_range _ m ptr _ Hsp Hma) as (Hp0 & Hpm & Hn & Htop).
  destruct (map_block (arrays_of s) (page_directory t) tabs ptr z 0 Hwf Hpm Hp0 ltac:(lia) Htop ltac:(lia))
    as (ar & Hmap & Hwf' & Hbm & Harr & Hframe).
  destruct (kf_spans _ m ptr _ Hsp Hma) as (h & Hkf & Hsp').
  exists ar, h. split; [|split; [|done]].
  - unfold process_free. step (load_proc_spec s p x Hx). unfold process_get_allocation_by_addr.
    pose proof (first_index_spec (fun a => fst a =? ptr) (allocations x) 0) as Hfi.
    destruct (first_index _ _ 0) as [j|].
    2: { specialize (Hfi i _ Hi). cbn in Hfi. by rewrite Z.eqb_refl in Hfi. }
    destruct Hfi as (k & [b z'] & -> & Hk & Hb%Z.eqb_eq & _). cbn in Hb. subst b.
    assert (k = i) as -> by (by eapply Hnd). rewrite Hi in Hk. injection Hk as <-.
    rewrite (bind_liftO _ _ _ (ptr, z)) by (apply load_Some; [lia|by rewrite Z.add_0_l, Nat2Z.id]).
    step (page_directory_of_spec s x t Ht).
    step (map_to_spec (put_state (heap_of s) (arrays_of s) s) _ _ _ _ _ _ _ Hmap). cbn [Z.ltb Z.compare].
    step (update_proc_spec (put_state (heap_of s) ar s) p x (process_allocation_unjoin ptr) Hx).
    rewrite (unjoin_spec x i ptr z Hi) by (intros; by eapply Hnd).
    by apply kfree_at_spec.
  - split.
    + done.
    + cbn. by rewrite lookup_delete_ne, lookup_insert_eq by done.
    + rewrite lookup_delete_ne by done. by eexists.
    + by exists t.
    + done.
    + cbn [allocations set_allocations]. by rewrite length_insert.
    + cbn [allocations set_allocations]. intros j a z' [(<- & [= <- <-] & _)|[Hne Hj]]%list_lookup_insert_Some Ha; [done|].
      destruct (Hal j a z' Hj Ha) as (Hap' & Hz' & Hma' & (b & Hb & Hbl) & Hbm').
      assert (a <> ptr) by (intros ->; apply Hne; by eapply Hnd). split_and!; [done|lia|lia|by rewrite lookup_delete_ne by done| |].
      * exists b. cbn. by rewrite lookup_delete_ne by done.
      * by eapply (other_block_mapped (heap_of s) m (arrays_of s) ar _ a z' ptr).
    + cbn [allocations set_allocations]. intros j k a z1 z2 Hj Hk Ha.
      apply list_lookup_insert_Some in Hj as [(<- & Ej & _)|[Hj1 Hj]];
        apply list_lookup_insert_Some in Hk as [(<- & Ek & _)|[Hk1 Hk]]; simplify_eq; try done. by eapply Hnd.
Qed.

(** A pointer that is not recorded is ignored. *)
Lemma process_free_foreign s p x ptr :
  pobjs s !! p = Some x -> (forall i z, allocations x !! i <> Some (ptr, z)) -> process_free p ptr s = Ret (tt, s).
Proof.
  intros Hx Hno. unfold process_free. step (load_proc_spec s p x Hx). unfold process_get_allocation_by_addr.
  pose proof (first_index_spec (fun a => fst a =? ptr) (allocations x) 0) as Hfi.
  destruct (first_index _ _ 0) as [j|]; [|done].
  destruct Hfi as (k & [b z] & _ & Hk & Hb%Z.eqb_eq & _). cbn in Hb. subst b. by apply Hno in Hk.
Qed.

(** ** What one process does to the others *)
Definition owns (x : process) (a : Z) : Prop := a <> 0 /\ exists i z, allocations x !! i = Some (a, z).

(** [p] may change what it owned or what was free, and its own page tables. *)
Record mem_frame (p : Z) (tabs : list Z) s (x : process) (m : gmap Z Z) s' (x' : process) (m' : gmap Z Z) : Prop := {
  mf_owns : forall a, owns x' a -> owns x a \/ m !! a = None;
  mf_live : forall a n, m !! a = Some n -> ~ owns x a -> m' !! a = Some n;
  mf_blocks : forall a n, m !! a = Some n -> ~ owns x a -> blocks s' !! a = blocks s !! a;
  mf_procs : forall a n, m !! a = Some n -> ~ owns x a -> a <> p -> pobjs s' !! a = pobjs s !! a;
  mf_arrays : forall a, a ∉ tabs -> arrays_of s' !! a = arrays_of s !! a;
  mf_tasks : tasks (ksched s') = tasks (ksched s)
}.

Lemma mem_frame_refl p tabs s x m : mem_frame p tabs s x m s x m.
Proof. by split; auto. Qed.

Lemma mem_frame_trans p tabs s1 x1 m1 s2 x2 m2 s3 x3 m3 :
  mem_frame p tabs s1 x1 m1 s2 x2 m2 -> mem_frame p tabs s2 x2 m2 s3 x3 m3 -> mem_frame p tabs s1 x1 m1 s3 x3 m3.
Proof.
  intros [O1 L1 B1 P1 A1 T1] [O2 L2 B2 P2 A2 T2].
  assert (Hno : forall a n, m1 !! a = Some n -> ~ owns x1 a -> ~ owns x2 a).
  { intros a n Ha Hx [?|?]%O1; [done|congruence]. }
  split.
  - intros a [Ha|Ha]%O2; [by apply O1|]. destruct (m1 !! a) as [n|] eqn:E; [left|by right].
    destruct (decide (Exists (fun y => fst y = a) (allocations x1) /\ a <> 0)) as [[He Hne]|Hd].
    + split; [done|]. apply Exists_exists in He as ([b z] & [i Hi]%list_elem_of_lookup & Hb). cbn in Hb. subst b. by exists i, z.
    + exfalso. rewrite (L1 a n E) in Ha; [done|]. intros (Hne & i & z & Hi). apply Hd. split; [|done].
      apply Exists_exists. exists (a, z). split; [by eapply list_elem_of_lookup_2|done].
  - intros a n Ha Hx. eauto.
  - intros a n Ha Hx. rewrite (B2 a n); eauto.
  - intros a n Ha Hx Hp. rewrite (P2 a n); eauto.
  - intros a Ha. rewrite A2, A1 by done. done.
  - congruence.
Qed.

Lemma process_malloc_framed s p x c tabs m size v s' :
  proc_ok s p x c tabs m -> 0 < size <= 2147479552 -> process_malloc p size s = Ret (v, s') ->
  exists x' m', proc_ok s' p x' c tabs m' /\ mem_frame p tabs s x m s' x' m'.
Proof.
  intros Hpo Hs Hr. assert (exists ptr h, kz size (heap_of s) = Ret (ptr, h)) as (ptr & h & Hkz).
  { destruct (kz size (heap_of s)) as [[ptr h]| | |] eqn:E; [by eauto|exfalso..]; revert Hr;
      unfold process_malloc, kzalloc_block, on_alloc, mbind, cmd_bind; by rewrite E. }
  destruct (decide (ptr = 0)) as [->|Hptr].
  { destruct (malloc_no_memory s p x c tabs m size h Hpo Hs Hkz) as [E Hpo']. rewrite E in Hr. injection Hr as <- <-.
    exists x, m. split; [done|]. by split; auto. }
  pose proof (first_index_spec (fun a => fst a =? 0) (allocations x) 0) as Hfi.
  destruct (first_index _ _ 0) as [j|].
  - destruct Hfi as (i & [a0 z0] & _ & Hi & Ha0%Z.eqb_eq & Hlt). cbn in Ha0. subst a0.
    destruct (process_malloc_spec s p x c tabs m size ptr h i z0 Hpo Hs Hkz Hptr Hi) as (ar & E & Hpo' & Hnew & Harr & _).
    { intros k y Hk Hy. specialize (Hlt k y Hk Hy). by apply Z.eqb_neq. }
    rewrite E in Hr. injection Hr as <- <-. eexists _, _. split; [done|]. split.
    + intros a (Ha & k & z & Hk). cbn [allocations set_allocations] in Hk.
      apply list_lookup_insert_Some in Hk as [(_ & [= <- _] & _)|[_ Hk]]; [by right|left]. split; [done|]. by exists k, z.
    + intros a n Ha _. by rewrite lookup_insert_ne by congruence.
    + intros a n Ha _. cbn. by rewrite lookup_insert_ne by congruence.
    + intros a n Ha _ Hp. cbn. by rewrite lookup_insert_ne by congruence.
    + exact Harr.
    + done.
  - destruct (malloc_full s p x c tabs m size ptr h Hpo Hs Hkz Hptr) as (s2 & E & Hpo' & Hfr & Harr & Htk).
    { intros i y Hy. specialize (Hfi i y Hy). by apply Z.eqb_neq. }
    rewrite E in Hr. injection Hr as <- <-. exists x, m. split; [done|].
    pose proof (kz_spans _ _ _ _ _ (po_spans _ _ _ _ _ _ Hpo) Hs Hkz) as Hk.
    rewrite decide_False in Hk by done. destruct Hk as [Hnew _].
    split; [by auto|by auto| | |by rewrite Harr|done].
    + intros a n Ha _. apply Hfr. congruence.
    + intros a n Ha _ _. apply Hfr. congruence.
Qed.

Lemma process_free_framed s p x c tabs m ptr s' :
  proc_ok s p x c tabs m -> ptr <> 0 -> process_free p ptr s = Ret (tt, s') ->
  exists x' m', proc_ok s' p x' c tabs m' /\ mem_frame p tabs s x m s' x' m'.
Proof.
  intros Hpo Hptr Hr. pose proof (first_index_spec (fun a => fst a =? ptr) (allocations x) 0) as Hfi.
  destruct (first_index _ _ 0) as [j|].
  - destruct Hfi as (i & [b z] & _ & Hi & Hb%Z.eqb_eq & _). cbn in Hb. subst b.
    destruct (process_free_spec s p x c tabs m i ptr z Hpo Hi Hptr) as (ar & h & E & Hpo' & _ & Harr & _).
    rewrite E in Hr. injection Hr as <-. eexists _, _. split; [done|].
    assert (Hown : owns x ptr) by (split; [done|by exists i, z]). split.
    + intros a (Ha & k & z' & Hk). left. cbn [allocations set_allocations] in Hk.
      apply list_lookup_insert_Some in Hk as [(_ & [= <- _] & _)|[_ Hk]]; [done|]. split; [done|]. by exists k, z'.
    + intros a n Ha Hx. by rewrite lookup_delete_ne by (intros ->; done).
    + intros a n Ha Hx. cbn. by rewrite lookup_delete_ne by (intros ->; done).
    + intros a n Ha Hx Hp. cbn. by rewrite lookup_delete_ne, lookup_insert_ne by (intros ->; done).
    + exact Harr.
    + done.
  - rewrite (process_free_foreign s p x ptr) in Hr.
    + injection Hr as <-. exists x, m. split; [done|apply mem_frame_refl].
    + apply Hpo.
    + intros i z Hi. specialize (Hfi i _ Hi). cbn in Hfi. by rewrite Z.eqb_refl in Hfi.
Qed.

(** Two processes with nothing in common. *)
Record apart (p : Z) (x : process) (tabs : list Z) (q : Z) (y : process) (c2 : paging_4gb_chunk) (tabs2 : list Z) : Prop := {
  ap_procs : p <> q;
  ap_tabs : forall a, a ∈ directory_entry c2 :: tabs2 -> a ∉ tabs;
  ap_owns : forall a, owns x a -> owns y a -> False;
  ap_obj : ~ owns x q
}.

Lemma framed_other s p x tabs m s' x' m' q y c2 tabs2 :
  mem_frame p tabs s x m s' x' m' -> spans (heap_of s') m' ->
  proc_ok s q y c2 tabs2 m -> apart p x tabs q y c2 tabs2 ->
  proc_ok s' q y c2 tabs2 m' /\ apart p x' tabs q y c2 tabs2.
Proof.
  intros Hf Hsp' [Hsp Hy [n0 Hlive] (t & Ht & Hc) Hwf Hlen Hal Hnd] [Hpq Htabs Hown Hobj].
  destruct (dir_frame (arrays_of s) (arrays_of s') _ tabs2 Hwf) as [Hwf' Hpte].
  { intros a Ha. eapply mf_arrays; [exact Hf|]. by apply Htabs. }
  split.
  - split; try done.
    + erewrite (mf_procs _ _ _ _ _ _ _ _ Hf q); eauto.
    + erewrite (mf_live _ _ _ _ _ _ _ _ Hf q); eauto.
    + exists t. by rewrite (mf_tasks _ _ _ _ _ _ _ _ Hf).
    + intros i a z Hi Ha. destruct (Hal i a z Hi Ha) as (Haq & Hz & Hma & Hb & Hbm).
      assert (Hno : ~ owns x a) by (intros Hx; apply (Hown a Hx); split; [done|by exists i, z]).
      split_and!; [done|lia|lia|by eapply mf_live| |].
      * by erewrite (mf_blocks _ _ _ _ _ _ _ _ Hf a); eauto.
      * intros vp Hvp. destruct (spans_range _ m a _ Hsp Hma) as (Ha0 & Ham & _ & Hat).
        rewrite Hpte; [by apply Hbm|unfold NPAGES; zlia].
  - split; try done.
    + intros a [Hx|Hx]%(mf_owns _ _ _ _ _ _ _ _ Hf) (Ha & i & z & Hi); [apply (Hown a Hx); split; [done|by exists i, z]|].
      destruct (Hal i a z Hi Ha) as (_ & _ & Hma & _). congruence.
    + intros [Hx|Hx]%(mf_owns _ _ _ _ _ _ _ _ Hf); [done|congruence].
Qed.

(** The calls a program makes: [malloc] and [free] of a pointer that is not null. *)
Inductive mem_op := OpMalloc (size : Z) | OpFree (ptr : Z).
Definition op_ok (o : mem_op) : Prop :=
  match o with OpMalloc size => 0 < size <= 2147479552 | OpFree ptr => ptr <> 0 end.

Definition run_op (p : Z) (o : mem_op) : cmd (kst H F) unit :=
  match o with
  | OpMalloc size => process_malloc p size;; mret tt
  | OpFree ptr => process_free p ptr
  end.

Fixpoint run_ops (p : Z) (l : list mem_op) : cmd (kst H F) unit :=
  match l with
  | [] => mret tt
  | o :: l => run_op p o;; run_ops p l
  end.

Lemma run_op_framed s p x c tabs m o s' :
  proc_ok s p x c tabs m -> op_ok o -> run_op p o s = Ret (tt, s') ->
  exists x' m', proc_ok s' p x' c tabs m' /\ mem_frame p tabs s x m s' x' m'.
Proof.
  intros Hpo Hok Hr. destruct o as [size|ptr]; cbn [run_op op_ok] in *; [|by eapply process_free_framed].
  unfold mbind, cmd_bind in Hr. destruct (process_malloc p size s) as [[v s1]| | |] eqn:E; try done.
  injection Hr as <-. by eapply process_malloc_framed.
Qed.

Lemma run_ops_framed s p x c tabs m l s' :
  proc_ok s p x c tabs m -> Forall op_ok l -> run_ops p l s = Ret (tt, s') ->
  exists x' m', proc_ok s' p x' c tabs m' /\ mem_frame p tabs s x m s' x' m'.
Proof.
  intros Hpo Hl. revert s x m Hpo. induction Hl as [|o l Ho Hl IH]; intros s x m Hpo Hr; cbn [run_ops] in Hr.
  { injection Hr as <-. exists x, m. split; [done|apply mem_frame_refl]. }
  unfold mbind, cmd_bind in Hr. destruct (run_op p o s) as [[[] s1]| | |] eqn:E; try done.
  destruct (run_op_framed s p x c tabs m o s1 Hpo Ho E) as (x1 & m1 & Hpo1 & Hf1).
  destruct (IH s1 x1 m1 Hpo1 Hr) as (x2 & m2 & Hpo2 & Hf2). exists x2, m2. split; [done|]. by eapply mem_frame_trans.
Qed.
End memory.
