(* ===== verification/ProcessMemory.v ===== *)
(** * Memory of the processes: the properties

    What [process_malloc] and [process_free] promise to one process and to all
    the others, their error paths, and the arguments of a process. *)
From S2P Require Import Prelude Config CMem CString Heap HeapSpec Kheap AllocSpans Paging PagingSpec AddressSpace.
From S2P Require Import PathParser Keyboard Disk Vfs Elf Task TaskSpec Terminal Screen Process ProcessSpec.

(** ** A system with two processes, for the witnesses *)
Definition big_kmem : kmem := mk_kmem (mk_heap (mk_heap_table (replicate 3200 0x00) 3200) 0x1000000) ∅.
Definition big_pstate : pstate kmem := mk_pstate big_kmem ∅ 0.

Lemma big_kmem_ok : alloc_ok (palloc big_pstate).
Proof.
  exists ∅. eapply (heap_create_inv demo_heap 0x1000000 0x1C80000 (mk_heap_table (replicate 3200 0xFF) 3200));
    [done|done|vm_compute; reflexivity|]. vm_compute. reflexivity.
Qed.

Lemma big_room : (3200 <= room (palloc big_pstate))%nat.
Proof. apply Nat.leb_le. vm_compute. reflexivity. Qed.

Definition new_process (task : Z) : process :=
  set_task task (set_identity (Process.filename zero_process) 0 task zero_process).
Definition new_task (c : paging_4gb_chunk) (p : Z) : task := mk_task c zero_regs p true 0 0.

(** Two processes, at [p] and [q], with tasks at 1 and 2. *)
Definition demo_state (h : kmem) (ar : gmap Z (list Z)) (p q : Z) (c1 c2 : paging_4gb_chunk) : kst kmem unit :=
  mk_kst (mk_tstate (mk_pstate h ar 0) (<[1 := new_task c1 p]> {[2 := new_task c2 q]}) ∅ 1 1 2)
    (mk_vfs (mk_pp h ∅ ∅ ∅, tt) [] [] ∅ [])
    (<[p := new_process 1]> {[q := new_process 2]}) ∅ ∅ ∅ (replicate 50 0) p (mk_term [] 0 0 0) zero_screen false.

Lemma new_process_ok s p t c tabs m :
  spans (heap_of s) m -> pobjs s !! p = Some (new_process t) -> is_Some (m !! p) ->
  (exists k, tasks (ksched (H := kmem) (F := unit) s) !! t = Some k /\ page_directory k = c) ->
  dir_wf (arrays_of s) (directory_entry c) tabs -> proc_ok s p (new_process t) c tabs m.
Proof.
  intros Hsp Hp Hl Ht Hwf. assert (Hno : forall i a z, allocations (new_process t) !! i = Some (a, z) -> a = 0).
  { intros i a z. change (allocations (new_process t)) with (replicate 1024 (0, 0)).
    by intros [[= <- <-] _]%lookup_replicate_1. }
  split; [done..|reflexivity| |].
  - intros i a z Hi Ha. by apply Hno in Hi.
  - intros i j a z z' Hi _ Ha. by apply Hno in Hi.
Qed.

Lemma demo_system :
  exists h ar p q c1 c2 tabs1 tabs2 m,
    proc_ok (demo_state h ar p q c1 c2) p (new_process 1) c1 tabs1 m /\
    proc_ok (demo_state h ar p q c1 c2) q (new_process 2) c2 tabs2 m /\
    apart p (new_process 1) tabs1 q (new_process 2) c2 tabs2 /\ (1100 <= room h)%nat.
Proof.
  pose proof big_room as Hroom. revert Hroom. generalize big_pstate, big_kmem_ok. intros s0 Hok0 Hroom.
  destruct (new_4gb_spec 7 s0 Hok0 ltac:(lia) ltac:(unfold proom; lia))
    as (c1 & tabs1 & s1 & _ & Hok1 & Hwf1 & _ & Hl1 & _ & Hnd1 & Hr1 & _ & _ & _).
  destruct (new_4gb_spec 7 s1 Hok1 ltac:(lia) ltac:(unfold proom in *; lia))
    as (c2 & tabs2 & s2 & _ & Hok2 & Hwf2 & _ & Hl2 & Hdis & Hnd2 & Hr2 & _ & _ & Hfr).
  unfold proom in *.
  destruct (kz_room 4096 (palloc s2) Hok2 ltac:(lia) ltac:(lia)) as (p & h3 & Hk3 & Hp & Hr3).
  destruct (kz_spec 4096 (palloc s2) p h3 Hok2 ltac:(lia) Hk3) as (Hok3 & [[Hz _]|(_ & _ & Hpn & Hl3)]); [done|].
  destruct (kz_room 4096 h3 Hok3 ltac:(lia) ltac:(lia)) as (q & h4 & Hk4 & Hq & Hr4).
  destruct (kz_spec 4096 h3 q h4 Hok3 ltac:(lia) Hk4) as (Hok4 & [[Hz _]|(_ & _ & Hqn & Hl4)]); [done|].
  destruct (spans_exists h4 Hok4) as [m Hm]. pose proof (spans_live h4 m Hm) as Hdom.
  assert (Hpq : p <> q) by (rewrite Hl3 in Hqn; clear -Hqn; set_solver).
  assert (Hpm : is_Some (m !! p) /\ is_Some (m !! q)).
  { rewrite <- !elem_of_dom, Hdom, Hl4, Hl3. clear. set_solver. }
  destruct Hpm as [Hpm Hqm].
  exists h4, (parrays s2), p, q, c1, c2, tabs1, tabs2, m. split_and!.
  - apply new_process_ok; [exact Hm| |done|..].
    + unfold demo_state. cbn [pobjs]. by rewrite lookup_insert_eq.
    + exists (new_task c1 p). done.
    + eapply dir_frame; [exact Hwf1|]. intros a Ha. apply Hfr.
      rewrite Hl1. unfold owned. clear -Ha. set_solver.
  - apply new_process_ok; [exact Hm| |done|..].
    + unfold demo_state. cbn [pobjs]. by rewrite lookup_insert_ne, lookup_singleton_eq.
    + exists (new_task c2 q). done.
    + exact Hwf2.
  - assert (Hno : forall t a, ~ owns (new_process t) a).
    { intros t a (Ha & i & z & Hi). change (allocations (new_process t)) with (replicate 1024 (0, 0)) in Hi.
      apply lookup_replicate_1 in Hi as [[= -> _] _]. done. }
    split; [done| |by intros a ?%Hno|apply Hno].
    intros a Ha Hin. apply (Hdis a); [unfold owned; clear -Ha; set_solver|]. rewrite Hl1. unfold owned. clear -Hin. set_solver.
  - lia.
Qed.

(** ** Properties *)
Section properties.
Context {H : Type} `{AllocatorSpans H} {F : Type}.
Implicit Types s : kst H F.

(** C3: isolation.  Take two processes whose allocations, page tables and
    objects have nothing in common.  However many calls of [process_malloc] and
    [process_free] the first one makes that return, for sizes from 1 byte to
    2147479552 and with any pointer that is not null, its own or not, the
    records, blocks and page tables of both stay consistent: the second one
    still has every allocation it had, live, with the same bytes and mapped for
    it, and the two still have nothing in common.  Sizes that are 0 when they
    are rounded to pages are outside, and have to be: they break the isolation
    ([malloc_zero_shared]). *)
Theorem process_memory_isolated s p x c tabs q y c2 tabs2 m l s' :
  proc_ok s p x c tabs m -> proc_ok s q y c2 tabs2 m -> apart p x tabs q y c2 tabs2 ->
  Forall op_ok l -> run_ops p l s = Ret (tt, s') ->
  exists x' m', proc_ok s' p x' c tabs m' /\ proc_ok s' q y c2 tabs2 m' /\ apart p x' tabs q y c2 tabs2 /\
    (forall a, owns y a -> blocks s' !! a = blocks s !! a) /\
    (forall vp, 0 <= vp < NPAGES ->
       pte (arrays_of s') (directory_entry c2) vp = pte (arrays_of s) (directory_entry c2) vp).
Proof.
  intros Hp Hq Hap Hl Hr. destruct (run_ops_framed s p x c tabs m l s' Hp Hl Hr) as (x' & m' & Hp' & Hf).
  destruct (framed_other s p x tabs m s' x' m' q y c2 tabs2 Hf (po_spans _ _ _ _ _ _ Hp') Hq Hap) as [Hq' Hap'].
  exists x', m'. split_and!; [done|done|done| |].
  - intros a (Ha & i & z & Hi). destruct (po_alloc _ _ _ _ _ _ Hq i a z Hi Ha) as (_ & _ & Hma & _).
    eapply mf_blocks; [exact Hf|exact Hma|]. intros Hx. apply (ap_owns _ _ _ _ _ _ _ Hap a Hx). split; [done|by exists i, z].
  - apply (dir_frame (arrays_of s) (arrays_of s') _ tabs2 (po_dir _ _ _ _ _ _ Hq)).
    intros a Ha. eapply mf_arrays; [exact Hf|]. by apply (ap_tabs _ _ _ _ _ _ _ Hap).
Qed.

(** [process_malloc].  When the kernel heap gives a block and an entry of
    the table is unused, the process gets the block's address: it was not in
    use, it is zeroed, recorded in the first unused entry, and every byte of it
    is mapped, present, writable and accessible from user mode, at its own
    address; no other page changes. *)
Theorem process_malloc_correct s p x c tabs m size ptr h i z0 :
  proc_ok s p x c tabs m -> 0 < size <= 2147479552 -> kz size (heap_of s) = Ret (ptr, h) -> ptr <> 0 ->
  allocations x !! i = Some (0, z0) -> (forall k y, (k < i)%nat -> allocations x !! k = Some y -> fst y <> 0) ->
  exists s', process_malloc p size s = Ret (ptr, s') /\
    proc_ok s' p (set_allocations (<[i := (ptr, size)]> (allocations x)) x) c tabs (<[ptr := pages_for size]> m) /\
    m !! ptr = None /\ blocks s' !! ptr = Some (replicate (Z.to_nat size) 0) /\
    (forall b, ptr <= b < ptr + size ->
       paging_get (arrays_of s') (directory_entry c) (b / 4096 * 4096) = Ret (page_entry (b / 4096) 7) /\
       paging_get_physical_address (arrays_of s') (directory_entry c) b = Ret b) /\
    (forall vp, 0 <= vp < NPAGES -> ~ (ptr / 4096 <= vp < ptr / 4096 + pages_for size) ->
       pte (arrays_of s') (directory_entry c) vp = pte (arrays_of s) (directory_entry c) vp).
Proof.
  intros Hpo Hs Hkz Hptr Hi Hfirst.
  destruct (process_malloc_spec s p x c tabs m size ptr h i z0 Hpo Hs Hkz Hptr Hi Hfirst) as (ar & E & Hpo' & Hnew & _ & Hframe).
  exists (malloced s p x i ptr size h ar). split_and!; [done|done|done|cbn; by rewrite lookup_insert_eq| |done].
  destruct (po_alloc _ _ _ _ _ _ Hpo' i ptr size) as (_ & _ & Hma & _ & Hbm); [|done|].
  { cbn [allocations set_allocations]. apply list_lookup_insert_eq. by eapply lookup_lt_Some. }
  destruct (spans_range _ _ ptr _ (po_spans _ _ _ _ _ _ Hpo') Hma) as (Hp0 & Hpm & _ & Htop).
  intros b Hb. assert (Hvp : ptr / 4096 <= b / 4096 < ptr / 4096 + pages_for size) by (unfold pages_for; zlia).
  specialize (Hbm _ Hvp). change USER_PAGE with 7 in Hbm. split; [exact Hbm|].
  pose proof (physical_address (arrays_of (malloced s p x i ptr size h ar)) (directory_entry c) (b / 4096) (b mod 4096) (b / 4096) 7) as Hph.
  replace (b / 4096 * 4096 + b mod 4096) with b in Hph by zlia. apply Hph; try done; unfold NPAGES; zlia.
Qed.

(** [process_free] undoes [process_malloc]: the record of the process and
    the live blocks of the heap are as before, the pages of the block are
    marked not present, and no other page is different. *)
Theorem malloc_free_roundtrip s p x c tabs m size ptr h i :
  proc_ok s p x c tabs m -> 0 < size <= 2147479552 -> kz size (heap_of s) = Ret (ptr, h) -> ptr <> 0 ->
  allocations x !! i = Some (0, 0) -> (forall k y, (k < i)%nat -> allocations x !! k = Some y -> fst y <> 0) ->
  exists s1 s2, process_malloc p size s = Ret (ptr, s1) /\ process_free p ptr s1 = Ret (tt, s2) /\
    proc_ok s2 p x c tabs m /\ live_ptrs (heap_of s2) = live_ptrs (heap_of s) /\
    block_mapped (arrays_of s2) (directory_entry c) ptr size 0 /\
    (forall vp, 0 <= vp < NPAGES -> ~ (ptr / 4096 <= vp < ptr / 4096 + pages_for size) ->
       pte (arrays_of s2) (directory_entry c) vp = pte (arrays_of s) (directory_entry c) vp).
Proof.
  intros Hpo Hs Hkz Hptr Hi Hfirst.
  destruct (process_malloc_spec s p x c tabs m size ptr h i 0 Hpo Hs Hkz Hptr Hi Hfirst) as (ar & E & Hpo' & Hnew & _ & Hframe).
  set (s1 := malloced s p x i ptr size h ar) in *. set (x1 := set_allocations _ x) in *.
  assert (Hi1 : allocations x1 !! i = Some (ptr, size)).
  { unfold x1. cbn [allocations set_allocations]. apply list_lookup_insert_eq. by eapply lookup_lt_Some. }
  destruct (process_free_spec s1 p x1 c tabs _ i ptr size Hpo' Hi1 Hptr) as (ar2 & h2 & E2 & Hpo2 & Hbm & _ & Hframe2).
  replace (set_allocations (<[i := (0, 0)]> (allocations x1)) x1) with x in Hpo2.
  2: { unfold x1. cbn [allocations set_allocations]. rewrite list_insert_insert_eq.
       rewrite (list_insert_id (allocations x) i (0, 0) Hi). by destruct x. }
  rewrite delete_insert_eq, delete_id in Hpo2 by done.
  exists s1, (freed s1 p x1 i ptr h2 ar2). split_and!; [done|done|done| |done|].
  - rewrite <- (spans_live _ m (po_spans _ _ _ _ _ _ Hpo2)), <- (spans_live _ m (po_spans _ _ _ _ _ _ Hpo)). done.
  - intros vp Hvp Hne. rewrite <- Hframe by done. by apply Hframe2.
Qed.

(** [process_malloc] without memory, or with its 1024 entries in use,
    returns null: in the second case the block is given back, and in both the
    process and the live blocks of the heap are as before. *)
Theorem process_malloc_fails s p x c tabs m size ptr h :
  proc_ok s p x c tabs m -> 0 < size <= 2147479552 -> kz size (heap_of s) = Ret (ptr, h) ->
  ptr = 0 \/ (forall i y, allocations x !! i = Some y -> fst y <> 0) ->
  exists s', process_malloc p size s = Ret (0, s') /\ proc_ok s' p x c tabs m /\
    live_ptrs (heap_of s') = live_ptrs (heap_of s) /\ arrays_of s' = arrays_of s.
Proof.
  intros Hpo Hs Hkz Hcase. assert (exists s', process_malloc p size s = Ret (0, s') /\ proc_ok s' p x c tabs m /\
    arrays_of s' = arrays_of s) as (s' & E & Hpo' & Har).
  { destruct (decide (ptr = 0)) as [->|Hptr].
    - exists (put_heap h s). destruct (malloc_no_memory s p x c tabs m size h Hpo Hs Hkz). done.
    - destruct Hcase as [?|Hfull]; [done|].
      destruct (malloc_full s p x c tabs m size ptr h Hpo Hs Hkz Hptr Hfull) as (s' & E & Hpo' & _ & Har & _). by exists s'. }
  exists s'. split_and!; [done|done| |done].
  rewrite <- (spans_live _ m (po_spans _ _ _ _ _ _ Hpo')), <- (spans_live _ m (po_spans _ _ _ _ _ _ Hpo)). done.
Qed.

(** An allocation of no bytes.  The heap gives the address of a free block and
    takes nothing, so the next process that allocates can get the same block;
    when the first one frees its allocation the block of the other one is gone
    from the heap, although the other one has it in its records. *)
Lemma process_malloc_zero s p x c tabs m ptr i z0 :
  proc_ok s p x c tabs m -> kz 0 (heap_of s) = Ret (ptr, heap_of s) -> ptr mod 4096 = 0 -> 0 < ptr < 2147483648 ->
  allocations x !! i = Some (0, z0) -> (forall k y, (k < i)%nat -> allocations x !! k = Some y -> fst y <> 0) ->
  process_malloc p 0 s = Ret (ptr, malloced s p x i ptr 0 (heap_of s) (arrays_of s)).
Proof.
  intros [_ Hx _ (t & Ht & <-) _ Hlen _ _] Hkz Hm Hr Hi Hfirst. unfold process_malloc.
  step (kzalloc_block_spec s 0 ptr (heap_of s) Hkz). rewrite (proj2 (Z.eqb_neq ptr 0)) by lia.
  set (s1 := set_blocks _ (put_heap (heap_of s) s)). unfold mbind at 1, cmd_bind at 1.
  step (load_proc_spec s1 p x Hx). unfold find_free_alloc_index.
  rewrite (first_index_at (fun a => fst a =? 0) (allocations x) i (0, z0) Hi eq_refl)
    by (intros k y Hk Hy; apply Z.eqb_neq; by eapply Hfirst).
  rewrite (proj2 (Z.ltb_ge _ 0)) by lia. step (page_directory_of_spec s1 x t Ht).
  step (map_to_spec (put_state (heap_of s1) (arrays_of s1) s1) _ _ _ _ _ _ _ (map_nothing (arrays_of s) (page_directory t) ptr USER_PAGE Hm Hr)). cbn [Z.ltb Z.compare].
  rewrite store_Ret, Nat2Z.id by (apply lookup_lt_Some in Hi; lia). rewrite (bind_liftO _ _ _ _ eq_refl).
  set (s2 := put_state _ _ _). step (update_proc_spec s2 p x (set_allocations (<[i:=(ptr, 0)]> (allocations x))) Hx).
  done.
Qed.

Lemma malloced_other s p x i ptr q y c2 tabs2 m :
  proc_ok s q y c2 tabs2 m -> p <> q -> m !! ptr = None ->
  proc_ok (malloced s p x i ptr 0 (heap_of s) (arrays_of s)) q y c2 tabs2 m.
Proof.
  intros [Hsp Hy Hl Ht Hwf Hlen Hal Hnd] Hpq Hnew. split; try done.
  - cbn. by rewrite lookup_insert_ne.
  - intros j a z Hj Ha. destruct (Hal j a z Hj Ha) as (? & ? & Hma & (b & Hb & Hbl) & ?). split_and!; try done; try lia.
    exists b. cbn. by rewrite lookup_insert_ne by congruence.
Qed.

(** Freeing an allocation of no bytes whose block another process has got. *)
Lemma process_free_zero s p x c ptr i m n :
  spans (heap_of s) m -> m !! ptr = Some n -> pobjs s !! p = Some x -> allocations x !! i = Some (ptr, 0) ->
  (forall k y, (k < i)%nat -> allocations x !! k = Some y -> fst y <> ptr) ->
  (exists t, tasks (ksched s) !! p_task x = Some t /\ page_directory t = c) -> ptr mod 4096 = 0 -> 0 < ptr < 2147483648 -> p <> ptr ->
  exists s' h, process_free p ptr s = Ret (tt, s') /\ heap_of s' = h /\ spans h (delete ptr m) /\
    blocks s' = delete ptr (blocks s) /\ (forall q, q <> p -> q <> ptr -> pobjs s' !! q = pobjs s !! q).
Proof.
  intros Hsp Hn Hx Hi Hfirst (t & Ht & <-) Hm Hr Hpp. destruct (kf_spans _ m ptr _ Hsp Hn) as (h & Hkf & Hsp').
  eexists _, h. split; [|split; [|split; [exact Hsp'|]]].
  - unfold process_free. step (load_proc_spec s p x Hx). unfold process_get_allocation_by_addr.
    rewrite (first_index_at (fun a => fst a =? ptr) (allocations x) i (ptr, 0) Hi)
      by (apply Z.eqb_refl || (intros k y Hk Hy; apply Z.eqb_neq; by eapply Hfirst)).
    rewrite (bind_liftO _ _ _ (ptr, 0)) by (apply load_Some; [lia|by rewrite Nat2Z.id]).
    step (page_directory_of_spec s x t Ht).
    step (map_to_spec (put_state (heap_of s) (arrays_of s) s) _ _ _ _ _ _ _ (map_nothing (arrays_of s) (page_directory t) ptr 0 Hm Hr)).
    cbn [Z.ltb Z.compare].
    step (update_proc_spec (put_state (heap_of s) (arrays_of s) s) p x (process_allocation_unjoin ptr) Hx).
    apply kfree_at_spec. exact Hkf.
  - done.
  - split; [done|]. intros q Hq Hq'. cbn. by rewrite lookup_delete_ne, lookup_insert_ne by done.
Qed.

(** Why sizes of 0 are left out of the isolation of processes.  Two processes with
    nothing in common; the first allocates no bytes, the second some: both get the
    same address, and when the first one frees it, the block of the second is gone,
    from the heap and from memory, although its record still has it. *)
Theorem malloc_zero_shared s p x c tabs q y c2 tabs2 m size ptr h i j z1 z2 :
  proc_ok s p x c tabs m -> proc_ok s q y c2 tabs2 m -> apart p x tabs q y c2 tabs2 ->
  kz 0 (heap_of s) = Ret (ptr, heap_of s) -> ptr <> 0 -> 0 < size <= 2147479552 -> kz size (heap_of s) = Ret (ptr, h) ->
  allocations x !! i = Some (0, z1) -> (forall k v, (k < i)%nat -> allocations x !! k = Some v -> fst v <> 0) ->
  allocations y !! j = Some (0, z2) -> (forall k v, (k < j)%nat -> allocations y !! k = Some v -> fst v <> 0) ->
  exists s1 s2 s3 y', process_malloc p 0 s = Ret (ptr, s1) /\ process_malloc q size s1 = Ret (ptr, s2) /\
    process_free p ptr s2 = Ret (tt, s3) /\ pobjs s3 !! q = Some y' /\ allocations y' !! j = Some (ptr, size) /\
    blocks s3 !! ptr = None /\ (ptr ∉ live_ptrs (heap_of s3)).
Proof.
  intros Hp Hq [Hpq Htabs Hown Hobj] Hk0 Hptr Hs Hkz Hi Hi1 Hj Hj1.
  pose proof (kz_spans size _ m ptr h (po_spans _ _ _ _ _ _ Hp) Hs Hkz) as Hk'. rewrite decide_False in Hk' by done.
  destruct Hk' as [Hnew Hsp']. destruct (spans_range h _ ptr _ Hsp' (lookup_insert_eq _ _ _)) as (Hp0 & Hpm & Hn & Htop).
  set (s1 := malloced s p x i ptr 0 (heap_of s) (arrays_of s)).
  assert (Hq1 : proc_ok s1 q y c2 tabs2 m) by (by apply malloced_other).
  destruct (process_malloc_spec s1 q y c2 tabs2 m size ptr h j z2 Hq1 Hs Hkz Hptr Hj Hj1) as (ar & E2 & Hq2 & _ & Harr & _).
  set (s2 := malloced s1 q y j ptr size h ar) in *. set (x1 := set_allocations (<[i := (ptr, 0)]> (allocations x)) x).
  pose proof (po_live _ _ _ _ _ _ Hp) as [np Hnp]. assert (Hpp : p <> ptr) by congruence.
  pose proof (po_live _ _ _ _ _ _ Hq) as [nq Hnq]. assert (Hqp : q <> ptr) by congruence.
  destruct (process_free_zero s2 p x1 c ptr i _ (pages_for size) (po_spans _ _ _ _ _ _ Hq2)) as (s3 & h3 & E3 & Hh3 & Hsp3 & Hb3 & Ho3);
    try done; try lia.
  - by rewrite lookup_insert_eq.
  - cbn. by rewrite lookup_insert_ne, lookup_insert_eq by done.
  - unfold x1. cbn [allocations set_allocations]. apply list_lookup_insert_eq. by eapply lookup_lt_Some.
  - unfold x1. cbn [allocations set_allocations]. intros k [a z] Hk Hv. rewrite list_lookup_insert_ne in Hv by lia. cbn. intros ->.
    destruct (po_alloc _ _ _ _ _ _ Hp k ptr z Hv Hptr) as (_ & _ & Hma & _). congruence.
  - destruct (po_task _ _ _ _ _ _ Hp) as (t & Ht & Hc). by exists t.
  - exists s1, s2, s3, (set_allocations (<[j := (ptr, size)]> (allocations y)) y). split_and!; try done.
    + eapply (process_malloc_zero s p x c tabs m ptr i z1); done || lia.
    + rewrite Ho3 by done. cbn. by rewrite lookup_insert_eq.
    + cbn [allocations set_allocations]. apply list_lookup_insert_eq. by eapply lookup_lt_Some.
    + by rewrite Hb3, lookup_delete_eq.
    + rewrite <- Hh3 in Hsp3. rewrite <- (spans_live _ _ Hsp3), not_elem_of_dom. by rewrite delete_insert_eq, lookup_delete_eq.
Qed.
End properties.

Lemma first_unused t : forall k y, (k < 0)%nat -> allocations (new_process t) !! k = Some y -> fst y <> 0.
Proof. lia. Qed.

Lemma process_memory_isolated_witness :
  exists (s s' : kst kmem unit) p q y c2 tabs2 m', run_ops p [OpMalloc 100] s = Ret (tt, s') /\ p <> q /\
    proc_ok s' q y c2 tabs2 m'.
Proof.
  destruct demo_system as (h & ar & p & q & c1 & c2 & tabs1 & tabs2 & m & Hp & Hq & Hap & Hr).
  destruct (kz_room 100 h (spans_ok _ _ (po_spans _ _ _ _ _ _ Hp)) ltac:(lia) ltac:(lia)) as (ptr & h2 & Hk & Hptr & _).
  destruct (process_malloc_spec _ p _ c1 tabs1 m 100 ptr h2 0 0 Hp ltac:(lia) Hk Hptr eq_refl (first_unused 1)) as (ar2 & E & _).
  assert (Hrun : run_ops p [OpMalloc 100] (demo_state h ar p q c1 c2) =
    Ret (tt, malloced (demo_state h ar p q c1 c2) p (new_process 1) 0 ptr 100 h2 ar2)).
  { cbn [run_ops run_op]. unfold mbind, cmd_bind. rewrite E. reflexivity. }
  destruct (process_memory_isolated (demo_state h ar p q c1 c2) p (new_process 1) c1 tabs1 q (new_process 2) c2 tabs2 m
              [OpMalloc 100] (malloced (demo_state h ar p q c1 c2) p (new_process 1) 0 ptr 100 h2 ar2) Hp Hq Hap) as (x' & m' & _ & Hq' & _ & _ & _).
  - constructor; [cbn; lia|constructor].
  - exact Hrun.
  - exists (demo_state h ar p q c1 c2), (malloced (demo_state h ar p q c1 c2) p (new_process 1) 0 ptr 100 h2 ar2), p, q, (new_process 2), c2, tabs2, m'. split; [exact Hrun|]. split; [apply (ap_procs _ _ _ _ _ _ _ Hap)|exact Hq'].
Defined.

(** Two processes on a heap whose last block is free. *)
Definition two_kmem1 : kmem := match kz 1 big_kmem with Ret (_, k) => k | _ => big_kmem end.
Definition two_kmem : kmem := match kz 1 two_kmem1 with Ret (_, k) => k | _ => big_kmem end.

Lemma two_kmem_spans : spans two_kmem (<[0x1001000 := 1]> {[0x1000000 := 1]}).
Proof.
  assert (H0 : spans big_kmem ∅).
  { exists ∅. split; [|done]. eapply (heap_create_inv demo_heap 0x1000000 0x1C80000 (mk_heap_table (replicate 3200 0xFF) 3200));
      [done|done|vm_compute; reflexivity|]. vm_compute. reflexivity. }
  assert (E1 : kz 1 big_kmem = Ret (0x1000000, two_kmem1)) by (vm_compute; reflexivity).
  assert (E2 : kz 1 two_kmem1 = Ret (0x1001000, two_kmem)) by (vm_compute; reflexivity).
  pose proof (kz_spans 1 _ _ _ _ H0 ltac:(lia) E1) as S1. rewrite decide_False in S1 by done.
  pose proof (kz_spans 1 _ _ _ _ (proj2 S1) ltac:(lia) E2) as S2. rewrite decide_False in S2 by done.
  exact (proj2 S2).
Qed.

Lemma demo_two_system :
  exists ar c1 c2 tabs1 tabs2,
    let s := demo_state two_kmem ar 0x1000000 0x1001000 c1 c2 in
    let m := <[0x1001000 := 1]> {[0x1000000 := 1]} in
    proc_ok s 0x1000000 (new_process 1) c1 tabs1 m /\ proc_ok s 0x1001000 (new_process 2) c2 tabs2 m /\
    apart 0x1000000 (new_process 1) tabs1 0x1001000 (new_process 2) c2 tabs2.
Proof.
  pose proof big_room as Hroom. revert Hroom. generalize big_pstate, big_kmem_ok. intros s0 Hok0 Hroom.
  destruct (new_4gb_spec 7 s0 Hok0 ltac:(lia) ltac:(unfold proom; lia))
    as (c1 & tabs1 & s1 & _ & Hok1 & Hwf1 & _ & Hl1 & _ & Hnd1 & Hr1 & _ & _ & _).
  destruct (new_4gb_spec 7 s1 Hok1 ltac:(lia) ltac:(unfold proom in *; lia))
    as (c2 & tabs2 & s2 & _ & Hok2 & Hwf2 & _ & Hl2 & Hdis & Hnd2 & Hr2 & _ & _ & Hfr).
  exists (parrays s2), c1, c2, tabs1, tabs2. cbv zeta. pose proof two_kmem_spans as Hm. split_and!.
  - apply new_process_ok; [exact Hm|done|by exists 1|by exists (new_task c1 0x1000000)|].
    eapply dir_frame; [exact Hwf1|]. intros a Ha. apply Hfr. rewrite Hl1. unfold owned. clear -Ha. set_solver.
  - apply new_process_ok; [exact Hm|done|by exists 1|by exists (new_task c2 0x1001000)|exact Hwf2].
  - assert (Hno : forall t a, ~ owns (new_process t) a).
    { intros t a (Ha & i & z & Hi). change (allocations (new_process t)) with (replicate 1024 (0, 0)) in Hi.
      apply lookup_replicate_1 in Hi as [[= -> _] _]. done. }
    split; [done| |by intros a ?%Hno|apply Hno].
    intros a Ha Hin. apply (Hdis a); [unfold owned; clear -Ha; set_solver|]. rewrite Hl1. unfold owned. clear -Hin. set_solver.
Qed.

(** Both requests are served by the same block. *)
Lemma malloc_zero_shared_witness :
  exists (s s1 s2 s3 : kst kmem unit) p q ptr y', p <> q /\ process_malloc p 0 s = Ret (ptr, s1) /\
    process_malloc q 100 s1 = Ret (ptr, s2) /\ process_free p ptr s2 = Ret (tt, s3) /\
    pobjs s3 !! q = Some y' /\ allocations y' !! 0%nat = Some (ptr, 100) /\ (ptr ∉ live_ptrs (heap_of s3)).
Proof.
  destruct demo_two_system as (ar & c1 & c2 & tabs1 & tabs2 & Hp & Hq & Hap).
  assert (Hk0 : kz 0 two_kmem = Ret (0x1002000, two_kmem)) by (vm_compute; reflexivity).
  set (h := match kz 100 two_kmem with Ret (_, k) => k | _ => two_kmem end).
  assert (Hk : kz 100 two_kmem = Ret (0x1002000, h)) by (vm_compute; reflexivity).
  destruct (malloc_zero_shared _ 0x1000000 (new_process 1) c1 tabs1 0x1001000 (new_process 2) c2 tabs2 _ 100 0x1002000 h 0 0 0 0 Hp Hq Hap
              Hk0 ltac:(lia) ltac:(lia) Hk eq_refl (first_unused 1) eq_refl (first_unused 2))
    as (s1 & s2 & s3 & y' & E1 & E2 & E3 & Hy & Ha & _ & Hl).
  eexists _, s1, s2, s3, 0x1000000, 0x1001000, 0x1002000, y'. split_and!; [apply (ap_procs _ _ _ _ _ _ _ Hap)|exact E1|exact E2|exact E3|exact Hy|exact Ha|exact Hl].
Defined.

Lemma process_malloc_correct_witness :
  exists (s s' : kst kmem unit) p ptr, process_malloc p 100 s = Ret (ptr, s') /\ ptr <> 0 /\
    blocks s' !! ptr = Some (replicate 100 0).
Proof.
  destruct demo_system as (h & ar & p & q & c1 & c2 & tabs1 & tabs2 & m & Hp & Hq & Hap & Hr).
  destruct (kz_room 100 h (spans_ok _ _ (po_spans _ _ _ _ _ _ Hp)) ltac:(lia) ltac:(lia)) as (ptr & h2 & Hk & Hptr & _).
  destruct (process_malloc_correct _ p _ c1 tabs1 m 100 ptr h2 0 0 Hp ltac:(lia) Hk Hptr eq_refl (first_unused 1))
    as (s' & E & _ & _ & Hb & _).
  exists (demo_state h ar p q c1 c2), s', p, ptr. split; [exact E|]. split; [exact Hptr|exact Hb].
Defined.

Lemma malloc_free_roundtrip_witness :
  exists (s s1 s2 : kst kmem unit) p ptr, process_malloc p 100 s = Ret (ptr, s1) /\ ptr <> 0 /\
    process_free p ptr s1 = Ret (tt, s2) /\ live_ptrs (heap_of s2) = live_ptrs (heap_of s).
Proof.
  destruct demo_system as (h & ar & p & q & c1 & c2 & tabs1 & tabs2 & m & Hp & Hq & Hap & Hr).
  destruct (kz_room 100 h (spans_ok _ _ (po_spans _ _ _ _ _ _ Hp)) ltac:(lia) ltac:(lia)) as (ptr & h2 & Hk & Hptr & _).
  destruct (malloc_free_roundtrip _ p _ c1 tabs1 m 100 ptr h2 0 Hp ltac:(lia) Hk Hptr eq_refl (first_unused 1))
    as (s1 & s2 & E1 & E2 & _ & Hl & _).
  exists (demo_state h ar p q c1 c2), s1, s2, p, ptr. split_and!; [exact E1|exact Hptr|exact E2|exact Hl].
Defined.

(** Every entry of the table can be filled while there is memory. *)
Lemma fill_table_demo k :
  (k <= 1024)%nat ->
  exists (s : kst kmem unit) p x c tabs m, proc_ok s p x c tabs m /\
    (forall i y, (i < k)%nat -> allocations x !! i = Some y -> fst y <> 0) /\
    (forall i, (k <= i < 1024)%nat -> allocations x !! i = Some (0, 0)) /\ (1100 <= room (heap_of s) + k)%nat.
Proof.
  induction k as [|k IH]; intros Hk.
  - destruct demo_system as (h & ar & p & q & c1 & c2 & tabs1 & tabs2 & m & Hp & _ & _ & Hr).
    exists (demo_state h ar p q c1 c2), p, (new_process 1), c1, tabs1, m. split_and!; [done|lia| |].
    + intros i Hi. change (allocations (new_process 1)) with (replicate 1024 (0, 0)). apply lookup_replicate_2. lia.
    + change (heap_of (demo_state h ar p q c1 c2)) with h. lia.
  - destruct IH as (s & p & x & c & tabs & m & Hp & Hlt & Hge & Hr); [lia|].
    destruct (kz_room 100 (heap_of s) (spans_ok _ _ (po_spans _ _ _ _ _ _ Hp)) ltac:(lia) ltac:(lia))
      as (ptr & h2 & Hkz & Hptr & Hr2).
    destruct (process_malloc_spec s p x c tabs m 100 ptr h2 k 0 Hp ltac:(lia) Hkz Hptr) as (ar & _ & Hp' & _).
    { apply Hge. lia. }
    { intros j y Hj. by apply Hlt. }
    eexists _, p, _, c, tabs, _. split; [exact Hp'|]. cbn [allocations set_allocations]. split_and!.
    + intros i y Hi Hy. apply list_lookup_insert_Some in Hy as [(_ & <- & _)|[Hne Hy]]; [done|].
      eapply Hlt; [|exact Hy]. lia.
    + intros i Hi. rewrite list_lookup_insert_ne by lia. apply Hge. lia.
    + change (heap_of (malloced s p x k ptr 100 h2 ar)) with h2. lia.
Qed.

Lemma process_malloc_fails_witness :
  exists (s s' : kst kmem unit) p, process_malloc p 100 s = Ret (0, s') /\ live_ptrs (heap_of s') = live_ptrs (heap_of s).
Proof.
  destruct (fill_table_demo 1024 ltac:(lia)) as (s & p & x & c & tabs & m & Hp & Hfull & _ & Hr).
  destruct (kz_room 100 (heap_of s) (spans_ok _ _ (po_spans _ _ _ _ _ _ Hp)) ltac:(lia) ltac:(lia))
    as (ptr & h2 & Hkz & _ & _).
  destruct (process_malloc_fails s p x c tabs m 100 ptr h2 Hp ltac:(lia) Hkz) as (s' & E & _ & Hl & _).
  - right. intros i y Hi. apply (Hfull i y); [|exact Hi]. rewrite <- (po_len _ _ _ _ _ _ Hp). by eapply lookup_lt_Some.
  - exists s, s', p. split; [exact E|exact Hl].
Defined.
