(* ===== verification/ProcessLife.v ===== *)
(** * The life of a process: screens, arguments, loading, termination

    Switching between processes, the command line a process is given, what is
    mapped for its code and stack, and the paths on which ending a process goes
    wrong. *)
From S2P Require Import Prelude Config CMem CString Heap HeapSpec Kheap AllocSpans Paging PagingSpec AddressSpace.
From S2P Require Import PathParser Keyboard Disk Vfs Elf Task TaskSpec Terminal Screen ScreenSpec Process ProcessSpec.
From S2P Require Import ProcessMemory.

#[local] Arguments Nat.mul : simpl never.
#[local] Arguments Nat.div : simpl never.
#[local] Arguments Nat.modulo : simpl never.

Section life.
Context {H : Type} `{Allocator H} {F : Type}.
Implicit Types s : kst H F.

(** ** Switching *)
Lemma on_screen_spec {A} s a x (c : cmd scrst A) v st :
  screens s !! a = Some x -> c (mk_scrst x (terminal s)) = Ret (v, st) ->
  on_screen a c s = Ret (v, set_terminal (sterm st) (set_screens (<[a := scr st]> (screens s)) s)).
Proof.
  intros Hx Hc. unfold on_screen, load_screen, obj. unfold mbind at 1, cmd_bind at 1.
  rewrite bind_getS, Hx. cbn [mbind outcome_bind mret cmd_ret]. unfold mret, cmd_ret. cbn [mbind outcome_bind].
  rewrite bind_getS, (bind_liftO _ _ _ _ Hc). done.
Qed.

Definition on_page (v : list Z * nat) : Prop := length (fst v) = 2000%nat /\ (snd v < 2000)%nat.

(** The screens and the terminal after a switch. *)
Definition shown s (a b : Z) (va vb : list Z * nat) : kst H F :=
  set_terminal (term_of vb (beeps (terminal s)))
    (set_screens (<[b := scr_of true vb]> (<[a := scr_of false va]> (screens s))) s).

Lemma process_switch_spec s p q px qx a f0 f1 v0 va vb n :
  current_process s = p -> pobjs s !! p = Some px -> pobjs s !! q = Some qx ->
  p_screen px = a -> p_screen qx <> a ->
  screens s !! a = Some (scr_of f0 v0) -> screens s !! p_screen qx = Some (scr_of f1 vb) ->
  terminal s = term_of va n -> on_page v0 -> on_page va -> on_page vb ->
  process_switch q s = Ret (0, set_current_process q (shown s a (p_screen qx) va vb)).
Proof.
  intros Hcur Hp Hq Ha Hb Hsa Hsb Ht [Hl0 _] [Hla Hpa] [Hlb Hpb]. unfold process_switch. rewrite bind_getS, Hcur.
  unfold process_save_video. unfold mbind at 1, cmd_bind at 1. step (load_proc_spec s p px Hp). rewrite Ha.
  assert (Hsave : save_video (mk_scrst (scr_of f0 v0) (terminal s)) = Ret (tt, mk_scrst (scr_of false va) (terminal s))).
  { rewrite Ht. by apply save_video_spec. }
  rewrite (on_screen_spec s a _ _ _ _ Hsa Hsave). cbn [mbind outcome_bind].
  set (s1 := set_terminal _ _). unfold process_load_video. unfold mbind at 1, cmd_bind at 1.
  step (load_proc_spec s1 q qx Hq).
  assert (Hs1 : screens s1 !! p_screen qx = Some (scr_of f1 vb)) by (cbn; by rewrite lookup_insert_ne).
  assert (Hlv : length (video_mem (terminal s)) = 2000%nat) by (rewrite Ht; exact Hla).
  rewrite (on_screen_spec s1 _ _ _ _ _ Hs1 (load_video_spec f1 vb (terminal s) Hlb Hpb Hlv)).
  cbn [mbind outcome_bind]. done.
Qed.

(** Switching.  A switch to another process and back leaves the page and
    the cursor on the terminal as they were, makes the first process current
    again with its screen marked visible and holding that page, and the second
    screen exactly as it was, hidden; nothing else changes. *)
Theorem process_switch_roundtrip s p q px qx f0 f1 v0 va vb n :
  current_process s = p -> pobjs s !! p = Some px -> pobjs s !! q = Some qx -> p_screen qx <> p_screen px ->
  screens s !! p_screen px = Some (scr_of f0 v0) -> screens s !! p_screen qx = Some (scr_of f1 vb) ->
  terminal s = term_of va n -> on_page v0 -> on_page va -> on_page vb ->
  exists s1 s2, process_switch q s = Ret (0, s1) /\ current_process s1 = q /\ terminal s1 = term_of vb n /\
    process_switch p s1 = Ret (0, s2) /\ current_process s2 = p /\ terminal s2 = terminal s /\
    screens s2 = <[p_screen px := scr_of true va]> (<[p_screen qx := scr_of false vb]> (screens s)) /\
    pobjs s2 = pobjs s /\ ksched s2 = ksched s /\ processes s2 = processes s.
Proof.
  intros Hcur Hp Hq Hne Hsa Hsb Ht Hv0 Ha Hb.
  set (s1 := set_current_process q (shown s (p_screen px) (p_screen qx) va vb)).
  exists s1, (set_current_process p (shown s1 (p_screen qx) (p_screen px) vb va)).
  split; [by apply (process_switch_spec s p q px qx _ f0 f1 v0 va vb n)|]. split; [done|].
  split; [cbn; by rewrite Ht|]. split; [|split; [done|]].
  - assert (Hbeeps : beeps (terminal s) = n) by by rewrite Ht.
    apply (process_switch_spec s1 q p qx px _ true false vb vb va n); try done.
    + cbn. by rewrite lookup_insert_eq.
    + cbn. by rewrite lookup_insert_ne, lookup_insert_eq.
    + cbn. by rewrite Hbeeps.
  - split; [cbn; by rewrite Ht|]. split; [|done]. cbn. apply map_eq. intros k.
    destruct (decide (k = p_screen px)) as [->|Hk].
    + by rewrite !lookup_insert_eq.
    + rewrite !(lookup_insert_ne _ (p_screen px)) by done. destruct (decide (k = p_screen qx)) as [->|Hk2].
      * by rewrite !lookup_insert_eq.
      * by rewrite !lookup_insert_ne by done.
Qed.
End life.

(** The witness: a white page at the visible process, a blue one behind it. *)
Definition two_screens : kst kmem unit :=
  mk_kst (mk_tstate (mk_pstate big_kmem ∅ 0) ∅ ∅ 0 0 0) (mk_vfs (mk_pp big_kmem ∅ ∅ ∅, tt) [] [] ∅ [])
    (<[10 := set_screen 30 zero_process]> {[20 := set_screen 40 zero_process]})
    (<[30 := scr_of true (replicate 2000 0x0F20, 0%nat)]> {[40 := scr_of false (replicate 2000 0x1F20, 85%nat)]})
    ∅ ∅ (replicate 50 0) 10 (term_of (replicate 2000 0x0F41, 170%nat) 0) zero_screen false.

Lemma process_switch_roundtrip_witness :
  exists s1 s2, process_switch 20 two_screens = Ret (0, s1) /\ process_switch 10 s1 = Ret (0, s2) /\
    terminal s2 = terminal two_screens.
Proof.
  destruct (process_switch_roundtrip two_screens 10 20 (set_screen 30 zero_process) (set_screen 40 zero_process) true false
    (replicate 2000 0x0F20, 0%nat) (replicate 2000 0x0F41, 170%nat) (replicate 2000 0x1F20, 85%nat) 0)
    as (s1 & s2 & E1 & _ & _ & E2 & _ & Ht & _).
  - reflexivity.
  - vm_compute; reflexivity.
  - vm_compute; reflexivity.
  - cbn; lia.
  - vm_compute; reflexivity.
  - vm_compute; reflexivity.
  - reflexivity.
  - split; [reflexivity|cbn; lia].
  - split; [reflexivity|cbn; lia].
  - split; [reflexivity|cbn; lia].
  - exists s1, s2. split; [exact E1|]. split; [exact E2|exact Ht].
Defined.

(** ** Termination *)
Section termination.
Context {F : Type} (drivers : gmap Z (filesystem_ops (fsst kmem F))).
Implicit Types s : kst kmem F.

Lemma kfree_at_null s : kmem_ok (heap_of s) -> kfree_at 0 s = Oob.
Proof.
  intros Hok. unfold kfree_at, on_alloc. unfold mbind at 1 2, cmd_bind at 1.
  change (kf 0 (heap_of s)) with (kfree 0 (heap_of s)). by rewrite kfree_null.
Qed.

(** Every recorded allocation is freed until the first unused entry. *)
Lemma free_allocations_null s m l :
  spans (heap_of s) m -> NoDup (fst <$> filter (fun y => fst y <> 0) l) ->
  (forall i a z, l !! i = Some (a, z) -> a <> 0 -> is_Some (m !! a)) ->
  (exists i z, l !! i = Some (0, z)) -> free_allocations l s = Oob.
Proof.
  intros Hsp Hnd Hl Hnull. revert s m Hsp Hl. induction l as [|[a z] l IH]; intros s m Hsp Hl.
  { destruct Hnull as (i & z & Hi). done. }
  cbn [free_allocations]. destruct (decide (a = 0)) as [->|Ha].
  { unfold mbind, cmd_bind. rewrite kfree_at_null; [done|]. by apply (kmem_spans_ok _ m). }
  destruct (Hl 0%nat a z eq_refl Ha) as [n Hn]. destruct (kf_spans (heap_of s) m a n Hsp Hn) as (h & Hk & Hsp').
  step (kfree_at_spec s a h Hk). rewrite filter_cons, decide_True in Hnd by done. cbn [fmap list_fmap] in Hnd.
  apply NoDup_cons in Hnd as [Hna Hnd].
  apply (IH Hnd) with (m := delete a m); [|done|].
  - destruct Hnull as ([|i] & z' & Hi); [cbn in Hi; congruence|]. by exists i, z'.
  - intros i b z' Hi Hb. rewrite lookup_delete_ne; [by apply (Hl (S i) b z')|].
    intros ->. apply Hna. apply list_elem_of_fmap. exists (b, z'). split; [done|].
    apply list_elem_of_filter. split; [done|]. by eapply list_elem_of_lookup_2.
Qed.

Lemma proc_ok_nodup s p x c tabs m :
  proc_ok s p x c tabs m -> NoDup (fst <$> filter (fun y => fst y <> 0) (allocations x)).
Proof.
  intros Hpo. pose proof (po_nodup _ _ _ _ _ _ Hpo) as Hnd. revert Hnd. generalize (allocations x). clear.
  induction l as [|[a z] l IH]; intros Hnd; [constructor|]. rewrite filter_cons.
  assert (Hl : NoDup (fst <$> filter (fun y => fst y <> 0) l)).
  { apply IH. intros i j b z1 z2 Hi Hj Hb. specialize (Hnd (S i) (S j) b z1 z2 Hi Hj Hb). lia. }
  case_decide as Ha; [|done]. cbn [fmap list_fmap fst] in *. constructor; [|done].
  intros ([b z'] & Hb & Hin)%list_elem_of_fmap. cbn in Hb. subst b.
  apply list_elem_of_filter in Hin as [_ Hin]. apply list_elem_of_lookup in Hin as [j Hj].
  specialize (Hnd 0%nat (S j) a z z' eq_refl Hj Ha). lia.
Qed.

(** Ending a process frees the entries of its allocation table without
    looking whether they are used.  For every process but the first, with an
    unused entry, [process_terminate] passes the null pointer to [kfree], which
    leaves the block table of the heap; the same happens when a program frees
    the null pointer. *)
Theorem process_terminate_frees_null fuel s p x c tabs m i :
  proc_ok s p x c tabs m -> p <> 0 -> process_id x <> 0 -> allocations x !! i = Some (0, 0) ->
  (forall k y, (k < i)%nat -> allocations x !! k = Some y -> fst y <> 0) ->
  process_terminate drivers fuel p s = Oob /\ process_free p 0 s = Oob.
Proof.
  intros Hpo Hp Hid Hi Hfirst. pose proof Hpo as [Hsp Hx _ (t & Ht & <-) Hwf Hlen Hal Hnd]. split.
  - unfold process_terminate. rewrite (proj2 (Z.eqb_neq p 0)) by done. step (load_proc_spec s p x Hx).
    rewrite (proj2 (Z.eqb_neq (process_id x) 0)) by done. unfold process_terminate_allocs.
    unfold mbind at 1, cmd_bind at 1. step (load_proc_spec s p x Hx).
    rewrite (free_allocations_null s m); [done|done|by eapply proc_ok_nodup| |by exists i, 0].
    intros j a z Hj Ha. destruct (Hal j a z Hj Ha) as (_ & _ & -> & _). by eexists.
  - unfold process_free. step (load_proc_spec s p x Hx). unfold process_get_allocation_by_addr.
    pose proof (first_index_spec (fun a => fst a =? 0) (allocations x) 0) as Hfi.
    destruct (first_index _ _ 0) as [j|]; [|by specialize (Hfi i _ Hi)].
    destruct Hfi as (k & [b z] & -> & Hk & Hb%Z.eqb_eq & Hlt). cbn in Hb. subst b.
    assert (k = i) as ->.
    { destruct (Nat.lt_trichotomy k i) as [Hki|[->|Hki]]; [|done|].
      - by specialize (Hfirst k _ Hki Hk).
      - by specialize (Hlt i _ Hki Hi). }
    rewrite Hi in Hk. injection Hk as <-.
    rewrite (bind_liftO _ _ _ (0, 0)) by (apply load_Some; [lia|by rewrite Z.add_0_l, Nat2Z.id]).
    step (page_directory_of_spec s x t Ht).
    assert (Hmap : paging_map_to (arrays_of s) (page_directory t) 0 0 (paging_align_address (0 + 0)) 0 = Ret (0, arrays_of s))
      by done.
    step (map_to_spec (put_state (heap_of s) (arrays_of s) s) _ _ _ _ _ _ _ Hmap). cbn [Z.ltb Z.compare].
    step (update_proc_spec (put_state (heap_of s) (arrays_of s) s) p x (process_allocation_unjoin 0) Hx).
    apply kfree_at_null. by apply (kmem_spans_ok _ m).
Qed.

(** The test in [process_terminate_files] is the wrong way round.  The
    files a process has open, those with a descriptor in [iob], are left alone:
    the table of descriptors and the descriptors are as before. *)
Theorem process_terminate_leaves_files s p x :
  pobjs s !! p = Some x -> length (iob x) = 20%nat ->
  exists s', process_terminate_files drivers p s = Ret (tt, s') /\ pobjs s' = pobjs s /\
    file_descriptors (kfiles s') = file_descriptors (kfiles s) /\ descs (kfiles s') = descs (kfiles s) /\
    heap_of s' = heap_of s.
Proof.
  intros Hx Hlen. unfold process_terminate_files. change (Z.to_nat NFILE) with 20%nat.
  assert (Hgen : forall n i s0, (i + n = 20)%nat -> pobjs s0 !! p = Some x ->
    exists s', terminate_files_loop drivers n p (Z.of_nat i) s0 = Ret (tt, s') /\ pobjs s' = pobjs s0 /\
      file_descriptors (kfiles s') = file_descriptors (kfiles s0) /\ descs (kfiles s') = descs (kfiles s0) /\
      heap_of s' = heap_of s0); [|by apply (Hgen 20%nat 0%nat s)].
  clear Hx. induction n as [|n IH]; intros i s0 Hi Hx; [by exists s0|]. cbn [terminate_files_loop].
  step (load_proc_spec s0 p x Hx). destruct (lookup_lt_is_Some_2 (iob x) i) as [fd Hfd]; [lia|].
  rewrite (bind_liftO _ _ _ fd) by (apply load_Some; [lia|by rewrite Nat2Z.id]).
  replace (Z.of_nat i + 1) with (Z.of_nat (S i)) by lia.
  destruct (fd =? 0) eqn:E; [apply Z.eqb_eq in E; subst fd|].
  2: { rewrite bind_mret. apply IH; [lia|done]. }
  unfold process_fclose. unfold mbind at 1 2, cmd_bind at 1 2.
  step (load_proc_spec s0 p x Hx). rewrite (bind_liftO _ _ _ 0) by (apply load_Some; [lia|by rewrite Nat2Z.id]).
  assert (exists s1, on_files (fclose drivers 0) s0 = Ret (- EIO, s1) /\ pobjs s1 = pobjs s0 /\
    file_descriptors (kfiles s1) = file_descriptors (kfiles s0) /\ descs (kfiles s1) = descs (kfiles s0) /\
    heap_of s1 = heap_of s0) as (s1 & E1 & Ep & Ef & Ed & Eh) by (eexists; split; [reflexivity|done]).
  rewrite <- Ep in Hx. step E1. step (load_proc_spec s1 p x Hx).
  rewrite store_Ret by (apply lookup_lt_Some in Hfd; lia). rewrite (bind_liftO _ _ _ _ eq_refl), Nat2Z.id, list_insert_id by done.
  step (update_proc_spec s1 p x (set_iob (iob x)) Hx). replace (set_iob (iob x) x) with x by by destruct x.
  rewrite insert_id by done. cbn [mret cmd_ret mbind outcome_bind]. unfold mret, cmd_ret.
  destruct (IH (S i) (set_pobjs (pobjs s1) s1) ltac:(lia) Hx) as (s' & -> & Hp' & Hf' & Hd' & Hh').
  exists s'. split_and!; [done|by rewrite Hp'|rewrite Hf'; exact Ef|rewrite Hd'; exact Ed|rewrite Hh'; exact Eh].
Qed.

(** A process that ends while it is the current one is freed first and
    used afterwards: the switch to another process saves the video memory to
    the screen of the process whose structure is gone. *)
Theorem unlink_current_uses_freed s p x m :
  spans (heap_of s) m -> is_Some (m !! p) -> pobjs s !! p = Some x -> current_process s = p ->
  0 <= process_id x < Z.of_nat (length (processes s)) ->
  process_unlink p s = Oob \/ process_unlink p s = Panic.
Proof.
  intros Hsp [n Hn] Hx Hcur Hid. unfold process_unlink. step (load_proc_spec s p x Hx).
  rewrite bind_getS, store_Ret, (bind_liftO _ _ _ _ eq_refl), bind_modifyS by done.
  set (s1 := set_processes _ s). destruct (kf_spans (heap_of s1) m p n Hsp Hn) as (h & Hk & _).
  step (kfree_at_spec s1 p h Hk). rewrite bind_getS. change (current_process (forget p (put_heap h s1))) with (current_process s).
  rewrite Hcur, Z.eqb_refl. set (s2 := forget p (put_heap h s1)). unfold process_switch_to_any. rewrite bind_getS.
  assert (Hno : pobjs s2 !! p = None) by (cbn; by rewrite lookup_delete_eq).
  assert (Hc2 : current_process s2 = p) by done. clearbody s2. generalize (take (Z.to_nat SERPAEOS_MAX_PROCESSES) (processes s2)).
  induction l as [|q l IH]; cbn [switch_to_any]; [by right|].
  destruct (q =? 0); cbn [negb]; [exact IH|left].
  assert (E : process_switch q s2 = Oob); [|unfold mbind, cmd_bind; by rewrite E].
  unfold process_switch. rewrite bind_getS, Hc2. unfold process_save_video, load_proc, obj, mbind, cmd_bind.
  cbn [getS mbind outcome_bind]. unfold getS. cbn [mbind outcome_bind]. by rewrite Hno.
Qed.

End termination.

Lemma process_terminate_frees_null_witness :
  exists (s : kst kmem unit) p, p <> 0 /\ process_terminate ∅ 10 p s = Oob /\ process_free p 0 s = Oob.
Proof.
  destruct demo_system as (h & ar & p & q & c1 & c2 & tabs1 & tabs2 & m & Hp & Hq & Hap & Hr).
  destruct (po_live _ _ _ _ _ _ Hp) as [n Hn].
  destruct (spans_range _ _ _ _ (po_spans _ _ _ _ _ _ Hp) Hn) as (Hp0 & _).
  exists (demo_state h ar p q c1 c2), p. split; [lia|].
  apply (process_terminate_frees_null ∅ 10 _ p (new_process 1) c1 tabs1 m 0 Hp).
  - lia.
  - cbn; lia.
  - reflexivity.
  - intros k y Hk. lia.
Defined.

Lemma process_terminate_leaves_files_witness :
  exists s', process_terminate_files ∅ 10 two_screens = Ret (tt, s') /\
    file_descriptors (kfiles s') = file_descriptors (kfiles two_screens).
Proof.
  destruct (process_terminate_leaves_files ∅ two_screens 10 (set_screen 30 zero_process)) as (s' & E & _ & Hf & _).
  - vm_compute; reflexivity.
  - reflexivity.
  - exists s'. split; [exact E|exact Hf].
Defined.

Lemma unlink_current_uses_freed_witness :
  exists (s : kst kmem unit) p, current_process s = p /\ (process_unlink p s = Oob \/ process_unlink p s = Panic).
Proof.
  destruct demo_system as (h & ar & p & q & c1 & c2 & tabs1 & tabs2 & m & Hp & Hq & Hap & Hr).
  exists (demo_state h ar p q c1 c2), p. split; [reflexivity|].
  apply (unlink_current_uses_freed _ p (new_process 1) m (po_spans _ _ _ _ _ _ Hp) (po_live _ _ _ _ _ _ Hp) (po_proc _ _ _ _ _ _ Hp)).
  - reflexivity.
  - cbn; lia.
Defined.
