(* ===== verification/ProcessLoad.v ===== *)
(** * What a loaded process finds in its address space

    The pages [process_map_memory] sets up for a flat binary and for an ELF
    file, and the command line [process_inject_arguments] writes. *)
From S2P Require Import Prelude Config CMem CString Heap HeapSpec Kheap AllocSpans Paging PagingSpec AddressSpace.
From S2P Require Import PathParser Keyboard Disk Vfs Elf Task TaskSpec Terminal Screen Process ProcessSpec.
From S2P Require Import ProcessMemory.

(** ** A mapped region *)
Lemma map_region ar c tabs vp a z fl :
  dir_wf ar (directory_entry c) tabs -> a mod 4096 = 0 -> 0 < a -> 0 < z -> a + pages_for z * 4096 <= 2147483648 ->
  0 <= vp -> vp + pages_for z <= NPAGES -> 0 <= fl < 4096 ->
  exists ar', paging_map_to ar c (vp * 4096) a (paging_align_address (a + z)) fl = Ret (0, ar') /\
    dir_wf ar' (directory_entry c) tabs /\
    (forall v, 0 <= v < NPAGES ->
       pte ar' (directory_entry c) v =
         if decide (vp <= v < vp + pages_for z) then Ret (page_entry (a / 4096 + (v - vp)) fl)
         else pte ar (directory_entry c) v).
Proof.
  intros Hwf Ha Hp Hz Htop Hv Hvt Hfl. rewrite align_block by done. unfold NPAGES in *.
  pose proof (pages_for_pos z Hz).
  destruct (map_to_pages ar c tabs vp (a / 4096) (a / 4096 + pages_for z) fl Hwf) as (ar' & Hm & Hwf' & _ & Hpte);
    unfold NPAGES in *; try zlia.
  exists ar'. replace (a / 4096 * 4096) with a in Hm by zlia. split_and!; [done|done|].
  intros v Hv'. rewrite Hpte by done. replace (a / 4096 + pages_for z - a / 4096) with (pages_for z) by lia. done.
Qed.

(** The bytes behind a page-aligned virtual range, and the bits of its pages. *)
Definition backed (ar : gmap Z (list Z)) (dir virt a z fl : Z) : Prop :=
  forall i, 0 <= i < z ->
    paging_get_physical_address ar dir (virt + i) = Ret (a + i) /\
    paging_get ar dir ((virt + i) / 4096 * 4096) = Ret (page_entry ((a + i) / 4096) fl).

Lemma backed_region ar dir vp a z fl :
  a mod 4096 = 0 -> 0 < a -> 0 < z -> a + pages_for z * 4096 <= 2147483648 ->
  0 <= vp -> vp + pages_for z <= NPAGES -> 0 <= fl < 4096 ->
  (forall v, vp <= v < vp + pages_for z -> pte ar dir v = Ret (page_entry (a / 4096 + (v - vp)) fl)) ->
  backed ar dir (vp * 4096) a z fl.
Proof.
  intros Ha Hp Hz Htop Hv Hvt Hfl Hpte i Hi.
  assert (Hpg : vp <= vp + i / 4096 < vp + pages_for z) by (unfold pages_for; zlia).
  specialize (Hpte _ Hpg). replace ((vp * 4096 + i) / 4096) with (vp + i / 4096) by zlia.
  replace ((a + i) / 4096) with (a / 4096 + (vp + i / 4096 - vp)) by zlia. split; [|exact Hpte].
  pose proof (physical_address ar dir (vp + i / 4096) (i mod 4096) (a / 4096 + (vp + i / 4096 - vp)) fl) as Hph.
  unfold NPAGES in *. replace ((vp + i / 4096) * 4096 + i mod 4096) with (vp * 4096 + i) in Hph by zlia.
  rewrite Hph; try done; try zlia. f_equal. zlia.
Qed.

Section load.
Context {H : Type} `{AllocatorSpans H} {F : Type}.
Implicit Types s : kst H F.

(** A process with a task, whose address space is well formed. *)
Record mapped_proc s (p : Z) (x : process) (c : paging_4gb_chunk) (tabs : list Z) : Prop := {
  mp_proc : pobjs s !! p = Some x;
  mp_task : exists t, tasks (ksched s) !! p_task x = Some t /\ page_directory t = c;
  mp_dir : dir_wf (arrays_of s) (directory_entry c) tabs
}.

Lemma mapped_put s p x c tabs ar :
  mapped_proc s p x c tabs -> dir_wf ar (directory_entry c) tabs ->
  mapped_proc (put_state (heap_of s) ar s) p x c tabs.
Proof. intros [Hx Ht _] Hwf. by split. Qed.

(** The block at [a] is [z] bytes of whole pages below 2 GB. *)
Definition block_ok (a z : Z) : Prop := a mod 4096 = 0 /\ 0 < a /\ 0 < z /\ a + pages_for z * 4096 <= 2147483648.

Lemma map_binary_spec s p x c tabs :
  mapped_proc s p x c tabs -> block_ok (process_data x) (p_size x) ->
  exists ar, process_map_binary p s = Ret (0, put_state (heap_of s) ar s) /\ dir_wf ar (directory_entry c) tabs /\
    forall v, 0 <= v < NPAGES ->
      pte ar (directory_entry c) v =
        if decide (1024 <= v < 1024 + pages_for (p_size x)) then Ret (page_entry (process_data x / 4096 + (v - 1024)) 7)
        else pte (arrays_of s) (directory_entry c) v.
Proof.
  intros [Hx (t & Ht & <-) Hwf] (Ha & Hp & Hz & Htop). pose proof (pages_for_pos _ Hz).
  destruct (map_region (arrays_of s) (page_directory t) tabs 1024 (process_data x) (p_size x) 7 Hwf Ha Hp Hz Htop)
    as (ar & Hm & Hwf' & Hpte); [unfold NPAGES; lia..|].
  exists ar. split; [|done]. unfold process_map_binary. step (load_proc_spec s p x Hx).
  step (page_directory_of_spec s x t Ht).
  step (map_to_spec (put_state (heap_of s) (arrays_of s) s) _ _ _ _ _ _ _ Hm). done.
Qed.

Lemma map_stack_spec s p x c tabs :
  mapped_proc s p x c tabs -> block_ok (stack x) 16384 ->
  exists ar,
    (x ← load_proc p; c ← page_directory_of x;
     map_to c SERPAEOS_PROGRAM_VIRTUAL_STACK_ADDRESS_END (stack x)
       (paging_align_address (stack x + SERPAEOS_USER_PROGRAM_STACK_SIZE)) USER_PAGE;;
     mret 0) s = Ret (0, put_state (heap_of s) ar s) /\ dir_wf ar (directory_entry c) tabs /\
    forall v, 0 <= v < NPAGES ->
      pte ar (directory_entry c) v =
        if decide (1019 <= v < 1019 + 4) then Ret (page_entry (stack x / 4096 + (v - 1019)) 7)
        else pte (arrays_of s) (directory_entry c) v.
Proof.
  intros [Hx (t & Ht & <-) Hwf] (Ha & Hp & Hz & Htop).
  destruct (map_region (arrays_of s) (page_directory t) tabs 1019 (stack x) 16384 7 Hwf Ha Hp Hz Htop)
    as (ar & Hm & Hwf' & Hpte); [unfold NPAGES; vm_compute; done..|].
  exists ar. split; [|done]. step (load_proc_spec s p x Hx). step (page_directory_of_spec s x t Ht).
  step (map_to_spec (put_state (heap_of s) (arrays_of s) s) _ _ _ _ _ _ _ Hm). done.
Qed.

(** The address space of a flat binary.  After [process_map_memory] the
    program's bytes are at 0x400000 and the 16 KB stack ends at 0x3FF000, both
    present, writable and accessible from user mode, and no other page
    changes. *)
Theorem process_map_binary_correct s p x c tabs :
  mapped_proc s p x c tabs -> filetype x = PROCESS_FILETYPE_BINARY ->
  block_ok (process_data x) (p_size x) -> block_ok (stack x) SERPAEOS_USER_PROGRAM_STACK_SIZE ->
  exists s', process_map_memory p s = Ret (0, s') /\ mapped_proc s' p x c tabs /\
    backed (arrays_of s') (directory_entry c) SERPAEOS_PROGRAM_VIRTUAL_ADDRESS (process_data x) (p_size x) 7 /\
    backed (arrays_of s') (directory_entry c) (SERPAEOS_PROGRAM_VIRTUAL_STACK_ADDRESS_START - SERPAEOS_USER_PROGRAM_STACK_SIZE)
      (stack x) SERPAEOS_USER_PROGRAM_STACK_SIZE 7 /\
    (forall v, 0 <= v < NPAGES -> ~ (1024 <= v < 1024 + pages_for (p_size x)) -> ~ (1019 <= v < 1023) ->
       pte (arrays_of s') (directory_entry c) v = pte (arrays_of s) (directory_entry c) v).
Proof.
  intros Hmp Hft Hdata Hstack. pose proof (mp_proc _ _ _ _ _ Hmp) as Hx.
  destruct (map_binary_spec s p x c tabs Hmp Hdata) as (ar & E & Hwf & Hpte).
  pose proof (mapped_put s p x c tabs ar Hmp Hwf) as Hmp1.
  destruct (map_stack_spec _ p x c tabs Hmp1 Hstack) as (ar2 & E2 & Hwf2 & Hpte2).
  exists (put_state (heap_of s) ar2 s). destruct Hdata as (Ha & Hp & Hz & Htop). pose proof (pages_for_pos _ Hz).
  split; [|split; [by apply mapped_put|split; [|split]]].
  - unfold process_map_memory. step (load_proc_spec s p x Hx). rewrite Hft.
    change (PROCESS_FILETYPE_BINARY =? PROCESS_FILETYPE_ELF) with false.
    change (PROCESS_FILETYPE_BINARY =? PROCESS_FILETYPE_BINARY) with true. step E. exact E2.
  - apply (backed_region _ _ 1024); [done|done|done|done|lia|unfold NPAGES; lia|lia|].
    intros v Hv. change (arrays_of (put_state (heap_of s) ar2 s)) with ar2. rewrite Hpte2 by (unfold NPAGES; lia).
    rewrite decide_False by lia. change (arrays_of (put_state _ _ _)) with ar. rewrite Hpte by (unfold NPAGES; lia). by rewrite decide_True.
  - destruct Hstack as (Hsa & Hsp & Hsz & Hst).
    apply (backed_region _ _ 1019); [done|done|done|done|lia|vm_compute; done|lia|].
    intros v Hv. change (pages_for SERPAEOS_USER_PROGRAM_STACK_SIZE) with 4 in Hv.
    change (arrays_of (put_state (heap_of s) ar2 s)) with ar2. rewrite Hpte2 by (unfold NPAGES; lia). by rewrite decide_True.
  - intros v Hv Hv1 Hv2. change (arrays_of (put_state (heap_of s) ar2 s)) with ar2. rewrite Hpte2 by done.
    rewrite decide_False by lia. change (arrays_of (put_state _ _ _)) with ar. rewrite Hpte by done. by rewrite decide_False.
Qed.

(** ** ELF files *)

(** What is mapped for a program header. *)
Record seg := mk_seg { g_vaddr : Z; g_phys : Z; g_memsz : Z; g_flags : Z }.

Definition seg_at (f : elf_file) (ph : Z) : outcome seg :=
  phys ← elf_phdr_phys_address f ph;
  fl ← p_flags (image f) ph;
  vaddr ← p_vaddr (image f) ph;
  memsz ← p_memsz (image f) ph;
  Ret (mk_seg vaddr phys memsz (if c_true (Z.land fl PF_W) then 7 else 5)).

(** A segment in memory whose place in the file and virtual address agree
    modulo the page size. *)
Record seg_ok (g : seg) : Prop := {
  sg_off : g_vaddr g mod 4096 = g_phys g mod 4096;
  sg_size : 0 < g_memsz g;
  sg_phys : 0 <= g_phys g /\ g_phys g + g_memsz g <= 2147479552;
  sg_virt : 0 <= g_vaddr g /\ g_vaddr g + g_memsz g <= 4294967296;
  sg_flags : 0 <= g_flags g < 4096
}.

Definition g_pages (g : seg) : Z := (g_phys g + g_memsz g + 4095) / 4096 - g_phys g / 4096.
Definition covers (g : seg) (v : Z) : Prop := g_vaddr g / 4096 <= v < g_vaddr g / 4096 + g_pages g.
#[global] Instance covers_dec g v : Decision (covers g v).
Proof. unfold covers. apply _. Defined.

Definition seg_pte (g : seg) (v : Z) (old : outcome Z) : outcome Z :=
  if decide (covers g v) then Ret (page_entry (g_phys g / 4096 + (v - g_vaddr g / 4096)) (g_flags g)) else old.

Lemma lower_page a : 0 <= a < 4294967296 -> paging_align_to_lower_page a = a / 4096 * 4096.
Proof. intros Ha. unfold paging_align_to_lower_page, PAGING_PAGE_SIZE. rewrite u32_id by lia. zlia. Qed.

Lemma map_segment_spec s p x c tabs f ph g :
  mapped_proc s p x c tabs -> seg_at f ph = Ret g -> seg_ok g ->
  exists ar, map_elf_segment c f ph s = Ret (0, put_state (heap_of s) ar s) /\ dir_wf ar (directory_entry c) tabs /\
    forall v, 0 <= v < NPAGES -> pte ar (directory_entry c) v = seg_pte g v (pte (arrays_of s) (directory_entry c) v).
Proof.
  intros Hmp Hg [Hoff Hsz Hph Hvt Hfl]. unfold seg_at in Hg. unfold map_elf_segment.
  destruct (elf_phdr_phys_address f ph) as [phys| | |]; try done. cbn [mbind outcome_bind] in Hg.
  destruct (p_flags (image f) ph) as [fl| | |]; try done. cbn [mbind outcome_bind] in Hg.
  destruct (p_vaddr (image f) ph) as [va| | |]; try done. cbn [mbind outcome_bind] in Hg.
  destruct (p_memsz (image f) ph) as [sz| | |]; try done. cbn [mbind outcome_bind] in Hg.
  injection Hg as <-. cbn [g_vaddr g_phys g_memsz g_flags] in *. rewrite !(bind_liftO _ _ _ _ eq_refl).
  rewrite !lower_page by lia. rewrite (u32_id (phys + sz)), align_up by lia.
  destruct (map_to_pages (arrays_of s) c tabs (va / 4096) (phys / 4096) ((phys + sz + 4095) / 4096)
    (if c_true (Z.land fl PF_W) then 7 else 5) (mp_dir _ _ _ _ _ Hmp)) as (ar & Hm & Hwf & _ & Hpte);
    try (unfold NPAGES; zlia).
  exists ar. split; [|split; [done|]].
  - rewrite (map_to_spec s _ _ _ _ _ 0 ar); [done|]. rewrite <- Hm. by destruct (c_true _).
  - intros v Hv. rewrite Hpte by done. unfold seg_pte, covers, g_pages. cbn [g_vaddr g_phys g_memsz g_flags]. done.
Qed.

Lemma map_elf_loop_spec n s p x c tabs f i gs off :
  mapped_proc s p x c tabs -> put_state (heap_of s) (arrays_of s) s = s -> e_phoff (image f) = Ret off -> off <> 0 ->
  (forall k g, gs !! k = Some g -> seg_at f (off + 32 * (i + Z.of_nat k)) = Ret g /\ seg_ok g) -> length gs = n ->
  exists ar, map_elf_loop n c f i 0 s = Ret (0, put_state (heap_of s) ar s) /\ dir_wf ar (directory_entry c) tabs /\
    forall v, 0 <= v < NPAGES ->
      pte ar (directory_entry c) v = foldl (fun o g => seg_pte g v o) (pte (arrays_of s) (directory_entry c) v) gs.
Proof.
  intros Hmp Hs Hoff Hne. revert s i gs Hmp Hs. induction n as [|n IH]; intros s i gs Hmp Hs Hgs Hlen.
  { destruct gs; [|done]. exists (arrays_of s). split_and!; [by rewrite Hs|apply Hmp|done]. }
  destruct gs as [|g gs]; [done|]. destruct (Hgs 0%nat g eq_refl) as [Hg Hok]. rewrite Z.add_0_r in Hg.
  cbn [map_elf_loop]. unfold elf_program_header. rewrite Hoff. cbn [mbind outcome_bind].
  rewrite (proj2 (Z.eqb_neq off 0)) by done. rewrite (bind_liftO _ _ _ _ eq_refl).
  destruct (map_segment_spec s p x c tabs f _ g Hmp Hg Hok) as (ar & E & Hwf & Hpte). step E.
  change (ISERR 0) with false. cbn iota.
  destruct (IH (put_state (heap_of s) ar s) (i + 1) gs) as (ar2 & E2 & Hwf2 & Hpte2).
  - by apply mapped_put.
  - done.
  - intros k g' Hk. specialize (Hgs (S k) g' Hk). by replace (i + 1 + Z.of_nat k) with (i + Z.of_nat (S k)) by lia.
  - by injection Hlen.
  - exists ar2. split_and!; [exact E2|done|]. intros v Hv. rewrite Hpte2 by done. cbn [foldl]. by rewrite <- Hpte.
Qed.

(** With disjoint segments each page belongs to the one that covers it. *)
Lemma foldl_covered gs v o k g :
  gs !! k = Some g -> covers g v ->
  (forall j g', gs !! j = Some g' -> j <> k -> ~ covers g' v) ->
  foldl (fun o g => seg_pte g v o) o gs = Ret (page_entry (g_phys g / 4096 + (v - g_vaddr g / 4096)) (g_flags g)).
Proof.
  revert o k. induction gs as [|g0 gs IH]; intros o k Hk Hc Hno; [done|]. cbn [foldl].
  destruct k as [|k].
  - injection Hk as ->.
    assert (Hrest : forall o, foldl (fun o g => seg_pte g v o) o gs = o).
    { assert (Hn : forall j g', gs !! j = Some g' -> ~ covers g' v) by (intros j g' Hj; by apply (Hno (S j))).
      clear -Hn. induction gs as [|g' gs IH]; intros o; [done|]. cbn [foldl]. rewrite IH.
      - unfold seg_pte. rewrite decide_False; [done|]. by apply (Hn 0%nat).
      - intros j g2 Hj. by apply (Hn (S j)). }
    rewrite Hrest. unfold seg_pte. by rewrite decide_True.
  - apply (IH _ k); [done..|]. intros j g' Hj Hjk. apply (Hno (S j)); [done|lia].
Qed.

Lemma foldl_uncovered gs v o :
  (forall g, g ∈ gs -> ~ covers g v) -> foldl (fun o g => seg_pte g v o) o gs = o.
Proof.
  revert o. induction gs as [|g gs IH]; intros o Hno; [done|]. cbn [foldl]. rewrite IH by set_solver.
  unfold seg_pte. rewrite decide_False; [done|]. apply Hno. set_solver.
Qed.

(** C31: the address space of an ELF program.  When the program headers describe
    segments whose pages do not overlap each other or the stack, and whose
    virtual addresses agree with their places in memory modulo the page size,
    [process_map_memory] puts every byte of every segment at its virtual
    address, accessible from user mode, writable exactly when the header says
    so, and the stack below 0x3FF000; no other page changes. *)
Theorem process_map_elf_correct s p x c tabs f off gs :
  mapped_proc s p x c tabs -> filetype x = PROCESS_FILETYPE_ELF -> elfs s !! process_data x = Some f ->
  e_phoff (image f) = Ret off -> off <> 0 -> e_phnum (image f) = Ret (Z.of_nat (length gs)) ->
  (forall k g, gs !! k = Some g -> seg_at f (off + 32 * Z.of_nat k) = Ret g /\ seg_ok g) ->
  (forall j k g g' v, gs !! j = Some g -> gs !! k = Some g' -> j <> k -> covers g v -> ~ covers g' v) ->
  (forall g v, g ∈ gs -> covers g v -> ~ (1019 <= v < 1023)) ->
  block_ok (stack x) SERPAEOS_USER_PROGRAM_STACK_SIZE ->
  exists s', process_map_memory p s = Ret (0, s') /\ mapped_proc s' p x c tabs /\
    (forall g, g ∈ gs -> backed (arrays_of s') (directory_entry c) (g_vaddr g) (g_phys g) (g_memsz g) (g_flags g)) /\
    backed (arrays_of s') (directory_entry c) (SERPAEOS_PROGRAM_VIRTUAL_STACK_ADDRESS_START - SERPAEOS_USER_PROGRAM_STACK_SIZE)
      (stack x) SERPAEOS_USER_PROGRAM_STACK_SIZE 7 /\
    (forall v, 0 <= v < NPAGES -> (forall g, g ∈ gs -> ~ covers g v) -> ~ (1019 <= v < 1023) ->
       pte (arrays_of s') (directory_entry c) v = pte (arrays_of s) (directory_entry c) v).
Proof.
  intros Hmp Hft Hf Hoff Hne Hnum Hgs Hdis Hnst Hstack. pose proof Hmp as [Hx (t & Ht & Hc) _].
  set (s1 := put_state (heap_of s) (arrays_of s) s).
  assert (Hmp1 : mapped_proc s1 p x c tabs) by (apply mapped_put; [done|apply Hmp]).
  destruct (map_elf_loop_spec (length gs) s1 p x c tabs f 0 gs off Hmp1 eq_refl Hoff Hne Hgs eq_refl) as (ar & E & Hwf & Hpte).
  assert (Hmp2 : mapped_proc (put_state (heap_of s1) ar s1) p x c tabs) by by apply mapped_put.
  destruct (map_stack_spec _ p x c tabs Hmp2 Hstack) as (ar2 & E2 & Hwf2 & Hpte2).
  change (arrays_of (put_state (heap_of s1) ar s1)) with ar in Hpte2. change (arrays_of s1) with (arrays_of s) in Hpte.
  exists (put_state (heap_of s) ar2 s). split; [|split; [by apply mapped_put|split; [|split]]].
  - unfold process_map_memory. step (load_proc_spec s p x Hx). rewrite Hft, Z.eqb_refl.
    assert (Emap : process_map_elf p s = Ret (0, put_state (heap_of s1) ar s1)).
    { unfold process_map_elf. step (load_proc_spec s p x Hx). step (obj_spec elfs s _ _ Hf).
      step (page_directory_of_spec s x t Ht). rewrite Hc, (bind_liftO _ _ _ _ Hnum), Nat2Z.id. exact E. }
    step Emap. exact E2.
  - intros g [k Hk]%list_elem_of_lookup. destruct (Hgs k g Hk) as [_ [Hoffs Hsz Hph Hvt Hfl]]. intros i Hi.
    assert (Hcov : covers g ((g_vaddr g + i) / 4096)) by (unfold covers, g_pages; zlia).
    assert (Hent : pte ar2 (directory_entry c) ((g_vaddr g + i) / 4096) = Ret (page_entry ((g_phys g + i) / 4096) (g_flags g))).
    { rewrite Hpte2 by (unfold NPAGES; zlia). rewrite decide_False.
      2: { intros Hst. eapply (Hnst g); [by eapply list_elem_of_lookup_2|exact Hcov|lia]. }
      rewrite Hpte by (unfold NPAGES; zlia). rewrite (foldl_covered gs _ _ k g Hk Hcov).
      - do 2 f_equal. zlia.
      - intros j g' Hj Hjk. by apply (Hdis k j g g'). }
    split; [|exact Hent].
    pose proof (physical_address ar2 (directory_entry c) ((g_vaddr g + i) / 4096) ((g_vaddr g + i) mod 4096)
      ((g_phys g + i) / 4096) (g_flags g)) as Hpa. unfold NPAGES in Hpa.
    change (arrays_of (put_state (heap_of s) ar2 s)) with ar2.
    replace ((g_vaddr g + i) / 4096 * 4096 + (g_vaddr g + i) mod 4096) with (g_vaddr g + i) in Hpa by zlia.
    rewrite Hpa; try done; try zlia. f_equal. zlia.
  - destruct Hstack as (Hsa & Hsp & Hsz & Hst).
    apply (backed_region _ _ 1019); [done|done|done|done|lia|vm_compute; done|lia|].
    intros v Hv. change (pages_for SERPAEOS_USER_PROGRAM_STACK_SIZE) with 4 in Hv.
    change (arrays_of (put_state (heap_of s) ar2 s)) with ar2. rewrite Hpte2 by (unfold NPAGES; lia). by rewrite decide_True.
  - intros v Hv Hno Hst. change (arrays_of (put_state (heap_of s) ar2 s)) with ar2. rewrite Hpte2 by done.
    rewrite decide_False by lia. rewrite Hpte by done. by apply foldl_uncovered.
Qed.
End load.

(** A system with one process in a given state, and its files. *)
Lemma demo_mapped (x : process) (es : gmap Z elf_file) :
  p_task x = 1 -> exists (s : kst kmem unit) p c tabs, mapped_proc s p x c tabs /\ elfs s = es.
Proof.
  intros Htask. destruct demo_system as (h & ar & p & q & c1 & c2 & tabs1 & tabs2 & m & Hp & _).
  exists (set_elfs es (set_pobjs (<[p := x]> (pobjs (demo_state h ar p q c1 c2))) (demo_state h ar p q c1 c2))), p, c1, tabs1.
  split; [|done]. split.
  - cbn. by rewrite lookup_insert_eq.
  - rewrite Htask. exists (new_task c1 p). done.
  - apply Hp.
Qed.

Definition demo_binary : process :=
  set_data PROCESS_FILETYPE_BINARY 0x2000000 5000 (set_identity (replicate 108 0) 0x2100000 1 (set_task 1 zero_process)).

Lemma process_map_binary_correct_witness :
  exists (s s' : kst kmem unit) p c, process_map_memory p s = Ret (0, s') /\
    paging_get_physical_address (arrays_of s') (directory_entry c) (0x400000 + 4999) = Ret (0x2000000 + 4999).
Proof.
  destruct (demo_mapped demo_binary ∅ eq_refl) as (s & p & c & tabs & Hmp & _).
  destruct (process_map_binary_correct s p demo_binary c tabs Hmp) as (s' & E & _ & Hb & _).
  - reflexivity.
  - split_and!; vm_compute; congruence.
  - split_and!; vm_compute; congruence.
  - exists s, s', p, c. split; [exact E|]. apply (Hb 4999). vm_compute. split; congruence.
Defined.

(** An executable with a read-only segment of 0x800 bytes and a writable one of
    0x300 bytes. *)
Definition demo_image : list Z :=
  [0x7f; 69; 76; 70; 1; 1; 1; 0] ++ replicate 8 0 ++ [2; 0; 3; 0; 1; 0; 0; 0] ++ le_split 4 0x400000 ++
  le_split 4 52 ++ replicate 12 0 ++ [2; 0] ++ replicate 6 0 ++
  (le_split 4 1 ++ le_split 4 0x1000 ++ le_split 4 0x400000 ++ le_split 4 0 ++ le_split 4 0x800 ++ le_split 4 0x800 ++
     le_split 4 5 ++ le_split 4 4096) ++
  (le_split 4 1 ++ le_split 4 0x2000 ++ le_split 4 0x401000 ++ le_split 4 0 ++ le_split 4 0x200 ++ le_split 4 0x300 ++
     le_split 4 6 ++ le_split 4 4096).
Definition demo_file : elf_file := mk_elf 0x1000000 demo_image 0x400000 0x401200 0x1001000 0x1002200.
Definition demo_segs : list seg := [mk_seg 0x400000 0x1001000 0x800 5; mk_seg 0x401000 0x1002000 0x300 7].
Definition demo_elf : process :=
  set_data PROCESS_FILETYPE_ELF 0x2000000 0 (set_identity (replicate 108 0) 0x2100000 1 (set_task 1 zero_process)).

Lemma demo_segs_ok k g :
  demo_segs !! k = Some g -> seg_at demo_file (52 + 32 * Z.of_nat k) = Ret g /\ seg_ok g.
Proof.
  destruct k as [|[|k]]; intros [= <-].
  - split; [vm_compute; reflexivity|split; vm_compute; repeat split; congruence].
  - split; [vm_compute; reflexivity|split; vm_compute; repeat split; congruence].
Qed.

Lemma demo_segs_pages k g v : demo_segs !! k = Some g -> covers g v -> v = 1024 + Z.of_nat k.
Proof.
  destruct k as [|[|k]]; intros [= <-]; unfold covers, g_pages; cbn [g_vaddr g_phys g_memsz g_flags].
  - change (0x400000 / 4096) with 1024. change ((0x1001000 + 0x800 + 4095) / 4096 - 0x1001000 / 4096) with 1. lia.
  - change (0x401000 / 4096) with 1025. change ((0x1002000 + 0x300 + 4095) / 4096 - 0x1002000 / 4096) with 1. lia.
Qed.

Lemma process_map_elf_correct_witness :
  exists (s s' : kst kmem unit) p c, process_map_memory p s = Ret (0, s') /\
    backed (arrays_of s') (directory_entry c) 0x400000 0x1001000 0x800 5 /\
    backed (arrays_of s') (directory_entry c) 0x401000 0x1002000 0x300 7.
Proof.
  destruct (demo_mapped demo_elf {[0x2000000 := demo_file]} eq_refl) as (s & p & c & tabs & Hmp & Hes).
  destruct (process_map_elf_correct s p demo_elf c tabs demo_file 52 demo_segs Hmp) as (s' & E & _ & Hb & _).
  - reflexivity.
  - rewrite Hes. reflexivity.
  - vm_compute; reflexivity.
  - lia.
  - vm_compute; reflexivity.
  - exact demo_segs_ok.
  - intros j k g g' v Hj Hk Hjk Hc Hc'. apply (demo_segs_pages j g v Hj) in Hc. apply (demo_segs_pages k g' v Hk) in Hc'. lia.
  - intros g v [k Hk]%list_elem_of_lookup Hc. apply (demo_segs_pages k g v Hk) in Hc. lia.
  - split_and!; vm_compute; congruence.
  - exists s, s', p, c. split; [exact E|]. split.
    + apply (Hb (mk_seg 0x400000 0x1001000 0x800 5)). left.
    + apply (Hb (mk_seg 0x401000 0x1002000 0x300 7)). right. left.
Defined.
