(* ===== verification/ProcessArgs.v ===== *)
(** * The command line of a process

    [process_inject_arguments] copies a list of arguments into memory of the
    process: an array of pointers and a block per argument. *)
From S2P Require Import Prelude Config CMem CString Heap HeapSpec Kheap AllocSpans Paging PagingSpec AddressSpace.
From S2P Require Import PathParser Keyboard Disk Vfs Elf Task TaskSpec Terminal Screen Process ProcessSpec.
From S2P Require Import ProcessMemory.

(** A table of 32-bit words in memory. *)
Fixpoint words (ps : list Z) : list Z :=
  match ps with
  | [] => []
  | p :: ps => le_split 4 p ++ words ps
  end.

Lemma length_words ps : length (words ps) = (4 * length ps)%nat.
Proof.
  induction ps as [|p ps IH]; [done|]. cbn [words]. rewrite length_app, length_le_split, IH. cbn [length]. lia.
Qed.

Lemma words_app ps qs : words (ps ++ qs) = words ps ++ words qs.
Proof. induction ps as [|p ps IH]; [done|]. cbn [app words]. by rewrite IH, app_assoc. Qed.

Section arguments.
Context {H : Type} `{AllocatorSpans H} {F : Type}.
Implicit Types s : kst H F.

(** The first [k] entries of the table are in use, the others are not. *)
Record ready s p x c tabs m (k : nat) : Prop := {
  rd_ok : proc_ok s p x c tabs m;
  rd_used : forall i y, (i < k)%nat -> allocations x !! i = Some y -> fst y <> 0;
  rd_free : forall i, (k <= i < 1024)%nat -> allocations x !! i = Some (0, 0)
}.

Lemma ready_malloc s p x c tabs m k size :
  ready s p x c tabs m k -> (k < 1024)%nat -> 0 < size <= 4096 -> (0 < room (heap_of s))%nat ->
  exists ptr s' l, process_malloc p size s = Ret (ptr, s') /\ ptr <> 0 /\ m !! ptr = None /\
    ready s' p (set_allocations l x) c tabs (<[ptr := pages_for size]> m) (S k) /\
    blocks s' = <[ptr := replicate (Z.to_nat size) 0]> (blocks s) /\ S (room (heap_of s')) = room (heap_of s).
Proof.
  intros [Hpo Hused Hfree] Hk Hs Hr.
  destruct (kz_room size (heap_of s) (spans_ok _ _ (po_spans _ _ _ _ _ _ Hpo)) Hs Hr) as (ptr & h & Hkz & Hptr & Hr').
  destruct (process_malloc_spec s p x c tabs m size ptr h k 0 Hpo ltac:(lia) Hkz Hptr (Hfree k ltac:(lia)) (fun j y Hj => Hused j y Hj))
    as (ar & E & Hpo' & Hnew & _).
  exists ptr, (malloced s p x k ptr size h ar), (<[k := (ptr, size)]> (allocations x)).
  split_and!; [done|done|done| |done|done]. split; [done|..]; cbn [allocations set_allocations].
  - intros i y Hi Hy. apply list_lookup_insert_Some in Hy as [(_ & <- & _)|[Hne Hy]]; [done|]. apply (Hused i y); [lia|done].
  - intros i Hi. rewrite list_lookup_insert_ne by lia. apply Hfree. lia.
Qed.

Lemma ready_write s p x c tabs m k a b b' :
  ready s p x c tabs m k -> blocks s !! a = Some b -> length b' = length b ->
  ready (set_blocks (<[a := b']> (blocks s)) s) p x c tabs m k.
Proof.
  intros [[Hsp Hx Hl Ht Hwf Hlen Hal Hnd] Hused Hfree] Hb Hlb. split; [|done|done]. split; try done.
  intros i q z Hi Hq. destruct (Hal i q z Hi Hq) as (? & ? & ? & (bq & Hbq & Hlq) & ?). split_and!; try done; try lia.
  cbn. destruct (decide (q = a)) as [->|Hne].
  - exists b'. rewrite lookup_insert_eq. split; [done|]. congruence.
  - exists bq. by rewrite lookup_insert_ne.
Qed.

Lemma block_write_spec s a pre mid post bs :
  blocks s !! a = Some (pre ++ mid ++ post) -> length bs = length mid ->
  block_write a (Z.of_nat (length pre)) bs s = Ret (tt, set_blocks (<[a := pre ++ bs ++ post]> (blocks s)) s).
Proof.
  intros Hb Hl. unfold block_write. rewrite bind_getS, Hb.
  rewrite (proj2 (Z.leb_le 0 _)), (proj2 (Z.leb_le _ _)) by (rewrite ?length_app; lia). cbn [andb].
  rewrite Nat2Z.id, take_app_length, Hl, <- drop_drop, drop_app_length, drop_app_length. done.
Qed.

(** An argument as a C string in a block of its own. *)
Definition argument_at s (ptr : Z) (str : list Z) : Prop :=
  exists b, blocks s !! ptr = Some b /\ length b = 512%nat /\ cstr b str.

Lemma inject_loop_spec args strs s p x c tabs m k argv ps :
  ready s p x c tabs m k -> (k + length args <= 1024)%nat -> (length args <= room (heap_of s))%nat ->
  blocks s !! argv = Some (words ps ++ replicate (4 * length args) 0) -> is_Some (m !! argv) ->
  Forall2 cstr args strs -> Forall (fun str => (length str <= 511)%nat) strs ->
  exists s' l m' ps', inject_loop p argv args (Z.of_nat (length ps)) s = Ret (0, s') /\
    ready s' p (set_allocations l x) c tabs m' (k + length args) /\ length ps' = length args /\
    blocks s' !! argv = Some (words (ps ++ ps')) /\ Forall2 (argument_at s') ps' strs /\
    (forall q, is_Some (m !! q) -> q <> argv -> blocks s' !! q = blocks s !! q).
Proof.
  intros Hrd Hk Hr Hargv Hlive Hstr Hlen. revert s x m k ps Hrd Hk Hr Hargv Hlive.
  induction Hstr as [|a str args strs Ha Hstr IH]; intros s x m k ps Hrd Hk Hr Hargv Hlive.
  { exists s, (allocations x), m, []. cbn [inject_loop length]. rewrite Nat.add_0_r, app_nil_r.
    replace (set_allocations (allocations x) x) with x by by destruct x.
    split_and!; [done|done|done| |constructor|done]. by rewrite Hargv, app_nil_r. }
  inversion Hlen as [|? ? Hl1 Hlen']; subst. cbn [length] in *.
  destruct (ready_malloc s p x c tabs m k 512 Hrd ltac:(lia) ltac:(lia) ltac:(lia))
    as (ptr & s1 & l1 & E1 & Hptr & Hnew & Hrd1 & Hb1 & Hr1).
  assert (Hne : ptr <> argv) by (intros ->; destruct Hlive; congruence).
  destruct (strncpy_spec (replicate 512 0) a str 512 Ha) as (b & Eb & Hbl & Hbs); [rewrite length_replicate; lia|].
  rewrite length_replicate in Hbl. rewrite take_ge in Hbs by (change (Z.to_nat (512 - 1)) with 511%nat; lia).
  cbn [inject_loop]. unfold ARGUMENT_SIZE. step E1. rewrite (proj2 (Z.eqb_neq ptr 0)) by done.
  assert (Hp1 : blocks s1 !! ptr = Some (replicate 512 0)) by by rewrite Hb1, lookup_insert_eq.
  step (obj_spec blocks s1 ptr _ Hp1).
  rewrite (bind_liftO _ _ _ _ Eb).
  pose proof (block_write_spec s1 ptr [] (replicate 512 0) [] b) as E2. cbn [app length] in E2. rewrite app_nil_r in E2.
  specialize (E2 Hp1 ltac:(rewrite length_replicate; lia)). rewrite app_nil_r in E2. change (Z.of_nat 0) with 0 in E2. step E2.
  set (s2 := set_blocks (<[ptr := b]> (blocks s1)) s1).
  assert (Hrd2 : ready s2 p (set_allocations l1 x) c tabs (<[ptr := pages_for 512]> m) (S k)).
  { eapply ready_write; [done|exact Hp1|rewrite length_replicate; lia]. }
  assert (Hargv2 : blocks s2 !! argv = Some (words ps ++ replicate 4 0 ++ replicate (4 * length args) 0)).
  { cbn. rewrite lookup_insert_ne, Hb1, lookup_insert_ne, Hargv by done.
    replace (4 * S (length args))%nat with (4 + 4 * length args)%nat by lia. by rewrite replicate_add. }
  pose proof (block_write_spec s2 argv (words ps) (replicate 4 0) _ (le_split 4 ptr) Hargv2) as E3.
  rewrite length_words in E3. replace (Z.of_nat (4 * length ps)) with (4 * Z.of_nat (length ps)) in E3 by lia.
  rewrite (bind_Ret _ _ _ _ _ (E3 ltac:(by rewrite length_le_split, length_replicate))). clear E3.
  set (s3 := set_blocks _ s2).
  assert (Hrd3 : ready s3 p (set_allocations l1 x) c tabs (<[ptr := pages_for 512]> m) (S k)).
  { eapply ready_write; [done|exact Hargv2|]. by rewrite !length_app, length_le_split, length_replicate. }
  destruct (IH Hlen' s3 (set_allocations l1 x) _ (S k) (ps ++ [ptr]) Hrd3) as (s4 & l4 & m4 & ps4 & E4 & Hrd4 & Hl4 & Hb4 & Hst4 & Hfr4).
  - lia.
  - change (heap_of s3) with (heap_of s1). lia.
  - cbn. rewrite lookup_insert_eq. f_equal. rewrite words_app, <- app_assoc. f_equal. 
  - rewrite lookup_insert_ne by done. done.
  - rewrite length_app in E4. cbn [length] in E4. replace (Z.of_nat (length ps) + 1) with (Z.of_nat (length ps + 1)) by lia.
    exists s4, l4, m4, (ptr :: ps4). replace (k + S (length args))%nat with (S k + length args)%nat by lia.
    split_and!; [done|exact Hrd4|cbn; lia|by rewrite Hb4, <- app_assoc| |].
    + constructor; [|exact Hst4]. exists b. rewrite (Hfr4 ptr); [|by rewrite lookup_insert_eq|done].
      cbn. rewrite lookup_insert_ne, lookup_insert_eq by done. done.
    + intros q [n Hq] Hqa. assert (q <> ptr) by congruence. rewrite Hfr4; [|by rewrite lookup_insert_ne; eauto|done].
      cbn. rewrite !lookup_insert_ne, Hb1, lookup_insert_ne by done. done.
Qed.

(** The command line, with room for it. *)
Lemma inject_arguments_spec s p x c tabs m k args strs :
  ready s p x c tabs m k -> args <> [] -> (k + S (length args) <= 1024)%nat -> (S (length args) <= room (heap_of s))%nat ->
  Forall2 cstr args strs -> Forall (fun str => (length str <= 511)%nat) strs ->
  exists s' x' m' ps, process_inject_arguments p args s = Ret (0, s') /\ proc_ok s' p x' c tabs m' /\
    process_get_arguments p s' = Ret ((Z.of_nat (length args), argv x'), s') /\ argv x' <> 0 /\
    blocks s' !! argv x' = Some (words ps) /\ length ps = length args /\ Forall2 (argument_at s') ps strs.
Proof.
  intros Hrd Hne Hk Hr Hstr Hlen.
  assert (Hn : (0 < length args)%nat) by (destruct args; [done|cbn; lia]).
  destruct (ready_malloc s p x c tabs m k (4 * Z.of_nat (length args)) Hrd ltac:(lia) ltac:(lia) ltac:(lia))
    as (ptr & s1 & l1 & E1 & Hptr & Hnew & Hrd1 & Hb1 & Hr1).
  destruct (inject_loop_spec args strs s1 p (set_allocations l1 x) c tabs _ (S k) ptr [] Hrd1) as
    (s2 & l2 & m2 & ps & E2 & Hrd2 & Hl2 & Hb2 & Hst2 & _); try done; try lia.
  { rewrite Hb1, lookup_insert_eq. cbn [words app fmap list_fmap mjoin list_join]. do 2 f_equal. lia. }
  { rewrite lookup_insert_eq. by eexists. }
  change (set_allocations l2 (set_allocations l1 x)) with (set_allocations l2 x) in *.
  set (x3 := set_args (Z.of_nat (length args)) ptr (set_allocations l2 x)).
  destruct Hrd2 as [[Hsp Hx Hlv Ht Hwf Hal1 Hal Hnd] _ _]. cbn [length] in E2.
  exists (set_pobjs (<[p := x3]> (pobjs s2)) s2), x3, m2, ps. split_and!; try done.
  - unfold process_inject_arguments. change (process_count_command_arguments args) with (Z.of_nat (length args)).
    assert (Hz : (Z.of_nat (length args) =? 0) = false) by (apply Z.eqb_neq; lia). cbn zeta. rewrite Hz.
    step E1. rewrite (proj2 (Z.eqb_neq ptr 0)) by done. step E2. change (0 <? 0) with false. cbn iota.
    step (update_proc_spec s2 p _ (set_args (Z.of_nat (length args)) ptr) Hx). done.
  - split; try done. cbn. by rewrite lookup_insert_eq.
  - unfold process_get_arguments. rewrite (bind_Ret _ _ _ x3 (set_pobjs (<[p := x3]> (pobjs s2)) s2)); [done|].
    apply load_proc_spec. cbn. by rewrite lookup_insert_eq.
Qed.
(** The command line.  With room for them in the heap and in the
    allocation table, [process_inject_arguments] gives the process [argc] and an
    array of that many pointers, each to a block of the process that holds one
    argument, in order; the allocation table stays consistent.  An empty list
    is refused. *)
Theorem process_inject_arguments_correct s p x c tabs m k args strs :
  ready s p x c tabs m k -> args <> [] -> (k + S (length args) <= 1024)%nat -> (S (length args) <= room (heap_of s))%nat ->
  Forall2 cstr args strs -> Forall (fun str => (length str <= 511)%nat) strs ->
  process_inject_arguments p [] s = Ret (- EIO, s) /\
  exists s' x' m' ps, process_inject_arguments p args s = Ret (0, s') /\ proc_ok s' p x' c tabs m' /\
    process_get_arguments p s' = Ret ((Z.of_nat (length args), argv x'), s') /\ argv x' <> 0 /\
    blocks s' !! argv x' = Some (words ps) /\ length ps = length args /\ Forall2 (argument_at s') ps strs.
Proof. intros. split; [done|]. by eapply inject_arguments_spec. Qed.
End arguments.

Lemma process_inject_arguments_correct_witness :
  exists (s s' : kst kmem unit) p n, process_inject_arguments p [[108; 115; 0]; [47; 0]] s = Ret (0, s') /\
    process_get_arguments p s' = Ret ((2, n), s') /\ n <> 0.
Proof.
  destruct demo_system as (h & ar & p & q & c1 & c2 & tabs1 & tabs2 & m & Hp & Hq & Hap & Hr).
  destruct (process_inject_arguments_correct (demo_state h ar p q c1 c2) p (new_process 1) c1 tabs1 m 0
    [[108; 115; 0]; [47; 0]] [[108; 115]; [47]]) as (_ & s' & x' & m' & ps & E & _ & Hg & Hn & _).
  - split; [exact Hp|intros i y Hi; lia|intros i Hi; change (allocations (new_process 1)) with (replicate 1024 (0, 0)); apply lookup_replicate_2; lia].
  - discriminate.
  - cbn; lia.
  - change (heap_of (demo_state h ar p q c1 c2)) with h. cbn [length]. lia.
  - repeat constructor; try (exists []; reflexivity); intros Hin; repeat (apply elem_of_cons in Hin as [Hin|Hin]; [lia|]); by apply elem_of_nil in Hin.
  - repeat constructor.
  - exists (demo_state h ar p q c1 c2), s', p, (argv x'). split; [exact E|]. split; [exact Hg|exact Hn].
Defined.
