(* ===== verification/Exceptions.v ===== *)
(** * Faults of user programs (src/src/idt/idt.c)

    What the kernel does when a program divides by zero or leaves its memory: a
    fault in the main task of a process ends the process, a fault in another of
    its tasks ends that task, and the scheduler picks a task. *)
From S2P Require Import Prelude Config Kheap AllocSpans Paging PagingSpec AddressSpace Disk Vfs Elf Task TaskSpec Process.
From S2P Require Import Terminal Screen PathParser ScreenSpec ProcessSpec ProcessMemory ProcessLife.

#[local] Arguments Nat.modulo : simpl never.

(** An interrupt that nobody handles: the controller is told it ended. *)
Definition no_interrupt_handler {D : Type} `{Ports D} : cmd D unit := outb 0x20 0x20.

Section handler.
Context {H : Type} `{Allocator H} {F : Type} (drivers : gmap Z (filesystem_ops (fsst H F))).

(** The registers are those of the task that runs next. *)
Definition idt_handle_exception_generic (fuel : nat) : cmd (kst H F) resumption :=
  c ← on_sched task_current;
  t ← on_sched (load_task c);
  (if (main_task t : bool) then process_terminate drivers fuel (task_process t);; mret tt
   else on_sched (task_free c);; mret tt);;
  on_sched (task_next fuel).
End handler.

Section faults.
Context {H : Type} `{AllocatorOk H} {F : Type} (drivers : gmap Z (filesystem_ops (fsst H F))).
Implicit Types s : kst H F.

Lemma sched_runs {A} (c : cmd (tstate H) A) s a t :
  c (with_views s) = Ret (a, t) -> on_sched c s = Ret (a, set_sched t s).
Proof. intros E. unfold on_sched. by rewrite E. Qed.

(** The processes that the scheduler sees are computed from the objects. *)
Definition seen s (t : tstate H) : tstate H :=
  mk_tstate (tpaging t) (tasks t) (omap (view_of (elfs s)) (pobjs s)) (current_task t) (task_head t) (task_tail t).

Lemma seen_same s t : procs t = procs (with_views s) -> seen s t = t.
Proof. intros E. destruct t. unfold seen. cbn in *. by rewrite E. Qed.

Lemma views_put s t : with_views (set_sched t s) = seen s t.
Proof. done. Qed.

(** Where the task after the removed one is, in the order that is left. *)
Lemma after_removed (s s' : tstate H) l i x t :
  run_order s l -> l !! i = Some x -> tasks s !! x = Some t -> run_order s' (delete i l) -> (2 <= length l)%nat ->
  delete i l !! (i mod (length l - 1))%nat = Some (if next t =? 0 then task_head s' else next t).
Proof.
  intros Ho Hi Ht Ho' Hl. destruct (ro_task _ _ Ho i x Hi) as (t' & p & Ht' & Hn & _).
  assert (t' = t) as -> by congruence. apply lookup_lt_Some in Hi as Hlt. rewrite Hn.
  destruct (decide (S i < length l)%nat) as [Hs|Hs].
  - destruct (lookup_lt_is_Some_2 l (S i) Hs) as [y Hy]. rewrite Hy. change (default 0 (Some y)) with y.
    rewrite (proj2 (Z.eqb_neq y 0)) by exact (ro_nonzero s l (S i) y Ho Hy).
    rewrite Nat.mod_small, list_lookup_delete_ge by lia. done.
  - rewrite (lookup_ge_None_2 l (S i)) by lia. change (default 0 None =? 0) with true. cbn iota.
    assert (Hz : (i mod (length l - 1) = 0)%nat) by (replace i with (length l - 1)%nat by lia; apply Nat.Div0.mod_same).
    rewrite Hz, (ro_head _ _ Ho').
    destruct (lookup_lt_is_Some_2 (delete i l) 0) as [h Hh]; [rewrite length_delete by done; lia|]. by rewrite Hh.
Qed.

Lemma all_runnable (s s' : tstate H) l i x t :
  run_order s' (delete i l) -> (forall y, y ∈ l -> runnable s y) -> run_order s l -> l !! i = Some x ->
  tasks s' = delete x (unlinked (tasks s) t) -> procs s' = procs s -> forall y, y ∈ delete i l -> runnable s' y.
Proof.
  intros Ho' Hr Ho Hi Ht Hp y Hy. assert (Hyl : y ∈ l) by (eapply elem_of_sublist; [exact Hy|apply sublist_delete]).
  assert (Hne : y <> x).
  { intros ->. apply list_elem_of_lookup_1 in Hy as [k Hk]. pose proof (ro_nodup _ _ Ho) as Hnd.
    destruct (decide (k < i)%nat).
    - rewrite list_lookup_delete_lt in Hk by done. pose proof (NoDup_lookup _ _ _ _ Hnd Hk Hi). lia.
    - rewrite list_lookup_delete_ge in Hk by lia. pose proof (NoDup_lookup _ _ _ _ Hnd Hk Hi). lia. }
  specialize (Hr y Hyl). apply list_elem_of_lookup_1 in Hyl as [k Hk].
  destruct (ro_task _ _ Ho k y Hk) as (ty & py & Hty & _ & _).
  destruct (unlinked_frame s t x y ty Hty Hne) as (ty' & Hty' & _ & _ & Epr).
  unfold runnable, hosting in *. rewrite Ht, Hty', Hp, Epr. by rewrite Hty in Hr.
Qed.

(** C16: a fault in a thread.  Take a run order of at least two tasks, none of
    a process that hosts another one, whose links back are those of the order
    (this is so until the first removal: [task_free_stale_prev] shows that
    removing a task leaves the link back of the next one wrong).  When a task
    that is not the main one of its process faults, that task is freed and
    nothing else of the machine is touched: every other task keeps its place in
    the run order, its saved registers, its address space and its process, and no
    process, file, screen or page table changes.  The task that runs next is
    entered through [task_return] with its saved registers, all but the flags,
    which are the kernel's; it is not the successor of the one that faulted but
    the one after it, since both the removal and the scheduler move on by one. *)
Theorem thread_fault_contained s l i x t fuel :
  run_order (with_views s) l -> back_linked (with_views s) l -> store_ok (with_views s) l ->
  l !! i = Some x -> current_task (ksched s) = x -> tasks (ksched s) !! x = Some t -> main_task t = false ->
  (2 <= length l <= fuel)%nat -> (forall y, y ∈ l -> runnable (with_views s) y) ->
  exists y ty sc, delete i l !! (S i mod (length l - 1))%nat = Some y /\ tasks (ksched s) !! y = Some ty /\
    idt_handle_exception_generic drivers fuel s = Ret (task_return (regs ty), set_sched sc s) /\
    run_order (with_views (set_sched sc s)) (delete i l) /\ current_task sc = y /\
    current_directory (tpaging sc) = directory_entry (page_directory ty) /\
    parrays (tpaging sc) = parrays (tpaging (ksched s)) /\
    live (tpaging sc) = live (tpaging (ksched s)) ∖ {[x]} /\
    forall z tz, tasks (ksched s) !! z = Some tz -> z <> x ->
      exists tz', tasks sc !! z = Some tz' /\ regs tz' = regs tz /\ page_directory tz' = page_directory tz /\
        task_process tz' = task_process tz.
Proof.
  intros Ho Hb [Hok Hlv Htl] Hi Hcur Ht Hm [Hl Hf] Hr.
  destruct (task_free_thread (with_views s) l i x t Ho Hb Hok Hlv Hi Ht Hm) as
    (t1 & Hfr & Ho1 & Hts & Hps & _ & Hlive & Har & Hc1).
  change (current_task (with_views s)) with (current_task (ksched s)) in Hc1. rewrite Hcur, Z.eqb_refl in Hc1.
  pose proof (after_removed (with_views s) t1 l i x t Ho Hi Ht Ho1 Hl) as Hat. rewrite <- Hc1 in Hat.
  set (l' := delete i l) in *. assert (Hl' : length l' = (length l - 1)%nat).
  { unfold l'. rewrite length_delete; [lia|done]. }
  pose proof (all_runnable (with_views s) t1 l i x t Ho1 Hr Ho Hi Hts Hps) as Hr1. fold l' in Hr1.
  set (k := (i mod (length l - 1))%nat) in *. apply lookup_lt_Some in Hat as Hk.
  assert (Hak : after l' k = (S i mod (length l - 1))%nat).
  { rewrite after_mod, Hl' by done. unfold k. change (S (i mod (length l - 1))) with (1 + i mod (length l - 1))%nat.
    rewrite Nat.Div0.add_mod_idemp_r. done. }
  assert (Hy : exists y, l' !! after l' k = Some y).
  { apply lookup_lt_is_Some_2. rewrite after_mod by done. apply Nat.mod_upper_bound. lia. }
  destruct Hy as [y Hy]. destruct (ro_task _ _ Ho1 _ y Hy) as (ty' & py & Hty' & _ & _).
  assert (Hnext : task_next fuel t1 = Ret (task_return (regs ty'), switched t1 y ty')).
  { rewrite (task_next_spec t1 l' fuel k Ho1 Hat) by lia. rewrite (drop_S l' y) by done.
    rewrite filter_cons, decide_True by (apply Hr1; by eapply list_elem_of_lookup_2). cbn [head]. by rewrite Hty'. }
  assert (Hold : exists ty, tasks (ksched s) !! y = Some ty /\ regs ty' = regs ty /\ page_directory ty' = page_directory ty).
  { assert (Hyx : y <> x) by (intros ->; by rewrite Hts, lookup_delete_eq in Hty').
    assert (Hyl : y ∈ l) by (eapply elem_of_sublist; [by eapply list_elem_of_lookup_2|apply sublist_delete]).
    apply list_elem_of_lookup_1 in Hyl as [j Hj]. destruct (ro_task _ _ Ho j y Hj) as (ty & _ & Hty & _).
    destruct (unlinked_frame (with_views s) t x y ty Hty Hyx) as (ty2 & Hty2 & Hreg & Hpd & _).
    rewrite <- Hts, Hty' in Hty2. injection Hty2 as <-. by exists ty. }
  destruct Hold as (ty & Hty & Hreg & Hpd). exists y, ty, (switched t1 y ty'). rewrite <- Hak.
  split_and!; try done.
  - unfold idt_handle_exception_generic. step (sched_runs task_current s x (with_views s) ltac:(by rewrite <- Hcur)).
    set (s0 := set_sched (with_views s) s).
    step (sched_runs (load_task x) s0 t (with_views s) (load_task_spec (with_views s) x t Ht)). rewrite Hm.
    rewrite (bind_Ret _ _ _ tt (set_sched t1 s)).
    + rewrite Hreg in Hnext. rewrite (sched_runs _ _ (task_return (regs ty)) (switched t1 y ty')); [done|].
      rewrite views_put, seen_same; [exact Hnext|by rewrite Hps].
    + by step (sched_runs (task_free x) (set_sched (with_views s) s0) 0 t1 Hfr).
  - rewrite views_put, seen_same; [by apply switched_order|by cbn; rewrite Hps].
  - cbn. by rewrite Hpd.
  - intros z tz Hz Hne. cbn. rewrite Hts. by apply (unlinked_frame (with_views s)).
Qed.
End faults.

(** The witness: two threads of one process. *)
Definition faulting : kst kmem unit :=
  mk_kst demo_threads (mk_vfs (mk_pp demo_kmem2 ∅ ∅ ∅, tt) [] [] ∅ [])
    {[7 := set_data PROCESS_FILETYPE_BINARY 0 0 (set_task 0x1000000 zero_process)]} ∅ ∅ ∅ (replicate 50 0) 7
    (term_of (replicate 2000 0x0F20, 0%nat) 0) zero_screen false.

Lemma faulting_views : with_views faulting = demo_threads.
Proof.
  assert (E : omap (view_of (elfs faulting)) (pobjs faulting) = procs demo_threads) by (vm_compute; reflexivity).
  unfold with_views. by rewrite E.
Qed.

Lemma thread_fault_contained_witness :
  exists y ty sc, delete 0%nat demo_order !! (1 mod 1)%nat = Some y /\
    idt_handle_exception_generic ∅ 2 faulting = Ret (task_return (regs ty), set_sched sc faulting) /\ current_task sc = y.
Proof.
  destruct (thread_fault_contained ∅ faulting demo_order 0 0x1000000 (thread 0x1001000 0) 2)
    as (y & ty & sc & Hy & _ & E & _ & Hc & _).
  - rewrite faulting_views. exact demo_threads_order.
  - rewrite faulting_views. exact demo_threads_back.
  - rewrite faulting_views. exact demo_threads_store.
  - reflexivity.
  - reflexivity.
  - reflexivity.
  - reflexivity.
  - simpl; lia.
  - rewrite faulting_views. exact demo_threads_runnable.
  - exists y, ty, sc. split; [exact Hy|]. split; [exact E|exact Hc].
Defined.
