(* ===== verification/UserMem.v ===== *)
(** * The memory of a program, seen by the kernel (src/src/task/task.c)

    System calls read and write the memory of a program, either through its own
    address space, which the kernel loads for the purpose, or at the physical
    address that its page tables give.  The bytes are those of the blocks of
    processes and of the images of ELF files; any other address is [Oob], and so
    is an address whose page is not present. *)
From S2P Require Import Prelude Config CMem CString Kheap Paging Disk Vfs Elf Task Terminal Screen Process.

Section user_memory.
Context {H : Type} `{Allocator H} {F : Type}.

(** The address space of the kernel, which kernel.c sets up once. *)
Context (kernel_chunk : paging_4gb_chunk).

Definition kernel_page : cmd (kst H F) unit := on_sched (on_paging (paging_switch kernel_chunk)).

(** ** Physical memory *)
Definition in_region (pa : Z) (r : Z * list Z) : bool :=
  (fst r <=? pa) && (pa <? fst r + Z.of_nat (length (snd r))).

(** The block with a byte; the address of the ELF file whose image has it. *)
Definition block_at (s : kst H F) (pa : Z) : option (Z * list Z) :=
  head (filter (fun r => in_region pa r = true) (map_to_list (blocks s))).
Definition elf_at (s : kst H F) (pa : Z) : option (Z * elf_file) :=
  head (filter (fun r => in_region pa (elf_memory (snd r), image (snd r)) = true) (map_to_list (elfs s))).

(** The bytes that can be reached from an address. *)
Definition phys_bytes (s : kst H F) (pa : Z) : outcome (list Z) :=
  match block_at s pa with
  | Some (b, l) => Ret (drop (Z.to_nat (pa - b)) l)
  | None =>
      match elf_at s pa with
      | Some (_, f) => Ret (drop (Z.to_nat (pa - elf_memory f)) (image f))
      | None => Oob
      end
  end.

(** A write of several bytes from an address on. *)
Definition patch (l : list Z) (off : Z) (bs : list Z) : outcome (list Z) :=
  if (0 <=? off) && (off + Z.of_nat (length bs) <=? Z.of_nat (length l))
  then Ret (take (Z.to_nat off) l ++ bs ++ drop (Z.to_nat off + length bs) l) else Oob.

Definition phys_write (pa : Z) (bs : list Z) : cmd (kst H F) unit :=
  s ← getS;
  match block_at s pa with
  | Some (b, l) =>
      l ← liftO (patch l (pa - b) bs);
      modifyS (set_blocks (<[b := l]> (blocks s)))
  | None =>
      match elf_at s pa with
      | Some (e, f) =>
          m ← liftO (patch (image f) (pa - elf_memory f) bs);
          modifyS (set_elfs (<[e := mk_elf (elf_memory f) m (virtual_base_address f) (virtual_end_address f)
                                      (physical_base_address f) (physical_end_address f)]> (elfs s)))
      | None => liftO Oob
      end
  end.

(** ** Virtual memory *)

(** The page tables that are loaded, walked by the processor. *)
Definition translate (va : Z) : cmd (kst H F) Z :=
  s ← getS;
  let p := tpaging (ksched s) in
  entry ← liftO (paging_get (parrays p) (current_directory p) (paging_align_to_lower_page va));
  if Z.land entry PAGING_IS_PRESENT =? 0 then liftO Oob
  else liftO (paging_get_physical_address (parrays p) (current_directory p) va).

Definition user_load (va : Z) : cmd (kst H F) Z :=
  pa ← translate va;
  s ← getS;
  l ← liftO (phys_bytes s pa);
  liftO (load l 0).

Definition user_store (va v : Z) : cmd (kst H F) unit :=
  pa ← translate va;
  phys_write pa [v].

(** [n] bytes from an address on, each through its own page. *)
Fixpoint user_loads (n : nat) (va : Z) : cmd (kst H F) (list Z) :=
  match n with
  | O => mret []
  | S n =>
      c ← user_load va;
      l ← user_loads n (u32 (va + 1));
      mret (c :: l)
  end.
Fixpoint user_stores (va : Z) (bs : list Z) : cmd (kst H F) unit :=
  match bs with
  | [] => mret tt
  | b :: bs => user_store va b;; user_stores (u32 (va + 1)) bs
  end.

(** ** The accessors of task.c *)
Definition task_get_stack_item (task index : Z) : cmd (kst H F) Z :=
  t ← on_sched (load_task task);
  let sp_ptr := esp (regs t) in
  on_sched (task_page_task task);;
  bs ← user_loads 4 (u32 (sp_ptr + 4 * index));
  kernel_page;;
  mret (le_combine bs).

(** The value is stored at the pointer, which moves afterwards. *)
Definition task_push_stack_item (task value : Z) : cmd (kst H F) unit :=
  t ← on_sched (load_task task);
  on_sched (task_page_task task);;
  user_stores (esp (regs t)) (le_split 4 value);;
  kernel_page;;
  let r := regs t in
  on_sched (update_task task (set_regs (mk_regs (edi r) (esi r) (ebp r) (ebx r) (edx r) (ecx r) (eax r) (ip r) (cs r)
                                          (eflags r) (u32 (esp r - 4)) (ss r)))).

(** [strncpy] from one virtual address to another. *)
Fixpoint user_strncpy_loop (n : nat) (dest src : Z) : cmd (kst H F) Z :=
  match n with
  | O => mret dest
  | S n =>
      c ← user_load src;
      if c =? 0 then mret dest
      else
        user_store dest c;;
        user_strncpy_loop n (u32 (dest + 1)) (u32 (src + 1))
  end.
Definition user_strncpy (dest src max : Z) : cmd (kst H F) unit :=
  d ← user_strncpy_loop (Z.to_nat (max - 1)) dest src;
  user_store d 0.

(** The result, and the buffer at [phys], which holds [buf] before. *)
Definition copy_string_from_task (task virt : Z) (buf : list Z) (max : Z) : cmd (kst H F) (Z * list Z) :=
  if PAGING_PAGE_SIZE <=? max then mret (- EINVARG, buf)
  else
    tmp ← kzalloc_block max;
    if tmp =? 0 then mret (- ENOMEM, buf)
    else
      t ← on_sched (load_task task);
      let c := page_directory t in
      s ← getS;
      old_entry ← liftO (paging_get (parrays (tpaging (ksched s))) (directory_entry c) tmp);
      on_sched (on_paging (pa (fun ar => paging_map ar c tmp tmp USER_PAGE)));;
      on_sched (on_paging (paging_switch c));;
      user_strncpy tmp virt max;;
      kernel_page;;
      res ← on_sched (on_paging (pa (fun ar => paging_set ar (directory_entry c) tmp old_entry)));
      if res <? 0 then kfree_at tmp;; mret (- EIO, buf)
      else
        l ← obj blocks tmp;
        buf ← liftO (strncpy buf l max);
        kfree_at tmp;;
        mret (res, buf).
End user_memory.
