(* ===== verification/UserMemSpec.v ===== *)
(** * What the kernel promises about the memory of programs

    Reading through a program's page tables: which byte of which block or ELF
    image is behind a virtual address, the arguments of a system call on the
    stack, and the copy of a string from a program into the kernel. *)
From S2P Require Import Prelude Config CMem CString Heap HeapSpec Kheap AllocSpans Paging PagingSpec AddressSpace.
From S2P Require Import Keyboard Disk Vfs Elf Task TaskSpec Terminal Screen Process ProcessSpec ProcessMemory UserMem.

#[local] Arguments Nat.mul : simpl never.

Section spec.
Context {H : Type} `{AllocatorSpans H} {F : Type} (kernel_chunk : paging_4gb_chunk).
Implicit Types s : kst H F.

(** ** States of a system call

    The heap [h], the page tables [ar] and the loaded directory [d] are all
    that changes while the kernel only looks around. *)
Definition paged (d : Z) (ar : gmap Z (list Z)) (h : H) s : kst H F :=
  set_sched (mk_tstate (mk_pstate h ar d) (tasks (ksched s)) (omap (view_of (elfs s)) (pobjs s))
               (current_task (ksched s)) (task_head (ksched s)) (task_tail (ksched s))) s.

Lemma paged_id d ar h s :
  exists t, paged d ar h s = set_sched t s /\ tasks t = tasks (ksched s) /\ current_task t = current_task (ksched s).
Proof. eexists. split; [done|]. done. Qed.

Lemma kernel_page_spec s :
  kernel_page kernel_chunk s = Ret (tt, paged (directory_entry kernel_chunk) (arrays_of s) (heap_of s) s).
Proof. done. Qed.

Lemma on_sched_paged {A} (c : cmd (tstate H) A) d ar h s a :
  c (ksched (paged d ar h s)) = Ret (a, ksched (paged d ar h s)) ->
  on_sched c (paged d ar h s) = Ret (a, paged d ar h s).
Proof. intros E. unfold on_sched. change (with_views (paged d ar h s)) with (ksched (paged d ar h s)). by rewrite E. Qed.

Lemma task_current_paged d ar h s :
  on_sched task_current (paged d ar h s) = Ret (current_task (ksched s), paged d ar h s).
Proof. by apply on_sched_paged. Qed.

Lemma load_task_paged d ar h s p t :
  tasks (ksched s) !! p = Some t -> on_sched (load_task p) (paged d ar h s) = Ret (t, paged d ar h s).
Proof. intros Ht. apply on_sched_paged. by apply load_task_spec. Qed.

Lemma paging_switch_paged d ar h s c :
  on_sched (on_paging (paging_switch c)) (paged d ar h s) = Ret (tt, paged (directory_entry c) ar h s).
Proof. done. Qed.

Lemma task_page_task_paged d ar h s p t :
  tasks (ksched s) !! p = Some t ->
  on_sched (task_page_task p) (paged d ar h s) = Ret (0, paged (directory_entry (page_directory t)) ar h s).
Proof.
  intros Ht. unfold on_sched, task_page_task. change (with_views (paged d ar h s)) with (ksched (paged d ar h s)).
  step (load_task_spec (ksched (paged d ar h s)) p t Ht). done.
Qed.

(** A change of the page tables alone. *)
Lemma pa_paged {A} (f : gmap Z (list Z) -> outcome (A * gmap Z (list Z))) d ar h s a ar' :
  f ar = Ret (a, ar') -> on_sched (on_paging (pa f)) (paged d ar h s) = Ret (a, paged d ar' h s).
Proof. intros E. unfold on_sched, on_paging, pa. cbn. by rewrite E. Qed.

(** ** Bytes *)

(** Every block and every ELF image lies in a live block of the heap, and so
    does every other object. *)
Record backed s (m : gmap Z Z) : Prop := {
  bk_spans : spans (heap_of s) m;
  bk_blocks : forall b l, blocks s !! b = Some l -> exists n, m !! b = Some n /\ Z.of_nat (length l) <= n * 4096;
  bk_elfs : forall e f, elfs s !! e = Some f -> blocks s !! elf_memory f = None /\
    exists n, m !! elf_memory f = Some n /\ Z.of_nat (length (image f)) <= n * 4096;
  bk_images : forall e f e' f', elfs s !! e = Some f -> elfs s !! e' = Some f' -> elf_memory f = elf_memory f' ->
    image f = image f';
  bk_objects : forall a, m !! a = None -> pobjs s !! a = None /\ screens s !! a = None /\ elfs s !! a = None
}.

(** The byte [c] is at a physical address, in a block or in an ELF image. *)
Definition byte_at s (pa c : Z) : Prop :=
  exists b l, (blocks s !! b = Some l \/ exists e f, elfs s !! e = Some f /\ b = elf_memory f /\ l = image f) /\
    b <= pa /\ l !! Z.to_nat (pa - b) = Some c.

Lemma in_region_true pa b (l : list Z) :
  in_region pa (b, l) = true <-> b <= pa < b + Z.of_nat (length l).
Proof. unfold in_region. cbn [fst snd]. rewrite andb_true_iff, Z.leb_le, Z.ltb_lt. done. Qed.

(** Two regions that share a byte are the same block. *)
Lemma region_eq (h : H) m b n (l : list Z) b' n' (l' : list Z) pa :
  spans h m -> m !! b = Some n -> Z.of_nat (length l) <= n * 4096 ->
  m !! b' = Some n' -> Z.of_nat (length l') <= n' * 4096 ->
  b <= pa < b + Z.of_nat (length l) -> b' <= pa < b' + Z.of_nat (length l') -> b = b'.
Proof.
  intros Hsp Hb Hl Hb' Hl' Hpa Hpa'. destruct (decide (b = b')) as [|Hne]; [done|].
  pose proof (spans_disjoint h m b b' n n' Hsp Hb Hb' Hne). lia.
Qed.

(** The head of a filtered list whose elements that pass all look the same. *)
Lemma head_filter {A B} (P : A -> Prop) `{!forall x, Decision (P x)} (g : A -> B) (l : list A) x :
  x ∈ l -> P x -> (forall y, y ∈ l -> P y -> g y = g x) -> exists y, hd_error (filter P l) = Some y /\ g y = g x.
Proof.
  intros Hx HP Hu. induction l as [|z l IH]; [by apply not_elem_of_nil in Hx|].
  destruct (decide (P z)) as [Hz|Hz].
  - rewrite filter_cons_True by done. exists z. split; [done|]. apply Hu; [left|done].
  - rewrite filter_cons_False by done. apply elem_of_cons in Hx as [->|Hx]; [done|].
    apply IH; [done|]. intros y Hy. apply Hu. by right.
Qed.

Lemma head_filter_none {A} (P : A -> Prop) `{!forall x, Decision (P x)} (l : list A) :
  (forall y, y ∈ l -> ~ P y) -> hd_error (filter P l) = None.
Proof.
  intros Hu. induction l as [|z l IH]; [done|]. rewrite filter_cons_False by (apply Hu; left).
  apply IH. intros y Hy. apply Hu. by right.
Qed.

Lemma block_at_spec s m b l pa :
  backed s m -> blocks s !! b = Some l -> b <= pa < b + Z.of_nat (length l) -> block_at s pa = Some (b, l).
Proof.
  intros Hbk Hb Hpa. unfold block_at.
  destruct (head_filter (fun r => in_region pa r = true) (fun r => r) (map_to_list (blocks s)) (b, l)) as (y & -> & Hy).
  - by apply elem_of_map_to_list.
  - by apply in_region_true.
  - intros [b' l'] Hl'%elem_of_map_to_list Hr%in_region_true. cbn.
    destruct (bk_blocks s m Hbk b l Hb) as (n & Hn & Hnl), (bk_blocks s m Hbk b' l' Hl') as (n' & Hn' & Hnl').
    pose proof (region_eq _ m b n l b' n' l' pa (bk_spans s m Hbk) Hn Hnl Hn' Hnl' Hpa Hr) as ->. congruence.
  - by cbn in Hy; subst y.
Qed.

Lemma block_at_none s pa :
  (forall b l, blocks s !! b = Some l -> ~ b <= pa < b + Z.of_nat (length l)) -> block_at s pa = None.
Proof.
  intros Hno. unfold block_at. apply head_filter_none. intros [b l] Hb%elem_of_map_to_list Hr%in_region_true. by eapply Hno.
Qed.

(** The bytes at an address start with the one that is there. *)
Lemma phys_bytes_spec s m pa c :
  backed s m -> byte_at s pa c -> exists l, phys_bytes s pa = Ret l /\ l !! 0%nat = Some c.
Proof.
  intros Hbk (b & l & [Hb|(e & f & He & -> & ->)] & Hle & Hc); pose proof (lookup_lt_Some _ _ _ Hc) as Hlt; unfold phys_bytes.
  - rewrite (block_at_spec s m b l pa Hbk Hb) by lia. eexists. split; [done|]. by rewrite lookup_drop, Nat.add_0_r.
  - destruct (bk_elfs s m Hbk e f He) as (Hno & n & Hn & Hnl). rewrite block_at_none.
    2: { intros b l Hb Hpa. destruct (bk_blocks s m Hbk b l Hb) as (n' & Hn' & Hnl').
         pose proof (region_eq _ m b n' l (elf_memory f) n (image f) pa (bk_spans s m Hbk) Hn' Hnl' Hn Hnl Hpa ltac:(lia)) as ->.
         congruence. }
    unfold elf_at.
    destruct (head_filter (fun r : Z * elf_file => in_region pa (elf_memory (snd r), image (snd r)) = true)
                (fun r => (elf_memory (snd r), image (snd r))) (map_to_list (elfs s)) (e, f)) as ([e' f'] & -> & Hy).
    + by apply elem_of_map_to_list.
    + cbn [snd]. apply in_region_true. lia.
    + intros [e' f'] Hl'%elem_of_map_to_list Hr%in_region_true. cbn [snd].
      destruct (bk_elfs s m Hbk e' f' Hl') as (_ & n' & Hn' & Hnl').
      pose proof (region_eq _ m _ n _ _ n' _ pa (bk_spans s m Hbk) Hn Hnl Hn' Hnl' ltac:(lia) Hr) as Heq.
      by rewrite Heq, (bk_images s m Hbk e f e' f' He Hl' Heq).
    + cbn [snd] in Hy. injection Hy as -> ->. eexists. split; [done|]. by rewrite lookup_drop, Nat.add_0_r.
Qed.

(** ** Virtual addresses *)

(** [va] is present in the directory [dir] and leads to [pa]. *)
Definition maps (ar : gmap Z (list Z)) (dir va pa : Z) : Prop :=
  exists fl, 0 <= va < 4294967296 /\ 0 <= pa < 4294967296 /\ pa mod 4096 = va mod 4096 /\
    0 <= fl < 4096 /\ fl mod 2 = 1 /\ pte ar dir (va / 4096) = Ret (page_entry (pa / 4096) fl).

Lemma translate_spec d ar h s va pa :
  maps ar d va pa -> translate va (paged d ar h s) = Ret (pa, paged d ar h s).
Proof.
  intros (fl & Hva & Hpa & Hmod & Hfl & Hodd & Hpte). unfold translate. rewrite bind_getS.
  cbn [ksched paged set_sched tpaging parrays current_directory].
  assert (Hlow : paging_align_to_lower_page va = va / 4096 * 4096).
  { unfold paging_align_to_lower_page, PAGING_PAGE_SIZE. rewrite u32_id by lia. zlia. }
  rewrite Hlow. unfold pte in Hpte. rewrite (bind_liftO _ _ _ _ Hpte).
  assert (Hp : (Z.land (page_entry (pa / 4096) fl) PAGING_IS_PRESENT =? 0) = false).
  { apply Z.eqb_neq. change PAGING_IS_PRESENT with (Z.ones 1). rewrite Z.land_ones by lia.
    unfold page_entry. change (2 ^ 1) with 2. zlia. }
  rewrite Hp. pose proof (physical_address ar d (va / 4096) (va mod 4096) (pa / 4096) fl) as Hph.
  replace (va / 4096 * 4096 + va mod 4096) with va in Hph by zlia.
  replace (pa / 4096 * 4096 + va mod 4096) with pa in Hph by zlia.
  unfold liftO. rewrite Hph; [done|unfold NPAGES; zlia..|done].
Qed.

(** The byte [c] is behind the virtual address. *)
Definition virt_byte s (ar : gmap Z (list Z)) (dir va c : Z) : Prop := exists pa, maps ar dir va pa /\ byte_at s pa c.

Lemma user_load_spec d ar h s m va c :
  backed s m -> virt_byte s ar d va c -> user_load va (paged d ar h s) = Ret (c, paged d ar h s).
Proof.
  intros Hbk (pa & Hm & Hc). unfold user_load. step (translate_spec d ar h s va pa Hm). rewrite bind_getS.
  destruct (phys_bytes_spec s m pa c Hbk Hc) as (l & Hl & Hl0).
  change (phys_bytes (paged d ar h s) pa) with (phys_bytes s pa). rewrite (bind_liftO _ _ _ _ Hl).
  unfold liftO. by rewrite (load_Some l 0 c).
Qed.

(** The bytes [l] start at a virtual address. *)
Definition virt_bytes s (ar : gmap Z (list Z)) (dir va : Z) (l : list Z) : Prop :=
  va + Z.of_nat (length l) < 4294967296 /\ forall i c, l !! i = Some c -> virt_byte s ar dir (va + Z.of_nat i) c.

Lemma virt_bytes_cons s ar dir va c l :
  virt_bytes s ar dir va (c :: l) -> virt_byte s ar dir va c /\ virt_bytes s ar dir (va + 1) l.
Proof.
  intros [Hlt Hb]. cbn [length] in Hlt. split.
  - specialize (Hb 0%nat c eq_refl). by rewrite Z.add_0_r in Hb.
  - split; [lia|]. intros i b Hi. specialize (Hb (S i) b Hi). by replace (va + 1 + Z.of_nat i) with (va + Z.of_nat (S i)) by lia.
Qed.

Lemma virt_byte_pos s ar dir va c : virt_byte s ar dir va c -> 0 <= va < 4294967296.
Proof. by intros (pa & (fl & Hva & _) & _). Qed.

Lemma user_loads_spec d ar h s m l va :
  backed s m -> virt_bytes s ar d va l -> user_loads (length l) va (paged d ar h s) = Ret (l, paged d ar h s).
Proof.
  intros Hbk. revert va. induction l as [|c l IH]; intros va Hv; [done|]. cbn [length user_loads].
  pose proof (proj1 Hv) as Hlt. cbn [length] in Hlt.
  apply virt_bytes_cons in Hv as [Hc Hl]. step (user_load_spec d ar h s m va c Hbk Hc).
  pose proof (virt_byte_pos s ar d va c Hc). rewrite u32_id by lia. by step (IH (va + 1) Hl).
Qed.

(** An argument of a system call: the word is on the stack of the task. *)
Lemma task_get_stack_item_spec d ar h s m c t i v :
  backed s m -> tasks (ksched s) !! c = Some t -> 0 <= v < 4294967296 ->
  virt_bytes s ar (directory_entry (page_directory t)) (u32 (esp (regs t) + 4 * i)) (le_split 4 v) ->
  task_get_stack_item kernel_chunk c i (paged d ar h s) = Ret (v, paged (directory_entry kernel_chunk) ar h s).
Proof.
  intros Hbk Ht Hv Hb. unfold task_get_stack_item. step (load_task_paged d ar h s c t Ht).
  step (task_page_task_paged d ar h s c t Ht).
  pose proof (user_loads_spec (directory_entry (page_directory t)) ar h s m (le_split 4 v) _ Hbk Hb) as E.
  rewrite length_le_split in E. step E. step (kernel_page_spec (paged (directory_entry (page_directory t)) ar h s)).
  by rewrite le_combine_split.
Qed.

(** ** Copying a string into the kernel *)

(** Restoring every page restores the tables. *)
Lemma arrays_ext ar ar' dir tabs :
  dir_wf ar dir tabs -> dir_wf ar' dir tabs -> (forall q, q ∉ tabs -> ar' !! q = ar !! q) ->
  (forall vp, 0 <= vp < NPAGES -> pte ar' dir vp = pte ar dir vp) -> ar' = ar.
Proof.
  intros Hwf Hwf' Hout Hpte. apply map_eq. intros q. destruct (decide (q ∈ tabs)) as [Hin|Hin]; [|by apply Hout].
  apply list_elem_of_lookup_1 in Hin as [i Hi].
  destruct (wf_tables _ _ _ Hwf i q Hi) as (_ & l & Hl & Hll & _), (wf_tables _ _ _ Hwf' i q Hi) as (_ & l' & Hl' & Hll' & _).
  rewrite Hl, Hl'. f_equal. apply list_eq. intros j. destruct (decide (j < 1024)%nat) as [Hj|Hj].
  2: by rewrite !lookup_ge_None_2 by lia.
  pose proof (lookup_lt_Some _ _ _ Hi) as Hi'. rewrite (wf_len _ _ _ Hwf) in Hi'.
  assert (Hvp : 0 <= Z.of_nat i * 1024 + Z.of_nat j < NPAGES) by (unfold NPAGES; lia).
  destruct (pte_lookup ar dir tabs Hwf _ Hvp) as (t & k & e & Ht & Hk & He & _ & Hp).
  destruct (pte_lookup ar' dir tabs Hwf' _ Hvp) as (t' & k' & e' & Ht' & Hk' & He' & _ & Hp').
  replace (Z.to_nat ((Z.of_nat i * 1024 + Z.of_nat j) / 1024)) with i in * by zlia.
  replace (Z.to_nat ((Z.of_nat i * 1024 + Z.of_nat j) mod 1024)) with j in * by zlia.
  specialize (Hpte _ Hvp). rewrite Hp, Hp' in Hpte. congruence.
Qed.

Lemma load_task_any s p t :
  tasks (ksched s) !! p = Some t ->
  on_sched (load_task p) s = Ret (t, paged (current_directory (tpaging (ksched s))) (arrays_of s) (heap_of s) s).
Proof.
  intros Ht. unfold on_sched. rewrite (load_task_spec (with_views s) p t Ht). unfold paged, with_views, arrays_of, heap_of.
  by destruct s as [[[? ? ?] ? ? ? ? ?] ? ? ? ? ? ? ? ? ? ?].
Qed.

Lemma task_current_any s :
  on_sched task_current s =
    Ret (current_task (ksched s), paged (current_directory (tpaging (ksched s))) (arrays_of s) (heap_of s) s).
Proof. unfold on_sched, paged, with_views, arrays_of, heap_of. by destruct s as [[[? ? ?] ? ? ? ? ?] ? ? ? ? ? ? ? ? ? ?]. Qed.

(** The state with a new block. *)
Definition tmped s (h : H) (tmp : Z) (l : list Z) : kst H F := set_blocks (<[tmp := l]> (blocks s)) (put_heap h s).

Section tmp.
Context (s : kst H F) (m : gmap Z Z) (h : H) (tmp n : Z).
Context (Hbk : backed s m) (Hnew : m !! tmp = None) (Hsp : spans h (<[tmp := n]> m)).

Lemma tmped_backed l : Z.of_nat (length l) <= n * 4096 -> backed (tmped s h tmp l) (<[tmp := n]> m).
Proof using Hbk Hnew Hsp.
  destruct Hbk as [_ Hb He Hi Ho]. intros Hl. split; [done|..].
  - intros b k Hk. cbn in Hk. apply lookup_insert_Some in Hk as [[<- <-]|[Hne Hk]].
    + exists n. by rewrite lookup_insert_eq.
    + destruct (Hb b k Hk) as (n' & Hn' & ?). exists n'. by rewrite lookup_insert_ne.
  - intros e f Hf. destruct (He e f Hf) as (Hno & n' & Hn' & ?). assert (tmp <> elf_memory f) by congruence.
    cbn. rewrite !lookup_insert_ne by done. split; [done|]. by exists n'.
  - exact Hi.
  - intros a Ha. apply lookup_insert_None in Ha as [Ha _]. by apply Ho.
Qed.

Lemma tmped_byte l pa c : byte_at s pa c -> byte_at (tmped s h tmp l) pa c.
Proof using Hbk Hnew.
  intros (b & k & [Hb|He] & Hrest); exists b, k; split; [|done| |done]; [left|by right].
  destruct (bk_blocks s m Hbk b k Hb) as (n' & Hn' & _). cbn. rewrite lookup_insert_ne; [done|congruence].
Qed.

Lemma tmped_virt l ar dir va c : virt_byte s ar dir va c -> virt_byte (tmped s h tmp l) ar dir va c.
Proof using Hbk Hnew. intros (pa & Hm & Hb). exists pa. split; [done|]. by apply tmped_byte. Qed.

Lemma user_store_tmp d ar h0 l i v va :
  maps ar d va (tmp + Z.of_nat i) -> (i < length l)%nat -> Z.of_nat (length l) <= n * 4096 ->
  user_store va v (paged d ar h0 (tmped s h tmp l)) = Ret (tt, paged d ar h0 (tmped s h tmp (<[i := v]> l))).
Proof using Hbk Hnew Hsp.
  intros Hm Hi Hl. unfold user_store. step (translate_spec d ar h0 (tmped s h tmp l) va _ Hm).
  unfold phys_write. rewrite bind_getS.
  change (block_at (paged d ar h0 (tmped s h tmp l)) (tmp + Z.of_nat i)) with (block_at (tmped s h tmp l) (tmp + Z.of_nat i)).
  rewrite (block_at_spec (tmped s h tmp l) _ tmp l _ (tmped_backed l Hl)); [|cbn; by rewrite lookup_insert_eq|lia].
  replace (tmp + Z.of_nat i - tmp) with (Z.of_nat i) by lia.
  assert (Hp : patch l (Z.of_nat i) [v] = Ret (<[i := v]> l)).
  { unfold patch. rewrite (proj2 (Z.leb_le 0 _)), (proj2 (Z.leb_le _ _)) by (cbn [length]; lia). cbn [andb length].
    rewrite Nat2Z.id, insert_take_drop by done. cbn [app]. by rewrite Nat.add_1_r. }
  rewrite (bind_liftO _ _ _ _ Hp). unfold modifyS. do 2 f_equal. unfold tmped, paged, set_blocks, set_sched, put_heap. cbn.
  by rewrite insert_insert_eq.
Qed.

(** The loop, with [pre] written and [rest] to be written. *)
Lemma user_strncpy_loop_spec d ar h0 cs k va pre rest :
  Forall (fun c => c <> 0) cs -> (length cs <= k < length rest)%nat -> Z.of_nat (length (pre ++ rest)) <= n * 4096 ->
  virt_bytes s ar d va cs -> length cs = k \/ virt_byte s ar d (va + Z.of_nat (length cs)) 0 ->
  (forall j, (j < length (pre ++ rest))%nat -> maps ar d (tmp + Z.of_nat j) (tmp + Z.of_nat j)) ->
  user_strncpy_loop k (tmp + Z.of_nat (length pre)) va (paged d ar h0 (tmped s h tmp (pre ++ rest))) =
    Ret (tmp + Z.of_nat (length pre + length cs), paged d ar h0 (tmped s h tmp (pre ++ cs ++ drop (length cs) rest))).
Proof using Hbk Hnew Hsp.
  revert cs va pre rest. induction k as [|k IH]; intros cs va pre rest Hnz Hlen Hl Hcs Hend Hmap.
  { destruct cs; [|cbn in Hlen; lia]. cbn [length]. by rewrite Nat.add_0_r. }
  cbn [user_strncpy_loop]. destruct cs as [|c cs].
  - destruct Hend as [|Hend]; [done|]. cbn [length] in Hend. rewrite Z.add_0_r in Hend.
    step (user_load_spec d ar h0 (tmped s h tmp (pre ++ rest)) _ va 0 (tmped_backed _ Hl) (tmped_virt _ _ _ _ _ Hend)).
    cbn [Z.eqb length]. by rewrite Nat.add_0_r.
  - apply Forall_cons in Hnz as [Hc Hnz]. pose proof (proj1 Hcs) as Hlt. cbn [length] in Hlt, Hlen, Hend.
    apply virt_bytes_cons in Hcs as [Hvc Hcs]. pose proof (virt_byte_pos _ _ _ _ _ Hvc).
    step (user_load_spec d ar h0 (tmped s h tmp (pre ++ rest)) _ va c (tmped_backed _ Hl) (tmped_virt _ _ _ _ _ Hvc)).
    rewrite (proj2 (Z.eqb_neq c 0)) by done. destruct rest as [|r rest]; [cbn in Hlen; lia|].
    rewrite length_app in Hl, Hmap. cbn [length] in Hl, Hmap, Hlen.
    step (user_store_tmp d ar h0 (pre ++ r :: rest) (length pre) c _ (Hmap (length pre) ltac:(lia)) ltac:(rewrite length_app; cbn; lia)
            ltac:(rewrite length_app; cbn; lia)).
    pose proof (Hmap (length pre) ltac:(lia)) as (fl & Hr & _).
    pose proof (Hmap (S (length pre)) ltac:(lia)) as (fl' & Hr' & _).
    rewrite !u32_id by lia. rewrite insert_app_r_alt, Nat.sub_diag by lia. cbn [insert list_insert].
    replace (pre ++ c :: rest) with ((pre ++ [c]) ++ rest) by (by rewrite <- app_assoc).
    replace (tmp + Z.of_nat (length pre) + 1) with (tmp + Z.of_nat (length (pre ++ [c]))) by (rewrite length_app; cbn; lia).
    rewrite (IH cs); rewrite ?length_app; cbn [length]; try done; try lia.
    + cbn [drop]. rewrite <- !app_assoc. cbn [app]. do 2 f_equal. lia.
    + destruct Hend as [Hend|Hend]; [left; lia|right].
      by replace (va + 1 + Z.of_nat (length cs)) with (va + Z.of_nat (S (length cs))) by lia.
    + intros j Hj. apply Hmap. lia.
Qed.

Lemma user_strncpy_spec d ar h0 cs max va l :
  Forall (fun c => c <> 0) cs -> Z.of_nat (length cs) < max -> length l = Z.to_nat max -> max <= n * 4096 ->
  virt_bytes s ar d va cs -> Z.of_nat (length cs) = max - 1 \/ virt_byte s ar d (va + Z.of_nat (length cs)) 0 ->
  (forall j, (j < length l)%nat -> maps ar d (tmp + Z.of_nat j) (tmp + Z.of_nat j)) ->
  user_strncpy tmp va max (paged d ar h0 (tmped s h tmp l)) =
    Ret (tt, paged d ar h0 (tmped s h tmp (cs ++ 0 :: drop (S (length cs)) l))).
Proof using Hbk Hnew Hsp.
  intros Hnz Hlen Hl Hmax Hcs Hend Hmap. unfold user_strncpy.
  assert (E : user_strncpy_loop (Z.to_nat (max - 1)) tmp va (paged d ar h0 (tmped s h tmp l)) =
    Ret (tmp + Z.of_nat (length cs), paged d ar h0 (tmped s h tmp (cs ++ drop (length cs) l)))).
  { pose proof (user_strncpy_loop_spec d ar h0 cs (Z.to_nat (max - 1)) va [] l Hnz) as E. cbn [length app Nat.add] in E.
    rewrite Z.add_0_r in E. apply E; [lia|lia|done| |done]. destruct Hend; [left; lia|by right]. }
  step E. assert (Hlk : (length cs < length l)%nat) by lia.
  rewrite (user_store_tmp d ar h0 _ (length cs) 0 _ (Hmap (length cs) Hlk)) by (rewrite length_app, length_drop; lia).
  do 4 f_equal. rewrite insert_app_r_alt, Nat.sub_diag by lia.
  rewrite (drop_S l (l !!! length cs) (length cs)); [done|]. apply list_lookup_lookup_total_lt. lia.
Qed.
End tmp.

(** The string [cs] at a virtual address, as far as a buffer of [max] bytes
    can take it. *)
Definition user_string s (ar : gmap Z (list Z)) (dir va max : Z) (cs : list Z) : Prop :=
  Forall (fun c => c <> 0) cs /\ Z.of_nat (length cs) < max /\ virt_bytes s ar dir va cs /\
  (Z.of_nat (length cs) = max - 1 \/ virt_byte s ar dir (va + Z.of_nat (length cs)) 0).

(** Mapping another page does not change the string. *)
Lemma virt_byte_frame s ar ar' dir tp va c :
  (forall vp, 0 <= vp < NPAGES -> vp <> tp -> pte ar' dir vp = pte ar dir vp) ->
  va / 4096 <> tp -> virt_byte s ar dir va c -> virt_byte s ar' dir va c.
Proof.
  intros Hf Hne (pa & (fl & Hva & Hpa & Hmod & Hfl & Hodd & Hpte) & Hb). exists pa. split; [|done].
  exists fl. split_and!; try done; try lia. rewrite Hf; [done|unfold NPAGES; zlia|done].
Qed.

Lemma user_string_frame s ar ar' dir tp va max cs :
  (forall vp, 0 <= vp < NPAGES -> vp <> tp -> pte ar' dir vp = pte ar dir vp) ->
  (forall i, 0 <= i <= Z.of_nat (length cs) -> (va + i) / 4096 <> tp) ->
  user_string s ar dir va max cs -> user_string s ar' dir va max cs.
Proof.
  intros Hf Hne (Hnz & Hl & [Hlt Hb] & Hend). split_and!; [done|done| |].
  - split; [done|]. intros i c Hi. eapply virt_byte_frame; [exact Hf| |by apply Hb].
    apply Hne. pose proof (lookup_lt_Some _ _ _ Hi). lia.
  - destruct Hend as [Hend|Hend]; [by left|right]. eapply virt_byte_frame; [exact Hf| |exact Hend]. apply Hne. lia.
Qed.

(** The kernel's copy into its own buffer. *)
Lemma strncpy_cstr buf cs zs max :
  Forall (fun c => c <> 0) cs -> Z.of_nat (length cs) < max -> length buf = Z.to_nat max ->
  strncpy buf (cs ++ 0 :: zs) max = Ret (cs ++ 0 :: drop (S (length cs)) buf).
Proof.
  intros Hnz Hl Hb. unfold strncpy.
  assert (Hc : cstr (cs ++ 0 :: zs) cs).
  { split; [|by exists zs]. intros Hin. rewrite Forall_forall in Hnz. by apply (Hnz 0 Hin). }
  pose proof (strncpy_loop_spec (Z.to_nat (max - 1)) [] buf _ cs [] Hc eq_refl ltac:(lia)) as E.
  cbn [app length] in E. change (Z.of_nat 0) with 0 in E. rewrite E. cbn [mbind outcome_bind].
  rewrite Nat.min_r, take_ge by lia. rewrite Z.add_0_l, store_Ret by (rewrite length_app, length_drop; lia).
  rewrite Nat2Z.id, insert_app_r_alt, Nat.sub_diag by lia.
  rewrite (drop_S buf (buf !!! length cs) (length cs)); [done|]. apply list_lookup_lookup_total_lt. lia.
Qed.

(** The temporary block, freed, leaves no trace. *)
Lemma tmped_forget s m h h0 h1 d ar tmp l :
  backed s m -> m !! tmp = None ->
  forget tmp (put_heap h (paged d ar h0 (tmped s h1 tmp l))) = paged d ar h s.
Proof.
  intros Hbk Hnew. destruct (bk_objects s m Hbk tmp Hnew) as (Hp & Hsc & He).
  assert (Hb : blocks s !! tmp = None).
  { apply eq_None_not_Some. intros [k Hk]. destruct (bk_blocks s m Hbk tmp k Hk) as (? & ? & _). congruence. }
  unfold forget, put_heap, paged, tmped, set_sched, set_blocks. cbn.
  by rewrite delete_insert_eq, !delete_id.
Qed.

(** The page of the temporary block is mapped for the program. *)
Lemma map_tmp ar c tabs tmp max :
  dir_wf ar (directory_entry c) tabs -> tmp mod 4096 = 0 -> 0 < tmp -> tmp + 4096 <= 2147483648 -> 0 < max < 4096 ->
  exists e ar1 ar2, paging_get ar (directory_entry c) tmp = Ret e /\ paging_map ar c tmp tmp USER_PAGE = Ret (0, ar1) /\
    paging_set ar1 (directory_entry c) tmp e = Ret (0, ar2) /\ ar2 = ar /\
    (forall vp, 0 <= vp < NPAGES -> vp <> tmp / 4096 -> pte ar1 (directory_entry c) vp = pte ar (directory_entry c) vp) /\
    forall j, 0 <= j < max -> maps ar1 (directory_entry c) (tmp + j) (tmp + j).
Proof.
  intros Hwf Htm Ht0 Htop Hmax. assert (Hvp : 0 <= tmp / 4096 < NPAGES) by (unfold NPAGES; zlia).
  destruct (pte_lookup ar _ tabs Hwf _ Hvp) as (_ & _ & e & _ & _ & _ & He & Hpte).
  destruct (map_page ar c tabs (tmp / 4096) (tmp / 4096) USER_PAGE Hwf Hvp Hvp ltac:(vm_compute; split; congruence))
    as (ar1 & Hm & Hwf1 & Hout1 & Hp1).
  destruct (paging_set_page ar1 _ tabs Hwf1 (tmp / 4096) e Hvp He) as (ar2 & Hs & Hwf2 & Hout2 & Hp2).
  unfold pte in Hpte. replace (tmp / 4096 * 4096) with tmp in * by zlia.
  exists e, ar1, ar2. split_and!; [done|done|done| | |].
  - apply (arrays_ext ar ar2 (directory_entry c) tabs); [done|done|intros q Hq; by rewrite Hout2, Hout1|].
    intros vp Hr. rewrite Hp2, Hp1 by done. case_decide as Hd; [|done]. subst vp.
    unfold pte. by replace (tmp / 4096 * 4096) with tmp by zlia.
  - intros vp Hr Hne. rewrite Hp1 by done. by rewrite decide_False.
  - intros j Hj. exists USER_PAGE. split_and!; [zlia..|done|done|vm_compute; congruence|done|].
    replace ((tmp + j) / 4096) with (tmp / 4096) by zlia. rewrite Hp1 by done. by rewrite decide_True.
Qed.

(** Copying a string out of a program.  When the heap gives a block for
    the temporary copy, the kernel ends up with the program's string, cut to
    the size of the buffer, and behind it the buffer is as before; every page
    table is exactly what it was, the kernel's address space is loaded again,
    the temporary block is free, and nothing else has changed. *)
Lemma copy_string_spec s m c t tabs va cs max buf tmp h :
  backed s m -> tasks (ksched s) !! c = Some t ->
  dir_wf (arrays_of s) (directory_entry (page_directory t)) tabs -> 0 < max < 4096 ->
  kz max (heap_of s) = Ret (tmp, h) -> tmp <> 0 -> length buf = Z.to_nat max ->
  user_string s (arrays_of s) (directory_entry (page_directory t)) va max cs ->
  (forall i, 0 <= i <= Z.of_nat (length cs) -> (va + i) / 4096 <> tmp / 4096) ->
  exists h', copy_string_from_task kernel_chunk c va buf max s =
      Ret ((0, cs ++ 0 :: drop (S (length cs)) buf), paged (directory_entry kernel_chunk) (arrays_of s) h' s) /\
    spans h' m.
Proof.
  intros Hbk Ht Hwf Hmax Hkz Htmp Hbuf Hstr Hpage.
  pose proof (kz_spans max (heap_of s) m tmp h (bk_spans s m Hbk) ltac:(lia) Hkz) as Hsp.
  rewrite decide_False in Hsp by done. destruct Hsp as [Hnew Hsp].
  destruct (spans_range h _ tmp _ Hsp (lookup_insert_eq _ _ _)) as (Ht0 & Htm & Hn & Htop).
  assert (Hpg : pages_for max = 1) by (unfold pages_for; zlia). rewrite Hpg in *.
  destruct (map_tmp (arrays_of s) (page_directory t) tabs tmp max Hwf Htm Ht0 ltac:(lia) Hmax)
    as (e & ar1 & ar2 & Hget & Hmap & Hset & -> & Hframe & Hid).
  destruct (kf_spans h _ tmp 1 Hsp (lookup_insert_eq _ _ _)) as (h' & Hkf & Hsp').
  rewrite delete_insert_eq, delete_id in Hsp' by done. exists h'. split; [|done].
  unfold copy_string_from_task. rewrite (proj2 (Z.leb_gt _ _)) by (unfold PAGING_PAGE_SIZE; lia).
  step (kzalloc_block_spec s max tmp h Hkz). rewrite (proj2 (Z.eqb_neq tmp 0)) by done.
  set (zs := replicate (Z.to_nat max) 0). change (set_blocks (<[tmp:=zs]> (blocks s)) (put_heap h s)) with (tmped s h tmp zs).
  step (load_task_any (tmped s h tmp zs) c t Ht). rewrite bind_getS.
  change (arrays_of (tmped s h tmp zs)) with (arrays_of s). change (heap_of (tmped s h tmp zs)) with h.
  rewrite (bind_liftO _ _ _ e Hget).
  step (pa_paged (fun ar => paging_map ar (page_directory t) tmp tmp USER_PAGE)
          (current_directory (tpaging (ksched (tmped s h tmp zs)))) (arrays_of s) h (tmped s h tmp zs) 0 ar1 Hmap).
  step (paging_switch_paged (current_directory (tpaging (ksched (tmped s h tmp zs)))) ar1 h (tmped s h tmp zs) (page_directory t)).
  destruct (user_string_frame s (arrays_of s) ar1 _ _ va max cs Hframe Hpage Hstr) as (Hnz & Hlen & Hcs & Hend).
  assert (Hzs : length zs = Z.to_nat max) by apply length_replicate.
  step (user_strncpy_spec s m h tmp 1 Hbk Hnew Hsp (directory_entry (page_directory t)) ar1 h cs max va zs Hnz Hlen
          Hzs ltac:(lia) Hcs Hend ltac:(intros; apply Hid; lia)).
  set (l := cs ++ 0 :: drop (S (length cs)) zs).
  step (kernel_page_spec (paged (directory_entry (page_directory t)) ar1 h (tmped s h tmp l))).
  step (pa_paged (fun ar => paging_set ar (directory_entry (page_directory t)) tmp e)
          (directory_entry kernel_chunk) ar1 h (tmped s h tmp l) 0 (arrays_of s) Hset).
  cbn [Z.ltb Z.compare].
  set (s3 := paged (directory_entry kernel_chunk) (arrays_of s) h (tmped s h tmp l)).
  assert (Hl : blocks s3 !! tmp = Some l) by (cbn; by rewrite lookup_insert_eq).
  step (obj_spec blocks s3 tmp l Hl).
  rewrite (bind_liftO _ _ _ _ (strncpy_cstr buf cs (drop (S (length cs)) zs) max Hnz Hlen Hbuf)).
  step (kfree_at_spec s3 tmp h' Hkf). unfold s3. by rewrite (tmped_forget s m h' h h _ _ tmp l Hbk Hnew).
Qed.
End spec.
