(* ===== verification/Syscalls.v ===== *)
(** * The system calls (src/src/isr80h/)

    The handlers fetch their arguments from the stack of the calling task and
    work on the process it belongs to.  A handler gives [inl v] when it returns
    [v] to the program and [inr r] when it enters user mode through
    [task_return] and does not come back.  Pointers to open files are the addresses
    of entries of [iob] inside a process; through any other address they are
    [Oob]. *)
From S2P Require Import Prelude Config CMem CString Kheap Paging Keyboard Disk Vfs Elf Task Terminal Power Sound.
From S2P Require Import Screen Process UserMem.

Definition SERPAEOS_REMOTE_DISCONNECTED : Z := 0xDDCECED.
(** [offsetof(struct process, iob)]. *)
Definition IOB_OFFSET : Z := 9380.

Definition set_keyboard (r : ring) (p : process) : process :=
  mk_process (host p) (p_hosting p) (parent p) (process_id p) (filename p) (p_task p) (allocations p) (filetype p)
    (process_data p) (stack p) (p_size p) r (argc p) (argv p) (p_screen p) (iob p) (priv p).

Section syscalls.
Context {H : Type} `{Allocator H} {F : Type} (drivers : gmap Z (filesystem_ops (fsst H F))).

(** The device of the disks, inside the state of the file systems. *)
Context {D : Type} `{Ports D} (dev_of : F -> D) (with_dev : D -> F -> F).

(** The kernel's address space; the bytes at address 0; what an uninitialised
    local buffer holds. *)
Context (kernel_chunk : paging_4gb_chunk) (low_memory : list Z) (uninit : Z -> list Z).

(** The return codes, and the variables of power.c. *)
Record sysst := mk_sys { ker : kst H F; ret_codes : list Z; acpi_state : acpi }.

Definition on_ker {A} (c : cmd (kst H F) A) : cmd sysst A := fun s =>
  '(a, k) ← c (ker s); Ret (a, mk_sys k (ret_codes s) (acpi_state s)).

Definition func : Type := cmd sysst (Z + resumption).

(** [task_current()->process], and an argument of the call. *)
Definition current_process_of_task : cmd (kst H F) Z :=
  c ← on_sched task_current;
  t ← on_sched (load_task c);
  mret (task_process t).
Definition arg (i : Z) : cmd (kst H F) Z :=
  c ← on_sched task_current; task_get_stack_item kernel_chunk c i.
Definition arg_physical (i : Z) : cmd (kst H F) Z :=
  c ← on_sched task_current;
  v ← task_get_stack_item kernel_chunk c i;
  on_sched (task_virtual_address_to_physical c v).
Definition copy_string (virt max : Z) : cmd (kst H F) (Z * list Z) :=
  c ← on_sched task_current;
  copy_string_from_task kernel_chunk c virt (uninit max) max.

(** A handler that only works on the kernel state and returns. *)
Definition returns (c : cmd (kst H F) Z) : func := v ← on_ker c; mret (inl v).

(** ** io.c *)
Definition print_to (p : Z) (message : list Z) : cmd (kst H F) unit :=
  x ← load_proc p; on_screen (p_screen x) (process_print message).

Definition isr80h_command1_print : func := returns (
  user_space_msg_buffer ← arg 0;
  '(_, buf) ← copy_string user_space_msg_buffer 1024;
  p ← current_process_of_task;
  print_to p buf;;
  mret 0).

(** The character is sign-extended. *)
Definition isr80h_command2_getkey : func := returns (
  c ← on_sched task_current;
  if c =? 0 then mret 0
  else
    p ← current_process_of_task;
    x ← load_proc p;
    '(k, r) ← liftO (keyboard_pop (Some (p_keyboard x)));
    (match r with
     | Some r => update_proc p (set_keyboard r)
     | None => mret tt
     end);;
    mret (s8 k)).

Definition isr80h_command3_putchar : func := returns (
  c ← arg 0;
  p ← current_process_of_task;
  print_to p [u8 c; 0];;
  mret 0).

Fixpoint blank_screen (n : nat) (colour : Z) : cmd scrst unit :=
  match n with
  | O => mret tt
  | S n => process_writechar 32 colour;; blank_screen n colour
  end.

Definition isr80h_command9_clrscr : func := returns (
  colour ← arg 0;
  p ← current_process_of_task;
  x ← load_proc p;
  c ← load_screen (p_screen x);
  (if (current_screen c : bool) then on_terminal (clrscr colour)
   else
     on_screen (p_screen x) (
       modify_scr (fun c => set_sy 0 (set_sx 0 c));;
       blank_screen (Z.to_nat (VGA_HEIGHT * VGA_WIDTH)) colour;;
       modify_scr (fun c => set_sy 0 (set_sx 0 c))));;
  mret 0).

Definition isr80h_command10_fopen : func := returns (
  user_space_filename_buffer ← arg 1;
  user_space_mode_buffer ← arg 0;
  '(_, filename) ← copy_string user_space_filename_buffer 1024;
  '(_, mode) ← copy_string user_space_mode_buffer 10;
  p ← current_process_of_task;
  fp ← process_fopen drivers p filename mode;
  mret (match fp with
        | Some i => p + IOB_OFFSET + 4 * i
        | None => 0
        end)).

(** The process and the index behind a pointer to an open file. *)
Definition iob_entry (p fp : Z) : option Z :=
  let o := fp - (p + IOB_OFFSET) in
  if (0 <=? o) && (o <? 4 * NFILE) && (o mod 4 =? 0) then Some (o / 4) else None.
Definition file_at (fp : Z) : cmd (kst H F) (Z * Z) :=
  s ← getS;
  match hd_error (omap (fun q : Z * process => pair (fst q) <$> iob_entry (fst q) fp) (map_to_list (pobjs s) : list _)) with
  | Some r => mret r
  | None => liftO Oob
  end.
Definition load_fp (fp : Z) : cmd (kst H F) Z :=
  '(p, i) ← file_at fp;
  x ← load_proc p;
  liftO (load (iob x) i).

(** The pointer is not checked. *)
Definition isr80h_command11_fclose : func := returns (
  fp ← arg 0;
  '(p, i) ← file_at fp;
  process_fclose drivers p i).

(** [fp < iob || fp > iob + NFILE] *)
Definition bad_fp (p fp : Z) : bool := (fp <? p + IOB_OFFSET) || (p + IOB_OFFSET + 4 * NFILE <? fp).

(** The calls that check their pointer before they do anything else. *)
Definition with_fp (c : Z -> cmd (kst H F) Z) : func := returns (
  fp ← arg 0;
  p ← current_process_of_task;
  if bad_fp p fp then mret (- EINVARG) else c fp).

Definition isr80h_command12_fread : func := with_fp (fun fp =>
  count ← arg 1;
  out ← arg_physical 2;
  fd ← load_fp fp;
  '(res, bs) ← on_files (fread drivers fd (s32 count));
  (if bool_decide (bs = []) then mret tt else phys_write out bs);;
  mret res).

Definition isr80h_command13_fwrite : func := with_fp (fun fp =>
  count ← arg 1;
  buf ← arg_physical 2;
  fd ← load_fp fp;
  s ← getS;
  l ← liftO (if buf =? 0 then Ret None else l ← phys_bytes s buf; Ret (Some l));
  on_files (fwrite drivers fd l (s32 count))).

Definition on_device {A} (c : cmd D A) : cmd (kst H F) A := on_files (on_st (fun st =>
  '(a, d) ← c (dev_of (snd st)); Ret (a, (fst st, with_dev d (snd st))))).

(** The current process must be privileged. *)
Definition privileged (refused : Z) (c : Z -> cmd (kst H F) Z) : func := returns (
  p ← current_process_of_task;
  x ← load_proc p;
  if negb (priv x) then mret refused else c p).

Definition isr80h_command18_write_sector (fuel : nat) : func := privileged (- ENOTPRIV) (fun _ =>
  sector_num ← arg 0;
  n ← arg 1;
  s ← getS;
  d ← liftO (disk_get (disks (kfiles s)) (s32 n));
  match d with
  | None => mret (- EINVARG)
  | Some d =>
      buf ← arg_physical 2;
      s ← getS;
      l ← liftO (phys_bytes s buf);
      on_device (disk_write_block fuel d (s32 sector_num) 1 l)
  end).

Definition isr80h_command19_read_sector : func := privileged (- ENOTPRIV) (fun _ =>
  sector_num ← arg 0;
  n ← arg 1;
  s ← getS;
  d ← liftO (disk_get (disks (kfiles s)) (s32 n));
  match d with
  | None => mret (- EINVARG)
  | Some d =>
      buf ← arg_physical 2;
      s ← getS;
      l ← liftO (phys_bytes s buf);
      '(res, l) ← on_device (disk_read_block d (s32 sector_num) 1 l);
      phys_write buf l;;
      mret res
  end).

(** [struct filestat]: two words, then the date, with its year in the word at
    8.  The drivers write these fields when they succeed. *)
Definition stat_write (stat : Z) (st : file_stat) : cmd (kst H F) unit :=
  let d := creation_datetime st in
  phys_write stat (le_split 4 (flags st) ++ le_split 4 (filesize st));;
  phys_write (stat + 8) (map u8 [seconds d; minutes d; hours d; day d; month d]);;
  phys_write (stat + 16) (le_split 4 (year d)).

Definition isr80h_command20_fstat : func := with_fp (fun fp =>
  stat ← arg_physical 1;
  fd ← load_fp fp;
  '(res, st) ← on_files (fstat drivers fd (mk_stat 0 0 no_date));
  (if res =? 0 then stat_write stat st else mret tt);;
  mret res).

Definition isr80h_command21_ftell : func := with_fp (fun fp =>
  fd ← load_fp fp; on_files (ftell drivers fd)).

Definition isr80h_command22_fseek : func := with_fp (fun fp =>
  offset ← arg 1;
  whence ← arg 2;
  fd ← load_fp fp;
  on_files (fseek drivers fd (s32 offset) whence)).

Definition isr80h_command23_remove : func := returns (
  user_space_filename_buffer ← arg 0;
  '(_, filename) ← copy_string user_space_filename_buffer 1024;
  fd ← on_files (fopen drivers filename [114; 119; 0]);
  if fd <? 1 then mret 0
  else
    on_files (fdelete drivers fd);;
    mret 0).

Definition isr80h_command24_set_cursor : func := returns (
  y ← arg 0;
  x ← arg 1;
  on_terminal (set_cursor (u16 x) (u16 y));;
  mret 0).

Definition isr80h_command25_draw_block : func := returns (
  attribute ← arg 0;
  y ← arg 1;
  x ← arg 2;
  on_terminal (graphics_put (u8 attribute) (u16 x) (u16 y));;
  mret 0).

Definition isr80h_command26_play_sound : func := returns (
  hertz ← arg 0;
  on_device (play hertz);;
  mret 0).

Definition isr80h_command27_quit_sound : func := returns (on_device quit_sound;; mret 0).

(** ** memory.c *)
Definition isr80h_command4_malloc : func := returns (
  size ← arg 0;
  p ← current_process_of_task;
  process_malloc p size).

Definition isr80h_command5_free : func := returns (
  ptr_to_free ← arg 0;
  p ← current_process_of_task;
  process_free p ptr_to_free;;
  mret 0).

(** ** misc.c *)

(** The return code is stored before the process ends; [task_next] resumes
    another task. *)
Definition isr80h_command0_exit (fuel : nat) : func :=
  p ← on_ker current_process_of_task;
  x ← on_ker (load_proc p);
  s ← getS;
  (if process_id x =? 0 then on_ker (on_device (acpi_poweroff (acpi_state s))) else mret tt);;
  res ← on_ker (arg 0);
  s ← getS;
  l ← liftO (store (ret_codes s) (process_id x) (s32 res));
  putS (mk_sys (ker s) l (acpi_state s));;
  on_ker (process_terminate drivers fuel p);;
  r ← on_ker (on_sched (task_next fuel));
  mret (inr r).

(** ** process.c *)

(** The loaded process starts: [task_switch] and [task_return]. *)
Definition start (p : Z) : cmd (kst H F) resumption :=
  x ← load_proc p;
  on_sched (task_switch (p_task x));;
  t ← on_sched (load_task (p_task x));
  mret (task_return (regs t)).

Definition isr80h_command6_process_load_start : func := on_ker (
  filename_userspace ← arg 0;
  '(res, filename) ← copy_string filename_userspace SERPAEOS_MAX_PATH;
  if res <? 0 then mret (inl res)
  else
    path ← liftO (strcpy (uninit SERPAEOS_MAX_PATH) [48; 58; 47; 0]);
    rest ← liftO (strcpy (drop 3 path) filename);
    '(res, process) ← process_load_switch drivers (take 3 path ++ rest) 0;
    if res <? 0 then mret (inl res)
    else
      match process with
      | None => liftO Oob
      | Some p => r ← start p; mret (inr r)
      end).

(** [location] is [None] for a null pointer, whose bytes are those at 0. *)
Definition run (program : list Z) (location : option (list Z)) (size host : Z) : cmd (kst H F) (Z * option Z) :=
  path ← liftO (strcpy (uninit SERPAEOS_MAX_PATH) (default low_memory location));
  rest ← liftO (strncpy (drop (Z.to_nat size) path) program (SERPAEOS_MAX_PATH - size));
  process_load_switch drivers (take (Z.to_nat size) path ++ rest) host.

(** "0:/sys/bin/", "0:/usr/bin/" *)
Definition SYS_BIN : list Z := [48; 58; 47; 115; 121; 115; 47; 98; 105; 110; 47; 0].
Definition USR_BIN : list Z := [48; 58; 47; 117; 115; 114; 47; 98; 105; 110; 47; 0].

(** The three places a program is looked for; [process] keeps what the calls
    set it to. *)
Fixpoint run_places (places : list (option (list Z) * Z)) (program : list Z) (host : Z) (process : option Z)
    : cmd (kst H F) (option (option Z)) :=
  match places with
  | [] => mret None
  | (location, size) :: places =>
      '(res, out) ← run program location size host;
      let process := match out with Some p => Some p | None => process end in
      if res =? 0 then mret (Some process) else run_places places program host process
  end.

(** The field [next] behind the characters of an argument. *)
Definition next_argument (l : list Z) : outcome Z :=
  if Z.of_nat (length l) <? ARGUMENT_SIZE + 4 then Oob
  else Ret (le_combine (take 4 (drop (Z.to_nat ARGUMENT_SIZE) l))).

(** The list of arguments at a physical address. *)
Fixpoint read_arguments (fuel : nat) (pa : Z) : cmd (kst H F) (list command_argument) :=
  if pa =? 0 then mret []
  else match fuel with
       | O => liftO OutOfFuel
       | S fuel =>
           s ← getS;
           l ← liftO (phys_bytes s pa);
           next ← liftO (next_argument l);
           rest ← read_arguments fuel next;
           mret (take (Z.to_nat ARGUMENT_SIZE) l :: rest)
       end.

(** The characters a pointer to a [struct command_argument] leads to. *)
Definition argument_at (root : Z) : cmd (kst H F) (list Z) :=
  if root =? 0 then mret low_memory else s ← getS; liftO (phys_bytes s root).

(** From the choice of the first argument on: the program is found, gets the
    arguments, and starts. *)
Definition invoke (fuel : nat) (root : Z) (hosting privilege : bool) : cmd (kst H F) (Z + resumption) :=
  program_name ← argument_at root;
  p ← current_process_of_task;
  (if (hosting : bool) then update_proc p (set_hosting true) else mret tt);;
  found ← run_places [(Some SYS_BIN, 11); (Some USR_BIN, 11); (None, 0)] program_name (if hosting then p else 0) None;
  match found with
  | None => mret (inl (- EINVARG))
  | Some None => liftO Oob
  | Some (Some process) =>
      args ← read_arguments fuel root;
      res ← process_inject_arguments process args;
      if res <? 0 then mret (inl (- EINVARG))
      else
        update_proc process (set_priv privilege);;
        r ← start process;
        mret (inr r)
  end.

(** "he", "0:/sys/bin/pr" *)
Definition HE : list Z := [104; 101; 0].
Definition SYS_BIN_PR : list Z := [48; 58; 47; 115; 121; 115; 47; 98; 105; 110; 47; 112; 114; 0].

Definition isr80h_command7_invoke_system_command (fuel : nat) : func := on_ker (
  arguments ← arg_physical 0;
  if arguments =? 0 then mret (inl (- EINVARG))
  else
    first ← argument_at arguments;
    n ← liftO (strlen first);
    if n =? 0 then mret (inl (- EINVARG))
    else
      he ← liftO (istrncmp HE first ARGUMENT_SIZE);
      let hosted := he =? 0 in
      root ← (if hosted then
                next ← liftO (next_argument first);
                on_terminal (print [10; 0]);;
                mret next
              else mret arguments);
      p ← current_process_of_task;
      x ← load_proc p;
      r ← liftO (istrncmp SYS_BIN_PR (filename x) SERPAEOS_MAX_PATH);
      invoke fuel root hosted (r =? 0)).

Definition isr80h_command8_get_program_arguments : func := returns (
  p ← current_process_of_task;
  args ← arg_physical 0;
  '(n, v) ← process_get_arguments p;
  phys_write args (le_split 4 n);;
  phys_write (args + 4) (le_split 4 v);;
  mret 0).

Definition isr80h_command14_remote_terminate (fuel : nat) : func :=
  v ← on_ker (arg 0);
  let id := s32 v in
  p ← on_ker current_process_of_task;
  x ← on_ker (load_proc p);
  if u32 id =? process_id x then mret (inl (- EINVARG))
  else if negb (priv x) then mret (inl (- ENOTPRIV))
  else if (id <=? 0) || (SERPAEOS_MAX_PROCESSES <? id) then mret (inl (- EINVARG))
  else
    s ← getS;
    l ← liftO (store (ret_codes s) id SERPAEOS_REMOTE_DISCONNECTED);
    putS (mk_sys (ker s) l (acpi_state s));;
    target ← on_ker (process_get id);
    res ← on_ker (process_terminate drivers fuel target);
    mret (inl res).

(** [process + sizeof(struct process)] counts in whole structures. *)
Definition isr80h_command15_process_inf : func := privileged 0 (fun _ =>
  id ← arg 0;
  process ← process_get (s32 id);
  if process =? 0 then mret 0
  else
    c ← on_sched task_current;
    t ← on_sched (load_task c);
    res ← map_to (page_directory t) process process
            (paging_align_address (u32 (process + sizeof_process * sizeof_process)))
            (Z.lor PAGING_IS_PRESENT PAGING_ACCESS_FROM_ALL);
    if negb (res =? 0) then mret 0 else mret process).

(** The arguments are pushed from the last to the first. *)
Fixpoint push_arguments (n : nat) (new_task arguments : Z) : cmd (kst H F) unit :=
  match n with
  | O => mret tt
  | S n =>
      s ← getS;
      l ← liftO (phys_bytes s (arguments + 4 * Z.of_nat n));
      (if Z.of_nat (length l) <? 4 then liftO Oob else mret tt);;
      task_push_stack_item kernel_chunk new_task (le_combine (take 4 l));;
      push_arguments n new_task arguments
  end.

Definition isr80h_command16_new_thread : func := on_ker (
  p ← current_process_of_task;
  virtual_start_addr ← arg 0;
  arg_count ← arg 1;
  arguments ← arg_physical 2;
  new_task ← on_sched (task_add_to_process p virtual_start_addr);
  if ISERR new_task then mret (inl 0)
  else
    push_arguments (Z.to_nat (s32 arg_count)) new_task arguments;;
    on_sched (task_switch new_task);;
    t ← on_sched (load_task new_task);
    mret (inr (task_return (regs t)))).

Definition isr80h_command255_get_retcode : func :=
  p ← on_ker current_process_of_task;
  x ← on_ker (load_proc p);
  if negb (priv x) then mret (inl (- ENOTPRIV))
  else
    process ← on_ker (arg 0);
    s ← getS;
    v ← liftO (load (ret_codes s) (s32 process));
    mret (inl v).

(** ** Dispatch *)

(** The commands that are registered. *)
Definition isr80h_command (fuel : nat) (id : Z) : option func :=
  match id with
  | 0 => Some (isr80h_command0_exit fuel)
  | 1 => Some isr80h_command1_print
  | 2 => Some isr80h_command2_getkey
  | 3 => Some isr80h_command3_putchar
  | 4 => Some isr80h_command4_malloc
  | 5 => Some isr80h_command5_free
  | 6 => Some isr80h_command6_process_load_start
  | 7 => Some (isr80h_command7_invoke_system_command fuel)
  | 8 => Some isr80h_command8_get_program_arguments
  | 9 => Some isr80h_command9_clrscr
  | 10 => Some isr80h_command10_fopen
  | 11 => Some isr80h_command11_fclose
  | 12 => Some isr80h_command12_fread
  | 13 => Some isr80h_command13_fwrite
  | 14 => Some (isr80h_command14_remote_terminate fuel)
  | 15 => Some isr80h_command15_process_inf
  | 16 => Some isr80h_command16_new_thread
  | 18 => Some (isr80h_command18_write_sector fuel)
  | 19 => Some isr80h_command19_read_sector
  | 20 => Some isr80h_command20_fstat
  | 21 => Some isr80h_command21_ftell
  | 22 => Some isr80h_command22_fseek
  | 23 => Some isr80h_command23_remove
  | 24 => Some isr80h_command24_set_cursor
  | 25 => Some isr80h_command25_draw_block
  | 26 => Some isr80h_command26_play_sound
  | 27 => Some isr80h_command27_quit_sound
  | 255 => Some isr80h_command255_get_retcode
  | _ => None
  end.

(** [isr80h_handler] with this table. *)
Definition system_call (fuel : nat) (command : Z) (frame : interrupt_frame) : func :=
  on_ker (kernel_page kernel_chunk);;
  on_ker (on_sched (task_current_save_state frame));;
  res ← (if (command <? 0) || (SERPAEOS_MAX_ISR80H_COMMANDS <=? command) then mret (inl 0)
         else match isr80h_command fuel command with
              | Some f => f
              | None => mret (inl 0)
              end);
  match res with
  | inr r => mret (inr r)
  | inl v => on_ker (on_sched task_page);; mret (inl v)
  end.
End syscalls.
Arguments sysst : clear implicits.
Arguments func : clear implicits.
