(* ===== verification/SyscallsSpec.v ===== *)
(** * What the system calls promise

    A system call from the gate to the return: the registers of the caller are
    saved, the kernel works in its own address space, and the program goes on
    in its own.  Memory allocation, printing, the calls that need a privileged
    process, and the call that shows a process the kernel's data. *)
From S2P Require Import Prelude Config CMem CString Heap HeapSpec Kheap AllocSpans Paging PagingSpec AddressSpace.
From S2P Require Import PathParser Keyboard Disk AtaDevice Vfs Elf Task TaskSpec Terminal Power Screen ScreenSpec Process ProcessSpec ProcessMemory.
From S2P Require Import ProcessLife UserMem UserMemSpec Syscalls.

Section spec.
Context {H : Type} `{AllocatorSpans H} {F : Type} (drivers : gmap Z (filesystem_ops (fsst H F))).
Context {D : Type} `{Ports D} (dev_of : F -> D) (with_dev : D -> F -> F).
Context (kernel_chunk : paging_4gb_chunk) (low_memory : list Z) (uninit : Z -> list Z) (fuel : nat).
Implicit Types s : kst H F.

Definition call : Z -> interrupt_frame -> func H F :=
  system_call drivers dev_of with_dev kernel_chunk low_memory uninit fuel.

(** The task [c] of the process [p] is running. *)
Record running s (c : Z) (t : task) (p : Z) (x : process) : Prop := {
  rn_current : current_task (ksched s) = c;
  rn_null : c <> 0;
  rn_task : tasks (ksched s) !! c = Some t;
  rn_process : task_process t = p;
  rn_object : pobjs s !! p = Some x
}.

(** The registers of the caller, saved; the state a handler starts in. *)
Definition saved (f : interrupt_frame) (c : Z) (t : task) s : kst H F :=
  set_sched (set_tasks (<[c := set_regs (frame_regs f) t]> (tasks (ksched s))) (ksched s)) s.
Definition entered (f : interrupt_frame) (c : Z) (t : task) s : kst H F :=
  paged (directory_entry kernel_chunk) (arrays_of s) (heap_of s) (saved f c t s).

Lemma saved_running f s c t p x : running s c t p x -> running (saved f c t s) c (set_regs (frame_regs f) t) p x.
Proof. intros [Hc Hz Ht Hp Hx]. split; try done. cbn. by rewrite lookup_insert_eq. Qed.

Lemma saved_backed f s c t m : backed s m -> backed (saved f c t s) m.
Proof. intros []. by split. Qed.

Lemma entered_backed f s c t m : backed s m -> backed (entered f c t s) m.
Proof. intros []. by split. Qed.

Lemma saved_proc_ok f s c t p x d tabs m q y :
  running s c t q y -> proc_ok s p x d tabs m ->
  proc_ok (paged (directory_entry kernel_chunk) (arrays_of s) (heap_of s) (saved f c t s)) p x d tabs m.
Proof.
  intros Hrun [Hsp Hx Hlive (k & Hk & Hd) Hwf Hlen Hal Hnd]. split; try done. cbn.
  destruct (decide (p_task x = c)) as [Heq|Hne].
  - rewrite Heq in *. rewrite (rn_task _ _ _ _ _ Hrun) in Hk. injection Hk as <-. rewrite lookup_insert_eq. by eexists.
  - rewrite lookup_insert_ne by done. by exists k.
Qed.

Lemma on_ker_spec {A} (c : cmd (kst H F) A) s rc pw a s' : c s = Ret (a, s') -> on_ker c (mk_sys s rc pw) = Ret (a, mk_sys s' rc pw).
Proof. intros E. unfold on_ker. cbn [ker]. by rewrite E. Qed.

Lemma returns_spec (c : cmd (kst H F) Z) s rc pw a s' :
  c s = Ret (a, s') -> returns c (mk_sys s rc pw) = Ret (inl a, mk_sys s' rc pw).
Proof. intros E. unfold returns. step (on_ker_spec c s rc pw a s' E). done. Qed.

Lemma current_process_paged d ar h s c t p x :
  running s c t p x -> current_process_of_task (paged d ar h s) = Ret (p, paged d ar h s).
Proof.
  intros [Hc Hz Ht Hp Hx]. unfold current_process_of_task. step (task_current_paged d ar h s). rewrite Hc.
  step (load_task_paged d ar h s c t Ht). by rewrite Hp.
Qed.

(** An argument, on the stack the program had when it made the call. *)
Definition stack_word s (ar : gmap Z (list Z)) (dir sp i v : Z) : Prop :=
  0 <= v < 4294967296 /\ virt_bytes s ar dir (u32 (sp + 4 * i)) (le_split 4 v).

Lemma arg_paged d ar h s m c t p x i v :
  running s c t p x -> backed s m -> stack_word s ar (directory_entry (page_directory t)) (esp (regs t)) i v ->
  arg kernel_chunk i (paged d ar h s) = Ret (v, paged (directory_entry kernel_chunk) ar h s).
Proof.
  intros [Hc Hz Ht Hp Hx] Hbk [Hv Hb]. unfold arg. step (task_current_paged d ar h s). rewrite Hc.
  by apply (task_get_stack_item_spec kernel_chunk d ar h s m c t i v).
Qed.

(** From the gate to the return of a handler that returns. *)
Lemma call_returns cmd f s rc pw c t p x body v s' rc' t' :
  running s c t p x -> 0 <= cmd < SERPAEOS_MAX_ISR80H_COMMANDS ->
  isr80h_command drivers dev_of with_dev kernel_chunk low_memory uninit fuel cmd = Some body ->
  body (mk_sys (entered f c t s) rc pw) = Ret (inl v, mk_sys s' rc' pw) ->
  current_task (ksched s') = c -> tasks (ksched s') !! c = Some t' ->
  call cmd f (mk_sys s rc pw) =
    Ret (inl v, mk_sys (paged (directory_entry (page_directory t')) (arrays_of s') (heap_of s') s') rc' pw).
Proof.
  intros [Hc Hz Ht Hp Hx] Hcmd Hbody Hrun Hc' Ht'. unfold call, system_call.
  step (on_ker_spec _ _ rc pw _ _ (kernel_page_spec kernel_chunk s)).
  set (s1 := paged (directory_entry kernel_chunk) (arrays_of s) (heap_of s) s).
  assert (Hsave : on_sched (task_current_save_state f) s1 = Ret (tt, entered f c t s)).
  { unfold on_sched, task_current_save_state. change (with_views s1) with (ksched s1).
    assert (Hcur : task_current (ksched s1) = Ret (c, ksched s1)) by (by rewrite <- Hc). step Hcur.
    rewrite (proj2 (Z.eqb_neq c 0)) by done. unfold task_save_state. rewrite (update_task_spec (ksched s1) c t) by done. done. }
  step (on_ker_spec _ _ rc pw _ _ Hsave).
  rewrite (proj2 (Z.ltb_ge _ _)), (proj2 (Z.leb_gt _ _)) by lia. cbn [orb]. rewrite Hbody. step Hrun.
  assert (Hpage : on_sched task_page s' =
    Ret (0, paged (directory_entry (page_directory t')) (arrays_of s') (heap_of s') s')).
  { unfold on_sched, task_page.
    assert (Hcur : task_current (with_views s') = Ret (c, with_views s')) by (by rewrite <- Hc'). step Hcur.
    set (t1 := set_current c (with_views s')).
    assert (Hsw : task_switch c (with_views s') =
      Ret (0, mk_tstate (mk_pstate (heap_of s') (arrays_of s') (directory_entry (page_directory t'))) (tasks (ksched s'))
                (omap (view_of (elfs s')) (pobjs s')) c (task_head (ksched s')) (task_tail (ksched s')))).
    { unfold task_switch. rewrite bind_modifyS. by step (load_task_spec t1 c t' Ht'). }
    step Hsw. unfold mret, cmd_ret. unfold paged. by rewrite Hc'. }
  by step (on_ker_spec _ _ rc' pw _ _ Hpage).
Qed.

Lemma malloced_backed s m p x i ptr size h ar :
  backed s m -> is_Some (m !! p) -> m !! ptr = None -> 0 < size -> spans h (<[ptr := pages_for size]> m) ->
  backed (malloced s p x i ptr size h ar) (<[ptr := pages_for size]> m).
Proof.
  intros Hbk [k Hlive] Hnew Hs Hsp.
  destruct (tmped_backed s m h ptr (pages_for size) Hbk Hnew Hsp (replicate (Z.to_nat size) 0)) as [? Hb He Hi Ho].
  { rewrite length_replicate. unfold pages_for. zlia. }
  split; try done. intros a Ha. destruct (Ho a Ha) as (Hp & ? & ?). split; [|done]. cbn.
  rewrite lookup_insert_ne; [done|]. intros ->. apply lookup_insert_None in Ha as [Ha _]. congruence.
Qed.

(** ** Properties *)

(** C11: privilege.  A process that is not privileged and asks to write or read
    a sector, to see the kernel's record of a process or to learn a return code
    is refused, whatever arguments it passes: the stored return codes, the
    disks and files, every object and every page table are as before; only the
    registers of the caller are saved and its address space is loaded. *)
Theorem unprivileged_refused cmd f s rc pw c t p x :
  running s c t p x -> priv x = false -> cmd ∈ [15; 18; 19; 255] ->
  call cmd f (mk_sys s rc pw) =
    Ret (inl (if cmd =? 15 then 0 else - ENOTPRIV),
         mk_sys (paged (directory_entry (page_directory t)) (arrays_of s) (heap_of s) (saved f c t s)) rc pw).
Proof.
  intros Hrun Hpriv Hcmd. pose proof (saved_running f s c t p x Hrun) as Hrun'.
  pose proof (current_process_paged (directory_entry kernel_chunk) (arrays_of s) (heap_of s) _ _ _ _ _ Hrun') as Hcur.
  assert (Hproc : load_proc p (entered f c t s) = Ret (x, entered f c t s)).
  { apply load_proc_spec. apply (rn_object _ _ _ _ _ Hrun). }
  assert (Hpr : forall r k, privileged r k (mk_sys (entered f c t s) rc pw) = Ret (inl r, mk_sys (entered f c t s) rc pw)).
  { intros r k. apply returns_spec. step Hcur. step Hproc. by rewrite Hpriv. }
  assert (H255 : isr80h_command255_get_retcode kernel_chunk (mk_sys (entered f c t s) rc pw) =
    Ret (inl (- ENOTPRIV), mk_sys (entered f c t s) rc pw)).
  { unfold isr80h_command255_get_retcode. step (on_ker_spec _ _ rc pw _ _ Hcur). step (on_ker_spec _ _ rc pw _ _ Hproc).
    by rewrite Hpriv. }
  assert (Ht' : tasks (ksched (entered f c t s)) !! c = Some (set_regs (frame_regs f) t)) by apply (rn_task _ _ _ _ _ Hrun').
  assert (Hc' : current_task (ksched (entered f c t s)) = c) by apply (rn_current _ _ _ _ _ Hrun').
  assert (Hmax : 0 <= cmd < SERPAEOS_MAX_ISR80H_COMMANDS).
  { unfold SERPAEOS_MAX_ISR80H_COMMANDS. repeat (apply elem_of_cons in Hcmd as [->|Hcmd]; [lia|]). by apply not_elem_of_nil in Hcmd. }
  repeat (apply elem_of_cons in Hcmd as [->|Hcmd]); [..|by apply not_elem_of_nil in Hcmd].
  1-3: by rewrite (call_returns _ f s rc pw c t p x _ _ _ rc _ Hrun Hmax eq_refl (Hpr _ _) Hc' Ht').
  by rewrite (call_returns _ f s rc pw c t p x _ _ _ rc _ Hrun Hmax eq_refl H255 Hc' Ht').
Qed.

(** The result of a system call of the program [p]. *)
Definition resumed (f : interrupt_frame) (c : Z) (t : task) (s' : kst H F) : Prop :=
  current_task (ksched s') = c /\ tasks (ksched s') !! c = Some (set_regs (frame_regs f) t) /\
  current_directory (tpaging (ksched s')) = directory_entry (page_directory t).

(** C5: the system call [malloc] of 1 to 2147479552 bytes, from the gate to the
    return: when there is memory and an unused entry, the program gets a fresh block of zeroes that
    it can reach at every byte with the page tables it goes on with, the
    process records it, and its memory is as consistent as before. *)
Theorem malloc_syscall f s rc pw c t p x tabs m size ptr h i z0 :
  running s c t p x -> proc_ok s p x (page_directory t) tabs m -> backed s m ->
  stack_word s (arrays_of s) (directory_entry (page_directory t)) (f_esp f) 0 size -> 0 < size <= 2147479552 ->
  kz size (heap_of s) = Ret (ptr, h) -> ptr <> 0 ->
  allocations x !! i = Some (0, z0) -> (forall k y, (k < i)%nat -> allocations x !! k = Some y -> fst y <> 0) ->
  exists s', call 4 f (mk_sys s rc pw) = Ret (inl ptr, mk_sys s' rc pw) /\ resumed f c t s' /\
    proc_ok s' p (set_allocations (<[i := (ptr, size)]> (allocations x)) x) (page_directory t) tabs
      (<[ptr := pages_for size]> m) /\
    m !! ptr = None /\ blocks s' !! ptr = Some (replicate (Z.to_nat size) 0) /\
    forall a, ptr <= a < ptr + size -> user_load a s' = Ret (0, s').
Proof.
  intros Hrun Hpo Hbk Harg Hs Hkz Hptr Hi Hfirst. pose proof (saved_running f s c t p x Hrun) as Hrun'.
  pose proof (saved_proc_ok f s c t p x _ tabs m p x Hrun Hpo) as Hpo'. fold (entered f c t s) in Hpo'.
  destruct (process_malloc_spec (entered f c t s) p x (page_directory t) tabs m size ptr h i z0 Hpo' Hs Hkz Hptr Hi Hfirst)
    as (ar & E & Hpo2 & Hnew & _ & _). set (s1 := malloced (entered f c t s) p x i ptr size h ar) in *.
  assert (Hbody : isr80h_command4_malloc kernel_chunk (mk_sys (entered f c t s) rc pw) = Ret (inl ptr, mk_sys s1 rc pw)).
  { apply returns_spec.
    step (arg_paged (directory_entry kernel_chunk) (arrays_of s) (heap_of s) _ m _ _ _ _ 0 size Hrun' (saved_backed f s c t m Hbk) Harg).
    by step (current_process_paged (directory_entry kernel_chunk) (arrays_of s) (heap_of s) _ _ _ _ _ Hrun'). }
  assert (Ht' : tasks (ksched s1) !! c = Some (set_regs (frame_regs f) t)) by apply (rn_task _ _ _ _ _ Hrun').
  assert (Hc' : current_task (ksched s1) = c) by apply (rn_current _ _ _ _ _ Hrun').
  eexists. split; [apply (call_returns 4 f s rc pw c t p x _ _ _ rc _ Hrun ltac:(unfold SERPAEOS_MAX_ISR80H_COMMANDS; lia) eq_refl Hbody Hc' Ht')|].
  split; [done|]. split; [by destruct Hpo2; split|]. split; [done|]. split; [cbn; by rewrite lookup_insert_eq|].
  destruct (po_alloc _ _ _ _ _ _ Hpo2 i ptr size) as (_ & _ & Hma & _ & Hbm); [|done|].
  { cbn [allocations set_allocations]. apply list_lookup_insert_eq. by eapply lookup_lt_Some. }
  destruct (spans_range _ _ ptr _ (po_spans _ _ _ _ _ _ Hpo2) Hma) as (Hp0 & Hpm & _ & Htop).
  intros a Ha. apply (user_load_spec _ _ _ _ (<[ptr := pages_for size]> m)).
  - apply (malloced_backed (entered f c t s)); [by apply entered_backed|apply (po_live _ _ _ _ _ _ Hpo)|done|lia|].
    apply (po_spans _ _ _ _ _ _ Hpo2).
  - exists a. split.
    + exists USER_PAGE. split_and!; [unfold pages_for in *; zlia..|done|done|vm_compute; congruence|done|].
      apply Hbm. unfold pages_for. zlia.
    + exists ptr, (replicate (Z.to_nat size) 0). split; [left; cbn; by rewrite lookup_insert_eq|].
      split; [lia|]. apply lookup_replicate_2. lia.
Qed.

(** What is on the screen [sc] of a process, with the page [v], and on the
    terminal after [cs] is printed: the terminal changes when the screen is the
    visible one, and only the screen otherwise. *)
Definition drawn (sc : screen) (t : term) (v : list Z * nat) (cs : list Z) : scrst :=
  if current_screen sc then mk_scrst sc (term_of (foldl screen_step v cs) (beeps t))
  else mk_scrst (scr_of false (foldl screen_step v cs)) t.
Definition shows (sc : screen) (t : term) (v : list Z * nat) : Prop :=
  video_ok (fst v) /\ (snd v < 2000)%nat /\
  if current_screen sc then exists b, t = term_of v b
  else sc = scr_of false v /\ exists a, 0 <= a < 256 /\ coloured a (fst v) /\ attr_is t a.

Lemma print_drawn sc t v cs rest :
  shows sc t v -> Forall text_char cs -> Z.of_nat (length cs) < 2147483648 -> fits v cs = true ->
  process_print (cs ++ 0 :: rest) (mk_scrst sc t) = Ret (tt, drawn sc t v cs).
Proof.
  intros (Hv & Hp & Hsc) Hcs Hlen Hfit. unfold drawn. destruct (current_screen sc) eqn:Ec.
  - destruct Hsc as [b ->]. by apply visible_print.
  - destruct Hsc as (-> & a & Ha & Hcol & Hat). by apply (hidden_print v cs rest t a).
Qed.

(** C4: the system call [print], from the gate to the return.  For a string of
    fewer than 1024 characters, each of them printable or a line break, that does
    not write the last cell of the page (there the code draws outside it), on a
    screen that is the visible one or a hidden one all in the terminal's colour
    (on another the code uses the wrong colour), when the heap has a block of 1024
    bytes for the copy that lies on no page of the string: the characters, read
    through the page tables of the program, appear on the screen of its process, or
    on the terminal when that screen is the visible one; the page tables, the live
    blocks of the heap and every other object are as before, and the program goes
    on in its own address space. *)
Theorem print_syscall f s rc pw c t p x tabs m va cs tmp h sc v :
  running s c t p x -> backed s m -> dir_wf (arrays_of s) (directory_entry (page_directory t)) tabs ->
  stack_word s (arrays_of s) (directory_entry (page_directory t)) (f_esp f) 0 va ->
  user_string s (arrays_of s) (directory_entry (page_directory t)) va 1024 cs ->
  kz 1024 (heap_of s) = Ret (tmp, h) -> tmp <> 0 ->
  (forall i, 0 <= i <= Z.of_nat (length cs) -> (va + i) / 4096 <> tmp / 4096) -> length (uninit 1024) = 1024%nat ->
  screens s !! p_screen x = Some sc -> shows sc (terminal s) v -> Forall text_char cs -> fits v cs = true ->
  exists h' s', call 1 f (mk_sys s rc pw) = Ret (inl 0, mk_sys s' rc pw) /\ spans h' m /\
    let st := drawn sc (terminal s) v cs in
    s' = paged (directory_entry (page_directory t)) (arrays_of s) h'
           (set_terminal (sterm st) (set_screens (<[p_screen x := scr st]> (screens s)) (saved f c t s))).
Proof.
  intros Hrun Hbk Hwf Harg Hstr Hkz Htmp Hpage Hbuf Hsc Hshow Hcs Hfit.
  pose proof (saved_running f s c t p x Hrun) as Hrun'.
  assert (Hlen : Z.of_nat (length cs) < 1024) by apply Hstr.
  assert (Ht' : tasks (ksched (saved f c t s)) !! c = Some (set_regs (frame_regs f) t)) by apply (rn_task _ _ _ _ _ Hrun').
  destruct (copy_string_spec kernel_chunk (entered f c t s) m c (set_regs (frame_regs f) t) tabs va cs 1024 (uninit 1024) tmp h)
    as (h' & Hcopy & Hsp'); [by apply entered_backed|done|done|lia|done|done|done|done|done|].
  exists h'. set (s1 := paged (directory_entry kernel_chunk) (arrays_of s) h' (saved f c t s)).
  set (buf := cs ++ 0 :: drop (S (length cs)) (uninit 1024)) in *.
  set (st := drawn sc (terminal s) v cs).
  set (s2 := set_terminal (sterm st) (set_screens (<[p_screen x := scr st]> (screens s)) s1)).
  assert (Hprint : print_to p buf s1 = Ret (tt, s2)).
  { unfold print_to. step (load_proc_spec s1 p x (rn_object _ _ _ _ _ Hrun)).
    apply (on_screen_spec s1 (p_screen x) sc (process_print buf) tt st Hsc). by apply print_drawn; [..|lia|]. }
  assert (Hbody : isr80h_command1_print kernel_chunk uninit (mk_sys (entered f c t s) rc pw) = Ret (inl 0, mk_sys s2 rc pw)).
  { apply returns_spec.
    step (arg_paged (directory_entry kernel_chunk) (arrays_of s) (heap_of s) _ m _ _ _ _ 0 va Hrun' (saved_backed f s c t m Hbk) Harg).
    assert (Hcs' : copy_string kernel_chunk uninit va 1024 (entered f c t s) = Ret ((0, buf), s1)).
    { unfold copy_string. step (task_current_paged (directory_entry kernel_chunk) (arrays_of s) (heap_of s) (saved f c t s)).
      rewrite (rn_current _ _ _ _ _ Hrun'). exact Hcopy. }
    step Hcs'. step (current_process_paged (directory_entry kernel_chunk) (arrays_of s) h' _ _ _ _ _ Hrun').
    by step Hprint. }
  eexists. split; [apply (call_returns 1 f s rc pw c t p x _ _ s2 rc _ Hrun ltac:(unfold SERPAEOS_MAX_ISR80H_COMMANDS; lia) eq_refl Hbody
                           (rn_current _ _ _ _ _ Hrun') Ht')|]. split; [done|]. done.
Qed.

(** C12: a privileged process asks for the record of a process.  It gets the
    record's address, but the range that becomes readable for it is not the
    9464 bytes of the record: it is 9464 * 9464 bytes, so that every byte of
    every block and of every program image in the 85 megabytes behind the
    record, whoever owns it, can be read with the page tables the program goes
    on with. *)
Theorem process_inf_exposes_kernel f s rc pw c t p x tabs m id q :
  running s c t p x -> backed s m -> priv x = true -> dir_wf (arrays_of s) (directory_entry (page_directory t)) tabs ->
  stack_word s (arrays_of s) (directory_entry (page_directory t)) (f_esp f) 0 (Z.of_nat id) ->
  (id < 50)%nat -> processes s !! id = Some q -> 0 < q -> q mod 4096 = 0 -> q + sizeof_process * sizeof_process <= 2147483648 ->
  exists s', call 15 f (mk_sys s rc pw) = Ret (inl q, mk_sys s' rc pw) /\ resumed f c t s' /\
    forall a b, q <= a < q + sizeof_process * sizeof_process -> byte_at s a b -> user_load a s' = Ret (b, s').
Proof.
  intros Hrun Hbk Hpriv Hwf Harg Hid Hq Hqp Hqm Htop. pose proof (saved_running f s c t p x Hrun) as Hrun'.
  set (k := directory_entry kernel_chunk). set (s0 := saved f c t s) in *. set (e := entered f c t s).
  change (sizeof_process * sizeof_process) with 89567296 in *.
  assert (Ht' : tasks (ksched s0) !! c = Some (set_regs (frame_regs f) t)) by apply (rn_task _ _ _ _ _ Hrun').
  destruct (map_to_pages (arrays_of s) (page_directory t) tabs (q / 4096) (q / 4096) (q / 4096 + 21868) 5 Hwf)
    as (ar & Hmap & Hwf' & _ & Hpte); [unfold NPAGES; zlia..|].
  replace (q / 4096 * 4096) with q in Hmap by zlia.
  set (s1 := paged k ar (heap_of s) s0).
  assert (Hbody : isr80h_command15_process_inf kernel_chunk (mk_sys e rc pw) = Ret (inl q, mk_sys s1 rc pw)).
  { apply returns_spec. step (current_process_paged k (arrays_of s) (heap_of s) s0 _ _ _ _ Hrun').
    step (load_proc_spec e p x (rn_object _ _ _ _ _ Hrun)). rewrite Hpriv. cbn [negb].
    step (arg_paged k (arrays_of s) (heap_of s) _ m _ _ _ _ 0 _ Hrun' (saved_backed f s c t m Hbk) Harg).
    assert (Hget : process_get (s32 (Z.of_nat id)) e = Ret (q, e)).
    { unfold process_get. rewrite s32_id by lia. unfold SERPAEOS_TOTAL_MAX_PROCESSES.
      rewrite (proj2 (Z.ltb_ge _ _)), (proj2 (Z.leb_gt _ _)) by lia. cbn [orb]. rewrite bind_getS.
      unfold liftO. rewrite (load_Some (processes e) _ q); [done|lia|by rewrite Nat2Z.id]. }
    step Hget. rewrite (proj2 (Z.eqb_neq q 0)) by lia.
    step (task_current_paged k (arrays_of s) (heap_of s) s0). rewrite (rn_current _ _ _ _ _ Hrun').
    step (load_task_paged k (arrays_of s) (heap_of s) s0 c _ Ht').
    assert (Hend : paging_align_address (u32 (q + sizeof_process * sizeof_process)) = (q / 4096 + 21868) * 4096).
    { change (sizeof_process * sizeof_process) with 89567296. rewrite u32_id, align_up by lia. zlia. }
    rewrite Hend. change (page_directory (set_regs (frame_regs f) t)) with (page_directory t).
    step (map_to_spec e (page_directory t) q q ((q / 4096 + 21868) * 4096) 5 0 ar Hmap).
    done. }
  eexists. split; [apply (call_returns 15 f s rc pw c t p x _ _ s1 rc _ Hrun ltac:(unfold SERPAEOS_MAX_ISR80H_COMMANDS; lia) eq_refl Hbody
                           (rn_current _ _ _ _ _ Hrun') Ht')|]. split; [split; [apply (rn_current _ _ _ _ _ Hrun')|done]|].
  intros a b Ha Hb. apply (user_load_spec _ _ _ _ m); [by destruct (saved_backed f s c t m Hbk); split|].
  exists a. split; [|exact Hb]. exists 5. split_and!; [lia..|done|lia|lia|done|].
  change (arrays_of s1) with ar. change (page_directory (set_regs (frame_regs f) t)) with (page_directory t).
  rewrite Hpte by (unfold NPAGES; zlia). rewrite decide_True by zlia. do 2 f_equal. lia.
Qed.
End spec.

(** ** A program that makes system calls, for the witnesses *)
Definition heap_after (o : outcome (Z * kmem)) : kmem := match o with Ret (_, k) => k | _ => big_kmem end.
Definition call_kmem1 : kmem := heap_after (kz 1 big_kmem).
Definition call_kmem2 : kmem := heap_after (kz 1 call_kmem1).
Definition call_kmem : kmem := heap_after (kz 1 call_kmem2).
Definition call_spans : gmap Z Z := <[0x1002000 := 1]> (<[0x1001000 := 1]> {[0x1000000 := 1]}).

Lemma call_kmem_spans : spans call_kmem call_spans.
Proof.
  assert (H0 : spans big_kmem ∅).
  { exists ∅. split; [|done]. eapply (heap_create_inv demo_heap 0x1000000 0x1C80000 (mk_heap_table (replicate 3200 0xFF) 3200));
      [done|done|vm_compute; reflexivity|]. vm_compute. reflexivity. }
  assert (E1 : kz 1 big_kmem = Ret (0x1000000, call_kmem1)) by (vm_compute; reflexivity).
  assert (E2 : kz 1 call_kmem1 = Ret (0x1001000, call_kmem2)) by (vm_compute; reflexivity).
  assert (E3 : kz 1 call_kmem2 = Ret (0x1002000, call_kmem)) by (vm_compute; reflexivity).
  pose proof (kz_spans 1 _ _ _ _ H0 ltac:(lia) E1) as S1. rewrite decide_False in S1 by done.
  pose proof (kz_spans 1 _ _ _ _ (proj2 S1) ltac:(lia) E2) as S2. rewrite decide_False in S2 by done.
  pose proof (kz_spans 1 _ _ _ _ (proj2 S2) ltac:(lia) E3) as S3. rewrite decide_False in S3 by done.
  unfold call_spans. change (pages_for 1) with 1 in S3. exact (proj2 S3).
Qed.

Lemma call_kmem_next :
  kz 1024 call_kmem = Ret (0x1003000, heap_after (kz 1024 call_kmem)) /\
  kz 100 call_kmem = Ret (0x1003000, heap_after (kz 100 call_kmem)).
Proof. split; vm_compute; reflexivity. Qed.

Definition caller (b : bool) : process := set_priv b (set_screen 0x1002000 (new_process 1)).
Definition caller_task (c : paging_4gb_chunk) : task := mk_task c zero_regs 0x1000000 true 0 0.

(** The process at 0x1000000 has its stack at 0x1001000. *)
Definition call_state (ar : gmap Z (list Z)) (c : paging_4gb_chunk) (b : bool) (content : list Z) (sc : screen)
    (t : term) : kst kmem unit :=
  mk_kst (mk_tstate (mk_pstate call_kmem ar 0) {[1 := caller_task c]} ∅ 1 1 1)
    (mk_vfs (mk_pp call_kmem ∅ ∅ ∅, tt) [] [] ∅ []) {[0x1000000 := caller b]} {[0x1002000 := sc]} ∅
    {[0x1001000 := content]} (0 :: 0x1000000 :: replicate 48 0) 0x1000000 t zero_screen false.
Definition call_frame : interrupt_frame := mk_frame 0 0 0 0 0 0 0 0 0 0 0 0x1001000 0.

Lemma call_tables : exists ar c tabs, dir_wf ar (directory_entry c) tabs /\
  forall va, 0 <= va < 4294967296 -> maps ar (directory_entry c) va va.
Proof.
  pose proof big_room as Hroom. revert Hroom. generalize big_pstate, big_kmem_ok. intros s0 Hok Hroom.
  destruct (new_4gb_spec 7 s0 Hok ltac:(lia) ltac:(unfold proom; lia)) as (c & tabs & s1 & _ & _ & Hwf & Hp & _).
  exists (parrays s1), c, tabs. split; [exact Hwf|]. intros va Hva. exists 7. split_and!; [lia..|done|].
  apply Hp. unfold NPAGES. zlia.
Qed.

Section caller.
Context (ar : gmap Z (list Z)) (c : paging_4gb_chunk) (b : bool) (content : list Z) (sc : screen) (t : term).
Context (Hid : forall va, 0 <= va < 4294967296 -> maps ar (directory_entry c) va va) (Hlen : (length content <= 4096)%nat).

Lemma caller_running : running (call_state ar c b content sc t) 1 (caller_task c) 0x1000000 (caller b).
Proof. split; done. Qed.

Lemma caller_backed : backed (call_state ar c b content sc t) call_spans.
Proof using Hlen.
  split; [apply call_kmem_spans|..]; try done.
  - intros a l Ha. cbn in Ha. apply lookup_singleton_Some in Ha as [<- <-]. exists 1. split; [done|lia].
  - intros a Ha. unfold call_spans in Ha. rewrite !lookup_insert_None, lookup_singleton_None in Ha.
    cbn. rewrite !lookup_singleton_ne by naive_solver. done.
Qed.

Lemma caller_proc_ok tabs :
  dir_wf ar (directory_entry c) tabs -> proc_ok (call_state ar c b content sc t) 0x1000000 (caller b) c tabs call_spans.
Proof.
  intros Hwf. assert (Hno : forall i a z, allocations (caller b) !! i = Some (a, z) -> a = 0).
  { intros i a z. change (allocations (caller b)) with (replicate 1024 (0, 0)). by intros [[= <- <-] _]%lookup_replicate_1. }
  split; [apply call_kmem_spans|done|by eexists| |done|done|..].
  - by exists (caller_task c).
  - intros i a z Hi Ha. by apply Hno in Hi.
  - intros i j a z z' Hi _ Ha. by apply Hno in Hi.
Qed.

Lemma caller_bytes pre l post :
  content = pre ++ l ++ post -> virt_bytes (call_state ar c b content sc t) ar (directory_entry c) (0x1001000 + Z.of_nat (length pre)) l.
Proof using Hid Hlen.
  intros ->. rewrite !length_app in Hlen. split; [lia|]. intros i x Hi. pose proof (lookup_lt_Some _ _ _ Hi).
  eexists. split; [apply Hid; lia|]. exists 0x1001000, (pre ++ l ++ post). split; [left; done|]. split; [lia|].
  replace (Z.to_nat _) with (length pre + i)%nat by lia. rewrite lookup_app_r by lia.
  replace (length pre + i - length pre)%nat with i by lia. by apply lookup_app_l_Some.
Qed.

Lemma caller_word v post :
  content = le_split 4 v ++ post -> 0 <= v < 4294967296 -> stack_word (call_state ar c b content sc t) ar (directory_entry c) 0x1001000 0 v.
Proof using Hid Hlen. intros Hc Hv. split; [done|]. apply (caller_bytes [] (le_split 4 v) post Hc). Qed.
End caller.

Definition demo_call (c : paging_4gb_chunk) : Z -> interrupt_frame -> func kmem unit :=
  call ∅ (fun d : no_drive => d) (fun d _ => d) c [] (fun n => replicate (Z.to_nat n) 0) 10.
Definition demo_screen : screen := scr_of false (replicate 2000 0x0F20, 0%nat).
Definition demo_term : term := term_of (replicate 2000 0x0F41, 5%nat) 0.

Lemma unprivileged_refused_witness :
  exists ar c s', demo_call c 18 call_frame (mk_sys (call_state ar c false [] demo_screen demo_term) [] acpi_start) =
    Ret (inl (- ENOTPRIV), mk_sys s' [] acpi_start).
Proof.
  destruct call_tables as (ar & c & tabs & _).
  exists ar, c. eexists. unfold demo_call.
  rewrite (unprivileged_refused ∅ (fun d : no_drive => d) (fun d _ => d) c [] (fun n => replicate (Z.to_nat n) 0) 10
             18 call_frame (call_state ar c false [] demo_screen demo_term) [] acpi_start 1 (caller_task c) 0x1000000 (caller false)).
  - reflexivity.
  - apply caller_running.
  - reflexivity.
  - apply (list_elem_of_further 18), list_elem_of_here.
Defined.

Lemma malloc_syscall_witness :
  exists ar c s', demo_call c 4 call_frame (mk_sys (call_state ar c false (le_split 4 100) demo_screen demo_term) [] acpi_start) =
      Ret (inl 0x1003000, mk_sys s' [] acpi_start) /\ user_load 0x1003063 s' = Ret (0, s').
Proof.
  destruct call_tables as (ar & c & tabs & Hwf & Hid). assert (Hl : (length (le_split 4 100) <= 4096)%nat) by (simpl; lia).
  destruct (malloc_syscall ∅ (fun d : no_drive => d) (fun d _ => d) c [] (fun n => replicate (Z.to_nat n) 0) 10
              call_frame (call_state ar c false (le_split 4 100) demo_screen demo_term) [] acpi_start 1 (caller_task c) 0x1000000 (caller false)
              tabs call_spans 100 0x1003000 (heap_after (kz 100 call_kmem)) 0 0)
    as (s' & Hs & _ & _ & _ & _ & Hload).
  - apply caller_running.
  - by apply caller_proc_ok.
  - by apply caller_backed.
  - by apply (caller_word ar c false (le_split 4 100) demo_screen demo_term Hid Hl 100 []).
  - lia.
  - apply call_kmem_next.
  - lia.
  - reflexivity.
  - lia.
  - exists ar, c, s'. split; [exact Hs|]. apply Hload. lia.
Defined.

Definition hi_stack : list Z := le_split 4 0x1001004 ++ [72; 105; 0].

Lemma print_syscall_witness :
  exists ar c s', demo_call c 1 call_frame (mk_sys (call_state ar c false hi_stack demo_screen demo_term) [] acpi_start) =
      Ret (inl 0, mk_sys s' [] acpi_start) /\
    screens s' !! 0x1002000 = Some (scr_of false (foldl screen_step (replicate 2000 0x0F20, 0%nat) [72; 105])) /\
    terminal s' = demo_term.
Proof.
  destruct call_tables as (ar & c & tabs & Hwf & Hid). assert (Hl : (length hi_stack <= 4096)%nat) by (simpl; lia).
  destruct (print_syscall ∅ (fun d : no_drive => d) (fun d _ => d) c [] (fun n => replicate (Z.to_nat n) 0) 10
              call_frame (call_state ar c false hi_stack demo_screen demo_term) [] acpi_start 1 (caller_task c) 0x1000000 (caller false)
              tabs call_spans 0x1001004 [72; 105] 0x1003000 (heap_after (kz 1024 call_kmem)) demo_screen
              (replicate 2000 0x0F20, 0%nat)) as (h & s' & Hs & _ & Hs').
  - apply caller_running.
  - by apply caller_backed.
  - exact Hwf.
  - by apply (caller_word ar c false hi_stack demo_screen demo_term Hid Hl 0x1001004 [72; 105; 0]).
  - split_and!; [repeat constructor; lia|simpl; lia| |right].
    + by apply (caller_bytes ar c false hi_stack demo_screen demo_term Hid Hl (le_split 4 0x1001004) [72; 105] [0]).
    + by apply (virt_bytes_cons _ _ _ _ 0 []),
        (caller_bytes ar c false hi_stack demo_screen demo_term Hid Hl (le_split 4 0x1001004 ++ [72; 105]) [0] []).
  - apply call_kmem_next.
  - lia.
  - intros i Hi. simpl in Hi. zlia.
  - reflexivity.
  - reflexivity.
  - split_and!; [split; [reflexivity|apply Forall_replicate; lia]|simpl; lia|]. split; [reflexivity|]. exists 15.
    split_and!; [lia|lia|apply Forall_replicate; reflexivity|vm_compute; reflexivity].
  - repeat constructor; unfold text_char; lia.
  - vm_compute; reflexivity.
  - exists ar, c, s'. split; [exact Hs|]. rewrite Hs'. split; reflexivity.
Defined.

Definition inf_stack : list Z := le_split 4 1 ++ [42].

Lemma process_inf_exposes_kernel_witness :
  exists ar c s', demo_call c 15 call_frame (mk_sys (call_state ar c true inf_stack demo_screen demo_term) [] acpi_start) =
      Ret (inl 0x1000000, mk_sys s' [] acpi_start) /\ user_load 0x1001004 s' = Ret (42, s').
Proof.
  destruct call_tables as (ar & c & tabs & Hwf & Hid). assert (Hl : (length inf_stack <= 4096)%nat) by (simpl; lia).
  destruct (process_inf_exposes_kernel ∅ (fun d : no_drive => d) (fun d _ => d) c [] (fun n => replicate (Z.to_nat n) 0) 10
              call_frame (call_state ar c true inf_stack demo_screen demo_term) [] acpi_start 1 (caller_task c) 0x1000000 (caller true)
              tabs call_spans 1 0x1000000) as (s' & Hs & _ & Hread).
  - apply caller_running.
  - by apply caller_backed.
  - reflexivity.
  - exact Hwf.
  - by apply (caller_word ar c true inf_stack demo_screen demo_term Hid Hl 1 [42]).
  - lia.
  - reflexivity.
  - lia.
  - reflexivity.
  - unfold sizeof_process. lia.
  - exists ar, c, s'. split; [exact Hs|]. apply Hread; [unfold sizeof_process; lia|].
    exists 0x1001000, inf_stack. split; [left; reflexivity|]. split; [lia|reflexivity].
Defined.
