(* ===== verification/FileCallsSpec.v ===== *)
(** * Files through system calls

    From the gate to the bytes in the memory of a program: the handler of fread,
    the virtual file system, a driver and back.  The first part holds for any
    driver, the second is the FAT16 one. *)
From S2P Require Import Prelude Config CMem CString Heap HeapSpec Kheap AllocSpans Paging PagingSpec AddressSpace.
From S2P Require Import UserString UserCommand UserStdio UserRuntime UserPrograms UserProgramsSpec.
From S2P Require Import PathParser Keyboard Disk Streamer AtaDevice Vfs VfsSpec Fat16 FatChain Fat16Spec FatDirs FatMount FatDirsSpec FatMountSpec FileRefines.
From S2P Require Import Elf Task TaskSpec Terminal Power Screen Process ProcessSpec ProcessMemory.
From S2P Require Import UserMem UserMemSpec Syscalls SyscallsSpec.

#[local] Notation f_pos := UserProgramsSpec.f_pos.
#[local] Arguments Nat.mul : simpl never.

Section calls.
Context {H : Type} `{AllocatorSpans H} {F : Type} (drivers : gmap Z (filesystem_ops (fsst H F))).
Context {D : Type} `{Ports D} (dev_of : F -> D) (with_dev : D -> F -> F).
Context (kernel_chunk : paging_4gb_chunk) (low_memory : list Z) (uninit : Z -> list Z) (fuel : nat).
Implicit Types s : kst H F.

Definition set_kfiles (v : vfs H F) s : kst H F :=
  mk_kst (ksched s) v (pobjs s) (screens s) (elfs s) (blocks s) (processes s) (current_process s) (terminal s)
    (directory_screen s) (directory_screen_is_current s).

(** A physical address behind an argument. *)
Lemma arg_physical_paged d ar h s m c t p x i va pa :
  running s c t p x -> backed s m -> stack_word s ar (directory_entry (page_directory t)) (esp (regs t)) i va ->
  maps ar (directory_entry (page_directory t)) va pa ->
  arg_physical kernel_chunk i (paged d ar h s) = Ret (pa, paged (directory_entry kernel_chunk) ar h s).
Proof.
  intros [Hc Hz Ht Hp Hx] Hbk [Hv Hb] (fl & Hva & Hpa & Hmod & Hfl & _ & Hpte). unfold arg_physical.
  step (task_current_paged d ar h s). rewrite Hc.
  step (task_get_stack_item_spec kernel_chunk d ar h s m c t i va Hbk Ht Hv Hb).
  apply on_sched_paged. unfold task_virtual_address_to_physical. set (st := ksched _).
  step (load_task_spec st c t Ht). rewrite bind_getS.
  pose proof (physical_address ar (directory_entry (page_directory t)) (va / 4096) (va mod 4096) (pa / 4096) fl) as Hph.
  replace (va / 4096 * 4096 + va mod 4096) with va in Hph by zlia.
  replace (pa / 4096 * 4096 + va mod 4096) with pa in Hph by zlia.
  change (parrays (tpaging st)) with ar. unfold liftO. rewrite Hph; [done|unfold NPAGES; zlia..|done].
Qed.

(** The file behind a pointer into a process. *)
Lemma file_at_spec s p x i :
  pobjs s !! p = Some x -> 0 <= i < NFILE ->
  (forall q y, pobjs s !! q = Some y -> is_Some (iob_entry q (p + IOB_OFFSET + 4 * i)) -> q = p) ->
  file_at (p + IOB_OFFSET + 4 * i) s = Ret ((p, i), s).
Proof.
  intros Hp Hi Hu. unfold file_at. rewrite bind_getS. set (fp := p + IOB_OFFSET + 4 * i) in *.
  assert (Hiob : iob_entry p fp = Some i).
  { unfold iob_entry, NFILE in *. replace (fp - (p + IOB_OFFSET)) with (4 * i) by (unfold fp; lia).
    rewrite (proj2 (Z.leb_le 0 _)), (proj2 (Z.ltb_lt _ _)), (proj2 (Z.eqb_eq _ _)) by zlia. cbn [andb]. f_equal. zlia. }
  set (g := fun q : Z * process => _). assert (Hg : forall q, q ∈ map_to_list (pobjs s) -> g q = if decide (q.1 = p) then Some (p, i) else None).
  { intros [q y] Hq%elem_of_map_to_list. unfold g. cbn [fst snd]. case_decide as Hd; [subst q; by rewrite Hiob|].
    destruct (iob_entry q fp) eqn:E; [|done]. exfalso. apply Hd, (Hu q y Hq). by rewrite E. }
  assert (Hin : (p, x) ∈ map_to_list (pobjs s)) by by apply elem_of_map_to_list.
  assert (E : hd_error (omap g (map_to_list (pobjs s) : list _)) = Some (p, i)); [|by rewrite E].
  revert Hg Hin. generalize (map_to_list (pobjs s) : list _). intros l Hg Hin.
  induction l as [|q l IH]; [by apply not_elem_of_nil in Hin|]. cbn [omap list_omap]. rewrite (Hg q) by left.
  case_decide as Hd; [done|]. apply IH; [intros q' Hq'; apply Hg; by right|].
  apply elem_of_cons in Hin as [<-|Hin]; [by destruct Hd|done].
Qed.

(** A block of which some bytes were replaced. *)
Lemma patched_backed s m b (l l' : list Z) v :
  backed s m -> blocks s !! b = Some l -> length l' = length l ->
  backed (set_blocks (<[b := l']> (blocks s)) (set_kfiles v s)) m.
Proof.
  intros [Hsp Hb He Hi Ho] Hl Hll. split; try done.
  - intros a k Ha. cbn in Ha. apply lookup_insert_Some in Ha as [[<- <-]|[_ Ha]]; [|by apply Hb].
    destruct (Hb b l Hl) as (n & Hn & Hnl). exists n. by rewrite Hll.
  - intros e g Heg. destruct (He e g Heg) as [Hno Hn]. split; [|done]. cbn. rewrite lookup_insert_ne; [done|].
    intros ->. congruence.
Qed.

Lemma phys_write_spec s m b l pa bs :
  backed s m -> blocks s !! b = Some l -> b <= pa -> pa + Z.of_nat (length bs) <= b + Z.of_nat (length l) -> bs <> [] ->
  phys_write pa bs s =
    Ret (tt, set_blocks (<[b := take (Z.to_nat (pa - b)) l ++ bs ++ drop (Z.to_nat (pa - b) + length bs) l]> (blocks s)) s).
Proof.
  intros Hbk Hl Hlo Hhi Hne. unfold phys_write. rewrite bind_getS.
  assert (0 < length bs)%nat by (destruct bs; simpl; [done|lia]).
  rewrite (block_at_spec s m b l pa Hbk Hl) by lia. unfold patch.
  rewrite (proj2 (Z.leb_le 0 _)), (proj2 (Z.leb_le _ (Z.of_nat (length l)))) by lia. done.
Qed.

(** What a program may rely on when it reads with the file behind [fp]: the
    pointer is one of its own, and no other process's record is in the way. *)
Record file_pointer s (p : Z) (x : process) (i fp fd : Z) : Prop := {
  fp_eq : fp = p + IOB_OFFSET + 4 * i;
  fp_index : 0 <= i < NFILE;
  fp_open : load (iob x) i = Ret fd;
  fp_alone : forall q y, pobjs s !! q = Some y -> is_Some (iob_entry q fp) -> q = p
}.

(** The buffer of [n] bytes at the virtual address [va] is in the block [b] of
    the program, at [pa]. *)
Record user_buffer s (ar : gmap Z (list Z)) (dir va pa b : Z) (l : list Z) (n : nat) : Prop := {
  ub_maps : forall j, 0 <= j < Z.of_nat n -> maps ar dir (va + j) (pa + j);
  ub_block : blocks s !! b = Some l;
  ub_low : b <= pa;
  ub_high : pa + Z.of_nat n <= b + Z.of_nat (length l)
}.

(** The block after the bytes [bs] were put at [off]. *)
Definition patched (l : list Z) (off : Z) (bs : list Z) : list Z :=
  take (Z.to_nat off) l ++ bs ++ drop (Z.to_nat off + length bs) l.

Lemma length_patched l off bs : 0 <= off -> off + Z.of_nat (length bs) <= Z.of_nat (length l) -> length (patched l off bs) = length l.
Proof. intros. unfold patched. rewrite !length_app, length_take, length_drop. lia. Qed.

Lemma patched_in l off bs (j : nat) c :
  0 <= off -> off + Z.of_nat (length bs) <= Z.of_nat (length l) -> bs !! j = Some c ->
  patched l off bs !! (Z.to_nat off + j)%nat = Some c.
Proof.
  intros Ho Hl Hj. unfold patched. pose proof (length_take l (Z.to_nat off)) as Ht.
  rewrite lookup_app_r by lia. replace (Z.to_nat off + j - length (take (Z.to_nat off) l))%nat with j by lia.
  by apply lookup_app_l_Some.
Qed.

(** The parts of a handler. *)
Lemma load_fp_spec s p x i fp fd : file_pointer s p x i fp fd -> pobjs s !! p = Some x -> load_fp fp s = Ret (fd, s).
Proof.
  intros [-> Hi Hopen Hu] Hp. unfold load_fp. step (file_at_spec s p x i Hp Hi Hu). step (load_proc_spec s p x Hp).
  unfold liftO. by rewrite Hopen.
Qed.

Lemma with_fp_spec f s rc pw c t p x bm fp i fd (body : Z -> cmd (kst H F) Z) r e' :
  running s c t p x -> backed s bm -> stack_word s (arrays_of s) (directory_entry (page_directory t)) (f_esp f) 0 fp ->
  file_pointer s p x i fp fd -> body fp (entered kernel_chunk f c t s) = Ret (r, e') ->
  with_fp kernel_chunk body (mk_sys (entered kernel_chunk f c t s) rc pw) = Ret (inl r, mk_sys e' rc pw).
Proof.
  intros Hrun Hbk Ha [Hfp Hi _ _] Hbody. pose proof (saved_running f s c t p x Hrun) as Hrun'.
  set (k := directory_entry kernel_chunk). set (s0 := saved f c t s) in *. unfold with_fp. apply returns_spec.
  step (arg_paged kernel_chunk k (arrays_of s) (heap_of s) s0 bm _ _ _ _ 0 fp Hrun' (saved_backed f s c t bm Hbk) Ha).
  step (current_process_paged k (arrays_of s) (heap_of s) s0 _ _ _ _ Hrun').
  assert (Hbad : bad_fp p fp = false).
  { unfold bad_fp, NFILE in *. rewrite (proj2 (Z.ltb_ge _ _)), (proj2 (Z.ltb_ge _ _)) by lia. done. }
  rewrite Hbad. exact Hbody.
Qed.

Lemma on_files_spec {A} (k : cmd (vfs H F) A) f s c t a v' :
  k (files_with (heap_of s) (kfiles s)) = Ret (a, v') -> ppalloc (fst (vst v')) = heap_of s ->
  on_files k (entered kernel_chunk f c t s) = Ret (a, set_kfiles v' (entered kernel_chunk f c t s)).
Proof.
  intros E Hh. set (e := entered kernel_chunk f c t s). unfold on_files.
  change (files_with (heap_of e) (kfiles e)) with (files_with (heap_of s) (kfiles s)). rewrite E. cbn [mbind outcome_bind].
  by rewrite Hh.
Qed.

(** From a handler that only changes files and blocks to the return. *)
Lemma file_call_returns cmd f s rc pw c t p x bm body r v' m' :
  running s c t p x -> 0 <= cmd < SERPAEOS_MAX_ISR80H_COMMANDS ->
  isr80h_command drivers dev_of with_dev kernel_chunk low_memory uninit fuel cmd = Some body ->
  body (mk_sys (entered kernel_chunk f c t s) rc pw) =
    Ret (inl r, mk_sys (set_blocks m' (set_kfiles v' (entered kernel_chunk f c t s))) rc pw) ->
  backed (set_blocks m' (set_kfiles v' (entered kernel_chunk f c t s))) bm ->
  exists s', call drivers dev_of with_dev kernel_chunk low_memory uninit fuel cmd f (mk_sys s rc pw) = Ret (inl r, mk_sys s' rc pw) /\
    resumed f c t s' /\ running s' c (set_regs (frame_regs f) t) p x /\ backed s' bm /\ kfiles s' = v' /\ blocks s' = m' /\
    pobjs s' = pobjs s /\ arrays_of s' = arrays_of s /\ heap_of s' = heap_of s /\
    (forall va y, virt_byte s' (arrays_of s) (directory_entry (page_directory t)) va y -> user_load va s' = Ret (y, s')).
Proof.
  intros Hrun Hcmd Hid Hbody Hbk. pose proof (saved_running f s c t p x Hrun) as Hrun'. set (e' := set_blocks _ _) in *.
  assert (Ht' : tasks (ksched e') !! c = Some (set_regs (frame_regs f) t)) by apply (rn_task _ _ _ _ _ Hrun').
  eexists. split; [apply (call_returns drivers dev_of with_dev kernel_chunk low_memory uninit fuel cmd f s rc pw c t p x _ _ e' rc _ Hrun
    Hcmd Hid Hbody (rn_current _ _ _ _ _ Hrun') Ht')|].
  split; [split; [apply (rn_current _ _ _ _ _ Hrun')|done]|]. split; [by destruct Hrun'; split|]. split; [by destruct Hbk; split|].
  repeat (split; [done|]). intros va y Hv. by apply (user_load_spec _ _ _ e' bm).
Qed.

(** ** Reading *)
Lemma fread_call f s rc pw c t p x bm fp i fd count va pa b l res bs v' :
  running s c t p x -> backed s bm ->
  let dir := directory_entry (page_directory t) in
  stack_word s (arrays_of s) dir (f_esp f) 0 fp -> stack_word s (arrays_of s) dir (f_esp f) 1 count ->
  stack_word s (arrays_of s) dir (f_esp f) 2 va -> file_pointer s p x i fp fd ->
  fread drivers fd (s32 count) (files_with (heap_of s) (kfiles s)) = Ret ((res, bs), v') -> ppalloc (fst (vst v')) = heap_of s ->
  bs <> [] -> user_buffer s (arrays_of s) dir va pa b l (length bs) ->
  exists s', call drivers dev_of with_dev kernel_chunk low_memory uninit fuel 12 f (mk_sys s rc pw) = Ret (inl res, mk_sys s' rc pw) /\
    resumed f c t s' /\ running s' c (set_regs (frame_regs f) t) p x /\ backed s' bm /\ kfiles s' = v' /\
    blocks s' = <[b := patched l (pa - b) bs]> (blocks s) /\ pobjs s' = pobjs s /\ arrays_of s' = arrays_of s /\ heap_of s' = heap_of s /\
    forall (j : nat) y, bs !! j = Some y -> user_load (va + Z.of_nat j) s' = Ret (y, s').
Proof.
  intros Hrun Hbk dir Ha0 Ha1 Ha2 Hf Hread Hheap Hne [Hmaps Hl Hlo Hhi]. pose proof (saved_running f s c t p x Hrun) as Hrun'.
  pose proof (saved_backed f s c t bm Hbk) as Hbk'. set (k := directory_entry kernel_chunk).
  assert (Hpos : (0 < length bs)%nat) by (destruct bs; simpl; [done|lia]).
  assert (Hm : maps (arrays_of s) dir va pa) by (specialize (Hmaps 0 ltac:(lia)); by rewrite !Z.add_0_r in Hmaps).
  set (e := entered kernel_chunk f c t s). set (l' := patched l (pa - b) bs).
  assert (Hl' : length l' = length l) by (apply length_patched; lia).
  pose proof (entered_backed kernel_chunk f s c t bm Hbk) as Hbke. fold e in Hbke.
  assert (Hbkv : backed (set_kfiles v' e) bm) by (by destruct Hbke).
  pose proof (phys_write_spec (set_kfiles v' e) bm b l pa bs Hbkv Hl Hlo Hhi Hne) as Hw. fold (patched l (pa - b) bs) in Hw. fold l' in Hw.
  assert (Hbody : isr80h_command12_fread drivers kernel_chunk (mk_sys e rc pw) =
    Ret (inl res, mk_sys (set_blocks (<[b := l']> (blocks s)) (set_kfiles v' e)) rc pw)).
  { apply (with_fp_spec f s rc pw c t p x bm fp i fd); try done.
    step (arg_paged kernel_chunk k (arrays_of s) (heap_of s) (saved f c t s) bm _ _ _ _ 1 count Hrun' Hbk' Ha1).
    step (arg_physical_paged k (arrays_of s) (heap_of s) (saved f c t s) bm _ _ _ _ 2 va pa Hrun' Hbk' Ha2 Hm).
    assert (Hfe : file_pointer e p x i fp fd) by (by destruct Hf; split).
    change (paged (directory_entry kernel_chunk) (arrays_of s) (heap_of s) (saved f c t s)) with e.
    step (load_fp_spec e p x i fp fd Hfe (rn_object _ _ _ _ _ Hrun')). step (on_files_spec _ f s c t _ v' Hread Hheap).
    rewrite bool_decide_eq_false_2 by done. fold e. by step Hw. }
  destruct (file_call_returns 12 f s rc pw c t p x bm _ res v' _ Hrun ltac:(unfold SERPAEOS_MAX_ISR80H_COMMANDS; lia) eq_refl Hbody
    (patched_backed e bm b l l' v' Hbke Hl Hl')) as (s' & E & Hres & Hrs & Hbs & Hk & Hb & Hp & Har & Hh & Hload).
  exists s'. repeat (split; [done|]). intros j y Hj. pose proof (lookup_lt_Some _ _ _ Hj) as Hjl. apply Hload.
  exists (pa + Z.of_nat j). split; [apply Hmaps; lia|]. exists b, l'. split; [left; rewrite Hb; by rewrite lookup_insert_eq|].
  split; [lia|]. replace (Z.to_nat (pa + Z.of_nat j - b)) with (Z.to_nat (pa - b) + j)%nat by lia. apply patched_in; [lia|lia|done].
Qed.

(** ** Seeking and telling *)
Lemma set_blocks_same s : set_blocks (blocks s) s = s.
Proof. by destruct s. Qed.

Lemma fseek_call f s rc pw c t p x bm fp i fd offset whence res v' :
  running s c t p x -> backed s bm ->
  let dir := directory_entry (page_directory t) in
  stack_word s (arrays_of s) dir (f_esp f) 0 fp -> stack_word s (arrays_of s) dir (f_esp f) 1 offset ->
  stack_word s (arrays_of s) dir (f_esp f) 2 whence -> file_pointer s p x i fp fd ->
  fseek drivers fd (s32 offset) whence (files_with (heap_of s) (kfiles s)) = Ret (res, v') -> ppalloc (fst (vst v')) = heap_of s ->
  exists s', call drivers dev_of with_dev kernel_chunk low_memory uninit fuel 22 f (mk_sys s rc pw) = Ret (inl res, mk_sys s' rc pw) /\
    resumed f c t s' /\ running s' c (set_regs (frame_regs f) t) p x /\ backed s' bm /\ kfiles s' = v' /\
    blocks s' = blocks s /\ pobjs s' = pobjs s /\ arrays_of s' = arrays_of s /\ heap_of s' = heap_of s.
Proof.
  intros Hrun Hbk dir Ha0 Ha1 Ha2 Hf Hseek Hheap. pose proof (saved_running f s c t p x Hrun) as Hrun'.
  pose proof (saved_backed f s c t bm Hbk) as Hbk'. set (k := directory_entry kernel_chunk).
  set (e := entered kernel_chunk f c t s). pose proof (entered_backed kernel_chunk f s c t bm Hbk) as Hbke. fold e in Hbke.
  assert (Hbody : isr80h_command22_fseek drivers kernel_chunk (mk_sys e rc pw) =
    Ret (inl res, mk_sys (set_blocks (blocks s) (set_kfiles v' e)) rc pw)).
  { apply (with_fp_spec f s rc pw c t p x bm fp i fd); try done.
    step (arg_paged kernel_chunk k (arrays_of s) (heap_of s) (saved f c t s) bm _ _ _ _ 1 offset Hrun' Hbk' Ha1).
    step (arg_paged kernel_chunk k (arrays_of s) (heap_of s) (saved f c t s) bm _ _ _ _ 2 whence Hrun' Hbk' Ha2).
    assert (Hfe : file_pointer e p x i fp fd) by (by destruct Hf; split).
    change (paged (directory_entry kernel_chunk) (arrays_of s) (heap_of s) (saved f c t s)) with e.
    step (load_fp_spec e p x i fp fd Hfe (rn_object _ _ _ _ _ Hrun')). exact (on_files_spec (fseek drivers fd (s32 offset) whence) f s c t _ v' Hseek Hheap). }
  destruct (file_call_returns 22 f s rc pw c t p x bm _ res v' _ Hrun ltac:(unfold SERPAEOS_MAX_ISR80H_COMMANDS; lia) eq_refl Hbody)
    as (s' & E & Hres & Hrs & Hbs & Hk & Hb & Hp & Har & Hh & _); [by destruct Hbke; split|]. by exists s'.
Qed.

Lemma ftell_call f s rc pw c t p x bm fp i fd res v' :
  running s c t p x -> backed s bm -> stack_word s (arrays_of s) (directory_entry (page_directory t)) (f_esp f) 0 fp ->
  file_pointer s p x i fp fd ->
  ftell drivers fd (files_with (heap_of s) (kfiles s)) = Ret (res, v') -> ppalloc (fst (vst v')) = heap_of s ->
  exists s', call drivers dev_of with_dev kernel_chunk low_memory uninit fuel 21 f (mk_sys s rc pw) = Ret (inl res, mk_sys s' rc pw) /\
    resumed f c t s' /\ running s' c (set_regs (frame_regs f) t) p x /\ backed s' bm /\ kfiles s' = v' /\
    blocks s' = blocks s /\ pobjs s' = pobjs s /\ arrays_of s' = arrays_of s /\ heap_of s' = heap_of s.
Proof.
  intros Hrun Hbk Ha0 Hf Htell Hheap. pose proof (saved_running f s c t p x Hrun) as Hrun'.
  set (e := entered kernel_chunk f c t s). pose proof (entered_backed kernel_chunk f s c t bm Hbk) as Hbke. fold e in Hbke.
  assert (Hbody : isr80h_command21_ftell drivers kernel_chunk (mk_sys e rc pw) =
    Ret (inl res, mk_sys (set_blocks (blocks s) (set_kfiles v' e)) rc pw)).
  { apply (with_fp_spec f s rc pw c t p x bm fp i fd); try done.
    assert (Hfe : file_pointer e p x i fp fd) by (by destruct Hf; split). fold e.
    step (load_fp_spec e p x i fp fd Hfe (rn_object _ _ _ _ _ Hrun')). exact (on_files_spec (ftell drivers fd) f s c t _ v' Htell Hheap). }
  destruct (file_call_returns 21 f s rc pw c t p x bm _ res v' _ Hrun ltac:(unfold SERPAEOS_MAX_ISR80H_COMMANDS; lia) eq_refl Hbody)
    as (s' & E & Hres & Hrs & Hbs & Hk & Hb & Hp & Har & Hh & _); [by destruct Hbke; split|]. by exists s'.
Qed.
End calls.

(** ** The system calls on a file, against the file as its user sees it *)
Inductive file_call :=
  | ReadCall (n va : Z)
  | SeekCall (offset whence : Z)
  | TellCall.

Definition call_number (q : file_call) : Z :=
  match q with ReadCall _ _ => 12 | SeekCall _ _ => 22 | TellCall => 21 end.

(** What the program pushed, the file first. *)
Definition call_args (fp : Z) (q : file_call) : list Z :=
  match q with ReadCall n va => [fp; n; va] | SeekCall offset whence => [fp; offset; whence] | TellCall => [fp] end.

(** What a call is: its result, the bytes the program gets and the file after
    it. *)
Definition serve (f : ofile) (q : file_call) : Z * list Z * ofile :=
  match q with
  | ReadCall n _ => (0, piece f (f_pos f) n, seek_to (f_pos f + n) f)
  | SeekCall offset whence => (fst (seek_result f offset whence), [], seek_to (snd (seek_result f offset whence)) f)
  | TellCall => (s32 (f_pos f), [], f)
  end.

Lemma s32_unsigned z : 0 <= z < 4294967296 -> u32 (s32 z) = z.
Proof. intros. unfold s32, u32. zlia. Qed.

Section refinement.
Context {H : Type} `{AllocatorSpans H} {B : Type} `{BlockDevOk B} {D : Type} `{Ports D}.
Notation F := (fatfs B (Fat16.fatst B)).
Context (drivers : gmap Z (filesystem_ops (fsst H F))) (dev_of : F -> D) (with_dev : D -> F -> F).
Context (kernel_chunk : paging_4gb_chunk) (low_memory : list Z) (uninit : Z -> list Z) (fuel : nat).
Implicit Types s : kst H F.

(** The process [x] at [p] runs in the task [t] and has the file [f] open behind
    [fp], on a volume with clusters of [cs] bytes. *)
Record has_open s (c : Z) (t : task) (p : Z) (x : process) (fp cs : Z) (f : ofile) : Prop := {
  ho_running : running s c t p x;
  ho_backed : exists bm, backed s bm;
  ho_file : exists i fd, 0 < fd /\ file_pointer s p x i fp fd /\ reads_as drivers (files_with (heap_of s) (kfiles s)) fd cs f
}.

(** A read asks for bytes that are stored for the file, and from one cluster
    when it does not start at a cluster; its buffer is the program's. *)
Definition servable s (dir cs : Z) (f : ofile) (q : file_call) (pa b : Z) (l : list Z) : Prop :=
  match q with
  | ReadCall n va =>
      0 < n /\ f_pos f + n <= Z.of_nat (length (f_data f)) /\ f_pos f + n < 2147483648 /\
      (f_pos f mod cs = 0 \/ f_pos f mod cs + n <= cs) /\ user_buffer s (arrays_of s) dir va pa b l (Z.to_nat n)
  | _ => True
  end.

(** The memory of the machine after the call, and what the program finds. *)
Definition delivered s s' (q : file_call) (bs : list Z) (pa b : Z) (l : list Z) : Prop :=
  match q with
  | ReadCall _ va =>
      blocks s' = <[b := patched l (pa - b) bs]> (blocks s) /\
      forall (j : nat) y, bs !! j = Some y -> user_load (va + Z.of_nat j) s' = Ret (y, s')
  | _ => blocks s' = blocks s
  end.

Lemma same_files s' v' : kfiles s' = v' -> heap_of s' = ppalloc (fst (vst v')) -> files_with (heap_of s') (kfiles s') = v'.
Proof. intros -> ->. by destruct v' as [[[] ?] ? ? ? ?]. Qed.

(** C6: the system calls fread, fseek and ftell implement the file that a
    program works with, from the gate to the return: for a request that can be
    served the call comes back, with the result that the file gives, the bytes of
    the file are at the buffer for the program to load, no other block of memory
    and no page table has changed, and the process has the file open again, as
    the call leaves it. *)
Theorem file_calls_refine q f s rc pw c t p x fp cs fl pa b l res bs fl' :
  has_open s c t p x fp cs fl ->
  (forall (i : nat) v, call_args fp q !! i = Some v ->
     stack_word s (arrays_of s) (directory_entry (page_directory t)) (f_esp f) (Z.of_nat i) v) ->
  servable s (directory_entry (page_directory t)) cs fl q pa b l -> serve fl q = (res, bs, fl') ->
  exists s', call drivers dev_of with_dev kernel_chunk low_memory uninit fuel (call_number q) f (mk_sys s rc pw) =
      Ret (inl res, mk_sys s' rc pw) /\
    resumed f c t s' /\ delivered s s' q bs pa b l /\ pobjs s' = pobjs s /\ arrays_of s' = arrays_of s /\
    has_open s' c (set_regs (frame_regs f) t) p x fp cs fl'.
Proof.
  intros [Hrun [bm Hbk] (i & fd & Hfd & Hf & Hreads)] Hargs Hserve Hq.
  assert (Hfp : forall s', pobjs s' = pobjs s -> file_pointer s' p x i fp fd) by (intros s' E; destruct Hf; split; by rewrite ?E).
  destruct q as [n va|offset whence|]; cbn in Hserve, Hq; injection Hq as <- <- <-.
  - destruct Hserve as (Hn & Hend & Hmax & Hrd & Hbuf).
    assert (Hpos : 0 <= f_pos fl) by (destruct Hreads as (y & [] & _); lia).
    assert (Hlen : length (piece fl (f_pos fl) n) = Z.to_nat n) by (apply length_piece; lia).
    destruct (vfs_read drivers _ fd cs fl n Hreads Hn Hend Hmax Hrd) as (v' & E & Hr' & Hh).
    destruct (fread_call drivers dev_of with_dev kernel_chunk low_memory uninit fuel f s rc pw c t p x bm fp i fd n va pa b l 0
      (piece fl (f_pos fl) n) v' Hrun Hbk (Hargs 0%nat fp eq_refl) (Hargs 1%nat n eq_refl) (Hargs 2%nat va eq_refl) Hf)
      as (s' & Hc & Hres & Hrun' & Hbk' & Hk & Hb & Hp & Har & Hhp & Hload).
    + by rewrite s32_id by lia.
    + by rewrite Hh.
    + intros E'. rewrite E' in Hlen. simpl in Hlen. lia.
    + by rewrite Hlen.
    + exists s'. repeat (split; [done|]). split; [done|by exists bm|]. exists i, fd. split_and!; [done|by apply Hfp|].
      rewrite (same_files s' v' Hk); [done|]. by rewrite Hhp, Hh.
  - pose proof (proj1 (Hargs 1%nat offset eq_refl)) as Hoff.
    destruct (vfs_seek drivers _ fd cs fl (s32 offset) whence Hreads) as (v' & E & Hr' & Hh).
    rewrite s32_unsigned in E, Hr' by lia.
    destruct (fseek_call drivers dev_of with_dev kernel_chunk low_memory uninit fuel f s rc pw c t p x bm fp i fd offset whence
      _ v' Hrun Hbk (Hargs 0%nat fp eq_refl) (Hargs 1%nat offset eq_refl) (Hargs 2%nat whence eq_refl) Hf E)
      as (s' & Hc & Hres & Hrun' & Hbk' & Hk & Hb & Hp & Har & Hhp); [by rewrite Hh|].
    exists s'. repeat (split; [done|]). split; [done|by exists bm|]. exists i, fd. split_and!; [done|by apply Hfp|].
    rewrite (same_files s' v' Hk); [done|]. by rewrite Hhp, Hh.
  - pose proof (vfs_tell drivers _ fd cs fl Hreads Hfd) as E.
    destruct (ftell_call drivers dev_of with_dev kernel_chunk low_memory uninit fuel f s rc pw c t p x bm fp i fd
      _ _ Hrun Hbk (Hargs 0%nat fp eq_refl) Hf E)
      as (s' & Hc & Hres & Hrun' & Hbk' & Hk & Hb & Hp & Har & Hhp); [done|].
    exists s'. repeat (split; [done|]). split; [done|by exists bm|]. exists i, fd. split_and!; [done|by apply Hfp|].
    rewrite (same_files s' _ Hk); [done|]. by rewrite Hhp.
Qed.

(** The requests that [FilesOk] promises programs are among those that can be
    served, and are served as it says, whatever the volume. *)
Lemma reads_as_cluster kf fd cs fl : reads_as drivers kf fd cs fl -> 0 < cs /\ cs mod 512 = 0.
Proof.
  intros (y & Ho & ->). pose proof (fw_spc _ (oa_wf _ _ _ _ _ Ho)). unfold cluster_size. rewrite Z2Nat.id by lia.
  split; [lia|]. by apply Z.mod_mul.
Qed.

Lemma within_sector cs pos n : 0 < cs -> cs mod 512 = 0 -> 0 <= pos -> pos mod 512 + n <= 512 -> pos mod cs + n <= cs.
Proof.
  intros Hc Hm Hp Hn. apply Z.mod_divide in Hm as [k ->]; [|lia]. rewrite Z.mul_comm, Z.rem_mul_r by lia.
  pose proof (Z.mod_pos_bound (pos / 512) k ltac:(lia)). nia.
Qed.

Lemma promised_reads_served kf fd s dir cs fl n va pa b l :
  reads_as drivers kf fd cs fl -> 0 < n -> f_pos fl + n <= Z.of_nat (length (f_data fl)) -> f_pos fl + n < 2147483648 ->
  f_pos fl mod 512 + n <= 512 -> user_buffer s (arrays_of s) dir va pa b l (Z.to_nat n) ->
  servable s dir cs fl (ReadCall n va) pa b l /\
  serve fl (ReadCall n va) = (0, piece fl (f_pos fl) n, seek_to (f_pos fl + n) fl).
Proof.
  intros Hr Hn Hend Hmax Hs Hb. destruct (reads_as_cluster kf fd cs fl Hr) as [Hc Hm]. destruct Hr as (y & Ho & _).
  pose proof (oa_pos _ _ _ _ _ Ho). split; [|done]. split_and!; [done..|right; apply within_sector; done || lia|done].
Qed.
End refinement.

Lemma promised_seeks_served fl p :
  0 <= p < f_size fl -> f_size fl < 4294967296 ->
  serve fl (SeekCall p UserRuntime.SEEK_SET) = (0, [], seek_to p fl) /\
  serve fl (SeekCall p UserRuntime.SEEK_END) = (0, [], seek_to (f_size fl - p) fl).
Proof.
  intros Hp Hs. cbn [serve]. unfold seek_result. rewrite (proj2 (Z.leb_gt _ _)) by lia. cbn [fst snd].
  split; [change (UserRuntime.SEEK_SET =? Config.SEEK_SET) with true
         |change (UserRuntime.SEEK_END =? Config.SEEK_SET) with false; change (UserRuntime.SEEK_END =? Config.SEEK_END) with true];
    cbn [fst snd]; by rewrite u32_id by lia.
Qed.

Lemma promised_tell_served fl : 0 <= f_pos fl < 2147483648 -> serve fl TellCall = (f_pos fl, [], fl).
Proof. intros Hp. cbn [serve]. by rewrite s32_id by lia. Qed.

(** ** A program with an open file, for the witness *)
Definition open_kmem : kmem := heap_after (kz 1 call_kmem).
Definition open_spans : gmap Z Z := <[0x1003000 := 1]> call_spans.

Lemma open_kmem_spans : spans open_kmem open_spans.
Proof.
  assert (E : kz 1 call_kmem = Ret (0x1003000, open_kmem)) by (vm_compute; reflexivity).
  pose proof (kz_spans 1 _ _ _ _ call_kmem_spans ltac:(lia) E) as S. rewrite decide_False in S by done.
  change (pages_for 1) with 1 in S. exact (proj2 S).
Qed.

Definition open_desc : file_descriptor := mk_fd 1 100 (block 4) 0 1.
Definition open_vfs : vfs kmem (fatfs (ata_dev 64) (Fat16.fatst (ata_dev 64))) :=
  mk_vfs (mk_pp open_kmem ∅ ∅ ∅, snd demo_files) (replicate 12 0) (<[0%nat := 0x1003000]> (replicate 512 0))
    {[0x1003000 := open_desc]} (replicate 16 demo_disk).

Lemma open_table : fd_table open_vfs {[1 := open_desc]}.
Proof.
  pose proof open_kmem_spans as Hsp. split; [by eapply spans_ok|reflexivity| |].
  - intros fd d [<- _]%lookup_singleton_Some. lia.
  - intros i p Hi. change (file_descriptors open_vfs) with (<[0%nat := 0x1003000]> (replicate 512 0)) in Hi.
    destruct i as [|i].
    + injection Hi as <-. right. split; [discriminate|]. exists open_desc. split_and!; [reflexivity|reflexivity|reflexivity|].
      change (0x1003000 ∈ live_ptrs open_kmem). rewrite <- (spans_live _ _ Hsp). apply elem_of_dom. by exists 1.
    + left. rewrite list_lookup_insert_ne in Hi by lia. apply lookup_replicate in Hi as [-> _].
      split; [done|]. apply lookup_singleton_None. lia.
Qed.

Definition opener : process := set_iob (1 :: replicate 15 0) (caller false).
Definition open_fp : Z := 0x1000000 + IOB_OFFSET.

(** [fread(fp, 5, 0x100100c)]: the buffer is behind the arguments. *)
Definition read_stack : list Z := le_split 4 open_fp ++ le_split 4 5 ++ le_split 4 0x100100C ++ replicate 8 0.
Definition open_state (ar : gmap Z (list Z)) (c : paging_4gb_chunk) : kst kmem (fatfs (ata_dev 64) (Fat16.fatst (ata_dev 64))) :=
  mk_kst (mk_tstate (mk_pstate open_kmem ar 0) {[1 := caller_task c]} ∅ 1 1 1)
    open_vfs {[0x1000000 := opener]} {[0x1002000 := demo_screen]} ∅
    {[0x1001000 := read_stack]} (0 :: 0x1000000 :: replicate 48 0) 0x1000000 demo_term zero_screen false.

Lemma open_backed ar c : backed (open_state ar c) open_spans.
Proof.
  split; [apply open_kmem_spans|..]; try done.
  - intros a l Ha. cbn in Ha. apply lookup_singleton_Some in Ha as [<- <-]. exists 1. split; [done|]. vm_compute. discriminate.
  - intros a Ha. unfold open_spans, call_spans in Ha. rewrite !lookup_insert_None, lookup_singleton_None in Ha.
    cbn. rewrite !lookup_singleton_ne by naive_solver. done.
Qed.

Definition open_drivers : gmap Z (filesystem_ops (fsst kmem (fatfs (ata_dev 64) (Fat16.fatst (ata_dev 64))))) :=
  {[100 := fat16_fs [] 100 10 (mk_date 0 0 0 1 1 2020)]}.
Definition open_file : ofile := mk_ofile (replicate 512 7) 5 0.

Lemma open_reads ar c :
  reads_as open_drivers (files_with (heap_of (open_state ar c)) (kfiles (open_state ar c))) 1 512 open_file.
Proof.
  exists (mk_behind {[1 := open_desc]} open_desc demo_disk demo_volume demo_volume (block 0 + ROOT_OFFSET) (block 2) (block 5)
            (block 6) (entry_bytes entry_A) 1 [2] [] 10 (mk_date 0 0 0 1 1 2020)).
  split; [|reflexivity]. split; try reflexivity; try done.
  - exact open_table.
  - exact demo_volume_wf.
  - repeat constructor; vm_compute; discriminate.
  - repeat constructor; vm_compute; (discriminate || reflexivity).
Qed.

Lemma open_has ar c : has_open open_drivers (open_state ar c) 1 (caller_task c) 0x1000000 opener open_fp 512 open_file.
Proof.
  split; [by split|eexists; apply open_backed|]. exists 0, 1. split_and!; [lia| |apply open_reads].
  split; [reflexivity|unfold NFILE; lia|reflexivity|]. intros q y Hq _. cbn in Hq. by apply lookup_singleton_Some in Hq as [-> _].
Qed.

Section opener.
Context (ar : gmap Z (list Z)) (c : paging_4gb_chunk).
Context (Hid : forall va, 0 <= va < 4294967296 -> maps ar (directory_entry c) va va).

Lemma opener_word pre v post :
  read_stack = pre ++ le_split 4 v ++ post -> 0 <= v < 4294967296 ->
  virt_bytes (open_state ar c) ar (directory_entry c) (0x1001000 + Z.of_nat (length pre)) (le_split 4 v).
Proof using Hid.
  intros E Hv. assert (length read_stack = 20%nat) as Hl by reflexivity. rewrite E, !length_app in Hl.
  split; [lia|]. intros i x Hi. pose proof (lookup_lt_Some _ _ _ Hi). eexists. split; [apply Hid; lia|].
  exists 0x1001000, read_stack. split; [left; done|]. split; [lia|]. rewrite E.
  replace (Z.to_nat _) with (length pre + i)%nat by lia. rewrite lookup_app_r by lia.
  replace (length pre + i - length pre)%nat with i by lia. by apply lookup_app_l_Some.
Qed.
End opener.

Lemma file_calls_refine_witness :
  exists ar c s', call open_drivers (fun d => fs_dev d) (fun _ f => f) c [] (fun n => replicate (Z.to_nat n) 0) 10 12 call_frame
      (mk_sys (open_state ar c) [] acpi_start) = Ret (inl 0, mk_sys s' [] acpi_start) /\
    user_load 0x100100C s' = Ret (7, s') /\ user_load 0x1001010 s' = Ret (7, s').
Proof.
  destruct call_tables as (ar & c & tabs & Hwf & Hid).
  destruct (file_calls_refine open_drivers (fun d => fs_dev d) (fun _ f => f) c [] (fun n => replicate (Z.to_nat n) 0) 10
              (ReadCall 5 0x100100C) call_frame (open_state ar c) [] acpi_start 1 (caller_task c) 0x1000000 opener open_fp 512
              open_file 0x100100C 0x1001000 read_stack 0 [7; 7; 7; 7; 7] (seek_to 5 open_file))
    as (s' & Hs & _ & [_ Hload] & _).
  - apply open_has.
  - intros i v Hi. destruct i as [|[|[|i]]]; cbn in Hi; [| | |done]; injection Hi as <-; (split; [vm_compute; split; [discriminate|reflexivity]|]).
    + apply (opener_word ar c Hid [] open_fp (drop 4 read_stack)); [reflexivity|vm_compute; split; [discriminate|reflexivity]].
    + apply (opener_word ar c Hid (take 4 read_stack) 5 (drop 8 read_stack)); [reflexivity|lia].
    + apply (opener_word ar c Hid (take 8 read_stack) 0x100100C (drop 12 read_stack)); [reflexivity|lia].
  - split_and!; [lia|vm_compute; discriminate|reflexivity|by left|]. split; [intros j Hj; apply Hid; lia|done|lia|].
    vm_compute. discriminate.
  - reflexivity.
  - exists ar, c, s'. split; [exact Hs|]. split; [apply (Hload 0%nat 7); reflexivity|apply (Hload 4%nat 7); reflexivity].
Defined.
