(* ===== verification/CommandSpec.v ===== *)
(** * A command line, from a program to another

    The list of words that a program builds in its memory with the user library
    is the list the kernel reads when it is told to start a program, and the
    words arrive as the arguments of the new process.  Memory that a program got
    from the kernel is mapped where it is, so the pointers of the list mean the
    same on both sides. *)
From S2P Require Import Prelude Config CMem CString Heap HeapSpec Kheap AllocSpans Paging PagingSpec AddressSpace.
From S2P Require Import UserString UserCommand PathParser Keyboard Disk Vfs Elf Task TaskSpec Terminal Screen Process ProcessSpec.
From S2P Require Import ProcessMemory ProcessArgs UserMem UserMemSpec Syscalls SyscallsSpec.

#[local] Arguments Nat.mul : simpl never.

Section command.
Context {H : Type} `{AllocatorSpans H} {F : Type}.
Implicit Types s : kst H F.

(** The kernel's block at [g] holds what the program has there. *)
Definition sees s (m : list Z) (g : Z) : Prop :=
  exists l, blocks s !! g = Some l /\ 516 <= Z.of_nat (length l) /\
    forall i, (i < 516)%nat -> l !! i = m !! (Z.to_nat g + i)%nat.

Lemma sees_string s m g l t :
  blocks s !! g = Some l -> (516 <= length l)%nat -> (forall i, (i < 516)%nat -> l !! i = m !! (Z.to_nat g + i)%nat) ->
  str_at m g t -> (length t <= 511)%nat -> cstr (take 512 l) t.
Proof.
  intros _ Hl Hv (_ & Hz & Ht) Hlt. assert (Hs : str_at (take 512 l) 0 t).
  { split; [lia|]. split; [done|]. intros i c Hi. pose proof (lookup_lt_Some _ _ _ Hi) as Hi'.
    rewrite length_app in Hi'. simpl in Hi'. change (Z.to_nat 0 + i)%nat with i. rewrite lookup_take_lt by lia.
    rewrite Hv by lia. by apply Ht. }
  by apply str_at_cstr in Hs.
Qed.

Lemma sees_next m g l q :
  (516 <= length l)%nat -> (forall i, (i < 516)%nat -> l !! i = m !! (Z.to_nat g + i)%nat) -> 0 <= g ->
  word_at m (g + 512) q -> 0 <= q < 4294967296 -> next_argument l = Ret q.
Proof.
  intros Hl Hv Hg Hq Hr. unfold next_argument, ARGUMENT_SIZE. rewrite (proj2 (Z.ltb_ge _ _)) by lia.
  assert (E : take 4 (drop (Z.to_nat 512) l) = le_split 4 q).
  { apply list_eq_same_length with (n := 4%nat); [apply length_le_split|rewrite length_take, length_drop; lia|].
    intros i x y Hi Hx Hy. rewrite lookup_take_lt, lookup_drop in Hx by done. rewrite Hv in Hx by lia.
    specialize (Hq i y Hy). replace (Z.to_nat (g + 512) + i)%nat with (Z.to_nat g + (Z.to_nat 512 + i))%nat in Hq by lia. congruence. }
  rewrite E. by rewrite le_combine_split.
Qed.

(** The kernel reads the list the program made. *)
Lemma read_arguments_spec s bm m gs q ws fuel :
  backed s bm -> arg_list m gs q ws -> (forall g, g ∈ gs -> sees s m g) -> (length ws <= fuel)%nat ->
  exists args, read_arguments fuel q s = Ret (args, s) /\ Forall2 cstr args (take 511 <$> ws) /\ length args = length ws.
Proof.
  intros Hbk Ha Hv. revert fuel. induction Ha as [|p w q ws Hp Hp0 Hs Hq Ha IH]; intros fuel Hf.
  { exists []. split; [by destruct fuel|]. split; [constructor|done]. }
  destruct fuel as [|fuel]; [simpl in Hf; lia|]. destruct (IH fuel) as (args & E & Hargs & Hl); [simpl in Hf; lia|].
  destruct (Hv p Hp) as (l & Hb & Hlen & Hl'). assert (Hq' : 0 <= q < 4294967296).
  { inversion Ha as [|? ? ? ? Hin]; subst; [lia|]. destruct (Hv q Hin) as (lq & Hbq & _).
    destruct (bk_blocks s bm Hbk q lq Hbq) as (n & Hn & _). pose proof (spans_range _ _ _ _ (bk_spans s bm Hbk) Hn). lia. }
  exists (take 512 l :: args). split; [|split; [|by simpl; rewrite Hl]].
  - cbn [read_arguments]. rewrite (proj2 (Z.eqb_neq p 0)) by done. rewrite bind_getS.
    assert (Eb : phys_bytes s p = Ret l).
    { unfold phys_bytes. rewrite (block_at_spec s bm p l p Hbk Hb) by lia. by rewrite Z.sub_diag. }
    rewrite (bind_liftO _ _ _ _ Eb). rewrite (bind_liftO _ _ _ q) by (apply (sees_next m p); [lia|done|apply Hs|done..]).
    by step E.
  - constructor; [|done]. eapply sees_string; [exact Hb|lia|exact Hl'|exact Hs|]. rewrite length_take. lia.
Qed.

(** C21: a command line reaches the program it starts.  The words of the first
    1024 characters of a line that a program splits are, in the order of the line, the arguments that the new
    process gets: the kernel follows the list in the memory of the caller, and
    [process_get_arguments] then gives the number of words and an array of
    pointers, each to a block of the new process with one word, cut to 511
    characters.  Words for which the caller got no memory are left out.  The new
    process needs an unused entry in its table of 1024 allocations, and the heap a
    block, for each word and for the array. *)
Theorem command_line_delivered fuel pre buf post space command cs r n gs max :
  (1024 < fuel)%nat -> max < 1025 -> (length buf = 1025)%nat -> 0 < Z.of_nat (length pre) ->
  delims (pre ++ buf ++ post) (command_writes (Z.of_nat (length pre)) gs) space [32] ->
  str_at (pre ++ buf ++ post) command cs ->
  (command + Z.of_nat (length cs) < Z.of_nat (length pre) \/ Z.of_nat (length pre) + 1025 <= command) ->
  UString.strlen (pre ++ buf ++ post) = Ret n ->
  (forall g, g ∈ gs -> Z.of_nat (length pre) + 1025 <= g /\ g + 516 <= Z.of_nat (length (pre ++ buf ++ post))) ->
  ForallOrdPairs UserCommand.apart gs ->
  let ws := take (length gs) (UserString.words (is_delim [32]) [] (take 1024 cs)) in
  exists m' r' gs' q,
    sos_parse_command fuel (Z.of_nat (length pre)) space command max (mk_ust (mk_tok (pre ++ buf ++ post) r) gs) =
      Ret (q, mk_ust (mk_tok m' r') gs') /\ length m' = length (pre ++ buf ++ post) /\
    forall s bm p x c tabs mp k fuel2,
      backed s bm -> (forall g, g ∈ gs -> sees s m' g) -> (length ws <= fuel2)%nat ->
      ready s p x c tabs mp k -> ws <> [] -> (k + S (length ws) <= 1024)%nat -> (S (length ws) <= room (heap_of s))%nat ->
      exists args s' x' ps, read_arguments fuel2 q s = Ret (args, s) /\
        process_inject_arguments p args s = Ret (0, s') /\
        process_get_arguments p s' = Ret ((Z.of_nat (length ws), argv x'), s') /\
        blocks s' !! argv x' = Some (ProcessArgs.words ps) /\
        Forall2 (ProcessArgs.argument_at s') ps (take 511 <$> ws).
Proof.
  intros Hf Hmax Hb Hlp Hd Hs Hc Hn Hgs Hap ws.
  destruct (parse_command_spec fuel pre buf post space command cs r n gs max) as (m' & r' & gs' & q & E & Hl & Hargs & _); try done.
  exists m', r', gs', q. split; [exact E|]. split; [exact Hl|]. intros s bm p x c tabs mp k fuel2 Hbk Hv Hf2 Hrd Hne Hk Hr.
  destruct (read_arguments_spec s bm m' gs q ws fuel2 Hbk Hargs Hv Hf2) as (args & Er & Hstr & Hla).
  destruct (inject_arguments_spec s p x c tabs mp k args (take 511 <$> ws) Hrd) as (s' & x' & m2 & ps & Ei & _ & Hg & _ & Hw & _ & Hps).
  - intros ->. by destruct ws.
  - exact (eq_ind_r (fun n => k + S n <= 1024)%nat Hk Hla).
  - exact (eq_ind_r (fun n => S n <= room (heap_of s))%nat Hr Hla).
  - exact Hstr.
  - apply Forall_fmap, Forall_forall. intros w _. cbn. rewrite length_take. lia.
  - exists args, s', x', ps. split_and!; [done|done| |done|done].
    exact (eq_ind _ (fun n => process_get_arguments p s' = Ret ((Z.of_nat n, argv x'), s')) Hg _ Hla).
Qed.
End command.

(** The witness: a small heap at 0x2000, whose first block is the new process
    and whose next two hold the arguments; the command line is "ls -l". *)
Definition low_heap : kmem := mk_kmem (mk_heap (mk_heap_table (replicate 16 0x00) 16) 0x2000) ∅.
Definition low_kmem1 : kmem := SyscallsSpec.heap_after (kz 1 low_heap).
Definition low_kmem2 : kmem := SyscallsSpec.heap_after (kz 1 low_kmem1).
Definition low_kmem : kmem := SyscallsSpec.heap_after (kz 1 low_kmem2).
Definition low_spans : gmap Z Z := <[0x4000 := 1]> (<[0x3000 := 1]> {[0x2000 := 1]}).

Lemma low_kmem_spans : spans low_kmem low_spans.
Proof.
  assert (H0 : spans low_heap ∅).
  { exists ∅. split; [|done]. eapply (heap_create_inv demo_heap 0x2000 0x12000 (mk_heap_table (replicate 16 0xFF) 16));
      [done|done|vm_compute; reflexivity|]. vm_compute. reflexivity. }
  assert (E1 : kz 1 low_heap = Ret (0x2000, low_kmem1)) by (vm_compute; reflexivity).
  assert (E2 : kz 1 low_kmem1 = Ret (0x3000, low_kmem2)) by (vm_compute; reflexivity).
  assert (E3 : kz 1 low_kmem2 = Ret (0x4000, low_kmem)) by (vm_compute; reflexivity).
  pose proof (kz_spans 1 _ _ _ _ H0 ltac:(lia) E1) as S1. rewrite decide_False in S1 by done.
  pose proof (kz_spans 1 _ _ _ _ (proj2 S1) ltac:(lia) E2) as S2. rewrite decide_False in S2 by done.
  pose proof (kz_spans 1 _ _ _ _ (proj2 S2) ltac:(lia) E3) as S3. rewrite decide_False in S3 by done.
  unfold low_spans. change (pages_for 1) with 1 in S3. exact (proj2 S3).
Qed.

(** The kernel's blocks hold what is in the memory [m]. *)
Definition low_state (ar : gmap Z (list Z)) (c : paging_4gb_chunk) (m : list Z) : kst kmem unit :=
  mk_kst (mk_tstate (mk_pstate low_kmem ar 0) {[1 := new_task c 0x2000]} ∅ 1 1 1)
    (mk_vfs (mk_pp low_kmem ∅ ∅ ∅, tt) [] [] ∅ []) {[0x2000 := new_process 1]} ∅ ∅
    (<[0x3000 := take 516 (drop (Z.to_nat 0x3000) m)]> {[0x4000 := take 516 (drop (Z.to_nat 0x4000) m)]})
    (replicate 50 0) 0x2000 (mk_term [] 0 0 0) zero_screen false.

Lemma low_backed ar c m : backed (low_state ar c m) low_spans.
Proof.
  split; [apply low_kmem_spans|..]; try done.
  - intros a l Ha. exists 1. cbn in Ha. rewrite lookup_insert_Some, lookup_singleton_Some in Ha.
    destruct Ha as [[<- <-]|(_ & <- & <-)]; (split; [done|]); rewrite length_take; lia.
  - intros a Ha. unfold low_spans in Ha. rewrite !lookup_insert_None, lookup_singleton_None in Ha.
    cbn. rewrite !lookup_singleton_ne by naive_solver. done.
Qed.

Lemma low_ready ar c tabs m : dir_wf ar (directory_entry c) tabs -> ready (low_state ar c m) 0x2000 (new_process 1) c tabs low_spans 0.
Proof.
  intros Hwf. split.
  - apply new_process_ok; [apply low_kmem_spans|done|by eexists|by exists (new_task c 0x2000)|done].
  - intros i y Hi. lia.
  - intros i Hi. change (allocations (new_process 1)) with (replicate 1024 (0, 0)). apply lookup_replicate_2. lia.
Qed.

Lemma low_sees ar c m g :
  g ∈ [0x3000; 0x4000] -> 0x4000 + 516 <= Z.of_nat (length m) -> sees (low_state ar c m) m g.
Proof.
  intros Hg Hl. exists (take 516 (drop (Z.to_nat g) m)).
  assert (Hgl : (Z.to_nat g + 516 <= length m)%nat).
  { repeat (apply elem_of_cons in Hg as [->|Hg]; [lia|]). by apply not_elem_of_nil in Hg. }
  split; [|split].
  - repeat (apply elem_of_cons in Hg as [->|Hg]; [done|]). by apply not_elem_of_nil in Hg.
  - rewrite length_take, length_drop. lia.
  - intros i Hi. by rewrite lookup_take_lt, lookup_drop.
Qed.

Definition low_line : list Z := [108; 115; 32; 45; 108].
Definition low_post : list Z := 32 :: 0 :: low_line ++ 0 :: replicate (Z.to_nat 0x4000) 0.

Lemma command_line_delivered_witness :
  exists m' r' gs' q, sos_parse_command 1025 8 1033 1035 512 (mk_ust (mk_tok (replicate 8 0 ++ replicate 1025 0 ++ low_post) 5) [0x3000; 0x4000]) =
      Ret (q, mk_ust (mk_tok m' r') gs') /\
    exists ar c args s' n, read_arguments 2 q (low_state ar c m') = Ret (args, low_state ar c m') /\
      process_inject_arguments 0x2000 args (low_state ar c m') = Ret (0, s') /\
      process_get_arguments 0x2000 s' = Ret ((2, n), s').
Proof.
  assert (Hlen : length low_post = (8 + Z.to_nat 0x4000)%nat) by (unfold low_post; cbn [length app low_line]; rewrite length_replicate; lia).
  destruct (command_line_delivered (F := unit) (H := kmem) 1025 (replicate 8 0) (replicate 1025 0) low_post 1033 1035 low_line 5 0 [0x3000; 0x4000] 512)
    as (m' & r' & gs' & q & E & Hl & Hrest).
  - lia.
  - lia.
  - apply length_replicate.
  - simpl; lia.
  - split; [lia| | |simpl; lia].
    + apply (str_at_app (replicate 8 0 ++ replicate 1025 0) [32] (low_line ++ 0 :: replicate (Z.to_nat 0x4000) 0)).
      apply (bool_decide_unpack _). vm_compute. exact I.
    + unfold command_writes, between. cbn [length replicate]. intros j [Hj|(g & Hg & Hj)]; [lia|].
      repeat (apply elem_of_cons in Hg as [->|Hg]; [lia|]). by apply not_elem_of_nil in Hg.
  - apply (str_at_app (replicate 8 0 ++ replicate 1025 0 ++ [32; 0]) low_line (replicate (Z.to_nat 0x4000) 0)).
    apply (bool_decide_unpack _). vm_compute. exact I.
  - right. simpl. lia.
  - reflexivity.
  - intros g Hg. rewrite !length_app, !length_replicate, Hlen.
    repeat (apply elem_of_cons in Hg as [->|Hg]; [lia|]). by apply not_elem_of_nil in Hg.
  - repeat constructor. unfold UserCommand.apart. lia.
  - exists m', r', gs', q. split; [exact E|]. destruct SyscallsSpec.call_tables as (ar & c & tabs & Hwf & _).
    rewrite !length_app, !length_replicate, Hlen in Hl.
    destruct (Hrest (low_state ar c m') low_spans 0x2000 (new_process 1) c tabs low_spans 0%nat 2%nat)
      as (args & s' & x' & ps & E1 & E2 & E3 & _ & _).
    + apply low_backed.
    + intros g Hg. apply low_sees; [exact Hg|lia].
    + simpl; lia.
    + by apply low_ready.
    + discriminate.
    + simpl; lia.
    + apply Nat.leb_le. vm_compute. reflexivity.
    + exists ar, c, args, s', (argv x'). split; [exact E1|]. split; [exact E2|exact E3].
Defined.
