(* ===== verification/Interrupts.v ===== *)
(** * Interrupts and system call dispatch (src/src/idt/idt.c, isr80h/isr80h.c)

    The gates of the descriptor table, the callbacks of hardware interrupts and
    the table of system calls, on top of the scheduler.  Function pointers are
    addresses; the tables [handlers] and [commands] say what the code behind an
    address does.  A handler gives [Some r] when it enters user mode through
    [task_return] and never comes back, [None] when it returns; a command
    gives [inr r] or the value it returns.  The clock
    chip is read by [idt_clock] but only sets the time of day, which is not
    part of this state; the end-of-interrupt port writes are left out. *)
From S2P Require Import Prelude Config Kheap Paging AddressSpace Task TaskSpec.

Record idt_desc := mk_idt_desc { offset_1 : Z; selector : Z; zero : Z; type_attr : Z; offset_2 : Z }.
Definition null_gate : idt_desc := mk_idt_desc 0 0 0 0 0.

Section interrupts.
Context {H : Type} `{Allocator H}.

Record ist := mk_ist {
  sched : tstate H;
  idt_descriptors : list idt_desc;
  interrupt_callbacks : list Z;
  isr80h_commands : list Z;
  kernel_chunk : paging_4gb_chunk
}.

Definition on_sched {A} (c : cmd (tstate H) A) : cmd ist A := fun s =>
  '(a, t) ← c (sched s);
  Ret (a, mk_ist t (idt_descriptors s) (interrupt_callbacks s) (isr80h_commands s) (kernel_chunk s)).

Definition handler : Type := interrupt_frame -> cmd ist (option resumption).
Definition command : Type := interrupt_frame -> cmd ist (Z + resumption).

Context (handlers : gmap Z handler) (commands : gmap Z command).

(** [kernel_page]: the kernel's segments and address space. *)
Definition kernel_page : cmd ist unit :=
  s ← getS; on_sched (on_paging (paging_switch (kernel_chunk s))).

Definition idt_set (interrupt_no address : Z) : cmd ist unit :=
  s ← getS;
  l ← liftO (store (idt_descriptors s) interrupt_no
               (mk_idt_desc (Z.land address 0xffff) KERNEL_CODE_SELECTOR 0 0xEE (Z.shiftr address 16)));
  putS (mk_ist (sched s) l (interrupt_callbacks s) (isr80h_commands s) (kernel_chunk s)).

Definition idt_register_interrupt_callback (interrupt callback : Z) : cmd ist Z :=
  if (interrupt <? 0) || (SERPAEOS_TOTAL_INTERRUPTS <=? interrupt) then mret (- EINVARG)
  else
    s ← getS;
    l ← liftO (store (interrupt_callbacks s) interrupt callback);
    putS (mk_ist (sched s) (idt_descriptors s) l (isr80h_commands s) (kernel_chunk s));;
    mret 0.

(** [for (i = 0; i < 512; i++) idt_set(i, interrupt_pointer_table[i]);] *)
Fixpoint set_gates (table : list Z) (i : Z) : cmd ist unit :=
  match table with
  | [] => mret tt
  | p :: table => idt_set i p;; set_gates table (i + 1)
  end.

Fixpoint register_exceptions (n : nat) (i callback : Z) : cmd ist unit :=
  match n with
  | O => mret tt
  | S n => idt_register_interrupt_callback i callback;; register_exceptions n (i + 1) callback
  end.

(** The arguments are the stubs of idt.asm and the addresses of the two
    handlers.  Loading the table register is an instruction. *)
Definition idt_init (interrupt_pointer_table : list Z)
    (isr80h_wrapper idt_handle_exception_generic idt_clock : Z) : cmd ist unit :=
  modifyS (fun s => mk_ist (sched s) (replicate (Z.to_nat SERPAEOS_TOTAL_INTERRUPTS) null_gate)
                      (interrupt_callbacks s) (isr80h_commands s) (kernel_chunk s));;
  (if negb (Z.of_nat (length interrupt_pointer_table) =? SERPAEOS_TOTAL_INTERRUPTS) then liftO Oob else mret tt);;
  set_gates interrupt_pointer_table 0;;
  idt_set 0x80 isr80h_wrapper;;
  register_exceptions 0x20 0 idt_handle_exception_generic;;
  idt_register_interrupt_callback 0x20 idt_clock;;
  mret tt.

(** [idt_clock], given the fuel of the search for the next task. *)
Definition idt_clock_handler (fuel : nat) : handler := fun _ =>
  r ← on_sched (task_next fuel); mret (Some r).

(** The call through a function pointer. *)
Definition call_handler (cb : Z) (frame : interrupt_frame) : cmd ist (option resumption) :=
  match (handlers !! cb : option handler) with
  | Some h => h frame
  | None => liftO Oob
  end.

Definition interrupt_handler (interrupt : Z) (frame : interrupt_frame) : cmd ist (option resumption) :=
  kernel_page;;
  s ← getS;
  cb ← liftO (load (interrupt_callbacks s) interrupt);
  r ← (if negb (cb =? 0) then
         on_sched (task_current_save_state frame);;
         call_handler cb frame
       else mret None);
  match r with
  | Some regs => mret (Some regs)
  | None => on_sched task_page;; mret None
  end.

(** A slot that is taken is not changed. *)
Definition isr80h_register_command (command_id command : Z) : cmd ist unit :=
  if (command_id <? 0) || (SERPAEOS_MAX_ISR80H_COMMANDS <=? command_id) then mret tt
  else
    s ← getS;
    old ← liftO (load (isr80h_commands s) command_id);
    if negb (old =? 0) then mret tt
    else
      l ← liftO (store (isr80h_commands s) command_id command);
      putS (mk_ist (sched s) (idt_descriptors s) (interrupt_callbacks s) l (kernel_chunk s)).

Definition isr80h_handle_command (command : Z) (frame : interrupt_frame) : cmd ist (Z + resumption) :=
  if (command <? 0) || (SERPAEOS_MAX_ISR80H_COMMANDS <=? command) then mret (inl 0)
  else
    s ← getS;
    command_func ← liftO (load (isr80h_commands s) command);
    if command_func =? 0 then mret (inl 0)
    else match commands !! command_func with
         | Some f => f frame
         | None => liftO Oob
         end.

Definition isr80h_handler (command : Z) (frame : interrupt_frame) : cmd ist (Z + resumption) :=
  kernel_page;;
  on_sched (task_current_save_state frame);;
  res ← isr80h_handle_command command frame;
  match res with
  | inr regs => mret (inr regs)
  | inl v => on_sched task_page;; mret (inl v)
  end.
End interrupts.
Arguments ist H : clear implicits.
Arguments handler H : clear implicits.
Arguments command H : clear implicits.

(** ** The gates *)

(** The processor jumps to the two halves of the offset. *)
Definition gate_address (d : idt_desc) : Z := offset_1 d + 65536 * offset_2 d.
Definition gate (address : Z) : idt_desc :=
  mk_idt_desc (Z.land address 0xffff) KERNEL_CODE_SELECTOR 0 0xEE (Z.shiftr address 16).

Lemma gate_address_gate a : gate_address (gate a) = a.
Proof.
  unfold gate_address, gate. cbn [offset_1 offset_2]. change 0xffff with (Z.ones 16).
  rewrite Z.land_ones, Z.shiftr_div_pow2 by lia. change (2 ^ 16) with 65536. zlia.
Qed.

Section gates.
Context {H : Type} `{Allocator H}.
Implicit Types s : ist H.

Definition with_gates s (ds : list idt_desc) : ist H :=
  mk_ist (sched s) ds (interrupt_callbacks s) (isr80h_commands s) (kernel_chunk s).
Definition with_callbacks s (cs : list Z) : ist H :=
  mk_ist (sched s) (idt_descriptors s) cs (isr80h_commands s) (kernel_chunk s).

Lemma idt_set_spec s i a :
  (i < length (idt_descriptors s))%nat ->
  idt_set (Z.of_nat i) a s = Ret (tt, with_gates s (<[i := gate a]> (idt_descriptors s))).
Proof.
  intros Hi. unfold idt_set. rewrite bind_getS, (bind_liftO _ _ _ (<[i := gate a]> (idt_descriptors s))); [done|].
  rewrite store_Ret by lia. by rewrite Nat2Z.id.
Qed.

Lemma set_gates_spec table s done rest :
  idt_descriptors s = done ++ rest -> length rest = length table ->
  set_gates table (Z.of_nat (length done)) s = Ret (tt, with_gates s (done ++ (gate <$> table))).
Proof.
  revert s done rest. induction table as [|p table IH]; intros s done rest Hd Hl.
  { destruct rest; [|by simpl in Hl]. cbn [set_gates fmap list_fmap]. rewrite <- Hd. by destruct s. }
  destruct rest as [|r rest]; [by simpl in Hl|]. cbn [set_gates].
  step (idt_set_spec s (length done) p ltac:(rewrite Hd, length_app; simpl; lia)).
  set (s1 := with_gates s _).
  assert (E : idt_descriptors s1 = (done ++ [gate p]) ++ rest).
  { cbn. rewrite Hd, insert_app_r_alt, Nat.sub_diag by lia. cbn [insert list_insert]. by rewrite <- app_assoc. }
  specialize (IH s1 (done ++ [gate p]) rest E ltac:(simpl in Hl; lia)).
  rewrite length_app, <- app_assoc in IH. cbn [length app] in IH.
  replace (Z.of_nat (length done) + 1) with (Z.of_nat (length done + 1)) by lia. exact IH.
Qed.

Lemma register_callback_spec s i c :
  (i < 512)%nat -> length (interrupt_callbacks s) = 512%nat ->
  idt_register_interrupt_callback (Z.of_nat i) c s =
    Ret (0, with_callbacks s (<[i := c]> (interrupt_callbacks s))).
Proof.
  intros Hi Hl. unfold idt_register_interrupt_callback, SERPAEOS_TOTAL_INTERRUPTS.
  rewrite (proj2 (Z.ltb_ge _ _)), (proj2 (Z.leb_gt _ _)) by lia. cbn [orb].
  rewrite bind_getS, (bind_liftO _ _ _ (<[i := c]> (interrupt_callbacks s))); [done|].
  rewrite store_Ret by lia. by rewrite Nat2Z.id.
Qed.

Lemma register_exceptions_spec n s i c :
  (i + n <= 512)%nat -> length (interrupt_callbacks s) = 512%nat ->
  exists cs, register_exceptions n (Z.of_nat i) c s = Ret (tt, with_callbacks s cs) /\ length cs = 512%nat /\
    forall j, cs !! j = if decide (i <= j < i + n)%nat then Some c else interrupt_callbacks s !! j.
Proof.
  revert s i. induction n as [|n IH]; intros s i Hn Hl.
  { exists (interrupt_callbacks s). split; [by destruct s|]. split; [done|]. intros j. by rewrite decide_False by lia. }
  cbn [register_exceptions]. step (register_callback_spec s i c ltac:(lia) Hl).
  set (s1 := with_callbacks s _).
  destruct (IH s1 (S i)) as (cs & E & Hlc & Hj); [lia|cbn; by rewrite length_insert|].
  exists cs. replace (Z.of_nat i + 1) with (Z.of_nat (S i)) by lia. rewrite E. split_and!; [done|done|].
  intros j. rewrite Hj. cbn [interrupt_callbacks with_callbacks s1]. destruct (decide (j = i)) as [-> |Hne].
  - rewrite decide_False, decide_True by lia. apply list_lookup_insert_eq. lia.
  - rewrite list_lookup_insert_ne by done. do 2 case_decide; try lia; done.
Qed.
End gates.

(** The interrupt table.  [idt_init] points gate [i] at the [i]th stub,
    except gate 0x80, which gets the system call entry; every gate uses the
    kernel code segment and can be called from user mode.  Exceptions 0 to 31
    get the generic handler, 32 the clock, the other callbacks stay, and the
    scheduler is not touched. *)
Theorem idt_init_gates {H} `{Allocator H} (s : ist H) table wrapper exc clk :
  length table = 512%nat -> length (interrupt_callbacks s) = 512%nat ->
  exists s', idt_init table wrapper exc clk s = Ret (tt, s') /\ sched s' = sched s /\
    (forall i p, table !! i = Some p ->
       exists d, idt_descriptors s' !! i = Some d /\ selector d = KERNEL_CODE_SELECTOR /\ type_attr d = 0xEE /\
         gate_address d = if bool_decide (i = 128%nat) then wrapper else p) /\
    (forall i, (i < 512)%nat ->
       interrupt_callbacks s' !! i =
         if decide (i < 32)%nat then Some exc
         else if decide (i = 32%nat) then Some clk else interrupt_callbacks s !! i).
Proof.
  intros Ht Hc. unfold idt_init. rewrite bind_modifyS, Ht.
  change (negb (Z.of_nat 512 =? SERPAEOS_TOTAL_INTERRUPTS)) with false. cbn iota. rewrite bind_mret.
  set (s0 := mk_ist _ _ _ _ _).
  step (set_gates_spec table s0 [] (replicate 512 null_gate) eq_refl ltac:(by rewrite length_replicate, Ht)).
  cbn [app]. set (s1 := with_gates s0 _).
  step (idt_set_spec s1 128 wrapper ltac:(cbn [idt_descriptors s1 with_gates]; rewrite length_fmap; lia)).
  set (s2 := with_gates s1 _).
  destruct (register_exceptions_spec 32 s2 0 exc) as (cs & E & Hlc & Hj); [lia|done|].
  change (Z.of_nat 0) with 0 in E. step E. set (s3 := with_callbacks s2 cs).
  step (register_callback_spec s3 32 clk ltac:(lia) Hlc).
  eexists. split; [done|]. split; [done|]. split.
  - intros i p Hi. cbn [idt_descriptors with_callbacks s3 s2 with_gates s1].
    destruct (decide (i = 128%nat)) as [-> |Hne].
    + rewrite list_lookup_insert_eq by (rewrite length_fmap; lia). eexists. rewrite bool_decide_true by done.
      split_and!; try done. apply gate_address_gate.
    + rewrite list_lookup_insert_ne, list_lookup_fmap, Hi by done. eexists. rewrite bool_decide_false by done.
      split_and!; try done. apply gate_address_gate.
  - intros i Hi. cbn [interrupt_callbacks with_callbacks s3].
    destruct (decide (i = 32%nat)) as [-> |Hne].
    + rewrite list_lookup_insert_eq by lia. done.
    + rewrite list_lookup_insert_ne, Hj by done. do 2 case_decide; try lia; done.
Qed.

Lemma idt_init_gates_witness :
  exists s', idt_init (seqZ 0x10000 512) 0x23456 0x100 0x200
      (mk_ist demo_threads [] (replicate 512 0) [] null_chunk) = Ret (tt, s') /\ sched s' = demo_threads.
Proof.
  destruct (idt_init_gates (mk_ist demo_threads [] (replicate 512 0) [] null_chunk) (seqZ 0x10000 512)
              0x23456 0x100 0x200) as (s' & Hs & Hsched & _).
  - reflexivity.
  - reflexivity.
  - exists s'. split; [exact Hs|exact Hsched].
Defined.

(** ** Context switches *)
Section context.
Context {H : Type} `{AllocatorOk H} (handlers : gmap Z (handler H)) (fuel : nat) (clk : Z).
Implicit Types s : ist H.

(** The clock is installed, no process hosts another one, and the current
    task is the [i]th of the run order. *)
Record ticking s (l : list Z) (i : nat) : Prop := {
  tk_order : run_order (sched s) l;
  tk_current : l !! i = Some (current_task (sched s));
  tk_fuel : (length l <= fuel)%nat;
  tk_runnable : forall x, x ∈ l -> runnable (sched s) x;
  tk_callback : interrupt_callbacks s !! 32%nat = Some clk;
  tk_clk : clk <> 0 /\ handlers !! clk = Some (idt_clock_handler fuel)
}.

Lemma on_sched_spec {A} (c : cmd (tstate H) A) s a t :
  c (sched s) = Ret (a, t) ->
  on_sched c s = Ret (a, mk_ist t (idt_descriptors s) (interrupt_callbacks s) (isr80h_commands s) (kernel_chunk s)).
Proof. intros E. unfold on_sched. by rewrite E. Qed.

(** Saving registers keeps the order and who can run. *)
Lemma saved_order (t : tstate H) ts l x tx r :
  run_order t l -> tasks t !! x = Some tx -> ts = <[x := set_regs r tx]> (tasks t) ->
  run_order (set_tasks ts t) l /\ forall y, hosting (set_tasks ts t) y = hosting t y.
Proof.
  intros Ho Hx ->. split.
  - destruct Ho as [Hnd Hz Ht Hh]. split; [done|done| |done]. intros j y Hy.
    destruct (Ht j y Hy) as (ty & p & Hty & Hn & Hp). cbn [tasks procs set_tasks].
    destruct (decide (y = x)) as [-> |Hne].
    + rewrite lookup_insert_eq. assert (ty = tx) as -> by congruence. by exists (set_regs r tx), p.
    + rewrite lookup_insert_ne by done. by exists ty, p.
  - intros y. unfold hosting. cbn [tasks procs set_tasks]. destruct (decide (y = x)) as [-> |Hne].
    + by rewrite lookup_insert_eq, Hx.
    + by rewrite lookup_insert_ne by done.
Qed.

Lemma clock_step s l i f :
  ticking s l i ->
  exists s' y ty tx, interrupt_handler handlers 32 f s = Ret (Some (task_return (regs ty)), s') /\
    tasks (sched s) !! current_task (sched s) = Some tx /\
    tasks (sched s') = <[current_task (sched s) := set_regs (frame_regs f) tx]> (tasks (sched s)) /\
    ticking s' l (after l i) /\ current_task (sched s') = y /\ tasks (sched s') !! y = Some ty /\
    current_directory (tpaging (sched s')) = directory_entry (page_directory ty).
Proof.
  intros [Ho Hi Hf Hr Hcb [Hclk Hh]]. destruct (ro_task _ _ Ho i _ Hi) as (tx & px & Htx & Hnx & Hpx).
  apply lookup_lt_Some in Hi as Hlt. pose proof (ro_nonzero _ _ _ _ Ho Hi) as Hc0.
  unfold interrupt_handler. set (c := current_task (sched s)) in *.
  set (t1 := mk_tstate (mk_pstate (palloc (tpaging (sched s))) (parrays (tpaging (sched s)))
               (directory_entry (kernel_chunk s))) (tasks (sched s)) (procs (sched s)) c
               (task_head (sched s)) (task_tail (sched s))).
  set (s1 := mk_ist t1 (idt_descriptors s) (interrupt_callbacks s) (isr80h_commands s) (kernel_chunk s)).
  assert (Hk : kernel_page s = Ret (tt, s1)) by done. step Hk. rewrite bind_getS.
  rewrite (bind_liftO _ _ _ clk) by (apply load_Some; [lia|exact Hcb]).
  rewrite (proj2 (Z.eqb_neq clk 0)) by done. cbn [negb].
  set (ts := <[c := set_regs (frame_regs f) tx]> (tasks (sched s))). set (t2 := set_tasks ts t1).
  assert (Ho1 : run_order t1 l) by (by eapply run_order_frame).
  destruct (saved_order t1 ts l c tx (frame_regs f) Ho1 Htx eq_refl) as [Ho2 Hh2].
  assert (Hsave : task_current_save_state f (sched s1) = Ret (tt, t2)).
  { unfold task_current_save_state, task_current.
    rewrite (bind_Ret (gets current_task) _ (sched s1) c (sched s1) eq_refl).
    rewrite (proj2 (Z.eqb_neq c 0)) by done. exact (update_task_spec t1 c tx _ Htx). }
  assert (Ha : (after l i < length l)%nat) by (rewrite after_mod by done; apply Nat.mod_upper_bound; lia).
  destruct (lookup_lt_is_Some_2 l (after l i) Ha) as [y Hy].
  destruct (ro_task _ _ Ho2 _ y Hy) as (ty & py & Hty & _ & _).
  assert (Hr2 : forall x, x ∈ l -> runnable t2 x) by (intros x Hx; unfold runnable; rewrite Hh2; by apply Hr).
  assert (Hnext : task_next fuel t2 = Ret (task_return (regs ty), switched t2 y ty)).
  { rewrite (task_next_spec t2 l fuel i Ho2 Hi Hf), (drop_S l y) by done. rewrite filter_cons, decide_True.
    - cbn [head]. change (tasks t2 !! y) with (tasks (set_tasks ts t1) !! y). by rewrite Hty.
    - apply Hr2. by eapply list_elem_of_lookup_2. }
  set (s3 := mk_ist (switched t2 y ty) (idt_descriptors s) (interrupt_callbacks s) (isr80h_commands s) (kernel_chunk s)).
  exists s3, y, ty, tx. split_and!; try done.
  - rewrite (bind_Ret _ _ s1 (Some (task_return (regs ty))) s3); [done|]. step (on_sched_spec _ s1 tt t2 Hsave).
    unfold call_handler. rewrite Hh. unfold idt_clock_handler. set (s2 := mk_ist t2 _ _ _ _).
    by step (on_sched_spec (task_next fuel) s2 (task_return (regs ty)) _ Hnext).
  - split; try done. by apply switched_order.
Qed.

(** A series of clock interrupts, with the registers of the interrupted code
    each time; the result is what the last one resumes. *)
Fixpoint interrupts (fs : list interrupt_frame) : cmd (ist H) (option resumption) :=
  match fs with
  | [] => mret None
  | f :: fs =>
      r ← interrupt_handler handlers 32 f;
      match fs with
      | [] => mret r
      | _ => interrupts fs
      end
  end.

Lemma interrupts_cons f g fs s :
  interrupts (f :: g :: fs) s = (interrupt_handler handlers 32 f ≫= fun _ => interrupts (g :: fs)) s.
Proof. done. Qed.

Lemma interrupts_spec fs f s l i :
  ticking s l i ->
  exists s' t j, interrupts (f :: fs) s = Ret (Some (task_return (regs t)), s') /\ ticking s' l j /\
    j = ((i + S (length fs)) mod length l)%nat /\
    tasks (sched s') !! current_task (sched s') = Some t /\
    current_directory (tpaging (sched s')) = directory_entry (page_directory t) /\
    forall m x, l !! m = Some x -> (forall d, (d <= length fs)%nat -> ((i + d) mod length l <> m)%nat) ->
      tasks (sched s') !! x = tasks (sched s) !! x.
Proof.
  revert f s i. induction fs as [|g fs IH]; intros f s i Hs; pose proof (tk_current _ _ _ Hs) as Hi;
    apply lookup_lt_Some in Hi as Hlt; destruct (clock_step s l i f Hs) as (s1 & y & ty & tx & E & Hx & Hts & Hs1 & <- & Hty & Hdir).
  - exists s1, ty, (after l i). split_and!; try done.
    + cbn [interrupts]. by step E.
    + rewrite after_mod by done. f_equal. simpl. lia.
    + intros m x Hm Hd. rewrite Hts, lookup_insert_ne; [done|]. intros <-.
      apply (Hd 0%nat); [lia|]. rewrite Nat.add_0_r, Nat.mod_small by done.
      exact (NoDup_lookup _ _ _ _ (ro_nodup _ _ (tk_order _ _ _ Hs)) Hi Hm).
  - destruct (IH g s1 (after l i) Hs1) as (s2 & t & j & E2 & Hs2 & Hj & Ht & Hd2 & Hfr).
    exists s2, t, j. split_and!; try done.
    + rewrite interrupts_cons. step E. exact E2.
    + rewrite Hj, after_mod, Nat.Div0.add_mod_idemp_l by done. f_equal. simpl. lia.
    + intros m x Hm Hd. rewrite (Hfr m x Hm).
      * rewrite Hts, lookup_insert_ne; [done|]. intros <-. apply (Hd 0%nat); [lia|].
        rewrite Nat.add_0_r, Nat.mod_small by done.
        exact (NoDup_lookup _ _ _ _ (ro_nodup _ _ (tk_order _ _ _ Hs)) Hi Hm).
      * intros d Hdl. rewrite after_mod, Nat.Div0.add_mod_idemp_l by done.
        replace (S i + d)%nat with (i + S d)%nat by lia. apply Hd. simpl. lia.
Qed.

(** One full turn: the task that was interrupted first is resumed with the
    registers it had then. *)
Lemma full_turn s l i f fs :
  ticking s l i -> S (length fs) = length l ->
  exists s', interrupts (f :: fs) s = Ret (Some (task_return (frame_regs f)), s') /\ ticking s' l i /\
    current_task (sched s') = current_task (sched s).
Proof.
  intros Hs Hlen. pose proof (tk_current _ _ _ Hs) as Hi. apply lookup_lt_Some in Hi as Hlt.
  destruct (clock_step s l i f Hs) as (s1 & y & ty & tx & E & Hx & Hts & Hs1 & Hy & Hty & Hdir).
  destruct fs as [|g fs].
  - assert (Hai : after l i = i) by (rewrite after_mod by done; simpl in Hlen; rewrite <- Hlen, Nat.mod_1_r in *; lia).
    rewrite Hai in Hs1. pose proof (tk_current _ _ _ Hs1) as Hi1. rewrite Hi in Hi1. injection Hi1 as Hc.
    exists s1. rewrite <- Hc. split_and!; try done. cbn [interrupts]. step E. unfold mret, cmd_ret. do 3 f_equal.
    rewrite <- Hy, <- Hc, Hts, lookup_insert_eq in Hty. by injection Hty as <-.
  - destruct (interrupts_spec fs g s1 l (after l i) Hs1) as (s2 & t & j & E2 & Hs2 & Hj & Ht & _ & Hfr).
    simpl in Hlen.
    assert (Hji : j = i).
    { rewrite Hj, after_mod, Nat.Div0.add_mod_idemp_l by done.
      replace (S i + S (length fs))%nat with (i + 1 * length l)%nat by lia.
      rewrite Nat.Div0.mod_add. by apply Nat.mod_small. }
    rewrite Hji in *. pose proof (tk_current _ _ _ Hs2) as Hi2. rewrite Hi in Hi2. injection Hi2 as Hc.
    exists s2. split_and!; try done. rewrite interrupts_cons. step E. rewrite E2. do 3 f_equal.
    rewrite <- Hc, (Hfr i _ Hi), Hts, lookup_insert_eq in Ht; [by injection Ht as <-|].
    intros d Hd. rewrite after_mod, Nat.Div0.add_mod_idemp_l by done.
    intros Hm.
    destruct (decide (S i + d < length l)%nat) as [Hs'|Hs'].
    + rewrite Nat.mod_small in Hm by lia. lia.
    + replace (S i + d)%nat with ((S i + d - length l) + 1 * length l)%nat in Hm by lia.
      rewrite Nat.Div0.mod_add, Nat.mod_small in Hm by lia. lia.
Qed.
End context.


Definition demo_frame (n : Z) : interrupt_frame := mk_frame n 1 2 0 3 4 5 6 0x400000 0x1b 0x202 0x3FF000 0x23.
Definition demo_handlers : gmap Z (handler kmem) := {[0x200 := idt_clock_handler 2]}.
Definition demo_ist : ist kmem :=
  mk_ist demo_threads [] (replicate 32 0 ++ [0x200]) [] (mk_chunk 1 2).

