(* ===== verification/Kernel.v ===== *)
(** * The kernel starts (src/src/kernel.c, keyboard_init of keyboard.c,
      isr80h_register_commands)

    [kernel_main] brings up every component and enters the first program.  The
    state of all of them together is a [system]; what the linker and the
    machine provide is an [image]. *)
From S2P Require Import Prelude Config CMem CString Heap Kheap Paging AddressSpace PathParser Keyboard Disk Vfs Clock Gdt Terminal.
From S2P Require Import TerminalSpec Screen ScreenSpec Elf Task TaskSpec Process Directory VfsSpec HeapSpec Interrupts.

Definition SERPAEOS_TOTAL_GDT_SEGMENTS : Z := 6.
Definition KERNEL_DATA_SELECTOR : Z := 0x10.
Definition sizeof_tss : Z := 100.
Definition sizeof_config : Z := 60.
Definition ISR_KEYBOARD_INTERRUPT : Z := 0x21.
Definition PS2_PORT : Z := 0x64.
Definition PS2_COMMAND_ENABLE_FIRST_PORT : Z := 0xAE.
Definition config_magic : list Z := [83; 79; 83; 0x3E].

(** Addresses of code and data; the memory at the heap table, the fields of
    [kernel_heap] and the stack buffer of the disk search before they are
    written; the loop bounds of the disk probes and of the clock. *)
Record image := mk_image {
  addr_tss : Z;
  interrupt_pointer_table : list Z;
  isr80h_wrapper : Z;
  idt_handle_exception_generic : Z;
  idt_clock : Z;
  isr80h_handler_of : Z -> Z;
  classic_keyboard_interrupt : Z;
  fat16_table : Z;
  fat32_table : Z;
  heap_junk : heap;
  table_junk : list Z;
  stack_junk : list Z;
  century_junk : Z;
  disk_fuel : nat;
  clock_fuel : nat;
  clock_wait : nat
}.

(** The fields of the task state segment that are set. *)
Record tss_seg := mk_tss { esp0 : Z; ss0 : Z }.

Section kernel.
Context {F : Type} (drivers : gmap Z (filesystem_ops (fsst kmem F))).
Context {D : Type} `{Ports D} (dev_of : F -> D) (with_dev : D -> F -> F) (im : image).

Record system := mk_system {
  kernel : kst kmem F;
  gdt_real : list Z;
  tss : tss_seg;
  gates : list idt_desc;
  callbacks : list Z;
  commands : list Z;
  kernel_chunk : paging_4gb_chunk;
  keyboards : list keyboard;
  time : clock unit;
  config_file : Z;
  SOS_config : list Z;
  prog_to_load : list Z
}.

(** Commands on the parts. *)
Definition set_kernel (k : kst kmem F) (s : system) : system :=
  mk_system k (gdt_real s) (tss s) (gates s) (callbacks s) (commands s) (kernel_chunk s) (keyboards s) (time s)
    (config_file s) (SOS_config s) (prog_to_load s).
Definition on_kernel {A} (c : cmd (kst kmem F) A) : cmd system A := fun s =>
  '(a, k) ← c (kernel s); Ret (a, set_kernel k s).

Definition set_tables (g : list Z) (t : tss_seg) (s : system) : system :=
  mk_system (kernel s) g t (gates s) (callbacks s) (commands s) (kernel_chunk s) (keyboards s) (time s)
    (config_file s) (SOS_config s) (prog_to_load s).
Definition set_chunk (c : paging_4gb_chunk) (s : system) : system :=
  mk_system (kernel s) (gdt_real s) (tss s) (gates s) (callbacks s) (commands s) c (keyboards s) (time s)
    (config_file s) (SOS_config s) (prog_to_load s).
Definition set_keyboards (l : list keyboard) (s : system) : system :=
  mk_system (kernel s) (gdt_real s) (tss s) (gates s) (callbacks s) (commands s) (kernel_chunk s) l (time s)
    (config_file s) (SOS_config s) (prog_to_load s).
Definition set_time (t : clock unit) (s : system) : system :=
  mk_system (kernel s) (gdt_real s) (tss s) (gates s) (callbacks s) (commands s) (kernel_chunk s) (keyboards s) t
    (config_file s) (SOS_config s) (prog_to_load s).
Definition set_config (fd : Z) (c p : list Z) (s : system) : system :=
  mk_system (kernel s) (gdt_real s) (tss s) (gates s) (callbacks s) (commands s) (kernel_chunk s) (keyboards s) (time s)
    fd c p.

Definition on_idt {A} (c : cmd (ist kmem) A) : cmd system A := fun s =>
  '(a, i) ← c (mk_ist (ksched (kernel s)) (gates s) (callbacks s) (commands s) (kernel_chunk s));
  Ret (a, mk_system (set_sched (sched i) (kernel s)) (gdt_real s) (tss s) (idt_descriptors i) (interrupt_callbacks i)
            (Interrupts.isr80h_commands i) (kernel_chunk s) (keyboards s) (time s) (config_file s) (SOS_config s) (prog_to_load s)).

(** The ports, below the state of the file systems. *)
Definition on_dev {A} (c : cmd D A) : cmd (vfs kmem F) A := on_st (fun st =>
  '(a, d) ← c (dev_of (snd st)); Ret (a, (fst st, with_dev d (snd st)))).
Definition vfs_ports : Ports (vfs kmem F) := {|
  inb := fun p => on_dev (inb p);
  inw := fun p => on_dev (inw p);
  outb := fun p v => on_dev (outb p v);
  outw := fun p v => on_dev (outw p v)
|}.

Definition on_clock {A} (c : cmd (clock D) A) : cmd system A := fun s =>
  let t := time s in
  let v := kfiles (kernel s) in
  '(a, t') ← c (mk_clock (dev_of (snd (vst v))) (now t) (now_century t) (century_register t) (TIMEZONE t));
  '(_, k) ← on_files (on_st (fun st => Ret (tt, (fst st, with_dev (chip t') (snd st))))) (kernel s);
  Ret (a, set_time (mk_clock tt (now t') (now_century t') (century_register t') (TIMEZONE t')) (set_kernel k s)).

Definition say (msg : list Z) : cmd system unit := on_kernel (on_terminal (print msg)).

(** ** The components *)
Definition kheap_init_system : cmd system unit := fun s =>
  h ← kheap_init (heap_junk im) (table_junk im);
  Ret (tt, set_kernel (put_heap (mk_kmem h (Kheap.mem (heap_of (kernel s)))) (kernel s)) s).

Definition disk_init_system : cmd system unit :=
  ds ← on_kernel (on_files (disk_search_and_init (H := vfs_ports) (fs_resolve drivers) (disk_fuel im) (stack_junk im)));
  on_kernel (on_files (modifyS (fun v => mk_vfs (vst v) (filesystems v) (file_descriptors v) (descs v) ds))).

(** The handlers that [isr80h_register_commands] registers, in its order. *)
Definition registered : list Z :=
  [0; 1; 2; 3; 4; 5; 6; 8; 7; 9; 10; 11; 12; 13; 14; 15; 16; 18; 19; 20; 21; 22; 23; 24; 25; 26; 27; 255].
Fixpoint register_all (ids : list Z) : cmd (ist kmem) unit :=
  match ids with
  | [] => mret tt
  | i :: ids => isr80h_register_command i (isr80h_handler_of im i);; register_all ids
  end.
Definition isr80h_register_commands : cmd (ist kmem) unit := register_all registered.

(** The driver enables its port; the result of the registration is ignored. *)
Definition classic_keyboard_init : cmd system Z :=
  on_idt (idt_register_interrupt_callback ISR_KEYBOARD_INTERRUPT (classic_keyboard_interrupt im));;
  on_kernel (on_files (on_dev (outb PS2_PORT PS2_COMMAND_ENABLE_FIRST_PORT)));;
  mret 0.

(** [keyboard_insert] links the driver and calls its initialiser. *)
Definition keyboard_init : cmd system unit :=
  modifyS (fun s => set_keyboards (snd (keyboard_insert (keyboards s) (mk_keyboard (Some 0) (lit "Classic")))) s);;
  classic_keyboard_init;;
  mret tt.

(** ** The stages of [kernel_main] *)
Definition boot_tables : cmd system unit :=
  on_kernel (on_terminal terminal_initialize);;
  say (chars "GDT initialization..." ++ [10; 0]);;
  (g ← liftO (gdt_structured_to_gdt (replicate (Z.to_nat (8 * SERPAEOS_TOTAL_GDT_SEGMENTS)) 0)
                (kernel_gdt (addr_tss im) sizeof_tss) SERPAEOS_TOTAL_GDT_SEGMENTS);
   modifyS (fun s => set_tables g (tss s) s));;
  say (chars "Heap initialization..." ++ [10; 0]);;
  kheap_init_system;;
  say (chars "Filesystems initialization..." ++ [10; 0]);;
  on_kernel (on_files (fs_init (fat16_table im) (fat32_table im))).

Definition boot_devices : cmd system unit :=
  say (chars "Disk initialization..." ++ [10; 0]);;
  disk_init_system;;
  say (chars "IDT initialization..." ++ [10; 0]);;
  on_idt (idt_init (interrupt_pointer_table im) (isr80h_wrapper im) (idt_handle_exception_generic im) (idt_clock im));;
  say (lit "TSS initialization");;
  modifyS (fun s => set_tables (gdt_real s) (mk_tss 0x600000 KERNEL_DATA_SELECTOR) s);;
  say (chars "Paging initialization..." ++ [10; 0]);;
  chunk ← on_kernel (Process.on_sched (on_paging (paging_new_4gb USER_PAGE)));
  modifyS (set_chunk chunk);;
  on_kernel (Process.on_sched (on_paging (paging_switch chunk)));;
  say (chars "ISR initialization..." ++ [10; 0]);;
  on_idt isr80h_register_commands;;
  say (chars "Keyboard initialization..." ++ [10; 0]);;
  keyboard_init.

(** Only a null descriptor is an error here; [fopen] returns negative ones. *)
Definition load_config : cmd system unit :=
  fd ← on_kernel (on_files (fopen drivers (lit "0:/sys/config/config.dat") (lit "rw")));
  modifyS (fun s => set_config fd (SOS_config s) (prog_to_load s) s);;
  if fd =? 0 then liftO Panic
  else
    '(_, bs) ← on_kernel (on_files (fread drivers fd sizeof_config));
    modifyS (fun s => set_config fd (bs ++ drop (length bs) (SOS_config s)) (prog_to_load s) s);;
    s ← getS;
    r ← liftO (memcmp (SOS_config s) config_magic 4);
    if negb (r =? 0) then
      p ← liftO (strcpy (prog_to_load s) (lit "0:/sys/bin/new_usr"));
      modifyS (fun s => set_config fd (SOS_config s) p s)
    else mret tt.

Definition start_first_program : cmd system resumption :=
  s ← getS;
  '(res, process) ← on_kernel (process_load_switch drivers (prog_to_load s) 0);
  if negb (res =? 0) then liftO Panic
  else
    match process with
    | None => liftO Oob
    | Some p =>
        on_kernel (update_proc p (set_priv true));;
        on_kernel (Process.on_sched task_run_first_ever_task)
    end.

Definition kernel_main : cmd system resumption :=
  boot_tables;;
  boot_devices;;
  say (chars "Loading configurations..." ++ [10; 0]);;
  load_config;;
  on_clock (cmos_read_RTC (clock_fuel im) (clock_wait im) (century_junk im));;
  start_first_program.
End kernel.

(** ** The first stage *)
Definition BOOT_TEXT : list Z :=
  (chars "GDT initialization..." ++ [10]) ++ (chars "Heap initialization..." ++ [10]) ++
  (chars "Filesystems initialization..." ++ [10]).

Section boot.
Context {F : Type} (drivers : gmap Z (filesystem_ops (fsst kmem F))).
Context {D : Type} `{Ports D} (dev_of : F -> D) (with_dev : D -> F -> F) (im : image).
Implicit Types (s : system (F := F)) (k : kst kmem F).

Lemma on_kernel_spec {A} (c : cmd (kst kmem F) A) s k a k' :
  c k = Ret (a, k') -> on_kernel c (set_kernel k s) = Ret (a, set_kernel k' s).
Proof. intros E. unfold on_kernel. cbn [kernel set_kernel]. by rewrite E. Qed.

Lemma say_spec s k sc b str :
  Forall text_char str -> Z.of_nat (length str) < 2147483648 -> video_ok (fst sc) -> (snd sc < 2000)%nat -> fits sc str = true ->
  say (str ++ [0]) (set_kernel (set_terminal (term_of sc b) k) s) =
    Ret (tt, set_kernel (set_terminal (term_of (foldl screen_step sc str) b) k) s).
Proof. intros Hs Hl Hv Hp Hf. apply on_kernel_spec. by apply (draws_print k str []). Qed.

Lemma initialize_spec v r c b :
  video_ok v -> terminal_initialize (mk_term v r c b) = Ret (tt, term_of (blank_page, 0%nat) b).
Proof.
  intros Hv. unfold terminal_initialize. rewrite bind_modifyS.
  change (set_col 0 (set_row 0 (mk_term v r c b))) with (term_of (v, 0%nat) b).
  by rewrite (clrscr_colours v 0 b 15 Hv) by lia.
Qed.

Lemma kernel_gdt_ok tss : 0 <= tss < 4294967296 -> Forall Gdt.seg_ok (kernel_gdt tss sizeof_tss).
Proof.
  intros Ht. unfold kernel_gdt, sizeof_tss. repeat constructor; cbn; try lia; first [left; lia | right; reflexivity].
Qed.

(** The tables of the file systems, after the start. *)
Lemma fs_insert_spec (v : vfs kmem F) f i :
  first_null (filesystems v) 0 = Some i -> 0 <= i < Z.of_nat (length (filesystems v)) ->
  fs_insert_filesystem f v =
    Ret (tt, mk_vfs (vst v) (<[Z.to_nat i := f]> (filesystems v)) (file_descriptors v) (descs v) (disks v)).
Proof.
  intros Hi Hl. unfold fs_insert_filesystem. rewrite bind_getS. unfold fs_get_free_filesystem. rewrite Hi.
  rewrite store_Ret by done. done.
Qed.

Lemma fs_init_spec (v : vfs kmem F) f16 f32 :
  f16 <> 0 -> fs_init f16 f32 v = Ret (tt, mk_vfs (vst v) (f16 :: f32 :: replicate 10 0) (replicate 512 0) (descs v) (disks v)).
Proof.
  intros Hf. unfold fs_init, fs_load. rewrite !bind_modifyS. cbn [set_fds vst file_descriptors descs disks].
  step (fs_insert_spec (mk_vfs (vst v) (replicate 12 0) (replicate 512 0) (descs v) (disks v)) f16 0 eq_refl ltac:(cbn; lia)).
  cbn [vst filesystems file_descriptors descs disks]. change (<[Z.to_nat 0:=f16]> (replicate 12 0)) with (f16 :: replicate 11 0).
  rewrite (fs_insert_spec _ f32 1); [done| |cbn; lia].
  cbn. by rewrite (proj2 (Z.eqb_neq f16 0)).
Qed.

(** C17: the first stage of the kernel.  On any machine, whatever is on the screen
    and in memory, it returns with a page that shows its three messages, a table
    of segments that the processor decodes to the six of the source, an empty
    heap of 409600 blocks, the two file systems and no open file. *)
Theorem boot_tables_correct s :
  video_ok (video_mem (terminal (kernel s))) -> 0 <= addr_tss im < 4294967296 ->
  Z.of_nat (length (table_junk im)) = 409600 -> fat16_table im <> 0 ->
  exists s', boot_tables im s = Ret (tt, s') /\
    terminal (kernel s') = term_of (foldl screen_step (blank_page, 0%nat) BOOT_TEXT) (beeps (terminal (kernel s))) /\
    (forall i e, kernel_gdt (addr_tss im) sizeof_tss !! i = Some e -> decode_seg (entry_bytes (gdt_real s') i) = Some e) /\
    heap_inv (kernel_heap (heap_of (kernel s'))) ∅ /\ total (table (kernel_heap (heap_of (kernel s')))) = 409600 /\
    filesystems (kfiles (kernel s')) = fat16_table im :: fat32_table im :: replicate 10 0 /\
    fd_table (kfiles (kernel s')) ∅.
Proof.
  intros Hv Htss Hjunk Hf. unfold boot_tables, BOOT_TEXT. set (b := beeps (terminal (kernel s))).
  destruct (gdt_encode_decode (replicate 48 0) _ (kernel_gdt_ok _ Htss) ltac:(simpl; lia)) as [(g & Eg & _ & _ & Hg) _].
  destruct (kheap_init_ok (heap_junk im) (table_junk im) Hjunk) as (h & Eh & Hinv & _ & Htot & _).
  assert (E1 : on_kernel (on_terminal terminal_initialize) s = Ret (tt, set_kernel (set_terminal (term_of (blank_page, 0%nat) b) (kernel s)) s)).
  { unfold on_kernel, on_terminal. destruct (terminal (kernel s)) as [v r c n] eqn:Et. cbn [video_mem] in Hv.
    by rewrite (initialize_spec v r c n Hv). }
  step E1. assert (Happ : forall sc (a l r : list Z),
    foldl screen_step sc (a ++ l ++ r) = foldl screen_step (foldl screen_step (foldl screen_step sc a) l) r)
    by (intros; by rewrite !foldl_app). rewrite Happ.
  assert (Hmsg : forall sc str, video_ok (fst sc) -> (snd sc < 2000)%nat -> forallb text_char_b str && fits sc str && (length str <? 100)%nat = true ->
    (forall s k, say (str ++ [0]) (set_kernel (set_terminal (term_of sc b) k) s) =
      Ret (tt, set_kernel (set_terminal (term_of (foldl screen_step sc str) b) k) s)) /\
    video_ok (fst (foldl screen_step sc str)) /\ (snd (foldl screen_step sc str) < 2000)%nat).
  { intros sc str Hsc Hp Hb. rewrite !andb_true_iff in Hb. destruct Hb as [[Ht Hfit] Hl]. apply Nat.ltb_lt in Hl.
    apply text_chars in Ht. split; [intros; apply say_spec; lia || done|by apply fold_screen_ok]. }
  destruct (Hmsg (blank_page, 0%nat) (chars "GDT initialization..." ++ [10]) blank_page_ok ltac:(simpl; lia)) as (S1 & V1 & P1);
    [vm_compute; reflexivity|].
  destruct (Hmsg _ (chars "Heap initialization..." ++ [10]) V1 P1) as (S2 & V2 & P2); [vm_compute; reflexivity|].
  destruct (Hmsg _ (chars "Filesystems initialization..." ++ [10]) V2 P2) as (S3 & _); [vm_compute; reflexivity|].
  revert S1 S2 S3. set (sc1 := foldl screen_step _ (chars "GDT initialization..." ++ [10])).
  set (sc2 := foldl screen_step sc1 _). set (sc3 := foldl screen_step sc2 _). clearbody sc1 sc2 sc3. intros S1 S2 S3.
  step (S1 s (kernel s)). change (Z.to_nat (8 * SERPAEOS_TOTAL_GDT_SEGMENTS)) with 48%nat.
  change SERPAEOS_TOTAL_GDT_SEGMENTS with (Z.of_nat (length (kernel_gdt (addr_tss im) sizeof_tss))).
  set (s1 := set_tables g (tss s) s).
  assert (E2 : forall t, (g ← liftO (gdt_structured_to_gdt (replicate 48 0) (kernel_gdt (addr_tss im) sizeof_tss)
       (Z.of_nat (length (kernel_gdt (addr_tss im) sizeof_tss)))); modifyS (fun s => set_tables g (tss s) s))
      (set_kernel (set_terminal t (kernel s)) s) = Ret (tt, set_kernel (set_terminal t (kernel s)) s1)).
  { intros t. by rewrite (bind_liftO _ _ _ _ Eg). }
  step (E2 (term_of sc1 b)). step (S2 s1 (kernel s)).
  set (k2 := put_heap (mk_kmem h (Kheap.mem (heap_of (kernel s)))) (kernel s)).
  assert (E3 : forall t, kheap_init_system im (set_kernel (set_terminal t (kernel s)) s1) = Ret (tt, set_kernel (set_terminal t k2) s1)).
  { intros t. unfold kheap_init_system. rewrite Eh. done. }
  step (E3 (term_of sc2 b)). step (S3 s1 k2).
  pose proof (fs_init_spec (files_with (heap_of k2) (kfiles (set_terminal (term_of sc3 b) k2))) (fat16_table im) (fat32_table im) Hf) as E4.
  eexists. split; [apply on_kernel_spec; unfold on_files; change (heap_of (set_terminal (term_of sc3 b) k2)) with (heap_of k2);
    rewrite E4; reflexivity|].
  cbn [kernel set_kernel terminal]. split; [done|]. split; [exact Hg|]. cbn [heap_of].
  split; [exact Hinv|]. split; [exact Htot|]. split; [done|].
  split.
  - exists ∅. exact Hinv.
  - apply length_replicate.
  - intros fd d Hd. rewrite lookup_empty in Hd. discriminate.
  - intros i p Hp. left. apply lookup_replicate in Hp as [-> _]. split; [done|apply lookup_empty].
Qed.

(** ** The configuration *)
Definition SHELL : list Z := chars "0:/sys/bin/shell.elf".
Definition NEW_USER : list Z := chars "0:/sys/bin/new_usr".
Definition prog_to_load_start : list Z := SHELL ++ replicate 5 0.

Lemma config_stage s fd res bs k1 k2 :
  on_files (fopen drivers (lit "0:/sys/config/config.dat") (lit "rw")) (kernel s) = Ret (fd, k1) -> fd <> 0 ->
  on_files (fread drivers fd sizeof_config) k1 = Ret ((res, bs), k2) -> (length bs <= 60)%nat ->
  length (SOS_config s) = 60%nat -> prog_to_load s = prog_to_load_start ->
  let config := bs ++ drop (length bs) (SOS_config s) in
  exists s', load_config drivers s = Ret (tt, s') /\ kernel s' = k2 /\ SOS_config s' = config /\
    cstr (prog_to_load s') (if bool_decide (take 4 config = config_magic) then SHELL else NEW_USER).
Proof.
  intros Eo Hfd Er Hbs Hc Hp config. unfold load_config.
  assert (E1 : on_kernel (on_files (fopen drivers (lit "0:/sys/config/config.dat") (lit "rw"))) s = Ret (fd, set_kernel k1 s)).
  { unfold on_kernel. by rewrite Eo. }
  step E1. rewrite bind_modifyS, (proj2 (Z.eqb_neq fd 0)) by done.
  step (on_kernel_spec _ (set_config fd (SOS_config s) (prog_to_load s) s) k1 _ _ Er). rewrite bind_modifyS, bind_getS.
  cbn [SOS_config set_config set_kernel prog_to_load]. fold config.
  assert (Hl : length config = 60%nat) by (unfold config; rewrite length_app, length_drop; lia).
  assert (Hm : exists r, memcmp config config_magic 4 = Ret r /\ (r = 0 <-> take 4 config = config_magic)).
  { pose proof (memcmp_zero config config_magic 4 ltac:(simpl; lia) ltac:(simpl; lia)) as Hz. change (take (Z.to_nat 4) config_magic) with config_magic in Hz.
    change (Z.to_nat 4) with 4%nat in Hz.
    destruct config as [|c0 [|c1 [|c2 [|c3 config']]]]; try discriminate.
    unfold memcmp in *. change (Z.to_nat 4) with 4%nat in *. cbn [memcmp_loop config_magic] in *.
    repeat (match goal with |- context [if negb ?b then _ else _] => destruct b end; cbn [negb] in *;
      [|eexists; split; [reflexivity|]; rewrite <- Hz; split; intros ?; congruence]).
    exists 0. split; [done|]. by rewrite <- Hz. }
  destruct Hm as (r & Er2 & Hr). rewrite (bind_liftO _ _ _ _ Er2). destruct (r =? 0) eqn:E0; breflect; cbn [negb].
  - eexists. split; [reflexivity|]. rewrite bool_decide_eq_true_2 by tauto. split; [done|]. split; [done|].
    cbn [prog_to_load set_config set_kernel]. rewrite Hp. split; [|by exists (replicate 4 0)].
    apply (bool_decide_unpack _). vm_compute. exact I.
  - rewrite Hp. change (strcpy prog_to_load_start (lit "0:/sys/bin/new_usr")) with (Ret (NEW_USER ++ [0; 102; 0; 0; 0; 0; 0])).
    rewrite (bind_liftO _ _ _ _ eq_refl).
    eexists. split; [reflexivity|]. rewrite bool_decide_eq_false_2 by tauto. split; [done|]. split; [done|].
    cbn [prog_to_load set_config set_kernel]. split; [|by eexists]. apply (bool_decide_unpack _). vm_compute. exact I.
Qed.

(** C18: which program is started first.  When the configuration can be read and
    begins with the magic number it is the shell, otherwise the program for new
    users.  A configuration that cannot be opened does not stop the kernel,
    since only the descriptor 0 is taken for an error: the negative descriptor
    is read, nothing arrives, and the program for new users is started. *)
Theorem first_program_chosen s fd k1 :
  on_files (fopen drivers (lit "0:/sys/config/config.dat") (lit "rw")) (kernel s) = Ret (fd, k1) -> fd <> 0 ->
  length (SOS_config s) = 60%nat -> prog_to_load s = prog_to_load_start ->
  (forall res bs k2, on_files (fread drivers fd sizeof_config) k1 = Ret ((res, bs), k2) -> (length bs <= 60)%nat ->
    exists s', load_config drivers s = Ret (tt, s') /\ kernel s' = k2 /\
      cstr (prog_to_load s') (if bool_decide (take 4 (bs ++ drop (length bs) (SOS_config s)) = config_magic) then SHELL else NEW_USER)) /\
  (fd < 0 -> SOS_config s = replicate 60 0 ->
    exists s', load_config drivers s = Ret (tt, s') /\ cstr (prog_to_load s') NEW_USER).
Proof.
  intros Eo Hfd Hc Hp. split.
  - intros res bs k2 Er Hbs. destruct (config_stage s fd res bs k1 k2 Eo Hfd Er Hbs Hc Hp) as (s' & E & Hk & _ & Hprog).
    by exists s'.
  - intros Hneg Hz. assert (exists k2, on_files (fread drivers fd sizeof_config) k1 = Ret ((- EINVARG, []), k2)) as [k2 Er].
    { unfold on_files, fread. rewrite (proj2 (Z.ltb_lt fd 1)), orb_true_r by lia. by eexists. }
    destruct (config_stage s fd (- EINVARG) [] k1 k2 Eo Hfd Er ltac:(simpl; lia) Hc Hp) as (s' & E & _ & _ & Hprog).
    exists s'. split; [done|]. rewrite Hz in Hprog. exact Hprog.
Qed.

(** The switch to the first process stores the screen of a process at the null
    pointer: there is no current process yet. *)
Lemma first_switch_null s p k :
  process_load drivers (prog_to_load s) 0 (kernel s) = Ret ((0, Some p), k) -> current_process k = 0 -> pobjs k !! 0 = None ->
  start_first_program drivers s = Oob.
Proof.
  intros E Hc Hn. unfold start_first_program. rewrite bind_getS.
  assert (E2 : on_kernel (process_load_switch drivers (prog_to_load s) 0) s = Oob).
  { unfold on_kernel, process_load_switch. unfold mbind at 2, cmd_bind at 1. rewrite E. cbn [Z.eqb].
    unfold process_switch, process_save_video, load_proc, obj, mbind, cmd_bind, getS. cbn. by rewrite Hc, Hn. }
  unfold mbind, cmd_bind. by rewrite E2.
Qed.
End boot.

(** A machine without disks. *)
Definition bare_kernel : kst kmem unit :=
  mk_kst (mk_tstate (mk_pstate demo_kmem ∅ 0) ∅ ∅ 0 0 0)
    (mk_vfs (mk_pp demo_kmem ∅ ∅ ∅, tt) (replicate 12 0) (replicate 512 0) ∅ (replicate 13 disk_zero))
    ∅ ∅ ∅ ∅ (replicate 50 0) 0 (mk_term (replicate 2000 0x0741) 7 3 0) zero_screen false.
Definition demo_image : image :=
  mk_image 0x120000 [] 0 0 0 (fun i => i) 0 0x300000 0x301000 demo_heap (replicate (Z.to_nat 409600) 0xFF) [] 0 0 0 0.
Definition bare_system : system (F := unit) :=
  mk_system bare_kernel [] (mk_tss 0 0) [] [] [] (mk_chunk 0 0) [] (clock_init tt) 0 (replicate 60 0) prog_to_load_start.

Lemma boot_tables_correct_witness :
  exists s', boot_tables demo_image bare_system = Ret (tt, s') /\
    terminal (kernel s') = term_of (foldl screen_step (blank_page, 0%nat) BOOT_TEXT) 0 /\
    filesystems (kfiles (kernel s')) = 0x300000 :: 0x301000 :: replicate 10 0.
Proof.
  destruct (boot_tables_correct demo_image bare_system) as (s' & E & Ht & _ & _ & _ & Hf & _).
  - split; [reflexivity|]. apply Forall_replicate. lia.
  - simpl; lia.
  - unfold demo_image, table_junk. rewrite length_replicate, Z2Nat.id by lia. reflexivity.
  - discriminate.
  - exists s'. split; [exact E|]. split; [exact Ht|exact Hf].
Defined.

(** The file system finds no disk: the descriptor is -1. *)
Lemma returns_value {S} (o : outcome (Z * S)) v :
  match o with Ret (a, _) => a =? v | _ => false end = true -> exists k, o = Ret (v, k).
Proof. destruct o as [[a k]| | |]; try discriminate. intros E%Z.eqb_eq. subst. by exists k. Qed.

Lemma bare_no_config :
  exists k, on_files (fopen ∅ (lit "0:/sys/config/config.dat") (lit "rw")) (kernel bare_system) = Ret (-1, k).
Proof. apply returns_value. vm_compute. reflexivity. Qed.

Lemma first_program_chosen_witness :
  exists s', load_config ∅ bare_system = Ret (tt, s') /\ cstr (prog_to_load s') NEW_USER.
Proof.
  destruct bare_no_config as [k E].
  destruct (first_program_chosen ∅ bare_system (-1) k) as [_ Hnew].
  - exact E.
  - discriminate.
  - reflexivity.
  - reflexivity.
  - apply Hnew; [lia|reflexivity].
Defined.
